(* ===== verification/_CoqProject ===== *)
-Q . S2P
Prelude.v
Weather.v
Mem.v
Heap.v
Timer.v
Sfud.v
Norflash.v
Posix.v
Float.v
Json.v
DfsCfg.v
Common.v
RingBuffer.v
Client.v
Microtar.v
Untar.v
Paint.v
PaintDraw.v
Epd.v
Display.v
Device.v
Gzp.v
Sensors.v
Pm.v
Ctime.v
Rtc.v
Alarm.v
Beep.v
Btn.v
Ui.v
Sched.v
Ipc.v
Calm.v
Inherit.v
Kernel.v
Mutexes.v
Runs.v
Ledger.v
Faults.v
