(* ===== verification/Prelude.v ===== *)
(** * Verification of the [ele_ds] firmware (root file)

    [ele_ds] is the firmware of a small e-paper desk clock: an STM32F4 with RT-Thread, a 2.7 inch
    e-paper panel driven through LVGL, a serial flash with a file system, sensors, a real-time
    clock, buttons, a buzzer, and a connection to a server that sends configuration, weather,
    memos and update archives.  This library models the firmware's own code under
    [src/applications] and [src/components], and the parts of RT-Thread, cJSON and the buzzer
    package that its behaviour rests on, and proves what that code does: mostly that it is
    right, and where it is not, exactly how.

    ** The parts and their files

    - [Prelude]: faults and results ([res]), the state monad [M] with its loops and its logic
      ([wp], [wlp]), integers of [w] bits, arrays ([aget], [aset], [blit], [slice]), C strings,
      RT-Thread's result codes; tactics and hint databases.
    - [Mem], [Heap]: [mem.c] and the memory calls of [kservice.c]: the allocator on the bytes of
      its pool ([Mem]), and what its users rely on ([Heap]).
    - [Timer]: [timer.c] and the tick of [clock.c].
    - [Sched], [Ipc]: [scheduler_up.c], [scheduler_comm.c], [thread.c] and the semaphores and
      mutexes of [ipc.c], as a machine whose steps are calls and interrupts; [Calm], [Inherit],
      [Kernel], [Mutexes]: what its parts keep; [Runs], [Ledger], [Faults]: what holds in every
      run, and the runs that go wrong.
    - [Sfud], [Norflash]: the flash driver [sfud.c] and [sfud_sfdp.c] with the block device
      [spi_flash_sfud.c]: the code ([Sfud]), and the store that it makes of a chip ([Norflash]).
    - [Posix]: the file calls [open] .. [mkdir] over a store of files, directories and
      descriptors.
    - [Float]: binary32 and binary64 over the Standard Library's [SpecFloat], [sprintf] of
      integers and floats, [strtod].
    - [Weather]: [weather.c], the code table, and the icon choice of [lv_port_indev.c].
    - [Json]: [cJSON.c]: trees, [cJSON_Parse], [cJSON_Print].
    - [DfsCfg]: [dfscfg.c]: the configuration record, its JSON in both directions, its file.
    - [Common]: [common.c]: CRC-32, CRC of a file, JSON detection, recursive [mkdir].
    - [RingBuffer]: [ringbuffer.c] of RT-Thread.
    - [Client]: [client.c]: the receive state machine of the server connection, its threads.
    - [Microtar], [Untar]: [microtar.c] and [untar] of [common.c].
    - [Paint], [PaintDraw]: [GUI_Paint.c]: frame buffer, addressing, shapes, characters.
    - [Epd]: [EPD_2in7_V2.c] and [DEV_Config.c]: the commands to the panel, as a trace of pins
      and bytes.
    - [Display]: [lv_port_disp.c]: the flush callback, over [Paint] and [Epd].
    - [Device], [Gzp], [Sensors]: [core/device.c], the driver [gzp6816d_driver.c], the framework
      [sensor/v1/sensor.c], and over them [ele_ds.c] and the main loop of [main.c].
    - [Pm]: [pm.c] of RT-Thread and [ele_ds_pm.c].
    - [Ctime], [Rtc], [Alarm], [Beep]: [ctime.c], [rtc.c] with [drv_rtc.c], [alarm.c] with
      [ele_ds_alarm.c] and the sampling alarm of [ele_ds_pm.c], [beep.c].
    - [Btn], [Ui]: [btn.c] and the main page of [lv_port_indev.c].

    A definition has the name of the C function, type or constant it translates where that is
    possible; a part of a function that is a definition of its own (a loop, a branch) says so
    in its comment.  A function that changes memory is a computation in [M] over a record of
    the variables it can reach; a function that only computes is in [res].  An array keeps its
    size, so that an access outside is a [fault] and not a default; so are a null pointer, a
    failed assertion, and a call of a library function outside its documented domain.
    Integers are [Z], wrapped where C wraps ([u8] .. [u32], [i8] .. [i32]).

    ** How the parts interact

    The server's bytes go from [Client] through [RingBuffer] into the configuration
    ([DfsCfg], over [Json] and [Posix]) and into an update archive that [Untar] unpacks (over
    [Microtar] and [Posix]) after a check by [Common].  The page of [Ui] shows the configuration
    of [DfsCfg] with the icons of [Weather], the values of [Sensors] and the time of [Rtc]
    through [Ctime]; LVGL hands pictures to [Display], which draws them with [Paint] and sends
    them with [Epd].  [Sensors] runs [Gzp] behind [Device].  [Alarm] runs over [Rtc] and [Ctime]
    and rings through [Beep]; [Pm] sends the processor to sleep between samples.

    The interfaces are arguments: the drivers of [Device] and [Sensors] are records of operations
    ([rt_device_ops], [rt_sensor_ops]) and the theorems of [Device] hold for every driver; the
    callbacks of [Alarm] and [Timer] are a function into their monad; hardware is a record of what
    it answers ([i2c], [pass_env], the schedule of the busy pin).  The flash chip is a class,
    [NorFlash], of the promises of its data sheet: the theorems of [Norflash] are proved against
    it, and the two chips at the end of the file (64 KiB and 32 MiB) are instances.

    ** What the theorems show

    - Data: cJSON's printer and parser are inverse and the parser is total; the configuration
      survives its JSON, but the file the program writes cannot be read back; tar headers and
      archives round-trip; CRC-32 equals the bitwise reference; a file's CRC is its contents'.
    - Containers: the ring buffer refines a bounded queue for every sequence of calls, from eight
      bytes on; a smaller pool is overrun.
    - Memory: in every heap that legal calls reach, the block headers on the bytes of the pool
      are a partition, the allocator refines a map from addresses to blocks, gives out the first
      free block that fits and loses nothing; a double release is caught, and the sizes whose
      rounding wraps are characterised.
    - Timers: the service refines a queue of timers with remaining ticks, whatever the 32-bit
      clock; each timer rings exactly when it should; the period 0 hangs the tick interrupt.
    - Threads: every sequence of calls and interrupts that keeps to a lock order runs without a
      fault, always in the most urgent ready thread; mutexes exclude, by the results of the calls
      alone; a chain of waiting threads ends at one that is at least as urgent; no wake-up is
      lost.  A thread that ends keeps its mutexes for ever, and a borrowed priority can outlive the
      loan; the other ways to lose a mutex are evaluated.
    - Flash: the probe finds every chip that describes itself and is programmed by pages, and from
      then on the block device is an array of sectors for every sequence of calls; the bus is
      given back after every call on every chip; byte-programmed chips are never written and
      ranges that wrap are accepted.
    - Protocol: the receive machine ends on every input and stores a complete update exactly; the
      inputs that break it (stale bytes, an unannounced length) are characterised.
    - Archives: extraction writes exactly the archive's files and makes exactly the directories
      they need; the sizes on which it stops
      advancing or spins for ever are characterised.
    - Pixels: addressing is right in every rotation, mirroring and scale; shapes stay in the
      buffer; a flush shows LVGL's picture on the panel; the driver sends the documented frames.
    - Time: [gmtime_r] agrees with a count of days, [mktime] and [localtime_r] are inverse, the
      clock chip keeps what it is given, and the time set by the user is the time the page
      shows; the carries that [timegm] gets wrong are characterised.
    - Alarms and power: an update rings the daily alarms that are due and arms the next one (but
      one that is due this very second can be lost), the one-shot
      alarm of the sampling rings once; every reachable state of the power manager is safe and
      sleeps in the mode the requests ask for; the wake-up from deep sleep needs two interrupts.
    - Devices: the table of devices is consistent in every reachable state; the main loop runs
      for ever whatever the sensors do, leaves the pressure sensor closed after every pass, and
      stores a measurement for a command that was refused.
    - Errors: each theorem about wrong behaviour is listed as a finding with its source line.

    ** Bounds and fuel

    Loops over data are structural.  The loops of C that are not are given fuel: [year_loop] the
    quotient of the days by 365 (a year has at least 365), [mday_loop] twice the number of days,
    [reverse_loop] the length, [parse_value] the length of the text (every step consumes a
    byte, [json_parse_total]), [parse_loop] the bytes left ([parse_recv_terminates]), [line_loop]
    the sum of the two sides, [wakeup_loop] the length of the list, the searches of [Mem] the
    size of the heap, [update_loop] of the mutexes 34 turns for every thread and mutex and
    [resume_loop] and [wake_loop] the length of the list ([kernel_runs]), the loops of [sfud_erase] and [sfud_write] one turn more than the size
    (each makes it smaller, [norflash_refines]); the turns of [rt_timer_check] are bounded by an argument that the theorems
    ask to exceed the number of running timers; the fuel of [untar_loop] is an
    argument, and [untar_extracts] says how much is enough.  Running out of it is the fault [Spin]; the theorems show that it does not
    happen, or that the C loop does not end either ([untar_spins], [busy_never_released]).
    Time is bounded by the 32 bits of the days in [gmtime_r] and by the years 2000 to 2099 that
    the clock chip's registers can hold.

    ** Not modelled

    LVGL, the font tables, the vendor's hardware abstraction and the rest of the RT-Thread
    kernel are third-party; what the firmware needs of them is an argument or a stand-in that
    says so. Of the kernel that is: signals, the mailboxes, events and message queues, which
    the firmware does not use itself, the idle thread and the port. In [Ipc] an interrupt comes
    between the calls and their parts, not inside of them, the timer of a thread is one that
    rings at any time (the [Timer] service is not run below it), and to detach and delete are
    outside of the theorems on all runs. The heap, the timers and the flash are modelled
    for one caller at a time: of their locks, only the depth of the flash's. The components
    above them do not run over [Mem]: allocation is in their models a step that succeeds, or an
    argument. Packages that the build names but the repository does not contain (the button
    scanner, the temperature sensor, the AT device, LVGL's port of the file system) cannot be
    read and are arguments. The threads of the firmware are modelled where their interleaving
    matters ([Client], [Beep], [Alarm]) as sequences of steps of their own, not as threads of
    [Ipc]; [devices_init], which calls the components one after the other, the dump commands,
    which only print, and the layout and style calls of the page are left out, as is the
    wireless module behind its AT device. What is left of the firmware's own code calls the
    modelled parts in turn, or prints. *)

From Stdlib Require Export ZArith Lia.
From stdpp Require Export base tactics option sets list numbers strings pretty.

#[export] Set Default Goal Selector "!".
Open Scope Z_scope.

(** ** Undefined behaviour and results

    A C fragment either produces a value or runs into behaviour the code gives no
    meaning to; [fault] says which. *)

Inductive fault :=
  | OutOfBounds   (* access outside an array or object *)
  | NullDeref     (* dereference of a null pointer *)
  | Uninit        (* use of an uninitialised value *)
  | AssertFail    (* RT_ASSERT fired *)
  | Unspecified   (* a library call outside its documented domain *)
  | Spin.         (* a wait or loop that does not end on the given schedule *)

#[export] Instance fault_eq_dec : EqDecision fault.
Proof. solve_decision. Defined.

Inductive res (A : Type) :=
  | Ok (a : A)
  | Err (f : fault).
Arguments Ok {A} a.
Arguments Err {A} f.

#[export] Instance res_eq_dec {A} `{EqDecision A} : EqDecision (res A).
Proof. solve_decision. Defined.

#[export] Instance res_ret : MRet res := fun A a => Ok a.
#[export] Instance res_bind : MBind res := fun A B k m =>
  match m with Ok a => k a | Err f => Err f end.
#[export] Instance res_fmap : FMap res := fun A B g m =>
  match m with Ok a => Ok (g a) | Err f => Err f end.

Definition of_option {A} (f : fault) (o : option A) : res A :=
  match o with Some a => Ok a | None => Err f end.

Definition is_ok {A} (m : res A) : bool := match m with Ok _ => true | Err _ => false end.

Lemma res_bind_Ok {A B} (m : res A) (k : A -> res B) b :
  m ≫= k = Ok b <-> exists a, m = Ok a /\ k a = Ok b.
Proof. destruct m as [a|f]; simpl; naive_solver. Qed.

Lemma ok_bind {A B} (a : A) (k : A -> res B) : Ok a ≫= k = k a.
Proof. done. Qed.

Lemma err_bind {A B} f (k : A -> res B) : Err f ≫= k = Err f.
Proof. done. Qed.

(** The results of [f] along a list. *)
Fixpoint rmap {A B} (f : A -> res B) (l : list A) : res (list B) :=
  match l with
  | [] => Ok []
  | x :: l => match f x with
              | Ok y => (fun ys => y :: ys) <$> rmap f l
              | Err e => Err e
              end
  end.

Lemma rmap_ok {A B} (f : A -> res B) l :
  (forall x, x ∈ l -> exists y, f x = Ok y) -> exists l', rmap f l = Ok l'.
Proof.
  induction l as [|x l IH]; intros H; [by eexists|].
  destruct (H x) as [y Hy]; [set_solver|]. destruct IH as [l' Hl']; [set_solver|].
  exists (y :: l'). simpl. by rewrite Hy, Hl'.
Qed.

(** ** Stateful code: a state monad over [res] *)

Definition M (S A : Type) : Type := S -> res (A * S).

#[export] Instance M_ret {S} : MRet (M S) := fun A a s => Ok (a, s).
#[export] Instance M_bind {S} : MBind (M S) := fun A B k m s =>
  match m s with Ok (a, s') => k a s' | Err f => Err f end.

Definition get {S} : M S S := fun s => Ok (s, s).
Definition put {S} (s : S) : M S unit := fun _ => Ok (tt, s).
Definition gets {S A} (g : S -> A) : M S A := fun s => Ok (g s, s).
Definition modify {S} (g : S -> S) : M S unit := fun s => Ok (tt, g s).
Definition throw {S A} (f : fault) : M S A := fun _ => Err f.
Definition lift {S A} (m : res A) : M S A := fun s =>
  match m with Ok a => Ok (a, s) | Err f => Err f end.

(** [for (x in xs) body] *)
Fixpoint mfor {S X} (xs : list X) (body : X -> M S unit) : M S unit :=
  match xs with
  | [] => mret tt
  | x :: xs => body x ≫= fun _ => mfor xs body
  end.

(** A loop whose body returns [false] to [break]. *)
Fixpoint mforb {S X} (xs : list X) (body : X -> M S bool) : M S unit :=
  match xs with
  | [] => mret tt
  | x :: xs => body x ≫= fun go : bool => if go then mforb xs body else mret tt
  end.

(** A loop that carries a local variable. *)
Fixpoint mfold {S X A} (xs : list X) (a : A) (body : A -> X -> M S A) : M S A :=
  match xs with
  | [] => mret a
  | x :: xs => body a x ≫= fun a : A => mfold xs a body
  end.

Notation "m ;;; k" := (m ≫= fun _ => k) (at level 100, right associativity).

(** Total correctness: the code ends without a fault and the postcondition holds. *)
Definition wp {S A} (m : M S A) (Q : A -> S -> Prop) (s : S) : Prop :=
  match m s with Ok (a, s') => Q a s' | Err _ => False end.

(** Partial correctness: if the code ends without a fault the postcondition holds. *)
Definition wlp {S A} (m : M S A) (Q : A -> S -> Prop) (s : S) : Prop :=
  match m s with Ok (a, s') => Q a s' | Err _ => True end.

Section hoare.
Context {S : Type}.
Implicit Types s : S.

Lemma wp_wlp {A} (m : M S A) Q s : wp m Q s -> wlp m Q s.
Proof. unfold wp, wlp. destruct (m s) as [[]|]; naive_solver. Qed.

Lemma wp_mono {A} (m : M S A) (Q R : A -> S -> Prop) s :
  wp m Q s -> (forall a s', Q a s' -> R a s') -> wp m R s.
Proof. unfold wp. destruct (m s) as [[]|]; naive_solver. Qed.

Lemma wlp_mono {A} (m : M S A) (Q R : A -> S -> Prop) s :
  wlp m Q s -> (forall a s', Q a s' -> R a s') -> wlp m R s.
Proof. unfold wlp. destruct (m s) as [[]|]; naive_solver. Qed.

Lemma wp_ret {A} (a : A) (Q : A -> S -> Prop) s : Q a s -> wp (mret a) Q s.
Proof. done. Qed.

Lemma wp_gets {A} (g : S -> A) (Q : A -> S -> Prop) s : Q (g s) s -> wp (gets g) Q s.
Proof. done. Qed.

Lemma wp_modify g (Q : unit -> S -> Prop) s : Q tt (g s) -> wp (modify g) Q s.
Proof. done. Qed.

Lemma wlp_ret {A} (a : A) (Q : A -> S -> Prop) s : Q a s -> wlp (mret a) Q s.
Proof. done. Qed.

Lemma wp_bind {A B} (m : M S A) (k : A -> M S B) Q s :
  wp m (fun a s' => wp (k a) Q s') s -> wp (m ≫= k) Q s.
Proof. unfold wp, mbind, M_bind. destruct (m s) as [[]|]; done. Qed.

Lemma wlp_bind {A B} (m : M S A) (k : A -> M S B) Q s :
  wlp m (fun a s' => wlp (k a) Q s') s -> wlp (m ≫= k) Q s.
Proof. unfold wlp, mbind, M_bind. destruct (m s) as [[]|]; done. Qed.

Lemma wlp_lift {A} (m : res A) (Q : A -> S -> Prop) s :
  (forall a, m = Ok a -> Q a s) -> wlp (lift m) Q s.
Proof. unfold wlp, lift. destruct m; naive_solver. Qed.

Lemma wlp_throw {A} f (Q : A -> S -> Prop) s : wlp (throw f) Q s.
Proof. done. Qed.

(** Running the first part of a sequence. *)
Lemma bind_step {A B} (m : M S A) (k : A -> M S B) s a s' :
  m s = Ok (a, s') -> (m ≫= k) s = k a s'.
Proof. unfold mbind, M_bind. by intros ->. Qed.

Lemma wp_run {A} (m : M S A) Q s :
  wp m Q s <-> exists a s', m s = Ok (a, s') /\ Q a s'.
Proof. unfold wp. destruct (m s) as [[]|]; naive_solver. Qed.

(** Loop rule: the invariant speaks of the elements already treated. *)
Lemma wp_mfor {X} (I : list X -> S -> Prop) (xs : list X) (body : X -> M S unit) s :
  I [] s ->
  (forall done x rest s', xs = done ++ x :: rest -> I done s' ->
     wp (body x) (fun _ s'' => I (done ++ [x]) s'') s') ->
  wp (mfor xs body) (fun _ s' => I xs s') s.
Proof.
  intros Hi Hstep.
  cut (forall rest pre s', xs = pre ++ rest -> I pre s' ->
         wp (mfor rest body) (fun _ s'' => I xs s'') s').
  { intros H. by apply (H xs [] s). }
  induction rest as [|x rest IH]; intros pre s' Heq Hpre; simpl.
  - rewrite app_nil_r in Heq. by subst pre.
  - apply wp_bind. eapply wp_mono; [by eapply Hstep|].
    intros [] s'' Hs''. simpl. apply (IH (pre ++ [x])); [|done].
    by rewrite <- app_assoc.
Qed.

(** The same for a plain state invariant, with and without fault freedom. *)
Lemma wp_mfor_inv {X} (I : S -> Prop) (xs : list X) (body : X -> M S unit) s :
  I s -> (forall x s', x ∈ xs -> I s' -> wp (body x) (fun _ => I) s') ->
  wp (mfor xs body) (fun _ => I) s.
Proof.
  intros Hs Hb. apply (wp_mfor (fun _ => I)); [done|].
  intros pre x rest s' -> Hs'. apply Hb; [|done]. set_solver.
Qed.

Lemma wp_mforb_inv {X} (I : S -> Prop) (xs : list X) (body : X -> M S bool) s :
  I s -> (forall x s', x ∈ xs -> I s' -> wp (body x) (fun _ => I) s') ->
  wp (mforb xs body) (fun _ => I) s.
Proof.
  revert s. induction xs as [|x xs IH]; intros s Hs Hb; simpl; [done|].
  apply wp_bind. eapply wp_mono; [apply Hb; [set_solver|done]|].
  intros [] s' Hs'; [|done]. apply IH; [done|]. intros. apply Hb; [set_solver|done].
Qed.

Lemma wp_mfold_inv {X A} (I : A -> S -> Prop) (xs : list X) (a : A) body s :
  I a s -> (forall x a s', x ∈ xs -> I a s' -> wp (body a x) I s') ->
  wp (mfold xs a body) I s.
Proof.
  revert a s. induction xs as [|x xs IH]; intros a s Hs Hb; simpl; [done|].
  apply wp_bind. eapply wp_mono; [apply Hb; [set_solver|done]|].
  intros a' s' Hs'. apply IH; [done|]. intros. apply Hb; [set_solver|done].
Qed.

Lemma wlp_mfor_inv {X} (I : S -> Prop) (xs : list X) (body : X -> M S unit) s :
  I s -> (forall x s', I s' -> wlp (body x) (fun _ => I) s') ->
  wlp (mfor xs body) (fun _ => I) s.
Proof.
  intros Hs Hb. revert s Hs. induction xs as [|x xs IH]; intros s Hs; simpl; [done|].
  apply wlp_bind. eapply wlp_mono; [by apply Hb|]. intros [] s' Hs'. by apply IH.
Qed.

Lemma mfor_app {X} (xs ys : list X) (body : X -> M S unit) s :
  mfor (xs ++ ys) body s = (mfor xs body ;;; mfor ys body) s.
Proof.
  revert s. induction xs as [|x xs IH]; intros s; [done|].
  cbn -[mbind]. unfold mbind, M_bind at 1 3. unfold mbind, M_bind in IH.
  unfold M_bind. destruct (body x s) as [[[] s']|]; [|done]. apply IH.
Qed.
End hoare.

(** ** Machine integers *)

Definition wrap (w z : Z) : Z := z mod 2 ^ w.
Definition swrap (w z : Z) : Z := (z + 2 ^ (w - 1)) mod 2 ^ w - 2 ^ (w - 1).

Abbreviation u8 := (wrap 8).
Abbreviation u16 := (wrap 16).
Abbreviation u32 := (wrap 32).
Abbreviation i8 := (swrap 8).
Abbreviation i16 := (swrap 16).
Abbreviation i32 := (swrap 32).

Definition fits (w z : Z) : Prop := 0 <= z < 2 ^ w.
#[export] Instance fits_dec w z : Decision (fits w z).
Proof. unfold fits. apply _. Defined.

Declare Scope cint_scope.
Delimit Scope cint_scope with cint.
Notation "x +[ w ] y" := (wrap w (x + y)) (at level 50, left associativity) : cint_scope.
Notation "x -[ w ] y" := (wrap w (x - y)) (at level 50, left associativity) : cint_scope.
Notation "x *[ w ] y" := (wrap w (x * y)) (at level 40, left associativity) : cint_scope.
Notation "x <<[ w ] y" := (wrap w (Z.shiftl x y)) (at level 35, right associativity) : cint_scope.

(** Linear arithmetic with [/] and [mod] by constants. *)
Ltac zlia := Z.to_euclidean_division_equations; lia.

Lemma wrap_range w z : 0 <= w -> 0 <= wrap w z < 2 ^ w.
Proof. intros. apply Z.mod_pos_bound. lia. Qed.

Lemma wrap_small w z : 0 <= z < 2 ^ w -> wrap w z = z.
Proof. apply Z.mod_small. Qed.

Lemma wrap_fits w z : 0 <= w -> fits w (wrap w z).
Proof. apply wrap_range. Qed.

Lemma wrap_wrap w z : 0 <= w -> wrap w (wrap w z) = wrap w z.
Proof. intros. apply wrap_small, wrap_range. lia. Qed.

Lemma wrap_wrap_le v w z : 0 <= w <= v -> wrap w (wrap v z) = wrap w z.
Proof.
  intros Hw. unfold wrap. apply Z.mod_mod_divide. exists (2 ^ (v - w)).
  rewrite <- Z.pow_add_r by lia. f_equal. lia.
Qed.

Lemma swrap_small w z : 0 < w -> - 2 ^ (w - 1) <= z < 2 ^ (w - 1) -> swrap w z = z.
Proof.
  intros Hw Hz. unfold swrap.
  assert (2 ^ w = 2 * 2 ^ (w - 1)) as E.
  { rewrite <- Z.pow_succ_r by lia. f_equal. lia. }
  rewrite Z.mod_small; lia.
Qed.

Lemma swrap_range w z : 0 < w -> - 2 ^ (w - 1) <= swrap w z < 2 ^ (w - 1).
Proof.
  intros Hw. unfold swrap.
  assert (2 ^ w = 2 * 2 ^ (w - 1)) as E.
  { rewrite <- Z.pow_succ_r by lia. f_equal. lia. }
  pose proof (Z.mod_pos_bound (z + 2 ^ (w - 1)) (2 ^ w)). lia.
Qed.

Lemma fits_land w a b : 0 <= w -> fits w a -> 0 <= b -> fits w (Z.land a b).
Proof.
  unfold fits. intros Hw [Ha1 Ha2] Hb.
  assert (Z.land a b = wrap w (Z.land a b)) as ->; [|by apply wrap_range].
  unfold wrap. rewrite <- !Z.land_ones by done.
  rewrite <- Z.land_assoc, (Z.land_comm b), Z.land_assoc, Z.land_ones by done.
  by rewrite (Z.mod_small a).
Qed.

Lemma fits_lor w a b : 0 <= w -> fits w a -> fits w b -> fits w (Z.lor a b).
Proof.
  unfold fits. intros Hw [Ha1 Ha2] [Hb1 Hb2].
  assert (Z.lor a b = wrap w (Z.lor a b)) as ->; [|by apply wrap_range].
  unfold wrap. rewrite <- !Z.land_ones, Z.land_lor_distr_l, !Z.land_ones by done.
  by rewrite !Z.mod_small.
Qed.

Lemma fits_lxor w a b : 0 <= w -> fits w a -> fits w b -> fits w (Z.lxor a b).
Proof.
  unfold fits. intros Hw Ha Hb.
  assert (Z.lxor a b = wrap w (Z.lxor a b)) as ->; [|by apply wrap_range].
  rewrite <- (Z.mod_small a (2 ^ w)), <- (Z.mod_small b (2 ^ w)) by done.
  unfold wrap. apply Z.bits_inj'. intros i Hi.
  destruct (Z.lt_ge_cases i w).
  - by rewrite Z.mod_pow2_bits_low.
  - rewrite (Z.mod_pow2_bits_high (Z.lxor _ _)), Z.lxor_spec, !Z.mod_pow2_bits_high by lia.
    done.
Qed.

Lemma fits_shiftr w a n : 0 <= n -> fits w a -> fits w (Z.shiftr a n).
Proof.
  unfold fits. intros Hn [Ha1 Ha2]. rewrite Z.shiftr_div_pow2 by done.
  assert (0 < 2 ^ n) by (apply Z.pow_pos_nonneg; lia).
  split; [by apply Z.div_pos|].
  apply Z.div_lt_upper_bound; [lia|]. nia.
Qed.

(** ** Arrays *)

Section arrays.
Context {A : Type}.
Implicit Types l : list A.

Definition Zlen l : Z := Z.of_nat (length l).

Definition aget l (i : Z) : res A :=
  if decide (0 <= i) then of_option OutOfBounds (l !! Z.to_nat i) else Err OutOfBounds.

Definition aset l (i : Z) (x : A) : res (list A) :=
  if decide (0 <= i < Zlen l) then Ok (<[Z.to_nat i := x]> l) else Err OutOfBounds.

(** [memcpy(dst + off, src, len src)] *)
Definition blit l (off : Z) (src : list A) : res (list A) :=
  if decide (0 <= off /\ off + Zlen src <= Zlen l)
  then Ok (take (Z.to_nat off) l ++ src ++ drop (Z.to_nat off + length src) l)
  else Err OutOfBounds.

(** The [n] elements from [off], as a [memcpy] source. *)
Definition slice l (off n : Z) : res (list A) :=
  if decide (0 <= off /\ 0 <= n /\ off + n <= Zlen l)
  then Ok (take (Z.to_nat n) (drop (Z.to_nat off) l))
  else Err OutOfBounds.

Lemma Zlen_nonneg l : 0 <= Zlen l.
Proof. unfold Zlen. lia. Qed.

Lemma Zlen_app l l' : Zlen (l ++ l') = Zlen l + Zlen l'.
Proof. unfold Zlen. rewrite length_app. lia. Qed.

Lemma aget_Ok l i x : aget l i = Ok x <-> 0 <= i /\ l !! Z.to_nat i = Some x.
Proof.
  unfold aget. case_decide; [|naive_solver lia].
  unfold of_option. destruct (l !! Z.to_nat i); naive_solver.
Qed.

Lemma aget_in l i : 0 <= i < Zlen l -> exists x, aget l i = Ok x.
Proof.
  intros Hi. destruct (lookup_lt_is_Some_2 l (Z.to_nat i)) as [x Hx].
  { unfold Zlen in Hi. lia. }
  exists x. apply aget_Ok. split; [lia|done].
Qed.

Lemma aget_lt l i x : aget l i = Ok x -> 0 <= i < Zlen l.
Proof.
  rewrite aget_Ok. intros [? H%lookup_lt_Some]. unfold Zlen. lia.
Qed.

Lemma aset_in l i x : 0 <= i < Zlen l -> aset l i x = Ok (<[Z.to_nat i := x]> l).
Proof. intros. unfold aset. by rewrite decide_True. Qed.

Lemma aset_Ok l i x l' :
  aset l i x = Ok l' -> 0 <= i < Zlen l /\ l' = <[Z.to_nat i := x]> l.
Proof. unfold aset. case_decide; naive_solver. Qed.

Lemma aset_Zlen l i x l' : aset l i x = Ok l' -> Zlen l' = Zlen l.
Proof. intros [_ ->]%aset_Ok. unfold Zlen. by rewrite length_insert. Qed.

Lemma aget_aset l i x l' j :
  aset l i x = Ok l' -> aget l' j = if decide (i = j) then Ok x else aget l j.
Proof.
  intros [Hi ->]%aset_Ok. unfold aget. case_decide as Hj.
  - case_decide; subst.
    + rewrite list_lookup_insert_eq; [done|]. unfold Zlen in Hi. lia.
    + rewrite list_lookup_insert_ne; [done|]. lia.
  - rewrite decide_False; [done|]. lia.
Qed.

Lemma blit_Zlen l off src l' : blit l off src = Ok l' -> Zlen l' = Zlen l.
Proof.
  unfold blit. case_decide as H; [|done]. intros [= <-]. unfold Zlen in *.
  rewrite !length_app, length_take, length_drop. lia.
Qed.

Lemma blit_in l off src :
  0 <= off -> off + Zlen src <= Zlen l ->
  blit l off src = Ok (take (Z.to_nat off) l ++ src ++ drop (Z.to_nat off + length src) l).
Proof. intros. unfold blit. by rewrite decide_True. Qed.

Lemma slice_in l off n :
  0 <= off -> 0 <= n -> off + n <= Zlen l ->
  slice l off n = Ok (take (Z.to_nat n) (drop (Z.to_nat off) l)).
Proof. intros. unfold slice. by rewrite decide_True. Qed.

Lemma blit_aget l off src l' k :
  blit l off src = Ok l' ->
  aget l' k = if decide (off <= k < off + Zlen src) then aget src (k - off) else aget l k.
Proof.
  unfold blit. case_decide as H; [|done]. intros [= <-]. unfold Zlen in *.
  destruct (decide (0 <= k)) as [Hk|].
  - unfold aget. rewrite !(decide_True (P := 0 <= k)) by done.
    destruct (decide (off <= k < off + Z.of_nat (length src))) as [Hin|Hout].
    + rewrite decide_True by lia. f_equal. rewrite lookup_app_r by (rewrite length_take; lia).
      rewrite length_take, lookup_app_l by lia. f_equal. lia.
    + destruct (decide (k < off)).
      * f_equal. rewrite lookup_app_l by (rewrite length_take; lia). by rewrite lookup_take_lt by lia.
      * f_equal. rewrite lookup_app_r by (rewrite length_take; lia).
        rewrite length_take, lookup_app_r by lia. rewrite lookup_drop. f_equal. lia.
  - unfold aget. rewrite !(decide_False (P := 0 <= k)) by done.
    case_decide; [lia|done].
Qed.

Lemma slice_ext l l' off n :
  Zlen l = Zlen l' -> (forall k, off <= k < off + n -> aget l k = aget l' k) ->
  slice l off n = slice l' off n.
Proof.
  intros Hl Hk. unfold slice. rewrite Hl. case_decide as H; [|done]. f_equal.
  apply list_eq. intros i. destruct (decide (i < Z.to_nat n)%nat).
  - rewrite !lookup_take_lt, !lookup_drop by lia. specialize (Hk (off + Z.of_nat i) ltac:(lia)).
    unfold aget in Hk. rewrite !decide_True in Hk by lia.
    replace (Z.to_nat (off + Z.of_nat i)) with (Z.to_nat off + i)%nat in Hk by lia.
    destruct (l !! _), (l' !! _); simpl in Hk; congruence.
  - by rewrite !lookup_take_ge by lia.
Qed.

(** What a [memcpy] leaves alone, and what it leaves in its target. *)
Lemma slice_blit_out l a src l' off n :
  blit l a src = Ok l' -> a + Zlen src <= off \/ off + n <= a -> slice l' off n = slice l off n.
Proof.
  intros Hb Ho. apply slice_ext; [by eapply blit_Zlen|]. intros k Hk.
  rewrite (blit_aget _ _ _ _ _ Hb). rewrite decide_False; [done|]. lia.
Qed.

Lemma slice_blit_in l a src l' : blit l a src = Ok l' -> slice l' a (Zlen src) = Ok src.
Proof.
  intros Hb. pose proof (blit_Zlen _ _ _ _ Hb) as Hl. unfold blit in Hb.
  case_decide as H; [|done]. injection Hb as <-. pose proof (Zlen_nonneg src).
  rewrite slice_in by lia. f_equal. unfold Zlen in *.
  rewrite drop_app_ge by (rewrite length_take; lia). rewrite length_take.
  replace (Z.to_nat a - _)%nat with 0%nat by lia. rewrite drop_0.
  apply take_app_length'. lia.
Qed.

Lemma slice_Zlen l off n v : slice l off n = Ok v -> Zlen v = n /\ 0 <= off /\ off + n <= Zlen l.
Proof.
  unfold slice. case_decide as H; [|done]. intros [= <-]. unfold Zlen in *.
  rewrite length_take, length_drop. lia.
Qed.
Lemma slice_prefix l off n v k :
  slice l off n = Ok v -> 0 <= k <= n -> slice l off k = Ok (take (Z.to_nat k) v).
Proof.
  unfold slice. case_decide as H; [|done]. intros [= <-] Hk. rewrite decide_True by lia.
  rewrite take_take. do 2 f_equal. lia.
Qed.
End arrays.

(** ** Bytes and C strings *)

Abbreviation bytes := (list Z).
Definition is_byte (b : Z) : Prop := 0 <= b < 256.
#[export] Instance is_byte_dec b : Decision (is_byte b).
Proof. unfold is_byte. apply _. Defined.
Abbreviation all_bytes := (Forall is_byte).

(** The string that starts at the head of a buffer: the bytes before the first NUL;
    a buffer without one is read past its end. *)
Fixpoint cstr (l : bytes) : res bytes :=
  match l with
  | [] => Err OutOfBounds
  | b :: l => if decide (b = 0) then Ok [] else (fun s => b :: s) <$> cstr l
  end.

(** A literal. *)
Fixpoint cs (s : string) : bytes :=
  match s with
  | EmptyString => []
  | String a s => Z.of_N (Ascii.N_of_ascii a) :: cs s
  end.

Definition strlen (l : bytes) : res Z := Zlen <$> cstr l.

Lemma cstr_app s rest : Forall (fun b => b <> 0) s -> cstr (s ++ 0 :: rest) = Ok s.
Proof. induction 1 as [|b s Hb _ IH]; simpl; [done|]. rewrite decide_False by done. by rewrite IH. Qed.

Lemma cstr_no_nul l s : cstr l = Ok s -> Forall (fun b => b <> 0) s.
Proof.
  revert s. induction l as [|b l IH]; intros s; simpl; [done|].
  case_decide; [naive_solver|]. destruct (cstr l); naive_solver.
Qed.

(** [atoi]: white space, a sign, digits; a value outside [int] is undefined. *)
Fixpoint atoi_digits (acc : Z) (l : bytes) : Z :=
  match l with
  | d :: l => if (48 <=? d) && (d <=? 57) then atoi_digits (10 * acc + (d - 48)) l else acc
  | [] => acc
  end.
Fixpoint atoi_skip (l : bytes) : bytes :=
  match l with
  | c :: l' => if (c =? 32) || ((9 <=? c) && (c <=? 13)) then atoi_skip l' else l
  | [] => []
  end.
Definition atoi (l : bytes) : res Z :=
  let v := match atoi_skip l with
           | 45 :: l => - atoi_digits 0 l
           | 43 :: l => atoi_digits 0 l
           | l => atoi_digits 0 l
           end in
  if decide (- 2 ^ 31 <= v < 2 ^ 31) then Ok v else Err Unspecified.

(** ** RT-Thread's result codes

    As they are with a C library and the GCC toolchain. *)

Definition RT_EOK : Z := 0.
Definition RT_ERROR : Z := 255.
Definition RT_EIO : Z := 5.
Definition RT_ENOMEM : Z := 12.
Definition RT_EBUSY : Z := 16.
Definition RT_EINVAL : Z := 22.
Definition RT_ENOSYS : Z := 88.

(** ** Automation *)

Create HintDb cint.
Create Rewrite HintDb cint.
#[export] Hint Resolve wrap_range wrap_fits Zlen_nonneg : cint.
#[export] Hint Rewrite @Zlen_app : cint.

(** Split a successful run of a [res] computation into the runs of its parts. *)
Ltac inv_res :=
  repeat match goal with
  | H : Ok _ = Ok _ |- _ => injection H as H; subst
  | H : Err _ = Ok _ |- _ => discriminate H
  | H : Ok _ = Err _ |- _ => discriminate H
  | H : Err _ = Err _ |- _ => injection H as H; subst
  | H : _ ≫= _ = Ok _ |- _ => apply res_bind_Ok in H; destruct H as (? & ? & H)
  | H : (?a, ?b) = (?c, ?d) |- _ => injection H as ? ?; subst
  end.

(** Case analysis on the scrutinee of the goal's first match. *)
Ltac split_match :=
  match goal with
  | |- context [match ?x with _ => _ end] => destruct x eqn:?
  end.

(** ** Equations between lists built from [take], [drop], [++], [replicate] and updates *)

Create Rewrite HintDb lk.

Lemma lookup_app_dec {A} (l1 l2 : list A) i :
  (l1 ++ l2) !! i = if decide (i < length l1)%nat then l1 !! i else l2 !! (i - length l1)%nat.
Proof. case_decide; [by apply lookup_app_l|]. apply lookup_app_r. lia. Qed.

Lemma lookup_take_dec {A} (l : list A) n i :
  take n l !! i = if decide (i < n)%nat then l !! i else None.
Proof. case_decide; [by apply lookup_take_lt|]. apply lookup_take_ge. lia. Qed.

Lemma lookup_replicate_dec {A} n (x : A) i :
  replicate n x !! i = if decide (i < n)%nat then Some x else None.
Proof. case_decide; [by apply lookup_replicate_2|]. apply lookup_replicate_None. lia. Qed.

Lemma lookup_insert_dec {A} (l : list A) j x i :
  <[j := x]> l !! i = if decide (i = j /\ (j < length l)%nat) then Some x else l !! i.
Proof.
  case_decide as H; [destruct H as [-> ?]; by apply list_lookup_insert_eq|].
  destruct (decide (i = j)) as [->|].
  - rewrite list_insert_ge by lia. done.
  - by apply list_lookup_insert_ne.
Qed.

Lemma lookup_nil_eq {A} (i : nat) : [] !! i = @None A.
Proof. by destruct i. Qed.

Lemma lookup_cons_dec {A} (x : A) l i :
  (x :: l) !! i = if decide (i = O) then Some x else l !! (i - 1)%nat.
Proof. case_decide; subst; [done|]. destruct i; [done|]. simpl. by rewrite Nat.sub_0_r. Qed.

#[export] Hint Rewrite @lookup_app_dec @lookup_take_dec @lookup_drop @lookup_replicate_dec
  @lookup_insert_dec @lookup_nil_eq @lookup_cons_dec
  @length_app @length_take @length_drop @length_replicate @length_insert @length_cons @length_nil
  : lk.

Ltac lk_ge :=
  match goal with
  | |- ?l !! ?i = None => apply lookup_ge_None_2; lia
  | |- None = ?l !! ?i => symmetry; apply lookup_ge_None_2; lia
  end.

(** Element-wise comparison; indices are compared by [lia], contradictory cases are
    closed as soon as they appear. *)
Ltac list_solve :=
  apply list_eq; intros ?; autorewrite with lk;
  repeat (case_decide; try (exfalso; lia));
  first [done | f_equal; lia | lk_ge | idtac].

Lemma take_splice {A} (b src : list A) w n :
  (w + length src <= n)%nat -> (n <= length b)%nat ->
  take n (take w b ++ src ++ drop (w + length src) b) =
  take w (take n b) ++ src ++ drop (w + length src) (take n b).
Proof. intros. list_solve. Qed.
