(* ===== verification/Weather.v ===== *)
(** Weather codes: [applications/weather/weather.c] and the icon choice of
    [applications/lvgl/lv_port_indev.c].

    [weather_map] is the table of the source, [get_weather_type] its linear search,
    [get_weather_icon_suffix] the array of suffixes and [icon_path] the [sprintf] of
    [day_weather] with [DEFATLT_WEATHER_ICON_PATH]. *)

From stdpp Require Import sorting.
From S2P Require Import Prelude.
#[local] Open Scope Z_scope.

(** [weather_type_t]; [WEATHER_TYPE_COUNT] is the number of constructors. *)
Inductive weather_type_t :=
  | WEATHER_QING | WEATHER_DUOYUN | WEATHER_YIN | WEATHER_ZHENYU | WEATHER_XIAOYU
  | WEATHER_ZHONGYU | WEATHER_DAYU | WEATHER_BAOYU | WEATHER_LEIYU | WEATHER_LEIBAO
  | WEATHER_YUJIAXUE | WEATHER_BINGJING | WEATHER_XIAOXUE | WEATHER_ZHONGXUE | WEATHER_DAXUE
  | WEATHER_BAOXUE | WEATHER_ZHENXUE | WEATHER_XUEMI | WEATHER_QINGWU | WEATHER_ZHONGWU
  | WEATHER_DAWU | WEATHER_MAI | WEATHER_YANGSHA | WEATHER_FUCHEN | WEATHER_SHACHENBAO
  | WEATHER_RE | WEATHER_LENG | WEATHER_UNKNOWN.

#[export] Instance weather_type_eq_dec : EqDecision weather_type_t.
Proof. solve_decision. Defined.

Definition all_weather_types : list weather_type_t :=
  [WEATHER_QING; WEATHER_DUOYUN; WEATHER_YIN; WEATHER_ZHENYU; WEATHER_XIAOYU;
   WEATHER_ZHONGYU; WEATHER_DAYU; WEATHER_BAOYU; WEATHER_LEIYU; WEATHER_LEIBAO;
   WEATHER_YUJIAXUE; WEATHER_BINGJING; WEATHER_XIAOXUE; WEATHER_ZHONGXUE; WEATHER_DAXUE;
   WEATHER_BAOXUE; WEATHER_ZHENXUE; WEATHER_XUEMI; WEATHER_QINGWU; WEATHER_ZHONGWU;
   WEATHER_DAWU; WEATHER_MAI; WEATHER_YANGSHA; WEATHER_FUCHEN; WEATHER_SHACHENBAO;
   WEATHER_RE; WEATHER_LENG; WEATHER_UNKNOWN].

(** The enumerator's value. *)
Definition weather_type_index (t : weather_type_t) : Z :=
  match list_find (fun u => u = t) all_weather_types with
  | Some (i, _) => Z.of_nat i
  | None => -1
  end.

Definition WEATHER_TYPE_COUNT : Z := 28.

Definition weather_map : list (Z * weather_type_t) :=
  [(100, WEATHER_QING); (101, WEATHER_DUOYUN); (102, WEATHER_DUOYUN); (103, WEATHER_DUOYUN);
   (104, WEATHER_YIN); (150, WEATHER_QING); (153, WEATHER_DUOYUN); (154, WEATHER_YIN);
   (300, WEATHER_ZHENYU); (301, WEATHER_ZHENYU); (302, WEATHER_LEIYU); (303, WEATHER_LEIBAO);
   (304, WEATHER_BAOYU); (305, WEATHER_XIAOYU); (306, WEATHER_ZHONGYU); (307, WEATHER_DAYU);
   (308, WEATHER_BAOYU); (309, WEATHER_XIAOYU); (310, WEATHER_BAOYU); (311, WEATHER_BAOYU);
   (312, WEATHER_BAOYU); (313, WEATHER_BINGJING); (314, WEATHER_XIAOYU); (315, WEATHER_ZHONGYU);
   (316, WEATHER_DAYU); (317, WEATHER_BAOYU); (318, WEATHER_BAOYU); (399, WEATHER_XIAOYU);
   (350, WEATHER_ZHENYU); (351, WEATHER_ZHENYU); (400, WEATHER_XIAOXUE); (401, WEATHER_ZHONGXUE);
   (402, WEATHER_DAXUE); (403, WEATHER_BAOXUE); (404, WEATHER_YUJIAXUE); (405, WEATHER_YUJIAXUE);
   (406, WEATHER_YUJIAXUE); (407, WEATHER_XIAOXUE); (408, WEATHER_XIAOXUE); (409, WEATHER_ZHONGXUE);
   (410, WEATHER_DAXUE); (499, WEATHER_XIAOXUE); (456, WEATHER_YUJIAXUE); (457, WEATHER_XIAOXUE);
   (500, WEATHER_QINGWU); (501, WEATHER_ZHONGWU); (502, WEATHER_MAI); (503, WEATHER_YANGSHA);
   (504, WEATHER_FUCHEN); (507, WEATHER_SHACHENBAO); (508, WEATHER_SHACHENBAO); (509, WEATHER_DAWU);
   (510, WEATHER_DAWU); (511, WEATHER_MAI); (512, WEATHER_MAI); (513, WEATHER_MAI);
   (514, WEATHER_DAWU); (515, WEATHER_DAWU); (900, WEATHER_RE); (901, WEATHER_LENG);
   (999, WEATHER_UNKNOWN)].

(** The search loop, over any table. *)
Fixpoint weather_search (tbl : list (Z * weather_type_t)) (code : Z) : weather_type_t :=
  match tbl with
  | [] => WEATHER_UNKNOWN
  | (c, t) :: tbl => if c =? code then t else weather_search tbl code
  end.

Definition get_weather_type (code : Z) : weather_type_t := weather_search weather_map code.

Definition weather_icons : list string :=
  ["qing"; "duoyun"; "yin"; "zhenyu"; "xiaoyu"; "zhongyu"; "dayu";
   "baoyu"; "leiyu"; "leibao"; "yujiayue"; "bingjing"; "xiaoxue"; "zhongxue";
   "daxue"; "baoxue"; "zhenxue"; "xuemi"; "qingwu"; "zhongwu"; "dawu";
   "mai"; "yangsha"; "fuchen"; "shachenbao"; "re"; "leng"; "qing"].

Definition get_weather_icon_suffix (icon_code : Z) : res string :=
  let curweather := weather_type_index (get_weather_type icon_code) in
  if curweather <? WEATHER_TYPE_COUNT then aget weather_icons curweather else Ok "qing"%string.

(** [sprintf(iconpath, DEFATLT_WEATHER_ICON_PATH, suffix)] into [char iconpath[100]]. *)
Definition icon_path (icon_code : Z) : res bytes :=
  suffix ← get_weather_icon_suffix icon_code;
  blit (replicate 100 0) 0
    (cs "S:/sysfile/icon/tianqi_48/tianqi-" ++ cs suffix ++ cs ".bin" ++ [0]).

(** ** Lemmas *)

Lemma weather_search_in tbl c t :
  NoDup tbl.*1 -> (c, t) ∈ tbl -> weather_search tbl c = t.
Proof.
  induction tbl as [|[c' t'] tbl IH]; simpl; [set_solver|].
  rewrite NoDup_cons. intros [Hc Hnd] [[= <- <-]|Hin]%elem_of_cons.
  - by rewrite Z.eqb_refl.
  - destruct (Z.eqb_spec c' c) as [->|]; [|by apply IH].
    destruct Hc. apply list_elem_of_fmap. by exists (c, t).
Qed.

Lemma weather_search_not_in tbl c :
  c ∉ tbl.*1 -> weather_search tbl c = WEATHER_UNKNOWN.
Proof.
  induction tbl as [|[c' t'] tbl IH]; simpl; [done|].
  intros [Hne Hni]%not_elem_of_cons. rewrite (proj2 (Z.eqb_neq c' c)) by congruence. auto.
Qed.

Lemma weather_codes_NoDup : NoDup weather_map.*1.
Proof. by apply (bool_decide_unpack _); vm_compute. Qed.

Lemma weather_type_index_bound t : 0 <= weather_type_index t < WEATHER_TYPE_COUNT.
Proof. destruct t; vm_compute; split; congruence. Qed.

(** The result is the table's, for the table in any order. *)
Lemma weather_search_perm tbl c :
  tbl ≡ₚ weather_map -> weather_search tbl c = get_weather_type c.
Proof.
  intros Hp. pose proof weather_codes_NoDup as Hnd.
  destruct (decide (c ∈ weather_map.*1)) as [Hin|Hni].
  - apply list_elem_of_fmap in Hin as ([c' t] & -> & Hin). simpl.
    unfold get_weather_type. rewrite !(weather_search_in _ c' t); [done|done|done| |].
    + by rewrite Hp.
    + by rewrite Hp.
  - unfold get_weather_type. rewrite !weather_search_not_in; [done|done|].
    by rewrite Hp.
Qed.

(** ** Properties *)

(** The weather type of a code is the one its table row gives, whatever the order of the
    rows, and [WEATHER_UNKNOWN] for a code without a row. *)
Theorem get_weather_type_spec tbl code :
  tbl ≡ₚ weather_map ->
  (forall t, (code, t) ∈ tbl -> get_weather_type code = t) /\
  (code ∉ tbl.*1 -> get_weather_type code = WEATHER_UNKNOWN).
Proof.
  intros Hp. rewrite <- (weather_search_perm tbl code Hp). split.
  - intros t. apply weather_search_in. rewrite Hp. apply weather_codes_NoDup.
  - apply weather_search_not_in.
Qed.

Lemma get_weather_type_spec_witness :
  get_weather_type 302 = WEATHER_LEIYU /\ get_weather_type 42 = WEATHER_UNKNOWN.
Proof.
  split.
  - apply (proj1 (get_weather_type_spec weather_map 302 (Permutation_refl _))).
    apply (bool_decide_unpack _). vm_compute. exact I.
  - apply (proj2 (get_weather_type_spec weather_map 42 (Permutation_refl _))).
    apply (bool_decide_unpack _). vm_compute. exact I.
Defined.

Lemma suffix_of_type t :
  exists s, aget weather_icons (weather_type_index t) = Ok s /\ (String.length s <= 10)%nat.
Proof. destruct t; eexists; (split; [vm_compute; reflexivity|simpl; lia]). Qed.

Lemma length_cs s : length (cs s) = String.length s.
Proof. induction s; simpl; congruence. Qed.

Lemma cs_no_nul_of_type t s :
  aget weather_icons (weather_type_index t) = Ok s -> Forall (fun b => b <> 0) (cs s).
Proof.
  intros H. destruct t; vm_compute in H; injection H as <-;
    apply (bool_decide_unpack _); vm_compute; exact I.
Qed.

(** For every code, the icon array is read inside its bounds and the path written into
    the 100-byte [iconpath] fits, its NUL included. *)
Theorem icon_path_fits code :
  exists suffix buf,
    get_weather_icon_suffix code = Ok suffix /\ icon_path code = Ok buf /\ Zlen buf = 100 /\
    cstr buf = Ok (cs "S:/sysfile/icon/tianqi_48/tianqi-" ++ cs suffix ++ cs ".bin").
Proof.
  unfold icon_path, get_weather_icon_suffix.
  set (t := get_weather_type code).
  rewrite (proj2 (Z.ltb_lt _ _)) by apply weather_type_index_bound.
  destruct (suffix_of_type t) as (s & Hs & Hlen). rewrite Hs. cbn [mbind res_bind].
  remember (cs "S:/sysfile/icon/tianqi_48/tianqi-" ++ cs s ++ cs ".bin") as path eqn:Epath.
  assert (length path <= 47)%nat as Hpath.
  { subst path. rewrite !length_app, !length_cs. simpl. lia. }
  assert (Forall (fun b => b <> 0) path) as Hnul.
  { subst path. rewrite !Forall_app. split; [|split; [by eapply cs_no_nul_of_type|]];
      apply (bool_decide_unpack _); vm_compute; exact I. }
  replace (_ ++ _ ++ _ ++ [0]) with (path ++ [0]) by (subst path; by rewrite <- !app_assoc).
  rewrite blit_in; [|lia|]; cycle 1.
  { unfold Zlen. rewrite length_app, length_replicate. cbn [length]. lia. }
  eexists _, _. split; [done|]. split; [done|]. change (Z.to_nat 0) with 0%nat.
  cbn [take Nat.add]. rewrite app_nil_l, <- app_assoc. split.
  - unfold Zlen. rewrite !length_app, length_drop, ?length_app, length_replicate.
    cbn [length]. lia.
  - rewrite <- Epath. by apply cstr_app.
Qed.
