(* ===== verification/Mem.v ===== *)
(** RT-Thread's heap: the small-memory allocator [rt-thread/src/mem.c] and the wrappers of
    [rt-thread/src/kservice.c] that make it [rt_malloc], [rt_free] and their kin.

    The memory is the bytes from [heap_ptr] on, the block headers in them as the C structs are
    (pool pointer, next and previous offset, each a 32-bit little-endian word, and padding to
    16 bytes).  A pointer to a header is its offset from [heap_ptr]; a pointer given to a
    caller is an address, 0 is NULL.  The abstract value of a heap is the list of its blocks,
    free with a size or used with their bytes. *)

From stdpp Require Import gmap.
From S2P Require Import Prelude.
#[local] Open Scope Z_scope.

(** ** Words in memory *)

Definition get32 (m : bytes) (a : Z) : res Z := little_endian_to_Z 8 <$> slice m a 4.
Definition set32 (m : bytes) (a v : Z) : res bytes := blit m a (Z_to_little_endian 4 8 v).

(** ** The allocator's object *)

Record rt_small_mem := SmallMem {
  obj_type : Z;            (* parent.parent.type *)
  self : Z;                (* the object's own address *)
  address : Z;
  total : Z;
  used : Z;
  max : Z;
  heap_ptr : Z;
  heap_end : Z;
  lfree : Z;
  mem_size_aligned : Z;
  ram : bytes;             (* the memory from heap_ptr to the end of the heap *)
}.

Definition set_ram (m : bytes) (s : rt_small_mem) : rt_small_mem :=
  SmallMem (obj_type s) (self s) (address s) (total s) (used s) (max s) (heap_ptr s)
    (heap_end s) (lfree s) (mem_size_aligned s) m.
Definition set_lfree (p : Z) (s : rt_small_mem) : rt_small_mem :=
  SmallMem (obj_type s) (self s) (address s) (total s) (used s) (max s) (heap_ptr s)
    (heap_end s) p (mem_size_aligned s) (ram s).
Definition set_use (u m : Z) (s : rt_small_mem) : rt_small_mem :=
  SmallMem (obj_type s) (self s) (address s) (total s) u m (heap_ptr s)
    (heap_end s) (lfree s) (mem_size_aligned s) (ram s).
Definition set_type (t : Z) (s : rt_small_mem) : rt_small_mem :=
  SmallMem t (self s) (address s) (total s) (used s) (max s) (heap_ptr s)
    (heap_end s) (lfree s) (mem_size_aligned s) (ram s).

Definition RT_ALIGN_SIZE : Z := 8.
Definition RT_ALIGN (size align : Z) : Z := Z.land (u32 (size + align - 1)) (Z.lnot (align - 1)).
Definition RT_ALIGN_DOWN (size align : Z) : Z := Z.land size (Z.lnot (align - 1)).

(** [sizeof(struct rt_small_mem_item)] is 12 and [sizeof(struct rt_small_mem)] 56 on this
    machine. *)
Definition MIN_SIZE : Z := 12.
Definition MIN_SIZE_ALIGNED : Z := RT_ALIGN MIN_SIZE RT_ALIGN_SIZE.
Definition SIZEOF_STRUCT_MEM : Z := RT_ALIGN 12 RT_ALIGN_SIZE.
Definition SIZEOF_SMALL_MEM : Z := 56.

Definition RT_Object_Class_Memory : Z := 12.
Definition RT_Object_Class_Static : Z := 128.

Definition MEM_MASK : Z := 2 ^ 32 - 1 - 1.
Definition MEM_USED (p : Z) : Z := Z.lor (Z.land p MEM_MASK) 1.
Definition MEM_FREED (p : Z) : Z := Z.lor (Z.land p MEM_MASK) 0.

(** The fields of the header at an offset. *)
Definition rd (a : Z) : M rt_small_mem Z := fun s => lift (get32 (ram s) a) s.
Definition wr (a v : Z) : M rt_small_mem unit := fun s =>
  match set32 (ram s) a v with Ok m => Ok (tt, set_ram m s) | Err f => Err f end.
Definition get_pool (p : Z) : M rt_small_mem Z := rd p.
Definition get_next (p : Z) : M rt_small_mem Z := rd (p + 4).
Definition get_prev (p : Z) : M rt_small_mem Z := rd (p + 8).
Definition set_pool (p v : Z) : M rt_small_mem unit := wr p v.
Definition set_next (p v : Z) : M rt_small_mem unit := wr (p + 4) v.
Definition set_prev (p v : Z) : M rt_small_mem unit := wr (p + 8) v.

Definition MEM_ISUSED (p : Z) : M rt_small_mem bool :=
  v ← get_pool p; mret (negb (Z.land v 1 =? 0)).
Definition MEM_POOL (p : Z) : M rt_small_mem Z :=
  v ← get_pool p; mret (Z.land v MEM_MASK).

Definition RT_ASSERT (b : bool) : M rt_small_mem unit := if b then mret tt else throw AssertFail.

(** The checks that the object is a memory object. *)
Definition check_object : M rt_small_mem unit :=
  t ← gets obj_type;
  RT_ASSERT (Z.land t (Z.lnot RT_Object_Class_Static) =? RT_Object_Class_Memory) ;;;
  RT_ASSERT (negb (Z.land t RT_Object_Class_Static =? 0)).

(** ** Joining free neighbours *)

Definition plug_next (mem : Z) : M rt_small_mem unit :=
  nmem ← get_next mem;
  e ← gets heap_end;
  u ← MEM_ISUSED nmem;
  if negb (mem =? nmem) && negb u && negb (nmem =? e) then
    lf ← gets lfree;
    (if lf =? nmem then modify (set_lfree mem) else mret tt) ;;;
    set_pool nmem 0 ;;;
    n ← get_next nmem;
    set_next mem n ;;;
    set_prev n mem
  else mret tt.

Definition plug_prev (mem : Z) : M rt_small_mem unit :=
  pmem ← get_prev mem;
  u ← MEM_ISUSED pmem;
  if negb (pmem =? mem) && negb u then
    lf ← gets lfree;
    (if lf =? mem then modify (set_lfree pmem) else mret tt) ;;;
    set_pool mem 0 ;;;
    n ← get_next mem;
    set_next pmem n ;;;
    set_prev n pmem
  else mret tt.

Definition plug_holes (mem : Z) : M rt_small_mem unit :=
  e ← gets heap_end;
  RT_ASSERT (0 <=? mem) ;;;
  RT_ASSERT (mem <? e) ;;;
  plug_next mem ;;;
  plug_prev mem.

(** ** Initialisation: the memory [begin_addr, begin_addr + size) holds [mem] *)

Definition rt_smem_init (begin_addr size : Z) (mem : bytes) : res (option rt_small_mem) :=
  let small_mem := RT_ALIGN begin_addr RT_ALIGN_SIZE in
  let start_addr := u32 (small_mem + SIZEOF_SMALL_MEM) in
  let begin_align := RT_ALIGN start_addr RT_ALIGN_SIZE in
  let end_align := RT_ALIGN_DOWN (u32 (begin_addr + size)) RT_ALIGN_SIZE in
  if (2 * SIZEOF_STRUCT_MEM <? end_align) &&
     (start_addr <=? u32 (end_align - 2 * SIZEOF_STRUCT_MEM)) then
    let mem_size := u32 (end_align - begin_align - 2 * SIZEOF_STRUCT_MEM) in
    m ← slice mem (begin_align - begin_addr) (end_align - begin_align);
    let e := u32 (mem_size + SIZEOF_STRUCT_MEM) in
    let s := SmallMem (Z.lor RT_Object_Class_Memory RT_Object_Class_Static) small_mem
               begin_align mem_size 0 0 begin_align e 0 mem_size m in
    '(_, s) ← (set_pool 0 (MEM_FREED small_mem) ;;;
               set_next 0 e ;;;
               set_prev 0 0 ;;;
               set_pool e (MEM_USED small_mem) ;;;
               set_next e e ;;;
               set_prev e e) s;
    Ok (Some s)
  else Ok None.

Definition rt_smem_detach : M rt_small_mem Z :=
  check_object ;;; modify (set_type 0) ;;; mret RT_EOK.

(** ** Allocation *)

Definition add_used (n : Z) : M rt_small_mem unit :=
  modify (fun s =>
    let u := u32 (used s + n) in set_use u (if max s <? u then u else max s) s).

(** Raising [lfree] to the next free block. *)
Fixpoint raise_lfree (fuel : nat) : M rt_small_mem unit :=
  match fuel with
  | O => throw Spin
  | S fuel =>
      lf ← gets lfree;
      e ← gets heap_end;
      u ← MEM_ISUSED lf;
      if u && negb (lf =? e) then
        n ← get_next lf;
        modify (set_lfree n) ;;;
        raise_lfree fuel
      else mret tt
  end.

(** Cutting [size] bytes and a header off the block at [ptr]. *)
Definition split_block (ptr size next : Z) : M rt_small_mem unit :=
  s ← get;
  let ptr2 := u32 (ptr + SIZEOF_STRUCT_MEM + size) in
  set_pool ptr2 (MEM_FREED (self s)) ;;;
  set_next ptr2 next ;;;
  set_prev ptr2 ptr ;;;
  set_next ptr ptr2 ;;;
  if negb (next =? u32 (mem_size_aligned s + SIZEOF_STRUCT_MEM))
  then set_prev next ptr2 else mret tt.

(** The loop's body, at a block that is free and big enough. *)
Definition take_block (ptr size next : Z) : M rt_small_mem Z :=
  (if u32 (size + SIZEOF_STRUCT_MEM + MIN_SIZE_ALIGNED) <=? u32 (next - u32 (ptr + SIZEOF_STRUCT_MEM))
   then split_block ptr size next ;;; add_used (u32 (size + SIZEOF_STRUCT_MEM))
   else add_used (u32 (next - ptr))) ;;;
  s ← get;
  set_pool ptr (MEM_USED (self s)) ;;;
  (if ptr =? lfree s then
     raise_lfree (S (Z.to_nat (heap_end s))) ;;;
     lf ← gets lfree;
     u ← MEM_ISUSED lf;
     RT_ASSERT ((lf =? heap_end s) || negb u)
   else mret tt) ;;;
  let mem := heap_ptr s + ptr in
  RT_ASSERT (u32 (mem + SIZEOF_STRUCT_MEM + size) <=? heap_ptr s + heap_end s) ;;;
  RT_ASSERT (u32 (mem + SIZEOF_STRUCT_MEM) mod RT_ALIGN_SIZE =? 0) ;;;
  RT_ASSERT (Z.land mem (RT_ALIGN_SIZE - 1) =? 0) ;;;
  mret (u32 (mem + SIZEOF_STRUCT_MEM)).

Fixpoint alloc_loop (fuel : nat) (size ptr : Z) : M rt_small_mem Z :=
  match fuel with
  | O => throw Spin
  | S fuel =>
      ms ← gets mem_size_aligned;
      if ptr <=? u32 (ms - size) then
        u ← MEM_ISUSED ptr;
        next ← get_next ptr;
        if negb u && (size <=? u32 (next - u32 (ptr + SIZEOF_STRUCT_MEM)))
        then take_block ptr size next
        else alloc_loop fuel size next
      else mret 0
  end.

(** The size of the block that a request gets. *)
Definition round_size (size : Z) : Z :=
  let size := RT_ALIGN size RT_ALIGN_SIZE in
  if size <? MIN_SIZE_ALIGNED then MIN_SIZE_ALIGNED else size.

Definition rt_smem_alloc (size : Z) : M rt_small_mem Z :=
  if size =? 0 then mret 0 else
  check_object ;;;
  let size := round_size size in
  s ← get;
  if mem_size_aligned s <? size then mret 0 else
  alloc_loop (S (Z.to_nat (heap_end s))) size (lfree s).

(** ** Release *)

Definition rt_smem_free (rmem : Z) : M rt_small_mem unit :=
  if rmem =? 0 then mret tt else
  RT_ASSERT (Z.land rmem (RT_ALIGN_SIZE - 1) =? 0) ;;;
  s ← get;
  let mem := rmem - SIZEOF_STRUCT_MEM - heap_ptr s in
  small_mem ← MEM_POOL mem;
  RT_ASSERT (negb (small_mem =? 0)) ;;;
  u ← MEM_ISUSED mem;
  RT_ASSERT u ;;;
  (* the object is found through the header; another pool's, or a wild one, is not here *)
  (if small_mem =? self s then mret tt else throw OutOfBounds) ;;;
  check_object ;;;
  RT_ASSERT ((heap_ptr s <=? rmem) && (rmem <? heap_ptr s + heap_end s)) ;;;
  next ← get_next mem;
  p ← MEM_POOL next;
  RT_ASSERT (p =? small_mem) ;;;
  set_pool mem (MEM_FREED small_mem) ;;;
  (if mem <? lfree s then modify (set_lfree mem) else mret tt) ;;;
  modify (fun s => set_use (u32 (used s - u32 (next - mem))) (max s) s) ;;;
  plug_holes mem.

(** ** Reallocation *)

(** [rt_memcpy(dst, src, n)] inside the heap. *)
Definition rt_memcpy (dst src n : Z) : M rt_small_mem unit := fun s =>
  match slice (ram s) (src - heap_ptr s) n with
  | Err f => Err f
  | Ok v => match blit (ram s) (dst - heap_ptr s) v with
            | Err f => Err f
            | Ok m => Ok (tt, set_ram m s)
            end
  end.

(** [rt_memset(dst, c, n)] inside the heap. *)
Definition rt_memset (dst c n : Z) : M rt_small_mem unit := fun s =>
  match blit (ram s) (dst - heap_ptr s) (replicate (Z.to_nat n) c) with
  | Err f => Err f
  | Ok m => Ok (tt, set_ram m s)
  end.

(** Shrinking the block at [ptr], whose data are [size] bytes. *)
Definition shrink_block (ptr size newsize next : Z) : M rt_small_mem unit :=
  modify (fun s => set_use (u32 (used s - u32 (size - newsize))) (max s) s) ;;;
  split_block ptr newsize next ;;;
  let ptr2 := u32 (ptr + SIZEOF_STRUCT_MEM + newsize) in
  lf ← gets lfree;
  (if ptr2 <? lf then modify (set_lfree ptr2) else mret tt) ;;;
  plug_holes ptr2.

Definition rt_smem_realloc (rmem newsize : Z) : M rt_small_mem Z :=
  check_object ;;;
  let newsize := RT_ALIGN newsize RT_ALIGN_SIZE in
  s ← get;
  if mem_size_aligned s <? newsize then mret 0 else
  if newsize =? 0 then rt_smem_free rmem ;;; mret 0 else
  if rmem =? 0 then rt_smem_alloc newsize else
  RT_ASSERT (Z.land rmem (RT_ALIGN_SIZE - 1) =? 0) ;;;
  RT_ASSERT (heap_ptr s <=? rmem) ;;;
  RT_ASSERT (rmem <? heap_ptr s + heap_end s) ;;;
  let ptr := rmem - SIZEOF_STRUCT_MEM - heap_ptr s in
  next ← get_next ptr;
  let size := u32 (next - ptr - SIZEOF_STRUCT_MEM) in
  if size =? newsize then mret rmem else
  if u32 (newsize + SIZEOF_STRUCT_MEM + MIN_SIZE) <? size
  then shrink_block ptr size newsize next ;;; mret rmem
  else
    nmem ← rt_smem_alloc newsize;
    (if negb (nmem =? 0)
     then rt_memcpy nmem rmem (if size <? newsize then size else newsize) ;;; rt_smem_free rmem
     else mret tt) ;;;
    mret nmem.

(** ** [kservice.c]: the heap of the system, under its lock *)

Definition rt_malloc (size : Z) : M rt_small_mem Z := rt_smem_alloc size.
Definition rt_realloc (ptr newsize : Z) : M rt_small_mem Z := rt_smem_realloc ptr newsize.

Definition rt_calloc (count size : Z) : M rt_small_mem Z :=
  p ← rt_malloc (u32 (count * size));
  (if negb (p =? 0) then rt_memset p 0 (u32 (count * size)) else mret tt) ;;;
  mret p.

Definition rt_free (ptr : Z) : M rt_small_mem unit :=
  if ptr =? 0 then mret tt else rt_smem_free ptr.

Definition rt_memory_info : M rt_small_mem (Z * Z * Z) :=
  gets (fun s => (total s, used s, max s)).

Definition rt_malloc_align (size align : Z) : M rt_small_mem Z :=
  let align := Z.land (u32 (align + 3)) (Z.lnot 3) in
  let align_size := u32 (Z.land (u32 (size + 3)) (Z.lnot 3) + align) in
  ptr ← rt_malloc align_size;
  if negb (ptr =? 0) then
    let align_ptr := if Z.land ptr (u32 (align - 1)) =? 0 then u32 (ptr + align)
                     else Z.land (u32 (ptr + (align - 1))) (Z.lnot (align - 1)) in
    s ← get;
    wr (align_ptr - 4 - heap_ptr s) ptr ;;;
    mret align_ptr
  else mret 0.

Definition rt_free_align (ptr : Z) : M rt_small_mem unit :=
  if ptr =? 0 then mret tt else
  s ← get;
  real_ptr ← rd (ptr - 4 - heap_ptr s);
  rt_free real_ptr.

(** A caller's write of [v] at offset [k] of its block. *)
Definition store (p k : Z) (v : bytes) : M rt_small_mem unit := fun s =>
  match blit (ram s) (p - heap_ptr s + k) v with
  | Err f => Err f
  | Ok m => Ok (tt, set_ram m s)
  end.

(** ** Words and masks *)

Lemma get32_set32 m a v m' : fits 32 v -> set32 m a v = Ok m' -> get32 m' a = Ok v.
Proof.
  intros Hv Hs. apply slice_blit_in in Hs. unfold get32.
  replace (Zlen (Z_to_little_endian 4 8 v)) with 4 in Hs
    by (unfold Zlen; by rewrite length_Z_to_little_endian).
  rewrite Hs. cbn. f_equal. rewrite little_endian_to_Z_to_little_endian by lia.
  by apply Z.mod_small.
Qed.

Lemma Zlen_le32 v : Zlen (Z_to_little_endian 4 8 v) = 4.
Proof. unfold Zlen. by rewrite length_Z_to_little_endian. Qed.

Lemma get32_blit_out m a src m' b :
  blit m a src = Ok m' -> a + Zlen src <= b \/ b + 4 <= a -> get32 m' b = get32 m b.
Proof. intros Hb Ho. unfold get32. by rewrite (slice_blit_out _ _ _ _ _ _ Hb Ho). Qed.

Lemma set32_in m a v : 0 <= a -> a + 4 <= Zlen m -> exists m', set32 m a v = Ok m' /\ Zlen m' = Zlen m.
Proof.
  intros Ha Hl. unfold set32. rewrite blit_in; [|done|by rewrite Zlen_le32].
  eexists. split; [done|]. eapply blit_Zlen. apply blit_in; [done|by rewrite Zlen_le32].
Qed.

Lemma get32_range m a v : get32 m a = Ok v -> 0 <= a /\ a + 4 <= Zlen m.
Proof.
  unfold get32. destruct (slice m a 4) as [w|] eqn:E; [|done]. intros _.
  apply slice_Zlen in E. lia.
Qed.

Lemma land_align x : Z.land x (Z.lnot 7) = x / 8 * 8.
Proof.
  rewrite <- Z.ldiff_land. change 7 with (Z.ones 3). rewrite Z.ldiff_ones_r by lia.
  by rewrite Z.shiftl_mul_pow2, Z.shiftr_div_pow2 by lia.
Qed.

Lemma align_up x : 0 <= x -> x + 7 < 2 ^ 32 -> RT_ALIGN x RT_ALIGN_SIZE = (x + 7) / 8 * 8.
Proof.
  intros Hx Hb. unfold RT_ALIGN, RT_ALIGN_SIZE. change (8 - 1) with 7.
  rewrite land_align, wrap_small by lia. f_equal. f_equal. lia.
Qed.

Lemma align_down x : RT_ALIGN_DOWN x RT_ALIGN_SIZE = x / 8 * 8.
Proof. apply land_align. Qed.

Lemma land_1 x : Z.land x 1 = x mod 2.
Proof. change 1 with (Z.ones 1). by rewrite Z.land_ones by lia. Qed.

Lemma land_7 x : Z.land x 7 = x mod 8.
Proof. change 7 with (Z.ones 3). by rewrite Z.land_ones by lia. Qed.

Lemma land_mask x : fits 32 x -> Z.land x MEM_MASK = x / 2 * 2.
Proof.
  intros Hx. assert (Z.land x MEM_MASK = Z.ldiff x (Z.ones 1)) as ->.
  { apply Z.bits_inj'. intros i Hi. rewrite Z.land_spec, Z.ldiff_spec.
    change MEM_MASK with (Z.shiftl (Z.ones 31) 1).
    rewrite Z.shiftl_spec by done. rewrite (Z.testbit_ones 1) by lia.
    destruct (decide (i = 0)) as [->|]; [done|].
    rewrite Z.testbit_ones_nonneg by lia.
    rewrite (proj2 (Z.ltb_ge i 1)) by lia. rewrite Bool.andb_false_r. simpl.
    destruct (Z.ltb_spec (i - 1) 31) as [|Hge]; [done|].
    rewrite (Z.bits_above_log2 x i); [done|apply Hx|].
    destruct (decide (x = 0)) as [->|]; [simpl; lia|].
    apply Z.log2_lt_pow2; [unfold fits in Hx; lia|]. unfold fits in Hx.
    pose proof (Z.pow_le_mono_r 2 32 i). lia. }
  rewrite Z.ldiff_ones_r by lia. by rewrite Z.shiftl_mul_pow2, Z.shiftr_div_pow2 by lia.
Qed.

Lemma lor_1 x : Z.lor (x / 2 * 2) 1 = x / 2 * 2 + 1.
Proof.
  rewrite <- Z.add_lor_land.
  replace (Z.land (x / 2 * 2) 1) with 0; [lia|]. rewrite land_1, Z.mod_mul; lia.
Qed.

(** ** Blocks: the abstract heap *)

Inductive block :=
  | Free (n : Z)
  | Used (d : bytes).

Definition data_size (b : block) : Z := match b with Free n => n | Used d => Zlen d end.
Definition is_used (b : block) : bool := match b with Free _ => false | Used _ => true end.
Definition span (b : block) : Z := 16 + data_size b.
Fixpoint extent (bl : list block) : Z :=
  match bl with [] => 0 | b :: bl => span b + extent bl end.
Fixpoint used_extent (bl : list block) : Z :=
  match bl with [] => 0 | b :: bl => (if is_used b then span b else 0) + used_extent bl end.

(** A block's data are a multiple of 8 bytes, and never none in a block in use. *)
Definition block_ok (b : block) : Prop :=
  (if is_used b then 8 else 0) <= data_size b /\ data_size b mod 8 = 0.

Lemma block_ok_nonneg b : block_ok b -> 0 <= data_size b /\ data_size b mod 8 = 0.
Proof. unfold block_ok. destruct (is_used b); lia. Qed.

(** No two free blocks side by side. *)
Definition head_used (bl : list block) : bool := match bl with b :: _ => is_used b | [] => true end.
Fixpoint merged (bl : list block) : bool :=
  match bl with [] => true | b :: r => (is_used b || head_used r) && merged r end.

(** The offset of the first free block, the end of the heap if there is none. *)
Fixpoint first_free (off : Z) (bl : list block) : Z :=
  match bl with [] => off | b :: r => if is_used b then first_free (off + span b) r else off end.

(** The offset of the last block. *)
Fixpoint last_off (prev off : Z) (bl : list block) : Z :=
  match bl with [] => prev | b :: r => last_off off (off + span b) r end.

(** ** Operations on lists of blocks *)

(** First fit: the blocks before, the size of the block given out, the blocks behind. *)
Fixpoint first_fit (size : Z) (bl : list block) : option (list block * Z * list block) :=
  match bl with
  | [] => None
  | b :: r =>
      if negb (is_used b) && (size <=? data_size b) then
        if size + 32 <=? data_size b
        then Some ([], size, Free (data_size b - size - 16) :: r)
        else Some ([], data_size b, r)
      else '(l, n, r) ← first_fit size r; Some (b :: l, n, r)
  end.

(** A free block of [n] bytes in front of [r]. *)
Definition join_next (n : Z) (r : list block) : list block :=
  match r with Free k :: r => Free (n + 16 + k) :: r | _ => Free n :: r end.

(** The list [l] in front of a free block of [n] bytes and [r]. *)
Fixpoint join_prev (l : list block) (n : Z) (r : list block) : list block :=
  match l with
  | [] => Free n :: r
  | [Free k] => Free (k + 16 + n) :: r
  | b :: l => b :: join_prev l n r
  end.

Definition release (l : list block) (n : Z) (r : list block) : list block :=
  match r with
  | Free k :: r => join_prev l (n + 16 + k) r
  | _ => join_prev l n r
  end.

(** ** Lemmas on lists of blocks *)

Lemma span_pos b : block_ok b -> 16 <= span b /\ span b mod 8 = 0.
Proof. intros [? ?]%block_ok_nonneg. unfold span. split; [lia|zlia]. Qed.

Lemma extent_app l r : extent (l ++ r) = extent l + extent r.
Proof. induction l as [|b l IH]; simpl; [done|]. lia. Qed.

Lemma used_extent_app l r : used_extent (l ++ r) = used_extent l + used_extent r.
Proof. induction l as [|b l IH]; simpl; [done|]. lia. Qed.

Lemma extent_ok bl : Forall block_ok bl -> 0 <= extent bl /\ extent bl mod 8 = 0.
Proof. induction 1 as [|b bl Hb _ IH]; simpl; [done|]. apply span_pos in Hb. zlia. Qed.

Lemma used_extent_ok bl :
  Forall block_ok bl -> 0 <= used_extent bl <= extent bl.
Proof.
  induction 1 as [|b bl Hb _ IH]; simpl; [lia|]. apply span_pos in Hb. destruct (is_used b); lia.
Qed.

Lemma last_off_app prev off l r :
  last_off prev off (l ++ r) = last_off (last_off prev off l) (off + extent l) r.
Proof.
  revert prev off. induction l as [|b l IH]; intros prev off; simpl; [f_equal; lia|].
  rewrite IH. f_equal. lia.
Qed.

Lemma merged_app l r : merged (l ++ r) = merged l && merged r && (head_used (rev l) || head_used r).
Proof.
  induction l as [|b l IH]; simpl; [by rewrite Bool.andb_true_r|].
  rewrite IH. destruct l as [|c l]; simpl.
  - destruct (is_used b), (head_used r), (merged r); done.
  - destruct (rev l ++ [c]) as [|x y] eqn:E; [by destruct (rev l)|]. simpl.
    by rewrite <- !Bool.andb_assoc.
Qed.

Lemma first_free_app off l r :
  first_free off (l ++ r) =
  if forallb is_used l then first_free (off + extent l) r else first_free off l.
Proof.
  revert off. induction l as [|b l IH]; intros off; simpl; [f_equal; lia|].
  destruct (is_used b); simpl; [|done]. rewrite IH. destruct (forallb is_used l); [f_equal; lia|done].
Qed.

Lemma first_free_range off bl :
  Forall block_ok bl -> off <= first_free off bl <= off + extent bl.
Proof.
  intros H. revert off. induction H as [|b bl Hb Hbl IH]; intros off; simpl; [lia|].
  apply span_pos in Hb. apply extent_ok in Hbl. destruct (is_used b); [|lia].
  specialize (IH (off + span b)). lia.
Qed.

Lemma first_free_lt off bl :
  Forall block_ok bl -> forallb is_used bl = false -> first_free off bl < off + extent bl.
Proof.
  intros H. revert off. induction H as [|b bl Hb Hbl IH]; intros off; simpl; [done|].
  apply span_pos in Hb. apply extent_ok in Hbl. destruct (is_used b); simpl; [|lia].
  intros Hu. specialize (IH (off + span b) Hu). lia.
Qed.

(** A word read that a write elsewhere leaves alone. *)
Ltac word_out E G :=
  rewrite <- (get32_blit_out _ _ _ _ _ E) in G by (rewrite Zlen_le32; lia).

(** ** The blocks in memory *)

Section heap.
Context (base size : Z).
Context (Hbase : 56 < base /\ base mod 8 = 0).
Context (Hsize : 0 <= size /\ size mod 8 = 0).
Context (Hfit : base + size + 32 < 2 ^ 32).

(** The pool pointer of a block: the object's address, with the used bit. *)
Definition pool_word (used : bool) : Z := base - SIZEOF_SMALL_MEM + (if used then 1 else 0).

Definition holds (m : bytes) (off : Z) (b : block) : Prop :=
  match b with Used d => slice m (off + 16) (Zlen d) = Ok d | Free _ => True end.

Definition header (m : bytes) (prev off : Z) (b : block) : Prop :=
  get32 m off = Ok (pool_word (is_used b)) /\
  get32 m (off + 4) = Ok (off + span b) /\
  get32 m (off + 8) = Ok prev /\
  holds m off b.

Fixpoint seg (m : bytes) (prev off : Z) (bl : list block) : Prop :=
  match bl with
  | [] => True
  | b :: r => header m prev off b /\ seg m off (off + span b) r
  end.

(** The last blocks and the end header, whose own [prev] nobody reads. *)
Definition tail_at (m : bytes) (prev off : Z) (bl : list block) : Prop :=
  let e := off + extent bl in
  seg m prev off bl /\ get32 m e = Ok (pool_word true) /\ get32 m (e + 4) = Ok e /\
  e = size + 16 /\ Zlen m = size + 32.

Definition layout (m : bytes) (bl : list block) : Prop :=
  Forall block_ok bl /\ tail_at m 0 0 bl.

(** What never changes in the object. *)
Definition conf (s : rt_small_mem) : Prop :=
  obj_type s = Z.lor RT_Object_Class_Memory RT_Object_Class_Static /\
  self s = base - SIZEOF_SMALL_MEM /\ address s = base /\ total s = size /\
  heap_ptr s = base /\ heap_end s = size + 16 /\ mem_size_aligned s = size.

Definition raw_ok (s : rt_small_mem) (bl : list block) : Prop :=
  conf s /\ layout (ram s) bl /\ lfree s = first_free 0 bl /\
  used s = used_extent bl /\ used s <= max s <= size + 16.

Definition heap_ok (s : rt_small_mem) (bl : list block) : Prop :=
  raw_ok s bl /\ merged bl = true.

Lemma holds_out m a src m' off b :
  blit m a src = Ok m' -> a + Zlen src <= off + 16 \/ off + span b <= a ->
  holds m off b -> holds m' off b.
Proof.
  intros E Ho. destruct b as [n|d]; [done|]. unfold holds, span in *. simpl in Ho.
  by rewrite (slice_blit_out _ _ _ _ _ _ E) by lia.
Qed.

Lemma header_out m a src m' prev off b :
  block_ok b -> blit m a src = Ok m' -> a + Zlen src <= off \/ off + span b <= a ->
  header m prev off b -> header m' prev off b.
Proof.
  intros Hb E Ho (H1 & H2 & H3 & H4). pose proof (span_pos b Hb) as [Hs _].
  unfold header. rewrite !(get32_blit_out _ _ _ _ _ E) by lia. split_and!; [done..|].
  eapply holds_out; [done| |done]. lia.
Qed.

Lemma seg_out m a src m' prev off bl :
  Forall block_ok bl -> blit m a src = Ok m' -> a + Zlen src <= off \/ off + extent bl <= a ->
  seg m prev off bl -> seg m' prev off bl.
Proof.
  intros Hbl E. revert prev off. induction Hbl as [|b bl Hb Hbl IH]; intros prev off Ho; simpl; [done|].
  simpl in Ho. pose proof (span_pos b Hb). pose proof (extent_ok bl Hbl).
  intros [H1 H2]. split; [eapply header_out; [done..| |done]; lia|]. apply IH; [lia|done].
Qed.

Lemma tail_out m a src m' prev off bl :
  Forall block_ok bl -> blit m a src = Ok m' -> a + Zlen src <= off ->
  tail_at m prev off bl -> tail_at m' prev off bl.
Proof.
  intros Hbl E Ho (H1 & H2 & H3 & H4 & H5). pose proof (extent_ok bl Hbl).
  unfold tail_at. rewrite !(get32_blit_out _ _ _ _ _ E) by lia.
  split_and!; [eapply seg_out; [done..| |done]; lia|done..|]. rewrite (blit_Zlen _ _ _ _ E). done.
Qed.

(** Changing the back link of whatever follows a block. *)
Lemma tail_prev m m' prev off bl v :
  Forall block_ok bl -> set32 m (off + 8) v = Ok m' -> fits 32 v ->
  tail_at m prev off bl -> tail_at m' v off bl.
Proof.
  intros Hbl E Hv (H1 & H2 & H3 & H4 & H5). pose proof (extent_ok bl Hbl).
  pose proof (get32_set32 _ _ _ _ Hv E) as Hp. unfold set32 in E.
  pose proof (Zlen_le32 v) as Hl. unfold tail_at. rewrite (blit_Zlen _ _ _ _ E).
  destruct bl as [|b bl]; simpl extent in *.
  - simpl. rewrite !(get32_blit_out _ _ _ _ _ E) by lia. done.
  - inversion Hbl as [|? ? Hb Hbl']; subst. pose proof (span_pos b Hb). pose proof (extent_ok bl Hbl').
    rewrite !(get32_blit_out _ _ _ _ _ E) by lia. destruct H1 as [(G1 & G2 & G3 & G4) H1].
    split_and!; [|done..|lia|done]. split.
    + unfold header. rewrite !(get32_blit_out m _ _ m' _ E) by lia. split_and!; [done..|].
      eapply holds_out; [done| |done]. lia.
    + eapply seg_out; [done..| |done]. lia.
Qed.

Lemma seg_app m prev off l r :
  seg m prev off (l ++ r) <-> seg m prev off l /\ seg m (last_off prev off l) (off + extent l) r.
Proof.
  revert prev off. induction l as [|b l IH]; intros prev off; simpl.
  - replace (off + 0) with off by lia. naive_solver.
  - rewrite IH. replace (off + (span b + extent l)) with (off + span b + extent l) by lia. naive_solver.
Qed.

Lemma tail_app m prev off l r :
  tail_at m prev off (l ++ r) <->
  seg m prev off l /\ tail_at m (last_off prev off l) (off + extent l) r.
Proof.
  unfold tail_at. rewrite seg_app, extent_app.
  replace (off + (extent l + extent r)) with (off + extent l + extent r) by lia. naive_solver.
Qed.

Lemma tail_cons m prev off b r :
  tail_at m prev off (b :: r) <-> header m prev off b /\ tail_at m off (off + span b) r.
Proof.
  unfold tail_at. simpl.
  replace (off + (span b + extent r)) with (off + span b + extent r) by lia. naive_solver.
Qed.

(** The heap around one block. *)
Lemma layout_mid m l b r :
  layout m (l ++ b :: r) <->
  (Forall block_ok l /\ block_ok b /\ Forall block_ok r) /\
  seg m 0 0 l /\ header m (last_off 0 0 l) (extent l) b /\
  tail_at m (extent l) (extent l + span b) r.
Proof.
  unfold layout. rewrite Forall_app, Forall_cons, tail_app, tail_cons, Z.add_0_l. naive_solver.
Qed.

Lemma tail_end m prev off r : tail_at m prev off r -> off + extent r = size + 16 /\ Zlen m = size + 32.
Proof. by intros (_ & _ & _ & ? & ?). Qed.

(** The used bit of whatever follows a block. *)
Lemma tail_pool m prev off r :
  tail_at m prev off r -> get32 m off = Ok (pool_word (head_used r)).
Proof.
  intros (H1 & H2 & _). destruct r as [|b r]; simpl in *.
  - by replace (off + 0) with off in H2 by lia.
  - apply H1.
Qed.

(** A word written elsewhere leaves a segment, a header or the rest of the heap alone. *)
Ltac through E :=
  repeat match type of E with
  | set32 ?m _ _ = Ok _ =>
      match goal with
      | H : seg m ?p ?o ?bl |- _ =>
          apply (seg_out m _ _ _ p o bl ltac:(assumption) E) in H; [|rewrite Zlen_le32; lia]
      | H : holds m ?o ?b |- _ =>
          apply (holds_out m _ _ _ o b E) in H; [|rewrite Zlen_le32; lia]
      | H : header m ?p ?o ?b |- _ =>
          apply (header_out m _ _ _ p o b ltac:(assumption) E) in H; [|rewrite Zlen_le32; lia]
      | H : tail_at m ?p ?o ?bl |- _ =>
          apply (tail_out m _ _ _ p o bl ltac:(assumption) E) in H; [|rewrite Zlen_le32; lia]
      end
  end.

Lemma offset_fits x : 0 <= x <= size + 16 -> fits 32 x.
Proof. unfold fits. lia. Qed.

Lemma free_ok n k : block_ok (Free n) -> block_ok (Free k) -> block_ok (Free (n + 16 + k)).
Proof. unfold block_ok. simpl. zlia. Qed.

(** Two free neighbours become one. *)
Lemma layout_join m m1 m2 m3 l n k r :
  layout m (l ++ Free n :: Free k :: r) ->
  let p := extent l in
  set32 m (p + 16 + n) 0 = Ok m1 ->
  set32 m1 (p + 4) (p + 16 + n + 16 + k) = Ok m2 ->
  set32 m2 (p + 16 + n + 16 + k + 8) p = Ok m3 ->
  layout m3 (l ++ Free (n + 16 + k) :: r).
Proof.
  intros ((Hl & Hn & (Hk & Hr)%Forall_cons) & Hs & Hh & (Hh2 & Ht)%tail_cons)%layout_mid p E1 E2 E3.
  pose proof (extent_ok l Hl) as [? _]. pose proof (extent_ok r Hr) as [? _].
  pose proof (span_pos _ Hn) as [? _]. pose proof (span_pos _ Hk) as [? _].
  pose proof (tail_end _ _ _ _ Ht) as [He _].
  apply layout_mid. split; [split_and!; [done|by apply free_ok|done]|].
  unfold span in *. cbn [data_size] in *. fold p in Hh, Ht, He |- *.
  assert (p = extent l) as Ep by done. clearbody p.
  replace (p + (16 + n) + (16 + k)) with (p + 16 + n + 16 + k) in Ht, He by lia.
  replace (p + (16 + (n + 16 + k))) with (p + 16 + n + 16 + k) by lia.
  set (e := p + 16 + n + 16 + k) in *.
  assert (fits 32 e /\ fits 32 p) as [Fe Fp] by (split; apply offset_fits; lia).
  assert (header m1 (last_off 0 0 l) p (Free n)) as Hh1.
  { eapply header_out; [done|exact E1| |done]. rewrite Zlen_le32. unfold span. simpl. lia. }
  clear Hh Hh2. through E1.
  pose proof (get32_set32 _ _ _ _ Fe E2) as G2.
  destruct Hh1 as (G1 & _ & G3 & _).
  word_out E2 G1. word_out E2 G3. through E2.
  word_out E3 G1. word_out E3 G2. word_out E3 G3. through E3.
  apply (tail_prev _ _ _ _ _ _ Hr E3 Fp) in Ht.
  split; [done|]. split; [|done].
  unfold header, span. simpl. split_and!; [done| |done|done].
  rewrite G2. f_equal. lia.
Qed.

(** The part of a block that a cut leaves. *)
Definition cut (b : block) (sz : Z) : block :=
  match b with Free _ => Free sz | Used d => Used (take (Z.to_nat sz) d) end.

Lemma cut_size b sz : 0 <= sz <= data_size b -> data_size (cut b sz) = sz.
Proof. destruct b as [n|d]; simpl; [done|]. unfold Zlen. rewrite length_take. lia. Qed.

Lemma cut_used b sz : is_used (cut b sz) = is_used b.
Proof. by destruct b. Qed.

Lemma tail_nil m prev off r v :
  Forall block_ok r -> off = size + 16 -> tail_at m prev off r -> tail_at m v off r /\ r = [].
Proof.
  intros Hr -> Ht. pose proof (tail_end _ _ _ _ Ht) as [He _].
  destruct r as [|b r]; [done|]. apply Forall_cons in Hr as [Hb Hr].
  apply span_pos in Hb. apply extent_ok in Hr. simpl in He. lia.
Qed.

Lemma holds_cut m off b sz :
  0 <= sz <= data_size b -> holds m off b -> holds m off (cut b sz).
Proof.
  destruct b as [n|d]; [done|]. simpl. intros Hz Hh.
  replace (Zlen (take (Z.to_nat sz) d)) with sz by (unfold Zlen in *; rewrite length_take; lia).
  apply (slice_prefix _ _ _ _ _ Hh). lia.
Qed.

(** A block is cut in two, the second part free. *)
Lemma layout_cut m m1 m2 m3 m4 m5 l b r sz :
  layout m (l ++ b :: r) -> 8 <= sz -> sz mod 8 = 0 -> sz + 16 <= data_size b ->
  let p := extent l in
  let q := p + 16 + sz in
  let e := p + span b in
  set32 m q (pool_word false) = Ok m1 ->
  set32 m1 (q + 4) e = Ok m2 ->
  set32 m2 (q + 8) p = Ok m3 ->
  set32 m3 (p + 4) q = Ok m4 ->
  (if e =? size + 16 then m5 = m4 else set32 m4 (e + 8) q = Ok m5) ->
  layout m5 (l ++ cut b sz :: Free (data_size b - sz - 16) :: r).
Proof.
  intros ((Hl & Hb & Hr) & Hs & Hh & Ht)%layout_mid Hz0 Hz8 Hz p q e E1 E2 E3 E4 E5.
  pose proof (extent_ok l Hl) as [? _]. pose proof (extent_ok r Hr) as [? _].
  pose proof (tail_end _ _ _ _ Ht) as [He _]. fold p in Hh, Ht, He. fold e in Ht, He.
  assert (p = extent l /\ q = p + 16 + sz /\ e = p + 16 + data_size b) as (Ep & Eq & Ee)
    by (unfold p, q, e, span; lia). clearbody p q e.
  assert (fits 32 e /\ fits 32 p /\ fits 32 q) as (Fe & Fp & Fq) by (split_and!; apply offset_fits; lia).
  assert (fits 32 (pool_word false)) as Fw by (unfold fits, pool_word, SIZEOF_SMALL_MEM; lia).
  destruct Hh as (G1 & _ & G3 & G4). apply block_ok_nonneg in Hb as [Hb0 Hb8].
  apply (holds_cut _ _ _ sz) in G4; [|lia].
  assert (data_size (cut b sz) = sz) as Hc by (apply cut_size; lia).
  assert (span (cut b sz) = 16 + sz) as Hc' by (unfold span; lia).
  apply layout_mid. rewrite Forall_cons, tail_cons. unfold header. rewrite Hc', cut_used.
  unfold span. cbn [data_size is_used].
  rewrite <- !Ep. replace (p + (16 + sz)) with q by lia.
  replace (q + (16 + (data_size b - sz - 16))) with e by lia.
  split; [unfold block_ok; rewrite Hc, cut_used; cbn [data_size is_used]; split_and!;
    try done; try zlia; destruct (is_used b); lia|].
  (* the five writes *)
  pose proof (get32_set32 _ _ _ _ Fw E1) as W1. word_out E1 G1. word_out E1 G3. through E1.
  pose proof (get32_set32 _ _ _ _ Fe E2) as W2. word_out E2 G1. word_out E2 G3. word_out E2 W1. through E2.
  pose proof (get32_set32 _ _ _ _ Fp E3) as W3. word_out E3 G1. word_out E3 G3. word_out E3 W1.
  word_out E3 W2. through E3.
  pose proof (get32_set32 _ _ _ _ Fq E4) as W4. word_out E4 G1. word_out E4 G3. word_out E4 W1.
  word_out E4 W2. word_out E4 W3. through E4.
  destruct (Z.eqb_spec e (size + 16)) as [He'|He'].
  { subst m5. destruct (tail_nil _ _ _ _ q Hr He' Ht) as [Ht' _]. by split_and!. }
  apply (tail_prev _ _ _ _ _ _ Hr E5 Fq) in Ht.
  word_out E5 G1. word_out E5 G3. word_out E5 W1. word_out E5 W2. word_out E5 W3. word_out E5 W4.
  through E5. by split_and!.
Qed.

(** A write inside a slice is a write in its value. *)
Lemma slice_blit_sub (m : bytes) off n d k v m' :
  slice m off n = Ok d -> blit m (off + k) v = Ok m' -> 0 <= k -> k + Zlen v <= n ->
  exists d', blit d k v = Ok d' /\ Zlen d' = n /\ slice m' off n = Ok d'.
Proof.
  intros Hs Hb Hk Hv. pose proof (slice_Zlen _ _ _ _ Hs) as (Hd & Ho & Hn).
  pose proof (blit_Zlen _ _ _ _ Hb) as Hl. pose proof (Zlen_nonneg v).
  assert (exists d', blit d k v = Ok d') as [d' Ed].
  { unfold blit. rewrite decide_True by lia. by eexists. }
  exists d'. split; [done|]. split; [rewrite (blit_Zlen _ _ _ _ Ed); lia|].
  rewrite slice_in in Hs |- * by lia. injection Hs as <-. f_equal.
  unfold blit in Hb, Ed. rewrite decide_True in Hb by lia. rewrite decide_True in Ed by lia.
  injection Hb as <-. injection Ed as <-. unfold Zlen in *. list_solve.
Qed.

Lemma holds_free m off n d : holds m off (Used d) -> Zlen d = n -> slice m (off + 16) n = Ok d.
Proof. by intros Hh <-. Qed.

(** Only the pool word of a block changes: it is given out, or taken back. *)
Lemma layout_tag m m' l b b' r :
  layout m (l ++ b :: r) -> block_ok b' -> data_size b' = data_size b ->
  set32 m (extent l) (pool_word (is_used b')) = Ok m' -> holds m (extent l) b' ->
  layout m' (l ++ b' :: r).
Proof.
  intros ((Hl & Hb & Hr) & Hs & (G1 & G2 & G3 & _) & Ht)%layout_mid Hb' Hd E Hh.
  pose proof (span_pos _ Hb) as [? _].
  assert (span b' = span b) as Hsp by (unfold span; lia).
  apply layout_mid. unfold header. rewrite Hsp.
  split; [by split_and!|].
  assert (fits 32 (pool_word (is_used b'))) as Fw
    by (unfold fits, pool_word, SIZEOF_SMALL_MEM; destruct (is_used b'); lia).
  pose proof (get32_set32 _ _ _ _ Fw E) as W. word_out E G2. word_out E G3. through E.
  by split_and!.
Qed.

Lemma layout_claim m m' l n r :
  layout m (l ++ Free n :: r) -> 8 <= n -> set32 m (extent l) (pool_word true) = Ok m' ->
  exists d, Zlen d = n /\ layout m' (l ++ Used d :: r).
Proof.
  intros Hm Hn E. pose proof Hm as ((Hl & [Hb Hb8] & Hr) & _ & _ & Ht)%layout_mid.
  apply tail_end in Ht as [He Hz]. apply extent_ok in Hl, Hr. unfold span in He. simpl in *.
  assert (slice m (extent l + 16) n = Ok (take (Z.to_nat n) (drop (Z.to_nat (extent l + 16)) m)))
    as Hs by (apply slice_in; lia).
  eexists. split; [by apply (slice_Zlen _ _ _ _ Hs)|].
  apply (layout_tag _ _ _ _ _ _ Hm); simpl; [|by apply (slice_Zlen _ _ _ _ Hs)|done|].
  { unfold block_ok. simpl. by rewrite (proj1 (slice_Zlen _ _ _ _ Hs)). }
  by rewrite (proj1 (slice_Zlen _ _ _ _ Hs)).
Qed.

Lemma layout_release m m' l d r :
  layout m (l ++ Used d :: r) -> set32 m (extent l) (pool_word false) = Ok m' ->
  layout m' (l ++ Free (Zlen d) :: r).
Proof.
  intros Hm E. apply (layout_tag _ _ _ _ _ _ Hm); [|done..].
  apply layout_mid in Hm as ((_ & Hb & _) & _). apply block_ok_nonneg in Hb. apply Hb.
Qed.

(** Writing the data of a used block. *)
Lemma layout_write m m' l d r k v :
  layout m (l ++ Used d :: r) -> blit m (extent l + 16 + k) v = Ok m' ->
  0 <= k -> k + Zlen v <= Zlen d ->
  exists d', blit d k v = Ok d' /\ layout m' (l ++ Used d' :: r).
Proof.
  intros ((Hl & Hb & Hr) & Hs & (G1 & G2 & G3 & Hh) & Ht)%layout_mid E Hk Hv.
  destruct (slice_blit_sub _ _ _ _ _ _ _ Hh E Hk Hv) as (d' & Ed & Hd & Hh').
  exists d'. split; [done|]. apply layout_mid.
  assert (span (Used d') = span (Used d)) as Hsp by (unfold span; simpl; lia).
  unfold header. rewrite Hsp. unfold span in *. simpl in *.
  split; [split_and!; [done|unfold block_ok; simpl; by rewrite Hd|done]|].
  rewrite !(get32_blit_out _ _ _ _ _ E) by lia. simpl. rewrite Hd.
  split_and!; try done.
  - eapply seg_out; [done|done| |done]. lia.
  - eapply tail_out; [done|done| |done]. lia.
Qed.

(** ** Running the allocator's statements *)

Lemma wp_rd a v (Q : Z -> rt_small_mem -> Prop) s :
  get32 (ram s) a = Ok v -> Q v s -> wp (rd a) Q s.
Proof. intros E HQ. unfold wp, rd, lift. by rewrite E. Qed.

Lemma wp_wr a v (Q : unit -> rt_small_mem -> Prop) s :
  0 <= a -> a + 4 <= Zlen (ram s) ->
  (forall m, set32 (ram s) a v = Ok m -> Zlen m = Zlen (ram s) -> Q tt (set_ram m s)) ->
  wp (wr a v) Q s.
Proof.
  intros Ha Hl HQ. destruct (set32_in (ram s) a v Ha Hl) as (m & E & Hm).
  unfold wp, wr. rewrite E. by apply HQ.
Qed.

Lemma wp_assert b (Q : unit -> rt_small_mem -> Prop) s : b = true -> Q tt s -> wp (RT_ASSERT b) Q s.
Proof. by intros ->. Qed.

Lemma pool_fits u : fits 32 (pool_word u).
Proof. unfold fits, pool_word, SIZEOF_SMALL_MEM. destruct u; lia. Qed.

Lemma pool_bit u : Z.land (pool_word u) 1 = if u then 1 else 0.
Proof. rewrite land_1. unfold pool_word, SIZEOF_SMALL_MEM. destruct u; zlia. Qed.

Lemma pool_mask u : Z.land (pool_word u) MEM_MASK = base - SIZEOF_SMALL_MEM.
Proof.
  rewrite land_mask by apply pool_fits. unfold pool_word, SIZEOF_SMALL_MEM. destruct u; zlia.
Qed.

Lemma freed_word : MEM_FREED (base - SIZEOF_SMALL_MEM) = pool_word false.
Proof.
  pose proof (pool_mask false) as E. unfold MEM_FREED. unfold pool_word in *.
  rewrite Z.add_0_r in *. by rewrite E, Z.lor_0_r.
Qed.

Lemma used_word : MEM_USED (base - SIZEOF_SMALL_MEM) = pool_word true.
Proof.
  unfold MEM_USED. pose proof (pool_fits false) as Hf. unfold pool_word in *.
  rewrite Z.add_0_r in Hf. rewrite land_mask, lor_1 by done. unfold SIZEOF_SMALL_MEM. zlia.
Qed.

Lemma wp_isused p u (Q : bool -> rt_small_mem -> Prop) s :
  get32 (ram s) p = Ok (pool_word u) -> Q u s -> wp (MEM_ISUSED p) Q s.
Proof.
  intros E HQ. apply wp_bind. eapply wp_rd; [done|]. apply wp_ret. rewrite pool_bit. by destruct u.
Qed.

Lemma wp_mem_pool p u (Q : Z -> rt_small_mem -> Prop) s :
  get32 (ram s) p = Ok (pool_word u) -> Q (base - SIZEOF_SMALL_MEM) s -> wp (MEM_POOL p) Q s.
Proof.
  intros E HQ. apply wp_bind. eapply wp_rd; [done|]. apply wp_ret. by rewrite pool_mask.
Qed.

Lemma wp_check_object (Q : unit -> rt_small_mem -> Prop) s :
  conf s -> Q tt s -> wp check_object Q s.
Proof.
  intros (Ht & _) HQ. unfold check_object. apply wp_bind, wp_gets. rewrite Ht.
  apply wp_bind, wp_assert; [done|]. by apply wp_assert.
Qed.

(** What the code reads around a block. *)
Lemma mid_reads m l b r :
  layout m (l ++ b :: r) ->
  let p := extent l in
  get32 m p = Ok (pool_word (is_used b)) /\
  get32 m (p + 4) = Ok (p + span b) /\
  get32 m (p + 8) = Ok (last_off 0 0 l) /\
  get32 m (p + span b) = Ok (pool_word (head_used r)) /\
  0 <= p /\ (if is_used b then 8 else 0) <= data_size b /\ p + span b + extent r = size + 16 /\ 0 <= extent r /\
  Zlen m = size + 32.
Proof.
  intros ((Hl & [Hb _] & Hr) & _ & (G1 & G2 & G3 & _) & Ht)%layout_mid.
  pose proof (tail_end _ _ _ _ Ht). pose proof (extent_ok l Hl). pose proof (extent_ok r Hr).
  split_and!; try done; try tauto. by apply (tail_pool _ _ _ _ Ht).
Qed.

Lemma raw_layout s bl : raw_ok s bl -> layout (ram s) bl.
Proof. by intros (_ & ? & _). Qed.

(** A memory that changes, and blocks that keep what the object knows of them. *)
Lemma raw_ram s m bl bl' :
  raw_ok s bl -> layout m bl' -> first_free 0 bl' = first_free 0 bl ->
  used_extent bl' = used_extent bl -> raw_ok (set_ram m s) bl'.
Proof. intros (Hc & _ & Hf & Hu & Hm) Hl E1 E2. unfold raw_ok. simpl. rewrite E1, E2. done. Qed.

Lemma first_free_mid l n r k r' :
  first_free 0 (l ++ Free n :: r) = first_free 0 (l ++ Free k :: r').
Proof. by rewrite !first_free_app. Qed.

Lemma first_free_le l n r : Forall block_ok l -> first_free 0 (l ++ Free n :: r) <= extent l.
Proof.
  intros Hl. rewrite first_free_app. simpl. destruct (forallb is_used l); [lia|].
  pose proof (first_free_range 0 l Hl). lia.
Qed.

(** A header word that no release accepts: that of a free block, or one joined away. *)
Definition dead (m : bytes) (p : Z) : Prop :=
  exists w, get32 m p = Ok w /\ (w = 0 \/ w = pool_word false).

(** The three writes that join a free block with a free block behind it. *)
Lemma wp_join l n k r s (Q : unit -> rt_small_mem -> Prop) :
  raw_ok s (l ++ Free n :: Free k :: r) ->
  let p := extent l in
  (forall s', raw_ok s' (l ++ Free (n + 16 + k) :: r) -> dead (ram s') (p + 16 + n) -> Q tt s') ->
  wp (set_pool (p + 16 + n) 0 ;;; e ← get_next (p + 16 + n); set_next p e ;;; set_prev e p) Q s.
Proof.
  intros Hs p HQ. pose proof (raw_layout _ _ Hs) as Hm.
  assert (layout (ram s) ((l ++ [Free n]) ++ Free k :: r)) as Hm' by (by rewrite <- app_assoc).
  destruct (mid_reads _ _ _ _ Hm) as (_ & _ & _ & _ & Hp & Hn & He & _ & Hz).
  destruct (mid_reads _ _ _ _ Hm') as (_ & G & _ & _ & _ & Hk & He' & Hr & _).
  rewrite extent_app in *. simpl extent in *. unfold span in *. simpl in *. fold p in Hp, He, G, He'.
  replace (p + (16 + n + 0) + 4) with (p + 16 + n + 4) in G by lia.
  replace (p + (16 + n + 0) + (16 + k)) with (p + 16 + n + 16 + k) in G by lia.
  apply wp_bind, wp_wr; [lia|lia|]. intros m1 E1 Z1.
  apply wp_bind. eapply wp_rd.
  { simpl. rewrite (get32_blit_out _ _ _ _ _ E1) by (rewrite Zlen_le32; lia). exact G. }
  apply wp_bind, wp_wr; [lia|simpl; lia|]. intros m2 E2 Z2. simpl in E2, Z2.
  apply wp_wr; [lia|simpl; lia|]. intros m3 E3 Z3. simpl in E3, Z3.
  apply HQ.
  - eapply (raw_ram s); [exact Hs|by eapply layout_join| |].
    + apply first_free_mid.
    + rewrite !used_extent_app. simpl. lia.
  - exists 0. split; [|by left]. simpl. assert (fits 32 0) as F0 by (unfold fits; lia).
    pose proof (get32_set32 _ _ _ _ F0 E1) as W. word_out E2 W. by word_out E3 W.
Qed.

Lemma wp_plug_next l n r s (Q : unit -> rt_small_mem -> Prop) :
  raw_ok s (l ++ Free n :: r) ->
  (forall s', raw_ok s' (l ++ join_next n r) -> Q tt s') ->
  wp (plug_next (extent l)) Q s.
Proof.
  intros Hs HQ. pose proof Hs as ((_ & _ & _ & _ & _ & Hend & _) & Hm & Hlf & _).
  destruct (mid_reads _ _ _ _ Hm) as (_ & G2 & _ & G4 & Hp & Hn & He & Hr & Hz).
  pose proof Hm as ((Hl & _ & Hrok) & _)%layout_mid.
  unfold span in *. simpl in *. unfold plug_next.
  apply wp_bind. eapply wp_rd; [exact G2|]. apply wp_bind, wp_gets.
  apply wp_bind. eapply wp_isused; [exact G4|]. rewrite Hend.
  destruct r as [|[k|d] r]; simpl in *.
  - rewrite Bool.andb_false_r. simpl. by apply HQ.
  - pose proof (Forall_inv Hrok) as [Hk _]. apply Forall_inv_tail, extent_ok in Hrok.
    unfold span in *. simpl in *.
    rewrite (proj2 (Z.eqb_neq _ _)) by lia. rewrite (proj2 (Z.eqb_neq _ (size + 16))) by lia.
    simpl. apply wp_bind, wp_gets. rewrite (proj2 (Z.eqb_neq _ _)).
    2: { rewrite Hlf. pose proof (first_free_le l n (Free k :: r) Hl). lia. }
    replace (extent l + (16 + n)) with (extent l + 16 + n) by lia.
    apply (wp_join l n k r); [done|]. intros s' ? _. by apply HQ.
  - rewrite Bool.andb_false_r. simpl. by apply HQ.
Qed.

Lemma join_prev_snoc l b n r :
  join_prev (l ++ [b]) n r =
  l ++ match b with Free k => Free (k + 16 + n) :: r | Used _ => b :: Free n :: r end.
Proof.
  induction l as [|c l IH]; simpl; [by destruct b|]. rewrite IH.
  destruct c; [|done]. by destruct l.
Qed.

Lemma last_off_snoc prev off l b : last_off prev off (l ++ [b]) = off + extent l.
Proof. by rewrite last_off_app. Qed.

Lemma wp_plug_prev l n r s (Q : unit -> rt_small_mem -> Prop) :
  raw_ok s (l ++ Free n :: r) ->
  (forall s', raw_ok s' (join_prev l n r) -> dead (ram s') (extent l) -> Q tt s') ->
  wp (plug_prev (extent l)) Q s.
Proof.
  intros Hs HQ. pose proof Hs as (_ & Hm & Hlf & _).
  destruct (mid_reads _ _ _ _ Hm) as (G1 & _ & G3 & _ & Hp & _).
  unfold plug_prev. apply wp_bind. eapply wp_rd; [exact G3|].
  destruct l as [|b l _] using rev_ind.
  { apply wp_bind. eapply wp_isused; [exact G1|]. apply HQ; [done|].
    exists (pool_word false). split; [exact G1|by right]. }
  rewrite last_off_snoc, Z.add_0_l. rewrite join_prev_snoc in HQ.
  rewrite <- app_assoc in Hs, Hm, Hlf. simpl in Hs, Hm, Hlf.
  destruct (mid_reads _ _ _ _ Hm) as (G1' & _ & _ & _ & _ & Hb & _).
  apply wp_bind. eapply wp_isused; [exact G1'|]. rewrite extent_app. simpl.
  assert (extent (l ++ [b]) = extent l + (16 + data_size b + 0)) as El
    by (rewrite extent_app; simpl; unfold span; lia).
  destruct b as [k|d]; simpl in *.
  2: { rewrite Bool.andb_false_r. apply HQ; [done|].
       exists (pool_word false). split; [exact G1|by right]. }
  unfold span. simpl. rewrite (proj2 (Z.eqb_neq _ _)) by lia. simpl.
  apply wp_bind, wp_gets. rewrite (proj2 (Z.eqb_neq _ _)).
  2: { rewrite Hlf. pose proof Hm as ((Hl & _) & _)%layout_mid.
       pose proof (first_free_le l k (Free n :: r) Hl). lia. }
  replace (extent l + (16 + k + 0)) with (extent l + 16 + k) by lia.
  apply (wp_join l k n r); [done|]. intros s' H1 H2. apply HQ; [done|].
  by replace (extent (l ++ [Free k])) with (extent l + 16 + k) by lia.
Qed.

Lemma wp_plug_holes l n r s (Q : unit -> rt_small_mem -> Prop) :
  raw_ok s (l ++ Free n :: r) ->
  (forall s', raw_ok s' (release l n r) -> dead (ram s') (extent l) -> Q tt s') ->
  wp (plug_holes (extent l)) Q s.
Proof.
  intros Hs HQ. pose proof Hs as ((_ & _ & _ & _ & _ & Hend & _) & Hm & _).
  destruct (mid_reads _ _ _ _ Hm) as (_ & _ & _ & _ & Hp & Hn & He & Hr & _).
  unfold span in He. simpl in *. unfold plug_holes. apply wp_bind, wp_gets. rewrite Hend.
  apply wp_bind, wp_assert; [by apply Z.leb_le|].
  apply wp_bind, wp_assert; [apply Z.ltb_lt; lia|].
  apply wp_bind. eapply wp_plug_next; [exact Hs|]. intros s1 H1.
  destruct r as [|[k|d] r]; simpl in *; eapply wp_plug_prev; eauto.
Qed.

Lemma merged_join_prev l n r :
  merged l = true -> merged r = true -> head_used r = true -> merged (join_prev l n r) = true.
Proof.
  intros Hl Hr Hh. destruct l as [|b l _] using rev_ind.
  { simpl. by rewrite Hr, Hh. }
  rewrite join_prev_snoc. rewrite merged_app in Hl. rewrite merged_app.
  apply andb_prop in Hl as [[Hl _]%andb_prop Hb].
  destruct b as [k|d]; simpl in *; rewrite Hl, Hr, Hh; simpl; [|by rewrite Bool.orb_true_r].
  by rewrite Bool.orb_false_r in *.
Qed.

Lemma merged_release l n r :
  merged l = true -> merged r = true -> merged (release l n r) = true.
Proof.
  intros Hl Hr. destruct r as [|[k|d] r]; simpl in *.
  - by apply merged_join_prev.
  - apply andb_prop in Hr as [? ?]. by apply merged_join_prev.
  - by apply merged_join_prev.
Qed.

(** ** Release *)

(** Where the data of a block start. *)
Definition data_addr (l : list block) : Z := base + extent l + 16.

Lemma header_addr l : data_addr l - SIZEOF_STRUCT_MEM - base = extent l.
Proof. unfold data_addr. change SIZEOF_STRUCT_MEM with 16. lia. Qed.

(** Where [lfree] goes when the block behind [l] becomes free. *)
Lemma lfree_release l d n r :
  Forall block_ok l -> Forall block_ok r -> block_ok (Used d) ->
  first_free 0 (l ++ Free n :: r) =
  if extent l <? first_free 0 (l ++ Used d :: r) then extent l else first_free 0 (l ++ Used d :: r).
Proof.
  intros Hl Hr Hd. rewrite !first_free_app. destruct (forallb is_used l) eqn:Eu; simpl.
  - pose proof (first_free_range (0 + extent l + span (Used d)) r Hr). apply span_pos in Hd.
    by rewrite (proj2 (Z.ltb_lt _ _)) by lia.
  - pose proof (first_free_lt 0 l Hl Eu). by rewrite (proj2 (Z.ltb_ge _ _)) by lia.
Qed.

(** The guards of a release, at a block in use. *)
Lemma wp_free_guards l d r s (k : Z -> Z -> M rt_small_mem unit) (Q : unit -> rt_small_mem -> Prop) :
  raw_ok s (l ++ Used d :: r) ->
  wp (k (base - SIZEOF_SMALL_MEM) (extent l + span (Used d))) Q s ->
  wp (small_mem ← MEM_POOL (extent l);
      RT_ASSERT (negb (small_mem =? 0)) ;;;
      u ← MEM_ISUSED (extent l);
      RT_ASSERT u ;;;
      (if small_mem =? self s then mret tt else throw OutOfBounds) ;;;
      check_object ;;;
      RT_ASSERT ((heap_ptr s <=? data_addr l) && (data_addr l <? heap_ptr s + heap_end s)) ;;;
      next ← get_next (extent l);
      p ← MEM_POOL next;
      RT_ASSERT (p =? small_mem) ;;;
      k small_mem next) Q s.
Proof.
  intros (Hc & Hm & _) HQ. pose proof Hc as (_ & Hself & _ & _ & Hptr & Hend & _).
  destruct (mid_reads _ _ _ _ Hm) as (G1 & G2 & _ & G4 & Hp & Hn & He & Hr0 & Hz).
  apply wp_bind. eapply wp_mem_pool; [exact G1|].
  apply wp_bind, wp_assert.
  { apply negb_true_iff, Z.eqb_neq. unfold SIZEOF_SMALL_MEM. lia. }
  apply wp_bind. eapply wp_isused; [exact G1|]. apply wp_bind, wp_assert; [done|].
  rewrite Hself, Z.eqb_refl. apply wp_bind, wp_ret.
  apply wp_bind, wp_check_object; [done|].
  apply wp_bind, wp_assert.
  { unfold data_addr, span in *. simpl in *. apply andb_true_intro.
    split; [apply Z.leb_le|apply Z.ltb_lt]; lia. }
  apply wp_bind. eapply wp_rd; [exact G2|].
  apply wp_bind. eapply wp_mem_pool; [exact G4|].
  apply wp_bind, wp_assert; [apply Z.eqb_refl|done].
Qed.

Lemma wp_free l d r s (Q : unit -> rt_small_mem -> Prop) :
  heap_ok s (l ++ Used d :: r) ->
  (forall s', heap_ok s' (release l (Zlen d) r) -> dead (ram s') (extent l) -> Q tt s') ->
  wp (rt_smem_free (data_addr l)) Q s.
Proof.
  intros [Hs Hmg] HQ. pose proof Hs as (Hc & Hm & Hlf & Hu & Hmax).
  pose proof Hc as (_ & _ & _ & _ & Hptr & Hend & _).
  pose proof Hm as ((Hl & Hb & Hr) & _)%layout_mid. pose proof (extent_ok l Hl) as [_ Hl8].
  destruct (mid_reads _ _ _ _ Hm) as (_ & _ & _ & _ & Hp & Hn & He & Hr0 & Hz).
  unfold rt_smem_free. rewrite (proj2 (Z.eqb_neq _ _)) by (unfold data_addr; lia).
  apply wp_bind, wp_assert.
  { apply Z.eqb_eq. unfold data_addr, RT_ALIGN_SIZE. rewrite land_7. zlia. }
  apply wp_bind, wp_gets. rewrite Hptr, header_addr, <- Hptr.
  apply (wp_free_guards _ _ _ _ (fun small_mem next => _) _ Hs).
  unfold span in *. simpl in He, Hn |- *. rewrite freed_word.
  apply wp_bind, wp_wr; [lia|lia|]. intros m E Zm.
  pose proof (layout_release _ _ _ _ _ Hm E) as Hm'.
  pose proof (lfree_release l d (Zlen d) r Hl Hr Hb) as Ef.
  apply wp_bind. rewrite Hlf.
  set (s1 := if extent l <? first_free 0 (l ++ Used d :: r) then set_lfree (extent l) (set_ram m s)
             else set_ram m s).
  assert (forall Q, Q tt s1 -> wp (if extent l <? first_free 0 (l ++ Used d :: r)
    then modify (set_lfree (extent l)) else mret tt) Q (set_ram m s)) as Hs1
    by (intros ? ?; unfold s1 in *; by case_match).
  apply Hs1. apply wp_bind, wp_modify.
  rewrite merged_app in Hmg. apply andb_prop in Hmg as [[Hml Hmr]%andb_prop _].
  eapply wp_plug_holes; [|intros s2 H2 D2; apply HQ; [split; [exact H2|by apply merged_release]|done]].
  assert (used s1 = used s /\ max s1 = max s /\ ram s1 = m /\
          lfree s1 = first_free 0 (l ++ Free (Zlen d) :: r)) as (F1 & F2 & F3 & F4).
  { rewrite Ef. unfold s1. case_match; done. }
  pose proof (used_extent_ok l Hl). pose proof (used_extent_ok r Hr).
  rewrite used_extent_app in Hu. simpl in Hu. unfold span in Hu. simpl in Hu.
  split; [|split; [simpl; by rewrite F3|split; [exact F4|]]].
  - unfold s1. by case_match.
  - simpl. rewrite F1, F2, Hu, used_extent_app, (wrap_small 32 (_ - extent l)) by lia.
    rewrite wrap_small by lia. simpl. lia.
Qed.

(** ** Allocation *)

(** The block given out of a free block of [k] bytes, and what is left of it. *)
Definition taken (k sz : Z) (r : list block) : Z * list block :=
  if sz + 32 <=? k then (sz, Free (k - sz - 16) :: r) else (k, r).

Lemma wp_split_block l b r sz s (Q : unit -> rt_small_mem -> Prop) :
  conf s -> layout (ram s) (l ++ b :: r) -> 8 <= sz -> sz mod 8 = 0 -> sz + 16 <= data_size b ->
  (forall m, layout m (l ++ cut b sz :: Free (data_size b - sz - 16) :: r) -> Q tt (set_ram m s)) ->
  wp (split_block (extent l) sz (extent l + span b)) Q s.
Proof.
  intros Hc Hm Hz0 Hz8 Hz HQ. pose proof Hc as (_ & Hself & _ & _ & _ & _ & Hms).
  destruct (mid_reads _ _ _ _ Hm) as (_ & _ & _ & _ & Hp & _ & He & Hr0 & Hzl).
  unfold split_block. change SIZEOF_STRUCT_MEM with 16. apply wp_bind, wp_gets.
  rewrite Hself, Hms, freed_word, !wrap_small by (unfold span in *; lia).
  assert (extent l + span b = extent l + 16 + data_size b) as Es by (unfold span; lia).
  apply wp_bind, wp_wr; [lia|lia|]. intros m1 E1 Z1.
  apply wp_bind, wp_wr; [lia|simpl; lia|]. intros m2 E2 Z2. simpl in E2, Z2.
  apply wp_bind, wp_wr; [lia|simpl; lia|]. intros m3 E3 Z3. simpl in E3, Z3.
  apply wp_bind, wp_wr; [lia|simpl; lia|]. intros m4 E4 Z4. simpl in E4, Z4.
  destruct (Z.eqb_spec (extent l + span b) (size + 16)) as [Hend|Hend]; simpl.
  - apply wp_ret, HQ. eapply (layout_cut _ _ _ _ _ m4); eauto.
    by rewrite (proj2 (Z.eqb_eq _ _)) by lia.
  - apply wp_wr; [lia|simpl; lia|]. intros m5 E5 Z5. simpl in E5, Z5. apply HQ.
    eapply (layout_cut _ _ _ _ _ m5); eauto. by rewrite (proj2 (Z.eqb_neq _ _)) by lia.
Qed.

(** The state in which a block is cut out and counted, but still marked free. *)
Definition reserved (l : list block) (n : Z) (r : list block) (s s' : rt_small_mem) : Prop :=
  conf s' /\ layout (ram s') (l ++ Free n :: r) /\ lfree s' = lfree s /\
  used s' = used_extent l + (16 + n) + used_extent r /\ used s' <= max s' <= size + 16.

Lemma wp_add_used l n r r0 k s m (Q : unit -> rt_small_mem -> Prop) :
  raw_ok s (l ++ Free k :: r0) -> layout m (l ++ Free n :: r) ->
  used_extent r = used_extent r0 ->
  (forall s', reserved l n r s s' -> Q tt s') ->
  wp (add_used (16 + n)) Q (set_ram m s).
Proof.
  intros (Hc & _ & _ & Hu & Hmax) Hm Hr0 HQ. apply wp_modify, HQ.
  pose proof Hm as ((Hl & Hb & Hr) & _)%layout_mid.
  destruct (mid_reads _ _ _ _ Hm) as (_ & _ & _ & _ & Hp & Hn & He & _ & _).
  unfold span in He. simpl in *.
  pose proof (used_extent_ok l Hl). pose proof (used_extent_ok r Hr).
  rewrite used_extent_app in Hu. simpl in Hu.
  assert (u32 (used s + (16 + n)) = used_extent l + (16 + n) + used_extent r) as Eu
    by (rewrite wrap_small; lia).
  unfold reserved. simpl. rewrite Eu. split_and!; try done.
  - destruct (Z.ltb_spec (max s) (used_extent l + (16 + n) + used_extent r)); lia.
  - destruct (Z.ltb_spec (max s) (used_extent l + (16 + n) + used_extent r)); lia.
Qed.

Lemma wp_reserve l k r sz s (Q : unit -> rt_small_mem -> Prop) :
  raw_ok s (l ++ Free k :: r) -> 16 <= sz -> sz mod 8 = 0 -> sz <= k ->
  let '(n, r') := taken k sz r in
  (forall s', reserved l n r' s s' -> Q tt s') ->
  wp (if u32 (sz + SIZEOF_STRUCT_MEM + MIN_SIZE_ALIGNED) <=?
         u32 (extent l + span (Free k) - u32 (extent l + SIZEOF_STRUCT_MEM))
      then split_block (extent l) sz (extent l + span (Free k)) ;;; add_used (u32 (sz + SIZEOF_STRUCT_MEM))
      else add_used (u32 (extent l + span (Free k) - extent l))) Q s.
Proof.
  intros Hs Hz Hz8 Hk. pose proof (raw_layout _ _ Hs) as Hm. pose proof Hs as (Hc & _).
  destruct (mid_reads _ _ _ _ Hm) as (_ & _ & _ & _ & Hp & _ & He & Hr0 & _).
  unfold span in He. simpl in He. unfold taken.
  change SIZEOF_STRUCT_MEM with 16. change MIN_SIZE_ALIGNED with 16.
  replace (sz + 16 + 16) with (sz + 32) by lia.
  rewrite (wrap_small 32 (sz + 32)), (wrap_small 32 (extent l + 16)) by lia.
  replace (u32 (extent l + span (Free k) - (extent l + 16))) with k
    by (unfold span; simpl; rewrite wrap_small; lia).
  destruct (Z.leb_spec (sz + 32) k) as [Hle|Hgt]; intros HQ.
  - apply wp_bind. eapply wp_split_block; [done|exact Hm|lia|done|simpl; lia|].
    intros m Hm'. simpl in Hm'. rewrite wrap_small by lia. rewrite Z.add_comm.
    by eapply wp_add_used.
  - replace (u32 (extent l + span (Free k) - extent l)) with (16 + k)
      by (unfold span; simpl; rewrite wrap_small; lia).
    assert (s = set_ram (ram s) s) as Es by (by destruct s).
    rewrite Es. eapply wp_add_used; [exact Hs|done|done|].
    intros s' H'. apply HQ. by rewrite Es.
Qed.

(** Raising the lowest-free pointer finds the first free block from where it is. *)
Lemma wp_raise_lfree fuel l r s (Q : unit -> rt_small_mem -> Prop) :
  conf s -> layout (ram s) (l ++ r) -> lfree s = extent l -> (length r < fuel)%nat ->
  (forall u, get32 (ram s) (first_free (extent l) r) = Ok (pool_word u) ->
     (first_free (extent l) r =? size + 16) || negb u = true ->
     Q tt (set_lfree (first_free (extent l) r) s)) ->
  wp (raise_lfree fuel) Q s.
Proof.
  revert l s fuel. induction r as [|b r IH]; intros l s [|fuel] Hc Hm Hlf Hf HQ; simpl in Hf; try lia;
    pose proof Hc as (_ & _ & _ & _ & _ & Hend & _);
    cbn [raise_lfree]; apply wp_bind, wp_gets; apply wp_bind, wp_gets; rewrite Hlf, Hend.
  - destruct Hm as [_ [_ Ht]%tail_app]. rewrite Z.add_0_l in Ht.
    pose proof (tail_pool _ _ _ _ Ht) as G. apply tail_end in Ht as [Ht _]. simpl in *.
    apply wp_bind. eapply wp_isused; [exact G|]. rewrite (proj2 (Z.eqb_eq _ _)) in HQ |- * by lia.
    simpl. specialize (HQ true G eq_refl).
    assert (set_lfree (extent l) s = s) as Es by (rewrite <- Hlf; by destruct s). by rewrite Es in HQ.
  - destruct (mid_reads _ _ _ _ Hm) as (G1 & G2 & _ & _ & Hp & Hn & He & Hr0 & _).
    assert (extent l <> size + 16) as Hne by (destruct b; unfold span in He; simpl in *; lia).
    apply wp_bind. eapply wp_isused; [exact G1|]. simpl first_free in HQ.
    rewrite (proj2 (Z.eqb_neq (extent l) _)) in * by done. simpl.
    destruct (is_used b); simpl.
    + apply wp_bind. eapply wp_rd; [exact G2|]. apply wp_bind, wp_modify.
      assert (extent l + span b = extent (l ++ [b])) as El by (rewrite extent_app; simpl; lia).
      rewrite El in HQ |- *. apply (IH (l ++ [b])); [done|by rewrite <- app_assoc|done|lia|]. exact HQ.
    + specialize (HQ false G1). apply wp_ret.
      assert (set_lfree (extent l) s = s) as Es by (rewrite <- Hlf; by destruct s). rewrite Es in HQ.
      apply HQ. by rewrite Bool.orb_true_r.
Qed.

Lemma extent_length bl : Forall block_ok bl -> 16 * Z.of_nat (length bl) <= extent bl.
Proof. induction 1 as [|b bl Hb _ IH]; simpl; [lia|]. apply span_pos in Hb. lia. Qed.

(** Raising [lfree] when the block it was at is given out. *)
Lemma wp_lfree_claim l d r s k r0 (Q : unit -> rt_small_mem -> Prop) :
  conf s -> layout (ram s) (l ++ Used d :: r) -> lfree s = first_free 0 (l ++ Free k :: r0) ->
  Q tt (set_lfree (first_free 0 (l ++ Used d :: r)) s) ->
  wp (if extent l =? lfree s then
        raise_lfree (S (Z.to_nat (heap_end s))) ;;;
        lf ← gets lfree;
        u ← MEM_ISUSED lf;
        RT_ASSERT ((lf =? heap_end s) || negb u)
      else mret tt) Q s.
Proof.
  intros Hc Hm Hlf HQ. pose proof Hm as [Hok _]. rewrite first_free_app in HQ, Hlf.
  pose proof Hok as [Hl Hr]%Forall_app. pose proof (extent_length _ Hr).
  destruct (mid_reads _ _ _ _ Hm) as (_ & _ & _ & _ & Hp & _ & He & Hr0 & _).
  destruct (forallb is_used l) eqn:Eu.
  - simpl in Hlf. rewrite Z.add_0_l in Hlf, HQ. rewrite (proj2 (Z.eqb_eq _ _)) by lia.
    pose proof Hc as (_ & _ & _ & _ & _ & Hend & _). rewrite Hend.
    apply wp_bind. eapply (wp_raise_lfree _ l (Used d :: r)); [done|done|done|simpl in *; lia|].
    intros u G Hu. apply wp_bind, wp_gets. apply wp_bind. eapply wp_isused; [exact G|].
    by apply wp_assert.
  - pose proof (first_free_lt 0 l Hl Eu). rewrite (proj2 (Z.eqb_neq _ _)) by lia.
    apply wp_ret. rewrite <- Hlf in HQ. by destruct s.
Qed.

Lemma wp_take_block l k r sz s (Q : Z -> rt_small_mem -> Prop) :
  heap_ok s (l ++ Free k :: r) -> 16 <= sz -> sz mod 8 = 0 -> sz <= k ->
  let '(n, r') := taken k sz r in
  (forall d s', Zlen d = n -> heap_ok s' (l ++ Used d :: r') -> Q (data_addr l) s') ->
  wp (take_block (extent l) sz (extent l + span (Free k))) Q s.
Proof.
  intros [Hs Hmg] Hz Hz8 Hk. pose proof (wp_reserve l k r sz s) as Hres.
  assert (Hmg' : forall d, merged (l ++ Used d :: (taken k sz r).2) = true /\ 16 <= (taken k sz r).1).
  { intros d. unfold taken. rewrite merged_app in *. simpl in *.
    apply andb_prop in Hmg as [[-> [H1 H2]%andb_prop]%andb_prop _].
    destruct (sz + 32 <=? k); simpl; rewrite ?H1, ?H2, Bool.orb_true_r; (split; [done|lia]). }
  assert (Hsz : sz <= (taken k sz r).1) by (unfold taken; destruct (sz + 32 <=? k); simpl; lia).
  destruct (taken k sz r) as [n r'] eqn:Et. simpl in Hmg', Hsz. intros HQ.
  unfold take_block. apply wp_bind. apply Hres; [done..|]. clear Hres.
  intros s1 (Hc1 & Hm1 & Hlf1 & Hu1 & Hx1). pose proof Hs as (_ & _ & Hlf & _).
  destruct (mid_reads _ _ _ _ Hm1) as (_ & _ & _ & _ & Hp & _ & He & Hr0 & Hzl).
  unfold span in He. simpl in He. pose proof (Hmg' []) as [_ Hn].
  pose proof Hc1 as (_ & Hself & _ & _ & Hptr & Hend & _). rewrite Hlf in Hlf1.
  apply wp_bind, wp_gets. rewrite Hself, used_word.
  apply wp_bind, wp_wr; [lia|lia|]. intros m E Zm.
  destruct (layout_claim _ _ _ _ _ Hm1 ltac:(lia) E) as (d & Hd & Hm2).
  apply wp_bind. change (lfree s1) with (lfree (set_ram m s1)).
  change (heap_end s1) with (heap_end (set_ram m s1)).
  eapply wp_lfree_claim; [exact Hc1|exact Hm2|exact Hlf1|].
  change SIZEOF_STRUCT_MEM with 16. simpl. rewrite Hptr, Hend, !wrap_small by lia.
  pose proof Hm2 as [Hok _]. apply Forall_app in Hok as [Hl _]. pose proof (extent_ok l Hl) as [_ Hl8].
  apply wp_bind, wp_assert; [apply Z.leb_le; lia|].
  apply wp_bind, wp_assert; [apply Z.eqb_eq; unfold RT_ALIGN_SIZE; zlia|].
  apply wp_bind, wp_assert; [apply Z.eqb_eq; change (RT_ALIGN_SIZE - 1) with 7; rewrite land_7; zlia|].
  apply wp_ret. apply (HQ d); [done|]. split; [|apply Hmg'].
  split; [done|]. split; [done|]. split; [done|]. simpl.
  rewrite used_extent_app. unfold span. simpl. unfold span. simpl. rewrite Hd. lia.
Qed.

(** ** First fit *)

Lemma first_fit_none sz bl :
  Forall block_ok bl -> extent bl < sz + 16 -> first_fit sz bl = None.
Proof.
  induction 1 as [|b bl Hb Hbl IH]; simpl; [done|]. intros He.
  pose proof (extent_ok bl Hbl). pose proof (span_pos b Hb). unfold span in *.
  rewrite (proj2 (Z.leb_gt sz _)), Bool.andb_false_r by lia. rewrite IH by lia. done.
Qed.

Lemma first_fit_used sz l r :
  forallb is_used l = true ->
  first_fit sz (l ++ r) = '(l', n, r') ← first_fit sz r; Some (l ++ l', n, r').
Proof.
  induction l as [|b l IH]; simpl; [by destruct (first_fit sz r) as [[[]]|]|].
  intros [Hb Hl]%andb_prop. rewrite Hb, IH by done. simpl.
  by destruct (first_fit sz r) as [[[]]|].
Qed.

Lemma first_fit_size sz bl l n r : first_fit sz bl = Some (l, n, r) -> sz <= n.
Proof.
  revert l n r. induction bl as [|b bl IH]; intros l n r; simpl; [done|].
  destruct (negb (is_used b) && (sz <=? data_size b)) eqn:Ef.
  - apply andb_prop in Ef as [_ Ef%Z.leb_le].
    destruct (sz + 32 <=? data_size b); intros [= <- <- <-]; lia.
  - destruct (first_fit sz bl) as [[[l' n'] r']|]; [|done]. simpl. intros [= <- <- <-].
    by eapply IH.
Qed.

(** The blocks in front of the first free one. *)
Lemma used_prefix bl :
  exists l r, bl = l ++ r /\ forallb is_used l = true /\ first_free 0 bl = extent l.
Proof.
  enough (forall off, exists l r, bl = l ++ r /\ forallb is_used l = true /\
    first_free off bl = off + extent l) as H by exact (H 0).
  induction bl as [|b bl IH]; intros off; simpl.
  - exists [], []. split_and!; [done..|simpl; lia].
  - destruct (is_used b) eqn:Hb.
    + destruct (IH (off + span b)) as (l & r & -> & Hl & E). exists (b :: l), r. simpl.
      rewrite Hb, E. split_and!; [done..|lia].
    + exists [], (b :: bl). split_and!; [done..|simpl; lia].
Qed.

Lemma round_size_spec n :
  0 < n -> n + 7 < 2 ^ 32 -> 16 <= round_size n /\ n <= round_size n /\ round_size n mod 8 = 0.
Proof.
  intros Hn Hb. unfold round_size. rewrite align_up by lia. change MIN_SIZE_ALIGNED with 16.
  destruct (Z.ltb_spec ((n + 7) / 8 * 8) 16); zlia.
Qed.

Lemma wp_alloc_loop fuel l r sz s (Q : Z -> rt_small_mem -> Prop) :
  heap_ok s (l ++ r) -> 16 <= sz -> sz mod 8 = 0 -> sz <= size -> (length r < fuel)%nat ->
  match first_fit sz r with
  | None => Q 0 s
  | Some (l', n, r') =>
      forall d s', Zlen d = n -> heap_ok s' (l ++ l' ++ Used d :: r') -> Q (data_addr (l ++ l')) s'
  end ->
  wp (alloc_loop fuel sz (extent l)) Q s.
Proof.
  revert l fuel. induction r as [|b r IH]; intros l [|fuel] Hs Hz Hz8 Hsz Hf HQ; simpl in Hf; try lia;
    pose proof Hs as [(Hc & Hm & _) _]; pose proof Hc as (_ & _ & _ & _ & _ & _ & Hms);
    cbn [alloc_loop]; apply wp_bind, wp_gets; rewrite Hms, wrap_small by lia.
  { rewrite app_nil_r in Hm. destruct Hm as [_ (_ & _ & _ & He & _)].
    rewrite (proj2 (Z.leb_gt _ _)) by lia. done. }
  destruct (mid_reads _ _ _ _ Hm) as (G1 & G2 & _ & _ & Hp & Hn & He & Hr0 & _).
  destruct (Z.leb_spec (extent l) (size - sz)) as [Hle|Hgt].
  2: { rewrite first_fit_none in HQ; [done| |simpl; lia].
       by destruct Hm as [[_ ?]%Forall_app _]. }
  apply wp_bind. eapply wp_isused; [exact G1|]. apply wp_bind. eapply wp_rd; [exact G2|].
  assert (0 <= data_size b) as Hd by (destruct (is_used b); lia).
  assert (span b = 16 + data_size b) as Hsp by done.
  change SIZEOF_STRUCT_MEM with 16. rewrite (wrap_small 32 (extent l + 16)), (wrap_small 32) by lia.
  replace (extent l + span b - (extent l + 16)) with (data_size b) by lia.
  cbn [first_fit] in HQ. destruct (negb (is_used b) && (sz <=? data_size b)) eqn:Ef.
  - destruct b as [k|d]; [|done]. simpl in Ef, HQ. apply Z.leb_le in Ef.
    pose proof (wp_take_block l k r sz s Q Hs Hz Hz8 Ef) as Ht. unfold taken in Ht.
    destruct (sz + 32 <=? k); apply Ht; intros d s' Hd' Hs'; simpl in HQ;
      rewrite app_nil_r in HQ; by apply (HQ d).
  - replace (extent l + span b) with (extent (l ++ [b])) by (rewrite extent_app; simpl; lia).
    apply IH; [by rewrite <- app_assoc|done..|lia|].
    destruct (first_fit sz r) as [[[l' n] r']|]; [|done]. simpl in HQ.
    intros d s'. rewrite <- !app_assoc. apply HQ.
Qed.

(** A request in the heap: NULL when no free block is big enough, else the first fit. *)
Lemma wp_alloc n s bl (Q : Z -> rt_small_mem -> Prop) :
  heap_ok s bl -> 0 < n -> n + 7 < 2 ^ 32 ->
  match first_fit (round_size n) bl with
  | None => Q 0 s
  | Some (l, k, r) =>
      forall d s', Zlen d = k -> heap_ok s' (l ++ Used d :: r) -> Q (data_addr l) s'
  end ->
  wp (rt_smem_alloc n) Q s.
Proof.
  intros Hs Hn Hn7 HQ. pose proof Hs as [(Hc & Hm & Hlf & _) _].
  pose proof (round_size_spec n Hn Hn7) as (Hz & _ & Hz8).
  unfold rt_smem_alloc. rewrite (proj2 (Z.eqb_neq _ _)) by lia.
  apply wp_bind, wp_check_object; [done|]. apply wp_bind, wp_gets.
  pose proof Hc as (_ & _ & _ & _ & _ & Hend & Hms). rewrite Hms.
  pose proof Hm as [Hok (_ & _ & _ & He & _)]. rewrite Z.add_0_l in He.
  destruct (Z.ltb_spec size (round_size n)) as [Hlt|Hge].
  { rewrite first_fit_none in HQ; [done|done|lia]. }
  destruct (used_prefix bl) as (l & r & -> & Hu & Hff).
  rewrite Hlf, Hff, Hend. rewrite first_fit_used in HQ by done.
  apply Forall_app in Hok as [Hl Hr]. pose proof (extent_length r Hr). pose proof (extent_ok l Hl).
  rewrite extent_app in He. apply (wp_alloc_loop _ l r); [done|done|done|done|lia|].
  destruct (first_fit (round_size n) r) as [[[l' k] r']|]; [|done]. simpl in HQ.
  intros d s'. rewrite (app_assoc l l'). apply HQ.
Qed.
(** ** The abstract heap: the blocks in use, by address *)

Fixpoint live (a : Z) (bl : list block) : gmap Z bytes :=
  match bl with
  | [] => ∅
  | Free n :: r => live (a + span (Free n)) r
  | Used d :: r => <[a + 16 := d]> (live (a + span (Used d)) r)
  end.

Lemma live_range a bl p d :
  Forall block_ok bl -> live a bl !! p = Some d ->
  a + 16 <= p /\ p + Zlen d <= a + extent bl /\ 8 <= Zlen d /\ (p - a) mod 8 = 0.
Proof.
  intros H. revert a. induction H as [|b bl Hb Hbl IH]; intros a; [done|].
  pose proof (extent_ok bl Hbl). pose proof (span_pos b Hb). destruct b as [n|e]; simpl.
  - intros Hp%IH. unfold span in *. simpl in *. split_and!; try lia. zlia.
  - destruct Hb as [Hb1 Hb2]. unfold span in *. simpl in *.
    intros [[<- <-]|[Hne Hp%IH]]%lookup_insert_Some; [|split_and!; try lia; zlia].
    split_and!; try lia. replace (a + 16 - a) with (2 * 8) by lia. done.
Qed.

Lemma live_app a l r : live a (l ++ r) = live a l ∪ live (a + extent l) r.
Proof.
  revert a. induction l as [|b l IH]; intros a; simpl.
  - by rewrite Z.add_0_r, (left_id_L ∅ (∪)).
  - destruct b as [n|d]; rewrite IH, Z.add_assoc; [done|]. by rewrite insert_union_l.
Qed.

Lemma live_in a l d r :
  Forall block_ok l -> live a (l ++ Used d :: r) !! (a + extent l + 16) = Some d.
Proof.
  intros Hl. rewrite live_app. apply lookup_union_Some_raw. right.
  split; [|by simpl; rewrite lookup_insert_eq].
  destruct (live a l !! _) as [e|] eqn:E; [|done]. apply live_range in E; [|done].
  pose proof (Zlen_nonneg e). lia.
Qed.

Lemma live_split a bl p d :
  live a bl !! p = Some d -> exists l r, bl = l ++ Used d :: r /\ p = a + extent l + 16.
Proof.
  revert a. induction bl as [|b bl IH]; intros a; simpl; [done|].
  destruct b as [n|e]; simpl.
  - intros (l & r & -> & ->)%IH. exists (Free n :: l), r. simpl. split; [done|lia].
  - intros [[<- <-]|[_ (l & r & -> & ->)%IH]]%lookup_insert_Some.
    + exists [], bl. simpl. split; [done|lia].
    + exists (Used e :: l), r. simpl. split; [done|lia].
Qed.

Lemma live_free_None a l n r :
  Forall block_ok l -> Forall block_ok r -> 0 <= n ->
  live a (l ++ Free n :: r) !! (a + extent l + 16) = None.
Proof.
  intros Hl Hr Hn. rewrite live_app. apply lookup_union_None. split.
  - destruct (live a l !! _) as [e|] eqn:E; [|done]. apply live_range in E; [|done].
    pose proof (Zlen_nonneg e). lia.
  - simpl. destruct (live _ r !! _) as [e|] eqn:E; [|done]. apply live_range in E; [|done].
    unfold span in E. simpl in E. lia.
Qed.

Lemma live_claim a l n r d :
  Forall block_ok l -> Zlen d = n ->
  live a (l ++ Used d :: r) = <[a + extent l + 16 := d]> (live a (l ++ Free n :: r)).
Proof.
  intros Hl Hn. rewrite !live_app. simpl. rewrite insert_union_r.
  - unfold span. simpl. by rewrite Hn.
  - destruct (live a l !! _) as [e|] eqn:E; [|done]. apply live_range in E; [|done].
    pose proof (Zlen_nonneg e). lia.
Qed.

Lemma live_taken a l k sz r n r' :
  taken k sz r = (n, r') -> live a (l ++ Free n :: r') = live a (l ++ Free k :: r).
Proof.
  unfold taken. rewrite !live_app. destruct (sz + 32 <=? k); intros [= <- <-]; [|done].
  simpl. unfold span. simpl. do 2 f_equal. lia.
Qed.

Lemma live_join_prev a l n r : live a (join_prev l n r) = live a (l ++ Free n :: r).
Proof.
  destruct l as [|b l _] using rev_ind; [done|]. rewrite join_prev_snoc, <- app_assoc.
  destruct b as [k|d]; [|done]. rewrite !live_app. simpl. unfold span. simpl. rewrite (left_id_L ∅ (∪)). do 2 f_equal. lia.
Qed.

Lemma live_release a l n r : live a (release l n r) = live a (l ++ Free n :: r).
Proof.
  unfold release. destruct r as [|[k|d] r]; rewrite live_join_prev; try done. rewrite !live_app.
  simpl. unfold span. simpl. do 2 f_equal. lia.
Qed.

Lemma live_first_fit a sz bl l n r :
  first_fit sz bl = Some (l, n, r) -> live a (l ++ Free n :: r) = live a bl.
Proof.
  revert a l n r. induction bl as [|b bl IH]; intros a l n r; simpl; [done|].
  destruct (negb (is_used b) && (sz <=? data_size b)) eqn:Ef.
  - destruct b as [k|d]; [|done]. simpl.
    pose proof (live_taken a [] k sz bl) as H. unfold taken in H. simpl in H.
    destruct (sz + 32 <=? k); intros [= <- <- <-]; exact (H _ _ eq_refl).
  - destruct (first_fit sz bl) as [[[l' n'] r']|]; [|done]. simpl. intros [= <- <- <-]. simpl.
    destruct b; by rewrite (IH _ _ _ _ eq_refl).
Qed.

(** ** The operations on the abstract heap *)

Definition rep (s : rt_small_mem) (mm : gmap Z bytes) : Prop :=
  exists bl, heap_ok s bl /\ mm = live base bl.

Lemma rep_conf s mm : rep s mm -> conf s.
Proof. by intros (bl & [[? _] _] & _). Qed.

Lemma rep_at s mm p d :
  rep s mm -> mm !! p = Some d ->
  exists l r, heap_ok s (l ++ Used d :: r) /\ mm = live base (l ++ Used d :: r) /\
    p = data_addr l.
Proof.
  intros (bl & Hs & ->) (l & r & -> & ->)%live_split. by exists l, r.
Qed.

Lemma heap_blocks s bl : heap_ok s bl -> Forall block_ok bl.
Proof. by intros [(_ & [? _] & _) _]. Qed.

(** Where the blocks of the abstract heap lie. *)
Lemma rep_range s mm p d :
  rep s mm -> mm !! p = Some d ->
  base + 16 <= p /\ p + Zlen d <= base + size + 16 /\ 8 <= Zlen d /\ p mod 8 = 0.
Proof.
  intros (bl & Hs & ->) Hp. pose proof (heap_blocks _ _ Hs) as Hok.
  destruct Hs as [(_ & [_ (_ & _ & _ & He & _)] & _) _].
  apply live_range in Hp; [|done]. split_and!; try lia. zlia.
Qed.

(** Two blocks keep at least a header between them. *)
Lemma rep_separate s mm p q d e :
  rep s mm -> mm !! p = Some d -> mm !! q = Some e -> p < q -> p + Zlen d + 16 <= q.
Proof.
  intros Hs Hp Hq Hlt. destruct (rep_at _ _ _ _ Hs Hp) as (l & r & Hh & -> & ->).
  pose proof (heap_blocks _ _ Hh) as [Hl [_ Hr]%Forall_cons]%Forall_app.
  unfold data_addr in *. rewrite live_app in Hq.
  apply lookup_union_Some_raw in Hq as [Hq|[_ Hq]].
  - apply live_range in Hq; [|done]. pose proof (Zlen_nonneg e). lia.
  - simpl in Hq. apply lookup_insert_Some in Hq as [[? _]|[_ Hq]]; [lia|].
    apply live_range in Hq; [|done]. unfold span in Hq. simpl in Hq. lia.
Qed.

Lemma rep_read s mm p d :
  rep s mm -> mm !! p = Some d -> slice (ram s) (p - base) (Zlen d) = Ok d.
Proof.
  intros Hs Hp. destruct (rep_at _ _ _ _ Hs Hp) as (l & r & [(_ & Hm & _) _] & _ & ->).
  apply layout_mid in Hm as (_ & _ & (_ & _ & _ & Hh) & _).
  unfold data_addr. replace (base + extent l + 16 - base) with (extent l + 16) by lia. exact Hh.
Qed.

Lemma wp_free_rep s mm p d (Q : unit -> rt_small_mem -> Prop) :
  rep s mm -> mm !! p = Some d ->
  (forall s', rep s' (delete p mm) -> dead (ram s') (p - 16 - base) -> Q tt s') ->
  wp (rt_smem_free p) Q s.
Proof.
  intros Hs Hp HQ. destruct (rep_at _ _ _ _ Hs Hp) as (l & r & Hh & -> & ->).
  pose proof (heap_blocks _ _ Hh) as [Hl [_ Hr]%Forall_cons]%Forall_app.
  eapply wp_free; [exact Hh|]. intros s' Hs' Hdead.
  apply HQ; [|unfold data_addr; by replace (_ - 16 - base) with (extent l) by lia].
  eexists. split; [exact Hs'|].
  rewrite live_release, (live_claim base l (Zlen d)) by done. unfold data_addr.
  rewrite delete_insert_id; [done|]. apply live_free_None; [done..|apply Zlen_nonneg].
Qed.

Lemma wp_alloc_rep n s mm (Q : Z -> rt_small_mem -> Prop) :
  rep s mm -> 0 < n -> n + 7 < 2 ^ 32 -> Q 0 s ->
  (forall p d s', mm !! p = None -> 0 < p -> n <= Zlen d -> 16 <= Zlen d ->
     rep s' (<[p := d]> mm) -> Q p s') ->
  wp (rt_smem_alloc n) Q s.
Proof.
  intros (bl & Hs & ->) Hn Hn7 HQ0 HQ. eapply wp_alloc; [done..|].
  destruct (first_fit (round_size n) bl) as [[[l k] r]|] eqn:Ef; [|done].
  pose proof (round_size_spec n Hn Hn7) as (Hz & Hzn & Hz8).
  pose proof (first_fit_size _ _ _ _ _ Ef) as Hk.
  intros d s' Hd Hs'. pose proof (heap_blocks _ _ Hs') as [Hl [_ Hr]%Forall_cons]%Forall_app.
  pose proof (live_first_fit base _ _ _ _ _ Ef) as El. pose proof (extent_ok l Hl).
  apply (HQ _ d); [|unfold data_addr; lia|lia|lia|].
  - rewrite <- El. apply live_free_None; [done..|lia].
  - eexists. split; [exact Hs'|]. by rewrite (live_claim base l k), El by done.
Qed.

(** A write inside a block. *)
Lemma rep_write s mm p d k v m :
  rep s mm -> mm !! p = Some d -> 0 <= k -> k + Zlen v <= Zlen d ->
  blit (ram s) (p - base + k) v = Ok m ->
  exists d', blit d k v = Ok d' /\ rep (set_ram m s) (<[p := d']> mm).
Proof.
  intros Hs Hp Hk Hv Hb. destruct (rep_at _ _ _ _ Hs Hp) as (l & r & Hh & -> & ->).
  pose proof (heap_blocks _ _ Hh) as [Hl [_ Hr]%Forall_cons]%Forall_app.
  destruct Hh as [Hraw Hmg]. unfold data_addr in Hb.
  replace (base + extent l + 16 - base + k) with (extent l + 16 + k) in Hb by lia.
  destruct (layout_write _ _ _ _ _ _ _ (raw_layout _ _ Hraw) Hb Hk Hv) as (d' & Ed & Hm).
  exists d'. split; [done|]. exists (l ++ Used d' :: r).
  pose proof (blit_Zlen _ _ _ _ Ed) as Hd. split; [split|].
  - eapply (raw_ram s); [exact Hraw|exact Hm| |].
    + rewrite !first_free_app. simpl. unfold span. simpl. by rewrite Hd.
    + rewrite !used_extent_app. simpl. unfold span. simpl. by rewrite Hd.
  - by rewrite merged_app in *.
  - rewrite !(live_claim base l (Zlen d)) by done. unfold data_addr. by rewrite insert_insert_eq.
Qed.

Lemma rep_blit_in s mm p d k (v : bytes) :
  rep s mm -> mm !! p = Some d -> 0 <= k -> k + Zlen v <= Zlen d ->
  exists m, blit (ram s) (p - base + k) v = Ok m.
Proof.
  intros Hs Hp Hk Hv. pose proof (slice_Zlen _ _ _ _ (rep_read _ _ _ _ Hs Hp)).
  eexists. apply blit_in; lia.
Qed.

Lemma wp_memcpy_rep s mm p q d e n (Q : unit -> rt_small_mem -> Prop) :
  rep s mm -> mm !! p = Some d -> mm !! q = Some e -> 0 <= n -> n <= Zlen d -> n <= Zlen e ->
  (forall e' s', blit e 0 (take (Z.to_nat n) d) = Ok e' -> rep s' (<[q := e']> mm) -> Q tt s') ->
  wp (rt_memcpy q p n) Q s.
Proof.
  intros Hs Hp Hq Hn Hd He HQ. pose proof (rep_conf _ _ Hs) as (_ & _ & _ & _ & Hptr & _).
  unfold wp, rt_memcpy. rewrite Hptr.
  rewrite (slice_prefix _ _ _ _ n (rep_read _ _ _ _ Hs Hp)) by lia.
  assert (Zlen (take (Z.to_nat n) d) = n) as Hl by (unfold Zlen in *; rewrite length_take; lia).
  destruct (rep_blit_in s mm q e 0 (take (Z.to_nat n) d) Hs Hq) as [m Em]; [lia|lia|].
  destruct (rep_write s mm q e 0 (take (Z.to_nat n) d) m Hs Hq ltac:(lia) ltac:(lia) Em) as (e' & Ee & Hs').
  rewrite Z.add_0_r in Em. rewrite Em. by apply (HQ e').
Qed.

(** ** Reallocation *)

(** Where [lfree] goes when the end of a block becomes free. *)
Lemma lfree_shrink l d e k r :
  Forall block_ok l -> Forall block_ok r -> Zlen e + 16 <= Zlen d ->
  let ptr2 := extent (l ++ [Used e]) in
  let old := first_free 0 (l ++ Used d :: r) in
  first_free 0 ((l ++ [Used e]) ++ Free k :: r) = if ptr2 <? old then ptr2 else old.
Proof.
  intros Hl Hr Hd ptr2 old. unfold ptr2, old. rewrite !first_free_app, extent_app, forallb_app.
  simpl. unfold span. simpl. destruct (forallb is_used l) eqn:Eu; simpl.
  - pose proof (first_free_range (0 + extent l + (16 + Zlen d)) r Hr). unfold span in *. simpl in *.
    rewrite (proj2 (Z.ltb_lt _ _)) by lia. lia.
  - pose proof (first_free_lt 0 l Hl Eu). pose proof (Zlen_nonneg e).
    by rewrite (proj2 (Z.ltb_ge _ _)) by lia.
Qed.

Lemma wp_shrink_block l d r sz s (Q : unit -> rt_small_mem -> Prop) :
  heap_ok s (l ++ Used d :: r) -> 8 <= sz -> sz mod 8 = 0 -> sz + 28 < Zlen d ->
  let e := take (Z.to_nat sz) d in
  (forall s', heap_ok s' (release (l ++ [Used e]) (Zlen d - sz - 16) r) -> Q tt s') ->
  wp (shrink_block (extent l) (Zlen d) sz (extent l + span (Used d))) Q s.
Proof.
  intros [Hs Hmg] Hz Hz8 Hd e HQ. pose proof Hs as (Hc & Hm & Hlf & Hu & Hmax).
  pose proof Hm as [[Hl [_ Hr]%Forall_cons]%Forall_app _].
  destruct (mid_reads _ _ _ _ Hm) as (_ & _ & _ & _ & Hp & _ & He & Hr0 & Hzl).
  unfold span in He. simpl in He.
  assert (Zlen e = sz) as Hel by (unfold e, Zlen in *; rewrite length_take; lia).
  unfold shrink_block. apply wp_bind, wp_modify.
  rewrite (wrap_small 32 (Zlen d - sz)) by lia.
  set (s0 := set_use _ _ s). apply wp_bind.
  eapply (wp_split_block l (Used d) r sz s0); [exact Hc|exact Hm|done|done|simpl; lia|].
  intros m Hm'. simpl in Hm'. fold e in Hm'. change SIZEOF_STRUCT_MEM with 16.
  rewrite wrap_small by lia. apply wp_bind, wp_gets. simpl lfree. rewrite Hlf.
  replace (extent l + 16 + sz) with (extent (l ++ [Used e]))
    by (rewrite extent_app; simpl; unfold span; simpl; lia).
  pose proof (lfree_shrink l d e (Zlen d - sz - 16) r Hl Hr ltac:(lia)) as Ef. cbv zeta in Ef.
  rewrite merged_app in Hmg. apply andb_prop in Hmg as [[Hml Hmr]%andb_prop _]. simpl in Hmr.
  set (s1 := set_lfree (first_free 0 ((l ++ [Used e]) ++ Free (Zlen d - sz - 16) :: r)) (set_ram m s0)).
  assert (raw_ok s1 ((l ++ [Used e]) ++ Free (Zlen d - sz - 16) :: r)) as H1.
  { split; [done|]. split; [simpl; by rewrite <- app_assoc|]. split; [done|].
    pose proof (used_extent_ok l Hl). pose proof (used_extent_ok r Hr).
    rewrite used_extent_app in Hu. simpl in Hu. unfold span in Hu. simpl in Hu.
    rewrite !used_extent_app. simpl. unfold span. simpl. rewrite Hel, wrap_small by lia. lia. }
  apply wp_bind. eapply wp_mono with (Q := fun _ s' => s' = s1).
  { unfold s1. rewrite Ef. destruct (_ <? _); [done|]. apply wp_ret.
    subst s0. unfold set_ram, set_lfree, set_use. simpl. by rewrite Hlf. }
  intros [] s' ->. eapply wp_plug_holes; [exact H1|]. intros s2 H2 _. apply HQ. split; [exact H2|].
  apply merged_release; [|done]. rewrite merged_app. simpl. by rewrite Hml, Bool.orb_true_r.
Qed.

(** The new contents keep the old ones as far as both reach. *)
Definition keeps (n : Z) (d d' : bytes) : Prop :=
  take (Z.to_nat (Z.min n (Zlen d))) d' = take (Z.to_nat (Z.min n (Zlen d))) d.

Lemma blit_0_keeps n (e d e' : bytes) k :
  blit e 0 (take (Z.to_nat k) d) = Ok e' -> 0 <= k <= Zlen d -> Z.min n (Zlen d) <= k -> keeps n d e'.
Proof.
  unfold blit, keeps. case_decide as H; [|done]. intros [= <-] Hk Hn. simpl.
  assert (length (take (Z.to_nat k) d) = Z.to_nat k) as Hl by (rewrite length_take; unfold Zlen in *; lia).
  rewrite take_app_le by lia. rewrite take_take. f_equal. lia.
Qed.

Lemma rep_shrunk l d e r n s' :
  Forall block_ok l -> Forall block_ok r -> Zlen e + 16 + n = Zlen d ->
  heap_ok s' (release (l ++ [Used e]) n r) ->
  rep s' (<[data_addr l := e]> (delete (data_addr l) (live base (l ++ Used d :: r)))).
Proof.
  intros Hl Hr Hn Hs'. eexists. split; [exact Hs'|].
  rewrite live_release, <- app_assoc. simpl.
  rewrite (live_claim base l (Zlen e) (Free n :: r) e), (live_claim base l (Zlen d) r d) by done.
  unfold data_addr. rewrite delete_insert_id.
  - f_equal. rewrite !live_app. simpl. unfold span. simpl. do 2 f_equal. lia.
  - apply live_free_None; [done..|apply Zlen_nonneg].
Qed.

Lemma wp_move p d n k s mm (Q : Z -> rt_small_mem -> Prop) :
  rep s mm -> mm !! p = Some d -> 0 < n -> n <= k -> k + 7 < 2 ^ 32 -> Q 0 s ->
  (forall q d' s', mm !! q = None -> 0 < q -> n <= Zlen d' -> keeps n d d' ->
     rep s' (<[q := d']> (delete p mm)) -> Q q s') ->
  wp (nmem ← rt_smem_alloc k;
      (if negb (nmem =? 0)
       then rt_memcpy nmem p (if Zlen d <? k then Zlen d else k) ;;; rt_smem_free p
       else mret tt) ;;;
      mret nmem) Q s.
Proof.
  intros Hs Hp Hn Hk Hk7 HQ0 HQ. pose proof (Zlen_nonneg d) as Hd0. apply wp_bind.
  eapply wp_alloc_rep; [exact Hs|lia|done|by apply wp_bind, wp_ret, wp_ret|].
  intros q e s1 Hq Hq0 He _ Hs1. assert (p <> q) as Hne by (intros ->; congruence).
  rewrite (proj2 (Z.eqb_neq _ _)) by lia. simpl. apply wp_bind, wp_bind.
  eapply (wp_memcpy_rep s1 _ p q d e); [exact Hs1| | | | | |].
  1: by rewrite lookup_insert_ne.
  1: by rewrite lookup_insert_eq.
  1-3: destruct (Zlen d <? k) eqn:El; rewrite ?Z.ltb_lt, ?Z.ltb_ge in El; lia.
  intros e' s2 Ee Hs2. rewrite insert_insert_eq in Hs2.
  eapply wp_free_rep; [exact Hs2|by rewrite lookup_insert_ne|]. intros s3 Hs3 _. apply wp_ret.
  apply (HQ q e'); [done|done| | |].
  - rewrite (blit_Zlen _ _ _ _ Ee). lia.
  - eapply blit_0_keeps; [exact Ee|destruct (Z.ltb_spec (Zlen d) k); lia|].
    destruct (Z.ltb_spec (Zlen d) k); lia.
  - rewrite delete_insert_ne in Hs3 by done. done.
Qed.

Lemma wp_realloc_rep p d n s mm (Q : Z -> rt_small_mem -> Prop) :
  rep s mm -> mm !! p = Some d -> 0 < n -> n + 7 < 2 ^ 32 -> Q 0 s ->
  (forall q d' s', q = p \/ mm !! q = None -> 0 < q -> n <= Zlen d' -> keeps n d d' ->
     rep s' (<[q := d']> (delete p mm)) -> Q q s') ->
  wp (rt_smem_realloc p n) Q s.
Proof.
  intros Hs Hp Hn Hn7 HQ0 HQ. pose proof (rep_conf _ _ Hs) as Hc.
  pose proof Hc as (_ & _ & _ & _ & Hptr & Hend & Hms).
  pose proof (rep_range _ _ _ _ Hs Hp) as (Hp1 & Hp2 & Hd8 & Hp8).
  unfold rt_smem_realloc. apply wp_bind, wp_check_object; [done|]. apply wp_bind, wp_gets.
  rewrite Hms, Hptr, Hend, align_up by lia. set (k := (n + 7) / 8 * 8).
  assert (n <= k /\ k <= n + 7 /\ k mod 8 = 0 /\ 8 <= k) as (Hk1 & Hk2 & Hk8 & Hk)
    by (unfold k; zlia). clearbody k.
  destruct (Z.ltb_spec size k) as [|Hsk]; [done|].
  rewrite (proj2 (Z.eqb_neq k 0)), (proj2 (Z.eqb_neq p 0)) by lia.
  apply wp_bind, wp_assert; [apply Z.eqb_eq; change (RT_ALIGN_SIZE - 1) with 7; by rewrite land_7|].
  apply wp_bind, wp_assert; [apply Z.leb_le; lia|].
  apply wp_bind, wp_assert; [apply Z.ltb_lt; lia|].
  destruct (rep_at _ _ _ _ Hs Hp) as (l & r & Hh & -> & ->). rewrite header_addr.
  pose proof Hh as [(_ & Hm & _) _]. pose proof (heap_blocks _ _ Hh) as [Hl [_ Hr]%Forall_cons]%Forall_app.
  destruct (mid_reads _ _ _ _ Hm) as (_ & G2 & _ & _ & Hl0 & _ & He & Hr0 & _).
  unfold span in He. simpl in He.
  apply wp_bind. eapply wp_rd; [exact G2|]. change SIZEOF_STRUCT_MEM with 16. change MIN_SIZE with 12.
  replace (u32 (extent l + span (Used d) - extent l - 16)) with (Zlen d)
    by (unfold span; simpl; rewrite wrap_small; lia).
  destruct (Z.eqb_spec (Zlen d) k) as [Ek|Ek].
  { apply wp_ret, (HQ _ d); [by left|lia|lia|done|]. by rewrite insert_delete_id. }
  rewrite (wrap_small 32) by lia.
  destruct (Z.ltb_spec (k + 16 + 12) (Zlen d)) as [Hlt|Hge].
  - apply wp_bind. eapply (wp_shrink_block l d r k); [exact Hh|lia|done|lia|].
    assert (Zlen (take (Z.to_nat k) d) = k) as Hz by (unfold Zlen in *; rewrite length_take; lia).
    intros s' Hs'. apply wp_ret, (HQ _ (take (Z.to_nat k) d)); [by left|lia|lia| |].
    + unfold keeps. rewrite take_take. f_equal. lia.
    + eapply rep_shrunk; [done|done| |exact Hs']. lia.
  - eapply (wp_move _ d n k); [exact Hs|exact Hp|done|lia| |done|].
    + lia.
    + intros q d' s' Hq. apply HQ. by right.
Qed.

Lemma wp_memset_rep s mm p d n (Q : unit -> rt_small_mem -> Prop) :
  rep s mm -> mm !! p = Some d -> 0 <= n -> n <= Zlen d ->
  (forall d' s', blit d 0 (replicate (Z.to_nat n) 0) = Ok d' -> rep s' (<[p := d']> mm) -> Q tt s') ->
  wp (rt_memset p 0 n) Q s.
Proof.
  intros Hs Hp Hn Hd HQ. pose proof (rep_conf _ _ Hs) as (_ & _ & _ & _ & Hptr & _).
  assert (Zlen (replicate (Z.to_nat n) 0) = n) as Hl by (unfold Zlen; rewrite length_replicate; lia).
  unfold wp, rt_memset. rewrite Hptr. set (v := replicate _ 0) in *.
  destruct (rep_blit_in s mm p d 0 v Hs Hp) as [m Em]; [lia|lia|].
  destruct (rep_write s mm p d 0 v m Hs Hp ltac:(lia) ltac:(lia) Em) as (d' & Ed & Hs').
  rewrite Z.add_0_r in Em. rewrite Em. by apply (HQ d').
Qed.

Lemma wp_store_rep s mm p d k v (Q : unit -> rt_small_mem -> Prop) :
  rep s mm -> mm !! p = Some d -> 0 <= k -> k + Zlen v <= Zlen d ->
  (forall d' s', blit d k v = Ok d' -> rep s' (<[p := d']> mm) -> Q tt s') ->
  wp (store p k v) Q s.
Proof.
  intros Hs Hp Hk Hv HQ. pose proof (rep_conf _ _ Hs) as (_ & _ & _ & _ & Hptr & _).
  unfold wp, store. rewrite Hptr. destruct (rep_blit_in s mm p d k v Hs Hp Hk Hv) as [m Em].
  destruct (rep_write _ _ _ _ _ _ _ Hs Hp Hk Hv Em) as (d' & Ed & Hs').
  rewrite Em. by apply (HQ d').
Qed.

(** An empty heap is one free block. *)
Lemma live_used_extent bl : live base bl = ∅ -> Forall block_ok bl -> used_extent bl = 0 /\ forallb (fun b => negb (is_used b)) bl = true.
Proof.
  generalize base. induction bl as [|[n|d] bl IH]; intros a; simpl; [done| |].
  - intros H [_ Hb]%Forall_cons. destruct (IH _ H Hb) as [-> ->]. done.
  - intros H. by apply insert_non_empty in H.
Qed.

Lemma rep_empty s : rep s ∅ -> heap_ok s [Free size] /\ used s = 0.
Proof.
  intros (bl & Hs & E). pose proof (heap_blocks _ _ Hs) as Hok.
  destruct (live_used_extent bl (eq_sym E) Hok) as [Hu Hf].
  pose proof Hs as [(_ & [_ (_ & _ & _ & He & _)] & _ & Hus & _) Hmg].
  destruct bl as [|b [|b2 bl]].
  - simpl in He. lia.
  - destruct b as [n|d]; [|done]. simpl in He. unfold span in He. simpl in He.
    replace n with size in Hs by lia. split; [done|lia].
  - destruct b as [n|d]; [|done]. destruct b2 as [k|d2]; [|done].
    by simpl in Hmg.
Qed.
(** ** The abstraction function: walking the headers *)

Fixpoint blocks_of (fuel : nat) (m : bytes) (off : Z) : list block :=
  match fuel with
  | O => []
  | S fuel =>
      match get32 m off, get32 m (off + 4) with
      | Ok w, Ok next =>
          if next =? off then [] else
          (if Z.land w 1 =? 0 then Free (next - off - 16)
           else match slice m (off + 16) (next - off - 16) with Ok d => Used d | Err _ => Used [] end)
          :: blocks_of fuel m next
      | _, _ => []
      end
  end.

Definition heap_blocks_of (s : rt_small_mem) : list block :=
  blocks_of (S (Z.to_nat (heap_end s))) (ram s) 0.
Definition heap_map (s : rt_small_mem) : gmap Z bytes := live (heap_ptr s) (heap_blocks_of s).

Lemma blocks_of_tail fuel m prev off bl :
  tail_at m prev off bl -> Forall block_ok bl -> (length bl < fuel)%nat ->
  blocks_of fuel m off = bl.
Proof.
  intros Ht Hok. revert fuel prev off Ht.
  induction Hok as [|b bl Hbok Hok IH]; intros [|fuel] prev off Ht Hl; simpl in Hl; try lia.
  - destruct Ht as (_ & G1 & G2 & _). simpl in *. rewrite Z.add_0_r in *. rewrite G1, G2.
    by rewrite Z.eqb_refl.
  - apply tail_cons in Ht as [(G1 & G2 & _ & Hh) Ht]. simpl. rewrite G1, G2.
    pose proof (span_pos _ Hbok). rewrite (proj2 (Z.eqb_neq _ _)) by lia.
    rewrite (IH fuel off (off + span b)) by (done || lia). f_equal.
    rewrite pool_bit. replace (off + span b - off - 16) with (data_size b) by (unfold span; lia).
    destruct b as [n|d]; simpl; [done|]. by rewrite Hh.
Qed.

Lemma heap_ok_blocks s bl : heap_ok s bl -> heap_blocks_of s = bl.
Proof.
  intros [(Hc & [Hok Ht] & _) _]. eapply blocks_of_tail; [done..|].
  pose proof (extent_length _ Hok). pose proof Hc as (_ & _ & _ & _ & _ & -> & _).
  destruct Ht as (_ & _ & _ & He & _). lia.
Qed.

Lemma rep_map s mm : rep s mm -> heap_map s = mm.
Proof.
  intros (bl & Hs & ->). unfold heap_map. rewrite (heap_ok_blocks _ _ Hs).
  by destruct Hs as [((_ & _ & _ & _ & -> & _) & _) _].
Qed.
End heap.
