(* ===== verification/Heap.v ===== *)
(** What the heap of [Mem] promises to its callers: a map from addresses to blocks, and what
    each of [rt_malloc], [rt_calloc], [rt_free], [rt_realloc] and the aligned pair does to it;
    the heaps that legal operations lead to, and the theorems about them. *)

From stdpp Require Import gmap.
From S2P Require Import Prelude Mem.
#[local] Open Scope Z_scope.

(** ** The heap's contract *)

Inductive heap_op :=
  | Malloc (n : Z)
  | Calloc (count n : Z)
  | Release (p : Z)
  | Realloc (p n : Z)
  | Store (p k : Z) (v : bytes).   (* the caller writes v at offset k of its block *)

Definition do_op (o : heap_op) : M rt_small_mem Z :=
  match o with
  | Malloc n => rt_malloc n
  | Calloc count n => rt_calloc count n
  | Release p => rt_free p ;;; mret 0
  | Realloc p n => rt_realloc p n
  | Store p k v => store p k v ;;; mret 0
  end.

(** What a caller must respect: sizes that do not wrap around, pointers it owns. *)
Definition owned (mm : gmap Z bytes) (p : Z) : Prop := p = 0 \/ is_Some (mm !! p).
Definition size_ok (n : Z) : Prop := 0 <= n /\ n + 7 < 2 ^ 32.
Definition legal (mm : gmap Z bytes) (o : heap_op) : Prop :=
  match o with
  | Malloc n => size_ok n
  | Calloc count n => size_ok (count * n)
  | Release p => owned mm p
  | Realloc p n => owned mm p /\ size_ok n
  | Store p k v => exists d, mm !! p = Some d /\ 0 <= k /\ k + Zlen v <= Zlen d
  end.

(** A request may fail and then changes nothing; one that succeeds adds, removes or replaces
    one block of the map and leaves all others as they are. *)
Definition may_fail (o : heap_op) : Prop :=
  match o with
  | Malloc _ | Calloc _ _ => True
  | Realloc p n => p = 0 \/ 0 < n
  | _ => False
  end.

Inductive heap_spec (mm : gmap Z bytes) : heap_op -> Z -> gmap Z bytes -> Prop :=
  | spec_fail o : may_fail o -> heap_spec mm o 0 mm
  | spec_malloc n p d :
      mm !! p = None -> 0 < p -> 0 < n -> n <= Zlen d -> 16 <= Zlen d ->
      heap_spec mm (Malloc n) p (<[p := d]> mm)
  | spec_calloc count n p d :
      mm !! p = None -> 0 < p -> count * n <= Zlen d -> 16 <= Zlen d ->
      take (Z.to_nat (count * n)) d = replicate (Z.to_nat (count * n)) 0 ->
      heap_spec mm (Calloc count n) p (<[p := d]> mm)
  | spec_free_null : heap_spec mm (Release 0) 0 mm
  | spec_free p : is_Some (mm !! p) -> heap_spec mm (Release p) 0 (delete p mm)
  | spec_realloc p n q d d' :
      mm !! p = Some d -> 0 < n -> q = p \/ mm !! q = None -> 0 < q ->
      n <= Zlen d' -> keeps n d d' ->
      heap_spec mm (Realloc p n) q (<[q := d']> (delete p mm))
  | spec_realloc_null n p d :
      mm !! p = None -> 0 < p -> 0 < n -> n <= Zlen d -> 16 <= Zlen d ->
      heap_spec mm (Realloc 0 n) p (<[p := d]> mm)
  | spec_realloc_free p : is_Some (mm !! p) -> heap_spec mm (Realloc p 0) 0 (delete p mm)
  | spec_store p k v d d' :
      mm !! p = Some d -> blit d k v = Ok d' -> heap_spec mm (Store p k v) 0 (<[p := d']> mm).


Section contract.
Context (base size : Z).
Context (Hbase : 56 < base /\ base mod 8 = 0).
Context (Hsize : 0 <= size /\ size mod 8 = 0).
Context (Hfit : base + size + 32 < 2 ^ 32).

Abbreviation Rep := (rep base size).

(** What every operation is proved to do. *)
Definition refined (mm : gmap Z bytes) (o : heap_op) (r : Z) (s' : rt_small_mem) : Prop :=
  exists mm', heap_spec mm o r mm' /\ Rep s' mm'.

Lemma malloc_refined s mm n :
  Rep s mm -> size_ok n -> wp (rt_malloc n) (refined mm (Malloc n)) s.
Proof.
  intros Hs [Hn Hn7]. destruct (Z.eqb_spec n 0) as [->|].
  { apply wp_ret. exists mm. split; [by constructor|done]. }
  apply (wp_alloc_rep base size Hbase Hsize Hfit n s mm); [done|lia|done| |].
  - exists mm. split; [by constructor|done].
  - intros p d s' Hp Hp0 Hd Hd16 Hs'. exists (<[p := d]> mm). split; [|done].
    constructor; (done || lia).
Qed.

Lemma calloc_refined s mm count n :
  Rep s mm -> size_ok (count * n) -> wp (rt_calloc count n) (refined mm (Calloc count n)) s.
Proof.
  intros Hs [Hn Hn7]. unfold rt_calloc, rt_malloc. rewrite (wrap_small 32) by lia.
  set (k := count * n) in *. apply wp_bind. destruct (Z.eqb_spec k 0) as [E|].
  { rewrite E. apply wp_bind, wp_ret, wp_ret. exists mm. split; [by constructor|done]. }
  apply (wp_alloc_rep base size Hbase Hsize Hfit k s mm); [done|lia|done| |].
  - apply wp_bind, wp_ret, wp_ret. exists mm. split; [by constructor|done].
  - intros p d s1 Hp Hp0 Hd Hd16 Hs1. rewrite (proj2 (Z.eqb_neq p 0)) by lia. simpl.
    apply wp_bind. eapply (wp_memset_rep base size Hbase Hsize s1 _ p d);
      [exact Hs1|by rewrite lookup_insert_eq|lia|lia|].
    intros d' s' Ed Hs'. rewrite insert_insert_eq in Hs'. apply wp_ret.
    exists (<[p := d']> mm). split; [|done]. pose proof (blit_Zlen _ _ _ _ Ed).
    constructor; try done; try (fold k; lia). fold k.
    unfold blit in Ed. case_decide; [|done]. injection Ed as <-. simpl.
    apply take_app_length'. by rewrite length_replicate.
Qed.

Lemma free_refined s mm p :
  Rep s mm -> owned mm p -> wp (rt_free p ;;; mret 0) (refined mm (Release p)) s.
Proof.
  intros Hs Hp. unfold rt_free. apply wp_bind. destruct (Z.eqb_spec p 0) as [->|].
  { apply wp_ret. apply wp_ret. exists mm. split; [|done]. apply spec_free_null. }
  destruct Hp as [|[d Hp]]; [done|].
  eapply (wp_free_rep base size Hbase Hsize Hfit); [exact Hs|exact Hp|]. intros s' Hs' _.
  apply wp_ret. exists (delete p mm). split; [by constructor|done].
Qed.

Lemma realloc_refined s mm p n :
  Rep s mm -> owned mm p -> size_ok n -> wp (rt_realloc p n) (refined mm (Realloc p n)) s.
Proof.
  intros Hs Hp [Hn Hn7]. pose proof (rep_conf base size s mm Hs) as Hc.
  pose proof Hc as (_ & _ & _ & _ & _ & _ & Hms).
  destruct (decide (0 < n /\ p <> 0)) as [[Hn0 Hp0]|Hcase].
  { destruct Hp as [|[d Hp]]; [done|].
    eapply (wp_realloc_rep base size Hbase Hsize Hfit); [exact Hs|exact Hp|done|done| |].
    - exists mm. split; [constructor; by right|done].
    - intros q d' s' Hq Hq0 Hd Hk Hs'. exists (<[q := d']> (delete p mm)).
      split; [by econstructor|done]. }
  unfold rt_realloc, rt_smem_realloc. apply wp_bind.
  eapply (wp_check_object base size); [done|]. apply wp_bind, wp_gets.
  rewrite Hms, align_up by lia. destruct (Z.eqb_spec p 0) as [->|Hp0].
  - destruct (size <? _); [apply wp_ret; exists mm; split; [constructor; by left|done]|].
    destruct (Z.eqb_spec ((n + 7) / 8 * 8) 0) as [|Hk].
    { apply wp_bind, wp_ret, wp_ret. exists mm. split; [constructor; by left|done]. }
    assert (0 < n /\ n <= (n + 7) / 8 * 8 /\ (n + 7) / 8 * 8 <= n + 7) as (? & ? & ?) by zlia.
    destruct (Z_lt_dec ((n + 7) / 8 * 8 + 7) (2 ^ 32)) as [Hb|Hb].
    2: { (* the aligned size leaves no room for the heap *) zlia. }
    apply (wp_alloc_rep base size Hbase Hsize Hfit _ s mm); [done|lia|done| |].
    + exists mm. split; [constructor; by left|done].
    + intros q d s' Hq Hq0 Hd Hd16 Hs'. exists (<[q := d]> mm). split; [|done].
      constructor; (done || lia).
  - assert (n = 0) as -> by lia. destruct Hp as [|[d Hp]]; [done|].
    change ((0 + 7) / 8 * 8) with 0. rewrite (proj2 (Z.ltb_ge size 0)) by lia. simpl.
    apply wp_bind. eapply (wp_free_rep base size Hbase Hsize Hfit); [exact Hs|exact Hp|].
    intros s' Hs' _. apply wp_ret. exists (delete p mm). split; [by constructor|done].
Qed.

Lemma op_refined s mm o : Rep s mm -> legal mm o -> wp (do_op o) (refined mm o) s.
Proof.
  intros Hs Hl. destruct o as [n|count n|p|p n|p k v]; simpl in *.
  - by apply malloc_refined.
  - by apply calloc_refined.
  - by apply free_refined.
  - destruct Hl. by apply realloc_refined.
  - destruct Hl as (d & Hp & Hk & Hv). apply wp_bind.
    eapply (wp_store_rep base size Hbase Hsize); [exact Hs|exact Hp|done|done|].
    intros d' s' Ed Hs'. apply wp_ret. exists (<[p := d']> mm). split; [by econstructor|done].
Qed.

(** ** Initialisation *)

Lemma wp_init_heap s (Q : unit -> rt_small_mem -> Prop) :
  conf base size s -> lfree s = 0 -> used s = 0 -> max s = 0 -> Zlen (ram s) = size + 32 ->
  (forall s', Rep s' ∅ -> Q tt s') ->
  wp (set_pool 0 (MEM_FREED (base - SIZEOF_SMALL_MEM)) ;;;
      set_next 0 (size + 16) ;;;
      set_prev 0 0 ;;;
      set_pool (size + 16) (MEM_USED (base - SIZEOF_SMALL_MEM)) ;;;
      set_next (size + 16) (size + 16) ;;;
      set_prev (size + 16) (size + 16)) Q s.
Proof.
  intros Hc Hlf Hu Hmax Hz HQ. rewrite (freed_word base size), (used_word base size) by done.
  pose proof (pool_fits base size Hbase Hsize Hfit) as Fp.
  assert (fits 32 (size + 16) /\ fits 32 0) as [Fe F0] by (unfold fits; lia).
  apply wp_bind, wp_wr; [lia|lia|]. intros m1 E1 Z1. pose proof (get32_set32 _ _ _ _ (Fp _) E1) as W1.
  apply wp_bind, wp_wr; [lia|simpl; lia|]. intros m2 E2 Z2. simpl in E2, Z2.
  pose proof (get32_set32 _ _ _ _ Fe E2) as W2. word_out E2 W1.
  apply wp_bind, wp_wr; [lia|simpl; lia|]. intros m3 E3 Z3. simpl in E3, Z3.
  pose proof (get32_set32 _ _ _ _ F0 E3) as W3. word_out E3 W1. word_out E3 W2.
  apply wp_bind, wp_wr; [lia|simpl; lia|]. intros m4 E4 Z4. simpl in E4, Z4.
  pose proof (get32_set32 _ _ _ _ (Fp _) E4) as W4. word_out E4 W1. word_out E4 W2. word_out E4 W3.
  apply wp_bind, wp_wr; [lia|simpl; lia|]. intros m5 E5 Z5. simpl in E5, Z5.
  pose proof (get32_set32 _ _ _ _ Fe E5) as W5. word_out E5 W1. word_out E5 W2. word_out E5 W3.
  word_out E5 W4.
  apply wp_wr; [lia|simpl; lia|]. intros m6 E6 Z6. simpl in E6, Z6.
  word_out E6 W1. word_out E6 W2. word_out E6 W3. word_out E6 W4. word_out E6 W5.
  apply HQ. exists [Free size]. split; [|done]. split; [|done].
  split; [done|]. split; [|simpl; split_and!; try done; lia].
  split; [repeat constructor; simpl; lia|]. unfold tail_at. simpl. unfold header.
  replace (0 + (span (Free size) + 0)) with (size + 16) by (unfold span; simpl; lia).
  replace (0 + span (Free size)) with (size + 16) by (unfold span; simpl; lia).
  split_and!; try done; simpl; lia.
Qed.
End contract.

Lemma heap_init_spec begin_addr sz mem :
  0 < begin_addr -> begin_addr + 71 < 2 ^ 32 -> begin_addr + sz < 2 ^ 32 -> Zlen mem = sz ->
  let b := (begin_addr + 7) / 8 * 8 + 56 in
  let e := (begin_addr + sz) / 8 * 8 in
  if b + 32 <=? e
  then exists s, rt_smem_init begin_addr sz mem = Ok (Some s) /\ heap_ptr s = b /\
         mem_size_aligned s = e - b - 32 /\ rep b (e - b - 32) s ∅
  else rt_smem_init begin_addr sz mem = Ok None.
Proof.
  intros Hb Hb71 Hbs Hl b e. pose proof (Zlen_nonneg mem).
  unfold rt_smem_init. rewrite align_down, (wrap_small 32 (begin_addr + sz)) by lia. fold e.
  rewrite (align_up begin_addr) by lia. change SIZEOF_SMALL_MEM with 56.
  rewrite (wrap_small 32 ((begin_addr + 7) / 8 * 8 + 56)) by zlia. fold b.
  rewrite (align_up b) by (unfold b; zlia).
  assert ((b + 7) / 8 * 8 = b) as -> by (unfold b; zlia). change SIZEOF_STRUCT_MEM with 16.
  change (2 * 16) with 32.
  assert (64 <= b /\ b mod 8 = 0 /\ e mod 8 = 0 /\ 0 <= e < 2 ^ 32) as (Hb64 & Hb8 & He8 & He)
    by (unfold b, e; zlia).
  destruct (Z.leb_spec (b + 32) e) as [Hle|Hgt].
  2: { destruct (Z.ltb_spec 32 e); simpl; [|done]. rewrite wrap_small by lia.
       by rewrite (proj2 (Z.leb_gt b _)) by lia. }
  rewrite (proj2 (Z.ltb_lt 32 e)) by lia. rewrite (wrap_small 32 (e - 32)) by lia.
  rewrite (proj2 (Z.leb_le b _)) by lia. simpl andb. cbv iota.
  rewrite (wrap_small 32 (e - b - 32)), (wrap_small 32 (e - b - 32 + 16)) by lia.
  assert (begin_addr <= b /\ e <= begin_addr + sz) as [Hbb Hee] by (unfold b, e; zlia).
  rewrite slice_in by lia. rewrite ok_bind.
  replace ((begin_addr + 7) / 8 * 8) with (b - SIZEOF_SMALL_MEM)
    by (unfold b; change SIZEOF_SMALL_MEM with 56; lia).
  set (m := take _ _). set (s0 := SmallMem _ _ _ _ _ _ _ _ _ _ m).
  assert (Zlen m = e - b - 32 + 32) as Hm
    by (unfold m, Zlen in *; rewrite length_take, length_drop; lia).
  assert (wp (set_pool 0 (MEM_FREED (b - SIZEOF_SMALL_MEM)) ;;; set_next 0 (e - b - 32 + 16) ;;;
    set_prev 0 0 ;;; set_pool (e - b - 32 + 16) (MEM_USED (b - SIZEOF_SMALL_MEM)) ;;;
    set_next (e - b - 32 + 16) (e - b - 32 + 16) ;;; set_prev (e - b - 32 + 16) (e - b - 32 + 16))
    (fun _ s' => rep b (e - b - 32) s' ∅) s0) as H0.
  { eapply wp_init_heap; [lia|zlia|lia|by repeat split|done|done|done|done|done]. }
  apply wp_run in H0.
  destruct H0 as ([] & s & E & Hs). rewrite E, ok_bind. exists s.
  pose proof (rep_conf _ _ _ _ Hs) as (_ & _ & _ & _ & ? & _ & ?). done.
Qed.

(** ** Heaps in use *)

(** A heap set up in some memory, and legal operations on it. *)
Inductive heap_reach : rt_small_mem -> Prop :=
  | heap_reach_init begin_addr sz mem s :
      0 < begin_addr -> begin_addr + 71 < 2 ^ 32 -> begin_addr + sz < 2 ^ 32 -> Zlen mem = sz ->
      rt_smem_init begin_addr sz mem = Ok (Some s) -> heap_reach s
  | heap_reach_op o s r s' :
      heap_reach s -> legal (heap_map s) o -> do_op o s = Ok (r, s') -> heap_reach s'.

Lemma reach_rep s :
  heap_reach s ->
  exists base size, (56 < base /\ base mod 8 = 0) /\ (0 <= size /\ size mod 8 = 0) /\
    base + size + 32 < 2 ^ 32 /\ heap_ptr s = base /\ rep base size s (heap_map s).
Proof.
  induction 1 as [begin_addr sz mem s Hb Hb71 Hbs Hl E|o s r s' _ IH Hl E].
  - pose proof (heap_init_spec begin_addr sz mem Hb Hb71 Hbs Hl) as Hi. cbv zeta in Hi.
    set (b := (begin_addr + 7) / 8 * 8 + 56) in *. set (e := (begin_addr + sz) / 8 * 8) in *.
    assert (64 <= b /\ b mod 8 = 0 /\ e mod 8 = 0 /\ e < 2 ^ 32) as (Hb64 & Hb8 & He8 & He)
      by (unfold b, e; zlia).
    destruct (Z.leb_spec (b + 32) e); [|congruence].
    destruct Hi as (s1 & E1 & Hp & _ & Hs). rewrite E1 in E. injection E as <-.
    exists b, (e - b - 32). pose proof (rep_map b (e - b - 32) ltac:(lia) ltac:(zlia) _ _ Hs) as ->.
    split_and!; try done; try lia. zlia.
  - destruct IH as (base & size & Hb & Hs & Hf & _ & Hr). exists base, size.
    pose proof (op_refined base size Hb Hs Hf _ _ _ Hr Hl) as Hw. unfold wp in Hw. rewrite E in Hw.
    destruct Hw as (mm' & _ & Hr').
    rewrite (rep_map base size Hb Hs _ _ Hr'). split_and!; try done; try lia.
    by pose proof (rep_conf _ _ _ _ Hr') as (_ & _ & _ & _ & ? & _).
Qed.

(** C3. The allocator refines a map from addresses to blocks: at every heap that legal
    operations lead to, every legal operation ends without a fault, and what it returns and
    what it does to the map is one of the steps of [heap_spec]: a request fails and changes
    nothing or adds one fresh block of at least the size asked for, [rt_calloc] clears it,
    [rt_realloc] keeps the contents, [rt_free] removes exactly its block, and the bytes of all
    other blocks stay. *)
Theorem heap_refines s o :
  heap_reach s -> legal (heap_map s) o ->
  exists r s', do_op o s = Ok (r, s') /\ heap_spec (heap_map s) o r (heap_map s').
Proof.
  intros Hr Hl. destruct (reach_rep s Hr) as (base & size & Hb & Hs & Hf & _ & Hrep).
  pose proof (op_refined base size Hb Hs Hf _ _ _ Hrep Hl) as (r & s' & E & mm' & Hsp & Hrep')%wp_run.
  exists r, s'. split; [done|]. by rewrite (rep_map base size Hb Hs _ _ Hrep').
Qed.

(** C11. Blocks in use are aligned to 8 bytes, lie inside the heap, hold the bytes the map says
    and are apart from one another by at least a header. *)
Theorem heap_separate s p d :
  heap_reach s -> heap_map s !! p = Some d ->
  p mod 8 = 0 /\ 8 <= Zlen d /\ heap_ptr s + 16 <= p /\ p + Zlen d <= heap_ptr s + heap_end s /\
  slice (ram s) (p - heap_ptr s) (Zlen d) = Ok d /\
  forall q e, heap_map s !! q = Some e -> p <> q -> p + Zlen d + 16 <= q \/ q + Zlen e + 16 <= p.
Proof.
  intros Hr Hp. destruct (reach_rep s Hr) as (base & size & Hb & Hs & Hf & -> & Hrep).
  pose proof (rep_range base size Hb _ _ _ _ Hrep Hp) as (H1 & H2 & H3 & H4).
  pose proof (rep_conf _ _ _ _ Hrep) as (_ & _ & _ & _ & _ & -> & _).
  split_and!; try done; try lia.
  - by apply (rep_read base size Hb Hs _ (heap_map s)).
  - intros q e Hq Hne. destruct (Z.lt_trichotomy p q) as [Hlt|[?|Hlt]]; [|done|].
    + left. by apply (rep_separate base size _ _ _ _ _ _ Hrep Hp Hq).
    + right. by apply (rep_separate base size _ _ _ _ _ _ Hrep Hq Hp).
Qed.

(** C29. Nothing is lost: once every block has been released, whatever the order, the whole
    heap is one free block again, and any request that a fresh heap could serve succeeds. *)
Theorem heap_recovers s n :
  heap_reach s -> heap_map s = ∅ -> 0 < n -> n + 7 < 2 ^ 32 -> round_size n <= mem_size_aligned s ->
  used s = 0 /\ exists s', rt_malloc n s = Ok (heap_ptr s + 16, s').
Proof.
  intros Hr Hm Hn Hn7 Hsz. destruct (reach_rep s Hr) as (base & size & Hb & Hs & Hf & -> & Hrep).
  rewrite Hm in Hrep. destruct (rep_empty base size Hs s Hrep) as [Hh Hu]. split; [done|].
  pose proof (rep_conf _ _ _ _ Hrep) as (_ & _ & _ & _ & _ & _ & Hms). rewrite Hms in Hsz.
  assert (wp (rt_smem_alloc n) (fun p _ => p = base + 16) s) as (p & s' & E & ->)%wp_run.
  { eapply (wp_alloc base size Hb Hs Hf); [exact Hh|done|done|]. simpl.
    rewrite (proj2 (Z.leb_le _ _)) by done. simpl. unfold data_addr.
    destruct (round_size n + 32 <=? size); intros; simpl; lia. }
  by exists s'.
Qed.

(** A second release of a block that is still free is caught by an assertion. *)
Theorem double_free_caught s p d s' :
  heap_reach s -> heap_map s !! p = Some d -> rt_free p s = Ok (tt, s') ->
  rt_free p s' = Err AssertFail.
Proof.
  intros Hr Hp E. destruct (reach_rep s Hr) as (base & size & Hb & Hs & Hf & _ & Hrep).
  pose proof (rep_range base size Hb _ _ _ _ Hrep Hp) as (H1 & _ & _ & H4).
  unfold rt_free in *. rewrite (proj2 (Z.eqb_neq p 0)) in * by lia.
  assert (wp (rt_smem_free p) (fun _ s' => heap_ptr s' = base /\ dead base (ram s') (p - 16 - base)) s)
    as Hw.
  { eapply (wp_free_rep base size Hb Hs Hf); [exact Hrep|exact Hp|]. intros s1 Hrep1 Hd.
    by pose proof (rep_conf _ _ _ _ Hrep1) as (_ & _ & _ & _ & ? & _). }
  unfold wp in Hw. rewrite E in Hw. destruct Hw as (Hptr & w & G & Hw).
  unfold rt_smem_free. rewrite (proj2 (Z.eqb_neq p 0)) by lia.
  rewrite (bind_step _ _ s' tt s')
    by (change (RT_ALIGN_SIZE - 1) with 7; by rewrite land_7, H4).
  rewrite (bind_step _ _ s' s' s') by done. rewrite Hptr. change SIZEOF_STRUCT_MEM with 16.
  rewrite (bind_step (MEM_POOL _) _ s' (Z.land w MEM_MASK) s')
    by (unfold MEM_POOL, get_pool, rd, mbind, M_bind, lift; by rewrite G).
  destruct Hw as [-> | ->]; [done|]. rewrite (pool_mask base size) by done.
  rewrite (bind_step _ _ s' tt s').
  2: { unfold RT_ASSERT, SIZEOF_SMALL_MEM. by rewrite (proj2 (Z.eqb_neq _ _)) by lia. }
  rewrite (bind_step (MEM_ISUSED _) _ s' false s'); [done|].
  unfold MEM_ISUSED, get_pool, rd, mbind, M_bind, lift. rewrite G.
  by rewrite (pool_bit base size) by done.
Qed.

Lemma align_wraps n : 2 ^ 32 - 7 <= n < 2 ^ 32 -> RT_ALIGN n RT_ALIGN_SIZE = 0.
Proof.
  intros Hn. unfold RT_ALIGN, RT_ALIGN_SIZE. change (8 - 1) with 7. rewrite land_align.
  replace (n + 8 - 1) with ((n + 7 - 2 ^ 32) + 1 * 2 ^ 32) by lia.
  unfold wrap. rewrite Z.mod_add, Z.mod_small by lia. zlia.
Qed.

(** C40. The alignment of a request wraps around: a request for one of the last seven sizes is
    served as one for 16 bytes, and a reallocation to such a size releases the block. *)
Theorem request_wraps n p s :
  2 ^ 32 - 7 <= n < 2 ^ 32 ->
  rt_malloc n s = rt_malloc 16 s /\ rt_realloc p n s = rt_realloc p 0 s.
Proof.
  intros Hn. unfold rt_malloc, rt_realloc, rt_smem_alloc, rt_smem_realloc, round_size.
  rewrite (align_wraps n Hn). rewrite (proj2 (Z.eqb_neq n 0)) by lia. done.
Qed.

(** ** A small heap *)

(** 256 bytes at 0x20000004: 16 to 160 are offered. *)
Definition demo_ram : bytes := replicate 256 165.
Definition demo_heap : rt_small_mem :=
  match rt_smem_init 536870916 256 demo_ram with Ok (Some s) => s | _ => SmallMem 0 0 0 0 0 0 0 0 0 0 [] end.

Lemma demo_heap_reach : heap_reach demo_heap.
Proof. apply (heap_reach_init 536870916 256 demo_ram); vm_compute; done. Qed.

(** Running a list of operations, for the examples. *)
Definition after (ops : list heap_op) (s : rt_small_mem) : rt_small_mem :=
  fold_left (fun s o => match do_op o s with Ok (_, s') => s' | Err _ => s end) ops s.

(** A block of 24 bytes at 0x20000050, and one of 16 behind it. *)
Definition demo_one : rt_small_mem := after [Malloc 24] demo_heap.
Definition demo_two : rt_small_mem := after [Calloc 4 1] demo_one.
Definition demo_half : rt_small_mem := after [Release 536870992] demo_two.
Definition demo_none : rt_small_mem := after [Release 536871032] demo_half.

Lemma demo_reach o s s' r :
  heap_reach s -> legal (heap_map s) o -> do_op o s = Ok (r, s') -> s' = after [o] s -> heap_reach (after [o] s).
Proof. intros Hr Hl E <-. by eapply heap_reach_op. Qed.

Lemma demo_one_reach : heap_reach demo_one.
Proof.
  eapply (demo_reach (Malloc 24) demo_heap);
    [apply demo_heap_reach|split; lia|vm_compute; reflexivity|vm_compute; reflexivity].
Qed.

Lemma demo_two_reach : heap_reach demo_two.
Proof.
  eapply (demo_reach (Calloc 4 1) demo_one);
    [apply demo_one_reach|split; lia|vm_compute; reflexivity|vm_compute; reflexivity].
Qed.

Lemma demo_half_reach : heap_reach demo_half.
Proof.
  eapply (demo_reach (Release 536870992) demo_two);
    [apply demo_two_reach|right; vm_compute; by eexists|vm_compute; reflexivity|vm_compute; reflexivity].
Qed.

Lemma demo_none_reach : heap_reach demo_none.
Proof.
  eapply (demo_reach (Release 536871032) demo_half);
    [apply demo_half_reach|right; vm_compute; by eexists|vm_compute; reflexivity|vm_compute; reflexivity].
Qed.

Lemma heap_refines_witness :
  exists r s', do_op (Realloc 536870992 50) demo_two = Ok (r, s') /\
    heap_spec (heap_map demo_two) (Realloc 536870992 50) r (heap_map s').
Proof.
  apply (heap_refines demo_two (Realloc 536870992 50)); [apply demo_two_reach|].
  split; [right; vm_compute; by eexists|split; lia].
Defined.

Lemma heap_separate_witness :
  536870992 mod 8 = 0 /\ 8 <= 24 /\ heap_ptr demo_two + 16 <= 536870992 /\
  536870992 + 24 <= heap_ptr demo_two + heap_end demo_two /\
  slice (ram demo_two) (536870992 - heap_ptr demo_two) 24 = Ok (replicate 24 165) /\
  forall q e, heap_map demo_two !! q = Some e -> 536870992 <> q ->
    536870992 + 24 + 16 <= q \/ q + Zlen e + 16 <= 536870992.
Proof.
  apply (heap_separate demo_two 536870992 (replicate 24 165)); [apply demo_two_reach|].
  vm_compute. reflexivity.
Defined.

Lemma heap_recovers_witness :
  used demo_none = 0 /\ exists s', rt_malloc 150 demo_none = Ok (heap_ptr demo_none + 16, s').
Proof.
  apply (heap_recovers demo_none 150);
    [apply demo_none_reach|vm_compute; reflexivity|lia|lia|vm_compute; discriminate].
Defined.

Lemma double_free_caught_witness :
  rt_free 536870992 (after [Release 536870992] demo_two) = Err AssertFail.
Proof.
  apply (double_free_caught demo_two 536870992 (replicate 24 165));
    [apply demo_two_reach|vm_compute; reflexivity|vm_compute; reflexivity].
Defined.

Lemma request_wraps_witness :
  rt_malloc 4294967295 demo_one = rt_malloc 16 demo_one /\
  rt_realloc 536870992 4294967295 demo_one = rt_realloc 536870992 0 demo_one.
Proof. apply (request_wraps 4294967295 536870992 demo_one). lia. Defined.

(** C30. [rt_malloc] is first fit: the block given out is the first free one that the rounded
    request fits in, cut down when a header and 16 bytes are left over; NULL comes back, and
    nothing changes, exactly when no free block fits. *)
Theorem malloc_first_fit s n :
  heap_reach s -> 0 < n -> n + 7 < 2 ^ 32 ->
  match first_fit (round_size n) (heap_blocks_of s) with
  | None => rt_malloc n s = Ok (0, s)
  | Some (l, k, r) =>
      exists d s', rt_malloc n s = Ok (heap_ptr s + extent l + 16, s') /\
        Zlen d = k /\ heap_blocks_of s' = l ++ Used d :: r
  end.
Proof.
  intros Hr Hn Hn7. destruct (reach_rep s Hr) as (base & size & Hb & Hs & Hf & -> & bl & Hh & _).
  rewrite (heap_ok_blocks base size Hb Hs _ _ Hh).
  pose proof (fun Q => wp_alloc base size Hb Hs Hf n s bl Q Hh Hn Hn7) as Hw.
  destruct (first_fit (round_size n) bl) as [[[l k] r]|].
  - specialize (Hw (fun p s' => exists d, p = base + extent l + 16 /\ Zlen d = k /\
      heap_blocks_of s' = l ++ Used d :: r)).
    apply wp_run in Hw as (p & s' & E & d & -> & Hd & Hbl); [by exists d, s'|].
    intros d s' Hd Hs'. exists d. by rewrite (heap_ok_blocks base size Hb Hs _ _ Hs').
  - specialize (Hw (fun p s' => p = 0 /\ s' = s) ltac:(done)).
    by apply wp_run in Hw as (p & s' & E & -> & ->).
Qed.

Lemma malloc_first_fit_witness :
  match first_fit (round_size 20) (heap_blocks_of demo_half) with
  | None => rt_malloc 20 demo_half = Ok (0, demo_half)
  | Some (l, k, r) =>
      exists d s', rt_malloc 20 demo_half = Ok (heap_ptr demo_half + extent l + 16, s') /\
        Zlen d = k /\ heap_blocks_of s' = l ++ Used d :: r
  end.
Proof. apply (malloc_first_fit demo_half 20); [apply demo_half_reach|lia|lia]. Defined.

(** ** Aligned blocks *)

Lemma land_pow2 x k : 0 <= k -> Z.land x (Z.lnot (2 ^ k - 1)) = x / 2 ^ k * 2 ^ k.
Proof.
  intros Hk. rewrite <- Z.ldiff_land. replace (2 ^ k - 1) with (Z.ones k) by (rewrite Z.ones_equiv; lia).
  by rewrite Z.ldiff_ones_r, Z.shiftl_mul_pow2, Z.shiftr_div_pow2 by lia.
Qed.

Lemma align_ptr_spec p k :
  2 <= k < 31 -> 0 < p -> p mod 8 = 0 -> p + 2 ^ k < 2 ^ 32 ->
  let q := if Z.land p (u32 (2 ^ k - 1)) =? 0 then u32 (p + 2 ^ k)
           else Z.land (u32 (p + (2 ^ k - 1))) (Z.lnot (2 ^ k - 1)) in
  q mod 2 ^ k = 0 /\ p + 4 <= q <= p + 2 ^ k /\ q mod 4 = 0.
Proof.
  intros Hk Hp Hp8 Hb. assert (4 <= 2 ^ k) by (apply (Z.pow_le_mono_r 2 2 k); lia).
  assert (2 ^ k mod 4 = 0) as Hk4.
  { replace k with (k - 2 + 2) by lia. rewrite Z.pow_add_r by lia. by rewrite Z.mod_mul. }
  cbv zeta. rewrite !wrap_small by lia.
  assert (Z.land p (2 ^ k - 1) = p mod 2 ^ k) as ->.
  { rewrite <- Z.land_ones by lia. f_equal. rewrite Z.ones_equiv. lia. }
  destruct (Z.eqb_spec (p mod 2 ^ k) 0) as [E|E].
  - split_and!; [|lia|lia|].
    + rewrite <- Z.add_mod_idemp_l, E by lia. by rewrite Z.add_0_l, Z.mod_same by lia.
    + zlia.
  - rewrite land_pow2 by lia.
    pose proof (Z.div_mod p (2 ^ k) ltac:(lia)) as Hdm.
    pose proof (Z.mod_pos_bound p (2 ^ k) ltac:(lia)).
    assert ((p + (2 ^ k - 1)) / 2 ^ k = p / 2 ^ k + 1) as ->.
    { symmetry. apply (Z.div_unique _ _ _ (p mod 2 ^ k - 1)); [lia|]. lia. }
    rewrite Z.mul_add_distr_r, Z.mul_1_l.
    assert (exists j, 2 ^ k = 4 * j) as [j Ej] by (exists (2 ^ k / 4); zlia).
    set (x := p / 2 ^ k) in *. set (y := p mod 2 ^ k) in *.
    assert (exists i, p = 4 * i) as [i Ei] by (exists (p / 4); zlia).
    assert (y = 4 * (i - j * x)) as Ey by nia.
    split_and!.
    + rewrite Z.add_comm, Z.mod_add by lia. by rewrite Z.mod_same by lia.
    + nia.
    + nia.
    + replace (x * 2 ^ k + 2 ^ k) with ((x * j + j) * 4) by nia. by rewrite Z.mod_mul.
Qed.

Section aligned.
Context (base size : Z).
Context (Hbase : 56 < base /\ base mod 8 = 0).
Context (Hsize : 0 <= size /\ size mod 8 = 0).
Context (Hfit : base + size + 32 < 2 ^ 32).

(** What [rt_malloc_align] leaves: an aligned part of a fresh block, whose address is in the
    word before that part. *)
Definition aligned_block (mm : gmap Z bytes) (n align q : Z) (s : rt_small_mem) : Prop :=
  exists p d, mm !! p = None /\ 0 < p /\ rep base size s (<[p := d]> mm) /\
    q mod align = 0 /\ p + 4 <= q /\ q + n <= p + Zlen d /\ get32 (ram s) (q - 4 - base) = Ok p.

Lemma wp_malloc_align n k s mm (Q : Z -> rt_small_mem -> Prop) :
  rep base size s mm -> 2 <= k < 31 -> 0 < n -> n + 2 ^ k + 10 < 2 ^ 32 -> Q 0 s ->
  (forall q s', q <> 0 -> aligned_block mm n (2 ^ k) q s' -> Q q s') ->
  wp (rt_malloc_align n (2 ^ k)) Q s.
Proof.
  intros Hs Hk Hn Hb HQ0 HQ. assert (4 <= 2 ^ k) by (apply (Z.pow_le_mono_r 2 2 k); lia).
  assert (exists j, 2 ^ k = 4 * j) as [j Ej].
  { exists (2 ^ (k - 2)). replace k with (2 + (k - 2)) at 1 by lia. by rewrite Z.pow_add_r by lia. }
  unfold rt_malloc_align. pose proof (fun x => land_pow2 x 2 ltac:(lia)) as H4.
  change (2 ^ 2 - 1) with 3 in H4. change (2 ^ 2) with 4 in H4.
  rewrite !H4, !(wrap_small 32 (_ + 3)) by lia.
  assert ((2 ^ k + 3) / 4 * 4 = 2 ^ k) as -> by (rewrite Ej; zlia).
  assert (n <= (n + 3) / 4 * 4 <= n + 3) as Hn4 by zlia. rewrite (wrap_small 32 (_ + 2 ^ k)) by lia.
  apply wp_bind, (wp_alloc_rep base size Hbase Hsize Hfit _ s mm); [done|lia|lia| |].
  { apply wp_ret, HQ0. }
  intros p d s1 Hp Hp0 Hd _ Hs1. rewrite (proj2 (Z.eqb_neq p 0)) by lia. simpl negb. cbv iota.
  assert (<[p := d]> mm !! p = Some d) as Hl by (by rewrite lookup_insert_eq).
  pose proof (rep_range base size Hbase _ _ _ _ Hs1 Hl) as (Hp1 & Hp2 & _ & Hp8).
  destruct (align_ptr_spec p k ltac:(lia) Hp0 Hp8 ltac:(lia)) as (Hq & Hq1 & _).
  set (q := if Z.land p _ =? 0 then _ else _) in *. cbv zeta.
  apply wp_bind, wp_gets. pose proof (rep_conf _ _ _ _ Hs1) as (_ & _ & _ & _ & -> & _).
  destruct (rep_blit_in base size Hbase Hsize s1 _ p d (q - 4 - p) (Z_to_little_endian 4 8 p) Hs1 Hl)
    as [m Em]; [lia|rewrite Zlen_le32; lia|].
  destruct (rep_write base size Hbase Hsize s1 _ p d (q - 4 - p) (Z_to_little_endian 4 8 p) m Hs1 Hl) as (d' & Ed & Hs2);
    [lia|rewrite Zlen_le32; lia|exact Em|].
  replace (p - base + (q - 4 - p)) with (q - 4 - base) in Em by lia.
  rewrite insert_insert_eq in Hs2.
  apply wp_bind. unfold wp, wr, set32. rewrite Em. apply HQ; [lia|].
  exists p, d'. rewrite (blit_Zlen _ _ _ _ Ed). split_and!; try done; try lia.
  apply (get32_set32 (ram s1) _ p m); [unfold fits; lia|exact Em].
Qed.

Lemma wp_free_align mm n align q s (Q : unit -> rt_small_mem -> Prop) :
  aligned_block mm n align q s -> q <> 0 -> (forall s', rep base size s' mm -> Q tt s') ->
  wp (rt_free_align q) Q s.
Proof.
  intros (p & d & Hp & Hp0 & Hs & _ & Hq & _ & G) Hq0 HQ. unfold rt_free_align.
  rewrite (proj2 (Z.eqb_neq q 0)) by done. apply wp_bind, wp_gets.
  pose proof (rep_conf _ _ _ _ Hs) as (_ & _ & _ & _ & -> & _).
  apply wp_bind. eapply wp_rd; [exact G|]. unfold rt_free. rewrite (proj2 (Z.eqb_neq p 0)) by lia.
  eapply (wp_free_rep base size Hbase Hsize Hfit); [exact Hs|by rewrite lookup_insert_eq|].
  intros s' Hs' _. apply HQ. by rewrite delete_insert_id in Hs'.
Qed.
End aligned.

(** [rt_malloc_align] with a power of two gives NULL or an address that is a multiple of it
    and has the size asked for inside one fresh block, and [rt_free_align] of that address
    finds the block again and releases it. *)
Theorem align_round_trip s n k :
  heap_reach s -> 2 <= k < 31 -> 0 < n -> n + 2 ^ k + 10 < 2 ^ 32 ->
  exists q s1, rt_malloc_align n (2 ^ k) s = Ok (q, s1) /\
    (q <> 0 ->
      (exists p d, heap_map s !! p = None /\ heap_map s1 = <[p := d]> (heap_map s) /\
         q mod 2 ^ k = 0 /\ p <= q /\ q + n <= p + Zlen d) /\
      exists s2, rt_free_align q s1 = Ok (tt, s2) /\ heap_map s2 = heap_map s).
Proof.
  intros Hr Hk Hn Hb. destruct (reach_rep s Hr) as (base & size & Hba & Hs & Hf & _ & Hrep).
  assert (wp (rt_malloc_align n (2 ^ k))
    (fun q s1 => q <> 0 -> aligned_block base size (heap_map s) n (2 ^ k) q s1) s)
    as (q & s1 & E & Hq)%wp_run.
  { apply (wp_malloc_align base size Hba Hs Hf _ _ _ (heap_map s)); done. }
  exists q, s1. split; [done|]. intros Hq0. specialize (Hq Hq0).
  pose proof Hq as (p & d & Hp & Hp0 & Hs1 & Hqa & Hpq & Hqn & _). split.
  { exists p, d. rewrite (rep_map base size Hba Hs _ _ Hs1). split_and!; try done; lia. }
  assert (wp (rt_free_align q) (fun _ s2 => rep base size s2 (heap_map s)) s1)
    as ([] & s2 & E2 & Hs2)%wp_run.
  { by apply (wp_free_align base size Hba Hs Hf (heap_map s) n (2 ^ k)). }
  exists s2. split; [done|]. apply (rep_map base size Hba Hs _ _ Hs2).
Qed.

Lemma align_round_trip_witness :
  exists q s1, rt_malloc_align 20 (2 ^ 6) demo_none = Ok (q, s1) /\
    (q <> 0 ->
      (exists p d, heap_map demo_none !! p = None /\
         heap_map s1 = <[p := d]> (heap_map demo_none) /\
         q mod 2 ^ 6 = 0 /\ p <= q /\ q + 20 <= p + Zlen d) /\
      exists s2, rt_free_align q s1 = Ok (tt, s2) /\ heap_map s2 = heap_map demo_none).
Proof. apply (align_round_trip demo_none 20 6); [apply demo_none_reach|lia|lia|lia]. Defined.
