(* ===== verification/Timer.v ===== *)
(** The kernel's timers: [rt-thread/src/timer.c] as it is configured (hard timers, one list),
    and the tick of [rt-thread/src/clock.c] that drives them.

    A timer is a block of memory, the list of running timers a sequence of them; the clock is
    the 32-bit tick that wraps around.  The timeout functions are a parameter: they run inside
    [rt_timer_check] and may call the timer service.  The theorems compare the service with a
    queue of timers and remaining ticks. *)

From stdpp Require Import gmap sorting.
From S2P Require Import Prelude.
#[local] Open Scope Z_scope.

(** ** Data *)

Definition RT_TICK_MAX : Z := 4294967295.
Definition RT_TIMER_FLAG_DEACTIVATED : Z := 0.
Definition RT_TIMER_FLAG_ACTIVATED : Z := 1.
Definition RT_TIMER_FLAG_PROCESSING : Z := 2.
Definition RT_TIMER_FLAG_PERIODIC : Z := 4.
Definition RT_TIMER_FLAG_THREAD_TIMER : Z := 16.
Definition RT_TIMER_CTRL_SET_TIME : Z := 0.
Definition RT_TIMER_CTRL_GET_TIME : Z := 1.
Definition RT_TIMER_CTRL_SET_ONESHOT : Z := 2.
Definition RT_TIMER_CTRL_SET_PERIODIC : Z := 3.
Definition RT_TIMER_CTRL_GET_STATE : Z := 4.
Definition RT_TIMER_CTRL_GET_REMAIN_TIME : Z := 5.
Definition RT_TIMER_CTRL_GET_FUNC : Z := 6.
Definition RT_TIMER_CTRL_SET_FUNC : Z := 7.
Definition RT_TIMER_CTRL_GET_PARM : Z := 8.
Definition RT_TIMER_CTRL_SET_PARM : Z := 9.
Definition RT_Object_Class_Timer : Z := 10.
Definition RT_Object_Class_Static : Z := 128.

Record rt_timer := Timer {
  t_type : Z;              (* parent.type, 0 once detached *)
  t_flag : Z;              (* parent.flag *)
  timeout_func : Z;
  parameter : Z;
  init_tick : Z;
  timeout_tick : Z;
}.

Record timer_st := TimerSt {
  timers : gmap Z rt_timer;    (* the timers in memory *)
  timer_list : list Z;         (* _timer_list *)
  local_list : list Z;         (* the list of rt_timer_check *)
  rt_tick : Z;
  thread_set : list Z;         (* thread timers whose thread is marked *)
  calls : list (Z * Z);        (* the timers that ran, with the tick *)
}.

Definition set_timers (f : gmap Z rt_timer -> gmap Z rt_timer) : M timer_st unit :=
  modify (fun s => TimerSt (f (timers s)) (timer_list s) (local_list s) (rt_tick s) (thread_set s) (calls s)).
Definition set_list (l : list Z) : M timer_st unit :=
  modify (fun s => TimerSt (timers s) l (local_list s) (rt_tick s) (thread_set s) (calls s)).
Definition set_local (l : list Z) : M timer_st unit :=
  modify (fun s => TimerSt (timers s) (timer_list s) l (rt_tick s) (thread_set s) (calls s)).
Definition rt_tick_set (n : Z) : M timer_st unit :=
  modify (fun s => TimerSt (timers s) (timer_list s) (local_list s) n (thread_set s) (calls s)).
Definition rt_tick_get : M timer_st Z := gets rt_tick.
(** [rt_sched_thread_timer_start] marks the thread that the timer belongs to. *)
Definition mark_thread (t : Z) : M timer_st unit :=
  modify (fun s => TimerSt (timers s) (timer_list s) (local_list s) (rt_tick s) (t :: thread_set s) (calls s)).
Definition log_call (t : Z) : M timer_st unit :=
  modify (fun s => TimerSt (timers s) (timer_list s) (local_list s) (rt_tick s) (thread_set s)
    (calls s ++ [(t, rt_tick s)])).

(** An access to a timer's memory; a released block is not there. *)
Definition load (t : Z) : M timer_st rt_timer := fun s =>
  match timers s !! t with Some x => Ok (x, s) | None => Err OutOfBounds end.
Definition store (t : Z) (x : rt_timer) : M timer_st unit := set_timers <[t := x]>.
Definition set_flag (t f : Z) : M timer_st unit :=
  x ← load t;
  store t (Timer (t_type x) f (timeout_func x) (parameter x) (init_tick x) (timeout_tick x)).
Definition set_timeout_tick (t n : Z) : M timer_st unit :=
  x ← load t;
  store t (Timer (t_type x) (t_flag x) (timeout_func x) (parameter x) (init_tick x) n).
Definition set_init_tick (t n : Z) : M timer_st unit :=
  x ← load t;
  store t (Timer (t_type x) (t_flag x) (timeout_func x) (parameter x) n (timeout_tick x)).
Definition set_func (t f : Z) : M timer_st unit :=
  x ← load t;
  store t (Timer (t_type x) (t_flag x) f (parameter x) (init_tick x) (timeout_tick x)).
Definition set_parameter (t p : Z) : M timer_st unit :=
  x ← load t;
  store t (Timer (t_type x) (t_flag x) (timeout_func x) p (init_tick x) (timeout_tick x)).

(** [flag & f], [flag &= ~f], [flag |= f] *)
Definition has (flag f : Z) : bool := negb (Z.land flag f =? 0).
Definition clear_flag (t f : Z) : M timer_st unit := x ← load t; set_flag t (Z.land (t_flag x) (Z.lnot f)).
Definition raise_flag (t f : Z) : M timer_st unit := x ← load t; set_flag t (Z.lor (t_flag x) f).

Definition RT_ASSERT (b : bool) : M timer_st unit := if b then mret tt else throw AssertFail.
Definition is_timer (t : Z) : M timer_st bool :=
  x ← load t; mret (Z.land (t_type x) (Z.lnot RT_Object_Class_Static) =? RT_Object_Class_Timer).
Definition is_static (t : Z) : M timer_st bool :=
  x ← load t; mret (has (t_type x) RT_Object_Class_Static).

(** ** Creation *)

Definition _timer_init (t type timeout param time flag : Z) : M timer_st unit :=
  store t (Timer type (Z.land flag (Z.lnot RT_TIMER_FLAG_ACTIVATED)) timeout param time 0).

(** The memory [t] must not be a timer in use. *)
Definition rt_timer_init (t timeout param time flag : Z) : M timer_st unit :=
  RT_ASSERT (negb (t =? 0)) ;;;
  RT_ASSERT (negb (timeout =? 0)) ;;;
  RT_ASSERT (time <? RT_TICK_MAX / 2) ;;;
  s ← get;
  RT_ASSERT (match timers s !! t with Some x => t_type x =? 0 | None => true end) ;;;
  _timer_init t (Z.lor RT_Object_Class_Timer RT_Object_Class_Static) timeout param time flag.

(** [t] is what the heap gives, 0 when it has nothing. *)
Definition rt_timer_create (t timeout param time flag : Z) : M timer_st Z :=
  RT_ASSERT (negb (timeout =? 0)) ;;;
  RT_ASSERT (time <? RT_TICK_MAX / 2) ;;;
  if t =? 0 then mret 0 else
  _timer_init t RT_Object_Class_Timer timeout param time flag ;;;
  mret t.

(** Out of whatever list it is in. *)
Definition _timer_remove (t : Z) : M timer_st unit :=
  s ← get;
  set_list (filter (fun x => x <> t) (timer_list s)) ;;;
  set_local (filter (fun x => x <> t) (local_list s)).

Definition rt_timer_detach (t : Z) : M timer_st Z :=
  RT_ASSERT (negb (t =? 0)) ;;;
  b ← is_timer t;
  RT_ASSERT b ;;;
  b ← is_static t;
  RT_ASSERT b ;;;
  _timer_remove t ;;;
  clear_flag t RT_TIMER_FLAG_ACTIVATED ;;;
  x ← load t;
  store t (Timer 0 (t_flag x) (timeout_func x) (parameter x) (init_tick x) (timeout_tick x)) ;;;
  mret RT_EOK.

Definition rt_timer_delete (t : Z) : M timer_st Z :=
  RT_ASSERT (negb (t =? 0)) ;;;
  b ← is_timer t;
  RT_ASSERT b ;;;
  b ← is_static t;
  RT_ASSERT (negb b) ;;;
  _timer_remove t ;;;
  clear_flag t RT_TIMER_FLAG_ACTIVATED ;;;
  set_timers (delete t) ;;;
  mret RT_EOK.

(** ** Starting and stopping *)

(** Where a timer goes: behind every timer that is not due later. *)
Fixpoint insert_pos (timeout : Z) (t : Z) (l : list Z) : M timer_st (list Z) :=
  match l with
  | [] => mret [t]
  | p :: r =>
      x ← load p;
      let d := u32 (timeout_tick x - timeout) in
      if d =? 0 then l' ← insert_pos timeout t r; mret (p :: l')
      else if d <? RT_TICK_MAX / 2 then mret (t :: p :: r)
      else l' ← insert_pos timeout t r; mret (p :: l')
  end.

Definition _timer_start (t : Z) : M timer_st Z :=
  x ← load t;
  if has (t_flag x) RT_TIMER_FLAG_PROCESSING then mret (- RT_ERROR) else
  _timer_remove t ;;;
  clear_flag t RT_TIMER_FLAG_ACTIVATED ;;;
  now ← rt_tick_get;
  x ← load t;
  let timeout := u32 (now + init_tick x) in
  set_timeout_tick t timeout ;;;
  l ← gets timer_list;
  l ← insert_pos timeout t l;
  set_list l ;;;
  raise_flag t RT_TIMER_FLAG_ACTIVATED ;;;
  mret RT_EOK.

Definition rt_timer_start (t : Z) : M timer_st Z :=
  RT_ASSERT (negb (t =? 0)) ;;;
  b ← is_timer t;
  RT_ASSERT b ;;;
  x ← load t;
  (if has (t_flag x) RT_TIMER_FLAG_THREAD_TIMER then mark_thread t else mret tt) ;;;
  _timer_start t.

Definition rt_timer_stop (t : Z) : M timer_st Z :=
  RT_ASSERT (negb (t =? 0)) ;;;
  b ← is_timer t;
  RT_ASSERT b ;;;
  x ← load t;
  if negb (has (t_flag x) RT_TIMER_FLAG_ACTIVATED) then mret (- RT_ERROR) else
  _timer_remove t ;;;
  clear_flag t RT_TIMER_FLAG_ACTIVATED ;;;
  mret RT_EOK.

(** The result and what [*arg] holds afterwards; [arg] is the argument itself for the two
    commands that set a pointer, and the value it points to for the others. *)
Definition rt_timer_control (t cmd arg : Z) : M timer_st (Z * Z) :=
  RT_ASSERT (negb (t =? 0)) ;;;
  b ← is_timer t;
  RT_ASSERT b ;;;
  x ← load t;
  arg ← (if cmd =? RT_TIMER_CTRL_GET_TIME then mret (init_tick x)
         else if cmd =? RT_TIMER_CTRL_SET_TIME then
           RT_ASSERT (arg <? RT_TICK_MAX / 2) ;;;
           (if has (t_flag x) RT_TIMER_FLAG_ACTIVATED
            then _timer_remove t ;;; clear_flag t RT_TIMER_FLAG_ACTIVATED else mret tt) ;;;
           set_init_tick t arg ;;; mret arg
         else if cmd =? RT_TIMER_CTRL_SET_ONESHOT then
           clear_flag t RT_TIMER_FLAG_PERIODIC ;;; mret arg
         else if cmd =? RT_TIMER_CTRL_SET_PERIODIC then
           raise_flag t RT_TIMER_FLAG_PERIODIC ;;; mret arg
         else if cmd =? RT_TIMER_CTRL_GET_STATE then
           mret (if has (t_flag x) RT_TIMER_FLAG_ACTIVATED
                 then RT_TIMER_FLAG_ACTIVATED else RT_TIMER_FLAG_DEACTIVATED)
         else if cmd =? RT_TIMER_CTRL_GET_REMAIN_TIME then mret (timeout_tick x)
         else if cmd =? RT_TIMER_CTRL_GET_FUNC then mret (timeout_func x)
         else if cmd =? RT_TIMER_CTRL_SET_FUNC then set_func t arg ;;; mret arg
         else if cmd =? RT_TIMER_CTRL_GET_PARM then mret (parameter x)
         else if cmd =? RT_TIMER_CTRL_SET_PARM then set_parameter t arg ;;; mret arg
         else mret arg);
  mret (RT_EOK, arg).

(** [rt_timer_next_timeout_tick], over [_timer_list_next_timeout] *)
Definition rt_timer_next_timeout_tick : M timer_st Z :=
  l ← gets timer_list;
  match l with
  | [] => mret RT_TICK_MAX
  | t :: _ => x ← load t; mret (timeout_tick x)
  end.

Definition rt_system_timer_init : M timer_st unit := set_list [].

(** ** The tick interrupt *)

Section check.
(** The timeout functions, by function and parameter. *)
Context (timeout : Z -> Z -> M timer_st unit).

(** One turn of the loop of [rt_timer_check]: false at its end. *)
Definition check_turn (current : Z) : M timer_st (option Z) :=
  l ← gets timer_list;
  match l with
  | [] => mret None
  | t :: _ =>
      x ← load t;
      if u32 (current - timeout_tick x) <? RT_TICK_MAX / 2 then
        _timer_remove t ;;;
        (if negb (has (t_flag x) RT_TIMER_FLAG_PERIODIC)
         then clear_flag t RT_TIMER_FLAG_ACTIVATED else mret tt) ;;;
        raise_flag t RT_TIMER_FLAG_PROCESSING ;;;
        q ← gets local_list;
        set_local (t :: q) ;;;
        x ← load t;
        log_call t ;;;
        timeout (timeout_func x) (parameter x) ;;;
        current ← rt_tick_get;
        clear_flag t RT_TIMER_FLAG_PROCESSING ;;;
        q ← gets local_list;
        match q with
        | [] => mret (Some current)       (* detached or stopped in its function *)
        | _ :: _ =>
            _timer_remove t ;;;
            x ← load t;
            (if has (t_flag x) RT_TIMER_FLAG_PERIODIC && has (t_flag x) RT_TIMER_FLAG_ACTIVATED
             then clear_flag t RT_TIMER_FLAG_ACTIVATED ;;; _timer_start t ;;; mret tt
             else mret tt) ;;;
            mret (Some current)
        end
      else mret None
  end.

Fixpoint check_loop (fuel : nat) (current : Z) : M timer_st unit :=
  match fuel with
  | O => throw Spin
  | S fuel => r ← check_turn current;
              match r with Some current => check_loop fuel current | None => mret tt end
  end.

Definition rt_timer_check (fuel : nat) : M timer_st unit :=
  current ← rt_tick_get;
  set_local [] ;;;
  check_loop fuel current.

(** [rt_tick_increase], in the tick interrupt; the time slice of the running thread is the
    scheduler's. *)
Definition rt_tick_increase (fuel : nat) : M timer_st unit :=
  now ← rt_tick_get;
  rt_tick_set (u32 (now + 1)) ;;;
  rt_timer_check fuel.
End check.

(** [rt_tick_from_millisecond], with 1000 ticks a second. *)
Definition RT_TICK_PER_SECOND : Z := 1000.
Definition RT_WAITING_FOREVER : Z := -1.
Definition rt_tick_from_millisecond (ms : Z) : Z :=
  if ms <? 0 then u32 RT_WAITING_FOREVER
  else u32 (u32 (RT_TICK_PER_SECOND * (ms / 1000)) +
            (RT_TICK_PER_SECOND * (ms mod 1000) + 999) / 1000).

(** ** Flags and differences of ticks *)

Definition HALF : Z := 2147483647.

Lemma has_bit f k : 0 <= k -> has f (2 ^ k) = Z.testbit f k.
Proof.
  intros Hk. unfold has. destruct (Z.testbit f k) eqn:E.
  - destruct (Z.eqb_spec (Z.land f (2 ^ k)) 0) as [H|]; [|done].
    apply (f_equal (fun x => Z.testbit x k)) in H.
    by rewrite Z.land_spec, Z.pow2_bits_true, E, Z.bits_0 in H.
  - apply negb_false_iff, Z.eqb_eq. apply Z.bits_inj'. intros i Hi.
    rewrite Z.land_spec, Z.bits_0. destruct (decide (i = k)) as [->|]; [by rewrite E|].
    by rewrite Z.pow2_bits_false, Bool.andb_false_r by lia.
Qed.

Lemma bit_cleared f j k :
  0 <= j -> 0 <= k -> Z.testbit (Z.land f (Z.lnot (2 ^ k))) j = if j =? k then false else Z.testbit f j.
Proof.
  intros Hj Hk. rewrite Z.land_spec, Z.lnot_spec by done.
  destruct (Z.eqb_spec j k) as [->|].
  - by rewrite Z.pow2_bits_true, Bool.andb_false_r.
  - by rewrite Z.pow2_bits_false, Bool.andb_true_r by lia.
Qed.

Lemma bit_raised f j k :
  0 <= j -> 0 <= k -> Z.testbit (Z.lor f (2 ^ k)) j = if j =? k then true else Z.testbit f j.
Proof.
  intros Hj Hk. rewrite Z.lor_spec. destruct (Z.eqb_spec j k) as [->|].
  - by rewrite Z.pow2_bits_true, Bool.orb_true_r.
  - by rewrite Z.pow2_bits_false, Bool.orb_false_r by lia.
Qed.

(** The three flags that the service tests, as bits of the flag word. *)
Definition active (x : rt_timer) : bool := Z.testbit (t_flag x) 0.
Definition processing (x : rt_timer) : bool := Z.testbit (t_flag x) 1.
Definition periodic (x : rt_timer) : bool := Z.testbit (t_flag x) 2.

Lemma has_active x : has (t_flag x) RT_TIMER_FLAG_ACTIVATED = active x.
Proof. by apply (has_bit _ 0). Qed.
Lemma has_processing x : has (t_flag x) RT_TIMER_FLAG_PROCESSING = processing x.
Proof. by apply (has_bit _ 1). Qed.
Lemma has_periodic x : has (t_flag x) RT_TIMER_FLAG_PERIODIC = periodic x.
Proof. by apply (has_bit _ 2). Qed.

Lemma wrap_diff a r now : u32 (u32 (now + a) - u32 (now + r)) = u32 (a - r).
Proof.
  unfold wrap. rewrite <- Zminus_mod. f_equal. lia.
Qed.

(** The order of two timeouts, when both are within half the range of the tick. *)
Lemma diff_order a r :
  -1 <= a < HALF -> -1 <= r < HALF -> a - r < HALF ->
  (u32 (a - r) =? 0) = (a =? r) /\ (u32 (a - r) <? RT_TICK_MAX / 2) = (r <=? a).
Proof.
  intros Ha Hr Har. unfold HALF in *. change (RT_TICK_MAX / 2) with 2147483647.
  destruct (Z.le_gt_cases r a).
  - rewrite wrap_small by lia. split; [destruct (Z.eqb_spec (a - r) 0), (Z.eqb_spec a r); lia|].
    rewrite (proj2 (Z.ltb_lt _ _)), (proj2 (Z.leb_le _ _)) by lia. done.
  - replace (u32 (a - r)) with (a - r + 2 ^ 32).
    2: { unfold wrap. symmetry. rewrite <- (Z.mod_add _ 1) by lia. apply Z.mod_small. lia. }
    split; [destruct (Z.eqb_spec (a - r + 2 ^ 32) 0), (Z.eqb_spec a r); lia|].
    rewrite (proj2 (Z.ltb_ge _ _)), (proj2 (Z.leb_gt _ _)) by lia. done.
Qed.

(** A timer is due when nothing of its time remains. *)
Lemma due_test now r : -1 <= r < HALF -> (u32 (u32 now - u32 (now + r)) <? RT_TICK_MAX / 2) = (r <=? 0).
Proof.
  intros Hr. replace (u32 now) with (u32 (now + 0)) by (f_equal; lia). rewrite wrap_diff.
  apply (diff_order 0 r); unfold HALF in *; lia.
Qed.

(** ** The queue: timers with the ticks that remain *)

Fixpoint qinsert (t r : Z) (q : list (Z * Z)) : list (Z * Z) :=
  match q with
  | [] => [(t, r)]
  | (p, rp) :: q' => if rp <=? r then (p, rp) :: qinsert t r q' else (t, r) :: q
  end.
Definition qremove (t : Z) (q : list (Z * Z)) : list (Z * Z) := filter (fun e => e.1 <> t) q.

Definition qle (a b : Z * Z) : Prop := a.2 <= b.2.

Lemma filter_all {A} (P : A -> Prop) `{forall x, Decision (P x)} l : Forall P l -> filter P l = l.
Proof. induction 1 as [|x l Hx _ IH]; [done|]. by rewrite filter_cons_True, IH. Qed.

Lemma filter_none {A} (P : A -> Prop) `{forall x, Decision (P x)} l :
  Forall (fun x => ~ P x) l -> filter P l = [].
Proof. induction 1 as [|x l Hx _ IH]; [done|]. by rewrite filter_cons_False. Qed.

Lemma qinsert_perm t r q : qinsert t r q ≡ₚ (t, r) :: q.
Proof.
  induction q as [|[p rp] q IH]; simpl; [done|]. destruct (rp <=? r); [|done].
  rewrite IH. by rewrite Permutation_swap.
Qed.

Lemma qinsert_sorted t r q : StronglySorted qle q -> StronglySorted qle (qinsert t r q).
Proof.
  induction 1 as [|[p rp] q Hq IH Hp]; simpl; [by repeat constructor|].
  destruct (Z.leb_spec rp r) as [Hle|Hgt].
  - constructor; [done|]. rewrite qinsert_perm. constructor; [done|done].
  - constructor; [by constructor|]. constructor; [unfold qle; simpl; lia|].
    eapply Forall_impl; [exact Hp|]. unfold qle. simpl. intros; lia.
Qed.

Lemma qremove_sorted t q : StronglySorted qle q -> StronglySorted qle (qremove t q).
Proof.
  induction 1 as [|e q Hq IH Hp]; [by constructor|]. unfold qremove. rewrite filter_cons.
  case_decide; [|done]. constructor; [done|].
  apply Forall_forall. intros y [_ Hy]%list_elem_of_filter. by eapply Forall_forall in Hp.
Qed.

Lemma qremove_ids t q : (qremove t q).*1 = filter (fun x => x <> t) q.*1.
Proof.
  induction q as [|e q IH]; [done|]. unfold qremove in *. rewrite fmap_cons, !filter_cons.
  repeat case_decide; try done. rewrite fmap_cons. by f_equal.
Qed.

Lemma qremove_out t q : t ∉ q.*1 -> qremove t q = q.
Proof.
  intros Ht. apply filter_all, Forall_forall. intros [p r] Hin. simpl. intros ->.
  apply Ht, list_elem_of_fmap. by exists (t, r).
Qed.

Lemma filter_out (t : Z) (l : list Z) : t ∉ l -> filter (fun x => x <> t) l = l.
Proof. intros Ht. apply filter_all, Forall_forall. set_solver. Qed.

Lemma elem_qinsert t r q e : e ∈ qinsert t r q <-> e = (t, r) \/ e ∈ q.
Proof. rewrite qinsert_perm, elem_of_cons. done. Qed.

Lemma elem_ids t r q p : p ∈ (qinsert t r q).*1 <-> p = t \/ p ∈ q.*1.
Proof. rewrite qinsert_perm. simpl. apply elem_of_cons. Qed.

(** ** States and queues *)

(** A memory and lists that change, the clock and the calls as they are. *)
Definition with_timers (m : gmap Z rt_timer) (l q : list Z) (s : timer_st) : timer_st :=
  TimerSt m l q (rt_tick s) (thread_set s) (calls s).

(** What the service never changes of a timer by itself. *)
Record tinfo := Info {
  i_type : Z; i_periodic : bool; i_time : Z; i_func : Z; i_param : Z;
}.
Definition info_of (x : rt_timer) : tinfo :=
  Info (t_type x) (periodic x) (init_tick x) (timeout_func x) (parameter x).
Definition attrs (s : timer_st) : gmap Z tinfo := info_of <$> timers s.

(** The list is the queue in order of its remaining ticks, a timer's timeout is the clock plus
    what remains, and a timer is active when it is in the queue. *)
Record queue_ok (lo : Z) (s : timer_st) (q : list (Z * Z)) : Prop := QueueOk {
  q_list : timer_list s = q.*1;
  q_nodup : NoDup q.*1;
  q_sorted : StronglySorted qle q;
  q_tick : fits 32 (rt_tick s);
  q_entry t r : (t, r) ∈ q -> lo <= r < HALF /\
    exists x, timers s !! t = Some x /\ timeout_tick x = u32 (rt_tick s + r);
  q_timer t x : timers s !! t = Some x ->
    0 <= init_tick x < HALF /\ processing x = false /\ active x = bool_decide (t ∈ q.*1);
}.

(** The test of [rt_timer_check], for a timer of the queue. *)
Lemma due_entry s q t r x :
  queue_ok (-1) s q -> (t, r) ∈ q -> timers s !! t = Some x ->
  (u32 (rt_tick s - timeout_tick x) <? RT_TICK_MAX / 2) = (r <=? 0).
Proof.
  intros Hq Hin E. destruct (q_entry _ _ _ Hq t r Hin) as (Hr & x' & E' & Et).
  rewrite E in E'. injection E' as <-. rewrite Et.
  rewrite <- (wrap_small 32 (rt_tick s)) at 1 by apply (q_tick _ _ _ Hq). by apply due_test.
Qed.

(** No periodic timer has the period 0. *)
Definition periods_ok (s : timer_st) : Prop :=
  forall t x, timers s !! t = Some x -> periodic x = true -> 0 < init_tick x.

Lemma periods_attrs s s' : attrs s' = attrs s -> periods_ok s -> periods_ok s'.
Proof.
  intros Ha Hp t x Hx Hper. pose proof (f_equal (.!! t) Ha) as E. unfold attrs in E.
  rewrite !lookup_fmap, Hx in E. destruct (timers s !! t) as [y|] eqn:Hy; [|done].
  simpl in E. injection E as _ Ep Ei _ _. rewrite Ei. apply (Hp t); congruence.
Qed.

Lemma wp_load t x (Q : rt_timer -> timer_st -> Prop) s :
  timers s !! t = Some x -> Q x s -> wp (load t) Q s.
Proof. intros E HQ. unfold wp, load. by rewrite E. Qed.

Definition with_flag (x : rt_timer) (f : Z) : rt_timer :=
  Timer (t_type x) f (timeout_func x) (parameter x) (init_tick x) (timeout_tick x).

Lemma wp_clear_flag t f x (Q : unit -> timer_st -> Prop) s :
  timers s !! t = Some x ->
  Q tt (with_timers (<[t := with_flag x (Z.land (t_flag x) (Z.lnot f))]> (timers s))
          (timer_list s) (local_list s) s) ->
  wp (clear_flag t f) Q s.
Proof.
  intros E HQ. apply wp_bind. eapply wp_load; [done|]. apply wp_bind. by eapply wp_load.
Qed.

Lemma wp_raise_flag t f x (Q : unit -> timer_st -> Prop) s :
  timers s !! t = Some x ->
  Q tt (with_timers (<[t := with_flag x (Z.lor (t_flag x) f)]> (timers s))
          (timer_list s) (local_list s) s) ->
  wp (raise_flag t f) Q s.
Proof.
  intros E HQ. apply wp_bind. eapply wp_load; [done|]. apply wp_bind. by eapply wp_load.
Qed.

Lemma wp_remove t (Q : unit -> timer_st -> Prop) s :
  Q tt (with_timers (timers s) (filter (fun x => x <> t) (timer_list s))
          (filter (fun x => x <> t) (local_list s)) s) ->
  wp (_timer_remove t) Q s.
Proof. done. Qed.

(** The place of a timer in the list is its place in the queue. *)
Lemma wp_insert_pos lo s q t r now (Q : list Z -> timer_st -> Prop) :
  (forall p rp, (p, rp) ∈ q -> lo <= rp < HALF /\
     exists x, timers s !! p = Some x /\ timeout_tick x = u32 (now + rp)) ->
  -1 <= lo -> 0 <= r < HALF ->
  Q (qinsert t r q).*1 s ->
  wp (insert_pos (u32 (now + r)) t q.*1) Q s.
Proof.
  intros Hq Hlo Hr. revert Q. induction q as [|[p rp] q IH]; intros Q HQ; [exact HQ|].
  destruct (Hq p rp) as (Hrp & x & Ex & Et); [left|]. simpl.
  apply wp_bind. eapply wp_load; [exact Ex|]. rewrite Et, wrap_diff.
  destruct (diff_order rp r) as [-> ->]; [lia|lia|lia|].
  simpl in HQ. assert (forall p rp, (p, rp) ∈ q -> lo <= rp < HALF /\
    exists x, timers s !! p = Some x /\ timeout_tick x = u32 (now + rp)) as Hq'
    by (intros; apply Hq; by right).
  destruct (Z.eqb_spec rp r) as [->|].
  - rewrite Z.leb_refl in HQ. apply wp_bind, (IH Hq'). by apply wp_ret.
  - destruct (Z.leb_spec r rp); [rewrite (proj2 (Z.leb_gt _ _)) in HQ by lia; by apply wp_ret|].
    rewrite (proj2 (Z.leb_le _ _)) in HQ by lia. apply wp_bind, (IH Hq'). by apply wp_ret.
Qed.

Lemma attrs_insert (m : gmap Z rt_timer) (t : Z) x x' :
  m !! t = Some x ->
  t_type x' = t_type x -> periodic x' = periodic x -> init_tick x' = init_tick x ->
  timeout_func x' = timeout_func x -> parameter x' = parameter x ->
  info_of <$> <[t := x']> m = info_of <$> m.
Proof.
  intros E E1 E2 E3 E4 E5. rewrite fmap_insert. apply insert_id.
  rewrite lookup_fmap, E. simpl. unfold info_of. by rewrite E1, E2, E3, E4, E5.
Qed.

(** What an operation leaves: a queue, with the clock, the calls and the timers' attributes. *)
Definition stays (s s' : timer_st) : Prop :=
  rt_tick s' = rt_tick s /\ calls s' = calls s /\ attrs s' = attrs s.

(** A timer leaves the queue: its memory changes, its flag says so. *)
Lemma queue_leave lo s q t x x' loc :
  queue_ok lo s q -> timers s !! t = Some x ->
  init_tick x' = init_tick x -> processing x' = false -> active x' = false ->
  queue_ok lo (with_timers (<[t := x']> (timers s)) (qremove t q).*1 loc s) (qremove t q).
Proof.
  intros Hq E Hi Hp Ha. destruct Hq as [Hl Hn Hs Hf He Ht]. constructor; simpl.
  - done.
  - rewrite qremove_ids. by apply NoDup_filter.
  - by apply qremove_sorted.
  - done.
  - intros p r [Hne Hin]%list_elem_of_filter. simpl in Hne.
    destruct (He p r Hin) as (Hr & y & Ey & Ety). split; [done|]. exists y.
    by rewrite lookup_insert_ne.
  - intros p y Ey. rewrite qremove_ids. destruct (decide (p = t)) as [->|Hne].
    + rewrite lookup_insert_eq in Ey. injection Ey as <-. destruct (Ht t x E) as (? & _ & _).
      split_and!; [lia|lia|done|]. rewrite Ha. symmetry. apply bool_decide_eq_false.
      by intros [? _]%list_elem_of_filter.
    + rewrite lookup_insert_ne in Ey by done. destruct (Ht p y Ey) as (? & ? & ->).
      split_and!; [lia|lia|done|]. apply bool_decide_ext. rewrite list_elem_of_filter. naive_solver.
Qed.

(** A timer enters the queue. *)
Lemma queue_enter lo s q t r x x' loc :
  queue_ok lo s q -> timers s !! t = Some x -> t ∉ q.*1 ->
  init_tick x' = init_tick x -> processing x' = false -> active x' = true ->
  lo <= r < HALF -> timeout_tick x' = u32 (rt_tick s + r) ->
  queue_ok lo (with_timers (<[t := x']> (timers s)) (qinsert t r q).*1 loc s) (qinsert t r q).
Proof.
  intros Hq E Hout Hi Hp Ha Hr Hto. destruct Hq as [Hl Hn Hs Hf He Ht]. constructor; simpl.
  - done.
  - rewrite qinsert_perm. by constructor.
  - by apply qinsert_sorted.
  - done.
  - intros p rp [[= -> ->]|Hin]%elem_qinsert.
    + split; [done|]. exists x'. by rewrite lookup_insert_eq.
    + destruct (He p rp Hin) as (Hrp & y & Ey & Ety). split; [done|]. exists y.
      rewrite lookup_insert_ne; [done|]. intros ->. apply Hout. apply list_elem_of_fmap.
      by exists (p, rp).
  - intros p y Ey. destruct (decide (p = t)) as [->|Hne].
    + rewrite lookup_insert_eq in Ey. injection Ey as <-. destruct (Ht t x E) as (? & _ & _).
      split_and!; [lia|lia|done|]. rewrite Ha. symmetry. apply bool_decide_eq_true, elem_ids. by left.
    + rewrite lookup_insert_ne in Ey by done. destruct (Ht p y Ey) as (? & ? & ->).
      split_and!; [lia|lia|done|]. apply bool_decide_ext. rewrite elem_ids. naive_solver.
Qed.

Definition with_timeout (x : rt_timer) (n : Z) : rt_timer :=
  Timer (t_type x) (t_flag x) (timeout_func x) (parameter x) (init_tick x) n.

Lemma wp_set_timeout t n x (Q : unit -> timer_st -> Prop) s :
  timers s !! t = Some x ->
  Q tt (with_timers (<[t := with_timeout x n]> (timers s)) (timer_list s) (local_list s) s) ->
  wp (set_timeout_tick t n) Q s.
Proof. intros E HQ. apply wp_bind. by eapply wp_load. Qed.

(** The flags after a start. *)
Definition started_flag (f : Z) : Z :=
  Z.lor (Z.land f (Z.lnot RT_TIMER_FLAG_ACTIVATED)) RT_TIMER_FLAG_ACTIVATED.

Lemma started_bits f j :
  0 <= j -> Z.testbit (started_flag f) j = if j =? 0 then true else Z.testbit f j.
Proof.
  intros Hj. unfold started_flag. change RT_TIMER_FLAG_ACTIVATED with (2 ^ 0).
  rewrite bit_raised, bit_cleared by lia. by destruct (j =? 0).
Qed.

(** One flag cleared or raised: the bits that the service tests. *)
Lemma cleared_bits x k :
  0 <= k ->
  active (with_flag x (Z.land (t_flag x) (Z.lnot (2 ^ k)))) = (if 0 =? k then false else active x) /\
  processing (with_flag x (Z.land (t_flag x) (Z.lnot (2 ^ k)))) = (if 1 =? k then false else processing x) /\
  periodic (with_flag x (Z.land (t_flag x) (Z.lnot (2 ^ k)))) = (if 2 =? k then false else periodic x).
Proof. intros Hk. unfold active, processing, periodic. cbn [t_flag with_flag]. by rewrite !bit_cleared by lia. Qed.

Lemma raised_bits x k :
  0 <= k ->
  active (with_flag x (Z.lor (t_flag x) (2 ^ k))) = (if 0 =? k then true else active x) /\
  processing (with_flag x (Z.lor (t_flag x) (2 ^ k))) = (if 1 =? k then true else processing x) /\
  periodic (with_flag x (Z.lor (t_flag x) (2 ^ k))) = (if 2 =? k then true else periodic x).
Proof. intros Hk. unfold active, processing, periodic. cbn [t_flag with_flag]. by rewrite !bit_raised by lia. Qed.

(** [_timer_start] puts the timer into the queue with its whole time, wherever it was. *)
Lemma wp__timer_start lo s q t x (Q : Z -> timer_st -> Prop) :
  queue_ok lo s q -> -1 <= lo <= 0 -> timers s !! t = Some x ->
  (forall s', queue_ok lo s' (qinsert t (init_tick x) (qremove t q)) -> stays s s' -> Q RT_EOK s') ->
  wp (_timer_start t) Q s.
Proof.
  intros Hq Hlo E HQ. destruct (q_timer _ _ _ Hq t x E) as (Hi & Hp & Ha).
  unfold _timer_start. apply wp_bind. eapply wp_load; [exact E|]. rewrite has_processing, Hp.
  apply wp_bind, wp_remove. rewrite (q_list _ _ _ Hq), <- qremove_ids.
  set (loc := filter _ (local_list s)).
  apply wp_bind. eapply wp_clear_flag; [exact E|]. simpl.
  set (x1 := with_flag x _). apply wp_bind. apply wp_gets. simpl.
  assert (queue_ok lo (with_timers (<[t := x1]> (timers s)) (qremove t q).*1 loc s) (qremove t q)) as H1.
  { apply (queue_leave lo s q t x x1 loc); try done.
    - by destruct (cleared_bits x 0 (Z.le_refl 0)) as (_ & H1 & _); etrans; [exact H1|].
    - exact (proj1 (cleared_bits x 0 (Z.le_refl 0))). }
  apply wp_bind. eapply (wp_load t x1); [simpl; by rewrite lookup_insert_eq|].
  apply wp_bind. eapply (wp_set_timeout t _ x1); [simpl; by rewrite lookup_insert_eq|]. simpl.
  rewrite insert_insert_eq. set (x2 := with_timeout x1 _).
  apply wp_bind, wp_gets. simpl. apply wp_bind.
  apply (wp_insert_pos lo _ (qremove t q) t (init_tick x1) (rt_tick s)); [|lia|done|].
  { intros p rp Hin. destruct (q_entry _ _ _ H1 p rp Hin) as (Hr & y & Ey & Ety).
    split; [done|]. exists y. simpl in *. split; [|done].
    rewrite lookup_insert_ne in Ey |- *; [done| |]; apply list_elem_of_filter in Hin as [? _]; done. }
  change (init_tick x1) with (init_tick x).
  apply wp_bind, wp_modify. apply wp_bind.
  eapply (wp_raise_flag t _ x2); [simpl; by rewrite lookup_insert_eq|].
  cbn [timers timer_list local_list with_timers rt_tick thread_set calls]. rewrite insert_insert_eq. apply wp_ret.
  set (x3 := with_flag x2 _). apply HQ.
  - pose proof (queue_enter lo _ (qremove t q) t (init_tick x) x1 x3 loc H1) as Hent.
    cbn [timers with_timers] in Hent. rewrite insert_insert_eq in Hent.
    apply Hent; clear Hent; try done; try lia.
    + by rewrite lookup_insert_eq.
    + rewrite qremove_ids. by intros [? _]%list_elem_of_filter.
    + unfold processing. change (t_flag x3) with (started_flag (t_flag x)). by rewrite started_bits.
    + unfold active. change (t_flag x3) with (started_flag (t_flag x)). by rewrite started_bits.
  - split; [done|]. split; [done|]. apply (attrs_insert _ _ x); try done.
    unfold periodic. change (t_flag x3) with (started_flag (t_flag x)). by rewrite started_bits.
Qed.

(** ** The loop of the tick interrupt *)

Section quiet.
(** Timeout functions that leave the timers alone. *)
Context (timeout : Z -> Z -> M timer_st unit).
Context (Hquiet : forall f p s, timeout f p s = Ok (tt, s)).

(** A timer's period, for those that start again. *)
Definition period (s : timer_st) (t : Z) : option Z :=
  x ← timers s !! t; if periodic x then Some (init_tick x) else None.
Definition again (per : Z -> option Z) (t : Z) (q : list (Z * Z)) : list (Z * Z) :=
  match per t with Some n => qinsert t n q | None => q end.

Lemma period_attrs s s' t : attrs s' = attrs s -> period s' t = period s t.
Proof.
  intros Ha. pose proof (f_equal (.!! t) Ha) as E. unfold attrs in E. rewrite !lookup_fmap in E.
  unfold period. destruct (timers s !! t) as [x|], (timers s' !! t) as [y|]; simpl in *; try done.
  injection E as _ Ep Ei _ _. by rewrite Ep, Ei.
Qed.

(** The timers that have run start again, in the order in which they ran. *)
Definition restart (per : Z -> option Z) (due : list Z) (q : list (Z * Z)) : list (Z * Z) :=
  foldl (fun q t => again per t q) q due.

Lemma restart_ext per per' due q : (forall t, per' t = per t) -> restart per' due q = restart per due q.
Proof.
  intros Ha. unfold restart. revert q. induction due as [|t due IH]; intros q; simpl; [done|].
  rewrite IH. unfold again. by rewrite Ha.
Qed.

(** What has run. *)
Definition ran (due : list Z) (s s' : timer_st) : Prop :=
  rt_tick s' = rt_tick s /\ calls s' = calls s ++ map (fun t => (t, rt_tick s)) due /\
  attrs s' = attrs s.

(** The flags of a timer that has run: a periodic one is still active. *)
Definition rung (x : rt_timer) : rt_timer :=
  let f := if periodic x then t_flag x else Z.land (t_flag x) (Z.lnot RT_TIMER_FLAG_ACTIVATED) in
  with_flag x (Z.land (Z.lor f RT_TIMER_FLAG_PROCESSING) (Z.lnot RT_TIMER_FLAG_PROCESSING)).

Lemma rung_bits x :
  active (rung x) = periodic x && active x /\ processing (rung x) = false /\
  periodic (rung x) = periodic x.
Proof.
  unfold rung. set (f := if periodic x then _ else _).
  destruct (cleared_bits (with_flag x (Z.lor f (2 ^ 1))) 1) as (Ha & Hp & Hr); [lia|].
  destruct (raised_bits (with_flag x f) 1) as (Ha' & _ & Hr'); [lia|].
  split_and!; [etrans; [exact Ha|]|exact Hp|etrans; [exact Hr|]]; simpl.
  - etrans; [exact Ha'|]. unfold f. destruct (periodic x); [done|]. simpl.
    exact (proj1 (cleared_bits x 0 (Z.le_refl 0))).
  - etrans; [exact Hr'|]. unfold f. destruct (periodic x) eqn:E; [exact E|].
    destruct (cleared_bits x 0) as (_ & _ & H); [lia|]. etrans; [exact H|exact E].
Qed.

Definition logged (t : Z) (s : timer_st) : timer_st :=
  TimerSt (timers s) (timer_list s) (local_list s) (rt_tick s) (thread_set s)
    (calls s ++ [(t, rt_tick s)]).

Lemma queue_logged lo s q t : queue_ok lo s q -> queue_ok lo (logged t s) q.
Proof. by destruct 1. Qed.

(** A timer that has run has left the queue. *)
Lemma queue_rung s q t r x loc :
  queue_ok (-1) s ((t, r) :: q) -> timers s !! t = Some x -> active x = true ->
  forall y, y = with_flag (rung x) (Z.land (t_flag (rung x)) (Z.lnot RT_TIMER_FLAG_ACTIVATED)) \/
            y = rung x /\ periodic x = false ->
  queue_ok (-1) (with_timers (<[t := y]> (timers s)) q.*1 loc s) q.
Proof.
  intros Hq E Ha y Hy. pose proof (q_nodup _ _ _ Hq) as Hn. simpl in Hn.
  apply NoDup_cons in Hn as [Hout _].
  assert (qremove t ((t, r) :: q) = q) as Hrem.
  { unfold qremove. rewrite filter_cons, decide_False by (simpl; tauto). by apply qremove_out. }
  rewrite <- Hrem. destruct (rung_bits x) as (H1 & H2 & _).
  destruct (cleared_bits (rung x) 0) as (H3 & H4 & _); [lia|].
  apply (queue_leave (-1) s _ t x y loc Hq E); destruct Hy as [->|[-> Hper]]; try done.
  - etrans; [exact H4|done].
  - by rewrite H1, Hper.
Qed.

Lemma wp_drop_active t x (Q : unit -> timer_st -> Prop) s :
  timers s !! t = Some x ->
  Q tt (with_timers (<[t := with_flag x (if periodic x then t_flag x
          else Z.land (t_flag x) (Z.lnot RT_TIMER_FLAG_ACTIVATED))]> (timers s))
          (timer_list s) (local_list s) s) ->
  wp (if negb (periodic x) then clear_flag t RT_TIMER_FLAG_ACTIVATED else mret tt) Q s.
Proof.
  intros E HQ. destruct (periodic x); simpl; [|by eapply wp_clear_flag].
  replace (with_flag x (t_flag x)) with x in HQ by by destruct x.
  rewrite (insert_id _ _ _ E) in HQ. apply wp_ret. by destruct s.
Qed.

(** The end of a turn: a periodic timer starts again. *)
Lemma wp_restart s t r q x loc (Q : option Z -> timer_st -> Prop) :
  queue_ok (-1) s ((t, r) :: q) -> timers s !! t = Some x -> active x = true ->
  (forall s', queue_ok (-1) s' (again (period s) t q) -> ran [t] s s' -> Q (Some (rt_tick s)) s') ->
  wp ((if periodic x && periodic x
       then clear_flag t RT_TIMER_FLAG_ACTIVATED ;;; _timer_start t ;;; mret () else mret ()) ;;;
      mret (Some (rt_tick s))) Q
    (with_timers (<[t := rung x]> (timers s)) q.*1 loc (logged t s)).
Proof.
  intros Hq E Ha HQ. pose proof (queue_logged _ _ _ t Hq) as Hql.
  pose proof (queue_rung _ q t r x loc Hql E Ha) as Hrung.
  pose proof (q_nodup _ _ _ Hq) as Hn. simpl in Hn. apply NoDup_cons in Hn as [Hout _].
  unfold again, period in HQ. rewrite E in HQ. simpl in HQ.
  destruct (rung_bits x) as (_ & _ & Hper).
  destruct (periodic x) eqn:Hp; simpl.
  - apply wp_bind, wp_bind. eapply (wp_clear_flag t _ (rung x)); [simpl; by rewrite lookup_insert_eq|].
    cbn [with_timers timers timer_list local_list rt_tick thread_set calls logged].
    rewrite insert_insert_eq. set (y := with_flag (rung x) _).
    apply wp_bind. eapply (wp__timer_start (-1) _ q t y).
    + apply Hrung. by left.
    + lia.
    + simpl. by rewrite lookup_insert_eq.
    + intros s' Hq' (H1 & H2 & H3). apply wp_ret, wp_ret. rewrite qremove_out in Hq' by done.
      apply HQ; [exact Hq'|]. split_and!; [exact H1|exact H2|]. rewrite H3.
      destruct (cleared_bits (rung x) 0) as (_ & _ & Hc); [lia|].
      apply (attrs_insert _ _ x); try done. etrans; [exact Hc|]. by rewrite Hper, Hp.
  - apply wp_bind, wp_ret, wp_ret. apply HQ; [apply Hrung; by right|].
    split_and!; [done|done|]. apply (attrs_insert _ _ x); try done. by rewrite Hper, Hp.
Qed.

(** A due timer is taken from the list, runs, and starts again when it is periodic. *)
Lemma wp_turn_due s t r q (Q : option Z -> timer_st -> Prop) :
  queue_ok (-1) s ((t, r) :: q) -> r <= 0 ->
  (forall s', queue_ok (-1) s' (again (period s) t q) -> ran [t] s s' -> Q (Some (rt_tick s)) s') ->
  wp (check_turn timeout (rt_tick s)) Q s.
Proof.
  intros Hq Hr HQ. pose proof (q_tick _ _ _ Hq) as Hf.
  destruct (q_entry _ _ _ Hq t r) as (Hrr & x & E & Et); [left|].
  destruct (q_timer _ _ _ Hq t x E) as (Hi & Hp & Ha).
  rewrite bool_decide_true in Ha by (simpl; left).
  pose proof (q_nodup _ _ _ Hq) as Hn. simpl in Hn. apply NoDup_cons in Hn as [Hout Hn].
  assert (timer_list s = t :: q.*1) as Hl by apply (q_list _ _ _ Hq).
  unfold check_turn. apply wp_bind, wp_gets. rewrite Hl.
  apply wp_bind. eapply wp_load; [exact E|].
  rewrite (due_entry s _ t r x Hq), (proj2 (Z.leb_le r 0)) by (done || left).
  apply wp_bind, wp_remove. rewrite Hl, filter_cons, decide_False, filter_out by (done || tauto).
  set (loc := filter _ (local_list s)). rewrite has_periodic. apply wp_bind.
  eapply (wp_drop_active t x); [exact E|]. cbn [with_timers timers timer_list local_list rt_tick thread_set calls].
  set (f1 := if periodic x then t_flag x else Z.land (t_flag x) (Z.lnot RT_TIMER_FLAG_ACTIVATED)).
  set (x1 := with_flag x f1).
  apply wp_bind. eapply (wp_raise_flag t _ x1); [simpl; by rewrite lookup_insert_eq|].
  cbn [with_timers timers timer_list local_list rt_tick thread_set calls]. rewrite insert_insert_eq.
  set (x2 := with_flag x1 _).
  apply wp_bind, wp_gets. apply wp_bind, wp_modify.
  apply wp_bind. eapply (wp_load t x2); [simpl; by rewrite lookup_insert_eq|].
  apply wp_bind, wp_modify. apply wp_bind. unfold wp at 1. rewrite Hquiet.
  apply wp_bind, wp_gets. apply wp_bind.
  eapply (wp_clear_flag t _ x2); [simpl; by rewrite lookup_insert_eq|].
  cbn [with_timers timers timer_list local_list rt_tick thread_set calls]. rewrite insert_insert_eq.
  change (with_flag x2 _) with (rung x).
  apply wp_bind, wp_gets. simpl. apply wp_bind, wp_remove.
  apply wp_bind. eapply (wp_load t (rung x)); [simpl; by rewrite lookup_insert_eq|].
  cbn [with_timers timers timer_list local_list rt_tick thread_set calls].
  rewrite has_periodic, has_active, filter_out by done. destruct (rung_bits x) as (-> & _ & ->).
  rewrite Ha, Bool.andb_true_r. by eapply wp_restart.
Qed.
(** Nothing is due, and the loop ends. *)
Lemma wp_turn_idle s q (Q : option Z -> timer_st -> Prop) :
  queue_ok (-1) s q -> Forall (fun e => 0 < e.2) q -> Q None s ->
  wp (check_turn timeout (rt_tick s)) Q s.
Proof.
  intros Hq Hpos HQ. unfold check_turn. apply wp_bind, wp_gets. rewrite (q_list _ _ _ Hq).
  destruct q as [|[t r] q]; [exact HQ|]. destruct (q_entry _ _ _ Hq t r) as (Hr & x & E & Et); [left|].
  inversion Hpos as [|? ? H _]. simpl in H. cbn [fmap list_fmap fst].
  apply wp_bind. eapply wp_load; [exact E|].
  by rewrite (due_entry s _ t r x Hq), (proj2 (Z.leb_gt r 0)) by (done || left).
Qed.

Lemma qinsert_app t n due rest :
  Forall (fun e => e.2 <= n) due -> qinsert t n (due ++ rest) = due ++ qinsert t n rest.
Proof.
  induction 1 as [|[p rp] due Hp _ IH]; simpl in *; [done|].
  by rewrite (proj2 (Z.leb_le _ _)), IH.
Qed.

Lemma period_pos s t n : periods_ok s -> period s t = Some n -> 0 < n.
Proof.
  unfold period. intros Hp H. destruct (timers s !! t) as [x|] eqn:E; [|done]. simpl in H.
  destruct (periodic x) eqn:Hper; [|done]. injection H as <-. by apply (Hp t).
Qed.

(** The due timers run in order, and those that are periodic go behind. *)
Lemma check_loop_due due rest s fuel :
  queue_ok (-1) s (due ++ rest) -> periods_ok s ->
  Forall (fun e => e.2 <= 0) due -> Forall (fun e => 0 < e.2) rest -> (length due < fuel)%nat ->
  wp (check_loop timeout fuel (rt_tick s)) (fun _ s' =>
    queue_ok 1 s' (restart (period s) due.*1 rest) /\ ran due.*1 s s') s.
Proof.
  revert rest s fuel. induction due as [|[t r] due IH]; intros rest s fuel Hq Hper Hdue Hrest Hfuel;
    (destruct fuel as [|fuel]; [simpl in Hfuel; lia|]); simpl; apply wp_bind.
  - eapply wp_turn_idle; [exact Hq|exact Hrest|]. apply wp_ret. split.
    + destruct Hq as [? ? ? ? He ?]. constructor; try done. intros p rp Hin.
      destruct (He p rp Hin) as (? & ?). rewrite Forall_forall in Hrest. apply Hrest in Hin.
      simpl in Hin. split; [lia|done].
    + split_and!; [done|by rewrite app_nil_r|done].
  - inversion Hdue as [|? ? Hr Hdue']. simpl in Hr. eapply wp_turn_due; [exact Hq|exact Hr|].
    intros s1 Hq1 (Ht & Hc & Ha). rewrite <- Ht.
    assert (again (period s) t (due ++ rest) = due ++ again (period s) t rest) as Happ.
    { unfold again. destruct (period s t) as [n|] eqn:En; [|done]. apply qinsert_app.
      pose proof (period_pos _ _ _ Hper En). eapply Forall_impl; [exact Hdue'|]. simpl. intros; lia. }
    change (queue_ok (-1) s1 (again (period s) t (due ++ rest))) in Hq1. rewrite Happ in Hq1.
    eapply wp_mono.
    + apply (IH (again (period s) t rest) s1 fuel); [done|by eapply periods_attrs|done| |simpl in Hfuel; lia].
      unfold again. destruct (period s t) as [n|] eqn:En; [|done].
      rewrite qinsert_perm. constructor; [by apply (period_pos s t)|done].
    + intros _ s' (Hq' & Ht' & Hc' & Ha'). split.
      * rewrite <- (restart_ext (period s) (period s1)); [done|]. intros p. by apply period_attrs.
      * split_and!; [congruence| |congruence]. rewrite Hc', Hc, Ht, <- app_assoc. done.
Qed.
(** What a tick does to the queue. *)
Definition countdown (q : list (Z * Z)) : list (Z * Z) := map (fun e => (e.1, e.2 - 1)) q.
Definition expired (q : list (Z * Z)) : list (Z * Z) := filter (fun e => e.2 <= 0) q.
Definition pending (q : list (Z * Z)) : list (Z * Z) := filter (fun e => 0 < e.2) q.
Definition tick_queue (per : Z -> option Z) (q : list (Z * Z)) : list (Z * Z) :=
  restart per (expired (countdown q)).*1 (pending (countdown q)).
Definition tick_rings (q : list (Z * Z)) : list Z := (expired (countdown q)).*1.

Lemma split_due q : StronglySorted qle q -> q = expired q ++ pending q.
Proof.
  induction 1 as [|[t r] q Hq IH Hle]; [done|]. unfold expired, pending in *.
  rewrite !filter_cons. simpl. destruct (decide (r <= 0)) as [Hr|Hr].
  - rewrite (decide_False (P := 0 < r)) by lia. simpl. by f_equal.
  - rewrite decide_True by lia. assert (filter (fun e : Z * Z => e.2 <= 0) q = []) as ->.
    { apply filter_none. eapply Forall_impl; [exact Hle|]. unfold qle. simpl. intros; lia. }
    simpl. f_equal. symmetry. apply filter_all.
    eapply Forall_impl; [exact Hle|]. unfold qle. simpl. intros; lia.
Qed.

Lemma countdown_ids q : (countdown q).*1 = q.*1.
Proof. unfold countdown. induction q as [|e q IH]; simpl; [done|]. by f_equal. Qed.

Lemma countdown_sorted q : StronglySorted qle q -> StronglySorted qle (countdown q).
Proof.
  induction 1 as [|e q Hq IH Hle]; simpl; constructor; [done|].
  apply Forall_map. eapply Forall_impl; [exact Hle|]. unfold qle. simpl. intros; lia.
Qed.

(** The clock moves on, and every timer has one tick less. *)
Lemma queue_countdown s q :
  queue_ok 0 s q ->
  queue_ok (-1) (TimerSt (timers s) (timer_list s) [] (u32 (rt_tick s + 1)) (thread_set s) (calls s))
    (countdown q).
Proof.
  intros [Hl Hn Hs Hf He Ht]. constructor; simpl; rewrite ?countdown_ids; try done.
  - by apply countdown_sorted.
  - by apply wrap_fits.
  - intros t r ([p rp] & [= -> ->] & Hin)%list_elem_of_fmap. simpl.
    destruct (He _ _ Hin) as (Hr & x & E & Et). split; [lia|]. exists x. split; [done|].
    rewrite Et. unfold wrap. rewrite Zplus_mod_idemp_l. f_equal. lia.
Qed.

(** A tick: the clock advances, the timers whose time is over run in order. *)
Lemma wp_tick s q fuel :
  queue_ok 0 s q -> periods_ok s -> (length q < fuel)%nat ->
  wp (rt_tick_increase timeout fuel) (fun _ s' =>
    queue_ok 1 s' (tick_queue (period s) q) /\ rt_tick s' = u32 (rt_tick s + 1) /\
    calls s' = calls s ++ map (fun t => (t, u32 (rt_tick s + 1))) (tick_rings q) /\
    attrs s' = attrs s) s.
Proof.
  intros Hq Hper Hfuel. pose proof (queue_countdown _ _ Hq) as H1.
  rewrite (split_due (countdown q)) in H1 by (apply countdown_sorted, (q_sorted _ _ _ Hq)).
  unfold rt_tick_increase. apply wp_bind, wp_gets, wp_bind, wp_modify.
  unfold rt_timer_check. apply wp_bind, wp_gets, wp_bind, wp_modify. simpl.
  eapply wp_mono; [eapply (check_loop_due (expired (countdown q)) _ _ fuel H1); [done| | |]|].
  - apply Forall_forall. by intros e [? _]%list_elem_of_filter.
  - apply Forall_forall. by intros e [? _]%list_elem_of_filter.
  - eapply Nat.le_lt_trans; [apply length_filter|]. unfold countdown. by rewrite length_map.
  - intros _ s' (Hq' & Ht & Hc & Ha). by split_and!.
Qed.
(** *** One timer of the queue *)

Lemma elem_restart per due q t r :
  (t, r) ∈ restart per due q <-> (t, r) ∈ q \/ t ∈ due /\ per t = Some r.
Proof.
  unfold restart. revert q. induction due as [|p due IH]; intros q; simpl; [set_solver|].
  rewrite IH, elem_of_cons. unfold again. destruct (per p) as [n|] eqn:E.
  - rewrite elem_qinsert. split; [|destruct (decide (t = p)) as [->|]; naive_solver].
    intros [[[= -> ->]|?]|[? ?]]; auto.
  - naive_solver congruence.
Qed.

Lemma length_restart per due q : (length (restart per due q) <= length due + length q)%nat.
Proof.
  unfold restart. revert q. induction due as [|p due IH]; intros q; simpl; [lia|].
  etrans; [apply IH|]. unfold again. destruct (per p); [|lia].
  rewrite qinsert_perm. simpl. lia.
Qed.

Lemma length_tick per q : StronglySorted qle q -> (length (tick_queue per q) <= length q)%nat.
Proof.
  intros Hs. unfold tick_queue. etrans; [apply length_restart|]. rewrite length_fmap, <- length_app.
  rewrite <- split_due by by apply countdown_sorted. unfold countdown. by rewrite length_map.
Qed.

Lemma elem_countdown q t r : (t, r) ∈ countdown q <-> (t, r + 1) ∈ q.
Proof.
  unfold countdown. rewrite list_elem_of_fmap. split.
  - intros ([p rp] & [= -> ->] & Hin). simpl. by replace (rp - 1 + 1) with rp by lia.
  - intros Hin. exists (t, r + 1). simpl. split; [f_equal; lia|done].
Qed.

Lemma key_unique (q : list (Z * Z)) t r r' :
  NoDup q.*1 -> (t, r) ∈ q -> (t, r') ∈ q -> r = r'.
Proof.
  induction q as [|[p rp] q IH]; simpl; [set_solver|]. intros [Hp Hn]%NoDup_cons H H'.
  assert (forall r, (t, r) ∈ q -> t ∈ q.*1) as Hk.
  { intros x Hx. apply list_elem_of_fmap. by exists (t, x). }
  rewrite elem_of_cons in H, H'. destruct H as [H|H], H' as [H'|H']; simplify_eq; try done.
  - by apply Hk in H'.
  - by apply Hk in H.
  - by apply IH.
Qed.

Lemma elem_rings q t : t ∈ tick_rings q <-> exists r, (t, r) ∈ q /\ r <= 1.
Proof.
  unfold tick_rings, expired. rewrite list_elem_of_fmap. split.
  - intros ([p r] & -> & [Hr Hin%elem_countdown]%list_elem_of_filter). exists (r + 1). simpl in *.
    split; [done|lia].
  - intros (r & Hin & Hr). exists (t, r - 1). split; [done|]. apply list_elem_of_filter.
    split; [simpl; lia|]. apply elem_countdown. by replace (r - 1 + 1) with r by lia.
Qed.

Lemma rings_nodup q : NoDup q.*1 -> NoDup (tick_rings q).
Proof.
  intros Hn. unfold tick_rings. rewrite <- countdown_ids in Hn. revert Hn.
  generalize (countdown q) as l. unfold expired. intros l Hn. eapply sublist_NoDup; [exact Hn|].
  by apply fmap_sublist, sublist_filter.
Qed.

(** A timer with more than a tick left has one less; another one has its period, or is out. *)
Lemma elem_tick s q t r :
  NoDup q.*1 -> (t, r) ∈ q ->
  (1 < r -> (t, r - 1) ∈ tick_queue (period s) q /\ t ∉ tick_rings q) /\
  (r <= 1 -> t ∈ tick_rings q /\
     match period s t with
     | Some n => (t, n) ∈ tick_queue (period s) q
     | None => t ∉ (tick_queue (period s) q).*1
     end).
Proof.
  intros Hn Hin. split; intros Hr.
  - split.
    + apply elem_restart. left. apply list_elem_of_filter. split; [simpl; lia|].
      apply elem_countdown. by replace (r - 1 + 1) with r by lia.
    + intros (r' & Hin' & Hr')%elem_rings. rewrite (key_unique _ _ _ _ Hn Hin Hin') in Hr. lia.
  - assert (t ∈ tick_rings q) as Ht by (apply elem_rings; eauto).
    split; [done|]. destruct (period s t) as [n|] eqn:E; [apply elem_restart; auto|].
    intros ([p r'] & -> & [Hin'|[_ ?]]%elem_restart)%list_elem_of_fmap; simpl in *; [|congruence].
    apply list_elem_of_filter in Hin' as [Hr' Hin'%elem_countdown]. simpl in Hr'.
    pose proof (key_unique _ _ _ _ Hn Hin Hin'). lia.
Qed.
(** *** Many ticks *)

Fixpoint run_ticks (fuel k : nat) : M timer_st unit :=
  match k with
  | O => mret tt
  | S k => rt_tick_increase timeout fuel ;;; run_ticks fuel k
  end.

(** When a timer ran. *)
Definition rings_of (t : Z) (l : list (Z * Z)) : list Z := (filter (fun c => c.1 = t) l).*2.

(** When a timer with [r] ticks left should run in the next [k] ticks: once, or at every
    multiple of its period. *)
Definition schedule (n : option Z) (now r : Z) (k : nat) : list Z :=
  if r <=? Z.of_nat k then
    match n with
    | None => [u32 (now + r)]
    | Some n => map (fun i => u32 (now + r + i * n)) (seqZ 0 ((Z.of_nat k - r) / n + 1))
    end
  else [].

Lemma rings_of_tick t due now :
  NoDup due -> rings_of t (map (fun p => (p, now)) due) = if decide (t ∈ due) then [now] else [].
Proof.
  unfold rings_of. induction 1 as [|p due Hp _ IH]; [done|]. cbn [map]. rewrite filter_cons. simpl.
  destruct (decide (p = t)) as [->|Hne].
  - rewrite (decide_True (P := t ∈ t :: due)) by left. rewrite decide_False in IH by done.
    simpl. by f_equal.
  - rewrite IH. destruct (decide (t ∈ due)), (decide (t ∈ p :: due)); set_solver.
Qed.

(** One tick of a schedule. *)
Lemma schedule_wait n now r k :
  1 < r -> schedule n now r (S k) = schedule n (u32 (now + 1)) (r - 1) k.
Proof.
  intros Hr. unfold schedule.
  replace (r <=? Z.of_nat (S k)) with (r - 1 <=? Z.of_nat k)
    by (destruct (Z.leb_spec (r - 1) (Z.of_nat k)), (Z.leb_spec r (Z.of_nat (S k))); lia).
  destruct (r - 1 <=? Z.of_nat k); [|done]. destruct n as [n|].
  - replace (Z.of_nat (S k) - r) with (Z.of_nat k - (r - 1)) by lia. apply map_ext. intros i.
    unfold wrap. rewrite <- !Z.add_assoc, Zplus_mod_idemp_l. f_equal. lia.
  - unfold wrap. rewrite Zplus_mod_idemp_l. do 2 f_equal. lia.
Qed.

Lemma schedule_ring n now k :
  (forall m, n = Some m -> 0 < m) ->
  schedule n now 1 (S k) =
  u32 (now + 1) :: match n with Some m => schedule n (u32 (now + 1)) m k | None => [] end.
Proof.
  intros Hn. unfold schedule. rewrite (proj2 (Z.leb_le 1 _)) by lia.
  destruct n as [m|]; [|done]. specialize (Hn m eq_refl).
  replace (Z.of_nat (S k) - 1) with (Z.of_nat k) by lia.
  rewrite seqZ_cons by (apply Z.lt_succ_r; pose proof (Z.div_pos (Z.of_nat k) m); lia).
  cbn [map]. f_equal; [f_equal; lia|]. destruct (Z.leb_spec m (Z.of_nat k)).
  - change (Z.succ 0) with (1 + 0). rewrite <- fmap_add_seqZ.
    replace (Z.pred (Z.of_nat k / m + 1)) with ((Z.of_nat k - m) / m + 1).
    2: { replace (Z.of_nat k - m) with (Z.of_nat k + (-1) * m) by lia. rewrite Z.div_add; lia. }
    unfold fmap. rewrite !map_map. apply map_ext. intros i.
    unfold wrap. rewrite <- !Z.add_assoc, Zplus_mod_idemp_l. f_equal. lia.
  - rewrite Z.div_small by lia. done.
Qed.
Lemma wp_run_tick s q t fuel k (Q : unit -> timer_st -> Prop) :
  queue_ok 0 s q -> periods_ok s -> (length q < fuel)%nat ->
  (forall s', queue_ok 0 s' (tick_queue (period s) q) -> periods_ok s' ->
     (length (tick_queue (period s) q) < fuel)%nat -> rt_tick s' = u32 (rt_tick s + 1) ->
     period s' t = period s t ->
     rings_of t (calls s') =
       rings_of t (calls s) ++ (if decide (t ∈ tick_rings q) then [rt_tick s'] else []) ->
     wp (run_ticks fuel k) Q s') ->
  wp (run_ticks fuel (S k)) Q s.
Proof.
  intros Hq Hper Hf HQ. simpl. apply wp_bind. eapply wp_mono; [by apply (wp_tick s q fuel)|].
  intros _ s' (Hq' & Ht & Hc & Ha). apply HQ.
  - destruct Hq' as [? ? ? ? He ?]. constructor; try done. intros p r Hin.
    destruct (He p r Hin) as (? & ?). split; [lia|done].
  - by eapply periods_attrs.
  - eapply Nat.le_lt_trans; [apply length_tick, (q_sorted _ _ _ Hq)|done].
  - done.
  - by apply period_attrs.
  - rewrite Hc, Ht. unfold rings_of at 1. rewrite filter_app, fmap_app. f_equal.
    apply rings_of_tick, rings_nodup, (q_nodup _ _ _ Hq).
Qed.

(** A timer that is not running does not ring. *)
Lemma run_silent s q t fuel k :
  queue_ok 0 s q -> periods_ok s -> (length q < fuel)%nat -> t ∉ q.*1 ->
  wp (run_ticks fuel k) (fun _ s' => rings_of t (calls s') = rings_of t (calls s)) s.
Proof.
  revert s q. induction k as [|k IH]; intros s q Hq Hper Hf Ht; [done|].
  eapply wp_run_tick; [done..|]. intros s' Hq' Hper' Hf' _ _ Hr.
  assert (t ∉ tick_rings q) as Hnr.
  { intros (r & Hin & _)%elem_rings. apply Ht, list_elem_of_fmap. by exists (t, r). }
  rewrite decide_False, app_nil_r in Hr by done. rewrite <- Hr.
  apply (IH s' (tick_queue (period s) q)); [done..|].
  intros ([p r] & -> & [Hin|[? _]]%elem_restart)%list_elem_of_fmap; [|done].
  apply Ht, list_elem_of_fmap. exists (p, r + 1). split; [done|].
  apply list_elem_of_filter in Hin as [_ Hin]. by apply elem_countdown.
Qed.

(** A running timer rings when it should and at no other time. *)
Lemma run_on_time s q t r fuel k :
  queue_ok 0 s q -> periods_ok s -> (length q < fuel)%nat -> (t, r) ∈ q -> 1 <= r ->
  wp (run_ticks fuel k) (fun _ s' =>
    rings_of t (calls s') = rings_of t (calls s) ++ schedule (period s t) (rt_tick s) r k) s.
Proof.
  revert s q r. induction k as [|k IH]; intros s q r Hq Hper Hf Hin Hr.
  { apply wp_ret. unfold schedule. rewrite (proj2 (Z.leb_gt _ _)) by (simpl; lia).
    by rewrite app_nil_r. }
  eapply wp_run_tick; [done..|]. intros s' Hq' Hper' Hf' Ht Hp Hrs.
  destruct (elem_tick s q t r (q_nodup _ _ _ Hq) Hin) as [Hlate Hnow].
  destruct (decide (r = 1)) as [->|Hne].
  - destruct Hnow as [Hring Hnext]; [done|]. rewrite decide_True in Hrs by done.
    rewrite schedule_ring by (intros; by eapply (period_pos s t)).
    rewrite Ht in Hrs. destruct (period s t) as [n|] eqn:En.
    + eapply wp_mono; [apply (IH s' (tick_queue (period s) q) n); [done..|]|].
      * pose proof (period_pos _ _ _ Hper En). lia.
      * intros [] s2 H2. by rewrite H2, Hrs, Hp, Ht, <- app_assoc.
    + eapply wp_mono; [by apply (run_silent s' (tick_queue (period s) q) t fuel k Hq')|]. intros [] s2 H2.
      by rewrite H2, Hrs.
  - destruct Hlate as [Hnext Hring]; [lia|]. rewrite decide_False, app_nil_r in Hrs by done.
    rewrite schedule_wait by lia. rewrite <- Hrs, <- Hp, <- Ht. apply (IH s' (tick_queue (period s) q) (r - 1)); [done..|lia].
Qed.
End quiet.

(** ** The service as a queue *)

(** What a user of the timers sees: the running timers with their remaining ticks, the timers'
    settings, the clock and the calls so far. *)
Record queue_st := QueueSt {
  sq : list (Z * Z);
  sinfo : gmap Z tinfo;
  sclock : Z;
  slog : list (Z * Z);
}.

Definition speriod (c : queue_st) (t : Z) : option Z :=
  i ← sinfo c !! t; if i_periodic i then Some (i_time i) else None.

Definition models (s : timer_st) (c : queue_st) : Prop :=
  queue_ok 0 s (sq c) /\ attrs s = sinfo c /\ rt_tick s = sclock c /\ calls s = slog c /\
  forall t n, speriod c t = Some n -> 0 < n.

Inductive timer_op :=
  | TInit (t func param time flag : Z)
  | TCreate (t func param time flag : Z)
  | TDetach (t : Z)
  | TDelete (t : Z)
  | TStart (t : Z)
  | TStop (t : Z)
  | TControl (t cmd arg : Z)
  | TTick.

(** The two results: the return value, and the argument of [rt_timer_control]. *)
Definition timer_run (timeout : Z -> Z -> M timer_st unit) (fuel : nat) (op : timer_op) :
    M timer_st (Z * Z) :=
  match op with
  | TInit t func param time flag => rt_timer_init t func param time flag ;;; mret (0, 0)
  | TCreate t func param time flag => r ← rt_timer_create t func param time flag; mret (r, 0)
  | TDetach t => r ← rt_timer_detach t; mret (r, 0)
  | TDelete t => r ← rt_timer_delete t; mret (r, 0)
  | TStart t => r ← rt_timer_start t; mret (r, 0)
  | TStop t => r ← rt_timer_stop t; mret (r, 0)
  | TControl t cmd arg => rt_timer_control t cmd arg
  | TTick => rt_tick_increase timeout fuel ;;; mret (0, 0)
  end.

Definition set_q (q : list (Z * Z)) (c : queue_st) : queue_st := QueueSt q (sinfo c) (sclock c) (slog c).
Definition set_info (i : gmap Z tinfo) (c : queue_st) : queue_st := QueueSt (sq c) i (sclock c) (slog c).
Definition fresh_info (class func param time flag : Z) : tinfo :=
  Info class (Z.testbit flag 2) time func param.

(** The remaining ticks of a running timer. *)
Definition remaining (t : Z) (q : list (Z * Z)) : option Z := (list_to_map q : gmap Z Z) !! t.

(** [rt_timer_control], seen from outside.  Asked for the remaining time of a running timer it
    gives the tick at which the timer rings. *)
Definition control_queue (t cmd arg : Z) (i : tinfo) (c : queue_st) : Z * queue_st :=
  let upd i := set_info (<[t := i]> (sinfo c)) c in
  if cmd =? RT_TIMER_CTRL_GET_TIME then (i_time i, c)
  else if cmd =? RT_TIMER_CTRL_SET_TIME then
    (arg, set_q (qremove t (sq c))
            (upd (Info (i_type i) (i_periodic i) arg (i_func i) (i_param i))))
  else if cmd =? RT_TIMER_CTRL_SET_ONESHOT then
    (arg, upd (Info (i_type i) false (i_time i) (i_func i) (i_param i)))
  else if cmd =? RT_TIMER_CTRL_SET_PERIODIC then
    (arg, upd (Info (i_type i) true (i_time i) (i_func i) (i_param i)))
  else if cmd =? RT_TIMER_CTRL_GET_STATE then (if bool_decide (t ∈ (sq c).*1) then 1 else 0, c)
  else if cmd =? RT_TIMER_CTRL_GET_REMAIN_TIME then
    (match remaining t (sq c) with Some r => u32 (sclock c + r) | None => arg end, c)
  else if cmd =? RT_TIMER_CTRL_GET_FUNC then (i_func i, c)
  else if cmd =? RT_TIMER_CTRL_SET_FUNC then
    (arg, upd (Info (i_type i) (i_periodic i) (i_time i) arg (i_param i)))
  else if cmd =? RT_TIMER_CTRL_GET_PARM then (i_param i, c)
  else if cmd =? RT_TIMER_CTRL_SET_PARM then
    (arg, upd (Info (i_type i) (i_periodic i) (i_time i) (i_func i) arg))
  else (arg, c).

Definition queue_run (op : timer_op) (c : queue_st) : (Z * Z) * queue_st :=
  match op with
  | TInit t func param time flag =>
      ((0, 0), set_info (<[t := fresh_info (Z.lor RT_Object_Class_Timer RT_Object_Class_Static)
                                  func param time flag]> (sinfo c)) c)
  | TCreate t func param time flag =>
      ((t, 0), if t =? 0 then c else
               set_info (<[t := fresh_info RT_Object_Class_Timer func param time flag]> (sinfo c)) c)
  | TDetach t =>
      ((RT_EOK, 0), set_q (qremove t (sq c))
         (set_info (alter (fun i => Info 0 (i_periodic i) (i_time i) (i_func i) (i_param i)) t (sinfo c)) c))
  | TDelete t => ((RT_EOK, 0), set_q (qremove t (sq c)) (set_info (delete t (sinfo c)) c))
  | TStart t =>
      match sinfo c !! t with
      | Some i => ((RT_EOK, 0), set_q (qinsert t (i_time i) (qremove t (sq c))) c)
      | None => ((RT_EOK, 0), c)
      end
  | TStop t =>
      if bool_decide (t ∈ (sq c).*1) then ((RT_EOK, 0), set_q (qremove t (sq c)) c)
      else ((- RT_ERROR, 0), c)
  | TControl t cmd arg =>
      match sinfo c !! t with
      | Some i => let r := control_queue t cmd arg i c in ((RT_EOK, fst r), snd r)
      | None => ((RT_EOK, arg), c)
      end
  | TTick =>
      let now := u32 (sclock c + 1) in
      ((0, 0), QueueSt (tick_queue (speriod c) (sq c)) (sinfo c) now
                 (slog c ++ map (fun t => (t, now)) (tick_rings (sq c))))
  end.

(** The calls: a timer that exists, of the right kind, a time below half the range of the tick,
    no period 0, and the remaining time is asked of a running timer only. *)
Definition is_class (i : tinfo) : bool :=
  Z.land (i_type i) (Z.lnot RT_Object_Class_Static) =? RT_Object_Class_Timer.
Definition time_ok (periodic : bool) (time : Z) : Prop :=
  0 <= time < HALF /\ (periodic = true -> 0 < time).

Definition legal (op : timer_op) (c : queue_st) : Prop :=
  match op with
  | TInit t func param time flag =>
      t <> 0 /\ func <> 0 /\ time_ok (Z.testbit flag 2) time /\ Z.testbit flag 1 = false /\
      t ∉ (sq c).*1 /\ (sinfo c !! t = None \/ exists i, sinfo c !! t = Some i /\ i_type i = 0)
  | TCreate t func param time flag =>
      func <> 0 /\ time_ok (Z.testbit flag 2) time /\ Z.testbit flag 1 = false /\ sinfo c !! t = None
  | TDetach t => t <> 0 /\ exists i, sinfo c !! t = Some i /\ is_class i = true /\
      has (i_type i) RT_Object_Class_Static = true
  | TDelete t => t <> 0 /\ exists i, sinfo c !! t = Some i /\ is_class i = true /\
      has (i_type i) RT_Object_Class_Static = false
  | TStart t | TStop t => t <> 0 /\ exists i, sinfo c !! t = Some i /\ is_class i = true
  | TControl t cmd arg => t <> 0 /\ exists i, sinfo c !! t = Some i /\ is_class i = true /\
      (cmd = RT_TIMER_CTRL_SET_TIME -> time_ok (i_periodic i) arg) /\
      (cmd = RT_TIMER_CTRL_SET_PERIODIC -> 0 < i_time i) /\
      (cmd = RT_TIMER_CTRL_GET_REMAIN_TIME -> t ∈ (sq c).*1)
  | TTick => True
  end.

#[local] Instance some_dec {A} (o : option A) (P : A -> Prop) `{forall a, Decision (P a)} :
  Decision (exists a, o = Some a /\ P a).
Proof.
  refine (match o as o return Decision (exists a, o = Some a /\ P a) with
          | Some a => cast_if (decide (P a))
          | None => right _
          end); naive_solver.
Defined.
#[local] Instance time_ok_dec b n : Decision (time_ok b n).
Proof. unfold time_ok. apply _. Defined.
#[local] Instance legal_dec op c : Decision (legal op c).
Proof. destruct op; simpl; apply _. Defined.

(** *** Each operation *)

Definition positive (m : gmap Z tinfo) : Prop :=
  forall t i, m !! t = Some i -> i_periodic i = true -> 0 < i_time i.

Lemma positive_period c : (forall t n, speriod c t = Some n -> 0 < n) <-> positive (sinfo c).
Proof.
  unfold speriod. split; intros H t.
  - intros i E Hi. apply (H t). rewrite E. simpl. by rewrite Hi.
  - intros n. destruct (sinfo c !! t) as [i|] eqn:E; [|done]. simpl.
    destruct (i_periodic i) eqn:Hi; [|done]. intros [= <-]. by apply (H t i).
Qed.

Lemma models_intro s c :
  queue_ok 0 s (sq c) -> attrs s = sinfo c -> rt_tick s = sclock c -> calls s = slog c ->
  positive (sinfo c) -> models s c.
Proof. intros. split_and!; try done. by apply positive_period. Qed.

Lemma models_elim s c :
  models s c -> queue_ok 0 s (sq c) /\ attrs s = sinfo c /\ rt_tick s = sclock c /\
                calls s = slog c /\ positive (sinfo c).
Proof. intros (? & ? & ? & ? & H). split_and!; try done. by apply positive_period. Qed.

Lemma models_timer s c t i :
  models s c -> sinfo c !! t = Some i -> exists x, timers s !! t = Some x /\ info_of x = i.
Proof.
  intros (_ & <- & _) E. unfold attrs in E. rewrite lookup_fmap in E.
  destruct (timers s !! t) as [x|]; [|done]. simpl in E. injection E as <-. by exists x.
Qed.

Lemma models_period s c t : models s c -> period s t = speriod c t.
Proof.
  intros (_ & Ha & _). unfold period, speriod. rewrite <- Ha. unfold attrs. rewrite lookup_fmap.
  by destruct (timers s !! t).
Qed.

Lemma models_periods s c : models s c -> periods_ok s.
Proof.
  intros Hm t x E Hx. destruct Hm as (_ & Ha & _ & _ & Hp). apply (Hp t).
  unfold speriod. rewrite <- Ha. unfold attrs. rewrite lookup_fmap, E. simpl. by rewrite Hx.
Qed.

Lemma wp_is_timer t x (Q : bool -> timer_st -> Prop) s :
  timers s !! t = Some x -> Q (is_class (info_of x)) s -> wp (is_timer t) Q s.
Proof. intros E HQ. apply wp_bind. by eapply wp_load. Qed.

Lemma wp_is_static t x (Q : bool -> timer_st -> Prop) s :
  timers s !! t = Some x -> Q (has (t_type x) RT_Object_Class_Static) s -> wp (is_static t) Q s.
Proof. intros E HQ. apply wp_bind. by eapply wp_load. Qed.

Lemma wp_timer_assert b (Q : unit -> timer_st -> Prop) s : b = true -> Q tt s -> wp (RT_ASSERT b) Q s.
Proof. by intros ->. Qed.

(** The checks with which an operation on a timer begins. *)
Lemma wp_checks {A} t x (k : M timer_st A) (Q : A -> timer_st -> Prop) s :
  t <> 0 -> timers s !! t = Some x -> is_class (info_of x) = true -> wp k Q s ->
  wp (RT_ASSERT (negb (t =? 0)) ;;; b ← is_timer t; RT_ASSERT b ;;; k) Q s.
Proof.
  intros Ht E Hc Hk. apply wp_bind, wp_timer_assert; [by rewrite (proj2 (Z.eqb_neq t 0))|].
  apply wp_bind. eapply wp_is_timer; [exact E|]. by apply wp_bind, wp_timer_assert.
Qed.

(** A timer's settings change where it stands. *)
Lemma queue_update lo s q t x x' loc :
  queue_ok lo s q -> timers s !! t = Some x ->
  timeout_tick x' = timeout_tick x -> processing x' = processing x -> active x' = active x ->
  0 <= init_tick x' < HALF ->
  queue_ok lo (with_timers (<[t := x']> (timers s)) q.*1 loc s) q.
Proof.
  intros Hq E Eto Ep Ea Hi. destruct Hq as [Hl Hn Hs Hf He Ht]. constructor; simpl; try done.
  - intros p r Hin. destruct (He p r Hin) as (Hr & y & Ey & Ety). split; [done|].
    destruct (decide (p = t)) as [->|Hne].
    + exists x'. rewrite lookup_insert_eq. split; [done|]. congruence.
    + exists y. by rewrite lookup_insert_ne.
  - intros p y Ey. destruct (decide (p = t)) as [->|Hne].
    + rewrite lookup_insert_eq in Ey. injection Ey as <-. destruct (Ht t x E) as (_ & ? & ?).
      rewrite Ep, Ea. done.
    + rewrite lookup_insert_ne in Ey by done. by apply Ht.
Qed.

(** A timer that was not there. *)
Lemma queue_fresh lo s q t x :
  queue_ok lo s q -> t ∉ q.*1 -> processing x = false -> active x = false -> 0 <= init_tick x < HALF ->
  queue_ok lo (with_timers (<[t := x]> (timers s)) (timer_list s) (local_list s) s) q.
Proof.
  intros Hq Hout Hp Ha Hi. destruct Hq as [Hl Hn Hs Hf He Ht]. constructor; simpl; try done.
  - intros p r Hin. destruct (He p r Hin) as (Hr & y & Ey & Ety). split; [done|]. exists y.
    rewrite lookup_insert_ne; [done|]. intros ->. apply Hout, list_elem_of_fmap. by exists (p, r).
  - intros p y Ey. destruct (decide (p = t)) as [->|Hne].
    + rewrite lookup_insert_eq in Ey. injection Ey as <-. split_and!; [lia|lia|done|].
      rewrite Ha. symmetry. by apply bool_decide_eq_false.
    + rewrite lookup_insert_ne in Ey by done. by apply Ht.
Qed.

Lemma positive_insert m t i :
  positive m -> (i_periodic i = true -> 0 < i_time i) -> positive (<[t := i]> m).
Proof.
  intros Hm Hi p j. destruct (decide (p = t)) as [->|].
  - rewrite lookup_insert_eq. by intros [= <-].
  - rewrite lookup_insert_ne by done. apply Hm.
Qed.

Lemma attrs_store m t x l loc s :
  attrs (with_timers (<[t := x]> m) l loc s) = <[t := info_of x]> (info_of <$> m).
Proof. unfold attrs. simpl. by rewrite fmap_insert. Qed.

Definition off (x : rt_timer) : rt_timer :=
  with_flag x (Z.land (t_flag x) (Z.lnot RT_TIMER_FLAG_ACTIVATED)).

Lemma off_bits x :
  active (off x) = false /\ processing (off x) = processing x /\ info_of (off x) = info_of x.
Proof.
  destruct (cleared_bits x 0) as (H1 & H2 & H3); [lia|]. split_and!; [exact H1|exact H2|].
  unfold info_of, off. simpl. f_equal. exact H3.
Qed.

(** A timer is taken out of the list and marked as stopped. *)
Lemma wp_take_out {A} lo t x q (k : M timer_st A) (Q : A -> timer_st -> Prop) s :
  queue_ok lo s q -> timers s !! t = Some x ->
  (forall s1 loc, s1 = with_timers (<[t := off x]> (timers s)) (qremove t q).*1 loc s ->
     queue_ok lo s1 (qremove t q) -> wp k Q s1) ->
  wp (_timer_remove t ;;; clear_flag t RT_TIMER_FLAG_ACTIVATED ;;; k) Q s.
Proof.
  intros Hq E HQ. apply wp_bind, wp_remove. rewrite (q_list _ _ _ Hq), <- qremove_ids.
  apply wp_bind. eapply wp_clear_flag; [exact E|]. simpl. eapply HQ; [reflexivity|].
  destruct (off_bits x) as (H1 & H2 & H3). apply (queue_leave lo s q t x); try done.
  etrans; [exact H2|]. by destruct (q_timer _ _ _ Hq t x E) as (_ & ? & _).
Qed.

(** A timer taken out of the list, and stopped in memory. *)
Lemma models_off s c t x loc :
  models s c -> timers s !! t = Some x ->
  queue_ok 0 (with_timers (<[t := off x]> (timers s)) (qremove t (sq c)).*1 loc s) (qremove t (sq c)) ->
  models (with_timers (<[t := off x]> (timers s)) (qremove t (sq c)).*1 loc s)
    (set_q (qremove t (sq c)) c).
Proof.
  intros Hm E H1. destruct (models_elim _ _ Hm) as (Hq & Ha & Hcl & Hl & Hp).
  apply models_intro; simpl; try done. rewrite attrs_store.
  destruct (off_bits x) as (_ & _ & ->). rewrite <- Ha. apply insert_id.
  unfold attrs. by rewrite lookup_fmap, E.
Qed.

(** The queue does not depend on the marks of the scheduler. *)
Lemma queue_thread lo s q th :
  queue_ok lo s q ->
  queue_ok lo (TimerSt (timers s) (timer_list s) (local_list s) (rt_tick s) th (calls s)) q.
Proof. by destruct 1. Qed.

Lemma op_start s c t fuel tf (Q : Z * Z -> timer_st -> Prop) :
  models s c -> legal (TStart t) c ->
  (forall s', models s' (queue_run (TStart t) c).2 -> Q (queue_run (TStart t) c).1 s') ->
  wp (timer_run tf fuel (TStart t)) Q s.
Proof.
  intros Hm (Ht & i & Ei & Hc) HQ. destruct (models_timer _ _ _ _ Hm Ei) as (x & E & <-).
  destruct (models_elim _ _ Hm) as (Hq & Ha & Hcl & Hl & Hp).
  simpl in HQ. rewrite Ei in HQ. simpl in HQ.
  simpl. apply wp_bind, (wp_checks t x); [done..|]. apply wp_bind. eapply wp_load; [exact E|].
  assert (forall s1, queue_ok 0 s1 (sq c) -> timers s1 !! t = Some x -> attrs s1 = attrs s ->
    rt_tick s1 = rt_tick s -> calls s1 = calls s ->
    wp (_timer_start t) (fun r s' => wp (mret (r, 0)) Q s') s1) as Hgo.
  { intros s1 H1 E1 H2 H3 H4. eapply wp__timer_start; [exact H1|lia|exact E1|].
    intros s' Hq' (H5 & H6 & H7). apply wp_ret, HQ. by apply models_intro; simpl; try congruence. }
  apply wp_bind. destruct (has (t_flag x) RT_TIMER_FLAG_THREAD_TIMER).
  - apply wp_modify. apply Hgo; try done. by apply queue_thread.
  - apply wp_ret. by apply Hgo.
Qed.

Lemma op_stop s c t fuel tf (Q : Z * Z -> timer_st -> Prop) :
  models s c -> legal (TStop t) c ->
  (forall s', models s' (queue_run (TStop t) c).2 -> Q (queue_run (TStop t) c).1 s') ->
  wp (timer_run tf fuel (TStop t)) Q s.
Proof.
  intros Hm (Ht & i & Ei & Hc) HQ. destruct (models_timer _ _ _ _ Hm Ei) as (x & E & <-).
  destruct (models_elim _ _ Hm) as (Hq & Ha & Hcl & Hl & Hp).
  simpl. apply wp_bind, (wp_checks t x); [done..|]. apply wp_bind. eapply wp_load; [exact E|].
  rewrite has_active. destruct (q_timer _ _ _ Hq t x E) as (_ & _ & ->). simpl in HQ.
  destruct (bool_decide (t ∈ (sq c).*1)); [|by apply wp_ret, wp_ret, HQ].
  eapply wp_take_out; [exact Hq|exact E|]. intros s1 loc -> H1. by apply wp_ret, wp_ret, HQ, models_off.
Qed.

Lemma op_tick s c fuel tf (Q : Z * Z -> timer_st -> Prop) :
  (forall f p s, tf f p s = Ok (tt, s)) -> models s c -> (length (sq c) < fuel)%nat ->
  (forall s', models s' (queue_run TTick c).2 -> Q (queue_run TTick c).1 s') ->
  wp (timer_run tf fuel TTick) Q s.
Proof.
  intros Htf Hm Hf HQ. destruct (models_elim _ _ Hm) as (Hq & Ha & Hcl & Hl & Hp).
  simpl. apply wp_bind. eapply wp_mono; [apply (wp_tick tf Htf s (sq c) fuel Hq); [|done]|].
  { by eapply models_periods. }
  intros _ s' (Hq' & Ht & Hc & Ha'). apply wp_ret, HQ.
  apply models_intro; simpl; [|congruence|congruence|by rewrite Hc, Hl, Hcl|done].
  unfold tick_queue in *.
  rewrite (restart_ext (period s)) by (intros; symmetry; by apply models_period).
  destruct Hq' as [? ? ? ? He ?]. constructor; try done. intros p r Hin.
  destruct (He p r Hin) as (? & ?). split; [lia|done].
Qed.

Lemma wp_store t x (Q : unit -> timer_st -> Prop) s :
  Q tt (with_timers (<[t := x]> (timers s)) (timer_list s) (local_list s) s) -> wp (store t x) Q s.
Proof. done. Qed.

Lemma op_detach s c t fuel tf (Q : Z * Z -> timer_st -> Prop) :
  models s c -> legal (TDetach t) c ->
  (forall s', models s' (queue_run (TDetach t) c).2 -> Q (queue_run (TDetach t) c).1 s') ->
  wp (timer_run tf fuel (TDetach t)) Q s.
Proof.
  intros Hm (Ht & i & Ei & Hc & Hst) HQ. destruct (models_timer _ _ _ _ Hm Ei) as (x & E & <-).
  destruct (models_elim _ _ Hm) as (Hq & Ha & Hcl & Hl & Hp).
  simpl. apply wp_bind, (wp_checks t x); [done..|].
  apply wp_bind. eapply wp_is_static; [exact E|]. apply wp_bind, wp_timer_assert; [exact Hst|].
  eapply wp_take_out; [exact Hq|exact E|]. intros s1 loc -> H1.
  apply wp_bind. eapply (wp_load t (off x)); [simpl; by rewrite lookup_insert_eq|].
  apply wp_bind, wp_store, wp_ret, wp_ret, HQ. simpl. rewrite insert_insert_eq.
  set (y := Timer 0 _ _ _ _ _). destruct (off_bits x) as (Hoff & Hpr & Hinfo).
  assert (info_of y = Info 0 (periodic x) (init_tick x) (timeout_func x) (parameter x)) as Hy.
  { pose proof (f_equal i_periodic Hinfo) as Hper. simpl in Hper. unfold info_of. by rewrite <- Hper. }
  apply models_intro; simpl; try done.
  - eapply (queue_leave 0 s (sq c) t x y loc Hq E); try done.
    etrans; [exact Hpr|]. by destruct (q_timer _ _ _ Hq t x E) as (_ & ? & _).
  - rewrite attrs_store, Hy, <- Ha. apply map_eq. intros p. unfold attrs.
    destruct (decide (p = t)) as [->|Hne].
    + by rewrite lookup_insert_eq, lookup_alter_eq, lookup_fmap, E.
    + by rewrite lookup_insert_ne, lookup_alter_ne.
  - intros p j. destruct (decide (p = t)) as [->|Hne].
    + rewrite lookup_alter_eq, Ei. intros [= <-]. by apply (Hp t (info_of x)).
    + rewrite lookup_alter_ne by done. apply Hp.
Qed.

Lemma op_delete s c t fuel tf (Q : Z * Z -> timer_st -> Prop) :
  models s c -> legal (TDelete t) c ->
  (forall s', models s' (queue_run (TDelete t) c).2 -> Q (queue_run (TDelete t) c).1 s') ->
  wp (timer_run tf fuel (TDelete t)) Q s.
Proof.
  intros Hm (Ht & i & Ei & Hc & Hst) HQ. destruct (models_timer _ _ _ _ Hm Ei) as (x & E & <-).
  destruct (models_elim _ _ Hm) as (Hq & Ha & Hcl & Hl & Hp).
  simpl. apply wp_bind, (wp_checks t x); [done..|].
  apply wp_bind. eapply wp_is_static; [exact E|].
  apply wp_bind, wp_timer_assert; [simpl in Hst; by rewrite Hst|].
  eapply wp_take_out; [exact Hq|exact E|]. intros s1 loc -> H1.
  apply wp_bind, wp_modify, wp_ret, wp_ret, HQ. simpl. rewrite delete_insert_eq.
  apply models_intro; simpl; try done.
  - destruct H1 as [Hl1 Hn1 Hs1 Hf1 He1 Ht1]. constructor; simpl in *; try done.
    + intros p r Hin. destruct (He1 p r Hin) as (Hr & y & Ey & Ety). split; [done|]. exists y.
      apply list_elem_of_filter in Hin as [Hne _]. simpl in Hne.
      rewrite lookup_insert_ne in Ey by done. by rewrite lookup_delete_ne.
    + intros p y Ey. apply lookup_delete_Some in Ey as [Hne Ey]. apply Ht1.
      by rewrite lookup_insert_ne.
  - unfold attrs in *. simpl. by rewrite fmap_delete, Ha.
  - intros p j [_ Hj]%lookup_delete_Some. by apply (Hp p j).
Qed.

Lemma fresh_timer class func param time flag :
  Z.testbit flag 1 = false ->
  let y := Timer class (Z.land flag (Z.lnot RT_TIMER_FLAG_ACTIVATED)) func param time 0 in
  info_of y = fresh_info class func param time flag /\ processing y = false /\ active y = false.
Proof.
  intros Hf y.
  destruct (cleared_bits (Timer class flag func param time 0) 0 (Z.le_refl 0)) as (H1 & H2 & H3).
  split_and!; [|etrans; [exact H2|exact Hf]|exact H1].
  change (Info class (periodic y) time func param = Info class (Z.testbit flag 2) time func param).
  f_equal. exact H3.
Qed.

Lemma models_fresh s c t y :
  models s c -> t ∉ (sq c).*1 -> processing y = false -> active y = false ->
  time_ok (periodic y) (init_tick y) ->
  models (with_timers (<[t := y]> (timers s)) (timer_list s) (local_list s) s)
    (set_info (<[t := info_of y]> (sinfo c)) c).
Proof.
  intros Hm Hout Hp Ha [Hi Hper]. destruct (models_elim _ _ Hm) as (Hq & Hat & Hcl & Hl & Hpos).
  apply models_intro; simpl; try done.
  - by apply queue_fresh.
  - by rewrite attrs_store, <- Hat.
  - by apply positive_insert.
Qed.

Lemma op_init s c t func param time flag fuel tf (Q : Z * Z -> timer_st -> Prop) :
  let op := TInit t func param time flag in
  models s c -> legal op c ->
  (forall s', models s' (queue_run op c).2 -> Q (queue_run op c).1 s') ->
  wp (timer_run tf fuel op) Q s.
Proof.
  intros op Hm (Ht & Hf & Htime & Hflag & Hout & Hex) HQ. simpl.
  apply wp_bind. unfold rt_timer_init.
  apply wp_bind, wp_timer_assert; [by rewrite (proj2 (Z.eqb_neq t 0))|].
  apply wp_bind, wp_timer_assert; [by rewrite (proj2 (Z.eqb_neq func 0))|].
  apply wp_bind, wp_timer_assert.
  { change (RT_TICK_MAX / 2) with HALF. apply Z.ltb_lt. destruct Htime; lia. }
  apply wp_bind. unfold wp at 1, get. apply wp_bind, wp_timer_assert.
  { destruct (models_elim _ _ Hm) as (_ & Hat & _). destruct (timers s !! t) as [x|] eqn:E; [|done].
    rewrite <- Hat in Hex. unfold attrs in Hex. rewrite lookup_fmap, E in Hex.
    destruct Hex as [?|(i & [= <-] & Hi)]; [done|]. by apply Z.eqb_eq. }
  destruct (fresh_timer (Z.lor RT_Object_Class_Timer RT_Object_Class_Static) func param time flag)
    as (Hi & Hp & Ha); [done|].
  apply wp_store, wp_ret, HQ. simpl. rewrite <- Hi. apply models_fresh; try done.
  pose proof (f_equal i_periodic Hi) as Hper. simpl in Hper. by rewrite Hper.
Qed.

Lemma op_create s c t func param time flag fuel tf (Q : Z * Z -> timer_st -> Prop) :
  let op := TCreate t func param time flag in
  models s c -> legal op c ->
  (forall s', models s' (queue_run op c).2 -> Q (queue_run op c).1 s') ->
  wp (timer_run tf fuel op) Q s.
Proof.
  intros op Hm (Hf & Htime & Hflag & Hex) HQ. simpl. apply wp_bind. unfold rt_timer_create.
  apply wp_bind, wp_timer_assert; [by rewrite (proj2 (Z.eqb_neq func 0))|].
  apply wp_bind, wp_timer_assert.
  { change (RT_TICK_MAX / 2) with HALF. apply Z.ltb_lt. destruct Htime; lia. }
  simpl in HQ. destruct (Z.eqb_spec t 0) as [->|Ht]; [by apply wp_ret, wp_ret, HQ|].
  destruct (fresh_timer RT_Object_Class_Timer func param time flag) as (Hi & Hp & Ha); [done|].
  apply wp_bind, wp_store, wp_ret, wp_ret, HQ. rewrite <- Hi. apply models_fresh; try done.
  - destruct (models_elim _ _ Hm) as (Hq & Hat & _).
    intros ([p r] & -> & Hin)%list_elem_of_fmap. destruct (q_entry _ _ _ Hq p r Hin) as (_ & x & E & _).
    rewrite <- Hat in Hex. unfold attrs in Hex. simpl in Hex. by rewrite lookup_fmap, E in Hex.
  - pose proof (f_equal i_periodic Hi) as Hper. simpl in Hper. by rewrite Hper.
Qed.

(** *** [rt_timer_control] *)

Lemma models_update s c t x y :
  models s c -> timers s !! t = Some x ->
  timeout_tick y = timeout_tick x -> processing y = processing x -> active y = active x ->
  time_ok (periodic y) (init_tick y) ->
  models (with_timers (<[t := y]> (timers s)) (timer_list s) (local_list s) s)
    (set_info (<[t := info_of y]> (sinfo c)) c).
Proof.
  intros Hm E Hto Hp Ha [Hi Hper]. destruct (models_elim _ _ Hm) as (Hq & Hat & Hcl & Hl & Hpos).
  apply models_intro; simpl; try done.
  - rewrite (q_list _ _ _ Hq). by apply (queue_update 0 s (sq c) t x y).
  - by rewrite attrs_store, <- Hat.
  - by apply positive_insert.
Qed.

Lemma models_time s c t x :
  models s c -> timers s !! t = Some x -> time_ok (periodic x) (init_tick x).
Proof.
  intros Hm E. destruct (models_elim _ _ Hm) as (Hq & _). split.
  - by destruct (q_timer _ _ _ Hq t x E).
  - intros Hper. by apply (models_periods _ _ Hm t x).
Qed.

Lemma op_set_time s c t x n (Q : Z -> timer_st -> Prop) :
  models s c -> timers s !! t = Some x -> time_ok (periodic x) n ->
  (forall s', models s' (set_q (qremove t (sq c))
       (set_info (<[t := Info (t_type x) (periodic x) n (timeout_func x) (parameter x)]> (sinfo c)) c)) ->
     Q n s') ->
  wp (RT_ASSERT (n <? RT_TICK_MAX / 2) ;;;
      (if has (t_flag x) RT_TIMER_FLAG_ACTIVATED
       then _timer_remove t ;;; clear_flag t RT_TIMER_FLAG_ACTIVATED else mret tt) ;;;
      set_init_tick t n ;;; mret n) Q s.
Proof.
  intros Hm E Hn HQ. destruct (models_elim _ _ Hm) as (Hq & _).
  apply wp_bind, wp_timer_assert.
  { change (RT_TICK_MAX / 2) with HALF. apply Z.ltb_lt. destruct Hn; lia. }
  assert (forall s1 c1 y, models s1 c1 -> timers s1 !! t = Some y -> info_of y = info_of x ->
    sinfo c1 = sinfo c -> set_q (qremove t (sq c)) c = c1 ->
    wp (set_init_tick t n ;;; mret n) Q s1) as Hset.
  { intros s1 c1 y Hm1 E1 Hi Hc1 <-. apply wp_bind, wp_bind. eapply wp_load; [exact E1|].
    apply wp_store, wp_ret, HQ. injection Hi as H1 H2 H3 H4 H5.
    set (z := Timer _ _ _ _ n _).
    replace (Info (t_type x) (periodic x) n (timeout_func x) (parameter x)) with (info_of z)
      by (unfold info_of; simpl; by rewrite <- H1, <- H2, <- H4, <- H5).
    apply (models_update s1 _ t y z Hm1 E1); try done. by rewrite <- H2 in Hn. }
  rewrite has_active. destruct (q_timer _ _ _ Hq t x E) as (_ & _ & ->).
  apply wp_bind. case_bool_decide as Hin.
  - apply wp_bind, wp_remove. rewrite (q_list _ _ _ Hq), <- qremove_ids.
    eapply wp_clear_flag; [exact E|]. simpl. destruct (off_bits x) as (Ho & Hp & Hi).
    eapply (Hset _ _ (off x)); [apply (models_off s c t x); try done| |done..].
    + apply (queue_leave 0 s (sq c) t x); try done.
      etrans; [exact Hp|]. by destruct (q_timer _ _ _ Hq t x E) as (_ & ? & _).
    + simpl. by rewrite lookup_insert_eq.
  - apply wp_ret. apply (Hset s c x); try done. rewrite qremove_out by done. by destruct c.
Qed.

Lemma op_oneshot s c t x n (Q : Z -> timer_st -> Prop) :
  models s c -> timers s !! t = Some x ->
  (forall s', models s' (set_info (<[t := Info (t_type x) false (init_tick x) (timeout_func x)
                                           (parameter x)]> (sinfo c)) c) -> Q n s') ->
  wp (clear_flag t RT_TIMER_FLAG_PERIODIC ;;; mret n) Q s.
Proof.
  intros Hm E HQ. apply wp_bind. eapply wp_clear_flag; [exact E|]. apply wp_ret, HQ.
  pose proof (models_time _ _ _ _ Hm E) as [Hi _].
  destruct (cleared_bits x 2) as (H1 & H2 & H3); [lia|].
  replace (Info _ false _ _ _) with (info_of (with_flag x (Z.land (t_flag x) (Z.lnot (2 ^ 2)))))
    by (unfold info_of; by rewrite H3).
  apply (models_update s c t x _ Hm E); try done. split; [done|].
  intros H. assert (false = true) by (etrans; [symmetry; exact H3|exact H]). done.
Qed.

Lemma op_periodic s c t x n (Q : Z -> timer_st -> Prop) :
  models s c -> timers s !! t = Some x -> 0 < init_tick x ->
  (forall s', models s' (set_info (<[t := Info (t_type x) true (init_tick x) (timeout_func x)
                                           (parameter x)]> (sinfo c)) c) -> Q n s') ->
  wp (raise_flag t RT_TIMER_FLAG_PERIODIC ;;; mret n) Q s.
Proof.
  intros Hm E Hpos HQ. apply wp_bind. eapply wp_raise_flag; [exact E|]. apply wp_ret, HQ.
  pose proof (models_time _ _ _ _ Hm E) as [Hi _].
  destruct (raised_bits x 2) as (H1 & H2 & H3); [lia|].
  replace (Info _ true _ _ _) with (info_of (with_flag x (Z.lor (t_flag x) (2 ^ 2))))
    by (unfold info_of; by rewrite H3).
  by apply (models_update s c t x _ Hm E).
Qed.

Lemma remaining_elem s q t r : queue_ok 0 s q -> remaining t q = Some r <-> (t, r) ∈ q.
Proof. intros Hq. symmetry. apply elem_of_list_to_map, (q_nodup _ _ _ Hq). Qed.

(** The timeout of a running timer is its remaining ticks behind the clock. *)
Lemma remaining_running s c t x :
  models s c -> timers s !! t = Some x -> t ∈ (sq c).*1 ->
  exists r, remaining t (sq c) = Some r /\ timeout_tick x = u32 (sclock c + r).
Proof.
  intros Hm E ([p r] & -> & Hin)%list_elem_of_fmap. destruct (models_elim _ _ Hm) as (Hq & _ & <- & _).
  exists r. simpl in *. split; [by eapply remaining_elem|].
  destruct (q_entry _ _ _ Hq p r Hin) as (_ & y & E' & <-). congruence.
Qed.

Lemma op_control s c t cmd arg fuel tf (Q : Z * Z -> timer_st -> Prop) :
  let op := TControl t cmd arg in
  models s c -> legal op c ->
  (forall s', models s' (queue_run op c).2 -> Q (queue_run op c).1 s') ->
  wp (timer_run tf fuel op) Q s.
Proof.
  intros op Hm (Ht & i & Ei & Hc & Htime & Hper & Hrem) HQ.
  destruct (models_timer _ _ _ _ Hm Ei) as (x & E & <-). simpl. simpl in HQ. rewrite Ei in HQ.
  apply (wp_checks t x); [done..|]. apply wp_bind. eapply wp_load; [exact E|].
  unfold control_queue in HQ. apply wp_bind.
  pose proof (models_time _ _ _ _ Hm E) as [Hi Hpos].
  destruct (Z.eqb_spec cmd RT_TIMER_CTRL_GET_TIME) as [->|]; [by apply wp_ret, wp_ret, HQ|].
  destruct (Z.eqb_spec cmd RT_TIMER_CTRL_SET_TIME) as [->|].
  { apply (op_set_time s c t x arg); [done|done|by apply Htime|]. intros s' Hs'. by apply wp_ret, HQ. }
  destruct (Z.eqb_spec cmd RT_TIMER_CTRL_SET_ONESHOT) as [->|].
  { apply (op_oneshot s c t x); [done..|]. intros s' Hs'. by apply wp_ret, HQ. }
  destruct (Z.eqb_spec cmd RT_TIMER_CTRL_SET_PERIODIC) as [->|].
  { apply (op_periodic s c t x); [done|done|by apply Hper|]. intros s' Hs'. by apply wp_ret, HQ. }
  destruct (Z.eqb_spec cmd RT_TIMER_CTRL_GET_STATE) as [->|].
  { apply wp_ret, wp_ret. rewrite has_active. destruct (models_elim _ _ Hm) as (Hq & _).
    destruct (q_timer _ _ _ Hq t x E) as (_ & _ & ->). by apply HQ. }
  destruct (Z.eqb_spec cmd RT_TIMER_CTRL_GET_REMAIN_TIME) as [->|].
  { destruct (remaining_running s c t x Hm E) as (r & Hr & ->); [by apply Hrem|]. rewrite Hr in HQ.
    by apply wp_ret, wp_ret, HQ. }
  destruct (Z.eqb_spec cmd RT_TIMER_CTRL_GET_FUNC) as [->|]; [by apply wp_ret, wp_ret, HQ|].
  destruct (Z.eqb_spec cmd RT_TIMER_CTRL_SET_FUNC) as [->|].
  { apply wp_bind, wp_bind. eapply wp_load; [exact E|]. apply wp_store, wp_ret, wp_ret, HQ.
    by apply (models_update s c t x (Timer _ _ _ _ _ _) Hm E). }
  destruct (Z.eqb_spec cmd RT_TIMER_CTRL_GET_PARM) as [->|]; [by apply wp_ret, wp_ret, HQ|].
  destruct (Z.eqb_spec cmd RT_TIMER_CTRL_SET_PARM) as [->|]; [|by apply wp_ret, wp_ret, HQ].
  apply wp_bind, wp_bind. eapply wp_load; [exact E|]. apply wp_store, wp_ret, wp_ret, HQ.
  by apply (models_update s c t x (Timer _ _ _ _ _ _) Hm E).
Qed.

(** *** Sequences of operations *)

Fixpoint timer_runs (tf : Z -> Z -> M timer_st unit) (fuel : nat) (ops : list timer_op) :
    M timer_st (list (Z * Z)) :=
  match ops with
  | [] => mret []
  | op :: ops => r ← timer_run tf fuel op; rs ← timer_runs tf fuel ops; mret (r :: rs)
  end.

Fixpoint queue_runs (ops : list timer_op) (c : queue_st) : list (Z * Z) * queue_st :=
  match ops with
  | [] => ([], c)
  | op :: ops => let r := queue_run op c in let rs := queue_runs ops r.2 in (r.1 :: rs.1, rs.2)
  end.

Fixpoint all_legal (ops : list timer_op) (c : queue_st) : Prop :=
  match ops with
  | [] => True
  | op :: ops => legal op c /\ all_legal ops (queue_run op c).2
  end.

#[local] Instance all_legal_dec ops c : Decision (all_legal ops c).
Proof. revert c. induction ops as [|op ops IH]; intros c; simpl; apply _. Defined.

Lemma op_refines tf fuel op s c (Q : Z * Z -> timer_st -> Prop) :
  (forall f p s, tf f p s = Ok (tt, s)) -> models s c -> legal op c -> (length (sq c) < fuel)%nat ->
  (forall s', models s' (queue_run op c).2 -> Q (queue_run op c).1 s') ->
  wp (timer_run tf fuel op) Q s.
Proof.
  intros Htf Hm Hl Hf HQ. destruct op.
  - by eapply op_init.
  - by eapply op_create.
  - by eapply op_detach.
  - by eapply op_delete.
  - by eapply op_start.
  - by eapply op_stop.
  - by eapply op_control.
  - by eapply op_tick.
Qed.

Lemma length_qremove t q : (length (qremove t q) <= length q)%nat.
Proof. apply length_filter. Qed.

(** An operation adds at most one timer to the queue. *)
Lemma length_run op s c : models s c -> (length (sq (queue_run op c).2) <= S (length (sq c)))%nat.
Proof.
  intros (Hq & _). pose proof (fun t => length_qremove t (sq c)) as Hr.
  destruct op; simpl; try lia.
  - destruct (_ =? 0); simpl; lia.
  - specialize (Hr t). lia.
  - specialize (Hr t). lia.
  - destruct (sinfo c !! t); simpl; [|lia]. rewrite qinsert_perm. simpl. specialize (Hr t). lia.
  - destruct (bool_decide _); simpl; [specialize (Hr t)|]; lia.
  - destruct (sinfo c !! t) as [i|]; simpl; [|lia]. unfold control_queue.
    repeat (destruct (_ =? _); [simpl; try specialize (Hr t); lia|]). simpl. lia.
  - etrans; [apply length_tick, (q_sorted _ _ _ Hq)|lia].
Qed.

(** C5. The timer service is a queue.  Every sequence of [init], [create], [detach], [delete],
    [start], [stop] and [control] calls with ticks between them runs without a fault, each call
    returns what the queue of timers with remaining ticks returns, and the timers run in the
    queue's order at the queue's ticks; the 32-bit clock may wrap around on the way.  The
    control commands are all covered: GET_REMAIN_TIME gives the clock's value at which a running
    timer rings, not the ticks that remain.  Left out are times of half the tick's range or
    more, which the service asserts, a period of 0 ([zero_period_spins] shows the hang), the
    remaining time of a timer that does not run, and timeout functions that call the service. *)
Theorem timer_refines tf fuel ops s c :
  (forall f p s, tf f p s = Ok (tt, s)) -> models s c -> all_legal ops c ->
  (length (sq c) + length ops < fuel)%nat ->
  wp (timer_runs tf fuel ops) (fun rs s' =>
    rs = (queue_runs ops c).1 /\ models s' (queue_runs ops c).2) s.
Proof.
  intros Htf. revert s c. induction ops as [|op ops IH]; intros s c Hm Hl Hf; [done|].
  destruct Hl as [Hl Hls]. simpl in *. apply wp_bind. eapply op_refines; [done..|lia|].
  intros s1 H1. pose proof (length_run op s c Hm) as Hlen. apply wp_bind.
  eapply wp_mono; [apply (IH s1 _ H1 Hls); lia|]. intros rs s2 [-> H2]. by apply wp_ret.
Qed.

(** C12. A timer rings on time.  After [rt_timer_start] a one-shot timer runs once, exactly its
    time after the start, and a periodic one at every multiple of its period, without drift:
    whatever other timers run, as long as the timeout functions leave the timers alone, and
    also when the clock wraps around. *)
Theorem timer_on_time tf fuel k s q t x :
  (forall f p s, tf f p s = Ok (tt, s)) -> queue_ok 0 s q -> periods_ok s ->
  t <> 0 -> timers s !! t = Some x -> is_class (info_of x) = true -> 1 <= init_tick x ->
  (S (length q) < fuel)%nat ->
  wp (rt_timer_start t ;;; run_ticks tf fuel k) (fun _ s' =>
    rings_of t (calls s') = rings_of t (calls s) ++
      schedule (if periodic x then Some (init_tick x) else None) (rt_tick s) (init_tick x) k) s.
Proof.
  intros Htf Hq Hper Ht E Hc H1 Hf. apply wp_bind, (wp_checks t x); [done..|].
  assert (forall s1, queue_ok 0 s1 q -> timers s1 = timers s -> rt_tick s1 = rt_tick s ->
    calls s1 = calls s -> wp (_timer_start t) (fun _ s' => wp (run_ticks tf fuel k) (fun _ s' =>
      rings_of t (calls s') = rings_of t (calls s) ++
      schedule (if periodic x then Some (init_tick x) else None) (rt_tick s) (init_tick x) k) s') s1)
    as Hgo.
  { intros s1 Hq1 E1 E2 E3. eapply wp__timer_start; [exact Hq1|lia|by rewrite E1|].
    intros s2 Hq2 (H2 & H3 & H4).
    assert (attrs s2 = attrs s) as Ha by (rewrite H4; unfold attrs; by rewrite E1).
    eapply wp_mono; [apply (run_on_time tf Htf s2 _ t (init_tick x) fuel k Hq2)|].
    - by eapply periods_attrs.
    - rewrite qinsert_perm. simpl. pose proof (length_qremove t q). lia.
    - rewrite qinsert_perm. left.
    - done.
    - intros [] s3 Hs3. rewrite Hs3, (period_attrs s s2 t Ha), H2, H3, E2, E3. unfold period.
      by rewrite E. }
  apply wp_bind. eapply wp_load; [exact E|]. apply wp_bind.
  destruct (has (t_flag x) RT_TIMER_FLAG_THREAD_TIMER).
  - apply wp_modify, Hgo; try done. by apply queue_thread.
  - by apply wp_ret, Hgo.
Qed.

(** *** What goes wrong *)

(** A periodic timer with period 0 that is due stays due for ever. *)
Lemma zero_loops tf fuel s q t r :
  (forall f p s, tf f p s = Ok (tt, s)) -> queue_ok (-1) s q -> (t, r) ∈ q -> r <= 0 ->
  period s t = Some 0 -> check_loop tf fuel (rt_tick s) s = Err Spin.
Proof.
  intros Htf. revert s q r. induction fuel as [|fuel IH]; intros s q r Hq Hin Hr Hz; [done|].
  destruct q as [|[p rp] q]; [by apply elem_of_nil in Hin|].
  assert (rp <= 0 /\ ((t = p) \/ (t, r) ∈ q)) as [Hrp Hcase].
  { apply elem_of_cons in Hin as [[= -> ->]|Hin]; [by auto|]. split; [|by auto].
    pose proof (q_sorted _ _ _ Hq) as Hs. apply StronglySorted_inv in Hs as [_ Hs].
    rewrite Forall_forall in Hs. specialize (Hs _ Hin). unfold qle in Hs. simpl in Hs. lia. }
  assert (wp (check_turn tf (rt_tick s)) (fun o s' => o = Some (rt_tick s') /\
    queue_ok (-1) s' (again (period s) p q) /\ period s' t = Some 0) s) as Hturn.
  { eapply (wp_turn_due tf Htf s p rp q); [done|done|]. intros s' Hq' (Ht & _ & Ha).
    rewrite Ht. split_and!; [done|done|]. by rewrite (period_attrs s s'). }
  apply wp_run in Hturn as (o & s' & E & -> & Hq' & Hz'). simpl. rewrite (bind_step _ _ _ _ _ E).
  assert ((t, 0) ∈ again (period s) p q \/ (t, r) ∈ again (period s) p q) as [H|H].
  { unfold again. destruct Hcase as [<-|Hcase].
    - rewrite Hz. left. apply elem_qinsert. by left.
    - destruct (period s p); [right; apply elem_qinsert; by right|by right]. }
  - by apply (IH s' _ 0 Hq' H).
  - by apply (IH s' _ r Hq' H).
Qed.

(** A periodic timer of time 0 hangs the system.  [rt_timer_create] and [rt_timer_start]
    accept it, and the next tick interrupt never ends: [rt_timer_check] runs the timer and puts
    it back as due, whatever the number of turns. *)
Theorem zero_period_spins tf fuel s q t x :
  (forall f p s, tf f p s = Ok (tt, s)) -> queue_ok 0 s q ->
  t <> 0 -> timers s !! t = Some x -> is_class (info_of x) = true ->
  periodic x = true -> init_tick x = 0 ->
  (rt_timer_start t ;;; rt_tick_increase tf fuel) s = Err Spin.
Proof.
  intros Htf Hq Ht E Hc Hper Hz.
  assert (wp (rt_timer_start t) (fun _ s' => queue_ok 0 s' (qinsert t 0 (qremove t q)) /\
    period s' t = Some 0) s) as Hstart.
  { apply (wp_checks t x); [done..|]. apply wp_bind. eapply wp_load; [exact E|].
    assert (forall s1, queue_ok 0 s1 q -> timers s1 = timers s ->
      wp (_timer_start t) (fun _ s' => queue_ok 0 s' (qinsert t 0 (qremove t q)) /\
        period s' t = Some 0) s1) as Hgo.
    { intros s1 Hq1 E1. eapply wp__timer_start; [exact Hq1|lia|by rewrite E1|].
      intros s2 Hq2 (_ & _ & H2). rewrite Hz in Hq2. split; [done|].
      rewrite (period_attrs s1 s2 t H2). unfold period. rewrite E1, E. simpl. by rewrite Hper, Hz. }
    apply wp_bind. destruct (has (t_flag x) RT_TIMER_FLAG_THREAD_TIMER).
    - apply wp_modify, Hgo; [by apply queue_thread|done].
    - by apply wp_ret, Hgo. }
  apply wp_run in Hstart as (r & s' & E' & Hq' & Hz'). rewrite (bind_step _ _ _ _ _ E').
  pose proof (queue_countdown _ _ Hq') as Hdown.
  apply (zero_loops tf fuel _ _ t (-1) Htf Hdown); [|lia|exact Hz'].
  apply elem_countdown, elem_qinsert. by left.
Qed.

(** The next timeout is that of the head of the queue. *)
Lemma next_timeout_head s c :
  models s c ->
  rt_timer_next_timeout_tick s =
    Ok (match sq c with [] => RT_TICK_MAX | (_, r) :: _ => u32 (sclock c + r) end, s).
Proof.
  intros Hm. destruct (models_elim _ _ Hm) as (Hq & _ & <- & _).
  unfold rt_timer_next_timeout_tick, gets, mbind, M_bind. rewrite (q_list _ _ _ Hq).
  destruct (sq c) as [|[t r] q]; [done|]. destruct (q_entry _ _ _ Hq t r) as (_ & x & E & Et); [left|].
  simpl. unfold load. by rewrite E, <- Et.
Qed.

(** With 1000 ticks a second a tick is a millisecond. *)
Lemma ms_ticks ms : 0 <= ms < 2 ^ 31 -> rt_tick_from_millisecond ms = ms.
Proof.
  intros Hms. unfold rt_tick_from_millisecond, RT_TICK_PER_SECOND.
  rewrite (proj2 (Z.ltb_ge _ _)) by lia. 
  change (2 ^ 31) with 2147483648 in Hms. unfold wrap. change (2 ^ 32) with 4294967296. zlia.
Qed.

Lemma err_after {A B} (m : M timer_st A) (k : A -> M timer_st B) f s :
  wp m (fun a s' => k a s' = Err f) s -> (m ≫= k) s = Err f.
Proof. intros (a & s' & E & H)%wp_run. by rewrite (bind_step _ _ _ _ _ E). Qed.

Lemma delete_runs t x s (Q : unit -> timer_st -> Prop) :
  t <> 0 -> timers s !! t = Some x -> is_class (info_of x) = true ->
  has (t_type x) RT_Object_Class_Static = false ->
  (forall s', timers s' !! t = None -> Q tt s') -> wp (rt_timer_delete t ;;; mret tt) Q s.
Proof.
  intros Ht E Hc Hst HQ. apply wp_bind, (wp_checks t x); [done..|].
  apply wp_bind. eapply wp_is_static; [exact E|]. apply wp_bind, wp_timer_assert; [by rewrite Hst|].
  apply wp_bind, wp_remove, wp_bind. eapply wp_clear_flag; [exact E|].
  apply wp_bind, wp_modify, wp_ret, wp_ret, HQ. simpl. apply lookup_delete_eq.
Qed.

(** A timer that deletes itself in its timeout function is used after it is freed:
    [rt_timer_check] clears the flag of the timer in memory that [rt_timer_delete] released. *)
Theorem delete_in_callback fuel s q t r x :
  queue_ok 0 s ((t, r) :: q) -> r <= 1 -> t <> 0 -> timers s !! t = Some x ->
  is_class (info_of x) = true -> has (t_type x) RT_Object_Class_Static = false ->
  rt_tick_increase (fun _ _ => rt_timer_delete t ;;; mret tt) (S fuel) s = Err OutOfBounds.
Proof.
  intros Hq Hr Ht E Hc Hst. apply queue_countdown in Hq. simpl in Hq.
  set (s1 := TimerSt _ _ _ _ _ _) in Hq.
  unfold rt_tick_increase. apply err_after, wp_gets, err_after, wp_modify.
  unfold rt_timer_check. apply err_after, wp_gets, err_after, wp_modify.
  change (check_loop (fun _ _ => rt_timer_delete t ;;; mret tt) (S fuel) (rt_tick s1) s1 = Err OutOfBounds).
  cbn [check_loop]. unfold mbind at 1, M_bind at 1.
  enough (check_turn (fun _ _ => rt_timer_delete t ;;; mret tt) (rt_tick s1) s1 = Err OutOfBounds)
    as H by by rewrite H.
  assert (timer_list s1 = t :: q.*1) as Hl.
  { rewrite (q_list _ _ _ Hq). simpl. by rewrite countdown_ids. }
  unfold check_turn. apply err_after, wp_gets. rewrite Hl.
  apply err_after. eapply (wp_load t x); [exact E|].
  rewrite (due_entry s1 _ t (r - 1) x Hq), (proj2 (Z.leb_le (r - 1) 0)) by (done || lia || left).
  apply err_after, wp_remove, err_after. rewrite has_periodic.
  eapply (wp_drop_active t x); [exact E|].
  apply err_after. eapply wp_raise_flag; [simpl; by rewrite lookup_insert_eq|].
  apply err_after, wp_gets, err_after, wp_modify, err_after.
  eapply wp_load; [simpl; by rewrite lookup_insert_eq|].
  apply err_after, wp_modify, err_after.
  eapply delete_runs; [done|simpl; by rewrite lookup_insert_eq|exact Hc|exact Hst|].
  intros s' Hgone. apply err_after, wp_gets. unfold clear_flag, load, mbind, M_bind. by rewrite Hgone.
Qed.

(** *** Examples *)

Definition quiet_function : Z -> Z -> M timer_st unit := fun _ _ => mret tt.
Definition no_timers (now : Z) : timer_st := TimerSt ∅ [] [] now [] [].
Definition no_queue (now : Z) : queue_st := QueueSt [] ∅ now [].

Lemma no_timers_ok now : fits 32 now -> queue_ok 0 (no_timers now) [].
Proof.
  intros Hf. constructor; try done; simpl.
  - constructor.
  - constructor.
  - intros t r H. by apply elem_of_nil in H.
Qed.

Lemma no_timers_models now : fits 32 now -> models (no_timers now) (no_queue now).
Proof. intros Hf. apply models_intro; try done. by apply no_timers_ok. Qed.

(** Two timers over the wrap of the clock: a periodic one of three ticks, one of two. *)
Definition two_timers : list timer_op :=
  [TInit 100 7 9 3 4; TCreate 200 8 0 2 0; TStart 100; TStart 200; TTick; TTick; TTick; TTick;
   TControl 100 RT_TIMER_CTRL_GET_STATE 0; TControl 200 RT_TIMER_CTRL_GET_STATE 0;
   TControl 100 RT_TIMER_CTRL_GET_REMAIN_TIME 0; TTick; TTick;
   TStop 100; TStop 100; TDetach 100; TDelete 200].

Lemma timer_refines_witness :
  let c := queue_runs two_timers (no_queue (2 ^ 32 - 2)) in
  slog c.2 = [(200, 0); (100, 1); (100, 4)] /\ c.1 !! 10%nat = Some (RT_EOK, 4) /\
  wp (timer_runs quiet_function 20 two_timers)
    (fun rs s' => rs = c.1 /\ models s' c.2) (no_timers (2 ^ 32 - 2)).
Proof.
  split; [vm_compute; reflexivity|]. split; [vm_compute; reflexivity|].
  apply timer_refines; [done|by apply no_timers_models| |simpl; lia].
  apply (bool_decide_unpack _). vm_compute. exact I.
Defined.

(** One timer, stopped or running. *)
Definition stopped_timer (flag time now : Z) : timer_st :=
  TimerSt {[1 := Timer RT_Object_Class_Timer flag 7 9 time 0]} [] [] now [] [].
Definition running_timer (r now : Z) : timer_st :=
  TimerSt {[1 := Timer RT_Object_Class_Timer 1 7 9 r (u32 (now + r))]} [1] [] now [] [].

Lemma stopped_timer_ok flag time now :
  flag = 0 \/ flag = 4 -> 0 <= time < HALF -> fits 32 now -> queue_ok 0 (stopped_timer flag time now) [].
Proof.
  intros Hflag Ht Hf. constructor; simpl; try constructor; try apply Hf.
  - by apply elem_of_nil in H.
  - by apply elem_of_nil in H.
  - apply lookup_singleton_Some in H as [_ <-]. simpl. lia.
  - apply lookup_singleton_Some in H as [_ <-]. by destruct Hflag as [->| ->].
Qed.

Lemma running_timer_ok r now : 0 <= r < HALF -> fits 32 now -> queue_ok 0 (running_timer r now) [(1, r)].
Proof.
  intros Hr Hf. constructor; simpl; try done.
  - apply NoDup_singleton.
  - repeat constructor.
  - intros t x H. apply list_elem_of_singleton in H as [= -> ->]. split; [done|].
    eexists. by rewrite lookup_singleton_eq.
  - intros t x [<- <-]%lookup_singleton_Some. simpl. split_and!; try lia; done.
Qed.

Lemma timer_on_time_witness :
  schedule (Some 3) (2 ^ 32 - 2) 3 10 = [1; 4; 7] /\
  wp (rt_timer_start 1 ;;; run_ticks quiet_function 5 10)
    (fun _ s' => rings_of 1 (calls s') = [] ++ schedule (Some 3) (2 ^ 32 - 2) 3 10)
    (stopped_timer 4 3 (2 ^ 32 - 2)).
Proof.
  split; [vm_compute; reflexivity|].
  apply (timer_on_time quiet_function 5 10 (stopped_timer 4 3 (2 ^ 32 - 2)) [] 1
           (Timer RT_Object_Class_Timer 4 7 9 3 0)); try done.
  - apply stopped_timer_ok; [by right|unfold HALF; lia|done].
  - intros t x Hx. simpl in Hx. by apply lookup_singleton_Some in Hx as [<- <-].
  - simpl. lia.
Defined.

Lemma zero_period_spins_witness :
  (rt_timer_start 1 ;;; rt_tick_increase quiet_function 1000) (stopped_timer 4 0 0) = Err Spin.
Proof.
  apply (zero_period_spins quiet_function 1000 (stopped_timer 4 0 0) [] 1
           (Timer RT_Object_Class_Timer 4 7 9 0 0)); try done.
  apply stopped_timer_ok; [by right|unfold HALF; lia|done].
Defined.

Lemma delete_in_callback_witness :
  rt_tick_increase (fun _ _ => rt_timer_delete 1 ;;; mret tt) 1 (running_timer 1 0) = Err OutOfBounds.
Proof.
  apply (delete_in_callback 0 (running_timer 1 0) [] 1 1 (Timer RT_Object_Class_Timer 1 7 9 1 (u32 (0 + 1))));
    try done.
  apply running_timer_ok; [unfold HALF; lia|done].
Defined.
