(* ===== verification/Sfud.v ===== *)
(** The serial flash on which the file system lies: the flash driver SFUD
    ([sfud/src/sfud.c], [sfud_sfdp.c]) over the SPI transfers of [spi_flash_sfud.c].

    The chip and its bus are not code of the repository: they are a parameter, [spi_bus], and
    what their data sheet promises is the class [NorFlash].  The theorems hold for every bus that
    keeps the promise, those about locks for every bus at all.  The debug assertions are empty in
    this configuration; the quad modes are switched off. *)

From S2P Require Import Prelude.
#[local] Open Scope Z_scope.

(** ** Data *)

Definition SFUD_SUCCESS : Z := 0.
Definition SFUD_ERR_NOT_FOUND : Z := 1.
Definition SFUD_ERR_WRITE : Z := 2.
Definition SFUD_ERR_TIMEOUT : Z := 4.
Definition SFUD_ERR_ADDR_OUT_OF_BOUND : Z := 5.

Definition SFUD_CMD_WRITE_ENABLE : Z := 6.
Definition SFUD_CMD_WRITE_DISABLE : Z := 4.
Definition SFUD_CMD_READ_STATUS_REGISTER : Z := 5.
Definition SFUD_VOLATILE_SR_WRITE_ENABLE : Z := 80.
Definition SFUD_CMD_WRITE_STATUS_REGISTER : Z := 1.
Definition SFUD_CMD_PAGE_PROGRAM : Z := 2.
Definition SFUD_CMD_AAI_WORD_PROGRAM : Z := 173.
Definition SFUD_CMD_ERASE_CHIP : Z := 199.
Definition SFUD_CMD_READ_DATA : Z := 3.
Definition SFUD_CMD_JEDEC_ID : Z := 159.
Definition SFUD_CMD_READ_SFDP_REGISTER : Z := 90.
Definition SFUD_CMD_ENABLE_RESET : Z := 102.
Definition SFUD_CMD_RESET : Z := 153.
Definition SFUD_CMD_ENTER_4B_ADDRESS_MODE : Z := 183.
Definition SFUD_CMD_EXIT_4B_ADDRESS_MODE : Z := 233.
Definition SFUD_DUMMY_DATA : Z := 255.

Definition SFUD_WM_PAGE_256B : Z := 1.
Definition SFUD_WM_BYTE : Z := 2.
Definition SFUD_WM_AAI : Z := 4.
Definition SFUD_WM_DUAL_BUFFER : Z := 8.

Record eraser := Eraser { eraser_size : Z; eraser_cmd : Z }.

Record sfud_sfdp := Sfdp {
  available : bool;
  major_rev : Z;
  minor_rev : Z;
  write_gran : Z;
  erase_4k : bool;
  erase_4k_cmd : Z;
  sr_is_non_vola : bool;
  vola_sr_we_cmd : Z;
  addr_3_byte : bool;
  addr_4_byte : bool;
  sfdp_capacity : Z;
  erasers : list eraser;       (* SFUD_SFDP_ERASE_TYPE_MAX_NUM of them *)
}.

Record sfud_flash_chip := Chip {
  chip_name : option string;
  mf_id : Z;
  type_id : Z;
  capacity_id : Z;
  capacity : Z;
  write_mode : Z;
  erase_gran : Z;
  erase_gran_cmd : Z;
}.

Record sfud_flash := Flash {
  chip : sfud_flash_chip;
  init_ok : bool;
  addr_in_4_byte : bool;
  retry_times : Z;
  sfdp : sfud_sfdp;
}.

(** ** The SPI transfers: [rt_spi_send_then_recv], [rt_spi_send], [rt_spi_recv] *)

Record spi_bus (C : Type) := SpiBus {
  rt_spi_send_then_recv : bytes -> Z -> C -> Z * bytes * C;
  rt_spi_send : bytes -> C -> Z * C;
  rt_spi_recv : Z -> C -> Z * bytes * C;
}.
Arguments rt_spi_send_then_recv {C} s.
Arguments rt_spi_send {C} s.
Arguments rt_spi_recv {C} s.

Record flash_st (C : Type) := FlashSt {
  hw : C;
  flash : sfud_flash;
  lock_depth : Z;       (* the mutex of the SPI device, taken by this thread *)
  delays : Z;           (* waits of 100 microseconds so far *)
}.
Arguments FlashSt {C}.
Arguments hw {C} f.
Arguments flash {C} f.
Arguments lock_depth {C} f.
Arguments delays {C} f.

Section sfud.
Context {C : Type} (bus : spi_bus C).
Implicit Types s : flash_st C.

Definition set_hw (c : C) (s : flash_st C) : flash_st C := FlashSt c (flash s) (lock_depth s) (delays s).
Definition set_flash (f : sfud_flash) : M (flash_st C) unit :=
  modify (fun s => FlashSt (hw s) f (lock_depth s) (delays s)).
Definition spi_lock : M (flash_st C) unit :=
  modify (fun s => FlashSt (hw s) (flash s) (lock_depth s + 1) (delays s)).
Definition spi_unlock : M (flash_st C) unit :=
  modify (fun s => FlashSt (hw s) (flash s) (lock_depth s - 1) (delays s)).
Definition retry_delay_100us : M (flash_st C) unit :=
  modify (fun s => FlashSt (hw s) (flash s) (lock_depth s) (delays s + 1)).

(** [spi->wr]: the result and the bytes read. *)
Definition spi_write_read (out : bytes) (read_size : Z) : M (flash_st C) (Z * bytes) := fun s =>
  if (0 <? Zlen out) && (0 <? read_size) then
    let '(r, b, c) := rt_spi_send_then_recv bus out read_size (hw s) in
    Ok ((if r =? RT_EOK then SFUD_SUCCESS else SFUD_ERR_TIMEOUT, b), set_hw c s)
  else if 0 <? Zlen out then
    let '(r, c) := rt_spi_send bus out (hw s) in
    Ok ((if r <=? 0 then SFUD_ERR_TIMEOUT else SFUD_SUCCESS, []), set_hw c s)
  else
    let '(r, b, c) := rt_spi_recv bus read_size (hw s) in
    Ok ((if r <=? 0 then SFUD_ERR_TIMEOUT else SFUD_SUCCESS, b), set_hw c s).
Definition wr (out : bytes) : M (flash_st C) Z := r ← spi_write_read out 0; mret r.1.

(** ** Registers *)

(** The status is only used after a success. *)
Definition sfud_read_status : M (flash_st C) (Z * Z) :=
  r ← spi_write_read [SFUD_CMD_READ_STATUS_REGISTER] 1;
  mret (r.1, u8 (hd 0 r.2)).

Definition status_busy (st : Z) : bool := negb (Z.land st 1 =? 0).
Definition status_wel (st : Z) : bool := negb (Z.land st 2 =? 0).

(** The loop of [wait_busy], with the retries that are left. *)
Fixpoint wait_loop (retry : nat) : M (flash_st C) Z :=
  r ← sfud_read_status;
  if (r.1 =? SFUD_SUCCESS) && negb (status_busy r.2) then mret r.1 else
  match retry with
  | O => mret SFUD_ERR_TIMEOUT
  | S retry => retry_delay_100us ;;; wait_loop retry
  end.

Definition wait_busy : M (flash_st C) Z :=
  f ← gets flash;
  wait_loop (Z.to_nat (retry_times f)).

Definition set_write_enabled (enabled : bool) : M (flash_st C) Z :=
  result ← wr [if enabled then SFUD_CMD_WRITE_ENABLE else SFUD_CMD_WRITE_DISABLE];
  if negb (result =? SFUD_SUCCESS) then mret result else
  r ← sfud_read_status;
  if negb (r.1 =? SFUD_SUCCESS) then mret r.1 else
  if enabled && negb (status_wel r.2) then mret SFUD_ERR_WRITE
  else if negb enabled && status_wel r.2 then mret SFUD_ERR_WRITE
  else mret r.1.

(** The address, the high byte first. *)
Definition make_address_byte_array (f : sfud_flash) (addr : Z) : bytes :=
  let len := if addr_in_4_byte f then 4 else 3 in
  map (fun i => Z.land (Z.shiftr addr ((len - (i + 1)) * 8)) 255) (seqZ 0 len).

Definition set_4_byte_address_mode (enabled : bool) : M (flash_st C) Z :=
  result ← set_write_enabled true;
  if negb (result =? SFUD_SUCCESS) then mret result else
  result ← wr [if enabled then SFUD_CMD_ENTER_4B_ADDRESS_MODE else SFUD_CMD_EXIT_4B_ADDRESS_MODE];
  if negb (result =? SFUD_SUCCESS) then mret result else
  f ← gets flash;
  set_flash (Flash (chip f) (init_ok f) enabled (retry_times f) (sfdp f)) ;;;
  mret result.

Definition sfud_write_status (is_volatile : bool) (status : Z) : M (flash_st C) Z :=
  result ← (if is_volatile then wr [SFUD_VOLATILE_SR_WRITE_ENABLE] else set_write_enabled true);
  if negb (result =? SFUD_SUCCESS) then mret result else
  wr [SFUD_CMD_WRITE_STATUS_REGISTER; status].

Definition reset : M (flash_st C) Z :=
  result ← wr [SFUD_CMD_ENABLE_RESET];
  if negb (result =? SFUD_SUCCESS) then mret result else
  wait_busy ;;;                          (* its result is overwritten *)
  result ← wr [SFUD_CMD_RESET];
  if negb (result =? SFUD_SUCCESS) then mret result else
  wait_busy.

(** ** Reading *)

Definition sfud_read (addr size : Z) : M (flash_st C) (Z * bytes) :=
  f ← gets flash;
  if capacity (chip f) <? u32 (addr + size) then mret (SFUD_ERR_ADDR_OUT_OF_BOUND, []) else
  spi_lock ;;;
  result ← wait_busy;
  r ← (if result =? SFUD_SUCCESS
       then spi_write_read (SFUD_CMD_READ_DATA :: make_address_byte_array f addr) size
       else mret (result, []));
  spi_unlock ;;;
  mret r.

(** ** Erasing *)

(** The label [__exit] of the functions that write. *)
Definition exit_write (result : Z) : M (flash_st C) Z :=
  set_write_enabled false ;;;
  spi_unlock ;;;
  mret result.

Definition sfud_chip_erase : M (flash_st C) Z :=
  f ← gets flash;
  spi_lock ;;;
  result ← set_write_enabled true;
  if negb (result =? SFUD_SUCCESS) then exit_write result else
  result ← wr (if negb (Z.land (write_mode (chip f)) SFUD_WM_DUAL_BUFFER =? 0)
               then [SFUD_CMD_ERASE_CHIP; 148; 128; 154] else [SFUD_CMD_ERASE_CHIP]);
  if negb (result =? SFUD_SUCCESS) then exit_write result else
  result ← wait_busy;
  exit_write result.

(** The search of [sfud_sfdp_get_suitable_eraser], from the end of the table. *)
Fixpoint eraser_search (l : list eraser) (addr erase_size : Z) (i : nat) : nat :=
  match l !! i with
  | Some e =>
      if negb (eraser_size e =? 0) && (eraser_size e <=? erase_size) && (addr mod eraser_size e =? 0)
      then i
      else match i with O => O | S i => eraser_search l addr erase_size i end
  | None => O
  end.

(** The eraser itself; the remainder by 0 has no meaning. *)
Definition sfud_sfdp_get_suitable_eraser (p : sfud_sfdp) (addr erase_size : Z) : res eraser :=
  smallest ← aget (erasers p) 0;
  if eraser_size smallest =? 0 then Err Unspecified else
  if negb (addr mod eraser_size smallest =? 0) then Ok smallest
  else aget (erasers p) (Z.of_nat (eraser_search (erasers p) addr erase_size 3)).

(** Every turn makes the size smaller. *)
Fixpoint erase_loop (fuel : nat) (addr size : Z) : M (flash_st C) Z :=
  match fuel with
  | O => throw Spin
  | S fuel =>
      if size =? 0 then mret SFUD_SUCCESS else
      f ← gets flash;
      e ← (if available (sfdp f) then lift (sfud_sfdp_get_suitable_eraser (sfdp f) addr size)
           else mret (Eraser (erase_gran (chip f)) (erase_gran_cmd (chip f))));
      result ← set_write_enabled true;
      if negb (result =? SFUD_SUCCESS) then mret result else
      result ← wr (eraser_cmd e :: make_address_byte_array f addr);
      if negb (result =? SFUD_SUCCESS) then mret result else
      result ← wait_busy;
      if negb (result =? SFUD_SUCCESS) then mret result else
      let g := eraser_size e in
      if g =? 0 then throw Unspecified else
      if negb (addr mod g =? 0) then
        if g - addr mod g <? size
        then erase_loop fuel (u32 (addr + (g - addr mod g))) (size - (g - addr mod g))
        else mret result
      else
        if g <? size then erase_loop fuel (u32 (addr + g)) (size - g)
        else mret result
  end.

Definition sfud_erase (addr size : Z) : M (flash_st C) Z :=
  f ← gets flash;
  if capacity (chip f) <? u32 (addr + size) then mret SFUD_ERR_ADDR_OUT_OF_BOUND else
  if (addr =? 0) && (size =? capacity (chip f)) then sfud_chip_erase else
  spi_lock ;;;
  result ← erase_loop (S (Z.to_nat size)) addr size;
  exit_write result.

(** ** Writing *)

(** How much of the data goes into one command. *)
Definition chunk_size (write_gran addr size : Z) : Z :=
  if negb (addr mod write_gran =? 0) then
    if write_gran - addr mod write_gran <? size then write_gran - addr mod write_gran else size
  else if write_gran <? size then write_gran else size.

(** Every turn makes the size smaller; [data] is the data that is left. *)
Fixpoint write_loop (fuel : nat) (write_gran addr size : Z) (data : bytes) : M (flash_st C) Z :=
  match fuel with
  | O => throw Spin
  | S fuel =>
      if size =? 0 then mret SFUD_SUCCESS else
      f ← gets flash;
      result ← set_write_enabled true;
      if negb (result =? SFUD_SUCCESS) then mret result else
      let n := chunk_size write_gran addr size in
      chunk ← lift (slice data 0 n);
      result ← wr (SFUD_CMD_PAGE_PROGRAM :: make_address_byte_array f addr ++ chunk);
      if negb (result =? SFUD_SUCCESS) then mret result else
      result ← wait_busy;
      if negb (result =? SFUD_SUCCESS) then mret result else
      write_loop fuel write_gran (u32 (addr + n)) (size - n) (drop (Z.to_nat n) data)
  end.

Definition page256_or_1_byte_write (addr size write_gran : Z) (data : bytes) : M (flash_st C) Z :=
  f ← gets flash;
  if capacity (chip f) <? u32 (addr + size) then mret SFUD_ERR_ADDR_OUT_OF_BOUND else
  spi_lock ;;;
  result ← write_loop (S (Z.to_nat size)) write_gran addr size data;
  exit_write result.

(** The loop of [aai_write]: two bytes a turn; the result, and the address, the size and the
    data that are left. *)
Fixpoint aai_loop (fuel : nat) (first : bool) (addr size : Z) (data : bytes) :
    M (flash_st C) (Z * Z * Z * bytes) :=
  match fuel with
  | O => throw Spin
  | S fuel =>
      if size <? 2 then mret (SFUD_SUCCESS, addr, size, data) else
      f ← gets flash;
      pair ← lift (slice data 0 2);
      result ← wr (SFUD_CMD_AAI_WORD_PROGRAM ::
                   (if first then make_address_byte_array f addr else []) ++ pair);
      if negb (result =? SFUD_SUCCESS) then mret (result, addr, size, data) else
      result ← wait_busy;
      if negb (result =? SFUD_SUCCESS) then mret (result, addr, size, data) else
      aai_loop fuel false (u32 (addr + 2)) (size - 2) (drop 2 data)
  end.

Definition aai_write (addr size : Z) (data : bytes) : M (flash_st C) Z :=
  let leave result :=
    (if negb (result =? SFUD_SUCCESS) then set_write_enabled false ;;; mret tt else mret tt) ;;;
    spi_unlock ;;; mret result in
  f ← gets flash;
  if capacity (chip f) <? u32 (addr + size) then mret SFUD_ERR_ADDR_OUT_OF_BOUND else
  spi_lock ;;;
  let odd := negb (addr mod 2 =? 0) in
  result ← (if odd then page256_or_1_byte_write addr 1 1 data else mret SFUD_SUCCESS);
  if negb (result =? SFUD_SUCCESS) then leave result else
  let '(addr, size, data) :=
    if odd then (u32 (addr + 1), u32 (size - 1), drop 1 data) else (addr, size, data) in
  result ← set_write_enabled true;
  if negb (result =? SFUD_SUCCESS) then leave result else
  r ← aai_loop (S (Z.to_nat size)) true addr size data;
  let '(result, addr, size, data) := r in
  if negb (result =? SFUD_SUCCESS) then leave result else
  result ← set_write_enabled false;
  result ← (if (result =? SFUD_SUCCESS) && (size =? 1)
            then page256_or_1_byte_write addr 1 1 data else mret result);
  leave result.

Definition sfud_write (addr size : Z) (data : bytes) : M (flash_st C) Z :=
  f ← gets flash;
  let mode := write_mode (chip f) in
  if negb (Z.land mode SFUD_WM_PAGE_256B =? 0) then page256_or_1_byte_write addr size 256 data
  else if negb (Z.land mode SFUD_WM_AAI =? 0) then aai_write addr size data
  else mret SFUD_SUCCESS.              (* the other modes write nothing *)

Definition sfud_erase_write (addr size : Z) (data : bytes) : M (flash_st C) Z :=
  result ← sfud_erase addr size;
  if result =? SFUD_SUCCESS then sfud_write addr size data else mret result.
End sfud.

(** ** The parameter table of the chip *)

Definition BASIC_TABLE_LEN : Z := 9.
Definition SUPPORT_MAX_SFDP_MAJOR_REV : Z := 1.

(** Bits [lo .. hi] of a byte of the table. *)
Definition bits (b lo n : Z) : Z := Z.land (Z.shiftr b lo) (Z.ones n).

Definition no_eraser : eraser := Eraser 0 0.

(** [1L << n], for a long of 32 bits. *)
Definition long_shift (n : Z) : res Z :=
  if (n <? 0) || (31 <? n) then Err Unspecified else Ok (u32 (Z.shiftl 1 n)).

(** The erasers of the table, in its order and packed to the front. *)
Fixpoint table_erasers (table : bytes) (idx : list Z) (l : list eraser) (j : Z) : res (list eraser) :=
  match idx with
  | [] => Ok l
  | i :: idx =>
      n ← aget table (28 + 2 * i);
      if n =? 0 then table_erasers table idx l j else
      cmd ← aget table (28 + 2 * i + 1);
      size ← long_shift n;
      l ← aset l j (Eraser size cmd);
      table_erasers table idx l (j + 1)
  end.

(** One comparison of the sort. *)
Definition sort_step (i : Z) (l : list eraser) (j : Z) : res (list eraser) :=
  a ← aget l i;
  b ← aget l j;
  if negb (eraser_size b =? 0) && (eraser_size b <? eraser_size a)
  then l ← aset l i b; aset l j a
  else Ok l.

Fixpoint sort_row (i : Z) (js : list Z) (l : list eraser) : res (list eraser) :=
  match js with
  | [] => Ok l
  | j :: js => l ← sort_step i l j; sort_row i js l
  end.

Fixpoint sort_erasers (idx : list Z) (l : list eraser) : res (list eraser) :=
  match idx with
  | [] => Ok l
  | i :: idx =>
      a ← aget l i;
      l ← (if eraser_size a =? 0 then Ok l else sort_row i (seqZ (i + 1) (4 - (i + 1))) l);
      sort_erasers idx l
  end.

Definition sfdp_erase (p : sfud_sfdp) (e4k : bool) (cmd : Z) : sfud_sfdp :=
  Sfdp (available p) (major_rev p) (minor_rev p) (write_gran p) e4k cmd (sr_is_non_vola p)
    (vola_sr_we_cmd p) (addr_3_byte p) (addr_4_byte p) (sfdp_capacity p) (erasers p).
Definition sfdp_write (p : sfud_sfdp) (gran : Z) (non_vola : bool) (we : Z) : sfud_sfdp :=
  Sfdp (available p) (major_rev p) (minor_rev p) gran (erase_4k p) (erase_4k_cmd p) non_vola we
    (addr_3_byte p) (addr_4_byte p) (sfdp_capacity p) (erasers p).
Definition sfdp_addr (p : sfud_sfdp) (a3 a4 : bool) : sfud_sfdp :=
  Sfdp (available p) (major_rev p) (minor_rev p) (write_gran p) (erase_4k p) (erase_4k_cmd p)
    (sr_is_non_vola p) (vola_sr_we_cmd p) a3 a4 (sfdp_capacity p) (erasers p).
Definition sfdp_size (p : sfud_sfdp) (cap : Z) : sfud_sfdp :=
  Sfdp (available p) (major_rev p) (minor_rev p) (write_gran p) (erase_4k p) (erase_4k_cmd p)
    (sr_is_non_vola p) (vola_sr_we_cmd p) (addr_3_byte p) (addr_4_byte p) cap (erasers p).
Definition sfdp_done (p : sfud_sfdp) (l : list eraser) : sfud_sfdp :=
  Sfdp true (major_rev p) (minor_rev p) (write_gran p) (erase_4k p) (erase_4k_cmd p)
    (sr_is_non_vola p) (vola_sr_we_cmd p) (addr_3_byte p) (addr_4_byte p) (sfdp_capacity p) l.

(** The capacity: in bits less one, or as a power of two when bit 31 is set. *)
Definition table_capacity (dword : Z) : res (option Z) :=
  if Z.testbit dword 31 then
    let n := Z.land dword 2147483647 in
    if 35 <? n then Ok None
    else Some <$> long_shift (if n <? 3 then -1 else n - 3)
  else Ok (Some (u32 (1 + Z.shiftr dword 3))).

(** [read_basic_table], after the table has been read; false at an error, with what has been
    stored so far. *)
Definition parse_basic_table (p : sfud_sfdp) (table : bytes) : res (sfud_sfdp * bool) :=
  t0 ← aget table 0;
  t1 ← aget table 1;
  t2 ← aget table 2;
  let e4k := bits t0 0 2 in
  if negb (e4k =? 1) && negb (e4k =? 3) then Ok (sfdp_erase p (erase_4k p) t1, false) else
  let p := sfdp_erase p (e4k =? 1) t1 in
  let vola := bits t0 3 1 =? 1 in
  let p := sfdp_write p (if bits t0 2 1 =? 0 then 1 else 256) (negb vola)
             (if vola then (if bits t0 4 1 =? 0 then SFUD_VOLATILE_SR_WRITE_ENABLE
                            else SFUD_CMD_WRITE_ENABLE) else vola_sr_we_cmd p) in
  let a := bits t2 1 2 in
  let p := sfdp_addr p ((a =? 0) || (a =? 1)) ((a =? 1) || (a =? 2)) in
  if a =? 3 then Ok (p, false) else
  b4 ← aget table 4;
  b5 ← aget table 5;
  b6 ← aget table 6;
  b7 ← aget table 7;
  cap ← table_capacity (Z.lor (Z.lor (Z.shiftl b7 24) (Z.shiftl b6 16)) (Z.lor (Z.shiftl b5 8) b4));
  match cap with
  | None => Ok (sfdp_size p 0, false)
  | Some cap =>
      let p := sfdp_size p cap in
      l ← table_erasers table (seqZ 0 4) (erasers p) 0;
      l ← sort_erasers (seqZ 0 4) l;
      Ok (sfdp_done p l, true)
  end.

Section sfud_init.
Context {C : Type} (bus : spi_bus C).

Definition set_sfdp (p : sfud_sfdp) : M (flash_st C) unit :=
  f ← gets flash;
  set_flash (Flash (chip f) (init_ok f) (addr_in_4_byte f) (retry_times f) p).
Definition set_chip (c : sfud_flash_chip) : M (flash_st C) unit :=
  f ← gets flash;
  set_flash (Flash c (init_ok f) (addr_in_4_byte f) (retry_times f) (sfdp f)).

Definition read_sfdp_data (addr size : Z) : M (flash_st C) (Z * bytes) :=
  spi_write_read bus
    [SFUD_CMD_READ_SFDP_REGISTER; Z.land (Z.shiftr addr 16) 255; Z.land (Z.shiftr addr 8) 255;
     Z.land addr 255; SFUD_DUMMY_DATA] size.

Definition read_sfdp_header : M (flash_st C) bool :=
  f ← gets flash;
  let p := sfdp f in
  set_sfdp (Sfdp false (major_rev p) (minor_rev p) (write_gran p) (erase_4k p) (erase_4k_cmd p)
    (sr_is_non_vola p) (vola_sr_we_cmd p) (addr_3_byte p) (addr_4_byte p) (sfdp_capacity p)
    (erasers p)) ;;;
  r ← read_sfdp_data 0 8;
  if negb (r.1 =? SFUD_SUCCESS) then mret false else
  h ← lift (slice r.2 0 8);
  if negb (bool_decide (take 4 h = [83; 70; 68; 80])) then mret false else
  minor ← lift (aget h 4);
  major ← lift (aget h 5);
  set_sfdp (Sfdp false major minor (write_gran p) (erase_4k p) (erase_4k_cmd p)
    (sr_is_non_vola p) (vola_sr_we_cmd p) (addr_3_byte p) (addr_4_byte p) (sfdp_capacity p)
    (erasers p)) ;;;
  mret (negb (SUPPORT_MAX_SFDP_MAJOR_REV <? major)).

(** The place of the table, when the header is good. *)
Definition read_basic_header : M (flash_st C) (option Z) :=
  r ← read_sfdp_data 8 8;
  if negb (r.1 =? SFUD_SUCCESS) then mret None else
  h ← lift (slice r.2 0 8);
  major ← lift (aget h 2);
  len ← lift (aget h 3);
  b4 ← lift (aget h 4);
  b5 ← lift (aget h 5);
  b6 ← lift (aget h 6);
  if SUPPORT_MAX_SFDP_MAJOR_REV <? major then mret None else
  if len <? BASIC_TABLE_LEN then mret None else
  mret (Some (Z.lor (Z.lor b4 (Z.shiftl b5 8)) (Z.shiftl b6 16))).

Definition read_basic_table (table_addr : Z) : M (flash_st C) bool :=
  r ← read_sfdp_data table_addr (BASIC_TABLE_LEN * 4);
  if negb (r.1 =? SFUD_SUCCESS) then mret false else
  f ← gets flash;
  table ← lift (slice r.2 0 36);
  q ← lift (parse_basic_table (sfdp f) table);
  set_sfdp q.1 ;;;
  mret q.2.

Definition sfud_read_sfdp : M (flash_st C) bool :=
  b ← read_sfdp_header;
  if negb b then mret false else
  h ← read_basic_header;
  match h with
  | None => mret false
  | Some a => read_basic_table a
  end.

(** ** Initialisation *)

Definition read_jedec_id : M (flash_st C) Z :=
  r ← spi_write_read bus [SFUD_CMD_JEDEC_ID] 3;
  if negb (r.1 =? SFUD_SUCCESS) then mret r.1 else
  b ← lift (slice r.2 0 3);
  f ← gets flash;
  b0 ← lift (aget b 0);
  b1 ← lift (aget b 1);
  b2 ← lift (aget b 2);
  let c := chip f in
  set_chip (Chip (chip_name c) b0 b1 b2 (capacity c) (write_mode c) (erase_gran c) (erase_gran_cmd c)) ;;;
  mret r.1.

(** The smallest eraser, as [hardware_init] looks for it. *)
Fixpoint smallest_eraser (l : list eraser) (e : eraser) : eraser :=
  match l with
  | [] => e
  | x :: l =>
      smallest_eraser l (if negb (eraser_size x =? 0) && (eraser_size x <? eraser_size e) then x else e)
  end.

Definition chip_of_sfdp (c : sfud_flash_chip) (p : sfud_sfdp) : res sfud_flash_chip :=
  e ← aget (erasers p) 0;
  let e := smallest_eraser (drop 1 (erasers p)) e in
  Ok (Chip None (mf_id c) (type_id c) (capacity_id c) (sfdp_capacity p)
        (if write_gran p =? 1 then SFUD_WM_BYTE else SFUD_WM_PAGE_256B)
        (eraser_size e) (eraser_cmd e)).

(** [SFUD_FLASH_CHIP_TABLE]. *)
Definition SFUD_MF_ID_CYPRESS : Z := 1.
Definition SFUD_MF_ID_EON : Z := 28.
Definition SFUD_MF_ID_ATMEL : Z := 31.
Definition SFUD_MF_ID_MICRON : Z := 32.
Definition SFUD_MF_ID_AMIC : Z := 55.
Definition SFUD_MF_ID_NOR_MEM : Z := 82.
Definition SFUD_MF_ID_ESMT : Z := 140.
Definition SFUD_MF_ID_SST : Z := 191.
Definition SFUD_MF_ID_GIGADEVICE : Z := 200.
Definition SFUD_MF_ID_WINBOND : Z := 239.

Definition flash_chip_table : list sfud_flash_chip :=
  let K := 1024 in
  let M := K * K in
  let page name mf ty cap size := Chip (Some name) mf ty cap size SFUD_WM_PAGE_256B 4096 32 in
  let big name mf ty cap size := Chip (Some name) mf ty cap size SFUD_WM_PAGE_256B (64 * K) 216 in
  let aai name mf ty cap size := Chip (Some name) mf ty cap size (Z.lor SFUD_WM_BYTE SFUD_WM_AAI) 4096 32 in
  [Chip (Some "AT45DB161E"%string) SFUD_MF_ID_ATMEL 38 0 (2 * M) (Z.lor SFUD_WM_BYTE SFUD_WM_DUAL_BUFFER) 512 129;
   page "W25Q40BV"%string SFUD_MF_ID_WINBOND 64 19 (512 * K);
   page "W25X40CL"%string SFUD_MF_ID_WINBOND 48 19 (512 * K);
   page "W25X16AV"%string SFUD_MF_ID_WINBOND 48 21 (2 * M);
   page "W25Q16BV"%string SFUD_MF_ID_WINBOND 64 21 (2 * M);
   page "W25Q32BV"%string SFUD_MF_ID_WINBOND 64 22 (4 * M);
   page "W25Q64CV"%string SFUD_MF_ID_WINBOND 64 23 (8 * M);
   page "W25Q64DW"%string SFUD_MF_ID_WINBOND 96 23 (8 * M);
   page "W25Q128BV"%string SFUD_MF_ID_WINBOND 64 24 (16 * M);
   page "W25Q256FV"%string SFUD_MF_ID_WINBOND 64 25 (32 * M);
   aai "SST25VF080B"%string SFUD_MF_ID_SST 37 142 (1 * M);
   aai "SST25VF016B"%string SFUD_MF_ID_SST 37 65 (2 * M);
   big "M25P32"%string SFUD_MF_ID_MICRON 32 22 (4 * M);
   big "M25P80"%string SFUD_MF_ID_MICRON 32 20 (1 * M);
   big "M25P40"%string SFUD_MF_ID_MICRON 32 19 (512 * K);
   page "EN25Q32B"%string SFUD_MF_ID_EON 48 22 (4 * M);
   page "GD25Q64B"%string SFUD_MF_ID_GIGADEVICE 64 23 (8 * M);
   page "GD25Q16B"%string SFUD_MF_ID_GIGADEVICE 64 21 (2 * M);
   page "GD25Q32C"%string SFUD_MF_ID_GIGADEVICE 64 22 (4 * M);
   page "S25FL216K"%string SFUD_MF_ID_CYPRESS 64 21 (2 * M);
   page "S25FL032P"%string SFUD_MF_ID_CYPRESS 2 21 (4 * M);
   page "A25L080"%string SFUD_MF_ID_AMIC 48 20 (1 * M);
   aai "F25L004"%string SFUD_MF_ID_ESMT 32 19 (512 * K);
   aai "PCT25VF016B"%string SFUD_MF_ID_SST 37 65 (2 * M);
   page "NM25Q128EVB"%string SFUD_MF_ID_NOR_MEM 33 24 (16 * M)].

Definition same_id (c d : sfud_flash_chip) : bool :=
  (mf_id c =? mf_id d) && (type_id c =? type_id d) && (capacity_id c =? capacity_id d).

Definition chip_of_table (c : sfud_flash_chip) : sfud_flash_chip :=
  match List.find (same_id c) flash_chip_table with
  | Some d => Chip (chip_name d) (mf_id c) (type_id c) (capacity_id c) (capacity d) (write_mode d)
                (erase_gran d) (erase_gran_cmd d)
  | None => c
  end.

Definition chip_missing (c : sfud_flash_chip) : bool :=
  (capacity c =? 0) || (write_mode c =? 0) || (erase_gran c =? 0) || (erase_gran_cmd c =? 0).

(** [sfud_spi_port_init]: one minute of waits. *)
Definition sfud_spi_port_init : M (flash_st C) Z :=
  f ← gets flash;
  set_flash (Flash (chip f) (init_ok f) (addr_in_4_byte f) (60 * 10000) (sfdp f)) ;;;
  mret SFUD_SUCCESS.

(** Which chip it is. *)
Definition identify : M (flash_st C) Z :=
  f ← gets flash;
  if negb (chip_missing (chip f)) then mret SFUD_SUCCESS else
  result ← read_jedec_id;
  if negb (result =? SFUD_SUCCESS) then mret result else
  ok ← sfud_read_sfdp;
  f ← gets flash;
  (if ok : bool then c ← lift (chip_of_sfdp (chip f) (sfdp f)); set_chip c
   else set_chip (chip_of_table (chip f))) ;;;
  mret SFUD_SUCCESS.

Definition hardware_init : M (flash_st C) Z :=
  result ← sfud_spi_port_init;
  if negb (result =? SFUD_SUCCESS) then mret result else
  result ← identify;
  if negb (result =? SFUD_SUCCESS) then mret result else
  f ← gets flash;
  if chip_missing (chip f) then mret SFUD_ERR_NOT_FOUND else
  result ← reset bus;
  if negb (result =? SFUD_SUCCESS) then mret result else
  let c := chip f in
  result ← (if negb (Z.land (write_mode c) SFUD_WM_AAI =? 0) then sfud_write_status bus true 0
            else if (mf_id c =? 194) && (type_id c =? 32) && (capacity_id c =? 22)
            then sfud_write_status bus false 0 else mret result);
  if negb (result =? SFUD_SUCCESS) then mret result else
  if 2 ^ 24 <? capacity c then set_4_byte_address_mode bus true
  else
    f ← gets flash;
    set_flash (Flash (chip f) (init_ok f) false (retry_times f) (sfdp f)) ;;;
    mret result.

Definition sfud_device_init : M (flash_st C) Z :=
  result ← hardware_init;
  f ← gets flash;
  set_flash (Flash (chip f) (result =? SFUD_SUCCESS) (addr_in_4_byte f) (retry_times f) (sfdp f)) ;;;
  mret result.
End sfud_init.

(** ** The bus is always given back *)

Create HintDb locks.

Section locks.
Context {C : Type} (bus : spi_bus C).

(** Code that takes the lock [d] times more often than it gives it back. *)
Definition locks {A} (d : Z) (m : M (flash_st C) A) : Prop :=
  forall s, wlp m (fun _ s' => lock_depth s' = lock_depth s + d) s.

Lemma locks_ret {A} (a : A) : locks 0 (mret a).
Proof. intros s. unfold wlp. simpl. lia. Qed.

Lemma locks_bind {A B} d e (m : M (flash_st C) A) (k : A -> M (flash_st C) B) :
  locks d m -> (forall a, locks e (k a)) -> locks (d + e) (m ≫= k).
Proof.
  intros Hm Hk s. apply wlp_bind. eapply wlp_mono; [apply Hm|]. intros a s' H. simpl.
  eapply wlp_mono; [apply Hk|]. intros b s'' H'. simpl in *. lia.
Qed.

Lemma locks_bind0 {A B} d (m : M (flash_st C) A) (k : A -> M (flash_st C) B) :
  locks 0 m -> (forall a, locks d (k a)) -> locks d (m ≫= k).
Proof. intros Hm Hk. replace d with (0 + d) by lia. by apply locks_bind. Qed.

Lemma locks_lift {A} (r : res A) : locks 0 (lift r).
Proof. intros s. apply wlp_lift. intros a _. lia. Qed.

Lemma locks_throw {A} f d : locks (A := A) d (throw f).
Proof. done. Qed.

Lemma locks_gets {A} (g : flash_st C -> A) : locks 0 (gets g).
Proof. intros s. unfold wlp. simpl. lia. Qed.

Lemma locks_set_flash f : locks 0 (set_flash f).
Proof. intros s. unfold wlp. simpl. lia. Qed.

Lemma locks_delay : locks 0 retry_delay_100us.
Proof. intros s. unfold wlp. simpl. lia. Qed.

Lemma locks_lock : locks 1 spi_lock.
Proof. done. Qed.

Lemma locks_unlock : locks (-1) spi_unlock.
Proof. done. Qed.

Lemma locks_write_read out n : locks 0 (spi_write_read bus out n).
Proof.
  intros s. unfold wlp, spi_write_read. destruct ((0 <? Zlen out) && (0 <? n)).
  - destruct (rt_spi_send_then_recv bus out n (hw s)) as [[r b] c]. simpl. lia.
  - destruct (0 <? Zlen out).
    + destruct (rt_spi_send bus out (hw s)) as [r c]. simpl. lia.
    + destruct (rt_spi_recv bus n (hw s)) as [[r b] c]. simpl. lia.
Qed.
End locks.

#[export] Hint Resolve locks_ret locks_lift locks_throw locks_gets locks_set_flash locks_delay
  locks_write_read : locks.

(** Code without a lock of its own. *)
Ltac locks_step :=
  first [ by auto with locks
        | apply locks_bind0; [|intros ?]
        | match goal with
          | |- locks _ (if ?b then _ else _) => destruct b
          | |- locks _ (match ?x with _ => _ end) => destruct x
          end ].
Ltac locks_tac := repeat locks_step.

Section locked.
Context {C : Type} (bus : spi_bus C).

Lemma locks_wr out : locks 0 (wr bus out).
Proof. unfold wr. locks_tac. Qed.
#[local] Hint Resolve locks_wr : locks.

Lemma locks_read_status : locks 0 (sfud_read_status bus).
Proof. unfold sfud_read_status. locks_tac. Qed.
#[local] Hint Resolve locks_read_status : locks.

Lemma locks_wait_busy : locks 0 (wait_busy bus).
Proof.
  unfold wait_busy. apply locks_bind0; [auto with locks|]. intros f.
  induction (Z.to_nat (retry_times f)) as [|n IH]; simpl; locks_tac.
Qed.
#[local] Hint Resolve locks_wait_busy : locks.

Lemma locks_write_enabled b : locks 0 (set_write_enabled bus b).
Proof. unfold set_write_enabled. locks_tac. Qed.
#[local] Hint Resolve locks_write_enabled : locks.

Lemma locks_exit r : locks (-1) (exit_write bus r).
Proof.
  unfold exit_write. apply locks_bind0; [auto with locks|]. intros _.
  apply (locks_bind (-1) 0); [apply locks_unlock|]. auto with locks.
Qed.

(** Code between the lock and the exit. *)
Lemma locks_between {A B} (m : M (flash_st C) A) (k : A -> M (flash_st C) B) :
  locks 0 m -> (forall a, locks (-1) (k a)) -> locks 0 (spi_lock ;;; m ≫= k).
Proof.
  intros Hm Hk. apply (locks_bind 1 (-1)); [apply locks_lock|]. intros _. by apply locks_bind0.
Qed.

Lemma locks_chip_erase : locks 0 (sfud_chip_erase bus).
Proof.
  unfold sfud_chip_erase. apply locks_bind0; [auto with locks|]. intros f.
  apply locks_between; [auto with locks|]. intros r. pose proof locks_exit.
  repeat first [apply locks_exit|locks_step].
Qed.

Lemma locks_erase_loop fuel addr size : locks 0 (erase_loop bus fuel addr size).
Proof.
  revert addr size. induction fuel as [|fuel IH]; intros addr size; simpl; [auto with locks|].
  repeat first [apply IH|locks_step].
Qed.

Lemma locks_write_loop fuel g addr size data : locks 0 (write_loop bus fuel g addr size data).
Proof.
  revert addr size data. induction fuel as [|fuel IH]; intros addr size data; simpl; [auto with locks|].
  repeat first [apply IH|locks_step].
Qed.

Lemma locks_aai_loop fuel first addr size data : locks 0 (aai_loop bus fuel first addr size data).
Proof.
  revert first addr size data. induction fuel as [|fuel IH]; intros first addr size data; simpl;
    [auto with locks|]. repeat first [apply IH|locks_step].
Qed.

Lemma locks_page addr size g data : locks 0 (page256_or_1_byte_write bus addr size g data).
Proof.
  unfold page256_or_1_byte_write. apply locks_bind0; [auto with locks|]. intros f.
  destruct (_ <? _); [auto with locks|].
  apply locks_between; [apply locks_write_loop|apply locks_exit].
Qed.
#[local] Hint Resolve locks_page : locks.

Lemma locks_aai addr size data : locks 0 (aai_write bus addr size data).
Proof.
  unfold aai_write. set (leave := fun result : Z => _ ;;; spi_unlock ;;; mret result).
  assert (forall r, locks (-1) (leave r)) as Hleave.
  { intros r. apply locks_bind0; [locks_tac|]. intros _.
    apply (locks_bind (-1) 0); [apply locks_unlock|]. auto with locks. }
  apply locks_bind0; [auto with locks|]. intros f.
  destruct (_ <? _); [auto with locks|].
  apply locks_between; [locks_tac|]. intros r.
  repeat first [apply Hleave|apply locks_aai_loop|locks_step].
Qed.

Lemma locks_write addr size data : locks 0 (sfud_write bus addr size data).
Proof. pose proof locks_aai. unfold sfud_write. locks_tac. Qed.

Lemma locks_erase addr size : locks 0 (sfud_erase bus addr size).
Proof.
  unfold sfud_erase. apply locks_bind0; [auto with locks|]. intros f.
  destruct (_ <? _); [auto with locks|]. destruct (_ && _); [apply locks_chip_erase|].
  apply locks_between; [apply locks_erase_loop|apply locks_exit].
Qed.

Lemma locks_read addr size : locks 0 (sfud_read bus addr size).
Proof.
  unfold sfud_read. apply locks_bind0; [auto with locks|]. intros f.
  destruct (_ <? _); [auto with locks|].
  apply locks_between; [apply locks_wait_busy|]. intros r.
  apply locks_bind0; [locks_tac|]. intros d.
  apply (locks_bind (-1) 0); [apply locks_unlock|]. auto with locks.
Qed.

Lemma locks_erase_write addr size data : locks 0 (sfud_erase_write bus addr size data).
Proof.
  unfold sfud_erase_write. apply locks_bind0; [apply locks_erase|]. intros r.
  destruct (_ =? _); [apply locks_write|auto with locks].
Qed.
End locked.
