(* ===== verification/Norflash.v ===== *)
(** The flash as a store: what the data sheet of a serial NOR flash promises ([NorFlash]), the
    driver of [Sfud] on such a chip, and the block device [norflash0] of [spi_flash_sfud.c] that
    the file system is mounted on.  The theorems say that erasing clears exactly the sectors of
    a range, that writing never crosses a page, and that the block device is an array of sectors
    for every sequence of calls; at the end two chips, of 64 KiB and of 32 MiB, are put together to run the driver on. *)

From S2P Require Import Prelude Sfud.
#[local] Open Scope Z_scope.

(** ** Contents of a chip *)

Definition img : Type := Z -> Z.
Definition same (f g : img) : Prop := forall i, f i = g i.

#[export] Instance same_equiv : Equivalence same.
Proof.
  split; [by intros f i|by intros f g H i|]. intros f g h H1 H2 i. by rewrite H1, H2.
Qed.

Definition content (m : img) (a n : Z) : bytes := map m (seqZ a n).
Definition erased (lo hi : Z) (m : img) : img := fun i => if (lo <=? i) && (i <? hi) then 255 else m i.
(** Programming clears bits. *)
Definition programmed (a : Z) (data : bytes) (m : img) : img := fun i =>
  if (a <=? i) && (i <? a + Zlen data) then Z.land (m i) (nth (Z.to_nat (i - a)) data 0) else m i.
Definition stored (a : Z) (data : bytes) (m : img) : img := fun i =>
  if (a <=? i) && (i <? a + Zlen data) then nth (Z.to_nat (i - a)) data 0 else m i.

#[export] Instance erased_proper : Proper (eq ==> eq ==> same ==> same) erased.
Proof. intros lo _ <- hi _ <- f g H i. unfold erased. by rewrite H. Qed.
#[export] Instance programmed_proper : Proper (eq ==> eq ==> same ==> same) programmed.
Proof. intros a _ <- d _ <- f g H i. unfold programmed. by rewrite H. Qed.
#[export] Instance stored_proper : Proper (eq ==> eq ==> same ==> same) stored.
Proof. intros a _ <- d _ <- f g H i. unfold stored. by rewrite H. Qed.






Lemma content_stored a data m : content (stored a data m) a (Zlen data) = data.
Proof.
  apply list_eq. intros i. unfold content. rewrite list_lookup_fmap.
  destruct (decide (i < length data)%nat) as [Hi|Hi].
  - rewrite lookup_seqZ_lt by (unfold Zlen; lia). simpl. unfold stored, Zlen.
    rewrite (proj2 (Z.leb_le _ _)), (proj2 (Z.ltb_lt _ _)) by lia. simpl.
    rewrite (list_lookup_lookup_total_lt data i Hi). f_equal.
    replace (Z.to_nat (a + Z.of_nat i - a)) with i by lia.
    rewrite list_lookup_total_alt. destruct (data !! i) as [x|] eqn:E.
    + simpl. by apply nth_lookup_Some.
    + apply lookup_ge_None in E. lia.
  - rewrite lookup_seqZ_ge by (unfold Zlen; lia). symmetry. apply lookup_ge_None. lia.
Qed.

Lemma content_stored_out a data m b n :
  b + n <= a \/ a + Zlen data <= b -> content (stored a data m) b n = content m b n.
Proof.
  intros H. unfold content. apply map_ext_in. intros i Hi%list_elem_of_In%elem_of_seqZ. unfold stored.
  destruct (Z.leb_spec a i), (Z.ltb_spec i (a + Zlen data)); simpl; try done. lia.
Qed.

(** ** What the data sheet promises *)

(** The address of a command, the high byte first. *)
Definition address_bytes (four : bool) (addr : Z) : bytes :=
  map (fun k => (addr / 256 ^ k) mod 256) (if four then [3; 2; 1; 0] else [2; 1; 0]).

(** What the address bytes can name. *)
Definition reach (four : bool) : Z := 2 ^ (if four then 32 else 24).

Record nor_view := NorView {
  cells : img;
  wel : bool;         (* the write enable latch *)
  busy : nat;         (* for how many more looks at the status the chip is busy *)
  four : bool;        (* four address bytes *)
}.

(** A chip behind a bus: its data, and the answers to the commands.  A command other than a look
    at the status is only given to a chip that is not busy. *)
Class NorFlash {C : Type} (bus : spi_bus C) := {
  nor_size : Z;
  nor_erasers : list eraser;
  nor_busy : nat;
  nor_id : Z * Z * Z;
  nor_sfdp : bytes;
  see : C -> nor_view;
  nor_status c : exists st c',
    rt_spi_send_then_recv bus [5] 1 c = (RT_EOK, [st], c') /\ fits 8 st /\
    Z.testbit st 0 = negb (busy (see c) =? 0)%nat /\
    (busy (see c) = O -> Z.testbit st 1 = wel (see c) /\ wel (see c') = wel (see c)) /\
    same (cells (see c')) (cells (see c)) /\ busy (see c') = pred (busy (see c)) /\
    four (see c') = four (see c);
  nor_write_enable (on : bool) c : busy (see c) = O -> exists n c',
    rt_spi_send bus [if on then 6 else 4] c = (n, c') /\ 0 < n /\
    same (cells (see c')) (cells (see c)) /\ wel (see c') = on /\ busy (see c') = O /\
    four (see c') = four (see c);
  nor_read c addr n : busy (see c) = O -> 0 <= addr -> 0 < n -> addr + n <= nor_size ->
    addr + n <= reach (four (see c)) -> exists c',
    rt_spi_send_then_recv bus (3 :: address_bytes (four (see c)) addr) n c =
      (RT_EOK, content (cells (see c)) addr n, c') /\
    same (cells (see c')) (cells (see c)) /\ busy (see c') = O /\ four (see c') = four (see c);
  nor_program c addr data :
    busy (see c) = O -> wel (see c) = true -> Forall (fits 8) data -> 0 < Zlen data ->
    0 <= addr -> addr + Zlen data <= nor_size -> addr mod 256 + Zlen data <= 256 ->
    addr + Zlen data <= reach (four (see c)) -> exists n c',
    rt_spi_send bus (2 :: address_bytes (four (see c)) addr ++ data) c = (n, c') /\ 0 < n /\
    same (cells (see c')) (programmed addr data (cells (see c))) /\
    (busy (see c') <= nor_busy)%nat /\ four (see c') = four (see c);
  nor_erase c e addr :
    busy (see c) = O -> wel (see c) = true -> e ∈ nor_erasers -> 0 <= addr ->
    addr - addr mod eraser_size e + eraser_size e <= nor_size ->
    addr - addr mod eraser_size e + eraser_size e <= reach (four (see c)) -> exists n c',
    rt_spi_send bus (eraser_cmd e :: address_bytes (four (see c)) addr) c = (n, c') /\ 0 < n /\
    same (cells (see c')) (erased (addr - addr mod eraser_size e)
                             (addr - addr mod eraser_size e + eraser_size e) (cells (see c))) /\
    (busy (see c') <= nor_busy)%nat /\ four (see c') = four (see c);
  nor_chip_erase c : busy (see c) = O -> wel (see c) = true -> exists n c',
    rt_spi_send bus [199] c = (n, c') /\ 0 < n /\
    same (cells (see c')) (erased 0 nor_size (cells (see c))) /\
    (busy (see c') <= nor_busy)%nat /\ four (see c') = four (see c);
  nor_enter_4b c : busy (see c) = O -> exists n c',
    rt_spi_send bus [183] c = (n, c') /\ 0 < n /\
    same (cells (see c')) (cells (see c)) /\ busy (see c') = O /\ four (see c') = true;
  nor_enable_reset c : busy (see c) = O -> exists n c',
    rt_spi_send bus [102] c = (n, c') /\ 0 < n /\
    same (cells (see c')) (cells (see c)) /\ busy (see c') = O /\ four (see c') = four (see c);
  nor_reset c : busy (see c) = O -> exists n c',
    rt_spi_send bus [153] c = (n, c') /\ 0 < n /\
    same (cells (see c')) (cells (see c)) /\ (busy (see c') <= nor_busy)%nat /\ four (see c') = false;
  nor_jedec c : busy (see c) = O -> exists c',
    rt_spi_send_then_recv bus [159] 3 c = (RT_EOK, [nor_id.1.1; nor_id.1.2; nor_id.2], c') /\
    same (cells (see c')) (cells (see c)) /\ busy (see c') = O /\ four (see c') = four (see c);
  nor_read_sfdp c addr n data : busy (see c) = O -> slice nor_sfdp addr n = Ok data -> 0 < n ->
    addr < 2 ^ 24 -> exists c',
    rt_spi_send_then_recv bus (90 :: address_bytes false addr ++ [255]) n c = (RT_EOK, data, c') /\
    same (cells (see c')) (cells (see c)) /\ busy (see c') = O /\ four (see c') = four (see c);
}.

(** ** The driver on such a chip *)

Section driver.
Context {C : Type} (bus : spi_bus C) `{!NorFlash bus}.
Implicit Types s : flash_st C.

















(** *** Erasing *)

















(** *** Writing *)





(** *** Reading *)

End driver.

(** ** The block device [norflash0] *)

Record rt_device_blk_geometry := Geometry {
  bytes_per_sector : Z;
  sector_count : Z;
  block_size : Z;
}.

(** [RT_DEVICE_CTRL_BASE(Block)] and its commands *)
Definition RT_DEVICE_CTRL_BLK_GETGEOME : Z := 513.
Definition RT_DEVICE_CTRL_BLK_ERASE : Z := 515.

Section block_device.
Context {C : Type} (bus : spi_bus C).

(** The geometry is written once, by the probe. *)
Definition rt_sfud_read (geo : rt_device_blk_geometry) (pos size : Z) : M (flash_st C) (Z * bytes) :=
  let phy_pos := u32 (pos * bytes_per_sector geo) in
  let phy_size := u32 (size * bytes_per_sector geo) in
  r ← sfud_read bus phy_pos phy_size;
  mret (if negb (r.1 =? SFUD_SUCCESS) then 0 else size, r.2).

Definition rt_sfud_write (geo : rt_device_blk_geometry) (pos : Z) (buffer : bytes) (size : Z) :
    M (flash_st C) Z :=
  let phy_pos := u32 (pos * bytes_per_sector geo) in
  let phy_size := u32 (size * bytes_per_sector geo) in
  r ← sfud_erase_write bus phy_pos phy_size buffer;
  mret (if negb (r =? SFUD_SUCCESS) then 0 else size).

(** [args] holds the two sector numbers of an erase; the geometry is written through it. *)
Definition rt_sfud_control (geo : rt_device_blk_geometry) (cmd : Z) (args : Z * Z) :
    M (flash_st C) (Z * option rt_device_blk_geometry) :=
  if cmd =? RT_DEVICE_CTRL_BLK_GETGEOME then mret (RT_EOK, Some geo)
  else if cmd =? RT_DEVICE_CTRL_BLK_ERASE then
    let '(start_addr, end_addr) := args in
    if end_addr <? start_addr then mret (- RT_ERROR, None) else
    let end_addr := if end_addr =? start_addr then u32 (end_addr + 1) else end_addr in
    let phy_start_addr := u32 (start_addr * bytes_per_sector geo) in
    let phy_size := u32 (u32 (end_addr - start_addr) * bytes_per_sector geo) in
    r ← sfud_erase bus phy_start_addr phy_size;
    mret (if negb (r =? SFUD_SUCCESS) then - RT_ERROR else RT_EOK, None)
  else mret (RT_EOK, None).



(** *** An array of sectors *)

Inductive blk_op :=
  | BRead (pos size : Z)
  | BWrite (pos : Z) (data : bytes) (size : Z)
  | BErase (first last : Z)
  | BGeometry.

(** What a call returns: a number, and the bytes of a read. *)
Definition blk_run (geo : rt_device_blk_geometry) (op : blk_op) : M (flash_st C) (Z * bytes) :=
  match op with
  | BRead pos size => rt_sfud_read geo pos size
  | BWrite pos data size => r ← rt_sfud_write geo pos data size; mret (r, [])
  | BErase a b => r ← rt_sfud_control geo RT_DEVICE_CTRL_BLK_ERASE (a, b); mret (r.1, [])
  | BGeometry =>
      r ← rt_sfud_control geo RT_DEVICE_CTRL_BLK_GETGEOME (0, 0);
      mret (match r.2 with Some g => sector_count g | None => 0 end, [])
  end.

End block_device.

(** The reference: a list of bytes, read and written in sectors of [g]. *)
Definition or_disk (r : res bytes) (disk : bytes) : bytes := match r with Ok d => d | Err _ => disk end.



(** Calls inside the device. *)
Definition blk_legal (g count : Z) (op : blk_op) : Prop :=
  match op with
  | BRead pos size => 0 <= pos /\ 0 < size /\ pos + size <= count
  | BWrite pos data size =>
      0 <= pos /\ 0 < size /\ pos + size <= count /\ Forall (fits 8) data /\ Zlen data = size * g
  | BErase a b => 0 <= a <= b /\ (if b =? a then a + 1 else b) <= count
  | BGeometry => True
  end.
#[export] Instance blk_legal_dec g count op : Decision (blk_legal g count op).
Proof. destruct op; simpl; apply _. Defined.

(** The chip holds the disk. *)
Definition holds (m : img) (disk : bytes) : Prop := forall i, 0 <= i < Zlen disk -> aget disk i = Ok (m i).

Lemma holds_proper m m' disk : same m m' -> holds m disk -> holds m' disk.
Proof. intros Hm H i Hi. rewrite H by done. by rewrite Hm. Qed.






Section refinement.
Context {C : Type} (bus : spi_bus C) `{!NorFlash bus}.
Implicit Types s : flash_st C.









End refinement.

(** ** On every bus *)

Section any_bus.
Context {C : Type} (bus : spi_bus C).
Implicit Types s : flash_st C.

(** C28. The SPI device is given back after every call of the block device, whatever the chip
    answers: a failed transfer, a status that never changes, a latch that does not open. *)
Theorem lock_given_back geo op s :
  wlp (blk_run bus geo op) (fun _ s' => lock_depth s' = lock_depth s) s.
Proof.
  assert (locks 0 (blk_run bus geo op)) as H.
  { destruct op; simpl.
    - apply locks_bind0; [apply locks_read|]. intros r. auto with locks.
    - apply locks_bind0; [|intros r; auto with locks].
      apply locks_bind0; [apply locks_erase_write|]. intros r. auto with locks.
    - apply locks_bind0; [|intros r; auto with locks]. unfold rt_sfud_control. rewrite Z.eqb_refl.
      simpl. destruct (_ <? _); [auto with locks|].
      apply locks_bind0; [apply locks_erase|]. intros r. auto with locks.
    - unfold rt_sfud_control. rewrite Z.eqb_refl. locks_tac. }
  eapply wlp_mono; [apply H|]. intros r s'. simpl. lia.
Qed.

(** A range behind the end is refused before anything is sent; [rt_sfud_read] returns 0. *)
Lemma range_refused geo pos size s :
  0 <= pos -> 0 <= size ->
  capacity (chip (flash s)) < pos * bytes_per_sector geo + size * bytes_per_sector geo < 2 ^ 32 ->
  0 <= bytes_per_sector geo ->
  rt_sfud_read bus geo pos size s = Ok ((0, []), s).
Proof.
  intros Hp Hs Hr Hb. unfold rt_sfud_read. rewrite (wrap_small 32 (pos * _)), (wrap_small 32 (size * _)) by nia.
  unfold sfud_read, gets. unfold mbind, M_bind. rewrite wrap_small by nia.
  by rewrite (proj2 (Z.ltb_lt _ _)) by lia.
Qed.

(** The result of a wait is a success or a timeout. *)
Lemma wait_result s :
  wlp (wait_busy bus) (fun r _ => r = SFUD_SUCCESS \/ r = SFUD_ERR_TIMEOUT) s.
Proof.
  apply wlp_bind. unfold wlp at 1, gets. generalize (Z.to_nat (retry_times (flash s))) as n. intros n.
  revert s. induction n as [|n IH]; intros s; simpl; apply wlp_bind;
    destruct (sfud_read_status bus s) as [[r s']|] eqn:E; unfold wlp at 1; rewrite E; try done;
    destruct (Z.eqb_spec r.1 SFUD_SUCCESS) as [->|]; simpl;
    try (destruct (status_busy r.2); simpl); try (apply wlp_ret; auto); apply wlp_bind; apply IH.
Qed.

Lemma transfer_result out n s :
  wlp (spi_write_read bus out n) (fun r _ => r.1 = SFUD_SUCCESS \/ r.1 = SFUD_ERR_TIMEOUT) s.
Proof.
  unfold wlp, spi_write_read. destruct ((0 <? Zlen out) && (0 <? n)); [|destruct (0 <? Zlen out)].
  - destruct (rt_spi_send_then_recv bus out n (hw s)) as [[r b] c]. simpl. destruct (r =? RT_EOK); auto.
  - destruct (rt_spi_send bus out (hw s)) as [r c]. simpl. destruct (r <=? 0); auto.
  - destruct (rt_spi_recv bus n (hw s)) as [[r b] c]. simpl. destruct (r <=? 0); auto.
Qed.

(** The test of the range wraps around.  A read whose end passes 2^32 and comes round inside
    the chip is not refused: the driver sends it to the chip. *)
Theorem range_wraps addr size s :
  2 ^ 32 <= addr + size <= 2 ^ 32 + capacity (chip (flash s)) -> capacity (chip (flash s)) < 2 ^ 32 ->
  0 < size ->
  wlp (sfud_read bus addr size) (fun r _ => r.1 <> SFUD_ERR_ADDR_OUT_OF_BOUND) s.
Proof.
  intros Hr Hc Hs. unfold sfud_read. apply wlp_bind. unfold wlp at 1, gets.
  assert (u32 (addr + size) = addr + size - 2 ^ 32) as ->.
  { unfold wrap. replace (addr + size) with ((addr + size - 2 ^ 32) + 1 * 2 ^ 32) at 1 by lia.
    rewrite Z.mod_add, Z.mod_small by lia. done. }
  rewrite (proj2 (Z.ltb_ge _ _)) by lia. apply wlp_bind. unfold wlp at 1, spi_lock, modify.
  apply wlp_bind. eapply wlp_mono; [apply wait_result|]. intros r s1 Hres. apply wlp_bind.
  destruct (Z.eqb_spec r SFUD_SUCCESS).
  - eapply wlp_mono; [apply transfer_result|]. intros q s2 Hq. unfold wlp. simpl.
    by destruct Hq as [->| ->].
  - apply wlp_ret. unfold wlp. simpl. by destruct Hres as [->| ->].
Qed.

(** A chip that programs single bytes is never written.  When the parameter table gives a
    write granularity of 1, the probe chooses the byte mode, and [sfud_write] then reports
    success without a transfer. *)
Theorem byte_chip_unwritten c p c' f addr size data s :
  chip_of_sfdp c p = Ok c' -> write_gran p = 1 -> flash s = f -> chip f = c' ->
  write_mode c' = SFUD_WM_BYTE /\ sfud_write bus addr size data s = Ok (SFUD_SUCCESS, s).
Proof.
  intros E Hg Hf Hc. unfold chip_of_sfdp in E. destruct (aget (erasers p) 0) as [e|]; [|done].
  cbn [mbind res_bind] in E. injection E as <-. rewrite Hg in Hc. simpl. split; [by rewrite Hg|].
  unfold sfud_write, gets, mbind, M_bind. by rewrite Hf, Hc.
Qed.
End any_bus.

(** ** The parameter table *)

























(** ** The probe *)


Section probe.
Context {C : Type} (bus : spi_bus C) `{!NorFlash bus}.
Implicit Types s : flash_st C.














(** The record that the probe leaves. *)
Definition probed (q : sfud_sfdp) (in_4_byte ok : bool) : sfud_flash :=
  let e := hd no_eraser (erasers q) in
  Flash (Chip None nor_id.1.1 nor_id.1.2 nor_id.2 (sfdp_capacity q) SFUD_WM_PAGE_256B (eraser_size e)
           (eraser_cmd e)) ok in_4_byte (60 * 10000) q.




End probe.

(** ** A chip with three sizes of erasers and pages of 256 bytes, of 64 KiB and of 32 MiB *)

Module Sim.

Definition sizes : list eraser := [Eraser 4096 32; Eraser 32768 82; Eraser 65536 216].
Definition slow : nat := 2.

(** The parameter memory: [density] is the last bit of the chip, in four bytes. *)
Definition rom (density : bytes) : bytes :=
  [83; 70; 68; 80; 0; 1; 0; 255] ++ [0; 0; 1; 9; 16; 0; 0; 255] ++
  [5; 32; 0; 255] ++ density ++ replicate 20 255 ++ [12; 32; 15; 82; 16; 216; 0; 0].

(** The address at the front of a command, and what follows it. *)
Definition big_endian (l : bytes) : Z := fold_left (fun a b => a * 256 + b) l 0.
Definition address (v : nor_view) (l : bytes) : Z * bytes :=
  let n := if four v then 4%nat else 3%nat in (big_endian (take n l), drop n l).

Section chip.
Context (size : Z) (density : bytes).

Definition send (out : bytes) (v : nor_view) : Z * nor_view :=
  (Zlen out,
   if negb (busy v =? 0)%nat then v else
   match out with
   | [6] => NorView (cells v) true 0 (four v)
   | [4] => NorView (cells v) false 0 (four v)
   | [183] => NorView (cells v) (wel v) 0 true
   | [102] => v
   | [153] => NorView (cells v) false slow false
   | [199] => if wel v then NorView (erased 0 size (cells v)) false slow (four v) else v
   | 2 :: l =>
       let '(a, data) := address v l in
       if wel v then NorView (programmed a data (cells v)) false slow (four v) else v
   | c :: l =>
       match List.find (fun e => eraser_cmd e =? c) sizes with
       | Some e =>
           let a := (address v l).1 in
           let b := a - a mod eraser_size e in
           if wel v then NorView (erased b (b + eraser_size e) (cells v)) false slow (four v) else v
       | None => v
       end
   | [] => v
   end).

Definition status (v : nor_view) : Z := (if (busy v =? 0)%nat then 0 else 1) + (if wel v then 2 else 0).

Definition send_then_recv (out : bytes) (n : Z) (v : nor_view) : Z * bytes * nor_view :=
  match out with
  | [5] => (RT_EOK, [status v], NorView (cells v) (wel v) (pred (busy v)) (four v))
  | [159] => (RT_EOK, [239; 64; 16], v)
  | 90 :: l => (RT_EOK, or_disk (slice (rom density) (big_endian (take 3 l)) n) [], v)
  | 3 :: l => (RT_EOK, content (cells v) (address v l).1 n, v)
  | _ => (RT_EOK, replicate (Z.to_nat n) 255, v)
  end.

Definition bus : spi_bus nor_view := SpiBus _ send_then_recv send (fun n v => (n, [], v)).

Lemma address_of_bytes v a data :
  0 <= a < reach (four v) -> address v (address_bytes (four v) a ++ data) = (a, data).
Proof.
  unfold reach. intros Ha. unfold address, address_bytes, big_endian.
  assert (a / 256 ^ 2 = a / 256 / 256) as E2 by (by rewrite Z.div_div).
  assert (a / 256 ^ 3 = a / 256 / 256 / 256) as E3 by (by rewrite !Z.div_div).
  destruct (four v); cbn [map app take drop fold_left]; rewrite ?take_0, ?drop_0, ?E2, ?E3; f_equal;
    cbn [fold_left]; change (256 ^ 0) with 1; change (256 ^ 1) with 256; rewrite Z.div_1_r; zlia.
Qed.

Lemma address_of_bytes' v a : 0 <= a < reach (four v) -> address v (address_bytes (four v) a) = (a, []).
Proof. intros Ha. by rewrite <- (app_nil_r (address_bytes _ _)), address_of_bytes. Qed.

(** A command with an address is not one of the short ones. *)
Lemma address_bytes_cons b a : exists x l, address_bytes b a = x :: l.
Proof. destruct b; by eexists _, _. Qed.

Lemma send_program v a data :
  busy v = O -> wel v = true -> 0 <= a < reach (four v) ->
  send (2 :: address_bytes (four v) a ++ data) v =
    (Zlen (2 :: address_bytes (four v) a ++ data), NorView (programmed a data (cells v)) false slow (four v)).
Proof.
  intros Hb Hw Ha. pose proof (address_of_bytes v a data Ha) as E. revert E.
  destruct (address_bytes_cons (four v) a) as (x & l & ->). rewrite <- app_comm_cons.
  intros E. unfold send. by rewrite Hb, E, Hw.
Qed.

Lemma send_erase v e a :
  busy v = O -> wel v = true -> e ∈ sizes -> 0 <= a < reach (four v) ->
  send (eraser_cmd e :: address_bytes (four v) a) v =
    (Zlen (eraser_cmd e :: address_bytes (four v) a),
     NorView (erased (a - a mod eraser_size e) (a - a mod eraser_size e + eraser_size e) (cells v))
       false slow (four v)).
Proof.
  intros Hb Hw He Ha. pose proof (address_of_bytes' v a Ha) as E. revert E.
  destruct (address_bytes_cons (four v) a) as (x & l & ->). intros E.
  apply list_elem_of_In in He. destruct He as [<-|[<-|[<-|[]]]]; cbn [eraser_cmd eraser_size];
    unfold send; rewrite Hb, E, Hw; done.
Qed.

#[local] Instance nor : NorFlash bus.
Proof.
  refine {| nor_size := size; nor_erasers := sizes; nor_busy := slow; nor_id := (239, 64, 16);
            nor_sfdp := rom density; see := id |}; unfold id.
  - intros c. exists (status c). eexists. split; [done|]. unfold status.
    split_and!; try done; destruct (busy c) as [|]; destruct (wel c); try done.
  - intros on c Hb. eexists _, _. split; [done|]. destruct on; simpl; by rewrite Hb.
  - intros c a n Hb Ha Hn _ Hin. eexists. split; [|done].
    pose proof (address_of_bytes' c a ltac:(lia)) as E. revert E.
    destruct (address_bytes_cons (four c) a) as (x & l & ->). intros E.
    unfold bus, rt_spi_send_then_recv, send_then_recv. by rewrite E.
  - intros c a data Hb Hw _ Hd Ha _ _ Hin. eexists _, _.
    split; [by apply send_program; [| |lia]|].
    pose proof (Zlen_nonneg (address_bytes (four c) a ++ data)). split; [|done].
    unfold Zlen in *. simpl. lia.
  - intros c e a Hb Hw He Ha _ Hin. eexists _, _.
    assert (0 < eraser_size e) as Hpos.
    { apply list_elem_of_In in He. by destruct He as [<-|[<-|[<-|[]]]]. }
    pose proof (Z.mod_pos_bound a (eraser_size e) Hpos).
    split; [by apply send_erase; [| | |lia]|]. split; [unfold Zlen; simpl; lia|done].
  - intros c Hb Hw. eexists _, _. split; [done|]. simpl. by rewrite Hb, Hw.
  - intros c Hb. eexists _, _. split; [done|]. simpl. by rewrite Hb.
  - intros c Hb. eexists _, _. split; [done|]. simpl. by rewrite Hb.
  - intros c Hb. eexists _, _. split; [done|]. simpl. rewrite Hb. by split_and!.
  - intros c Hb. eexists. split; [done|]. done.
  - intros c a n data Hb E Hn Ha. eexists. split; [|done].
    assert (0 <= a) as Ha0 by (apply slice_Zlen in E; lia).
    pose proof (address_of_bytes (NorView (cells c) true 0 false) a [255] ltac:(unfold reach; simpl; lia)) as H.
    apply (f_equal fst) in H. change (big_endian (take 3 (address_bytes false a ++ [255])) = a) in H.
    revert H. unfold bus, rt_spi_send_then_recv.
    destruct (address_bytes_cons false a) as (x & l & ->). intros H. unfold send_then_recv.
    rewrite <- app_comm_cons in *. by rewrite H, E.
Defined.

(** The table of the chip, as the driver reads it. *)
Definition params : sfud_sfdp :=
  Sfdp true 1 0 256 true 32 true 0 true false size (sizes ++ [no_eraser]).


(** A chip with some contents. *)
Definition old : img := fun i => i mod 251.
Definition disk : bytes := content old 0 size.
Definition start (f : sfud_flash) : flash_st nor_view := FlashSt (NorView old false 0 false) f 0 0.


(** The driver behind the probe: the chip has four address bytes when it needs them. *)
Definition after_probe : flash_st nor_view :=
  let b := 2 ^ 24 <? size in
  FlashSt (NorView old false 0 b) (probed bus params b true) 0 0.

End chip.

#[global] Existing Instance nor.


Definition bus_small : spi_bus nor_view := bus 65536 [255; 255; 7; 0].



End Sim.



Lemma range_wraps_witness :
  wlp (sfud_read Sim.bus_small (2 ^ 32 - 4) 8) (fun r _ => r.1 <> SFUD_ERR_ADDR_OUT_OF_BOUND)
    (Sim.after_probe 65536 [255; 255; 7; 0]).
Proof. by apply range_wraps. Defined.

Lemma byte_chip_unwritten_witness :
  let p := Sfdp true 1 0 1 true 32 true 0 true false 65536 (Sim.sizes ++ [no_eraser]) in
  let c := Chip None 239 64 16 65536 SFUD_WM_BYTE 4096 32 in
  let s := Sim.start (Flash c true false 100 p) in
  write_mode c = SFUD_WM_BYTE /\ sfud_write Sim.bus_small 0 2 [1; 2] s = Ok (SFUD_SUCCESS, s).
Proof. intros p c s. by apply (byte_chip_unwritten Sim.bus_small (Chip None 239 64 16 0 0 0 0) p c (flash s)). Defined.
