(* ===== verification/Posix.v ===== *)
(** The file calls the firmware makes: [open], [read], [write], [lseek], [close],
    [access], [mkdir].

    The calls are those of the C library; they are modelled by their documented effect on
    a store of regular files, a list of directories and a table of open descriptors.  A file or
    directory is created only in a directory that is there (ENOENT otherwise), and a name is not
    a file and a directory at once (EEXIST, EISDIR).  Files are stored under the string they are
    opened with, directories under the components of their path; [.] and [..] are not followed.
    What the medium decides ([open] refused, [write] refused) is a part [fs_env] of the state
    that no call changes. *)

From stdpp Require Export gmap.
From S2P Require Import Prelude.
#[local] Open Scope Z_scope.

Record fdesc := Fdesc { fd_path : bytes; fd_pos : nat }.

Record fsenv := Fsenv { open_ok : bytes -> bool; write_ok : bytes -> bool }.

Record fsys := Fsys {
  fs_files : gmap bytes bytes;
  fs_dirs : list (list bytes);  (* the root is not among them *)
  fs_fds : gmap Z fdesc;
  fs_env : fsenv;
}.

Definition set_files (g : gmap bytes bytes -> gmap bytes bytes) (fs : fsys) : fsys :=
  Fsys (g (fs_files fs)) (fs_dirs fs) (fs_fds fs) (fs_env fs).
Definition set_fds (g : gmap Z fdesc -> gmap Z fdesc) (fs : fsys) : fsys :=
  Fsys (fs_files fs) (fs_dirs fs) (g (fs_fds fs)) (fs_env fs).

Definition set_dirs (dirs : list (list bytes)) (fs : fsys) : fsys :=
  Fsys (fs_files fs) dirs (fs_fds fs) (fs_env fs).

Record oflags := Oflags { o_creat : bool; o_trunc : bool }.
Definition O_RDONLY_flags := Oflags false false.
Definition O_WRCT_flags := Oflags true true. (* O_WRONLY | O_CREAT | O_TRUNC *)

(** The lowest descriptor that is not in use; 0, 1 and 2 are the standard streams. *)
Definition fresh_fd (fds : gmap Z fdesc) : Z :=
  match list_find (fun d => fds !! d = None) (seqZ 3 (Z.of_nat (size fds) + 1)) with
  | Some (_, d) => d
  | None => -1
  end.

(** The components of a path: what stands between the slashes; empty ones do not count. *)
Fixpoint comps_from (seg path : bytes) : list bytes :=
  let seg_list := match seg with [] => [] | _ => [seg] end in
  match path with
  | [] => seg_list
  | c :: path => if c =? 47 then seg_list ++ comps_from [] path else comps_from (seg ++ [c]) path
  end.
Definition comps (path : bytes) : list bytes := comps_from [] path.

(** Is there such a directory (the root is), or such a file? *)
Definition is_dir (fs : fsys) (d : list bytes) : bool := bool_decide (d = [] \/ d ∈ fs_dirs fs).
Definition is_file (fs : fsys) (d : list bytes) : bool :=
  bool_decide (d ∈ (comps ∘ fst) <$> map_to_list (fs_files fs)).

(** A new entry needs its directory. *)
Definition parent (d : list bytes) : list bytes := removelast d.
Definition can_create (fs : fsys) (path : bytes) : bool :=
  is_dir fs (parent (comps path)) && negb (is_dir fs (comps path)).

Definition open_ (path : bytes) (fl : oflags) : M fsys Z := fun fs =>
  if negb (open_ok (fs_env fs) path) then Ok (-1, fs) else
  let fd := fresh_fd (fs_fds fs) in
  match fs_files fs !! path, o_creat fl with
  | None, false => Ok (-1, fs)
  | None, true =>
      if negb (can_create fs path) then Ok (-1, fs) else
      Ok (fd, set_fds <[fd := Fdesc path 0]> (set_files <[path := []]> fs))
  | Some c, _ =>
      Ok (fd, set_fds <[fd := Fdesc path 0]>
                (set_files <[path := if o_trunc fl then [] else c]> fs))
  end.

(** The bytes at and after the position; position past the end reads nothing. *)
Definition read_ (fd : Z) (n : Z) : M fsys (Z * bytes) := fun fs =>
  match fs_fds fs !! fd with
  | None => Ok ((-1, []), fs)
  | Some d =>
      match fs_files fs !! fd_path d with
      | None => Ok ((-1, []), fs)
      | Some c =>
          let got := take (Z.to_nat n) (drop (fd_pos d) c) in
          Ok ((Zlen got, got), set_fds <[fd := Fdesc (fd_path d) (fd_pos d + length got)]> fs)
      end
  end.

(** Overwrite at a position, extending (with zeros over a gap). *)
Definition overwrite (c : bytes) (pos : nat) (d : bytes) : bytes :=
  take pos c ++ replicate (pos - length c) 0 ++ d ++ drop (pos + length d) c.

Definition write_ (fd : Z) (data : bytes) : M fsys Z := fun fs =>
  match fs_fds fs !! fd with
  | None => Ok (-1, fs)
  | Some d =>
      match fs_files fs !! fd_path d with
      | None => Ok (-1, fs)
      | Some c =>
          if write_ok (fs_env fs) (fd_path d) then
            Ok (Zlen data,
                set_fds <[fd := Fdesc (fd_path d) (fd_pos d + length data)]>
                  (set_files <[fd_path d := overwrite c (fd_pos d) data]> fs))
          else Ok (-1, fs)
      end
  end.

Inductive whence := SEEK_SET | SEEK_END.

Definition lseek_ (fd : Z) (off : Z) (w : whence) : M fsys Z := fun fs =>
  match fs_fds fs !! fd with
  | None => Ok (-1, fs)
  | Some d =>
      match fs_files fs !! fd_path d with
      | None => Ok (-1, fs)
      | Some c =>
          let p := match w with SEEK_SET => off | SEEK_END => Zlen c + off end in
          if p <? 0 then Ok (-1, fs)
          else Ok (p, set_fds <[fd := Fdesc (fd_path d) (Z.to_nat p)]> fs)
      end
  end.

Definition close_ (fd : Z) : M fsys Z := fun fs =>
  match fs_fds fs !! fd with
  | None => Ok (-1, fs)
  | Some _ => Ok (0, set_fds (delete fd) fs)
  end.

(** [access(path, R_OK)]: 0 when the file is there, -1 otherwise. *)
Definition access_ (path : bytes) : M fsys Z := fun fs =>
  Ok (if bool_decide (is_Some (fs_files fs !! path)) then 0 else -1, fs).

Definition mkdir_ (path : bytes) : M fsys Z := fun fs =>
  if can_create fs path && negb (is_file fs (comps path))
  then Ok (0, Fsys (fs_files fs) (comps path :: fs_dirs fs) (fs_fds fs) (fs_env fs))
  else Ok (-1, fs).

(** The file is there, or can be created; the medium does not refuse it. *)
Definition openable (fs : fsys) (path : bytes) : bool :=
  open_ok (fs_env fs) path && (bool_decide (is_Some (fs_files fs !! path)) || can_create fs path).

(** ** Lemmas *)

Lemma fresh_fd_spec fds : 3 <= fresh_fd fds /\ fds !! fresh_fd fds = None.
Proof.
  unfold fresh_fd. destruct (list_find _ _) as [[i d]|] eqn:E.
  - apply list_find_Some in E as (Hl & Hd & _).
    split; [|done]. apply lookup_seqZ in Hl. lia.
  - exfalso. apply list_find_None in E. rewrite Forall_forall in E.
    set (ks := seqZ 3 (Z.of_nat (size fds) + 1)) in *.
    assert (list_to_set ks ⊆@{gset Z} dom fds) as Hsub.
    { intros d Hd%elem_of_list_to_set. apply elem_of_dom.
      destruct (fds !! d) eqn:Hk; [done|]. destruct (E d Hd Hk). }
    apply subseteq_size in Hsub. rewrite size_list_to_set in Hsub by apply NoDup_seqZ.
    rewrite size_dom in Hsub. unfold ks in Hsub. rewrite length_seqZ in Hsub. lia.
Qed.

Lemma overwrite_end c d : overwrite c (length c) d = c ++ d.
Proof.
  unfold overwrite. rewrite take_ge, Nat.sub_diag by done. simpl.
  rewrite drop_ge by lia. by rewrite app_nil_r.
Qed.

Lemma set_fds_id fs : set_fds id fs = fs.
Proof. by destruct fs. Qed.

Lemma set_fds_fds g fs : fs_fds (set_fds g fs) = g (fs_fds fs).
Proof. done. Qed.

Lemma set_fds_insert2 fs fd d d' :
  set_fds <[fd := d']> (set_fds <[fd := d]> fs) = set_fds <[fd := d']> fs.
Proof. unfold set_fds. simpl. by rewrite insert_insert_eq. Qed.

Lemma set_files_insert_id fs path c :
  fs_files fs !! path = Some c -> set_files <[path := c]> fs = fs.
Proof. intros H. unfold set_files. rewrite insert_id by done. by destruct fs. Qed.

Lemma set_fds_delete_insert fs fd d :
  fs_fds fs !! fd = None -> set_fds (delete fd) (set_fds <[fd := d]> fs) = fs.
Proof. intros H. unfold set_fds. simpl. rewrite delete_insert_id by done. by destruct fs. Qed.

(** *** Paths *)

Lemma comps_from_slash seg a b : comps_from seg (a ++ 47 :: b) = comps_from seg a ++ comps b.
Proof.
  revert seg. induction a as [|c a IH]; intros seg; [done|]. cbn [app comps_from].
  destruct (c =? 47); [by rewrite IH, app_assoc|apply IH].
Qed.

Lemma comps_slash a b : comps (a ++ 47 :: b) = comps a ++ comps b.
Proof. apply comps_from_slash. Qed.

Lemma comps_from_plain seg b : 47 ∉ b -> comps_from seg b = match seg ++ b with [] => [] | s => [s] end.
Proof.
  revert seg. induction b as [|c b IH]; intros seg Hb; cbn [comps_from]; [rewrite app_nil_r; by destruct seg|].
  apply not_elem_of_cons in Hb as [Hc Hb]. rewrite (proj2 (Z.eqb_neq c 47)) by congruence.
  by rewrite IH, <- app_assoc.
Qed.

(** A part of a path without a slash is at most one component. *)
Lemma comps_plain b : 47 ∉ b -> comps b = match b with [] => [] | _ => [b] end.
Proof. intros Hb. unfold comps. rewrite comps_from_plain by done. by destruct b. Qed.

Lemma is_dir_spec fs d : is_dir fs d = true <-> d = [] \/ d ∈ fs_dirs fs.
Proof. apply bool_decide_eq_true. Qed.

Lemma is_dir_root fs : is_dir fs [] = true.
Proof. apply is_dir_spec. by left. Qed.

(** Opening for reading an existing file. *)
Lemma open_read fs path c :
  open_ok (fs_env fs) path = true -> fs_files fs !! path = Some c ->
  open_ path O_RDONLY_flags fs =
    Ok (fresh_fd (fs_fds fs), set_fds <[fresh_fd (fs_fds fs) := Fdesc path 0]> fs).
Proof.
  intros Hok Hf. unfold open_. rewrite Hok, Hf. simpl. by rewrite set_files_insert_id.
Qed.

Lemma open_missing fs path :
  fs_files fs !! path = None -> open_ path O_RDONLY_flags fs = Ok (-1, fs).
Proof. intros Hf. unfold open_. rewrite Hf. by destruct (open_ok _ _). Qed.

Lemma open_denied fs path fl :
  open_ok (fs_env fs) path = false -> open_ path fl fs = Ok (-1, fs).
Proof. intros H. unfold open_. by rewrite H. Qed.

(** Creating or truncating a file. *)
Lemma openable_ok fs path : openable fs path = true -> open_ok (fs_env fs) path = true.
Proof. by intros [H _]%andb_true_iff. Qed.

Lemma open_write fs path :
  openable fs path = true ->
  open_ path O_WRCT_flags fs =
    Ok (fresh_fd (fs_fds fs),
        set_fds <[fresh_fd (fs_fds fs) := Fdesc path 0]> (set_files <[path := []]> fs)).
Proof.
  intros [Hok Hc]%andb_true_iff. unfold open_. rewrite Hok. simpl.
  destruct (fs_files fs !! path) as [c|] eqn:E; [done|].
  rewrite bool_decide_eq_false_2 in Hc by by intros []. simpl in Hc. by rewrite Hc.
Qed.

(** One read on a descriptor at [pos]. *)
Lemma read_at fs fd path c pos n :
  fs_files fs !! path = Some c ->
  read_ fd n (set_fds <[fd := Fdesc path pos]> fs) =
    Ok ((Zlen (take (Z.to_nat n) (drop pos c)), take (Z.to_nat n) (drop pos c)),
        set_fds <[fd := Fdesc path (pos + length (take (Z.to_nat n) (drop pos c)))]> fs).
Proof.
  intros Hf. unfold read_. simpl. rewrite lookup_insert_eq. simpl. rewrite Hf. simpl.
  by rewrite set_fds_insert2.
Qed.

Lemma is_file_spec fs d :
  is_file fs d = true <-> exists p c, fs_files fs !! p = Some c /\ comps p = d.
Proof.
  unfold is_file. rewrite bool_decide_eq_true, list_elem_of_fmap. split.
  - intros ([p c] & -> & H%elem_of_map_to_list). by exists p, c.
  - intros (p & c & H & <-). exists (p, c). split; [done|]. by apply elem_of_map_to_list.
Qed.

Lemma is_file_insert fs p c d :
  is_file (set_files <[p := c]> fs) d = true <-> d = comps p \/ is_file fs d = true.
Proof.
  rewrite !is_file_spec. simpl. split.
  - intros (q & x & H & <-). destruct (decide (q = p)) as [->|Hq]; [by left|right].
    rewrite lookup_insert_ne in H by done. by exists q, x.
  - intros [->|(q & x & H & <-)]; [exists p, c; by rewrite lookup_insert_eq|].
    destruct (decide (q = p)) as [->|Hq]; [exists p, c; by rewrite lookup_insert_eq|].
    exists q, x. by rewrite lookup_insert_ne.
Qed.
