(* ===== verification/Float.v ===== *)
(** The C library's floating point as the firmware uses it: conversions, comparisons with
    integers, [strtod] and the [%g] and [%f] formats.

    A [float] or [double] is a [spec_float] of the Standard Library; arithmetic is that of
    [SpecFloat] at the format's precision. *)

From Stdlib Require Export SpecFloat.
From S2P Require Import Prelude.
#[local] Open Scope Z_scope.

Abbreviation float := spec_float.

(** Integers to [double] and [float]; between the two. *)
Definition f64_of_Z (z : Z) : float := binary_normalize 53 1024 z 0 false.
Definition f32_of_Z (z : Z) : float := binary_normalize 24 128 z 0 false.

Definition f32_of_f64 (x : float) : float :=
  match x with
  | S754_finite s m e => binary_round 24 128 s m e
  | _ => x
  end.
Definition f64_of_f32 (x : float) : float :=
  match x with
  | S754_finite s m e => binary_round 53 1024 s m e
  | _ => x
  end.

Definition f64_add := SFadd 53 1024.
Definition f64_sub := SFsub 53 1024.
Definition f64_mul := SFmul 53 1024.
Definition f64_div := SFdiv 53 1024.
Definition f32_add := SFadd 24 128.
Definition f32_sub := SFsub 24 128.
Definition f32_mul := SFmul 24 128.
Definition f32_div := SFdiv 24 128.

(** The value as a fraction [num / den]; [None] for an infinity or a NaN. *)
Definition sf_frac (x : float) : option (Z * Z) :=
  match x with
  | S754_zero _ => Some (0, 1)
  | S754_finite s m e =>
      let n := cond_Zopp s (Zpos m) in
      Some (if 0 <=? e then (n * 2 ^ e, 1) else (n, 2 ^ (- e)))
  | _ => None
  end.

(** Comparison with an integer that the format represents exactly. *)
Definition sf_cmp_Z (x : float) (z : Z) : option comparison :=
  match x with
  | S754_infinity s => Some (if s then Lt else Gt)
  | _ => match sf_frac x with Some (n, d) => Some (n ?= z * d) | None => None end
  end.
Definition sf_ge_Z (x : float) (z : Z) : bool :=
  match sf_cmp_Z x z with Some Gt | Some Eq => true | _ => false end.
Definition sf_le_Z (x : float) (z : Z) : bool :=
  match sf_cmp_Z x z with Some Lt | Some Eq => true | _ => false end.
Definition sf_eq_Z (x : float) (z : Z) : bool :=
  match sf_cmp_Z x z with Some Eq => true | _ => false end.

(** Conversion to an integer drops the fraction; [None] when there is no value. *)
Definition sf_trunc (x : float) : option Z :=
  match sf_frac x with Some (n, d) => Some (Z.quot n d) | None => None end.

(** A conversion to an integer type that holds [lo .. hi]; undefined outside. *)
Definition sf_cast (lo hi : Z) (x : float) : res Z :=
  match sf_trunc x with
  | Some z => if decide (lo <= z <= hi) then Ok z else Err Unspecified
  | None => Err Unspecified
  end.

(** ** Decimal numerals *)

Fixpoint dec_digits (fuel : nat) (n : Z) : bytes :=
  match fuel with
  | O => []
  | S fuel => (if n <? 10 then [] else dec_digits fuel (n / 10)) ++ [48 + n mod 10]
  end.

(** [%u] and [%d] *)
Definition print_u (n : Z) : bytes := dec_digits (S (Z.to_nat (Z.log2 n))) n.
Definition print_d (n : Z) : bytes := if n <? 0 then 45 :: print_u (- n) else print_u n.

Definition is_digit (c : Z) : bool := (48 <=? c) && (c <=? 57).

Fixpoint span_digits (s : bytes) : bytes * bytes :=
  match s with
  | [] => ([], [])
  | c :: s' => if is_digit c then let '(d, r) := span_digits s' in (c :: d, r) else ([], s)
  end.

Definition digits_val (acc : Z) (ds : bytes) : Z := fold_left (fun a c => a * 10 + (c - 48)) ds acc.

(** The [double] nearest to [m * 10 ^ e], ties to even. *)
Definition f64_of_dec (s : bool) (m e : Z) : float :=
  match m with
  | Zpos p =>
      if 0 <=? e then
        match m * 10 ^ e with Zpos q => binary_round 53 1024 s q 0 | _ => S754_zero s end
      else
        let '(q, e', l) := SFdiv_core_binary 53 1024 m 0 (10 ^ (- e)) 0 in
        binary_round_aux 53 1024 s q e' l
  | _ => S754_zero s
  end.

(** [strtod] on text without spaces, letters other than the exponent's, or hexadecimals:
    the value and the text behind it, [None] when nothing is converted. *)
Definition strtod (s : bytes) : option (float * bytes) :=
  let '(neg, s1) := match s with
                    | c :: r => if c =? 45 then (true, r) else if c =? 43 then (false, r) else (false, s)
                    | [] => (false, s)
                    end in
  let '(ip, s2) := span_digits s1 in
  let '(fp, s3) := match s2 with
                   | c :: r => if c =? 46 then span_digits r else ([], s2)
                   | [] => ([], s2)
                   end in
  match ip ++ fp with
  | [] => None
  | ds =>
      let '(ex, s4) :=
        match s3 with
        | c :: r =>
            if (c =? 101) || (c =? 69) then
              let '(eneg, r1) := match r with
                                 | c' :: r' => if c' =? 45 then (true, r')
                                               else if c' =? 43 then (false, r') else (false, r)
                                 | [] => (false, r)
                                 end in
              match span_digits r1 with
              | ([], _) => (0, s3)
              | (eds, r2) => (if eneg : bool then - digits_val 0 eds else digits_val 0 eds, r2)
              end
            else (0, s3)
        | [] => (0, s3)
        end in
      Some (f64_of_dec neg (digits_val 0 ds) (ex - Zlen fp), s4)
  end.

(** ** [%f] and [%g] *)

(** The integer nearest to [n / d], ties to even ([0 <= n], [0 < d]). *)
Definition round_div (n d : Z) : Z :=
  let q := n / d in
  let r := n mod d in
  match 2 * r ?= d with
  | Lt => q
  | Gt => q + 1
  | Eq => if Z.even q then q else q + 1
  end.

Definition sf_neg (x : float) : bool :=
  match x with S754_zero s | S754_infinity s | S754_finite s _ _ => s | S754_nan => false end.

(** Zeros in front, up to [n] digits. *)
Definition pad0 (n : nat) (s : bytes) : bytes := replicate (n - length s) 48 ++ s.

(** [%.<p>f] *)
Definition sprintf_f (p : nat) (x : float) : bytes :=
  match sf_frac x with
  | None => match x with
            | S754_infinity s => if s then cs "-inf" else cs "inf"
            | _ => cs "nan"
            end
  | Some (n, d) =>
      let ds := pad0 (S p) (print_u (round_div (Z.abs n * 10 ^ Z.of_nat p) d)) in
      (if sf_neg x then [45] else []) ++
      take (length ds - p) ds ++
      (if decide (p = O) then [] else 46 :: drop (length ds - p) ds)
  end.

(** The decimal exponent of [n / d > 0]: [10^x <= n/d < 10^(x+1)]. *)
Fixpoint dec_exp_neg (fuel : nat) (n d : Z) : Z :=
  match fuel with
  | O => 0
  | S fuel => if d <=? n then 0 else dec_exp_neg fuel (10 * n) d - 1
  end.
Definition dec_exp (n d : Z) : Z :=
  if d <=? n then Zlen (print_u (n / d)) - 1 else dec_exp_neg 400 n d.

(** Trailing zeros, and a point left at the end, are not printed. *)
Definition strip_zeros (s : bytes) : bytes :=
  reverse ((fix go s := match s with c :: r => if c =? 48 then go r else s | [] => [] end) (reverse s)).

(** [%.<p>g], [0 < p] *)
Definition sprintf_g (p : Z) (x : float) : bytes :=
  match sf_frac x with
  | None => match x with
            | S754_infinity s => if s then cs "-inf" else cs "inf"
            | _ => cs "nan"
            end
  | Some (n, d) =>
      (if sf_neg x then [45] else []) ++
      if n =? 0 then [48] else
      let scale e := if 0 <=? e then round_div (Z.abs n * 10 ^ e) d
                     else round_div (Z.abs n) (d * 10 ^ (- e)) in
      let e0 := dec_exp (Z.abs n) d in
      let r := scale (p - 1 - e0) in
      let '(r, e) := if r =? 10 ^ p then (r / 10, e0 + 1) else (r, e0) in
      let ds := print_u r in
      if (-4 <=? e) && (e <? p) then
        let ds := pad0 (Z.to_nat (p - Z.min e 0)) ds in
        let k := Z.to_nat (Z.max e 0 + 1) in
        match strip_zeros (drop k ds) with
        | [] => take k ds
        | fr => take k ds ++ 46 :: fr
        end
      else
        match strip_zeros (drop 1 ds) with
        | [] => take 1 ds
        | fr => take 1 ds ++ 46 :: fr
        end ++ [101; if e <? 0 then 45 else 43] ++ pad0 2 (print_u (Z.abs e))
  end.

(** ** Lemmas *)

Section exact.
Context (prec emax : Z) (Hprec : 0 < prec) (Hemax : prec + 3 < emax).

Lemma digits2_pos_log2 p : Zpos (digits2_pos p) = Z.log2 (Zpos p) + 1.
Proof.
  induction p as [p IH|p IH|]; [..|done]; simpl digits2_pos; rewrite Pos2Z.inj_succ, IH.
  - rewrite Pos2Z.inj_xI, Z.log2_succ_double by lia. lia.
  - rewrite Pos2Z.inj_xO, Z.log2_double by lia. lia.
Qed.

Lemma iter_xO p k : Zpos (Pos.iter xO p k) = Zpos p * 2 ^ Zpos k.
Proof.
  induction k as [|k IH] using Pos.peano_ind; [simpl; lia|].
  rewrite Pos.iter_succ, Pos2Z.inj_xO, IH, Pos2Z.inj_succ, Z.pow_succ_r by lia. lia.
Qed.

(** An integer that fits the mantissa is represented exactly. *)
Lemma round_exact s p :
  Zpos p < 2 ^ prec ->
  exists m e, binary_round prec emax s p 0 = S754_finite s m e /\ e <= 0 /\
    Zpos m = Zpos p * 2 ^ (- e).
Proof.
  intros Hp. assert (Z.log2 (Zpos p) < prec) as Hl by (apply Z.log2_lt_pow2; lia).
  pose proof (Z.log2_nonneg (Zpos p)) as Hl0.
  set (d := Z.log2 (Zpos p) + 1) in *.
  assert (fexp prec emax (Zpos (digits2_pos p) + 0) = d - prec) as Ef.
  { rewrite digits2_pos_log2. unfold fexp, SpecFloat.emin. lia. }
  assert (exists m, shl_align p 0 (d - prec) = (m, d - prec) /\
            Zpos m = Zpos p * 2 ^ (prec - d)) as (m & Es & Hm).
  { unfold shl_align. rewrite Z.sub_0_r. destruct (d - prec) as [|k|k] eqn:E; [|lia|].
    - exists p. split; [done|]. replace (prec - d) with 0 by lia. lia.
    - exists (Pos.iter xO p k). split; [done|]. rewrite iter_xO. do 2 f_equal. lia. }
  assert (Zdigits2 (Zpos m) = prec) as Hd.
  { simpl Zdigits2. rewrite digits2_pos_log2, Hm, Z.log2_mul_pow2 by lia. lia. }
  exists m, (d - prec). unfold binary_round. rewrite Ef, Es.
  assert (forall m', Z.pos m' = Z.pos m ->
    shr_fexp prec emax (Zpos m') (d - prec) loc_Exact =
      (shr_record_of_loc (Zpos m) loc_Exact, d - prec)) as Hshr.
  { intros m' ->. unfold shr_fexp. rewrite Hd.
    replace (fexp prec emax (prec + (d - prec)) - (d - prec)) with 0; [done|].
    unfold fexp, SpecFloat.emin. lia. }
  unfold binary_round_aux. rewrite Hshr by done. simpl shr_m.
  simpl round_nearest_even. rewrite Hshr by done. simpl shr_m.
  destruct (Z.leb_spec (d - prec) (emax - prec)); [|lia].
  split; [done|]. split; [lia|]. rewrite Hm. do 2 f_equal. lia.
Qed.

Lemma normalize_exact z :
  Z.abs z < 2 ^ prec ->
  exists n d, sf_frac (binary_normalize prec emax z 0 false) = Some (n, d) /\ 0 < d /\ n = z * d.
Proof.
  intros Hz. destruct z as [|p|p]; simpl binary_normalize.
  - exists 0, 1. done.
  - destruct (round_exact false p Hz) as (m & e & -> & He & Hm). simpl.
    destruct (Z.leb_spec 0 e).
    + assert (e = 0) as -> by lia. exists (Zpos m * 2 ^ 0), 1. split; [done|].
      change (2 ^ (- 0)) with 1 in Hm. change (2 ^ 0) with 1. lia.
    + exists (Zpos m), (2 ^ (- e)). split; [done|]. split; [lia|done].
  - destruct (round_exact true p Hz) as (m & e & -> & He & Hm). simpl.
    destruct (Z.leb_spec 0 e).
    + assert (e = 0) as -> by lia. exists (- Zpos m * 2 ^ 0), 1. split; [done|].
      change (2 ^ (- 0)) with 1 in Hm. change (2 ^ 0) with 1.
      change (Z.neg p) with (- Zpos p). lia.
    + exists (- Zpos m), (2 ^ (- e)). split; [done|]. split; [lia|].
      change (Z.neg p) with (- Zpos p). lia.
Qed.
End exact.

Lemma f64_of_Z_cmp z w :
  Z.abs z < 2 ^ 53 -> sf_cmp_Z (f64_of_Z z) w = Some (z ?= w) /\ sf_trunc (f64_of_Z z) = Some z.
Proof.
  intros Hz. destruct (normalize_exact 53 1024 ltac:(lia) ltac:(lia) z Hz) as (n & d & E & Hd & ->).
  unfold sf_trunc, sf_cmp_Z, f64_of_Z in *. rewrite E. rewrite Z.quot_mul by lia. split; [|done].
  assert ((z * d ?= w * d) = (z ?= w)) as Hc.
  { destruct (Z.compare_spec z w).
    - subst. by apply Z.compare_eq_iff.
    - apply Z.compare_lt_iff. nia.
    - apply Z.compare_gt_iff. nia. }
  rewrite Hc. destruct (binary_normalize 53 1024 z 0 false); try done.
Qed.

Lemma f64_of_Z_no_nan z : Z.abs z < 2 ^ 53 -> sf_frac (f64_of_Z z) <> None.
Proof.
  intros Hz. destruct (normalize_exact 53 1024 ltac:(lia) ltac:(lia) z Hz) as (n & d & E & _).
  unfold f64_of_Z. by rewrite E.
Qed.

(** Printing and reading back an integer. *)
Lemma digits_val_app a s t : digits_val a (s ++ t) = digits_val (digits_val a s) t.
Proof. apply fold_left_app. Qed.

(** The decimal numeral has no leading zero, so it is as short as the number allows. *)
Lemma dec_digits_bound fuel n k :
  0 <= n < 10 ^ Z.of_nat (S k) -> (length (dec_digits fuel n) <= S k)%nat.
Proof.
  revert n k. induction fuel as [|fuel IH]; intros n k Hn; [simpl; lia|]. cbn [dec_digits].
  rewrite length_app. simpl. destruct (Z.ltb_spec n 10) as [|Hge]; simpl; [lia|].
  destruct k as [|k]; [simpl in Hn; lia|].
  rewrite Nat2Z.inj_succ, Z.pow_succ_r in Hn by lia.
  specialize (IH (n / 10) k ltac:(zlia)). lia.
Qed.

Lemma dec_digits_val fuel n :
  0 <= n < 10 ^ Z.of_nat fuel ->
  digits_val 0 (dec_digits fuel n) = n /\ Forall (fun c => is_digit c = true) (dec_digits fuel n).
Proof.
  revert n. induction fuel as [|fuel IH]; intros n Hn; [simpl in *; split; [lia|done]|].
  rewrite Nat2Z.inj_succ, Z.pow_succ_r in Hn by lia. cbn [dec_digits].
  assert (is_digit (48 + n mod 10) = true) as Hd.
  { unfold is_digit. apply andb_true_iff. split; apply Z.leb_le; zlia. }
  destruct (Z.ltb_spec n 10).
  - split; [cbn; zlia|by repeat constructor].
  - destruct (IH (n / 10)) as [E F]; [zlia|]. rewrite digits_val_app, E. split.
    + cbn. zlia.
    + apply Forall_app. by repeat constructor.
Qed.

Lemma print_u_spec n :
  0 <= n -> digits_val 0 (print_u n) = n /\ Forall (fun c => is_digit c = true) (print_u n) /\
  print_u n <> [].
Proof.
  intros Hn. unfold print_u.
  destruct (dec_digits_val (S (Z.to_nat (Z.log2 n))) n) as [E F].
  { rewrite Nat2Z.inj_succ, Z2Nat.id by apply Z.log2_nonneg. split; [done|].
    apply Z.lt_le_trans with (2 ^ Z.succ (Z.log2 n)).
    - destruct (decide (n = 0)) as [->|]; [done|]. apply Z.log2_spec. lia.
    - apply Z.pow_le_mono_l. lia. }
  split; [done|]. split; [done|]. cbn [dec_digits]. intros [_ ?]%app_eq_nil. done.
Qed.

Lemma span_digits_app ds r :
  Forall (fun c => is_digit c = true) ds ->
  match r with c :: _ => is_digit c = false | [] => True end -> span_digits (ds ++ r) = (ds, r).
Proof.
  intros Hds Hr. induction Hds as [|c ds Hc _ IH]; simpl.
  - destruct r; simpl; [done|]. by rewrite Hr.
  - by rewrite Hc, IH.
Qed.

(** [strtod] of what [%d] prints, when no part of a longer numeral follows. *)
Lemma strtod_print_d z r :
  match r with
  | c :: _ => is_digit c = false /\ c <> 46 /\ c <> 101 /\ c <> 69
  | [] => True
  end -> strtod (print_d z ++ r) = Some (f64_of_Z z, r).
Proof.
  intros Hr.
  assert (forall s n, 0 <= n -> f64_of_dec s n 0 =
    match n with Zpos q => binary_round 53 1024 s q 0 | _ => S754_zero s end) as Hdec.
  { intros s [|q|q] Hn; [done| |lia]. unfold f64_of_dec. simpl (0 <=? 0). cbv iota.
    change (10 ^ 0) with 1. by rewrite Z.mul_1_r. }
  assert (match r with [] => True | c :: _ => is_digit c = false end) as Hr' by (destruct r; tauto).
  assert (forall n, 0 <= n ->
    match r with
    | c :: r' => if c =? 46 then span_digits r' else ([] : bytes, r)
    | [] => ([], r)
    end = ([], r) /\ span_digits (print_u n ++ r) = (print_u n, r)) as Hspan.
  { intros n Hn. destruct (print_u_spec n Hn) as (_ & F & _). split; [|by apply span_digits_app].
    destruct r as [|c r]; [done|]. destruct Hr as (_ & H46 & _).
    by rewrite (proj2 (Z.eqb_neq c 46)). }
  assert (match r with
          | c :: _ => (c =? 101) || (c =? 69) = false
          | [] => True
          end) as Hexp.
  { destruct r as [|c r]; [done|]. destruct Hr as (_ & _ & ?%Z.eqb_neq & ?%Z.eqb_neq).
    by apply orb_false_iff. }
  unfold strtod, print_d. destruct (Z.ltb_spec z 0) as [Hz|Hz].
  - cbn [app]. change (45 =? 45) with true. cbv iota.
    destruct (Hspan (- z)) as [Hp Hs]; [lia|]. rewrite Hs, Hp.
    destruct (print_u_spec (- z)) as (Hv & _ & Hne); [lia|]. rewrite app_nil_r.
    destruct (print_u (- z)) as [|c ds] eqn:Ed; [done|]. rewrite Hv.
    replace (match r with [] => _ | _ => _ end) with (0, r)
      by (destruct r; [done|by rewrite Hexp]).
    change (0 - Zlen []) with 0. rewrite Hdec by lia.
    destruct z as [|p|p]; try lia. done.
  - destruct (Hspan z Hz) as [Hp Hs].
    destruct (print_u_spec z Hz) as (Hv & F & Hne).
    destruct (print_u z) as [|c ds] eqn:Ed; [done|].
    apply Forall_cons in F as [Hc _].
    assert ((c =? 45) = false /\ (c =? 43) = false) as [E45 E43].
    { unfold is_digit in Hc. lia. }
    change ((c :: ds) ++ r) with (c :: (ds ++ r)) in Hs |- *. cbv iota beta. rewrite E45, E43, Hs, Hp.
    rewrite app_nil_r, Hv.
    replace (match r with [] => _ | _ => _ end) with (0, r)
      by (destruct r; [done|by rewrite Hexp]).
    change (0 - Zlen []) with 0. rewrite Hdec by lia.
    destruct z as [|p|p]; try lia; done.
Qed.
