(* ===== verification/Json.v ===== *)
(** The cJSON package, [packages/cJSON-v1.7.17/cJSON.c], as the configuration file and the
    server messages use it: reading and building trees, the parser and the printer.

    A [parse_buffer] is the text from its offset to its length, whose last byte is the
    string's NUL; its [depth] is an argument.  A [printbuffer] is the text printed so far
    ([ensure] makes room for it).  Allocation succeeds. *)

From S2P Require Import Prelude Float.
#[local] Open Scope Z_scope.

(** An item; an object's children carry their key. *)
Inductive cJSON :=
  | cJSON_NULL
  | cJSON_False
  | cJSON_True
  | cJSON_Number (valuedouble : float)
  | cJSON_String (valuestring : bytes)
  | cJSON_Array (child : list cJSON)
  | cJSON_Object (child : list (bytes * cJSON)).

(** ** Reading a tree *)

Definition INT_MAX : Z := 2147483647.
Definition INT_MIN : Z := -2147483648.

(** [cJSON_SetNumberHelper]'s and [parse_number]'s saturation. *)
Definition saturate (number : float) : Z :=
  if sf_ge_Z number INT_MAX then INT_MAX
  else if sf_le_Z number INT_MIN then INT_MIN
  else default 0 (sf_trunc number).

(** The fields of an item: the constructor zeroes it, [parse_value] sets [valueint] for
    [true]. *)
Definition valueint (j : cJSON) : Z :=
  match j with cJSON_Number d => saturate d | cJSON_True => 1 | _ => 0 end.
Definition valuedouble (j : cJSON) : float :=
  match j with cJSON_Number d => d | _ => S754_zero false end.
Definition valuestring (j : cJSON) : option bytes :=
  match j with cJSON_String s => Some s | _ => None end.

Definition tolower (c : Z) : Z := if (65 <=? c) && (c <=? 90) then c + 32 else c.

(** [case_insensitive_strcmp] is 0. *)
Definition case_insensitive_eq (s t : bytes) : bool := bool_decide (map tolower s = map tolower t).

(** [get_object_item]: the first child with the name, ignoring case. *)
Fixpoint get_object_item (child : list (bytes * cJSON)) (name : bytes) : option cJSON :=
  match child with
  | [] => None
  | (string, item) :: child =>
      if case_insensitive_eq name string then Some item else get_object_item child name
  end.

Definition cJSON_GetObjectItem (object : option cJSON) (name : bytes) : option cJSON :=
  match object with
  | Some (cJSON_Object child) => get_object_item child name
  | _ => None
  end.

Definition cJSON_GetArraySize (array : option cJSON) : Z :=
  match array with
  | Some (cJSON_Array child) => Zlen child
  | Some (cJSON_Object child) => Zlen child
  | _ => 0
  end.

Definition cJSON_GetArrayItem (array : option cJSON) (index : Z) : option cJSON :=
  if index <? 0 then None else
  match array with
  | Some (cJSON_Array child) => child !! Z.to_nat index
  | Some (cJSON_Object child) => snd <$> child !! Z.to_nat index
  | _ => None
  end.

(** ** Building a tree *)

Definition cJSON_CreateObject : cJSON := cJSON_Object [].
Definition cJSON_CreateArray : cJSON := cJSON_Array [].

(** An item goes to the end of the list of children. *)
Definition cJSON_AddItemToObject (object : cJSON) (name : bytes) (item : cJSON) : cJSON :=
  match object with
  | cJSON_Object child => cJSON_Object (child ++ [(name, item)])
  | _ => object
  end.
Definition cJSON_AddItemToArray (array item : cJSON) : cJSON :=
  match array with
  | cJSON_Array child => cJSON_Array (child ++ [item])
  | _ => array
  end.
Definition cJSON_AddStringToObject (object : cJSON) (name s : bytes) : cJSON :=
  cJSON_AddItemToObject object name (cJSON_String s).
Definition cJSON_AddNumberToObject (object : cJSON) (name : bytes) (number : float) : cJSON :=
  cJSON_AddItemToObject object name (cJSON_Number number).

(** ** The parser *)

Definition is_ws (c : Z) : bool := c <=? 32.

Fixpoint drop_ws (s : bytes) : bytes :=
  match s with
  | c :: r => if is_ws c then drop_ws r else s
  | [] => []
  end.

(** At the end of the buffer the offset steps back to the last byte. *)
Definition buffer_skip_whitespace (s : bytes) : bytes :=
  match drop_ws s with
  | [] => match last s with Some c => [c] | None => [] end
  | r => r
  end.

Definition skip_utf8_bom (s : bytes) : bytes :=
  if (5 <=? Zlen s) && bool_decide (take 3 s = [239; 187; 191]) then drop 3 s else s.

Definition is_numchar (c : Z) : bool :=
  is_digit c || (c =? 43) || (c =? 45) || (c =? 101) || (c =? 69) || (c =? 46).

Fixpoint take_numchars (n : nat) (s : bytes) : bytes :=
  match n, s with
  | S n, c :: r => if is_numchar c then c :: take_numchars n r else []
  | _, _ => []
  end.

Definition parse_number (s : bytes) : option (cJSON * bytes) :=
  let number_c_string := take_numchars 63 s in
  match strtod number_c_string with
  | None => None
  | Some (number, after_end) =>
      Some (cJSON_Number number, drop (length number_c_string - length after_end) s)
  end.

(** [parse_hex4]: an invalid digit gives 0. *)
Definition hex_digit (c : Z) : option Z :=
  if (48 <=? c) && (c <=? 57) then Some (c - 48)
  else if (65 <=? c) && (c <=? 70) then Some (10 + c - 65)
  else if (97 <=? c) && (c <=? 102) then Some (10 + c - 97)
  else None.

Fixpoint parse_hex (h : Z) (s : bytes) : Z :=
  match s with
  | [] => h
  | c :: s => match hex_digit c with
              | Some d => parse_hex (h * 16 + d) s
              | None => 0
              end
  end.
Definition parse_hex4 (s : bytes) : Z := parse_hex 0 (take 4 s).

(** The bytes of a code point, and how many. *)
Fixpoint utf8_tail (n : nat) (cp : Z) (tail : bytes) : Z * bytes :=
  match n with
  | O => (cp, tail)
  | S n => utf8_tail n (Z.shiftr cp 6) (Z.land (Z.lor cp 128) 191 :: tail)
  end.

Definition utf8_encode (cp : Z) : option bytes :=
  if cp <? 128 then Some [Z.land cp 127]
  else
    let enc n mark := let '(c, t) := utf8_tail n cp [] in Some (Z.land (Z.lor c mark) 255 :: t) in
    if cp <? 2048 then enc 1%nat 192
    else if cp <? 65536 then enc 2%nat 224
    else if cp <=? 1114111 then enc 3%nat 240
    else None.

(** [b] is the text from the backslash to [input_end]: the bytes put out and the length of
    the sequence. *)
Definition utf16_literal_to_utf8 (b : bytes) : option (bytes * nat) :=
  if Zlen b <? 6 then None else
  let first_code := parse_hex4 (drop 2 b) in
  if (56320 <=? first_code) && (first_code <=? 57343) then None else
  if (55296 <=? first_code) && (first_code <=? 56319) then
    let second := drop 6 b in
    if Zlen second <? 6 then None else
    if negb (bool_decide (take 2 second = [92; 117])) then None else
    let second_code := parse_hex4 (drop 2 second) in
    if (second_code <? 56320) || (57343 <? second_code) then None else
    let codepoint := 65536 + Z.lor (Z.shiftl (Z.land first_code 1023) 10)
                                   (Z.land second_code 1023) in
    (fun out => (out, 12%nat)) <$> utf8_encode codepoint
  else (fun out => (out, 6%nat)) <$> utf8_encode first_code.

(** The text up to the closing quote, and behind it. *)
Fixpoint string_end (s : bytes) : option (bytes * bytes) :=
  match s with
  | [] => None
  | c :: r =>
      if c =? 34 then Some ([], r)
      else if c =? 92 then
        match r with
        | [] => None
        | d :: r => (fun '(b, t) => (c :: d :: b, t)) <$> string_end r
        end
      else (fun '(b, t) => (c :: b, t)) <$> string_end r
  end.

(** The loop through the string literal; every turn takes at least one byte.  A backslash
    that ends the body is followed by the closing quote. *)
Fixpoint unescape (fuel : nat) (b : bytes) : option bytes :=
  match b, fuel with
  | [], _ => Some []
  | _, O => None
  | c :: r, S fuel =>
      if negb (c =? 92) then (cons c) <$> unescape fuel r
      else
        let d := default 34 (head r) in
        if d =? 98 then (cons 8) <$> unescape fuel (drop 1 r)
        else if d =? 102 then (cons 12) <$> unescape fuel (drop 1 r)
        else if d =? 110 then (cons 10) <$> unescape fuel (drop 1 r)
        else if d =? 114 then (cons 13) <$> unescape fuel (drop 1 r)
        else if d =? 116 then (cons 9) <$> unescape fuel (drop 1 r)
        else if (d =? 34) || (d =? 92) || (d =? 47) then (cons d) <$> unescape fuel (drop 1 r)
        else if d =? 117 then
          match utf16_literal_to_utf8 b with
          | None => None
          | Some (out, n) => (app out) <$> unescape fuel (drop n b)
          end
        else None
  end.

(** The bytes a reader of the C string sees. *)
Fixpoint until_nul (s : bytes) : bytes :=
  match s with
  | [] => []
  | c :: s => if c =? 0 then [] else c :: until_nul s
  end.

(** The string and the text behind it. *)
Definition parse_string (s : bytes) : res (option (bytes * bytes)) :=
  match s with
  | [] => Err OutOfBounds
  | c :: r =>
      if negb (c =? 34) then Ok None else
      match string_end r with
      | None => Ok None
      | Some (body, rest) =>
          match unescape (length body) body with
          | None => Ok None
          | Some output => Ok (Some (until_nul output, rest))
          end
      end
  end.

Definition CJSON_NESTING_LIMIT : Z := 1000.

(** The parser proper.  [parse_elements] and [parse_members] are the [do] loops of
    [parse_array] and [parse_object]; their text starts behind the separator. *)
Fixpoint parse_value (fuel : nat) (depth : Z) (s : bytes) : res (option (cJSON * bytes)) :=
  match fuel with
  | O => Err Spin
  | S fuel =>
      if bool_decide (take 4 s = cs "null") then Ok (Some (cJSON_NULL, drop 4 s))
      else if bool_decide (take 5 s = cs "false") then Ok (Some (cJSON_False, drop 5 s))
      else if bool_decide (take 4 s = cs "true") then Ok (Some (cJSON_True, drop 4 s))
      else
        match s with
        | [] => Ok None
        | c :: r =>
            if c =? 34 then
              o ← parse_string s;
              match o with
              | Some (v, rest) => Ok (Some (cJSON_String v, rest))
              | None => Ok None
              end
            else if (c =? 45) || is_digit c then Ok (parse_number s)
            else if c =? 91 then
              (* parse_array *)
              if CJSON_NESTING_LIMIT <=? depth then Ok None else
              match buffer_skip_whitespace r with
              | [] => Ok None
              | c' :: r' =>
                  if c' =? 93 then Ok (Some (cJSON_Array [], r'))
                  else
                    o ← parse_elements fuel (depth + 1) (c' :: r');
                    match o with
                    | Some (l, c'' :: rest) =>
                        if c'' =? 93 then Ok (Some (cJSON_Array l, rest)) else Ok None
                    | _ => Ok None
                    end
              end
            else if c =? 123 then
              (* parse_object *)
              if CJSON_NESTING_LIMIT <=? depth then Ok None else
              match buffer_skip_whitespace r with
              | [] => Ok None
              | c' :: r' =>
                  if c' =? 125 then Ok (Some (cJSON_Object [], r'))
                  else
                    o ← parse_members fuel (depth + 1) (c' :: r');
                    match o with
                    | Some (l, c'' :: rest) =>
                        if c'' =? 125 then Ok (Some (cJSON_Object l, rest)) else Ok None
                    | _ => Ok None
                    end
              end
            else Ok None
        end
  end
with parse_elements (fuel : nat) (depth : Z) (s : bytes) : res (option (list cJSON * bytes)) :=
  match fuel with
  | O => Err Spin
  | S fuel =>
      o ← parse_value fuel depth (buffer_skip_whitespace s);
      match o with
      | None => Ok None
      | Some (v, s) =>
          let s := buffer_skip_whitespace s in
          match s with
          | c :: r =>
              if c =? 44 then
                o ← parse_elements fuel depth r;
                match o with
                | Some (vs, s) => Ok (Some (v :: vs, s))
                | None => Ok None
                end
              else Ok (Some ([v], s))
          | [] => Ok (Some ([v], s))
          end
      end
  end
with parse_members (fuel : nat) (depth : Z) (s : bytes)
    : res (option (list (bytes * cJSON) * bytes)) :=
  match fuel with
  | O => Err Spin
  | S fuel =>
      k ← parse_string (buffer_skip_whitespace s);
      match k with
      | None => Ok None
      | Some (name, s) =>
          match buffer_skip_whitespace s with
          | [] => Ok None
          | c :: r =>
              if negb (c =? 58) then Ok None else
              o ← parse_value fuel depth (buffer_skip_whitespace r);
              match o with
              | None => Ok None
              | Some (v, s) =>
                  let s := buffer_skip_whitespace s in
                  match s with
                  | c :: r =>
                      if c =? 44 then
                        o ← parse_members fuel depth r;
                        match o with
                        | Some (vs, s) => Ok (Some ((name, v) :: vs, s))
                        | None => Ok None
                        end
                      else Ok (Some ([(name, v)], s))
                  | [] => Ok (Some ([(name, v)], s))
                  end
              end
          end
      end
  end.

(** [cJSON_Parse]: [None] for NULL.  The buffer goes up to the NUL of the string. *)
Definition cJSON_Parse (value : bytes) : res (option cJSON) :=
  s ← cstr value;
  let content := s ++ [0] in
  o ← parse_value (2 * length content) 0 (buffer_skip_whitespace (skip_utf8_bom content));
  Ok (match o with Some (item, _) => Some item | None => None end).

(** ** The printer *)

Definition compare_double (a b : float) : bool :=
  let maxVal := if SFltb (SFabs b) (SFabs a) then SFabs a else SFabs b in
  (* DBL_EPSILON is 2^-52 *)
  SFleb (SFabs (f64_sub a b)) (f64_mul maxVal (binary_round 53 1024 false 1 (-52))).

(** [print_number]; [None] when the 26 bytes of [number_buffer] do not hold it. *)
Definition print_number (d : float) : option bytes :=
  let number_buffer :=
    match sf_frac d with
    | None => cs "null"
    | Some _ =>
        if sf_eq_Z d (saturate d) then print_d (saturate d)
        else
          let b := sprintf_g 15 d in
          match strtod b with
          | Some (test, _) => if compare_double test d then b else sprintf_g 17 d
          | None => sprintf_g 17 d
          end
    end in
  if Zlen number_buffer <=? 25 then Some number_buffer else None.

Definition hex_char (n : Z) : Z := if n <? 10 then 48 + n else 87 + n.

Definition escape_byte (c : Z) : bytes :=
  if (31 <? c) && negb (c =? 34) && negb (c =? 92) then [c]
  else 92 ::
    (if c =? 92 then [92] else if c =? 34 then [34] else if c =? 8 then [98]
     else if c =? 12 then [102] else if c =? 10 then [110] else if c =? 13 then [114]
     else if c =? 9 then [116]
     else [117; 48; 48; hex_char (c / 16); hex_char (c mod 16)]).

Definition print_string_ptr (input : bytes) : bytes := 34 :: concat (map escape_byte input) ++ [34].

(** The loops of [print_array] and [print_object] over the children, with what
    [print_value] does for one of them; [depth] is the depth inside. *)
Section children.
Context (print : cJSON -> option bytes) (format : bool) (depth : nat).

Fixpoint print_elements (l : list cJSON) : option bytes :=
  match l with
  | [] => Some []
  | x :: l =>
      t ← print x;
      r ← print_elements l;
      Some (t ++ match l with [] => [] | _ => 44 :: if format then [32] else [] end ++ r)
  end.

Fixpoint print_members (l : list (bytes * cJSON)) : option bytes :=
  match l with
  | [] => Some []
  | (k, x) :: l =>
      t ← print x;
      r ← print_members l;
      Some ((if format then replicate depth 9 else []) ++ print_string_ptr k ++
            58 :: (if format then [9] else []) ++ t ++
            match l with [] => [] | _ => [44] end ++ (if format then [10] else []) ++ r)
  end.
End children.

Fixpoint print_value (format : bool) (depth : nat) (item : cJSON) : option bytes :=
  match item with
  | cJSON_NULL => Some (cs "null")
  | cJSON_False => Some (cs "false")
  | cJSON_True => Some (cs "true")
  | cJSON_Number d => print_number d
  | cJSON_String s => Some (print_string_ptr s)
  | cJSON_Array child =>
      body ← print_elements (print_value format (S depth)) format child;
      Some (91 :: body ++ [93])
  | cJSON_Object child =>
      body ← print_members (print_value format (S depth)) format (S depth) child;
      Some (123 :: (if format then [10] else []) ++ body ++
            (if format then replicate depth 9 else []) ++ [125])
  end.

Definition cJSON_Print (item : cJSON) : option bytes := print_value true 0 item.
Definition cJSON_PrintUnformatted (item : cJSON) : option bytes := print_value false 0 item.

(** ** Strings *)

(** A byte a C string can hold. *)
Definition cchar (c : Z) : Prop := 0 < c < 256.
#[export] Instance cchar_dec c : Decision (cchar c).
Proof. unfold cchar. apply _. Defined.

Lemma small_cases (P : Z -> Prop) (n : nat) c :
  Forall P (seqZ 0 (Z.of_nat n)) -> 0 <= c < Z.of_nat n -> P c.
Proof. rewrite Forall_forall. intros H Hc. apply H, elem_of_seqZ. lia. Qed.

Inductive escaped (c : Z) : bytes -> Prop :=
  | esc_plain : 31 < c -> c <> 34 -> c <> 92 -> escaped c [c]
  | esc_short d : d <> 117 ->
      (forall fuel r, unescape (S fuel) (92 :: d :: r) = cons c <$> unescape fuel r) ->
      escaped c [92; d]
  | esc_utf a b : a <> 34 -> a <> 92 -> b <> 34 -> b <> 92 -> parse_hex4 [48; 48; a; b] = c ->
      c < 32 -> escaped c [92; 117; 48; 48; a; b].

Lemma escape_byte_cases c : cchar c -> escaped c (escape_byte c).
Proof.
  intros Hc. destruct (Z.le_gt_cases c 31) as [Hs|Hb].
  - assert (0 <= c < Z.of_nat 32) as Hr by (unfold cchar in Hc; simpl; lia).
    revert Hc. apply (small_cases (fun c => cchar c -> escaped c (escape_byte c)) 32); [|done].
    let l := eval vm_compute in (seqZ 0 (Z.of_nat 32)) in change (seqZ 0 (Z.of_nat 32)) with l.
    repeat apply Forall_cons_2; try apply Forall_nil_2; cbv beta; intros Hc;
      try (exfalso; unfold cchar in Hc; lia);
      match goal with |- escaped ?c ?t => let t' := eval vm_compute in t in change (escaped c t') end;
      first [apply esc_short; [discriminate|by intros]
            |apply esc_utf; (discriminate || reflexivity)].
  - unfold escape_byte. destruct (Z.ltb_spec 31 c); [|lia].
    destruct (Z.eqb_spec c 34) as [->|]; [apply esc_short; [discriminate|reflexivity]|].
    destruct (Z.eqb_spec c 92) as [->|]; [apply esc_short; [discriminate|reflexivity]|].
    by apply esc_plain.
Qed.

Lemma string_end_escape c t r :
  escaped c t ->
  string_end (t ++ r) = (fun '(b, u) => (t ++ b, u)) <$> string_end r.
Proof.
  intros [Hl H34 H92|d Hd _|a b Ha34 Ha92 Hb34 Hb92 _ _]; cbn [app string_end].
  - rewrite (proj2 (Z.eqb_neq c 34)), (proj2 (Z.eqb_neq c 92)) by done.
    by destruct (string_end r) as [[]|].
  - simpl. by destruct (string_end r) as [[]|].
  - simpl. rewrite (proj2 (Z.eqb_neq a 34)), (proj2 (Z.eqb_neq a 92)) by done.
    rewrite (proj2 (Z.eqb_neq b 34)), (proj2 (Z.eqb_neq b 92)) by done.
    by destruct (string_end r) as [[]|].
Qed.

Lemma unescape_escape c t fuel r :
  cchar c -> escaped c t -> unescape (S fuel) (t ++ r) = cons c <$> unescape fuel r.
Proof.
  intros Hc [Hl H34 H92|d Hd Hu|a b Ha34 Ha92 Hb34 Hb92 Hh Hlt]; cbn [app].
  - cbn [unescape]. by rewrite (proj2 (Z.eqb_neq c 92)).
  - apply Hu.
  - assert (utf16_literal_to_utf8 (92 :: 117 :: 48 :: 48 :: a :: b :: r) = Some ([c], 6%nat)) as Eu.
    { unfold utf16_literal_to_utf8.
      assert (6 <= Zlen (92 :: 117 :: 48 :: 48 :: a :: b :: r)) as Hl by (unfold Zlen; simpl; lia).
      destruct (Z.ltb_spec (Zlen (92 :: 117 :: 48 :: 48 :: a :: b :: r)) 6); [lia|].
      change (parse_hex4 (drop 2 (92 :: 117 :: 48 :: 48 :: a :: b :: r)))
        with (parse_hex4 [48; 48; a; b]). rewrite Hh. unfold cchar in Hc.
      destruct (Z.leb_spec 56320 c); [lia|]. destruct (Z.leb_spec 55296 c); [lia|]. simpl.
      unfold utf8_encode. destruct (Z.ltb_spec c 128); [|lia]. simpl.
      change 127 with (Z.ones 7). rewrite Z.land_ones, Z.mod_small by lia. done. }
    cbn [unescape]. simpl (negb (92 =? 92)). cbv iota. simpl (default _ _).
    change (117 =? 98) with false. change (117 =? 102) with false. change (117 =? 110) with false.
    change (117 =? 114) with false. change (117 =? 116) with false. change (117 =? 34) with false.
    change (117 =? 92) with false. change (117 =? 47) with false. change (117 =? 117) with true.
    cbv iota beta. simpl orb. cbv iota. rewrite Eu. done.
Qed.

Lemma unescape_mono fuel fuel' b o :
  (fuel <= fuel')%nat -> unescape fuel b = Some o -> unescape fuel' b = Some o.
Proof.
  revert fuel' b o. induction fuel as [|fuel IH]; intros fuel' b o Hle; destruct b as [|c r];
    try (destruct fuel'; done).
  destruct fuel' as [|fuel']; [lia|]. cbn [unescape]. intros H.
  assert (forall k d, k <$> unescape fuel d = Some o -> k <$> unescape fuel' d = Some o) as HM.
  { intros k d. destruct (unescape fuel d) as [u|] eqn:E; [|done]. by rewrite (IH fuel' d u ltac:(lia) E). }
  repeat (case_match; try done; try by apply HM).
Qed.

Lemma string_round_trip s rest :
  Forall cchar s -> parse_string (print_string_ptr s ++ rest) = Ok (Some (s, rest)).
Proof.
  intros Hs. unfold print_string_ptr, parse_string. cbn [app]. simpl (negb (34 =? 34)). cbv iota.
  rewrite <- app_assoc. cbn [app].
  assert (string_end (concat (map escape_byte s) ++ 34 :: rest) =
            Some (concat (map escape_byte s), rest)) as E.
  { induction Hs as [|c s Hc _ IH]; [done|]. cbn [map concat]. rewrite <- app_assoc.
    rewrite (string_end_escape c) by (by apply escape_byte_cases). by rewrite IH. }
  rewrite E.
  assert (unescape (length (concat (map escape_byte s))) (concat (map escape_byte s)) = Some s) as U.
  { clear E. induction Hs as [|c s Hc _ IH]; [done|]. cbn [map concat].
    pose proof (escape_byte_cases c Hc) as He. rewrite length_app.
    assert (exists n, length (escape_byte c) = S n) as [n Hn] by (destruct He; by eexists).
    rewrite Hn. cbn [Nat.add]. rewrite (unescape_escape c) by done.
    rewrite (unescape_mono _ _ _ _ (Nat.le_add_l _ n) IH). done. }
  rewrite U.
  assert (until_nul s = s) as ->; [|done].
  clear E U. induction Hs as [|c s Hc _ IH]; [done|]. simpl. unfold cchar in Hc.
  destruct (Z.eqb_spec c 0); [lia|]. by rewrite IH.
Qed.

(** ** Well-formed trees

    [json_wf n j]: nesting at most [n]; the strings can be C strings, the numbers are [int]s. *)
Inductive json_wf : nat -> cJSON -> Prop :=
  | wf_null n : json_wf n cJSON_NULL
  | wf_false n : json_wf n cJSON_False
  | wf_true n : json_wf n cJSON_True
  | wf_number n z : INT_MIN <= z <= INT_MAX -> json_wf n (cJSON_Number (f64_of_Z z))
  | wf_string n s : Forall cchar s -> json_wf n (cJSON_String s)
  | wf_array n l : Forall (json_wf n) l -> json_wf (S n) (cJSON_Array l)
  | wf_object n l :
      Forall (fun kv => Forall cchar kv.1 /\ json_wf n kv.2) l -> json_wf (S n) (cJSON_Object l).

Lemma saturate_int z : INT_MIN <= z <= INT_MAX -> saturate (f64_of_Z z) = z.
Proof.
  intros Hz. assert (Z.abs z < 2 ^ 53) as Hz' by (unfold INT_MIN, INT_MAX in Hz; lia).
  unfold saturate, sf_ge_Z, sf_le_Z.
  rewrite (proj1 (f64_of_Z_cmp z INT_MAX Hz')), (proj1 (f64_of_Z_cmp z INT_MIN Hz')),
    (proj2 (f64_of_Z_cmp z 0 Hz')). simpl.
  destruct (Z.compare_spec z INT_MAX); [done| |lia].
  destruct (Z.compare_spec z INT_MIN); [done|lia|done].
Qed.

Lemma print_number_int z :
  INT_MIN <= z <= INT_MAX -> print_number (f64_of_Z z) = Some (print_d z) /\
  Forall (fun c => is_numchar c = true) (print_d z) /\ (length (print_d z) <= 11)%nat /\
  exists c r, print_d z = c :: r /\ (c = 45 \/ is_digit c = true).
Proof.
  intros Hz. assert (Z.abs z < 2 ^ 53) as Hz' by (unfold INT_MIN, INT_MAX in Hz; lia).
  assert (forall n, 0 <= n < 10 ^ 10 -> (length (print_u n) <= 10)%nat) as Hlen.
  { intros n Hn. by apply dec_digits_bound. }
  assert (length (print_d z) <= 11)%nat as Hl.
  { unfold print_d, INT_MIN, INT_MAX in *. destruct (Z.ltb_spec z 0); simpl;
      [specialize (Hlen (- z) ltac:(lia)); lia|specialize (Hlen z ltac:(lia)); lia]. }
  assert (forall n, 0 <= n -> Forall (fun c => is_numchar c = true) (print_u n) /\
    exists c r, print_u n = c :: r /\ is_digit c = true) as Hu.
  { intros n Hn. destruct (print_u_spec n Hn) as (_ & F & Hne). split.
    - eapply Forall_impl; [exact F|]. intros c Hc. unfold is_numchar. by rewrite Hc.
    - destruct (print_u n) as [|c r]; [done|]. exists c, r. split; [done|].
      by apply Forall_cons in F as [? _]. }
  split; [|split; [|split; [done|]]].
  - unfold print_number. destruct (sf_frac (f64_of_Z z)) eqn:E;
      [|by apply f64_of_Z_no_nan in E].
    rewrite saturate_int by done. unfold sf_eq_Z. rewrite (proj1 (f64_of_Z_cmp z z Hz')), Z.compare_refl.
    destruct (Z.leb_spec (Zlen (print_d z)) 25); [done|]. unfold Zlen in *. lia.
  - unfold print_d. destruct (Z.ltb_spec z 0); [constructor; [done|]|]; apply Hu; lia.
  - unfold print_d. destruct (Z.ltb_spec z 0).
    + eexists _, _. split; [done|]. by left.
    + destruct (Hu z) as (_ & c & r & E & Hc); [lia|]. exists c, r. split; [done|]. by right.
Qed.

Lemma take_numchars_app n t c r :
  Forall (fun c => is_numchar c = true) t -> (length t <= n)%nat -> is_numchar c = false ->
  take_numchars n (t ++ c :: r) = t.
Proof.
  intros Ht Hn Hc. revert n Hn. induction Ht as [|d t Hd _ IH]; intros n Hn.
  - destruct n; simpl; [done|]. by rewrite Hc.
  - destruct n as [|n]; simpl in *; [lia|]. rewrite Hd. f_equal. apply IH. lia.
Qed.

Lemma number_round_trip z c r :
  INT_MIN <= z <= INT_MAX -> is_numchar c = false ->
  parse_number (print_d z ++ c :: r) = Some (cJSON_Number (f64_of_Z z), c :: r).
Proof.
  intros Hz Hc. destruct (print_number_int z Hz) as (_ & F & Hl & _).
  unfold parse_number. rewrite take_numchars_app by (done || lia).
  rewrite <- (app_nil_r (print_d z)) at 1. rewrite strtod_print_d by done.
  simpl. rewrite Nat.sub_0_r. by rewrite drop_app_length.
Qed.

(** ** White space *)

Lemma drop_ws_app ws r :
  Forall (fun c => is_ws c = true) ws ->
  match r with c :: _ => is_ws c = false | [] => False end -> buffer_skip_whitespace (ws ++ r) = r.
Proof.
  intros Hws Hr. unfold buffer_skip_whitespace.
  assert (drop_ws (ws ++ r) = r) as ->.
  { induction Hws as [|c ws Hc _ IH]; simpl; [|by rewrite Hc].
    destruct r; [done|]. simpl. by rewrite Hr. }
  by destruct r.
Qed.

(** The head of a value's text: not white space, not a closing bracket. *)
Definition value_head (t : bytes) : Prop :=
  match t with c :: _ => 32 < c < 128 /\ c <> 93 /\ c <> 125 | [] => False end.
(** What may follow a value. *)
Definition value_end (r : bytes) : Prop :=
  match r with c :: _ => is_numchar c = false | [] => False end.

Lemma skip_value ws t r :
  Forall (fun c => is_ws c = true) ws -> value_head t ->
  buffer_skip_whitespace (ws ++ t ++ r) = t ++ r.
Proof.
  intros Hws Ht. apply drop_ws_app; [done|]. destruct t as [|c t]; [done|]. simpl in *.
  unfold is_ws. apply Z.leb_gt. lia.
Qed.

Lemma skip_punct ws c r :
  Forall (fun c => is_ws c = true) ws -> 32 < c -> buffer_skip_whitespace (ws ++ c :: r) = c :: r.
Proof. intros Hws Hc. apply drop_ws_app; [done|]. unfold is_ws. by apply Z.leb_gt. Qed.

Lemma skip_punct0 c r : 32 < c -> buffer_skip_whitespace (c :: r) = c :: r.
Proof. intros. by apply (skip_punct []). Qed.

Lemma skip_value0 t r : value_head t -> buffer_skip_whitespace (t ++ r) = t ++ r.
Proof. intros. by apply (skip_value []). Qed.

Lemma skip_idem s : buffer_skip_whitespace (buffer_skip_whitespace s) = buffer_skip_whitespace s.
Proof.
  unfold buffer_skip_whitespace at 2 3. destruct (drop_ws s) as [|c r] eqn:E.
  - destruct (last s) as [c|] eqn:El; [|done].
    assert (is_ws c = true) as Hc.
    { revert El. induction s as [|d s IH]; [done|]. simpl in E. destruct (is_ws d) eqn:Hd; [|done].
      rewrite last_cons. destruct (last s); [by apply IH|congruence]. }
    unfold buffer_skip_whitespace. simpl. by rewrite Hc.
  - apply (drop_ws_app []); [done|]. revert E. induction s as [|d s IH]; simpl; [done|].
    destruct (is_ws d) eqn:Hd; [done|]. by intros [= <- <-].
Qed.

Lemma parse_members_skip fuel d s :
  parse_members fuel d (buffer_skip_whitespace s) = parse_members fuel d s.
Proof. destruct fuel as [|fuel]; [done|]. cbn [parse_members]. by rewrite skip_idem. Qed.

(** ** The round trip *)

(** The text [t] of [j] is read back, whatever value may follow. *)
Definition reads_back (n : nat) (j : cJSON) (t : bytes) : Prop :=
  value_head t /\
  forall rest d fuel, value_end rest -> d + Z.of_nat n <= CJSON_NESTING_LIMIT ->
    (2 * length t <= fuel)%nat -> parse_value fuel d (t ++ rest) = Ok (Some (j, rest)).

Lemma keyword_reads n j s :
  s ∈ [cs "null"; cs "false"; cs "true"] ->
  (forall fuel d rest, parse_value (S fuel) d (s ++ rest) = Ok (Some (j, rest))) ->
  reads_back n j s.
Proof.
  intros Hs H. split.
  - repeat (apply elem_of_cons in Hs as [->|Hs]; [simpl; lia|]). by apply elem_of_nil in Hs.
  - intros rest d fuel _ _ Hf. destruct fuel as [|fuel]; [|apply H].
    repeat (apply elem_of_cons in Hs as [->|Hs]; [simpl in Hf; lia|]). by apply elem_of_nil in Hs.
Qed.

(** A value whose text starts with a quote, a digit, a minus or a bracket. *)
Lemma parse_value_head fuel d c r :
  c <> 110 -> c <> 102 -> c <> 116 ->
  parse_value (S fuel) d (c :: r) =
    if c =? 34 then
      match parse_string (c :: r) with
      | Ok (Some (v, rest)) => Ok (Some (cJSON_String v, rest))
      | Ok None => Ok None
      | Err e => Err e
      end
    else if (c =? 45) || is_digit c then Ok (parse_number (c :: r))
    else if c =? 91 then
      if CJSON_NESTING_LIMIT <=? d then Ok None else
      match buffer_skip_whitespace r with
      | [] => Ok None
      | c' :: r' =>
          if c' =? 93 then Ok (Some (cJSON_Array [], r'))
          else match parse_elements fuel (d + 1) (c' :: r') with
               | Ok (Some (l, c'' :: rest)) =>
                   if c'' =? 93 then Ok (Some (cJSON_Array l, rest)) else Ok None
               | Ok _ => Ok None
               | Err e => Err e
               end
      end
    else if c =? 123 then
      if CJSON_NESTING_LIMIT <=? d then Ok None else
      match buffer_skip_whitespace r with
      | [] => Ok None
      | c' :: r' =>
          if c' =? 125 then Ok (Some (cJSON_Object [], r'))
          else match parse_members fuel (d + 1) (c' :: r') with
               | Ok (Some (l, c'' :: rest)) =>
                   if c'' =? 125 then Ok (Some (cJSON_Object l, rest)) else Ok None
               | Ok _ => Ok None
               | Err e => Err e
               end
      end
    else Ok None.
Proof.
  intros H1 H2 H3. cbn [parse_value].
  assert (forall n k s, k <> c -> bool_decide (take (S n) (c :: r) = k :: s) = false) as Hb.
  { intros n k s Hk. apply bool_decide_eq_false. simpl. congruence. }
  change (cs "null") with (110 :: cs "ull"). change (cs "false") with (102 :: cs "alse").
  change (cs "true") with (116 :: cs "rue"). rewrite !Hb by congruence.
  unfold mbind, res_bind.
  repeat case_match; try done; congruence.
Qed.

Lemma elements_round_trip (p : cJSON -> option bytes) format n l :
  l <> [] -> Forall (fun x => exists t, p x = Some t /\ reads_back n x t) l ->
  exists body, print_elements p format l = Some body /\ value_head body /\
    forall ws rest d fuel, Forall (fun c => is_ws c = true) ws ->
      d + Z.of_nat n <= CJSON_NESTING_LIMIT -> (2 * length body + 1 <= fuel)%nat ->
      parse_elements fuel d (ws ++ body ++ 93 :: rest) = Ok (Some (l, 93 :: rest)).
Proof.
  intros Hne Hl. induction Hl as [|x l (t & Ht & Hh & Hread) Hl IH]; [done|]. cbn [print_elements].
  rewrite Ht. simpl mbind. destruct l as [|y l].
  - exists t. simpl. rewrite app_nil_r. split; [done|]. split; [done|].
    intros ws rest d [|fuel] Hws Hd Hf; [lia|]. cbn [parse_elements].
    rewrite skip_value by done. rewrite Hread by (done || lia). simpl mbind. cbv iota beta.
    rewrite ?skip_punct0 by done. done.
  - destruct IH as (body & Hb & Hbh & Hbread); [done|]. rewrite Hb. simpl mbind.
    set (sep := if format then [32] else []). exists (t ++ 44 :: sep ++ body).
    split; [done|]. split; [by destruct t|].
    intros ws rest d [|fuel] Hws Hd Hf; [lia|]. cbn [parse_elements].
    rewrite length_app in Hf. cbn [length] in Hf. rewrite length_app in Hf.
    rewrite <- app_assoc. cbn [app]. rewrite <- app_assoc.
    rewrite skip_value by done. rewrite Hread by (done || lia). simpl mbind. cbv iota beta.
    rewrite ?skip_punct0 by done. simpl (44 =? 44). cbv iota.
    rewrite Hbread; [done| |done|lia].
    unfold sep. destruct format; by repeat constructor.
Qed.

#[local] Opaque print_string_ptr.

Lemma members_round_trip (p : cJSON -> option bytes) format depth n l :
  l <> [] ->
  Forall (fun kv => Forall cchar kv.1 /\ exists t, p kv.2 = Some t /\ reads_back n kv.2 t) l ->
  exists body, print_members p format depth l = Some body /\
    (exists ind b, body = ind ++ 34 :: b /\ Forall (fun c => is_ws c = true) ind) /\
    forall ws tabs rest d fuel,
      Forall (fun c => is_ws c = true) ws -> Forall (fun c => is_ws c = true) tabs ->
      d + Z.of_nat n <= CJSON_NESTING_LIMIT -> (2 * length body + 1 <= fuel)%nat ->
      parse_members fuel d (ws ++ body ++ tabs ++ 125 :: rest) = Ok (Some (l, 125 :: rest)).
Proof.
  intros Hne Hl.
  induction Hl as [|[k x] l (Hk & t & Ht & Hh & Hread) Hl IH]; [done|].
  cbn [fst snd] in Hk, Ht, Hread. cbn [print_members]. rewrite Ht. simpl mbind.
  set (ind := if format then replicate depth 9 else []).
  set (tab := if format then [9] else []). set (nl := if format then [10] else []).
  assert (Forall (fun c => is_ws c = true) ind /\ Forall (fun c => is_ws c = true) tab /\
          Forall (fun c => is_ws c = true) nl) as (Hind & Htab & Hnl).
  { unfold ind, tab, nl. destruct format; split; [by apply Forall_replicate|split; by repeat constructor
      |done|done]. }
  (* one member, up to its value *)
  assert (forall ws body d fuel, Forall (fun c => is_ws c = true) ws -> value_end body ->
    d + Z.of_nat n <= CJSON_NESTING_LIMIT -> (2 * length t <= fuel)%nat ->
    parse_members (S fuel) d (ws ++ ind ++ print_string_ptr k ++ 58 :: tab ++ t ++ body) =
      match buffer_skip_whitespace body with
      | c :: r =>
          if c =? 44 then
            o ← parse_members fuel d r;
            match o with Some (vs, s) => Ok (Some ((k, x) :: vs, s)) | None => Ok None end
          else Ok (Some ([(k, x)], c :: r))
      | [] => Ok (Some ([(k, x)], []))
      end) as Hone.
  { intros ws body d fuel Hws Hbody Hd Hf. cbn [parse_members]. rewrite app_assoc.
    rewrite skip_value by (by apply Forall_app || done).
    rewrite string_round_trip by done. simpl mbind. cbv iota beta.
    rewrite ?skip_punct0 by done. simpl (negb (58 =? 58)). cbv iota.
    rewrite skip_value by done. rewrite Hread by done. simpl mbind. cbv iota beta. by destruct (buffer_skip_whitespace body). }
  destruct l as [|y l].
  - eexists. split; [done|]. split; [by eexists ind, _|].
    intros ws tabs rest d [|fuel] Hws Htabs Hd Hf; [lia|]. revert Hf.
    rewrite !length_app. cbn [length]. rewrite !length_app. intros Hf.
    rewrite <- !app_assoc. cbn [app]. rewrite <- !app_assoc. cbn [app].
    rewrite Hone; [|done|unfold nl; destruct format; [done|by destruct Htabs as [|c tabs Hc]; simpl;
      [done|unfold is_ws, is_numchar, is_digit in *; lia]]|done|lia].
    rewrite app_assoc. rewrite (skip_punct (nl ++ tabs)) by (by apply Forall_app || done). done.
  - destruct IH as (body & Hb & _ & Hbread); [done|]. rewrite Hb. simpl mbind.
    eexists. split; [done|]. split; [by eexists ind, _|].
    intros ws tabs rest d [|fuel] Hws Htabs Hd Hf; [lia|]. revert Hf.
    rewrite !length_app. cbn [length]. rewrite !length_app. cbn [length]. rewrite !length_app. intros Hf.
    rewrite <- !app_assoc. cbn [app]. rewrite <- !app_assoc. cbn [app]. rewrite <- ?app_assoc.
    rewrite Hone; [|done|done|done|lia].
    rewrite ?skip_punct0 by done. simpl (44 =? 44). cbv iota.
    rewrite Hbread by (done || lia). done.
Qed.

#[local] Transparent print_string_ptr.

(** The bracket that opens an array or object, and the nesting limit. *)
Lemma parse_bracket fuel d c r :
  c = 91 \/ c = 123 -> d < CJSON_NESTING_LIMIT ->
  parse_value (S fuel) d (c :: r) =
    match buffer_skip_whitespace r with
    | [] => Ok None
    | c' :: r' =>
        if c =? 91 then
          if c' =? 93 then Ok (Some (cJSON_Array [], r'))
          else match parse_elements fuel (d + 1) (c' :: r') with
               | Ok (Some (l, c'' :: rest)) =>
                   if c'' =? 93 then Ok (Some (cJSON_Array l, rest)) else Ok None
               | Ok _ => Ok None
               | Err e => Err e
               end
        else
          if c' =? 125 then Ok (Some (cJSON_Object [], r'))
          else match parse_members fuel (d + 1) (c' :: r') with
               | Ok (Some (l, c'' :: rest)) =>
                   if c'' =? 125 then Ok (Some (cJSON_Object l, rest)) else Ok None
               | Ok _ => Ok None
               | Err e => Err e
               end
    end.
Proof.
  intros Hc Hd. rewrite parse_value_head by lia.
  destruct (Z.leb_spec CJSON_NESTING_LIMIT d); [lia|].
  destruct Hc as [-> | ->]; simpl (_ =? _); by destruct (buffer_skip_whitespace r).
Qed.

Lemma number_reads_back n z :
  INT_MIN <= z <= INT_MAX -> reads_back n (cJSON_Number (f64_of_Z z)) (print_d z).
Proof.
  intros Hz. destruct (print_number_int z Hz) as (_ & F & Hl & c & r & E & Hc).
  assert (45 <= c <= 57) as Hcr by (unfold is_digit in Hc; lia).
  split; [rewrite E; simpl; lia|].
  intros [|e rest] d [|fuel] Hend _ Hf; [done|done|rewrite E in Hf; simpl in Hf; lia|].
  assert (parse_number (print_d z ++ e :: rest) = Some (cJSON_Number (f64_of_Z z), e :: rest)) as Hp
    by (by apply number_round_trip).
  rewrite E in *. cbn [app] in *. rewrite parse_value_head by lia.
  destruct (Z.eqb_spec c 34); [lia|].
  assert ((c =? 45) || is_digit c = true) as ->
    by (destruct Hc as [-> | ->]; [done|by rewrite orb_true_r]).
  by rewrite Hp.
Qed.

Lemma string_reads_back n s :
  Forall cchar s -> reads_back n (cJSON_String s) (print_string_ptr s).
Proof.
  intros Hs. split; [simpl; lia|].
  intros rest d [|fuel] _ _ Hf; [simpl in Hf; lia|].
  pose proof (string_round_trip s rest Hs) as Hp. unfold print_string_ptr in *. cbn [app] in *.
  rewrite parse_value_head by lia. simpl (34 =? 34). cbv iota. by rewrite Hp.
Qed.

Lemma array_reads_back (p : cJSON -> option bytes) format n l :
  Forall (fun x => exists t, p x = Some t /\ reads_back n x t) l ->
  exists body, print_elements p format l = Some body /\
    reads_back (S n) (cJSON_Array l) (91 :: body ++ [93]).
Proof.
  intros Hl. destruct (decide (l = [])) as [->|Hne].
  - eexists. split; [done|]. split; [simpl; lia|].
    intros rest d [|fuel] _ Hd Hf; [simpl in Hf; lia|]. cbn [app].
    by rewrite parse_bracket by (tauto || lia).
  - destruct (elements_round_trip p format n l Hne Hl) as (body & Hb & Hh & Hread).
    exists body. split; [done|]. split; [simpl; lia|].
    intros rest d [|fuel] _ Hd Hf; [simpl in Hf; lia|]. cbn [app]. rewrite <- app_assoc. cbn [app].
    rewrite parse_bracket by (tauto || lia). rewrite skip_value0 by done.
    cbn [length] in Hf. rewrite length_app in Hf.
    specialize (Hread [] rest (d + 1) fuel ltac:(done) ltac:(lia) ltac:(simpl in Hf; lia)).
    destruct body as [|c body]; [done|]. cbn [app] in *. rewrite Hread.
    simpl in Hh. by rewrite (proj2 (Z.eqb_neq c 93)) by lia.
Qed.

Lemma object_reads_back (p : cJSON -> option bytes) format depth n l :
  Forall (fun kv => Forall cchar kv.1 /\ exists t, p kv.2 = Some t /\ reads_back n kv.2 t) l ->
  exists body, print_members p format (S depth) l = Some body /\
    reads_back (S n) (cJSON_Object l)
      (123 :: (if format then [10] else []) ++ body ++
         (if format then replicate depth 9 else []) ++ [125]).
Proof.
  intros Hl. set (nl := if format then [10] else []).
  set (tabs := if format then replicate depth 9 else []).
  assert (Forall (fun c => is_ws c = true) nl /\ Forall (fun c => is_ws c = true) tabs) as [Hnl Htabs].
  { unfold nl, tabs. destruct format; [|done].
    split; [by repeat constructor|by apply Forall_replicate]. }
  destruct (decide (l = [])) as [->|Hne].
  - eexists. split; [done|]. split; [simpl; lia|].
    intros rest d [|fuel] _ Hd Hf; [simpl in Hf; lia|]. cbn [app].
    rewrite parse_bracket by (tauto || lia). rewrite <- !app_assoc. cbn [app]. rewrite app_assoc.
    by rewrite skip_punct by (by apply Forall_app || done).
  - destruct (members_round_trip p format (S depth) n l Hne Hl)
      as (body & Hb & (ind & b & Eb & Hind) & Hread).
    exists body. split; [done|]. split; [simpl; lia|].
    intros rest d [|fuel] _ Hd Hf; [simpl in Hf; lia|]. cbn [app].
    rewrite parse_bracket by (tauto || lia).
    cbn [length] in Hf. rewrite !length_app in Hf. cbn [length] in Hf. rewrite <- !app_assoc. cbn [app].
    specialize (Hread nl tabs rest (d + 1) fuel Hnl Htabs ltac:(lia) ltac:(lia)).
    rewrite <- parse_members_skip in Hread.
    assert (buffer_skip_whitespace (nl ++ body ++ tabs ++ 125 :: rest) =
              34 :: b ++ tabs ++ 125 :: rest) as Esk.
    { rewrite Eb, <- app_assoc. cbn [app]. rewrite app_assoc.
      apply skip_punct; [by apply Forall_app|done]. }
    rewrite Esk in *. simpl (_ =? _). cbv iota. by rewrite Hread.
Qed.

(** What is printed of a well-formed tree is read back. *)
Lemma print_reads_back format n depth j :
  json_wf n j -> exists t, print_value format depth j = Some t /\ reads_back n j t.
Proof.
  revert depth j. induction n as [n IHn] using lt_wf_ind. intros depth j Hj.
  destruct Hj as [n|n|n|n z Hz|n s Hs|n l Hl|n l Hl]; cbn [print_value].
  1-3: eexists; split; [done|]; apply keyword_reads; [set_solver|done].
  - rewrite (proj1 (print_number_int z Hz)). eexists. split; [done|by apply number_reads_back].
  - eexists. split; [done|by apply string_reads_back].
  - destruct (array_reads_back (print_value format (S depth)) format n l) as (body & -> & H).
    { eapply Forall_impl; [exact Hl|]. intros x Hx. apply IHn; [lia|done]. }
    by eexists.
  - destruct (object_reads_back (print_value format (S depth)) format depth n l) as (body & -> & H).
    { eapply Forall_impl; [exact Hl|]. intros x [Hk Hx]. split; [done|]. apply IHn; [lia|done]. }
    by eexists.
Qed.

(** No NUL is printed. *)
Lemma print_string_no_nul s : Forall cchar s -> Forall (fun c => c <> 0) (print_string_ptr s).
Proof.
  intros Hs. unfold print_string_ptr. constructor; [done|]. apply Forall_app. split; [|by repeat constructor].
  induction Hs as [|c s Hc _ IH]; [done|]. cbn [map concat]. apply Forall_app. split; [|done].
  unfold escape_byte, hex_char, cchar in *.
  repeat case_match; repeat constructor; zlia.
Qed.

#[local] Arguments print_string_ptr : simpl never.

Lemma print_no_nul format n depth j t :
  json_wf n j -> print_value format depth j = Some t -> Forall (fun c => c <> 0) t.
Proof.
  revert depth j t. induction n as [n IHn] using lt_wf_ind. intros depth j t Hj.
  destruct Hj as [n|n|n|n z Hz|n s Hs|n l Hl|n l Hl]; cbn [print_value].
  1-3: intros [= <-]; by repeat constructor.
  - destruct (print_number_int z Hz) as (-> & F & _). intros [= <-].
    eapply Forall_impl; [exact F|]. intros c Hc ->. done.
  - intros [= <-]. by apply print_string_no_nul.
  - destruct (print_elements _ format l) as [body|] eqn:E; [|done]. intros [= <-].
    constructor; [done|]. apply Forall_app. split; [|by repeat constructor].
    revert body E. induction Hl as [|x l Hx _ IH]; cbn [print_elements]; [by intros ? [= <-]|].
    intros body. destruct (print_value format (S depth) x) as [u|] eqn:Eu; [|done].
    destruct (print_elements _ format l) as [b|] eqn:Eb; [|done]. intros [= <-].
    apply Forall_app. split; [eapply IHn; [|done|done]; lia|]. apply Forall_app.
    split; [destruct l, format; by repeat constructor|by apply IH].
  - destruct (print_members _ format _ l) as [body|] eqn:E; [|done]. intros [= <-].
    constructor; [done|]. rewrite !Forall_app.
    split; [destruct format; by repeat constructor|].
    split; [|split; [destruct format; [by apply Forall_replicate|done]|by repeat constructor]].
    revert body E. induction Hl as [|[k x] l [Hk Hx] _ IH]; cbn [print_members]; [by intros ? [= <-]|].
    cbn [fst snd] in *.
    intros body. destruct (print_value format (S depth) x) as [u|] eqn:Eu; [|done].
    destruct (print_members _ format _ l) as [b|] eqn:Eb; [|done].
    intros <-%(inj Some).
    rewrite Forall_app. split; [destruct format; [by apply (Forall_replicate _ (S depth))|done]|].
    rewrite Forall_app. split; [by apply print_string_no_nul|]. constructor; [done|].
    rewrite !Forall_app. split; [destruct format; by repeat constructor|].
    split; [eapply IHn; [|done|done]; lia|].
    split; [destruct l; by repeat constructor|].
    split; [destruct format; by repeat constructor|by apply IH].
Qed.

(** Printing then parsing. *)
Lemma json_print_parse format n j :
  json_wf n j -> Z.of_nat n <= CJSON_NESTING_LIMIT ->
  exists t, print_value format 0 j = Some t /\
    forall junk, cJSON_Parse (t ++ 0 :: junk) = Ok (Some j).
Proof.
  intros Hj Hn. destruct (print_reads_back format n 0 j Hj) as (t & Ht & Hh & Hread).
  exists t. split; [done|]. intros junk. unfold cJSON_Parse.
  rewrite cstr_app by (by eapply print_no_nul). simpl mbind.
  assert (skip_utf8_bom (t ++ [0]) = t ++ [0]) as ->.
  { unfold skip_utf8_bom. destruct t as [|c t]; [done|]. simpl in Hh.
    destruct (5 <=? _); [|done]. rewrite bool_decide_eq_false_2; [done|]. simpl. intros [= ? _]. lia. }
  rewrite skip_value0 by done. rewrite length_app.
  rewrite Hread; [done|done|lia|simpl; lia].
Qed.

(** C19. A tree of [int]s and C strings, nested no deeper than the parser's limit, is printed,
    formatted or not, and the text is parsed back to the same tree, whatever lies behind the
    text in its buffer. *)
Theorem json_round_trip format n j junk :
  json_wf n j -> Z.of_nat n <= CJSON_NESTING_LIMIT ->
  exists t, print_value format 0 j = Some t /\ cJSON_Parse (t ++ 0 :: junk) = Ok (Some j).
Proof.
  intros Hj Hn. destruct (json_print_parse format n j Hj Hn) as (t & Ht & Hp).
  exists t. split; [done|apply Hp].
Qed.

Lemma json_round_trip_witness :
  exists t, print_value true 0
      (cJSON_Object [(cs "a b", cJSON_Array [cJSON_Number (f64_of_Z (-7)); cJSON_True]);
                     (cs "c", cJSON_String [10; 34; 92; 1; 228; 184; 173])]) = Some t /\
    cJSON_Parse (t ++ [0; 125; 125]) =
      Ok (Some (cJSON_Object [(cs "a b", cJSON_Array [cJSON_Number (f64_of_Z (-7)); cJSON_True]);
                              (cs "c", cJSON_String [10; 34; 92; 1; 228; 184; 173])])).
Proof.
  apply (json_round_trip true 2 _ [125; 125]); [|unfold CJSON_NESTING_LIMIT; lia].
  apply wf_object. repeat constructor; unfold INT_MIN, INT_MAX; try lia;
    apply (bool_decide_unpack _); vm_compute; exact I.
Defined.

(** ** The parser stops and stays inside the string

    [nul_ended s]: the text goes up to the string's NUL. *)
Definition nul_ended (s : bytes) : Prop := last s = Some 0.

Lemma nul_ended_suffix a r : nul_ended (a ++ r) -> r <> [] -> nul_ended r.
Proof.
  unfold nul_ended. intros H Hr. rewrite last_app in H.
  destruct (last r) eqn:E; [done|]. by apply last_None in E.
Qed.

Lemma nul_ended_tail c r : nul_ended (c :: r) -> c <> 0 -> nul_ended r.
Proof.
  intros H Hc. apply (nul_ended_suffix [c] r H). intros ->. unfold nul_ended in H. simpl in H. congruence.
Qed.

Lemma skip_nul_ended s :
  nul_ended s -> nul_ended (buffer_skip_whitespace s) /\
    (length (buffer_skip_whitespace s) <= length s)%nat.
Proof.
  intros Hs. assert (exists a, s = a ++ drop_ws s) as [a Ha].
  { clear Hs. induction s as [|c s [a Ha]]; [by exists []|]. simpl. destruct (is_ws c).
    - exists (c :: a). simpl. by f_equal.
    - by exists []. }
  unfold buffer_skip_whitespace. rewrite Hs. destruct (drop_ws s) as [|c r] eqn:E.
  - split; [done|]. destruct s; [done|]. simpl. lia.
  - split; [|apply (f_equal length) in Ha; rewrite length_app in Ha; simpl in *; lia].
    rewrite Ha in Hs. by eapply nul_ended_suffix.
Qed.

Lemma string_end_spec s b r : string_end s = Some (b, r) -> s = b ++ 34 :: r.
Proof.
  revert b r. induction s as [s IH] using (induction_ltof1 _ length). unfold ltof in IH.
  intros b r. destruct s as [|c s]; [done|]. cbn [string_end].
  destruct (Z.eqb_spec c 34) as [->|]; [by intros [= <- <-]|].
  destruct (Z.eqb_spec c 92) as [->|].
  - destruct s as [|d s]; [done|]. destruct (string_end s) as [[b' r']|] eqn:E; [|done].
    intros [= <- <-]. simpl. rewrite (IH s) with b' r'; [done|simpl; lia|done].
  - destruct (string_end s) as [[b' r']|] eqn:E; [|done].
    intros [= <- <-]. simpl. rewrite (IH s) with b' r'; [done|simpl; lia|done].
Qed.

Lemma parse_string_nul s :
  nul_ended s -> exists o, parse_string s = Ok o /\
    forall v r, o = Some (v, r) -> nul_ended r /\ (length r < length s)%nat.
Proof.
  intros Hs. destruct s as [|c s]; [done|]. unfold parse_string.
  destruct (Z.eqb_spec c 34) as [->|]; simpl negb; cbv iota; [|by eexists].
  destruct (string_end s) as [[b r]|] eqn:E; [|by eexists].
  destruct (unescape _ _); [|by eexists]. eexists. split; [done|]. intros v r' [= _ <-].
  apply string_end_spec in E. subst s. split; [|simpl; rewrite length_app; simpl; lia].
  apply nul_ended_tail in Hs; [|done]. apply nul_ended_suffix in Hs; [|done].
  by apply nul_ended_tail in Hs.
Qed.

Lemma parse_number_nul s j r :
  nul_ended s -> parse_number s = Some (j, r) -> nul_ended r /\ (length r <= length s)%nat.
Proof.
  intros Hs.
  assert (forall n t, nul_ended t -> (length (take_numchars n t) < length t)%nat) as Hlen.
  { intros n t. revert n. induction t as [|c t IH]; intros n Ht; [done|].
    destruct n as [|n]; simpl; [lia|]. destruct (is_numchar c) eqn:Hc; simpl; [|lia].
    assert (nul_ended t) as Ht' by (apply nul_ended_tail in Ht; [done|by intros ->]).
    specialize (IH n Ht'). lia. }
  specialize (Hlen 63%nat s Hs). unfold parse_number. revert Hlen.
  generalize (take_numchars 63 s) as ncs. intros ncs Hlen.
  destruct (strtod ncs) as [[x e]|]; [|done]. intros [= _ <-].
  split; [|rewrite length_drop; lia].
  apply (nul_ended_suffix (take (length ncs - length e) s)); [by rewrite take_drop|].
  intros Hd. apply (f_equal length) in Hd. rewrite length_drop in Hd. simpl in Hd. lia.
Qed.

Lemma keyword_nul n w s :
  nul_ended s -> take n s = w -> length w = n -> Forall (fun c => c <> 0) w ->
  nul_ended (drop n s) /\ (length (drop n s) <= length s)%nat.
Proof.
  intros Hs Hw Hn Hz. split; [|rewrite length_drop; lia].
  apply (nul_ended_suffix (take n s)); [by rewrite take_drop|]. intros Hd.
  assert (s = w) as -> by (by rewrite <- Hw, <- (take_drop n s), Hd, app_nil_r, take_take, Nat.min_id).
  unfold nul_ended in Hs. apply last_Some in Hs as [l ->].
  apply Forall_app in Hz as [_ Hz]. inversion Hz. done.
Qed.

(** One call of the parser's functions is done when it has fuel for its text. *)
Definition parses {A} (m : res (option (A * bytes))) (s : bytes) : Prop :=
  exists o, m = Ok o /\ forall v r, o = Some (v, r) -> nul_ended r /\ (length r <= length s)%nat.

Lemma parses_none {A} s : parses (A := A) (Ok None) s.
Proof. by exists None. Qed.

Lemma parser_total fuel :
  (forall d s, nul_ended s -> (2 * length s <= fuel)%nat -> parses (parse_value fuel d s) s) /\
  (forall d s, nul_ended s -> (2 * length s + 1 <= fuel)%nat -> parses (parse_elements fuel d s) s) /\
  (forall d s, nul_ended s -> (2 * length s + 1 <= fuel)%nat -> parses (parse_members fuel d s) s).
Proof.
  induction fuel as [|fuel (IHv & IHe & IHm)].
  { split; [|split]; intros d [|c s] Hs Hf; simpl in Hf; done || lia. }
  split; [|split]; intros d s Hs Hf.
  - cbn [parse_value].
    case_bool_decide as H1; [eexists; split; [done|]; intros ? ? [= _ <-];
      by apply (keyword_nul 4 (cs "null")); [..|repeat constructor]|].
    case_bool_decide as H2; [eexists; split; [done|]; intros ? ? [= _ <-];
      by apply (keyword_nul 5 (cs "false")); [..|repeat constructor]|].
    case_bool_decide as H3; [eexists; split; [done|]; intros ? ? [= _ <-];
      by apply (keyword_nul 4 (cs "true")); [..|repeat constructor]|].
    destruct s as [|c r]; [apply parses_none|].
    destruct (Z.eqb_spec c 34).
    { destruct (parse_string_nul (c :: r) Hs) as ([[v r']|] & -> & Hr); simpl mbind; [|apply parses_none].
      eexists. split; [done|]. intros ? ? [= _ <-]. destruct (Hr v r' eq_refl). split; [done|lia]. }
    destruct ((c =? 45) || is_digit c).
    { eexists. split; [done|]. intros v r' E. by eapply parse_number_nul. }
    destruct (Z.eqb_spec c 91); [|destruct (Z.eqb_spec c 123); [|apply parses_none]];
      (destruct (CJSON_NESTING_LIMIT <=? d); [apply parses_none|];
       assert (nul_ended r) as Hr by (apply nul_ended_tail in Hs; [done|by subst]);
       destruct (skip_nul_ended r Hr) as [Hr1 Hl1];
       destruct (buffer_skip_whitespace r) as [|c' r'] eqn:E; [apply parses_none|]).
    + destruct (Z.eqb_spec c' 93) as [->|].
      { eexists. split; [done|]. intros ? ? [= _ <-].
        split; [by apply nul_ended_tail in Hr1|simpl in *; lia]. }
      destruct (IHe (d + 1) (c' :: r')) as ([[l rest]|] & -> & Hrest);
        [done|simpl in *; lia| |apply parses_none].
      destruct (Hrest l rest eq_refl) as [Hr2 Hl2]. simpl mbind. destruct rest as [|c'' rest]; [apply parses_none|].
      destruct (Z.eqb_spec c'' 93) as [->|]; [|apply parses_none].
      eexists. split; [done|]. intros ? ? [= _ <-].
      split; [by apply nul_ended_tail in Hr2|simpl in *; lia].
    + destruct (Z.eqb_spec c' 125) as [->|].
      { eexists. split; [done|]. intros ? ? [= _ <-].
        split; [by apply nul_ended_tail in Hr1|simpl in *; lia]. }
      destruct (IHm (d + 1) (c' :: r')) as ([[l rest]|] & -> & Hrest);
        [done|simpl in *; lia| |apply parses_none].
      destruct (Hrest l rest eq_refl) as [Hr2 Hl2]. simpl mbind. destruct rest as [|c'' rest]; [apply parses_none|].
      destruct (Z.eqb_spec c'' 125) as [->|]; [|apply parses_none].
      eexists. split; [done|]. intros ? ? [= _ <-].
      split; [by apply nul_ended_tail in Hr2|simpl in *; lia].
  - cbn [parse_elements]. destruct (skip_nul_ended s Hs) as [Hs1 Hl1].
    destruct (IHv d (buffer_skip_whitespace s) Hs1) as ([[v r]|] & -> & Hr); [lia| |apply parses_none].
    simpl mbind. destruct (Hr v r eq_refl) as [Hr1 Hl2]. destruct (skip_nul_ended r Hr1) as [Hr2 Hl3].
    destruct (buffer_skip_whitespace r) as [|c r'] eqn:E; [done|].
    destruct (Z.eqb_spec c 44) as [->|].
    + apply nul_ended_tail in Hr2; [|done].
      destruct (IHe d r' Hr2) as ([[vs rest]|] & -> & Hrest); [simpl in *; lia| |apply parses_none].
      simpl mbind. eexists. split; [done|]. intros ? ? [= _ <-].
      destruct (Hrest vs rest eq_refl). split; [done|simpl in *; lia].
    + eexists. split; [done|]. intros ? ? [= _ <-]. split; [done|lia].
  - cbn [parse_members]. destruct (skip_nul_ended s Hs) as [Hs1 Hl1].
    destruct (parse_string_nul (buffer_skip_whitespace s) Hs1) as ([[k r0]|] & -> & Hr0); [|apply parses_none].
    simpl mbind. destruct (Hr0 k r0 eq_refl) as [Hr01 Hl0]. destruct (skip_nul_ended r0 Hr01) as [Hr02 Hl02].
    destruct (buffer_skip_whitespace r0) as [|c0 r1] eqn:E0; [done|].
    destruct (Z.eqb_spec c0 58) as [->|]; simpl negb; cbv iota; [|apply parses_none].
    apply nul_ended_tail in Hr02; [|done]. destruct (skip_nul_ended r1 Hr02) as [Hs2 Hl4].
    destruct (IHv d (buffer_skip_whitespace r1) Hs2) as ([[v r]|] & -> & Hr); [simpl in *; lia| |apply parses_none].
    simpl mbind. destruct (Hr v r eq_refl) as [Hr1 Hl2]. destruct (skip_nul_ended r Hr1) as [Hr2 Hl3].
    destruct (buffer_skip_whitespace r) as [|c r'] eqn:E; [done|].
    destruct (Z.eqb_spec c 44) as [->|].
    + apply nul_ended_tail in Hr2; [|done].
      destruct (IHm d r' Hr2) as ([[vs rest]|] & -> & Hrest); [simpl in *; lia| |apply parses_none].
      simpl mbind. eexists. split; [done|]. intros ? ? [= _ <-].
      destruct (Hrest vs rest eq_refl). split; [done|simpl in *; lia].
    + eexists. split; [done|]. intros ? ? [= _ <-]. split; [done|simpl in *; lia].
Qed.

Lemma parse_ok s junk :
  Forall (fun c => c <> 0) s -> exists o, cJSON_Parse (s ++ 0 :: junk) = Ok o.
Proof.
  intros Hs. unfold cJSON_Parse. rewrite cstr_app by done. unfold mbind at 1, res_bind at 1. cbv zeta.
  assert (nul_ended (s ++ [0])) as H0 by (unfold nul_ended; by rewrite last_app).
  assert (nul_ended (skip_utf8_bom (s ++ [0])) /\
          (length (skip_utf8_bom (s ++ [0%Z])) <= length (s ++ [0%Z]))%nat) as [H1 Hl1].
  { unfold skip_utf8_bom. destruct (Z.leb_spec 5 (Zlen (s ++ [0]))); [|by simpl].
    case_bool_decide; [|by simpl]. simpl andb. cbv iota. split; [|rewrite length_drop; lia].
    apply (nul_ended_suffix (take 3 (s ++ [0]))); [by rewrite take_drop|].
    intros Hd. apply (f_equal length) in Hd. rewrite length_drop in Hd. unfold Zlen in *. simpl in Hd. lia. }
  destruct (skip_nul_ended _ H1) as [H2 Hl2].
  set (content := s ++ [0]) in *.
  destruct (proj1 (parser_total (2 * length content)) 0 _ H2) as (o & -> & _); [lia|].
  by eexists.
Qed.

(** C34. Whatever bytes it is given, [cJSON_Parse] ends (the fuel of the model is enough) and
    never reads behind the string's NUL. *)
Theorem json_parse_total s junk :
  Forall (fun c => c <> 0) s -> exists o, cJSON_Parse (s ++ 0 :: junk) = Ok o.
Proof. apply parse_ok. Qed.

Lemma json_parse_total_witness : exists o, cJSON_Parse (cs "[[1,{" ++ [0; 93]) = Ok o.
Proof. apply (json_parse_total (cs "[[1,{") [93]). repeat constructor; discriminate. Defined.
