(* ===== verification/DfsCfg.v ===== *)
(** The configuration record and its file: [applications/dfs/dfscfg.c].

    A [char] array is the list of its bytes, at its full size; the seven [weather_info_t]
    are one block of bytes with the layout of the struct, because the server's weather
    message is copied over it as bytes. *)

From S2P Require Import Prelude Posix Float Json.
#[local] Open Scope Z_scope.

Record ele_client_cfg_t := ClientCfg {
  username : bytes;            (* char[21] *)
  passwd : bytes;              (* char[21] *)
  cityname : bytes;            (* char[21] *)
  cityid : Z;                  (* uint32_t *)
  cntserver_interval : Z;      (* uint16_t *)
  version : Z;                 (* uint32_t *)
  battery : Z;                 (* uint8_t *)
}.

Record ele_ds_cfg_t := Cfg {
  clientcfg : ele_client_cfg_t;
  wifi_ssid : bytes;           (* uint8_t[32] *)
  wifi_passwd : bytes;         (* uint8_t[32] *)
  server_addr : bytes;         (* uint8_t[64] *)
  server_port : Z;             (* uint16_t *)
  curweather : Z;              (* weather_type_t *)
  weather_info : bytes;        (* weather_info_t[7] *)
  memo : bytes;                (* char[256] *)
  tcp_timeout : Z;             (* uint32_t *)
  alarm_enable : bool;
  alarm_time : Z;              (* time_t *)
  check : Z;                   (* uint32_t *)
}.

(** Layout of [weather_info_t]: offset and size of the members that are read. *)
Definition sizeof_weather_info : Z := 168.
Definition tempMax_off : Z := 55.
Definition tempMin_off : Z := 56.
Definition iconDay_off : Z := 57.
Definition iconDay_size : Z := 4.
Definition textDay_off : Z := 61.
Definition textDay_size : Z := 16.
Definition weather_days : Z := 7.
Definition sizeof_weather : Z := weather_days * sizeof_weather_info.

Definition CFGFILE_CHECK : Z := 2779096485.       (* 0xA5A5A5A5 *)
Definition SOFT_VERSION : Z := 621094913.         (* 0x25052801 *)
Definition CONFIG_FILE_PATH : bytes := cs "/sysfile/config".
Definition SYSFILE_PATH : bytes := cs "/sysfile".

Definition zeros (n : Z) : bytes := replicate (Z.to_nat n) 0.

(** [memset(cfg, 0, sizeof(ele_ds_cfg_t))] *)
Definition cfg_zero : ele_ds_cfg_t :=
  Cfg (ClientCfg (zeros 21) (zeros 21) (zeros 21) 0 0 0 0) (zeros 32) (zeros 32) (zeros 64)
    0 0 (zeros sizeof_weather) (zeros 256) 0 false 0 0.

(** [strncpy(dst, src, n)] into the first [n] bytes of [dst]. *)
Definition strncpy (dst src : bytes) (n : Z) : bytes :=
  let s := take (Z.to_nat n) src in
  s ++ replicate (Z.to_nat n - length s) 0 ++ drop (Z.to_nat n) dst.

Definition init_ele_ds_cfg : ele_ds_cfg_t :=
  Cfg (ClientCfg (zeros 21) (zeros 21) (zeros 21) 101010100 0 SOFT_VERSION 0)
    (strncpy (zeros 32) (cs "esp32-2.4G") 31)
    (strncpy (zeros 32) (cs "12345678..") 31)
    (strncpy (zeros 64) (cs "60.215.128.73") 63)
    12675 0 (zeros sizeof_weather) (zeros 256) 3000 false 0 CFGFILE_CHECK.

(** ** To JSON *)

Definition day_off (i : Z) : Z := i * sizeof_weather_info.

(** A string member of the day at [off]. *)
Definition day_string (w : bytes) (off size : Z) : res bytes := s ← slice w off size; cstr s.

Definition weather_item (w : bytes) (i : Z) : res cJSON :=
  let item := cJSON_CreateObject in
  icon ← day_string w (day_off i + iconDay_off) iconDay_size;
  let item := cJSON_AddStringToObject item (cs "iconDay") icon in
  text ← day_string w (day_off i + textDay_off) textDay_size;
  let item := cJSON_AddStringToObject item (cs "textDay") text in
  tmax ← aget w (day_off i + tempMax_off);
  let item := cJSON_AddNumberToObject item (cs "tempMax") (f64_of_Z (i8 tmax)) in
  tmin ← aget w (day_off i + tempMin_off);
  Ok (cJSON_AddNumberToObject item (cs "tempMin") (f64_of_Z (i8 tmin))).

Fixpoint weather_array (w : bytes) (days : list Z) (arr : cJSON) : res cJSON :=
  match days with
  | [] => Ok arr
  | i :: days => item ← weather_item w i; weather_array w days (cJSON_AddItemToArray arr item)
  end.

Definition ele_ds_cfg_to_json (cfg : ele_ds_cfg_t) : res cJSON :=
  let root := cJSON_CreateObject in
  let cc := cJSON_CreateObject in
  user ← cstr (username (clientcfg cfg));
  let cc := cJSON_AddStringToObject cc (cs "username") user in
  pass ← cstr (passwd (clientcfg cfg));
  let cc := cJSON_AddStringToObject cc (cs "passwd") pass in
  city ← cstr (cityname (clientcfg cfg));
  let cc := cJSON_AddStringToObject cc (cs "cityname") city in
  let cc := cJSON_AddNumberToObject cc (cs "cityid") (f64_of_Z (cityid (clientcfg cfg))) in
  let cc := cJSON_AddNumberToObject cc (cs "cntserver_interval")
              (f64_of_Z (cntserver_interval (clientcfg cfg))) in
  let cc := cJSON_AddNumberToObject cc (cs "version") (f64_of_Z (version (clientcfg cfg))) in
  let cc := cJSON_AddNumberToObject cc (cs "battery") (f64_of_Z (battery (clientcfg cfg))) in
  let root := cJSON_AddItemToObject root (cs "clientcfg") cc in
  ssid ← cstr (wifi_ssid cfg);
  let root := cJSON_AddStringToObject root (cs "wifi_ssid") ssid in
  wpass ← cstr (wifi_passwd cfg);
  let root := cJSON_AddStringToObject root (cs "wifi_passwd") wpass in
  addr ← cstr (server_addr cfg);
  let root := cJSON_AddStringToObject root (cs "server_addr") addr in
  let root := cJSON_AddNumberToObject root (cs "server_port") (f64_of_Z (server_port cfg)) in
  let root := cJSON_AddNumberToObject root (cs "tcp_timeout") (f64_of_Z (tcp_timeout cfg)) in
  let root := cJSON_AddNumberToObject root (cs "alarm_enable")
                (f64_of_Z (if alarm_enable cfg then 1 else 0)) in
  let root := cJSON_AddNumberToObject root (cs "alarm_time") (f64_of_Z (alarm_time cfg)) in
  m ← cstr (memo cfg);
  let root := cJSON_AddStringToObject root (cs "memo") m in
  arr ← weather_array (weather_info cfg) (seqZ 0 weather_days) cJSON_CreateArray;
  Ok (cJSON_AddItemToObject root (cs "weather_info") arr).

(** ** From JSON *)

(** [cJSON_GetObjectItem(o, name)->valueint] *)
Definition get_int (o : option cJSON) (name : bytes) : res Z :=
  valueint <$> of_option NullDeref (cJSON_GetObjectItem o name).

(** [strcpy(dst, cJSON_GetObjectItem(o, name)->valuestring)] into an array. *)
Definition get_string (o : option cJSON) (name : bytes) (dst : bytes) : res bytes :=
  item ← of_option NullDeref (cJSON_GetObjectItem o name);
  s ← of_option NullDeref (valuestring item);
  blit dst 0 (s ++ [0]).

(** The same into a member of a day. *)
Definition get_day_string (o : option cJSON) (name : bytes) (w : bytes) (off size : Z) : res bytes :=
  item ← of_option NullDeref (cJSON_GetObjectItem o name);
  s ← of_option NullDeref (valuestring item);
  if Zlen s + 1 <=? size then blit w off (s ++ [0]) else Err OutOfBounds.

Definition read_day (weather_array : option cJSON) (w : bytes) (i : Z) : res bytes :=
  let item := cJSON_GetArrayItem weather_array i in
  w ← get_day_string item (cs "textDay") w (day_off i + textDay_off) textDay_size;
  w ← get_day_string item (cs "iconDay") w (day_off i + iconDay_off) iconDay_size;
  tmax ← get_int item (cs "tempMax");
  w ← aset w (day_off i + tempMax_off) (u8 tmax);
  tmin ← get_int item (cs "tempMin");
  aset w (day_off i + tempMin_off) (u8 tmin).

Fixpoint read_days (weather_array : option cJSON) (w : bytes) (days : list Z) : res bytes :=
  match days with
  | [] => Ok w
  | i :: days =>
      if i <? cJSON_GetArraySize weather_array
      then w ← read_day weather_array w i; read_days weather_array w days
      else Ok w
  end.

Definition json_to_ele_ds_cfg (json : cJSON) : res ele_ds_cfg_t :=
  let cfg := cfg_zero in
  match cJSON_GetObjectItem (Some json) (cs "clientcfg") with
  | None => Ok cfg
  | Some cc =>
      let cc := Some cc in
      let root := Some json in
      user ← get_string cc (cs "username") (username (clientcfg cfg));
      pass ← get_string cc (cs "passwd") (passwd (clientcfg cfg));
      city ← get_string cc (cs "cityname") (cityname (clientcfg cfg));
      cid ← get_int cc (cs "cityid");
      interval ← get_int cc (cs "cntserver_interval");
      _ ← get_int cc (cs "version");
      batt ← get_int cc (cs "battery");
      ssid ← get_string root (cs "wifi_ssid") (wifi_ssid cfg);
      wpass ← get_string root (cs "wifi_passwd") (wifi_passwd cfg);
      addr ← get_string root (cs "server_addr") (server_addr cfg);
      port ← get_int root (cs "server_port");
      timeout ← get_int root (cs "tcp_timeout");
      enable ← get_int root (cs "alarm_enable");
      atime ← get_int root (cs "alarm_time");
      ver ← get_int root (cs "version");
      m ← get_string root (cs "memo") (memo cfg);
      w ← read_days (cJSON_GetObjectItem root (cs "weather_info")) (weather_info cfg)
            (seqZ 0 weather_days);
      Ok (Cfg (ClientCfg user pass city (u32 cid) (u16 interval) (u32 ver) (u8 batt))
            ssid wpass addr (u16 port) (curweather cfg) w m (u32 timeout) (negb (enable =? 0))
            atime CFGFILE_CHECK)
  end.

(** ** The file *)

(** [write_ele_ds_cfg]: the result of [write] is not looked at. *)
Definition write_ele_ds_cfg (cfg : ele_ds_cfg_t) : M fsys Z :=
  json ← lift (ele_ds_cfg_to_json cfg);
  let json_str := cJSON_Print json in
  fd ← open_ CONFIG_FILE_PATH O_WRCT_flags;
  if fd <? 0 then mret (-1) else
  str ← lift (of_option NullDeref json_str);
  _ ← write_ fd str;
  _ ← close_ fd;
  mret 0.

(** [read_ele_ds_cfg]: the result and the configuration; [buf] is zeroed and one byte
    longer than the file. *)
Definition read_ele_ds_cfg (cfg : ele_ds_cfg_t) : M fsys (Z * ele_ds_cfg_t) :=
  fd ← open_ CONFIG_FILE_PATH O_RDONLY_flags;
  if fd <? 0 then mret (-1, cfg) else
  size ← lseek_ fd 0 SEEK_END;
  _ ← lseek_ fd 0 SEEK_SET;
  r ← read_ fd size;
  _ ← close_ fd;
  if r.1 <=? 0 then mret (-2, cfg) else
  let buf := r.2 ++ zeros (size + 1 - Zlen r.2) in
  json ← lift (cJSON_Parse buf);
  match json with
  | None => mret (-3, cfg)
  | Some json => cfg ← lift (json_to_ele_ds_cfg json); mret (0, cfg)
  end.

Definition init_cfgfile : M fsys (Z * ele_ds_cfg_t) :=
  let cfg := init_ele_ds_cfg in
  r ← write_ele_ds_cfg cfg;
  mret (if r =? 0 then 0 else -1, cfg).

(** [ele_ds_cfg_print] reads the strings it prints. *)
Definition ele_ds_cfg_print (cfg : ele_ds_cfg_t) : res (list bytes) :=
  ssid ← cstr (wifi_ssid cfg);
  wpass ← cstr (wifi_passwd cfg);
  addr ← cstr (server_addr cfg);
  days ← rmap (fun i =>
    text ← day_string (weather_info cfg) (day_off i + textDay_off) textDay_size;
    tmax ← aget (weather_info cfg) (day_off i + tempMax_off);
    tmin ← aget (weather_info cfg) (day_off i + tempMin_off);
    Ok (text ++ print_d (i8 tmax) ++ print_d (i8 tmin))) (seqZ 0 weather_days);
  Ok ([print_u (version (clientcfg cfg)); print_d (i32 (cityid (clientcfg cfg)));
       ssid; wpass; addr; print_d (server_port cfg)] ++ days).

Definition sysfile_init (cfg : ele_ds_cfg_t) : M fsys (Z * ele_ds_cfg_t) :=
  a ← access_ CONFIG_FILE_PATH;
  if a =? -1 then
    _ ← mkdir_ SYSFILE_PATH;
    r ← init_cfgfile;
    mret (0, r.2)
  else
    r ← read_ele_ds_cfg cfg;
    _ ← lift (ele_ds_cfg_print r.2);
    mret (0, r.2).

(** [dfs_mkfs] leaves an empty file system. *)
Definition dfs_mkfs : M fsys unit :=
  modify (fun fs => Fsys ∅ [] (fs_fds fs) (fs_env fs)).

(** [mnt_init]: the first mount fails on a flash that was never formatted; [mount1] is what
    the first call of [dfs_mount] returns (the second one's result is only logged). *)
Definition mnt_init (mount1 : Z) (cfg : ele_ds_cfg_t) : M fsys (Z * ele_ds_cfg_t) :=
  (if mount1 =? 0 then mret tt else dfs_mkfs) ;;;
  r ← sysfile_init cfg;
  mret (0, r.2).

(** [cmd_test_write_speed], with the tick counts before and after: what it prints. *)
Definition O_RDWR_CREAT_flags := Oflags true false.
Definition cmd_test_write_speed (start_time end_time : Z) : M fsys (option Z) :=
  fd ← open_ (cs "/sysfile/testspeed") O_RDWR_CREAT_flags;
  if fd <? 0 then mret None else
  mfor (seqZ 0 1024) (fun _ => _ ← write_ fd (zeros 1024); mret tt) ;;;
  _ ← close_ fd;
  let total_bytes := u32 (1024 * 1024) in
  let elapsed_ms := u32 (end_time - start_time) in
  let elapsed_ms := if elapsed_ms =? 0 then 1 else elapsed_ms in
  mret (Some (u32 (total_bytes / 1024 * 1000) / elapsed_ms)).

(** ** What a configuration says

    [str_of a] is the C string in an array; two configurations with the same strings,
    numbers and days are the same to the program. *)
Definition str_of (a : bytes) : bytes := match cstr a with Ok s => s | Err _ => [] end.

Definition arr_ok (n : Z) (a : bytes) : Prop := Zlen a = n /\ is_ok (cstr a) = true /\ all_bytes a.
#[export] Instance arr_ok_dec n a : Decision (arr_ok n a).
Proof. unfold arr_ok. apply _. Defined.

(** A day's members: the strings are terminated inside their arrays. *)
Definition day_icon (w : bytes) (i : Z) : res bytes := day_string w (day_off i + iconDay_off) iconDay_size.
Definition day_text (w : bytes) (i : Z) : res bytes := day_string w (day_off i + textDay_off) textDay_size.
Definition day_max (w : bytes) (i : Z) : res Z := i8 <$> aget w (day_off i + tempMax_off).
Definition day_min (w : bytes) (i : Z) : res Z := i8 <$> aget w (day_off i + tempMin_off).

Definition day_ok (w : bytes) (i : Z) : Prop :=
  is_ok (day_icon w i) = true /\ is_ok (day_text w i) = true.

Definition int_ok (hi z : Z) : Prop := 0 <= z <= hi.

(** A configuration the file can hold: terminated strings, and numbers that are [int]s. *)
Definition cfg_ok (cfg : ele_ds_cfg_t) : Prop :=
  arr_ok 21 (username (clientcfg cfg)) /\ arr_ok 21 (passwd (clientcfg cfg)) /\
  arr_ok 21 (cityname (clientcfg cfg)) /\ arr_ok 32 (wifi_ssid cfg) /\
  arr_ok 32 (wifi_passwd cfg) /\ arr_ok 64 (server_addr cfg) /\ arr_ok 256 (memo cfg) /\
  int_ok INT_MAX (cityid (clientcfg cfg)) /\ int_ok 65535 (cntserver_interval (clientcfg cfg)) /\
  int_ok INT_MAX (version (clientcfg cfg)) /\ int_ok 255 (battery (clientcfg cfg)) /\
  int_ok 65535 (server_port cfg) /\ int_ok INT_MAX (tcp_timeout cfg) /\
  int_ok INT_MAX (alarm_time cfg) /\
  Zlen (weather_info cfg) = sizeof_weather /\ all_bytes (weather_info cfg) /\
  Forall (day_ok (weather_info cfg)) (seqZ 0 weather_days).
#[export] Instance cfg_ok_dec cfg : Decision (cfg_ok cfg).
Proof. unfold cfg_ok, int_ok, day_ok. apply _. Defined.

(** The JSON object of a configuration. *)
Definition day_json (w : bytes) (i : Z) : cJSON :=
  let s := fun off size => match day_string w (day_off i + off) size with Ok s => s | _ => [] end in
  let n := fun off => match aget w (day_off i + off) with Ok b => i8 b | _ => 0 end in
  cJSON_Object
    [(cs "iconDay", cJSON_String (s iconDay_off iconDay_size));
     (cs "textDay", cJSON_String (s textDay_off textDay_size));
     (cs "tempMax", cJSON_Number (f64_of_Z (n tempMax_off)));
     (cs "tempMin", cJSON_Number (f64_of_Z (n tempMin_off)))].

Definition client_json (c : ele_client_cfg_t) : cJSON :=
  cJSON_Object
    [(cs "username", cJSON_String (str_of (username c)));
     (cs "passwd", cJSON_String (str_of (passwd c)));
     (cs "cityname", cJSON_String (str_of (cityname c)));
     (cs "cityid", cJSON_Number (f64_of_Z (cityid c)));
     (cs "cntserver_interval", cJSON_Number (f64_of_Z (cntserver_interval c)));
     (cs "version", cJSON_Number (f64_of_Z (version c)));
     (cs "battery", cJSON_Number (f64_of_Z (battery c)))].

Definition cfg_members (cfg : ele_ds_cfg_t) : list (bytes * cJSON) :=
  [(cs "clientcfg", client_json (clientcfg cfg));
   (cs "wifi_ssid", cJSON_String (str_of (wifi_ssid cfg)));
   (cs "wifi_passwd", cJSON_String (str_of (wifi_passwd cfg)));
   (cs "server_addr", cJSON_String (str_of (server_addr cfg)));
   (cs "server_port", cJSON_Number (f64_of_Z (server_port cfg)));
   (cs "tcp_timeout", cJSON_Number (f64_of_Z (tcp_timeout cfg)));
   (cs "alarm_enable", cJSON_Number (f64_of_Z (if alarm_enable cfg then 1 else 0)));
   (cs "alarm_time", cJSON_Number (f64_of_Z (alarm_time cfg)));
   (cs "memo", cJSON_String (str_of (memo cfg)));
   (cs "weather_info", cJSON_Array (map (day_json (weather_info cfg)) (seqZ 0 weather_days)))].

Lemma arr_ok_str n a : arr_ok n a -> cstr a = Ok (str_of a) /\ Forall cchar (str_of a) /\ Zlen (str_of a) < n.
Proof.
  intros (Hl & Hok & Hb). unfold str_of. destruct (cstr a) as [s|] eqn:E; [|done]. split; [done|].
  assert (exists r, a = s ++ 0 :: r) as [r ->].
  { clear -E. revert s E. induction a as [|b a IH]; intros s; simpl; [done|].
    case_decide; [intros [= <-]; subst; by exists a|].
    destruct (cstr a) as [s'|]; [|done]. intros [= <-]. destruct (IH s' eq_refl) as [r ->]. by exists r. }
  split; [|unfold Zlen in *; rewrite length_app in Hl; simpl in Hl; lia].
  apply cstr_no_nul in E. apply Forall_app in Hb as [Hb _].
  rewrite Forall_forall in *. intros c Hc. specialize (E c Hc). specialize (Hb c Hc).
  unfold cchar, is_byte in *. lia.
Qed.

Lemma day_in (w : bytes) i :
  Zlen w = sizeof_weather -> 0 <= i < weather_days -> 0 <= day_off i /\ day_off i + 168 <= Zlen w.
Proof. unfold sizeof_weather, weather_days, day_off, sizeof_weather_info. lia. Qed.

Lemma day_string_ok w off size :
  all_bytes w -> is_ok (day_string w off size) = true ->
  exists s, day_string w off size = Ok s /\ Forall cchar s /\ Zlen s < size.
Proof.
  intros Hb. unfold day_string. destruct (slice w off size) as [a|] eqn:E; [|done].
  simpl. intros Hok. exists (str_of a).
  apply (arr_ok_str size). unfold slice in E. case_decide as H; [|done]. injection E as <-.
  split; [|split; [done|]].
  - unfold Zlen in *. rewrite length_take, length_drop. lia.
  - by apply Forall_take, Forall_drop.
Qed.

Lemma weather_item_run w i :
  Zlen w = sizeof_weather -> all_bytes w -> 0 <= i < weather_days -> day_ok w i ->
  weather_item w i = Ok (day_json w i).
Proof.
  intros Hl Hb Hi [H1 H2]. destruct (day_in w i Hl Hi). unfold weather_item, day_json.
  destruct (day_string_ok _ _ _ Hb H1) as (s1 & E1 & _). rewrite E1. simpl mbind.
  destruct (day_string_ok _ _ _ Hb H2) as (s2 & E2 & _). rewrite E2. simpl mbind.
  destruct (aget_in w (day_off i + tempMax_off)) as [b1 E3]; [unfold tempMax_off; lia|].
  destruct (aget_in w (day_off i + tempMin_off)) as [b2 E4]; [unfold tempMin_off; lia|].
  rewrite E3. simpl mbind. rewrite E4. done.
Qed.

Lemma weather_array_run w days l :
  Zlen w = sizeof_weather -> all_bytes w ->
  Forall (fun i => 0 <= i < weather_days /\ day_ok w i) days ->
  weather_array w days (cJSON_Array l) = Ok (cJSON_Array (l ++ map (day_json w) days)).
Proof.
  intros Hl Hb Hd. revert l. induction Hd as [|i days [Hi Hok] _ IH]; intros l; simpl.
  - by rewrite app_nil_r.
  - rewrite weather_item_run by done. simpl. rewrite IH, <- app_assoc. done.
Qed.

Lemma days_ok_range w :
  Forall (day_ok w) (seqZ 0 weather_days) ->
  Forall (fun i => 0 <= i < weather_days /\ day_ok w i) (seqZ 0 weather_days).
Proof.
  rewrite !Forall_forall. intros H i Hi. split; [|by apply H]. apply elem_of_seqZ in Hi. lia.
Qed.

Lemma to_json_run cfg : cfg_ok cfg -> ele_ds_cfg_to_json cfg = Ok (cJSON_Object (cfg_members cfg)).
Proof.
  intros (H1&H2&H3&H4&H5&H6&H7&_&_&_&_&_&_&_&Hl&Hb&Hd). unfold ele_ds_cfg_to_json.
  rewrite (proj1 (arr_ok_str _ _ H1)). rewrite ok_bind. rewrite (proj1 (arr_ok_str _ _ H2)). rewrite ok_bind.
  rewrite (proj1 (arr_ok_str _ _ H3)). rewrite ok_bind. rewrite (proj1 (arr_ok_str _ _ H4)). rewrite ok_bind.
  rewrite (proj1 (arr_ok_str _ _ H5)). rewrite ok_bind. rewrite (proj1 (arr_ok_str _ _ H6)). rewrite ok_bind.
  rewrite (proj1 (arr_ok_str _ _ H7)). rewrite ok_bind.
  unfold cJSON_CreateArray. rewrite weather_array_run by (done || by apply days_ok_range).
  rewrite ok_bind. reflexivity.
Qed.

Lemma cfg_json_wf cfg : cfg_ok cfg -> json_wf 3 (cJSON_Object (cfg_members cfg)).
Proof.
  intros (H1&H2&H3&H4&H5&H6&H7&I1&I2&I3&I4&I5&I6&I7&Hl&Hb&Hd).
  assert (forall n a, arr_ok n a -> forall k, json_wf k (cJSON_String (str_of a))) as Hs.
  { intros n a Ha k. apply wf_string, (arr_ok_str n a Ha). }
  assert (forall hi z, int_ok hi z -> hi <= INT_MAX -> forall k, json_wf k (cJSON_Number (f64_of_Z z))) as Hn.
  { intros hi z Hz Hhi k. apply wf_number. unfold int_ok, INT_MIN in *. lia. }
  assert (forall s, forallb (fun c => (0 <? c) && (c <? 256)) s = true -> Forall cchar s) as Hk.
  { intros s Hs'. apply Forall_forall. intros c Hc. rewrite forallb_forall in Hs'.
    apply list_elem_of_In in Hc. specialize (Hs' c Hc). unfold cchar. lia. }
  apply wf_object. unfold cfg_members.
  repeat (apply Forall_cons_2; [split; [by apply Hk|]|]); try apply Forall_nil_2; cbn [snd];
    try (by eapply Hs); try (eapply Hn; [done|done]).
  - apply wf_object.
    repeat (apply Forall_cons_2; [split; [by apply Hk|]|]); try apply Forall_nil_2; cbn [snd];
      try (by eapply Hs); try (eapply Hn; [done|done]).
  - apply (Hn 1); [|done]. unfold int_ok. destruct (alarm_enable cfg); lia.
  - apply wf_array. apply Forall_forall. intros j Hj. apply list_elem_of_In, in_map_iff in Hj.
    destruct Hj as (i & <- & Hi). apply list_elem_of_In in Hi.
    rewrite Forall_forall in Hd. destruct (Hd i Hi) as [D1 D2].
    apply wf_object.
    assert (forall z k, json_wf k (cJSON_Number (f64_of_Z (i8 z)))) as H8.
    { intros z k. apply wf_number. pose proof (swrap_range 8 z). unfold INT_MIN, INT_MAX. lia. }
    destruct (day_string_ok _ _ _ Hb D1) as (s1 & E1 & F1 & _).
    destruct (day_string_ok _ _ _ Hb D2) as (s2 & E2 & F2 & _).
    repeat (apply Forall_cons_2; [split; [by apply Hk|]|]); try apply Forall_nil_2; cbn [snd].
    + rewrite E1. by apply wf_string.
    + rewrite E2. by apply wf_string.
    + destruct (aget _ _); [apply H8|]. apply wf_number. unfold INT_MIN, INT_MAX. lia.
    + destruct (aget _ _); [apply H8|]. apply wf_number. unfold INT_MIN, INT_MAX. lia.
Qed.

(** ** Reading it back *)

Lemma slice_blit (w s w' : bytes) off size :
  blit w off (s ++ [0]) = Ok w' -> Forall cchar s -> Zlen s < size -> off + size <= Zlen w ->
  day_string w' off size = Ok s.
Proof.
  intros Hb Hs Hlt Hsz. pose proof (blit_Zlen _ _ _ _ Hb) as Hl.
  unfold blit in Hb. case_decide as H; [|done]. injection Hb as Hb.
  rewrite Zlen_app in H. change (Zlen [0]) with 1 in H. pose proof (Zlen_nonneg s).
  unfold day_string. rewrite slice_in by lia. rewrite ok_bind, <- Hb.
  rewrite drop_app_ge by (rewrite length_take; unfold Zlen in *; lia).
  rewrite length_take. replace (Z.to_nat off - _)%nat with 0%nat by (unfold Zlen in *; lia).
  rewrite drop_0, <- app_assoc. cbn [app].
  rewrite take_app_ge by (unfold Zlen in *; lia).
  assert (exists n, (Z.to_nat size - length s)%nat = S n) as [n ->].
  { exists (Z.to_nat size - length s - 1)%nat. unfold Zlen in *. lia. }
  cbn [take]. apply cstr_app. eapply Forall_impl; [exact Hs|]. unfold cchar. intros; lia.
Qed.

(** The members of a day. *)
Definition day_obs (w : bytes) (i : Z) : res bytes * res bytes * res Z * res Z :=
  (day_icon w i, day_text w i, day_max w i, day_min w i).

(** The days' bytes do not overlap. *)
Lemma day_obs_ext (w w' : bytes) i :
  Zlen w = Zlen w' -> (forall k, day_off i + 55 <= k < day_off i + 77 -> aget w k = aget w' k) ->
  day_obs w i = day_obs w' i.
Proof.
  intros Hl Hk. unfold day_obs, day_icon, day_text, day_max, day_min, day_string,
    iconDay_off, textDay_off, tempMax_off, tempMin_off, iconDay_size, textDay_size.
  rewrite !(slice_ext w w') by (done || (intros; apply Hk; lia)).
  rewrite !(Hk _) by lia. done.
Qed.

Lemma get_string_hit o name s (dst : bytes) :
  cJSON_GetObjectItem o name = Some (cJSON_String s) -> Zlen s < Zlen dst ->
  get_string o name dst = Ok (s ++ 0 :: drop (length s + 1) dst).
Proof.
  intros E Hl. unfold get_string. rewrite E. simpl of_option. rewrite ok_bind.
  simpl valuestring. simpl of_option. rewrite ok_bind.
  rewrite blit_in by (rewrite ?Zlen_app; change (Zlen [0]) with 1; lia).
  rewrite length_app, <- app_assoc. done.
Qed.

Lemma get_int_hit o name z :
  cJSON_GetObjectItem o name = Some (cJSON_Number (f64_of_Z z)) -> INT_MIN <= z <= INT_MAX ->
  get_int o name = Ok z.
Proof. intros E Hz. unfold get_int. rewrite E. simpl. by rewrite saturate_int. Qed.

Lemma get_day_string_hit o name s (w : bytes) off size :
  cJSON_GetObjectItem o name = Some (cJSON_String s) -> Zlen s < size -> 0 <= off ->
  off + size <= Zlen w ->
  exists w', get_day_string o name w off size = Ok w' /\ blit w off (s ++ [0]) = Ok w'.
Proof.
  intros E Hs Ho Hl. unfold get_day_string. rewrite E. simpl of_option. rewrite ok_bind.
  simpl valuestring. simpl of_option. rewrite ok_bind.
  destruct (Z.leb_spec (Zlen s + 1) size); [|lia].
  destruct (blit w off (s ++ [0])) as [w'|] eqn:B; [by exists w'|].
  unfold blit in B. case_decide as Hd; [done|]. rewrite Zlen_app in Hd. change (Zlen [0]) with 1 in Hd. lia.
Qed.

Lemma day_json_text w i :
  cJSON_GetObjectItem (Some (day_json w i)) (cs "textDay") =
    Some (cJSON_String match day_string w (day_off i + 61) 16 with Ok s => s | Err _ => [] end).
Proof. reflexivity. Qed.
Lemma day_json_icon w i :
  cJSON_GetObjectItem (Some (day_json w i)) (cs "iconDay") =
    Some (cJSON_String match day_string w (day_off i + 57) 4 with Ok s => s | Err _ => [] end).
Proof. reflexivity. Qed.
Lemma day_json_max w i :
  cJSON_GetObjectItem (Some (day_json w i)) (cs "tempMax") =
    Some (cJSON_Number (f64_of_Z match aget w (day_off i + 55) with Ok b => i8 b | Err _ => 0 end)).
Proof. reflexivity. Qed.
Lemma day_json_min w i :
  cJSON_GetObjectItem (Some (day_json w i)) (cs "tempMin") =
    Some (cJSON_Number (f64_of_Z match aget w (day_off i + 56) with Ok b => i8 b | Err _ => 0 end)).
Proof. reflexivity. Qed.

(** Reading one day into an array leaves the other days alone. *)
Lemma read_day_run (w0 w : bytes) arr i :
  Zlen w0 = sizeof_weather -> all_bytes w0 -> day_ok w0 i -> 0 <= i < weather_days ->
  Zlen w = sizeof_weather -> cJSON_GetArrayItem arr i = Some (day_json w0 i) ->
  exists w', read_day arr w i = Ok w' /\ Zlen w' = sizeof_weather /\ day_obs w' i = day_obs w0 i /\
    forall j, 0 <= j -> j <> i -> day_obs w' j = day_obs w j.
Proof.
  intros Hl0 Hb0 [D1 D2] Hi Hl Harr. destruct (day_in w0 i Hl0 Hi) as [Ho1 Ho2].
  rewrite Hl0, <- Hl in Ho2.
  destruct (day_string_ok _ _ _ Hb0 D1) as (s1 & E1 & F1 & L1).
  destruct (day_string_ok _ _ _ Hb0 D2) as (s2 & E2 & F2 & L2).
  destruct (aget_in w0 (day_off i + tempMax_off)) as [b1 E3]; [unfold tempMax_off; lia|].
  destruct (aget_in w0 (day_off i + tempMin_off)) as [b2 E4]; [unfold tempMin_off; lia|].
  pose proof (swrap_range 8 b1) as R1. pose proof (swrap_range 8 b2) as R2.
  assert (u8 (i8 b1) = b1 /\ u8 (i8 b2) = b2) as [U1 U2].
  { assert (forall b k, aget w0 k = Ok b -> u8 (i8 b) = b) as Hu.
    { intros b k Hbk. apply aget_Ok in Hbk as [_ Hbk]. rewrite Forall_forall in Hb0.
      apply list_elem_of_lookup_2 in Hbk. specialize (Hb0 b Hbk). unfold is_byte in Hb0.
      unfold wrap, swrap. change (2 ^ (8 - 1)) with 128. change (2 ^ 8) with 256. zlia. }
    split; by eapply Hu. }
  unfold iconDay_off, iconDay_size, textDay_off, textDay_size, tempMax_off, tempMin_off in *.
  pose proof (Zlen_nonneg s1). pose proof (Zlen_nonneg s2).
  assert (Zlen (s1 ++ [0]) = Zlen s1 + 1 /\ Zlen (s2 ++ [0]) = Zlen s2 + 1) as [Z1 Z2]
    by (by rewrite !Zlen_app).
  unfold read_day. rewrite Harr. cbv zeta.
  unfold iconDay_off, iconDay_size, textDay_off, textDay_size, tempMax_off, tempMin_off.
  destruct (get_day_string_hit (Some (day_json w0 i)) (cs "textDay") s2 w (day_off i + 61) 16)
    as (w1 & G1 & B1); [by rewrite day_json_text, E2|lia|lia|lia|]. rewrite G1, ok_bind.
  pose proof (blit_Zlen _ _ _ _ B1) as Hl1.
  destruct (get_day_string_hit (Some (day_json w0 i)) (cs "iconDay") s1 w1 (day_off i + 57) 4)
    as (w2 & G2 & B2); [by rewrite day_json_icon, E1|lia|lia|lia|]. rewrite G2, ok_bind.
  pose proof (blit_Zlen _ _ _ _ B2) as Hl2.
  rewrite (get_int_hit _ (cs "tempMax") (i8 b1)); [|by rewrite day_json_max, E3|unfold INT_MIN, INT_MAX; lia].
  rewrite ok_bind, U1.
  destruct (aset w2 (day_off i + 55) b1) as [w3|] eqn:B3; [|unfold aset in B3; case_decide; [done|lia]].
  pose proof (aset_Zlen _ _ _ _ B3) as Hl3. rewrite ok_bind.
  rewrite (get_int_hit _ (cs "tempMin") (i8 b2)); [|by rewrite day_json_min, E4|unfold INT_MIN, INT_MAX; lia].
  rewrite ok_bind, U2.
  destruct (aset w3 (day_off i + 56) b2) as [w4|] eqn:B4; [|unfold aset in B4; case_decide; [done|lia]].
  pose proof (aset_Zlen _ _ _ _ B4) as Hl4. exists w4. split; [done|]. split; [lia|].
  assert (forall k, aget w4 k =
    if decide (day_off i + 56 = k) then Ok b2 else if decide (day_off i + 55 = k) then Ok b1 else
    if decide (day_off i + 57 <= k < day_off i + 57 + (Zlen s1 + 1))
    then aget (s1 ++ [0]) (k - (day_off i + 57)) else
    if decide (day_off i + 61 <= k < day_off i + 61 + (Zlen s2 + 1))
    then aget (s2 ++ [0]) (k - (day_off i + 61)) else aget w k) as Hg.
  { intros k. rewrite (aget_aset _ _ _ _ k B4), (aget_aset _ _ _ _ k B3).
    rewrite (blit_aget _ _ _ _ k B2), (blit_aget _ _ _ _ k B1), Z1, Z2. done. }
  split.
  - unfold day_obs, day_icon, day_text, day_max, day_min, iconDay_off, iconDay_size, textDay_off,
      textDay_size, tempMax_off, tempMin_off.
    rewrite E1, E2, E3, E4, !Hg. rewrite (decide_True (P := day_off i + 56 = day_off i + 56)) by done.
    rewrite (decide_False (P := day_off i + 56 = day_off i + 55)) by lia.
    rewrite (decide_True (P := day_off i + 55 = day_off i + 55)) by done. simpl.
    f_equal. f_equal. f_equal.
    + rewrite <- (slice_blit w1 s1 w2 (day_off i + 57) 4) by (done || lia).
      unfold day_string. rewrite (slice_ext w4 w2); [done|lia|]. intros k Hk.
      rewrite (aget_aset _ _ _ _ k B4), (aget_aset _ _ _ _ k B3). by rewrite !decide_False by lia.
    + rewrite <- (slice_blit w s2 w1 (day_off i + 61) 16) by (done || lia).
      unfold day_string. rewrite (slice_ext w4 w1); [done|lia|]. intros k Hk.
      rewrite (aget_aset _ _ _ _ k B4), (aget_aset _ _ _ _ k B3), (blit_aget _ _ _ _ k B2), Z1.
      by rewrite !decide_False by lia.
  - intros j Hj Hne. apply day_obs_ext; [lia|]. intros k Hk. rewrite Hg.
    unfold day_off, sizeof_weather_info in *.
    assert (j * 168 + 168 <= i * 168 \/ i * 168 + 168 <= j * 168) as [|] by lia;
      by rewrite !decide_False by lia.
Qed.

Lemma read_days_run (w0 : bytes) arr days :
  Zlen w0 = sizeof_weather -> all_bytes w0 -> NoDup days ->
  Forall (fun i => 0 <= i < weather_days /\ day_ok w0 i) days ->
  cJSON_GetArraySize arr = weather_days ->
  (forall i, 0 <= i < weather_days -> cJSON_GetArrayItem arr i = Some (day_json w0 i)) ->
  forall w, Zlen w = sizeof_weather ->
  exists w', read_days arr w days = Ok w' /\ Zlen w' = sizeof_weather /\
    (forall i, i ∈ days -> day_obs w' i = day_obs w0 i) /\
    forall j, 0 <= j -> j ∉ days -> day_obs w' j = day_obs w j.
Proof.
  intros Hl0 Hb0 Hnd Hd Hsz Harr.
  induction Hd as [|i days [Hi Hok] _ IH]; intros w Hl; cbn [read_days].
  { exists w. split; [done|]. split; [done|]. split; [set_solver|done]. }
  apply NoDup_cons in Hnd as [Hni Hnd]. rewrite Hsz. destruct (Z.ltb_spec i weather_days); [|lia].
  destruct (read_day_run w0 w arr i) as (w1 & E1 & Hl1 & Hs1 & Ho1); [done..|by apply Harr|].
  rewrite E1, ok_bind. destruct (IH Hnd w1 Hl1) as (w' & E2 & Hl2 & Hs2 & Ho2).
  exists w'. split; [done|]. split; [done|]. split.
  - intros k [->|Hk]%elem_of_cons; [|by apply Hs2]. by rewrite Ho2 by (lia || done).
  - intros j Hj Hnj. rewrite Ho2, Ho1; [done|done|set_solver|done|set_solver].
Qed.

(** The same to the program: strings, numbers and days agree. *)
Definition cfg_same (c d : ele_ds_cfg_t) : Prop :=
  str_of (username (clientcfg c)) = str_of (username (clientcfg d)) /\
  str_of (passwd (clientcfg c)) = str_of (passwd (clientcfg d)) /\
  str_of (cityname (clientcfg c)) = str_of (cityname (clientcfg d)) /\
  cityid (clientcfg c) = cityid (clientcfg d) /\
  cntserver_interval (clientcfg c) = cntserver_interval (clientcfg d) /\
  battery (clientcfg c) = battery (clientcfg d) /\
  str_of (wifi_ssid c) = str_of (wifi_ssid d) /\ str_of (wifi_passwd c) = str_of (wifi_passwd d) /\
  str_of (server_addr c) = str_of (server_addr d) /\ server_port c = server_port d /\
  tcp_timeout c = tcp_timeout d /\ alarm_enable c = alarm_enable d /\
  alarm_time c = alarm_time d /\ str_of (memo c) = str_of (memo d) /\
  forall i, 0 <= i < weather_days -> day_obs (weather_info c) i = day_obs (weather_info d) i.

Lemma str_of_padded s r : Forall cchar s -> str_of (s ++ 0 :: r) = s.
Proof.
  intros Hs. unfold str_of. rewrite cstr_app; [done|].
  eapply Forall_impl; [exact Hs|]. unfold cchar. intros; lia.
Qed.

Lemma weather_array_items w :
  let arr := Some (cJSON_Array (map (day_json w) (seqZ 0 weather_days))) in
  cJSON_GetArraySize arr = weather_days /\
  forall i, 0 <= i < weather_days -> cJSON_GetArrayItem arr i = Some (day_json w i).
Proof.
  intros arr. split; [done|]. intros i Hi. unfold cJSON_GetArrayItem, arr.
  destruct (Z.ltb_spec i 0); [lia|]. change (map (day_json w)) with (fmap (M := list) (day_json w)).
  rewrite list_lookup_fmap, lookup_seqZ_lt by lia. simpl. do 2 f_equal. lia.
Qed.

(** The side conditions of a member that is found. *)
Ltac hit :=
  first [reflexivity
        |match goal with H : Zlen ?s < ?n |- Zlen ?s < _ => exact H end
        |unfold INT_MIN, INT_MAX in *; lia].

(** What [json_to_ele_ds_cfg] does on the members of a configuration and [extra] ones: it
    all hangs on the root's "version". *)
Lemma from_json_run cfg extra :
  cfg_ok cfg ->
  exists cfg', cfg_same cfg cfg' /\ check cfg' = CFGFILE_CHECK /\
    json_to_ele_ds_cfg (cJSON_Object (cfg_members cfg ++ extra)) =
      (ver ← get_int (Some (cJSON_Object extra)) (cs "version");
       Ok (Cfg (ClientCfg (username (clientcfg cfg')) (passwd (clientcfg cfg')) (cityname (clientcfg cfg'))
             (cityid (clientcfg cfg')) (cntserver_interval (clientcfg cfg')) (u32 ver)
             (battery (clientcfg cfg'))) (wifi_ssid cfg') (wifi_passwd cfg') (server_addr cfg')
             (server_port cfg') (curweather cfg') (weather_info cfg') (memo cfg') (tcp_timeout cfg')
             (alarm_enable cfg') (alarm_time cfg') (check cfg'))).
Proof.
  intros (H1&H2&H3&H4&H5&H6&H7&I1&I2&I3&I4&I5&I6&I7&Hl&Hb&Hd).
  destruct (arr_ok_str _ _ H1) as (_&F1&L1), (arr_ok_str _ _ H2) as (_&F2&L2),
    (arr_ok_str _ _ H3) as (_&F3&L3), (arr_ok_str _ _ H4) as (_&F4&L4),
    (arr_ok_str _ _ H5) as (_&F5&L5), (arr_ok_str _ _ H6) as (_&F6&L6),
    (arr_ok_str _ _ H7) as (_&F7&L7).
  destruct (weather_array_items (weather_info cfg)) as [Hsz Harr].
  destruct (read_days_run (weather_info cfg) _ (seqZ 0 weather_days) Hl Hb (NoDup_seqZ _ _)
    (days_ok_range _ Hd) Hsz Harr (zeros sizeof_weather) eq_refl) as (w & Ew & Hlw & Hsame & _).
  set (z := fun s n => s ++ 0 :: drop (length s + 1) (zeros n)).
  unfold int_ok in *.
  exists (Cfg (ClientCfg (z (str_of (username (clientcfg cfg))) 21) (z (str_of (passwd (clientcfg cfg))) 21)
            (z (str_of (cityname (clientcfg cfg))) 21) (cityid (clientcfg cfg))
            (cntserver_interval (clientcfg cfg)) 0 (battery (clientcfg cfg)))
         (z (str_of (wifi_ssid cfg)) 32) (z (str_of (wifi_passwd cfg)) 32)
         (z (str_of (server_addr cfg)) 64) (server_port cfg) 0 w (z (str_of (memo cfg)) 256)
         (tcp_timeout cfg) (alarm_enable cfg) (alarm_time cfg) CFGFILE_CHECK).
  split; [|split; [done|]].
  { unfold cfg_same. simpl. unfold z. rewrite !str_of_padded by done.
    repeat (split; [done|]). intros i Hi. symmetry. apply Hsame, elem_of_seqZ. lia. }
  unfold json_to_ele_ds_cfg.
  change (cJSON_GetObjectItem (Some (cJSON_Object (cfg_members cfg ++ extra))) (cs "clientcfg"))
    with (Some (client_json (clientcfg cfg))). cbv iota beta zeta.
  set (root := Some (cJSON_Object (cfg_members cfg ++ extra))).
  set (cc := Some (client_json (clientcfg cfg))).
  rewrite (get_string_hit cc (cs "username") (str_of (username (clientcfg cfg)))), ok_bind by hit.
  rewrite (get_string_hit cc (cs "passwd") (str_of (passwd (clientcfg cfg)))), ok_bind by hit.
  rewrite (get_string_hit cc (cs "cityname") (str_of (cityname (clientcfg cfg)))), ok_bind by hit.
  rewrite (get_int_hit cc (cs "cityid") (cityid (clientcfg cfg))), ok_bind by hit.
  rewrite (get_int_hit cc (cs "cntserver_interval") (cntserver_interval (clientcfg cfg))), ok_bind by hit.
  rewrite (get_int_hit cc (cs "version") (version (clientcfg cfg))), ok_bind by hit.
  rewrite (get_int_hit cc (cs "battery") (battery (clientcfg cfg))), ok_bind by hit.
  rewrite (get_string_hit root (cs "wifi_ssid") (str_of (wifi_ssid cfg))), ok_bind by hit.
  rewrite (get_string_hit root (cs "wifi_passwd") (str_of (wifi_passwd cfg))), ok_bind by hit.
  rewrite (get_string_hit root (cs "server_addr") (str_of (server_addr cfg))), ok_bind by hit.
  rewrite (get_int_hit root (cs "server_port") (server_port cfg)), ok_bind by hit.
  rewrite (get_int_hit root (cs "tcp_timeout") (tcp_timeout cfg)), ok_bind by hit.
  rewrite (get_int_hit root (cs "alarm_enable") (if alarm_enable cfg then 1 else 0)), ok_bind
    by (done || (unfold INT_MIN, INT_MAX; destruct (alarm_enable cfg); lia)).
  rewrite (get_int_hit root (cs "alarm_time") (alarm_time cfg)), ok_bind by hit.
  change (get_int root (cs "version")) with (get_int (Some (cJSON_Object extra)) (cs "version")).
  destruct (get_int (Some (cJSON_Object extra)) (cs "version")) as [ver|]; [|done]. rewrite !ok_bind.
  rewrite (get_string_hit root (cs "memo") (str_of (memo cfg))), ok_bind by hit.
  change (cJSON_GetObjectItem root (cs "weather_info"))
    with (Some (cJSON_Array (map (day_json (weather_info cfg)) (seqZ 0 weather_days)))).
  change (weather_info cfg_zero) with (zeros sizeof_weather). rewrite Ew, ok_bind.
  cbn [clientcfg username passwd cityname cityid cntserver_interval battery wifi_ssid wifi_passwd
    server_addr server_port curweather weather_info memo tcp_timeout alarm_enable alarm_time check].
  rewrite (wrap_small 32 (cityid _)), (wrap_small 16 (cntserver_interval _)),
    (wrap_small 8 (battery _)), (wrap_small 16 (server_port _)), (wrap_small 32 (tcp_timeout _))
    by (unfold INT_MAX in *; lia).
  replace (negb ((if alarm_enable cfg then 1 else 0) =? 0)) with (alarm_enable cfg)
    by (by destruct (alarm_enable cfg)). reflexivity.
Qed.

(** C32. A configuration turned into JSON, given the root "version" the reader asks for, comes
    back the same to the program. *)
Theorem config_restored cfg v :
  cfg_ok cfg -> 0 <= v <= INT_MAX ->
  exists json cfg', ele_ds_cfg_to_json cfg = Ok json /\
    json_to_ele_ds_cfg (cJSON_AddNumberToObject json (cs "version") (f64_of_Z v)) = Ok cfg' /\
    cfg_same cfg cfg' /\ version (clientcfg cfg') = v /\ check cfg' = CFGFILE_CHECK.
Proof.
  intros Hok Hv.
  destruct (from_json_run cfg [(cs "version", cJSON_Number (f64_of_Z v))] Hok)
    as (cfg' & Hsame & Hc & E).
  eexists _, _. split; [by apply to_json_run|].
  unfold cJSON_AddNumberToObject, cJSON_AddItemToObject. rewrite E.
  rewrite (get_int_hit _ (cs "version") v), ok_bind by hit. split; [done|].
  simpl. split; [exact Hsame|]. split; [|done]. apply wrap_small. unfold INT_MAX in Hv. lia.
Qed.

Lemma config_restored_witness :
  exists json cfg', ele_ds_cfg_to_json init_ele_ds_cfg = Ok json /\
    json_to_ele_ds_cfg (cJSON_AddNumberToObject json (cs "version") (f64_of_Z 7)) = Ok cfg' /\
    cfg_same init_ele_ds_cfg cfg' /\ version (clientcfg cfg') = 7 /\ check cfg' = CFGFILE_CHECK.
Proof.
  apply (config_restored init_ele_ds_cfg 7); [|unfold INT_MAX; lia].
  apply (bool_decide_unpack _). vm_compute. exact I.
Defined.

(** Writing the file; and the read of any file content. *)
Lemma write_cfg_run cfg fs :
  cfg_ok cfg -> openable fs CONFIG_FILE_PATH = true ->
  write_ok (fs_env fs) CONFIG_FILE_PATH = true ->
  exists t, cJSON_Print (cJSON_Object (cfg_members cfg)) = Some t /\ 0 < Zlen t /\
    (forall junk, cJSON_Parse (t ++ 0 :: junk) = Ok (Some (cJSON_Object (cfg_members cfg)))) /\
    write_ele_ds_cfg cfg fs = Ok (0, set_files <[CONFIG_FILE_PATH := t]> fs).
Proof.
  intros Hok Ho Hw.
  pose proof (cfg_json_wf cfg Hok) as Hwf.
  destruct (json_print_parse true 3 _ Hwf) as (t & Ht & Hp); [unfold CJSON_NESTING_LIMIT; lia|].
  exists t. split; [done|]. split.
  { destruct t as [|c t]; [|unfold Zlen; simpl; lia]. specialize (Hp []).
    assert (cJSON_Parse ([] ++ [0]) = Ok None) as E by reflexivity. rewrite E in Hp. done. }
  split; [exact Hp|].
  unfold write_ele_ds_cfg. rewrite (bind_step _ _ _ (cJSON_Object (cfg_members cfg)) fs)
    by (unfold lift; by rewrite to_json_run).
  cbv zeta. rewrite (bind_step _ _ _ _ _ (open_write fs _ Ho)).
  destruct (fresh_fd_spec (fs_fds fs)) as [Hfd Hnone].
  set (fd := fresh_fd (fs_fds fs)) in *. destruct (Z.ltb_spec fd 0); [lia|].
  unfold cJSON_Print. rewrite Ht.
  rewrite (bind_step _ _ _ t _ eq_refl).
  rewrite (bind_step _ _ _ (Zlen t)
    (set_fds <[fd := Fdesc CONFIG_FILE_PATH (length t)]> (set_files <[CONFIG_FILE_PATH := t]> fs))).
  - rewrite (bind_step _ _ _ 0 (set_files <[CONFIG_FILE_PATH := t]> fs)); [done|].
    unfold close_. simpl. rewrite lookup_insert_eq. by rewrite set_fds_delete_insert.
  - unfold write_. simpl. rewrite lookup_insert_eq. simpl. rewrite lookup_insert_eq. simpl. rewrite Hw.
    do 2 f_equal. unfold set_fds, set_files. simpl. rewrite !insert_insert_eq.
    rewrite (overwrite_end [] t : overwrite [] 0 t = [] ++ t). done.
Qed.

Lemma read_cfg_run c fs t j :
  fs_files fs !! CONFIG_FILE_PATH = Some t -> open_ok (fs_env fs) CONFIG_FILE_PATH = true ->
  0 < Zlen t -> cJSON_Parse (t ++ [0]) = Ok (Some j) ->
  read_ele_ds_cfg c fs =
    match json_to_ele_ds_cfg j with Ok cfg => Ok ((0, cfg), fs) | Err f => Err f end.
Proof.
  intros Hf Ho Hl Hp. unfold read_ele_ds_cfg.
  rewrite (bind_step _ _ _ _ _ (open_read fs _ _ Ho Hf)).
  destruct (fresh_fd_spec (fs_fds fs)) as [Hfd Hnone].
  set (fd := fresh_fd (fs_fds fs)) in *. destruct (Z.ltb_spec fd 0); [lia|].
  rewrite (bind_step _ _ _ (Zlen t) (set_fds <[fd := Fdesc CONFIG_FILE_PATH (length t)]> fs)).
  2:{ unfold lseek_. simpl. rewrite lookup_insert_eq. simpl. rewrite Hf, Z.add_0_r.
      destruct (Z.ltb_spec (Zlen t) 0); [lia|]. rewrite set_fds_insert2. do 4 f_equal.
      unfold Zlen. by rewrite Nat2Z.id. }
  rewrite (bind_step _ _ _ 0 (set_fds <[fd := Fdesc CONFIG_FILE_PATH 0]> fs)).
  2:{ unfold lseek_. simpl. rewrite lookup_insert_eq. simpl. by rewrite Hf, set_fds_insert2. }
  rewrite (bind_step _ _ _ _ _ (read_at fs fd _ t 0 (Zlen t) Hf)). rewrite drop_0.
  rewrite (take_ge t) by (unfold Zlen; lia).
  rewrite (bind_step _ _ _ 0 fs).
  2:{ unfold close_. simpl. rewrite lookup_insert_eq. by rewrite set_fds_delete_insert. }
  cbn [fst snd]. destruct (Z.leb_spec (Zlen t) 0); [lia|]. cbv zeta.
  replace (zeros (Zlen t + 1 - Zlen t)) with [0] by (unfold zeros; by replace (Zlen t + 1 - Zlen t) with 1 by lia).
  rewrite (bind_step _ _ _ (Some j) fs) by (unfold lift; by rewrite Hp).
  unfold mbind, M_bind, lift. by destruct (json_to_ele_ds_cfg j).
Qed.

(** C13. Writing the configuration, when its file can be opened (its directory is there) and
    written, leaves a file whose text parses back to its JSON, and closes it; but reading that
    file dereferences NULL, whatever the configuration, for the reader's root "version" is never
    written. *)
Theorem config_file_unreadable cfg fs :
  cfg_ok cfg -> openable fs CONFIG_FILE_PATH = true ->
  write_ok (fs_env fs) CONFIG_FILE_PATH = true ->
  exists t json, ele_ds_cfg_to_json cfg = Ok json /\
    write_ele_ds_cfg cfg fs = Ok (0, set_files <[CONFIG_FILE_PATH := t]> fs) /\
    cJSON_Parse (t ++ [0]) = Ok (Some json) /\
    forall c, read_ele_ds_cfg c (set_files <[CONFIG_FILE_PATH := t]> fs) = Err NullDeref.
Proof.
  intros Hok Ho Hw. destruct (write_cfg_run cfg fs Hok Ho Hw) as (t & _ & Hl & Hp & Hrun).
  eexists t, _. split; [by apply to_json_run|]. split; [done|]. split; [by apply Hp|].
  intros c. rewrite (read_cfg_run c _ t (cJSON_Object (cfg_members cfg)));
    [|simpl; by rewrite lookup_insert_eq|by apply (openable_ok fs)|done|by apply Hp].
  destruct (from_json_run cfg [] Hok) as (cfg' & _ & _ & E). rewrite app_nil_r in E. by rewrite E.
Qed.

(** A file system with the directory of the configuration. *)
Definition formatted : fsys := Fsys ∅ [comps SYSFILE_PATH] ∅ (Fsenv (fun _ => true) (fun _ => true)).

Lemma config_file_unreadable_witness :
  exists t json, ele_ds_cfg_to_json init_ele_ds_cfg = Ok json /\
    write_ele_ds_cfg init_ele_ds_cfg formatted =
      Ok (0, set_files <[CONFIG_FILE_PATH := t]>
               formatted) /\
    cJSON_Parse (t ++ [0]) = Ok (Some json) /\
    forall c, read_ele_ds_cfg c
      (set_files <[CONFIG_FILE_PATH := t]> formatted) =
      Err NullDeref.
Proof.
  refine (config_file_unreadable init_ele_ds_cfg
    formatted _ eq_refl eq_refl).
  apply (bool_decide_unpack _). vm_compute. exact I.
Defined.
