(* ===== verification/Common.v ===== *)
(** [applications/common/common.c]: the JSON shape test, the search for a JSON start, the
    CRC-32 of buffers and files, and the creation of intermediate directories.

    [soft_crc32] is the table-driven code; [crc32_bitwise] is the bit-by-bit reference
    (reflected polynomial 0xEDB88320) it is proved equal to. *)

From S2P Require Import Prelude Posix.
#[local] Open Scope Z_scope.

(** ** JSON shape *)

Definition chr_lbrace := 123.
Definition chr_rbrace := 125.
Definition chr_lbracket := 91.
Definition chr_rbracket := 93.

(** [bool is_json(const char *data, size_t len)] *)
Definition is_json (data : bytes) (len : Z) : res bool :=
  if len <? 2 then Ok false else
  a ← aget data 0;
  if a =? chr_lbrace then z ← aget data (len - 1); Ok (z =? chr_rbrace)
  else if a =? chr_lbracket then z ← aget data (len - 1); Ok (z =? chr_rbracket)
  else Ok false.

(** [char *find_json_start(char *buffer, int32_t len)]: the index, [None] for NULL. *)
Fixpoint find_json_start_from (buffer : bytes) (i : Z) (n : nat) : res (option Z) :=
  match n with
  | O => Ok None
  | S n =>
      b ← aget buffer i;
      if b =? chr_lbrace then Ok (Some i) else find_json_start_from buffer (i + 1) n
  end.

Definition find_json_start (buffer : bytes) (len : Z) : res (option Z) :=
  find_json_start_from buffer 0 (Z.to_nat len).

(** ** CRC-32 *)

Definition crc32_table : list Z :=
  [0; 1996959894; 3993919788; 2567524794; 124634137; 1886057615; 3915621685; 2657392035;
   249268274; 2044508324; 3772115230; 2547177864; 162941995; 2125561021; 3887607047; 2428444049;
   498536548; 1789927666; 4089016648; 2227061214; 450548861; 1843258603; 4107580753; 2211677639;
   325883990; 1684777152; 4251122042; 2321926636; 335633487; 1661365465; 4195302755; 2366115317;
   997073096; 1281953886; 3579855332; 2724688242; 1006888145; 1258607687; 3524101629; 2768942443;
   901097722; 1119000684; 3686517206; 2898065728; 853044451; 1172266101; 3705015759; 2882616665;
   651767980; 1373503546; 3369554304; 3218104598; 565507253; 1454621731; 3485111705; 3099436303;
   671266974; 1594198024; 3322730930; 2970347812; 795835527; 1483230225; 3244367275; 3060149565;
   1994146192; 31158534; 2563907772; 4023717930; 1907459465; 112637215; 2680153253; 3904427059;
   2013776290; 251722036; 2517215374; 3775830040; 2137656763; 141376813; 2439277719; 3865271297;
   1802195444; 476864866; 2238001368; 4066508878; 1812370925; 453092731; 2181625025; 4111451223;
   1706088902; 314042704; 2344532202; 4240017532; 1658658271; 366619977; 2362670323; 4224994405;
   1303535960; 984961486; 2747007092; 3569037538; 1256170817; 1037604311; 2765210733; 3554079995;
   1131014506; 879679996; 2909243462; 3663771856; 1141124467; 855842277; 2852801631; 3708648649;
   1342533948; 654459306; 3188396048; 3373015174; 1466479909; 544179635; 3110523913; 3462522015;
   1591671054; 702138776; 2966460450; 3352799412; 1504918807; 783551873; 3082640443; 3233442989;
   3988292384; 2596254646; 62317068; 1957810842; 3939845945; 2647816111; 81470997; 1943803523;
   3814918930; 2489596804; 225274430; 2053790376; 3826175755; 2466906013; 167816743; 2097651377;
   4027552580; 2265490386; 503444072; 1762050814; 4150417245; 2154129355; 426522225; 1852507879;
   4275313526; 2312317920; 282753626; 1742555852; 4189708143; 2394877945; 397917763; 1622183637;
   3604390888; 2714866558; 953729732; 1340076626; 3518719985; 2797360999; 1068828381; 1219638859;
   3624741850; 2936675148; 906185462; 1090812512; 3747672003; 2825379669; 829329135; 1181335161;
   3412177804; 3160834842; 628085408; 1382605366; 3423369109; 3138078467; 570562233; 1426400815;
   3317316542; 2998733608; 733239954; 1555261956; 3268935591; 3050360625; 752459403; 1541320221;
   2607071920; 3965973030; 1969922972; 40735498; 2617837225; 3943577151; 1913087877; 83908371;
   2512341634; 3803740692; 2075208622; 213261112; 2463272603; 3855990285; 2094854071; 198958881;
   2262029012; 4057260610; 1759359992; 534414190; 2176718541; 4139329115; 1873836001; 414664567;
   2282248934; 4279200368; 1711684554; 285281116; 2405801727; 4167216745; 1634467795; 376229701;
   2685067896; 3608007406; 1308918612; 956543938; 2808555105; 3495958263; 1231636301; 1047427035;
   2932959818; 3654703836; 1088359270; 936918000; 2847714899; 3736837829; 1202900863; 817233897;
   3183342108; 3401237130; 1404277552; 615818150; 3134207493; 3453421203; 1423857449; 601450431;
   3009837614; 3294710456; 1567103746; 711928724; 3020668471; 3272380065; 1510334235; 755167117].

Definition crc32_entry (i : Z) : Z := nth (Z.to_nat i) crc32_table 0.

Definition crc32_step (crc b : Z) : Z :=
  Z.lxor (crc32_entry (Z.land (Z.lxor crc b) 255)) (Z.shiftr crc 8).

(** [static uint32_t soft_crc32(const uint8_t *buf, size_t len, uint32_t crc_init)] *)
Definition soft_crc32 (buf : bytes) (crc_init : Z) : Z :=
  Z.lxor (fold_left crc32_step buf (Z.lxor crc_init 4294967295)) 4294967295.

(** The read loop of [crcfile], at most [fuel] reads. *)
Definition CRC_BUFFER_SIZE := 512.

Fixpoint crcfile_loop (fuel : nat) (fd crc_result : Z) : M fsys Z :=
  match fuel with
  | O => throw Spin
  | S fuel =>
      r ← read_ fd CRC_BUFFER_SIZE;
      if 0 <? r.1 then crcfile_loop fuel fd (soft_crc32 r.2 crc_result)
      else mret crc_result
  end.

(** [uint32_t crcfile(int argc, char **argv)] *)
Definition crcfile (argv : list bytes) (fuel : nat) : M fsys Z :=
  match argv with
  | [_; filename] =>
      fd ← open_ filename O_RDONLY_flags;
      if fd <? 0 then mret 0 else
      crc ← crcfile_loop fuel fd 0;
      _ ← close_ fd;
      mret crc
  | _ => mret 0
  end.

(** ** [mkdir_recursive] *)

Definition MAX_PATH := 256.
Definition chr_slash := 47.

(** The loop over [p]: [pre] is the string before [p], [rest] the string from [p] on. *)
Fixpoint mkdir_prefixes (pre rest : bytes) : list bytes :=
  match rest with
  | [] => []
  | c :: rest =>
      (if c =? chr_slash then [pre] else []) ++ mkdir_prefixes (pre ++ [c]) rest
  end.

(** [static void mkdir_recursive(const char *dir)].  [snprintf] keeps at most 255 bytes;
    an empty [dir] makes the code read [tmp[-1]]. *)
Definition mkdir_recursive (dir : bytes) : M fsys unit :=
  let tmp := take (Z.to_nat (MAX_PATH - 1)) dir in
  match tmp with
  | [] => throw OutOfBounds
  | _ =>
      let tmp := match last tmp with
                 | Some l => if l =? chr_slash then removelast tmp else tmp
                 | None => tmp
                 end in
      (* p starts at tmp + 1: the first byte is never a split point *)
      mfor (match tmp with [] => [] | c :: rest => mkdir_prefixes [c] rest end)
        (fun d => mkdir_ d ;;; mret tt) ;;;
      mkdir_ tmp ;;; mret tt
  end.

(** ** Reference CRC *)

Definition crc_bit (c : Z) : Z :=
  if Z.testbit c 0 then Z.lxor (Z.shiftr c 1) 3988292384 else Z.shiftr c 1.

Definition crc_byte (c b : Z) : Z := Nat.iter 8 crc_bit (Z.lxor c b).

Definition crc32_bitwise (buf : bytes) (crc_init : Z) : Z :=
  Z.lxor (fold_left crc_byte buf (Z.lxor crc_init 4294967295)) 4294967295.

(** ** Lemmas on the reference *)

Lemma crc_bit_lxor a b : crc_bit (Z.lxor a b) = Z.lxor (crc_bit a) (crc_bit b).
Proof.
  unfold crc_bit. rewrite Z.lxor_spec, Z.shiftr_lxor.
  destruct (Z.testbit a 0), (Z.testbit b 0); simpl;
    apply Z.bits_inj'; intros i _; rewrite !Z.lxor_spec;
    repeat match goal with |- context [Z.testbit ?x ?i] => destruct (Z.testbit x i) end; done.
Qed.

Lemma crc_iter_lxor n a b :
  Nat.iter n crc_bit (Z.lxor a b) = Z.lxor (Nat.iter n crc_bit a) (Nat.iter n crc_bit b).
Proof. induction n as [|n IH]; simpl; [done|]. by rewrite IH, crc_bit_lxor. Qed.

Lemma crc_iter_shiftl n k h :
  (n <= k)%nat ->
  Nat.iter n crc_bit (Z.shiftl h (Z.of_nat k)) = Z.shiftl h (Z.of_nat (k - n)).
Proof.
  induction n as [|n IH]; intros Hk; simpl; [by rewrite Nat.sub_0_r|].
  rewrite IH by lia. unfold crc_bit.
  rewrite Z.shiftl_spec_low by lia.
  rewrite Z.shiftr_shiftl_l by lia. f_equal. lia.
Qed.

(** Splitting a value into its low [k] bits and the rest. *)
Lemma split_low x k :
  0 <= k -> x = Z.lxor (Z.land x (Z.ones k)) (Z.shiftl (Z.shiftr x k) k).
Proof.
  intros Hk. apply Z.bits_inj'. intros i Hi.
  rewrite Z.lxor_spec, Z.land_spec, Z.shiftl_spec by done.
  destruct (Z.lt_ge_cases i k).
  - rewrite Z.ones_spec_low, (Z.testbit_neg_r _ (i - k)) by lia. by destruct (Z.testbit x i).
  - rewrite Z.ones_spec_high, Z.shiftr_spec by lia.
    replace (i - k + k) with i by lia. by destruct (Z.testbit x i).
Qed.

Lemma crc_iter8 x :
  Nat.iter 8 crc_bit x = Z.lxor (Nat.iter 8 crc_bit (Z.land x 255)) (Z.shiftr x 8).
Proof.
  rewrite (split_low x 8) at 1 by lia. change (Z.ones 8) with 255.
  rewrite crc_iter_lxor. f_equal.
  change 8 with (Z.of_nat 8) at 2. rewrite crc_iter_shiftl by lia.
  by rewrite Nat.sub_diag, Z.shiftl_0_r.
Qed.

Lemma crc32_table_ok i : 0 <= i < 256 -> crc32_entry i = Nat.iter 8 crc_bit i.
Proof.
  intros Hi.
  assert (forallb (fun i => crc32_entry i =? Nat.iter 8 crc_bit i) (seqZ 0 256) = true) as H.
  { by vm_compute. }
  rewrite forallb_forall in H. apply Z.eqb_eq, H, list_elem_of_In, elem_of_seqZ. lia.
Qed.

Lemma land_255_range x : 0 <= Z.land x 255 < 256.
Proof. change 255 with (Z.ones 8). rewrite Z.land_ones by lia. by apply Z.mod_pos_bound. Qed.

Lemma byte_shiftr8 b : is_byte b -> Z.shiftr b 8 = 0.
Proof. unfold is_byte. intros. rewrite Z.shiftr_div_pow2 by lia. apply Z.div_small. lia. Qed.

(** One table step is eight bit steps. *)
Lemma crc32_step_bitwise crc b : is_byte b -> crc32_step crc b = crc_byte crc b.
Proof.
  intros Hb. unfold crc32_step, crc_byte.
  rewrite crc32_table_ok by apply land_255_range.
  rewrite (crc_iter8 (Z.lxor crc b)). f_equal.
  by rewrite Z.shiftr_lxor, (byte_shiftr8 b), Z.lxor_0_r.
Qed.

Lemma crc_bit_fits c : fits 32 c -> fits 32 (crc_bit c).
Proof.
  intros Hc. unfold crc_bit. destruct (Z.testbit c 0).
  - apply fits_lxor; [lia|by apply fits_shiftr|]. unfold fits. lia.
  - by apply fits_shiftr.
Qed.

Lemma crc_iter_fits n c : fits 32 c -> fits 32 (Nat.iter n crc_bit c).
Proof. intros Hc. induction n; simpl; [done|]. by apply crc_bit_fits. Qed.

Lemma byte_fits32 b : is_byte b -> fits 32 b.
Proof. unfold is_byte, fits. lia. Qed.

Lemma crc_byte_fits c b : fits 32 c -> is_byte b -> fits 32 (crc_byte c b).
Proof.
  intros Hc Hb. apply crc_iter_fits, fits_lxor; [lia|done|by apply byte_fits32].
Qed.

(** The bit step can be undone on 32-bit values: bit 31 of the result is bit 0 of the
    argument. *)
Lemma crc_bit_inj a b : fits 32 a -> fits 32 b -> crc_bit a = crc_bit b -> a = b.
Proof.
  assert (forall c, fits 32 c -> Z.testbit (crc_bit c) 31 = Z.testbit c 0) as Hbit.
  { intros c [Hc1 Hc2].
    assert (Z.testbit (Z.shiftr c 1) 31 = false) as Hs.
    { rewrite Z.shiftr_spec by lia. rewrite <- (Z.mod_small c (2 ^ 32)) by done.
      by apply Z.mod_pow2_bits_high. }
    unfold crc_bit. destruct (Z.testbit c 0); rewrite ?Z.lxor_spec, Hs; done. }
  intros Ha Hb Heq.
  assert (Z.testbit a 0 = Z.testbit b 0) as H0 by (rewrite <- !Hbit by done; congruence).
  assert (Z.shiftr a 1 = Z.shiftr b 1) as Hs.
  { unfold crc_bit in Heq. rewrite H0 in Heq. destruct (Z.testbit b 0); [|done].
    apply (f_equal (fun x => Z.lxor x 3988292384)) in Heq.
    by rewrite !Z.lxor_assoc, Z.lxor_nilpotent, !Z.lxor_0_r in Heq. }
  apply Z.bits_inj'. intros i Hi. destruct (decide (i = 0)) as [->|]; [done|].
  replace i with (i - 1 + 1) by lia. rewrite <- !Z.shiftr_spec by lia. by rewrite Hs.
Qed.

Lemma crc_iter_inj n a b :
  fits 32 a -> fits 32 b -> Nat.iter n crc_bit a = Nat.iter n crc_bit b -> a = b.
Proof.
  intros Ha Hb. induction n as [|n IH]; simpl; [done|].
  intros H. apply IH, crc_bit_inj; [..|done]; by apply crc_iter_fits.
Qed.

Lemma lxor_cancel_r a b c : Z.lxor a c = Z.lxor b c -> a = b.
Proof.
  intros H. apply (f_equal (fun x => Z.lxor x c)) in H.
  by rewrite !Z.lxor_assoc, Z.lxor_nilpotent, !Z.lxor_0_r in H.
Qed.

Lemma crc_byte_inj_l a b x :
  fits 32 a -> fits 32 b -> is_byte x -> crc_byte a x = crc_byte b x -> a = b.
Proof.
  intros Ha Hb Hx%byte_fits32 H. apply crc_iter_inj in H; [|by apply fits_lxor..].
  by apply lxor_cancel_r in H.
Qed.

Lemma crc_byte_inj_r a x y :
  fits 32 a -> is_byte x -> is_byte y -> crc_byte a x = crc_byte a y -> x = y.
Proof.
  intros Ha Hx%byte_fits32 Hy%byte_fits32 H.
  apply crc_iter_inj in H; [|by apply fits_lxor..].
  rewrite !(Z.lxor_comm a) in H. by apply lxor_cancel_r in H.
Qed.

(** ** Lemmas on [soft_crc32] and [crcfile] *)

Lemma fold_crc_fits buf c : all_bytes buf -> fits 32 c -> fits 32 (fold_left crc_byte buf c).
Proof.
  intros H. revert c. induction H as [|b buf Hb _ IH]; intros c Hc; simpl; [done|].
  by apply IH, crc_byte_fits.
Qed.

Lemma fold_crc_step_bitwise buf c :
  all_bytes buf -> fold_left crc32_step buf c = fold_left crc_byte buf c.
Proof.
  intros H. revert c. induction H as [|b buf Hb _ IH]; intros c; simpl; [done|].
  by rewrite crc32_step_bitwise, IH.
Qed.

Lemma fold_crc_inj buf a b :
  all_bytes buf -> fits 32 a -> fits 32 b ->
  fold_left crc_byte buf a = fold_left crc_byte buf b -> a = b.
Proof.
  intros H. revert a b. induction H as [|x buf Hx _ IH]; intros a b Ha Hb; simpl; [done|].
  intros E. apply IH in E; [|by apply crc_byte_fits..]. by apply (crc_byte_inj_l a b x).
Qed.

Lemma soft_crc32_app a b init :
  soft_crc32 (a ++ b) init = soft_crc32 b (soft_crc32 a init).
Proof.
  unfold soft_crc32. rewrite fold_left_app, (Z.lxor_assoc _ 4294967295), Z.lxor_nilpotent.
  by rewrite Z.lxor_0_r.
Qed.

Lemma soft_crc32_nil init : soft_crc32 [] init = init.
Proof. unfold soft_crc32. simpl. by rewrite Z.lxor_assoc, Z.lxor_nilpotent, Z.lxor_0_r. Qed.

(** The read loop, from a position of the open file, with enough fuel. *)
Lemma crcfile_loop_ok fuel fs fd path c pos crc :
  fs_files fs !! path = Some c ->
  (length (drop pos c) + 512 <= fuel * 512)%nat ->
  exists pos',
  crcfile_loop fuel fd crc (set_fds <[fd := Fdesc path pos]> fs) =
    Ok (soft_crc32 (drop pos c) crc, set_fds <[fd := Fdesc path pos']> fs).
Proof.
  intros Hf. revert pos crc. induction fuel as [|fuel IH]; intros pos crc Hfuel; [lia|].
  cbn [crcfile_loop]. unfold mbind, M_bind.
  rewrite (read_at fs fd path c pos CRC_BUFFER_SIZE Hf). cbn [fst snd].
  change (Z.to_nat CRC_BUFFER_SIZE) with 512%nat.
  rewrite length_take. case_match eqn:E.
  - assert (soft_crc32 (drop pos c) crc =
      soft_crc32 (drop (pos + 512) c) (soft_crc32 (take 512 (drop pos c)) crc)) as ->.
    { by rewrite <- soft_crc32_app, <- drop_drop, take_drop. }
    assert (drop (pos + 512) c = drop (pos + Nat.min 512 (length (drop pos c))) c) as ->.
    { destruct (decide (length (drop pos c) <= 512)%nat).
      - rewrite !(drop_ge c) by (rewrite length_drop in *; lia). done.
      - f_equal. lia. }
    apply IH. apply Z.ltb_lt in E. unfold Zlen in E. rewrite length_take in E.
    rewrite !length_drop in *. lia.
  - apply Z.ltb_ge in E. unfold Zlen in E. rewrite length_take in E.
    assert (drop pos c = []) as -> by (apply nil_length_inv; lia).
    rewrite soft_crc32_nil. eexists. done.
Qed.

(** *** Making directories *)

(** [s] is [fs] with some of the directories on the way to [goal] added. *)
Definition grown (goal : list bytes) (fs s : fsys) : Prop :=
  exists dirs, s = set_dirs dirs fs /\ (forall d, d ∈ fs_dirs fs -> d ∈ dirs) /\
    forall d, d ∈ dirs -> d ∈ fs_dirs fs \/ d <> [] /\ d `prefix_of` goal.

(** All directories on a way are there. *)
Definition ready (s : fsys) (d : list bytes) : Prop := forall q, q `prefix_of` d -> is_dir s q = true.

Lemma ready_nil s : ready s [].
Proof. intros q ->%prefix_nil_inv. apply is_dir_root. Qed.

Lemma prefix_snoc {A} (q u : list A) x : q `prefix_of` (u ++ [x]) -> q `prefix_of` u \/ q = u ++ [x].
Proof.
  intros [k E]. destruct k as [|y k _] using rev_ind; [right; by rewrite app_nil_r in E|left].
  rewrite app_assoc in E. apply app_inj_tail in E as [-> _]. by eexists.
Qed.

Lemma wp_mkdir goal fs s p u seg (Q : Z -> fsys -> Prop) :
  grown goal fs s -> ready s u -> 47 ∉ seg -> comps p = u ++ comps seg -> comps p `prefix_of` goal ->
  (forall q, q <> [] -> q `prefix_of` goal -> is_file fs q = false) ->
  (forall r s', grown goal fs s' -> ready s' (comps p) -> Q r s') -> wp (mkdir_ p) Q s.
Proof.
  intros Hg Hr Hseg Hp Hgoal Hfile HQ. rewrite (comps_plain seg) in Hp by done.
  unfold wp, mkdir_, can_create. destruct (is_dir s (comps p)) eqn:Ed.
  - rewrite Bool.andb_false_r. simpl. apply HQ; [done|]. destruct seg as [|c seg]; rewrite Hp in *.
    + by rewrite app_nil_r.
    + intros q [Hq| ->]%prefix_snoc; [by apply Hr|done].
  - destruct seg as [|c seg].
    { rewrite app_nil_r in Hp. rewrite Hp, (Hr u) in Ed by done. done. }
    destruct Hg as (dirs & -> & H1 & H2).
    assert (is_file (set_dirs dirs fs) (comps p) = false) as ->.
    { change (is_file fs (comps p) = false). apply Hfile; [|done]. rewrite Hp. by destruct u. }
    assert (parent (comps p) = u) as -> by (unfold parent; by rewrite Hp, removelast_last).
    rewrite (Hr u) by done. simpl. apply HQ.
    + eexists. split; [reflexivity|]. split; [intros d Hd; right; auto|].
      intros d [->|Hd]%elem_of_cons; [|auto]. right. split; [|done]. rewrite Hp. by destruct u.
    + rewrite Hp. intros q [Hq| ->]%prefix_snoc.
      * apply Hr in Hq. apply is_dir_spec in Hq. apply is_dir_spec. simpl in *. destruct Hq; [by left|right; by right].
      * apply is_dir_spec. right. left.
Qed.

(** The path up to a point: directories, and a part without a slash. *)
Definition on_way (s : fsys) (pre : bytes) : Prop := exists a seg,
  pre = a ++ seg /\ (47 ∉ seg) /\ (forall x, comps (a ++ x) = comps a ++ comps x) /\ ready s (comps a).

Lemma mkdir_prefixes_ok goal fs rest pre s :
  grown goal fs s -> on_way s pre -> comps (pre ++ rest) `prefix_of` goal ->
  (forall q, q <> [] -> q `prefix_of` goal -> is_file fs q = false) ->
  wp (mfor (mkdir_prefixes pre rest) (fun d => mkdir_ d ;;; mret tt))
    (fun _ s' => grown goal fs s' /\ on_way s' (pre ++ rest)) s.
Proof.
  intros Hg Hw Hgoal Hfile. revert pre s Hg Hw Hgoal.
  induction rest as [|c rest IH]; intros pre s Hg Hw Hgoal; cbn [mkdir_prefixes].
  { rewrite app_nil_r. by apply wp_ret. }
  replace (pre ++ c :: rest) with ((pre ++ [c]) ++ rest) in * by by rewrite <- app_assoc.
  destruct Hw as (a & seg & -> & Hseg & Ha & Hr). unfold chr_slash. destruct (Z.eqb_spec c 47) as [->|Hc].
  - cbn [app mfor]. apply wp_bind, wp_bind.
    assert (comps ((a ++ seg) ++ [47]) = comps (a ++ seg)) as Es.
    { rewrite comps_slash. by rewrite app_nil_r. }
    eapply (wp_mkdir goal fs s (a ++ seg) (comps a) seg); [done|done|done|apply Ha| |done|].
    { etrans; [|exact Hgoal]. rewrite <- app_assoc. simpl. rewrite comps_slash. by apply prefix_app_r. }
    intros r s' Hg' Hr'. apply wp_ret. apply IH; [done| |done].
    exists ((a ++ seg) ++ [47]), []. rewrite app_nil_r. split_and!; [done|set_solver| |by rewrite Es].
    intros x. rewrite Es, <- app_assoc. apply comps_slash.
  - cbn [app]. apply IH; [done| |done]. exists a, (seg ++ [c]). rewrite app_assoc.
    split_and!; [done| |done|done]. rewrite elem_of_app, list_elem_of_singleton. intros [?| <-]; done.
Qed.

(** [mkdir_recursive] makes exactly the directories of the path that are missing. *)
Lemma mkdir_recursive_ok d fs :
  d <> [] -> (length d <= 255)%nat ->
  (forall q, q <> [] -> q `prefix_of` comps d -> is_file fs q = false) ->
  exists dirs, mkdir_recursive d fs = Ok (tt, set_dirs dirs fs) /\
    forall q, q ∈ dirs <-> q ∈ fs_dirs fs \/ q <> [] /\ q `prefix_of` comps d.
Proof.
  intros Hd Hl Hfile.
  assert (wp (mkdir_recursive d) (fun _ s => grown (comps d) fs s /\ ready s (comps d)) fs) as H.
  { assert (grown (comps d) fs fs) as Hg0 by (exists (fs_dirs fs); split_and!; [by destruct fs|auto..]).
    unfold mkdir_recursive, MAX_PATH. change (Z.to_nat (256 - 1)) with 255%nat. rewrite take_ge by done.
    destruct d as [|c rest] eqn:E; [done|]. rewrite <- E in *. clear c rest E.
    set (tmp := match last d with Some _ => _ | None => _ end).
    assert (comps tmp = comps d) as Et.
    { subst tmp. destruct d as [|c l _] using rev_ind; [done|]. rewrite last_snoc. unfold chr_slash.
      destruct (Z.eqb_spec c 47) as [->|]; [|done]. rewrite removelast_last, comps_slash. by rewrite app_nil_r. }
    assert (forall s, grown (comps d) fs s -> on_way s tmp ->
      wp (mkdir_ tmp ;;; mret tt) (fun _ s => grown (comps d) fs s /\ ready s (comps d)) s) as Hlast.
    { intros s Hg (a & seg & E & Hseg & Ha & Hr). apply wp_bind.
      eapply (wp_mkdir (comps d) fs s tmp (comps a) seg); [done|done|done|by rewrite E|by rewrite Et|done|].
      intros r s' Hg' Hr'. apply wp_ret. by rewrite Et in Hr'. }
    apply wp_bind. destruct tmp as [|c rest] eqn:Etmp.
    - apply wp_ret. apply Hlast; [done|]. exists [], []. split_and!; [done|set_solver|done|apply ready_nil].
    - eapply wp_mono; [apply (mkdir_prefixes_ok (comps d) fs rest [c])|].
      + done.
      + destruct (decide (c = 47)) as [->|Hc].
        * exists [47], []. split_and!; [done|set_solver|intros x; apply (comps_slash [] x)|apply ready_nil].
        * exists [], [c]. split_and!; [done|set_solver|done|apply ready_nil].
      + change ([c] ++ rest) with (c :: rest). by rewrite Et.
      + done.
      + intros [] s [H1 H2]. by apply Hlast. }
  apply wp_run in H as ([] & s & E & (dirs & -> & H1 & H2) & Hr). exists dirs. split; [done|].
  intros q. split; [apply H2|]. intros [Hq|[Hne Hq]]; [auto|].
  apply Hr, is_dir_spec in Hq. by destruct Hq.
Qed.

(** The whole of [crcfile] on a readable file. *)
Lemma crcfile_run fs arg0 path c fuel :
  open_ok (fs_env fs) path = true -> fs_files fs !! path = Some c ->
  (length c + 512 <= fuel * 512)%nat ->
  crcfile [arg0; path] fuel fs = Ok (soft_crc32 c 0, fs).
Proof.
  intros Hok Hf Hfuel. unfold crcfile. unfold mbind at 1, M_bind at 1.
  rewrite (open_read fs path c) by done.
  destruct (fresh_fd_spec (fs_fds fs)) as [Hfd Hfree].
  rewrite (proj2 (Z.ltb_ge _ _)) by lia. unfold mbind, M_bind.
  destruct (crcfile_loop_ok fuel fs (fresh_fd (fs_fds fs)) path c 0 0) as [pos' ->];
    [done|by rewrite drop_0|].
  unfold close_. simpl. rewrite lookup_insert_eq, set_fds_delete_insert by done. by rewrite drop_0.
Qed.

Definition witness_fs : fsys :=
  Fsys {[ cs "/sysfile/soft/update/app" := cs "123456789" ]}
       [comps (cs "/sysfile"); comps (cs "/sysfile/soft"); comps (cs "/sysfile/soft/update")] ∅
       (Fsenv (fun _ => true) (fun _ => true)).

(** ** Properties *)

(** C18. The table-driven CRC of the code is the bit-by-bit CRC-32 on every byte string. *)
Theorem soft_crc32_reference buf crc_init :
  all_bytes buf -> soft_crc32 buf crc_init = crc32_bitwise buf crc_init.
Proof.
  intros Hb. unfold soft_crc32, crc32_bitwise. by rewrite fold_crc_step_bitwise.
Qed.

Lemma soft_crc32_reference_witness :
  soft_crc32 (cs "123456789") 0 = 3421780262 /\
  soft_crc32 (cs "123456789") 0 = crc32_bitwise (cs "123456789") 0.
Proof.
  split; [vm_compute; reflexivity|].
  apply soft_crc32_reference. apply (bool_decide_unpack _). vm_compute. exact I.
Defined.

(** Changing one byte of a buffer, anywhere in it, changes its CRC. *)
Theorem soft_crc32_detects_byte pre post b b' crc_init :
  all_bytes pre -> all_bytes post -> is_byte b -> is_byte b' -> fits 32 crc_init -> b <> b' ->
  soft_crc32 (pre ++ b :: post) crc_init <> soft_crc32 (pre ++ b' :: post) crc_init.
Proof.
  intros Hpre Hpost Hb Hb' Hi Hne E. apply Hne. unfold soft_crc32 in E.
  apply lxor_cancel_r in E.
  rewrite !fold_crc_step_bitwise, !fold_left_app in E
    by (rewrite Forall_app, Forall_cons; done).
  assert (fits 32 (Z.lxor crc_init 4294967295)) as Hi'.
  { apply fits_lxor; [lia|done|]. unfold fits. lia. }
  set (c := fold_left crc_byte pre _) in E.
  assert (fits 32 c) as Hc by by apply fold_crc_fits.
  cbn [fold_left] in E. apply fold_crc_inj in E; [|done|by apply crc_byte_fits..].
  by apply crc_byte_inj_r in E.
Qed.

Lemma soft_crc32_detects_byte_witness :
  soft_crc32 ([1; 2] ++ 3 :: [4]) 0 <> soft_crc32 ([1; 2] ++ 7 :: [4]) 0.
Proof.
  apply soft_crc32_detects_byte;
    apply (bool_decide_unpack _); vm_compute; exact I.
Defined.

(** [crcfile] on a readable file returns the CRC-32 of its whole content, for any length
    (the file is read in 512-byte blocks), and leaves the file system as it was. *)
Theorem crcfile_content fs arg0 path c fuel :
  open_ok (fs_env fs) path = true -> fs_files fs !! path = Some c ->
  (length c + 512 <= fuel * 512)%nat ->
  crcfile [arg0; path] fuel fs = Ok (soft_crc32 c 0, fs).
Proof. apply crcfile_run. Qed.

Lemma crcfile_content_witness :
  crcfile [cs "crcfile"; cs "/sysfile/soft/update/app"] 2 witness_fs = Ok (3421780262, witness_fs).
Proof.
  change 3421780262 with (soft_crc32 (cs "123456789") 0).
  apply crcfile_content; [reflexivity|reflexivity|simpl; lia].
Defined.

(** A file that cannot be opened and a wrong argument count give 0, which is also the CRC
    of an empty file: the result does not tell the three apart. *)
Theorem crcfile_error fs arg0 path fuel args :
  (open_ok (fs_env fs) path = false \/ fs_files fs !! path = None ->
     crcfile [arg0; path] fuel fs = Ok (0, fs)) /\
  (length args <> 2%nat -> crcfile args fuel fs = Ok (0, fs)) /\
  soft_crc32 [] 0 = 0.
Proof.
  split; [|split].
  - intros Hopen. unfold crcfile, mbind, M_bind.
    assert (open_ path O_RDONLY_flags fs = Ok (-1, fs)) as ->; [|done].
    destruct Hopen; [by apply open_denied|by apply open_missing].
  - intros Hn. by destruct args as [|? [|? [|]]].
  - by vm_compute.
Qed.

Lemma crcfile_error_witness :
  crcfile [cs "crcfile"; cs "/no"] 1 witness_fs = Ok (0, witness_fs) /\
  crcfile [] 1 witness_fs = Ok (0, witness_fs).
Proof.
  split.
  - apply (proj1 (crcfile_error witness_fs (cs "crcfile") (cs "/no") 1 [])).
    right. reflexivity.
  - apply (proj1 (proj2 (crcfile_error witness_fs (cs "crcfile") (cs "/no") 1 []))).
    discriminate.
Defined.
