(* ===== verification/RingBuffer.v ===== *)
(** The byte ring buffer between the receive and the parse thread:
    [rt-thread/components/drivers/ipc/ringbuffer.c].

    The state is the C struct: the pool, two 31-bit indices and two mirror bits.
    [contents] is the abstract value, the queued bytes in order; the theorems relate every
    operation to the bounded queue of [buffer_size] bytes. *)

From S2P Require Import Prelude.
#[local] Open Scope Z_scope.

Record rt_ringbuffer := Ringbuffer {
  buffer_ptr : bytes;
  read_mirror : bool;
  read_index : Z;
  write_mirror : bool;
  write_index : Z;
  buffer_size : Z;
}.

Inductive rt_ringbuffer_state :=
  | RT_RINGBUFFER_EMPTY
  | RT_RINGBUFFER_FULL
  | RT_RINGBUFFER_HALFFULL.

(** ** Operations *)

Definition rt_ringbuffer_status (rb : rt_ringbuffer) : rt_ringbuffer_state :=
  if read_index rb =? write_index rb then
    if eqb (read_mirror rb) (write_mirror rb) then RT_RINGBUFFER_EMPTY else RT_RINGBUFFER_FULL
  else RT_RINGBUFFER_HALFFULL.

(** [RT_ALIGN_DOWN(size, RT_ALIGN_SIZE)], [RT_ALIGN_SIZE] being 8. *)
Definition rt_align_down (size : Z) : Z := Z.land size (Z.lnot 7).

Definition rt_ringbuffer_init (pool : bytes) (size : Z) : res rt_ringbuffer :=
  if 0 <? size then Ok (Ringbuffer pool false 0 false 0 (rt_align_down size))
  else Err AssertFail.

Definition rt_ringbuffer_data_len (rb : rt_ringbuffer) : Z :=
  match rt_ringbuffer_status rb with
  | RT_RINGBUFFER_EMPTY => 0
  | RT_RINGBUFFER_FULL => u32 (buffer_size rb)
  | RT_RINGBUFFER_HALFFULL =>
      let wi := write_index rb in
      let ri := read_index rb in
      if ri <? wi then u32 (wi - ri) else u32 (buffer_size rb - (ri - wi))
  end.

Definition rt_ringbuffer_space_len (rb : rt_ringbuffer) : Z :=
  u32 (buffer_size rb - rt_ringbuffer_data_len rb).

Definition set_write (rb : rt_ringbuffer) (buf : bytes) (m : bool) (i : Z) : rt_ringbuffer :=
  Ringbuffer buf (read_mirror rb) (read_index rb) m i (buffer_size rb).
Definition set_read (rb : rt_ringbuffer) (m : bool) (i : Z) : rt_ringbuffer :=
  Ringbuffer (buffer_ptr rb) m i (write_mirror rb) (write_index rb) (buffer_size rb).

Definition rt_ringbuffer_put (rb : rt_ringbuffer) (ptr : bytes) (length : Z)
    : res (Z * rt_ringbuffer) :=
  let size := rt_ringbuffer_space_len rb in
  if size =? 0 then Ok (0, rb) else
  let length := if size <? length then size else length in
  let tail := u32 (buffer_size rb - write_index rb) in
  if length <? tail then
    src ← slice ptr 0 length;
    buf ← blit (buffer_ptr rb) (write_index rb) src;
    Ok (length, set_write rb buf (write_mirror rb) (wrap 31 (write_index rb + length)))
  else
    s1 ← slice ptr 0 tail;
    b1 ← blit (buffer_ptr rb) (write_index rb) s1;
    s2 ← slice ptr tail (u32 (length - tail));
    b2 ← blit b1 0 s2;
    Ok (length, set_write rb b2 (negb (write_mirror rb)) (wrap 31 (length - tail))).

Definition rt_ringbuffer_put_force (rb : rt_ringbuffer) (ptr : bytes) (length : Z)
    : res (Z * rt_ringbuffer) :=
  let space_length := rt_ringbuffer_space_len rb in
  let skip := if u32 (buffer_size rb) <? length then length - buffer_size rb else 0 in
  let length := if u32 (buffer_size rb) <? length then u32 (buffer_size rb) else length in
  let tail := u32 (buffer_size rb - write_index rb) in
  if length <? tail then
    src ← slice ptr skip length;
    buf ← blit (buffer_ptr rb) (write_index rb) src;
    let rb := set_write rb buf (write_mirror rb) (wrap 31 (write_index rb + length)) in
    Ok (length, if space_length <? length then set_read rb (read_mirror rb) (write_index rb)
                else rb)
  else
    s1 ← slice ptr skip tail;
    b1 ← blit (buffer_ptr rb) (write_index rb) s1;
    s2 ← slice ptr (skip + tail) (u32 (length - tail));
    b2 ← blit b1 0 s2;
    let rb := set_write rb b2 (negb (write_mirror rb)) (wrap 31 (length - tail)) in
    Ok (length,
        if space_length <? length then
          set_read rb (if write_index rb <=? read_index rb then negb (read_mirror rb)
                       else read_mirror rb) (write_index rb)
        else rb).

(** The destination buffer is passed and returned: bytes past the count keep their value. *)
Definition rt_ringbuffer_get (rb : rt_ringbuffer) (dst : bytes) (length : Z)
    : res (Z * bytes * rt_ringbuffer) :=
  let size := rt_ringbuffer_data_len rb in
  if size =? 0 then Ok (0, dst, rb) else
  let length := if size <? length then size else length in
  let tail := u32 (buffer_size rb - read_index rb) in
  if length <? tail then
    src ← slice (buffer_ptr rb) (read_index rb) length;
    d ← blit dst 0 src;
    Ok (length, d, set_read rb (read_mirror rb) (wrap 31 (read_index rb + length)))
  else
    s1 ← slice (buffer_ptr rb) (read_index rb) tail;
    d1 ← blit dst 0 s1;
    s2 ← slice (buffer_ptr rb) 0 (u32 (length - tail));
    d2 ← blit d1 tail s2;
    Ok (length, d2, set_read rb (negb (read_mirror rb)) (wrap 31 (length - tail))).

(** [rt_ringbuffer_peek]: the index [*ptr] points to, [None] for NULL, and the size. *)
Definition rt_ringbuffer_peek (rb : rt_ringbuffer) : Z * option Z * rt_ringbuffer :=
  let size := rt_ringbuffer_data_len rb in
  if size =? 0 then (0, None, rb) else
  let tail := u32 (buffer_size rb - read_index rb) in
  if size <? tail then
    (size, Some (read_index rb), set_read rb (read_mirror rb) (wrap 31 (read_index rb + size)))
  else (tail, Some (read_index rb), set_read rb (negb (read_mirror rb)) 0).

Definition rt_ringbuffer_putchar (rb : rt_ringbuffer) (ch : Z) : res (Z * rt_ringbuffer) :=
  if rt_ringbuffer_space_len rb =? 0 then Ok (0, rb) else
  buf ← aset (buffer_ptr rb) (write_index rb) ch;
  if write_index rb =? buffer_size rb - 1 then
    Ok (1, set_write rb buf (negb (write_mirror rb)) 0)
  else Ok (1, set_write rb buf (write_mirror rb) (wrap 31 (write_index rb + 1))).

Definition rt_ringbuffer_putchar_force (rb : rt_ringbuffer) (ch : Z) : res (Z * rt_ringbuffer) :=
  let old_state := rt_ringbuffer_status rb in
  let full := match old_state with RT_RINGBUFFER_FULL => true | _ => false end in
  buf ← aset (buffer_ptr rb) (write_index rb) ch;
  if write_index rb =? buffer_size rb - 1 then
    let rb := set_write rb buf (negb (write_mirror rb)) 0 in
    Ok (1, if full then set_read rb (negb (read_mirror rb)) (write_index rb) else rb)
  else
    let rb := set_write rb buf (write_mirror rb) (wrap 31 (write_index rb + 1)) in
    Ok (1, if full then set_read rb (read_mirror rb) (write_index rb) else rb).

(** The byte read is [None] when the buffer is empty: [*ch] is left alone. *)
Definition rt_ringbuffer_getchar (rb : rt_ringbuffer) : res (Z * option Z * rt_ringbuffer) :=
  if rt_ringbuffer_data_len rb =? 0 then Ok (0, None, rb) else
  ch ← aget (buffer_ptr rb) (read_index rb);
  if read_index rb =? buffer_size rb - 1 then
    Ok (1, Some ch, set_read rb (negb (read_mirror rb)) 0)
  else Ok (1, Some ch, set_read rb (read_mirror rb) (wrap 31 (read_index rb + 1))).

Definition rt_ringbuffer_reset (rb : rt_ringbuffer) : rt_ringbuffer :=
  Ringbuffer (buffer_ptr rb) false 0 false 0 (buffer_size rb).

(** ** The abstract queue *)

Definition live (rb : rt_ringbuffer) : bytes := take (Z.to_nat (buffer_size rb)) (buffer_ptr rb).

Definition contents (rb : rt_ringbuffer) : bytes :=
  let ri := Z.to_nat (read_index rb) in
  let wi := Z.to_nat (write_index rb) in
  if eqb (read_mirror rb) (write_mirror rb) then take (wi - ri) (drop ri (live rb))
  else drop ri (live rb) ++ take wi (live rb).

Definition wf (rb : rt_ringbuffer) : Prop :=
  0 < buffer_size rb < 2 ^ 31 /\ buffer_size rb <= Zlen (buffer_ptr rb) /\
  0 <= read_index rb < buffer_size rb /\ 0 <= write_index rb < buffer_size rb /\
  (if eqb (read_mirror rb) (write_mirror rb)
   then read_index rb <= write_index rb else write_index rb <= read_index rb).

#[export] Instance wf_dec rb : Decision (wf rb).
Proof. unfold wf. destruct (eqb _ _); apply _. Defined.

(** ** Lemmas *)

Ltac rb_unfold := unfold wf, contents, live, Zlen in *; simpl in *.

Lemma live_length rb : wf rb -> length (live rb) = Z.to_nat (buffer_size rb).
Proof. unfold wf, live, Zlen. intros. rewrite length_take. lia. Qed.

Lemma data_len_contents rb : wf rb -> rt_ringbuffer_data_len rb = Zlen (contents rb).
Proof.
  intros Hwf. pose proof (live_length rb Hwf) as Hl.
  destruct Hwf as (Hs & Hb & Hr & Hw & Hm).
  unfold rt_ringbuffer_data_len, rt_ringbuffer_status, contents, Zlen.
  destruct (eqb _ _) eqn:E.
  - rewrite length_take, length_drop, Hl.
    destruct (Z.eqb_spec (read_index rb) (write_index rb)); [lia|].
    rewrite (proj2 (Z.ltb_lt _ _)) by lia. rewrite wrap_small by lia. lia.
  - rewrite length_app, length_take, length_drop, Hl.
    destruct (Z.eqb_spec (read_index rb) (write_index rb)).
    + rewrite wrap_small by lia. lia.
    + rewrite (proj2 (Z.ltb_ge _ _)) by lia. rewrite wrap_small by lia. lia.
Qed.

Lemma contents_le rb : wf rb -> Zlen (contents rb) <= buffer_size rb.
Proof.
  intros Hwf. pose proof (live_length rb Hwf) as Hl.
  destruct Hwf as (Hs & Hb & Hr & Hw & Hm). unfold contents, Zlen.
  destruct (eqb _ _); autorewrite with lk; rewrite Hl; lia.
Qed.

Lemma space_len_contents rb :
  wf rb -> rt_ringbuffer_space_len rb = buffer_size rb - Zlen (contents rb).
Proof.
  intros Hwf. unfold rt_ringbuffer_space_len. rewrite data_len_contents by done.
  pose proof (contents_le rb Hwf). pose proof (Zlen_nonneg (contents rb)).
  destruct Hwf as (Hs & _). apply wrap_small. lia.
Qed.

(** The list equations behind the operations: [L] is the live pool of length [n]. *)
Definition cont (same : bool) (L : bytes) (ri wi : nat) : bytes :=
  if same then take (wi - ri) (drop ri L) else drop ri L ++ take wi L.

Lemma cont_put_one (same : bool) L ri wi (src : bytes) :
  (if same then ri <= wi else wi + length src <= ri)%nat ->
  (wi + length src <= length L)%nat -> (ri <= length L)%nat ->
  cont same (take wi L ++ src ++ drop (wi + length src) L) ri (wi + length src) =
  cont same L ri wi ++ src.
Proof. intros. unfold cont. destruct same; list_solve. Qed.

Lemma cont_put_two L ri wi (s1 s2 : bytes) :
  (ri <= wi)%nat -> (wi + length s1 = length L)%nat -> (length s2 <= ri)%nat ->
  cont false (s2 ++ drop (length s2) (take wi L ++ s1)) ri (length s2) =
  cont true L ri wi ++ s1 ++ s2.
Proof. intros. unfold cont. list_solve. Qed.

Lemma cont_get_one (same : bool) L ri wi k :
  (if same then ri + k <= wi else ri + k <= length L)%nat -> (wi <= length L)%nat ->
  cont same L ri wi = take k (drop ri L) ++ cont same L (ri + k) wi.
Proof. intros. unfold cont. destruct same; list_solve. Qed.

Lemma cont_get_two L ri wi k :
  (k <= wi <= length L)%nat ->
  cont false L ri wi = (drop ri L ++ take k L) ++ cont true L k wi.
Proof. intros. unfold cont. list_solve. Qed.

Lemma contents_Zlen rb :
  wf rb ->
  Zlen (contents rb) =
    if eqb (read_mirror rb) (write_mirror rb) then write_index rb - read_index rb
    else buffer_size rb - (read_index rb - write_index rb).
Proof.
  intros Hwf. pose proof (live_length rb Hwf) as Hl.
  destruct Hwf as (Hs & Hb & Hr & Hw & Hm). unfold contents, Zlen.
  destruct (eqb _ _); autorewrite with lk; rewrite Hl; lia.
Qed.

(** The live pool after the memory copies of a put. *)
Lemma live_blit b n w (src : bytes) :
  (w + length src <= n)%nat -> (n <= length b)%nat ->
  take n (take w b ++ src ++ drop (w + length src) b) =
  take w (take n b) ++ src ++ drop (w + length src) (take n b).
Proof. apply take_splice. Qed.

Lemma slice_length {A} (l : list A) off n s : slice l off n = Ok s -> Zlen s = n.
Proof.
  unfold slice. case_decide as H; [|done]. intros [= <-]. unfold Zlen in *.
  rewrite length_take, length_drop. lia.
Qed.

Lemma mirror_flip a b : eqb a (negb b) = negb (eqb a b).
Proof. by destruct a, b. Qed.

Lemma mirror_flip_l a b : eqb (negb a) b = negb (eqb a b).
Proof. by destruct a, b. Qed.

(** Writing [src] from the write index, not reaching the end of the pool. *)
Lemma write_one rb src :
  wf rb ->
  (eqb (read_mirror rb) (write_mirror rb) = false ->
     write_index rb + Zlen src <= read_index rb) ->
  write_index rb + Zlen src < buffer_size rb ->
  exists buf,
    blit (buffer_ptr rb) (write_index rb) src = Ok buf /\
    let rb' := set_write rb buf (write_mirror rb) (wrap 31 (write_index rb + Zlen src)) in
    wf rb' /\ contents rb' = contents rb ++ src.
Proof.
  intros Hwf Hfit Hlt. pose proof (Zlen_nonneg src).
  destruct (Hwf) as (Hs & Hb & Hr & Hw & Hm).
  rewrite blit_in by lia. eexists. split; [done|]. rewrite wrap_small by lia. simpl.
  assert (forall b, blit (buffer_ptr rb) (write_index rb) src = Ok b ->
            Zlen b = Zlen (buffer_ptr rb)) as Hz by (intros; by eapply blit_Zlen).
  rewrite blit_in in Hz by lia. specialize (Hz _ eq_refl).
  split.
  - unfold wf. simpl. rewrite Hz. destruct (eqb _ _); repeat split; try lia; auto.
  - pose proof (live_length rb Hwf) as Hl. unfold Zlen in *.
    unfold contents. simpl. fold (cont (eqb (read_mirror rb) (write_mirror rb))).
    unfold live at 1 2 3. simpl. rewrite live_blit by lia. fold (live rb).
    replace (Z.to_nat (write_index rb + Z.of_nat (length src)))
      with (Z.to_nat (write_index rb) + length src)%nat by lia.
    apply (cont_put_one (eqb (read_mirror rb) (write_mirror rb))); [|lia..].
    destruct (eqb _ _); [lia|]. specialize (Hfit eq_refl). lia.
Qed.

(** Writing around the end of the pool. *)
Lemma write_two rb s1 s2 :
  wf rb -> eqb (read_mirror rb) (write_mirror rb) = true ->
  write_index rb + Zlen s1 = buffer_size rb -> Zlen s2 <= read_index rb ->
  exists b1 b2,
    blit (buffer_ptr rb) (write_index rb) s1 = Ok b1 /\ blit b1 0 s2 = Ok b2 /\
    let rb' := set_write rb b2 (negb (write_mirror rb)) (wrap 31 (Zlen s2)) in
    wf rb' /\ contents rb' = contents rb ++ s1 ++ s2.
Proof.
  intros Hwf Heq H1 H2. pose proof (Zlen_nonneg s1). pose proof (Zlen_nonneg s2).
  pose proof (live_length rb Hwf) as Hl.
  destruct (Hwf) as (Hs & Hb & Hr & Hw & Hm). rewrite Heq in Hm.
  assert (exists b1, blit (buffer_ptr rb) (write_index rb) s1 = Ok b1) as [b1 Hb1].
  { rewrite blit_in by lia. by eexists. }
  pose proof (blit_Zlen _ _ _ _ Hb1) as Hz1.
  assert (exists b2, blit b1 0 s2 = Ok b2) as [b2 Hb2].
  { rewrite blit_in by lia. by eexists. }
  pose proof (blit_Zlen _ _ _ _ Hb2) as Hz2.
  exists b1, b2. split; [done|]. split; [done|]. rewrite wrap_small by lia. split.
  - unfold wf. simpl. rewrite mirror_flip, Heq. simpl. repeat split; lia.
  - rewrite blit_in in Hb1, Hb2 by lia. injection Hb1 as Hb1. injection Hb2 as Hb2.
    unfold contents. simpl. rewrite mirror_flip, Heq. simpl.
    fold (cont false (live (set_write rb b2 (negb (write_mirror rb)) (Zlen s2)))
            (Z.to_nat (read_index rb)) (Z.to_nat (Zlen s2))).
    fold (cont true (live rb) (Z.to_nat (read_index rb)) (Z.to_nat (write_index rb))).
    unfold Zlen in *. rewrite Nat2Z.id.
    rewrite <- (cont_put_two (live rb)) by lia. f_equal.
    unfold live. simpl. rewrite <- Hb2, <- Hb1. change (Z.to_nat 0) with O. simpl.
    set (n := Z.to_nat (buffer_size rb)) in *. set (w := Z.to_nat (write_index rb)) in *.
    clear -H1 H2 Hb Hs Hr Hw. assert (w + length s1 = n)%nat by lia.
    assert (n <= length (buffer_ptr rb))%nat by lia. assert (length s2 <= w + length s1)%nat by lia.
    list_solve.
Qed.

Lemma put_spec rb ptr len :
  wf rb -> 0 <= len < 2 ^ 32 -> len <= Zlen ptr ->
  let n := Z.min len (buffer_size rb - Zlen (contents rb)) in
  exists rb', rt_ringbuffer_put rb ptr len = Ok (n, rb') /\
    wf rb' /\ buffer_size rb' = buffer_size rb /\
    contents rb' = contents rb ++ take (Z.to_nat n) ptr.
Proof.
  intros Hwf Hlen Hptr n.
  assert (n = Z.min len (buffer_size rb - Zlen (contents rb))) as Hn by done. clearbody n.
  unfold rt_ringbuffer_put. rewrite space_len_contents by done.
  pose proof (contents_le rb Hwf). pose proof (Zlen_nonneg (contents rb)).
  pose proof (contents_Zlen rb Hwf) as Hc. destruct (Hwf) as (Hs & Hb & Hr & Hw & Hm).
  destruct (Z.eqb_spec (buffer_size rb - Zlen (contents rb)) 0) as [E|E].
  { exists rb. replace n with 0 by lia. simpl. by rewrite app_nil_r. }
  assert ((if buffer_size rb - Zlen (contents rb) <? len
           then buffer_size rb - Zlen (contents rb) else len) = n) as ->.
  { destruct (Z.ltb_spec (buffer_size rb - Zlen (contents rb)) len); lia. }
  rewrite (wrap_small 32 (buffer_size rb - write_index rb)) by lia.
  destruct (Z.ltb_spec n (buffer_size rb - write_index rb)) as [Hlt|Hge].
  - rewrite slice_in by lia. cbn [mbind res_bind]. change (Z.to_nat 0) with O. rewrite drop_0.
    assert (Zlen (take (Z.to_nat n) ptr) = n) as Hz.
    { unfold Zlen in *. rewrite length_take. lia. }
    destruct (write_one rb (take (Z.to_nat n) ptr)) as (buf & -> & Hwf' & Hc'); [done|..].
    { intros Hm'. rewrite Hm' in *. lia. }
    { lia. }
    rewrite Hz in *. cbn [mbind res_bind]. by eexists.
  - assert (eqb (read_mirror rb) (write_mirror rb) = true) as Hsame.
    { destruct (eqb _ _); [done|lia]. }
    rewrite Hsame in *. rewrite (slice_in ptr 0) by lia.
    cbn [mbind res_bind]. change (Z.to_nat 0) with O. rewrite drop_0.
    rewrite (wrap_small 32 (n - _)) by lia. rewrite slice_in by lia.
    set (t := buffer_size rb - write_index rb) in *.
    set (s1 := take (Z.to_nat t) ptr). set (s2 := take (Z.to_nat (n - t)) _).
    assert (Zlen s1 = t) as Hz1 by (unfold s1, Zlen in *; rewrite length_take; lia).
    assert (Zlen s2 = n - t) as Hz2
      by (unfold s2, Zlen in *; rewrite length_take, length_drop; lia).
    destruct (write_two rb s1 s2) as (b1 & b2 & -> & Hb2 & Hwf' & Hc'); [done|done|lia|lia|].
    cbn [mbind res_bind]. rewrite Hb2. cbn [mbind res_bind]. rewrite Hz2 in *.
    eexists. split; [done|]. split; [done|]. split; [done|]. rewrite Hc'. f_equal.
    unfold s1, s2. change (Z.to_nat 0) with O. rewrite ?drop_0, take_take_drop. f_equal. lia.
Qed.

Lemma contents_cont rb :
  contents rb = cont (eqb (read_mirror rb) (write_mirror rb)) (live rb)
                  (Z.to_nat (read_index rb)) (Z.to_nat (write_index rb)).
Proof. done. Qed.

(** Two destination copies in a row, at the start of the buffer. *)
Lemma blit_head {A} (d s : list A) :
  Zlen s <= Zlen d -> blit d 0 s = Ok (s ++ drop (length s) d).
Proof. intros. by rewrite blit_in by lia. Qed.

Lemma blit_second {A} (d s1 s2 : list A) :
  Zlen s1 + Zlen s2 <= Zlen d ->
  blit (s1 ++ drop (length s1) d) (Zlen s1) s2 =
    Ok ((s1 ++ s2) ++ drop (length (s1 ++ s2)) d).
Proof.
  intros H. pose proof (Zlen_nonneg s1). pose proof (Zlen_nonneg s2).
  rewrite blit_in; [|lia|].
  - f_equal. unfold Zlen in *. rewrite Nat2Z.id, length_app.
    rewrite take_app_length, drop_app, drop_ge, drop_drop by lia. simpl.
    rewrite <- app_assoc. do 3 f_equal. lia.
  - unfold Zlen in *. rewrite length_app, length_drop. lia.
Qed.

Lemma read_live rb k :
  wf rb -> 0 <= k -> read_index rb + k <= buffer_size rb ->
  slice (buffer_ptr rb) (read_index rb) k =
    Ok (take (Z.to_nat k) (drop (Z.to_nat (read_index rb)) (live rb))).
Proof.
  intros (Hs & Hb & Hr & Hw & Hm) Hk Hle. rewrite slice_in by lia. f_equal.
  unfold live, Zlen in *. list_solve.
Qed.

Lemma read_live0 rb k :
  wf rb -> 0 <= k <= buffer_size rb ->
  slice (buffer_ptr rb) 0 k = Ok (take (Z.to_nat k) (live rb)).
Proof.
  intros (Hs & Hb & Hr & Hw & Hm) Hk. rewrite slice_in by lia. f_equal.
  change (Z.to_nat 0) with O. rewrite drop_0. unfold live. rewrite take_take. f_equal. lia.
Qed.

Lemma get_spec rb dst len :
  wf rb -> 0 <= len < 2 ^ 32 -> len <= Zlen dst ->
  let n := Z.min len (Zlen (contents rb)) in
  exists rb',
    rt_ringbuffer_get rb dst len =
      Ok (n, take (Z.to_nat n) (contents rb) ++ drop (Z.to_nat n) dst, rb') /\
    wf rb' /\ buffer_size rb' = buffer_size rb /\ contents rb' = drop (Z.to_nat n) (contents rb).
Proof.
  intros Hwf Hlen Hdst n.
  assert (n = Z.min len (Zlen (contents rb))) as Hn by done. clearbody n.
  unfold rt_ringbuffer_get. rewrite data_len_contents by done.
  pose proof (contents_le rb Hwf). pose proof (Zlen_nonneg (contents rb)).
  pose proof (contents_Zlen rb Hwf) as Hc. pose proof (live_length rb Hwf) as Hl.
  destruct (Hwf) as (Hs & Hb & Hr & Hw & Hm).
  destruct (Z.eqb_spec (Zlen (contents rb)) 0) as [E|E].
  { exists rb. replace n with 0 by lia. done. }
  assert ((if Zlen (contents rb) <? len then Zlen (contents rb) else len) = n) as ->.
  { destruct (Z.ltb_spec (Zlen (contents rb)) len); lia. }
  rewrite (wrap_small 32 (buffer_size rb - read_index rb)) by lia.
  set (ri := Z.to_nat (read_index rb)). set (wi := Z.to_nat (write_index rb)).
  destruct (Z.ltb_spec n (buffer_size rb - read_index rb)) as [Hlt|Hge].
  - rewrite read_live by (done || lia). cbn [mbind res_bind].
    set (s := take (Z.to_nat n) _).
    assert (contents rb = s ++ cont (eqb (read_mirror rb) (write_mirror rb)) (live rb)
              (ri + Z.to_nat n) wi) as Hcs.
    { rewrite contents_cont. apply cont_get_one; [|lia]. destruct (eqb _ _); lia. }
    assert (Zlen s = n) as Hzs by (unfold s, Zlen; rewrite length_take, length_drop; lia).
    rewrite blit_head by lia. cbn [mbind res_bind]. eexists. split; [|split; [|split]].
    + do 3 f_equal. rewrite Hcs. unfold Zlen in Hzs.
      rewrite take_app_le, take_ge by lia. do 2 f_equal. lia.
    + rewrite wrap_small by lia. unfold wf. simpl. destruct (eqb _ _); repeat split; lia.
    + done.
    + rewrite Hcs at 1. rewrite drop_app_length' by (unfold Zlen in Hzs; lia).
      rewrite wrap_small by lia. rewrite contents_cont. simpl. f_equal. lia.
  - assert (eqb (read_mirror rb) (write_mirror rb) = false) as Hdiff.
    { destruct (eqb _ _); [lia|done]. }
    rewrite Hdiff in *. rewrite read_live by (done || lia).
    cbn [mbind res_bind]. set (s1 := take _ (drop _ _)).
    assert (Zlen s1 = buffer_size rb - read_index rb) as Hz1.
    { unfold s1, Zlen. rewrite length_take, length_drop. lia. }
    rewrite blit_head by lia. cbn [mbind res_bind].
    rewrite (wrap_small 32 (n - _)) by lia. rewrite read_live0 by (done || lia).
    cbn [mbind res_bind]. set (s2 := take _ (live rb)).
    assert (Zlen s2 = n - (buffer_size rb - read_index rb)) as Hz2.
    { unfold s2, Zlen. rewrite length_take. lia. }
    rewrite <- Hz1, blit_second by lia. cbn [mbind res_bind].
    assert (contents rb = (s1 ++ s2) ++ cont true (live rb) (Z.to_nat (Zlen s2)) wi) as Hcs.
    { rewrite contents_cont, Hdiff, (cont_get_two _ _ _ (Z.to_nat (Zlen s2))) by lia.
      f_equal. f_equal.
      - unfold s1. symmetry. apply take_ge. rewrite length_drop. lia.
      - rewrite Hz2. unfold s2. by rewrite ?Hz1. }
    assert (length (s1 ++ s2) = Z.to_nat n) as Hz12.
    { rewrite length_app. unfold Zlen in *. lia. }
    eexists. split; [|split; [|split]].
    + do 3 f_equal. rewrite Hcs, take_app_length' by lia. f_equal. f_equal. lia.
    + rewrite wrap_small by lia. unfold wf. simpl. rewrite mirror_flip_l, Hdiff. simpl.
      repeat split; lia.
    + done.
    + rewrite Hcs at 1. rewrite drop_app_length' by lia. rewrite wrap_small by lia.
      rewrite contents_cont. simpl. rewrite mirror_flip_l, Hdiff.
      by rewrite Hz2, Hz1.
Qed.

(** Overwriting puts: the pool is full afterwards and starts at the write index. *)
Lemma cont_over_one L ri wi (src : bytes) :
  (wi <= ri)%nat -> (ri <= wi + length src)%nat -> (wi + length src <= length L)%nat ->
  let w := (wi + length src)%nat in
  cont false (take wi L ++ src ++ drop w L) w w =
  drop (w - ri) (cont false L ri wi ++ src).
Proof. intros. unfold cont, w. list_solve. Qed.

Lemma cont_over_two (same : bool) L ri wi (s1 s2 : bytes) :
  (if same then ri <= wi /\ ri <= length s2 else wi <= ri <= length L)%nat ->
  (wi + length s1 = length L)%nat -> (length s2 <= wi)%nat ->
  cont false (s2 ++ drop (length s2) (take wi L ++ s1)) (length s2) (length s2) =
  drop (if same then length s2 - ri else length L - ri + length s2)
    (cont same L ri wi ++ s1 ++ s2).
Proof. intros. unfold cont. destruct same; list_solve. Qed.

#[local] Arguments cont : simpl never.

(** The pool after a copy that may run over unread bytes. *)
Lemma over_one rb src :
  wf rb -> eqb (read_mirror rb) (write_mirror rb) = false ->
  read_index rb <= write_index rb + Zlen src < buffer_size rb ->
  exists buf,
    blit (buffer_ptr rb) (write_index rb) src = Ok buf /\
    let rb1 := set_write rb buf (write_mirror rb) (wrap 31 (write_index rb + Zlen src)) in
    let rb2 := set_read rb1 (read_mirror rb1) (write_index rb1) in
    wf rb2 /\
    contents rb2 = drop (Z.to_nat (write_index rb + Zlen src - read_index rb))
                     (contents rb ++ src).
Proof.
  intros Hwf Hdiff Hk. pose proof (Zlen_nonneg src). pose proof (live_length rb Hwf) as Hl.
  destruct (Hwf) as (Hs & Hb & Hr & Hw & Hm). rewrite Hdiff in Hm.
  assert (exists b, blit (buffer_ptr rb) (write_index rb) src = Ok b) as [b Hblit].
  { rewrite blit_in by lia. by eexists. }
  pose proof (blit_Zlen _ _ _ _ Hblit) as Hz. exists b. split; [done|].
  rewrite wrap_small by lia. split.
  - unfold wf. simpl. rewrite Hdiff. repeat split; lia.
  - rewrite (contents_cont rb), contents_cont. simpl. rewrite Hdiff.
    rewrite blit_in in Hblit by lia. injection Hblit as <-. unfold Zlen in *.
    unfold live at 1. simpl. rewrite live_blit by lia. fold (live rb).
    replace (Z.to_nat (write_index rb + Z.of_nat (length src)))
      with (Z.to_nat (write_index rb) + length src)%nat by lia.
    rewrite (cont_over_one (live rb) (Z.to_nat (read_index rb))) by lia. f_equal. lia.
Qed.

Lemma over_two rb s1 s2 :
  wf rb -> write_index rb + Zlen s1 = buffer_size rb -> Zlen s2 <= write_index rb ->
  (eqb (read_mirror rb) (write_mirror rb) = true -> read_index rb <= Zlen s2) ->
  exists b1 b2,
    blit (buffer_ptr rb) (write_index rb) s1 = Ok b1 /\ blit b1 0 s2 = Ok b2 /\
    let rb1 := set_write rb b2 (negb (write_mirror rb)) (wrap 31 (Zlen s2)) in
    let m := if eqb (read_mirror rb) (write_mirror rb) then read_mirror rb
             else negb (read_mirror rb) in
    let rb2 := set_read rb1 m (write_index rb1) in
    wf rb2 /\
    contents rb2 = drop (Z.to_nat (Zlen (contents rb) + Zlen s1 + Zlen s2 - buffer_size rb))
                     (contents rb ++ s1 ++ s2).
Proof.
  intros Hwf H1 H2 Hsame. pose proof (Zlen_nonneg s1). pose proof (Zlen_nonneg s2).
  pose proof (live_length rb Hwf) as Hl. pose proof (contents_Zlen rb Hwf) as Hc.
  destruct (Hwf) as (Hs & Hb & Hr & Hw & Hm).
  assert (exists b1, blit (buffer_ptr rb) (write_index rb) s1 = Ok b1) as [b1 Hb1].
  { rewrite blit_in by lia. by eexists. }
  pose proof (blit_Zlen _ _ _ _ Hb1) as Hz1.
  assert (exists b2, blit b1 0 s2 = Ok b2) as [b2 Hb2].
  { rewrite blit_in by lia. by eexists. }
  pose proof (blit_Zlen _ _ _ _ Hb2) as Hz2.
  exists b1, b2. split; [done|]. split; [done|]. rewrite wrap_small by lia.
  assert (forall a b : bool, eqb (if eqb a b then a else negb a) (negb b) = false) as Hne.
  { by intros [] []. }
  split.
  - unfold wf. simpl. rewrite Hne. repeat split; lia.
  - rewrite Hc, (contents_cont rb), contents_cont. simpl. rewrite Hne.
    rewrite blit_in in Hb1, Hb2 by lia. injection Hb1 as Hb1. injection Hb2 as Hb2.
    assert (live (set_read (set_write rb b2 (negb (write_mirror rb)) (Zlen s2))
             (if eqb (read_mirror rb) (write_mirror rb) then read_mirror rb
              else negb (read_mirror rb)) (Zlen s2)) =
            s2 ++ drop (length s2) (take (Z.to_nat (write_index rb)) (live rb) ++ s1)) as ->.
    { unfold live. simpl. rewrite <- Hb2, <- Hb1. change (Z.to_nat 0) with O. simpl.
      unfold Zlen in *. set (n := Z.to_nat (buffer_size rb)) in *.
      set (w := Z.to_nat (write_index rb)) in *. clear -H1 H2 Hb Hs Hr Hw.
      assert (w + length s1 = n)%nat by lia. assert (n <= length (buffer_ptr rb))%nat by lia.
      assert (length s2 <= w)%nat by lia. list_solve. }
    unfold Zlen in *. rewrite Nat2Z.id.
    rewrite (cont_over_two (eqb (read_mirror rb) (write_mirror rb)) (live rb)
               (Z.to_nat (read_index rb)) (Z.to_nat (write_index rb)) s1 s2).
    + f_equal. destruct (eqb _ _); [specialize (Hsame eq_refl)|]; lia.
    + destruct (eqb _ _); [specialize (Hsame eq_refl)|]; lia.
    + lia.
    + lia.
Qed.

Lemma put_force_spec rb ptr len :
  wf rb -> 0 <= len < 2 ^ 32 -> len <= Zlen ptr ->
  exists rb', rt_ringbuffer_put_force rb ptr len = Ok (Z.min len (buffer_size rb), rb') /\
    wf rb' /\ buffer_size rb' = buffer_size rb /\
    contents rb' = drop (Z.to_nat (Zlen (contents rb) + len - buffer_size rb))
                     (contents rb ++ take (Z.to_nat len) ptr).
Proof.
  intros Hwf Hlen Hptr. unfold rt_ringbuffer_put_force. rewrite space_len_contents by done.
  pose proof (contents_le rb Hwf). pose proof (Zlen_nonneg (contents rb)).
  pose proof (contents_Zlen rb Hwf) as Hc. destruct (Hwf) as (Hs & Hb & Hr & Hw & Hm).
  rewrite (wrap_small 32 (buffer_size rb)) by lia.
  set (n := Z.min len (buffer_size rb)). set (skip := len - n).
  assert ((if buffer_size rb <? len then len - buffer_size rb else 0) = skip) as ->.
  { unfold skip, n. destruct (Z.ltb_spec (buffer_size rb) len); lia. }
  assert ((if buffer_size rb <? len then buffer_size rb else len) = n) as ->.
  { unfold n. destruct (Z.ltb_spec (buffer_size rb) len); lia. }
  assert (0 <= n <= buffer_size rb /\ 0 <= skip /\ skip + n = len /\
          (skip = 0 \/ n = buffer_size rb)) as (Hn & Hskip & Hsum & Hcase)
    by (unfold skip, n; lia).
  clearbody n skip. rewrite (wrap_small 32 (buffer_size rb - write_index rb)) by lia.
  set (t := buffer_size rb - write_index rb) in *.
  set (src := take (Z.to_nat n) (drop (Z.to_nat skip) ptr)).
  assert (Zlen src = n) as Hzsrc.
  { unfold src, Zlen in *. rewrite length_take, length_drop. lia. }
  (* what the full buffer must hold, in terms of the bytes written *)
  assert (forall c, Zlen c <= buffer_size rb ->
            drop (Z.to_nat (Zlen c + n - buffer_size rb)) (c ++ src) =
            drop (Z.to_nat (Zlen c + len - buffer_size rb)) (c ++ take (Z.to_nat len) ptr))
    as Hgoal.
  { intros c Hcl. unfold src, Zlen in *. clear -Hn Hskip Hsum Hcase Hptr Hcl.
    destruct Hcase as [Hc0|Hc0]; rewrite Hc0 in *.
    - change (Z.to_nat 0) with O. rewrite drop_0. do 3 f_equal; lia.
    - assert (Z.to_nat len = (Z.to_nat skip + Z.to_nat (buffer_size rb))%nat) as Hnl by lia.
      assert (Z.to_nat len <= length ptr)%nat as Hp by lia. rewrite Hnl in Hp |- *.
      replace (Z.to_nat (Z.of_nat (length c) + len - buffer_size rb))
        with (length c + Z.to_nat skip)%nat by lia.
      replace (Z.to_nat (Z.of_nat (length c) + buffer_size rb - buffer_size rb))
        with (length c) by lia.
      rewrite drop_app_length, <- drop_drop, drop_app_length.
      clear Hnl. revert Hp. generalize (Z.to_nat skip) (Z.to_nat (buffer_size rb)).
      intros. list_solve. }
  destruct (Z.ltb_spec n t) as [Hlt|Hge].
  - rewrite slice_in by lia. cbn [mbind res_bind]. fold src.
    destruct (Z.ltb_spec (buffer_size rb - Zlen (contents rb)) n) as [Hover|Hfit].
    + assert (eqb (read_mirror rb) (write_mirror rb) = false) as Hdiff.
      { destruct (eqb _ _); [lia|done]. }
      rewrite Hdiff in *.
      destruct (over_one rb src) as (buf & -> & Hwf' & Hc'); [done|done|lia|].
      rewrite Hzsrc in *. cbn [mbind res_bind]. eexists.
      split; [done|]. split; [done|]. split; [done|].
      rewrite Hc', <- Hgoal by lia. f_equal. lia.
    + destruct (write_one rb src) as (buf & -> & Hwf' & Hc'); [done| |lia|].
      { intros Hd. rewrite Hd in *. lia. }
      rewrite Hzsrc in *. cbn [mbind res_bind]. eexists.
      split; [done|]. split; [done|]. split; [done|].
      rewrite Hc', <- Hgoal by lia.
      replace (Z.to_nat _) with O by lia. done.
  - rewrite (slice_in ptr skip t) by lia. cbn [mbind res_bind].
    rewrite (wrap_small 32 (n - t)) by lia. rewrite (slice_in ptr (skip + t)) by lia.
    set (s1 := take (Z.to_nat t) _). set (s2 := take (Z.to_nat (n - t)) _).
    assert (Zlen s1 = t) as Hz1 by (unfold s1, Zlen in *; rewrite length_take, length_drop; lia).
    assert (Zlen s2 = n - t) as Hz2
      by (unfold s2, Zlen in *; rewrite length_take, length_drop; lia).
    assert (s1 ++ s2 = src) as Hs12.
    { unfold s1, s2, src. replace (Z.to_nat (skip + t)) with (Z.to_nat skip + Z.to_nat t)%nat by lia.
      rewrite <- drop_drop, take_take_drop. f_equal. lia. }
    destruct (Z.ltb_spec (buffer_size rb - Zlen (contents rb)) n) as [Hover|Hfit].
    + destruct (over_two rb s1 s2) as (b1 & b2 & -> & Hb2 & Hwf' & Hc'); [done|lia|lia| |].
      { intros Hsm. rewrite Hsm in *. lia. }
      cbn [mbind res_bind]. rewrite Hb2. cbn [mbind res_bind]. rewrite Hz2 in *.
      assert ((if write_index (set_write rb b2 (negb (write_mirror rb)) (wrap 31 (n - t))) <=?
                  read_index (set_write rb b2 (negb (write_mirror rb)) (wrap 31 (n - t)))
               then negb (read_mirror (set_write rb b2 (negb (write_mirror rb)) (wrap 31 (n - t))))
               else read_mirror (set_write rb b2 (negb (write_mirror rb)) (wrap 31 (n - t)))) =
              (if eqb (read_mirror rb) (write_mirror rb) then read_mirror rb
               else negb (read_mirror rb))) as ->.
      { simpl. rewrite wrap_small by lia.
        destruct (Z.leb_spec (n - t) (read_index rb)), (eqb _ _); done || lia. }
      eexists. split; [done|]. split; [done|]. split; [done|].
      rewrite Hc', Hs12, <- Hgoal by lia. f_equal. lia.
    + assert (eqb (read_mirror rb) (write_mirror rb) = true) as Hsame.
      { destruct (eqb _ _); [done|lia]. }
      rewrite Hsame in *.
      destruct (write_two rb s1 s2) as (b1 & b2 & -> & Hb2 & Hwf' & Hc'); [done|done|lia|lia|].
      cbn [mbind res_bind]. rewrite Hb2. cbn [mbind res_bind]. rewrite Hz2 in *.
      eexists. split; [done|]. split; [done|]. split; [done|].
      rewrite Hc', Hs12, <- Hgoal by lia. replace (Z.to_nat _) with O by lia. done.
Qed.

(** ** Byte operations are the block operations of length one *)

Lemma aset_blit {A} (l : list A) i x : 0 <= i < Zlen l -> aset l i x = blit l i [x].
Proof.
  intros Hi. rewrite aset_in, blit_in by (done || (unfold Zlen in *; simpl; lia)).
  f_equal. rewrite insert_take_drop by (unfold Zlen in Hi; lia). simpl.
  do 3 f_equal. lia.
Qed.

Lemma blit_nil {A} (l : list A) : blit l 0 [] = Ok l.
Proof. pose proof (Zlen_nonneg l). by rewrite blit_in by (unfold Zlen in *; simpl; lia). Qed.

Lemma putchar_put rb ch : wf rb -> rt_ringbuffer_putchar rb ch = rt_ringbuffer_put rb [ch] 1.
Proof.
  intros Hwf. unfold rt_ringbuffer_putchar, rt_ringbuffer_put.
  rewrite space_len_contents by done. pose proof (contents_le rb Hwf).
  destruct Hwf as (Hs & Hb & Hr & Hw & _).
  destruct (Z.eqb_spec (buffer_size rb - Zlen (contents rb)) 0); [done|].
  rewrite (proj2 (Z.ltb_ge _ 1)) by lia. rewrite (wrap_small 32 (_ - write_index rb)) by lia.
  rewrite aset_blit by lia.
  destruct (Z.eqb_spec (write_index rb) (buffer_size rb - 1)) as [E|E].
  - replace (buffer_size rb - write_index rb) with 1 by lia. simpl.
    destruct (blit _ _ _); [simpl|done]. by rewrite blit_nil.
  - rewrite (proj2 (Z.ltb_lt _ _)) by lia. simpl. by destruct (blit _ _ _).
Qed.

Lemma status_full rb :
  wf rb ->
  match rt_ringbuffer_status rb with RT_RINGBUFFER_FULL => true | _ => false end =
  (rt_ringbuffer_space_len rb <? 1).
Proof.
  intros Hwf. rewrite space_len_contents, contents_Zlen by done.
  destruct Hwf as (Hs & Hb & Hr & Hw & Hm). unfold rt_ringbuffer_status.
  destruct (Z.eqb_spec (read_index rb) (write_index rb)), (eqb _ _); symmetry;
    first [apply Z.ltb_ge; lia | apply Z.ltb_lt; lia].
Qed.

Lemma putchar_force_put_force rb ch :
  wf rb -> rt_ringbuffer_putchar_force rb ch = rt_ringbuffer_put_force rb [ch] 1.
Proof.
  intros Hwf. unfold rt_ringbuffer_putchar_force, rt_ringbuffer_put_force.
  rewrite status_full by done. destruct Hwf as (Hs & Hb & Hr & Hw & _).
  rewrite (wrap_small 32 (buffer_size rb)) by lia.
  rewrite (proj2 (Z.ltb_ge (buffer_size rb) 1)) by lia.
  rewrite (wrap_small 32 (_ - write_index rb)) by lia. rewrite aset_blit by lia.
  destruct (Z.eqb_spec (write_index rb) (buffer_size rb - 1)) as [E|E].
  - replace (buffer_size rb - write_index rb) with 1 by lia. simpl.
    destruct (blit _ _ _); [simpl|done]. rewrite blit_nil. simpl. change (wrap 31 0) with 0.
    rewrite (proj2 (Z.leb_le 0 _)) by lia. done.
  - rewrite (proj2 (Z.ltb_lt 1 _)) by lia. simpl. by destruct (blit _ _ _).
Qed.

Lemma getchar_get rb x :
  wf rb ->
  rt_ringbuffer_getchar rb =
    ('(n, d, rb') ← rt_ringbuffer_get rb [x] 1;
     Ok (n, if n =? 0 then None else head d, rb')).
Proof.
  intros Hwf. unfold rt_ringbuffer_getchar, rt_ringbuffer_get.
  rewrite data_len_contents by done. pose proof (Zlen_nonneg (contents rb)).
  destruct Hwf as (Hs & Hb & Hr & Hw & _).
  destruct (Z.eqb_spec (Zlen (contents rb)) 0); [done|].
  rewrite (proj2 (Z.ltb_ge _ 1)) by lia. rewrite (wrap_small 32 (_ - read_index rb)) by lia.
  destruct (aget_in (buffer_ptr rb) (read_index rb)) as [ch Hch]; [lia|].
  assert (slice (buffer_ptr rb) (read_index rb) 1 = Ok [ch]) as Hsl.
  { rewrite slice_in by lia. apply aget_Ok in Hch as [_ Hch].
    by rewrite (drop_S _ _ _ Hch). }
  rewrite Hch. cbn [mbind res_bind].
  destruct (Z.eqb_spec (read_index rb) (buffer_size rb - 1)) as [E|E].
  - replace (buffer_size rb - read_index rb) with 1 by lia. rewrite Hsl.
    change (u32 (1 - 1)) with 0. rewrite slice_in by lia. done.
  - rewrite (proj2 (Z.ltb_lt 1 _)) by lia. rewrite Hsl. done.
Qed.

(** ** The bounded byte queue the ring buffer implements *)

Inductive rb_op :=
  | OpPut (s : bytes)
  | OpPutForce (s : bytes)
  | OpGet (n : Z)
  | OpPutchar (ch : Z)
  | OpPutcharForce (ch : Z)
  | OpGetchar
  | OpReset.

(** The answer of an operation: the count returned and the bytes handed out. *)
Definition queue_step (cap : Z) (q : bytes) (op : rb_op) : (Z * bytes) * bytes :=
  let offer s := let n := Z.min (Zlen s) (cap - Zlen q) in (n, [], q ++ take (Z.to_nat n) s) in
  let force s := (Z.min (Zlen s) cap, [], drop (Z.to_nat (Zlen q + Zlen s - cap)) (q ++ s)) in
  let fetch n := let n := Z.min n (Zlen q) in
                 (n, take (Z.to_nat n) q, drop (Z.to_nat n) q) in
  match op with
  | OpPut s => offer s
  | OpPutForce s => force s
  | OpGet n => fetch n
  | OpPutchar ch => offer [ch]
  | OpPutcharForce ch => force [ch]
  | OpGetchar => fetch 1
  | OpReset => (0, [], [])
  end.

Definition rb_step (rb : rt_ringbuffer) (op : rb_op) : res ((Z * bytes) * rt_ringbuffer) :=
  match op with
  | OpPut s => '(n, rb) ← rt_ringbuffer_put rb s (Zlen s); Ok (n, [], rb)
  | OpPutForce s => '(n, rb) ← rt_ringbuffer_put_force rb s (Zlen s); Ok (n, [], rb)
  | OpGet k => '(n, d, rb) ← rt_ringbuffer_get rb (replicate (Z.to_nat k) 0) k;
               Ok (n, take (Z.to_nat n) d, rb)
  | OpPutchar ch => '(n, rb) ← rt_ringbuffer_putchar rb ch; Ok (n, [], rb)
  | OpPutcharForce ch => '(n, rb) ← rt_ringbuffer_putchar_force rb ch; Ok (n, [], rb)
  | OpGetchar => '(n, c, rb) ← rt_ringbuffer_getchar rb; Ok (n, option_list c, rb)
  | OpReset => Ok (0, [], rt_ringbuffer_reset rb)
  end.

Definition op_ok (op : rb_op) : Prop :=
  match op with
  | OpPut s | OpPutForce s => Zlen s < 2 ^ 32
  | OpGet n => 0 <= n < 2 ^ 32
  | _ => True
  end.
#[export] Instance op_ok_dec op : Decision (op_ok op).
Proof. destruct op; apply _. Defined.

Section runs.
Context {S : Type} (step : S -> rb_op -> res ((Z * bytes) * S)).

Fixpoint run (s : S) (ops : list rb_op) : res (list (Z * bytes) * S) :=
  match ops with
  | [] => Ok ([], s)
  | op :: ops => '(a, s) ← step s op; '(l, s) ← run s ops; Ok (a :: l, s)
  end.
End runs.

Definition queue_run (cap : Z) := run (fun q op => Ok (queue_step cap q op)).
Definition rb_run := run rb_step.

Lemma take_Zlen {A} (l : list A) : take (Z.to_nat (Zlen l)) l = l.
Proof. unfold Zlen. rewrite Nat2Z.id. by apply firstn_all. Qed.

Lemma step_refines rb op :
  wf rb -> op_ok op ->
  exists rb', rb_step rb op = Ok ((queue_step (buffer_size rb) (contents rb) op).1, rb') /\
    wf rb' /\ buffer_size rb' = buffer_size rb /\
    contents rb' = (queue_step (buffer_size rb) (contents rb) op).2.
Proof.
  intros Hwf Hok.
  assert (forall s : bytes, Zlen s < 2 ^ 32 -> 0 <= Zlen s < 2 ^ 32) as Hz.
  { intros s ?. pose proof (Zlen_nonneg s). lia. }
  destruct op as [s|s|n|ch|ch| |]; cbn [rb_step queue_step op_ok fst snd] in *.
  - destruct (put_spec rb s (Zlen s) Hwf) as (rb' & -> & ? & ? & ?); [auto|lia|].
    by exists rb'.
  - destruct (put_force_spec rb s (Zlen s) Hwf) as (rb' & -> & ? & ? & Hc); [auto|lia|].
    exists rb'. rewrite take_Zlen in Hc. done.
  - destruct (get_spec rb (replicate (Z.to_nat n) 0) n Hwf) as (rb' & -> & ? & ? & ?);
      [auto|unfold Zlen; rewrite length_replicate; lia|].
    exists rb'. split; [|done]. cbn [mbind res_bind]. do 3 f_equal.
    pose proof (Zlen_nonneg (contents rb)).
    apply take_app_length'. rewrite length_take. unfold Zlen in *. lia.
  - rewrite putchar_put by done.
    destruct (put_spec rb [ch] 1 Hwf) as (rb' & -> & ? & ? & ?); [lia|done|]. by exists rb'.
  - rewrite putchar_force_put_force by done.
    destruct (put_force_spec rb [ch] 1 Hwf) as (rb' & -> & ? & ? & Hc); [lia|done|].
    by exists rb'.
  - rewrite (getchar_get rb 0) by done.
    destruct (get_spec rb [0] 1 Hwf) as (rb' & -> & ? & ? & ?); [lia|done|].
    exists rb'. split; [|done]. cbn [mbind res_bind].
    destruct (contents rb) as [|c l] eqn:E; [done|].
    replace (Z.min 1 (Zlen (c :: l))) with 1 by (unfold Zlen; simpl; lia). done.
  - exists (rt_ringbuffer_reset rb). split; [done|]. destruct Hwf as (? & ? & ? & ? & ?).
    repeat split; simpl; (lia || done).
Qed.

Lemma run_refines rb ops :
  wf rb -> Forall op_ok ops ->
  exists rb' outs,
    rb_run rb ops = Ok (outs, rb') /\ wf rb' /\ buffer_size rb' = buffer_size rb /\
    queue_run (buffer_size rb) (contents rb) ops = Ok (outs, contents rb').
Proof.
  intros Hwf Hops. revert rb Hwf. induction Hops as [|op ops Hop _ IH]; intros rb Hwf.
  { by exists rb, []. }
  destruct (step_refines rb op Hwf Hop) as (rb1 & Hst & Hwf1 & Hs1 & Hc1).
  destruct (IH rb1 Hwf1) as (rb' & outs & Hr & Hwf' & Hs' & Hq).
  unfold rb_run, queue_run in *. simpl. rewrite Hst. cbn [mbind res_bind]. rewrite Hr.
  rewrite Hs1, Hc1 in Hq.
  destruct (queue_step (buffer_size rb) (contents rb) op) as [a q]. simpl in *.
  exists rb', (a :: outs). rewrite Hq.
  split; [done|]. split; [done|]. split; [congruence|done].
Qed.

Lemma align_down_spec size :
  0 <= size -> rt_align_down size = size - size mod 8.
Proof.
  intros. unfold rt_align_down. change 7 with (Z.ones 3).
  rewrite <- Z.ldiff_land, Z.ldiff_ones_r by done.
  rewrite Z.shiftr_div_pow2, Z.shiftl_mul_pow2 by lia. change (2 ^ 3) with 8. zlia.
Qed.

Lemma init_spec pool size :
  8 <= size < 2 ^ 31 -> size <= Zlen pool ->
  exists rb, rt_ringbuffer_init pool size = Ok rb /\ wf rb /\ contents rb = [] /\
    buffer_size rb = size - size mod 8.
Proof.
  intros Hs Hp. unfold rt_ringbuffer_init. rewrite (proj2 (Z.ltb_lt _ _)) by lia.
  eexists. split; [done|]. unfold wf. simpl. rewrite align_down_spec by lia.
  repeat split; zlia.
Qed.

(** C2. A ring buffer set up by [rt_ringbuffer_init] with at least 8 bytes (below
    [2 ^ 31], the size being signed) behaves, under every sequence of block and byte operations with lengths of 32 bits, as
    the queue of at most [size - size mod 8] bytes: it never leaves the pool, returns the same
    counts and bytes, and holds the same bytes.  With fewer than 8 bytes, which the
    initialisation accepts, the capacity is 0 and this does not hold ([small_pool_overrun]). *)
Theorem ringbuffer_refines_queue pool size ops :
  8 <= size < 2 ^ 31 -> size <= Zlen pool -> Forall op_ok ops ->
  exists rb rb' outs,
    rt_ringbuffer_init pool size = Ok rb /\ rb_run rb ops = Ok (outs, rb') /\
    queue_run (size - size mod 8) [] ops = Ok (outs, contents rb') /\
    rt_ringbuffer_data_len rb' = Zlen (contents rb') /\
    rt_ringbuffer_space_len rb' = size - size mod 8 - Zlen (contents rb').
Proof.
  intros Hs Hp Hops. destruct (init_spec pool size Hs Hp) as (rb & Hi & Hwf & Hc & Hsz).
  destruct (run_refines rb ops Hwf Hops) as (rb' & outs & Hr & Hwf' & Hs' & Hq).
  exists rb, rb', outs. rewrite Hc, Hsz in Hq.
  rewrite data_len_contents, space_len_contents by done.
  repeat split; try done. lia.
Qed.

Lemma ringbuffer_refines_queue_witness :
  exists rb rb' outs,
    rt_ringbuffer_init (replicate 9 7) 9 = Ok rb /\
    rb_run rb [OpPut [1; 2; 3; 4; 5; 6]; OpGet 4; OpPut [7; 8; 9; 10; 11; 12; 13];
               OpPutcharForce 14; OpGetchar; OpPutForce [1; 2; 3; 4; 5; 6; 7; 8; 9]] =
      Ok (outs, rb') /\ contents rb' = [2; 3; 4; 5; 6; 7; 8; 9].
Proof.
  destruct (ringbuffer_refines_queue (replicate 9 7) 9
    [OpPut [1; 2; 3; 4; 5; 6]; OpGet 4; OpPut [7; 8; 9; 10; 11; 12; 13];
     OpPutcharForce 14; OpGetchar; OpPutForce [1; 2; 3; 4; 5; 6; 7; 8; 9]])
    as (rb & rb' & outs & Hi & Hr & Hq & _); [lia|vm_compute; discriminate| |].
  { apply (bool_decide_unpack _); vm_compute; exact I. }
  exists rb, rb', outs. split; [exact Hi|]. split; [exact Hr|].
  injection Hi as <-. vm_compute in Hr. injection Hr as <- <-. vm_compute. reflexivity.
Defined.

(** A pool of fewer than 8 bytes has the capacity 0, but a forced byte is stored all the same: the
    buffer is not seen as full, the write index goes on, and the first byte behind the pool is
    written to when the pool has been filled. *)
Theorem small_pool_overrun pool size ch :
  1 <= size <= 7 -> size <= Zlen pool < 2 ^ 31 ->
  exists rb, rt_ringbuffer_init pool size = Ok rb /\ rt_ringbuffer_space_len rb = 0 /\
    rb_run rb (replicate (S (length pool)) (OpPutcharForce ch)) = Err OutOfBounds.
Proof.
  intros Hs Hp. unfold rt_ringbuffer_init. rewrite (proj2 (Z.ltb_lt _ _)) by lia.
  rewrite align_down_spec by lia. replace (size - size mod 8) with 0 by zlia.
  destruct Hp as [Hp Hl]. eexists. split; [done|]. split; [done|].
  assert (forall n k b, length b = length pool -> (k + n = S (length pool))%nat -> (0 < n)%nat ->
    rb_run (Ringbuffer b false 0 false (Z.of_nat k) 0) (replicate n (OpPutcharForce ch)) = Err OutOfBounds) as H;
    [|by apply (H _ 0%nat pool); [|lia..]].
  induction n as [|n IH]; intros k b Hb Hk Hn; [lia|]. cbn [replicate]. unfold rb_run. cbn [run rb_step].
  unfold rt_ringbuffer_putchar_force. cbn [buffer_ptr write_index read_index buffer_size].
  assert (match rt_ringbuffer_status (Ringbuffer b false 0 false (Z.of_nat k) 0) with
          | RT_RINGBUFFER_FULL => true | _ => false end = false) as Hfull.
  { unfold rt_ringbuffer_status. cbn [read_index write_index read_mirror write_mirror]. by destruct (_ =? _). }
  rewrite Hfull. cbv zeta. destruct n as [|n].
  - assert (aset b (Z.of_nat k) ch = Err OutOfBounds) as ->; [|done].
    unfold aset. case_decide as Hd; [|done]. unfold Zlen in Hd. lia.
  - rewrite aset_in by (unfold Zlen; lia). cbn [mbind res_bind].
    rewrite (proj2 (Z.eqb_neq _ _)) by lia. cbn [mbind res_bind].
    unfold set_write. cbn. rewrite (wrap_small 31 (Z.of_nat k + 1)) by (unfold Zlen in Hl; lia).
    replace (Z.of_nat k + 1) with (Z.of_nat (S k)) by lia.
    pose proof (IH (S k) (<[Z.to_nat (Z.of_nat k) := ch]> b)) as E. unfold rb_run in E. cbn [replicate run rb_step] in E |- *.
    rewrite E; [done|by rewrite length_insert|lia..].
Qed.

Lemma small_pool_overrun_witness :
  exists rb, rt_ringbuffer_init [7; 7; 7; 7] 4 = Ok rb /\ rt_ringbuffer_space_len rb = 0 /\
    rb_run rb (replicate 5 (OpPutcharForce 1)) = Err OutOfBounds.
Proof. apply (small_pool_overrun [7; 7; 7; 7] 4 1); unfold Zlen; simpl; lia. Defined.

(** ** First in, first out *)

(** The bytes a run of puts and gets accepts and hands out. *)
Fixpoint accepted (ops : list rb_op) (outs : list (Z * bytes)) : bytes :=
  match ops, outs with
  | OpPut s :: ops, (n, _) :: outs => take (Z.to_nat n) s ++ accepted ops outs
  | OpPutchar ch :: ops, (n, _) :: outs => take (Z.to_nat n) [ch] ++ accepted ops outs
  | _ :: ops, _ :: outs => accepted ops outs
  | _, _ => []
  end.

Definition lossless (op : rb_op) : bool :=
  match op with OpPut _ | OpPutchar _ | OpGet _ | OpGetchar => true | _ => false end.

Lemma queue_fifo cap q ops outs q' :
  forallb lossless ops = true -> queue_run cap q ops = Ok (outs, q') ->
  q ++ accepted ops outs = concat (map snd outs) ++ q'.
Proof.
  unfold queue_run. revert q outs. induction ops as [|op ops IH]; intros q outs Hl Hq; simpl in Hq.
  { injection Hq as <- <-. simpl. apply app_nil_r. }
  simpl in Hl. apply andb_true_iff in Hl as [Hop Hl].
  destruct (queue_step cap q op) as [[n o] q1] eqn:Est.
  apply res_bind_Ok in Hq as ([outs1 q2] & Hr & [= <- <-]). specialize (IH _ _ Hl Hr).
  destruct op; try discriminate; simpl in Est; injection Est as <- <- <-; simpl;
    rewrite <- ?app_assoc, <- IH;
    first [by rewrite <- app_assoc | by rewrite app_assoc, take_drop].
Qed.

(** Whatever the interleaving of the writer's puts and the reader's gets, the bytes the
    writer was told it stored are exactly the bytes handed out so far followed by the
    bytes still queued, in order: nothing is lost, repeated or reordered. *)
Theorem ringbuffer_fifo rb ops :
  wf rb -> contents rb = [] -> Forall op_ok ops -> forallb lossless ops = true ->
  exists outs rb', rb_run rb ops = Ok (outs, rb') /\
    accepted ops outs = concat (map snd outs) ++ contents rb'.
Proof.
  intros Hwf He Hops Hl. destruct (run_refines rb ops Hwf Hops) as (rb' & outs & Hr & _ & _ & Hq).
  rewrite He in Hq. exists outs, rb'. split; [done|].
  by rewrite <- (queue_fifo _ _ _ _ _ Hl Hq).
Qed.

Definition rb8 : rt_ringbuffer := Ringbuffer (replicate 8 0) true 6 true 6 8.

Lemma ringbuffer_fifo_witness :
  exists outs rb',
    rb_run rb8 [OpPut [1; 2; 3; 4; 5]; OpGetchar; OpPutchar 6; OpPut [7; 8; 9; 10]; OpGet 3] =
      Ok (outs, rb') /\ concat (map snd outs) ++ contents rb' = [1; 2; 3; 4; 5; 6; 7; 8; 9].
Proof.
  destruct (ringbuffer_fifo rb8
    [OpPut [1; 2; 3; 4; 5]; OpGetchar; OpPutchar 6; OpPut [7; 8; 9; 10]; OpGet 3])
    as (outs & rb' & Hr & Ha); [by apply (bool_decide_unpack _); vm_compute|reflexivity|
    by apply (bool_decide_unpack _); vm_compute|reflexivity|].
  exists outs, rb'. split; [exact Hr|]. rewrite <- Ha.
  vm_compute in Hr. injection Hr as <- <-. vm_compute. reflexivity.
Defined.
