(* ===== verification/Client.v ===== *)
(** The server connection: [applications/ele_ds/client.c].

    [parse_recv_data] is the state machine that treats one received packet; it keeps its
    place between packets in [recv_info].  The parse thread takes packets out of the ring
    buffer of [RingBuffer], the receive thread puts them in.  JSON is that of [Json], the
    configuration and its file those of [DfsCfg], the update file and its CRC those of
    [Posix] and [Common]. *)

From S2P Require Import Prelude Posix Float Json DfsCfg Common RingBuffer.
#[local] Open Scope Z_scope.

Inductive client_recv_state_t :=
  | CRS_NONE
  | CRS_HEAD
  | CRS_DATA
  | CRS_FINISH
  | CRS_END
  | CSR_MAX.

#[export] Instance client_recv_state_eq_dec : EqDecision client_recv_state_t.
Proof. solve_decision. Defined.

(** [ele_msg_type_t]: with short enums it is a signed 16-bit integer, and a cast to it from
    [int] keeps values that are no enumerator. *)
Definition ele_msg_type_t := Z.
Definition EMT_CLIENTMSG_NONE : ele_msg_type_t := -1.
Definition EMT_CLIENTMSG_INFO : ele_msg_type_t := 2.
Definition EMT_SERVERMSG_MEMO : ele_msg_type_t := 128.
Definition EMT_SERVERMSG_WEATHER : ele_msg_type_t := 129.
Definition EMT_SERVERMSG_CLIENTUPDATE : ele_msg_type_t := 130.

(** The union of [ele_msg_t] by what was stored in it; [memo] may be NULL. *)
Inductive ele_msg_data :=
  | MsgNone
  | MsgMemo (memo : option bytes)
  | MsgWeather (weatherdays : Z)
  | MsgUpdate (crc len version : Z) (buildinfo : bytes).

Record ele_msg_t := Msg {
  msg_data : ele_msg_data;
  msg_len : Z;                 (* uint32_t *)
  msg_packcnt : Z;             (* uint32_t *)
  msgtype : ele_msg_type_t;
}.

Record recv_info_t := RecvInfo {
  recv_state : client_recv_state_t;
  curparse_type : ele_msg_type_t;
  datalen : Z;                 (* int32_t *)
  recv_len : Z;                (* int32_t *)
  update_file_fd : Z;          (* int32_t *)
  update_file_name : bytes;    (* char[256] *)
  update_file_crc : Z;         (* uint32_t *)
}.

(** What the client works on: its receive state, the configuration and the files. *)
Record client_st := Client {
  recv_info : recv_info_t;
  device_cfg : ele_ds_cfg_t;
  cfs : fsys;
}.

Definition on_fs {A} (m : M fsys A) : M client_st A := fun s =>
  match m (cfs s) with
  | Ok (a, fs) => Ok (a, Client (recv_info s) (device_cfg s) fs)
  | Err f => Err f
  end.

Definition info : M client_st recv_info_t := gets recv_info.
Definition set_info (g : recv_info_t -> recv_info_t) : M client_st unit :=
  modify (fun s => Client (g (recv_info s)) (device_cfg s) (cfs s)).
Definition set_state (st : client_recv_state_t) (i : recv_info_t) : recv_info_t :=
  RecvInfo st (curparse_type i) (datalen i) (recv_len i) (update_file_fd i) (update_file_name i)
    (update_file_crc i).
Definition set_type (t : ele_msg_type_t) (i : recv_info_t) : recv_info_t :=
  RecvInfo (recv_state i) t (datalen i) (recv_len i) (update_file_fd i) (update_file_name i)
    (update_file_crc i).
Definition set_lens (d r : Z) (i : recv_info_t) : recv_info_t :=
  RecvInfo (recv_state i) (curparse_type i) d r (update_file_fd i) (update_file_name i)
    (update_file_crc i).
Definition set_fd (fd : Z) (i : recv_info_t) : recv_info_t :=
  RecvInfo (recv_state i) (curparse_type i) (datalen i) (recv_len i) fd (update_file_name i)
    (update_file_crc i).
Definition set_file (name : bytes) (crc : Z) (i : recv_info_t) : recv_info_t :=
  RecvInfo (recv_state i) (curparse_type i) (datalen i) (recv_len i) (update_file_fd i) name crc.

(** [clear_client_info] *)
Definition clear_client_info : M client_st Z :=
  i ← info;
  set_info (fun i => RecvInfo CRS_NONE EMT_CLIENTMSG_NONE 0 0 (update_file_fd i) (zeros 256)
                       (update_file_crc i)) ;;;
  if 0 <? update_file_fd i then
    _ ← on_fs (close_ (update_file_fd i));
    set_info (set_fd (-1)) ;;;
    mret 0
  else mret 0.

(** ** The head of a message *)

(** [parse_json_data]: the result and the message. *)
Definition parse_json_data (msg : ele_msg_t) (buffer : bytes) (len : Z) : res (Z * ele_msg_t) :=
  if len <=? 0 then Ok (-1, msg) else
  json ← is_json buffer len;
  if negb json then Ok (-1, msg) else
  root ← cJSON_Parse buffer;
  match root with
  | None => Ok (-2, msg)
  | Some root =>
      let packinfo := cJSON_GetObjectItem (Some root) (cs "packinfo") in
      match packinfo with
      | None => Ok (-6, msg)
      | Some _ =>
          l ← get_int packinfo (cs "len");
          cnt ← get_int (Some root) (cs "packcnt");
          ty ← get_int (Some root) (cs "msgtype");
          let msg := Msg (msg_data msg) (u32 l) (u32 cnt) (i16 ty) in
          if msgtype msg =? EMT_SERVERMSG_MEMO then
            item ← of_option NullDeref (cJSON_GetObjectItem packinfo (cs "message"));
            Ok (0, Msg (MsgMemo (valuestring item)) (msg_len msg) (msg_packcnt msg) (msgtype msg))
          else if msgtype msg =? EMT_SERVERMSG_WEATHER then
            days ← get_int packinfo (cs "weatherdays");
            Ok (0, Msg (MsgWeather (i8 days)) (msg_len msg) (msg_packcnt msg) (msgtype msg))
          else if msgtype msg =? EMT_SERVERMSG_CLIENTUPDATE then
            match cJSON_GetObjectItem packinfo (cs "len"), cJSON_GetObjectItem packinfo (cs "crc"),
                  cJSON_GetObjectItem packinfo (cs "version"),
                  cJSON_GetObjectItem packinfo (cs "buildinfo") with
            | Some len, Some crc, Some version, Some buildinfo =>
                c ← sf_cast 0 4294967295 (valuedouble crc);
                b ← of_option NullDeref (valuestring buildinfo);
                Ok (0, Msg (MsgUpdate c (u32 (valueint len)) (u32 (valueint version))
                              (take 31 b)) (msg_len msg) (msg_packcnt msg) (msgtype msg))
            | _, _, _, _ => Ok (-3, msg)
            end
          else Ok (-5, msg)
      end
  end.

Definition UPDATE_DIR : bytes := cs "/sysfile/soft/update".

(** [memcpy(dst, s, strlen(s) + 1)] into an array, from its start. *)
Definition copy_string (dst s : bytes) : res bytes := blit dst 0 (s ++ [0]).

Definition set_memo (c : ele_ds_cfg_t) (m : bytes) : ele_ds_cfg_t :=
  Cfg (clientcfg c) (wifi_ssid c) (wifi_passwd c) (server_addr c) (server_port c) (curweather c)
    (weather_info c) m (tcp_timeout c) (alarm_enable c) (alarm_time c) (check c).
Definition set_weather (c : ele_ds_cfg_t) (w : bytes) : ele_ds_cfg_t :=
  Cfg (clientcfg c) (wifi_ssid c) (wifi_passwd c) (server_addr c) (server_port c) (curweather c)
    w (memo c) (tcp_timeout c) (alarm_enable c) (alarm_time c) (check c).
Definition set_cfg (g : ele_ds_cfg_t -> ele_ds_cfg_t) : M client_st unit :=
  modify (fun s => Client (recv_info s) (g (device_cfg s)) (cfs s)).

(** [parse_msgtype] *)
Definition parse_msgtype (msg : ele_msg_t) : M client_st Z :=
  set_info (set_type (msgtype msg)) ;;;
  if msgtype msg =? EMT_SERVERMSG_MEMO then
    match msg_data msg with
    | MsgMemo (Some s) =>
        c ← gets device_cfg;
        m ← lift (copy_string (memo c) s);
        set_cfg (fun c => set_memo c m) ;;;
        set_info (set_state CRS_FINISH) ;;;
        mret (msgtype msg)
    | _ => throw NullDeref
    end
  else if msgtype msg =? EMT_SERVERMSG_WEATHER then
    i ← info;
    set_info (set_lens (i32 (msg_len msg)) (recv_len i)) ;;;
    set_info (set_state CRS_DATA) ;;;
    mret (msgtype msg)
  else if msgtype msg =? EMT_SERVERMSG_CLIENTUPDATE then
    match msg_data msg with
    | MsgUpdate crc len _ buildinfo =>
        i ← info;
        set_info (set_state CRS_DATA) ;;;
        set_info (set_lens (i32 len) (recv_len i)) ;;;
        name ← lift (copy_string (zeros 256) (UPDATE_DIR ++ cs "/" ++ buildinfo));
        set_info (set_file name crc) ;;;
        mret (msgtype msg)
    | _ => throw Uninit
    end
  else mret (-3).

Definition cur_parsetype_need_recvdata (type : ele_msg_type_t) : bool :=
  (type =? EMT_SERVERMSG_WEATHER) || (type =? EMT_SERVERMSG_CLIENTUPDATE).

(** ** The state machine *)

(** One turn of the loop of [parse_recv_data]: [inr r] returns from the function, [inl ret]
    ends the turn with [ret]. *)
Definition turn_none (buffer : bytes) : M client_st (Z + Z) :=
  n ← lift (strlen buffer);
  json ← lift (is_json buffer n);
  if json : bool then set_info (set_state CRS_HEAD) ;;; mret (inl 0)
  else set_info (set_state CRS_NONE) ;;; mret (inl (-1)).

Definition turn_head (buffer : bytes) : M client_st (Z + Z) :=
  head_len ← lift (strlen buffer);
  r ← lift (parse_json_data (Msg MsgNone 0 0 0) buffer head_len);
  let '(result, msg) := r in
  if result =? 0 then
    result ← parse_msgtype msg;
    if result <? 0 then _ ← clear_client_info; mret (inl (-2))
    else if cur_parsetype_need_recvdata result then mret (inl 1)
    else mret (inl 0)
  else _ ← clear_client_info; mret (inl (-2)).

(** The file part of [CRS_DATA]: [None] is a [break] with -3. *)
Definition write_update (buffer : bytes) (len : Z) : M client_st (option unit) :=
  i ← info;
  fd ← (if update_file_fd i <=? 0 then
          name ← lift (cstr (update_file_name i));
          fd ← on_fs (open_ name O_WRCT_flags);
          set_info (set_fd fd) ;;;
          mret fd
        else mret (update_file_fd i));
  if fd <? 0 then mret None else
  data ← lift (slice buffer 0 len);
  write_len ← on_fs (write_ fd data);
  if write_len <? 0 then mret None else mret (Some tt).

(** Counting a packet: [ret] is 2 when more data is to come. *)
Definition count_packet (len : Z) : M client_st (Z + Z) :=
  i ← info;
  let d := i32 (datalen i - len) in
  set_info (set_lens d (i32 (recv_len i + len))) ;;;
  if d <=? 0 then set_info (set_state CRS_FINISH) ;;; mret (inl 0) else mret (inl 2).

Definition turn_data (buffer : bytes) (len : Z) : M client_st (Z + Z) :=
  i ← info;
  if 0 <? datalen i then
    if curparse_type i =? EMT_SERVERMSG_WEATHER then
      c ← gets device_cfg;
      data ← lift (slice buffer 0 len);
      w ← lift (blit (weather_info c) (recv_len i) data);
      set_cfg (fun c => set_weather c w) ;;;
      c ← gets device_cfg;
      _ ← on_fs (write_ele_ds_cfg c);
      count_packet len
    else if curparse_type i =? EMT_SERVERMSG_CLIENTUPDATE then
      (* the log line takes the length of the buffer as a string *)
      _ ← lift (strlen buffer);
      r ← write_update buffer len;
      match r with None => mret (inl (-3)) | Some _ => count_packet len end
    else mret (inl (-3))
  else set_info (set_state CRS_FINISH) ;;; mret (inl 0).

(** The reads of [crcfile] on a file of the current content. *)
Definition crc_fuel (fs : fsys) (path : bytes) : nat :=
  S (length (default [] (fs_files fs !! path))).

Definition turn_finish : M client_st (Z + Z) :=
  i ← info;
  if curparse_type i =? EMT_SERVERMSG_CLIENTUPDATE then
    let target_crc := update_file_crc i in
    arg1 ← lift (cstr (update_file_name i));
    _ ← clear_client_info;
    fs ← gets cfs;
    crc_result ← on_fs (crcfile [cs "crcfile"; arg1] (crc_fuel fs arg1));
    (* ret = crc_result == target_crc ? 1 : -4, but 0 is returned *)
    let ret := if crc_result =? target_crc then 1 else -4 in
    mret (inr 0)
  else
    _ ← clear_client_info;
    mret (inr 0).

Definition parse_turn (buffer : bytes) (len : Z) : M client_st (Z + Z) :=
  i ← info;
  match recv_state i with
  | CRS_NONE => turn_none buffer
  | CRS_HEAD => turn_head buffer
  | CRS_DATA => turn_data buffer len
  | CRS_FINISH | CRS_END => turn_finish
  | CSR_MAX => mret (inl (-2))
  end.

Fixpoint parse_loop (fuel : nat) (buffer : bytes) (len : Z) : M client_st Z :=
  match fuel with
  | O => throw Spin
  | S fuel =>
      i ← info;
      if bool_decide (recv_state i = CRS_END) then mret 0 else
      r ← parse_turn buffer len;
      match r with
      | inr r => mret r
      | inl ret => if negb (ret =? 0) then mret ret else parse_loop fuel buffer len
      end
  end.

(** [parse_recv_data]; four turns are enough. *)
Definition parse_recv_data (buffer : bytes) (len : Z) : M client_st Z :=
  if len <=? 0 then mret (-1) else parse_loop 5 buffer len.

(** ** The threads *)

Definition CLIENT_RECV_PACKSIZE : Z := 1500.
Definition CLIENT_RECV_BUFFSIZE : Z := CLIENT_RECV_PACKSIZE * 10.

(** What the two threads share, and their packet buffers. *)
Record threads_st := Threads {
  th_client : client_st;
  th_rb : rt_ringbuffer;
  th_sem : nat;                (* the count of rb_sem *)
  th_buffer : bytes;           (* buffer of thread_parse_recv_data *)
  th_recvbuf : bytes;          (* recvbuf of thread_communicate_server *)
}.

Definition on_client {A} (m : M client_st A) : M threads_st A := fun s =>
  match m (th_client s) with
  | Ok (a, c) => Ok (a, Threads c (th_rb s) (th_sem s) (th_buffer s) (th_recvbuf s))
  | Err f => Err f
  end.

(** One turn of [thread_parse_recv_data]'s loop: without a token the semaphore times out. *)
Definition parse_thread_turn : M threads_st unit :=
  s ← get;
  match th_sem s with
  | O => mret tt
  | S n =>
      r ← lift (rt_ringbuffer_get (th_rb s) (th_buffer s) CLIENT_RECV_PACKSIZE);
      let '(len, buffer, rb) := r in
      put (Threads (th_client s) rb n buffer (th_recvbuf s)) ;;;
      if 0 <? len then
        result ← on_client (parse_recv_data buffer len);
        if result <? 0 then _ ← on_client clear_client_info; mret tt else mret tt
      else mret tt
  end.

(** One turn of [thread_communicate_server]'s loop; [data] is what [recv] stores. *)
Definition recv_thread_turn (data : bytes) : M threads_st unit :=
  s ← get;
  let len := Zlen data in
  buf ← lift (blit (th_recvbuf s) 0 data);
  if 0 <? len then
    r ← lift (rt_ringbuffer_put (th_rb s) buf len);
    let '(result, rb) := r in
    put (Threads (th_client s) rb (if result <=? 0 then th_sem s else S (th_sem s)) (th_buffer s) buf)
  else put (Threads (th_client s) (th_rb s) (th_sem s) (th_buffer s) buf).

(** ** The first message and the start-up *)

(** The sensor values the message is built from: temperature, humidity and pressure. *)
Record sensors := Sensors { sht30_0 : float; sht30_1 : float; pressure : float }.

(** [build_devcfg_msg]: [None] for NULL.  A [float] to [uint32_t] conversion is undefined
    for a value the type does not hold. *)
Definition build_devcfg_msg (sd : sensors) (cfg : ele_ds_cfg_t) : res (option bytes) :=
  let root := cJSON_CreateObject in
  let sensordata := cJSON_CreateObject in
  t ← sf_cast 0 4294967295 (sht30_0 sd);
  let sensordata := cJSON_AddNumberToObject sensordata (cs "temperature") (f64_of_Z t) in
  h ← sf_cast 0 4294967295 (sht30_1 sd);
  let sensordata := cJSON_AddNumberToObject sensordata (cs "humidity") (f64_of_Z h) in
  let sensordata := cJSON_AddNumberToObject sensordata (cs "pressure") (f64_of_f32 (pressure sd)) in
  let root := cJSON_AddItemToObject root (cs "sensor_data") sensordata in
  let c := clientcfg cfg in
  user ← cstr (username c);
  pass ← cstr (passwd c);
  city ← cstr (cityname c);
  let j := cJSON_CreateObject in
  let j := cJSON_AddStringToObject j (cs "username") user in
  let j := cJSON_AddStringToObject j (cs "passwd") pass in
  let j := cJSON_AddStringToObject j (cs "cityname") city in
  let j := cJSON_AddNumberToObject j (cs "cityid") (f64_of_Z (cityid c)) in
  let j := cJSON_AddNumberToObject j (cs "cntserver_interval") (f64_of_Z (cntserver_interval c)) in
  let j := cJSON_AddNumberToObject j (cs "version") (f64_of_Z (version c)) in
  let j := cJSON_AddNumberToObject j (cs "battery") (f64_of_Z (battery c)) in
  let root := cJSON_AddItemToObject root (cs "cfg") j in
  let root := cJSON_AddNumberToObject root (cs "msgtype") (f64_of_Z EMT_CLIENTMSG_INFO) in
  Ok (cJSON_PrintUnformatted root).

(** [thread_communicate_server] up to its loop: the bytes sent, [None] when the thread ends
    before; [sock] and [connected] are the results of [socket] and [connect].  A message
    that could not be built is sent all the same. *)
Definition communicate_start (sock connected : Z) (sd : sensors) (cfg : ele_ds_cfg_t)
    : res (option bytes) :=
  if sock <? 0 then Ok None else
  if connected <? 0 then Ok None else
  msg ← build_devcfg_msg sd cfg;
  m ← of_option NullDeref msg;
  Ok (Some m).

(** [esp8266_device_init]: which of the calls it makes succeed, and what it leaves. *)
Record init_env := InitEnv {
  register_ret : Z;            (* at_device_register *)
  calloc_ok : bool;            (* recv_buf *)
  sem_ok : bool;
  recv_thread_ok : bool;
  parse_thread_ok : bool;
}.
Record init_st := InitSt {
  in_rb : option rt_ringbuffer;
  in_sem : bool;
  in_recv_thread : bool;
  in_parse_thread : bool;
}.

Definition esp8266_device_init (e : init_env) : res (Z * init_st) :=
  let st := InitSt None false false false in
  if register_ret e =? 0 then
    if negb (calloc_ok e) then Ok (-4, st) else
    rb ← rt_ringbuffer_init (zeros CLIENT_RECV_BUFFSIZE) CLIENT_RECV_BUFFSIZE;
    let st := InitSt (Some rb) false false false in
    if negb (sem_ok e) then Ok (-4, st) else
    let st := InitSt (Some rb) true false false in
    if negb (recv_thread_ok e) then Ok (-2, st) else
    let st := InitSt (Some rb) true true false in
    if negb (parse_thread_ok e) then Ok (-3, st) else
    Ok (0, InitSt (Some rb) true true true)
  else Ok (-1, InitSt None false false false).

(** ** Lemmas *)

Lemma info_step {B} (k : recv_info_t -> M client_st B) s : (info ≫= k) s = k (recv_info s) s.
Proof. done. Qed.

Lemma set_info_step {B} g (k : unit -> M client_st B) s :
  (set_info g ≫= k) s = k tt (Client (g (recv_info s)) (device_cfg s) (cfs s)).
Proof. done. Qed.

Lemma lift_step {S A B} (m : res A) (k : A -> M S B) s a :
  m = Ok a -> (lift m ≫= k) s = k a s.
Proof. intros ->. done. Qed.

Lemma on_fs_step {A B} (m : M fsys A) (k : A -> M client_st B) s a fs :
  m (cfs s) = Ok (a, fs) -> (on_fs m ≫= k) s = k a (Client (recv_info s) (device_cfg s) fs).
Proof. intros H. unfold mbind, M_bind, on_fs. by rewrite H. Qed.

Lemma crcfile_any arg0 path fs : exists r, crcfile [arg0; path] (crc_fuel fs path) fs = Ok (r, fs).
Proof.
  destruct (open_ok (fs_env fs) path) eqn:Ho.
  - destruct (fs_files fs !! path) as [c|] eqn:Hf.
    + exists (soft_crc32 c 0). apply crcfile_run; [done|done|]. unfold crc_fuel. rewrite Hf. simpl. lia.
    + exists 0. unfold crcfile. by rewrite (bind_step _ _ _ _ _ (open_missing fs path Hf)).
  - exists 0. unfold crcfile. by rewrite (bind_step _ _ _ _ _ (open_denied fs path _ Ho)).
Qed.

(** *** No part of a turn spins *)

Definition no_spin {S A} (m : M S A) : Prop := forall s, m s <> Err Spin.
Definition res_no_spin {A} (m : res A) : Prop := m <> Err Spin.

Create HintDb spin.

Lemma ns_ret {S A} (a : A) : no_spin (S := S) (mret a).
Proof. by intros s. Qed.
Lemma ns_throw {S A} f : f <> Spin -> no_spin (S := S) (A := A) (throw f).
Proof. intros H s [=]. done. Qed.
Lemma ns_bind {S A B} (m : M S A) (k : A -> M S B) :
  no_spin m -> (forall a, no_spin (k a)) -> no_spin (m ≫= k).
Proof.
  intros Hm Hk s. unfold mbind, M_bind. specialize (Hm s). destruct (m s) as [[a s']|f]; [apply Hk|].
  intros [= ->]. done.
Qed.
Lemma ns_lift {S A} (m : res A) : res_no_spin m -> no_spin (S := S) (lift m).
Proof. intros Hm s. unfold lift. destruct m; [done|]. intros [= ->]. done. Qed.
Lemma ns_gets {S A} (g : S -> A) : no_spin (gets g).
Proof. by intros s. Qed.
Lemma ns_modify {S} (g : S -> S) : no_spin (modify g).
Proof. by intros s. Qed.
Lemma ns_on_fs {A} (m : M fsys A) : no_spin m -> no_spin (on_fs m).
Proof. intros Hm s. unfold on_fs. specialize (Hm (cfs s)). destruct (m (cfs s)) as [[]|]; [done|]. by intros [= ->]. Qed.
Lemma ns_if {S A} (b : bool) (m n : M S A) : no_spin m -> no_spin n -> no_spin (if b then m else n).
Proof. by destruct b. Qed.
Lemma rns_bind {A B} (m : res A) (k : A -> res B) :
  res_no_spin m -> (forall a, res_no_spin (k a)) -> res_no_spin (m ≫= k).
Proof. intros Hm Hk. destruct m; simpl; [apply Hk|]. unfold res_no_spin in *. intros [= ->]. done. Qed.
Lemma rns_ok {A} (a : A) : res_no_spin (Ok a).
Proof. done. Qed.
Lemma rns_if {A} (b : bool) (m n : res A) : res_no_spin m -> res_no_spin n -> res_no_spin (if b then m else n).
Proof. by destruct b. Qed.
Lemma rns_option {A} f (o : option A) : f <> Spin -> res_no_spin (of_option f o).
Proof. destruct o; simpl; [done|]. unfold res_no_spin. congruence. Qed.
Lemma rns_fmap {A B} (g : A -> B) (m : res A) : res_no_spin m -> res_no_spin (g <$> m).
Proof. destruct m; simpl; [done|]. unfold res_no_spin. intros H [= ->]. done. Qed.
Lemma rns_cstr a : res_no_spin (cstr a).
Proof. induction a; simpl; [done|]. case_decide; [done|]. by apply rns_fmap. Qed.
Lemma rns_slice (a : bytes) off n : res_no_spin (slice a off n).
Proof. unfold slice. by case_decide. Qed.
Lemma rns_blit (a : bytes) off s : res_no_spin (blit a off s).
Proof. unfold blit. by case_decide. Qed.
Lemma rns_aget (a : bytes) i : res_no_spin (aget a i).
Proof. unfold aget. case_decide; [apply rns_option; discriminate|done]. Qed.

#[export] Hint Resolve ns_ret ns_bind ns_lift ns_gets ns_modify ns_on_fs ns_if rns_bind rns_ok rns_if
  rns_cstr rns_slice rns_blit rns_aget rns_fmap : spin.
#[export] Hint Extern 1 (no_spin (throw _)) => (apply ns_throw; discriminate) : spin.
#[export] Hint Extern 1 (res_no_spin (of_option _ _)) => (apply rns_option; discriminate) : spin.
#[export] Hint Extern 1 (no_spin info) => apply ns_gets : spin.
#[export] Hint Extern 1 (no_spin (set_info _)) => apply ns_modify : spin.
#[export] Hint Extern 1 (no_spin (set_cfg _)) => apply ns_modify : spin.

Lemma rns_strlen a : res_no_spin (strlen a).
Proof. apply rns_fmap, rns_cstr. Qed.
Lemma rns_is_json a n : res_no_spin (is_json a n).
Proof. unfold is_json. repeat (apply rns_if || apply rns_ok || (apply rns_bind; [apply rns_aget|intros])). Qed.
Lemma rns_parse a : res_no_spin (cJSON_Parse a).
Proof.
  destruct (cstr a) as [s|f] eqn:E.
  - assert (cJSON_Parse a = cJSON_Parse (s ++ [0])) as ->.
    { pose proof (cstr_no_nul _ _ E) as Hn. unfold cJSON_Parse. by rewrite E, cstr_app. }
    destruct (parse_ok s [] (cstr_no_nul _ _ E)) as [o Ho]. rewrite Ho. done.
  - unfold cJSON_Parse. pose proof (rns_cstr a) as H. rewrite E in *. unfold res_no_spin in *. simpl. congruence.
Qed.
Lemma rns_get_int o n : res_no_spin (get_int o n).
Proof. apply rns_fmap, rns_option. discriminate. Qed.
Lemma rns_sf_cast lo hi x : res_no_spin (sf_cast lo hi x).
Proof. unfold sf_cast. case_match; [|done]. by case_decide. Qed.
Lemma rns_copy_string a s : res_no_spin (copy_string a s).
Proof. apply rns_blit. Qed.
Lemma ns_open p fl : no_spin (open_ p fl).
Proof. intros fs. unfold open_. repeat case_match; done. Qed.
Lemma ns_write fd d : no_spin (write_ fd d).
Proof. intros fs. unfold write_. repeat case_match; done. Qed.
Lemma ns_close fd : no_spin (close_ fd).
Proof. intros fs. unfold close_. by case_match. Qed.
#[export] Hint Resolve rns_strlen rns_is_json rns_parse rns_get_int rns_sf_cast rns_copy_string
  ns_open ns_write ns_close : spin.

Lemma rns_weather_item w i : res_no_spin (weather_item w i).
Proof. unfold weather_item, day_string. eauto 12 with spin. Qed.
Lemma rns_weather_array w days arr : res_no_spin (weather_array w days arr).
Proof.
  revert arr. induction days as [|i days IH]; intros arr; simpl; [done|].
  apply rns_bind; [apply rns_weather_item|done].
Qed.
#[export] Hint Resolve rns_weather_array : spin.
Lemma rns_cfg_to_json cfg : res_no_spin (ele_ds_cfg_to_json cfg).
Proof. unfold ele_ds_cfg_to_json. eauto 30 with spin. Qed.
#[export] Hint Resolve rns_cfg_to_json : spin.
Lemma ns_write_cfg cfg : no_spin (write_ele_ds_cfg cfg).
Proof. unfold write_ele_ds_cfg. eauto 20 with spin. Qed.
Lemma ns_clear : no_spin clear_client_info.
Proof. unfold clear_client_info. eauto 20 with spin. Qed.
#[export] Hint Resolve ns_write_cfg ns_clear : spin.

Lemma rns_parse_json msg b n : res_no_spin (parse_json_data msg b n).
Proof.
  unfold parse_json_data. apply rns_if; [done|]. apply rns_bind; [apply rns_is_json|intros j].
  apply rns_if; [done|]. apply rns_bind; [apply rns_parse|intros [root|]]; [|done].
  destruct (cJSON_GetObjectItem (Some root) (cs "packinfo")); [|done].
  do 3 (apply rns_bind; [apply rns_get_int|intros]).
  repeat apply rns_if; eauto with spin.
  repeat case_match; eauto with spin.
Qed.

Lemma ns_parse_msgtype msg : no_spin (parse_msgtype msg).
Proof.
  unfold parse_msgtype. apply ns_bind; [apply ns_modify|intros].
  repeat apply ns_if; eauto with spin; destruct (msg_data msg); eauto 12 with spin.
  destruct memo; eauto 12 with spin.
Qed.
#[export] Hint Resolve rns_parse_json ns_parse_msgtype : spin.

(** What [clear_client_info] leaves. *)
Definition cleared (s : client_st) : client_st :=
  let i := recv_info s in
  let fd := update_file_fd i in
  Client (RecvInfo CRS_NONE EMT_CLIENTMSG_NONE 0 0 (if 0 <? fd then -1 else fd) (zeros 256)
            (update_file_crc i)) (device_cfg s)
    (if 0 <? fd then set_fds (delete fd) (cfs s) else cfs s).

Lemma clear_run s : clear_client_info s = Ok (0, cleared s).
Proof.
  unfold clear_client_info. rewrite info_step, set_info_step. unfold cleared. cbv zeta.
  destruct (0 <? update_file_fd (recv_info s)); [|done].
  assert (exists r, close_ (update_file_fd (recv_info s)) (cfs s) =
    Ok (r, set_fds (delete (update_file_fd (recv_info s))) (cfs s))) as [r Hr].
  { unfold close_. destruct (fs_fds (cfs s) !! _) as [d|] eqn:E; [by eexists|].
    exists (-1). f_equal. f_equal. unfold set_fds. rewrite delete_id by done. by destruct (cfs s). }
  by erewrite on_fs_step by exact Hr.
Qed.

(** The last turn always returns 0 with the state cleared: the CRC of the file has no
    influence. *)
Lemma finish_run s :
  (curparse_type (recv_info s) = EMT_SERVERMSG_CLIENTUPDATE ->
     is_ok (cstr (update_file_name (recv_info s))) = true) ->
  turn_finish s = Ok (inr 0, cleared s).
Proof.
  intros Hn. unfold turn_finish. rewrite info_step.
  destruct (Z.eqb_spec (curparse_type (recv_info s)) EMT_SERVERMSG_CLIENTUPDATE) as [E|E].
  - specialize (Hn E). destruct (cstr _) as [path|] eqn:Hp; [|done].
    rewrite (lift_step _ _ _ path) by done. rewrite (bind_step _ _ _ _ _ (clear_run s)).
    rewrite (bind_step (gets cfs) _ _ _ _ eq_refl).
    destruct (crcfile_any (cs "crcfile") path (cfs (cleared s))) as [r Hr].
    rewrite (on_fs_step _ _ (cleared s) r (cfs (cleared s)) Hr). by destruct (cleared s).
  - by rewrite (bind_step _ _ _ _ _ (clear_run s)).
Qed.

Lemma ns_finish : no_spin turn_finish.
Proof.
  intros s. destruct (Z.eq_dec (curparse_type (recv_info s)) EMT_SERVERMSG_CLIENTUPDATE) as [E|E];
    [|by rewrite finish_run].
  destruct (is_ok (cstr (update_file_name (recv_info s)))) eqn:Hn; [by rewrite finish_run|].
  unfold turn_finish. rewrite info_step, E. simpl (_ =? _). cbv iota. unfold mbind at 1, M_bind at 1, lift at 1.
  pose proof (rns_cstr (update_file_name (recv_info s))) as H. unfold res_no_spin in H.
  destruct (cstr _); [done|]. congruence.
Qed.
#[export] Hint Resolve ns_finish : spin.

Lemma ns_turn b len : no_spin (parse_turn b len).
Proof.
  unfold parse_turn. apply ns_bind; [apply ns_gets|intros i].
  destruct (recv_state i); eauto with spin.
  - unfold turn_none. eauto 12 with spin.
  - unfold turn_head. apply ns_bind; [eauto with spin|intros]. apply ns_bind; [eauto with spin|intros [r m]].
    eauto 12 with spin.
  - unfold turn_data. apply ns_bind; [apply ns_gets|intros j]. unfold count_packet.
    repeat apply ns_if; eauto 20 with spin.
    apply ns_bind; [eauto with spin|intros]. apply ns_bind; [|intros [[]|]; eauto 12 with spin].
    unfold write_update. apply ns_bind; [apply ns_gets|intros]. apply ns_bind; [eauto 12 with spin|intros].
    eauto 12 with spin.
Qed.

(** *** A turn that goes on moves forward *)

Definition rank (st : client_recv_state_t) : nat :=
  match st with CRS_NONE => 0 | CRS_HEAD => 1 | CRS_DATA => 2 | CRS_FINISH => 3 | CRS_END | CSR_MAX => 4 end.

(** Split a run of a sequence into the runs of its parts. *)
Lemma bind_inv {S A B} (m : M S A) (k : A -> M S B) s b s' :
  (m ≫= k) s = Ok (b, s') -> exists a s1, m s = Ok (a, s1) /\ k a s1 = Ok (b, s').
Proof. unfold mbind, M_bind. destruct (m s) as [[a s1]|]; [|done]. intros H. by exists a, s1. Qed.

Lemma lift_inv {S A} (m : res A) (s : S) a s' : lift m s = Ok (a, s') -> m = Ok a /\ s' = s.
Proof. unfold lift. destruct m; [|done]. by intros [= -> ->]. Qed.

Lemma msgtype_finish msg s r s' :
  parse_msgtype msg s = Ok (r, s') -> 0 <= r -> cur_parsetype_need_recvdata r = false ->
  recv_state (recv_info s') = CRS_FINISH.
Proof.
  unfold parse_msgtype. rewrite set_info_step. intros H Hr Hn.
  destruct (Z.eqb_spec (msgtype msg) EMT_SERVERMSG_MEMO) as [E|].
  - destruct (msg_data msg) as [|[m|]| |]; [done| |done..].
    apply bind_inv in H as (c & s1 & _ & H). apply bind_inv in H as (c2 & s2 & _ & H).
    apply bind_inv in H as (c3 & s3 & _ & H). apply bind_inv in H as (c4 & s4 & H4 & H).
    injection H4 as <- <-. by injection H as <- <-.
  - destruct (Z.eqb_spec (msgtype msg) EMT_SERVERMSG_WEATHER) as [E|].
    + rewrite info_step, !set_info_step in H. injection H as <- <-. by rewrite E in Hn.
    + destruct (Z.eqb_spec (msgtype msg) EMT_SERVERMSG_CLIENTUPDATE) as [E|];
        [|injection H as <- <-; lia].
      destruct (msg_data msg); [done..|].
      rewrite info_step, !set_info_step in H. apply bind_inv in H as (nm & s1 & _ & H).
      rewrite set_info_step in H. injection H as <- <-. by rewrite E in Hn.
Qed.

Lemma finish_returns s r s' : turn_finish s = Ok (r, s') -> r = inr 0.
Proof.
  unfold turn_finish. rewrite info_step. destruct (_ =? _); intros H.
  - do 4 (apply bind_inv in H as (? & ? & _ & H)). by injection H as <-.
  - apply bind_inv in H as (? & ? & _ & H). by injection H as <-.
Qed.

Lemma turn_forward b len s s' :
  parse_turn b len s = Ok (inl 0, s') ->
  (rank (recv_state (recv_info s)) < rank (recv_state (recv_info s')) <= 3)%nat.
Proof.
  unfold parse_turn. rewrite info_step. destruct (recv_state (recv_info s)) eqn:Est.
  - unfold turn_none. intros H. apply bind_inv in H as (n & s1 & _ & H).
    apply bind_inv in H as (j & s2 & _ & H). destruct j; [|done].
    rewrite set_info_step in H. injection H as <-. simpl. lia.
  - unfold turn_head. intros H. apply bind_inv in H as (n & s1 & _ & H).
    apply bind_inv in H as ([r m] & s2 & _ & H). destruct (r =? 0).
    + apply bind_inv in H as (r2 & s3 & Hm & H). destruct (Z.ltb_spec r2 0).
      * apply bind_inv in H as (? & ? & _ & H). done.
      * destruct (cur_parsetype_need_recvdata r2) eqn:Hn; [done|]. injection H as <-.
        rewrite (msgtype_finish _ _ _ _ Hm) by done. simpl. lia.
    + apply bind_inv in H as (? & ? & _ & H). done.
  - assert (forall s0, count_packet len s0 = Ok (inl 0, s') -> recv_state (recv_info s') = CRS_FINISH) as Hc.
    { intros s0. unfold count_packet. rewrite info_step. cbv zeta. rewrite set_info_step.
      destruct (_ <=? 0); [|done]. rewrite set_info_step. by intros [= <-]. }
    unfold turn_data. rewrite info_step. intros H. destruct (0 <? datalen (recv_info s)).
    + destruct (_ =? EMT_SERVERMSG_WEATHER).
      * do 6 (apply bind_inv in H as (? & ? & _ & H)). rewrite (Hc _ H). simpl. lia.
      * destruct (_ =? EMT_SERVERMSG_CLIENTUPDATE); [|done].
        apply bind_inv in H as (n & s1 & _ & H). apply bind_inv in H as (w & s2 & _ & H).
        destruct w; [|done]. rewrite (Hc _ H). simpl. lia.
    + rewrite set_info_step in H. injection H as <-. simpl. lia.
  - intros H%finish_returns. done.
  - intros H%finish_returns. done.
  - done.
Qed.

Lemma loop_no_spin fuel b len s :
  (4 - rank (recv_state (recv_info s)) < fuel)%nat -> parse_loop fuel b len s <> Err Spin.
Proof.
  revert s. induction fuel as [|fuel IH]; intros s Hf; [lia|]. cbn [parse_loop]. rewrite info_step.
  case_bool_decide; [done|]. pose proof (ns_turn b len s) as Hns.
  unfold mbind, M_bind. destruct (parse_turn b len s) as [[[r|r] s1]|f] eqn:Et; [|done|congruence].
  destruct (Z.eqb_spec r 0) as [->|]; [|done]. simpl negb. cbv iota.
  apply turn_forward in Et. apply IH. lia.
Qed.

(** C33. The state machine of [parse_recv_data] never runs for ever: whatever the packet, the
    buffer and the state it is called in, its loop ends within the model's five turns (or
    faults in a single statement). *)
Theorem parse_recv_terminates b len s : parse_recv_data b len s <> Err Spin.
Proof.
  unfold parse_recv_data. destruct (len <=? 0); [done|]. apply loop_no_spin. lia.
Qed.

(** ** Receiving an update *)

(** Feeding packets, each the receive buffer and the number of bytes received. *)
Fixpoint feed (packets : list (bytes * Z)) : M client_st (list Z) :=
  match packets with
  | [] => mret []
  | (b, len) :: packets =>
      r ← parse_recv_data b len;
      rs ← feed packets;
      mret (r :: rs)
  end.

Definition payload (p : bytes * Z) : bytes := take (Z.to_nat p.2) p.1.
Definition packet_ok (p : bytes * Z) : Prop := 0 < p.2 <= Zlen p.1 /\ is_ok (cstr p.1) = true.
#[export] Instance packet_ok_dec p : Decision (packet_ok p).
Proof. unfold packet_ok. apply _. Defined.

(** The receive state with [r] bytes to come, [m] received, and the file [fd]. *)
Definition receiving (r m fd : Z) (name : bytes) (crc : Z) : recv_info_t :=
  RecvInfo CRS_DATA EMT_SERVERMSG_CLIENTUPDATE r m fd name crc.

(** The files with [path] open on [fd], holding [c]. *)
Definition open_file (fs : fsys) (path : bytes) (fd : Z) (c : bytes) : fsys :=
  set_fds <[fd := Fdesc path (length c)]> (set_files <[path := c]> fs).

Lemma payload_length p : packet_ok p -> Zlen (payload p) = p.2.
Proof. intros [H _]. unfold payload, Zlen in *. rewrite length_take. lia. Qed.

Lemma write_run b len i cfg fs path fd c :
  0 < fd -> update_file_fd i = fd -> write_ok (fs_env fs) path = true -> 0 <= len <= Zlen b ->
  write_update b len (Client i cfg (open_file fs path fd c)) =
    Ok (Some tt, Client i cfg (open_file fs path fd (c ++ take (Z.to_nat len) b))).
Proof.
  intros Hfd Hi Hw Hl. unfold write_update. rewrite info_step. cbn [recv_info]. rewrite Hi.
  destruct (Z.leb_spec fd 0); [lia|]. rewrite (bind_step _ _ _ _ _ eq_refl).
  destruct (Z.ltb_spec fd 0); [lia|].
  rewrite (lift_step _ _ _ (take (Z.to_nat len) b)) by (rewrite slice_in by lia; by rewrite drop_0).
  set (d := take (Z.to_nat len) b).
  rewrite (on_fs_step _ _ _ (Zlen d) (open_file fs path fd (c ++ d))).
  - pose proof (Zlen_nonneg d). destruct (Z.ltb_spec (Zlen d) 0); [lia|done].
  - unfold write_, open_file. simpl. rewrite lookup_insert_eq. simpl. rewrite lookup_insert_eq, Hw.
    do 2 f_equal. unfold set_fds, set_files. simpl. rewrite !insert_insert_eq.
    rewrite overwrite_end, length_app. done.
Qed.

Lemma write_first b len i cfg fs path :
  update_file_fd i <= 0 -> cstr (update_file_name i) = Ok path -> openable fs path = true ->
  let fd := fresh_fd (fs_fds fs) in
  write_update b len (Client i cfg fs) =
    write_update b len (Client (set_fd fd i) cfg (open_file fs path fd [])).
Proof.
  intros Hi Hn Ho fd. destruct (fresh_fd_spec (fs_fds fs)) as [Hfd _]. fold fd in Hfd.
  unfold write_update. rewrite !info_step. cbn [recv_info].
  destruct (Z.leb_spec (update_file_fd i) 0); [|lia].
  rewrite (bind_step _ _ _ fd (Client (set_fd fd i) cfg (open_file fs path fd []))).
  - change (update_file_fd (set_fd fd i)) with fd. destruct (Z.leb_spec fd 0); [lia|].
    by rewrite (bind_step _ _ _ _ _ eq_refl).
  - rewrite (lift_step _ _ _ path) by done.
    by rewrite (on_fs_step _ _ (Client i cfg fs) _ _ (open_write fs path Ho)).
Qed.

(** One turn of the loop. *)
Lemma parse_loop_step fuel b len s r s' :
  recv_state (recv_info s) <> CRS_END -> parse_turn b len s = Ok (r, s') ->
  parse_loop (S fuel) b len s =
    match r with
    | inr r => Ok (r, s')
    | inl ret => if negb (ret =? 0) then Ok (ret, s') else parse_loop fuel b len s'
    end.
Proof.
  intros Hs Ht. cbn [parse_loop]. rewrite info_step, bool_decide_eq_false_2 by done.
  rewrite (bind_step _ _ _ _ _ Ht). destruct r as [r|r]; [|done]. by destruct (negb _).
Qed.

(** The update file before a packet: open with what was received, or not opened yet. *)
Definition file_ready (fs : fsys) (path : bytes) (fd : Z) (c : bytes) (i : recv_info_t) (fs0 : fsys) : Prop :=
  (update_file_fd i = fd /\ fs0 = open_file fs path fd c) \/
  (update_file_fd i <= 0 /\ fs0 = fs /\ c = []).

Lemma write_ready b len i cfg fs path c fs0 :
  let fd := fresh_fd (fs_fds fs) in
  file_ready fs path fd c i fs0 -> cstr (update_file_name i) = Ok path ->
  openable fs path = true -> write_ok (fs_env fs) path = true -> 0 <= len <= Zlen b ->
  write_update b len (Client i cfg fs0) =
    Ok (Some tt, Client (set_fd fd i) cfg (open_file fs path fd (c ++ take (Z.to_nat len) b))).
Proof.
  intros fd Hr Hn Ho Hw Hl. destruct (fresh_fd_spec (fs_fds fs)) as [Hfd _]. fold fd in Hfd.
  destruct Hr as [[Hi ->]|(Hi & -> & ->)].
  - rewrite write_run by (done || lia). rewrite <- Hi. by destruct i.
  - rewrite (write_first b len i cfg fs path) by done. fold fd. by rewrite write_run by (done || lia).
Qed.

(** A packet in the data state: when more is to come the state stays, the last one closes
    the file and clears the state. *)
Lemma data_packet p r m i cfg fs path c fs0 :
  let fd := fresh_fd (fs_fds fs) in
  packet_ok p -> file_ready fs path fd c i fs0 -> cstr (update_file_name i) = Ok path ->
  openable fs path = true -> write_ok (fs_env fs) path = true ->
  recv_state i = CRS_DATA -> curparse_type i = EMT_SERVERMSG_CLIENTUPDATE ->
  datalen i = r -> recv_len i = m -> p.2 <= r -> 0 <= m -> m + r < 2 ^ 31 ->
  parse_recv_data p.1 p.2 (Client i cfg fs0) =
    if p.2 <? r
    then Ok (2, Client (receiving (r - p.2) (m + p.2) fd (update_file_name i) (update_file_crc i)) cfg
                  (open_file fs path fd (c ++ payload p)))
    else Ok (0, Client (RecvInfo CRS_NONE EMT_CLIENTMSG_NONE 0 0 (-1) (zeros 256) (update_file_crc i)) cfg
                  (set_files <[path := c ++ payload p]> fs)).
Proof.
  intros fd [Hp Hs] Hr Hn Ho Hw Hst Hty Hd Hm Hle Hm0 Hov.
  destruct (fresh_fd_spec (fs_fds fs)) as [Hfd Hfree]. fold fd in Hfd, Hfree.
  unfold parse_recv_data. destruct (Z.leb_spec p.2 0); [lia|].
  assert (turn_data p.1 p.2 (Client i cfg fs0) =
    count_packet p.2 (Client (set_fd fd i) cfg (open_file fs path fd (c ++ payload p)))) as Et.
  { unfold turn_data. rewrite info_step. cbn [recv_info]. rewrite Hd, Hty.
    destruct (Z.ltb_spec 0 r); [|lia]. simpl (_ =? EMT_SERVERMSG_WEATHER).
    simpl (_ =? EMT_SERVERMSG_CLIENTUPDATE). cbv iota.
    destruct (strlen p.1) as [n|] eqn:En; [|unfold strlen in En; by destruct (cstr p.1)].
    rewrite (lift_step _ _ _ n) by done.
    by rewrite (bind_step _ _ _ _ _ (write_ready p.1 p.2 i cfg fs path c fs0 Hr Hn Ho Hw ltac:(lia))). }
  assert (parse_turn p.1 p.2 (Client i cfg fs0) =
    let i' := set_lens (r - p.2) (m + p.2) (set_fd fd i) in
    let fs' := open_file fs path fd (c ++ payload p) in
    if p.2 <? r then Ok (inl 2, Client i' cfg fs')
    else Ok (inl 0, Client (set_state CRS_FINISH i') cfg fs')) as Ept.
  { unfold parse_turn. rewrite info_step. cbn [recv_info]. rewrite Hst, Et.
    unfold count_packet. rewrite info_step. cbn [recv_info].
    change (datalen (set_fd fd i)) with (datalen i). change (recv_len (set_fd fd i)) with (recv_len i).
    rewrite Hd, Hm. rewrite !swrap_small by lia. cbv zeta. rewrite set_info_step. cbn [recv_info device_cfg cfs].
    destruct (Z.leb_spec (r - p.2) 0), (Z.ltb_spec p.2 r); (lia || done). }
  cbv zeta in Ept. assert (recv_state i <> CRS_END) as Hne by (by rewrite Hst).
  destruct (Z.ltb_spec p.2 r); rewrite (parse_loop_step _ _ _ (Client i cfg fs0) _ _ Hne Ept).
  - simpl negb. cbv iota. unfold receiving, set_lens, set_fd. cbn. by rewrite Hst, Hty.
  - simpl negb. cbv iota.
    set (sf := Client (set_state CRS_FINISH _) _ _).
    assert (parse_turn p.1 p.2 sf = Ok (inr 0, cleared sf)) as Ef.
    { unfold parse_turn. rewrite info_step. cbn [sf recv_info set_state recv_state].
      apply finish_run. intros _. cbn. by rewrite Hn. }
    rewrite (parse_loop_step _ _ _ sf _ _ ltac:(discriminate) Ef). subst sf.
    unfold cleared. cbn. destruct (Z.ltb_spec 0 fd); [|lia].
    do 2 f_equal. f_equal. unfold open_file. by apply set_fds_delete_insert.
Qed.

(** Any number of packets of any sizes, however the stream is cut: every one but the last
    answers 2, the last one 0; the update file then holds the bytes in order, is closed, and
    the client waits for the next message.  The announced CRC, [update_file_crc i], has no
    part in the result: an update that does not match it ends in the same way. *)
Lemma feed_run ps : forall i cfg fs path c fs0,
  let fd := fresh_fd (fs_fds fs) in
  ps <> [] -> Forall packet_ok ps -> file_ready fs path fd c i fs0 ->
  cstr (update_file_name i) = Ok path ->
  openable fs path = true -> write_ok (fs_env fs) path = true ->
  recv_state i = CRS_DATA -> curparse_type i = EMT_SERVERMSG_CLIENTUPDATE ->
  datalen i = Zlen (concat (map payload ps)) -> 0 <= recv_len i -> recv_len i + datalen i < 2 ^ 31 ->
  feed ps (Client i cfg fs0) =
    Ok (replicate (length ps - 1) 2 ++ [0],
        Client (RecvInfo CRS_NONE EMT_CLIENTMSG_NONE 0 0 (-1) (zeros 256) (update_file_crc i)) cfg
          (set_files <[path := c ++ concat (map payload ps)]> fs)).
Proof.
  induction ps as [|p ps IH]; intros i cfg fs path c fs0 fd Hne Hps Hr Hn Ho Hw Hst Hty Hd Hm Hov; [done|].
  apply Forall_cons in Hps as [Hp Hps]. pose proof (payload_length p Hp) as Hpl.
  cbn [map concat] in Hd. rewrite Zlen_app, Hpl in Hd. pose proof (Zlen_nonneg (concat (map payload ps))).
  destruct p as [b len]. cbn [feed].
  assert (0 < len) as Hlen by (destruct Hp as [Hp _]; simpl in Hp; lia).
  assert (len <= datalen i) as Hle by (rewrite Hd; cbn [snd]; lia).
  pose proof (data_packet (b, len) (datalen i) (recv_len i) i cfg fs path c fs0 Hp Hr Hn Ho Hw Hst Hty
    eq_refl eq_refl Hle Hm Hov) as E. cbn [fst snd] in E, Hd.
  destruct ps as [|p' ps].
  - change (Zlen (concat (map payload []))) with 0 in Hd. rewrite (proj2 (Z.ltb_ge len (datalen i))) in E by lia.
    rewrite (bind_step _ _ _ _ _ E). cbn [map concat]. rewrite app_nil_r. done.
  - assert (0 < Zlen (concat (map payload (p' :: ps)))) as Hpos.
    { cbn [map concat]. rewrite Zlen_app. apply Forall_cons in Hps as [Hp' _].
      rewrite (payload_length p' Hp'). destruct Hp' as [Hp' _].
      pose proof (Zlen_nonneg (concat (map payload ps))). lia. }
    rewrite (proj2 (Z.ltb_lt len (datalen i))) in E by lia.
    rewrite (bind_step _ _ _ _ _ E).
    set (i' := receiving (datalen i - len) (recv_len i + len) fd (update_file_name i) (update_file_crc i)).
    assert (feed (p' :: ps) (Client i' cfg (open_file fs path fd (c ++ payload (b, len)))) =
      Ok (replicate (length (p' :: ps) - 1) 2 ++ [0],
          Client (RecvInfo CRS_NONE EMT_CLIENTMSG_NONE 0 0 (-1) (zeros 256) (update_file_crc i')) cfg
            (set_files <[path := (c ++ payload (b, len)) ++ concat (map payload (p' :: ps))]> fs))) as E2.
    { apply IH; try done; [by left|unfold i'; cbn [datalen receiving]; lia|unfold i'; cbn [recv_len receiving]; lia|unfold i'; cbn [datalen recv_len receiving]; lia]. }
    rewrite (bind_step _ _ _ _ _ E2).
    unfold mret, M_ret. cbn [map concat]. rewrite <- !app_assoc.
    simpl length. simpl Nat.sub. rewrite ?Nat.sub_0_r. done.
Qed.

(** *** The head of an update *)

(** The client between messages; [fd] is what the last update left in [update_file_fd]. *)
Definition idle (fd crc : Z) : recv_info_t :=
  RecvInfo CRS_NONE EMT_CLIENTMSG_NONE 0 0 fd (zeros 256) crc.

(** The head the server sends for an update of [len] bytes. *)
Definition update_head (len : Z) (crc version packcnt : float) (info : bytes) : cJSON :=
  cJSON_Object
    [(cs "msgtype", cJSON_Number (f64_of_Z EMT_SERVERMSG_CLIENTUPDATE));
     (cs "packcnt", cJSON_Number packcnt);
     (cs "packinfo", cJSON_Object
        [(cs "len", cJSON_Number (f64_of_Z len)); (cs "crc", cJSON_Number crc);
         (cs "version", cJSON_Number version); (cs "buildinfo", cJSON_String info)])].

Definition update_path (info : bytes) : bytes := UPDATE_DIR ++ cs "/" ++ take 31 info.

Lemma update_path_length info : Zlen (update_path info) <= 52.
Proof.
  unfold update_path, Zlen. rewrite !length_app, length_take.
  change (length UPDATE_DIR) with 20%nat. change (length (cs "/")) with 1%nat. lia.
Qed.

Lemma update_name info :
  exists rest, copy_string (zeros 256) (update_path info) = Ok (update_path info ++ 0 :: rest).
Proof.
  pose proof (update_path_length info) as Hl. unfold copy_string, blit.
  assert (Zlen (zeros 256) = 256) as Hz by done.
  assert (Zlen [0] = 1) as H1 by done. rewrite decide_True by (rewrite Zlen_app; lia).
  eexists. rewrite <- app_assoc. reflexivity.
Qed.

(** The message the head of an update is read as. *)
Lemma update_head_read b t n x y z crc info :
  cstr b = Ok t -> is_json b (Zlen t) = Ok true ->
  cJSON_Parse b = Ok (Some (update_head n x y z info)) ->
  0 <= n <= INT_MAX -> sf_cast 0 4294967295 x = Ok crc ->
  parse_json_data (Msg MsgNone 0 0 0) b (Zlen t) =
    Ok (0, Msg (MsgUpdate crc (u32 n) (u32 (saturate y)) (take 31 info)) (u32 n) (u32 (saturate z))
             EMT_SERVERMSG_CLIENTUPDATE).
Proof.
  intros Ht Hj Hp Hn Hx. unfold parse_json_data.
  destruct (Z.leb_spec (Zlen t) 0) as [Hl|_].
  { assert (Zlen t < 2) as Hl' by lia. apply Z.ltb_lt in Hl'. unfold is_json in Hj. by rewrite Hl' in Hj. }
  rewrite Hj, ok_bind. cbn [negb]. rewrite Hp, ok_bind.
  assert (saturate (f64_of_Z n) = n) as Es by (apply saturate_int; unfold INT_MIN; lia).
  assert (forall (k : Z -> res (Z * ele_msg_t)), mbind k (get_int (Some (update_head n x y z info)) (cs "packcnt")) = k (saturate z)) as E1
    by reflexivity.
  assert (cJSON_GetObjectItem (Some (update_head n x y z info)) (cs "packinfo") =
    Some (cJSON_Object
        [(cs "len", cJSON_Number (f64_of_Z n)); (cs "crc", cJSON_Number x);
         (cs "version", cJSON_Number y); (cs "buildinfo", cJSON_String info)])) as -> by reflexivity.
  set (pack := cJSON_Object _).
  assert (get_int (Some pack) (cs "len") = Ok n) as E2.
  { transitivity (Ok (saturate (f64_of_Z n))); [reflexivity|by rewrite Es]. }
  rewrite E2, ok_bind, E1.
  assert (get_int (Some (update_head n x y z info)) (cs "msgtype") = Ok EMT_SERVERMSG_CLIENTUPDATE) as E3.
  { reflexivity. }
  rewrite E3, ok_bind. cbv zeta. cbn [msgtype msg_data].
  change (i16 EMT_SERVERMSG_CLIENTUPDATE) with EMT_SERVERMSG_CLIENTUPDATE.
  simpl (_ =? EMT_SERVERMSG_MEMO). simpl (_ =? EMT_SERVERMSG_WEATHER). rewrite Z.eqb_refl. cbv iota.
  assert (cJSON_GetObjectItem (Some pack) (cs "len") = Some (cJSON_Number (f64_of_Z n))) as -> by reflexivity.
  assert (cJSON_GetObjectItem (Some pack) (cs "crc") = Some (cJSON_Number x)) as -> by reflexivity.
  assert (cJSON_GetObjectItem (Some pack) (cs "version") = Some (cJSON_Number y)) as -> by reflexivity.
  assert (cJSON_GetObjectItem (Some pack) (cs "buildinfo") = Some (cJSON_String info)) as -> by reflexivity.
  cbv iota. cbn [valuedouble]. rewrite Hx, ok_bind. cbn [valueint valuestring of_option].
  rewrite Es. reflexivity.
Qed.

(** What [parse_msgtype] makes of it. *)
Lemma update_msgtype crc n v z info s name :
  copy_string (zeros 256) (update_path info) = Ok name -> 0 <= n <= INT_MAX ->
  parse_msgtype (Msg (MsgUpdate crc (u32 n) v (take 31 info)) (u32 n) z EMT_SERVERMSG_CLIENTUPDATE) s =
    Ok (EMT_SERVERMSG_CLIENTUPDATE,
        let i := recv_info s in
        Client (RecvInfo CRS_DATA EMT_SERVERMSG_CLIENTUPDATE n (recv_len i) (update_file_fd i) name crc)
          (device_cfg s) (cfs s)).
Proof.
  intros Hname Hn. unfold parse_msgtype. cbn [msgtype msg_data]. rewrite set_info_step.
  simpl (_ =? EMT_SERVERMSG_MEMO). simpl (_ =? EMT_SERVERMSG_WEATHER). rewrite Z.eqb_refl. cbv iota.
  rewrite info_step, !set_info_step. fold (update_path info). rewrite (lift_step _ _ _ _ Hname), set_info_step.
  unfold INT_MAX in Hn. cbn. rewrite (wrap_small 32 n), (swrap_small 32 n) by lia. reflexivity.
Qed.

(** The packet with the head: two turns of the state machine. *)
Lemma head_packet b t len n x y z crc info fd crc0 cfg fs :
  cstr b = Ok t -> is_json b (Zlen t) = Ok true ->
  cJSON_Parse b = Ok (Some (update_head n x y z info)) -> Forall cchar info ->
  0 < len -> 0 <= n <= INT_MAX -> sf_cast 0 4294967295 x = Ok crc ->
  exists name, cstr name = Ok (update_path info) /\
    parse_recv_data b len (Client (idle fd crc0) cfg fs) =
      Ok (1, Client (receiving n 0 fd name crc) cfg fs).
Proof.
  intros Ht Hj Hp Hi Hlen Hn Hx. destruct (update_name info) as [rest Hname].
  exists (update_path info ++ 0 :: rest). split.
  { apply cstr_app. unfold update_path. rewrite !Forall_app. split_and!;
      [apply (bool_decide_unpack _); vm_compute; exact I..|].
    apply Forall_take. eapply Forall_impl; [exact Hi|]. unfold cchar. lia. }
  assert (strlen b = Ok (Zlen t)) as Hs by (unfold strlen; by rewrite Ht).
  unfold parse_recv_data. destruct (Z.leb_spec len 0); [lia|].
  set (s1 := Client (set_state CRS_HEAD (idle fd crc0)) cfg fs).
  assert (parse_turn b len (Client (idle fd crc0) cfg fs) = Ok (inl 0, s1)) as E1.
  { unfold parse_turn, turn_none. rewrite info_step. cbn [recv_info idle recv_state].
    rewrite (lift_step _ _ _ _ Hs), (lift_step _ _ _ _ Hj). reflexivity. }
  rewrite (parse_loop_step _ _ _ (Client (idle fd crc0) cfg fs) _ _ ltac:(discriminate) E1). cbn [negb Z.eqb].
  assert (parse_turn b len s1 = Ok (inl 1, Client (receiving n 0 fd (update_path info ++ 0 :: rest) crc) cfg fs)) as E2.
  { unfold parse_turn, turn_head. rewrite info_step. cbn [s1 recv_info set_state recv_state].
    rewrite (lift_step _ _ _ _ Hs).
    rewrite (lift_step _ _ _ _ (update_head_read b t n x y z crc info Ht Hj Hp Hn Hx)).
    cbn [Z.eqb].
    rewrite (bind_step _ _ _ _ _ (update_msgtype crc n (u32 (saturate y)) (u32 (saturate z)) info s1 _ Hname Hn)).
    reflexivity. }
  by rewrite (parse_loop_step _ _ _ s1 _ _ ltac:(discriminate) E2).
Qed.

(** ** An update from its head to its last byte *)

(** C1. An update from its head to its last byte, when the update file can be opened (its directory
    is there) and written.  The head answers 1 and every packet but the last 2, however the stream
    behind the head is cut into packets; the update file then holds the received bytes in order,
    is closed, and the client waits for the next message.  The announced CRC [crc] has no part in
    it: a file whose CRC differs ends the same way.  (Without the directory, as on a flash that was
    just formatted, no update arrives: [update_dir_missing].) *)
Theorem update_received b t len n x y z crc info fd crc0 ps cfg fs :
  cstr b = Ok t -> is_json b (Zlen t) = Ok true ->
  cJSON_Parse b = Ok (Some (update_head n x y z info)) -> Forall cchar info -> 0 < len ->
  sf_cast 0 4294967295 x = Ok crc ->
  fd <= 0 -> ps <> [] -> Forall packet_ok ps -> n = Zlen (concat (map payload ps)) -> n <= INT_MAX ->
  openable fs (update_path info) = true -> write_ok (fs_env fs) (update_path info) = true ->
  feed ((b, len) :: ps) (Client (idle fd crc0) cfg fs) =
    Ok (1 :: replicate (length ps - 1) 2 ++ [0],
        Client (idle (-1) crc) cfg (set_files <[update_path info := concat (map payload ps)]> fs)).
Proof.
  intros Ht Hj Hp Hi Hlen Hx Hfd Hne Hps -> Hlt Ho Hw.
  destruct (head_packet b t len (Zlen (concat (map payload ps))) x y z crc info fd crc0 cfg fs)
    as (name & Hn & Hh); try done; [split; [apply Zlen_nonneg|done]|].
  cbn [feed]. rewrite (bind_step _ _ _ _ _ Hh).
  rewrite (bind_step _ _ _ _ _ (feed_run ps
    (receiving (Zlen (concat (map payload ps))) 0 fd name crc) cfg fs (update_path info) [] fs Hne Hps
    ltac:(by right) Hn Ho Hw eq_refl eq_refl eq_refl ltac:(done)
    ltac:(cbn [recv_len datalen receiving]; unfold INT_MAX in Hlt; lia))).
  reflexivity.
Qed.

(** A head, and its seven bytes over two packets; the announced CRC is wrong. *)
Definition demo_head : bytes :=
  map (fun c => if c =? 39 then 34 else c)
    (cs "{'msgtype':130,'packcnt':2,'packinfo':{'len':7,'crc':1,'version':2,'buildinfo':'app'}}").

Lemma update_received_witness :
  (soft_crc32 (cs "ABCDEFG") 0 <> 1) /\
  feed [(demo_head ++ [0; 0], 86); (cs "ABCDE" ++ [0], 5); (cs "FG" ++ [0; 0], 2)]
    (Client (idle 0 9) init_ele_ds_cfg witness_fs) =
    Ok ([1; 2; 0],
        Client (idle (-1) 1) init_ele_ds_cfg
          (set_files <[cs "/sysfile/soft/update/app" := cs "ABCDEFG"]> witness_fs)).
Proof.
  split; [vm_compute; discriminate|].
  apply (update_received (demo_head ++ [0; 0]) demo_head 86 7 (f64_of_Z 1) (f64_of_Z 2) (f64_of_Z 2) 1
    (cs "app") 0 9 [(cs "ABCDE" ++ [0], 5); (cs "FG" ++ [0; 0], 2)]);
    (done || lia || (apply (bool_decide_unpack _); vm_compute; exact I) || (vm_compute; reflexivity) || idtac).
Defined.

(** *** A fresh device has no place for an update *)

(** What the start-up makes on a flash that was just formatted: one directory, and no file but
    the configuration. *)
Definition bare (path : bytes) (fs : fsys) : Prop :=
  fs_dirs fs = [comps SYSFILE_PATH] /\ fs_files fs !! path = None.

Lemma bare_open path p fl fs r fs' :
  path <> p -> bare path fs -> open_ p fl fs = Ok (r, fs') -> bare path fs'.
Proof.
  intros Hp [Hd Hf]. unfold open_. repeat case_match; intros [= <- <-]; split; simpl;
    rewrite ?lookup_insert_ne by done; done.
Qed.
Lemma bare_write path fd d fs r fs' : bare path fs -> write_ fd d fs = Ok (r, fs') -> bare path fs'.
Proof.
  intros [Hd Hf]. unfold write_. destruct (fs_fds fs !! fd) as [x|]; [|by intros [= <- <-]].
  destruct (fs_files fs !! fd_path x) as [c|] eqn:E; [|by intros [= <- <-]].
  destruct (write_ok _ _); intros [= <- <-]; [|done]. split; [done|]. simpl.
  rewrite lookup_insert_ne; [done|]. congruence.
Qed.
Lemma bare_close path fd fs r fs' : bare path fs -> close_ fd fs = Ok (r, fs') -> bare path fs'.
Proof. intros H. unfold close_. destruct (fs_fds fs !! fd); by intros [= <- <-]. Qed.

Lemma bare_write_cfg path cfg fs r fs' :
  path <> CONFIG_FILE_PATH -> bare path fs -> write_ele_ds_cfg cfg fs = Ok (r, fs') -> bare path fs'.
Proof.
  intros Hp Hb. unfold write_ele_ds_cfg, lift, mbind, M_bind. destruct (ele_ds_cfg_to_json cfg) as [j|]; [|done].
  destruct (open_ _ _ fs) as [[fd fs1]|] eqn:E1; [|done]. apply bare_open with (path := path) in E1; [|done..].
  destruct (fd <? 0); [by intros [= <- <-]|]. destruct (of_option _ _) as [t|]; [|done].
  destruct (write_ fd t fs1) as [[n fs2]|] eqn:E2; [|done]. apply bare_write with (path := path) in E2; [|done].
  destruct (close_ fd fs2) as [[x fs3]|] eqn:E3; [|done]. apply bare_close with (path := path) in E3; [|done].
  by intros [= <- <-].
Qed.

Lemma bare_boot mount1 cfg fs r fs' path :
  mount1 <> 0 -> path <> CONFIG_FILE_PATH -> mnt_init mount1 cfg fs = Ok (r, fs') -> bare path fs'.
Proof.
  intros Hm Hp. unfold mnt_init. rewrite (proj2 (Z.eqb_neq _ _)) by done.
  assert (dfs_mkfs fs = Ok (tt, Fsys ∅ [] (fs_fds fs) (fs_env fs))) as E by done.
  rewrite (bind_step _ _ _ _ _ E).
  set (f0 := Fsys ∅ [] (fs_fds fs) (fs_env fs)).
  set (f1 := Fsys ∅ [comps SYSFILE_PATH] (fs_fds fs) (fs_env fs)).
  assert (bare path f1) as Hb by (split; [done|apply lookup_empty]).
  assert (sysfile_init cfg f0 = (r0 ← init_cfgfile; mret (0, r0.2)) f1) as Es.
  { unfold sysfile_init. rewrite (bind_step _ _ f0 (-1) f0) by done.
    change (-1 =? -1) with true. cbv iota. by rewrite (bind_step _ _ f0 0 f1). }
  unfold mbind at 1, M_bind at 1. rewrite Es.
  unfold init_cfgfile, mbind, M_bind.
  destruct (write_ele_ds_cfg init_ele_ds_cfg f1) as [[x f2]|] eqn:Ew; [|done].
  apply bare_write_cfg with (path := path) in Ew; [|done..]. by intros [= <- <-].
Qed.

(** The update is stored under [/sysfile/soft/update], but the start-up makes only [/sysfile]: on a
    device whose flash has just been formatted the first packet of every update fails. *)
Theorem update_dir_missing mount1 cfg fs r fs' info b len i cfg' :
  mount1 <> 0 -> mnt_init mount1 cfg fs = Ok (r, fs') ->
  update_file_fd i <= 0 -> cstr (update_file_name i) = Ok (update_path info) ->
  write_update b len (Client i cfg' fs') = Ok (None, Client (set_fd (-1) i) cfg' fs').
Proof.
  intros Hm Hb Hi Hn.
  assert (update_path info <> CONFIG_FILE_PATH) as Hp by done.
  destruct (bare_boot _ _ _ _ _ _ Hm Hp Hb) as [Hd Hf].
  assert (can_create fs' (update_path info) = false) as Hc.
  { unfold can_create. apply andb_false_iff. left. apply bool_decide_eq_false_2. rewrite Hd.
    unfold update_path, UPDATE_DIR. change (cs "/" ++ take 31 info) with (47 :: take 31 info).
    rewrite comps_slash. change (comps (cs "/sysfile/soft/update")) with [cs "sysfile"; cs "soft"; cs "update"].
    unfold parent. change (comps SYSFILE_PATH) with [cs "sysfile"]. cbn [app removelast].
    destruct (comps (take 31 info)); intros [|[|[]%not_elem_of_nil]%elem_of_cons]; done. }
  unfold write_update. rewrite info_step. cbn [recv_info].
  destruct (Z.leb_spec (update_file_fd i) 0); [|lia].
  rewrite (bind_step _ _ _ (-1) (Client (set_fd (-1) i) cfg' fs')); [done|].
  rewrite (lift_step _ _ _ _ Hn).
  assert (open_ (update_path info) O_WRCT_flags fs' = Ok (-1, fs')) as Eo.
  { unfold open_. rewrite Hf, Hc. by destruct (open_ok _ _). }
  by rewrite (on_fs_step _ _ (Client i cfg' fs') _ _ Eo).
Qed.

Lemma update_dir_missing_witness :
  let fs := Fsys ∅ [] ∅ (Fsenv (fun _ => true) (fun _ => false)) in
  let i := RecvInfo CRS_DATA EMT_SERVERMSG_CLIENTUPDATE 3 0 0 (update_path (cs "app") ++ zeros 20) 0 in
  exists r fs', mnt_init (-1) init_ele_ds_cfg fs = Ok (r, fs') /\
    write_update (cs "ABC") 3 (Client i init_ele_ds_cfg fs') = Ok (None, Client (set_fd (-1) i) init_ele_ds_cfg fs').
Proof.
  intros fs i.
  assert (is_ok (mnt_init (-1) init_ele_ds_cfg fs) = true) as Hok by (vm_compute; reflexivity).
  destruct (mnt_init (-1) init_ele_ds_cfg fs) as [[r fs']|] eqn:E; [|discriminate].
  exists r, fs'. split; [reflexivity|].
  apply (update_dir_missing (-1) init_ele_ds_cfg fs r fs' (cs "app")); [discriminate|exact E|discriminate|vm_compute; reflexivity].
Defined.

(** ** What the receive path does not check *)

(** A head that arrives behind a longer packet is refused: [buffer] is used as a C string,
    but only the bytes received are written to it, so that the last bytes [z] of the earlier
    packet follow the head.  The answer is the one for garbage, and the head is lost. *)
Theorem stale_bytes_hide_head t z junk fd crc0 cfg fs :
  Forall cchar t -> is_json t (Zlen t) = Ok true -> Forall cchar z -> z <> [] ->
  last z <> Some chr_rbrace -> last z <> Some chr_rbracket ->
  parse_recv_data (t ++ z ++ 0 :: junk) (Zlen t) (Client (idle fd crc0) cfg fs) =
    Ok (-1, Client (idle fd crc0) cfg fs).
Proof.
  intros Ht Hj Hz Hne H1 H2.
  assert (2 <= Zlen t) as Hl.
  { destruct (Z.ltb_spec (Zlen t) 2) as [E|]; [|done]. unfold is_json in Hj.
    by rewrite (proj2 (Z.ltb_lt _ _) E) in Hj. }
  assert (cstr (t ++ z ++ 0 :: junk) = Ok (t ++ z)) as Hc.
  { rewrite app_assoc. apply cstr_app. apply Forall_app. split;
      (eapply Forall_impl; [eassumption|]); unfold cchar; lia. }
  destruct z as [|e z _] using rev_ind; [done|]. rewrite last_snoc in H1, H2.
  set (b := t ++ (z ++ [e]) ++ 0 :: junk) in *.
  assert (aget b (Zlen (t ++ z ++ [e]) - 1) = Ok e) as He.
  { apply aget_Ok. unfold Zlen in Hl |- *. rewrite !length_app. simpl length. split; [lia|]. unfold b.
    rewrite <- app_assoc, app_assoc. apply list_lookup_middle. rewrite length_app. lia. }
  assert (is_json b (Zlen (t ++ z ++ [e])) = Ok false) as Hf.
  { unfold is_json. destruct (Z.ltb_spec (Zlen (t ++ z ++ [e])) 2) as [|Hb]; [done|].
    destruct (aget_in b 0) as [a Ea].
    { split; [lia|]. unfold b. rewrite Zlen_app. pose proof (Zlen_nonneg ((z ++ [e]) ++ 0 :: junk)). lia. }
    rewrite Ea, !ok_bind, He, !ok_bind.
    destruct (a =? chr_lbrace); [f_equal; apply Z.eqb_neq; congruence|].
    destruct (a =? chr_lbracket); [f_equal; apply Z.eqb_neq; congruence|done]. }
  unfold parse_recv_data. destruct (Z.leb_spec (Zlen t) 0); [lia|].
  assert (parse_turn b (Zlen t) (Client (idle fd crc0) cfg fs) = Ok (inl (-1), Client (idle fd crc0) cfg fs)) as E.
  { unfold parse_turn, turn_none. rewrite info_step. cbn [recv_info idle recv_state].
    rewrite (lift_step _ _ _ (Zlen (t ++ z ++ [e]))) by (unfold strlen; by rewrite Hc).
    rewrite (lift_step _ _ _ _ Hf). reflexivity. }
  by rewrite (parse_loop_step _ _ _ (Client (idle fd crc0) cfg fs) _ _ ltac:(discriminate) E).
Qed.

Lemma stale_bytes_hide_head_witness :
  parse_recv_data (demo_head ++ cs "ABC" ++ [0; 0]) 86 (Client (idle (-1) 1) init_ele_ds_cfg witness_fs) =
    Ok (-1, Client (idle (-1) 1) init_ele_ds_cfg witness_fs).
Proof.
  assert (Zlen demo_head = 86) as <- by (vm_compute; reflexivity).
  apply (stale_bytes_hide_head demo_head (cs "ABC") [0]);
    (discriminate || (vm_compute; reflexivity) || (apply (bool_decide_unpack _); vm_compute; exact I)).
Defined.

(** A weather message writes past the seven days of the configuration as soon as the server
    sends more bytes than they hold: the copy is bounded by neither the announced length nor
    the size of [weather_info]. *)
Theorem weather_overflows b len i cfg fs :
  recv_state i = CRS_DATA -> curparse_type i = EMT_SERVERMSG_WEATHER -> 0 < datalen i ->
  0 < len <= Zlen b -> Zlen (weather_info cfg) = sizeof_weather -> sizeof_weather < recv_len i + len ->
  parse_recv_data b len (Client i cfg fs) = Err OutOfBounds.
Proof.
  intros Hst Hty Hd Hlen Hw Hov. unfold parse_recv_data. destruct (Z.leb_spec len 0); [lia|].
  cbn [parse_loop]. rewrite info_step. cbn [recv_info]. rewrite bool_decide_eq_false_2 by (by rewrite Hst).
  assert (slice b 0 len = Ok (take (Z.to_nat len) b)) as Es by (unfold slice; by rewrite decide_True by lia).
  assert (Zlen (take (Z.to_nat len) b) = len) as El by (unfold Zlen in *; rewrite length_take; lia).
  assert (blit (weather_info cfg) (recv_len i) (take (Z.to_nat len) b) = Err OutOfBounds) as Eb.
  { unfold blit. rewrite decide_False; [done|]. rewrite El, Hw. lia. }
  unfold parse_turn. unfold mbind at 1, M_bind at 1. rewrite info_step. cbn [recv_info]. rewrite Hst.
  unfold turn_data. rewrite info_step. cbn [recv_info]. rewrite Hty.
  destruct (Z.ltb_spec 0 (datalen i)); [|lia]. rewrite Z.eqb_refl.
  rewrite (bind_step (gets device_cfg) _ _ _ _ eq_refl), (lift_step _ _ _ _ Es). cbn [device_cfg].
  unfold mbind, M_bind, lift. by rewrite Eb.
Qed.

Lemma weather_overflows_witness :
  parse_recv_data (zeros 1177) 1177
    (Client (RecvInfo CRS_DATA EMT_SERVERMSG_WEATHER 1177 0 0 (zeros 256) 0) init_ele_ds_cfg witness_fs) =
    Err OutOfBounds.
Proof.
  apply (weather_overflows (zeros 1177) 1177
    (RecvInfo CRS_DATA EMT_SERVERMSG_WEATHER 1177 0 0 (zeros 256) 0)).
  - reflexivity.
  - reflexivity.
  - reflexivity.
  - split; [reflexivity|]. vm_compute. discriminate.
  - vm_compute. reflexivity.
  - reflexivity.
Defined.
