(* ===== verification/Microtar.v ===== *)
(** The tar reader and writer: [applications/microtar/microtar.c].

    A raw header is the 512-byte record itself, not a record of fields: [sprintf], [sscanf]
    and [strcpy] run over the flat bytes, so that a field that overflows or lacks its NUL
    behaves as it does in memory.  The archive is a stream (descriptor) of [Posix]. *)

From S2P Require Import Prelude Posix.
#[local] Open Scope Z_scope.

(** ** Data *)

Definition MTAR_ESUCCESS := 0.
Definition MTAR_EFAILURE := -1.
Definition MTAR_EOPENFAIL := -2.
Definition MTAR_EREADFAIL := -3.
Definition MTAR_EWRITEFAIL := -4.
Definition MTAR_ESEEKFAIL := -5.
Definition MTAR_EBADCHKSUM := -6.
Definition MTAR_ENULLRECORD := -7.
Definition MTAR_ENOTFOUND := -8.

Definition MTAR_TREG := 48.
Definition MTAR_TDIR := 53.

(** A number [sscanf] did not assign stays [None]: an uninitialised variable. *)
Record mtar_header_t := MtarHeader {
  h_mode : option Z;
  h_owner : option Z;
  h_size : option Z;
  h_mtime : option Z;
  h_type : Z;
  h_name : bytes;
  h_linkname : bytes;
}.

Definition header_uninit : mtar_header_t := MtarHeader None None None None 0 [] [].

Record mtar_t := Mtar {
  stream : Z;
  pos : Z;
  remaining_data : Z;
  last_header : Z;
}.

(** [offsetof] in [mtar_raw_header_t], and its size. *)
Definition o_name := 0.
Definition o_mode := 100.
Definition o_owner := 108.
Definition o_size := 124.
Definition o_mtime := 136.
Definition o_checksum := 148.
Definition o_type := 156.
Definition o_linkname := 157.
Definition sizeof_raw := 512.

(** [char name[100]] and [char linkname[100]] of [mtar_header_t]. *)
Definition sizeof_name := 100.

(** ** Octal numbers: [sprintf("%o")], [sscanf("%o")] *)

Fixpoint oct_digits (fuel : nat) (n : Z) : bytes :=
  match fuel with
  | O => []
  | S fuel => (if n <? 8 then [] else oct_digits fuel (n / 8)) ++ [48 + n mod 8]
  end.

(** Eleven digits are enough for 32 bits. *)
Definition sprintf_o (n : Z) : bytes := oct_digits 11 n.
Definition sprintf_06o (n : Z) : bytes :=
  let s := sprintf_o n in replicate (6 - length s) 48 ++ s.

Definition isspace (c : Z) : bool := (c =? 32) || ((9 <=? c) && (c <=? 13)).
Definition is_oct (c : Z) : bool := (48 <=? c) && (c <=? 55).

Fixpoint skip_space (s : bytes) : bytes :=
  match s with
  | c :: s' => if isspace c then skip_space s' else s
  | [] => []
  end.

Fixpoint take_oct (acc : Z) (s : bytes) : Z :=
  match s with
  | c :: s => if is_oct c then take_oct (acc * 8 + (c - 48)) s else acc
  | [] => acc
  end.

(** The value assigned, [None] when the input has no digits; a number of more than 32 bits
    is outside what [sscanf] documents. *)
Definition sscanf_o (s : bytes) : res (option Z) :=
  let s := skip_space s in
  let neg := match s with 45 :: _ => true | _ => false end in
  let s := match s with 45 :: s' | 43 :: s' => s' | _ => s end in
  match s with
  | c :: _ =>
      if is_oct c then
        let v := take_oct 0 s in
        if v <? 2 ^ 32 then Ok (Some (if neg : bool then u32 (- v) else v))
        else Err Unspecified
      else Ok None
  | [] => Ok None
  end.

(** ** Header records *)

(** [round_up]: [incr] is not 0 at any call. *)
Definition round_up (n incr : Z) : Z := u32 (n + u32 (incr - n mod incr) mod incr).

Definition sum_bytes (acc : Z) (l : bytes) : Z := fold_left (fun r b => u32 (r + b)) l acc.

(** [checksum]: the two loops, before the checksum field and from the type field on. *)
Definition checksum (rh : bytes) : Z :=
  sum_bytes (sum_bytes 256 (take (Z.to_nat o_checksum) rh)) (drop (Z.to_nat o_type) rh).

Definition raw_str (rh : bytes) (off : Z) : res bytes := cstr (drop (Z.to_nat off) rh).

(** [sscanf(rh->field, "%o", &h->field)] over the previous value [old]. *)
Definition scan_field (rh : bytes) (off : Z) (old : option Z) : res (option Z) :=
  s ← raw_str rh off; v ← sscanf_o s; Ok (match v with Some _ => v | None => old end).

(** [strcpy(h->name, rh->name)] into a buffer of 100 bytes. *)
Definition copy_name (rh : bytes) (off : Z) : res bytes :=
  s ← raw_str rh off; if Zlen s <? sizeof_name then Ok s else Err OutOfBounds.

Definition raw_to_header (h : mtar_header_t) (rh : bytes) : res (Z * mtar_header_t) :=
  c0 ← aget rh o_checksum;
  if c0 =? 0 then Ok (MTAR_ENULLRECORD, h) else
  let chksum1 := checksum rh in
  v ← scan_field rh o_checksum None;
  chksum2 ← of_option Uninit v;
  if negb (chksum1 =? chksum2) then Ok (MTAR_EBADCHKSUM, h) else
  mode ← scan_field rh o_mode (h_mode h);
  owner ← scan_field rh o_owner (h_owner h);
  size ← scan_field rh o_size (h_size h);
  mtime ← scan_field rh o_mtime (h_mtime h);
  type ← aget rh o_type;
  name ← copy_name rh o_name;
  linkname ← copy_name rh o_linkname;
  Ok (MTAR_ESUCCESS, MtarHeader mode owner size mtime type name linkname).

(** [sprintf(rh->field, fmt, v)] and [strcpy(rh->field, s)]: the text and its NUL. *)
Definition put_str (rh : bytes) (off : Z) (s : bytes) : res bytes := blit rh off (s ++ [0]).

Definition header_to_raw (h : mtar_header_t) : res bytes :=
  mode ← of_option Uninit (h_mode h);
  owner ← of_option Uninit (h_owner h);
  size ← of_option Uninit (h_size h);
  mtime ← of_option Uninit (h_mtime h);
  let rh := replicate (Z.to_nat sizeof_raw) 0 in
  rh ← put_str rh o_mode (sprintf_o mode);
  rh ← put_str rh o_owner (sprintf_o owner);
  rh ← put_str rh o_size (sprintf_o size);
  rh ← put_str rh o_mtime (sprintf_o mtime);
  rh ← aset rh o_type (u8 (if h_type h =? 0 then MTAR_TREG else h_type h));
  rh ← put_str rh o_name (h_name h);
  rh ← put_str rh o_linkname (h_linkname h);
  rh ← put_str rh o_checksum (sprintf_06o (checksum rh));
  aset rh (o_checksum + 7) 32.

Definition mtar_strerror (err : Z) : string :=
  if err =? MTAR_ESUCCESS then "success"
  else if err =? MTAR_EFAILURE then "failure"
  else if err =? MTAR_EOPENFAIL then "could not open"
  else if err =? MTAR_EREADFAIL then "could not read"
  else if err =? MTAR_EWRITEFAIL then "could not write"
  else if err =? MTAR_ESEEKFAIL then "could not seek"
  else if err =? MTAR_EBADCHKSUM then "bad checksum"
  else if err =? MTAR_ENULLRECORD then "null record"
  else if err =? MTAR_ENOTFOUND then "file not found"
  else "unknown error".

(** ** Streams *)

Record mst := Mst { tar : mtar_t; tfs : fsys }.

Definition on_fs {A} (m : M fsys A) : M mst A := fun s =>
  match m (tfs s) with Ok (a, fs) => Ok (a, Mst (tar s) fs) | Err f => Err f end.
Definition set_tar (g : mtar_t -> mtar_t) : M mst unit := modify (fun s => Mst (g (tar s)) (tfs s)).
Definition set_pos (p : Z) : M mst unit :=
  set_tar (fun t => Mtar (stream t) p (remaining_data t) (last_header t)).
Definition set_remaining (r : Z) : M mst unit :=
  set_tar (fun t => Mtar (stream t) (pos t) r (last_header t)).
Definition set_last (l : Z) : M mst unit :=
  set_tar (fun t => Mtar (stream t) (pos t) (remaining_data t) l).

Definition file_write (data : bytes) : M mst Z :=
  t ← gets tar;
  res ← on_fs (write_ (stream t) data);
  mret (if res =? Zlen data then MTAR_ESUCCESS else MTAR_EWRITEFAIL).

Definition file_read (size : Z) : M mst (Z * bytes) :=
  t ← gets tar;
  r ← on_fs (read_ (stream t) size);
  mret (if r.1 =? size then MTAR_ESUCCESS else MTAR_EREADFAIL, r.2).

(** [fseek] takes a signed 32-bit offset. *)
Definition file_seek (offset : Z) : M mst Z :=
  t ← gets tar;
  res ← on_fs (lseek_ (stream t) (i32 offset) SEEK_SET);
  mret (if 0 <=? res then MTAR_ESUCCESS else MTAR_ESEEKFAIL).

Definition file_close : M mst Z :=
  t ← gets tar;
  _ ← on_fs (close_ (stream t));
  mret MTAR_ESUCCESS.

Definition tread (size : Z) : M mst (Z * bytes) :=
  r ← file_read size;
  t ← gets tar;
  _ ← set_pos (u32 (pos t + size));
  mret r.

Definition twrite (data : bytes) : M mst Z :=
  err ← file_write data;
  t ← gets tar;
  _ ← set_pos (u32 (pos t + Zlen data));
  mret err.

Fixpoint write_null_bytes (n : nat) : M mst Z :=
  match n with
  | O => mret MTAR_ESUCCESS
  | S n =>
      err ← twrite [0];
      if negb (err =? 0) then mret err else write_null_bytes n
  end.

Definition mtar_close : M mst Z := file_close.

Definition mtar_seek (p : Z) : M mst Z :=
  err ← file_seek p;
  _ ← set_pos p;
  mret err.

Definition mtar_rewind : M mst Z :=
  _ ← set_remaining 0;
  _ ← set_last 0;
  mtar_seek 0.

(** [mtar_read_header(tar, h)]: [h] is the caller's variable before and after. *)
Definition mtar_read_header (h : mtar_header_t) : M mst (Z * mtar_header_t) :=
  t ← gets tar;
  _ ← set_last (pos t);
  r ← tread sizeof_raw;
  if negb (r.1 =? 0) then mret (r.1, h) else
  t ← gets tar;
  err ← mtar_seek (last_header t);
  if negb (err =? 0) then mret (err, h) else
  lift (raw_to_header h r.2).

Definition header_size (h : mtar_header_t) : M mst Z := lift (of_option Uninit (h_size h)).

(** [n] is an [int]; adding it to the unsigned position is again modulo 2^32. *)
Definition mtar_next : M mst Z :=
  r ← mtar_read_header header_uninit;
  if negb (r.1 =? 0) then mret r.1 else
  size ← header_size r.2;
  let n := i32 (round_up size 512 + sizeof_raw) in
  t ← gets tar;
  mtar_seek (u32 (pos t + n)).

Fixpoint mtar_find_loop (fuel : nat) (name : bytes) (header : mtar_header_t)
    : M mst (Z * option mtar_header_t) :=
  match fuel with
  | O => throw Spin
  | S fuel =>
      r ← mtar_read_header header;
      if r.1 =? MTAR_ESUCCESS then
        if decide (h_name r.2 = name) then mret (MTAR_ESUCCESS, Some r.2)
        else mtar_next ;;; mtar_find_loop fuel name r.2
      else mret (if r.1 =? MTAR_ENULLRECORD then MTAR_ENOTFOUND else r.1, None)
  end.

(** [mtar_find]: the header found, when [h] is not NULL. *)
Definition mtar_find (fuel : nat) (name : bytes) : M mst (Z * option mtar_header_t) :=
  err ← mtar_rewind;
  if negb (err =? 0) then mret (err, None) else mtar_find_loop fuel name header_uninit.

(** Reading from the start of a record: where the header has just been read. *)
Definition mtar_read_data (size : Z) : M mst (Z * bytes) :=
  t ← gets tar;
  err ← (if remaining_data t =? 0 then
           r ← mtar_read_header header_uninit;
           if negb (r.1 =? 0) then mret r.1 else
           t ← gets tar;
           err ← mtar_seek (u32 (pos t + sizeof_raw));
           if negb (err =? 0) then mret err else
           size ← header_size r.2;
           _ ← set_remaining size;
           mret 0
         else mret 0);
  if negb (err =? 0) then mret (err, []) else
  r ← tread size;
  if negb (r.1 =? 0) then mret (r.1, []) else
  t ← gets tar;
  _ ← set_remaining (u32 (remaining_data t - size));
  t ← gets tar;
  if remaining_data t =? 0 then
    err ← mtar_seek (last_header t);
    mret (err, r.2)
  else mret (MTAR_ESUCCESS, r.2).

(** [mtar_skip_data], at most [fuel] blocks. *)
Fixpoint mtar_skip_data (fuel : nat) (remaining : Z) : M mst Z :=
  match fuel with
  | O => throw Spin
  | S fuel =>
      if 0 <? remaining then
        let to_read := if 512 <? remaining then 512 else remaining in
        r ← mtar_read_data to_read;
        if negb (r.1 =? MTAR_ESUCCESS) then mret r.1
        else mtar_skip_data fuel (remaining - to_read)
      else mret MTAR_ESUCCESS
  end.

Definition mtar_write_header (h : mtar_header_t) : M mst Z :=
  rh ← lift (header_to_raw h);
  size ← header_size h;
  _ ← set_remaining size;
  twrite rh.

Definition file_header (name : bytes) (size : Z) : mtar_header_t :=
  MtarHeader (Some 436) (Some 0) (Some size) (Some 0) MTAR_TREG name [].
Definition dir_header (name : bytes) : mtar_header_t :=
  MtarHeader (Some 509) (Some 0) (Some 0) (Some 0) MTAR_TDIR name [].

(** [strcpy(h.name, name)] into the header's 100 bytes. *)
Definition name_fits (name : bytes) : M mst unit :=
  if Zlen name <? sizeof_name then mret tt else throw OutOfBounds.

Definition mtar_write_file_header (name : bytes) (size : Z) : M mst Z :=
  name_fits name ;;; mtar_write_header (file_header name size).
Definition mtar_write_dir_header (name : bytes) : M mst Z :=
  name_fits name ;;; mtar_write_header (dir_header name).

Definition mtar_write_data (data : bytes) : M mst Z :=
  err ← twrite data;
  if negb (err =? 0) then mret err else
  t ← gets tar;
  _ ← set_remaining (u32 (remaining_data t - Zlen data));
  t ← gets tar;
  if remaining_data t =? 0 then
    write_null_bytes (Z.to_nat (i32 (round_up (pos t) 512 - pos t)))
  else mret MTAR_ESUCCESS.

Definition mtar_finalize : M mst Z := write_null_bytes (Z.to_nat (sizeof_raw * 2)).

(** [fopen] with the three modes [mtar_open] can pass; [None] is NULL. *)
Inductive fmode := ModeR | ModeW | ModeA.

Definition fopen_ (path : bytes) (mode : fmode) : M fsys (option Z) :=
  fd ← open_ path (match mode with
                   | ModeR => O_RDONLY_flags
                   | ModeW => O_WRCT_flags
                   | ModeA => Oflags true false
                   end);
  if fd <? 0 then mret None else
  _ ← (match mode with ModeA => lseek_ fd 0 SEEK_END | _ => mret 0 end);
  mret (Some fd).

(** The three [strchr] tests; each replaces the mode by a literal the later ones see. *)
Definition mtar_mode (mode : bytes) : option fmode :=
  let m := if decide (114 ∈ mode) then Some ModeR else None in
  let has c := match m with Some _ => false | None => bool_decide (c ∈ mode) end in
  let m := if has 119 then Some ModeW else m in
  if match m with Some _ => false | None => bool_decide (97 ∈ mode) end then Some ModeA else m.

Definition mtar_open (filename mode : bytes) : M mst Z :=
  _ ← set_tar (fun _ => Mtar 0 0 0 0);
  match mtar_mode mode with
  | None => mret MTAR_EOPENFAIL
  | Some m =>
      s ← on_fs (fopen_ filename m);
      match s with
      | None => mret MTAR_EOPENFAIL
      | Some fd =>
          _ ← set_tar (fun _ => Mtar fd 0 0 0);
          match m with
          | ModeR =>
              r ← mtar_read_header header_uninit;
              if negb (r.1 =? MTAR_ESUCCESS) then mtar_close ;;; mret r.1
              else mret MTAR_ESUCCESS
          | _ => mret MTAR_ESUCCESS
          end
      end
  end.

(** ** Octal round trip *)

Lemma oct_digits_oct fuel n : 0 <= n -> forallb is_oct (oct_digits fuel n) = true.
Proof.
  revert n. induction fuel as [|fuel IH]; intros n Hn; [done|]. simpl.
  rewrite forallb_app. apply andb_true_iff. split.
  - destruct (n <? 8); [done|]. apply IH. zlia.
  - unfold is_oct. simpl. rewrite andb_true_r. apply andb_true_iff. split; apply Z.leb_le; zlia.
Qed.

Lemma take_oct_app acc s1 s2 :
  forallb is_oct s1 = true -> take_oct acc (s1 ++ s2) = take_oct (take_oct acc s1) s2.
Proof.
  revert acc. induction s1 as [|c s1 IH]; intros acc; [done|]. simpl.
  intros [-> Hs]%andb_true_iff. by apply IH.
Qed.

Lemma take_oct_digits fuel n : 0 <= n < 8 ^ Z.of_nat fuel -> take_oct 0 (oct_digits fuel n) = n.
Proof.
  revert n. induction fuel as [|fuel IH]; intros n Hn; [simpl in *; lia|].
  rewrite Nat2Z.inj_succ, Z.pow_succ_r in Hn by lia. cbn [oct_digits].
  assert (is_oct (48 + n mod 8) = true) as Hd.
  { unfold is_oct. apply andb_true_iff. split; apply Z.leb_le; zlia. }
  rewrite take_oct_app.
  - cbn [take_oct]. rewrite Hd. destruct (Z.ltb_spec n 8).
    + simpl. zlia.
    + rewrite IH; zlia.
  - destruct (n <? 8); [done|]. apply oct_digits_oct. zlia.
Qed.

Lemma oct_digits_length fuel n k :
  (0 < k <= fuel)%nat -> 0 <= n < 8 ^ Z.of_nat k ->
  (0 < length (oct_digits fuel n) <= k)%nat.
Proof.
  revert n k. induction fuel as [|fuel IH]; intros n k Hk Hn; [lia|].
  simpl. rewrite length_app. simpl. destruct (Z.ltb_spec n 8); simpl; [lia|].
  destruct k as [|[|k]]; [lia|simpl in Hn; lia|].
  rewrite Nat2Z.inj_succ, Z.pow_succ_r in Hn by lia.
  destruct (IH (n / 8) (S k)); [lia|zlia|]. lia.
Qed.

Lemma replicate_zero_oct k : forallb is_oct (replicate k 48) = true.
Proof. by induction k. Qed.

Lemma take_oct_zeros k : take_oct 0 (replicate k 48) = 0.
Proof. by induction k. Qed.

(** Scanning back a printed number, with any number of leading zeros. *)
Lemma sscanf_sprintf k n : fits 32 n -> sscanf_o (replicate k 48 ++ sprintf_o n) = Ok (Some n).
Proof.
  intros Hn. unfold fits in Hn.
  assert (0 <= n < 8 ^ Z.of_nat 11) as Hn8 by (simpl; lia).
  set (s := replicate k 48 ++ sprintf_o n).
  assert (forallb is_oct s = true) as Ho.
  { unfold s. rewrite forallb_app, replicate_zero_oct. simpl. apply oct_digits_oct; lia. }
  assert (take_oct 0 s = n) as Hv.
  { unfold s. rewrite take_oct_app by apply replicate_zero_oct. rewrite take_oct_zeros.
    by apply take_oct_digits. }
  assert (0 < length s)%nat as Hl.
  { unfold s. rewrite length_app. destruct (oct_digits_length 11 n 11); [lia|done|].
    unfold sprintf_o. lia. }
  clearbody s. destruct s as [|c s']; [simpl in Hl; lia|].
  unfold sscanf_o. simpl in Ho. apply andb_true_iff in Ho as [Hc Hs'].
  assert (isspace c = false) as Hsp.
  { unfold is_oct, isspace in *. apply andb_true_iff in Hc as [?%Z.leb_le ?%Z.leb_le].
    apply orb_false_iff. split; [apply Z.eqb_neq; lia|].
    apply andb_false_iff. right. apply Z.leb_gt. lia. }
  cbn [skip_space]. rewrite Hsp. unfold is_oct in Hc.
  apply andb_true_iff in Hc as [H1%Z.leb_le H2%Z.leb_le].
  assert (c = 48 \/ c = 49 \/ c = 50 \/ c = 51 \/ c = 52 \/ c = 53 \/ c = 54 \/ c = 55) as Hd
    by lia.
  destruct (Z.ltb_spec (take_oct 0 (c :: s')) (2 ^ 32)) as [Hlt|Hge]; [|lia].
  apply Z.ltb_lt in Hlt.
  repeat destruct Hd as [Hd|Hd]; subst c; cbv beta iota zeta delta [is_oct];
    simpl (_ && _); cbv iota; rewrite Hlt, Hv; done.
Qed.

(** ** The record as a concatenation of fields *)

Definition fld (n : nat) (s : bytes) : bytes := s ++ replicate (n - length s) 0.

Lemma fld_length n s : (length s <= n)%nat -> length (fld n s) = n.
Proof. intros. unfold fld. rewrite length_app, length_replicate. lia. Qed.

#[local] Arguments fld : simpl never.
#[local] Arguments sprintf_o : simpl never.

Definition no_nul (s : bytes) : Prop := Forall (fun b => b <> 0) s.

Lemma put_fld (l1 l2 : list bytes) n s off :
  off = Zlen (concat l1) -> (length s < n)%nat ->
  put_str (concat (l1 ++ fld n [] :: l2)) off s = Ok (concat (l1 ++ fld n s :: l2)).
Proof.
  intros -> Hs. unfold put_str, fld. rewrite !concat_app. simpl. rewrite Nat.sub_0_r.
  rewrite blit_in by (unfold Zlen; rewrite ?length_app, ?length_replicate; simpl; lia).
  f_equal. unfold Zlen. rewrite Nat2Z.id, length_app. simpl.
  replace (n - length s)%nat with (S (n - length s - 1)) by lia.
  rewrite take_app_length. f_equal. rewrite <- !app_assoc. f_equal. simpl. f_equal.
  rewrite <- drop_drop, drop_app_length, drop_app_le, drop_replicate
    by (rewrite length_replicate; lia).
  do 2 f_equal. lia.
Qed.

Lemma fld_str (l1 l2 : list bytes) n s off :
  off = Zlen (concat l1) -> (length s < n)%nat -> no_nul s ->
  raw_str (concat (l1 ++ fld n s :: l2)) off = Ok s.
Proof.
  intros -> Hs Hn. unfold raw_str, fld, Zlen. rewrite !concat_app, Nat2Z.id, drop_app_length.
  simpl. replace (n - length s)%nat with (S (n - length s - 1)) by lia. simpl.
  rewrite <- app_assoc. by apply cstr_app.
Qed.

Lemma scan_fld (l1 l2 : list bytes) n k v off old :
  off = Zlen (concat l1) -> fits 32 v -> (length (replicate k 48%Z ++ sprintf_o v) < n)%nat ->
  scan_field (concat (l1 ++ fld n (replicate k 48 ++ sprintf_o v) :: l2)) off old = Ok (Some v).
Proof.
  intros Ho Hv Hl. unfold scan_field. rewrite fld_str; [|done|done|].
  - cbn [mbind res_bind]. by rewrite sscanf_sprintf.
  - assert (forallb is_oct (replicate k 48 ++ sprintf_o v) = true) as H.
    { rewrite forallb_app, replicate_zero_oct. simpl. apply oct_digits_oct.
      unfold fits in Hv. lia. }
    rewrite forallb_forall in H. apply Forall_forall. intros b Hb%list_elem_of_In.
    specialize (H b Hb). unfold is_oct in H. apply andb_true_iff in H as [H%Z.leb_le _]. lia.
Qed.

Lemma copy_fld (l1 l2 : list bytes) s off :
  off = Zlen (concat l1) -> (length s < 100)%nat -> no_nul s ->
  copy_name (concat (l1 ++ fld 100 s :: l2)) off = Ok s.
Proof.
  intros Ho Hs Hn. unfold copy_name. rewrite fld_str by done. cbn [mbind res_bind].
  unfold sizeof_name, Zlen. by rewrite (proj2 (Z.ltb_lt _ _)) by lia.
Qed.

(** The record in front of and behind the checksum field. *)
Definition raw_front (h : Z * Z * Z * Z * bytes) : list bytes :=
  let '(mode, owner, size, mtime, name) := h in
  [fld 100 name; fld 8 (sprintf_o mode); fld 8 (sprintf_o owner); fld 8 [];
   fld 12 (sprintf_o size); fld 12 (sprintf_o mtime)].
Definition raw_back (type : Z) (linkname : bytes) : list bytes :=
  [[type]; fld 100 linkname; fld 255 []].

Definition ck_field (ck : Z) : bytes := sprintf_06o ck ++ [0; 32].

(** Headers whose numbers fit their fields and whose names fit theirs. *)
Definition header_ok (h : mtar_header_t) : Prop :=
  match h with
  | MtarHeader (Some mode) (Some owner) (Some size) (Some mtime) type name linkname =>
      0 <= mode < 8 ^ 7 /\ 0 <= owner < 8 ^ 7 /\ fits 32 size /\ fits 32 mtime /\
      0 < type < 256 /\ (length name < 100)%nat /\ (length linkname < 100)%nat /\
      all_bytes name /\ all_bytes linkname /\ no_nul name /\ no_nul linkname
  | _ => False
  end.
#[export] Instance header_ok_dec h : Decision (header_ok h).
Proof.
  unfold header_ok, no_nul.
  destruct h as [[] [] [] [] ? ? ?]; apply _.
Defined.

Lemma sprintf_len n k : (0 < k <= 11)%nat -> 0 <= n < 8 ^ Z.of_nat k ->
  (0 < length (sprintf_o n) <= k)%nat.
Proof. intros. by apply oct_digits_length. Qed.

Lemma sprintf_len32 n : fits 32 n -> (0 < length (sprintf_o n) <= 11)%nat.
Proof. intros [? ?]. apply (sprintf_len n 11); [lia|]. simpl. lia. Qed.

(** *** The checksum *)

Definition zsum (l : bytes) : Z := foldr Z.add 0 l.

Lemma sum_bytes_app acc l1 l2 : sum_bytes acc (l1 ++ l2) = sum_bytes (sum_bytes acc l1) l2.
Proof. apply fold_left_app. Qed.

Lemma sum_bytes_bound acc l :
  all_bytes l -> 0 <= acc -> acc + 255 * Zlen l < 2 ^ 32 ->
  sum_bytes acc l = acc + zsum l /\
  acc <= sum_bytes acc l <= acc + 255 * Zlen l.
Proof.
  intros Hl. revert acc. induction Hl as [|b l Hb Hl IH]; intros acc Hacc Hsum.
  { simpl. unfold Zlen. simpl. lia. }
  unfold is_byte in Hb. unfold sum_bytes in *. simpl.
  assert (Zlen (b :: l) = Zlen l + 1) as Hz by (unfold Zlen; simpl; lia).
  pose proof (Zlen_nonneg l). rewrite Hz in *. rewrite (wrap_small 32) by lia.
  destruct (IH (acc + b)) as [-> ?]; [lia|lia|]. simpl. lia.
Qed.

Lemma checksum_split (a b c : bytes) :
  length a = 148%nat -> length b = 8%nat ->
  checksum (a ++ b ++ c) = sum_bytes (sum_bytes 256 a) c.
Proof.
  intros Ha Hb. unfold checksum. change (Z.to_nat o_checksum) with 148%nat.
  change (Z.to_nat o_type) with 156%nat. f_equal.
  - f_equal. apply take_app_length'. done.
  - rewrite (app_assoc a). apply drop_app_length'. rewrite length_app. lia.
Qed.

(** Two records that differ in one byte outside the checksum field have different sums. *)
Lemma checksum_differs (a b c : bytes) i x y :
  length a = 148%nat -> length b = 8%nat -> length c = 356%nat ->
  all_bytes a -> all_bytes c -> is_byte y -> (i < 148 \/ 156 <= i)%nat ->
  (a ++ b ++ c) !! i = Some x -> x <> y ->
  checksum (<[i := y]> (a ++ b ++ c)) <> checksum (a ++ b ++ c).
Proof.
  intros Ha Hb Hc Hba Hbc Hy Hi Hx Hne.
  assert (forall l j z, (l : bytes) !! j = Some z -> is_byte z ->
            zsum (<[j := y]> l) = zsum l - z + y) as Hins.
  { clear. intros l j z Hj _. revert j Hj. unfold zsum.
    induction l as [|u l IH]; intros [|j] Hj; simplify_eq/=; [lia|].
    specialize (IH j Hj). lia. }
  assert (forall l j, all_bytes l -> all_bytes (<[j := y]> l)) as Hall.
  { intros. by apply Forall_insert. }
  assert (forall u v : bytes, length u = 148%nat -> length v = 356%nat -> all_bytes u ->
    all_bytes v -> checksum (u ++ b ++ v) =
      256 + zsum u + zsum v) as Hsum.
  { intros u v Hu Hv Hbu Hbv. rewrite checksum_split by done.
    destruct (sum_bytes_bound 256 u) as [E1 B1]; [done|lia|unfold Zlen; lia|].
    destruct (sum_bytes_bound (sum_bytes 256 u) v) as [E2 _]; [done|lia| |lia].
    unfold Zlen in *. lia. }
  destruct Hi as [Hi|Hi].
  - rewrite lookup_app_l in Hx by lia. rewrite insert_app_l by lia.
    rewrite !Hsum by (rewrite ?length_insert; auto).
    rewrite (Hins a i x Hx) by (by apply (Forall_lookup_1 _ _ _ _ Hba Hx)). lia.
  - rewrite !lookup_app_r in Hx by lia. rewrite !insert_app_r_alt by lia.
    rewrite !Hsum by (rewrite ?length_insert; auto).
    rewrite (Hins c _ x Hx) by (by apply (Forall_lookup_1 _ _ _ _ Hbc Hx)). lia.
Qed.

Lemma fld_bytes n s : all_bytes s -> all_bytes (fld n s).
Proof.
  intros. apply Forall_app_2; [done|]. apply Forall_replicate. unfold is_byte. lia.
Qed.

Lemma sprintf_bytes n : 0 <= n -> all_bytes (sprintf_o n).
Proof.
  intros Hn. pose proof (oct_digits_oct 11 n Hn) as H. rewrite forallb_forall in H.
  apply Forall_forall. intros b Hb%list_elem_of_In. specialize (H b Hb).
  unfold is_oct, is_byte in *. apply andb_true_iff in H as [?%Z.leb_le ?%Z.leb_le]. lia.
Qed.

(** *** Building and reading a record *)

Definition raw_of (mode owner size mtime : Z) (name : bytes) (ck : bytes) (type : Z)
    (linkname : bytes) : bytes :=
  concat (raw_front (mode, owner, size, mtime, name) ++ ck :: raw_back type linkname).

Lemma raw_of_split mode owner size mtime name ck type linkname :
  raw_of mode owner size mtime name ck type linkname =
  concat (raw_front (mode, owner, size, mtime, name)) ++ ck ++ concat (raw_back type linkname).
Proof. unfold raw_of. by rewrite concat_app. Qed.

Lemma front_length mode owner size mtime name :
  0 <= mode < 8 ^ 7 -> 0 <= owner < 8 ^ 7 -> fits 32 size -> fits 32 mtime ->
  (length name < 100)%nat ->
  length (concat (raw_front (mode, owner, size, mtime, name))) = 148%nat.
Proof.
  intros Hm Ho Hs Ht Hn. pose proof (sprintf_len mode 7 ltac:(lia) Hm).
  pose proof (sprintf_len owner 7 ltac:(lia) Ho).
  pose proof (sprintf_len32 size Hs). pose proof (sprintf_len32 mtime Ht).
  unfold raw_front. rewrite !concat_cons, concat_nil, !length_app, !fld_length by (simpl; lia).
  done.
Qed.

Lemma back_length type linkname :
  (length linkname < 100)%nat -> length (concat (raw_back type linkname)) = 356%nat.
Proof. intros. unfold raw_back.
  rewrite !concat_cons, concat_nil, !length_app, !fld_length by (simpl; lia). done. Qed.

Lemma sprintf_06_length ck : 0 <= ck < 8 ^ 6 -> length (sprintf_06o ck) = 6%nat.
Proof.
  intros H. unfold sprintf_06o. cbv zeta. rewrite length_app, length_replicate.
  destruct (sprintf_len ck 6); [lia|done|]. lia.
Qed.

Lemma ck_field_fld ck : 0 <= ck < 8 ^ 6 -> fld 8 (sprintf_06o ck) = sprintf_06o ck ++ [0; 0].
Proof. intros H. unfold fld. by rewrite sprintf_06_length. Qed.

Lemma ck_field_length ck : 0 <= ck < 8 ^ 6 -> length (ck_field ck) = 8%nat.
Proof. intros H. unfold ck_field. by rewrite length_app, sprintf_06_length. Qed.

Lemma front_bytes mode owner size mtime name :
  0 <= mode -> 0 <= owner -> 0 <= size -> 0 <= mtime -> all_bytes name ->
  all_bytes (concat (raw_front (mode, owner, size, mtime, name))).
Proof.
  intros. unfold raw_front. rewrite !concat_cons, concat_nil, !Forall_app. repeat split;
    first [apply fld_bytes; first [done | by apply sprintf_bytes | constructor] | constructor].
Qed.

Lemma back_bytes type linkname :
  0 < type < 256 -> all_bytes linkname -> all_bytes (concat (raw_back type linkname)).
Proof.
  intros. unfold raw_back. rewrite !concat_cons, concat_nil, !Forall_app.
  repeat split; try apply fld_bytes; repeat constructor; try done; lia.
Qed.

Lemma raw_checksum mode owner size mtime name ck type linkname :
  0 <= mode < 8 ^ 7 -> 0 <= owner < 8 ^ 7 -> fits 32 size -> fits 32 mtime ->
  (length name < 100)%nat -> (length linkname < 100)%nat -> 0 < type < 256 ->
  all_bytes name -> all_bytes linkname -> length ck = 8%nat ->
  let s := sum_bytes (sum_bytes 256 (concat (raw_front (mode, owner, size, mtime, name))))
             (concat (raw_back type linkname)) in
  checksum (raw_of mode owner size mtime name ck type linkname) = s /\ 0 <= s < 8 ^ 6.
Proof.
  intros Hm Ho Hs Ht Hn Hl Hty Hbn Hbl Hck s.
  assert (length (concat (raw_front (mode, owner, size, mtime, name))) = 148%nat) as Hf
    by (by apply front_length).
  split; [rewrite raw_of_split; by apply checksum_split|].
  pose proof (back_length type linkname Hl) as Hb. unfold fits in *.
  destruct (sum_bytes_bound 256 (concat (raw_front (mode, owner, size, mtime, name))))
    as [_ B1]; [apply front_bytes; lia || done|lia|unfold Zlen; lia|].
  unfold s.
  destruct (sum_bytes_bound (sum_bytes 256 (concat (raw_front (mode, owner, size, mtime, name))))
    (concat (raw_back type linkname))) as [_ B2];
    [by apply back_bytes|lia|unfold Zlen in *; lia|].
  unfold Zlen in *. rewrite Hf, Hb in *. simpl in *. lia.
Qed.

Lemma aset_concat (l1 l2 : list bytes) f k y off :
  off = Zlen (concat l1) + Z.of_nat k -> (k < length f)%nat ->
  aset (concat (l1 ++ f :: l2)) off y = Ok (concat (l1 ++ <[k := y]> f :: l2)).
Proof.
  intros -> Hk. rewrite !concat_app, aset_in.
  - unfold Zlen. rewrite <- Nat2Z.inj_add, Nat2Z.id. f_equal.
    rewrite insert_app_r_alt by lia. f_equal. simpl.
    replace (_ + k - _)%nat with k by lia. by rewrite insert_app_l.
  - unfold Zlen. rewrite length_app. simpl. rewrite length_app. lia.
Qed.

(** Present the concatenation in the goal around its [k]-th field. *)
Ltac at_field k :=
  match goal with
  | |- context [concat ?L] =>
      let l1 := eval cbn [take app] in (take k L) in
      let l2 := eval cbn [drop app] in (drop (S k) L) in
      let f := eval cbn [nth app] in (nth k L []) in
      change (concat L) with (concat (l1 ++ f :: l2))
  end.
Ltac put_step k HZ HZ0 :=
  at_field k; rewrite put_fld;
  [cbn [mbind res_bind app]
  |rewrite ?HZ, ?HZ0 by (simpl; done || lia); reflexivity
  |lia].

Lemma header_to_raw_eq mode owner size mtime type name linkname :
  header_ok (MtarHeader (Some mode) (Some owner) (Some size) (Some mtime) type name linkname) ->
  exists ck, 0 <= ck < 8 ^ 6 /\
    checksum (raw_of mode owner size mtime name (ck_field ck) type linkname) = ck /\
    header_to_raw (MtarHeader (Some mode) (Some owner) (Some size) (Some mtime) type name
                     linkname) =
      Ok (raw_of mode owner size mtime name (ck_field ck) type linkname).
Proof.
  intros (Hm & Ho & Hs & Ht & Hty & Hn & Hl & Hbn & Hbl & Hnn & Hnl).
  pose proof (raw_checksum mode owner size mtime name (fld 8 []) type linkname) as Hck0.
  destruct Hck0 as [Hck0 Hr]; try done.
  set (ck := sum_bytes (sum_bytes 256 _) _) in *. exists ck.
  pose proof (sprintf_len mode 7 ltac:(lia) Hm) as Lm.
  pose proof (sprintf_len owner 7 ltac:(lia) Ho) as Lo.
  pose proof (sprintf_len32 size Hs) as Ls. pose proof (sprintf_len32 mtime Ht) as Lt.
  pose proof (sprintf_06_length ck Hr) as Lc.
  split; [done|]. split.
  { apply raw_checksum; try done. by apply ck_field_length. }
  unfold header_to_raw. cbn [h_mode h_owner h_size h_mtime h_type h_name h_linkname of_option mbind res_bind].
  rewrite (proj2 (Z.eqb_neq type 0)) by lia. rewrite (wrap_small 8 type) by lia.
  assert (forall n s (l : list bytes), (length s <= n)%nat ->
    Zlen (concat (fld n s :: l)) = Z.of_nat n + Zlen (concat l)) as HZ.
  { intros n s l Hle. unfold Zlen. simpl. rewrite length_app, fld_length by done. lia. }
  assert (forall (l : list bytes), l = [] -> Zlen (concat l) = 0) as HZ0 by (intros ? ->; done).
  change (replicate (Z.to_nat sizeof_raw) 0) with
    (concat ([fld 100 []] ++ fld 8 [] :: [fld 8 []; fld 8 []; fld 12 []; fld 12 []; fld 8 [];
             [0]; fld 100 []; fld 255 []])).
  put_step 1%nat HZ HZ0. put_step 2%nat HZ HZ0. put_step 4%nat HZ HZ0. put_step 5%nat HZ HZ0.
  at_field 7%nat. rewrite (aset_concat _ _ _ 0)
    by (first [simpl; lia | rewrite ?HZ, ?HZ0 by (simpl; done || lia); reflexivity]).
  cbn [mbind res_bind app].
  put_step 0%nat HZ HZ0. put_step 8%nat HZ HZ0.
  match goal with
  | |- context [checksum (concat ?L)] =>
      change (concat L) with (raw_of mode owner size mtime name (fld 8 []) type linkname)
  end.
  rewrite Hck0. unfold raw_of, raw_front, raw_back. cbn [app]. put_step 6%nat HZ HZ0.
  at_field 6%nat. rewrite ck_field_fld by done.
  rewrite (aset_concat _ _ _ 7).
  - unfold ck_field. rewrite insert_app_r_alt by lia. by rewrite Lc.
  - rewrite !HZ, HZ0 by (simpl; done || lia). reflexivity.
  - rewrite length_app, Lc. simpl. lia.
Qed.

Lemma oct_no_nul s : forallb is_oct s = true -> no_nul s.
Proof.
  intros H. rewrite forallb_forall in H. apply Forall_forall. intros b Hb%list_elem_of_In.
  specialize (H b Hb). unfold is_oct in H. apply andb_true_iff in H as [H%Z.leb_le _]. lia.
Qed.

Lemma sprintf_06_oct ck : 0 <= ck -> forallb is_oct (sprintf_06o ck) = true.
Proof.
  intros. unfold sprintf_06o. cbv zeta. rewrite forallb_app, replicate_zero_oct.
  by apply oct_digits_oct.
Qed.

(** The checksum field of a written record, in front of and behind anything. *)
Lemma ck_scan (a c : bytes) ck :
  length a = 148%nat -> 0 <= ck < 8 ^ 6 ->
  (exists d, aget (a ++ ck_field ck ++ c) o_checksum = Ok d /\ d <> 0) /\
  scan_field (a ++ ck_field ck ++ c) o_checksum None = Ok (Some ck).
Proof.
  intros Ha Hck. pose proof (sprintf_06_length ck Hck) as Hl.
  pose proof (oct_no_nul _ (sprintf_06_oct ck (proj1 Hck))) as Hn. split.
  - destruct (sprintf_06o ck) as [|d s] eqn:E; [simpl in Hl; lia|]. exists d.
    inversion_clear Hn. split; [|done].
    apply aget_Ok. split; [unfold o_checksum; lia|]. change (Z.to_nat o_checksum) with 148%nat.
    rewrite lookup_app_r, Ha by lia. unfold ck_field. by rewrite E.
  - unfold scan_field, raw_str. change (Z.to_nat o_checksum) with 148%nat.
    rewrite drop_app_length' by lia. unfold ck_field. rewrite <- app_assoc. simpl.
    rewrite cstr_app by done. cbn [mbind res_bind]. unfold sprintf_06o. cbv zeta.
    rewrite sscanf_sprintf by (unfold fits; lia). done.
Qed.

(** Reading a written record. *)
Lemma raw_to_header_of h0 mode owner size mtime type name linkname ck :
  header_ok (MtarHeader (Some mode) (Some owner) (Some size) (Some mtime) type name linkname) ->
  0 <= ck < 8 ^ 6 ->
  checksum (raw_of mode owner size mtime name (ck_field ck) type linkname) = ck ->
  raw_to_header h0 (raw_of mode owner size mtime name (ck_field ck) type linkname) =
    Ok (MTAR_ESUCCESS,
        MtarHeader (Some mode) (Some owner) (Some size) (Some mtime) type name linkname).
Proof.
  intros (Hm & Ho & Hs & Ht & Hty & Hn & Hl & Hbn & Hbl & Hnn & Hnl) Hck Hsum.
  pose proof (sprintf_len mode 7 ltac:(lia) Hm) as Lm.
  pose proof (sprintf_len owner 7 ltac:(lia) Ho) as Lo.
  pose proof (sprintf_len32 size Hs) as Ls. pose proof (sprintf_len32 mtime Ht) as Lt.
  pose proof (front_length mode owner size mtime name Hm Ho Hs Ht Hn) as Lf.
  pose proof (ck_field_length ck Hck) as Lc.
  unfold raw_to_header. rewrite Hsum, raw_of_split.
  destruct (ck_scan (concat (raw_front (mode, owner, size, mtime, name)))
    (concat (raw_back type linkname)) ck Lf Hck) as [(d & -> & Hd) ->].
  cbn [mbind res_bind of_option]. rewrite (proj2 (Z.eqb_neq d 0)), Z.eqb_refl by done.
  rewrite <- raw_of_split. unfold raw_of.
  assert (forall n s (l : list bytes), (length s <= n)%nat ->
    Zlen (concat (fld n s :: l)) = Z.of_nat n + Zlen (concat l)) as HZ.
  { intros n s l Hle. unfold Zlen. simpl. rewrite length_app, fld_length by done. lia. }
  assert (forall l : list bytes, l = [] -> Zlen (concat l) = 0) as HZ0 by (intros ? ->; done).
  assert (scan_field (concat (raw_front (mode, owner, size, mtime, name) ++
            ck_field ck :: raw_back type linkname)) o_mode (h_mode h0) = Ok (Some mode)) as ->.
  { apply (scan_fld [fld 100 name] _ 8 0); [|unfold fits; lia|simpl; lia].
    rewrite !HZ, HZ0 by (simpl; done || lia). done. }
  assert (scan_field (concat (raw_front (mode, owner, size, mtime, name) ++
            ck_field ck :: raw_back type linkname)) o_owner (h_owner h0) = Ok (Some owner)) as ->.
  { apply (scan_fld [fld 100 name; fld 8 (sprintf_o mode)] _ 8 0);
      [|unfold fits; lia|simpl; lia].
    rewrite !HZ, HZ0 by (simpl; done || lia). done. }
  assert (scan_field (concat (raw_front (mode, owner, size, mtime, name) ++
            ck_field ck :: raw_back type linkname)) o_size (h_size h0) = Ok (Some size)) as ->.
  { apply (scan_fld [fld 100 name; fld 8 (sprintf_o mode); fld 8 (sprintf_o owner); fld 8 []]
      _ 12 0); [|done|simpl; lia].
    rewrite !HZ, HZ0 by (simpl; done || lia). done. }
  assert (scan_field (concat (raw_front (mode, owner, size, mtime, name) ++
            ck_field ck :: raw_back type linkname)) o_mtime (h_mtime h0) = Ok (Some mtime)) as ->.
  { apply (scan_fld [fld 100 name; fld 8 (sprintf_o mode); fld 8 (sprintf_o owner); fld 8 [];
      fld 12 (sprintf_o size)] _ 12 0); [|done|simpl; lia].
    rewrite !HZ, HZ0 by (simpl; done || lia). done. }
  cbn [mbind res_bind].
  assert (copy_name (concat (raw_front (mode, owner, size, mtime, name) ++
            ck_field ck :: raw_back type linkname)) o_name = Ok name) as ->.
  { by apply (copy_fld []). }
  assert (Zlen (concat (raw_front (mode, owner, size, mtime, name))) = 148) as Zf
    by (unfold Zlen; lia).
  assert (copy_name (concat (raw_front (mode, owner, size, mtime, name) ++
            ck_field ck :: raw_back type linkname)) o_linkname = Ok linkname) as ->.
  { apply (copy_fld (raw_front (mode, owner, size, mtime, name) ++ [ck_field ck; [type]]));
      [|done..].
    rewrite concat_app, Zlen_app, Zf. unfold Zlen. simpl. rewrite length_app, Lc. done. }
  assert (aget (concat (raw_front (mode, owner, size, mtime, name) ++
            ck_field ck :: raw_back type linkname)) o_type = Ok type) as ->; [|done].
  apply aget_Ok. split; [unfold o_type; lia|]. change (Z.to_nat o_type) with 156%nat.
  rewrite concat_app, lookup_app_r by lia. rewrite Lf. rewrite concat_cons, lookup_app_r by lia.
  by rewrite Lc.
Qed.

Lemma header_ok_inv h :
  header_ok h -> exists mode owner size mtime type name linkname,
    h = MtarHeader (Some mode) (Some owner) (Some size) (Some mtime) type name linkname.
Proof. destruct h as [[] [] [] [] ???]; try done. intros _. by repeat eexists. Qed.

Lemma header_to_raw_ok h :
  header_ok h -> exists rh, header_to_raw h = Ok rh /\ length rh = 512%nat /\
    (forall h0, raw_to_header h0 rh = Ok (MTAR_ESUCCESS, h)).
Proof.
  intros Hok. destruct (header_ok_inv h Hok) as (m & o & s & t & ty & n & l & ->).
  destruct (header_to_raw_eq _ _ _ _ _ _ _ Hok) as (ck & Hck & Hsum & ->).
  eexists. split; [done|]. split; [|intros; by apply raw_to_header_of].
  destruct Hok as (Hm & Ho & Hs & Ht & Hty & Hn & Hl & _).
  rewrite raw_of_split, !length_app, front_length, back_length, ck_field_length; done.
Qed.

(** C31. Writing a header record and reading it back gives the header: every header whose
    numbers fit their octal fields and whose names fit theirs is written without leaving
    the 512 bytes, and [raw_to_header] accepts it and restores every field. *)
Theorem header_round_trip h h0 :
  header_ok h ->
  exists rh, header_to_raw h = Ok rh /\ length rh = 512%nat /\
    raw_to_header h0 rh = Ok (MTAR_ESUCCESS, h).
Proof. intros (rh & ? & ? & ?)%header_to_raw_ok. exists rh. auto. Qed.

Definition witness_header : mtar_header_t :=
  MtarHeader (Some 436) (Some 0) (Some 4294967295) (Some 1700000000) MTAR_TREG
    (cs "bin/app.bin") [].

Lemma header_round_trip_witness :
  exists rh, header_to_raw witness_header = Ok rh /\ length rh = 512%nat /\
    raw_to_header header_uninit rh = Ok (MTAR_ESUCCESS, witness_header).
Proof.
  apply header_round_trip. apply (bool_decide_unpack _). vm_compute. exact I.
Defined.

(** A written record in which one byte outside the checksum field is changed is refused
    with [MTAR_EBADCHKSUM], and the caller's header is left alone. *)
Theorem header_corruption_detected h h0 rh i b :
  header_ok h -> header_to_raw h = Ok rh ->
  (i < 148 \/ 156 <= i < 512)%nat -> is_byte b -> rh !! i <> Some b ->
  raw_to_header h0 (<[i := b]> rh) = Ok (MTAR_EBADCHKSUM, h0).
Proof.
  intros Hok Hrh Hi Hb Hne. destruct (header_ok_inv h Hok) as (m & o & s & t & ty & n & l & ->).
  destruct (header_to_raw_eq _ _ _ _ _ _ _ Hok) as (ck & Hck & Hsum & Heq).
  rewrite Heq in Hrh. injection Hrh as <-. rewrite raw_of_split in *.
  destruct Hok as (Hm & Ho & Hs & Ht & Hty & Hn & Hl & Hbn & Hbl & _).
  pose proof (front_length m o s t n Hm Ho Hs Ht Hn) as Lf.
  pose proof (back_length ty l Hl) as Lb. pose proof (ck_field_length ck Hck) as Lc.
  unfold fits in *.
  assert (all_bytes (concat (raw_front (m, o, s, t, n)))) as Bf by (apply front_bytes; done || lia).
  assert (all_bytes (concat (raw_back ty l))) as Bb by by apply back_bytes.
  set (fr := concat (raw_front _)) in *. set (bk := concat (raw_back _ _)) in *.
  destruct ((fr ++ ck_field ck ++ bk) !! i) as [x|] eqn:Ex.
  2: { apply lookup_ge_None in Ex. rewrite !length_app in Ex. lia. }
  assert (checksum (<[i := b]> (fr ++ ck_field ck ++ bk)) <> ck) as Hd.
  { rewrite <- Hsum at 2. apply (checksum_differs _ _ _ i x b); try done; [lia|congruence]. }
  assert (exists fr' bk', <[i := b]> (fr ++ ck_field ck ++ bk) = fr' ++ ck_field ck ++ bk' /\
            length fr' = 148%nat) as (fr' & bk' & E & Lf').
  { destruct Hi as [Hi|Hi].
    - exists (<[i := b]> fr), bk. by rewrite insert_app_l, length_insert by lia.
    - exists fr, (<[(i - 156)%nat := b]> bk). split; [|done].
      rewrite !insert_app_r_alt by lia. do 2 f_equal. rewrite Lf, Lc. f_equal. lia. }
  rewrite E in *. unfold raw_to_header.
  destruct (ck_scan fr' bk' ck Lf' Hck) as [(d & -> & Hd0) ->].
  cbn [mbind res_bind of_option]. rewrite (proj2 (Z.eqb_neq d 0)) by done.
  by rewrite (proj2 (Z.eqb_neq _ ck)).
Qed.

Lemma header_corruption_detected_witness :
  exists rh, header_to_raw witness_header = Ok rh /\
    raw_to_header header_uninit (<[124%nat := 49]> rh) = Ok (MTAR_EBADCHKSUM, header_uninit).
Proof.
  destruct (header_to_raw witness_header) as [rh|] eqn:E; [|vm_compute in E; discriminate].
  exists rh. split; [reflexivity|].
  apply (header_corruption_detected witness_header);
    [apply (bool_decide_unpack _); vm_compute; exact I|exact E|lia|unfold is_byte; lia|].
  vm_compute in E. injection E as <-. vm_compute. discriminate.
Defined.
