(* ===== verification/Untar.v ===== *)
(** Archives: what the tar writer of [Microtar] leaves in a file, what the reader finds in
    it, and [untar] of [applications/common/common.c]. *)

From S2P Require Import Prelude Posix Common Microtar.
#[local] Open Scope Z_scope.

(** ** [untar] *)

(** [strrchr(s, '/')]: the part before the last slash. *)
Fixpoint before_last_slash (s : bytes) : option bytes :=
  match s with
  | [] => None
  | c :: s =>
      match before_last_slash s with
      | Some p => Some (c :: p)
      | None => if c =? chr_slash then Some [] else None
      end
  end.

Definition untar_path (dst_dir name : bytes) : bytes :=
  take (Z.to_nat (MAX_PATH - 1)) (dst_dir ++ [chr_slash] ++ name).

(** The copy loop; [f] is the output stream, [None] when the data is only skipped. *)
Fixpoint untar_copy (fuel : nat) (f : option Z) (remaining : Z) : M mst Z :=
  match fuel with
  | O => throw Spin
  | S fuel =>
      if 0 <? remaining then
        let to_read := if 512 <? remaining then 512 else remaining in
        r ← mtar_read_data to_read;
        if negb (r.1 =? MTAR_ESUCCESS) then mret r.1 else
        _ ← (match f with Some fd => on_fs (write_ fd r.2) | None => mret 0 end);
        untar_copy fuel f (remaining - to_read)
      else mret MTAR_ESUCCESS
  end.

(** One entry: [Some err] is a [return err] out of [untar]. *)
Definition untar_entry (fuel : nat) (dst_dir : bytes) (h : mtar_header_t) : M mst (option Z) :=
  let full_path := untar_path dst_dir (h_name h) in
  if h_type h =? MTAR_TREG then
    _ ← (match before_last_slash full_path with
         | Some d => on_fs (mkdir_recursive d)
         | None => mret tt
         end);
    f ← on_fs (fopen_ full_path ModeW);
    match f with
    | None => mret (Some (-1))
    | Some fd =>
        size ← header_size h;
        err ← untar_copy fuel (Some fd) (i32 size);
        _ ← on_fs (close_ fd);
        mret (if err =? MTAR_ESUCCESS then None else Some err)
    end
  else
    size ← header_size h;
    err ← untar_copy fuel None (i32 size);
    mret (if err =? MTAR_ESUCCESS then None else Some err).

Fixpoint untar_loop (fuel : nat) (dst_dir : bytes) (h : mtar_header_t) : M mst Z :=
  match fuel with
  | O => throw Spin
  | S fuel' =>
      r ← mtar_read_header h;
      if r.1 =? MTAR_ESUCCESS then
        e ← untar_entry fuel dst_dir r.2;
        match e with
        | Some err => mret err
        | None => mtar_next ;;; untar_loop fuel' dst_dir r.2
        end
      else mtar_close ;;; mret 0
  end.

(** A local [mtar_t]. *)
Definition with_mtar {A} (m : M mst A) : M fsys A := fun fs =>
  match m (Mst (Mtar 0 0 0 0) fs) with Ok (a, s) => Ok (a, tfs s) | Err f => Err f end.

Definition untar (fuel : nat) (tar_path dst_dir : bytes) : M fsys Z :=
  with_mtar
    (err ← mtar_open tar_path (cs "r");
     if negb (err =? MTAR_ESUCCESS) then mret err
     else untar_loop fuel dst_dir header_uninit).

(** ** The archive of a list of files *)

Definition pad (n : Z) : nat := Z.to_nat ((- n) mod 512).

Definition file_raw (name data : bytes) : bytes :=
  match header_to_raw (file_header name (Zlen data)) with Ok rh => rh | Err _ => [] end.

Definition entry (f : bytes * bytes) : bytes :=
  file_raw f.1 f.2 ++ f.2 ++ replicate (pad (Zlen f.2)) 0.

Definition archive (l : list (bytes * bytes)) : bytes :=
  concat (map entry l) ++ replicate 1024 0.

(** Writing it with the library. *)
Fixpoint write_files (l : list (bytes * bytes)) : M mst Z :=
  match l with
  | [] => mtar_finalize
  | (name, data) :: l =>
      e ← mtar_write_file_header name (Zlen data);
      if negb (e =? 0) then mret e else
      e ← mtar_write_data data;
      if negb (e =? 0) then mret e else write_files l
  end.

Definition write_archive (path : bytes) (l : list (bytes * bytes)) : M fsys Z :=
  with_mtar
    (e ← mtar_open path (cs "w");
     if negb (e =? 0) then mret e else
     e ← write_files l;
     if negb (e =? 0) then mret e else mtar_close).

(** Finding a file and reading all of it. *)
Definition read_member (fuel : nat) (path name : bytes) : M fsys (Z * bytes) :=
  with_mtar
    (e ← mtar_open path (cs "r");
     if negb (e =? 0) then mret (e, []) else
     r ← mtar_find fuel name;
     match r with
     | (err, Some h) =>
         size ← header_size h;
         d ← mtar_read_data size;
         mtar_close ;;; mret d
     | (err, None) => mtar_close ;;; mret (err, [])
     end).

Definition file_ok (f : bytes * bytes) : Prop :=
  (length f.1 < 100)%nat /\ all_bytes f.1 /\ no_nul f.1 /\ all_bytes f.2.
#[export] Instance file_ok_dec f : Decision (file_ok f).
Proof. unfold file_ok, no_nul. apply _. Defined.

(** ** The stream state *)

(** An archive stream at offset [p] of a file whose content is [c]. *)
Definition arch (fs : fsys) (fd : Z) (path c : bytes) (p : nat) (rem last : Z) : mst :=
  Mst (Mtar fd (Z.of_nat p) rem last)
    (set_fds <[fd := Fdesc path p]> (set_files <[path := c]> fs)).

Lemma round_up_pad n : 0 <= n < 2 ^ 32 - 512 -> round_up n 512 = n + Z.of_nat (pad n).
Proof.
  intros Hn. unfold round_up, pad. rewrite (wrap_small 32 (512 - _)) by zlia.
  assert ((512 - n mod 512) mod 512 = (- n) mod 512) as -> by zlia.
  rewrite Z2Nat.id by (apply Z.mod_pos_bound; lia). apply wrap_small. zlia.
Qed.

Lemma file_header_ok f : file_ok f -> Zlen f.2 < 2 ^ 31 -> header_ok (file_header f.1 (Zlen f.2)).
Proof.
  intros (H1 & H2 & H3 & H4) Hl. pose proof (Zlen_nonneg f.2). unfold header_ok, file_header.
  unfold fits, MTAR_TREG, no_nul. simpl. repeat split; try lia; try done; constructor.
Qed.

Lemma file_raw_spec f :
  file_ok f -> Zlen f.2 < 2 ^ 31 ->
  header_to_raw (file_header f.1 (Zlen f.2)) = Ok (file_raw f.1 f.2) /\
  length (file_raw f.1 f.2) = 512%nat /\
  (forall h0, raw_to_header h0 (file_raw f.1 f.2) =
     Ok (MTAR_ESUCCESS, file_header f.1 (Zlen f.2))).
Proof.
  intros Hf Hl. destruct (header_to_raw_ok _ (file_header_ok f Hf Hl)) as (rh & E & L & R).
  unfold file_raw. rewrite E. done.
Qed.

Section stream.
Context (fs : fsys) (fd : Z) (path : bytes).
Implicit Types c d : bytes.

Abbreviation st := (arch fs fd path).

Lemma i32_small z : 0 <= z < 2 ^ 31 -> i32 z = z.
Proof. intros. apply swrap_small; lia. Qed.

Lemma twrite_arch c p rem last d :
  write_ok (fs_env fs) path = true -> p = length c -> Z.of_nat p + Zlen d < 2 ^ 32 ->
  twrite d (st c p rem last) = Ok (0, st (c ++ d) (p + length d) rem last).
Proof.
  intros Hw -> Hl. unfold twrite, file_write, on_fs, gets, set_pos, set_tar, modify.
  unfold mbind, M_bind, mret, M_ret. simpl. unfold write_. simpl.
  repeat (rewrite lookup_insert_eq; simpl). rewrite Hw, Z.eqb_refl. simpl.
  rewrite overwrite_end. unfold arch, Zlen in *. rewrite wrap_small by lia.
  unfold set_fds, set_files. simpl. rewrite !insert_insert_eq. do 4 f_equal. lia.
Qed.

Lemma tread_arch c p n rem last :
  (p + n <= length c)%nat -> Z.of_nat p + Z.of_nat n < 2 ^ 32 ->
  tread (Z.of_nat n) (st c p rem last) =
    Ok ((0, take n (drop p c)), st c (p + n) rem last).
Proof.
  intros Hp Hl. unfold tread, file_read, on_fs, gets, set_pos, set_tar, modify.
  unfold mbind, M_bind, mret, M_ret. simpl. unfold read_. simpl.
  repeat (rewrite lookup_insert_eq; simpl). rewrite Nat2Z.id.
  assert (length (take n (drop p c)) = n) as Hn by (rewrite length_take, length_drop; lia).
  unfold Zlen. rewrite Hn, Z.eqb_refl. unfold arch. rewrite wrap_small by lia.
  rewrite set_fds_insert2. do 4 f_equal. lia.
Qed.

Lemma seek_arch c p rem last q :
  Z.of_nat q < 2 ^ 31 ->
  mtar_seek (Z.of_nat q) (st c p rem last) = Ok (0, st c q rem last).
Proof.
  intros Hq. unfold mtar_seek, file_seek, on_fs, gets, set_pos, set_tar, modify.
  unfold mbind, M_bind, mret, M_ret. simpl. unfold lseek_. simpl.
  rewrite i32_small by lia. repeat (rewrite lookup_insert_eq; simpl).
  rewrite (proj2 (Z.ltb_ge _ _)), (proj2 (Z.leb_le _ _)) by lia.
  rewrite Nat2Z.id, set_fds_insert2. done.
Qed.

Lemma read_header_arch c p rem last rh rest h0 e h :
  drop p c = rh ++ rest -> length rh = 512%nat -> Z.of_nat p + 512 < 2 ^ 31 ->
  raw_to_header h0 rh = Ok (e, h) ->
  mtar_read_header h0 (st c p rem last) = Ok ((e, h), st c p rem (Z.of_nat p)).
Proof.
  intros Hd Hl Hp Hr.
  assert (p + 512 <= length c)%nat as Hc.
  { apply (f_equal length) in Hd. rewrite length_drop, length_app in Hd. lia. }
  unfold mtar_read_header, gets, set_last, set_tar, modify, mbind, M_bind.
  change (Mst _ _) with (st c p rem (Z.of_nat p)). change sizeof_raw with (Z.of_nat 512).
  rewrite tread_arch by (done || lia). simpl.
  rewrite Hd, take_app_length' by done. rewrite seek_arch by lia. simpl.
  unfold lift. by rewrite Hr.
Qed.
Lemma null_bytes_arch n c rem last :
  write_ok (fs_env fs) path = true -> Zlen c + Z.of_nat n < 2 ^ 32 ->
  write_null_bytes n (st c (length c) rem last) =
    Ok (0, st (c ++ replicate n 0) (length c + n) rem last).
Proof.
  intros Hw. revert c. induction n as [|n IH]; intros c Hl.
  { simpl. by rewrite app_nil_r, Nat.add_0_r. }
  cbn [write_null_bytes]. unfold mbind, M_bind.
  assert (Zlen (c ++ [0]) = Zlen c + 1) as Hz by by rewrite Zlen_app.
  rewrite twrite_arch; [|done|done|unfold Zlen in *; simpl in *; lia]. simpl.
  replace (length c + 1)%nat with (length (c ++ [0])) by (rewrite length_app; simpl; lia).
  rewrite IH by lia. rewrite <- app_assoc. do 3 f_equal. rewrite length_app. simpl. lia.
Qed.

Lemma write_entry_arch c f rem last :
  write_ok (fs_env fs) path = true -> file_ok f -> (Zlen c) mod 512 = 0 ->
  Zlen c + Zlen f.2 + 1024 < 2 ^ 31 ->
  exists s1,
    mtar_write_file_header f.1 (Zlen f.2) (st c (length c) rem last) = Ok (0, s1) /\
    mtar_write_data f.2 s1 =
      Ok (0, st (c ++ entry f) (length (c ++ entry f)) 0 last).
Proof.
  intros Hw Hf Hal Hl. pose proof (Zlen_nonneg c) as Hc0. pose proof (Zlen_nonneg f.2) as Hd0.
  destruct (file_raw_spec f Hf) as (Hraw & Hrl & _); [lia|].
  set (d := f.2) in *. set (raw := file_raw f.1 d) in *.
  exists (st (c ++ raw) (length (c ++ raw)) (Zlen d) last). split.
  - unfold mtar_write_file_header, name_fits, sizeof_name.
    destruct Hf as (Hn & _). unfold mbind, M_bind, Zlen.
    rewrite (proj2 (Z.ltb_lt _ _)) by lia. simpl.
    unfold mtar_write_header, lift, header_size, mbind, M_bind.
    fold (Zlen d). rewrite Hraw. simpl.
    unfold set_remaining, set_tar, modify. simpl.
    change (Mst _ _) with (st c (length c) (Zlen d) last).
    rewrite twrite_arch; [|done|done|unfold Zlen in *; lia]. by rewrite length_app.
  - assert (Zlen (c ++ raw) = Zlen c + 512) as Hz1 by (rewrite Zlen_app; unfold Zlen; lia).
    unfold mtar_write_data, mbind, M_bind.
    rewrite twrite_arch; [|done|done|unfold Zlen in *; lia]. simpl.
    unfold gets, set_remaining, set_tar, modify. simpl. rewrite Z.sub_diag. simpl.
    change (Mst _ _) with (st ((c ++ raw) ++ d) (length (c ++ raw) + length d) 0 last).
    replace (length (c ++ raw) + length d)%nat with (length ((c ++ raw) ++ d))
      by (rewrite length_app; lia).
    fold (Zlen ((c ++ raw) ++ d)). rewrite (Zlen_app (c ++ raw) d), Hz1.
    rewrite round_up_pad by lia.
    assert (pad (Zlen c + 512 + Zlen d) = pad (Zlen d)) as -> by (unfold pad; f_equal; zlia).
    assert (Z.of_nat (pad (Zlen d)) < 512) as Hp.
    { unfold pad. rewrite Z2Nat.id by (apply Z.mod_pos_bound; lia).
      by apply Z.mod_pos_bound. }
    rewrite i32_small by lia. rewrite Z.add_simpl_l, Nat2Z.id.
    rewrite null_bytes_arch; [|done|rewrite !Zlen_app in *; lia].
    unfold entry. fold d; fold raw. rewrite <- !app_assoc. do 3 f_equal.
    rewrite !length_app, length_replicate. lia.
Qed.

(** At offset [p] of [c] stands the record of a file. *)
Definition has_entry c (p : nat) (f : bytes * bytes) (rest : bytes) : Prop :=
  drop p c = entry f ++ rest /\ file_ok f /\ Z.of_nat p + Zlen f.2 + 1024 < 2 ^ 31.

Lemma header_at c p f rest h0 rem last :
  has_entry c p f rest ->
  mtar_read_header h0 (st c p rem last) =
    Ok ((MTAR_ESUCCESS, file_header f.1 (Zlen f.2)), st c p rem (Z.of_nat p)).
Proof.
  intros (Hd & Hf & Hl). pose proof (Zlen_nonneg f.2).
  destruct (file_raw_spec f Hf) as (_ & Hrl & Hr); [lia|].
  eapply read_header_arch; [|exact Hrl|lia|apply Hr].
  rewrite Hd. unfold entry. by rewrite <- app_assoc.
Qed.

Lemma entry_length f : file_ok f -> Zlen f.2 < 2 ^ 31 ->
  Zlen (entry f) = 512 + Zlen f.2 + Z.of_nat (pad (Zlen f.2)).
Proof.
  intros Hf Hl. destruct (file_raw_spec f Hf Hl) as (_ & Hrl & _).
  unfold entry, Zlen. rewrite !length_app, length_replicate. unfold Zlen in *. lia.
Qed.

Lemma next_at c p f rest rem last :
  has_entry c p f rest ->
  mtar_next (st c p rem last) =
    Ok (0, st c (p + length (entry f)) rem (Z.of_nat p)).
Proof.
  intros Hh. unfold mtar_next, mbind, M_bind.
  rewrite (header_at c p f rest _ rem last Hh). simpl.
  destruct Hh as (Hd & Hf & Hl). pose proof (Zlen_nonneg f.2).
  unfold header_size, lift, of_option. simpl. unfold gets. simpl.
  pose proof (entry_length f Hf ltac:(lia)) as He.
  assert (Z.of_nat (pad (Zlen f.2)) < 512) as Hp.
  { unfold pad. rewrite Z2Nat.id by (apply Z.mod_pos_bound; lia). by apply Z.mod_pos_bound. }
  rewrite round_up_pad by lia. unfold sizeof_raw. rewrite i32_small by lia.
  rewrite wrap_small by lia. unfold Zlen in *.
  replace (Z.of_nat p + _) with (Z.of_nat (p + length (entry f))) by lia.
  rewrite seek_arch by lia. done.
Qed.

(** While the data of the entry at [p] is read, [k] bytes in. *)
Definition reading c (p : nat) d (k : nat) (last : Z) : mst :=
  if decide (k = 0 \/ k = length d)%nat then st c p 0 last
  else st c (p + 512 + k) (Zlen d - Z.of_nat k) (Z.of_nat p).

Lemma read_data_at c p f rest k n last :
  has_entry c p f rest -> (k + n <= length f.2)%nat ->
  (0 < n \/ length f.2 = 0)%nat ->
  mtar_read_data (Z.of_nat n) (reading c p f.2 k last) =
    Ok ((0, take n (drop k f.2)), reading c p f.2 (k + n) (Z.of_nat p)).
Proof.
  intros Hh Hk Hn. pose proof (header_at c p f rest header_uninit 0 last Hh) as Hhd.
  destruct Hh as (Hd & Hf & Hl). pose proof (Zlen_nonneg f.2) as Hf0.
  destruct (file_raw_spec f Hf) as (_ & Hrl & _); [lia|].
  set (raw := file_raw f.1 f.2) in *. set (d := f.2) in *.
  assert (p + 512 + length d <= length c)%nat as Hc.
  { apply (f_equal length) in Hd. unfold entry in Hd. fold d in Hd; fold raw in Hd.
    rewrite length_drop, !length_app in Hd. lia. }
  assert (drop (p + 512 + k) c = drop k d ++ replicate (pad (Zlen d)) 0 ++ rest) as Hdk.
  { rewrite <- !drop_drop, Hd. unfold entry. fold d; fold raw. rewrite <- !app_assoc.
    rewrite drop_app_length' by done. rewrite drop_app_le by lia. done. }
  (* the part after the position has been set *)
  set (tail := fun s => (r ← tread (Z.of_nat n);
    if negb (r.1 =? 0) then mret (r.1, []) else
    t ← gets tar;
    _ ← set_remaining (u32 (remaining_data t - Z.of_nat n));
    t ← gets tar;
    if remaining_data t =? 0 then
      err ← mtar_seek (last_header t);
      mret (err, r.2)
    else mret (MTAR_ESUCCESS, r.2)) s : res ((Z * bytes) * mst)).
  assert (tail (st c (p + 512 + k) (Zlen d - Z.of_nat k) (Z.of_nat p)) =
    Ok ((0, take n (drop k d)), reading c p d (k + n) (Z.of_nat p))) as Htail.
  { unfold tail, mbind, M_bind. rewrite tread_arch by (unfold Zlen in *; lia). simpl.
    rewrite Hdk, take_app_le by (rewrite length_drop; lia).
    unfold gets, set_remaining, set_tar, modify. simpl.
    rewrite wrap_small by (unfold Zlen in *; lia). unfold reading.
    destruct (Z.eqb_spec (Zlen d - Z.of_nat k - Z.of_nat n) 0) as [E|E]; unfold Zlen in E.
    - rewrite decide_True by lia.
      change (Mst _ _) with (st c (p + 512 + k + n) (Zlen d - Z.of_nat k - Z.of_nat n) (Z.of_nat p)).
      rewrite seek_arch by (unfold Zlen in *; lia). simpl.
      replace (Zlen d - Z.of_nat k - Z.of_nat n) with 0 by (unfold Zlen; lia). done.
    - rewrite decide_False by lia. simpl.
      replace (p + 512 + (k + n))%nat with (p + 512 + k + n)%nat by lia.
      replace (Zlen d - Z.of_nat (k + n)) with (Zlen d - Z.of_nat k - Z.of_nat n) by lia.
      done. }
  unfold mtar_read_data. rewrite (bind_step (gets tar) _ _ _ _ eq_refl).
  unfold reading at 1 2. case_decide as Hk0; simpl remaining_data.
  - assert (k = 0)%nat as -> by lia. simpl (if 0 =? 0 then _ else _).
    rewrite Nat.add_0_r, Z.sub_0_r in Htail. rewrite <- Htail.
    rewrite (bind_step _ _ _ 0 (st c (p + 512) (Zlen d) (Z.of_nat p))); [done|].
    rewrite (bind_step _ _ _ _ _ Hhd). simpl (if negb _ then _ else _).
    rewrite (bind_step (gets tar) _ _ _ _ eq_refl). simpl pos. unfold sizeof_raw.
    rewrite wrap_small by lia.
    replace (Z.of_nat p + 512) with (Z.of_nat (p + 512)) by lia.
    by rewrite (bind_step _ _ _ _ _ (seek_arch c p 0 _ (p + 512) ltac:(lia))).
  - rewrite (proj2 (Z.eqb_neq _ _)) by (unfold Zlen; lia). exact Htail.
Qed.
End stream.

(** ** Writing an archive *)

Lemma entry_aligned f : file_ok f -> Zlen f.2 < 2 ^ 31 -> Zlen (entry f) mod 512 = 0.
Proof.
  intros Hf Hl. rewrite entry_length by done. unfold pad.
  rewrite Z2Nat.id by (apply Z.mod_pos_bound; lia). pose proof (Zlen_nonneg f.2). zlia.
Qed.

Lemma Zlen_entries_cons f l :
  Zlen (concat (map entry (f :: l))) = Zlen (entry f) + Zlen (concat (map entry l)).
Proof. simpl. apply Zlen_app. Qed.

Lemma Zlen_archive l : Zlen (archive l) = Zlen (concat (map entry l)) + 1024.
Proof. unfold archive. by rewrite Zlen_app. Qed.

Lemma Zlen_entry_ge f : Zlen f.2 <= Zlen (entry f).
Proof. unfold entry, Zlen. rewrite !length_app. lia. Qed.

Lemma write_files_arch fs fd path c l rem last :
  write_ok (fs_env fs) path = true -> Forall file_ok l -> Zlen c mod 512 = 0 ->
  Zlen c + Zlen (archive l) < 2 ^ 31 ->
  exists last',
  write_files l (arch fs fd path c (length c) rem last) =
    Ok (0, let c' := c ++ archive l in
           arch fs fd path c' (length c') (match l with [] => rem | _ => 0 end) last').
Proof.
  intros Hw Hl. revert c rem. induction Hl as [|f l Hf _ IH]; intros c rem Hal Hsz.
  - exists last. cbn [write_files]. unfold mtar_finalize.
    change (Z.to_nat (sizeof_raw * 2)) with 1024%nat. rewrite Zlen_archive in Hsz.
    rewrite null_bytes_arch; [|done|change (Zlen (concat (map entry []))) with 0 in Hsz; lia].
    unfold archive. simpl concat. rewrite app_nil_l. cbv zeta.
    by rewrite length_app, length_replicate.
  - destruct f as [n d]. rewrite Zlen_archive, Zlen_entries_cons in Hsz.
    pose proof (Zlen_nonneg (concat (map entry l))) as Hn.
    pose proof (Zlen_entry_ge (n, d)) as He. simpl in He. pose proof (Zlen_nonneg c).
    destruct (write_entry_arch fs fd path c (n, d) rem last) as (s1 & H1 & H2);
      [done..|simpl; lia|].
    cbn [write_files]. rewrite (bind_step _ _ _ _ _ H1). simpl (if negb _ then _ else _).
    rewrite (bind_step _ _ _ _ _ H2). simpl (if negb _ then _ else _).
    destruct (IH (c ++ entry (n, d)) 0) as [last' E].
    { rewrite Zlen_app, Z.add_mod, Hal, entry_aligned by (done || (simpl; lia)). done. }
    { rewrite Zlen_app, Zlen_archive. lia. }
    exists last'. rewrite E. unfold archive. simpl concat. rewrite <- !app_assoc.
    by destruct l.
Qed.

Lemma mode_w : mtar_mode (cs "w") = Some ModeW. Proof. done. Qed.
Lemma mode_r : mtar_mode (cs "r") = Some ModeR. Proof. done. Qed.

Lemma with_mtar_run {A} (m : M mst A) fs a s :
  m (Mst (Mtar 0 0 0 0) fs) = Ok (a, s) -> with_mtar m fs = Ok (a, tfs s).
Proof. unfold with_mtar. by intros ->. Qed.

Lemma open_w fs path t :
  openable fs path = true ->
  mtar_open path (cs "w") (Mst t fs) =
    Ok (0, arch fs (fresh_fd (fs_fds fs)) path [] 0 0 0).
Proof.
  intros Ho. destruct (fresh_fd_spec (fs_fds fs)) as [Hfd _].
  unfold mtar_open. rewrite (bind_step _ _ _ _ _ eq_refl), mode_w.
  assert (fopen_ path ModeW fs = Ok (Some (fresh_fd (fs_fds fs)),
    set_fds <[fresh_fd (fs_fds fs) := Fdesc path 0]> (set_files <[path := []]> fs))) as Hop.
  { unfold fopen_. rewrite (bind_step _ _ _ _ _ (open_write fs path Ho)).
    by rewrite (proj2 (Z.ltb_ge _ _)) by lia. }
  erewrite bind_step; [|unfold on_fs; simpl; rewrite Hop; reflexivity]. done.
Qed.

Lemma close_arch fs fd path c p rem last :
  fs_fds fs !! fd = None ->
  exists t, mtar_close (arch fs fd path c p rem last) = Ok (0, Mst t (set_files <[path := c]> fs)).
Proof.
  intros Hfd. eexists. unfold mtar_close, file_close, on_fs, gets, mbind, M_bind, mret, M_ret.
  simpl. unfold close_. simpl. rewrite lookup_insert_eq. simpl.
  by rewrite set_fds_delete_insert.
Qed.

Lemma write_archive_spec fs path l :
  openable fs path = true -> write_ok (fs_env fs) path = true ->
  Forall file_ok l -> Zlen (archive l) < 2 ^ 31 ->
  write_archive path l fs = Ok (0, set_files <[path := archive l]> fs).
Proof.
  intros Ho Hw Hl Hsz. destruct (fresh_fd_spec (fs_fds fs)) as [_ Hfree].
  destruct (write_files_arch fs (fresh_fd (fs_fds fs)) path [] l 0 0) as [last E]; [done..|].
  rewrite app_nil_l in E. cbv zeta in E. unfold write_archive.
  destruct (close_arch fs (fresh_fd (fs_fds fs)) path (archive l) (length (archive l))
    (match l with [] => 0 | _ => 0 end) last Hfree) as [t Hc].
  erewrite with_mtar_run.
  2: { rewrite (bind_step _ _ _ _ _ (open_w fs path _ Ho)). simpl (if negb _ then _ else _).
       rewrite (bind_step _ _ _ _ _ E). simpl (if negb _ then _ else _). exact Hc. }
  done.
Qed.

(** ** Reading an archive *)

(** The rest of the archive from offset [p] holds the files [l]. *)
Definition holds (c : bytes) (p : nat) (l : list (bytes * bytes)) : Prop :=
  drop p c = archive l /\ Forall file_ok l /\ Z.of_nat p + Zlen (archive l) < 2 ^ 31.

Lemma holds_cons c p f l :
  holds c p (f :: l) ->
  has_entry c p f (archive l) /\ holds c (p + length (entry f)) l.
Proof.
  intros (Hd & Hl & Hsz). inversion_clear Hl as [|?? Hf Hl'].
  rewrite Zlen_archive, Zlen_entries_cons in Hsz.
  pose proof (Zlen_nonneg (concat (map entry l))). pose proof (Zlen_entry_ge f).
  assert (drop p c = entry f ++ archive l) as Hd'.
  { rewrite Hd. unfold archive. simpl. by rewrite app_assoc. }
  split; [split; [done|split; [done|lia]]|]. split; [|split; [done|]].
  - by rewrite <- drop_drop, Hd', drop_app_length.
  - rewrite Zlen_archive. unfold Zlen in *. lia.
Qed.

Lemma null_at fs fd path c p h0 rem last :
  holds c p [] ->
  mtar_read_header h0 (arch fs fd path c p rem last) =
    Ok ((MTAR_ENULLRECORD, h0), arch fs fd path c p rem (Z.of_nat p)).
Proof.
  intros (Hd & _ & Hsz). rewrite Zlen_archive in Hsz. unfold Zlen in Hsz. simpl in Hsz.
  eapply (read_header_arch _ _ _ c p rem last (replicate 512 0) (replicate 512 0));
    [by rewrite Hd|done|lia|reflexivity].
Qed.

Definition lookup_file (name : bytes) (l : list (bytes * bytes)) : option bytes :=
  snd <$> find (fun f => bool_decide (f.1 = name)) l.

Lemma find_arch fuel fs fd path c p name l h0 rem last :
  holds c p l -> (length l < fuel)%nat ->
  exists r s, mtar_find_loop fuel name h0 (arch fs fd path c p rem last) = Ok (r, s) /\
    match lookup_file name l with
    | Some d =>
        r = (MTAR_ESUCCESS, Some (file_header name (Zlen d))) /\
        exists p' rest, has_entry c p' (name, d) rest /\
          s = arch fs fd path c p' rem (Z.of_nat p')
    | None =>
        r = (MTAR_ENOTFOUND, None) /\ exists p', s = arch fs fd path c p' rem (Z.of_nat p')
    end.
Proof.
  revert fuel p h0 last. induction l as [|[n d] l IH]; intros fuel p h0 last Hh Hfuel.
  - destruct fuel as [|fuel]; [simpl in *; lia|]. cbn [mtar_find_loop].
    rewrite (bind_step _ _ _ _ _ (null_at fs fd path c p h0 rem last Hh)). simpl.
    eexists _, _. split; [done|]. split; [done|]. by eexists.
  - destruct fuel as [|fuel]; [simpl in *; lia|]. cbn [mtar_find_loop].
    apply holds_cons in Hh as [He Hh].
    rewrite (bind_step _ _ _ _ _ (header_at fs fd path c p (n, d) _ h0 rem last He)).
    cbn [fst snd]. rewrite Z.eqb_refl. simpl h_name. unfold lookup_file. cbn [find fst snd].
    case_decide as Hne; simpl in Hne; [subst n|].
    + rewrite bool_decide_eq_true_2 by done. simpl. eexists _, _. split; [done|].
      split; [done|]. by eexists _, _.
    + rewrite bool_decide_eq_false_2 by done.
      rewrite (bind_step _ _ _ _ _ (next_at fs fd path c p (n, d) _ rem _ He)).
      simpl in Hfuel. apply IH; [done|lia].
Qed.

Lemma fopen_read fs path c :
  open_ok (fs_env fs) path = true -> fs_files fs !! path = Some c ->
  fopen_ path ModeR fs = Ok (Some (fresh_fd (fs_fds fs)),
    set_fds <[fresh_fd (fs_fds fs) := Fdesc path 0]> fs).
Proof.
  intros Ho Hc. destruct (fresh_fd_spec (fs_fds fs)) as [Hfd _]. unfold fopen_.
  rewrite (bind_step _ _ _ _ _ (open_read fs path c Ho Hc)).
  by rewrite (proj2 (Z.ltb_ge _ _)) by lia.
Qed.

Lemma open_r fs path f l t :
  open_ok (fs_env fs) path = true -> fs_files fs !! path = Some (archive (f :: l)) ->
  Forall file_ok (f :: l) -> Zlen (archive (f :: l)) < 2 ^ 31 ->
  mtar_open path (cs "r") (Mst t fs) =
    Ok (0, arch fs (fresh_fd (fs_fds fs)) path (archive (f :: l)) 0 0 0).
Proof.
  intros Ho Hc Hl Hsz. unfold mtar_open. rewrite (bind_step _ _ _ _ _ eq_refl), mode_r.
  erewrite bind_step.
  2: { unfold on_fs; simpl. rewrite (fopen_read fs path _ Ho Hc). reflexivity. }
  cbv beta iota. rewrite (bind_step _ _ _ _ _ eq_refl).
  assert (holds (archive (f :: l)) 0 (f :: l)) as Hh by (by split; [rewrite drop_0|split]).
  apply holds_cons in Hh as [He _].
  rewrite <- (set_files_insert_id fs path _ Hc) at 3.
  rewrite (bind_step _ _ _ _ _
    (header_at fs (fresh_fd (fs_fds fs)) path _ 0 f _ header_uninit 0 0 He)).
  done.
Qed.

Lemma read_member_spec fuel fs path name f l :
  open_ok (fs_env fs) path = true -> fs_files fs !! path = Some (archive (f :: l)) ->
  Forall file_ok (f :: l) -> Zlen (archive (f :: l)) < 2 ^ 31 -> (length (f :: l) < fuel)%nat ->
  read_member fuel path name fs =
    Ok (match lookup_file name (f :: l) with
        | Some d => (0, d)
        | None => (MTAR_ENOTFOUND, [])
        end, fs).
Proof.
  intros Ho Hc Hl Hsz Hfuel. unfold read_member.
  set (c := archive (f :: l)) in *. set (fd := fresh_fd (fs_fds fs)).
  assert (fs_fds fs !! fd = None) as Hfree by apply fresh_fd_spec.
  assert (mtar_find fuel name (arch fs fd path c 0 0 0) =
          mtar_find_loop fuel name header_uninit (arch fs fd path c 0 0 0)) as Hfind.
  { unfold mtar_find. rewrite (bind_step _ _ _ 0 (arch fs fd path c 0 0 0)); [done|]. unfold mtar_rewind.
    rewrite (bind_step _ _ _ _ _ eq_refl), (bind_step _ _ _ _ _ eq_refl).
    apply (seek_arch fs fd path c 0 0 0 0). lia. }
  destruct (find_arch fuel fs fd path c 0 name (f :: l) header_uninit 0 0) as (r & s & E & Hr);
    [by split; [rewrite drop_0|split]|done|]. rewrite <- Hfind in E. clear Hfind.
  destruct (lookup_file name (f :: l)) as [d|].
  - destruct Hr as [-> (p & rest & He & ->)].
    pose proof (read_data_at fs fd path c p (name, d) rest 0 (length d) (Z.of_nat p) He) as Hrd.
    simpl snd in Hrd. specialize (Hrd ltac:(lia) ltac:(lia)).
    assert (reading fs fd path c p d 0 (Z.of_nat p) = arch fs fd path c p 0 (Z.of_nat p)) as Hs0.
    { unfold reading. by rewrite decide_True by lia. }
    rewrite Hs0, drop_0, take_ge in Hrd by lia. simpl in Hrd.
    assert (reading fs fd path c p d (length d) (Z.of_nat p) = arch fs fd path c p 0 (Z.of_nat p))
      as Hs1.
    { unfold reading. by rewrite decide_True by lia. }
    rewrite Hs1 in Hrd. destruct (close_arch fs fd path c p 0 (Z.of_nat p) Hfree) as [t Hcl].
    erewrite with_mtar_run.
    2: { rewrite (bind_step _ _ _ _ _ (open_r fs path f l _ Ho Hc Hl Hsz)).
         simpl (if negb _ then _ else _). rewrite (bind_step _ _ _ _ _ E).
         rewrite (bind_step _ _ _ _ _ eq_refl).
         rewrite (bind_step _ _ _ _ _ Hrd). rewrite (bind_step _ _ _ _ _ Hcl). reflexivity. }
    simpl. by rewrite set_files_insert_id.
  - destruct Hr as [-> [p ->]].
    destruct (close_arch fs fd path c p 0 (Z.of_nat p) Hfree) as [t Hcl].
    erewrite with_mtar_run.
    2: { rewrite (bind_step _ _ _ _ _ (open_r fs path f l _ Ho Hc Hl Hsz)).
         simpl (if negb _ then _ else _). rewrite (bind_step _ _ _ _ _ E).
         rewrite (bind_step _ _ _ _ _ Hcl). reflexivity. }
    simpl. by rewrite set_files_insert_id.
Qed.

(** ** Extraction *)

Lemma before_last_slash_spec s :
  match before_last_slash s with
  | Some p => exists b, s = p ++ chr_slash :: b /\ (47 ∉ b)
  | None => 47 ∉ s
  end.
Proof.
  induction s as [|c s IH]; cbn [before_last_slash]; [set_solver|].
  destruct (before_last_slash s) as [p|].
  - destruct IH as (b & -> & Hb). by exists b.
  - unfold chr_slash. destruct (Z.eqb_spec c 47) as [->|Hc]; [by exists s|].
    rewrite not_elem_of_cons. split; [congruence|done].
Qed.

(** The directories above a file, from the root on. *)
Definition above (d : list bytes) : list (list bytes) := (fun n => take (S n) d) <$> seq 0 (pred (length d)).

Lemma elem_above q d : q ∈ above d <-> q <> [] /\ q `prefix_of` parent d.
Proof.
  unfold above, parent. destruct d as [|x d _] using rev_ind.
  { simpl. split; [by intros ?%elem_of_nil|]. intros [Hq ->%prefix_nil_inv]. done. }
  rewrite removelast_last, length_app, Nat.add_1_r. simpl pred. rewrite list_elem_of_fmap. split.
  - intros (n & -> & Hn%elem_of_seq). rewrite take_app_le by lia. split; [|apply prefix_take].
    intros E%(f_equal length). rewrite length_take in E. simpl length in E. lia.
  - intros [Hq [k ->]]. destruct q as [|y q]; [done|]. exists (length q). split.
    + rewrite <- app_assoc. symmetry. by apply take_app_length'.
    + apply elem_of_seq. rewrite length_app. simpl. lia.
Qed.

(** The path of a file that does not end in a slash, in two parts. *)
Lemma untar_path_dir dst name :
  (0 < length dst < 255)%nat -> last (untar_path dst name) <> Some 47 ->
  exists d b, before_last_slash (untar_path dst name) = Some d /\ d <> [] /\ (length d <= 255)%nat /\
    comps (untar_path dst name) = comps d ++ [b].
Proof.
  intros Hd Hlast. pose proof (before_last_slash_spec (untar_path dst name)) as H.
  assert (length (untar_path dst name) <= 255)%nat as Hlen.
  { unfold untar_path, MAX_PATH. rewrite length_take. lia. }
  assert (exists rest, untar_path dst name = dst ++ 47 :: rest) as [rest Hp].
  { unfold untar_path, MAX_PATH. change (Z.to_nat (256 - 1)) with 255%nat.
    rewrite take_app_ge by lia. destruct (255 - length dst)%nat as [|n] eqn:En; [lia|]. by eexists. }
  destruct (before_last_slash _) as [d|].
  2: { exfalso. apply H. rewrite Hp. set_solver. }
  destruct H as (b & E & Hb). exists d, b. split; [done|].
  assert (b <> []) as Hne.
  { intros ->. apply Hlast. rewrite E. by rewrite last_snoc. }
  split_and!.
  - intros ->. rewrite E in Hp. destruct dst as [|c dst]; [simpl in Hd; lia|].
    simpl in Hp. injection Hp as _ Hp. apply Hb. rewrite Hp. set_solver.
  - apply (f_equal length) in E. rewrite length_app in E. simpl in E. lia.
  - unfold chr_slash in E. rewrite E, comps_slash, (comps_plain b) by done. by destruct b.
Qed.

(** The archive stream next to an output file holding [w] so far. *)
Definition out (fs : fsys) (fd2 : Z) (full w : bytes) : fsys :=
  set_fds <[fd2 := Fdesc full (length w)]> (set_files <[full := w]> fs).

Lemma arch_out fs fd path c p rem last fd2 full w :
  fd <> fd2 -> path <> full ->
  arch (out fs fd2 full w) fd path c p rem last =
    Mst (Mtar fd (Z.of_nat p) rem last)
      (set_fds <[fd2 := Fdesc full (length w)]> (set_files <[full := w]>
        (tfs (arch fs fd path c p rem last)))).
Proof.
  intros Hf Hp. unfold arch, out, set_fds, set_files. simpl. f_equal.
  by rewrite (insert_insert_ne _ fd), (insert_insert_ne _ path).
Qed.

Lemma open_out fs fd path c p rem last full :
  openable (tfs (arch fs fd path c p rem last)) full = true -> path <> full ->
  exists fd2, fd <> fd2 /\ fs_fds fs !! fd2 = None /\
    on_fs (fopen_ full ModeW) (arch fs fd path c p rem last) =
      Ok (Some fd2, arch (out fs fd2 full []) fd path c p rem last).
Proof.
  intros Ho Hp. set (fs1 := tfs (arch fs fd path c p rem last)).
  destruct (fresh_fd_spec (fs_fds fs1)) as [Hge Hfree]. exists (fresh_fd (fs_fds fs1)).
  simpl in Hfree. apply lookup_insert_None in Hfree as [Hfree Hne].
  split; [done|]. split; [done|]. rewrite arch_out by done. unfold on_fs, fopen_.
  rewrite (bind_step _ _ _ _ _ (open_write fs1 full Ho)).
  by rewrite (proj2 (Z.ltb_ge _ _)) by lia.
Qed.

Lemma write_out fs fd path c p rem last fd2 full w d :
  write_ok (fs_env fs) full = true -> fd <> fd2 -> path <> full ->
  on_fs (write_ fd2 d) (arch (out fs fd2 full w) fd path c p rem last) =
    Ok (Zlen d, arch (out fs fd2 full (w ++ d)) fd path c p rem last).
Proof.
  intros Hw Hf Hp. rewrite !arch_out by done. unfold on_fs, write_. simpl.
  rewrite lookup_insert_eq. simpl. rewrite lookup_insert_eq, Hw, overwrite_end.
  unfold set_fds, set_files. simpl. by rewrite !insert_insert_eq, length_app.
Qed.

Lemma close_out fs fd path c p rem last fd2 full w :
  fd <> fd2 -> path <> full -> fs_fds fs !! fd2 = None ->
  on_fs (close_ fd2) (arch (out fs fd2 full w) fd path c p rem last) =
    Ok (0, arch (set_files <[full := w]> fs) fd path c p rem last).
Proof.
  intros Hf Hp Hfree. rewrite arch_out by done. unfold on_fs, close_. simpl.
  rewrite lookup_insert_eq. unfold arch, set_fds, set_files. simpl.
  rewrite delete_insert_id by (by rewrite lookup_insert_ne).
  by rewrite (insert_insert_ne _ path).
Qed.

Lemma reading_arch fs fd path c p d k last :
  exists q rem lst, reading fs fd path c p d k last = arch fs fd path c q rem lst /\
    forall fs', reading fs' fd path c p d k last = arch fs' fd path c q rem lst.
Proof. unfold reading. case_decide; by eexists _, _, _. Qed.

Lemma untar_copy_at fuel fs fd path c p f rest fd2 full k last :
  has_entry c p f rest -> write_ok (fs_env fs) full = true -> fd <> fd2 -> path <> full ->
  (k <= length f.2)%nat -> (length f.2 - k + 512 <= fuel * 512)%nat ->
  exists last',
  untar_copy fuel (Some fd2) (Zlen f.2 - Z.of_nat k)
    (reading (out fs fd2 full (take k f.2)) fd path c p f.2 k last) =
  Ok (0, arch (out fs fd2 full f.2) fd path c p 0 last').
Proof.
  intros He Hw Hf Hp. revert k last.
  induction fuel as [|fuel IH]; intros k last Hk Hfuel; [lia|]. cbn [untar_copy].
  destruct (Z.ltb_spec 0 (Zlen f.2 - Z.of_nat k)) as [Hlt|Hge].
  - assert (exists n, (0 < n)%nat /\ (k + n <= length f.2)%nat /\
      (n = 512 \/ k + n = length f.2)%nat /\
      (if 512 <? Zlen f.2 - Z.of_nat k then 512 else Zlen f.2 - Z.of_nat k) = Z.of_nat n)
      as (n & Hn0 & Hkn & Hn & ->).
    { unfold Zlen in *. destruct (Z.ltb_spec 512 (Z.of_nat (length f.2) - Z.of_nat k)).
      - exists 512%nat. lia.
      - exists (length f.2 - k)%nat. lia. }
    cbv zeta. rewrite (bind_step _ _ _ _ _
      (read_data_at _ fd path c p f rest k n last He Hkn ltac:(lia))).
    simpl (if negb _ then _ else _).
    destruct (reading_arch (out fs fd2 full (take k f.2)) fd path c p f.2 (k + n) (Z.of_nat p))
      as (q & rem & lst & Hq & Hq'). rewrite Hq.
    rewrite (bind_step _ _ _ _ _ (write_out fs fd path c q rem lst fd2 full _ _ Hw Hf Hp)).
    simpl snd. rewrite take_take_drop, <- Hq'.
    replace (Zlen f.2 - Z.of_nat k - Z.of_nat n) with (Zlen f.2 - Z.of_nat (k + n)) by lia.
    apply IH; lia.
  - exists last. unfold Zlen in Hge. unfold reading. rewrite decide_True by lia.
    by rewrite take_ge by lia.
Qed.

(** What extraction leaves: every file at its path, later entries over earlier ones. *)
Definition extracted (dst : bytes) (l : list (bytes * bytes)) (m : gmap bytes bytes) :=
  foldl (fun m f => <[untar_path dst f.1 := f.2]> m) m l.

(** A file that can be extracted next to the archive [path]: the medium takes it, its name does not
    end in a slash, it is not a directory, and what is above it is not a file. *)
Definition entry_fits (fs : fsys) (path dst : bytes) (g : bytes * bytes) : Prop :=
  let full := untar_path dst g.1 in
  open_ok (fs_env fs) full = true /\ write_ok (fs_env fs) full = true /\
  last full <> Some 47 /\ comps path <> comps full /\ (comps full ∉ fs_dirs fs) /\
  Forall (fun q => is_file fs q = false /\ q <> comps path) (above (comps full)).
#[export] Instance entry_fits_dec fs path dst g : Decision (entry_fits fs path dst g).
Proof. unfold entry_fits. apply _. Defined.

(** Two files of an archive that do not stand in each other's way. *)
Definition apart (dst : bytes) (g h : bytes * bytes) : Prop :=
  (comps (untar_path dst g.1) ∉ above (comps (untar_path dst h.1))) /\
  (comps (untar_path dst h.1) ∉ above (comps (untar_path dst g.1))) /\
  (comps (untar_path dst g.1) = comps (untar_path dst h.1) -> untar_path dst g.1 = untar_path dst h.1).
#[export] Instance apart_dec dst g h : Decision (apart dst g h).
Proof. unfold apart. apply _. Defined.

(** [dirs] are those of [fs] and those above the files of [l]. *)
Definition with_above (fs : fsys) (dst : bytes) (l : list (bytes * bytes)) (dirs : list (list bytes)) : Prop :=
  forall q, q ∈ dirs <-> q ∈ fs_dirs fs \/ exists g, g ∈ l /\ q ∈ above (comps (untar_path dst g.1)).

Lemma untar_entry_at fuel fs fd path c p f rest dst rem last :
  has_entry c p f rest -> (length f.2 + 512 <= fuel * 512)%nat -> rem = 0 ->
  (0 < length dst < 255)%nat -> entry_fits fs path dst f ->
  exists dirs last',
  untar_entry fuel dst (file_header f.1 (Zlen f.2)) (arch fs fd path c p rem last) =
    Ok (None, arch (set_files <[untar_path dst f.1 := f.2]> (set_dirs dirs fs)) fd path c p 0
                last') /\ with_above fs dst [f] dirs.
Proof.
  intros He Hfuel -> Hdst (Ho & Hw & Hlast & Hp & Hnd & Hab).
  unfold untar_entry. cbv zeta. cbn [h_type h_name file_header].
  rewrite Z.eqb_refl.
  destruct (untar_path_dir dst f.1 Hdst Hlast) as (d & b & Hd & Hne & Hlen & Hcomps).
  set (full := untar_path dst f.1) in *. rewrite Hd.
  assert (forall q, q ∈ above (comps full) <-> q <> [] /\ q `prefix_of` comps d) as Habove.
  { intros q. rewrite elem_above. unfold parent. by rewrite Hcomps, removelast_last. }
  assert (path <> full) as Hpf by congruence.
  set (s0 := tfs (arch fs fd path c p 0 last)).
  destruct (mkdir_recursive_ok d s0 Hne Hlen) as (dirs & Hmk & Hdirs).
  { intros q Hq Hpre. apply not_true_iff_false. intros Hf.
    rewrite Forall_forall in Hab. destruct (Hab q) as [H1 H2]; [by apply Habove|].
    change (is_file s0 q) with (is_file (set_files <[path := c]> fs) q) in Hf.
    apply is_file_insert in Hf as [->|Hf]; [done|]. by rewrite H1 in Hf. }
  exists dirs. set (fs1 := set_dirs dirs fs).
  assert (openable (tfs (arch fs1 fd path c p 0 last)) full = true) as Hopen.
  { unfold openable. apply andb_true_iff. split; [done|]. apply orb_true_iff. right.
    unfold can_create. apply andb_true_iff. split; [|apply negb_true_iff, not_true_iff_false]; rewrite is_dir_spec; simpl.
    - unfold parent. rewrite Hcomps, removelast_last. destruct (comps d) eqn:Ed; [by left|right].
      apply Hdirs. right. split; [done|]. first [done|by rewrite Ed].
    - rewrite Hdirs. intros [E|[E|[_ [k E]]]]; [rewrite Hcomps in E; by destruct (comps d)|done|].
      apply (f_equal length) in E. rewrite Hcomps, !length_app in E. simpl in E. lia. }
  destruct (open_out fs1 fd path c p 0 last full Hopen Hpf) as (fd2 & Hfd & Hfree & Hop).
  destruct (untar_copy_at fuel fs1 fd path c p f rest fd2 full 0 last) as [last' Hcp];
    [done|done|done|done|lia|lia|]. exists last'. split.
  2: { intros q. rewrite Hdirs. split.
       - intros [Hq|Hq]; [by left|right]. exists f. split; [left|]. by apply Habove.
       - intros [Hq|(g & ->%list_elem_of_singleton & Hq)]; [by left|right]. by apply Habove. }
  rewrite (bind_step _ _ _ tt (arch fs1 fd path c p 0 last)).
  2: { unfold on_fs. fold s0. by rewrite Hmk. }
  rewrite (bind_step _ _ _ _ _ Hop). simpl header_size.
  rewrite (bind_step _ _ _ _ _ eq_refl).
  destruct He as (_ & _ & Hl). pose proof (Zlen_nonneg f.2). rewrite i32_small by lia.
  rewrite Z.sub_0_r in Hcp. unfold reading in Hcp at 1.
  rewrite decide_True in Hcp by lia. rewrite (bind_step _ _ _ _ _ Hcp).
  by rewrite (bind_step _ _ _ _ _ (close_out fs1 fd path c p 0 last' fd2 full f.2 Hfd Hpf Hfree)).
Qed.

(** The other files still fit when one has been extracted. *)
Lemma entry_fits_next fs path dst f g dirs :
  entry_fits fs path dst g -> apart dst f g -> with_above fs dst [f] dirs ->
  entry_fits (set_files <[untar_path dst f.1 := f.2]> (set_dirs dirs fs)) path dst g.
Proof.
  intros (Ho & Hw & Hlast & Hp & Hnd & Hab) (A1 & A2 & _) Hdirs. unfold entry_fits. cbv zeta.
  split_and!; [done..| |].
  - intros Hin. change (comps (untar_path dst g.1) ∈ dirs) in Hin. apply Hdirs in Hin as [H|(h & ->%list_elem_of_singleton & H)]; done.
  - rewrite Forall_forall in Hab |- *. intros q Hq. destruct (Hab q Hq) as [H1 H2]. split; [|done].
    apply not_true_iff_false. rewrite is_file_insert. intros [->|H]; [done|].
    change (is_file fs q = true) in H. by rewrite H1 in H.
Qed.

Lemma untar_loop_at fuel fs fd path c p l dst h0 last :
  holds c p l -> (length l < fuel)%nat -> (0 < length dst < 255)%nat ->
  Forall (fun f => (length l + (length f.2 / 512) + 1 < fuel)%nat) l ->
  Forall (entry_fits fs path dst) l -> ForallOrdPairs (apart dst) l ->
  fs_fds fs !! fd = None ->
  exists dirs s,
    untar_loop fuel dst h0 (arch fs fd path c p 0 last) = Ok (0, s) /\
    tfs s = set_files <[path := c]> (set_files (extracted dst l) (set_dirs dirs fs)) /\
    with_above fs dst l dirs.
Proof.
  intros Hh Hfuel Hdst. revert fuel fs p h0 last Hh Hfuel.
  induction l as [|f l IH]; intros fuel fs p h0 last Hh Hfuel Hlen Hfits Hap Hfree;
    (destruct fuel as [|fuel]; [lia|]); cbn [untar_loop].
  - rewrite (bind_step _ _ _ _ _ (null_at fs fd path c p h0 0 last Hh)). simpl.
    destruct (close_arch fs fd path c p 0 (Z.of_nat p) Hfree) as [t Hc].
    rewrite (bind_step _ _ _ _ _ Hc). exists (fs_dirs fs). eexists. split; [done|].
    split; [simpl; by destruct fs|]. intros q. split; [by left|]. intros [H|(g & []%not_elem_of_nil & _)]. done.
  - apply holds_cons in Hh as [He Hh]. apply Forall_cons in Hlen as [Hf Hlen].
    apply Forall_cons in Hfits as [Hfit Hfits]. inversion Hap as [|? ? Hap1 Hap']; subst.
    rewrite (bind_step _ _ _ _ _ (header_at fs fd path c p f _ h0 0 last He)). simpl fst.
    rewrite Z.eqb_refl. simpl snd.
    destruct (untar_entry_at (S fuel) fs fd path c p f _ dst 0 (Z.of_nat p) He)
      as (dirs & last' & E & Hd); [|done..|].
    { simpl length in Hf at 1. pose proof (Nat.div_mod (length f.2) 512 ltac:(lia)).
      pose proof (Nat.mod_upper_bound (length f.2) 512 ltac:(lia)). lia. }
    rewrite (bind_step _ _ _ _ _ E).
    set (fs1 := set_files _ (set_dirs dirs fs)).
    rewrite (bind_step _ _ _ _ _ (next_at fs1 fd path c p f _ 0 last' He)).
    destruct (IH fuel fs1 (p + length (entry f))%nat (file_header f.1 (Zlen f.2)) (Z.of_nat p))
      as (dirs' & s & Hs & Hfs & Hd'); [done|simpl in *; lia| | |done|done|].
    { eapply Forall_impl; [exact Hlen|]. simpl. intros g Hg. lia. }
    { rewrite Forall_forall in Hfits, Hap1 |- *. intros g Hg. apply entry_fits_next; auto. }
    exists dirs', s. split; [done|]. split; [by rewrite Hfs|].
    intros q. rewrite (Hd' q). change (fs_dirs fs1) with dirs. rewrite (Hd q). split.
    + intros [[H|(g & ->%list_elem_of_singleton & H)]|(g & Hg & H)]; [by left|right; exists f|right; exists g];
        (split; [|done]); [left|by right].
    + intros [H|(g & [->|Hg]%elem_of_cons & H)]; [by do 2 left|left; right|right]; eexists; (split; [|done]); [left|done].
Qed.

Lemma untar_spec fuel fs tar_path dst f l :
  open_ok (fs_env fs) tar_path = true -> fs_files fs !! tar_path = Some (archive (f :: l)) ->
  Forall file_ok (f :: l) -> Zlen (archive (f :: l)) < 2 ^ 31 -> (0 < length dst < 255)%nat ->
  Forall (fun g => (length (f :: l) + (length g.2 / 512) + 1 < fuel)%nat) (f :: l) ->
  Forall (entry_fits fs tar_path dst) (f :: l) -> ForallOrdPairs (apart dst) (f :: l) ->
  exists dirs, untar fuel tar_path dst fs =
    Ok (0, set_files (extracted dst (f :: l)) (set_dirs dirs fs)) /\ with_above fs dst (f :: l) dirs.
Proof.
  intros Ho Hc Hl Hsz Hdst Hlen Hfits Hap. set (c := archive (f :: l)) in *.
  set (fd := fresh_fd (fs_fds fs)).
  assert (fs_fds fs !! fd = None) as Hfree by apply fresh_fd_spec.
  assert (holds c 0 (f :: l)) as Hh by (by split; [rewrite drop_0|split]).
  destruct (untar_loop_at fuel fs fd tar_path c 0 (f :: l) dst header_uninit 0)
    as (dirs & s & E & Hs & Hd); [done| |done|done|done|done|done|].
  { apply Forall_cons in Hlen as [? _]. lia. }
  exists dirs. split; [|done]. unfold untar. erewrite with_mtar_run.
  2: { rewrite (bind_step _ _ _ _ _ (open_r fs tar_path f l _ Ho Hc Hl Hsz)).
       simpl (if negb _ then _ else _). exact E. }
  rewrite Hs. do 2 f_equal. unfold set_files. simpl. f_equal. apply insert_id.
  assert (Forall (fun g => tar_path <> untar_path dst g.1) (f :: l)) as Hne.
  { eapply Forall_impl; [exact Hfits|]. intros g (_ & _ & _ & Hg & _) E'. apply Hg. by rewrite E'. }
  apply Forall_cons in Hne as [Hne1 Hne]. unfold extracted. simpl.
  rewrite <- (lookup_insert_ne (fs_files fs) _ tar_path f.2 (not_eq_sym Hne1)) in Hc.
  clearbody c. revert Hc. clear -Hne. generalize (<[untar_path dst f.1 := f.2]> (fs_files fs)).
  induction Hne as [|g gs Hg _ IH]; intros m Hm; [done|]. apply IH.
  by rewrite lookup_insert_ne.
Qed.

(** ** Properties *)

Definition files_ok (fs : fsys) (path : bytes) (l : list (bytes * bytes)) : Prop :=
  l <> [] /\ Forall file_ok l /\ Zlen (archive l) < 2 ^ 31 /\
  openable fs path = true /\ write_ok (fs_env fs) path = true.
#[export] Instance files_ok_dec fs path l : Decision (files_ok fs path l).
Proof. unfold files_ok. apply _. Defined.

(** C21. An archive written with the library (header and data of every file, then
    [mtar_finalize]) is opened, searched and read back: [mtar_find] followed by
    [mtar_read_data] gives the bytes of the first file of that name, a name that was not
    written gives [MTAR_ENOTFOUND], and neither leaves a stream open.  The archive can be opened and written. *)
Theorem archive_round_trip fs path l name fuel :
  files_ok fs path l -> (length l < fuel)%nat ->
  exists fs',
    write_archive path l fs = Ok (0, fs') /\ fs_fds fs' = fs_fds fs /\
    read_member fuel path name fs' =
      Ok (match lookup_file name l with
          | Some d => (MTAR_ESUCCESS, d)
          | None => (MTAR_ENOTFOUND, [])
          end, fs').
Proof.
  intros (Hne & Hl & Hsz & Ho & Hw) Hfuel. destruct l as [|f l]; [done|].
  rewrite write_archive_spec by done. eexists. split; [done|]. split; [done|].
  apply read_member_spec; try done; [by apply (openable_ok fs)|apply lookup_insert_eq].
Qed.

Definition demo_files : list (bytes * bytes) :=
  [(cs "app.bin", replicate 700 7); (cs "empty", []); (cs "img/a.png", [1; 2; 3])].
Definition demo_fs : fsys := Fsys ∅ [] ∅ (Fsenv (fun _ => true) (fun _ => true)).

Lemma archive_round_trip_witness :
  exists fs',
    write_archive (cs "/a.tar") demo_files demo_fs = Ok (0, fs') /\ fs_fds fs' = ∅ /\
    read_member 4 (cs "/a.tar") (cs "img/a.png") fs' = Ok ((MTAR_ESUCCESS, [1; 2; 3]), fs').
Proof.
  apply (archive_round_trip demo_fs (cs "/a.tar") demo_files (cs "img/a.png") 4).
  - apply (bool_decide_unpack _). vm_compute. exact I.
  - simpl. lia.
Defined.

(** C9. [untar] of an archive that the library wrote creates every file under the target directory
    with exactly its bytes (whatever their length: the copy goes in 512-byte blocks), later
    entries over earlier ones of the same path; it makes the directories above the files that
    are missing, the target directory included, and no others; it touches no other file, closes
    every stream and returns 0.  The files must have room: a name does not end in a slash, no
    file stands where a directory is needed or the other way round, the archive is not among
    the files extracted, and the medium refuses nothing. *)
Theorem untar_extracts fs tar_path dst l fuel :
  files_ok fs tar_path l -> (0 < length dst < 255)%nat ->
  Forall (fun g => (length l + length g.2 / 512 + 1 < fuel)%nat) l ->
  Forall (entry_fits fs tar_path dst) l -> ForallOrdPairs (apart dst) l ->
  exists fs1 fs2,
    write_archive tar_path l fs = Ok (0, fs1) /\
    untar fuel tar_path dst fs1 = Ok (0, fs2) /\
    fs_files fs2 = extracted dst l (<[tar_path := archive l]> (fs_files fs)) /\
    (forall q, q ∈ fs_dirs fs2 <->
       q ∈ fs_dirs fs \/ exists g, g ∈ l /\ q ∈ above (comps (untar_path dst g.1))) /\
    fs_fds fs2 = fs_fds fs.
Proof.
  intros (Hne & Hl & Hsz & Ho & Hw) Hdst Hlen Hfits Hap. destruct l as [|f l]; [done|].
  rewrite write_archive_spec by done.
  set (fs1 := set_files <[tar_path := archive (f :: l)]> fs).
  destruct (untar_spec fuel fs1 tar_path dst f l) as (dirs & E & Hd);
    [by apply (openable_ok fs)|apply lookup_insert_eq|done|done|done|done| |done|].
  - eapply Forall_impl; [exact Hfits|]. intros g (H1 & H2 & H3 & H4 & H5 & H6). split_and!; [done..|].
    eapply Forall_impl; [exact H6|]. intros q [Hq Hqp]. split; [|done]. apply not_true_iff_false.
    unfold fs1. rewrite is_file_insert. intros [?|Hf]; [done|]. by rewrite Hq in Hf.
  - eexists _, _. split; [done|]. split; [exact E|]. done.
Qed.

(** Nothing but the root is there at first. *)
Lemma untar_extracts_witness :
  exists fs1 fs2,
    write_archive (cs "/a.tar") demo_files demo_fs = Ok (0, fs1) /\
    untar 8 (cs "/a.tar") (cs "/sysfile/x") fs1 = Ok (0, fs2) /\
    fs_files fs2 = extracted (cs "/sysfile/x") demo_files
                     (<[cs "/a.tar" := archive demo_files]> ∅) /\
    (forall q, q ∈ fs_dirs fs2 <->
       q ∈ fs_dirs demo_fs \/ exists g, g ∈ demo_files /\ q ∈ above (comps (untar_path (cs "/sysfile/x") g.1))) /\
    fs_fds fs2 = ∅.
Proof.
  apply (untar_extracts demo_fs (cs "/a.tar") (cs "/sysfile/x") demo_files 8).
  - apply (bool_decide_unpack _). vm_compute. exact I.
  - simpl. lia.
  - apply (bool_decide_unpack _). vm_compute. exact I.
  - apply (bool_decide_unpack _). vm_compute. exact I.
  - repeat constructor; apply (bool_decide_unpack _); vm_compute; exact I.
Defined.

(** A header whose size is between 2^32-1023 and 2^32-512 makes [round_up] give 2^32-512:
    [mtar_next] adds 0 to the position, seeks to the same record and reports success. *)
Theorem mtar_next_stuck fs fd path c p rh rest h size rem last :
  drop p c = rh ++ rest -> length rh = 512%nat -> Z.of_nat p + 512 < 2 ^ 31 ->
  raw_to_header header_uninit rh = Ok (MTAR_ESUCCESS, h) -> h_size h = Some size ->
  2 ^ 32 - 1024 < size <= 2 ^ 32 - 512 ->
  mtar_next (arch fs fd path c p rem last) = Ok (0, arch fs fd path c p rem (Z.of_nat p)).
Proof.
  intros Hd Hl Hp Hr Hs Hsz. unfold mtar_next.
  rewrite (bind_step _ _ _ _ _
    (read_header_arch fs fd path c p rem last rh rest header_uninit _ h Hd Hl Hp Hr)).
  simpl (if negb _ then _ else _). unfold header_size. simpl snd. rewrite Hs.
  rewrite (bind_step _ _ _ _ _ eq_refl), (bind_step _ _ _ _ _ eq_refl).
  assert (i32 (round_up size 512 + sizeof_raw) = 0) as ->.
  { unfold round_up, sizeof_raw. rewrite (wrap_small 32 (512 - _)) by zlia.
    assert (u32 (size + (512 - size mod 512) mod 512) = 2 ^ 32 - 512) as ->; [|done].
    rewrite wrap_small; zlia. }
  simpl pos. rewrite wrap_small by lia. rewrite Z.add_0_r. apply seek_arch. lia.
Qed.

(** A directory record of 2^32-512 bytes with a correct checksum. *)
Definition stuck_header : mtar_header_t :=
  MtarHeader (Some 509) (Some 0) (Some (2 ^ 32 - 512)) (Some 0) MTAR_TDIR (cs "d") [].
Definition stuck_raw : bytes :=
  match header_to_raw stuck_header with Ok rh => rh | Err _ => [] end.

Lemma mtar_next_stuck_witness :
  mtar_next (arch demo_fs 3 (cs "/a.tar") stuck_raw 0 0 0) =
    Ok (0, arch demo_fs 3 (cs "/a.tar") stuck_raw 0 0 0).
Proof.
  apply (mtar_next_stuck demo_fs 3 (cs "/a.tar") stuck_raw 0 stuck_raw [] stuck_header (2 ^ 32 - 512) 0 0);
    [vm_compute; reflexivity|vm_compute; reflexivity|lia|vm_compute; reflexivity
    |reflexivity|lia].
Defined.

Definition stuck_fs : fsys := set_files <[cs "/a.tar" := stuck_raw]> demo_fs.

Lemma stuck_loop fuel h0 last :
  untar_loop fuel (cs "/d") h0 (arch stuck_fs 3 (cs "/a.tar") stuck_raw 0 0 last) = Err Spin.
Proof.
  revert h0 last. induction fuel as [|fuel IH]; intros h0 last; [done|]. cbn [untar_loop].
  assert (forall h, raw_to_header h stuck_raw = Ok (MTAR_ESUCCESS, stuck_header)) as Hr.
  { intros h. vm_compute. reflexivity. }
  rewrite (bind_step _ _ _ _ _
    (read_header_arch stuck_fs 3 (cs "/a.tar") stuck_raw 0 0 last stuck_raw [] h0 _ _
       eq_refl eq_refl ltac:(lia) (Hr h0))).
  simpl fst. rewrite Z.eqb_refl. simpl snd.
  rewrite (bind_step _ _ _ None (arch stuck_fs 3 (cs "/a.tar") stuck_raw 0 0 0)); [|done].
  assert (mtar_next (arch stuck_fs 3 (cs "/a.tar") stuck_raw 0 0 0) =
          Ok (0, arch stuck_fs 3 (cs "/a.tar") stuck_raw 0 0 0)) as Hn.
  { vm_compute. reflexivity. }
  rewrite (bind_step _ _ _ _ _ Hn). apply IH.
Qed.

(** [untar] of such a one-record archive does not end, however long it runs. *)
Theorem untar_spins fuel : untar fuel (cs "/a.tar") (cs "/d") stuck_fs = Err Spin.
Proof.
  unfold untar, with_mtar. rewrite (bind_step _ _ _ 0 (arch stuck_fs 3 (cs "/a.tar") stuck_raw 0 0 0)).
  - simpl (if negb _ then _ else _). by rewrite stuck_loop.
  - vm_compute. reflexivity.
Qed.

(** A record whose checksum is wrong, or an archive cut short, ends the loop of [untar]
    like the end of the archive does: the files behind it are not extracted and the result
    is 0, success. *)
Theorem untar_hides_errors fuel fs fd path c p dst h0 h1 err s last :
  mtar_read_header h0 (arch fs fd path c p 0 last) = Ok ((err, h1), s) ->
  err <> MTAR_ESUCCESS -> is_ok (mtar_close s) = true ->
  exists s', untar_loop (S fuel) dst h0 (arch fs fd path c p 0 last) = Ok (0, s').
Proof.
  intros Hr He Hc. cbn [untar_loop]. rewrite (bind_step _ _ _ _ _ Hr). cbn [fst snd].
  rewrite (proj2 (Z.eqb_neq err MTAR_ESUCCESS)) by done.
  destruct (mtar_close s) as [[e s']|] eqn:E; [|done].
  rewrite (bind_step _ _ _ _ _ E). by eexists.
Qed.

Lemma untar_hides_errors_witness :
  exists s', untar_loop 1 (cs "/d") header_uninit
    (arch demo_fs 3 (cs "/a.tar") (<[0%nat := 65]> stuck_raw) 0 0 0) = Ok (0, s').
Proof.
  apply (untar_hides_errors 0 demo_fs 3 (cs "/a.tar") _ 0 (cs "/d") header_uninit header_uninit
    MTAR_EBADCHKSUM (arch demo_fs 3 (cs "/a.tar") (<[0%nat := 65]> stuck_raw) 0 0 0) 0);
    [vm_compute; reflexivity|discriminate|vm_compute; reflexivity].
Defined.
