(* ===== verification/Paint.v ===== *)
(** The frame buffer of the e-paper: [components/epaper/gui/GUI_Paint.c], the image state,
    pixel addressing under the four rotations and mirrors, clearing and bitmaps.

    [Paint.Image] is the buffer itself; an access outside it is [OutOfBounds].  [pixel] reads
    a pixel back at its drawing coordinates; the central theorem is that [Paint_SetPixel]
    changes that pixel and no other. *)

From S2P Require Import Prelude.
#[local] Open Scope Z_scope.

(** ** State *)

Record PAINT := MkPaint {
  Image : option bytes;       (* None: NULL *)
  Width : Z; Height : Z;
  WidthMemory : Z; HeightMemory : Z;
  Color : Z;
  Rotate : Z;
  Mirror : Z;
  WidthByte : Z; HeightByte : Z;
  Scale : Z;
}.

Definition ROTATE_0 := 0.
Definition ROTATE_90 := 90.
Definition ROTATE_180 := 180.
Definition ROTATE_270 := 270.
Definition MIRROR_NONE := 0.
Definition MIRROR_HORIZONTAL := 1.
Definition MIRROR_VERTICAL := 2.
Definition MIRROR_ORIGIN := 3.
Definition WHITE := 255.
Definition BLACK := 0.
Definition IMAGE_BACKGROUND := WHITE.
Definition FONT_BACKGROUND := WHITE.

Definition set_image (im : option bytes) (p : PAINT) : PAINT :=
  MkPaint im (Width p) (Height p) (WidthMemory p) (HeightMemory p) (Color p) (Rotate p)
    (Mirror p) (WidthByte p) (HeightByte p) (Scale p).

(** ** Operations *)

Definition bytes_per_row (w per : Z) : Z := if w mod per =? 0 then w / per else w / per + 1.

Definition Paint_NewImage (image : option bytes) (width height rotate color : Z) : M PAINT unit :=
  let '(w, h) := if (rotate =? ROTATE_0) || (rotate =? ROTATE_180) then (width, height)
                 else (height, width) in
  put (MkPaint image w h width height color rotate MIRROR_NONE
         (bytes_per_row width 8) height 2).

Definition Paint_SelectImage (image : option bytes) : M PAINT unit := modify (set_image image).

Definition Paint_SetRotate (rotate : Z) : M PAINT unit :=
  if (rotate =? ROTATE_0) || (rotate =? ROTATE_90) || (rotate =? ROTATE_180)
     || (rotate =? ROTATE_270)
  then modify (fun p => MkPaint (Image p) (Width p) (Height p) (WidthMemory p) (HeightMemory p)
                          (Color p) rotate (Mirror p) (WidthByte p) (HeightByte p) (Scale p))
  else mret tt.

Definition Paint_SetScale (scale : Z) : M PAINT unit :=
  let scale := u8 scale in
  let set per := modify (fun p =>
    MkPaint (Image p) (Width p) (Height p) (WidthMemory p) (HeightMemory p) (Color p)
      (Rotate p) (Mirror p) (bytes_per_row (WidthMemory p) per) (HeightByte p) scale) in
  if scale =? 2 then set 8
  else if scale =? 4 then set 4
  else if scale =? 7 then set 2
  else mret tt.

Definition Paint_SetMirroring (mirror : Z) : M PAINT unit :=
  let mirror := u8 mirror in
  if (mirror =? MIRROR_NONE) || (mirror =? MIRROR_HORIZONTAL) || (mirror =? MIRROR_VERTICAL)
     || (mirror =? MIRROR_ORIGIN)
  then modify (fun p => MkPaint (Image p) (Width p) (Height p) (WidthMemory p) (HeightMemory p)
                          (Color p) (Rotate p) mirror (WidthByte p) (HeightByte p) (Scale p))
  else mret tt.

(** The two switches of [Paint_SetPixel]: the memory coordinates, [None] for a return. *)
Definition rotate_xy (p : PAINT) (x y : Z) : option (Z * Z) :=
  let r := Rotate p in
  if r =? 0 then Some (x, y)
  else if r =? 90 then Some (u16 (WidthMemory p - y - 1), x)
  else if r =? 180 then Some (u16 (WidthMemory p - x - 1), u16 (HeightMemory p - y - 1))
  else if r =? 270 then Some (y, u16 (HeightMemory p - x - 1))
  else None.

Definition mirror_xy (p : PAINT) (c : Z * Z) : option (Z * Z) :=
  let '(x, y) := c in
  let m := Mirror p in
  if m =? MIRROR_NONE then Some (x, y)
  else if m =? MIRROR_HORIZONTAL then Some (u16 (WidthMemory p - x - 1), y)
  else if m =? MIRROR_VERTICAL then Some (x, u16 (HeightMemory p - y - 1))
  else if m =? MIRROR_ORIGIN then
    Some (u16 (WidthMemory p - x - 1), u16 (HeightMemory p - y - 1))
  else None.

(** [Paint.Image[Addr]] read and written. *)
Definition image_get (addr : Z) : M PAINT Z :=
  p ← get;
  match Image p with
  | None => throw NullDeref
  | Some im => lift (aget im addr)
  end.
Definition image_set (addr v : Z) : M PAINT unit :=
  p ← get;
  match Image p with
  | None => throw NullDeref
  | Some im => im' ← lift (aset im addr (u8 v)); put (set_image (Some im') p)
  end.

(** The last part of [Paint_SetPixel]: the read-modify-write of one byte. *)
Definition write_pixel (x y color : Z) : M PAINT unit :=
  p ← get;
  if Scale p =? 2 then
    let addr := x / 8 + y * WidthByte p in
    rdata ← image_get addr;
    if color =? BLACK
    then image_set addr (Z.land rdata (Z.lnot (Z.shiftr 128 (x mod 8))))
    else image_set addr (Z.lor rdata (Z.shiftr 128 (x mod 8)))
  else if Scale p =? 4 then
    let addr := x / 4 + y * WidthByte p in
    let color := color mod 4 in
    rdata ← image_get addr;
    let rdata := Z.land rdata (Z.lnot (Z.shiftr 192 (x mod 4 * 2))) in
    image_set addr (Z.lor rdata (Z.shiftr (Z.shiftl color 6) (x mod 4 * 2)))
  else if Scale p =? 7 then
    let addr := x / 2 + y * WidthByte p in
    rdata ← image_get addr;
    let rdata := Z.land rdata (Z.lnot (Z.shiftr 240 (x mod 2 * 4))) in
    image_set addr (Z.lor rdata (Z.shiftr (Z.shiftl color 4) (x mod 2 * 4)))
  else mret tt.

(** [Paint_SetPixel]; the arguments are converted to [UWORD] by the call. *)
Definition Paint_SetPixel (xpoint ypoint color : Z) : M PAINT unit :=
  let xpoint := u16 xpoint in
  let ypoint := u16 ypoint in
  let color := u16 color in
  p ← get;
  if (Width p <? xpoint) || (Height p <? ypoint) then mret tt else
  match rotate_xy p xpoint ypoint ≫= mirror_xy p with
  | None => mret tt
  | Some (x, y) =>
      if (WidthMemory p <? x) || (HeightMemory p <? y) then mret tt
      else write_pixel x y color
  end.

(** Loops over the bytes of the image, rows outside. *)
Definition for_bytes (body : Z -> M PAINT unit) : M PAINT unit :=
  p ← get;
  mfor (seqZ 0 (HeightByte p)) (fun y =>
    mfor (seqZ 0 (WidthByte p)) (fun x => body (x + y * WidthByte p))).

Definition Paint_Clear (color : Z) : M PAINT unit :=
  let color := u16 color in
  p ← get;
  if Scale p =? 2 then for_bytes (fun addr => image_set addr color)
  else if Scale p =? 4 then
    for_bytes (fun addr => image_set addr
      (Z.lor (Z.lor (Z.lor (Z.shiftl color 6) (Z.shiftl color 4)) (Z.shiftl color 2)) color))
  else if Scale p =? 7 then
    for_bytes (fun addr => image_set addr (Z.lor (Z.shiftl color 4) color))
  else mret tt.

Definition Paint_ClearWindows (xstart ystart xend yend color : Z) : M PAINT unit :=
  mfor (seqZ ystart (yend - ystart)) (fun y =>
    mfor (seqZ xstart (xend - xstart)) (fun x => Paint_SetPixel x y color)).

Definition Paint_DrawBitMap (image_buffer : bytes) : M PAINT unit :=
  for_bytes (fun addr => v ← lift (aget image_buffer addr); image_set addr v).

Definition Paint_DrawBitMap_Paste (image_buffer : bytes)
    (xStart yStart imageWidth imageHeight flipColor : Z) : M PAINT unit :=
  let width := if imageWidth mod 8 =? 0 then imageWidth / 8 else imageWidth / 8 + 1 in
  mfor (seqZ 0 imageHeight) (fun y =>
    mfor (seqZ 0 imageWidth) (fun x =>
      srcImage ← lift (aget image_buffer (y * width + x / 8));
      let bit := Z.land (Z.shiftl srcImage (x mod 8)) 128 in
      let color := if negb (flipColor =? 0) then (if bit =? 0 then 1 else 0)
                   else (if bit =? 0 then 0 else 1) in
      Paint_SetPixel (x + xStart) (y + yStart) color)).

Definition Paint_DrawBitMap_Block (image_buffer : bytes) (Region : Z) : M PAINT unit :=
  p ← get;
  for_bytes (fun addr =>
    v ← lift (aget image_buffer (u32 (addr + HeightByte p * WidthByte p * (Region - 1))));
    image_set addr v).

(** ** Well-formed images *)

(** Geometry set up by [Paint_NewImage] at scale 2 and kept by the drawing calls. *)
Definition geometry (p : PAINT) : Prop :=
  0 <= WidthMemory p < 2 ^ 15 /\ 0 <= HeightMemory p < 2 ^ 15 /\
  WidthByte p = bytes_per_row (WidthMemory p) 8 /\ HeightByte p = HeightMemory p /\
  Scale p = 2 /\ 0 <= Mirror p <= 3 /\
  (((Rotate p = 0 \/ Rotate p = 180) /\ Width p = WidthMemory p /\ Height p = HeightMemory p) \/
   ((Rotate p = 90 \/ Rotate p = 270) /\ Width p = HeightMemory p /\ Height p = WidthMemory p)).

Definition image_wf (p : PAINT) (im : bytes) : Prop :=
  geometry p /\ Image p = Some im /\ Zlen im = WidthByte p * HeightByte p /\ all_bytes im.

(** The byte and bit of a pixel: the address computation of the code. *)
Definition locate (p : PAINT) (x y : Z) : option (Z * Z) :=
  match rotate_xy p x y ≫= mirror_xy p with
  | Some (x, y) => Some (x / 8 + y * WidthByte p, 7 - x mod 8)
  | None => None
  end.

(** The colour of a pixel at its drawing coordinates: [true] is white. *)
Definition pixel (p : PAINT) (x y : Z) : option bool :=
  match Image p, locate p x y with
  | Some im, Some (addr, bit) =>
      match aget im addr with Ok b => Some (Z.testbit b bit) | Err _ => None end
  | _, _ => None
  end.

Definition in_view (p : PAINT) (x y : Z) : Prop := 0 <= x < Width p /\ 0 <= y < Height p.

(** The memory coordinates without machine arithmetic. *)
Definition coords (p : PAINT) (x y : Z) : Z * Z :=
  let W := WidthMemory p in
  let H := HeightMemory p in
  let '(x, y) := if Rotate p =? 0 then (x, y)
                 else if Rotate p =? 90 then (W - 1 - y, x)
                 else if Rotate p =? 180 then (W - 1 - x, H - 1 - y)
                 else (y, H - 1 - x) in
  let '(x, y) := if Mirror p =? 0 then (x, y)
                 else if Mirror p =? 1 then (W - 1 - x, y)
                 else if Mirror p =? 2 then (x, H - 1 - y)
                 else (W - 1 - x, H - 1 - y) in
  (x, y).

Lemma coords_spec p x y :
  geometry p -> in_view p x y ->
  rotate_xy p x y ≫= mirror_xy p = Some (coords p x y) /\
  0 <= (coords p x y).1 < WidthMemory p /\ 0 <= (coords p x y).2 < HeightMemory p.
Proof.
  intros (HW & HH & _ & _ & _ & Hm & Hr) (Hx & Hy).
  assert (Mirror p = 0 \/ Mirror p = 1 \/ Mirror p = 2 \/ Mirror p = 3) as Hm' by lia.
  unfold rotate_xy, mirror_xy, coords.
  destruct Hr as [(Hr & HW' & HH') | (Hr & HW' & HH')]; rewrite HW' in Hx; rewrite HH' in Hy;
    destruct Hr as [Hr | Hr]; rewrite Hr; simpl;
    destruct Hm' as [Hm' | [Hm' | [Hm' | Hm']]]; rewrite Hm'; simpl;
    rewrite ?wrap_small by (rewrite ?wrap_small by lia; lia);
    (split; [do 2 f_equal; lia | lia]).
Qed.

Lemma coords_inj p x y x' y' : coords p x y = coords p x' y' -> x = x' /\ y = y'.
Proof.
  unfold coords. intros H.
  destruct (Rotate p =? 0), (Rotate p =? 90), (Rotate p =? 180), (Mirror p =? 0),
    (Mirror p =? 1), (Mirror p =? 2); injection H as H1 H2; lia.
Qed.

(** ** Pixel writes *)

(** The byte [Paint_SetPixel] stores at scale 2. *)
Definition pixel_byte (b x color : Z) : Z :=
  u8 (if color =? BLACK then Z.land b (Z.lnot (Z.shiftr 128 (x mod 8)))
      else Z.lor b (Z.shiftr 128 (x mod 8))).

Lemma pixel_byte_bit b x color x' :
  Z.testbit (pixel_byte b x color) (7 - x' mod 8) =
  if decide (x mod 8 = x' mod 8) then negb (color =? BLACK)
  else Z.testbit b (7 - x' mod 8).
Proof.
  unfold pixel_byte. pose proof (Z.mod_pos_bound x 8 ltac:(lia)) as Hx.
  pose proof (Z.mod_pos_bound x' 8 ltac:(lia)) as Hx'.
  generalize dependent (x mod 8). generalize dependent (x' mod 8). intros j Hj k Hk.
  unfold wrap. rewrite Z.mod_pow2_bits_low by lia.
  assert (k = 0 \/ k = 1 \/ k = 2 \/ k = 3 \/ k = 4 \/ k = 5 \/ k = 6 \/ k = 7) as Dk by lia.
  assert (j = 0 \/ j = 1 \/ j = 2 \/ j = 3 \/ j = 4 \/ j = 5 \/ j = 6 \/ j = 7) as Dj by lia.
  destruct (color =? BLACK);
    repeat destruct Dk as [Dk | Dk]; subst k;
    rewrite ?Z.land_spec, ?Z.lor_spec, ?Z.lnot_spec by lia;
    repeat destruct Dj as [Dj | Dj]; subst j;
    match goal with |- context [Z.testbit b ?i] => destruct (Z.testbit b i) end; reflexivity.
Qed.

Lemma pixel_byte_range b x color : is_byte (pixel_byte b x color).
Proof. apply (wrap_range 8). lia. Qed.

Lemma bytes_per_row_bound w : 0 <= w -> 8 * bytes_per_row w 8 >= w /\ 0 <= bytes_per_row w 8.
Proof. intros. unfold bytes_per_row. destruct (Z.eqb_spec (w mod 8) 0); zlia. Qed.

Lemma addr_bound w h x y :
  0 <= x < w -> 0 <= y < h -> 0 <= x / 8 + y * bytes_per_row w 8 < bytes_per_row w 8 * h.
Proof.
  intros Hx Hy. destruct (bytes_per_row_bound w) as [Hb Hb0]; [lia|].
  assert (0 <= x / 8 < bytes_per_row w 8) by zlia. nia.
Qed.

Lemma addr_inj b x y x' y' :
  0 <= x / 8 < b -> 0 <= x' / 8 < b -> 0 <= y -> 0 <= y' ->
  x / 8 + y * b = x' / 8 + y' * b -> x / 8 = x' / 8 /\ y = y'.
Proof. intros. assert (y = y') by nia. nia. Qed.

Lemma write_pixel_run p im x y color :
  Image p = Some im -> Scale p = 2 -> 0 <= x / 8 + y * WidthByte p < Zlen im ->
  exists b im',
    aget im (x / 8 + y * WidthByte p) = Ok b /\
    aset im (x / 8 + y * WidthByte p) (pixel_byte b x color) = Ok im' /\
    write_pixel x y color p = Ok (tt, set_image (Some im') p).
Proof.
  intros Him Hs Ha. destruct (aget_in im (x / 8 + y * WidthByte p) Ha) as [b Hb].
  exists b, (<[Z.to_nat (x / 8 + y * WidthByte p) := pixel_byte b x color]> im).
  split; [done|]. split; [by apply aset_in|].
  unfold write_pixel. rewrite (bind_step get _ _ _ _ eq_refl), Hs. simpl (2 =? 2). cbv iota zeta.
  rewrite (bind_step _ _ _ b p).
  2: { unfold image_get. rewrite (bind_step get _ _ _ _ eq_refl), Him. unfold lift. by rewrite Hb. }
  assert (forall v, image_set (x / 8 + y * WidthByte p) v p =
    Ok (tt, set_image (Some (<[Z.to_nat (x / 8 + y * WidthByte p) := u8 v]> im)) p)) as Hset.
  { intros v. unfold image_set. rewrite (bind_step get _ _ _ _ eq_refl), Him.
    unfold mbind, M_bind, lift. by rewrite aset_in. }
  unfold pixel_byte. by destruct (color =? BLACK); rewrite Hset.
Qed.

(** What [Paint_SetPixel] does inside the view. *)
Lemma set_pixel_run p im x y color :
  image_wf p im -> in_view p x y ->
  exists im', Paint_SetPixel x y color p = Ok (tt, set_image (Some im') p) /\
    image_wf (set_image (Some im') p) im' /\
    forall x' y', in_view p x' y' ->
      pixel (set_image (Some im') p) x' y' =
        if decide (x' = x /\ y' = y) then Some (negb (u16 color =? BLACK)) else pixel p x' y'.
Proof.
  intros (Hg & Him & Hlen & Hby) Hv. destruct (coords_spec p x y Hg Hv) as (Hc & Hcx & Hcy).
  destruct (coords p x y) as [X Y] eqn:EC. simpl in Hcx, Hcy.
  destruct (Hg) as (HW & HH & HWB & HHB & HS & _ & Hr). destruct (Hv) as [Hvx Hvy].
  assert (0 <= Width p < 2 ^ 15 /\ 0 <= Height p < 2 ^ 15) as [Hw Hh].
  { destruct Hr as [(_ & -> & ->) | (_ & -> & ->)]; done. }
  pose proof (addr_bound _ _ X Y Hcx Hcy) as Ha. rewrite <- HWB, <- HHB, <- Hlen in Ha.
  destruct (write_pixel_run p im X Y (u16 color) Him HS Ha) as (b & im' & Hb & Hset & Hrun).
  exists im'.
  assert (image_wf (set_image (Some im') p) im') as Hwf'.
  { split; [done|]. split; [done|]. simpl. split.
    - by rewrite (aset_Zlen _ _ _ _ Hset).
    - apply aset_Ok in Hset as [_ ->]. apply Forall_insert; [done|apply pixel_byte_range]. }
  split; [|split; [done|]].
  - unfold Paint_SetPixel. rewrite !wrap_small by lia.
    rewrite (bind_step get _ _ _ _ eq_refl).
    rewrite (proj2 (Z.ltb_ge (Width p) x)), (proj2 (Z.ltb_ge (Height p) y)) by lia. simpl.
    rewrite Hc, (proj2 (Z.ltb_ge (WidthMemory p) X)), (proj2 (Z.ltb_ge (HeightMemory p) Y)) by lia.
    exact Hrun.
  - intros x' y' Hv'. destruct (coords_spec p x' y' Hg Hv') as (Hc' & Hcx' & Hcy').
    destruct (coords p x' y') as [X' Y'] eqn:EC'. simpl in Hcx', Hcy'.
    unfold pixel. rewrite Him. simpl Image. cbv iota.
    assert (locate (set_image (Some im') p) x' y' = locate p x' y') as -> by done.
    unfold locate. rewrite Hc'. simpl WidthByte. rewrite (aget_aset _ _ _ _ _ Hset).
    destruct (bytes_per_row_bound (WidthMemory p)) as [Hb1 Hb2]; [lia|]. rewrite <- HWB in *.
    assert (0 <= X / 8 < WidthByte p /\ 0 <= X' / 8 < WidthByte p) as [Hx8 Hx8'] by (split; zlia).
    case_decide as Haddr.
    + destruct (addr_inj _ X Y X' Y' Hx8 Hx8' ltac:(lia) ltac:(lia) Haddr) as [E8 ->].
      rewrite pixel_byte_bit. case_decide as E; case_decide as E'; try done.
      * exfalso. apply E'. apply coords_inj with p. rewrite EC, EC'. f_equal. zlia.
      * exfalso. apply E. destruct E' as [-> ->]. congruence.
      * rewrite <- Haddr, Hb. done.
    + rewrite decide_False; [done|]. intros [-> ->]. apply Haddr. congruence.
Qed.

(** C10. [Paint_SetPixel] inside the view, for every rotation and mirroring and every image
    size: it does not fault, the pixel addressed reads back as the colour (black for 0,
    white for anything else), and every other pixel of the view keeps its colour. *)
Theorem set_pixel_correct p im x y color :
  image_wf p im -> in_view p x y ->
  exists im', Paint_SetPixel x y color p = Ok (tt, set_image (Some im') p) /\
    image_wf (set_image (Some im') p) im' /\
    pixel (set_image (Some im') p) x y = Some (negb (u16 color =? BLACK)) /\
    (forall x' y', in_view p x' y' -> (x', y') <> (x, y) ->
       pixel (set_image (Some im') p) x' y' = pixel p x' y').
Proof.
  intros Hwf Hv. destruct (set_pixel_run p im x y color Hwf Hv) as (im' & Hr & Hwf' & Hpx).
  exists im'. split; [done|]. split; [done|]. split.
  - rewrite Hpx by done. by rewrite decide_True.
  - intros x' y' Hv' Hne. rewrite Hpx by done. rewrite decide_False; [done|]. naive_solver.
Qed.

(** A 20x5 image seen under 270 degrees and a horizontal mirror. *)
Definition demo_paint : PAINT :=
  MkPaint (Some (replicate 15 255)) 5 20 20 5 255 270 1 3 5 2.

Lemma demo_paint_wf : image_wf demo_paint (replicate 15 255).
Proof.
  split; [|split; [done|split; [done|]]].
  - unfold geometry, demo_paint. simpl. repeat split; lia.
  - apply Forall_replicate. unfold is_byte. lia.
Qed.

Lemma set_pixel_correct_witness :
  exists im', Paint_SetPixel 4 17 0 demo_paint = Ok (tt, set_image (Some im') demo_paint) /\
    image_wf (set_image (Some im') demo_paint) im' /\
    pixel (set_image (Some im') demo_paint) 4 17 = Some false /\
    (forall x' y', in_view demo_paint x' y' -> (x', y') <> (4, 17) ->
       pixel (set_image (Some im') demo_paint) x' y' = pixel demo_paint x' y').
Proof.
  apply (set_pixel_correct demo_paint (replicate 15 255) 4 17 0 demo_paint_wf).
  unfold in_view, demo_paint. simpl. lia.
Defined.

(** The guard of [Paint_SetPixel] lets the coordinate one past the edge through ([>] where
    [>=] is meant): with a buffer of exactly the image's size, the unrotated row [Height]
    is written outside the buffer. *)
Theorem set_pixel_off_by_one p im x color :
  image_wf p im -> Rotate p = 0 -> Mirror p = 0 -> 0 <= x <= Width p -> 0 < Width p ->
  Paint_SetPixel x (Height p) color p = Err OutOfBounds.
Proof.
  intros (Hg & Him & Hlen & Hby) Hrot Hmir Hx Hpos.
  destruct (Hg) as (HW & HH & HWB & HHB & HS & _ & Hr).
  destruct Hr as [(_ & Hw & Hh) | ([] & _)]; [|lia..].
  unfold Paint_SetPixel. rewrite (wrap_small 16 x), (wrap_small 16 (Height p)) by lia.
  rewrite (bind_step get _ _ _ _ eq_refl).
  rewrite (proj2 (Z.ltb_ge (Width p) x)), (proj2 (Z.ltb_ge (Height p) (Height p))) by lia.
  simpl. unfold rotate_xy, mirror_xy. rewrite Hrot, Hmir. simpl.
  rewrite (proj2 (Z.ltb_ge (WidthMemory p) x)), (proj2 (Z.ltb_ge (HeightMemory p) (Height p)))
    by lia. simpl.
  unfold write_pixel. rewrite (bind_step get _ _ _ _ eq_refl), HS. simpl (2 =? 2).
  cbv iota zeta. unfold mbind at 1, M_bind at 1, image_get.
  rewrite (bind_step get _ _ _ _ eq_refl), Him. unfold lift.
  assert (aget im (x / 8 + Height p * WidthByte p) = Err OutOfBounds) as ->; [|done].
  unfold aget. destruct (bytes_per_row_bound (WidthMemory p)) as [? ?]; [lia|].
  rewrite <- HWB in *. rewrite decide_True by (assert (0 <= x / 8) by zlia; nia).
  rewrite lookup_ge_None_2; [done|]. unfold Zlen in Hlen. rewrite HHB, <- Hh in Hlen.
  assert (0 <= x / 8) by zlia. nia.
Qed.

Lemma set_pixel_off_by_one_witness :
  Paint_SetPixel 3 2 0 (MkPaint (Some (replicate 4 255)) 16 2 16 2 255 0 0 2 2 2) = Err OutOfBounds.
Proof.
  apply (set_pixel_off_by_one (MkPaint (Some (replicate 4 255)) 16 2 16 2 255 0 0 2 2 2)
    (replicate 4 255)); [|reflexivity|reflexivity|simpl; lia|simpl; lia].
  split; [|split; [reflexivity|split; [reflexivity|]]].
  - unfold geometry. simpl. repeat split; lia.
  - apply Forall_replicate. unfold is_byte. lia.
Defined.

(** ** Whole-image loops *)

Lemma mfor_map {S X Y} (g : X -> Y) (xs : list X) (f : Y -> M S unit) s :
  mfor (map g xs) f s = mfor xs (fun x => f (g x)) s.
Proof.
  revert s. induction xs as [|x xs IH]; intros s; [done|]. simpl. unfold mbind, M_bind.
  destruct (f (g x) s) as [[[] s']|]; [apply IH|done].
Qed.

Lemma seqZ_shift a n : seqZ a n = (fun x => x + a) <$> seqZ 0 n.
Proof.
  apply list_eq. intros i. rewrite list_lookup_fmap.
  destruct (decide (Z.of_nat i < n)).
  - rewrite !lookup_seqZ_lt by lia. simpl. f_equal. lia.
  - rewrite !lookup_seqZ_ge by lia. done.
Qed.

(** The nested loops visit the addresses in order. *)
Lemma for_bytes_flat body p :
  0 <= WidthByte p -> 0 <= HeightByte p ->
  for_bytes body p = mfor (seqZ 0 (HeightByte p * WidthByte p)) body p.
Proof.
  intros Hw Hh. unfold for_bytes. rewrite (bind_step get _ _ _ _ eq_refl).
  set (w := WidthByte p) in *. set (h := HeightByte p) in *. clearbody w h.
  rewrite <- (Z2Nat.id h) by done. generalize (Z.to_nat h) as n. clear h Hh. intros n. revert p.
  induction n as [|n IH]; intros p.
  { done. }
  replace (Z.of_nat (S n)) with (Z.of_nat n + 1) by lia.
  rewrite seqZ_app by lia. rewrite mfor_app.
  replace ((Z.of_nat n + 1) * w) with (Z.of_nat n * w + w) by lia.
  rewrite seqZ_app by nia. rewrite mfor_app.
  unfold mbind, M_bind. rewrite IH.
  destruct (mfor (seqZ 0 (Z.of_nat n * w)) body p) as [[[] p']|]; [|done].
  simpl. unfold mbind, M_bind. rewrite (seqZ_shift (Z.of_nat n * w)).
  change (?f <$> ?l) with (map f l). rewrite mfor_map.
  by destruct (mfor _ _ p') as [[[] ?]|].
Qed.

(** A loop that stores [h k] at every address [k]. *)
Lemma fill_loop (h : nat -> Z) n body p im :
  Image p = Some im -> (n <= length im)%nat ->
  (forall k im', (k < n)%nat -> length im' = length im ->
     body (Z.of_nat k) (set_image (Some im') p) =
       Ok (tt, set_image (Some (<[k := h k]> im')) p)) ->
  mfor (seqZ 0 (Z.of_nat n)) body p =
    Ok (tt, set_image (Some (map h (seq 0 n) ++ drop n im)) p).
Proof.
  intros Him Hn Hbody.
  assert (forall j, (j <= n)%nat ->
    mfor (seqZ 0 (Z.of_nat j)) body p =
      Ok (tt, set_image (Some (map h (seq 0 j) ++ drop j im)) p)) as H; [|by apply H].
  induction j as [|j IH]; intros Hj.
  { simpl. unfold drop. rewrite <- Him. by destruct p. }
  replace (Z.of_nat (S j)) with (Z.of_nat j + 1) by lia.
  rewrite seqZ_app, mfor_app by lia. unfold mbind, M_bind. rewrite IH by lia.
  assert (seqZ (0 + Z.of_nat j) 1 = [Z.of_nat j]) as -> by (unfold seqZ; simpl; f_equal; lia).
  cbn [mfor]. unfold mbind, M_bind. rewrite Hbody.
  - cbv beta iota. unfold mret, M_ret. do 4 f_equal. rewrite seq_S, map_app, insert_app_r_alt;
      rewrite length_map, length_seq; [|lia].
    rewrite Nat.sub_diag, <- app_assoc. f_equal. simpl.
    destruct (lookup_lt_is_Some_2 im j) as [b Hb]; [lia|]. by rewrite (drop_S im b j Hb).
  - lia.
  - rewrite length_app, length_map, length_seq, length_drop. lia.
Qed.

Lemma image_set_run p im k v :
  Image p = Some im -> (k < length im)%nat ->
  image_set (Z.of_nat k) v p = Ok (tt, set_image (Some (<[k := u8 v]> im)) p).
Proof.
  intros Him Hk. unfold image_set. rewrite (bind_step get _ _ _ _ eq_refl), Him.
  unfold mbind, M_bind, lift. rewrite aset_in by (unfold Zlen; lia). by rewrite Nat2Z.id.
Qed.

Lemma set_image2 a b p : set_image a (set_image b p) = set_image a p.
Proof. done. Qed.

Lemma image_fill p im (h : nat -> Z) body :
  image_wf p im ->
  (forall k im', (k < length im)%nat -> length im' = length im ->
     body (Z.of_nat k) (set_image (Some im') p) =
       Ok (tt, set_image (Some (<[k := h k]> im')) p)) ->
  for_bytes body p = Ok (tt, set_image (Some (map h (seq 0 (length im)))) p).
Proof.
  intros (Hg & Him & Hlen & _) Hb. destruct Hg as (HW & HH & HWB & HHB & _).
  destruct (bytes_per_row_bound (WidthMemory p)) as [_ ?]; [lia|].
  rewrite for_bytes_flat by lia. rewrite Z.mul_comm, <- Hlen. unfold Zlen.
  rewrite (fill_loop h (length im) body p im); [|done|done|done].
  by rewrite drop_ge, app_nil_r by lia.
Qed.

(** [Paint_Clear] at scale 2 stores the colour byte in every byte of the image, so that
    clearing to white (black) makes every pixel of the view white (black). *)
Theorem clear_fills p im color :
  image_wf p im ->
  Paint_Clear color p = Ok (tt, set_image (Some (replicate (length im) (u8 color))) p) /\
  (forall x y, in_view p x y -> u8 color = WHITE ->
     pixel (set_image (Some (replicate (length im) (u8 color))) p) x y = Some true) /\
  (forall x y, in_view p x y -> u8 color = BLACK ->
     pixel (set_image (Some (replicate (length im) (u8 color))) p) x y = Some false).
Proof.
  intros Hwf. split.
  - unfold Paint_Clear. rewrite (bind_step get _ _ _ _ eq_refl).
    destruct (Hwf) as ((_ & _ & _ & _ & -> & _) & Him & _). simpl (2 =? 2). cbv iota.
    rewrite (image_fill p im (fun _ => u8 color)); [|done|].
    + do 4 f_equal. generalize (length im) as n. clear. intros n.
      generalize 0%nat as a. induction n as [|n IH]; intros a; simpl; [done|]. by rewrite IH.
    + intros k im' Hk Hl. rewrite (image_set_run _ im') by (done || lia).
      by rewrite set_image2, wrap_wrap_le by lia.
  - assert (forall x y, in_view p x y -> exists bit, 0 <= bit < 8 /\
      pixel (set_image (Some (replicate (length im) (u8 color))) p) x y =
        Some (Z.testbit (u8 color) bit)) as Hpx.
    { intros x y Hv. destruct Hwf as (Hg & Him & Hlen & _).
      destruct (coords_spec p x y Hg Hv) as (Hc & Hcx & Hcy).
      destruct (coords p x y) as [X Y]. simpl in Hcx, Hcy. exists (7 - X mod 8).
      split; [zlia|]. unfold pixel, locate. simpl Image. cbv iota.
      change (rotate_xy (set_image _ p)) with (rotate_xy p).
      change (mirror_xy (set_image _ p)) with (mirror_xy p). rewrite Hc. simpl WidthByte.
      destruct Hg as (HW & HH & HWB & HHB & _).
      pose proof (addr_bound _ _ X Y Hcx Hcy) as Ha. rewrite <- HWB, <- HHB, <- Hlen in Ha.
      assert (aget (replicate (length im) (u8 color)) (X / 8 + Y * WidthByte p) = Ok (u8 color))
        as ->; [|done].
      apply aget_Ok. split; [lia|]. apply lookup_replicate_2. unfold Zlen in Ha. lia. }
    split; intros x y Hv E; destruct (Hpx x y Hv) as (bit & Hb & ->); rewrite E; f_equal.
    + unfold WHITE. change 255 with (Z.ones 8). apply Z.ones_spec_low. lia.
    + apply Z.bits_0.
Qed.

Lemma clear_fills_witness :
  Paint_Clear WHITE demo_paint = Ok (tt, set_image (Some (replicate 15 255)) demo_paint) /\
  pixel demo_paint 2 3 = Some true.
Proof.
  destruct (clear_fills demo_paint (replicate 15 255) WHITE demo_paint_wf) as (H & Hw & _).
  split; [exact H|]. apply (Hw 2 3); [|reflexivity]. unfold in_view. simpl. lia.
Defined.

(** [Paint_DrawBitMap] copies the first [WidthByte * HeightByte] bytes of the picture into
    the image, and [Paint_DrawBitMap_Block] the same number of bytes of block [Region]. *)
Theorem bitmap_copied p im pic Region :
  image_wf p im -> all_bytes pic -> 1 <= Region < 256 ->
  Region * Zlen im <= Zlen pic -> Zlen pic < 2 ^ 32 ->
  Paint_DrawBitMap pic p = Ok (tt, set_image (Some (take (length im) pic)) p) /\
  Paint_DrawBitMap_Block pic Region p =
    Ok (tt, set_image (Some (take (length im) (drop (length im * Z.to_nat (Region - 1)) pic))) p).
Proof.
  intros Hwf Hpic Hreg Hlen Hmax. pose proof Hwf as (Hg & Him & Hl & _).
  set (n := length im) in *. unfold Zlen in *.
  assert (forall off, (off + n <= length pic)%nat ->
    map (fun k => nth (off + k) pic 0) (seq 0 n) = take n (drop off pic)) as Hmap.
  { intros off Hoff. apply list_eq. intros i. rewrite list_lookup_fmap, lookup_take_dec.
    case_decide as Hi.
    - rewrite lookup_seq_lt by done. simpl. rewrite lookup_drop.
      destruct (lookup_lt_is_Some_2 pic (off + i)) as [b Hb]; [lia|].
      rewrite Hb. f_equal. by apply nth_lookup_Some.
    - by rewrite lookup_seq_ge by lia. }
  assert (forall off k, (k < n)%nat -> (off + n <= length pic)%nat ->
    aget pic (Z.of_nat (off + k)) = Ok (nth (off + k) pic 0) /\
    u8 (nth (off + k) pic 0) = nth (off + k) pic 0) as Hget.
  { intros off k Hk Hoff. destruct (lookup_lt_is_Some_2 pic (off + k)) as [b Hb]; [lia|].
    rewrite (nth_lookup_Some _ _ _ b Hb). split.
    - apply aget_Ok. split; [lia|]. by rewrite Nat2Z.id.
    - apply wrap_small. apply (Forall_lookup_1 _ _ _ _ Hpic Hb). }
  assert (n <= length pic)%nat as Hn by nia. split.
  - unfold Paint_DrawBitMap. rewrite (image_fill p im (fun k => nth (0 + k) pic 0)); [|done|].
    + fold n. rewrite (Hmap 0%nat) by lia. by rewrite drop_0.
    + intros k im' Hk Hk'. destruct (Hget 0%nat k) as [E1 E2]; [lia|lia|]. simpl in E1, E2.
      unfold mbind, M_bind, lift. rewrite E1, (image_set_run _ im') by (done || lia).
      by rewrite E2.
  - unfold Paint_DrawBitMap_Block. rewrite (bind_step get _ _ _ _ eq_refl).
    set (off := (n * Z.to_nat (Region - 1))%nat).
    assert (off + n <= length pic)%nat as Hoff by (unfold off; nia).
    rewrite (image_fill p im (fun k => nth (off + k) pic 0)); [|done|].
    + fold n. by rewrite Hmap.
    + intros k im' Hk Hk'. destruct (Hget off k) as [E1 E2]; [lia|lia|].
      assert (u32 (Z.of_nat k + HeightByte p * WidthByte p * (Region - 1)) = Z.of_nat (off + k))
        as ->.
      { rewrite (Z.mul_comm (HeightByte p)), <- Hl, wrap_small; unfold off in *; nia. }
      unfold mbind, M_bind, lift. rewrite E1, (image_set_run _ im') by (done || lia).
      by rewrite E2.
Qed.

Lemma bitmap_copied_witness :
  Paint_DrawBitMap_Block (replicate 15 1 ++ replicate 15 170) 2 demo_paint =
    Ok (tt, set_image (Some (replicate 15 170)) demo_paint).
Proof.
  destruct (bitmap_copied demo_paint (replicate 15 255) (replicate 15 1 ++ replicate 15 170) 2
    demo_paint_wf) as [_ H]; [|lia|vm_compute; discriminate|vm_compute; reflexivity|exact H].
  apply (bool_decide_unpack _). vm_compute. exact I.
Defined.
