(* ===== verification/PaintDraw.v ===== *)
(** Shapes and text on the frame buffer: the rest of
    [components/epaper/gui/GUI_Paint.c].

    [line_step] is one turn of the Bresenham loop; the theorems show that it ends, and where:
    on the end point or one column before it.  Fonts are data: a table of bytes with a width and a height. *)

From S2P Require Import Prelude Paint.
#[local] Open Scope Z_scope.

(** ** Points *)

Inductive DOT_STYLE := DOT_FILL_AROUND | DOT_FILL_RIGHTUP.
Definition DOT_STYLE_DFT := DOT_FILL_AROUND.
Definition DOT_PIXEL_DFT := 1.

Definition Paint_DrawPoint (xpoint ypoint color dot : Z) (style : DOT_STYLE) : M PAINT unit :=
  let xpoint := u16 xpoint in
  let ypoint := u16 ypoint in
  p ← get;
  if (Width p <? xpoint) || (Height p <? ypoint) then mret tt else
  match style with
  | DOT_FILL_AROUND =>
      mfor (seqZ 0 (2 * dot - 1)) (fun xd =>
        mforb (seqZ 0 (2 * dot - 1)) (fun yd =>
          if (xpoint + xd - dot <? 0) || (ypoint + yd - dot <? 0) then mret false
          else Paint_SetPixel (xpoint + xd - dot) (ypoint + yd - dot) color ;;; mret true))
  | DOT_FILL_RIGHTUP =>
      mfor (seqZ 0 dot) (fun xd =>
        mfor (seqZ 0 dot) (fun yd =>
          Paint_SetPixel (xpoint + xd - 1) (ypoint + yd - 1) color))
  end.

(** ** Lines *)

Inductive LINE_STYLE := LINE_STYLE_SOLID | LINE_STYLE_DOTTED.

(** One turn of the loop after the point is drawn: [None] is a break. *)
Definition line_step (xend yend dx dy xadd yadd : Z) (s : Z * Z * Z) : option (Z * Z * Z) :=
  let '(x, y, esp) := s in
  match (if dy <=? 2 * esp then
           if x =? xend then None else Some (u16 (x + xadd), esp + dy)
         else Some (x, esp)) with
  | None => None
  | Some (x, esp) =>
      if 2 * esp <=? dx then
        if y =? yend then None else Some (x, u16 (y + yadd), esp + dx)
      else Some (x, y, esp)
  end.

Fixpoint line_loop (fuel : nat) (xend yend dx dy xadd yadd color width : Z)
    (style : LINE_STYLE) (dotted : Z) (s : Z * Z * Z) : M PAINT unit :=
  match fuel with
  | O => throw Spin
  | S fuel =>
      let '(x, y, _) := s in
      let dotted := u8 (dotted + 1) in
      let gap := match style with LINE_STYLE_DOTTED => dotted mod 3 =? 0 | _ => false end in
      Paint_DrawPoint x y (if gap then IMAGE_BACKGROUND else color) width DOT_STYLE_DFT ;;;
      match line_step xend yend dx dy xadd yadd s with
      | None => mret tt
      | Some s =>
          line_loop fuel xend yend dx dy xadd yadd color width style (if gap then 0 else dotted) s
      end
  end.

Definition line_dx (xstart xend : Z) : Z :=
  if 0 <=? xend - xstart then xend - xstart else xstart - xend.
Definition line_dy (ystart yend : Z) : Z :=
  if yend - ystart <=? 0 then yend - ystart else ystart - yend.
Definition line_way (a b : Z) : Z := if a <? b then 1 else -1.

Definition Paint_DrawLine (xstart ystart xend yend color width : Z) (style : LINE_STYLE)
    : M PAINT unit :=
  p ← get;
  if (Width p <? xstart) || (Height p <? ystart) || (Width p <? xend) || (Height p <? yend)
  then mret tt else
  let dx := line_dx xstart xend in
  let dy := line_dy ystart yend in
  (* the loop takes at most dx + |dy| + 1 turns *)
  line_loop (Z.to_nat (dx - dy + 1)) xend yend dx dy (line_way xstart xend)
    (line_way ystart yend) color width style 0 (xstart, ystart, dx + dy).

Definition Paint_DrawRectangle (xstart ystart xend yend color width : Z) (fill : bool)
    : M PAINT unit :=
  p ← get;
  if (Width p <? xstart) || (Height p <? ystart) || (Width p <? xend) || (Height p <? yend)
  then mret tt else
  if fill then
    mfor (seqZ ystart (yend - ystart)) (fun y =>
      Paint_DrawLine xstart y xend y color width LINE_STYLE_SOLID)
  else
    Paint_DrawLine xstart ystart xend ystart color width LINE_STYLE_SOLID ;;;
    Paint_DrawLine xstart ystart xstart yend color width LINE_STYLE_SOLID ;;;
    Paint_DrawLine xend yend xend ystart color width LINE_STYLE_SOLID ;;;
    Paint_DrawLine xend yend xstart yend color width LINE_STYLE_SOLID.

(** ** Circles *)

Definition circle_points (xc yc a b color width : Z) : M PAINT unit :=
  Paint_DrawPoint (xc + a) (yc + b) color width DOT_STYLE_DFT ;;;
  Paint_DrawPoint (xc - a) (yc + b) color width DOT_STYLE_DFT ;;;
  Paint_DrawPoint (xc - b) (yc + a) color width DOT_STYLE_DFT ;;;
  Paint_DrawPoint (xc - b) (yc - a) color width DOT_STYLE_DFT ;;;
  Paint_DrawPoint (xc - a) (yc - b) color width DOT_STYLE_DFT ;;;
  Paint_DrawPoint (xc + a) (yc - b) color width DOT_STYLE_DFT ;;;
  Paint_DrawPoint (xc + b) (yc - a) color width DOT_STYLE_DFT ;;;
  Paint_DrawPoint (xc + b) (yc + a) color width DOT_STYLE_DFT.

Definition circle_step (s : Z * Z * Z) : Z * Z * Z :=
  let '(x, y, esp) := s in
  if esp <? 0 then (i16 (x + 1), y, i16 (esp + (4 * x + 6)))
  else (i16 (x + 1), i16 (y - 1), i16 (esp + (10 + 4 * (x - y)))).

Fixpoint circle_loop (fuel : nat) (xc yc color width : Z) (fill : bool) (s : Z * Z * Z)
    : M PAINT unit :=
  match fuel with
  | O => throw Spin
  | S fuel =>
      let '(x, y, _) := s in
      if x <=? y then
        (if fill then
           mfor (seqZ x (y - x + 1)) (fun sy => circle_points xc yc x sy color DOT_PIXEL_DFT)
         else circle_points xc yc x y color width) ;;;
        circle_loop fuel xc yc color width fill (circle_step s)
      else mret tt
  end.

Definition Paint_DrawCircle (xc yc radius color width : Z) (fill : bool) : M PAINT unit :=
  p ← get;
  if (Width p <? xc) || (Height p <=? yc) then mret tt else
  circle_loop (Z.to_nat (radius + 2)) xc yc color width fill
    (0, i16 radius, i16 (3 - Z.shiftl radius 1)).

(** ** Text *)

Record sFONT := MkFont { f_table : bytes; f_Width : Z; f_Height : Z }.

Record CH_CN := MkCN { cn_index0 : Z; cn_index1 : Z; cn_matrix : bytes }.
Record cFONT := MkCFont {
  c_table : list CH_CN; c_ASCII_Width : Z; c_Width : Z; c_Height : Z
}.

(** The nested loops over a glyph, shared by the character and the Chinese text code:
    [ptr] walks over the table. *)
Definition draw_glyph (table : bytes) (ptr x y w h fg bg : Z) : M PAINT unit :=
  _ ← mfold (seqZ 0 h) ptr (fun ptr page =>
    ptr ← mfold (seqZ 0 w) ptr (fun ptr column =>
      b ← lift (aget table ptr);
      let on := negb (Z.land b (Z.shiftr 128 (column mod 8)) =? 0) in
      _ ← (if FONT_BACKGROUND =? bg then
             if on then Paint_SetPixel (x + column) (y + page) fg else mret tt
           else if on then Paint_SetPixel (x + column) (y + page) fg
           else Paint_SetPixel (x + column) (y + page) bg);
      mret (if column mod 8 =? 7 then ptr + 1 else ptr));
    mret (if w mod 8 =? 0 then ptr else ptr + 1));
  mret tt.

Definition Paint_DrawChar (xpoint ypoint ch : Z) (font : sFONT) (fg bg : Z) : M PAINT unit :=
  let xpoint := u16 xpoint in
  let ypoint := u16 ypoint in
  p ← get;
  if (Width p <? xpoint) || (Height p <? ypoint) then mret tt else
  let offset := u32 ((ch - 32) * f_Height font *
                     (f_Width font / 8 + (if f_Width font mod 8 =? 0 then 0 else 1))) in
  draw_glyph (f_table font) offset xpoint ypoint (f_Width font) (f_Height font) fg bg.

Fixpoint string_en_loop (s : bytes) (xstart ystart : Z) (font : sFONT) (fg bg : Z)
    (xpoint ypoint : Z) : M PAINT unit :=
  match s with
  | [] => throw OutOfBounds
  | c :: s =>
      if c =? 0 then mret tt else
      p ← get;
      let '(xpoint, ypoint) :=
        if Width p <? xpoint + f_Width font then (xstart, u16 (ypoint + f_Height font))
        else (xpoint, ypoint) in
      let '(xpoint, ypoint) :=
        if Height p <? ypoint + f_Height font then (xstart, ystart) else (xpoint, ypoint) in
      (* the colours are passed the other way round *)
      Paint_DrawChar xpoint ypoint c font bg fg ;;;
      string_en_loop s xstart ystart font fg bg (u16 (xpoint + f_Width font)) ypoint
  end.

Definition Paint_DrawString_EN (xstart ystart : Z) (s : bytes) (font : sFONT) (fg bg : Z)
    : M PAINT unit :=
  p ← get;
  if (Width p <? xstart) || (Height p <? ystart) then mret tt else
  string_en_loop s xstart ystart font fg bg xstart ystart.

(** The search over the table and the glyph drawn by the first match. *)
Fixpoint draw_cn (table : list CH_CN) (font : cFONT) (matches : CH_CN -> res bool)
    (x y fg bg : Z) : M PAINT unit :=
  match table with
  | [] => mret tt
  | g :: table =>
      m ← lift (matches g);
      if m : bool then draw_glyph (cn_matrix g) 0 x y (c_Width font) (c_Height font) fg bg
      else draw_cn table font matches x y fg bg
  end.

Fixpoint Paint_DrawString_CN (x y : Z) (text : bytes) (font : cFONT) (fg bg : Z) : M PAINT unit :=
  match text with
  | [] => throw OutOfBounds
  | c :: rest =>
      if c =? 0 then mret tt
      else if c <=? 127 then
        draw_cn (c_table font) font (fun g => Ok (c =? cn_index0 g)) x y fg bg ;;;
        Paint_DrawString_CN (x + c_ASCII_Width font) y rest font fg bg
      else
        match rest with
        | [] => throw OutOfBounds
        | c' :: rest =>
            draw_cn (c_table font) font
              (fun g => Ok ((c =? cn_index0 g) && (c' =? cn_index1 g))) x y fg bg ;;;
            Paint_DrawString_CN (x + c_Width font) y rest font fg bg
        end
  end.

(** ** Numbers *)

(** [Num_Array]: the digits, last first, as the [do]-[while] stores them; [/] and [%] of C
    round towards zero. *)
Fixpoint num_array (fuel : nat) (n : Z) : bytes :=
  match fuel with
  | O => []
  | S fuel =>
      u8 (Z.rem n 10 + 48) :: (if Z.quot n 10 =? 0 then [] else num_array fuel (Z.quot n 10))
  end.

(** The string handed to the drawing code: at most ten digits of an [int32_t], inverted,
    in an array of 255 zeros. *)
Definition ARRAY_LEN := 255.
Definition str_array (num : bytes) : bytes :=
  rev num ++ replicate (Z.to_nat ARRAY_LEN - length num) 0.

Definition Paint_DrawNum (xpoint ypoint number : Z) (font : sFONT) (fg bg : Z) : M PAINT unit :=
  p ← get;
  if (Width p <? xpoint) || (Height p <? ypoint) then mret tt else
  Paint_DrawString_EN xpoint ypoint (str_array (num_array 10 number)) font bg fg.

Record PAINT_TIME := MkTime {
  t_Year : Z; t_Month : Z; t_Day : Z; t_Hour : Z; t_Min : Z; t_Sec : Z
}.

Definition Paint_DrawTime (xstart ystart : Z) (t : PAINT_TIME) (font : sFONT) (fg bg : Z)
    : M PAINT unit :=
  let value := cs "0123456789" in
  let dx := f_Width font in
  let digit off n := v ← lift (aget value n); Paint_DrawChar (xstart + off) ystart v font bg fg in
  let colon off := Paint_DrawChar (xstart + off) ystart 58 font bg fg in
  digit 0 (t_Hour t / 10) ;;;
  digit dx (t_Hour t mod 10) ;;;
  colon (dx + dx / 4 + dx / 2) ;;;
  digit (dx * 2 + dx / 2) (t_Min t / 10) ;;;
  digit (dx * 3 + dx / 2) (t_Min t mod 10) ;;;
  colon (dx * 4 + dx / 2 - dx / 4) ;;;
  digit (dx * 5) (t_Sec t / 10) ;;;
  digit (dx * 6) (t_Sec t mod 10).

(** ** The line algorithm *)

(** The points a line visits. *)
Fixpoint line_points (fuel : nat) (xend yend dx dy xadd yadd : Z) (s : Z * Z * Z)
    : option (list (Z * Z)) :=
  match fuel with
  | O => None
  | S fuel =>
      let '(x, y, _) := s in
      match line_step xend yend dx dy xadd yadd s with
      | None => Some [(x, y)]
      | Some s => cons (x, y) <$> line_points fuel xend yend dx dy xadd yadd s
      end
  end.

(** Two points of the grid that touch, and differ. *)
Definition neighbours (a b : Z * Z) : Prop :=
  Z.abs (a.1 - b.1) <= 1 /\ Z.abs (a.2 - b.2) <= 1 /\ a <> b.

Fixpoint chain (l : list (Z * Z)) : Prop :=
  match l with
  | a :: (b :: _) as l' => neighbours a b /\ chain l'
  | _ => True
  end.

Section line.
Context (xs ys xe ye : Z).
Context (Hxs : 0 <= xs < 2 ^ 16) (Hys : 0 <= ys < 2 ^ 16).
Context (Hxe : 0 <= xe < 2 ^ 16) (Hye : 0 <= ye < 2 ^ 16).

Let dx := line_dx xs xe.
Let D := - line_dy ys ye.
Let sx := line_way xs xe.
Let sy := line_way ys ye.

Lemma line_params :
  0 <= dx /\ 0 <= D /\ xe = xs + sx * dx /\ ye = ys + sy * D /\
  (sx = 1 \/ sx = -1) /\ (sy = 1 \/ sy = -1).
Proof.
  unfold dx, D, sx, sy, line_dx, line_dy, line_way.
  destruct (Z.leb_spec 0 (xe - xs)), (Z.leb_spec (ye - ys) 0), (Z.ltb_spec xs xe),
    (Z.ltb_spec ys ye); lia.
Qed.

(** The state after [px] steps along x and [py] along y: the error is determined. *)
Definition line_state (px py : Z) : Z * Z * Z :=
  (xs + sx * px, ys + sy * py, dx * (1 + py) - D * (1 + px)).

(** What the error of a reached state obeys. *)
Definition line_inv (px py : Z) : Prop :=
  let e := dx * (1 + py) - D * (1 + px) in
  0 <= px <= dx /\ 0 <= py <= D /\
  (D < dx -> 0 < e) /\ (dx <= D -> 2 * e <= 2 * dx - D) /\ - 3 * D <= 2 * e <= 3 * dx /\
  (D < dx <= 2 * D -> ~ (px = dx /\ py = D)).

(** Lines between the diagonal and slope 1/2 stop one step short along x. *)
Definition line_short : bool := (D <? dx) && (dx <=? 2 * D).

Lemma line_step_spec px py :
  line_inv px py ->
  match line_step xe ye dx (line_dy ys ye) sx sy (line_state px py) with
  | None => px = (if line_short then dx - 1 else dx) /\ py = D
  | Some s => exists px' py', s = line_state px' py' /\ line_inv px' py' /\
      px <= px' <= px + 1 /\ py <= py' <= py + 1 /\ px + py < px' + py'
  end.
Proof.
  intros (Hpx & Hpy & He1 & He2 & He3 & Hk).
  destruct line_params as (Hdx & HD & Exe & Eye & Hsx & Hsy).
  assert (line_dy ys ye = - D) as -> by (unfold D; lia).
  unfold line_step, line_state, line_short, line_inv. clearbody dx D sx sy.
  assert (forall k, 0 <= k <= dx -> u16 (xs + sx * k) = xs + sx * k) as Hwx.
  { intros k Hk'. apply wrap_small. destruct Hsx; subst sx; nia. }
  assert (forall k, 0 <= k <= D -> u16 (ys + sy * k) = ys + sy * k) as Hwy.
  { intros k Hk'. apply wrap_small. destruct Hsy; subst sy; nia. }
  assert (forall k, (xs + sx * k =? xe) = (k =? dx)) as Hex.
  { intros k. rewrite Exe. destruct (Z.eqb_spec k dx); [subst; apply Z.eqb_refl|].
    apply Z.eqb_neq. destruct Hsx; subst sx; nia. }
  assert (forall k, (ys + sy * k =? ye) = (k =? D)) as Hey.
  { intros k. rewrite Eye. destruct (Z.eqb_spec k D); [subst; apply Z.eqb_refl|].
    apply Z.eqb_neq. destruct Hsy; subst sy; nia. }
  rewrite Hex.
  destruct (Z.leb_spec (- D) (2 * (dx * (1 + py) - D * (1 + px)))) as [H1|H1].
  - destruct (Z.eqb_spec px dx) as [->|Hnx].
    { assert (py = D) as -> by nia. split; [|done].
      destruct (Z.ltb_spec D dx), (Z.leb_spec dx (2 * D)); simpl; lia. }
    replace (xs + sx * px + sx) with (xs + sx * (px + 1)) by ring.
    rewrite Hwx by lia. cbv beta iota zeta. rewrite Hey.
    destruct (Z.leb_spec (2 * (dx * (1 + py) - D * (1 + px) + - D)) dx) as [H2|H2].
    + destruct (Z.eqb_spec py D) as [->|Hny].
      { split; [|done]. assert (px = dx - 1) as -> by nia.
        assert (D < dx) as Hlt by nia. rewrite (proj2 (Z.ltb_lt _ _)) by done.
        rewrite (proj2 (Z.leb_le _ _)) by nia. done. }
      replace (ys + sy * py + sy) with (ys + sy * (py + 1)) by ring.
      rewrite Hwy by lia. exists (px + 1), (py + 1). split; [do 2 f_equal; ring|].
      split; [|lia]. split; [lia|]. split; [lia|]. split; [nia|]. split; [nia|]. split; [lia|].
      intros Hs [E1 E2]. assert (px = dx - 1) by lia. assert (py = D - 1) by lia. subst px py.
      nia.
    + exists (px + 1), py. split; [do 2 f_equal; ring|].
      split; [|lia]. split; [lia|]. split; [lia|]. split; [nia|]. split; [nia|]. split; [lia|].
      intros Hs [E1 E2]. assert (px = dx - 1) by lia. subst px py. nia.
  - cbv beta iota zeta. rewrite (proj2 (Z.leb_le _ dx)) by lia. rewrite Hey.
    destruct (Z.eqb_spec py D) as [->|Hny].
    { assert (px = dx) as -> by nia. split; [|done].
      destruct (Z.ltb_spec D dx); simpl; nia. }
    replace (ys + sy * py + sy) with (ys + sy * (py + 1)) by ring.
    rewrite Hwy by lia. exists px, (py + 1). split; [do 2 f_equal; ring|].
    split; [|lia]. split; [lia|]. split; [lia|]. split; [nia|]. split; [nia|]. split; [lia|].
    intros Hs [E1 E2]. assert (py = D - 1) by lia. subst px py. nia.
Qed.

(** How far a point is along the line, in steps, and whether it is near the straight line through
    the end points: its distance is at most the square root of 2. *)
Definition progress (q : Z * Z) : Z := sx * (q.1 - xs) + sy * (q.2 - ys).
Definition near_line (q : Z * Z) : Prop :=
  Z.abs ((xe - xs) * (q.2 - ys) - (ye - ys) * (q.1 - xs)) <= Z.abs (xe - xs) + Z.abs (ye - ys).

Lemma near_inv px py : line_inv px py -> near_line (xs + sx * px, ys + sy * py).
Proof.
  destruct line_params as (Hdx & HD & Exe & Eye & Hsx & Hsy). intros (_ & _ & _ & _ & He & _).
  unfold near_line. cbn [fst snd]. clearbody dx D sx sy.
  replace (xe - xs) with (sx * dx) by lia. replace (ye - ys) with (sy * D) by lia.
  replace (ys + sy * py - ys) with (sy * py) by lia. replace (xs + sx * px - xs) with (sx * px) by lia.
  replace (sx * dx * (sy * py) - sy * D * (sx * px)) with (sx * sy * (dx * py - D * px)) by ring.
  destruct Hsx as [-> | ->], Hsy as [-> | ->]; lia.
Qed.

Lemma progress_at px py : progress (xs + sx * px, ys + sy * py) = px + py.
Proof.
  destruct line_params as (_ & _ & _ & _ & Hsx & Hsy). unfold progress. cbn [fst snd]. clearbody sx sy.
  destruct Hsx as [-> | ->], Hsy as [-> | ->]; lia.
Qed.

Lemma line_points_from fuel px py :
  line_inv px py -> dx + D - px - py < Z.of_nat fuel ->
  exists pts,
    line_points fuel xe ye dx (line_dy ys ye) sx sy (line_state px py) =
      Some ((xs + sx * px, ys + sy * py) :: pts) /\
    last ((xs + sx * px, ys + sy * py) :: pts) =
      Some (if line_short then xe - sx else xe, ye) /\
    chain ((xs + sx * px, ys + sy * py) :: pts) /\
    Z.of_nat (length pts) <= dx + D - px - py /\
    Forall (fun q => px + py < progress q) pts /\ NoDup ((xs + sx * px, ys + sy * py) :: pts) /\
    Forall near_line ((xs + sx * px, ys + sy * py) :: pts).
Proof.
  destruct line_params as (Hdx & HD & Exe & Eye & Hsx & Hsy).
  revert px py. induction fuel as [|fuel IH]; intros px py Hinv Hf.
  { destruct Hinv as (? & ? & _). lia. }
  cbn [line_points]. pose proof (line_step_spec px py Hinv) as Hst. pose proof (near_inv px py Hinv) as Hnear.
  unfold line_state at 1. destruct (line_step _ _ _ _ _ _ _) as [s|].
  - destruct Hst as (px' & py' & -> & Hinv' & Hx & Hy & Hxy).
    destruct (IH px' py' Hinv') as (pts & -> & Hl & Hc & Hn & Hp & Hd & Hne); [lia|].
    assert (Forall (fun q => px + py < progress q) ((xs + sx * px', ys + sy * py') :: pts)) as Hp'.
    { constructor; [by rewrite progress_at|]. eapply Forall_impl; [exact Hp|]. simpl. intros q Hq. lia. }
    simpl. eexists. split; [done|]. split; [done|]. split; [|split; [simpl; lia|split_and!]].
    + split; [|done]. unfold neighbours. simpl.
      destruct Hsx as [-> | ->], Hsy as [-> | ->]; (split; [lia|]; split; [lia|]; intros [= ? ?]; lia).
    + done.
    + constructor; [|done]. intros Hin. rewrite Forall_forall in Hp'. specialize (Hp' _ Hin).
      rewrite progress_at in Hp'. lia.
    + by constructor.
  - destruct Hst as [Hpx ->]. exists []. destruct Hinv as (? & ? & _).
    split; [done|]. split; [|split_and!; [done|simpl; lia|done|apply NoDup_singleton|by constructor]].
    simpl. rewrite Exe, Eye, Hpx. destruct line_short; do 2 f_equal; ring.
Qed.

Lemma line_inv_start : line_inv 0 0.
Proof.
  destruct line_params as (Hdx & HD & _). unfold line_inv. clearbody dx D. lia.
Qed.
End line.

(** The colour of a line's point number [i]: every third point of a dotted line is a gap. *)
Definition line_colour (style : LINE_STYLE) (color : Z) (i : nat) : Z :=
  match style with
  | LINE_STYLE_DOTTED => if Z.of_nat i mod 3 =? 2 then IMAGE_BACKGROUND else color
  | LINE_STYLE_SOLID => color
  end.

(** The points from number [i] on, one after the other. *)
Fixpoint draw_points (i : nat) (pts : list (Z * Z)) (style : LINE_STYLE) (color width : Z) : M PAINT unit :=
  match pts with
  | [] => mret tt
  | pt :: pts => Paint_DrawPoint pt.1 pt.2 (line_colour style color i) width DOT_STYLE_DFT ;;; draw_points (S i) pts style color width
  end.

Lemma line_loop_draws fuel xe ye dx dy xa ya color width style dotted s pts i p :
  line_points fuel xe ye dx dy xa ya s = Some pts ->
  (style = LINE_STYLE_DOTTED -> dotted = Z.of_nat i mod 3) ->
  line_loop fuel xe ye dx dy xa ya color width style dotted s p = draw_points i pts style color width p.
Proof.
  revert s pts dotted i p. induction fuel as [|fuel IH]; intros [[x y] esp] pts dotted i p H Hd; [done|].
  cbn [line_points] in H. cbn [line_loop].
  assert ((if match style with LINE_STYLE_DOTTED => u8 (dotted + 1) mod 3 =? 0 | _ => false end
           then IMAGE_BACKGROUND else color) = line_colour style color i) as ->.
  { unfold line_colour. destruct style; [done|]. rewrite Hd, wrap_small by (done || zlia).
    destruct (Z.eqb_spec ((Z.of_nat i mod 3 + 1) mod 3) 0), (Z.eqb_spec (Z.of_nat i mod 3) 2); zlia. }
  destruct (line_step _ _ _ _ _ _ _) as [s'|].
  - destruct (line_points fuel _ _ _ _ _ _ s') as [pts'|] eqn:E; [|done].
    injection H as <-. cbn [draw_points fst snd]. unfold mbind, M_bind.
    destruct (Paint_DrawPoint _ _ _ _ _ p) as [[[] p']|]; [|done]. apply IH; [done|].
    intros ->. rewrite Hd, wrap_small by (done || zlia). destruct (Z.eqb_spec ((Z.of_nat i mod 3 + 1) mod 3) 0); zlia.
  - by injection H as <-.
Qed.

(** C37. For any two points on an image of at most 65535 columns and rows, [Paint_DrawLine] draws
    a chain of neighbouring points, in order and none of them twice, from the first point on.
    Each lies within a distance of the square root of 2 from the straight line, and a dotted line
    has the background's colour at every third of them.  The chain ends at the second point unless
    [dy < dx <= 2 dy]; then it ends one column before it, because the second test of the loop uses
    the error that the first one has changed.  The loop never runs past the end: it stops after
    at most [dx + dy + 1] points. *)
Theorem draw_line_points p xs ys xe ye color width style :
  0 <= xs <= Width p -> 0 <= xe <= Width p -> 0 <= ys <= Height p -> 0 <= ye <= Height p ->
  Width p < 2 ^ 16 -> Height p < 2 ^ 16 ->
  exists pts,
    head pts = Some (xs, ys) /\
    last pts = Some (if (Z.abs (ye - ys) <? Z.abs (xe - xs)) && (Z.abs (xe - xs) <=? 2 * Z.abs (ye - ys))
                     then if xs <? xe then xe - 1 else xe + 1 else xe, ye) /\
    chain pts /\ NoDup pts /\ Forall (near_line xs ys xe ye) pts /\
    Z.of_nat (length pts) <= Z.abs (xe - xs) + Z.abs (ye - ys) + 1 /\
    Paint_DrawLine xs ys xe ye color width style p = draw_points 0 pts style color width p.
Proof.
  intros Hxs Hxe Hys Hye Hw Hh.
  destruct (line_params xs ys xe ye) as (Hdx & HD & _).
  destruct (line_points_from xs ys xe ye ltac:(lia) ltac:(lia) ltac:(lia) ltac:(lia)
    (Z.to_nat (line_dx xs xe - line_dy ys ye + 1)) 0 0) as (pts & E & Hl & Hc & Hn & _ & Hd & Hne);
    [by apply line_inv_start|lia|].
  unfold line_state in E. rewrite !Z.mul_0_r, !Z.add_0_r, !Z.mul_1_r in *.
  assert (line_dx xs xe = Z.abs (xe - xs)) as Ex by (unfold line_dx; destruct (Z.leb_spec 0 (xe - xs)); lia).
  assert (line_dy ys ye = - Z.abs (ye - ys)) as Ey by (unfold line_dy; destruct (Z.leb_spec (ye - ys) 0); lia).
  eexists. split_and!; [| |exact Hc|exact Hd|exact Hne| |].
  - done.
  - rewrite Hl. unfold line_short, line_way. rewrite Ex, Ey, Z.opp_involutive.
    destruct (_ && _); [|done]. destruct (xs <? xe); do 2 f_equal; lia.
  - simpl length. lia.
  - unfold Paint_DrawLine. rewrite (bind_step get _ _ _ _ eq_refl).
    rewrite !(proj2 (Z.ltb_ge _ _)) by lia. simpl orb. cbv iota zeta.
    apply line_loop_draws; [|done]. rewrite <- E. do 2 f_equal. lia.
Qed.

Definition demo_screen : PAINT :=
  MkPaint (Some (replicate 200 255)) 30 20 30 20 255 0 0 4 20 2.

(** A dotted line that reaches its end, and a solid one that stops a column early. *)
Lemma draw_line_points_witness :
  (exists pts,
    head pts = Some (25, 3) /\ last pts = Some (9, 19) /\ chain pts /\ NoDup pts /\ Forall (near_line 25 3 9 19) pts /\
    Z.of_nat (length pts) <= Z.abs (9 - 25) + Z.abs (19 - 3) + 1 /\
    Paint_DrawLine 25 3 9 19 0 1 LINE_STYLE_DOTTED demo_screen = draw_points 0 pts LINE_STYLE_DOTTED 0 1 demo_screen) /\
  (exists pts,
    head pts = Some (0, 0) /\ last pts = Some (9, 6) /\ chain pts /\ NoDup pts /\ Forall (near_line 0 0 10 6) pts /\
    Z.of_nat (length pts) <= Z.abs (10 - 0) + Z.abs (6 - 0) + 1 /\
    Paint_DrawLine 0 0 10 6 0 1 LINE_STYLE_SOLID demo_screen = draw_points 0 pts LINE_STYLE_SOLID 0 1 demo_screen).
Proof.
  split; [apply (draw_line_points demo_screen 25 3 9 19 0 1 LINE_STYLE_DOTTED)
         |apply (draw_line_points demo_screen 0 0 10 6 0 1 LINE_STYLE_SOLID)]; simpl; lia.
Defined.

(** ** Drawing stays inside a roomy buffer *)

(** One row and one byte of slack absorb the coordinates the guards let through. *)
Definition roomy (p : PAINT) : Prop :=
  0 <= WidthMemory p /\ 0 <= HeightMemory p /\ 0 <= WidthByte p /\ 0 <= HeightByte p /\
  Width p < 2 ^ 16 /\ Height p < 2 ^ 16 /\ Scale p = 2 /\
  exists im, Image p = Some im /\ HeightByte p * WidthByte p <= Zlen im /\
    WidthMemory p / 8 + HeightMemory p * WidthByte p < Zlen im.

(** [p] is [p0] with other pixels. *)
Definition redrawn (p0 p : PAINT) : Prop := exists im,
  p = set_image (Some im) p0 /\
  0 <= WidthMemory p0 /\ 0 <= HeightMemory p0 /\ 0 <= WidthByte p0 /\ 0 <= HeightByte p0 /\
  Width p0 < 2 ^ 16 /\ Height p0 < 2 ^ 16 /\ Scale p0 = 2 /\
  HeightByte p0 * WidthByte p0 <= Zlen im /\
  WidthMemory p0 / 8 + HeightMemory p0 * WidthByte p0 < Zlen im.

Lemma redrawn_refl p : roomy p -> redrawn p p.
Proof.
  intros (?&?&?&?&?&?&?&im & Him & ? & ?). exists im. rewrite <- Him. by destruct p.
Qed.

Lemma image_set_safe p0 p addr v :
  redrawn p0 p -> (forall im, Image p = Some im -> 0 <= addr < Zlen im) ->
  wp (image_set addr v) (fun _ => redrawn p0) p.
Proof.
  intros (im & -> & H) Ha. specialize (Ha im eq_refl).
  unfold wp, image_set. rewrite (bind_step get _ _ _ _ eq_refl).
  cbn [Image set_image]. unfold mbind, M_bind, lift. rewrite aset_in by lia.
  eexists. split; [done|]. unfold Zlen. by rewrite length_insert.
Qed.

Lemma image_get_safe p0 p addr :
  redrawn p0 p -> (forall im, Image p = Some im -> 0 <= addr < Zlen im) ->
  wp (image_get addr) (fun _ => redrawn p0) p.
Proof.
  intros Hd Ha. destruct (Hd) as (im & Hp & _).
  assert (Image p = Some im) as Him by by rewrite Hp.
  unfold wp, image_get. rewrite (bind_step get _ _ _ _ eq_refl), Him. unfold lift.
  destruct (aget_in im addr (Ha im Him)) as [b ->]. done.
Qed.

Lemma memory_xy_nonneg p x y X Y :
  0 <= x -> 0 <= y -> rotate_xy p x y ≫= mirror_xy p = Some (X, Y) -> 0 <= X /\ 0 <= Y.
Proof.
  intros Hx Hy H.
  assert (forall z, 0 <= u16 z) as Hu by (intros; apply wrap_range; lia).
  destruct (rotate_xy p x y) as [[x' y']|] eqn:E; [|done]. simpl in H.
  assert (0 <= x' /\ 0 <= y') as [Hx' Hy'].
  { unfold rotate_xy in E.
    repeat match type of E with (if ?b then _ else _) = _ => destruct b end;
      injection E as <- <- || discriminate; auto. }
  unfold mirror_xy in H.
  repeat match type of H with (if ?b then _ else _) = _ => destruct b end;
    injection H as <- <- || discriminate; auto.
Qed.

Lemma set_pixel_safe x y color p0 p :
  redrawn p0 p -> wp (Paint_SetPixel x y color) (fun _ => redrawn p0) p.
Proof.
  intros Hd. unfold wp, Paint_SetPixel. rewrite (bind_step get _ _ _ _ eq_refl).
  destruct (_ || _); [done|].
  destruct (rotate_xy p (u16 x) (u16 y) ≫= mirror_xy p) as [[X Y]|] eqn:E; [|done].
  apply memory_xy_nonneg in E as [HX HY]; [|apply wrap_range; lia..].
  destruct (Z.ltb_spec (WidthMemory p) X) as [?|HXW]; [done|].
  destruct (Z.ltb_spec (HeightMemory p) Y) as [?|HYH]; [done|]. simpl orb. cbv iota.
  fold (wp (write_pixel X Y (u16 color)) (fun _ => redrawn p0) p).
  assert (forall q im, redrawn p0 q -> Image q = Some im -> 0 <= X / 8 + Y * WidthByte p < Zlen im)
    as Haddr.
  { intros q im (im' & -> & _ & _ & Hwb & _ & _ & _ & _ & _ & Hlt) Him.
    destruct Hd as (im0 & -> & _). simpl in *. injection Him as ->.
    assert (0 <= X / 8 <= WidthMemory p0 / 8).
    { split; [zlia|]. apply Z.div_le_mono; lia. }
    nia. }
  unfold write_pixel. apply wp_bind. unfold wp at 1, get.
  assert (Scale p = 2) as -> by (destruct Hd as (? & -> & ?); tauto). simpl (2 =? 2).
  cbv iota zeta.
  apply wp_bind. eapply wp_mono; [apply image_get_safe; [done|]; intros; by eapply Haddr|].
  intros b q Hq. destruct (_ =? BLACK); (apply image_set_safe; [done|]; intros; eapply Haddr; [exact Hq|eassumption]).
Qed.

Lemma draw_point_safe x y color dot style p0 p :
  redrawn p0 p -> wp (Paint_DrawPoint x y color dot style) (fun _ => redrawn p0) p.
Proof.
  intros Hd. unfold Paint_DrawPoint. apply wp_bind. unfold wp at 1, get.
  destruct (_ || _); [done|]. destruct style.
  - apply wp_mfor_inv; [done|]. intros xd q _ Hq. apply wp_mforb_inv; [done|].
    intros yd q' _ Hq'. destruct (_ || _); [done|]. apply wp_bind.
    eapply wp_mono; [by apply set_pixel_safe|]. done.
  - apply wp_mfor_inv; [done|]. intros xd q _ Hq. apply wp_mfor_inv; [done|].
    intros yd q' _ Hq'. by apply set_pixel_safe.
Qed.

Lemma line_loop_safe fuel xe ye dx dy xa ya color width style dotted s pts p0 p :
  line_points fuel xe ye dx dy xa ya s = Some pts -> redrawn p0 p ->
  wp (line_loop fuel xe ye dx dy xa ya color width style dotted s) (fun _ => redrawn p0) p.
Proof.
  revert s pts dotted p. induction fuel as [|fuel IH]; intros [[x y] esp] pts dotted p H Hd;
    [done|].
  cbn [line_points] in H. cbn [line_loop].
  apply wp_bind. eapply wp_mono; [by apply draw_point_safe|]. intros [] q Hq. cbv beta.
  destruct (line_step _ _ _ _ _ _ _) as [s'|]; [|done].
  destruct (line_points fuel _ _ _ _ _ _ s') as [pts'|] eqn:E; [|done]. by eapply IH.
Qed.

Lemma draw_line_safe xs ys xe ye color width style p0 p :
  0 <= xs -> 0 <= ys -> 0 <= xe -> 0 <= ye -> redrawn p0 p ->
  wp (Paint_DrawLine xs ys xe ye color width style) (fun _ => redrawn p0) p.
Proof.
  intros Hxs Hys Hxe Hye Hd. unfold Paint_DrawLine. apply wp_bind. unfold wp at 1, get.
  assert (Width p < 2 ^ 16 /\ Height p < 2 ^ 16) as [Hw Hh]
    by (destruct Hd as (? & -> & ?); simpl; tauto).
  destruct (Z.ltb_spec (Width p) xs), (Z.ltb_spec (Height p) ys), (Z.ltb_spec (Width p) xe),
    (Z.ltb_spec (Height p) ye); try done. simpl orb. cbv iota zeta.
  destruct (line_params xs ys xe ye) as (Hdx & HD & _).
  destruct (line_points_from xs ys xe ye ltac:(lia) ltac:(lia) ltac:(lia) ltac:(lia)
    (Z.to_nat (line_dx xs xe - line_dy ys ye + 1)) 0 0) as (pts & E & _);
    [by apply line_inv_start|lia|].
  unfold line_state in E. rewrite !Z.mul_0_r, !Z.add_0_r, !Z.mul_1_r in E.
  eapply line_loop_safe; [|done]. rewrite <- E. do 2 f_equal. lia.
Qed.

Lemma circle_points_safe xc yc a b color width p0 p :
  redrawn p0 p -> wp (circle_points xc yc a b color width) (fun _ => redrawn p0) p.
Proof.
  intros Hd. unfold circle_points.
  do 7 (apply wp_bind; eapply wp_mono; [by apply draw_point_safe|]; clear p Hd; intros [] p Hd).
  by apply draw_point_safe.
Qed.

Lemma circle_loop_safe fuel xc yc color width fill x y esp p0 p :
  0 <= x < 2 ^ 14 -> -1 <= y < 2 ^ 13 -> (0 < fuel)%nat -> y - x + 1 < Z.of_nat fuel ->
  redrawn p0 p ->
  wp (circle_loop fuel xc yc color width fill (x, y, esp)) (fun _ => redrawn p0) p.
Proof.
  revert x y esp p. induction fuel as [|fuel IH]; intros x y esp p Hx Hy Hf0 Hf Hd; [lia|].
  cbn [circle_loop]. destruct (Z.leb_spec x y); [|done]. apply wp_bind.
  eapply (wp_mono _ (fun _ => redrawn p0)).
  - destruct fill; [|by apply circle_points_safe].
    apply wp_mfor_inv; [done|]. intros sy q _ Hq. by apply circle_points_safe.
  - intros [] q Hq. unfold circle_step. destruct (esp <? 0).
    + rewrite (swrap_small 16 (x + 1)) by lia. apply IH; (done || lia).
    + rewrite (swrap_small 16 (x + 1)), (swrap_small 16 (y - 1)) by lia. apply IH; (done || lia).
Qed.

Inductive shape :=
  | ShPoint (x y color dot : Z) (style : DOT_STYLE)
  | ShLine (xs ys xe ye color width : Z) (style : LINE_STYLE)
  | ShRectangle (xs ys xe ye color width : Z) (fill : bool)
  | ShCircle (xc yc radius color width : Z) (fill : bool)
  | ShClear (color : Z)
  | ShClearWindows (xs ys xe ye color : Z).

Definition draw_shape (s : shape) : M PAINT unit :=
  match s with
  | ShPoint x y color dot style => Paint_DrawPoint x y color dot style
  | ShLine xs ys xe ye color width style => Paint_DrawLine xs ys xe ye color width style
  | ShRectangle xs ys xe ye color width fill => Paint_DrawRectangle xs ys xe ye color width fill
  | ShCircle xc yc radius color width fill => Paint_DrawCircle xc yc radius color width fill
  | ShClear color => Paint_Clear color
  | ShClearWindows xs ys xe ye color => Paint_ClearWindows xs ys xe ye color
  end.

(** Arguments are unsigned; radii are small enough for 16-bit error terms. *)
Definition shape_ok (s : shape) : Prop :=
  match s with
  | ShLine xs ys xe ye _ _ _ | ShRectangle xs ys xe ye _ _ _ =>
      0 <= xs /\ 0 <= ys /\ 0 <= xe /\ 0 <= ye
  | ShCircle _ _ radius _ _ _ => 0 <= radius < 2 ^ 13
  | _ => True
  end.
#[export] Instance shape_ok_dec s : Decision (shape_ok s).
Proof. destruct s; apply _. Defined.

Lemma for_bytes_safe body p0 p :
  redrawn p0 p ->
  (forall addr q, redrawn p0 q -> (forall im, Image q = Some im -> 0 <= addr < Zlen im) ->
     wp (body addr) (fun _ => redrawn p0) q) ->
  wp (for_bytes body) (fun _ => redrawn p0) p.
Proof.
  intros Hd Hb. unfold for_bytes. apply wp_bind. unfold wp at 1, get.
  apply wp_mfor_inv; [done|]. intros y q Hy Hq. apply wp_mfor_inv; [done|].
  intros x q' Hx Hq'. apply Hb; [done|]. intros im Him.
  apply elem_of_seqZ in Hx, Hy.
  destruct Hd as (im0 & -> & _).
  destruct Hq' as (im' & -> & _ & _ & Hwb & _ & _ & _ & _ & Hlen & _). simpl in *.
  injection Him as ->. nia.
Qed.

Lemma draw_shape_safe s p0 p :
  shape_ok s -> redrawn p0 p -> wp (draw_shape s) (fun _ => redrawn p0) p.
Proof.
  intros Hs Hd. destruct s; simpl in *.
  - by apply draw_point_safe.
  - destruct Hs as (?&?&?&?). by apply draw_line_safe.
  - destruct Hs as (?&?&?&?). unfold Paint_DrawRectangle. apply wp_bind. unfold wp at 1, get.
    destruct (_ || _); [done|]. destruct fill.
    + apply wp_mfor_inv; [done|]. intros y q Hy%elem_of_seqZ Hq. apply draw_line_safe; (lia || done).
    + do 3 (apply wp_bind; eapply wp_mono; [apply draw_line_safe; (lia || done)|];
            clear p Hd; intros [] p Hd).
      apply draw_line_safe; (lia || done).
  - unfold Paint_DrawCircle. apply wp_bind. unfold wp at 1, get. destruct (_ || _); [done|].
    rewrite (swrap_small 16 radius) by lia. apply circle_loop_safe; (lia || done).
  - unfold Paint_Clear. apply wp_bind. unfold wp at 1, get.
    assert (Scale p = 2) as -> by (destruct Hd as (? & -> & ?); tauto). simpl (2 =? 2).
    cbv iota.
    apply for_bytes_safe; [done|]. intros. by apply image_set_safe.
  - unfold Paint_ClearWindows. apply wp_mfor_inv; [done|]. intros y q _ Hq.
    apply wp_mfor_inv; [done|]. intros x q' _ Hq'. by apply set_pixel_safe.
Qed.

(** Drawing any sequence of shapes, at any coordinates, rotation and mirroring, on an image
    whose buffer has one row and one byte of slack, terminates without an access outside the
    buffer and changes nothing but the pixels. *)
Theorem drawing_safe p shapes :
  roomy p -> Forall shape_ok shapes ->
  exists im', mfor shapes draw_shape p = Ok (tt, set_image (Some im') p) /\
    (forall im, Image p = Some im -> HeightByte p * WidthByte p <= Zlen im').
Proof.
  intros Hr Hs.
  assert (wp (mfor shapes draw_shape) (fun _ => redrawn p) p) as H.
  { apply wp_mfor_inv; [by apply redrawn_refl|]. intros s q Hin Hq.
    apply draw_shape_safe; [|done]. rewrite Forall_forall in Hs. by apply Hs. }
  apply wp_run in H as ([] & q & E & im' & -> & H). exists im'. split; [done|]. tauto.
Qed.

Definition demo_shapes : list shape :=
  [ShClear 255; ShRectangle 0 0 30 20 0 1 false; ShCircle 15 10 9 0 2 true;
   ShLine 30 20 0 3 0 3 LINE_STYLE_DOTTED; ShPoint 65535 7 0 4 DOT_FILL_RIGHTUP].
Definition roomy_screen : PAINT :=
  MkPaint (Some (replicate 84 255)) 30 20 30 20 255 0 0 4 20 2.

Lemma drawing_safe_witness :
  exists im', mfor demo_shapes draw_shape roomy_screen =
                Ok (tt, set_image (Some im') roomy_screen) /\
    (forall im, Image roomy_screen = Some im -> 80 <= Zlen im').
Proof.
  apply (drawing_safe roomy_screen demo_shapes).
  - unfold roomy. simpl. repeat (split; [lia|]). eexists. split; [reflexivity|].
    vm_compute. split; [discriminate|reflexivity].
  - apply (bool_decide_unpack _). vm_compute. exact I.
Defined.

(** ** Numbers *)

(** Value of a string of decimal digits. *)
Definition digits_value (s : bytes) : Z := fold_left (fun a c => a * 10 + (c - 48)) s 0.

Lemma num_array_spec fuel n :
  0 <= n < 10 ^ Z.of_nat fuel -> (0 < fuel)%nat ->
  digits_value (rev (num_array fuel n)) = n /\
  Forall (fun c => 48 <= c <= 57) (num_array fuel n) /\
  (0 < length (num_array fuel n) <= fuel)%nat.
Proof.
  revert n. induction fuel as [|fuel IH]; intros n Hn Hf; [lia|]. cbn [num_array].
  rewrite Z.rem_mod_nonneg, Z.quot_div_nonneg by lia.
  pose proof (Z.mod_pos_bound n 10 ltac:(lia)) as Hm. rewrite wrap_small by lia.
  unfold digits_value. cbn [rev]. rewrite fold_left_app. cbn [fold_left].
  destruct (Z.eqb_spec (n / 10) 0) as [E|E].
  - simpl. split; [zlia|]. split; [|lia]. repeat constructor; lia.
  - destruct fuel as [|fuel]; [exfalso; simpl in Hn; zlia|].
    rewrite Nat2Z.inj_succ, Z.pow_succ_r in Hn by lia.
    destruct (IH (n / 10)) as (Hv & Ha & Hl); [zlia|lia|].
    unfold digits_value in Hv. rewrite Hv. split; [zlia|].
    split; [constructor; [lia|done]|]. simpl in *. lia.
Qed.

(** For a non-negative number [Paint_DrawNum] shows its decimal digits and nothing else:
    the string it hands to the text code is NUL-terminated, made of digits, and reads as
    the number. *)
Theorem draw_num_digits p x y n font fg bg :
  0 <= n < 2 ^ 31 -> 0 <= x <= Width p -> 0 <= y <= Height p ->
  exists s, cstr (str_array (num_array 10 n)) = Ok s /\
    Forall (fun c => 48 <= c <= 57) s /\ digits_value s = n /\
    Paint_DrawNum x y n font fg bg p =
      string_en_loop (str_array (num_array 10 n)) x y font bg fg x y p.
Proof.
  intros Hn Hx Hy. destruct (num_array_spec 10 n) as (Hv & Ha & Hl); [simpl; lia|lia|].
  assert (Forall (fun c => 48 <= c <= 57) (rev (num_array 10 n))) as Ha' by by apply Forall_rev.
  exists (rev (num_array 10 n)). split; [|split; [done|split; [done|]]].
  - unfold str_array, ARRAY_LEN.
    replace (Z.to_nat 255 - length (num_array 10 n))%nat
      with (S (254 - length (num_array 10 n))) by lia.
    simpl replicate. apply cstr_app. eapply Forall_impl; [exact Ha'|]. simpl. lia.
  - unfold Paint_DrawNum. rewrite (bind_step get _ _ _ _ eq_refl).
    rewrite !(proj2 (Z.ltb_ge _ _)) by lia. unfold orb. cbv iota.
    unfold Paint_DrawString_EN. rewrite (bind_step get _ _ _ _ eq_refl).
    by rewrite !(proj2 (Z.ltb_ge _ _)) by lia.
Qed.

Lemma draw_num_digits_witness :
  exists s, cstr (str_array (num_array 10 2147483647)) = Ok s /\
    Forall (fun c => 48 <= c <= 57) s /\ digits_value s = 2147483647 /\
    Paint_DrawNum 1 1 2147483647 (MkFont [] 5 8) 0 255 demo_screen =
      string_en_loop (str_array (num_array 10 2147483647)) 1 1 (MkFont [] 5 8) 255 0 1 1
        demo_screen.
Proof. apply (draw_num_digits demo_screen 1 1 2147483647 (MkFont [] 5 8) 0 255); simpl; lia. Defined.

(** A negative number shows no sign: the remainders of C are negative, and -7 becomes the
    character [')'], two places before ['0'] and five more. *)
Example negative_number : num_array 10 (-7) = [41].
Proof. reflexivity. Qed.
