(* ===== verification/Epd.v ===== *)
(** The e-paper controller driver: [components/epaper/driver/EPD_2in7_V2.c] and the pin and
    SPI layer [components/epaper/config/DEV_Config.c].

    The driver is a producer of pin, SPI and delay events; [decode] is the other end of the
    wires, which sees a byte as a command or as data by the level of DC while CS is low.
    The level of the busy pin is an input: the list of the values the next reads return. *)

From S2P Require Import Prelude.
#[local] Open Scope Z_scope.

(** ** Pins, SPI, delays *)

Inductive pin := EPD_RST_PIN | EPD_DC_PIN | EPD_CS_PIN.

Inductive event :=
  | EvPin (p : pin) (v : Z)
  | EvSpi (b : Z)
  | EvDelay (ms : Z).

Record dev := Dev {
  trace : list event;      (* what was done, in order *)
  busy : list Z;           (* levels of the busy pin still to be read *)
  spi_epaper : bool;       (* the SPI device was found *)
}.

Definition emit (e : event) : M dev unit :=
  modify (fun d => Dev (trace d ++ [e]) (busy d) (spi_epaper d)).

Definition DEV_Digital_Write (p : pin) (v : Z) : M dev unit := emit (EvPin p v).
Definition DEV_Delay_ms (ms : Z) : M dev unit := emit (EvDelay ms).

Definition DEV_SPI_WriteByte (value : Z) : M dev unit :=
  d ← get;
  if spi_epaper d then emit (EvSpi (u8 value)) else throw AssertFail.

Definition DEV_Module_Init : M dev Z :=
  DEV_Digital_Write EPD_DC_PIN 0 ;;;
  DEV_Digital_Write EPD_CS_PIN 0 ;;;
  DEV_Digital_Write EPD_RST_PIN 1 ;;;
  mret 0.

Definition DEV_Module_Exit : M dev unit :=
  DEV_Digital_Write EPD_DC_PIN 0 ;;;
  DEV_Digital_Write EPD_CS_PIN 0 ;;;
  DEV_Digital_Write EPD_RST_PIN 0.

(** ** The driver *)

Definition EPD_2IN7_V2_WIDTH := 176.
Definition EPD_2IN7_V2_HEIGHT := 264.

Definition LUT_DATA_4Gray : bytes :=
  [64; 72; 128; 0; 0; 0; 0; 0; 0; 0; 0; 0;
   8; 72; 16; 0; 0; 0; 0; 0; 0; 0; 0; 0;
   2; 72; 4; 0; 0; 0; 0; 0; 0; 0; 0; 0;
   32; 72; 1; 0; 0; 0; 0; 0; 0; 0; 0; 0;
   0; 0; 0; 0; 0; 0; 0; 0; 0; 0; 0; 0;
   10; 25; 0; 3; 8; 0; 0;
   20; 1; 0; 20; 1; 0; 3;
   10; 3; 0; 8; 25; 0; 0;
   1; 0; 0; 0; 0; 0; 1;
   0; 0; 0; 0; 0; 0; 0;
   0; 0; 0; 0; 0; 0; 0;
   0; 0; 0; 0; 0; 0; 0;
   0; 0; 0; 0; 0; 0; 0;
   0; 0; 0; 0; 0; 0; 0;
   0; 0; 0; 0; 0; 0; 0;
   0; 0; 0; 0; 0; 0; 0;
   0; 0; 0; 0; 0; 0; 0;
   34; 34; 34; 34; 34; 34; 0; 0; 0;
   34; 23; 65; 0; 50; 28].

Definition EPD_2IN7_V2_Reset : M dev unit :=
  DEV_Digital_Write EPD_RST_PIN 1 ;;; DEV_Delay_ms 20 ;;;
  DEV_Digital_Write EPD_RST_PIN 0 ;;; DEV_Delay_ms 2 ;;;
  DEV_Digital_Write EPD_RST_PIN 1 ;;; DEV_Delay_ms 20.

Definition EPD_2IN7_V2_SendCommand (Reg : Z) : M dev unit :=
  DEV_Digital_Write EPD_DC_PIN 0 ;;; DEV_Digital_Write EPD_CS_PIN 0 ;;;
  DEV_SPI_WriteByte Reg ;;; DEV_Digital_Write EPD_CS_PIN 1.

Definition EPD_2IN7_V2_SendData (Data : Z) : M dev unit :=
  DEV_Digital_Write EPD_DC_PIN 1 ;;; DEV_Digital_Write EPD_CS_PIN 0 ;;;
  DEV_SPI_WriteByte Data ;;; DEV_Digital_Write EPD_CS_PIN 1.

(** The polling loop, over the levels that will be read; a list that never has a 0 is a
    panel that stays busy for ever. *)
Fixpoint wait_busy (levels : list Z) : M dev unit :=
  match levels with
  | [] => throw Spin
  | v :: levels =>
      modify (fun d => Dev (trace d) levels (spi_epaper d)) ;;;
      if v =? 0 then DEV_Delay_ms 20 else DEV_Delay_ms 10 ;;; wait_busy levels
  end.

Definition EPD_2IN7_V2_ReadBusy : M dev unit := d ← get; wait_busy (busy d).

Definition turn_on (v : Z) : M dev unit :=
  EPD_2IN7_V2_SendCommand 34 ;;; EPD_2IN7_V2_SendData v ;;;
  EPD_2IN7_V2_SendCommand 32 ;;; EPD_2IN7_V2_ReadBusy.
Definition EPD_2IN7_V2_TurnOnDisplay : M dev unit := turn_on 247.
Definition EPD_2IN7_V2_TurnOnDisplay_Fast : M dev unit := turn_on 199.
Definition EPD_2IN7_V2_TurnOnDisplay_Partial : M dev unit := turn_on 255.
Definition EPD_2IN7_V2_TurnOnDisplay_4GRAY : M dev unit := turn_on 199.

Definition send_lut (i : Z) : M dev unit :=
  v ← lift (aget LUT_DATA_4Gray i); EPD_2IN7_V2_SendData v.

Definition EPD_2IN7_V2_Lut : M dev unit :=
  EPD_2IN7_V2_SendCommand 50 ;;; mfor (seqZ 0 153) send_lut.

(** A command byte and its data bytes. *)
Definition cmd (c : Z) (ds : list Z) : M dev unit :=
  EPD_2IN7_V2_SendCommand c ;;; mfor ds EPD_2IN7_V2_SendData.

Definition EPD_2IN7_V2_Init : M dev unit :=
  EPD_2IN7_V2_Reset ;;; EPD_2IN7_V2_ReadBusy ;;;
  cmd 18 [] ;;; EPD_2IN7_V2_ReadBusy ;;;
  cmd 69 [0; 0; 176; 0] ;;;
  cmd 68 [0; 32] ;;;
  cmd 79 [0; 0] ;;;
  cmd 17 [3] ;;;
  EPD_2IN7_V2_ReadBusy.

Definition EPD_2IN7_V2_Init_Fast : M dev unit :=
  EPD_2IN7_V2_Reset ;;; EPD_2IN7_V2_ReadBusy ;;;
  cmd 18 [] ;;; EPD_2IN7_V2_ReadBusy ;;;
  cmd 24 [128] ;;;
  cmd 34 [177] ;;; cmd 32 [] ;;; EPD_2IN7_V2_ReadBusy ;;;
  cmd 26 [100; 0] ;;;
  cmd 69 [0; 0; 7; 1] ;;;
  cmd 79 [0; 0] ;;;
  cmd 17 [3] ;;;
  cmd 34 [145] ;;; cmd 32 [] ;;; EPD_2IN7_V2_ReadBusy.

Definition EPD_2IN7_V2_Init_4GRAY : M dev unit :=
  EPD_2IN7_V2_Reset ;;; EPD_2IN7_V2_ReadBusy ;;;
  cmd 18 [] ;;; EPD_2IN7_V2_ReadBusy ;;;
  cmd 116 [84] ;;; cmd 126 [59] ;;;
  cmd 1 [7; 1; 0] ;;;
  cmd 17 [3] ;;;
  cmd 68 [0; 21] ;;;
  cmd 69 [0; 0; 7; 1] ;;;
  cmd 60 [0] ;;;
  cmd 44 [] ;;; send_lut 158 ;;;
  cmd 63 [] ;;; send_lut 153 ;;;
  cmd 3 [] ;;; send_lut 154 ;;;
  cmd 4 [] ;;; send_lut 155 ;;; send_lut 156 ;;; send_lut 157 ;;;
  EPD_2IN7_V2_Lut ;;;
  cmd 78 [0] ;;;
  cmd 79 [0; 0] ;;;
  EPD_2IN7_V2_ReadBusy.

Definition epd_width : Z :=
  if EPD_2IN7_V2_WIDTH mod 8 =? 0 then EPD_2IN7_V2_WIDTH / 8 else EPD_2IN7_V2_WIDTH / 8 + 1.

(** The row and column loops around [SendData]. *)
Definition send_rows (pix : Z -> Z -> M dev unit) : M dev unit :=
  mfor (seqZ 0 EPD_2IN7_V2_HEIGHT) (fun j => mfor (seqZ 0 epd_width) (fun i => pix i j)).

Definition send_image (image : bytes) : M dev unit :=
  send_rows (fun i j => v ← lift (aget image (i + j * epd_width)); EPD_2IN7_V2_SendData v).

Definition EPD_2IN7_V2_Clear : M dev unit :=
  EPD_2IN7_V2_SendCommand 36 ;;;
  send_rows (fun _ _ => EPD_2IN7_V2_SendData 255) ;;;
  EPD_2IN7_V2_TurnOnDisplay.

Definition EPD_2IN7_V2_Display (Image : bytes) : M dev unit :=
  EPD_2IN7_V2_SendCommand 36 ;;; send_image Image ;;; EPD_2IN7_V2_TurnOnDisplay.

Definition EPD_2IN7_V2_Display_Fast (Image : bytes) : M dev unit :=
  EPD_2IN7_V2_SendCommand 36 ;;; send_image Image ;;; EPD_2IN7_V2_TurnOnDisplay_Fast.

Definition EPD_2IN7_V2_Display_Base (Image : bytes) : M dev unit :=
  EPD_2IN7_V2_SendCommand 36 ;;; send_image Image ;;;
  EPD_2IN7_V2_SendCommand 38 ;;; send_image Image ;;;
  EPD_2IN7_V2_TurnOnDisplay.

Definition EPD_2IN7_V2_Display_Base_color (color : Z) : M dev unit :=
  EPD_2IN7_V2_SendCommand 36 ;;; send_rows (fun _ _ => EPD_2IN7_V2_SendData color) ;;;
  EPD_2IN7_V2_SendCommand 38 ;;; send_rows (fun _ _ => EPD_2IN7_V2_SendData color).

(** The byte columns of a partial update: first and one past the last. *)
Definition partial_columns (Xstart Xend : Z) : Z * Z :=
  if ((Xstart mod 8 + Xend mod 8 =? 8) && (Xend mod 8 <? Xstart mod 8))
     || (Xstart mod 8 + Xend mod 8 =? 0) || (Z.rem (Xend - Xstart) 8 =? 0)
  then (Xstart / 8, Xend / 8)
  else (Xstart / 8, if Xend mod 8 =? 0 then Xend / 8 else Xend / 8 + 1).

Definition EPD_2IN7_V2_Display_Partial (Image : bytes) (Xstart Ystart Xend Yend : Z)
    : M dev unit :=
  let '(Xstart, Xend) := partial_columns Xstart Xend in
  let Width := u16 (Xend - Xstart) in
  let IMAGE_COUNTER := u16 (Width * (Yend - Ystart)) in
  let Xend := u16 (Xend - 1) in
  let Yend := u16 (Yend - 1) in
  EPD_2IN7_V2_Reset ;;;
  cmd 60 [128] ;;;
  cmd 68 [Z.land Xstart 255; Z.land Xend 255] ;;;
  cmd 69 [Z.land Ystart 255; Z.land (Z.shiftr Ystart 8) 1;
          Z.land Yend 255; Z.land (Z.shiftr Yend 8) 1] ;;;
  cmd 78 [Z.land Xstart 255] ;;;
  cmd 79 [Z.land Ystart 255; Z.land (Z.shiftr Ystart 8) 1] ;;;
  EPD_2IN7_V2_SendCommand 36 ;;;
  mfor (seqZ 0 IMAGE_COUNTER) (fun i => v ← lift (aget Image i); EPD_2IN7_V2_SendData v) ;;;
  EPD_2IN7_V2_TurnOnDisplay_Partial.

(** One of the two planes of the 4-gray picture: [f] maps the two top bits of [temp1] to a
    plane bit; eight pixels, from two bytes, make one byte. *)
Definition gray_pixel (f : Z -> Z) (last : bool) (s : Z * Z) : Z * Z :=
  let '(temp1, temp3) := s in
  let temp3 := Z.lor temp3 (f (Z.land temp1 192)) in
  (u8 (Z.shiftl temp1 2), if last then temp3 else u8 (Z.shiftl temp3 1)).

Definition gray_byte (f : Z -> Z) (j : Z) (b temp3 : Z) : Z :=
  let s := gray_pixel f false (b, temp3) in
  let s := gray_pixel f false s in
  let s := gray_pixel f false s in
  (gray_pixel f (j =? 1) s).2.

Definition gray_pair (f : Z -> Z) (b0 b1 : Z) : Z := gray_byte f 1 b1 (gray_byte f 0 b0 0).

(** Plane 0x24 and plane 0x26. *)
Definition gray_old (t : Z) : Z :=
  if t =? 192 then 0 else if t =? 0 then 1 else if t =? 128 then 1 else 0.
Definition gray_new (t : Z) : Z :=
  if t =? 192 then 0 else if t =? 0 then 1 else if t =? 128 then 0 else 1.

Definition send_plane (f : Z -> Z) (Image : bytes) : M dev unit :=
  mfor (seqZ 0 5808) (fun i =>
    b0 ← lift (aget Image (i * 2));
    b1 ← lift (aget Image (i * 2 + 1));
    EPD_2IN7_V2_SendData (gray_pair f b0 b1)).

Definition EPD_2IN7_V2_4GrayDisplay (Image : bytes) : M dev unit :=
  EPD_2IN7_V2_SendCommand 36 ;;; send_plane gray_old Image ;;;
  EPD_2IN7_V2_SendCommand 38 ;;; send_plane gray_new Image ;;;
  EPD_2IN7_V2_TurnOnDisplay_4GRAY.

Definition EPD_2IN7_V2_Sleep : M dev unit := cmd 16 [1].

(** ** The other end of the wires *)

(** [Lost]: a byte clocked out while CS is high. *)
Inductive frame := Cmd (b : Z) | Data (b : Z) | HwReset | Lost (b : Z).
#[export] Instance frame_eq_dec : EqDecision frame.
Proof. solve_decision. Defined.

(** Levels of DC, CS and RST. *)
Record lines := Lines { l_dc : Z; l_cs : Z; l_rst : Z }.

Fixpoint decode (l : lines) (evs : list event) : list frame :=
  match evs with
  | [] => []
  | EvPin EPD_DC_PIN v :: evs => decode (Lines v (l_cs l) (l_rst l)) evs
  | EvPin EPD_CS_PIN v :: evs => decode (Lines (l_dc l) v (l_rst l)) evs
  | EvPin EPD_RST_PIN v :: evs =>
      (if (l_rst l =? 1) && (v =? 0) then [HwReset] else []) ++
      decode (Lines (l_dc l) (l_cs l) v) evs
  | EvSpi b :: evs =>
      (if l_cs l =? 0 then if l_dc l =? 0 then Cmd b else Data b else Lost b) :: decode l evs
  | EvDelay _ :: evs => decode l evs
  end.

Fixpoint final (l : lines) (evs : list event) : lines :=
  match evs with
  | [] => l
  | EvPin EPD_DC_PIN v :: evs => final (Lines v (l_cs l) (l_rst l)) evs
  | EvPin EPD_CS_PIN v :: evs => final (Lines (l_dc l) v (l_rst l)) evs
  | EvPin EPD_RST_PIN v :: evs => final (Lines (l_dc l) (l_cs l) v) evs
  | _ :: evs => final l evs
  end.

Lemma decode_app l a b : decode l (a ++ b) = decode l a ++ decode (final l a) b.
Proof.
  revert l. induction a as [|[[] v|v|ms] a IH]; intros l; simpl; try done; rewrite IH; try done.
  by rewrite app_assoc.
Qed.

Lemma final_app l a b : final l (a ++ b) = final (final l a) b.
Proof. revert l. induction a as [|[[] v|v|ms] a IH]; intros l; simpl; done. Qed.

(** The levels read by waits of [k] polls each before the panel is ready. *)
Definition polls (waits : list nat) : list Z := concat (map (fun k => replicate k 1 ++ [0]) waits).

(** [m] sends the frames [fs] and nothing else, waiting as long as the panel is busy. *)
Definition sends (m : M dev unit) (waits : list nat) (fs : list frame) : Prop :=
  forall d rest, spi_epaper d = true -> busy d = polls waits ++ rest ->
  exists evs, m d = Ok (tt, Dev (trace d ++ evs) rest true) /\
    forall l, l_rst l = 1 -> decode l evs = fs /\ l_rst (final l evs) = 1.

Lemma sends_seq m1 m2 w1 w2 f1 f2 :
  sends m1 w1 f1 -> sends m2 w2 f2 -> sends (m1 ;;; m2) (w1 ++ w2) (f1 ++ f2).
Proof.
  intros H1 H2 d rest Hs Hb. unfold polls in Hb. rewrite map_app, concat_app, <- app_assoc in Hb.
  destruct (H1 d _ Hs Hb) as (e1 & E1 & D1).
  destruct (H2 (Dev (trace d ++ e1) (polls w2 ++ rest) true) rest) as (e2 & E2 & D2);
    [done|done|].
  exists (e1 ++ e2). rewrite (bind_step _ _ _ _ _ E1). simpl in E2. rewrite app_assoc.
  split; [done|]. intros l Hl. destruct (D1 l Hl) as [<- Hf]. destruct (D2 _ Hf) as [<- Hf'].
  rewrite decode_app, final_app. done.
Qed.

Lemma sends_seq0 m1 m2 w2 f1 f2 :
  sends m1 [] f1 -> sends m2 w2 f2 -> sends (m1 ;;; m2) w2 (f1 ++ f2).
Proof. intros. by apply (sends_seq m1 m2 [] w2). Qed.

Lemma sends_ret : sends (mret tt) [] [].
Proof.
  intros d rest Hs Hb. exists []. rewrite app_nil_r. simpl in Hb. split; [|done].
  destruct d. simpl in *. by subst.
Qed.

(** Straight-line output. *)
Lemma sends_events m evs fs :
  (forall d, spi_epaper d = true -> m d = Ok (tt, Dev (trace d ++ evs) (busy d) true)) ->
  (forall dc cs, decode (Lines dc cs 1) evs = fs /\ l_rst (final (Lines dc cs 1) evs) = 1) ->
  sends m [] fs.
Proof.
  intros Hm Hd d rest Hs Hb. exists evs. rewrite Hm by done. rewrite Hb. split; [done|].
  intros [dc cs rst]. simpl. intros ->. apply Hd.
Qed.

Lemma sends_command c : is_byte c -> sends (EPD_2IN7_V2_SendCommand c) [] [Cmd c].
Proof.
  intros Hc. apply (sends_events _
    [EvPin EPD_DC_PIN 0; EvPin EPD_CS_PIN 0; EvSpi c; EvPin EPD_CS_PIN 1]); [|done].
  intros d Hs. unfold EPD_2IN7_V2_SendCommand, DEV_SPI_WriteByte, DEV_Digital_Write, emit, modify,
    mbind, M_bind, get. simpl. rewrite Hs, wrap_small by apply Hc. simpl. by rewrite <- !app_assoc.
Qed.

Lemma sends_data b : is_byte b -> sends (EPD_2IN7_V2_SendData b) [] [Data b].
Proof.
  intros Hc. apply (sends_events _
    [EvPin EPD_DC_PIN 1; EvPin EPD_CS_PIN 0; EvSpi b; EvPin EPD_CS_PIN 1]); [|done].
  intros d Hs. unfold EPD_2IN7_V2_SendData, DEV_SPI_WriteByte, DEV_Digital_Write, emit, modify,
    mbind, M_bind, get. simpl. rewrite Hs, wrap_small by apply Hc. simpl. by rewrite <- !app_assoc.
Qed.

Lemma sends_reset : sends EPD_2IN7_V2_Reset [] [HwReset].
Proof.
  apply (sends_events _ [EvPin EPD_RST_PIN 1; EvDelay 20; EvPin EPD_RST_PIN 0; EvDelay 2;
                         EvPin EPD_RST_PIN 1; EvDelay 20]); [|done].
  intros [t b s] Hs. simpl in Hs. subst.
  unfold EPD_2IN7_V2_Reset, DEV_Digital_Write, DEV_Delay_ms, emit, modify, mbind, M_bind. simpl.
  by rewrite <- !app_assoc.
Qed.

Lemma sends_busy k : sends EPD_2IN7_V2_ReadBusy [k] [].
Proof.
  intros d rest Hs Hb. unfold polls in Hb. simpl in Hb. rewrite app_nil_r, <- app_assoc in Hb.
  simpl in Hb. unfold EPD_2IN7_V2_ReadBusy. rewrite (bind_step get _ _ _ _ eq_refl). rewrite Hb.
  assert (forall t lv, exists evs,
    wait_busy (replicate k 1 ++ 0 :: rest) (Dev t lv true) = Ok (tt, Dev (t ++ evs) rest true) /\
    forall l, decode l evs = [] /\ final l evs = l) as H.
  { clear. induction k as [|k IH]; intros t lv.
    - exists [EvDelay 20]. done.
    - destruct (IH (t ++ [EvDelay 10]) (replicate k 1 ++ 0 :: rest)) as (evs & E & D).
      exists (EvDelay 10 :: evs). split; [|done].
      cbn [replicate app wait_busy]. unfold modify, mbind, M_bind. simpl.
      unfold mbind, M_bind, DEV_Delay_ms, emit, modify. simpl. rewrite E.
      by rewrite <- app_assoc. }
  destruct (H (trace d) (busy d)) as (evs & E & D). exists evs. split.
  - destruct d as [t b s]. simpl in *. subst. done.
  - intros l Hl. destruct (D l) as [-> ->]. done.
Qed.

Lemma sends_mfor {X} (xs : list X) body (g : X -> list frame) :
  (forall x, x ∈ xs -> sends (body x) [] (g x)) -> sends (mfor xs body) [] (concat (map g xs)).
Proof.
  induction xs as [|x xs IH]; intros H; simpl; [apply sends_ret|].
  apply sends_seq0; [apply H; set_solver|]. apply IH. intros. apply H. set_solver.
Qed.

Lemma sends_datas ds : all_bytes ds -> sends (mfor ds EPD_2IN7_V2_SendData) [] (map Data ds).
Proof.
  intros H. replace (map Data ds) with (concat (map (fun d => [Data d]) ds)).
  - apply sends_mfor. intros x Hx. apply sends_data. rewrite Forall_forall in H. by apply H.
  - clear. induction ds; simpl; by f_equal.
Qed.

Lemma sends_cmd c ds : is_byte c -> all_bytes ds -> sends (cmd c ds) [] (Cmd c :: map Data ds).
Proof.
  intros Hc Hd. unfold cmd. apply (sends_seq0 _ _ _ [Cmd c]);
    [by apply sends_command|by apply sends_datas].
Qed.

Lemma sends_cmd_seq c ds w fs m :
  is_byte c -> all_bytes ds -> sends m w fs ->
  sends (cmd c ds ;;; m) w (Cmd c :: map Data ds ++ fs).
Proof.
  intros H1 H2 Hm. apply (sends_seq0 _ _ _ (Cmd c :: map Data ds)); [|done].
  by apply sends_cmd.
Qed.

Lemma sends_lift {A} (r : res A) (k : A -> M dev unit) a w fs :
  r = Ok a -> sends (k a) w fs -> sends (x ← lift r; k x) w fs.
Proof. intros -> H d rest. apply H. Qed.

Lemma sends_slice image off n :
  all_bytes image -> (off + n <= length image)%nat ->
  sends (mfor (seqZ 0 (Z.of_nat n)) (fun i =>
           v ← lift (aget image (i + Z.of_nat off)); EPD_2IN7_V2_SendData v))
    [] (map Data (take n (drop off image))).
Proof.
  intros Hi Hn.
  replace (map Data (take n (drop off image)))
    with (concat (map (fun i => map Data (take 1 (drop (off + Z.to_nat i) image)))
                    (seqZ 0 (Z.of_nat n)))).
  - apply sends_mfor. intros i Hin%elem_of_seqZ.
    destruct (lookup_lt_is_Some_2 image (off + Z.to_nat i)) as [b Hb]; [lia|].
    rewrite (drop_S _ _ _ Hb). apply (sends_lift _ _ b).
    + apply aget_Ok. split; [lia|].
      by replace (Z.to_nat (i + Z.of_nat off)) with (off + Z.to_nat i)%nat by lia.
    + apply sends_data, (Forall_lookup_1 _ _ _ _ Hi Hb).
  - assert (forall j, (j <= n)%nat ->
      concat (map (fun i => map Data (take 1 (drop (off + Z.to_nat i) image)))
        (seqZ 0 (Z.of_nat j))) = map Data (take j (drop off image))) as H; [|by apply H].
    induction j as [|j IH]; intros Hj; [done|].
    replace (Z.of_nat (S j)) with (Z.of_nat j + 1) by lia.
    rewrite seqZ_app by lia. rewrite map_app, concat_app, IH by lia.
    assert (seqZ (0 + Z.of_nat j) 1 = [Z.of_nat j]) as -> by (unfold seqZ; simpl; f_equal; lia).
    cbn [map concat]. rewrite app_nil_r, <- map_app, Nat2Z.id. f_equal.
    rewrite <- drop_drop, take_take_drop. f_equal. lia.
Qed.

Lemma concat_rows {A} (l : list A) w n :
  (n * w <= length l)%nat ->
  concat (map (fun j => take w (drop (j * w) l)) (seq 0 n)) = take (n * w) l.
Proof.
  induction n as [|n IH]; intros Hn; [done|].
  rewrite seq_S, map_app, concat_app, IH by lia. simpl. rewrite app_nil_r.
  rewrite take_take_drop. f_equal. lia.
Qed.

(** The bytes of a full picture: 5808. *)
Definition frame_bytes : nat := 264 * 22.

Lemma sends_image image :
  all_bytes image -> (frame_bytes <= length image)%nat ->
  sends (send_image image) [] (map Data (take frame_bytes image)).
Proof.
  unfold frame_bytes. intros Hi Hl. unfold send_image, send_rows.
  replace (map Data (take (264 * 22) image))
    with (concat (map (fun j => map Data (take 22 (drop (Z.to_nat j * 22) image)))
            (seqZ 0 EPD_2IN7_V2_HEIGHT))).
  - apply sends_mfor. intros j Hj%elem_of_seqZ. unfold EPD_2IN7_V2_HEIGHT in Hj.
    change epd_width with (Z.of_nat 22).
    replace (j * Z.of_nat 22) with (Z.of_nat (Z.to_nat j * 22)) by lia.
    apply sends_slice; [done|]. lia.
  - rewrite <- concat_rows by lia.
    rewrite concat_map, map_map. change EPD_2IN7_V2_HEIGHT with (Z.of_nat 264).
    unfold seqZ. rewrite Nat2Z.id. change (?f <$> ?l) with (map f l). rewrite map_map. f_equal.
Qed.

Lemma sends_constant c :
  is_byte c -> sends (send_rows (fun _ _ => EPD_2IN7_V2_SendData c)) [] (replicate frame_bytes (Data c)).
Proof.
  intros Hc. unfold send_rows.
  replace (replicate frame_bytes (Data c))
    with (concat (map (fun j : Z => concat (map (fun i : Z => [Data c]) (seqZ 0 epd_width)))
                    (seqZ 0 EPD_2IN7_V2_HEIGHT))) by (vm_compute; reflexivity).
  apply sends_mfor. intros j _. apply sends_mfor. intros i _. by apply sends_data.
Qed.

Lemma sends_turn_on v k :
  is_byte v -> sends (turn_on v) [k] [Cmd 34; Data v; Cmd 32].
Proof.
  intros Hv. unfold turn_on. unfold is_byte in *.
  apply (sends_seq0 _ _ _ [Cmd 34]); [apply sends_command; unfold is_byte; lia|].
  apply (sends_seq0 _ _ _ [Data v]); [by apply sends_data|].
  apply (sends_seq0 _ _ _ [Cmd 32] []); [apply sends_command; unfold is_byte; lia|].
  apply sends_busy.
Qed.

Ltac sends_auto :=
  lazymatch goal with
  | |- is_byte _ => unfold is_byte; lia
  | |- all_bytes _ => apply (bool_decide_unpack _); vm_compute; exact I
  end.

(** ** The 4-gray planes *)

(** Pixel [i] of a byte, two bits, the first in the top bits. *)
Definition gray_of (b i : Z) : Z := Z.land (Z.shiftr b (6 - 2 * i)) 3.

(** The plane bit of a pixel as the controller takes it. *)
Definition old_bit (g : Z) : bool := (g =? 0) || (g =? 2).
Definition new_bit (g : Z) : bool := (g =? 0) || (g =? 1).

Definition nibble (bit : Z -> bool) (b : Z) : Z :=
  8 * Z.b2z (bit (gray_of b 0)) + 4 * Z.b2z (bit (gray_of b 1)) +
  2 * Z.b2z (bit (gray_of b 2)) + Z.b2z (bit (gray_of b 3)).

Lemma gray_top b i :
  is_byte b -> i = 0 \/ i = 1 \/ i = 2 \/ i = 3 ->
  Z.land (u8 (Z.shiftl b (2 * i))) 192 = 64 * gray_of b i /\ 0 <= gray_of b i < 4.
Proof.
  intros Hb Hi.
  assert (forallb (fun b => forallb (fun i =>
    (Z.land (u8 (Z.shiftl b (2 * i))) 192 =? 64 * gray_of b i) &&
    (0 <=? gray_of b i) && (gray_of b i <? 4)) [0; 1; 2; 3]) (seqZ 0 256) = true) as H
    by (vm_compute; reflexivity).
  assert (In b (seqZ 0 256)) as Hbin
    by (apply list_elem_of_In, elem_of_seqZ; unfold is_byte in Hb; lia).
  rewrite forallb_forall in H. specialize (H b Hbin). rewrite forallb_forall in H.
  assert (In i [0; 1; 2; 3]) as Hin by (simpl; lia). specialize (H i Hin).
  rewrite !andb_true_iff, Z.eqb_eq, Z.leb_le, Z.ltb_lt in H. lia.
Qed.

Lemma shiftl_u8 b k : 0 <= k -> u8 (Z.shiftl (u8 (Z.shiftl b k)) 2) = u8 (Z.shiftl b (k + 2)).
Proof.
  intros Hk. rewrite <- Z.shiftl_shiftl by done. rewrite !(Z.shiftl_mul_pow2 _ 2) by lia.
  unfold wrap. by rewrite Z.mul_mod_idemp_l by lia.
Qed.

Lemma lor_even t v : Z.even t = true -> v = 0 \/ v = 1 -> Z.lor t v = t + v.
Proof.
  intros Ht Hv. symmetry. apply Z.add_nocarry_lor. rewrite <- Z.negb_odd in Ht.
  destruct Hv as [Hv | Hv]; subst v; [apply Z.land_0_r|].
  change 1 with (Z.ones 1). rewrite Z.land_ones by lia. change (2 ^ 1) with 2.
  rewrite Zmod_odd. by destruct (Z.odd t).
Qed.

Section gray.
Context (f : Z -> Z) (bit : Z -> bool).
Context (Hf : forall g, 0 <= g < 4 -> f (64 * g) = Z.b2z (bit g)).

Lemma gray_pixel_step b k t last :
  is_byte b -> k = 0 \/ k = 1 \/ k = 2 \/ k = 3 -> Z.even t = true -> 0 <= t < 127 \/
    (last = true /\ 0 <= t < 255) ->
  gray_pixel f last (u8 (Z.shiftl b (2 * k)), t) =
    (u8 (Z.shiftl b (2 * (k + 1))),
     (if last then 1 else 2) * (t + Z.b2z (bit (gray_of b k)))).
Proof.
  intros Hb Hk Ht Hr. destruct (gray_top b k Hb Hk) as [E Hg]. unfold gray_pixel.
  rewrite E, Hf, shiftl_u8 by (done || lia).
  replace (2 * k + 2) with (2 * (k + 1)) by ring.
  assert (0 <= Z.b2z (bit (gray_of b k)) <= 1) by (destruct (bit _); simpl; lia).
  rewrite lor_even by (done || lia). f_equal. destruct last; [lia|].
  rewrite Z.shiftl_mul_pow2 by lia. change (2 ^ 1) with 2. rewrite wrap_small by lia. ring.
Qed.

Lemma gray_byte_spec j b t :
  is_byte b -> Z.even t = true -> 0 <= t <= 6 \/ (j = 1 /\ 0 <= t <= 30) ->
  gray_byte f j b t = (if j =? 1 then 1 else 2) * (t * 8 + nibble bit b).
Proof.
  intros Hb Ht Hr. unfold gray_byte. pose proof Hb as Hb'. unfold is_byte in Hb'.
  assert (forall g, 0 <= Z.b2z (bit g) <= 1) as Hbit by (intros g; destruct (bit g); simpl; lia).
  pose proof (Hbit (gray_of b 0)). pose proof (Hbit (gray_of b 1)).
  pose proof (Hbit (gray_of b 2)). pose proof (Hbit (gray_of b 3)).
  assert (b = u8 (Z.shiftl b (2 * 0))) as Eb by (rewrite Z.shiftl_0_r, wrap_small; lia).
  rewrite Eb at 1. rewrite (gray_pixel_step b 0) by (tauto || lia). simpl (0 + 1).
  rewrite (gray_pixel_step b 1) by (tauto || lia || by rewrite Z.even_mul). simpl (1 + 1).
  rewrite (gray_pixel_step b 2) by (tauto || lia || by rewrite Z.even_mul). simpl (2 + 1).
  rewrite (gray_pixel_step b 3).
  - unfold nibble. simpl snd. destruct (Z.eqb_spec j 1); lia.
  - done.
  - tauto.
  - by rewrite Z.even_mul.
  - destruct (Z.eqb_spec j 1); lia.
Qed.

(** Two bytes of gray pixels become one byte of the plane, pixel for pixel. *)
Lemma gray_pair_nibbles b0 b1 :
  is_byte b0 -> is_byte b1 -> gray_pair f b0 b1 = 16 * nibble bit b0 + nibble bit b1.
Proof.
  intros H0 H1. unfold gray_pair.
  assert (0 <= nibble bit b0 <= 15) as Hn.
  { unfold nibble. repeat match goal with |- context [Z.b2z (bit ?g)] => destruct (bit g) end;
      simpl; lia. }
  rewrite (gray_byte_spec 0 b0 0) by (done || lia). simpl (0 =? 1). cbv iota.
  rewrite gray_byte_spec; [simpl; lia|done| |lia].
  by rewrite Z.even_mul.
Qed.
End gray.

Lemma nibble_bits bit b0 b1 i :
  i = 0 \/ i = 1 \/ i = 2 \/ i = 3 ->
  Z.testbit (16 * nibble bit b0 + nibble bit b1) (7 - i) = bit (gray_of b0 i) /\
  Z.testbit (16 * nibble bit b0 + nibble bit b1) (3 - i) = bit (gray_of b1 i) /\
  is_byte (16 * nibble bit b0 + nibble bit b1).
Proof.
  intros Hi. unfold nibble, is_byte.
  destruct (bit (gray_of b0 0)) eqn:A0, (bit (gray_of b0 1)) eqn:A1, (bit (gray_of b0 2)) eqn:A2,
    (bit (gray_of b0 3)) eqn:A3, (bit (gray_of b1 0)) eqn:B0, (bit (gray_of b1 1)) eqn:B1,
    (bit (gray_of b1 2)) eqn:B2, (bit (gray_of b1 3)) eqn:B3;
  destruct Hi as [Hi | [Hi | [Hi | Hi]]]; subst i; rewrite ?A0, ?A1, ?A2, ?A3, ?B0, ?B1, ?B2, ?B3;
  (split; [reflexivity|]; split; [reflexivity|]; split; [discriminate|reflexivity]).
Qed.

Lemma gray_old_bit g : 0 <= g < 4 -> gray_old (64 * g) = Z.b2z (old_bit g).
Proof.
  intros. assert (g = 0 \/ g = 1 \/ g = 2 \/ g = 3) as Hg by lia.
  repeat destruct Hg as [Hg | Hg]; subst g; reflexivity.
Qed.

Lemma gray_new_bit g : 0 <= g < 4 -> gray_new (64 * g) = Z.b2z (new_bit g).
Proof.
  intros. assert (g = 0 \/ g = 1 \/ g = 2 \/ g = 3) as Hg by lia.
  repeat destruct Hg as [Hg | Hg]; subst g; reflexivity.
Qed.

(** The plane of a picture: one byte for every two. *)
Fixpoint plane (bit : Z -> bool) (image : bytes) (n : nat) {struct n} : bytes :=
  match n, image with
  | S n, b0 :: b1 :: image => (16 * nibble bit b0 + nibble bit b1) :: plane bit image n
  | _, _ => []
  end.

Lemma plane_snoc bit image n b0 b1 :
  image !! (2 * n)%nat = Some b0 -> image !! (2 * n + 1)%nat = Some b1 ->
  plane bit image (S n) = plane bit image n ++ [16 * nibble bit b0 + nibble bit b1].
Proof.
  revert image. induction n as [|n IH]; intros image H0 H1.
  - destruct image as [|x [|y image]]; [done|apply lookup_lt_Some in H1; simpl in H1; lia|]. injection H0 as <-. injection H1 as <-. done.
  - destruct image as [|x [|y image]]; [done|apply lookup_lt_Some in H0; simpl in H0; lia|].
    replace (2 * S n)%nat with (S (S (2 * n))) in H0 by lia.
    replace (2 * S n + 1)%nat with (S (S (2 * n + 1))) in H1 by lia.
    change (plane bit (x :: y :: image) (S (S n)))
      with ((16 * nibble bit x + nibble bit y) :: plane bit image (S n)).
    rewrite IH by done. done.
Qed.

Lemma sends_plane f bit image :
  (forall g, 0 <= g < 4 -> f (64 * g) = Z.b2z (bit g)) ->
  all_bytes image -> (2 * frame_bytes <= length image)%nat ->
  sends (send_plane f image) [] (map Data (plane bit image frame_bytes)).
Proof.
  intros Hf Hi Hl. unfold send_plane. change 5808 with (Z.of_nat frame_bytes).
  replace (map Data (plane bit image frame_bytes))
    with (concat (map (fun i => map Data
      (match image !! Z.to_nat (i * 2), image !! Z.to_nat (i * 2 + 1) with
       | Some b0, Some b1 => [16 * nibble bit b0 + nibble bit b1]
       | _, _ => []
       end)) (seqZ 0 (Z.of_nat frame_bytes)))).
  - apply sends_mfor. intros i Hin%elem_of_seqZ.
    destruct (lookup_lt_is_Some_2 image (Z.to_nat (i * 2))) as [b0 H0]; [lia|].
    destruct (lookup_lt_is_Some_2 image (Z.to_nat (i * 2 + 1))) as [b1 H1]; [lia|].
    rewrite H0, H1. apply (sends_lift _ _ b0); [apply aget_Ok; split; [lia|done]|].
    apply (sends_lift _ _ b1); [apply aget_Ok; split; [lia|done]|].
    pose proof (Forall_lookup_1 _ _ _ _ Hi H0). pose proof (Forall_lookup_1 _ _ _ _ Hi H1).
    rewrite (gray_pair_nibbles f bit Hf) by done. apply sends_data.
    apply (nibble_bits bit b0 b1 0). lia.
  - assert (forall j, (j <= frame_bytes)%nat ->
      concat (map (fun i => map Data
        (match image !! Z.to_nat (i * 2), image !! Z.to_nat (i * 2 + 1) with
         | Some b0, Some b1 => [16 * nibble bit b0 + nibble bit b1]
         | _, _ => []
         end)) (seqZ 0 (Z.of_nat j))) = map Data (plane bit image j)) as H; [|by apply H].
    induction j as [|j IH]; intros Hj; [done|].
    replace (Z.of_nat (S j)) with (Z.of_nat j + 1) by lia.
    rewrite seqZ_app by lia. rewrite map_app, concat_app, IH by lia.
    assert (seqZ (0 + Z.of_nat j) 1 = [Z.of_nat j]) as -> by (unfold seqZ; simpl; f_equal; lia).
    cbn [map concat]. rewrite app_nil_r.
    replace (Z.to_nat (Z.of_nat j * 2)) with (2 * j)%nat by lia.
    replace (Z.to_nat (Z.of_nat j * 2 + 1)) with (2 * j + 1)%nat by lia.
    destruct (lookup_lt_is_Some_2 image (2 * j)) as [b0 H0]; [lia|].
    destruct (lookup_lt_is_Some_2 image (2 * j + 1)) as [b1 H1]; [lia|].
    by rewrite (plane_snoc _ _ _ b0 b1), H0, H1, map_app by done.
Qed.

(** A partial update from a byte boundary, with enough picture bytes. *)
Lemma partial_sends image xs ys xe ye k c0 c1 :
  0 <= xs < xe -> xe <= 176 -> 0 <= ys < ye -> ye <= 264 -> xs mod 8 = 0 ->
  partial_columns xs xe = (c0, c1) ->
  all_bytes image -> (c1 - c0) * (ye - ys) <= Zlen image ->
  8 * c0 = xs /\ xe <= 8 * c1 /\ c1 = (if xe mod 8 =? 0 then xe / 8 else xe / 8 + 1) /\
  0 <= c0 < c1 /\ c1 <= 22 /\
  sends (EPD_2IN7_V2_Display_Partial image xs ys xe ye) [k]
    ([HwReset; Cmd 60; Data 128; Cmd 68; Data c0; Data (c1 - 1);
      Cmd 69; Data (ys mod 256); Data (ys / 256); Data ((ye - 1) mod 256); Data ((ye - 1) / 256);
      Cmd 78; Data c0; Cmd 79; Data (ys mod 256); Data (ys / 256); Cmd 36] ++
     map Data (take (Z.to_nat ((c1 - c0) * (ye - ys))) image) ++ [Cmd 34; Data 255; Cmd 32]).
Proof.
  intros Hxs Hxe Hys Hye Hal Ep Hi Hl.
  assert (c1 = (if xe mod 8 =? 0 then xe / 8 else xe / 8 + 1) /\ 8 * c1 >= xe /\ 8 * c0 = xs /\
          0 <= c0 < c1 /\ c1 <= 22) as (E0 & E1 & E2 & E3 & E4).
  { unfold partial_columns in Ep. rewrite Z.rem_mod_nonneg in Ep by lia. rewrite Hal in Ep.
    destruct (Z.eqb_spec (0 + xe mod 8) 8), (Z.eqb_spec (0 + xe mod 8) 0),
      (Z.eqb_spec ((xe - xs) mod 8) 0), (Z.ltb_spec (xe mod 8) 0), (Z.eqb_spec (xe mod 8) 0);
      simpl in Ep; injection Ep as <- <-; zlia. }
  split; [done|]. split; [lia|]. split; [done|]. split; [lia|]. split; [lia|]. clear E0.
  assert (0 < (c1 - c0) * (ye - ys) <= 22 * 264) as Hn by nia.
  unfold EPD_2IN7_V2_Display_Partial. rewrite Ep. cbv zeta.
  rewrite (wrap_small 16 (c1 - c0)), (wrap_small 16 (c1 - 1)), (wrap_small 16 (ye - 1)) by lia.
  rewrite (wrap_small 16 ((c1 - c0) * (ye - ys))) by lia.
  assert (forall z, Z.land z 255 = z mod 256) as Hland.
  { intros z. change 255 with (Z.ones 8). by rewrite Z.land_ones by lia. }
  assert (forall z, 0 <= z < 512 -> Z.land (Z.shiftr z 8) 1 = z / 256) as Hhi.
  { intros z Hz. rewrite Z.shiftr_div_pow2 by lia. change 1 with (Z.ones 1).
    rewrite Z.land_ones by lia. change (2 ^ 8) with 256. change (2 ^ 1) with 2. zlia. }
  rewrite !Hland, !Hhi by lia. rewrite (Z.mod_small c0), (Z.mod_small (c1 - 1)) by lia.
  pose proof sends_cmd_seq as Hc.
  apply (sends_seq0 _ _ _ [HwReset]); [apply sends_reset|].
  apply (Hc 60 [128]); [unfold is_byte; lia|repeat constructor; lia|].
  apply (Hc 68 [c0; c1 - 1]); [unfold is_byte; lia|repeat constructor; lia|].
  apply (Hc 69 [ys mod 256; ys / 256; (ye - 1) mod 256; (ye - 1) / 256]);
    [unfold is_byte; lia|repeat constructor; zlia|].
  apply (Hc 78 [c0]); [unfold is_byte; lia|repeat constructor; lia|].
  apply (Hc 79 [ys mod 256; ys / 256]); [unfold is_byte; lia|repeat constructor; zlia|].
  apply (sends_seq0 _ _ _ [Cmd 36]); [apply sends_command; unfold is_byte; lia|].
  apply sends_seq0; [|apply sends_turn_on; unfold is_byte; lia].
  pose proof (sends_slice image 0 (Z.to_nat ((c1 - c0) * (ye - ys))) Hi) as Hs.
  rewrite drop_0, Z2Nat.id in Hs by lia. unfold Zlen in Hl.
  intros d rest Hd Hb. destruct (Hs ltac:(lia) d rest Hd Hb) as (evs & E & Hdec).
  exists evs. split; [|done]. rewrite <- E. clear.
  generalize (seqZ 0 ((c1 - c0) * (ye - ys))). intros l. revert d.
  induction l as [|i l IH]; intros d; [done|]. cbn [mfor]. change (Z.of_nat 0) with 0.
  rewrite Z.add_0_r. unfold mbind, M_bind.
  destruct (lift (aget image i) d) as [[b d']|]; [|done].
  destruct (EPD_2IN7_V2_SendData b d') as [[[] d'']|]; [apply IH|done].
Qed.

Lemma sends_wait_seq k w fs m : sends m w fs -> sends (EPD_2IN7_V2_ReadBusy ;;; m) (k :: w) fs.
Proof. intros Hm. apply (sends_seq _ _ [k] w [] fs); [apply sends_busy|done]. Qed.

Lemma sends_reset_seq w fs m :
  sends m w fs -> sends (EPD_2IN7_V2_Reset ;;; m) w (HwReset :: fs).
Proof. intros Hm. apply (sends_seq0 _ _ _ [HwReset]); [apply sends_reset|done]. Qed.

Definition init_seq : list frame :=
  [HwReset; Cmd 18; Cmd 69; Data 0; Data 0; Data 176; Data 0; Cmd 68; Data 0; Data 32;
   Cmd 79; Data 0; Data 0; Cmd 17; Data 3].

Lemma init_sends k1 k2 k3 : sends EPD_2IN7_V2_Init [k1; k2; k3] init_seq.
Proof.
  pose proof sends_cmd_seq as Hc.
  apply sends_reset_seq, sends_wait_seq, (Hc 18 []); [unfold is_byte; lia|constructor|].
  apply sends_wait_seq, (Hc 69 [0; 0; 176; 0]); [unfold is_byte; lia|repeat constructor; lia|].
  apply (Hc 68 [0; 32]); [unfold is_byte; lia|repeat constructor; lia|].
  apply (Hc 79 [0; 0]); [unfold is_byte; lia|repeat constructor; lia|].
  apply (Hc 17 [3] _ []); [unfold is_byte; lia|repeat constructor; lia|]. apply sends_busy.
Qed.

(** A partial update whose picture is too short reads past it. *)
Lemma sends_run m fs d :
  sends m [] fs -> spi_epaper d = true ->
  exists d', m d = Ok (tt, d') /\ spi_epaper d' = true /\ busy d' = busy d.
Proof.
  intros Hs Hd. destruct (Hs d (busy d) Hd eq_refl) as (evs & -> & _). by eexists.
Qed.

(** Run the first send of a sequence. *)
Ltac run_one H d Hd :=
  let d' := fresh "d" in let E := fresh "E" in let Hd' := fresh "Hd" in
  destruct (sends_run _ _ d H Hd) as (d' & E & Hd' & _);
  rewrite (bind_step _ _ _ _ _ E); clear E Hd; rename Hd' into Hd.

Lemma partial_overread image xs ys xe ye d c0 c1 :
  partial_columns xs xe = (c0, c1) -> 0 <= c0 -> c0 <= c1 < 2 ^ 8 -> 0 <= ys < ye -> ye < 2 ^ 9 ->
  (c1 - c0) * (ye - ys) < 2 ^ 16 -> all_bytes image -> Zlen image < (c1 - c0) * (ye - ys) ->
  spi_epaper d = true ->
  EPD_2IN7_V2_Display_Partial image xs ys xe ye d = Err OutOfBounds.
Proof.
  intros Ep H0 H1 Hys Hye Hmul Hi Hl Hd. pose proof (Zlen_nonneg image).
  unfold EPD_2IN7_V2_Display_Partial. rewrite Ep. cbv zeta.
  rewrite (wrap_small 16 (c1 - c0)), (wrap_small 16 (ye - 1)) by lia.
  rewrite (wrap_small 16 ((c1 - c0) * (ye - ys))) by lia.
  assert (forall z, is_byte (Z.land z 255)) as Hb1.
  { intros z. change 255 with (Z.ones 8). rewrite Z.land_ones by lia.
    apply Z.mod_pos_bound. lia. }
  assert (forall z, is_byte (Z.land z 1)) as Hb2.
  { intros z. change 1 with (Z.ones 1) at 1. rewrite Z.land_ones by lia.
    pose proof (Z.mod_pos_bound z (2 ^ 1)). unfold is_byte. lia. }
  run_one sends_reset d Hd. rename d0 into da.
  run_one (sends_cmd 60 [128] ltac:(unfold is_byte; lia) ltac:(repeat constructor; lia)) da Hd.
  run_one (sends_cmd 68 [Z.land c0 255; Z.land (u16 (c1 - 1)) 255] ltac:(unfold is_byte; lia)
    ltac:(repeat constructor; apply Hb1)) d0 Hd.
  run_one (sends_cmd 69 [Z.land ys 255; Z.land (Z.shiftr ys 8) 1; Z.land (ye - 1) 255;
    Z.land (Z.shiftr (ye - 1) 8) 1] ltac:(unfold is_byte; lia)
    ltac:(repeat constructor; first [apply Hb1|apply Hb2])) d1 Hd.
  run_one (sends_cmd 78 [Z.land c0 255] ltac:(unfold is_byte; lia)
    ltac:(repeat constructor; apply Hb1)) d2 Hd.
  run_one (sends_cmd 79 [Z.land ys 255; Z.land (Z.shiftr ys 8) 1] ltac:(unfold is_byte; lia)
    ltac:(repeat constructor; first [apply Hb1|apply Hb2])) d3 Hd.
  run_one (sends_command 36 ltac:(unfold is_byte; lia)) d4 Hd.
  unfold mbind at 1, M_bind at 1.
  set (n := (c1 - c0) * (ye - ys)) in *.
  assert (mfor (seqZ 0 n) (fun i => v ← lift (aget image i); EPD_2IN7_V2_SendData v) d5 =
          Err OutOfBounds) as ->; [|done].
  replace n with (Z.of_nat (length image) + (n - Zlen image)) by (unfold Zlen; lia).
  rewrite seqZ_app by (unfold Zlen in *; lia). rewrite mfor_app.
  pose proof (sends_slice image 0 (length image) Hi ltac:(lia)) as Hs.
  destruct (sends_run _ _ d5 Hs Hd) as (d6 & E & _).
  rewrite (bind_step _ _ _ tt d6).
  2: { rewrite <- E. generalize (seqZ 0 (Z.of_nat (length image))). intros l. generalize d5.
       induction l as [|i l IH]; intros d'; [done|]. cbn [mfor]. change (Z.of_nat 0) with 0.
       rewrite Z.add_0_r. unfold mbind, M_bind.
       destruct (lift (aget image i) d') as [[b d'']|]; [|done].
       destruct (EPD_2IN7_V2_SendData b d'') as [[[] d3']|]; [apply IH|done]. }
  assert (seqZ (0 + Z.of_nat (length image)) (n - Zlen image) =
    Zlen image :: seqZ (Zlen image + 1) (n - Zlen image - 1)) as ->.
  { rewrite seqZ_cons by lia. unfold Zlen. f_equal; f_equal; lia. }
  cbn [mfor]. unfold mbind, M_bind, lift.
  assert (aget image (Zlen image) = Err OutOfBounds) as ->; [|done].
  unfold aget. rewrite decide_True by lia. rewrite lookup_ge_None_2; [done|]. unfold Zlen. lia.
Qed.

(** ** Properties *)

(** Displaying a picture sends the RAM-write command followed by exactly the picture's 5808
    bytes in order and the update sequence (the base picture to both RAMs), every byte
    framed by CS and tagged by DC, and returns after the busy pin went low. *)
Theorem display_frames image k :
  all_bytes image -> (frame_bytes <= length image)%nat ->
  sends (EPD_2IN7_V2_Display image) [k]
    (Cmd 36 :: map Data (take frame_bytes image) ++ [Cmd 34; Data 247; Cmd 32]) /\
  sends (EPD_2IN7_V2_Display_Fast image) [k]
    (Cmd 36 :: map Data (take frame_bytes image) ++ [Cmd 34; Data 199; Cmd 32]) /\
  sends (EPD_2IN7_V2_Display_Base image) [k]
    (Cmd 36 :: map Data (take frame_bytes image) ++
     Cmd 38 :: map Data (take frame_bytes image) ++ [Cmd 34; Data 247; Cmd 32]).
Proof.
  intros Hi Hl.
  assert (is_byte 36 /\ is_byte 38 /\ is_byte 247 /\ is_byte 199) as (H1 & H2 & H3 & H4)
    by (unfold is_byte; lia).
  assert (sends (send_image image) [] (map Data (take frame_bytes image))) as Him
    by by apply sends_image.
  split; [|split].
  - apply (sends_seq0 _ _ _ [Cmd 36]); [by apply sends_command|].
    apply sends_seq0; [done|]. by apply sends_turn_on.
  - apply (sends_seq0 _ _ _ [Cmd 36]); [by apply sends_command|].
    apply sends_seq0; [done|]. by apply sends_turn_on.
  - apply (sends_seq0 _ _ _ [Cmd 36]); [by apply sends_command|].
    apply sends_seq0; [done|].
    apply (sends_seq0 _ _ _ [Cmd 38]); [by apply sends_command|].
    apply sends_seq0; [done|]. by apply sends_turn_on.
Qed.

Lemma display_frames_witness :
  sends (EPD_2IN7_V2_Display (replicate frame_bytes 170)) [3%nat]
    (Cmd 36 :: map Data (take frame_bytes (replicate frame_bytes 170)) ++
     [Cmd 34; Data 247; Cmd 32]).
Proof.
  apply (display_frames (replicate frame_bytes 170) 3).
  - apply Forall_replicate. unfold is_byte. lia.
  - rewrite length_replicate. lia.
Defined.

(** The reset and initialisation sequence, with its three waits, and the clear and sleep
    commands, as the panel receives them. *)
Theorem init_frames k1 k2 k3 k4 :
  sends EPD_2IN7_V2_Init [k1; k2; k3]
    [HwReset; Cmd 18; Cmd 69; Data 0; Data 0; Data 176; Data 0; Cmd 68; Data 0; Data 32;
     Cmd 79; Data 0; Data 0; Cmd 17; Data 3] /\
  sends EPD_2IN7_V2_Init_Fast [k1; k2; k3; k4]
    [HwReset; Cmd 18; Cmd 24; Data 128; Cmd 34; Data 177; Cmd 32; Cmd 26; Data 100; Data 0;
     Cmd 69; Data 0; Data 0; Data 7; Data 1; Cmd 79; Data 0; Data 0; Cmd 17; Data 3;
     Cmd 34; Data 145; Cmd 32] /\
  sends EPD_2IN7_V2_Clear [k1]
    (Cmd 36 :: replicate frame_bytes (Data 255) ++ [Cmd 34; Data 247; Cmd 32]) /\
  sends EPD_2IN7_V2_Sleep [] [Cmd 16; Data 1].
Proof.
  pose proof sends_cmd_seq as Hc.
  pose proof sends_wait_seq as Hb. pose proof sends_reset_seq as Hr.
  split; [|split; [|split]].
  - apply init_sends.
  - apply Hr, Hb, (Hc 18 []); [unfold is_byte; lia|constructor|].
    apply Hb, (Hc 24 [128]); [unfold is_byte; lia|repeat constructor; lia|].
    apply (Hc 34 [177]); [unfold is_byte; lia|repeat constructor; lia|].
    apply (Hc 32 []); [unfold is_byte; lia|repeat constructor; lia|].
    apply Hb, (Hc 26 [100; 0]); [unfold is_byte; lia|repeat constructor; lia|].
    apply (Hc 69 [0; 0; 7; 1]); [unfold is_byte; lia|repeat constructor; lia|].
    apply (Hc 79 [0; 0]); [unfold is_byte; lia|repeat constructor; lia|].
    apply (Hc 17 [3]); [unfold is_byte; lia|repeat constructor; lia|].
    apply (Hc 34 [145]); [unfold is_byte; lia|repeat constructor; lia|].
    apply (Hc 32 [] _ []); [unfold is_byte; lia|repeat constructor; lia|]. apply sends_busy.
  - apply (sends_seq0 _ _ _ [Cmd 36]); [apply sends_command; unfold is_byte; lia|].
    apply sends_seq0; [apply sends_constant; unfold is_byte; lia|].
    apply sends_turn_on. unfold is_byte. lia.
  - apply (sends_cmd 16 [1]); [unfold is_byte; lia|repeat constructor; lia].
Qed.

(** A 4-gray picture of 2 * 5808 bytes is sent as two planes of 5808 bytes; in each, bit
    [7-i] ([3-i]) of a byte is the plane bit of pixel [i] of the first (second) source byte:
    the old-data plane is set for the levels 0 and 2, the new-data plane for 0 and 1. *)
Theorem gray_display_frames image k :
  all_bytes image -> (2 * frame_bytes <= length image)%nat ->
  sends (EPD_2IN7_V2_4GrayDisplay image) [k]
    (Cmd 36 :: map Data (plane old_bit image frame_bytes) ++
     Cmd 38 :: map Data (plane new_bit image frame_bytes) ++ [Cmd 34; Data 199; Cmd 32]) /\
  (forall b0 b1 i, is_byte b0 -> is_byte b1 -> i = 0 \/ i = 1 \/ i = 2 \/ i = 3 ->
     Z.testbit (gray_pair gray_old b0 b1) (7 - i) = old_bit (gray_of b0 i) /\
     Z.testbit (gray_pair gray_old b0 b1) (3 - i) = old_bit (gray_of b1 i) /\
     Z.testbit (gray_pair gray_new b0 b1) (7 - i) = new_bit (gray_of b0 i) /\
     Z.testbit (gray_pair gray_new b0 b1) (3 - i) = new_bit (gray_of b1 i)).
Proof.
  intros Hi Hl. split.
  - apply (sends_seq0 _ _ _ [Cmd 36]); [apply sends_command; unfold is_byte; lia|].
    apply sends_seq0; [apply sends_plane; [apply gray_old_bit|done|done]|].
    apply (sends_seq0 _ _ _ [Cmd 38]); [apply sends_command; unfold is_byte; lia|].
    apply sends_seq0; [apply sends_plane; [apply gray_new_bit|done|done]|].
    apply sends_turn_on. unfold is_byte. lia.
  - intros b0 b1 i H0 H1 Hi4.
    rewrite (gray_pair_nibbles _ _ gray_old_bit), (gray_pair_nibbles _ _ gray_new_bit) by done.
    destruct (nibble_bits old_bit b0 b1 i Hi4) as (? & ? & _).
    destruct (nibble_bits new_bit b0 b1 i Hi4) as (? & ? & _). done.
Qed.

Lemma gray_display_frames_witness :
  Z.testbit (gray_pair gray_old 128 3) 7 = true /\ gray_of 128 0 = 2 /\
  sends (EPD_2IN7_V2_4GrayDisplay (replicate (2 * frame_bytes) 27)) [1%nat]
    (Cmd 36 :: map Data (plane old_bit (replicate (2 * frame_bytes) 27) frame_bytes) ++
     Cmd 38 :: map Data (plane new_bit (replicate (2 * frame_bytes) 27) frame_bytes) ++
     [Cmd 34; Data 199; Cmd 32]).
Proof.
  split; [reflexivity|]. split; [reflexivity|].
  apply (gray_display_frames (replicate (2 * frame_bytes) 27) 1).
  - apply Forall_replicate. unfold is_byte. lia.
  - rewrite length_replicate. lia.
Defined.

(** A partial update that starts on a byte boundary covers its rectangle: the address
    window contains every requested column, and the number of data bytes sent is exactly
    the number of bytes of the window. *)
Theorem partial_window image xs ys xe ye k :
  0 <= xs < xe -> xe <= 176 -> 0 <= ys < ye -> ye <= 264 -> xs mod 8 = 0 ->
  all_bytes image -> 22 * 264 <= Zlen image ->
  let '(c0, c1) := partial_columns xs xe in
  8 * c0 <= xs /\ xe <= 8 * c1 /\
  exists n, Z.of_nat n = (c1 - 1 - c0 + 1) * (ye - 1 - ys + 1) /\
    sends (EPD_2IN7_V2_Display_Partial image xs ys xe ye) [k]
      ([HwReset; Cmd 60; Data 128; Cmd 68; Data c0; Data (c1 - 1);
        Cmd 69; Data (ys mod 256); Data (ys / 256); Data ((ye - 1) mod 256); Data ((ye - 1) / 256);
        Cmd 78; Data c0; Cmd 79; Data (ys mod 256); Data (ys / 256); Cmd 36] ++
       map Data (take n image) ++ [Cmd 34; Data 255; Cmd 32]).
Proof.
  intros Hxs Hxe Hys Hye Hal Hi Hl. destruct (partial_columns xs xe) as [c0 c1] eqn:Ep.
  assert ((c1 - c0) * (ye - ys) <= 22 * 264) as Hb.
  { unfold partial_columns in Ep. rewrite Z.rem_mod_nonneg in Ep by lia. rewrite Hal in Ep.
    assert (0 <= c1 - c0 <= 22); [|nia].
    destruct (Z.eqb_spec (0 + xe mod 8) 8), (Z.eqb_spec (0 + xe mod 8) 0),
      (Z.eqb_spec ((xe - xs) mod 8) 0), (Z.ltb_spec (xe mod 8) 0), (Z.eqb_spec (xe mod 8) 0);
      simpl in Ep; injection Ep as <- <-; zlia. }
  destruct (partial_sends image xs ys xe ye k c0 c1) as (E1 & E2 & _ & E3 & _ & Hs); try done.
  { lia. }
  split; [lia|]. split; [done|]. eexists. split; [|exact Hs]. rewrite Z2Nat.id by nia. ring.
Qed.

Lemma partial_window_witness :
  8 * 1 <= 8 /\ 20 <= 8 * 3 /\
  exists n, Z.of_nat n = (3 - 1 - 1 + 1) * (261 - 1 - 2 + 1) /\
    sends (EPD_2IN7_V2_Display_Partial (replicate frame_bytes 15) 8 2 20 261) [2%nat]
      ([HwReset; Cmd 60; Data 128; Cmd 68; Data 1; Data (3 - 1);
        Cmd 69; Data (2 mod 256); Data (2 / 256); Data ((261 - 1) mod 256); Data ((261 - 1) / 256);
        Cmd 78; Data 1; Cmd 79; Data (2 mod 256); Data (2 / 256); Cmd 36] ++
       map Data (take n (replicate frame_bytes 15)) ++ [Cmd 34; Data 255; Cmd 32]).
Proof.
  refine (partial_window (replicate frame_bytes 15) 8 2 20 261 2 _ _ _ _ _ _ _);
    [lia|lia|lia|lia|reflexivity| |].
  - apply Forall_replicate. unfold is_byte. lia.
  - unfold Zlen. rewrite length_replicate. unfold frame_bytes. lia.
Defined.

(** An update that does not start on a byte boundary and whose width is a multiple of 8
    (or whose edges' remainders add up to 8 with the larger at the start) drops its last
    columns: the window ends before the requested right edge. *)
Theorem partial_drops_columns xs xe :
  0 <= xs < xe -> xe < 2 ^ 16 -> xs mod 8 <> 0 -> (xe - xs) mod 8 = 0 ->
  8 * (partial_columns xs xe).2 < xe.
Proof.
  intros Hxs Hxe Hal Hw. unfold partial_columns. rewrite Z.rem_mod_nonneg by lia.
  rewrite Hw. simpl (0 =? 0). rewrite orb_true_r. simpl. zlia.
Qed.

Lemma partial_drops_columns_witness : 8 * (partial_columns 4 12).2 < 12.
Proof. apply partial_drops_columns; (lia || discriminate || reflexivity). Defined.

(** A panel that never releases the busy pin keeps every update waiting for ever. *)
Theorem busy_never_released levels d v :
  Forall (fun l => l <> 0) levels -> spi_epaper d = true -> busy d = levels -> is_byte v ->
  turn_on v d = Err Spin.
Proof.
  intros Hl Hs Hb Hv.
  assert (sends (EPD_2IN7_V2_SendCommand 34 ;;; EPD_2IN7_V2_SendData v ;;;
                 EPD_2IN7_V2_SendCommand 32) [] [Cmd 34; Data v; Cmd 32]) as H.
  { apply (sends_seq0 _ _ _ [Cmd 34]); [apply sends_command; unfold is_byte; lia|].
    apply (sends_seq0 _ _ _ [Data v]); [by apply sends_data|].
    apply sends_command. unfold is_byte. lia. }
  destruct (H d levels Hs) as (evs & E & _); [done|].
  assert (turn_on v d =
    ((EPD_2IN7_V2_SendCommand 34 ;;; EPD_2IN7_V2_SendData v ;;; EPD_2IN7_V2_SendCommand 32) ;;;
     EPD_2IN7_V2_ReadBusy) d) as ->.
  { unfold turn_on, mbind, M_bind.
    destruct (EPD_2IN7_V2_SendCommand 34 d) as [[[] d1]|]; [|done].
    destruct (EPD_2IN7_V2_SendData v d1) as [[[] d2]|]; [|done].
    by destruct (EPD_2IN7_V2_SendCommand 32 d2) as [[[] d3]|]. }
  rewrite (bind_step _ _ _ _ _ E). unfold EPD_2IN7_V2_ReadBusy.
  rewrite (bind_step get _ _ _ _ eq_refl). simpl busy. clear -Hl.
  generalize (Dev (trace d ++ evs) levels true). induction Hl as [|l levels Hn _ IH]; intros s;
    [done|].
  cbn [wait_busy]. rewrite (bind_step _ _ _ _ _ eq_refl).
  rewrite (proj2 (Z.eqb_neq l 0)) by done. rewrite (bind_step _ _ _ _ _ eq_refl). apply IH.
Qed.

Lemma busy_never_released_witness :
  turn_on 247 (Dev [] (replicate 100 1) true) = Err Spin.
Proof.
  apply (busy_never_released (replicate 100 1)); [|reflexivity|reflexivity|unfold is_byte; lia].
  apply Forall_replicate. discriminate.
Defined.
