(* ===== verification/Display.v ===== *)
(** The LVGL display port: [applications/lvgl/lv_port_disp.c].

    [disp_flush] draws the dirty area into a fresh buffer, rotated by 270 degrees, through
    the pixel code of [Paint], and sends it to the panel with the partial update of [Epd].
    The buffer is the image of the paint state and the picture handed to the driver: one
    object, reached by both names. *)

From S2P Require Import Prelude Paint Epd.
#[local] Open Scope Z_scope.

Record lv_area_t := Area { x1 : Z; y1 : Z; x2 : Z; y2 : Z }.

Record disp := Disp {
  dp_paint : PAINT;          (* the global Paint *)
  dp_dev : dev;              (* the panel's wires *)
  dp_alloc : list bool;      (* what the next calls of lv_mem_alloc do *)
  dp_allocated : nat;        (* buffers not freed *)
  dp_ready : bool;           (* lv_disp_flush_ready was called *)
}.

Definition on_paint {A} (m : M PAINT A) : M disp A := fun s =>
  match m (dp_paint s) with
  | Ok (a, p) => Ok (a, Disp p (dp_dev s) (dp_alloc s) (dp_allocated s) (dp_ready s))
  | Err f => Err f
  end.
Definition on_dev {A} (m : M dev A) : M disp A := fun s =>
  match m (dp_dev s) with
  | Ok (a, d) => Ok (a, Disp (dp_paint s) d (dp_alloc s) (dp_allocated s) (dp_ready s))
  | Err f => Err f
  end.

(** [lv_mem_alloc]: [None] for NULL; the bytes of the block are not defined. *)
Definition lv_mem_alloc (size : Z) : M disp (option bytes) := fun s =>
  match dp_alloc s with
  | true :: rest =>
      Ok (Some (replicate (Z.to_nat size) 0),
          Disp (dp_paint s) (dp_dev s) rest (S (dp_allocated s)) (dp_ready s))
  | _ => Ok (None, Disp (dp_paint s) (dp_dev s) (tail (dp_alloc s)) (dp_allocated s) (dp_ready s))
  end.
Definition lv_mem_free : M disp unit :=
  modify (fun s => Disp (dp_paint s) (dp_dev s) (dp_alloc s) (pred (dp_allocated s)) (dp_ready s)).
Definition lv_disp_flush_ready : M disp unit :=
  modify (fun s => Disp (dp_paint s) (dp_dev s) (dp_alloc s) (dp_allocated s) true).

(** [wait_for_idle] *)
Fixpoint wait_idle (levels : list Z) : M dev unit :=
  match levels with
  | [] => throw Spin
  | v :: levels =>
      modify (fun d => Dev (trace d) levels (spi_epaper d)) ;;;
      if v =? 1 then DEV_Delay_ms 10 ;;; wait_idle levels else mret tt
  end.
Definition wait_for_idle : M dev unit := d ← get; wait_idle (busy d).

(** The two debug printers: what they print, row by row ([true] is a full block). *)
Definition debug_print_color_p (color_p : list Z) (w h : Z) : res (list (list bool)) :=
  rmap (fun y => rmap (fun x => c ← aget color_p (x + y * w); Ok (c =? 0)) (seqZ 0 w)) (seqZ 0 h).

Definition debug_print_1bit_buffer (buf : bytes) (w h : Z) : res (list (list bool)) :=
  let bytes_per_row := (w + 7) / 8 in
  rmap (fun y => rmap (fun x =>
    b ← aget buf (y * bytes_per_row + x / 8);
    Ok (Z.land b (Z.shiftr 128 (x mod 8)) =? 0)) (seqZ 0 w)) (seqZ 0 h).

Definition cmd_clean_screen : M disp unit :=
  on_dev EPD_2IN7_V2_Init ;;; on_dev EPD_2IN7_V2_Clear.

(** The buffer behind [temp_buf]. *)
Definition temp_buf : M disp bytes :=
  s ← get;
  match Image (dp_paint s) with Some im => mret im | None => throw NullDeref end.

(** The pixel loop of the flush. *)
Definition draw_colors (color_p : list Z) (w h : Z) : M PAINT unit :=
  mfor (seqZ 0 h) (fun y =>
    mfor (seqZ 0 w) (fun x =>
      c ← lift (aget color_p (x + y * w));
      if c =? 0 then Paint_SetPixel x y BLACK else Paint_SetPixel x y WHITE)).

Definition disp_flush (area : lv_area_t) (color_p : list Z) : M disp unit :=
  let w := u32 (x2 area - x1 area + 1) in
  let h := u32 (y2 area - y1 area + 1) in
  let buf_size := u32 ((h + 7) / 8 * w) in
  m ← lv_mem_alloc buf_size;
  match m with
  | None => mret tt
  | Some buf =>
      on_dev EPD_2IN7_V2_Init ;;;
      on_paint (Paint_NewImage (Some buf) h w 270 WHITE) ;;;
      on_paint (Paint_SelectImage (Some buf)) ;;;
      on_paint (Paint_Clear WHITE) ;;;
      (* memset(temp_buf, 0xFF, buf_size) *)
      on_paint (modify (set_image (Some (replicate (Z.to_nat buf_size) 255)))) ;;;
      b ← temp_buf;
      on_dev (EPD_2IN7_V2_Display_Partial b (y1 area) (x1 area) (y2 area) (x2 area)) ;;;
      _ ← (if buf_size <? 1000 then lift (debug_print_color_p color_p w h) else mret []);
      on_paint (draw_colors color_p w h) ;;;
      b ← temp_buf;
      _ ← (if buf_size <? 1000 then lift (debug_print_1bit_buffer b h w) else mret []);
      on_dev (EPD_2IN7_V2_Display_Partial b (y1 area) (x1 area) (y2 area) (x2 area)) ;;;
      on_dev wait_for_idle ;;;
      on_dev EPD_2IN7_V2_Sleep ;;;
      lv_mem_free ;;;
      lv_disp_flush_ready
  end.

(** [lv_port_disp_init]: what is registered with LVGL, after the panel is set up;
    [epaper_ok] is the result of [ele_ds_epaper_init]. *)
Record disp_drv_t := DispDrv { hor_res : Z; ver_res : Z; draw_buf_size : Z }.

Definition disp_init (epaper_ok : bool) : M disp unit :=
  if negb epaper_ok then mret tt else
  _ ← on_dev DEV_Module_Init;
  on_dev EPD_2IN7_V2_Init ;;;
  on_dev EPD_2IN7_V2_Clear.

Definition lv_port_disp_init (epaper_ok : bool) : M disp disp_drv_t :=
  disp_init epaper_ok ;;;
  mret (DispDrv 264 176 (264 * 176)).

(** ** The rotated picture *)

(** An area of the screen. *)
Definition area_ok (a : lv_area_t) : Prop :=
  0 <= x1 a /\ x1 a <= x2 a /\ x2 a < 264 /\ 0 <= y1 a /\ y1 a <= y2 a /\ y2 a < 176.
#[export] Instance area_ok_dec a : Decision (area_ok a).
Proof. unfold area_ok. apply _. Defined.

Definition area_w (a : lv_area_t) : Z := x2 a - x1 a + 1.
Definition area_h (a : lv_area_t) : Z := y2 a - y1 a + 1.

(** The paint state of a flush, with image [im]. *)
Definition flush_paint (w h : Z) (im : bytes) : PAINT :=
  MkPaint (Some im) w h h w WHITE 270 MIRROR_NONE (bytes_per_row h 8) w 2.

Lemma flush_paint_wf w h im :
  0 <= w < 2 ^ 15 -> 0 <= h < 2 ^ 15 -> Zlen im = bytes_per_row h 8 * w -> all_bytes im ->
  image_wf (flush_paint w h im) im.
Proof.
  intros Hw Hh Hl Hb. split; [|split; [done|split; [done|done]]].
  unfold geometry, flush_paint. simpl. unfold MIRROR_NONE. repeat split; lia.
Qed.

(** After the loop every pixel of the area has its colour. *)
Lemma draw_colors_spec w h color_p im0 :
  0 < w < 2 ^ 15 -> 0 < h < 2 ^ 15 -> w * h <= Zlen color_p ->
  image_wf (flush_paint w h im0) im0 ->
  exists im, draw_colors color_p w h (flush_paint w h im0) = Ok (tt, flush_paint w h im) /\
    image_wf (flush_paint w h im) im /\
    forall x y, 0 <= x < w -> 0 <= y < h -> exists c, aget color_p (x + y * w) = Ok c /\
      pixel (flush_paint w h im) x y = Some (negb (c =? 0)).
Proof.
  intros Hw Hh Hl Hwf0.
  set (colored := fun (p : PAINT) (x y : Z) =>
    exists c, aget color_p (x + y * w) = Ok c /\ pixel p x y = Some (negb (c =? 0))).
  set (Inv := fun (D : Z -> Z -> Prop) (p : PAINT) =>
    exists im, p = flush_paint w h im /\ image_wf p im /\
      forall x y, 0 <= x < w -> 0 <= y < h -> D x y -> colored p x y).
  assert (wp (draw_colors color_p w h)
    (fun _ => Inv (fun x y => y ∈ seqZ 0 h)) (flush_paint w h im0)) as H.
  { unfold draw_colors.
    apply (wp_mfor (fun rows => Inv (fun x y => y ∈ rows))).
    - exists im0. split; [done|]. split; [done|]. intros x y _ _ Hin. set_solver.
    - intros rows y rest p Hsplit HI.
      assert (y ∈ seqZ 0 h) as Hy by (rewrite Hsplit; set_solver). apply elem_of_seqZ in Hy.
      eapply wp_mono.
      + apply (wp_mfor (fun cols => Inv (fun x' y' => y' ∈ rows \/ (y' = y /\ x' ∈ cols)))).
        * destruct HI as (im & -> & Hwf & Hc). exists im. split; [done|]. split; [done|].
          intros x' y' Hx' Hy' [Hin | [_ Hin]]; [by apply Hc|set_solver].
        * intros cols x crest q Hcs (im & -> & Hwf & Hc).
          assert (x ∈ seqZ 0 w) as Hx by (rewrite Hcs; set_solver). apply elem_of_seqZ in Hx.
          destruct (aget_in color_p (x + y * w)) as [c Hcol]; [nia|].
          assert (in_view (flush_paint w h im) x y) as Hv by (unfold in_view; simpl; lia).
          assert (exists col, (if c =? 0 then Paint_SetPixel x y BLACK
                  else Paint_SetPixel x y WHITE) = Paint_SetPixel x y col /\
                  negb (u16 col =? BLACK) = negb (c =? 0)) as (col & Hif & Hcc).
          { destruct (c =? 0); [by exists BLACK|by exists WHITE]. }
          destruct (set_pixel_run (flush_paint w h im) im x y col Hwf Hv)
            as (im' & Hrun & Hwf' & Hpx).
          unfold wp. rewrite (bind_step _ _ _ c (flush_paint w h im))
            by (unfold lift; by rewrite Hcol).
          rewrite Hif, Hrun. exists im'. split; [done|]. split; [done|].
          intros x' y' Hx' Hy' Hin. unfold colored. rewrite Hpx by (unfold in_view; simpl; lia).
          case_decide as Heq.
          -- destruct Heq as [-> ->]. exists c. split; [done|]. by rewrite Hcc.
          -- apply Hc; [done|done|]. destruct Hin as [Hin | [-> Hin]]; [by left|].
             right. split; [done|]. apply elem_of_app in Hin as [Hin|Hin]; [done|]. set_solver.
      + intros [] q (im & -> & Hwf & Hc). exists im. split; [done|]. split; [done|].
        intros x' y' Hx' Hy' Hin. apply Hc; [done|done|].
        apply elem_of_app in Hin as [Hin|Hin]; [by left|]. right. split; [set_solver|].
        by apply elem_of_seqZ. }
  apply wp_run in H as ([] & p & E & im & -> & Hwf & Hc). exists im. split; [done|].
  split; [done|]. intros x y Hx Hy. apply Hc; [done|done|]. by apply elem_of_seqZ.
Qed.

Lemma stride_eq h : 0 <= h -> (h + 7) / 8 = bytes_per_row h 8.
Proof. intros. unfold bytes_per_row. destruct (Z.eqb_spec (h mod 8) 0); zlia. Qed.

(** Clearing and [memset] of the fresh buffer. *)
Lemma clear_white w h im :
  0 < w < 2 ^ 15 -> 0 < h < 2 ^ 15 -> Zlen im = bytes_per_row h 8 * w -> all_bytes im ->
  is_ok (Paint_Clear WHITE (flush_paint w h im)) = true /\
  forall a p, Paint_Clear WHITE (flush_paint w h im) = Ok (a, p) ->
    forall v, set_image v p = set_image v (flush_paint w h im).
Proof.
  intros Hw Hh Hl Hb.
  assert (Paint_Clear WHITE (flush_paint w h im) =
    Ok (tt, set_image (Some (map (fun _ => 255) (seq 0 (length im)))) (flush_paint w h im))) as E.
  { unfold Paint_Clear. rewrite (bind_step get _ _ _ _ eq_refl). simpl (_ =? 2). cbv iota.
    apply image_fill; [apply flush_paint_wf; lia || done|].
    intros k im' Hk Hl'. rewrite (image_set_run _ im') by (done || lia). done. }
  rewrite E. split; [done|]. by intros a p [= <- <-].
Qed.

(** ** Running the flush *)

Lemma on_dev_run {A} (m : M dev A) s a d :
  m (dp_dev s) = Ok (a, d) ->
  on_dev m s = Ok (a, Disp (dp_paint s) d (dp_alloc s) (dp_allocated s) (dp_ready s)).
Proof. unfold on_dev. by intros ->. Qed.

Lemma on_paint_run {A} (m : M PAINT A) s a p :
  m (dp_paint s) = Ok (a, p) ->
  on_paint m s = Ok (a, Disp p (dp_dev s) (dp_alloc s) (dp_allocated s) (dp_ready s)).
Proof. unfold on_paint. by intros ->. Qed.

(** One statement of the flush, from the run of the paint or panel code in it. *)
Ltac paint_step H :=
  erewrite bind_step by (apply on_paint_run; exact H);
  cbn [dp_paint dp_dev dp_alloc dp_allocated dp_ready].
Ltac dev_step H :=
  erewrite bind_step by (apply on_dev_run; exact H);
  cbn [dp_paint dp_dev dp_alloc dp_allocated dp_ready].

Lemma print_color_ok color_p w h :
  0 < w -> 0 < h -> w * h <= Zlen color_p -> exists l, debug_print_color_p color_p w h = Ok l.
Proof.
  intros Hw Hh Hl. apply rmap_ok. intros y Hy%elem_of_seqZ. apply rmap_ok.
  intros x Hx%elem_of_seqZ. destruct (aget_in color_p (x + y * w)) as [c ->]; [nia|]. by eexists.
Qed.

Lemma print_1bit_ok buf w h :
  0 < w -> 0 < h -> bytes_per_row w 8 * h <= Zlen buf ->
  exists l, debug_print_1bit_buffer buf w h = Ok l.
Proof.
  intros Hw Hh Hl. apply rmap_ok. intros y Hy%elem_of_seqZ. apply rmap_ok.
  intros x Hx%elem_of_seqZ. rewrite stride_eq by lia.
  destruct (addr_bound w h x y) as [H0 H1]; [lia|lia|].
  destruct (aget_in buf (y * bytes_per_row w 8 + x / 8)) as [c ->]; [lia|]. by eexists.
Qed.

(** Waiting until the level is no longer 1. *)
Lemma wait_idle_run j rest d :
  busy d = replicate j 1 ++ 0 :: rest ->
  exists evs, wait_for_idle d = Ok (tt, Dev (trace d ++ evs) rest (spi_epaper d)) /\
    forall l, decode l evs = [] /\ final l evs = l.
Proof.
  intros Hb. unfold wait_for_idle. rewrite (bind_step get _ _ _ _ eq_refl). rewrite Hb.
  clear Hb. destruct d as [t lv sp]. simpl. revert t lv.
  induction j as [|j IH]; intros t lv.
  - exists []. rewrite app_nil_r. done.
  - cbn [replicate app wait_idle]. rewrite (bind_step _ _ _ _ _ eq_refl).
    change (1 =? 1) with true. cbv iota.
    rewrite (bind_step _ _ _ _ _ eq_refl). simpl trace. simpl busy. simpl spi_epaper.
    destruct (IH (t ++ [EvDelay 10]) (replicate j 1 ++ 0 :: rest)) as (evs & E & D).
    exists (EvDelay 10 :: evs). rewrite E, <- app_assoc. done.
Qed.

(** A partial update of the area's window with the bytes [im]. *)
Definition window_seq (a : lv_area_t) (im : bytes) : list frame :=
  let c0 := y1 a / 8 in
  let c1 := y2 a / 8 + 1 in
  [HwReset; Cmd 60; Data 128; Cmd 68; Data c0; Data (c1 - 1);
      Cmd 69; Data (x1 a mod 256); Data (x1 a / 256); Data ((x2 a - 1) mod 256);
      Data ((x2 a - 1) / 256);
      Cmd 78; Data c0; Cmd 79; Data (x1 a mod 256); Data (x1 a / 256); Cmd 36] ++
  map Data (take (Z.to_nat (bytes_per_row (area_h a) 8 * (area_w a - 1))) im) ++
  [Cmd 34; Data 255; Cmd 32].

(** What a flush sends, from the bytes [im] of the rotated picture. *)
Definition flush_seq (a : lv_area_t) (im : bytes) : list frame :=
  init_seq ++
  window_seq a (replicate (Z.to_nat (bytes_per_row (area_h a) 8 * area_w a)) 255) ++
  window_seq a im ++
  [Cmd 16; Data 1].

(** The columns and the picture's rows agree when the area starts on a byte boundary and
    does not end just behind one. *)
Lemma flush_columns a :
  area_ok a -> y1 a mod 8 = 0 -> y2 a mod 8 <> 0 ->
  exists c0 c1, partial_columns (y1 a) (y2 a) = (c0, c1) /\ c0 = y1 a / 8 /\ c1 = y2 a / 8 + 1 /\
    c1 - c0 = bytes_per_row (area_h a) 8 /\ y1 a < y2 a.
Proof.
  intros (?&?&?&?&?&?) Hm1 Hm2. exists (y1 a / 8), (y2 a / 8 + 1).
  unfold partial_columns. rewrite Z.rem_mod_nonneg by lia. rewrite Hm1.
  unfold bytes_per_row, area_h.
  destruct (Z.eqb_spec (0 + y2 a mod 8) 8), (Z.eqb_spec (0 + y2 a mod 8) 0),
    (Z.eqb_spec ((y2 a - y1 a) mod 8) 0), (Z.ltb_spec (y2 a mod 8) 0), (Z.eqb_spec (y2 a mod 8) 0),
    (Z.eqb_spec ((y2 a - y1 a + 1) mod 8) 0); simpl; repeat split; zlia.
Qed.

Lemma map_replicate_data n b : map Data (replicate n b) = replicate n (Data b).
Proof. induction n; simpl; by f_equal. Qed.

(** The white picture: 255 in every byte. *)
Lemma white_spec w h :
  0 < w -> 0 < h ->
  let im := replicate (Z.to_nat (bytes_per_row h 8 * w)) 255 in
  Zlen im = bytes_per_row h 8 * w /\ all_bytes im.
Proof.
  intros Hw Hh im. destruct (bytes_per_row_bound h) as [? ?]; [lia|]. split.
  - unfold im, Zlen. rewrite length_replicate. nia.
  - apply Forall_replicate. unfold is_byte. lia.
Qed.

(** The state after the first part of the flush: allocation, initialisation, white image. *)
Lemma flush_start a s al k1 k2 k3 rest :
  area_ok a -> dp_alloc s = true :: al -> spi_epaper (dp_dev s) = true ->
  busy (dp_dev s) = polls [k1; k2; k3] ++ rest ->
  let white := replicate (Z.to_nat (bytes_per_row (area_h a) 8 * area_w a)) 255 in
  exists evs,
    (forall l, l_rst l = 1 -> decode l evs = init_seq /\ l_rst (final l evs) = 1) /\
    forall color_p, disp_flush a color_p s =
      (let w := area_w a in
       let h := area_h a in
       let buf_size := bytes_per_row h 8 * w in
       b ← temp_buf;
       on_dev (EPD_2IN7_V2_Display_Partial b (y1 a) (x1 a) (y2 a) (x2 a)) ;;;
       _ ← (if buf_size <? 1000 then lift (debug_print_color_p color_p w h) else mret []);
       on_paint (draw_colors color_p w h) ;;;
       b ← temp_buf;
       _ ← (if buf_size <? 1000 then lift (debug_print_1bit_buffer b h w) else mret []);
       on_dev (EPD_2IN7_V2_Display_Partial b (y1 a) (x1 a) (y2 a) (x2 a)) ;;;
       on_dev wait_for_idle ;;;
       on_dev EPD_2IN7_V2_Sleep ;;;
       lv_mem_free ;;;
       lv_disp_flush_ready)
      (Disp (flush_paint (area_w a) (area_h a) white) (Dev (trace (dp_dev s) ++ evs) rest true)
         al (S (dp_allocated s)) (dp_ready s)).
Proof.
  intros Ha Hal Hspi Hbusy white. destruct Ha as (?&?&?&?&?&?).
  destruct (init_sends k1 k2 k3 (dp_dev s) rest Hspi Hbusy) as (evs & Ei & Di).
  exists evs. split; [done|]. intros color_p. unfold disp_flush.
  assert (u32 (x2 a - x1 a + 1) = area_w a) as -> by (apply wrap_small; unfold area_w; lia).
  assert (u32 (y2 a - y1 a + 1) = area_h a) as -> by (apply wrap_small; unfold area_h; lia).
  set (w := area_w a) in *. set (h := area_h a) in *.
  assert (0 < w <= 264 /\ 0 < h <= 176) as [Hw Hh] by (unfold w, h, area_w, area_h; lia).
  rewrite stride_eq by lia.
  destruct (bytes_per_row_bound h) as [Hb1 Hb2]; [lia|].
  assert (bytes_per_row h 8 <= h) as Hb3
    by (unfold bytes_per_row; destruct (h mod 8 =? 0); zlia).
  rewrite (wrap_small 32 (bytes_per_row h 8 * w)) by nia.
  set (size := bytes_per_row h 8 * w) in *. cbv zeta.
  rewrite (bind_step _ _ _ (Some (replicate (Z.to_nat size) 0))
    (Disp (dp_paint s) (dp_dev s) al (S (dp_allocated s)) (dp_ready s)))
    by (unfold lv_mem_alloc; by rewrite Hal).
  cbv beta iota.
  dev_step Ei.
  set (buf := replicate (Z.to_nat size) 0).
  assert (Zlen buf = size /\ all_bytes buf) as [Hzl Hzb].
  { split; [unfold buf, Zlen; rewrite length_replicate; nia|].
    apply Forall_replicate. unfold is_byte. lia. }
  paint_step (eq_refl (Ok (tt, flush_paint w h buf))).
  paint_step (eq_refl (Ok (tt, flush_paint w h buf))).
  destruct (clear_white w h buf) as [Hok Hcl]; [lia|lia|done|done|].
  destruct (Paint_Clear WHITE (flush_paint w h buf)) as [[[] p]|] eqn:Ec; [|done].
  specialize (Hcl tt p eq_refl).
  paint_step Ec.
  assert (modify (set_image (Some white)) p = Ok (tt, flush_paint w h white)) as Em
    by (unfold modify; by rewrite Hcl).
  paint_step Em.
  done.
Qed.

(** Each of the two partial updates of a flush. *)
Lemma flush_partial a im k :
  area_ok a -> x1 a < x2 a -> y1 a mod 8 = 0 -> y2 a mod 8 <> 0 ->
  all_bytes im -> Zlen im = bytes_per_row (area_h a) 8 * area_w a ->
  sends (EPD_2IN7_V2_Display_Partial im (y1 a) (x1 a) (y2 a) (x2 a)) [k] (window_seq a im).
Proof.
  intros Ha Hx Hy1 Hy2 Hb Hl.
  destruct (flush_columns a Ha Hy1 Hy2) as (c0 & c1 & Hp & Hc0 & Hc1 & Hst & Hy).
  destruct Ha as (?&?&?&?&?&?).
  assert ((c1 - c0) * (x2 a - x1 a) = bytes_per_row (area_h a) 8 * (area_w a - 1)) as Hn
    by (rewrite Hst; unfold area_w; lia).
  destruct (bytes_per_row_bound (area_h a)) as [Hb1 Hb2]; [unfold area_h; lia|].
  destruct (partial_sends im (y1 a) (x1 a) (y2 a) (x2 a) k c0 c1)
    as (_ & _ & _ & _ & _ & Hs); [lia|lia|lia|lia|done|done|done|rewrite Hn, Hl; lia|].
  unfold window_seq. cbv zeta. by rewrite <- Hn, <- Hc1, <- Hc0.
Qed.

(** A debug dump that succeeds changes nothing. *)
Lemma log_step {A B} (b : bool) (m : res (list A)) (k : M disp B) (s : disp) :
  (exists l, m = Ok l) -> (_ ← (if b then lift m else mret []); k) s = k s.
Proof. intros [l ->]. by destruct b. Qed.

(** The end of a flush: the panel is put to sleep, the buffer freed, LVGL told. *)
Lemma flush_end d j rest :
  spi_epaper d = true -> busy d = replicate j 1 ++ 0 :: rest ->
  exists evs,
    (forall p al n r,
      (on_dev wait_for_idle ;;; on_dev EPD_2IN7_V2_Sleep ;;; lv_mem_free ;;;
       lv_disp_flush_ready) (Disp p d al n r) =
      Ok (tt, Disp p (Dev (trace d ++ evs) rest true) al (pred n) true)) /\
    forall l, l_rst l = 1 -> decode l evs = [Cmd 16; Data 1].
Proof.
  intros Hspi Hb. destruct (wait_idle_run j rest d Hb) as (evs4 & E4 & D4).
  destruct (sends_cmd 16 [1] ltac:(unfold is_byte; lia) ltac:(repeat constructor; lia)
    (Dev (trace d ++ evs4) rest (spi_epaper d)) rest) as (evs5 & E5 & D5); [done|done|].
  exists (evs4 ++ evs5). split.
  - intros p al n r. dev_step E4. dev_step E5.
    unfold lv_mem_free, lv_disp_flush_ready, modify, mbind, M_bind. simpl. by rewrite app_assoc.
  - intros l Hl. rewrite decode_app. destruct (D4 l) as [-> ->]. by destruct (D5 l Hl) as [-> _].
Qed.

(** C24. A flush of an area that starts on a byte row and does not end just behind one: the
    picture built has exactly LVGL's colours at every pixel of the area, and the panel gets
    the initialisation, a white window, the picture in the same window, and the sleep
    command; the buffer is freed and LVGL is told.  The picture goes out without its last
    row. *)
Theorem disp_flush_shows a color_p s al k1 k2 k3 k4 k5 j rest :
  area_ok a -> x1 a < x2 a -> y1 a mod 8 = 0 -> y2 a mod 8 <> 0 ->
  area_w a * area_h a <= Zlen color_p -> dp_alloc s = true :: al ->
  spi_epaper (dp_dev s) = true ->
  busy (dp_dev s) = polls [k1; k2; k3] ++ polls [k4] ++ polls [k5] ++ replicate j 1 ++ 0 :: rest ->
  exists im evs p,
    disp_flush a color_p s =
      Ok (tt, Disp p (Dev (trace (dp_dev s) ++ evs) rest true) al (dp_allocated s) true) /\
    (forall l, l_rst l = 1 -> decode l evs = flush_seq a im) /\
    Zlen im = bytes_per_row (area_h a) 8 * area_w a /\
    forall x y, 0 <= x < area_w a -> 0 <= y < area_h a ->
      exists c, aget color_p (x + y * area_w a) = Ok c /\
        pixel (flush_paint (area_w a) (area_h a) im) x y = Some (negb (c =? 0)).
Proof.
  intros Ha Hx Hy1 Hy2 Hcol Hal Hspi Hbusy.
  destruct (flush_start a s al k1 k2 k3 _ Ha Hal Hspi Hbusy) as (evs1 & D1 & ->).
  pose proof (fun im k => flush_partial a im k Ha Hx Hy1 Hy2) as Hpart.
  assert (0 < area_w a <= 264 /\ 0 < area_h a <= 176) as [Hw Hh]
    by (unfold area_ok, area_w, area_h in *; lia).
  cbv zeta. change (flush_seq a) with (fun im => init_seq ++ window_seq a
    (replicate (Z.to_nat (bytes_per_row (area_h a) 8 * area_w a)) 255) ++
    window_seq a im ++ [Cmd 16; Data 1]).
  set (w := area_w a) in *. set (h := area_h a) in *.
  set (white := replicate (Z.to_nat (bytes_per_row h 8 * w)) 255).
  destruct (white_spec w h) as [Hwl Hwb]; [lia|lia|]. fold white in Hwl, Hwb.
  destruct (draw_colors_spec w h color_p white) as (im & Ed & (Hg & _ & Himl & Himb) & Hpx);
    [lia|lia|done|apply flush_paint_wf; done || lia|]. simpl in Himl.
  set (d1 := Dev (trace (dp_dev s) ++ evs1) _ true).
  rewrite (bind_step temp_buf _ _ white (Disp (flush_paint w h white) d1 al _ _)) by done.
  destruct (Hpart white k4 Hwb Hwl d1 (polls [k5] ++ replicate j 1 ++ 0 :: rest))
    as (evs2 & E2 & D2); [done|done|]. dev_step E2.
  set (d2 := Dev _ (polls [k5] ++ _) true).
  rewrite log_step by (apply print_color_ok; lia). paint_step Ed.
  rewrite (bind_step temp_buf _ _ im (Disp (flush_paint w h im) _ al _ _)) by done.
  rewrite log_step by (apply print_1bit_ok; lia).
  destruct (Hpart im k5 Himb Himl d2 (replicate j 1 ++ 0 :: rest)) as (evs3 & E3 & D3);
    [done|done|]. dev_step E3.
  set (d3 := Dev _ (replicate j 1 ++ _) true).
  destruct (flush_end d3 j rest) as (evs4 & E4 & D4); [done|done|]. rewrite E4.
  exists im, (evs1 ++ evs2 ++ evs3 ++ evs4), (flush_paint w h im).
  split; [simpl; by rewrite <- !app_assoc|]. split; [|by split].
  intros l Hl. rewrite !decode_app. destruct (D1 l Hl) as [-> Hl1].
  destruct (D2 _ Hl1) as [-> Hl2]. destruct (D3 _ Hl2) as [-> Hl3]. by rewrite (D4 _ Hl3).
Qed.

(** The panel and heap of a machine whose next allocation succeeds. *)
Definition fresh_disp (levels : list Z) : disp :=
  Disp (flush_paint 8 8 (replicate 8 0)) (Dev [] levels true) [true] 0 false.

Lemma disp_flush_shows_witness :
  exists im evs p,
    disp_flush (Area 3 8 7 12) (replicate 25 0)
      (fresh_disp (polls [0%nat; 1%nat; 0%nat] ++ polls [2%nat] ++ polls [1%nat] ++ [1; 0])) =
      Ok (tt, Disp p (Dev evs [] true) [] 0 true) /\
    (forall l, l_rst l = 1 -> decode l evs = flush_seq (Area 3 8 7 12) im) /\
    Zlen im = 5 /\
    forall x y, 0 <= x < 5 -> 0 <= y < 5 ->
      exists c, aget (replicate 25 0) (x + y * 5) = Ok c /\
        pixel (flush_paint 5 5 im) x y = Some (negb (c =? 0)).
Proof.
  exact (disp_flush_shows (Area 3 8 7 12) (replicate 25 0) (fresh_disp _) [] 0 1 0 2 1 1 []
    ltac:(apply (bool_decide_unpack _); vm_compute; exact I) ltac:(reflexivity)
    ltac:(reflexivity) ltac:(discriminate) ltac:(discriminate) ltac:(reflexivity)
    ltac:(reflexivity) ltac:(reflexivity)).
Defined.

(** ** Areas across a byte boundary

    [disp_flush] sizes the picture from the height of the area alone, the driver sizes the
    window from the byte columns the area touches. *)

(** When the window has more bytes than the picture, the white update already reads behind
    the allocated buffer. *)
Theorem flush_overreads a color_p s al k1 k2 k3 rest c0 c1 :
  area_ok a -> x1 a < x2 a -> partial_columns (y1 a) (y2 a) = (c0, c1) ->
  bytes_per_row (area_h a) 8 * area_w a < (c1 - c0) * (area_w a - 1) ->
  dp_alloc s = true :: al -> spi_epaper (dp_dev s) = true ->
  busy (dp_dev s) = polls [k1; k2; k3] ++ rest ->
  disp_flush a color_p s = Err OutOfBounds.
Proof.
  intros Ha Hx Hp Hlt Hal Hspi Hbusy.
  destruct (flush_start a s al k1 k2 k3 _ Ha Hal Hspi Hbusy) as (evs1 & _ & ->).
  destruct Ha as (?&?&?&?&?&?).
  assert (area_w a = x2 a - x1 a + 1 /\ area_h a = y2 a - y1 a + 1) as [Ew Eh] by done.
  destruct (bytes_per_row_bound (area_h a)) as [Hb1 Hb2]; [lia|].
  destruct (white_spec (area_w a) (area_h a)) as [Hwl Hwb]; [lia|lia|].
  assert (0 <= c0 /\ c0 <= c1 <= 22) as [Hc0 Hc1].
  { revert Hp. unfold partial_columns.
    assert (y1 a / 8 <= y2 a / 8) by zlia. assert (0 <= y1 a / 8) by zlia.
    assert (y2 a / 8 <= 21) by zlia.
    repeat case_match; intros [= <- <-]; lia. }
  cbv zeta. set (white := replicate _ 255) in *.
  rewrite (bind_step _ _ _ white (Disp (flush_paint _ _ white) (Dev _ rest true) al _ _)) by done.
  unfold mbind at 1, M_bind at 1, on_dev at 1. cbn [dp_dev].
  rewrite (partial_overread white (y1 a) (x1 a) (y2 a) (x2 a) _ c0 c1);
    [done|done|lia|lia|lia|lia|nia|done|nia|done].
Qed.

Lemma flush_overreads_witness :
  disp_flush (Area 10 6 40 9) (replicate 200 1)
    (fresh_disp (polls [0%nat; 0%nat; 0%nat] ++ replicate 5 0)) = Err OutOfBounds.
Proof.
  exact (flush_overreads (Area 10 6 40 9) (replicate 200 1) (fresh_disp _) [] 0 0 0 (replicate 5 0)
    0 2 ltac:(apply (bool_decide_unpack _); vm_compute; exact I) ltac:(reflexivity)
    ltac:(reflexivity) ltac:(reflexivity) ltac:(reflexivity) ltac:(reflexivity)
    ltac:(reflexivity)).
Defined.
