(* ===== verification/Device.v ===== *)
(** The device framework: [rt-thread/components/drivers/core/device.c], with the object list of
    [rt-thread/src/object.c] as far as devices use it.

    A device is a record at an address.  What a driver does is an argument: a record
    [rt_device_ops] of its operations, each a computation over the driver's state [X]; [None]
    is the null pointer.  A read delivers a list of items of type [D]. *)

From stdpp Require Import gmap.
From S2P Require Import Prelude.
#[local] Open Scope Z_scope.

(** ** Data *)

Definition RT_NAME_MAX : nat := 8.
Definition RT_DEVICE_FLAG_RDWR : Z := 3.
Definition RT_DEVICE_FLAG_STANDALONE : Z := 8.
Definition RT_DEVICE_FLAG_ACTIVATED : Z := 16.
Definition RT_DEVICE_OFLAG_CLOSE : Z := 0.
Definition RT_DEVICE_OFLAG_RDWR : Z := 3.
Definition RT_DEVICE_OFLAG_OPEN : Z := 8.
Definition RT_DEVICE_OFLAG_MASK : Z := 3855.  (* 0xf0f *)

Section device.
Context {X D : Type}.

Record rt_device_ops := DevOps {
  op_init : option (M X Z);
  op_open : option (Z -> M X Z);
  op_close : option (M X Z);
  op_read : option (Z -> Z -> M X (Z * list D));
  op_write : option (Z -> list D -> M X Z);
  op_control : option (Z -> Z -> M X Z);
}.

(** [is_device]: the object has the type of a device. *)
Record rt_device := Device {
  is_device : bool;
  dev_name : bytes;       (* char[RT_NAME_MAX] *)
  flag : Z;
  open_flag : Z;
  ref_count : Z;          (* rt_uint8_t *)
  dev_ops : rt_device_ops;
}.

(** The devices by address, the list of the registered ones, and the drivers' state. *)
Record dev_st := DevSt {
  devices : gmap Z rt_device;
  object_list : list Z;
  drivers : X;
}.

Definition set_devices (l : gmap Z rt_device) : M dev_st unit :=
  modify (fun s => DevSt l (object_list s) (drivers s)).
Definition set_object_list (l : list Z) : M dev_st unit :=
  modify (fun s => DevSt (devices s) l (drivers s)).
Definition on_driver {A} (m : M X A) : M dev_st A := fun s =>
  match m (drivers s) with
  | Ok (a, x) => Ok (a, DevSt (devices s) (object_list s) x)
  | Err f => Err f
  end.

Definition set_flag (v : Z) (d : rt_device) : rt_device :=
  Device (is_device d) (dev_name d) v (open_flag d) (ref_count d) (dev_ops d).
Definition set_open_flag (v : Z) (d : rt_device) : rt_device :=
  Device (is_device d) (dev_name d) (flag d) v (ref_count d) (dev_ops d).
Definition set_ref_count (v : Z) (d : rt_device) : rt_device :=
  Device (is_device d) (dev_name d) (flag d) (open_flag d) v (dev_ops d).

(** [rt_device_init] asserts that there is a device; the other operations assert its type as well. *)
Definition load_dev (dev : Z) : M dev_st rt_device :=
  s ← get;
  if dev =? 0 then throw AssertFail else lift (of_option OutOfBounds (devices s !! dev)).
Definition get_dev (dev : Z) : M dev_st rt_device :=
  d ← load_dev dev;
  if is_device d then mret d else throw AssertFail.
Definition put_dev (dev : Z) (d : rt_device) : M dev_st unit :=
  s ← get; set_devices (<[dev := d]> (devices s)).

(** ** Operations *)

(** [rt_object_find]: names are compared as far as they are stored. *)
Definition same_name (a b : bytes) : bool := bool_decide (take RT_NAME_MAX a = take RT_NAME_MAX b).
Fixpoint find_loop (l : list Z) (devs : gmap Z rt_device) (name : bytes) : res Z :=
  match l with
  | [] => Ok 0
  | p :: l =>
      d ← of_option OutOfBounds (devs !! p);
      if same_name (dev_name d) name then Ok p else find_loop l devs name
  end.
Definition rt_device_find (name : bytes) : M dev_st Z :=
  s ← get; lift (find_loop (object_list s) (devices s) name).

(** [rt_object_init] refuses an object that is in the list. *)
Definition rt_device_register (dev : Z) (name : bytes) (flags : Z) : M dev_st Z :=
  if dev =? 0 then mret (- RT_ERROR) else
  p ← rt_device_find name;
  if negb (p =? 0) then mret (- RT_ERROR) else
  s ← get;
  if bool_decide (dev ∈ object_list s) then throw AssertFail else
  d ← lift (of_option OutOfBounds (devices s !! dev));
  set_object_list (dev :: object_list s) ;;;
  put_dev dev (Device true (take RT_NAME_MAX name) (wrap 16 flags) 0 0 (dev_ops d)) ;;;
  mret RT_EOK.

Definition rt_device_unregister (dev : Z) : M dev_st Z :=
  d ← get_dev dev;
  s ← get;
  set_object_list (filter (fun p => p <> dev) (object_list s)) ;;;
  put_dev dev (Device false (dev_name d) (flag d) (open_flag d) (ref_count d) (dev_ops d)) ;;;
  mret RT_EOK.

Definition activated (d : rt_device) : bool := negb (Z.land (flag d) RT_DEVICE_FLAG_ACTIVATED =? 0).
Definition is_open (d : rt_device) : bool := negb (Z.land (open_flag d) RT_DEVICE_OFLAG_OPEN =? 0).
Definition standalone (d : rt_device) : bool := negb (Z.land (flag d) RT_DEVICE_FLAG_STANDALONE =? 0).

Definition rt_device_init (dev : Z) : M dev_st Z :=
  d ← load_dev dev;
  match op_init (dev_ops d) with
  | Some init =>
      if activated d then mret RT_EOK else
      result ← on_driver init;
      if negb (result =? RT_EOK) then mret result else
      put_dev dev (set_flag (Z.lor (flag d) RT_DEVICE_FLAG_ACTIVATED) d) ;;;
      mret result
  | None => mret RT_EOK
  end.

(** The last part of [rt_device_open]: the count is eight bits wide. *)
Definition count_open (dev : Z) (result : Z) : M dev_st Z :=
  if (result =? RT_EOK) || (result =? - RT_ENOSYS) then
    d ← get_dev dev;
    let d := set_ref_count (u8 (ref_count d + 1)) (set_open_flag (Z.lor (open_flag d) RT_DEVICE_OFLAG_OPEN) d) in
    put_dev dev d ;;;
    if ref_count d =? 0 then throw AssertFail else mret result
  else mret result.

(** The part behind the initialisation. *)
Definition open_active (dev oflag : Z) : M dev_st Z :=
  d ← get_dev dev;
  if standalone d && is_open d then mret (- RT_EBUSY) else
  result ←
    (if negb (is_open d) ||
        negb (Z.land (open_flag d) RT_DEVICE_OFLAG_MASK =? Z.land oflag RT_DEVICE_OFLAG_MASK) then
       match op_open (dev_ops d) with
       | Some open => on_driver (open oflag)
       | None => put_dev dev (set_open_flag (Z.land oflag RT_DEVICE_OFLAG_MASK) d) ;;; mret RT_EOK
       end
     else mret RT_EOK);
  count_open dev result.

Definition rt_device_open (dev oflag : Z) : M dev_st Z :=
  d ← get_dev dev;
  if activated d then open_active dev oflag else
  result ← match op_init (dev_ops d) with Some init => on_driver init | None => mret RT_EOK end;
  if negb (result =? RT_EOK) then mret result else
  put_dev dev (set_flag (Z.lor (flag d) RT_DEVICE_FLAG_ACTIVATED) d) ;;;
  open_active dev oflag.

Definition rt_device_close (dev : Z) : M dev_st Z :=
  d ← get_dev dev;
  if ref_count d =? 0 then mret (- RT_ERROR) else
  let d := set_ref_count (ref_count d - 1) d in
  put_dev dev d ;;;
  if negb (ref_count d =? 0) then mret RT_EOK else
  result ← match op_close (dev_ops d) with Some close => on_driver close | None => mret RT_EOK end;
  (if (result =? RT_EOK) || (result =? - RT_ENOSYS) then put_dev dev (set_open_flag RT_DEVICE_OFLAG_CLOSE d)
   else mret tt) ;;;
  mret result.

(** Nothing is read from or written to a device that is not open. *)
Definition rt_device_read (dev pos size : Z) : M dev_st (Z * list D) :=
  d ← get_dev dev;
  if ref_count d =? 0 then mret (0, []) else
  match op_read (dev_ops d) with Some read => on_driver (read pos size) | None => mret (0, []) end.
Definition rt_device_write (dev pos : Z) (buffer : list D) : M dev_st Z :=
  d ← get_dev dev;
  if ref_count d =? 0 then mret 0 else
  match op_write (dev_ops d) with Some write => on_driver (write pos buffer) | None => mret 0 end.

Definition rt_device_control (dev cmd arg : Z) : M dev_st Z :=
  d ← get_dev dev;
  match op_control (dev_ops d) with Some control => on_driver (control cmd arg) | None => mret (- RT_ENOSYS) end.

(** ** The invariant *)

(** A count stays in its byte; a device that counts users is open, and one that is open but
    counts none is one whose driver refused to close. *)
Definition dev_ok (d : rt_device) : Prop :=
  0 <= ref_count d < 256 /\ (ref_count d <> 0 -> is_open d = true) /\ take RT_NAME_MAX (dev_name d) = dev_name d.

Record devs_wf (s : dev_st) : Prop := {
  wf_null : devices s !! 0 = None;
  wf_dev p d : devices s !! p = Some d -> is_device d = true -> dev_ok d;
  wf_list p : p ∈ object_list s <-> exists d, devices s !! p = Some d /\ is_device d = true;
  wf_nodup : NoDup (object_list s);
  wf_names p q d e : p ∈ object_list s -> q ∈ object_list s -> devices s !! p = Some d -> devices s !! q = Some e ->
    dev_name d = dev_name e -> p = q;
}.

(** A step of the framework: a call on any device, with any answer of the drivers. *)
Inductive dev_call :=
  | CRegister (dev : Z) (name : bytes) (flags : Z)
  | CUnregister (dev : Z)
  | CInit (dev : Z)
  | COpen (dev oflag : Z)
  | CClose (dev : Z)
  | CRead (dev pos size : Z)
  | CWrite (dev pos : Z) (buffer : list D)
  | CControl (dev cmd arg : Z).

Definition dev_do (c : dev_call) : M dev_st unit :=
  match c with
  | CRegister dev name flags => _ ← rt_device_register dev name flags; mret tt
  | CUnregister dev => _ ← rt_device_unregister dev; mret tt
  | CInit dev => _ ← rt_device_init dev; mret tt
  | COpen dev oflag => _ ← rt_device_open dev oflag; mret tt
  | CClose dev => _ ← rt_device_close dev; mret tt
  | CRead dev pos size => _ ← rt_device_read dev pos size; mret tt
  | CWrite dev pos buffer => _ ← rt_device_write dev pos buffer; mret tt
  | CControl dev cmd arg => _ ← rt_device_control dev cmd arg; mret tt
  end.

(** From a start with no registered device. *)
Inductive dev_reach : dev_st -> Prop :=
  | reach_start devs x :
      devs !! 0 = None -> (forall p d, devs !! p = Some d -> is_device d = false) -> dev_reach (DevSt devs [] x)
  | reach_call s c s' : dev_reach s -> dev_do c s = Ok (tt, s') -> dev_reach s'.

(** ** Lemmas *)

Lemma put_dev_run p d s :
  put_dev p d s = Ok (tt, DevSt (<[p := d]> (devices s)) (object_list s) (drivers s)).
Proof. done. Qed.

Lemma get_dev_Ok p s d s' :
  get_dev p s = Ok (d, s') <-> s' = s /\ p <> 0 /\ devices s !! p = Some d /\ is_device d = true.
Proof.
  unfold get_dev, load_dev, get, mbind, M_bind, lift, throw, mret, M_ret.
  destruct (Z.eqb_spec p 0) as [->|Hp]; [split; [done|by intros (_ & ? & _)]|].
  destruct (devices s !! p) as [e|]; cbn [of_option]; [|split; [done|by intros (_ & _ & ? & _)]].
  destruct (is_device e) eqn:E; split; [intros [= <- <-]; done|intros (-> & _ & [= ->] & _); done|done|].
  intros (_ & _ & [= ->] & ?). congruence.
Qed.

(** Writing back a device with its name and type. *)
Lemma wf_put_same s p d d' :
  devs_wf s -> devices s !! p = Some d -> is_device d' = is_device d -> dev_name d' = dev_name d ->
  (is_device d' = true -> dev_ok d') ->
  devs_wf (DevSt (<[p := d']> (devices s)) (object_list s) (drivers s)).
Proof.
  intros Hs Hp Hd Hn Hok.
  assert (p <> 0) as Hp0 by (intros ->; by rewrite (wf_null s Hs) in Hp). split; cbn [devices object_list].
  - rewrite lookup_insert_ne by done. apply (wf_null s Hs).
  - intros q e. destruct (decide (q = p)) as [->|Hq].
    + rewrite lookup_insert_eq. by intros [= <-].
    + rewrite lookup_insert_ne by done. apply (wf_dev s Hs).
  - intros q. rewrite (wf_list s Hs). destruct (decide (q = p)) as [->|Hq].
    + rewrite lookup_insert_eq. naive_solver.
    + by rewrite lookup_insert_ne.
  - apply (wf_nodup s Hs).
  - intros q r e f Hq Hr He Hf E.
    assert (forall x y, <[p := d']> (devices s) !! x = Some y ->
      exists z, devices s !! x = Some z /\ dev_name z = dev_name y) as Hx.
    { intros x y. destruct (decide (x = p)) as [->|Hxp].
      - rewrite lookup_insert_eq. intros [= <-]. by exists d.
      - rewrite lookup_insert_ne by done. by exists y. }
    destruct (Hx _ _ He) as (e' & He' & En). destruct (Hx _ _ Hf) as (f' & Hf' & Fn).
    apply (wf_names s Hs q r e' f' Hq Hr He' Hf'). congruence.
Qed.

Lemma wf_put s p d d' :
  devs_wf s -> devices s !! p = Some d -> is_device d = true ->
  is_device d' = true -> dev_name d' = dev_name d -> dev_ok d' ->
  devs_wf (DevSt (<[p := d']> (devices s)) (object_list s) (drivers s)).
Proof. intros Hs Hp Hd Hd' Hn Hok. apply (wf_put_same s p d d'); try done. congruence. Qed.

Lemma wf_drivers s x : devs_wf s -> devs_wf (DevSt (devices s) (object_list s) x).
Proof. intros [H1 H2 H3 H4 H5]. by split. Qed.

Lemma on_driver_Ok {A} (m : M X A) s a s' :
  on_driver m s = Ok (a, s') -> exists x, m (drivers s) = Ok (a, x) /\ s' = DevSt (devices s) (object_list s) x.
Proof. unfold on_driver. destruct (m (drivers s)) as [[b x]|]; [|done]. intros [= <- <-]. by exists x. Qed.

Lemma wlp_get_dev p (Q : rt_device -> dev_st -> Prop) s :
  (forall d, devices s !! p = Some d -> is_device d = true -> Q d s) -> wlp (get_dev p) Q s.
Proof.
  intros H. unfold wlp. destruct (get_dev p s) as [[d s']|] eqn:E; [|done].
  apply get_dev_Ok in E as (-> & _ & Hd & Ht). by apply H.
Qed.

Lemma wlp_load_dev p (Q : rt_device -> dev_st -> Prop) s :
  (forall d, devices s !! p = Some d -> Q d s) -> wlp (load_dev p) Q s.
Proof.
  intros H. unfold wlp, load_dev, get, mbind, M_bind, lift, throw. destruct (p =? 0); [done|].
  destruct (devices s !! p) as [d|]; [by apply H|done].
Qed.

Lemma wlp_driver {A} (m : M X A) (Q : A -> dev_st -> Prop) s :
  (forall a x, Q a (DevSt (devices s) (object_list s) x)) -> wlp (on_driver m) Q s.
Proof. intros H. unfold wlp, on_driver. destruct (m (drivers s)) as [[a x]|]; [apply H|done]. Qed.

Lemma is_open_lor d : is_open (set_open_flag (Z.lor (open_flag d) RT_DEVICE_OFLAG_OPEN) d) = true.
Proof.
  unfold is_open, set_open_flag, RT_DEVICE_OFLAG_OPEN. cbn [open_flag]. rewrite Z.land_lor_distr_l.
  destruct (Z.eqb_spec (Z.lor (Z.land (open_flag d) 8) (Z.land 8 8)) 0) as [E|]; [|done].
  by apply Z.lor_eq_0_iff in E as [_ ?].
Qed.

(** Counting one more user of a device that a call has just changed. *)
Lemma count_open_wf s p d d1 result :
  devs_wf s -> devices s !! p = Some d -> is_device d = true -> is_device d1 = true -> dev_name d1 = dev_name d ->
  ref_count d1 = ref_count d -> (d1 = d \/ result = RT_EOK) ->
  wlp (count_open p result) (fun _ s' => devs_wf s') (DevSt (<[p := d1]> (devices s)) (object_list s) (drivers s)).
Proof.
  intros Hs Hp Hd Hd1 Hn Hr Hor. pose proof (wf_dev s Hs _ _ Hp Hd) as (Hc & Ho & Ht). unfold count_open.
  destruct ((result =? RT_EOK) || (result =? - RT_ENOSYS)) eqn:E.
  - apply wlp_bind, wlp_get_dev. cbn [devices]. intros e. rewrite lookup_insert_eq. intros [= <-] _.
    apply wlp_bind. unfold wlp at 1. rewrite put_dev_run. cbn [devices object_list drivers]. rewrite insert_insert_eq.
    destruct (_ =? 0); [apply wlp_throw|]. apply wlp_ret. apply (wf_put s p d); try done.
    split; [|split]; cbn [ref_count set_ref_count set_open_flag dev_name].
    + pose proof (wrap_range 8 (ref_count d1 + 1)). lia.
    + intros _. apply is_open_lor.
    + by rewrite Hn.
  - destruct Hor as [->| ->]; [|done]. rewrite insert_id by done. apply wlp_ret. by destruct s.
Qed.

Lemma open_active_wf p oflag s : devs_wf s -> wlp (open_active p oflag) (fun _ s' => devs_wf s') s.
Proof.
  intros Hs. unfold open_active. apply wlp_bind, wlp_get_dev. intros d Hp Hd.
  destruct (standalone d && is_open d); [by apply wlp_ret|]. apply wlp_bind.
  assert (forall s' r, devs_wf s' -> devices s' = devices s -> wlp (count_open p r) (fun _ s' => devs_wf s') s') as Hc.
  { intros s' r Hs' E. rewrite <- E in Hp. pose proof (count_open_wf s' p d d r Hs' Hp Hd Hd) as H.
    rewrite insert_id in H by done. destruct s'. apply H; [done|done|by left]. }
  destruct (_ || _); [|apply wlp_ret; by apply Hc].
  destruct (op_open (dev_ops d)) as [open|].
  - apply wlp_driver. intros r x. apply Hc; [by apply wf_drivers|done].
  - apply wlp_bind. unfold wlp at 1. rewrite put_dev_run. apply wlp_ret.
    apply (count_open_wf s p d (set_open_flag (Z.land oflag RT_DEVICE_OFLAG_MASK) d)); try done. by right.
Qed.

Lemma dev_ok_flag d v : dev_ok d -> dev_ok (set_flag v d).
Proof. done. Qed.

Lemma find_loop_spec l devs name p :
  find_loop l devs name = Ok p ->
  p = 0 /\ (forall q d, q ∈ l -> devs !! q = Some d -> same_name (dev_name d) name = false) \/
  p ∈ l /\ exists d, devs !! p = Some d /\ same_name (dev_name d) name = true.
Proof.
  induction l as [|q l IH]; cbn [find_loop]; [intros [= <-]; left; split; [done|]; set_solver|].
  destruct (devs !! q) as [d|] eqn:Eq; [|done]. cbn [of_option]. rewrite ok_bind.
  destruct (same_name (dev_name d) name) eqn:E.
  - intros [= <-]. right. split; [set_solver|by exists d].
  - intros H. destruct (IH H) as [[-> Hn]|[Hp Hd]].
    + left. split; [done|]. intros r e [->|Hr]%elem_of_cons He; [congruence|by eapply Hn].
    + right. split; [set_solver|done].
Qed.

Lemma find_run name s : rt_device_find name s = match find_loop (object_list s) (devices s) name with
  | Ok p => Ok (p, s) | Err f => Err f end.
Proof. reflexivity. Qed.

Lemma register_wf p name flags s : devs_wf s -> wlp (rt_device_register p name flags) (fun _ s' => devs_wf s') s.
Proof.
  intros Hs. unfold rt_device_register. destruct (Z.eqb_spec p 0) as [|Hp]; [by apply wlp_ret|].
  apply wlp_bind. unfold wlp at 1. rewrite find_run. destruct (find_loop _ _ _) as [q|] eqn:Ef; [|done].
  destruct (Z.eqb_spec q 0) as [->|]; [|by apply wlp_ret]. cbn [negb].
  apply wlp_bind. unfold wlp at 1, get at 1. cbv iota beta.
  case_bool_decide as Hin; [apply wlp_throw|]. apply wlp_bind, wlp_lift. intros d Hd.
  destruct (devices s !! p) as [d'|] eqn:Ep; [|done]. injection Hd as ->.
  unfold wlp, mbind, M_bind, set_object_list, modify. rewrite put_dev_run. cbn.
  apply find_loop_spec in Ef as [[_ Hfresh]|[H0 _]].
  2: { exfalso. apply (wf_list s Hs) in H0 as (e & He & _). by rewrite (wf_null s Hs) in He. }
  assert (forall q e, q ∈ object_list s -> devices s !! q = Some e -> dev_name e <> take RT_NAME_MAX name) as Hfresh'.
  { intros q e Hq He E. specialize (Hfresh q e Hq He). unfold same_name in Hfresh.
    apply bool_decide_eq_false_1 in Hfresh. apply Hfresh. rewrite E. by rewrite take_take, Nat.min_id. }
  split; cbn [devices object_list].
  - rewrite lookup_insert_ne by done. apply (wf_null s Hs).
  - intros q e. destruct (decide (q = p)) as [->|Hq].
    + rewrite lookup_insert_eq. intros [= <-] _. split; [cbn; lia|]. split; [done|]. cbn. by rewrite take_take, Nat.min_id.
    + rewrite lookup_insert_ne by done. apply (wf_dev s Hs).
  - intros q. rewrite elem_of_cons. destruct (decide (q = p)) as [->|Hq].
    + rewrite lookup_insert_eq. naive_solver.
    + rewrite lookup_insert_ne by done. rewrite (wf_list s Hs). naive_solver.
  - constructor; [done|apply (wf_nodup s Hs)].
  - intros q r e f [->|Hq]%elem_of_cons [->|Hr]%elem_of_cons; [done|..].
    + rewrite lookup_insert_eq. intros [= <-]. rewrite lookup_insert_ne by congruence. intros Hf E. cbn in E.
      by destruct (Hfresh' r f Hr Hf).
    + rewrite lookup_insert_eq. rewrite lookup_insert_ne by congruence. intros He [= <-] E. cbn in E.
      by destruct (Hfresh' q e Hq He).
    + rewrite !lookup_insert_ne by congruence. by apply (wf_names s Hs).
Qed.

Lemma unregister_wf p s : devs_wf s -> wlp (rt_device_unregister p) (fun _ s' => devs_wf s') s.
Proof.
  intros Hs. unfold rt_device_unregister. apply wlp_bind, wlp_get_dev. intros d Hp Hd.
  unfold wlp, mbind, M_bind, get, set_object_list, modify. rewrite put_dev_run. cbn.
  assert (p <> 0) as Hp0 by (intros ->; by rewrite (wf_null s Hs) in Hp). split; cbn [devices object_list].
  - rewrite lookup_insert_ne by done. apply (wf_null s Hs).
  - intros q e. destruct (decide (q = p)) as [->|Hq].
    + rewrite lookup_insert_eq. by intros [= <-].
    + rewrite lookup_insert_ne by done. apply (wf_dev s Hs).
  - intros q. rewrite list_elem_of_filter, (wf_list s Hs). destruct (decide (q = p)) as [->|Hq].
    + rewrite lookup_insert_eq. split; [by intros [? _]|]. by intros (e & [= <-] & ?).
    + rewrite lookup_insert_ne by done. naive_solver.
  - apply NoDup_filter, (wf_nodup s Hs).
  - intros q r e f [Hq Hql]%list_elem_of_filter [Hr Hrl]%list_elem_of_filter. rewrite !lookup_insert_ne by done.
    by apply (wf_names s Hs).
Qed.

Lemma init_wf p s : devs_wf s -> wlp (rt_device_init p) (fun _ s' => devs_wf s') s.
Proof.
  intros Hs. unfold rt_device_init. apply wlp_bind, wlp_load_dev. intros d Hp.
  destruct (op_init (dev_ops d)) as [init|]; [|by apply wlp_ret]. destruct (activated d); [by apply wlp_ret|].
  apply wlp_bind, wlp_driver. intros r x. pose proof (wf_drivers s x Hs) as Hs'.
  destruct (negb (r =? RT_EOK)); [by apply wlp_ret|]. apply wlp_bind. unfold wlp at 1. rewrite put_dev_run.
  apply wlp_ret. apply (wf_put_same _ p d); try done. intros Hd. apply dev_ok_flag, (wf_dev s Hs p d Hp Hd).
Qed.

Lemma open_wf p oflag s : devs_wf s -> wlp (rt_device_open p oflag) (fun _ s' => devs_wf s') s.
Proof.
  intros Hs. unfold rt_device_open. apply wlp_bind, wlp_get_dev. intros d Hp Hd.
  destruct (activated d); [by apply open_active_wf|]. apply wlp_bind.
  assert (forall s' r, devs_wf s' -> devices s' = devices s ->
    wlp (if negb (r =? RT_EOK) then mret r else
      put_dev p (set_flag (Z.lor (flag d) RT_DEVICE_FLAG_ACTIVATED) d) ;;; open_active p oflag)
      (fun _ s' => devs_wf s') s') as Hk.
  { intros s' r Hs' E. rewrite <- E in Hp. destruct (negb (r =? RT_EOK)); [by apply wlp_ret|].
    apply wlp_bind. unfold wlp at 1. rewrite put_dev_run. apply open_active_wf, (wf_put s' p d); try done.
    apply dev_ok_flag, (wf_dev s' Hs' p d Hp Hd). }
  destruct (op_init (dev_ops d)) as [init|]; [|apply wlp_ret; by apply Hk].
  apply wlp_driver. intros r x. apply Hk; [by apply wf_drivers|done].
Qed.

Lemma close_wf p s : devs_wf s -> wlp (rt_device_close p) (fun _ s' => devs_wf s') s.
Proof.
  intros Hs. unfold rt_device_close. apply wlp_bind, wlp_get_dev. intros d Hp Hd.
  pose proof (wf_dev s Hs _ _ Hp Hd) as (Hc & Ho & Ht).
  destruct (Z.eqb_spec (ref_count d) 0) as [|Hr]; [by apply wlp_ret|].
  set (d1 := set_ref_count (ref_count d - 1) d).
  assert (dev_ok d1) as Hok1.
  { split; [cbn; lia|]. split; [|done]. intros _. apply Ho, Hr. }
  pose proof (wf_put s p d d1 Hs Hp Hd Hd eq_refl Hok1) as Hs1.
  apply wlp_bind. unfold wlp at 1. rewrite put_dev_run. destruct (Z.eqb_spec (ref_count d1) 0) as [E|]; [|by apply wlp_ret].
  cbn [negb]. apply wlp_bind.
  assert (forall r x, wlp (((if (r =? RT_EOK) || (r =? - RT_ENOSYS) then put_dev p (set_open_flag RT_DEVICE_OFLAG_CLOSE d1)
    else mret tt) ;;; mret r) : M dev_st Z) (fun _ s' => devs_wf s') (DevSt (<[p := d1]> (devices s)) (object_list s) x)) as Hk.
  { intros r x. apply (wf_drivers _ x) in Hs1. apply wlp_bind. destruct (_ || _); [|by apply wlp_ret].
    unfold wlp at 1. rewrite put_dev_run. apply wlp_ret. eapply (wf_put _ p d1); try done; [apply lookup_insert_eq|].
    split; [cbn; lia|]. split; [|done]. cbn [ref_count set_open_flag]. by intros ?. }
  destruct (op_close (dev_ops d1)) as [close|]; [|apply wlp_ret; by apply Hk].
  apply wlp_driver. intros r x. apply Hk.
Qed.

Lemma driver_call_wf {A} (m : M X A) s : devs_wf s -> wlp (on_driver m) (fun _ s' => devs_wf s') s.
Proof. intros Hs. apply wlp_driver. intros _ x. by apply wf_drivers. Qed.

Lemma call_wf c s : devs_wf s -> wlp (dev_do c) (fun _ s' => devs_wf s') s.
Proof.
  intros Hs. destruct c; cbn [dev_do]; apply wlp_bind; (eapply wlp_mono; [|intros a s' H; apply wlp_ret; exact H]).
  - by apply register_wf.
  - by apply unregister_wf.
  - by apply init_wf.
  - by apply open_wf.
  - by apply close_wf.
  - unfold rt_device_read. apply wlp_bind, wlp_get_dev. intros d _ _. destruct (_ =? 0); [by apply wlp_ret|].
    destruct (op_read _); [by apply driver_call_wf|by apply wlp_ret].
  - unfold rt_device_write. apply wlp_bind, wlp_get_dev. intros d _ _. destruct (_ =? 0); [by apply wlp_ret|].
    destruct (op_write _); [by apply driver_call_wf|by apply wlp_ret].
  - unfold rt_device_control. apply wlp_bind, wlp_get_dev. intros d _ _.
    destruct (op_control _); [by apply driver_call_wf|by apply wlp_ret].
Qed.

(** An open of a closed device without an [init] operation, whose driver accepts. *)
Lemma open_run s p d oflag x :
  devs_wf s -> devices s !! p = Some d -> is_device d = true -> is_open d = false -> ref_count d = 0 ->
  op_init (dev_ops d) = None ->
  match op_open (dev_ops d) with
  | Some open => open oflag (drivers s) = Ok (RT_EOK, x)
  | None => x = drivers s
  end ->
  exists d', rt_device_open p oflag s = Ok (RT_EOK, DevSt (<[p := d']> (devices s)) (object_list s) x) /\
    is_device d' = true /\ is_open d' = true /\ ref_count d' = 1 /\ dev_name d' = dev_name d /\
    dev_ops d' = dev_ops d /\ activated d' = true /\ standalone d' = standalone d.
Proof.
  intros Hs Hp Hd Ho Hr Hi Hx.
  assert (p <> 0) as Hp0 by (intros ->; by rewrite (wf_null s Hs) in Hp).
  set (d0 := if activated d then d else set_flag (Z.lor (flag d) RT_DEVICE_FLAG_ACTIVATED) d).
  assert (activated d0 = true /\ standalone d0 = standalone d /\ is_open d0 = false /\ ref_count d0 = 0 /\
    dev_ops d0 = dev_ops d /\ is_device d0 = true /\ dev_name d0 = dev_name d) as (A1 & A2 & A3 & A4 & A5 & A6 & A7).
  { unfold d0. destruct (activated d) eqn:Ea; [done|]. split_and!; try done.
    - unfold activated, set_flag, RT_DEVICE_FLAG_ACTIVATED. cbn [flag]. rewrite Z.land_lor_distr_l.
      destruct (Z.eqb_spec (Z.lor (Z.land (flag d) 16) (Z.land 16 16)) 0) as [E|]; [|done].
      by apply Z.lor_eq_0_iff in E as [_ ?].
    - unfold standalone, set_flag, RT_DEVICE_FLAG_STANDALONE, RT_DEVICE_FLAG_ACTIVATED. cbn [flag].
      rewrite Z.land_lor_distr_l. by rewrite Z.lor_0_r. }
  assert (rt_device_open p oflag s = open_active p oflag (DevSt (<[p := d0]> (devices s)) (object_list s) (drivers s))) as ->.
  { unfold rt_device_open. erewrite bind_step; [|by apply get_dev_Ok]. unfold d0. destruct (activated d).
    - rewrite insert_id by done. by destruct s.
    - rewrite Hi. erewrite bind_step; [|reflexivity]. cbn [Z.eqb negb]. change (RT_EOK =? RT_EOK) with true. cbn [negb].
      by rewrite (bind_step _ _ _ _ _ (put_dev_run _ _ _)). }
  assert (forall s' d1, devices s' = <[p := d1]> (devices s) -> is_device d1 = true -> ref_count d1 = 0 ->
    count_open p RT_EOK s' = Ok (RT_EOK,
      DevSt (<[p := set_ref_count 1 (set_open_flag (Z.lor (open_flag d1) RT_DEVICE_OFLAG_OPEN) d1)]> (devices s))
        (object_list s') (drivers s'))) as Hcount.
  { intros s' d1 E1 E2 E3. unfold count_open. change ((RT_EOK =? RT_EOK) || (RT_EOK =? - RT_ENOSYS)) with true. cbv iota.
    erewrite bind_step; [|apply get_dev_Ok; split; [done|]; rewrite E1, lookup_insert_eq; done].
    rewrite (bind_step _ _ _ _ _ (put_dev_run _ _ _)). rewrite E1, insert_insert_eq, E3. reflexivity. }
  unfold open_active. erewrite bind_step; [|apply get_dev_Ok; split; [done|]; cbn [devices]; rewrite lookup_insert_eq; done].
  rewrite A3, andb_false_r. cbn [negb orb]. rewrite A5. destruct (op_open (dev_ops d)) as [open|].
  - erewrite bind_step; [|unfold on_driver; cbn [drivers]; by rewrite Hx].
    rewrite (Hcount _ d0) by done. eexists. split; [done|]. split_and!; try done.
    apply is_open_lor.
  - subst x. erewrite bind_step; [|erewrite bind_step; [|apply put_dev_run]; reflexivity]. cbn [devices object_list drivers].
    rewrite insert_insert_eq. erewrite Hcount by done. eexists. split; [done|]. split_and!; try done.
    apply is_open_lor.
Qed.

Lemma close_run s p d x :
  devs_wf s -> devices s !! p = Some d -> is_device d = true -> ref_count d = 1 ->
  match op_close (dev_ops d) with
  | Some close => close (drivers s) = Ok (RT_EOK, x)
  | None => x = drivers s
  end ->
  rt_device_close p s = Ok (RT_EOK,
    DevSt (<[p := set_open_flag RT_DEVICE_OFLAG_CLOSE (set_ref_count 0 d)]> (devices s)) (object_list s) x).
Proof.
  intros Hs Hp Hd Hr Hx.
  assert (p <> 0) as Hp0 by (intros ->; by rewrite (wf_null s Hs) in Hp).
  unfold rt_device_close. erewrite bind_step; [|by apply get_dev_Ok]. rewrite Hr. change (1 =? 0) with false. cbv iota zeta.
  rewrite (bind_step _ _ _ _ _ (put_dev_run _ _ _)). cbn [ref_count set_ref_count dev_ops]. change (1 - 1) with 0.
  change (negb (0 =? 0)) with false. cbv iota. destruct (op_close (dev_ops d)) as [close|].
  - erewrite bind_step; [|unfold on_driver; cbn [drivers]; by rewrite Hx].
    change ((RT_EOK =? RT_EOK) || (RT_EOK =? - RT_ENOSYS)) with true. cbv iota.
    rewrite (bind_step _ _ _ _ _ (put_dev_run _ _ _)). cbn [devices object_list drivers]. by rewrite insert_insert_eq.
  - subst x. erewrite bind_step; [|reflexivity].
    change ((RT_EOK =? RT_EOK) || (RT_EOK =? - RT_ENOSYS)) with true. cbv iota.
    rewrite (bind_step _ _ _ _ _ (put_dev_run _ _ _)). cbn [devices object_list drivers]. by rewrite insert_insert_eq.
Qed.

Lemma find_registered s p d name :
  devs_wf s -> p ∈ object_list s -> devices s !! p = Some d -> same_name (dev_name d) name = true ->
  rt_device_find name s = Ok (p, s).
Proof.
  intros Hs Hp Hd Hn. rewrite find_run.
  assert (exists q, find_loop (object_list s) (devices s) name = Ok q) as [q Eq].
  { assert (forall l, (forall q, q ∈ l -> is_Some (devices s !! q)) -> exists q, find_loop l (devices s) name = Ok q) as H.
    { induction l as [|q l IH]; intros Hl; cbn [find_loop]; [by eexists|]. destruct (Hl q) as [e He]; [by left|].
      rewrite He. cbn [of_option]. rewrite ok_bind. destruct (same_name (dev_name e) name); [by eexists|].
      apply IH. intros r Hr. apply Hl. by right. }
    apply H. intros q Hq. apply (wf_list s Hs) in Hq as (e & He & _). by exists e. }
  rewrite Eq. apply find_loop_spec in Eq as [[-> Hnone]|(Hq & e & He & En)].
  - specialize (Hnone p d Hp Hd). congruence.
  - assert (q = p) as ->; [|done]. apply (wf_names s Hs q p e d Hq Hp He Hd).
    unfold same_name in *. apply bool_decide_eq_true in Hn, En.
    pose proof (wf_list s Hs q) as Hl. apply proj1 in Hl. destruct (Hl Hq) as (e' & He' & Ht).
    assert (e' = e) as -> by congruence. pose proof (wf_list s Hs p) as Hl'. apply proj1 in Hl'.
    destruct (Hl' Hp) as (d' & Hd' & Ht'). assert (d' = d) as -> by congruence.
    destruct (wf_dev s Hs q e He Ht) as (_ & _ & E1). destruct (wf_dev s Hs p d Hd Ht') as (_ & _ & E2). congruence.
Qed.

Lemma reach_wf s : dev_reach s -> devs_wf s.
Proof.
  induction 1 as [devs x H0 Hd|s c s' Hr IH E].
  - split; cbn [devices object_list]; [done| | |constructor|].
    + intros p d Hp Ht. by rewrite (Hd p d Hp) in Ht.
    + intros p. split; [set_solver|]. intros (d & Hp & Ht). by rewrite (Hd p d Hp) in Ht.
    + intros p q d e Hp. set_solver.
  - pose proof (call_wf c s IH) as H. unfold wlp in H. by rewrite E in H.
Qed.

(** ** Properties *)

(** C36. After any sequence of calls, whatever the drivers answer: the list holds exactly the
    registered devices, once each and with different stored names; the count of every one is
    inside its byte, and a device that counts a user is open. *)
Theorem device_table_ok s :
  dev_reach s ->
  NoDup (object_list s) /\
  (forall p, p ∈ object_list s <-> exists d, devices s !! p = Some d /\ is_device d = true) /\
  (forall p q d e, p ∈ object_list s -> q ∈ object_list s -> devices s !! p = Some d -> devices s !! q = Some e ->
    dev_name d = dev_name e -> p = q) /\
  (forall p d, p ∈ object_list s -> devices s !! p = Some d ->
    0 <= ref_count d < 256 /\ (ref_count d <> 0 -> is_open d = true)).
Proof.
  intros Hr. apply reach_wf in Hr as Hs. split_and!; [apply Hs..|].
  intros p d Hp Hd. apply (wf_list s Hs) in Hp as (e & He & Ht). assert (e = d) as -> by congruence.
  destruct (wf_dev s Hs p d Hd Ht) as (? & ? & _). done.
Qed.

(** A registered device is found by every name that begins like its own, and no other name
    that begins so can be registered: only eight characters of a name count. *)
Theorem register_find s p d name name' flags :
  devs_wf s -> devices s !! p = Some d -> is_device d = false -> same_name name name' = true ->
  (forall q e, q ∈ object_list s -> devices s !! q = Some e -> same_name (dev_name e) name = false) ->
  exists s', rt_device_register p name flags s = Ok (RT_EOK, s') /\ rt_device_find name' s' = Ok (p, s') /\
    forall q e, q <> 0 -> devices s' !! q = Some e -> rt_device_register q name' flags s' = Ok (- RT_ERROR, s').
Proof.
  intros Hs Hp Hd Hn Hfresh.
  assert (p <> 0) as Hp0 by (intros ->; by rewrite (wf_null s Hs) in Hp).
  assert (p ∉ object_list s) as Hni by (intros Hin; apply (wf_list s Hs) in Hin as (e & He & Ht); congruence).
  assert (find_loop (object_list s) (devices s) name = Ok 0) as Ef.
  { pose proof (wf_list s Hs) as Hl. revert Hfresh Hl. generalize (object_list s) as l. clear Hni.
    intros l Hfresh Hl. assert (forall q, q ∈ l -> exists e, devices s !! q = Some e) as Hex.
    { intros q Hq. apply Hl in Hq as (e & He & _). by exists e. } clear Hl.
    induction l as [|q l IH]; [done|]. cbn [find_loop]. destruct (Hex q) as [e He]; [by left|]. rewrite He. cbn [of_option].
    rewrite ok_bind, (Hfresh q e); [|by left|done]. apply IH.
    - intros r f Hr. apply Hfresh. by right.
    - intros r Hr. apply Hex. by right. }
  assert (rt_device_register p name flags s = Ok (RT_EOK, DevSt
    (<[p := Device true (take RT_NAME_MAX name) (wrap 16 flags) 0 0 (dev_ops d)]> (devices s)) (p :: object_list s) (drivers s))) as E.
  { unfold rt_device_register. destruct (Z.eqb_spec p 0); [done|].
    erewrite bind_step; [|rewrite find_run, Ef; reflexivity]. cbn [Z.eqb negb].
    erewrite bind_step; [|reflexivity]. rewrite bool_decide_eq_false_2 by done.
    erewrite bind_step; [|unfold lift; by rewrite Hp]. reflexivity. }
  pose proof (register_wf p name flags s Hs) as Hs'. unfold wlp in Hs'. rewrite E in Hs'.
  assert (same_name (take RT_NAME_MAX name) name' = true) as Hn'.
  { unfold same_name in *. rewrite take_take, Nat.min_id. done. }
  eexists. split; [exact E|].
  assert (forall n, same_name (take RT_NAME_MAX name) n = true -> rt_device_find n (DevSt
    (<[p := Device true (take RT_NAME_MAX name) (wrap 16 flags) 0 0 (dev_ops d)]> (devices s)) (p :: object_list s) (drivers s)) =
      Ok (p, DevSt (<[p := Device true (take RT_NAME_MAX name) (wrap 16 flags) 0 0 (dev_ops d)]> (devices s)) (p :: object_list s) (drivers s))) as Hfind.
  { intros n Hnn. eapply find_registered; [exact Hs'|by left|apply lookup_insert_eq|done]. }
  split; [by apply Hfind|]. intros q e Hq _. unfold rt_device_register. destruct (Z.eqb_spec q 0); [done|].
  rewrite (bind_step _ _ _ _ _ (Hfind name' Hn')). destruct (Z.eqb_spec p 0); [done|]. done.
Qed.

(** The 256th user of a device that may be shared is not counted: the assertion behind the
    count stops the system. *)
Theorem open_overflows s p d oflag :
  devs_wf s -> devices s !! p = Some d -> is_device d = true -> activated d = true -> standalone d = false ->
  ref_count d = 255 -> Z.land (open_flag d) RT_DEVICE_OFLAG_MASK = Z.land oflag RT_DEVICE_OFLAG_MASK ->
  rt_device_open p oflag s = Err AssertFail.
Proof.
  intros Hs Hp Hd Ha Hst Hr Hf.
  assert (p <> 0) as Hp0 by (intros ->; by rewrite (wf_null s Hs) in Hp).
  destruct (wf_dev s Hs p d Hp Hd) as (_ & Ho & _).
  unfold rt_device_open. erewrite bind_step; [|by apply get_dev_Ok]. rewrite Ha.
  unfold open_active. erewrite bind_step; [|by apply get_dev_Ok]. rewrite Hst. cbn [andb].
  rewrite Ho by lia. rewrite Hf, Z.eqb_refl. cbn [negb orb]. erewrite bind_step; [|reflexivity].
  unfold count_open. change ((RT_EOK =? RT_EOK) || (RT_EOK =? - RT_ENOSYS)) with true. cbv iota.
  erewrite bind_step; [|by apply get_dev_Ok]. rewrite (bind_step _ _ _ _ _ (put_dev_run _ _ _)).
  cbn [ref_count set_ref_count set_open_flag]. rewrite Hr. reflexivity.
Qed.
End device.
Arguments rt_device_ops : clear implicits.
Arguments rt_device : clear implicits.
Arguments dev_st : clear implicits.

(** A console that two users share, and a driver without operations. *)
Definition demo_dev : rt_device unit Z := Device false [] 0 0 0 (DevOps None None None None None None).
Definition demo_devs : dev_st unit Z :=
  DevSt (<[1 := Device true (cs "uart1") 19 11 2 (dev_ops demo_dev)]> {[2 := demo_dev]}) [1] tt.

Lemma demo_devs_reach : dev_reach demo_devs.
Proof.
  eapply (reach_call _ (COpen 1 3)); [eapply (reach_call _ (COpen 1 3)); [eapply (reach_call _ (CRegister 1 (cs "uart1") 3));
    [apply (reach_start (<[1 := demo_dev]> {[2 := demo_dev]}) tt)|]|]|].
  - done.
  - intros p d. destruct (decide (p = 1)) as [->|]; [rewrite lookup_insert_eq; by intros [= <-]|].
    rewrite lookup_insert_ne by done. destruct (decide (p = 2)) as [->|]; [rewrite lookup_singleton_eq; by intros [= <-]|].
    by rewrite lookup_singleton_ne.
  - reflexivity.
  - reflexivity.
  - reflexivity.
Qed.

Lemma device_table_ok_witness :
  NoDup (object_list demo_devs) /\
  (forall p, p ∈ object_list demo_devs <-> exists d, devices demo_devs !! p = Some d /\ is_device d = true) /\
  (forall p q d e, p ∈ object_list demo_devs -> q ∈ object_list demo_devs -> devices demo_devs !! p = Some d ->
    devices demo_devs !! q = Some e -> dev_name d = dev_name e -> p = q) /\
  (forall p d, p ∈ object_list demo_devs -> devices demo_devs !! p = Some d ->
    0 <= ref_count d < 256 /\ (ref_count d <> 0 -> is_open d = true)).
Proof. apply device_table_ok, demo_devs_reach. Defined.
