(* ===== verification/Gzp.v ===== *)
(** The pressure sensor driver: [components/gzp6816d_driver/gzp6816d_driver.c].

    The I2C bus is an argument: what the transfers of one measurement return.  A heap block
    is the list of its bytes, at the size that was asked for. *)

From S2P Require Import Prelude Float.
#[local] Open Scope Z_scope.

(** ** Data *)

Definition GZP6816D_ADDR : Z := 120.
Definition PMAX : Z := 110.
Definition PMIN : Z := 30.
Definition DMAX : Z := 15099494.
Definition DMIN : Z := 1677722.
Definition OFFSET_PRESSURE : Z := 20.
Definition MAX_16BITS_UNSIGNED : Z := 65536.
Definition TEMP_MIN : Z := -40.
Definition TEMP_MAX : Z := 150.
Definition GZP6816D_PRESSURE_VALUE_MASK : Z := 16777215.

(** [gzp6816d_data_t]; the unions are their bytes, [value] is the little-endian number. *)
Record gzp6816d_data_t := GzpData {
  raw_pressure : bytes;
  gz_pressure : float;
  raw_temperature : bytes;
  gz_temperature : float;
}.
Definition sizeof_gzp6816d_data : Z := 14.

Fixpoint value (data : bytes) : Z :=
  match data with
  | [] => 0
  | b :: data => b + 256 * value data
  end.

(** What the bus does during one measurement. *)
Record i2c := I2c {
  transfer_ret : Z;            (* rt_i2c_transfer: messages transferred *)
  bus_found : bool;            (* rt_i2c_bus_device_find("i2c1") *)
  recv_ret : Z;                (* rt_i2c_master_recv: bytes received *)
  recv_data : bytes;           (* and what it stored *)
}.

(** ** Operations *)

(** The macro [CALC_PRESSURE(Dtest)], over the value of its text [Dtest - DMIN]. *)
Definition CALC_PRESSURE (Dtest_minus_DMIN : Z) : float :=
  f64_add (f64_mul (f64_div (f64_of_Z (PMAX - PMIN)) (f64_of_Z (DMAX - DMIN)))
             (f64_of_Z Dtest_minus_DMIN))
    (f64_of_Z OFFSET_PRESSURE).

Definition CALC_TEMPERATURE (hex_value : Z) : float :=
  f64_add
    (f64_div
       (f64_mul (f64_of_Z (TEMP_MAX - TEMP_MIN))
          (f64_mul (f64_div (f64_of_Z hex_value) (f64_of_Z MAX_16BITS_UNSIGNED)) (f64_of_Z 100)))
       (f64_of_Z 100))
    (f64_of_Z TEMP_MIN).

Definition write_cmd (bus : i2c) (cmd : Z) : Z := if transfer_ret bus =? 1 then RT_EOK else - RT_ERROR.

(** The result and the buffer. *)
Definition read_bytes (bus : i2c) (buf : bytes) (len : Z) : res (Z * bytes) :=
  if negb (bus_found bus) then Ok (- RT_ERROR, buf) else
  buf ← blit buf 0 (recv_data bus);
  if recv_ret bus =? len then Ok (RT_EOK, buf) else Ok (- RT_ERROR, buf).

Fixpoint reverse_loop (fuel : nat) (byte_data : bytes) (i j : Z) : res bytes :=
  match fuel with
  | O => Err Spin
  | S fuel =>
      if i <? j then
        temp ← aget byte_data i;
        b ← aget byte_data j;
        byte_data ← aset byte_data i b;
        byte_data ← aset byte_data j temp;
        reverse_loop fuel byte_data (u32 (i + 1)) (u32 (j - 1))
      else Ok byte_data
  end.

Definition reverse_bytes (data : bytes) (length : Z) : res bytes :=
  reverse_loop (S (List.length data)) data 0 (u32 (length - 1)).

(** The argument of [CALC_PRESSURE] is [value & MASK], without parentheses in the macro:
    [value & MASK - DMIN] is [value & (MASK - DMIN)]. *)
Definition cal_rawdata (buf : bytes) : res gzp6816d_data_t :=
  p ← slice buf 0 4;
  p ← reverse_bytes p 4;
  t ← slice buf 4 2;
  t ← reverse_bytes t 2;
  let pressure := f64_mul (CALC_PRESSURE (Z.land (value p) (GZP6816D_PRESSURE_VALUE_MASK - DMIN))) (f64_of_Z 1) in
  let temperature := f64_mul (CALC_TEMPERATURE (value t)) (f64_of_Z 1) in
  Ok (GzpData p (f32_of_f64 pressure) t (f32_of_f64 temperature)).

(** The result and the buffer. *)
Definition gzp6816d_readsls (bus : i2c) (buf : bytes) : res (Z * bytes) :=
  if write_cmd bus 172 =? RT_EOK then
    r ← read_bytes bus buf 6;
    if negb (r.1 =? RT_EOK) then Ok (- RT_ERROR, r.2) else
    status ← aget r.2 0;
    if negb (Z.land status 32 =? 0) then Ok (- RT_EBUSY, r.2) else
    Ok (RT_EOK, r.2)
  else Ok (RT_EOK, buf).

(** The result and what is copied to the caller's buffer, if anything. *)
Definition gzp6816d_fetch_data (bus : i2c) (len : Z) : res (Z * option gzp6816d_data_t) :=
  if len <? sizeof_gzp6816d_data then Ok (- RT_ERROR, None) else
  r ← gzp6816d_readsls bus (replicate 6 0);
  if r.1 =? RT_EOK then
    data ← cal_rawdata r.2;
    Ok (sizeof_gzp6816d_data, Some data)
  else Ok (r.1, None).

Definition gzp6816d_control : Z := RT_EOK.

(** *** Initialisation *)

(** Sizes and offsets on the 32-bit target: the struct has two pointers around the
    address, [gzp6816d_device_t] is a pointer to it. *)
Definition sizeof_device : Z := 12.
Definition sizeof_device_t : Z := 4.
Definition i2cname_off : Z := 0.
Definition addr_off : Z := 4.
Definition i2cdev_off : Z := 8.

(** The little-endian bytes of a pointer. *)
Definition ptr_bytes (p : Z) : bytes :=
  [p mod 256; p / 256 mod 256; p / 65536 mod 256; p / 16777216 mod 256].

(** What the calls of [gzp6816d_init] return. *)
Record init_env := InitEnv {
  calloc_device : bool;        (* rt_calloc of the device *)
  strdup_ptr : Z;              (* rt_strdup: a pointer, 0 for NULL *)
  bus_ptr : Z;                 (* rt_i2c_bus_device_find *)
  calloc_sensor : bool;
  register_ret : Z;            (* rt_hw_sensor_register *)
}.

(** The result, and the blocks still allocated: device, name, sensor. *)
Definition gzp6816d_init (e : init_env) (addr : Z) : res (Z * (bool * bool * bool)) :=
  if negb (calloc_device e) then Ok (- RT_ENOMEM, (false, false, false)) else
  let device := replicate (Z.to_nat sizeof_device_t) 0 in
  device ← aset device addr_off addr;
  device ← blit device i2cname_off (ptr_bytes (strdup_ptr e));
  device ← blit device i2cdev_off (ptr_bytes (bus_ptr e));
  if bus_ptr e =? 0 then Ok (- RT_ERROR, (false, false, false)) else
  if negb (calloc_sensor e) then Ok (- RT_ERROR, (false, false, false)) else
  if negb (register_ret e =? RT_EOK) then Ok (- RT_ERROR, (false, false, false)) else
  Ok (RT_EOK, (true, negb (strdup_ptr e =? 0), true)).

(** ** Reversing bytes *)

Lemma aget_mid (pre : bytes) x post i : i = Zlen pre -> aget (pre ++ x :: post) i = Ok x.
Proof.
  intros ->. apply aget_Ok. split; [apply Zlen_nonneg|]. apply list_lookup_middle. unfold Zlen. lia.
Qed.

Lemma aset_mid (pre : bytes) x y post i : i = Zlen pre -> aset (pre ++ x :: post) i y = Ok (pre ++ y :: post).
Proof.
  intros ->. unfold aset. rewrite decide_True.
  - f_equal. rewrite insert_app_r_alt by (unfold Zlen; lia).
    replace (Z.to_nat (Zlen pre) - length pre)%nat with 0%nat by (unfold Zlen; lia). done.
  - rewrite Zlen_app. unfold Zlen. simpl. lia.
Qed.

Lemma reverse_loop_spec fuel (pre mid post : bytes) i j :
  (length mid < fuel)%nat -> Zlen (pre ++ mid ++ post) < 2 ^ 32 -> mid <> [] \/ pre <> [] ->
  i = Zlen pre -> j = Zlen pre + Zlen mid - 1 ->
  reverse_loop fuel (pre ++ mid ++ post) i j = Ok (pre ++ rev mid ++ post).
Proof.
  revert pre mid post i j. induction fuel as [|fuel IH]; intros pre mid post i j Hf Hl Hne Hi Hj; [lia|].
  cbn [reverse_loop]. destruct (Z.ltb_spec i j) as [Hij|Hij].
  - destruct mid as [|x mid]; [unfold Zlen in *; simpl in *; lia|].
    destruct mid as [|y mid _] using rev_ind; [unfold Zlen in *; simpl in *; lia|].
    assert (Zlen (x :: mid ++ [y]) = Zlen mid + 2) as E by (unfold Zlen; simpl; rewrite length_app; simpl; lia).
    rewrite Zlen_app, Zlen_app, E in Hl.
    pose proof (Zlen_nonneg pre). pose proof (Zlen_nonneg mid). pose proof (Zlen_nonneg post).
    cbn [app]. rewrite <- app_assoc. cbn [app].
    assert (pre ++ x :: mid ++ y :: post = (pre ++ x :: mid) ++ y :: post) as E1 by (by rewrite <- app_assoc).
    assert (j = Zlen (pre ++ x :: mid)) as Ej by (rewrite Zlen_app; unfold Zlen in *; simpl in *; lia).
    rewrite (aget_mid pre x _ i Hi), ok_bind, E1, (aget_mid (pre ++ x :: mid) y post j Ej), ok_bind.
    rewrite <- app_assoc. cbn [app]. rewrite (aset_mid pre x y _ i Hi), ok_bind.
    assert (pre ++ y :: mid ++ y :: post = (pre ++ y :: mid) ++ y :: post) as -> by (by rewrite <- app_assoc).
    rewrite aset_mid by (rewrite Zlen_app in *; unfold Zlen in *; simpl in *; lia). rewrite ok_bind.
    rewrite (wrap_small 32 (i + 1)), (wrap_small 32 (j - 1)) by lia.
    assert ((pre ++ y :: mid) ++ x :: post = (pre ++ [y]) ++ mid ++ (x :: post)) as ->
      by (rewrite <- !app_assoc; done).
    assert (length (x :: mid ++ [y]) = S (S (length mid))) as El by (simpl; rewrite length_app; simpl; lia).
    rewrite IH.
    + f_equal. cbn [rev]. rewrite rev_app_distr. rewrite <- !app_assoc. cbn. done.
    + lia.
    + rewrite !Zlen_app. unfold Zlen in *. simpl in *. lia.
    + right. by destruct pre.
    + rewrite Zlen_app. unfold Zlen in *. simpl. lia.
    + rewrite Zlen_app. unfold Zlen in *. simpl. lia.
  - destruct mid as [|x mid]; [done|]. destruct mid as [|y mid]; [done|].
    exfalso. unfold Zlen in *. simpl in *. lia.
Qed.

Lemma reverse_bytes_rev l n : l <> [] -> n = Zlen l -> n < 2 ^ 32 -> reverse_bytes l n = Ok (rev l).
Proof.
  intros Hne -> Hl. unfold reverse_bytes.
  assert (0 < Zlen l) by (unfold Zlen; destruct l; simpl; [done|lia]).
  rewrite (wrap_small 32) by lia.
  pose proof (reverse_loop_spec (S (length l)) [] l [] 0 (Zlen l - 1)) as H'. cbn [app] in H'.
  rewrite !app_nil_r in H'. apply H'; [lia|done|by left|done|done].
Qed.

(** ** Properties *)

(** The pressure of a raw value and the temperature of another, as stored. *)
Definition pressure_of (v : Z) : float :=
  f32_of_f64 (f64_mul (CALC_PRESSURE (Z.land v (GZP6816D_PRESSURE_VALUE_MASK - DMIN))) (f64_of_Z 1)).
Definition temperature_of (v : Z) : float := f32_of_f64 (f64_mul (CALC_TEMPERATURE v) (f64_of_Z 1)).

Lemma cal_rawdata_run b0 b1 b2 b3 b4 b5 :
  cal_rawdata [b0; b1; b2; b3; b4; b5] =
    Ok (GzpData [b3; b2; b1; b0] (pressure_of (value [b3; b2; b1; b0])) [b5; b4] (temperature_of (value [b5; b4]))).
Proof.
  unfold cal_rawdata.
  assert (slice [b0; b1; b2; b3; b4; b5] 0 4 = Ok [b0; b1; b2; b3]) as -> by reflexivity.
  assert (slice [b0; b1; b2; b3; b4; b5] 4 2 = Ok [b4; b5]) as -> by reflexivity.
  rewrite ok_bind, (reverse_bytes_rev [b0; b1; b2; b3] 4) by done. rewrite !ok_bind.
  rewrite (reverse_bytes_rev [b4; b5] 2) by done. reflexivity.
Qed.

(** A measurement on every branch of the bus: six bytes with the busy bit clear are turned
    into the big-endian raw values and their pressure and temperature; a busy sensor gives
    [-RT_EBUSY], a missing bus or a short read [-RT_ERROR], and so does a buffer too small for
    the result. *)
Theorem measurement_result bus b0 b1 b2 b3 b4 b5 len :
  transfer_ret bus = 1 -> recv_data bus = [b0; b1; b2; b3; b4; b5] ->
  gzp6816d_fetch_data bus len =
    Ok (if len <? sizeof_gzp6816d_data then (- RT_ERROR, None)
        else if negb (bus_found bus && (recv_ret bus =? 6)) then (- RT_ERROR, None)
        else if negb (Z.land b0 32 =? 0) then (- RT_EBUSY, None)
        else (sizeof_gzp6816d_data,
              Some (GzpData [b3; b2; b1; b0] (pressure_of (b3 + 256 * (b2 + 256 * (b1 + 256 * b0))))
                      [b5; b4] (temperature_of (b5 + 256 * b4))))).
Proof.
  intros Ht Hd. unfold gzp6816d_fetch_data. destruct (len <? sizeof_gzp6816d_data); [done|].
  unfold gzp6816d_readsls, write_cmd, read_bytes. rewrite Ht. cbn [Z.eqb Pos.eqb].
  change (RT_EOK =? RT_EOK) with true. cbv iota.
  destruct (bus_found bus); cbn [negb andb]; [|reflexivity].
  rewrite Hd. change (blit (replicate 6 0) 0 [b0; b1; b2; b3; b4; b5]) with (Ok [b0; b1; b2; b3; b4; b5]).
  rewrite !ok_bind. destruct (recv_ret bus =? 6); [|reflexivity]. rewrite !ok_bind.
  cbn [fst snd]. change (RT_EOK =? RT_EOK) with true. cbn [negb].
  change (aget [b0; b1; b2; b3; b4; b5] 0) with (Ok b0). rewrite ok_bind.
  destruct (Z.land b0 32 =? 0); [|reflexivity]. cbn [negb]. rewrite ok_bind. cbn [fst snd].
  change (RT_EOK =? RT_EOK) with true. cbv iota. rewrite cal_rawdata_run, ok_bind.
  cbn [value]. rewrite !Z.mul_0_r, !Z.add_0_r. reflexivity.
Qed.

Lemma measurement_result_witness :
  gzp6816d_fetch_data (I2c 1 true 6 [4; 155; 176; 197; 86; 170]) 14 =
    Ok (14, Some (GzpData [197; 176; 155; 4] (pressure_of 77312197) [170; 86] (temperature_of 22186))).
Proof.
  rewrite (measurement_result (I2c 1 true 6 [4; 155; 176; 197; 86; 170]) 4 155 176 197 86 170 14) by reflexivity.
  change (197 + 256 * (176 + 256 * (155 + 256 * 4))) with 77312197. change (170 + 256 * 86) with 22186.
  reflexivity.
Defined.

(** The bits of [DMIN] in the raw value have no effect on the pressure: the subtraction of
    the formula went into the mask.  Two samples that differ in those bits only, up to an
    eighth of the range apart, give the same pressure. *)
Theorem pressure_loses_bits b0 b1 b2 b3 c0 c1 c2 c3 t4 t5 :
  Z.land (value [b3; b2; b1; b0]) (Z.lnot DMIN) = Z.land (value [c3; c2; c1; c0]) (Z.lnot DMIN) ->
  exists d e,
    cal_rawdata [b0; b1; b2; b3; t4; t5] = Ok d /\ cal_rawdata [c0; c1; c2; c3; t4; t5] = Ok e /\
    gz_pressure d = gz_pressure e /\ gz_temperature d = gz_temperature e.
Proof.
  intros H. rewrite !cal_rawdata_run. do 2 eexists. split_and!; [done|done| |done]. cbn [gz_pressure].
  unfold pressure_of. f_equal. f_equal. f_equal.
  change (GZP6816D_PRESSURE_VALUE_MASK - DMIN) with (Z.land (Z.lnot DMIN) GZP6816D_PRESSURE_VALUE_MASK).
  by rewrite !Z.land_assoc, H.
Qed.

(** The lowest calibrated value, 0x19999A, and the raw value 0. *)
Lemma pressure_loses_bits_witness :
  exists d e,
    cal_rawdata [4; 25; 153; 154; 86; 170] = Ok d /\ cal_rawdata [4; 0; 0; 0; 86; 170] = Ok e /\
    gz_pressure d = gz_pressure e /\ gz_temperature d = gz_temperature e.
Proof. apply (pressure_loses_bits 4 25 153 154 4 0 0 0). reflexivity. Defined.

(** A command the sensor does not answer is not an error: the measurement succeeds with the
    values of six zero bytes, 20 kPa and -40 degrees. *)
Theorem failed_command_measures bus len :
  transfer_ret bus <> 1 -> sizeof_gzp6816d_data <= len ->
  gzp6816d_fetch_data bus len =
    Ok (sizeof_gzp6816d_data, Some (GzpData [0; 0; 0; 0] (f32_of_Z 20) [0; 0] (f32_of_Z (-40)))).
Proof.
  intros Ht Hl. unfold gzp6816d_fetch_data. destruct (Z.ltb_spec len sizeof_gzp6816d_data); [lia|].
  unfold gzp6816d_readsls, write_cmd. destruct (Z.eqb_spec (transfer_ret bus) 1); [done|].
  change (- RT_ERROR =? RT_EOK) with false. cbv iota. rewrite ok_bind. cbn [fst snd replicate].
  change (RT_EOK =? RT_EOK) with true. cbv iota. rewrite cal_rawdata_run. reflexivity.
Qed.

Lemma failed_command_measures_witness :
  gzp6816d_fetch_data (I2c (-1) true 0 []) 14 =
    Ok (14, Some (GzpData [0; 0; 0; 0] (f32_of_Z 20) [0; 0] (f32_of_Z (-40)))).
Proof. apply failed_command_measures; [discriminate|apply Z.leb_le; reflexivity]. Defined.

(** The initialisation writes outside the block it allocates, whatever the bus and the
    sensor framework answer: the block has the size of a pointer, not of the struct. *)
Theorem init_overflows e addr :
  calloc_device e = true -> gzp6816d_init e addr = Err OutOfBounds.
Proof. intros H. unfold gzp6816d_init. by rewrite H. Qed.

Lemma init_overflows_witness :
  gzp6816d_init (InitEnv true 4096 8192 true 0) GZP6816D_ADDR = Err OutOfBounds.
Proof. apply init_overflows. reflexivity. Defined.
