(* ===== verification/Sensors.v ===== *)
(** The sensors: the framework [rt-thread/components/drivers/sensor/v1/sensor.c] over [Device],
    and its users [applications/ele_ds/ele_ds.c] and [applications/main.c].

    The build has the pressure sensor of [Gzp] and a temperature sensor whose package is not
    part of the repository: what its call answers is an argument.  No sensor belongs to a
    module.  The hardware of one pass of the main loop is a [pass_env]. *)

From stdpp Require Import gmap.
From S2P Require Import Prelude Float Gzp Device.
#[local] Open Scope Z_scope.

(** ** The framework *)

Definition RT_PIN_NONE : Z := 65535.
Definition RT_DEVICE_FLAG_RDONLY : Z := 1.
Definition RT_DEVICE_FLAG_INT_RX : Z := 256.
Definition RT_DEVICE_FLAG_FIFO_RX : Z := 512.
Definition RT_SENSOR_POWER_DOWN : Z := 1.
Definition RT_SENSOR_POWER_NORMAL : Z := 2.
Definition RT_SENSOR_MODE_POLLING : Z := 1.
Definition RT_SENSOR_MODE_INT : Z := 2.
Definition RT_SENSOR_MODE_FIFO : Z := 3.
Definition RT_SENSOR_CTRL_GET_ID : Z := (20 + 1) * 256.
Definition RT_SENSOR_CTRL_GET_INFO : Z := (20 + 1) * 256 + 1.
Definition RT_SENSOR_CTRL_SET_RANGE : Z := (20 + 1) * 256 + 2.
Definition RT_SENSOR_CTRL_SET_ODR : Z := (20 + 1) * 256 + 3.
Definition RT_SENSOR_CTRL_SET_MODE : Z := (20 + 1) * 256 + 4.
Definition RT_SENSOR_CTRL_SET_POWER : Z := (20 + 1) * 256 + 5.
Definition RT_SENSOR_CTRL_SELF_TEST : Z := (20 + 1) * 256 + 6.
Definition RT_SENSOR_CTRL_USER_CMD_START : Z := 256.

Section sensor.
Context {B D : Type}.

(** A sensor: what [sensor.c] keeps, and the driver's part [hw].  [data_fifo] is the buffer
    with its [data_len]; [irq_on] is the interrupt of its pin. *)
Record rt_sensor := Sensor {
  sen_mode : Z;
  sen_power : Z;
  sen_odr : Z;
  sen_range : Z;
  irq_pin : Z;
  irq_on : bool;
  data_fifo : list D;
  hw : B;
}.

Record rt_sensor_ops := SensorOps {
  fetch_data : option (Z -> M B (Z * list D));
  sen_control : option (Z -> Z -> M B Z);
}.

Definition on_hw {A} (m : M B A) : M rt_sensor A := fun s =>
  match m (hw s) with
  | Ok (a, h) => Ok (a, Sensor (sen_mode s) (sen_power s) (sen_odr s) (sen_range s) (irq_pin s) (irq_on s) (data_fifo s) h)
  | Err f => Err f
  end.
Definition set_sen_mode (v : Z) : M rt_sensor unit :=
  modify (fun s => Sensor v (sen_power s) (sen_odr s) (sen_range s) (irq_pin s) (irq_on s) (data_fifo s) (hw s)).
Definition set_sen_power (v : Z) : M rt_sensor unit :=
  modify (fun s => Sensor (sen_mode s) v (sen_odr s) (sen_range s) (irq_pin s) (irq_on s) (data_fifo s) (hw s)).
Definition set_sen_odr (v : Z) : M rt_sensor unit :=
  modify (fun s => Sensor (sen_mode s) (sen_power s) v (sen_range s) (irq_pin s) (irq_on s) (data_fifo s) (hw s)).
Definition set_sen_range (v : Z) : M rt_sensor unit :=
  modify (fun s => Sensor (sen_mode s) (sen_power s) (sen_odr s) v (irq_pin s) (irq_on s) (data_fifo s) (hw s)).
Definition set_irq (v : bool) : M rt_sensor unit :=
  modify (fun s => Sensor (sen_mode s) (sen_power s) (sen_odr s) (sen_range s) (irq_pin s) v (data_fifo s) (hw s)).
Definition set_fifo (v : list D) : M rt_sensor unit :=
  modify (fun s => Sensor (sen_mode s) (sen_power s) (sen_odr s) (sen_range s) (irq_pin s) (irq_on s) v (hw s)).

Section ops.
Context (ops : rt_sensor_ops).

(** [local_ctrl]: the driver's function, or [local_control]. *)
Definition local_ctrl (cmd arg : Z) : M rt_sensor Z :=
  match sen_control ops with
  | Some control => on_hw (control cmd arg)
  | None => mret (- RT_ERROR)
  end.

Definition rt_sensor_irq_init : M rt_sensor Z :=
  s ← get;
  if irq_pin s =? RT_PIN_NONE then mret (- RT_EINVAL) else
  set_irq true ;;; mret 0.

Definition has_flag (oflag dev_flag f : Z) : bool := negb (Z.land oflag f =? 0) && negb (Z.land dev_flag f =? 0).

(** The mode of the open: in a mode of interrupts only if the driver accepts it. *)
Definition open_mode (mode : Z) : M rt_sensor unit :=
  r ← local_ctrl RT_SENSOR_CTRL_SET_MODE mode;
  if r =? RT_EOK then _ ← rt_sensor_irq_init; set_sen_mode mode else mret tt.

Definition rt_sensor_open (dev_flag oflag : Z) : M rt_sensor Z :=
  set_sen_mode RT_SENSOR_MODE_POLLING ;;;
  res ←
    (if has_flag oflag dev_flag RT_DEVICE_FLAG_RDONLY then
       _ ← local_ctrl RT_SENSOR_CTRL_SET_MODE RT_SENSOR_MODE_POLLING; mret RT_EOK
     else if has_flag oflag dev_flag RT_DEVICE_FLAG_INT_RX then open_mode RT_SENSOR_MODE_INT ;;; mret RT_EOK
     else if has_flag oflag dev_flag RT_DEVICE_FLAG_FIFO_RX then open_mode RT_SENSOR_MODE_FIFO ;;; mret RT_EOK
     else mret (- RT_EINVAL));
  if negb (res =? RT_EOK) then mret res else
  r ← local_ctrl RT_SENSOR_CTRL_SET_POWER RT_SENSOR_POWER_NORMAL;
  (if r =? RT_EOK then set_sen_power RT_SENSOR_POWER_NORMAL else mret tt) ;;;
  mret RT_EOK.

Definition rt_sensor_close : M rt_sensor Z :=
  r ← local_ctrl RT_SENSOR_CTRL_SET_POWER RT_SENSOR_POWER_DOWN;
  (if r =? RT_EOK then set_sen_power RT_SENSOR_POWER_DOWN else mret tt) ;;;
  s ← get;
  (if negb (sen_mode s =? RT_SENSOR_MODE_POLLING) && negb (irq_pin s =? RT_PIN_NONE) then set_irq false else mret tt) ;;;
  mret RT_EOK.

(** What the buffer holds comes first; a driver's negative result passes through an unsigned
    variable. *)
Definition rt_sensor_read (pos len : Z) : M rt_sensor (Z * list D) :=
  if len =? 0 then mret (0, []) else
  s ← get;
  match data_fifo s with
  | [] =>
      match fetch_data ops with
      | Some fetch => r ← on_hw (fetch len); mret (i32 (u32 r.1), r.2)
      | None => mret (0, [])
      end
  | fifo =>
      let n := Z.min len (Zlen fifo) in
      set_fifo [] ;;; mret (n, take (Z.to_nat n) fifo)
  end.

Definition rt_sensor_control (cmd args : Z) : M rt_sensor Z :=
  if cmd =? RT_SENSOR_CTRL_GET_ID then (if args =? 0 then mret RT_EOK else local_ctrl cmd args) else
  if cmd =? RT_SENSOR_CTRL_GET_INFO then mret RT_EOK else
  if cmd =? RT_SENSOR_CTRL_SET_RANGE then
    result ← local_ctrl cmd args;
    (if result =? RT_EOK then set_sen_range (i32 args) else mret tt) ;;; mret result
  else if cmd =? RT_SENSOR_CTRL_SET_ODR then
    result ← local_ctrl cmd args;
    (if result =? RT_EOK then set_sen_odr (Z.land (u32 args) 65535) else mret tt) ;;; mret result
  else if cmd =? RT_SENSOR_CTRL_SET_POWER then
    result ← local_ctrl cmd args;
    (if result =? RT_EOK then set_sen_power (Z.land (u32 args) 255) else mret tt) ;;; mret result
  else if cmd =? RT_SENSOR_CTRL_SELF_TEST then local_ctrl cmd args
  else if RT_SENSOR_CTRL_USER_CMD_START <? cmd then local_ctrl cmd args
  else mret (- RT_ERROR).

(** The operations of a sensor's device. *)
Definition rt_sensor_dev_ops (dev_flag : Z) : rt_device_ops rt_sensor D :=
  DevOps None (Some (rt_sensor_open dev_flag)) (Some rt_sensor_close) (Some rt_sensor_read) None (Some rt_sensor_control).
End ops.

Definition sensor_name_str : list bytes :=
  [cs "none"; cs "acce_"; cs "gyro_"; cs "mag_"; cs "temp_"; cs "humi_"; cs "baro_"; cs "li_"; cs "pr_"; cs "hr_";
   cs "tvoc_"; cs "noi_"; cs "step_"; cs "forc_"; cs "dust_"; cs "eco2_"; cs "gnss_"; cs "tof_"; cs "spo2_";
   cs "iaq_"; cs "etoh_"; cs "bp_"].

(** The result of the registration is kept in eight bits.  [calloc_ok]: the name's buffer
    could be allocated; [ops]: the driver's, [None] for the null pointer. *)
Definition rt_hw_sensor_register (calloc_ok : bool) (sensor : Z) (ops : option rt_sensor_ops) (class : Z) (name : bytes)
    (flag : Z) : M (dev_st rt_sensor D) Z :=
  if sensor =? 0 then throw AssertFail else
  prefix ← lift (aget sensor_name_str class);
  if negb calloc_ok then mret (- RT_ERROR) else
  let flags := Z.lor flag RT_DEVICE_FLAG_STANDALONE in
  let ops := match ops with
             | Some o => o
             | None => SensorOps (Some (fun _ => mret (0, []))) (Some (fun _ _ => mret (- RT_ERROR)))
             end in
  s ← get;
  d ← lift (of_option OutOfBounds (devices s !! sensor));
  put_dev sensor (Device (is_device d) (dev_name d) (Device.flag d) (open_flag d) (ref_count d) (rt_sensor_dev_ops ops flags)) ;;;
  result ← rt_device_register sensor (prefix ++ name) flags;
  mret (if i8 result =? RT_EOK then RT_EOK else i8 result).
End sensor.
Arguments rt_sensor : clear implicits.
Arguments rt_sensor_ops : clear implicits.

(** ** The sensors of the board *)

(** [sensor_ops] of the pressure sensor; the driver's part of its state is the bus. *)
Definition gzp_sensor_ops : rt_sensor_ops i2c gzp6816d_data_t :=
  SensorOps
    (Some (fun len => b ← get; r ← lift (gzp6816d_fetch_data b len);
                      mret (r.1, match r.2 with Some d => [d] | None => [] end)))
    (Some (fun _ _ => mret gzp6816d_control)).
Definition RT_SENSOR_CLASS_BARO : Z := 6.

Definition gzp_flags : Z := Z.lor RT_DEVICE_FLAG_RDWR RT_DEVICE_FLAG_STANDALONE.
Definition board_st : Type := dev_st (rt_sensor i2c gzp6816d_data_t) gzp6816d_data_t.

(** The result and what was stored through [para]. *)
Definition get_gzp6816d_data : M board_st (Z * option gzp6816d_data_t) :=
  dev ← rt_device_find (cs "baro_gzp6816d");
  if dev =? 0 then mret (- RT_ERROR, None) else
  r ← rt_device_open dev RT_DEVICE_FLAG_RDWR;
  if negb (r =? RT_EOK) then mret (- RT_ERROR, None) else
  _ ← rt_device_control dev RT_SENSOR_CTRL_SET_ODR 100;
  r ← rt_device_read dev 0 sizeof_gzp6816d_data;
  _ ← rt_device_close dev;
  mret (if 0 <? r.1 then RT_EOK else r.1, head r.2).

(** What the hardware does in one pass: the bus, what [sht3x_read_singleshot] answers with the
    temperature and humidity it leaves, and the converter of the battery voltage. *)
Record pass_env := PassEnv {
  pe_bus : i2c;
  pe_sht3x : Z * (float * float);
  adc_found : bool;
  adc_enable_ret : Z;
  adc_value : Z;
}.

(** [sensor_data] of [struct ele_ds]. *)
Record sensor_data_t := SensorData {
  sd_sht30 : float * float;
  sd_gzp6816d : gzp6816d_data_t;
  curvbat : float;
  curvbat_percent : float;
}.

Record main_st := MainSt {
  board : board_st;
  sensor_data : sensor_data_t;
  sht3x_dev : bool;            (* the pointer is not NULL *)
  init_flag : bool;
  led0 : bool;
  loop_times : Z;              (* uint32_t *)
}.

Definition on_board {A} (m : M board_st A) : M main_st A := fun s =>
  match m (board s) with
  | Ok (a, b) => Ok (a, MainSt b (sensor_data s) (sht3x_dev s) (init_flag s) (led0 s) (loop_times s))
  | Err f => Err f
  end.
Definition set_data (g : sensor_data_t -> sensor_data_t) : M main_st unit :=
  modify (fun s => MainSt (board s) (g (sensor_data s)) (sht3x_dev s) (init_flag s) (led0 s) (loop_times s)).

Definition EBUSY : Z := 16.

Definition get_sht30_data (e : pass_env) : M main_st Z :=
  s ← get;
  if negb (sht3x_dev s) then throw AssertFail else mret (pe_sht3x e).1.

(** A value outside [int32_t] is undefined. *)
Definition float_int32 (x : float) : res Z := sf_cast (- 2 ^ 31) (2 ^ 31 - 1) x.

Definition get_all_sensor_data (e : pass_env) : M main_st Z :=
  s ← get;
  if negb (init_flag s) then mret (- EBUSY) else
  r ← on_board get_gzp6816d_data;
  set_data (fun d => SensorData (sd_sht30 d) (match r.2 with Some g => g | None => sd_gzp6816d d end) (curvbat d) (curvbat_percent d)) ;;;
  ret ← get_sht30_data e;
  _ ← (if ret =? RT_EOK then
         t ← lift (float_int32 (pe_sht3x e).2.1);
         h ← lift (float_int32 (pe_sht3x e).2.2);
         set_data (fun d => SensorData (f32_of_Z t, f32_of_Z h) (sd_gzp6816d d) (curvbat d) (curvbat_percent d))
       else mret tt);
  mret RT_EOK.

(** The constants [3.3f] and [4.2f]. *)
Definition ADC_REFVAL : float := S754_finite false 13841203 (-22).
Definition MAX_VBAT : float := S754_finite false 8808038 (-21).
Definition ADC_CONVERT_MAXVAL : Z := 4096.

Definition ele_ds_get_curvbat (e : pass_env) : M main_st Z :=
  if negb (adc_found e) then mret (-1) else
  if negb (adc_enable_ret e =? RT_EOK) then mret (-2) else
  let raw_adc := u32 (adc_value e * 2) in
  let raw_adc_f := f32_mul (f32_div (f32_of_Z raw_adc) (f32_of_Z ADC_CONVERT_MAXVAL)) ADC_REFVAL in
  set_data (fun d => SensorData (sd_sht30 d) (sd_gzp6816d d) raw_adc_f
                       (f32_mul (f32_div raw_adc_f MAX_VBAT) (f32_of_Z 100))) ;;;
  lift (float_int32 raw_adc_f).

(** *** The main loop *)

(** The hardware of the next pass. *)
Definition set_env (e : pass_env) : M main_st unit :=
  on_board (modify (fun b => let x := drivers b in
    DevSt (devices b) (object_list b)
      (Sensor (sen_mode x) (sen_power x) (sen_odr x) (sen_range x) (irq_pin x) (irq_on x) (data_fifo x) (pe_bus e)))).

Definition main_pass (e : pass_env) : M main_st unit :=
  set_env e ;;;
  _ ← get_all_sensor_data e;
  _ ← ele_ds_get_curvbat e;
  modify (fun s => MainSt (board s) (sensor_data s) (sht3x_dev s) (init_flag s)
    (if loop_times s mod 50 =? 0 then negb (led0 s) else led0 s) (u32 (loop_times s + 1))).

(** [while (1)], for as many passes as there are environments. *)
Definition main_loop (es : list pass_env) : M main_st unit := mfor es main_pass.

(** ** Lemmas *)

(** The sensor's state between two measurements, with the bus [b]. *)
Definition sensor_rests (x : rt_sensor i2c gzp6816d_data_t) (odr : Z) (b : i2c) : rt_sensor i2c gzp6816d_data_t :=
  Sensor RT_SENSOR_MODE_POLLING RT_SENSOR_POWER_DOWN odr (sen_range x) (irq_pin x) (irq_on x) [] b.

(** The pressure sensor at [p] is registered and closed. *)
Record gzp_ready (s : board_st) (p : Z) : Prop := {
  gr_wf : devs_wf s;
  gr_dev : exists d, devices s !! p = Some d /\ is_device d = true /\ is_open d = false /\ ref_count d = 0 /\
    same_name (dev_name d) (cs "baro_gzp6816d") = true /\ dev_ops d = rt_sensor_dev_ops gzp_sensor_ops gzp_flags;
  gr_fifo : data_fifo (drivers s) = [];
}.

Lemma fetch_run x len r o :
  gzp6816d_fetch_data (hw x) len = Ok (r, o) -> - 2 ^ 31 <= r < 2 ^ 31 -> len <> 0 -> data_fifo x = [] ->
  rt_sensor_read gzp_sensor_ops 0 len x = Ok ((r, match o with Some d => [d] | None => [] end), x).
Proof.
  intros E Hr Hl Hf. unfold rt_sensor_read. destruct (Z.eqb_spec len 0); [done|].
  rewrite (bind_step _ _ x x x) by done. rewrite Hf. unfold gzp_sensor_ops at 1. cbn [fetch_data].
  unfold on_hw, get, lift, mbind, M_bind, mret, M_ret. rewrite E. cbn [fst snd].
  assert (i32 (u32 r) = r) as ->; [|by destruct x].
  unfold swrap, wrap. rewrite Zplus_mod_idemp_l. rewrite Z.mod_small; change (2 ^ 32) with (2 * 2 ^ 31); change (2 ^ (32 - 1)) with (2 ^ 31); lia.
Qed.

(** A measurement passes on what the driver answers, and leaves the sensor as it was found:
    closed, with no user, ready for the next one. *)
Lemma get_gzp_run s p r o :
  gzp_ready s p -> gzp6816d_fetch_data (hw (drivers s)) sizeof_gzp6816d_data = Ok (r, o) -> - 2 ^ 31 <= r < 2 ^ 31 ->
  exists s', get_gzp6816d_data s = Ok ((if 0 <? r then RT_EOK else r, o), s') /\ gzp_ready s' p /\
    drivers s' = sensor_rests (drivers s) 100 (hw (drivers s)) /\ object_list s' = object_list s.
Proof.
  intros [Hs (d & Hp & Hd & Ho & Hc & Hn & Hops) Hf] E Hr.
  assert (p <> 0) as Hp0 by (intros ->; by rewrite (wf_null s Hs) in Hp).
  assert (p ∈ object_list s) as Hin by (apply (wf_list s Hs); by exists d).
  set (x1 := Sensor RT_SENSOR_MODE_POLLING RT_SENSOR_POWER_NORMAL (sen_odr (drivers s)) (sen_range (drivers s))
    (irq_pin (drivers s)) (irq_on (drivers s)) ([] : list gzp6816d_data_t) (hw (drivers s))).
  destruct (open_run s p d RT_DEVICE_FLAG_RDWR x1 Hs Hp Hd Ho Hc) as (d1 & E1 & A1 & A2 & A3 & A4 & A5 & _).
  { by rewrite Hops. } { rewrite Hops. cbn [op_open rt_sensor_dev_ops]. unfold x1. rewrite <- Hf. reflexivity. }
  pose proof (open_wf p RT_DEVICE_FLAG_RDWR s Hs) as Hs1. unfold wlp in Hs1. rewrite E1 in Hs1.
  set (s1 := DevSt (<[p := d1]> (devices s)) (object_list s) x1) in *.
  set (x2 := Sensor RT_SENSOR_MODE_POLLING RT_SENSOR_POWER_NORMAL 100 (sen_range (drivers s))
    (irq_pin (drivers s)) (irq_on (drivers s)) ([] : list gzp6816d_data_t) (hw (drivers s))).
  set (s2 := DevSt (<[p := d1]> (devices s)) (object_list s) x2).
  assert (get_dev p s1 = Ok (d1, s1)) as G1 by (apply get_dev_Ok; split_and!; try done; apply lookup_insert_eq).
  assert (get_dev p s2 = Ok (d1, s2)) as G2 by (apply get_dev_Ok; split_and!; try done; apply lookup_insert_eq).
  pose proof (wf_drivers s1 x2 Hs1) as Hs2. change (DevSt _ _ x2) with s2 in Hs2.
  pose proof (close_run s2 p d1 (sensor_rests (drivers s) 100 (hw (drivers s))) Hs2 (lookup_insert_eq _ _ _) A1 A3) as E3.
  rewrite A5, Hops in E3. specialize (E3 eq_refl).
  pose proof (close_wf p s2 Hs2) as Hs3. unfold wlp in Hs3. rewrite E3 in Hs3.
  eexists. split; [|split; [|split]].
  - unfold get_gzp6816d_data. rewrite (bind_step _ _ _ _ _ (find_registered s p d _ Hs Hin Hp Hn)).
    destruct (Z.eqb_spec p 0); [done|]. rewrite (bind_step _ _ _ _ _ E1). change (negb (RT_EOK =? RT_EOK)) with false. cbv iota.
    erewrite (bind_step _ _ s1 RT_EOK s2).
    2: { unfold rt_device_control. rewrite (bind_step _ _ _ _ _ G1), A5, Hops. reflexivity. }
    erewrite (bind_step _ _ s2 (r, match o with Some g => [g] | None => [] end) s2).
    2: { unfold rt_device_read. rewrite (bind_step _ _ _ _ _ G2), A3, A5, Hops. change (1 =? 0) with false. cbv iota.
         cbn [op_read rt_sensor_dev_ops]. unfold on_driver. cbn [drivers s2]. by rewrite (fetch_run x2 _ r o). }
    rewrite (bind_step _ _ _ _ _ E3). cbn [fst snd]. unfold mret, M_ret. repeat f_equal. by destruct o.
  - split; [exact Hs3| |done]. unfold s2. cbn [devices]. rewrite insert_insert_eq. eexists. split; [apply lookup_insert_eq|].
    split_and!; try done; cbn; [by rewrite A4|by rewrite A5].
  - done.
  - done.
Qed.

(** A bus that delivers six bytes gives a result on every path of the driver. *)
Lemma fetch_total b :
  Zlen (recv_data b) = 6 ->
  exists r o, gzp6816d_fetch_data b sizeof_gzp6816d_data = Ok (r, o) /\ - 2 ^ 31 <= r < 2 ^ 31.
Proof.
  intros Hl. destruct (recv_data b) as [|b0 [|b1 [|b2 [|b3 [|b4 [|b5 [|]]]]]]] eqn:E; unfold Zlen in Hl; cbn [length] in Hl; try lia.
  unfold gzp6816d_fetch_data, gzp6816d_readsls, read_bytes. change (sizeof_gzp6816d_data <? sizeof_gzp6816d_data) with false.
  cbv iota. rewrite E. change (blit (replicate 6 0) 0 [b0; b1; b2; b3; b4; b5]) with (Ok [b0; b1; b2; b3; b4; b5]).
  destruct (write_cmd b 172 =? RT_EOK); [destruct (bus_found b); cbn [negb]; [rewrite ok_bind; destruct (recv_ret b =? 6)|]|];
    rewrite ?ok_bind; cbn [fst snd].
  - change (negb (RT_EOK =? RT_EOK)) with false. cbv iota. change (aget [b0; b1; b2; b3; b4; b5] 0) with (Ok b0).
    rewrite ok_bind. destruct (negb _); rewrite ok_bind; cbn [fst snd].
    + change (- RT_EBUSY =? RT_EOK) with false. by do 2 eexists.
    + change (RT_EOK =? RT_EOK) with true. cbv iota. rewrite cal_rawdata_run, ok_bind. by do 2 eexists.
  - change (negb (- RT_ERROR =? RT_EOK)) with true. cbv iota. rewrite ok_bind. cbn [fst snd].
    change (- RT_ERROR =? RT_EOK) with false. by do 2 eexists.
  - change (negb (- RT_ERROR =? RT_EOK)) with true. cbv iota. rewrite ok_bind. cbn [fst snd].
    change (- RT_ERROR =? RT_EOK) with false. by do 2 eexists.
  - change (RT_EOK =? RT_EOK) with true. cbv iota. change (replicate 6 0) with [0; 0; 0; 0; 0; 0].
    rewrite cal_rawdata_run, ok_bind. by do 2 eexists.
Qed.

(** The battery's voltage and its percentage. *)
Definition volts (v : Z) : float := f32_mul (f32_div (f32_of_Z (u32 (v * 2))) (f32_of_Z ADC_CONVERT_MAXVAL)) ADC_REFVAL.
Definition percent (v : Z) : float := f32_mul (f32_div (volts v) MAX_VBAT) (f32_of_Z 100).

Lemma volts_range v : 0 <= v < 4096 -> exists z, float_int32 (volts v) = Ok z /\ 0 <= z <= 6.
Proof.
  intros Hv.
  assert (forallb (fun v => match float_int32 (volts v) with Ok z => (0 <=? z) && (z <=? 6) | Err _ => false end)
    (seqZ 0 4096) = true) as H by (vm_compute; reflexivity).
  rewrite forallb_forall in H. specialize (H v). rewrite <- list_elem_of_In in H. specialize (H ltac:(apply elem_of_seqZ; lia)).
  cbv beta in H. destruct (float_int32 (volts v)) as [z|]; [|done]. exists z. split; [done|].
  apply andb_true_iff in H as [?%Z.leb_le ?%Z.leb_le]. lia.
Qed.

(** What the hardware may do in a pass: any failure of a bus, a busy sensor, a short read; six
    bytes, a converter of twelve bits, and temperatures that fit an integer. *)
Definition env_ok (e : pass_env) : Prop :=
  Zlen (recv_data (pe_bus e)) = 6 /\ 0 <= adc_value e < 4096 /\
  ((pe_sht3x e).1 = RT_EOK -> is_ok (float_int32 (pe_sht3x e).2.1) = true /\ is_ok (float_int32 (pe_sht3x e).2.2) = true).

(** What a pass measures.  A temperature and humidity are cut to integers. *)
Definition sht_reading (e : pass_env) : option (float * float) :=
  match float_int32 (pe_sht3x e).2.1, float_int32 (pe_sht3x e).2.2 with
  | Ok t, Ok h => if (pe_sht3x e).1 =? RT_EOK then Some (f32_of_Z t, f32_of_Z h) else None
  | _, _ => None
  end.

(** The pressure sensor.  A command that it refuses gives the values of a buffer of zeros; a bus
    that is not found, a short answer and a busy sensor give nothing. *)
Definition gzp_reading (e : pass_env) : option gzp6816d_data_t :=
  let b := pe_bus e in
  if negb (transfer_ret b =? 1) then Some (GzpData [0; 0; 0; 0] (f32_of_Z 20) [0; 0] (f32_of_Z (-40))) else
  if negb (bus_found b) || negb (recv_ret b =? 6) then None else
  match recv_data b with
  | [b0; b1; b2; b3; b4; b5] =>
      if Z.land b0 32 =? 0
      then Some (GzpData [b3; b2; b1; b0] (pressure_of (b3 + 256 * (b2 + 256 * (b1 + 256 * b0))))
                   [b5; b4] (temperature_of (b5 + 256 * b4)))
      else None
  | _ => None
  end.

Definition adc_reading (e : pass_env) : option (float * float) :=
  if adc_found e && (adc_enable_ret e =? RT_EOK) then Some (volts (adc_value e), percent (adc_value e)) else None.

Lemma fetch_reading e :
  Zlen (recv_data (pe_bus e)) = 6 ->
  exists r, gzp6816d_fetch_data (pe_bus e) sizeof_gzp6816d_data = Ok (r, gzp_reading e).
Proof.
  intros Hl. unfold gzp_reading. destruct (Z.eqb_spec (transfer_ret (pe_bus e)) 1) as [E|E]; cbn [negb].
  2: { eexists. by apply failed_command_measures. }
  destruct (recv_data (pe_bus e)) as [|b0 [|b1 [|b2 [|b3 [|b4 [|b5 [|]]]]]]] eqn:Eb; unfold Zlen in Hl; cbn [length] in Hl; try lia.
  rewrite (measurement_result (pe_bus e) b0 b1 b2 b3 b4 b5 sizeof_gzp6816d_data) by done.
  destruct (bus_found (pe_bus e)); cbn [negb orb]; [|by eexists].
  destruct (recv_ret (pe_bus e) =? 6); cbn [negb]; [|by eexists].
  destruct (Z.land b0 32 =? 0); by eexists.
Qed.

(** The last reading of a sequence of passes, or the value from before. *)
Definition last_reading {R} (f : pass_env -> option R) (es : list pass_env) (old : R) : R :=
  default old (last (omap f es)).

Lemma last_reading_snoc {R} (f : pass_env -> option R) es e old :
  last_reading f (es ++ [e]) old = default (last_reading f es old) (f e).
Proof.
  unfold last_reading. rewrite omap_app. simpl. destruct (f e); [by rewrite last_snoc|by rewrite app_nil_r].
Qed.

(** The values after a pass. *)
Definition pass_data (d : sensor_data_t) (e : pass_env) : sensor_data_t :=
  let bat := default (curvbat d, curvbat_percent d) (adc_reading e) in
  SensorData (default (sd_sht30 d) (sht_reading e)) (default (sd_gzp6816d d) (gzp_reading e)) bat.1 bat.2.

Record main_ready (s : main_st) (p : Z) : Prop := {
  mr_gzp : gzp_ready (board s) p;
  mr_init : init_flag s = true;
  mr_sht : sht3x_dev s = true;
}.

Lemma main_pass_run s p e :
  main_ready s p -> env_ok e ->
  exists b, main_pass e s = Ok (tt, MainSt b (pass_data (sensor_data s) e) true true
      (if loop_times s mod 50 =? 0 then negb (led0 s) else led0 s) (u32 (loop_times s + 1))) /\ gzp_ready b p.
Proof.
  intros [Hg Hi Hsht] (Hl & Hv & Ht). destruct (fetch_total _ Hl) as (r & o & Ef & Hr).
  set (s1 := MainSt (DevSt (devices (board s)) (object_list (board s))
    (let x := drivers (board s) in Sensor (sen_mode x) (sen_power x) (sen_odr x) (sen_range x) (irq_pin x) (irq_on x) (data_fifo x) (pe_bus e)))
    (sensor_data s) (sht3x_dev s) (init_flag s) (led0 s) (loop_times s)).
  assert (gzp_ready (board s1) p) as Hg1.
  { destruct Hg as [H1 H2 H3]. split; [by apply wf_drivers|exact H2|exact H3]. }
  destruct (get_gzp_run (board s1) p r o Hg1 Ef Hr) as (b & Eg & Hb & _). exists b. split; [|exact Hb].
  unfold main_pass. rewrite (bind_step _ _ s tt s1) by done.
  assert (gzp_reading e = o) as Eo by (destruct (fetch_reading e Hl) as (r' & Ef'); congruence).
  set (d2 := SensorData (sd_sht30 (sensor_data s)) (match o with Some g => g | None => sd_gzp6816d (sensor_data s) end)
    (curvbat (sensor_data s)) (curvbat_percent (sensor_data s))).
  set (d3 := match float_int32 (pe_sht3x e).2.1, float_int32 (pe_sht3x e).2.2 with
             | Ok t, Ok h => if (pe_sht3x e).1 =? RT_EOK then SensorData (f32_of_Z t, f32_of_Z h) (sd_gzp6816d d2) (curvbat d2) (curvbat_percent d2) else d2
             | _, _ => d2 end).
  assert (get_all_sensor_data e s1 = Ok (RT_EOK, MainSt b d3 true true (led0 s) (loop_times s))) as Ea.
  { unfold get_all_sensor_data. rewrite (bind_step _ _ s1 s1 s1) by done. cbn [init_flag s1]. rewrite Hi. cbn [negb].
    erewrite bind_step; [|unfold on_board; by rewrite Eg]. cbn [snd].
    erewrite bind_step; [|reflexivity]. cbn [sensor_data s1 sht3x_dev init_flag led0 loop_times]. fold d2.
    unfold get_sht30_data. erewrite bind_step; [|erewrite bind_step; [|reflexivity]; cbn [sht3x_dev]; rewrite Hsht; reflexivity].
    rewrite Hi. unfold d3. destruct (Z.eqb_spec (pe_sht3x e).1 RT_EOK) as [E|E].
    - destruct (Ht E) as [H1 H2]. destruct (float_int32 (pe_sht3x e).2.1) as [t|] eqn:E1; [|done].
      destruct (float_int32 (pe_sht3x e).2.2) as [h|] eqn:E2; [|done]. reflexivity.
    - destruct (float_int32 (pe_sht3x e).2.1) as [t|]; destruct (float_int32 (pe_sht3x e).2.2) as [h|]; reflexivity. }
  rewrite (bind_step _ _ _ _ _ Ea).
  assert (d3 = SensorData (sd_sht30 d3) (sd_gzp6816d d2) (curvbat (sensor_data s)) (curvbat_percent (sensor_data s))) as Ed3.
  { unfold d3. by repeat case_match. }
  assert (pass_data (sensor_data s) e = if adc_found e && (adc_enable_ret e =? RT_EOK)
    then SensorData (sd_sht30 d3) (sd_gzp6816d d3) (volts (adc_value e)) (percent (adc_value e)) else d3) as ->.
  { rewrite Ed3. unfold pass_data, sht_reading, adc_reading. rewrite Eo. unfold d3. by repeat case_match. }
  unfold ele_ds_get_curvbat. destruct (adc_found e); cbn [andb negb]; [|reflexivity].
  destruct (adc_enable_ret e =? RT_EOK); cbn [negb]; [|reflexivity].
  destruct (volts_range (adc_value e) Hv) as (z & Ez & _).
  erewrite bind_step; [|erewrite bind_step; [|reflexivity]; fold (volts (adc_value e)); unfold lift; by rewrite Ez]. reflexivity.
Qed.

(** ** Properties *)

(** C23. Passes of the main loop, whatever the buses do (any failure of a transfer, a busy sensor, a
    bus that is not there, a short answer): none faults, after each the pressure sensor is closed
    again, and the LED changes at every fiftieth pass, the first included.  Temperature and
    humidity are those of the last pass whose reading succeeded, the battery voltage that of the
    last pass with a converter, and the pressure record that of the last pass that stored one:
    a pass whose bus is missing, whose answer is short or whose sensor is busy keeps the old
    record, but one in which the sensor refuses the measuring command stores 20 kPa and -40
    degrees.  The hardware gives six bytes, a converter value of 12 bits and temperatures that fit
    an integer ([env_ok]); the start-up has registered the sensors. *)
Theorem main_loop_runs es s p :
  main_ready s p -> loop_times s = 0 -> Zlen es < 2 ^ 32 -> Forall env_ok es ->
  exists s', main_loop es s = Ok (tt, s') /\ main_ready s' p /\
    (let old := sensor_data s in
     sd_sht30 (sensor_data s') = last_reading sht_reading es (sd_sht30 old) /\
     sd_gzp6816d (sensor_data s') = last_reading gzp_reading es (sd_gzp6816d old) /\
     (curvbat (sensor_data s'), curvbat_percent (sensor_data s')) =
       last_reading adc_reading es (curvbat old, curvbat_percent old)) /\
    loop_times s' = Zlen es /\
    led0 s' = if Z.even ((Zlen es + 49) / 50) then led0 s else negb (led0 s).
Proof.
  intros Hm H0 Hn Hes. cbv zeta. induction es as [|e es IH] using rev_ind.
  - exists s. cbn. by rewrite H0.
  - rewrite Zlen_app in Hn. change (Zlen [e]) with 1 in Hn. apply Forall_app in Hes as [Hes He]. apply Forall_cons in He as [He _].
    destruct (IH ltac:(lia) Hes) as (s1 & E1 & Hm1 & (Hd1 & Hd2 & Hd3) & Hl1 & Hled).
    destruct (main_pass_run s1 p e Hm1 He) as (b & E & Hb).
    eexists. split.
    { unfold main_loop. rewrite mfor_app. rewrite (bind_step _ _ _ _ _ E1). cbn [mfor].
      rewrite (bind_step _ _ _ _ _ E). reflexivity. }
    split; [by split|]. rewrite !last_reading_snoc, <- Hd1, <- Hd2, <- Hd3. split.
    { split_and!; [done..|]. cbn [sensor_data]. unfold pass_data. cbn [curvbat curvbat_percent]. by destruct (default _ _). }
    cbn [sensor_data loop_times led0]. split.
    + rewrite Hl1, Zlen_app. change (Zlen [e]) with 1. pose proof (Zlen_nonneg es). rewrite wrap_small by lia. done.
    + rewrite Hl1, Hled, Zlen_app. change (Zlen [e]) with 1. pose proof (Zlen_nonneg es).
      destruct (Z.eqb_spec (Zlen es mod 50) 0) as [Em|Em].
      * replace ((Zlen es + 1 + 49) / 50) with ((Zlen es + 49) / 50 + 1) by zlia.
        rewrite Z.even_add. destruct (Z.even _); cbn; [done|by rewrite negb_involutive].
      * by replace ((Zlen es + 1 + 49) / 50) with ((Zlen es + 49) / 50) by zlia.
Qed.

(** A measurement by the pressure sensor gives its caller the driver's answer and closes the
    device on every path. *)
Theorem gzp_closed_again s p r o :
  gzp_ready s p -> gzp6816d_fetch_data (hw (drivers s)) sizeof_gzp6816d_data = Ok (r, o) -> - 2 ^ 31 <= r < 2 ^ 31 ->
  exists s' d, get_gzp6816d_data s = Ok ((if 0 <? r then RT_EOK else r, o), s') /\
    devices s' !! p = Some d /\ is_open d = false /\ ref_count d = 0 /\
    sen_power (drivers s') = RT_SENSOR_POWER_DOWN /\ sen_odr (drivers s') = 100.
Proof.
  intros Hg E Hr. destruct (get_gzp_run s p r o Hg E Hr) as (s' & E1 & [_ (d & Hd & _ & Ho & Hc & _) _] & Ex & _).
  exists s', d. split_and!; try done; by rewrite Ex.
Qed.

(** The board after its start. *)
Definition demo_sensor : rt_sensor i2c gzp6816d_data_t :=
  Sensor 0 0 0 0 0 false [] (I2c 1 true 6 [4; 155; 176; 197; 86; 170]).
Definition demo_start : board_st :=
  DevSt {[1 := Device false [] 0 0 0 (rt_sensor_dev_ops gzp_sensor_ops gzp_flags)]} [] demo_sensor.
Definition demo_board : board_st :=
  DevSt {[1 := Device true (cs "baro_gzp") gzp_flags 0 0 (rt_sensor_dev_ops gzp_sensor_ops gzp_flags)]} [1] demo_sensor.

Example demo_board_registered :
  rt_hw_sensor_register true 1 (Some gzp_sensor_ops) RT_SENSOR_CLASS_BARO (cs "gzp6816d") RT_DEVICE_FLAG_RDWR demo_start =
    Ok (RT_EOK, demo_board).
Proof. reflexivity. Qed.

Lemma demo_board_ready : gzp_ready demo_board 1.
Proof.
  split.
  - apply reach_wf. eapply (reach_call demo_start (CRegister 1 (cs "baro_gzp6816d") gzp_flags)); [apply reach_start|reflexivity].
    + done.
    + intros p d. destruct (decide (p = 1)) as [->|]; [rewrite lookup_singleton_eq; by intros [= <-]|].
      by rewrite lookup_singleton_ne.
  - eexists. split; [reflexivity|]. split_and!; reflexivity.
  - reflexivity.
Qed.

Definition demo_data : sensor_data_t := SensorData (f32_of_Z 0, f32_of_Z 0) (GzpData [] (f32_of_Z 0) [] (f32_of_Z 0)) (f32_of_Z 0) (f32_of_Z 0).
Definition demo_main : main_st := MainSt demo_board demo_data true true false 0.
(** A good pass, one without a bus and one in which the sensors fail. *)
Definition demo_envs : list pass_env :=
  let b := I2c 1 true 6 [4; 155; 176; 197; 86; 170] in
  [PassEnv b (RT_EOK, (f32_of_Z 23, f32_of_Z 45)) true RT_EOK 2500;
   PassEnv (I2c 1 false 6 [4; 155; 176; 197; 86; 170]) (RT_EOK, (f32_of_Z 23, f32_of_Z 45)) true RT_EOK 2500;
   PassEnv (I2c 0 true 0 [0; 0; 0; 0; 0; 0]) (- RT_ERROR, (S754_nan, S754_nan)) false RT_EOK 0].

Lemma main_loop_runs_witness :
  exists s', main_loop demo_envs demo_main = Ok (tt, s') /\ main_ready s' 1 /\
    (let old := sensor_data demo_main in
     sd_sht30 (sensor_data s') = last_reading sht_reading demo_envs (sd_sht30 old) /\
     sd_gzp6816d (sensor_data s') = last_reading gzp_reading demo_envs (sd_gzp6816d old) /\
     (curvbat (sensor_data s'), curvbat_percent (sensor_data s')) =
       last_reading adc_reading demo_envs (curvbat old, curvbat_percent old)) /\
    loop_times s' = Zlen demo_envs /\
    led0 s' = if Z.even ((Zlen demo_envs + 49) / 50) then led0 demo_main else negb (led0 demo_main).
Proof.
  apply (main_loop_runs demo_envs demo_main 1); [split; [apply demo_board_ready|done..]|done|reflexivity|].
  repeat constructor; try done; apply Z.leb_le; reflexivity.
Defined.

Lemma gzp_closed_again_witness :
  exists s' d, get_gzp6816d_data demo_board = Ok ((if 0 <? 14 then RT_EOK else 14,
      Some (GzpData [197; 176; 155; 4] (pressure_of 77312197) [170; 86] (temperature_of 22186))), s') /\
    devices s' !! 1 = Some d /\ is_open d = false /\ ref_count d = 0 /\
    sen_power (drivers s') = RT_SENSOR_POWER_DOWN /\ sen_odr (drivers s') = 100.
Proof. apply gzp_closed_again; [apply demo_board_ready|reflexivity|split; [apply Z.leb_le|]; reflexivity]. Defined.
