(* ===== verification/Pm.v ===== *)
(** Power management: the framework [rt-thread/components/drivers/pm/pm.c] and the firmware's
    side of it, [applications/pm/ele_ds_pm.c].

    The framework counts requests for sleep modes; the idle thread calls
    [rt_system_power_manager], which enters the highest-power mode requested through the
    firmware's [pm_entry_func].  What the hardware and the devices see is the trace. *)

From S2P Require Import Prelude Float.
#[local] Open Scope Z_scope.

(** ** Data *)

Definition PM_SLEEP_MODE_NONE : Z := 0.
Definition PM_SLEEP_MODE_IDLE : Z := 1.
Definition PM_SLEEP_MODE_LIGHT : Z := 2.
Definition PM_SLEEP_MODE_DEEP : Z := 3.
Definition PM_SLEEP_MODE_STANDBY : Z := 4.
Definition PM_SLEEP_MODE_SHUTDOWN : Z := 5.
Definition PM_SLEEP_MODE_MAX : Z := 6.
Definition PM_RUN_MODE_NORMAL_SPEED : Z := 1.
Definition PM_RUN_MODE_MAX : Z := 4.
Definition RT_PM_FREQUENCY_PENDING : Z := 1.
Definition PM_MODULE_WORDS : Z := 1.        (* (PM_MODULE_MAX_ID + 31) / 32 *)
Definition PM_POWER_ID : Z := 1.
Definition PM_MODULE_MAX_ID : Z := 17.
Definition RT_PM_DEFAULT_SLEEP_MODE : Z := PM_SLEEP_MODE_NONE.
Definition RT_PM_DEFAULT_DEEPSLEEP_MODE : Z := PM_SLEEP_MODE_DEEP.
Definition RT_PM_DEFAULT_RUN_MODE : Z := PM_RUN_MODE_NORMAL_SPEED.
Definition PM_TICKLESS_THRESHOLD_TIME : Z := 2.
Definition PM_BUSY_SLEEP_MODE : Z := PM_SLEEP_MODE_IDLE.
Definition PM_SUSPEND_SLEEP_MODE : Z := PM_SLEEP_MODE_IDLE.
Definition RT_TICK_MAX : Z := 4294967295.

Record rt_pm_module := PmModule {
  req_status : Z;
  busy_flag : bool;
  timeout : Z;
  start_time : Z;
}.

(** A device with power management: which of its operations exist, and what [suspend]
    answers for a mode. *)
Record rt_device_pm := DevicePm {
  pm_device : Z;
  pm_suspend : option (Z -> Z);
  pm_resume : bool;
  pm_frequency_change : bool;
}.

(** Which operations the board gives; [sleep] is [pm_entry_func]. *)
Record rt_pm_ops := PmOps {
  op_sleep : bool;
  op_run : bool;
  op_timer_start : bool;
  op_timer_stop : bool;
  op_timer_get_tick : option Z;
}.

Record rt_pm := Pm {
  modes : list Z;
  sleep_mode : Z;
  run_mode : Z;
  module_status : list rt_pm_module;
  sleep_status : list (list Z);
  device_pm_number : Z;
  device_pm : list (option rt_device_pm);   (* None: an entry of null pointers *)
  timer_mask : Z;
  flags : Z;
  ops : option rt_pm_ops;
}.

Inductive pm_event :=
  | EvWfi                      (* __WFI *)
  | EvSleepMode                (* HAL_PWR_EnterSLEEPMode *)
  | EvStopMode                 (* HAL_PWR_EnterSTOPMode *)
  | EvStandbyMode              (* HAL_PWR_EnterSTANDBYMode *)
  | EvSuspendTick
  | EvResumeTick
  | EvDelay (ms : Z)           (* rt_thread_mdelay *)
  | EvSystemClock              (* SystemClock_Config *)
  | EvGpio (on : bool)         (* pm_clock_init_pwronoff *)
  | EvRun (mode : Z)           (* ops->run *)
  | EvNotify (enter : bool) (mode : Z)
  | EvSuspend (device mode : Z)
  | EvResume (device mode : Z)
  | EvFrequency (device mode : Z)
  | EvTimerStart (timeout : Z)
  | EvTimerStop
  | EvTimerCheck.

(** The file's variables, the tick counter, and the trace. *)
Record pm_st := PmSt {
  pm : rt_pm;
  pm_init_flag : bool;
  pm_default_sleep : Z;
  pm_default_deepsleep : Z;
  pm_notify : bool;            (* a notification callback is set *)
  tick : Z;                    (* rt_tick_get() *)
  next_timeout : Z;            (* rt_timer_next_timeout_tick() *)
  lp_timeout : Z;              (* rt_lptimer_next_timeout_tick() *)
  interrupt_nest : Z;
  entry_stop_cnt : Z;          (* the static of pm_entry_func *)
  pm_trace : list pm_event;
}.

Definition set_pm (g : rt_pm -> rt_pm) : M pm_st unit :=
  modify (fun s => PmSt (g (pm s)) (pm_init_flag s) (pm_default_sleep s) (pm_default_deepsleep s)
    (pm_notify s) (tick s) (next_timeout s) (lp_timeout s) (interrupt_nest s) (entry_stop_cnt s) (pm_trace s)).
Definition pm_emit (e : pm_event) : M pm_st unit :=
  modify (fun s => PmSt (pm s) (pm_init_flag s) (pm_default_sleep s) (pm_default_deepsleep s)
    (pm_notify s) (tick s) (next_timeout s) (lp_timeout s) (interrupt_nest s) (entry_stop_cnt s)
    (pm_trace s ++ [e])).
Definition set_stop_cnt (n : Z) : M pm_st unit :=
  modify (fun s => PmSt (pm s) (pm_init_flag s) (pm_default_sleep s) (pm_default_deepsleep s)
    (pm_notify s) (tick s) (next_timeout s) (lp_timeout s) (interrupt_nest s) n (pm_trace s)).
Definition rt_tick_set (n : Z) : M pm_st unit :=
  modify (fun s => PmSt (pm s) (pm_init_flag s) (pm_default_sleep s) (pm_default_deepsleep s)
    (pm_notify s) n (next_timeout s) (lp_timeout s) (interrupt_nest s) (entry_stop_cnt s) (pm_trace s)).

Definition set_modes (l : list Z) (p : rt_pm) : rt_pm :=
  Pm l (sleep_mode p) (run_mode p) (module_status p) (sleep_status p) (device_pm_number p) (device_pm p) (timer_mask p)
    (flags p) (ops p).
Definition set_sleep_mode (m : Z) (p : rt_pm) : rt_pm :=
  Pm (modes p) m (run_mode p) (module_status p) (sleep_status p) (device_pm_number p) (device_pm p) (timer_mask p)
    (flags p) (ops p).
Definition set_run_mode (m f : Z) (p : rt_pm) : rt_pm :=
  Pm (modes p) (sleep_mode p) m (module_status p) (sleep_status p) (device_pm_number p) (device_pm p) (timer_mask p)
    f (ops p).
Definition set_modules (l : list rt_pm_module) (p : rt_pm) : rt_pm :=
  Pm (modes p) (sleep_mode p) (run_mode p) l (sleep_status p) (device_pm_number p) (device_pm p) (timer_mask p)
    (flags p) (ops p).
Definition set_sleep_status (l : list (list Z)) (p : rt_pm) : rt_pm :=
  Pm (modes p) (sleep_mode p) (run_mode p) (module_status p) l (device_pm_number p) (device_pm p) (timer_mask p)
    (flags p) (ops p).
Definition set_devices (n : Z) (l : list (option rt_device_pm)) (p : rt_pm) : rt_pm :=
  Pm (modes p) (sleep_mode p) (run_mode p) (module_status p) (sleep_status p) n l (timer_mask p)
    (flags p) (ops p).

(** ** Requests *)

(** [pm->modes[mode]], read and written. *)
Definition mode_count (mode : Z) : M pm_st Z := s ← get; lift (aget (modes (pm s)) mode).
Definition set_mode_count (mode n : Z) : M pm_st unit :=
  s ← get;
  l ← lift (aset (modes (pm s)) mode n);
  set_pm (set_modes l).
Definition set_req_status (module_id v : Z) : M pm_st unit :=
  s ← get;
  m ← lift (aget (module_status (pm s)) module_id);
  l ← lift (aset (module_status (pm s)) module_id (PmModule v (busy_flag m) (timeout m) (start_time m)));
  set_pm (set_modules l).

Definition rt_pm_request (mode : Z) : M pm_st unit :=
  let mode := u8 mode in
  s ← get;
  if negb (pm_init_flag s) then mret tt else
  if PM_SLEEP_MODE_MAX - 1 <? mode then mret tt else
  n ← mode_count mode;
  if n <? 255 then set_mode_count mode (u8 (n + 1)) else mret tt.

Definition rt_pm_release (mode : Z) : M pm_st unit :=
  let mode := u8 mode in
  s ← get;
  if negb (pm_init_flag s) then mret tt else
  if PM_SLEEP_MODE_MAX - 1 <? mode then mret tt else
  n ← mode_count mode;
  if 0 <? n then set_mode_count mode (u8 (n - 1)) else mret tt.

Definition rt_pm_release_all (mode : Z) : M pm_st unit :=
  let mode := u8 mode in
  s ← get;
  if negb (pm_init_flag s) then mret tt else
  if PM_SLEEP_MODE_MAX - 1 <? mode then mret tt else
  set_mode_count mode 0.

Definition rt_pm_module_request (module_id mode : Z) : M pm_st unit :=
  let module_id := u8 module_id in
  let mode := u8 mode in
  s ← get;
  if negb (pm_init_flag s) then mret tt else
  if PM_SLEEP_MODE_MAX - 1 <? mode then mret tt else
  if PM_MODULE_MAX_ID - 1 <? module_id then mret tt else
  set_req_status module_id 1 ;;;
  n ← mode_count mode;
  if n <? 255 then set_mode_count mode (u8 (n + 1)) else mret tt.

Definition rt_pm_module_release (module_id mode : Z) : M pm_st unit :=
  let module_id := u8 module_id in
  let mode := u8 mode in
  s ← get;
  if negb (pm_init_flag s) then mret tt else
  if PM_SLEEP_MODE_MAX - 1 <? mode then mret tt else
  if PM_MODULE_MAX_ID - 1 <? module_id then mret tt else
  n ← mode_count mode;
  _ ← (if 0 <? n then set_mode_count mode (u8 (n - 1)) else mret tt);
  n ← mode_count mode;
  if n =? 0 then set_req_status module_id 0 else mret tt.

(** The module number is not tested here. *)
Definition rt_pm_module_release_all (module_id mode : Z) : M pm_st unit :=
  let module_id := u8 module_id in
  let mode := u8 mode in
  s ← get;
  if negb (pm_init_flag s) then mret tt else
  if PM_SLEEP_MODE_MAX - 1 <? mode then mret tt else
  set_mode_count mode 0 ;;;
  set_req_status module_id 0.

Definition rt_pm_module_delay_sleep (module_id timeout : Z) : M pm_st unit :=
  let module_id := u8 module_id in
  s ← get;
  if negb (pm_init_flag s) then mret tt else
  if PM_MODULE_MAX_ID - 1 <? module_id then mret tt else
  m ← lift (aget (module_status (pm s)) module_id);
  l ← lift (aset (module_status (pm s)) module_id (PmModule (req_status m) true timeout (tick s)));
  set_pm (set_modules l).

(** The word of a module's bit: read, changed by [g], written. *)
Definition change_sleep_status (g : Z -> Z) (module_id mode : Z) : M pm_st unit :=
  let module_id := u16 module_id in
  let mode := u8 mode in
  if PM_MODULE_MAX_ID <=? module_id then mret tt else
  if PM_SLEEP_MODE_MAX - 1 <=? mode then mret tt else
  s ← get;
  row ← lift (aget (sleep_status (pm s)) mode);
  w ← lift (aget row (module_id / 32));
  row ← lift (aset row (module_id / 32) (g w));
  l ← lift (aset (sleep_status (pm s)) mode row);
  set_pm (set_sleep_status l).

Definition rt_pm_sleep_request (module_id mode : Z) : M pm_st unit :=
  change_sleep_status (fun w => u32 (Z.lor w (Z.shiftl 1 (u16 module_id mod 32)))) module_id mode.
Definition rt_pm_sleep_release (module_id mode : Z) : M pm_st unit :=
  change_sleep_status (fun w => Z.land w (Z.lnot (Z.shiftl 1 (u16 module_id mod 32)))) module_id mode.
Definition rt_pm_sleep_none_request (module_id : Z) := rt_pm_sleep_request module_id PM_SLEEP_MODE_NONE.
Definition rt_pm_sleep_idle_request (module_id : Z) := rt_pm_sleep_request module_id PM_SLEEP_MODE_IDLE.
Definition rt_pm_sleep_light_request (module_id : Z) := rt_pm_sleep_request module_id PM_SLEEP_MODE_LIGHT.
Definition rt_pm_sleep_none_release (module_id : Z) := rt_pm_sleep_release module_id PM_SLEEP_MODE_NONE.
Definition rt_pm_sleep_idle_release (module_id : Z) := rt_pm_sleep_release module_id PM_SLEEP_MODE_IDLE.
Definition rt_pm_sleep_light_release (module_id : Z) := rt_pm_sleep_release module_id PM_SLEEP_MODE_LIGHT.

(** ** Devices *)

(** [nomem]: the reallocation fails, and nothing changes. *)
Definition rt_pm_device_register (d : rt_device_pm) (nomem : bool) : M pm_st unit :=
  s ← get;
  let n := device_pm_number (pm s) in
  if nomem then mret tt else
  set_pm (set_devices (u8 (n + 1)) (take (Z.to_nat n) (device_pm (pm s)) ++ [Some d])).

(** The entries behind [index] move down by one, up to entry [n - 1]. *)
Fixpoint move_down (k : nat) (l : list (option rt_device_pm)) (index : Z) : res (list (option rt_device_pm)) :=
  match k with
  | O => Ok l
  | S k =>
      e ← aget l (index + 1);
      l ← aset l index e;
      move_down k l (index + 1)
  end.

Fixpoint unregister_loop (k : nat) (l : list (option rt_device_pm)) (n index device : Z) :
    res (Z * list (option rt_device_pm)) :=
  match k with
  | O => Ok (n, l)
  | S k =>
      e ← aget l index;
      if match e with Some d => pm_device d =? device | None => 0 =? device end then
        l ← move_down (Z.to_nat (n - 1 - index)) l index;
        l ← aset l (n - 1) None;
        Ok (u8 (n - 1), l)
      else unregister_loop k l n (index + 1) device
  end.

Definition rt_pm_device_unregister (device : Z) : M pm_st unit :=
  s ← get;
  let n := device_pm_number (pm s) in
  r ← lift (unregister_loop (Z.to_nat n) (device_pm (pm s)) n 0 device);
  set_pm (set_devices r.1 r.2).

Definition rt_pm_notify_set (notify : bool) : M pm_st unit :=
  modify (fun s => PmSt (pm s) (pm_init_flag s) (pm_default_sleep s) (pm_default_deepsleep s)
    notify (tick s) (next_timeout s) (lp_timeout s) (interrupt_nest s) (entry_stop_cnt s) (pm_trace s)).
Definition rt_pm_default_set (sleep_mode : Z) : M pm_st unit :=
  modify (fun s => PmSt (pm s) (pm_init_flag s) (u8 sleep_mode) (pm_default_deepsleep s)
    (pm_notify s) (tick s) (next_timeout s) (lp_timeout s) (interrupt_nest s) (entry_stop_cnt s) (pm_trace s)).

(** The device of entry [index], which has operations. *)
Definition pm_dev (index : Z) : M pm_st rt_device_pm :=
  s ← get;
  e ← lift (aget (device_pm (pm s)) index);
  lift (of_option NullDeref e).

Definition device_indices : M pm_st (list Z) := s ← get; mret (seqZ 0 (device_pm_number (pm s))).

Fixpoint suspend_loop (idx : list Z) (mode ret : Z) : M pm_st Z :=
  match idx with
  | [] => mret ret
  | index :: idx =>
      d ← pm_dev index;
      match pm_suspend d with
      | Some f =>
          pm_emit (EvSuspend (pm_device d) mode) ;;;
          if negb (f mode =? RT_EOK) then mret (f mode) else suspend_loop idx mode (f mode)
      | None => suspend_loop idx mode ret
      end
  end.

Definition _pm_device_suspend (mode : Z) : M pm_st Z :=
  idx ← device_indices; suspend_loop idx mode RT_EOK.

Definition _pm_device_resume (mode : Z) : M pm_st unit :=
  idx ← device_indices;
  mfor idx (fun index =>
    d ← pm_dev index;
    if pm_resume d then pm_emit (EvResume (pm_device d) mode) else mret tt).

Definition _pm_device_frequency_change (mode : Z) : M pm_st unit :=
  idx ← device_indices;
  mfor idx (fun index =>
    d ← pm_dev index;
    if pm_frequency_change d then pm_emit (EvFrequency (pm_device d) mode) else mret tt).

(** ** The board: [pm_entry_func] *)

Definition gas_detection_entey_stadnby : M pm_st unit :=
  pm_emit EvSuspendTick ;;; pm_emit EvStandbyMode.

Definition pm_clock_init_pwronoff (enable : bool) : M pm_st unit :=
  if enable then pm_emit (EvGpio true)
  else pm_emit (EvGpio false) ;;; pm_emit (EvDelay 100).

Definition pm_entry_func (mode : Z) : M pm_st unit :=
  s ← get;
  if 0 <? interrupt_nest s then mret tt else
  if mode =? PM_SLEEP_MODE_NONE then mret tt else
  if mode =? PM_SLEEP_MODE_IDLE then pm_emit EvWfi else
  if mode =? PM_SLEEP_MODE_LIGHT then pm_emit EvSleepMode else
  if mode =? PM_SLEEP_MODE_DEEP then
    set_stop_cnt (u32 (entry_stop_cnt s + 1)) ;;;
    pm_clock_init_pwronoff false ;;;
    pm_emit EvSuspendTick ;;;
    pm_emit EvStopMode ;;;
    s ← get;
    if 2 <=? entry_stop_cnt s then
      pm_emit EvSystemClock ;;;
      set_stop_cnt 0 ;;;
      pm_emit EvResumeTick ;;;
      pm_clock_init_pwronoff true ;;;
      rt_pm_release PM_SLEEP_MODE_DEEP ;;;
      rt_pm_request PM_SLEEP_MODE_NONE
    else mret tt
  else if mode =? PM_SLEEP_MODE_STANDBY then gas_detection_entey_stadnby
  else if mode =? PM_SLEEP_MODE_SHUTDOWN then mret tt
  else throw AssertFail.

(** ** The manager *)

Definition pm_ops : M pm_st rt_pm_ops := s ← get; lift (of_option NullDeref (ops (pm s))).

(** [pm->ops->sleep(pm, mode)] and [pm->ops->run(pm, mode)], called without a test. *)
Definition ops_sleep (mode : Z) : M pm_st unit :=
  o ← pm_ops; if op_sleep o then pm_entry_func mode else throw NullDeref.
Definition ops_run (mode : Z) : M pm_st unit :=
  o ← pm_ops; if op_run o then pm_emit (EvRun mode) else throw NullDeref.

Definition pm_lptimer_start (timeout : Z) : M pm_st unit :=
  s ← get;
  match ops (pm s) with
  | Some o => if op_timer_start o then pm_emit (EvTimerStart timeout) else mret tt
  | None => mret tt
  end.
Definition pm_lptimer_stop : M pm_st unit :=
  s ← get;
  match ops (pm s) with
  | Some o => if op_timer_stop o then pm_emit EvTimerStop else mret tt
  | None => mret tt
  end.
Definition pm_lptimer_get_timeout : M pm_st Z :=
  s ← get;
  mret match ops (pm s) with
       | Some o => default RT_TICK_MAX (op_timer_get_tick o)
       | None => RT_TICK_MAX
       end.
Definition pm_sleep (mode : Z) : M pm_st unit :=
  s ← get;
  match ops (pm s) with
  | Some o => if op_sleep o then pm_entry_func mode else mret tt
  | None => mret tt
  end.

Definition _pm_frequency_scaling : M pm_st unit :=
  s ← get;
  if negb (Z.land (flags (pm s)) RT_PM_FREQUENCY_PENDING =? 0) then
    ops_run (run_mode (pm s)) ;;;
    _pm_device_frequency_change (run_mode (pm s)) ;;;
    set_pm (fun p => set_run_mode (run_mode p) (Z.land (flags p) (255 - RT_PM_FREQUENCY_PENDING)) p)
  else mret tt.

(** Is one of the words of this row set? *)
Fixpoint row_requested (lens : list Z) (row : list Z) : res bool :=
  match lens with
  | [] => Ok false
  | len :: lens => w ← aget row len; if negb (w =? 0) then Ok true else row_requested lens row
  end.

Fixpoint judge_loop (idx : list Z) (table : list (list Z)) : res Z :=
  match idx with
  | [] => Ok PM_SLEEP_MODE_MAX
  | index :: idx =>
      row ← aget table index;
      b ← row_requested (seqZ 0 PM_MODULE_WORDS) row;
      if (b : bool) then Ok index else judge_loop idx table
  end.

Definition _judge_sleep_mode (p : rt_pm) : res Z := judge_loop (seqZ 0 (PM_SLEEP_MODE_MAX - 1)) (sleep_status p).

Fixpoint select_loop (idx : list Z) (modes : list Z) (mode : Z) : res Z :=
  match idx with
  | [] => Ok mode
  | index :: idx => n ← aget modes index; if negb (n =? 0) then Ok index else select_loop idx modes mode
  end.

Definition _pm_select_sleep_mode (default : Z) (p : rt_pm) : res Z :=
  request_mode ← _judge_sleep_mode p;
  mode ← select_loop (seqZ PM_SLEEP_MODE_NONE PM_SLEEP_MODE_MAX) (modes p) default;
  Ok (if request_mode <? mode then request_mode else mode).

(** Busy marks that have timed out are cleared, up to the first one that has not. *)
Fixpoint check_idle_loop (idx : list Z) : M pm_st bool :=
  match idx with
  | [] => mret true
  | i :: idx =>
      s ← get;
      m ← lift (aget (module_status (pm s)) i);
      if busy_flag m then
        if timeout m <? u32 (tick s - start_time m) then
          l ← lift (aset (module_status (pm s)) i (PmModule (req_status m) false 0 (start_time m)));
          set_pm (set_modules l) ;;;
          check_idle_loop idx
        else mret false
      else check_idle_loop idx
  end.

Definition _pm_device_check_idle : M pm_st bool :=
  s ← get;
  if negb (pm_init_flag s) then mret true else check_idle_loop (seqZ 0 PM_MODULE_MAX_ID).

Definition pm_timer_next_timeout_tick (mode : Z) : M pm_st Z :=
  s ← get;
  mret (if mode =? PM_SLEEP_MODE_LIGHT then next_timeout s
        else if (mode =? PM_SLEEP_MODE_DEEP) || (mode =? PM_SLEEP_MODE_STANDBY) then lp_timeout s
        else RT_TICK_MAX).

Definition pm_get_sleep_threshold_mode (cur_mode timeout_tick : Z) : M pm_st Z :=
  s ← get;
  mret (if negb (pm_init_flag s) then cur_mode
        else if PM_SLEEP_MODE_MAX <=? cur_mode then cur_mode
        else if timeout_tick <? PM_TICKLESS_THRESHOLD_TIME then PM_SLEEP_MODE_IDLE
        else cur_mode).

Definition notify (enter : bool) (mode : Z) : M pm_st unit :=
  s ← get; if pm_notify s then pm_emit (EvNotify enter mode) else mret tt.

Definition cur_sleep_mode : M pm_st Z := s ← get; mret (sleep_mode (pm s)).
(** [pm->timer_mask & (0x01 << pm->sleep_mode)] *)
Definition has_timer : M pm_st bool := s ← get; mret (Z.testbit (timer_mask (pm s)) (sleep_mode (pm s))).

(** The timer of the mode, behind the suspension of the devices. *)
Definition tickless (m : Z) : M pm_st unit :=
  s ← get;
  t ← pm_timer_next_timeout_tick m;
  let timeout_tick := u32 (t - tick s) in
  m ← pm_get_sleep_threshold_mode m timeout_tick;
  set_pm (set_sleep_mode m) ;;;
  b ← has_timer;
  if (b : bool) then pm_lptimer_start timeout_tick else mret tt.

(** What follows the wake-up. *)
Definition wake_up : M pm_st unit :=
  b ← has_timer;
  delta_tick ← (if (b : bool) then
                  d ← pm_lptimer_get_timeout;
                  pm_lptimer_stop ;;;
                  s ← get;
                  _ ← (if negb (d =? 0) then rt_tick_set (u32 (tick s + d)) else mret tt);
                  mret d
                else mret 0);
  m ← cur_sleep_mode;
  _pm_device_resume m ;;;
  notify false m ;;;
  b ← has_timer;
  if b && negb (delta_tick =? 0) then pm_emit EvTimerCheck else mret tt.

Definition _pm_change_sleep_mode : M pm_st unit :=
  s ← get;
  m ← lift (_pm_select_sleep_mode (pm_default_deepsleep s) (pm s));
  set_pm (set_sleep_mode m) ;;;
  idle ← _pm_device_check_idle;
  _ ← (if negb idle && (PM_BUSY_SLEEP_MODE <? m) then set_pm (set_sleep_mode PM_BUSY_SLEEP_MODE) else mret tt);
  m ← cur_sleep_mode;
  if m =? PM_SLEEP_MODE_NONE then ops_sleep PM_SLEEP_MODE_NONE else
  notify true m ;;;
  ret ← _pm_device_suspend m;
  if negb (ret =? RT_EOK) then
    _pm_device_resume m ;;;
    notify false m ;;;
    _ ← (if PM_SUSPEND_SLEEP_MODE <? m then set_pm (set_sleep_mode PM_SUSPEND_SLEEP_MODE) else mret tt);
    m ← cur_sleep_mode;
    ops_sleep m
  else
  b ← has_timer;
  _ ← (if (b : bool) then tickless m else mret tt);
  m ← cur_sleep_mode;
  pm_sleep m ;;;
  wake_up.

Definition rt_system_power_manager : M pm_st unit :=
  s ← get;
  if negb (pm_init_flag s) then mret tt else
  _pm_frequency_scaling ;;;
  _pm_change_sleep_mode.

(** ** The device interface, run modes, start *)

(** The text of the counter. *)
Definition _rt_pm_device_read (pos : Z) : M pm_st bytes :=
  if pos <? PM_SLEEP_MODE_MAX then n ← mode_count pos; mret (cs (pretty n)) else mret [].

Definition _rt_pm_device_write (pos : Z) (buffer : bytes) : M pm_st Z :=
  match buffer with
  | [] => mret 1
  | request :: _ =>
      _ ← (if request =? 1 then rt_pm_request pos
           else if request =? 0 then rt_pm_release pos else mret tt);
      mret 1
  end.

Definition RT_PM_DEVICE_CTRL_RELEASE : Z := (15 + 1) * 256.
Definition RT_PM_DEVICE_CTRL_REQUEST : Z := (15 + 1) * 256 + 1.

Definition _rt_pm_device_control (cmd args : Z) : M pm_st Z :=
  _ ← (if cmd =? RT_PM_DEVICE_CTRL_REQUEST then rt_pm_request args
       else if cmd =? RT_PM_DEVICE_CTRL_RELEASE then rt_pm_release args else mret tt);
  mret RT_EOK.

Definition rt_pm_run_enter (mode : Z) : M pm_st Z :=
  let mode := u8 mode in
  s ← get;
  if negb (pm_init_flag s) then mret (- RT_EIO) else
  if PM_RUN_MODE_MAX <? mode then mret (- RT_EINVAL) else
  if mode <? run_mode (pm s) then
    ops_run mode ;;;
    _pm_device_frequency_change mode ;;;
    set_pm (fun p => set_run_mode mode (flags p) p) ;;;
    mret RT_EOK
  else
    set_pm (fun p => set_run_mode mode (Z.lor (flags p) RT_PM_FREQUENCY_PENDING) p) ;;;
    mret RT_EOK.

Definition rt_system_pm_init (o : rt_pm_ops) (timer_mask : Z) : M pm_st unit :=
  s ← get;
  let m := pm_default_sleep s in
  modes ← lift (aset (replicate (Z.to_nat PM_SLEEP_MODE_MAX) 0) m 1);
  p ← lift (aget (module_status (pm s)) PM_POWER_ID);
  mods ← lift (aset (module_status (pm s)) PM_POWER_ID
                 (PmModule 1 (busy_flag p) (timeout p) (start_time p)));
  set_pm (fun p => Pm modes m RT_PM_DEFAULT_RUN_MODE mods (sleep_status p) 0 [] (u8 timer_mask)
                     (flags p) (Some o)) ;;;
  modify (fun s => PmSt (pm s) true (pm_default_sleep s) (pm_default_deepsleep s)
    (pm_notify s) (tick s) (next_timeout s) (lp_timeout s) (interrupt_nest s) (entry_stop_cnt s) (pm_trace s)).

(** The bit of each module that has a request. *)
Definition rt_pm_module_get_status (p : rt_pm) : res Z :=
  fold_left (fun acc index =>
    a ← acc;
    m ← aget (module_status p) index;
    Ok (if req_status m =? 1 then u32 (Z.lor a (Z.shiftl 1 index)) else a))
  (seqZ 0 PM_MODULE_MAX_ID) (Ok 0).

Definition rt_pm_get_sleep_mode (p : rt_pm) : Z := sleep_mode p.

(** *** Shell commands *)

(** The commands' numbers: 0 where an argument is missing. *)
Definition arg1 (argv : list bytes) : M pm_st Z :=
  match argv with _ :: a :: _ => lift (atoi a) | _ => mret 0 end.
Definition args2 (argv : list bytes) : M pm_st (Z * Z) :=
  match argv with
  | _ :: a :: b :: _ => x ← lift (atoi a); y ← lift (atoi b); mret (x, y)
  | _ => mret (0, 0)
  end.

Definition rt_pm_release_mode (argv : list bytes) : M pm_st unit := mode ← arg1 argv; rt_pm_release mode.
Definition rt_pm_release_mode_all (argv : list bytes) : M pm_st unit :=
  mode ← arg1 argv; rt_pm_release_all mode.
Definition rt_pm_request_mode (argv : list bytes) : M pm_st unit := mode ← arg1 argv; rt_pm_request mode.
Definition rt_module_release_mode (argv : list bytes) : M pm_st unit :=
  a ← args2 argv; rt_pm_module_release a.1 a.2.
Definition rt_module_release_mode_all (argv : list bytes) : M pm_st unit :=
  a ← args2 argv; rt_pm_module_release_all a.1 a.2.
Definition rt_module_request_mode (argv : list bytes) : M pm_st unit :=
  a ← args2 argv; rt_pm_module_request a.1 a.2.
Definition rt_module_delay_sleep (argv : list bytes) : M pm_st unit :=
  a ← args2 argv; rt_pm_module_delay_sleep a.1 (u32 a.2).
Definition rt_pm_run_mode_switch (argv : list bytes) : M pm_st Z := mode ← arg1 argv; rt_pm_run_enter mode.

(** *** The firmware *)

Definition ele_ds_pm_ops : rt_pm_ops := PmOps true false false false None.
Definition ele_ds_pm_init : M pm_st unit := rt_system_pm_init ele_ds_pm_ops 0.

(** The requests of the command [sleep_mode]; the alarm it sets first is in [Alarm]. *)
Definition entry_sleep_requests : M pm_st unit :=
  rt_pm_request PM_SLEEP_MODE_DEEP ;;; rt_pm_release PM_SLEEP_MODE_NONE.

(** The variables at power on. *)
Definition pm_zero : rt_pm :=
  Pm (replicate 6 0) 0 0 (replicate 17 (PmModule 0 false 0 0)) (replicate 5 [0]) 0 [] 0 0 None.
Definition pm_boot : pm_st :=
  PmSt pm_zero false RT_PM_DEFAULT_SLEEP_MODE RT_PM_DEFAULT_DEEPSLEEP_MODE false 0 0 0 0 0 [].

(** ** The selected mode *)

(** Mode [i] is requested, by a counter or by a module. *)
Definition requested (p : rt_pm) (i : Z) : Prop :=
  (exists n, aget (modes p) i = Ok n /\ n <> 0) \/
  (exists w, aget (sleep_status p) i = Ok [w] /\ w <> 0).

Record pm_ok (p : rt_pm) : Prop := {
  ok_modes : Zlen (modes p) = PM_SLEEP_MODE_MAX;
  ok_counts : all_bytes (modes p);
  ok_modules : Zlen (module_status p) = PM_MODULE_MAX_ID;
  ok_rows : Zlen (sleep_status p) = PM_SLEEP_MODE_MAX - 1;
  ok_words : Forall (fun row => exists w, row = [w]) (sleep_status p);
  ok_sleep_mode : 0 <= sleep_mode p < PM_SLEEP_MODE_MAX;
  ok_run_mode : 0 <= run_mode p <= PM_RUN_MODE_MAX;
  ok_number : 0 <= device_pm_number p <= Zlen (device_pm p) /\ device_pm_number p < 256;
  ok_devices : Forall is_Some (take (Z.to_nat (device_pm_number p)) (device_pm p));
}.

Lemma aget_Forall {A} (P : A -> Prop) l i x : Forall P l -> aget l i = Ok x -> P x.
Proof. intros H [_ Hx]%aget_Ok. by eapply Forall_lookup_1. Qed.

Lemma judge_loop_spec table k (b : Z) :
  Zlen table = b + Z.of_nat k -> 0 <= b -> Forall (fun row => exists w, row = [w]) table ->
  exists m, judge_loop (seqZ b (Z.of_nat k)) table = Ok m /\
    (m = PM_SLEEP_MODE_MAX \/ b <= m < Zlen table /\ exists w, aget table m = Ok [w] /\ w <> 0) /\
    (forall i w, b <= i < m -> aget table i = Ok [w] -> w = 0).
Proof.
  revert b. induction k as [|k IH]; intros b Hl Hb Hw.
  - exists PM_SLEEP_MODE_MAX. split_and!; [done|by left|].
    intros i w Hi H%aget_lt. lia.
  - rewrite seqZ_cons by lia. cbn [judge_loop].
    destruct (aget_in table b) as [row Hr]; [lia|]. rewrite Hr, ok_bind.
    destruct (aget_Forall _ _ _ _ Hw Hr) as [w ->]. cbn [row_requested].
    change (seqZ 0 PM_MODULE_WORDS) with [0]. cbn [row_requested].
    change (aget [w] 0) with (Ok w). rewrite ok_bind.
    destruct (Z.eqb_spec w 0) as [->|Hw0]; cbn [negb].
    + rewrite ok_bind. destruct (IH (Z.succ b)) as (m & Hm & Hm1 & Hm2); [lia|lia|done|].
      replace (Z.pred (Z.of_nat (S k))) with (Z.of_nat k) by lia.
      exists m. split_and!; [done| |].
      * destruct Hm1 as [?|[? ?]]; [by left|right]. split; [lia|done].
      * intros i w Hi Hi2. destruct (decide (i = b)) as [->|]; [congruence|].
        apply (Hm2 i); [lia|done].
    + rewrite ok_bind. exists b. split_and!; [done| |intros; lia].
      right. split; [lia|eauto].
Qed.

Lemma select_loop_spec (ms : list Z) k (b d : Z) :
  Zlen ms = b + Z.of_nat k -> 0 <= b ->
  exists m, select_loop (seqZ b (Z.of_nat k)) ms d = Ok m /\
    ((m = d /\ forall i n, b <= i -> aget ms i = Ok n -> n = 0) \/
     (b <= m < Zlen ms /\ (exists n, aget ms m = Ok n /\ n <> 0) /\
      forall i n, b <= i < m -> aget ms i = Ok n -> n = 0)).
Proof.
  revert b. induction k as [|k IH]; intros b Hl Hb.
  - exists d. split; [done|]. left. split; [done|]. intros i n Hi H%aget_lt. lia.
  - rewrite seqZ_cons by lia. cbn [select_loop].
    destruct (aget_in ms b) as [n Hn]; [lia|]. rewrite Hn, ok_bind.
    destruct (Z.eqb_spec n 0) as [->|Hn0]; cbn [negb].
    + destruct (IH (Z.succ b)) as (m & Hm & Hs); [lia|lia|].
      replace (Z.pred (Z.of_nat (S k))) with (Z.of_nat k) by lia.
      exists m. split; [done|].
      assert (forall i x, i = b -> aget ms i = Ok x -> x = 0) as Hz by (intros; congruence).
      destruct Hs as [(-> & H)|(Hr & He & H)]; [left|right].
      * split; [done|]. intros i x Hi Hx. destruct (decide (i = b)); [by eapply Hz|]. eapply (H i); [lia|done].
      * split_and!; [lia|lia|done|]. intros i x Hi Hx.
        destruct (decide (i = b)); [by eapply Hz|]. eapply (H i); [lia|done].
    + exists b. split; [done|]. right. split_and!; [lia|lia|by eauto|]. intros; lia.
Qed.

Lemma select_spec d p :
  pm_ok p -> 0 <= d < PM_SLEEP_MODE_MAX ->
  exists m, _pm_select_sleep_mode d p = Ok m /\ 0 <= m < PM_SLEEP_MODE_MAX /\
    (forall i, 0 <= i < m -> ~ requested p i) /\
    (requested p m \/ m = d /\ forall i n, 0 <= i -> aget (modes p) i = Ok n -> n = 0).
Proof.
  intros Hp Hd. unfold _pm_select_sleep_mode, _judge_sleep_mode.
  destruct (judge_loop_spec (sleep_status p) 5 0) as (r & Hr & Hr1 & Hr2); [apply Hp|done|apply Hp|].
  destruct (select_loop_spec (modes p) 6 0 d) as (m & Hm & Hs); [apply Hp|done|].
  change (seqZ 0 (PM_SLEEP_MODE_MAX - 1)) with (seqZ 0 (Z.of_nat 5)). rewrite Hr, ok_bind.
  change (seqZ PM_SLEEP_MODE_NONE PM_SLEEP_MODE_MAX) with (seqZ 0 (Z.of_nat 6)). rewrite Hm, ok_bind.
  assert (forall i n, 0 <= i < m -> aget (modes p) i = Ok n -> n = 0) as Hms.
  { destruct Hs as [(-> & H)|(_ & _ & H)]; intros i n Hi; [apply H; lia|by apply H]. }
  assert (0 <= m < PM_SLEEP_MODE_MAX) as Hmr.
  { destruct Hs as [(-> & _)|(? & _)]; [done|]. rewrite (ok_modes p Hp) in *. lia. }
  pose proof (ok_rows p Hp) as Hlen.
  destruct (Z.ltb_spec r m) as [Hlt|Hge]; eexists; (split; [done|]); split_and!; try lia.
  - intros i Hi [(n & Hn & Hz)|(w & Hw & Hz)]; [apply Hz, (Hms i); [lia|done]|apply Hz, (Hr2 i); done].
  - left. right. destruct Hr1 as [->|[_ H]]; [lia|done].
  - intros i Hi [(n & Hn & Hz)|(w & Hw & Hz)]; [apply Hz, (Hms i); done|apply Hz, (Hr2 i); [lia|done]].
  - destruct Hs as [(-> & H)|(_ & H & _)]; [right; by split|left; by left].
Qed.

(** ** The invariant *)

Record pm_wf (s : pm_st) : Prop := {
  wf_pm : pm_ok (pm s);
  wf_default : 0 <= pm_default_sleep s < PM_SLEEP_MODE_MAX;
  wf_deep : 0 <= pm_default_deepsleep s < PM_SLEEP_MODE_MAX;
  wf_ops : pm_init_flag s = true ->
    exists o, ops (pm s) = Some o /\ op_sleep o = true /\
      (op_run o = true \/ Z.land (flags (pm s)) RT_PM_FREQUENCY_PENDING = 0);
}.

(** Everything but the trace and the clock is as it was. *)
Definition unchanged (s s' : pm_st) : Prop :=
  pm s' = pm s /\ pm_init_flag s' = pm_init_flag s /\ pm_default_sleep s' = pm_default_sleep s /\
  pm_default_deepsleep s' = pm_default_deepsleep s.

Lemma unchanged_refl s : unchanged s s.
Proof. done. Qed.
Lemma unchanged_trans a b c : unchanged a b -> unchanged b c -> unchanged a c.
Proof. unfold unchanged. intros (-> & -> & -> & ->) (-> & -> & -> & ->). done. Qed.
Lemma unchanged_wf s s' : unchanged s s' -> pm_wf s -> pm_wf s'.
Proof.
  intros (H1 & H2 & H3 & H4) [? ? ? ?].
  constructor; rewrite ?H1, ?H2, ?H3, ?H4; done.
Qed.

Lemma wp_get {S A} (k : S -> M S A) Q (s : S) : wp (k s) Q s -> wp (s ← get; k s) Q s.
Proof. done. Qed.

Lemma wp_pm_emit e (Q : unit -> pm_st -> Prop) s :
  (forall s', unchanged s s' -> Q tt s') -> wp (pm_emit e) Q s.
Proof. intros H. by apply H. Qed.

(** Changing the record in a way that keeps it and its operations. *)
Lemma wp_set_pm g (Q : unit -> pm_st -> Prop) s :
  pm_wf s -> pm_ok (g (pm s)) -> ops (g (pm s)) = ops (pm s) -> flags (g (pm s)) = flags (pm s) ->
  (forall s', pm_wf s' -> Q tt s') -> wp (set_pm g) Q s.
Proof.
  intros [H1 H2 H3 H4] Hp Ho Hf HQ. unfold wp, set_pm, modify. apply HQ.
  constructor; cbn; [done..|]. by rewrite Ho, Hf.
Qed.

(** The fields the updates leave alone. *)
Ltac pm_fields := cbn [set_modes set_sleep_mode set_run_mode set_modules set_sleep_status set_devices
  modes sleep_mode run_mode module_status sleep_status device_pm_number device_pm timer_mask flags ops].

Lemma set_modes_ok p l :
  pm_ok p -> Zlen l = PM_SLEEP_MODE_MAX -> all_bytes l -> pm_ok (set_modes l p).
Proof. intros [] ? ?. constructor; pm_fields; done. Qed.
Lemma set_sleep_mode_ok p m : pm_ok p -> 0 <= m < PM_SLEEP_MODE_MAX -> pm_ok (set_sleep_mode m p).
Proof. intros [] ?. constructor; pm_fields; done. Qed.
Lemma set_run_mode_ok p m f : pm_ok p -> 0 <= m <= PM_RUN_MODE_MAX -> pm_ok (set_run_mode m f p).
Proof. intros [] ?. constructor; pm_fields; done. Qed.
Lemma set_modules_ok p l : pm_ok p -> Zlen l = PM_MODULE_MAX_ID -> pm_ok (set_modules l p).
Proof. intros [] ?. constructor; pm_fields; done. Qed.
Lemma set_sleep_status_ok p l :
  pm_ok p -> Zlen l = PM_SLEEP_MODE_MAX - 1 -> Forall (fun row => exists w, row = [w]) l ->
  pm_ok (set_sleep_status l p).
Proof. intros [] ? ?. constructor; pm_fields; done. Qed.
Create HintDb pm.
#[export] Hint Resolve set_modes_ok set_sleep_mode_ok set_run_mode_ok set_modules_ok set_sleep_status_ok : pm.
#[export] Hint Resolve wf_pm ok_modes ok_counts ok_modules ok_rows ok_words : pm.

Lemma wp_mode_count s i (Q : Z -> pm_st -> Prop) :
  pm_wf s -> 0 <= i < PM_SLEEP_MODE_MAX ->
  (forall n, is_byte n -> aget (modes (pm s)) i = Ok n -> Q n s) -> wp (mode_count i) Q s.
Proof.
  intros Hs Hi HQ. unfold mode_count. apply wp_get. unfold wp, lift.
  destruct (aget_in (modes (pm s)) i) as [n Hn]; [rewrite ok_modes by eauto with pm; done|].
  rewrite Hn. apply HQ; [|done]. eapply aget_Forall; [|done]. eauto with pm.
Qed.

Lemma Forall_aset {A} (P : A -> Prop) l i x l' : Forall P l -> P x -> aset l i x = Ok l' -> Forall P l'.
Proof. intros Hl Hx [_ ->]%aset_Ok. by apply Forall_insert. Qed.

Lemma wp_set_mode_count s i n (Q : unit -> pm_st -> Prop) :
  pm_wf s -> 0 <= i < PM_SLEEP_MODE_MAX -> is_byte n ->
  (forall s', pm_wf s' -> Q tt s') -> wp (set_mode_count i n) Q s.
Proof.
  intros Hs Hi Hn HQ. unfold set_mode_count. apply wp_get, wp_bind.
  pose proof (wf_pm s Hs) as Hp.
  destruct (aset (modes (pm s)) i n) as [l|] eqn:El.
  - unfold wp at 1, lift. apply wp_set_pm; [done| |done..|done].
    apply set_modes_ok; [done| |].
    + rewrite (aset_Zlen _ _ _ _ El). by apply ok_modes.
    + eapply Forall_aset; [| |done]; [by apply ok_counts|done].
  - rewrite aset_in in El; [done|]. rewrite ok_modes by done. done.
Qed.

Lemma wp_set_modules s i m (Q : unit -> pm_st -> Prop) :
  pm_wf s -> 0 <= i < PM_MODULE_MAX_ID -> (forall s', pm_wf s' -> Q tt s') ->
  wp (l ← lift (aset (module_status (pm s)) i m); set_pm (set_modules l)) Q s.
Proof.
  intros Hs Hi HQ. apply wp_bind. unfold wp at 1, lift.
  destruct (aset (module_status (pm s)) i m) as [l|] eqn:El.
  - apply wp_set_pm; [done| |done..|done]. apply set_modules_ok; [by apply wf_pm|].
    rewrite (aset_Zlen _ _ _ _ El). by apply ok_modules, wf_pm.
  - rewrite aset_in in El; [done|]. by rewrite ok_modules by by apply wf_pm.
Qed.

Lemma wp_get_module s i (Q : rt_pm_module -> pm_st -> Prop) :
  pm_wf s -> 0 <= i < PM_MODULE_MAX_ID -> (forall m, Q m s) -> wp (lift (aget (module_status (pm s)) i)) Q s.
Proof.
  intros Hs Hi HQ. unfold wp, lift. destruct (aget_in (module_status (pm s)) i) as [m ->]; [|done].
  by rewrite ok_modules by by apply wf_pm.
Qed.

Lemma wp_set_req_status s i v (Q : unit -> pm_st -> Prop) :
  pm_wf s -> 0 <= i < PM_MODULE_MAX_ID -> (forall s', pm_wf s' -> Q tt s') -> wp (set_req_status i v) Q s.
Proof.
  intros Hs Hi HQ. unfold set_req_status. apply wp_get, wp_bind, wp_get_module; [done..|]. intros m.
  by apply wp_set_modules.
Qed.

(** *** Requests and releases *)

Ltac pm_guard := match goal with |- wp (if ?b then _ else _) _ _ => destruct b eqn:?; [apply wp_ret; try done|] end.

(** The tests of a mode and of a module number. *)
Lemma mode_guard mode : (PM_SLEEP_MODE_MAX - 1 <? u8 mode) = false -> 0 <= u8 mode < PM_SLEEP_MODE_MAX.
Proof. intros H%Z.ltb_ge. pose proof (wrap_range 8 mode). lia. Qed.
Lemma module_guard id : (PM_MODULE_MAX_ID - 1 <? u8 id) = false -> 0 <= u8 id < PM_MODULE_MAX_ID.
Proof. intros H%Z.ltb_ge. pose proof (wrap_range 8 id). lia. Qed.
#[export] Hint Resolve mode_guard module_guard : pm.

Lemma u8_byte n : is_byte (u8 n).
Proof. apply (wrap_range 8). lia. Qed.

Lemma wp_count_up s i (Q : unit -> pm_st -> Prop) :
  pm_wf s -> 0 <= i < PM_SLEEP_MODE_MAX -> (forall s', pm_wf s' -> Q tt s') ->
  wp (n ← mode_count i; if n <? 255 then set_mode_count i (u8 (n + 1)) else mret tt) Q s.
Proof.
  intros Hs Hi HQ. apply wp_bind, wp_mode_count; [done..|]. intros n Hn _.
  destruct (n <? 255); [|by apply HQ]. apply wp_set_mode_count; [done..|apply u8_byte|done].
Qed.

Lemma wp_count_down s i (Q : unit -> pm_st -> Prop) :
  pm_wf s -> 0 <= i < PM_SLEEP_MODE_MAX -> (forall s', pm_wf s' -> Q tt s') ->
  wp (n ← mode_count i; if 0 <? n then set_mode_count i (u8 (n - 1)) else mret tt) Q s.
Proof.
  intros Hs Hi HQ. apply wp_bind, wp_mode_count; [done..|]. intros n Hn _.
  destruct (0 <? n); [|by apply HQ]. apply wp_set_mode_count; [done..|apply u8_byte|done].
Qed.

Lemma wp_request s mode : pm_wf s -> wp (rt_pm_request mode) (fun _ => pm_wf) s.
Proof. intros Hs. apply wp_get. do 2 pm_guard. apply wp_count_up; [done|by apply mode_guard|done]. Qed.

Lemma wp_release s mode : pm_wf s -> wp (rt_pm_release mode) (fun _ => pm_wf) s.
Proof. intros Hs. apply wp_get. do 2 pm_guard. apply wp_count_down; [done|by apply mode_guard|done]. Qed.

Lemma wp_release_all s mode : pm_wf s -> wp (rt_pm_release_all mode) (fun _ => pm_wf) s.
Proof. intros Hs. apply wp_get. do 2 pm_guard. apply wp_set_mode_count; [done|by apply mode_guard|done|done]. Qed.

Lemma wp_module_request s id mode : pm_wf s -> wp (rt_pm_module_request id mode) (fun _ => pm_wf) s.
Proof.
  intros Hs. apply wp_get. do 3 pm_guard. apply wp_bind, wp_set_req_status; [done|by apply module_guard|].
  intros s' Hs'. apply wp_count_up; [done|by apply mode_guard|done].
Qed.

Lemma wp_module_release s id mode : pm_wf s -> wp (rt_pm_module_release id mode) (fun _ => pm_wf) s.
Proof.
  intros Hs. apply wp_get. do 3 pm_guard. pose proof (mode_guard mode).
  apply wp_bind, wp_mode_count; [done|auto|]. intros n _ _. apply wp_bind.
  assert (wp (if 0 <? n then set_mode_count (u8 mode) (u8 (n - 1)) else mret tt) (fun _ => pm_wf) s) as Hd.
  { destruct (0 <? n); [|done]. apply wp_set_mode_count; [done|auto|apply u8_byte|done]. }
  eapply wp_mono; [exact Hd|]. intros [] s' Hs'. apply wp_bind, wp_mode_count; [done|auto|].
  intros n' _ _. destruct (n' =? 0); [|done]. apply wp_set_req_status; [done|by apply module_guard|done].
Qed.

Lemma wp_module_release_all s id mode :
  pm_wf s -> u8 id < PM_MODULE_MAX_ID -> wp (rt_pm_module_release_all id mode) (fun _ => pm_wf) s.
Proof.
  intros Hs Hid. apply wp_get. do 2 pm_guard.
  apply wp_bind, wp_set_mode_count; [done|by apply mode_guard|done|].
  intros s' Hs'. apply wp_set_req_status; [done| |done]. pose proof (wrap_range 8 id). lia.
Qed.

Lemma wp_module_delay_sleep s id t : pm_wf s -> wp (rt_pm_module_delay_sleep id t) (fun _ => pm_wf) s.
Proof.
  intros Hs. apply wp_get. do 2 pm_guard.
  apply wp_bind, wp_get_module; [done|by apply module_guard|]. intros m.
  apply wp_set_modules; [done|by apply module_guard|done].
Qed.

Lemma wp_change_sleep_status s g id mode :
  pm_wf s -> wp (change_sleep_status g id mode) (fun _ => pm_wf) s.
Proof.
  intros Hs. unfold change_sleep_status. do 2 pm_guard. apply wp_get.
  apply Z.leb_gt in Heqb, Heqb0. pose proof (wrap_range 16 id). pose proof (wrap_range 8 mode).
  pose proof (wf_pm s Hs) as Hp.
  destruct (aget_in (sleep_status (pm s)) (u8 mode)) as [row Hr]; [rewrite ok_rows by done; lia|].
  destruct (aget_Forall _ _ _ _ (ok_words _ Hp) Hr) as [w ->].
  apply wp_bind. rewrite Hr. unfold wp at 1, lift. apply wp_bind.
  replace (u16 id / 32) with 0 by (change PM_MODULE_MAX_ID with 17 in *; zlia).
  change (aget [w] 0) with (Ok w). unfold wp at 1. apply wp_bind.
  change (aset [w] 0 (g w)) with (Ok [g w]). unfold wp at 1. apply wp_bind.
  destruct (aset (sleep_status (pm s)) (u8 mode) [g w]) as [l|] eqn:El.
  - unfold wp at 1. apply wp_set_pm; [done| |done..]. apply set_sleep_status_ok; [done| |].
    + rewrite (aset_Zlen _ _ _ _ El). by apply ok_rows.
    + eapply Forall_aset; [| |done]; [by apply ok_words|by eexists].
  - rewrite aset_in in El; [done|]. rewrite ok_rows by done. lia.
Qed.

(** *** Devices *)

Lemma pm_dev_ok s i (Q : rt_device_pm -> pm_st -> Prop) :
  pm_wf s -> 0 <= i < device_pm_number (pm s) -> (forall d, Q d s) -> wp (pm_dev i) Q s.
Proof.
  intros Hs Hi HQ. unfold pm_dev. apply wp_get, wp_bind.
  pose proof (ok_number _ (wf_pm s Hs)) as [Hn _]. pose proof (ok_devices _ (wf_pm s Hs)) as Hd.
  destruct (aget_in (device_pm (pm s)) i) as [e He]; [lia|]. rewrite He. unfold wp at 1, lift.
  apply aget_Ok in He as [_ He]. rewrite Forall_lookup in Hd.
  destruct (Hd (Z.to_nat i) e) as [d ->]; [|apply HQ].
  rewrite lookup_take_lt by lia. done.
Qed.

(** Loops over the devices only add to the trace. *)
Lemma device_loop s (body : rt_device_pm -> M pm_st unit) :
  pm_wf s -> (forall d t, wp (body d) (fun _ => unchanged t) t) ->
  wp (idx ← device_indices; mfor idx (fun index => d ← pm_dev index; body d)) (fun _ => unchanged s) s.
Proof.
  intros Hs Hb. unfold device_indices. apply wp_bind, wp_get, wp_ret.
  apply (wp_mfor_inv (unchanged s)); [apply unchanged_refl|]. intros x s' Hx%elem_of_seqZ Hs'.
  apply wp_bind, pm_dev_ok; [by eapply unchanged_wf|destruct Hs' as [-> _]; lia|]. intros d.
  eapply wp_mono; [apply Hb|]. intros [] t Ht. by eapply unchanged_trans.
Qed.

Ltac emit_or_not := match goal with |- wp (if ?b then _ else _) _ _ => destruct b end;
  [by apply wp_pm_emit|apply wp_ret, unchanged_refl].

Lemma resume_ok s mode : pm_wf s -> wp (_pm_device_resume mode) (fun _ => unchanged s) s.
Proof. intros. apply device_loop; [done|]. intros. emit_or_not. Qed.
Lemma frequency_change_ok s mode : pm_wf s -> wp (_pm_device_frequency_change mode) (fun _ => unchanged s) s.
Proof. intros. apply device_loop; [done|]. intros. emit_or_not. Qed.

Lemma suspend_ok s mode : pm_wf s -> wp (_pm_device_suspend mode) (fun _ => unchanged s) s.
Proof.
  intros Hs. unfold _pm_device_suspend, device_indices. apply wp_bind, wp_get, wp_ret.
  set (idx := seqZ 0 (device_pm_number (pm s))).
  assert (Forall (fun i => 0 <= i < device_pm_number (pm s)) idx) as Hi.
  { apply Forall_forall. intros x Hx%elem_of_seqZ. lia. }
  generalize RT_EOK. revert Hi. generalize idx. clear idx.
  cut (forall idx ret t, unchanged s t -> Forall (fun i => 0 <= i < device_pm_number (pm s)) idx ->
         wp (suspend_loop idx mode ret) (fun _ => unchanged s) t).
  { intros H idx Hi ret. by apply H. }
  induction idx as [|i idx IH]; intros ret t Ht Hi; cbn [suspend_loop]; [done|].
  inversion_clear Hi. apply wp_bind, pm_dev_ok; [by eapply unchanged_wf|by destruct Ht as [-> _]|].
  intros d. destruct (pm_suspend d) as [f|]; [|by apply IH].
  apply wp_bind, wp_pm_emit. intros t' Ht'. pose proof (unchanged_trans _ _ _ Ht Ht').
  destruct (negb _); [done|]. by apply IH.
Qed.

Lemma notify_ok s b m : wp (notify b m) (fun _ => unchanged s) s.
Proof. unfold notify. apply wp_get. emit_or_not. Qed.

(** *** The manager *)

Lemma wp_unchanged {A} (m : M pm_st A) s :
  pm_wf s -> wp m (fun _ => unchanged s) s -> wp m (fun _ => pm_wf) s.
Proof. intros Hs H. eapply wp_mono; [exact H|]. intros a s' H'. exact (unchanged_wf _ _ H' Hs). Qed.

(** A step that keeps the invariant, then the rest. *)
Lemma wp_then {A B} (m : M pm_st A) (k : A -> M pm_st B) s (Q : B -> pm_st -> Prop) :
  wp m (fun _ => pm_wf) s -> (forall a s', pm_wf s' -> wp (k a) Q s') -> wp (m ≫= k) Q s.
Proof. intros Hm Hk. apply wp_bind. eapply wp_mono; [exact Hm|]. intros a s'. apply Hk. Qed.

Lemma wp_emit_wf s e : pm_wf s -> wp (pm_emit e) (fun _ => pm_wf) s.
Proof. intros Hs. apply wp_unchanged; [done|]. by apply wp_pm_emit. Qed.
Lemma wp_stop_cnt_wf s n : pm_wf s -> wp (set_stop_cnt n) (fun _ => pm_wf) s.
Proof. intros Hs. by apply (unchanged_wf s). Qed.
Lemma wp_tick_set_wf s n : pm_wf s -> wp (rt_tick_set n) (fun _ => pm_wf) s.
Proof. intros Hs. by apply (unchanged_wf s). Qed.
#[export] Hint Resolve wp_emit_wf wp_stop_cnt_wf wp_tick_set_wf wp_request wp_release : pm.

Lemma entry_ok s mode :
  pm_wf s -> 0 <= mode < PM_SLEEP_MODE_MAX -> wp (pm_entry_func mode) (fun _ => pm_wf) s.
Proof.
  intros Hs Hm. unfold pm_entry_func. apply wp_get. do 2 pm_guard.
  apply Z.eqb_neq in Heqb0.
  destruct (Z.eqb_spec mode PM_SLEEP_MODE_IDLE); [eauto with pm|].
  destruct (Z.eqb_spec mode PM_SLEEP_MODE_LIGHT); [eauto with pm|].
  destruct (Z.eqb_spec mode PM_SLEEP_MODE_DEEP).
  - apply wp_then; [eauto with pm|intros _ s1 H1]. apply wp_then; [apply wp_then; eauto with pm|intros _ s2 H2].
    do 2 (apply wp_then; [eauto with pm|intros ? ? ?]). apply wp_get.
    match goal with |- wp (if ?b then _ else _) _ _ => destruct b end; [|done].
    do 5 (apply wp_then; [unfold pm_clock_init_pwronoff; eauto with pm|intros ? ? ?]). eauto with pm.
  - destruct (Z.eqb_spec mode PM_SLEEP_MODE_STANDBY); [apply wp_then; eauto with pm|].
    destruct (Z.eqb_spec mode PM_SLEEP_MODE_SHUTDOWN); [done|]. exfalso.
    cbv [PM_SLEEP_MODE_MAX PM_SLEEP_MODE_NONE PM_SLEEP_MODE_IDLE PM_SLEEP_MODE_LIGHT PM_SLEEP_MODE_DEEP
      PM_SLEEP_MODE_STANDBY PM_SLEEP_MODE_SHUTDOWN] in *. lia.
Qed.

Lemma ops_sleep_ok s mode :
  pm_wf s -> pm_init_flag s = true -> 0 <= mode < PM_SLEEP_MODE_MAX ->
  wp (ops_sleep mode) (fun _ => pm_wf) s.
Proof.
  intros Hs Hf Hm. destruct (wf_ops s Hs Hf) as (o & Ho & Hsl & _).
  unfold ops_sleep, pm_ops. apply wp_bind, wp_get. rewrite Ho. unfold wp at 1, lift. cbn [of_option].
  rewrite Hsl. by apply entry_ok.
Qed.

Lemma pm_sleep_ok s mode :
  pm_wf s -> 0 <= mode < PM_SLEEP_MODE_MAX -> wp (pm_sleep mode) (fun _ => pm_wf) s.
Proof.
  intros Hs Hm. unfold pm_sleep. apply wp_get. destruct (ops (pm s)) as [o|]; [|done].
  destruct (op_sleep o); [by apply entry_ok|done].
Qed.

Lemma set_sleep_mode_wf s m :
  pm_wf s -> 0 <= m < PM_SLEEP_MODE_MAX -> wp (set_pm (set_sleep_mode m)) (fun _ => pm_wf) s.
Proof. intros Hs Hm. apply wp_set_pm; [done| |done..]. apply set_sleep_mode_ok; [by apply wf_pm|done]. Qed.

(** The invariant with the flag, which nothing in the manager changes. *)
Definition wf_on (s : pm_st) : Prop := pm_wf s /\ pm_init_flag s = true.

Lemma check_idle_ok idx s :
  wf_on s -> Forall (fun i => 0 <= i < PM_MODULE_MAX_ID) idx ->
  wp (check_idle_loop idx) (fun _ s' => wf_on s' /\ sleep_mode (pm s') = sleep_mode (pm s)) s.
Proof.
  revert s. induction idx as [|i idx IH]; intros s Hs Hi; cbn [check_idle_loop]; [done|].
  inversion_clear Hi. apply wp_get, wp_bind, wp_get_module; [apply Hs|done|]. intros m.
  destruct (busy_flag m); [|by apply IH]. destruct (timeout m <? _); [|done].
  apply wp_bind. unfold wp at 1, lift. destruct (aset _ i _) as [l|] eqn:El.
  - apply wp_bind. unfold wp at 1, set_pm, modify.
    eapply wp_mono; [apply IH; [|done]|by intros].
    destruct Hs as [[? ? ? ?] ?]. split; [|done]. constructor; [cbn|done..].
    apply set_modules_ok; [done|]. rewrite (aset_Zlen _ _ _ _ El). by apply ok_modules.
  - rewrite aset_in in El; [done|]. rewrite ok_modules by apply Hs. done.
Qed.

Lemma scaling_ok s : wf_on s -> wp _pm_frequency_scaling (fun _ => wf_on) s.
Proof.
  intros [Hs Hf]. unfold _pm_frequency_scaling. apply wp_get.
  destruct (Z.eqb_spec (Z.land (flags (pm s)) RT_PM_FREQUENCY_PENDING) 0) as [E|E]; [done|]. cbn [negb].
  destruct (wf_ops s Hs Hf) as (o & Ho & Hsl & [Hr|Hr]); [|done].
  unfold ops_run, pm_ops. apply wp_bind, wp_bind, wp_get. rewrite Ho. unfold wp at 1, lift. cbn [of_option].
  rewrite Hr. apply wp_pm_emit. intros s1 H1. pose proof (unchanged_wf _ _ H1 Hs) as W1.
  apply wp_bind. eapply wp_mono; [by apply frequency_change_ok|]. intros [] s2 H2. cbv beta.
  pose proof (unchanged_wf _ _ H2 W1) as W2. pose proof (unchanged_trans _ _ _ H1 H2) as (Ep & Ef & _).
  unfold wp, set_pm, modify. split; [|cbn; congruence].
  destruct W2 as [P2 ? ? O2]. constructor; [cbn|done|done|].
  - apply set_run_mode_ok; [done|]. by apply ok_run_mode.
  - intros _. exists o. cbn. rewrite Ep. split_and!; [done..|by left].
Qed.

Lemma unchanged_on s s' : unchanged s s' -> wf_on s -> wf_on s'.
Proof. intros H [Hs Hf]. split; [exact (unchanged_wf _ _ H Hs)|]. destruct H as (_ & -> & _). done. Qed.

(** A step that only adds to the trace, then the rest. *)
Lemma on_then {A B} (m : M pm_st A) (k : A -> M pm_st B) s Q :
  wf_on s -> wp m (fun _ => unchanged s) s -> (forall a s', wf_on s' -> wp (k a) Q s') -> wp (m ≫= k) Q s.
Proof.
  intros Hs Hm Hk. apply wp_bind. eapply wp_mono; [exact Hm|]. intros a s' H. apply Hk.
  exact (unchanged_on _ _ H Hs).
Qed.

Lemma set_sleep_mode_on s m :
  wf_on s -> 0 <= m < PM_SLEEP_MODE_MAX -> wp (set_pm (set_sleep_mode m)) (fun _ => wf_on) s.
Proof.
  intros [Hs Hf] Hm. unfold wp, set_pm, modify. split; [|done].
  destruct Hs as [Hp ? ? ?]. constructor; [|done..]. by apply set_sleep_mode_ok.
Qed.

Lemma wp_cur_sleep_mode s (Q : Z -> pm_st -> Prop) :
  pm_wf s -> (forall m, 0 <= m < PM_SLEEP_MODE_MAX -> Q m s) -> wp cur_sleep_mode Q s.
Proof. intros Hs H. apply H. apply ok_sleep_mode. by apply wf_pm. Qed.

Lemma wp_has_timer s (Q : bool -> pm_st -> Prop) : (forall b, Q b s) -> wp has_timer Q s.
Proof. intros H. apply H. Qed.

Lemma timer_start_ok s t : wp (pm_lptimer_start t) (fun _ => unchanged s) s.
Proof. unfold pm_lptimer_start. apply wp_get. destruct (ops _) as [o|]; [|by apply wp_ret]. emit_or_not. Qed.
Lemma timer_stop_ok s : wp pm_lptimer_stop (fun _ => unchanged s) s.
Proof. unfold pm_lptimer_stop. apply wp_get. destruct (ops _) as [o|]; [|by apply wp_ret]. emit_or_not. Qed.

Lemma tickless_ok s m : wf_on s -> 0 <= m < PM_SLEEP_MODE_MAX -> wp (tickless m) (fun _ => wf_on) s.
Proof.
  intros Hs Hm. apply wp_get, wp_bind. unfold pm_timer_next_timeout_tick. apply wp_get, wp_ret.
  apply wp_bind. unfold pm_get_sleep_threshold_mode. apply wp_get, wp_ret. apply wp_bind.
  eapply wp_mono; [apply set_sleep_mode_on; [done|]|].
  - repeat case_match; cbv [PM_SLEEP_MODE_IDLE PM_SLEEP_MODE_MAX] in *; lia.
  - intros [] s' Hs'. apply wp_bind, wp_has_timer. intros []; [|done].
    eapply wp_mono; [apply timer_start_ok|]. intros [] s2 H2. exact (unchanged_on _ _ H2 Hs').
Qed.

Lemma wake_ok s : pm_wf s -> wp wake_up (fun _ => pm_wf) s.
Proof.
  intros Hs. apply wp_bind, wp_has_timer. intros b. apply wp_then.
  - destruct b; [|done]. apply wp_bind. unfold pm_lptimer_get_timeout. apply wp_get, wp_ret.
    apply wp_then; [by apply wp_unchanged, timer_stop_ok|]. intros _ s1 H1. apply wp_get.
    apply wp_then; [|by intros]. destruct (negb _); [by apply wp_tick_set_wf|done].
  - intros d s1 H1. apply wp_bind, wp_cur_sleep_mode; [done|]. intros m Hm.
    apply wp_then; [by apply wp_unchanged, resume_ok|]. intros _ s2 H2.
    apply wp_then; [by apply wp_unchanged, notify_ok|]. intros _ s3 H3.
    apply wp_bind, wp_has_timer. intros b'. destruct (b' && _); [by apply wp_emit_wf|done].
Qed.

Lemma change_ok s : wf_on s -> wp _pm_change_sleep_mode (fun _ => pm_wf) s.
Proof.
  intros Hs. unfold _pm_change_sleep_mode. apply wp_get, wp_bind.
  destruct (select_spec (pm_default_deepsleep s) (pm s)) as (m & Hm & Hr & _); [apply Hs..|].
  rewrite Hm. unfold wp at 1, lift. apply wp_bind.
  eapply wp_mono; [by apply set_sleep_mode_on|]. intros [] s1 H1.
  apply wp_bind. unfold _pm_device_check_idle. apply wp_get. destruct H1 as [W1 F1]. rewrite F1. cbn [negb].
  eapply wp_mono; [apply check_idle_ok; [done|apply Forall_forall; intros x Hx%elem_of_seqZ; lia]|].
  intros idle s2 [H2 _]. apply wp_bind.
  assert (wp (if negb idle && (PM_BUSY_SLEEP_MODE <? m) then set_pm (set_sleep_mode PM_BUSY_SLEEP_MODE)
              else mret tt) (fun _ => wf_on) s2) as Hb.
  { destruct (_ && _); [|done]. by apply set_sleep_mode_on. }
  eapply wp_mono; [exact Hb|]. intros [] s3 H3. apply wp_bind, wp_cur_sleep_mode; [apply H3|].
  intros m' Hm'. destruct (m' =? PM_SLEEP_MODE_NONE); [by apply ops_sleep_ok; [apply H3..|]|].
  apply on_then; [done|apply notify_ok|]. intros _ s4 H4.
  apply on_then; [done|apply suspend_ok, H4|]. intros ret s5 H5.
  destruct (negb (ret =? RT_EOK)).
  - apply on_then; [done|apply resume_ok, H5|]. intros _ s6 H6.
    apply on_then; [done|apply notify_ok|]. intros _ s7 H7. apply wp_bind.
    assert (wp (if PM_SUSPEND_SLEEP_MODE <? m' then set_pm (set_sleep_mode PM_SUSPEND_SLEEP_MODE)
                else mret tt) (fun _ => wf_on) s7) as Hs7.
    { destruct (PM_SUSPEND_SLEEP_MODE <? m'); [by apply set_sleep_mode_on|]. exact H7. }
    eapply wp_mono; [exact Hs7|]. intros [] s8 H8. apply wp_bind, wp_cur_sleep_mode; [apply H8|].
    intros m2 Hm2. by apply ops_sleep_ok; [apply H8..|].
  - apply wp_bind, wp_has_timer. intros b. apply wp_bind.
    assert (wp (if b then tickless m' else mret tt) (fun _ => wf_on) s5) as Ht.
    { destruct b; [by apply tickless_ok|done]. }
    eapply wp_mono; [exact Ht|]. intros [] s6 H6. apply wp_bind, wp_cur_sleep_mode; [apply H6|].
    intros m2 Hm2. apply wp_then; [by apply pm_sleep_ok; [apply H6|]|]. intros _ s7 H7. by apply wake_ok.
Qed.

Lemma manager_ok s : pm_wf s -> wp rt_system_power_manager (fun _ => pm_wf) s.
Proof.
  intros Hs. apply wp_get. destruct (pm_init_flag s) eqn:Hf; [|done]. cbn [negb].
  apply wp_bind. eapply wp_mono; [by apply scaling_ok|]. intros [] s' Hs'. by apply change_ok.
Qed.

(** *** The other operations *)

Lemma register_ok s d nomem : pm_wf s -> device_pm_number (pm s) < 255 -> wp (rt_pm_device_register d nomem) (fun _ => pm_wf) s.
Proof.
  intros Hs Hn. apply wp_get. destruct nomem; [done|]. pose proof (wf_pm s Hs) as Hp.
  pose proof (ok_number _ Hp) as [[Hn1 Hn2] Hn3].
  apply wp_set_pm; [done| |done..]. rewrite wrap_small by lia.
  assert (Z.of_nat (length (take (Z.to_nat (device_pm_number (pm s))) (device_pm (pm s)))) =
    device_pm_number (pm s)) as El by (rewrite length_take; unfold Zlen in *; lia).
  pose proof (ok_devices _ Hp) as Hd.
  destruct Hp. constructor; pm_fields; [done..| |].
  - rewrite Zlen_app. unfold Zlen. cbn [length]. lia.
  - rewrite take_ge by (rewrite length_app; cbn [length]; lia).
    apply Forall_app. split; [done|]. constructor; [by eexists|constructor].
Qed.

Lemma move_down_spec k l i :
  0 <= i -> i + Z.of_nat k < Zlen l ->
  exists l', move_down k l i = Ok l' /\ l' = take (Z.to_nat i) l ++ take k (drop (S (Z.to_nat i)) l) ++
    drop (Z.to_nat i + k) l.
Proof.
  revert l i. induction k as [|k IH]; intros l i Hi Hk; cbn [move_down].
  - exists l. split; [done|]. rewrite take_0, app_nil_l, Nat.add_0_r. by rewrite take_drop.
  - destruct (aget_in l (i + 1)) as [e He]; [lia|]. rewrite He, ok_bind.
    rewrite aset_in by lia. rewrite ok_bind.
    destruct (IH (<[Z.to_nat i:=e]> l) (i + 1)) as (l' & Hl' & E); [lia|unfold Zlen; rewrite length_insert; fold (Zlen l); lia|].
    exists l'. split; [done|]. rewrite E. apply aget_Ok in He as [_ He]. unfold Zlen in Hk.
    replace (Z.to_nat (i + 1)) with (S (Z.to_nat i)) in * by lia.
    apply list_eq. intros j. autorewrite with lk.
    repeat (case_decide; try (exfalso; lia)); try lk_ge; try (f_equal; lia).
    all: try (rewrite <- He; f_equal; lia). all: try done.
Qed.

(** The live entries, and an entry list without the first entry of a device. *)
Definition live_devices (p : rt_pm) : list (option rt_device_pm) :=
  take (Z.to_nat (device_pm_number p)) (device_pm p).
Definition is_device (device : Z) (e : option rt_device_pm) : bool :=
  match e with Some d => pm_device d =? device | None => 0 =? device end.
Fixpoint remove_device (device : Z) (l : list (option rt_device_pm)) : list (option rt_device_pm) :=
  match l with
  | [] => []
  | e :: l => if is_device device e then l else e :: remove_device device l
  end.

Lemma unregister_loop_spec device n k l i :
  0 <= i -> i + Z.of_nat k = n -> n <= Zlen l -> n < 256 ->
  exists n' l', unregister_loop k l n i device = Ok (n', l') /\ 0 <= n' <= n /\ Zlen l' = Zlen l /\
    take (Z.to_nat n') l' = take (Z.to_nat i) l ++ remove_device device (take k (drop (Z.to_nat i) l)).
Proof.
  revert i. induction k as [|k IH]; intros i Hi Hk Hn H256; cbn [unregister_loop].
  - exists n, l. split_and!; [done|lia|lia|done|]. rewrite take_0. cbn. rewrite app_nil_r. f_equal. lia.
  - destruct (aget_in l i) as [e He]; [lia|]. rewrite He, ok_bind. fold (is_device device e).
    apply aget_Ok in He as [_ He].
    assert (take (S k) (drop (Z.to_nat i) l) = e :: take k (drop (S (Z.to_nat i)) l)) as ->.
    { rewrite (drop_S l e (Z.to_nat i)) by done. done. }
    cbn [remove_device]. destruct (is_device device e).
    + destruct (move_down_spec (Z.to_nat (n - 1 - i)) l i) as (l1 & Hl1 & E1); [lia|lia|].
      rewrite Hl1, ok_bind. replace (Z.to_nat (n - 1 - i)) with k in E1 by lia.
      assert (length l1 = length l) as Hlen.
      { rewrite E1, !length_app, !length_take, !length_drop. unfold Zlen in Hn. lia. }
      rewrite aset_in by (unfold Zlen in *; lia). rewrite ok_bind, wrap_small by lia.
      exists (n - 1). eexists. split_and!; [done|lia|lia|unfold Zlen; rewrite length_insert; lia|].
      rewrite take_insert_ge by lia. rewrite E1, app_assoc.
      rewrite take_app_le by (rewrite length_app, !length_take, length_drop; unfold Zlen in Hn; lia).
      rewrite take_ge; [done|]. rewrite length_app, !length_take, length_drop. lia.
    + destruct (IH (i + 1)) as (n' & l' & H1 & H2 & H3 & H4); [lia..|].
      exists n', l'. split_and!; [done|lia|lia|done|]. rewrite H4.
      replace (Z.to_nat (i + 1)) with (S (Z.to_nat i)) by lia.
      rewrite (take_S_r _ _ _ He), <- app_assoc. done.
Qed.

Lemma remove_device_sub device l : Forall is_Some l -> Forall is_Some (remove_device device l).
Proof. induction 1 as [|e l He Hl IH]; cbn; [constructor|]. destruct (is_device device e); [done|]. by constructor. Qed.

Lemma unregister_spec s device :
  pm_wf s ->
  wp (rt_pm_device_unregister device) (fun _ s' => pm_wf s' /\
    live_devices (pm s') = remove_device device (live_devices (pm s))) s.
Proof.
  intros Hs. apply wp_get. pose proof (wf_pm s Hs) as Hp. pose proof (ok_number _ Hp) as [[Hn1 Hn2] Hn3].
  destruct (unregister_loop_spec device (device_pm_number (pm s)) (Z.to_nat (device_pm_number (pm s)))
    (device_pm (pm s)) 0) as (n' & l' & H1 & H2 & H3 & H4); [lia..|].
  apply wp_bind. rewrite H1. unfold wp at 1, lift. cbn [fst snd].
  change (Z.to_nat 0) with 0%nat in H4. rewrite take_0, drop_0 in H4. cbn [app] in H4.
  assert (pm_ok (set_devices n' l' (pm s))) as Hok.
  { pose proof (ok_devices _ Hp). destruct Hp. constructor; pm_fields; [done..|lia|].
    rewrite H4. by apply remove_device_sub. }
  split; [|exact H4]. destruct Hs. constructor; done.
Qed.

Lemma run_enter_ok s mode o :
  pm_wf s -> ops (pm s) = Some o -> op_run o = true -> wp (rt_pm_run_enter mode) (fun _ => pm_wf) s.
Proof.
  intros Hs Ho Hr. apply wp_get. do 2 pm_guard. apply Z.ltb_ge in Heqb0.
  assert (0 <= u8 mode <= PM_RUN_MODE_MAX) as Hm by (pose proof (wrap_range 8 mode); lia).
  assert (forall t f, pm_wf t -> ops (pm t) = Some o -> pm_wf (PmSt (set_run_mode (u8 mode) (f (pm t)) (pm t))
      (pm_init_flag t) (pm_default_sleep t) (pm_default_deepsleep t) (pm_notify t) (tick t) (next_timeout t)
      (lp_timeout t) (interrupt_nest t) (entry_stop_cnt t) (pm_trace t))) as Hset.
  { intros t f [Hp Hd Hdd Hops] Hot. constructor; cbn; [by apply set_run_mode_ok|done|done|].
    intros Hf. destruct (Hops Hf) as (o' & Ho' & Hsl & _). exists o'. split_and!; [done|done|].
    left. congruence. }
  destruct (u8 mode <? run_mode (pm s)).
  - unfold ops_run, pm_ops. apply wp_bind, wp_bind, wp_get. rewrite Ho. unfold wp at 1, lift. cbn [of_option].
    rewrite Hr. apply wp_pm_emit. intros s1 H1. pose proof (unchanged_wf _ _ H1 Hs) as W1.
    apply wp_bind. eapply wp_mono; [by apply frequency_change_ok|]. intros [] s2 H2. cbv beta.
    pose proof (unchanged_wf _ _ H2 W1) as W2. pose proof (unchanged_trans _ _ _ H1 H2) as (Ep & _).
    apply wp_bind. apply (Hset s2 flags); [done|congruence].
  - apply wp_bind. apply (Hset s (fun p => Z.lor (flags p) RT_PM_FREQUENCY_PENDING)); done.
Qed.

Lemma pm_init_ok s o mask :
  pm_wf s -> op_sleep o = true ->
  op_run o = true \/ Z.land (flags (pm s)) RT_PM_FREQUENCY_PENDING = 0 ->
  wp (rt_system_pm_init o mask) (fun _ => pm_wf) s.
Proof.
  intros [Hp Hd Hdd _] Hsl Hr. apply wp_get, wp_bind.
  destruct (aset (replicate (Z.to_nat PM_SLEEP_MODE_MAX) 0) (pm_default_sleep s) 1) as [ms|] eqn:Em;
    [|rewrite aset_in in Em; done].
  unfold wp at 1, lift. apply wp_bind.
  destruct (aget_in (module_status (pm s)) PM_POWER_ID) as [p Hpw]; [by rewrite ok_modules|].
  rewrite Hpw. unfold wp at 1. apply wp_bind.
  destruct (aset (module_status (pm s)) PM_POWER_ID (PmModule 1 (busy_flag p) (timeout p) (start_time p)))
    as [mods|] eqn:Eo; [|rewrite aset_in in Eo; [done|by rewrite ok_modules]].
  unfold wp at 1. apply wp_bind. constructor; cbn; [|done|done|].
  - constructor; pm_fields.
    + by rewrite (aset_Zlen _ _ _ _ Em).
    + eapply Forall_aset; [| |exact Em]; [by repeat constructor|done].
    + rewrite (aset_Zlen _ _ _ _ Eo). by apply ok_modules.
    + by apply ok_rows.
    + by apply ok_words.
    + done.
    + done.
    + done.
    + constructor.
  - intros _. by exists o.
Qed.

(** ** Reachable states *)

(** The calls of the interface, and the passing of time. *)
Inductive pm_call :=
  | CInit (o : rt_pm_ops) (timer_mask : Z)
  | CRequest (mode : Z)
  | CRelease (mode : Z)
  | CReleaseAll (mode : Z)
  | CModuleRequest (module_id mode : Z)
  | CModuleRelease (module_id mode : Z)
  | CModuleReleaseAll (module_id mode : Z)
  | CDelaySleep (module_id timeout : Z)
  | CSleepRequest (module_id mode : Z)
  | CSleepRelease (module_id mode : Z)
  | CRegister (d : rt_device_pm) (nomem : bool)
  | CUnregister (device : Z)
  | CNotifySet (b : bool)
  | CDefaultSet (mode : Z)
  | CRunEnter (mode : Z)
  | CWrite (pos : Z) (buffer : bytes)
  | CControl (cmd args : Z)
  | CManager
  | CTime (now next lp nest : Z).

Definition pm_do (c : pm_call) : M pm_st unit :=
  match c with
  | CInit o mask => rt_system_pm_init o mask
  | CRequest m => rt_pm_request m
  | CRelease m => rt_pm_release m
  | CReleaseAll m => rt_pm_release_all m
  | CModuleRequest i m => rt_pm_module_request i m
  | CModuleRelease i m => rt_pm_module_release i m
  | CModuleReleaseAll i m => rt_pm_module_release_all i m
  | CDelaySleep i t => rt_pm_module_delay_sleep i t
  | CSleepRequest i m => rt_pm_sleep_request i m
  | CSleepRelease i m => rt_pm_sleep_release i m
  | CRegister d nomem => rt_pm_device_register d nomem
  | CUnregister d => rt_pm_device_unregister d
  | CNotifySet b => rt_pm_notify_set b
  | CDefaultSet m => rt_pm_default_set m
  | CRunEnter m => rt_pm_run_enter m ;;; mret tt
  | CWrite pos b => _rt_pm_device_write pos b ;;; mret tt
  | CControl cmd a => _rt_pm_device_control cmd a ;;; mret tt
  | CManager => rt_system_power_manager
  | CTime now next lp nest => modify (fun s => PmSt (pm s) (pm_init_flag s) (pm_default_sleep s)
      (pm_default_deepsleep s) (pm_notify s) now next lp nest (entry_stop_cnt s) (pm_trace s))
  end.

(** What the code takes for granted: the board gives [sleep], and [run] before a run mode is
    set; the module number of a release-all; a sleep mode as default; at most 255 devices. *)
Definition call_ok (s : pm_st) (c : pm_call) : Prop :=
  match c with
  | CInit o _ => op_sleep o = true /\
      (op_run o = true \/ Z.land (flags (pm s)) RT_PM_FREQUENCY_PENDING = 0)
  | CModuleReleaseAll i _ => u8 i < PM_MODULE_MAX_ID
  | CRegister _ _ => device_pm_number (pm s) < 255
  | CDefaultSet m => u8 m < PM_SLEEP_MODE_MAX
  | CRunEnter _ => exists o, ops (pm s) = Some o /\ op_run o = true
  | _ => True
  end.

Inductive pm_reach : pm_st -> Prop :=
  | reach_boot : pm_reach pm_boot
  | reach_step s c s' : pm_reach s -> call_ok s c -> pm_do c s = Ok (tt, s') -> pm_reach s'.

Lemma wp_drop {A} (m : M pm_st A) s : wp m (fun _ => pm_wf) s -> wp (m ;;; mret tt) (fun _ => pm_wf) s.
Proof. intros H. by apply wp_bind. Qed.

Lemma pm_do_ok s c : pm_wf s -> call_ok s c -> wp (pm_do c) (fun _ => pm_wf) s.
Proof.
  intros Hs Hc. destruct c; cbn [pm_do call_ok] in *.
  - destruct Hc. by apply pm_init_ok.
  - by apply wp_request.
  - by apply wp_release.
  - by apply wp_release_all.
  - by apply wp_module_request.
  - by apply wp_module_release.
  - by apply wp_module_release_all.
  - by apply wp_module_delay_sleep.
  - by apply wp_change_sleep_status.
  - by apply wp_change_sleep_status.
  - by apply register_ok.
  - eapply wp_mono; [by apply unregister_spec|]. by intros [] s' [? _].
  - by apply (unchanged_wf s).
  - destruct Hs. constructor; cbn; [done| |done|done]. pose proof (wrap_range 8 mode). lia.
  - apply wp_drop. destruct Hc as (o & Ho & Hr). by eapply run_enter_ok.
  - apply wp_drop. destruct buffer as [|b buffer]; [done|]. apply wp_then; [|by intros].
    repeat case_match; [by apply wp_request|by apply wp_release|done].
  - apply wp_drop, wp_then; [|by intros]. repeat case_match; [by apply wp_request|by apply wp_release|done].
  - by apply manager_ok.
  - by apply (unchanged_wf s).
Qed.

Lemma pm_boot_wf : pm_wf pm_boot.
Proof.
  constructor; [|done..]. constructor; cbn; [done|by repeat constructor|done|done| |done|done|done|constructor].
  repeat constructor; by eexists.
Qed.

Lemma pm_reach_wf s : pm_reach s -> pm_wf s.
Proof.
  induction 1 as [|s c s' _ IH Hc Hd]; [apply pm_boot_wf|].
  pose proof (pm_do_ok s c IH Hc) as H. unfold wp in H. by rewrite Hd in H.
Qed.

(** ** Properties *)

(** C14. In every state that calls of the power manager reach after power on, in any order and with
    any devices, clock and interrupts, the counters are bytes, the tables keep their sizes, the
    modes are in range, and the next call returns: it does not index out of bounds, call a null
    pointer or fail an assertion.  The calls are those of [pm_call] under the conditions of
    [call_ok]: the board's operations have a [sleep]; they have a [run] when a run mode is set, or
    is pending at the initialisation; a release-all names a module below [PM_MODULE_MAX_ID]; a
    default sleep mode is a sleep mode; and at most 255 devices are registered.  The code does not
    test the second and the third: [run_mode_null] and [release_all_unchecked] are their faults. *)
Theorem pm_always_safe s c :
  pm_reach s -> call_ok s c ->
  pm_wf s /\ exists s', pm_do c s = Ok (tt, s') /\ pm_wf s'.
Proof.
  intros Hr Hc. pose proof (pm_reach_wf s Hr) as Hs. split; [done|].
  pose proof (pm_do_ok s c Hs Hc) as H.
  apply wp_run in H as ([] & s' & H1 & H2). by exists s'.
Qed.

(** After the firmware's start a device is registered and the idle thread has run. *)
Lemma pm_always_safe_witness :
  pm_reach pm_boot /\ pm_wf pm_boot /\ exists s', pm_do (CInit ele_ds_pm_ops 0) pm_boot = Ok (tt, s') /\ pm_wf s'.
Proof.
  split; [apply reach_boot|]. apply pm_always_safe; [apply reach_boot|]. split; [reflexivity|]. right. reflexivity.
Defined.

(** The manager's choice is the lowest numbered, i.e. most wakeful, mode that a counter or a
    module requests; without any counter it is the default, unless a module asks for a lower
    one. *)
Theorem selected_mode d p :
  pm_ok p -> 0 <= d < PM_SLEEP_MODE_MAX ->
  exists m, _pm_select_sleep_mode d p = Ok m /\ 0 <= m < PM_SLEEP_MODE_MAX /\
    (forall i, 0 <= i < m -> ~ requested p i) /\
    (requested p m \/ m = d /\ forall i n, 0 <= i -> aget (modes p) i = Ok n -> n = 0).
Proof. apply select_spec. Qed.

(** Standby alone is requested, by a counter, and LIGHT by module 3. *)
Definition demo_pm : rt_pm :=
  Pm [0; 0; 0; 0; 1; 0] 0 1 (replicate 17 (PmModule 0 false 0 0)) [[0]; [0]; [8]; [0]; [0]] 0 [] 0 0
    (Some ele_ds_pm_ops).

Lemma selected_mode_witness :
  exists m, _pm_select_sleep_mode PM_SLEEP_MODE_DEEP demo_pm = Ok m /\ 0 <= m < PM_SLEEP_MODE_MAX /\
    (forall i, 0 <= i < m -> ~ requested demo_pm i) /\
    (requested demo_pm m \/ m = PM_SLEEP_MODE_DEEP /\ forall i n, 0 <= i -> aget (modes demo_pm) i = Ok n -> n = 0).
Proof.
  apply selected_mode; [|apply (bool_decide_unpack _); vm_compute; exact I].
  constructor; try reflexivity.
  - apply (bool_decide_unpack _). vm_compute. exact I.
  - repeat constructor; by eexists.
  - apply (bool_decide_unpack _). vm_compute. exact I.
  - apply (bool_decide_unpack _). vm_compute. exact I.
  - apply (bool_decide_unpack _). vm_compute. exact I.
  - constructor.
Defined.

(** A registered device is appended to the table; unregistering removes the first entry of
    the device and keeps the order of the others, whatever their number. *)
Theorem device_table s d device :
  pm_reach s -> device_pm_number (pm s) < 255 ->
  exists s1 s2,
    rt_pm_device_register d false s = Ok (tt, s1) /\ live_devices (pm s1) = live_devices (pm s) ++ [Some d] /\
    rt_pm_device_unregister device s1 = Ok (tt, s2) /\
    live_devices (pm s2) = remove_device device (live_devices (pm s) ++ [Some d]).
Proof.
  intros Hr Hn. pose proof (pm_reach_wf s Hr) as Hs.
  pose proof (register_ok s d false Hs Hn) as H. apply wp_run in H as ([] & s1 & H1 & W1).
  assert (live_devices (pm s1) = live_devices (pm s) ++ [Some d]) as E1.
  { injection H1 as <-. unfold live_devices, set_pm, set_devices. cbn.
    pose proof (ok_number _ (wf_pm s Hs)) as [[? ?] ?]. rewrite wrap_small by lia.
    rewrite take_ge; [done|]. rewrite length_app, length_take. cbn. lia. }
  pose proof (unregister_spec s1 device W1) as H. apply wp_run in H as ([] & s2 & H2 & _ & E2).
  exists s1, s2. split_and!; [done..|]. by rewrite E2, E1.
Qed.

Lemma device_table_witness :
  exists s1 s2,
    rt_pm_device_register (DevicePm 7 None true false) false pm_boot = Ok (tt, s1) /\
    live_devices (pm s1) = live_devices (pm pm_boot) ++ [Some (DevicePm 7 None true false)] /\
    rt_pm_device_unregister 7 s1 = Ok (tt, s2) /\
    live_devices (pm s2) = remove_device 7 (live_devices (pm pm_boot) ++ [Some (DevicePm 7 None true false)]).
Proof. apply device_table; [apply reach_boot|reflexivity]. Defined.

(** A number that is no module's is not refused by [rt_pm_module_release_all]: it writes
    behind the table. *)
Theorem release_all_unchecked s id mode :
  pm_reach s -> pm_init_flag s = true -> PM_MODULE_MAX_ID <= u8 id -> u8 mode < PM_SLEEP_MODE_MAX ->
  rt_pm_module_release_all id mode s = Err OutOfBounds.
Proof.
  intros Hr Hf Hid Hm. pose proof (pm_reach_wf s Hr) as Hs. unfold rt_pm_module_release_all, get.
  rewrite (bind_step _ _ s s s) by done. rewrite Hf. cbn [negb].
  destruct (Z.ltb_spec (PM_SLEEP_MODE_MAX - 1) (u8 mode)) as [|_]; [lia|].
  pose proof (wrap_range 8 mode). pose proof (wf_pm s Hs) as Hp.
  pose proof (aset_in (modes (pm s)) (u8 mode) 0) as Hl. rewrite ok_modes in Hl by done.
  assert (set_mode_count (u8 mode) 0 s = Ok (tt, PmSt (set_modes (<[Z.to_nat (u8 mode):=0]> (modes (pm s))) (pm s))
    (pm_init_flag s) (pm_default_sleep s) (pm_default_deepsleep s) (pm_notify s) (tick s) (next_timeout s)
    (lp_timeout s) (interrupt_nest s) (entry_stop_cnt s) (pm_trace s))) as E.
  { unfold set_mode_count, get, lift, mbind, M_bind. rewrite Hl by lia. done. }
  rewrite (bind_step _ _ _ _ _ E). unfold set_req_status, get, lift, mbind, M_bind. cbn [pm set_modes module_status].
  assert (aget (module_status (pm s)) (u8 id) = Err OutOfBounds) as ->; [|done].
  unfold aget. pose proof (wrap_range 8 id). rewrite decide_True by lia.
  rewrite lookup_ge_None_2; [done|]. pose proof (ok_modules _ Hp). unfold Zlen in *. lia.
Qed.

(** The state behind the firmware's start. *)
Definition pm_started : pm_st :=
  PmSt (Pm [1; 0; 0; 0; 0; 0] 0 1
          (PmModule 0 false 0 0 :: PmModule 1 false 0 0 :: replicate 15 (PmModule 0 false 0 0))
          (replicate 5 [0]) 0 [] 0 0 (Some ele_ds_pm_ops))
    true 0 3 false 0 0 0 0 0 [].

Lemma ele_ds_pm_init_run : pm_do (CInit ele_ds_pm_ops 0) pm_boot = Ok (tt, pm_started).
Proof. reflexivity. Qed.

Lemma pm_started_reach : pm_reach pm_started.
Proof.
  eapply reach_step; [apply reach_boot| |apply ele_ds_pm_init_run]. split; [done|by right].
Qed.

Lemma release_all_unchecked_witness : rt_pm_module_release_all 17 0 pm_started = Err OutOfBounds.
Proof.
  apply release_all_unchecked; [apply pm_started_reach|reflexivity|apply Z.leb_le; reflexivity|reflexivity].
Defined.

Lemma check_idle_quiet idx s :
  Forall (fun m => busy_flag m = false) (module_status (pm s)) ->
  Forall (fun i => 0 <= i < Zlen (module_status (pm s))) idx ->
  check_idle_loop idx s = Ok (true, s).
Proof.
  intros Hm. induction 1 as [|i idx Hi _ IH]; [done|]. cbn [check_idle_loop].
  unfold get, lift, mbind, M_bind. destruct (aget_in _ _ Hi) as [m Em]. rewrite Em.
  rewrite (aget_Forall _ _ _ _ Hm Em). exact IH.
Qed.

(** A state in which only the counters decide: no device, no module, no timer, no callback. *)
Definition quiet_st l sm rm mods ds tk nt lt cnt tr : pm_st :=
  PmSt (Pm l sm rm mods (replicate 5 [0]) 0 [] 0 0 (Some ele_ds_pm_ops)) true ds 3 false tk nt lt 0 cnt tr.

(** With DEEP the lowest requested mode, a pass of the idle thread is the board's function. *)
Lemma deep_pass k n4 n5 sm rm mods ds tk nt lt cnt tr :
  Zlen mods = PM_MODULE_MAX_ID -> Forall (fun m => busy_flag m = false) mods -> k <> 0 ->
  rt_system_power_manager (quiet_st [0; 0; 0; k; n4; n5] sm rm mods ds tk nt lt cnt tr) =
    (pm_entry_func 3 ;;; wake_up) (quiet_st [0; 0; 0; k; n4; n5] 3 rm mods ds tk nt lt cnt tr).
Proof.
  intros Hl Hb Hk.
  assert (_pm_select_sleep_mode 3 (Pm [0; 0; 0; k; n4; n5] sm rm mods (replicate 5 [0]) 0 [] 0 0
    (Some ele_ds_pm_ops)) = Ok 3) as Hsel.
  { unfold _pm_select_sleep_mode. cbn [modes].
    change (select_loop (seqZ PM_SLEEP_MODE_NONE PM_SLEEP_MODE_MAX) [0; 0; 0; k; n4; n5] 3) with
      (if negb (k =? 0) then Ok 3 else select_loop [4; 5] [0; 0; 0; k; n4; n5] 3).
    destruct (Z.eqb_spec k 0); [lia|reflexivity]. }
  unfold rt_system_power_manager. erewrite bind_step; [|reflexivity]. cbn [pm_init_flag negb quiet_st].
  erewrite bind_step; [|reflexivity]. unfold _pm_change_sleep_mode.
  erewrite bind_step; [|reflexivity]. cbn [pm_default_deepsleep pm quiet_st].
  erewrite bind_step; [|unfold lift; rewrite Hsel; reflexivity].
  erewrite bind_step; [|reflexivity].
  erewrite bind_step; [|unfold _pm_device_check_idle; erewrite bind_step; [|reflexivity]; cbn [pm_init_flag negb];
    apply check_idle_quiet; [exact Hb|]].
  - repeat (erewrite bind_step; [|reflexivity]). reflexivity.
  - apply Forall_forall. intros x Hx%elem_of_seqZ. cbn. rewrite Hl. lia.
Qed.

Lemma wake_quiet l rm mods ds tk nt lt cnt tr :
  let s := quiet_st l 3 rm mods ds tk nt lt cnt tr in wake_up s = Ok (tt, s).
Proof. reflexivity. Qed.

Lemma deep_enter l rm mods ds tk nt lt tr :
  (pm_entry_func 3 ;;; wake_up) (quiet_st l 3 rm mods ds tk nt lt 0 tr) =
    Ok (tt, quiet_st l 3 rm mods ds tk nt lt 1
      (tr ++ [EvGpio false; EvDelay 100; EvSuspendTick; EvStopMode])).
Proof.
  assert (pm_entry_func 3 (quiet_st l 3 rm mods ds tk nt lt 0 tr) = Ok (tt, quiet_st l 3 rm mods ds tk nt lt 1
    ((((tr ++ [EvGpio false]) ++ [EvDelay 100]) ++ [EvSuspendTick]) ++ [EvStopMode]))) as E by reflexivity.
  rewrite (bind_step _ _ _ _ _ E). rewrite <- !app_assoc. apply wake_quiet.
Qed.

Lemma deep_leave k n4 n5 rm mods ds tk nt lt tr :
  0 < k < 256 ->
  (pm_entry_func 3 ;;; wake_up) (quiet_st [0; 0; 0; k; n4; n5] 3 rm mods ds tk nt lt 1 tr) =
    Ok (tt, quiet_st [1; 0; 0; k - 1; n4; n5] 3 rm mods ds tk nt lt 0
      (tr ++ [EvGpio false; EvDelay 100; EvSuspendTick; EvStopMode; EvSystemClock; EvResumeTick; EvGpio true])).
Proof.
  intros Hk.
  assert (forall tr', (rt_pm_release 3 ;;; rt_pm_request 0) (quiet_st [0; 0; 0; k; n4; n5] 3 rm mods ds tk nt lt 0 tr') =
    Ok (tt, quiet_st [1; 0; 0; k - 1; n4; n5] 3 rm mods ds tk nt lt 0 tr')) as Hr.
  { intros tr'. assert (rt_pm_release 3 (quiet_st [0; 0; 0; k; n4; n5] 3 rm mods ds tk nt lt 0 tr') =
      Ok (tt, quiet_st [0; 0; 0; k - 1; n4; n5] 3 rm mods ds tk nt lt 0 tr')) as E.
    { change (rt_pm_release 3 (quiet_st [0; 0; 0; k; n4; n5] 3 rm mods ds tk nt lt 0 tr')) with
        ((if 0 <? k then set_mode_count 3 (u8 (k - 1)) else mret tt)
          (quiet_st [0; 0; 0; k; n4; n5] 3 rm mods ds tk nt lt 0 tr')).
      destruct (Z.ltb_spec 0 k); [|lia]. rewrite wrap_small by lia. reflexivity. }
    rewrite (bind_step _ _ _ _ _ E). reflexivity. }
  assert (pm_entry_func 3 (quiet_st [0; 0; 0; k; n4; n5] 3 rm mods ds tk nt lt 1 tr) =
    (rt_pm_release 3 ;;; rt_pm_request 0) (quiet_st [0; 0; 0; k; n4; n5] 3 rm mods ds tk nt lt 0
    (((((((tr ++ [EvGpio false]) ++ [EvDelay 100]) ++ [EvSuspendTick]) ++ [EvStopMode]) ++ [EvSystemClock])
      ++ [EvResumeTick]) ++ [EvGpio true]))) as E by reflexivity.
  rewrite Hr in E. rewrite (bind_step _ _ _ _ _ E). rewrite <- !app_assoc. apply wake_quiet.
Qed.

(** C35. The deep sleep the shell command asks for.  From a running system (NONE requested once,
    IDLE and LIGHT not, nobody busy) the requests make the next pass of the idle thread enter
    STOP mode with the clocks off; the processor comes back from it with the GPIO clocks and
    the tick still off, and only the second pass, whatever the time until then, enters STOP
    again and then restores clock, tick, pins and counters: two wake-ups are needed. *)
Theorem deep_sleep_wakes k n4 n5 sm rm mods ds tk nt lt tk' nt' lt' tr :
  Zlen mods = PM_MODULE_MAX_ID -> Forall (fun m => busy_flag m = false) mods -> 0 <= k < 255 ->
  (entry_sleep_requests ;;; rt_system_power_manager) (quiet_st [1; 0; 0; k; n4; n5] sm rm mods ds tk nt lt 0 tr) =
    Ok (tt, quiet_st [0; 0; 0; k + 1; n4; n5] 3 rm mods ds tk nt lt 1
      (tr ++ [EvGpio false; EvDelay 100; EvSuspendTick; EvStopMode])) /\
  rt_system_power_manager (quiet_st [0; 0; 0; k + 1; n4; n5] 3 rm mods ds tk' nt' lt' 1
      (tr ++ [EvGpio false; EvDelay 100; EvSuspendTick; EvStopMode])) =
    Ok (tt, quiet_st [1; 0; 0; k; n4; n5] 3 rm mods ds tk' nt' lt' 0
      (tr ++ [EvGpio false; EvDelay 100; EvSuspendTick; EvStopMode;
              EvGpio false; EvDelay 100; EvSuspendTick; EvStopMode; EvSystemClock; EvResumeTick; EvGpio true])).
Proof.
  intros Hl Hb Hk. split.
  - assert (entry_sleep_requests (quiet_st [1; 0; 0; k; n4; n5] sm rm mods ds tk nt lt 0 tr) =
      Ok (tt, quiet_st [0; 0; 0; k + 1; n4; n5] sm rm mods ds tk nt lt 0 tr)) as E.
    { change (entry_sleep_requests (quiet_st [1; 0; 0; k; n4; n5] sm rm mods ds tk nt lt 0 tr)) with
        (((if k <? 255 then set_mode_count 3 (u8 (k + 1)) else mret tt) ;;; rt_pm_release 0)
          (quiet_st [1; 0; 0; k; n4; n5] sm rm mods ds tk nt lt 0 tr)).
      destruct (Z.ltb_spec k 255); [|lia]. rewrite wrap_small by lia. reflexivity. }
    rewrite (bind_step _ _ _ _ _ E), deep_pass by (done || lia). apply deep_enter.
  - rewrite deep_pass by (done || lia). rewrite deep_leave by lia. rewrite <- app_assoc.
    by replace (k + 1 - 1) with k by lia.
Qed.

Lemma deep_sleep_wakes_witness :
  (entry_sleep_requests ;;; rt_system_power_manager) pm_started =
    Ok (tt, quiet_st [0; 0; 0; 1; 0; 0] 3 1 (module_status (pm pm_started)) 0 0 0 0 1
      [EvGpio false; EvDelay 100; EvSuspendTick; EvStopMode]).
Proof.
  refine (proj1 (deep_sleep_wakes 0 0 0 0 1 (module_status (pm pm_started)) 0 0 0 0 0 0 0 [] _ _ _)).
  - reflexivity.
  - repeat constructor.
  - split; [apply Z.leb_le|]; reflexivity.
Defined.

(** The board gives no [run] operation, and nobody tests for it: every run mode that
    [rt_pm_run_enter] accepts (the count of the modes among them) calls the null pointer, at
    once for a faster mode, from the idle thread otherwise. *)
Theorem run_mode_null s o mode :
  pm_init_flag s = true -> ops (pm s) = Some o -> op_run o = false -> u8 mode <= PM_RUN_MODE_MAX ->
  (rt_pm_run_enter mode ;;; rt_system_power_manager) s = Err NullDeref.
Proof.
  intros Hf Ho Hr Hm.
  assert (forall t m, ops (pm t) = Some o -> ops_run m t = Err NullDeref) as Hrun.
  { intros t m Ht. unfold ops_run, pm_ops, get, lift, mbind, M_bind. rewrite Ht. cbn [of_option]. by rewrite Hr. }
  assert (rt_pm_run_enter mode s = if u8 mode <? run_mode (pm s) then Err NullDeref
    else (set_pm (fun p => set_run_mode (u8 mode) (Z.lor (flags p) RT_PM_FREQUENCY_PENDING) p) ;;; mret RT_EOK) s) as E.
  { unfold rt_pm_run_enter. cbv zeta. rewrite (bind_step _ _ s s s) by done. rewrite Hf. cbn [negb].
    destruct (Z.ltb_spec PM_RUN_MODE_MAX (u8 mode)); [lia|].
    destruct (u8 mode <? run_mode (pm s)); [|done]. unfold mbind, M_bind. by rewrite Hrun. }
  assert (forall t, pm_init_flag t = true -> ops (pm t) = Some o ->
    Z.land (flags (pm t)) RT_PM_FREQUENCY_PENDING <> 0 -> rt_system_power_manager t = Err NullDeref) as Hman.
  { intros t Hft Hot Hp. unfold rt_system_power_manager. rewrite (bind_step _ _ t t t), Hft by done. cbn [negb].
    unfold _pm_frequency_scaling, get, mbind, M_bind.
    destruct (Z.eqb_spec (Z.land (flags (pm t)) RT_PM_FREQUENCY_PENDING) 0); [done|]. cbn [negb]. by rewrite Hrun. }
  unfold mbind, M_bind. rewrite E. destruct (u8 mode <? run_mode (pm s)); [done|].
  apply Hman; [done|done|]. intros E0. apply (f_equal (fun x => Z.testbit x 0)) in E0.
  cbn [flags pm set_run_mode] in E0. rewrite Z.land_spec, Z.lor_spec in E0.
  change (Z.testbit RT_PM_FREQUENCY_PENDING 0) with true in E0. rewrite orb_true_r in E0. done.
Qed.

Lemma run_mode_null_witness : (rt_pm_run_enter PM_RUN_MODE_MAX ;;; rt_system_power_manager) pm_started = Err NullDeref.
Proof. by apply (run_mode_null pm_started ele_ds_pm_ops PM_RUN_MODE_MAX). Defined.
