(* ===== verification/Ctime.v ===== *)
(** Calendar time: [rt-thread/components/libc/compilers/common/ctime.c], which the firmware's
    clock, alarms and shell commands use.

    [time_t] has 64 bits and is a number; the [int] members of [struct tm] are numbers whose
    sums are tested against the range of [int]. *)

From S2P Require Import Prelude.
#[local] Open Scope Z_scope.

(** ** Data *)

Record tm := Tm {
  tm_sec : Z;
  tm_min : Z;
  tm_hour : Z;
  tm_mday : Z;
  tm_mon : Z;
  tm_year : Z;
  tm_wday : Z;
  tm_yday : Z;
  tm_isdst : Z;
}.

Definition __spm : list Z := [0; 31; 59; 90; 120; 151; 181; 212; 243; 273; 304; 334; 365].
Definition days : bytes := cs "Sun Mon Tue Wed Thu Fri Sat ".
Definition months : bytes := cs "Jan Feb Mar Apr May Jun Jul Aug Sep Oct Nov Dec ".
Definition RT_LIBC_TZ_DEFAULT_HOUR : Z := 8.
Definition RT_LIBC_TZ_DEFAULT_MIN : Z := 0.
Definition RT_LIBC_TZ_DEFAULT_SEC : Z := 0.
Definition _current_tz_offset_sec : Z :=
  RT_LIBC_TZ_DEFAULT_HOUR * 3600 + RT_LIBC_TZ_DEFAULT_MIN * 60 + RT_LIBC_TZ_DEFAULT_SEC.

(** A signed sum: overflow has no meaning. *)
Definition cint (v : Z) : res Z := if decide (- 2 ^ 31 <= v < 2 ^ 31) then Ok v else Err Unspecified.

(** ** Operations *)

Definition __isleap (year : Z) : bool :=
  (Z.rem year 4 =? 0) && (negb (Z.rem year 100 =? 0) || (Z.rem year 400 =? 0)).

Definition rt_tz_is_dst : Z := 0.

(** The year, and the days left in it. *)
Fixpoint year_loop (fuel : nat) (i work : Z) : res (Z * Z) :=
  match fuel with
  | O => Err Spin
  | S fuel =>
      let k := if __isleap i then 366 else 365 in
      if k <=? work then year_loop fuel (i + 1) (work - k) else Ok (i, work)
  end.

(** [for (i = 11; i && (__spm[i] > work); --i);] *)
Fixpoint month_loop (i : nat) (work : Z) : res nat :=
  match i with
  | O => Ok O
  | S i' => d ← aget __spm (Z.of_nat i); if work <? d then month_loop i' work else Ok i
  end.

Definition gmtime_r (timep : Z) : res tm :=
  let work := Z.rem timep (24 * 60 * 60) in
  let sec := Z.rem work 60 in
  let work := Z.quot work 60 in
  let min := Z.rem work 60 in
  let hour := Z.quot work 60 in
  let work := i32 (Z.quot timep (24 * 60 * 60)) in
  w ← cint (4 + work);
  let wday := Z.rem w 7 in
  r ← year_loop (S (Z.to_nat (work / 365))) 1970 work;
  let '(y, work) := r in
  let yday := work in
  let '(mday, work) :=
    if __isleap y && (58 <? work) then (if work =? 59 then 2 else 1, work - 1) else (1, work) in
  i ← month_loop 11 work;
  d ← aget __spm (Z.of_nat i);
  Ok (Tm sec min hour (mday + (work - d)) (Z.of_nat i) (y - 1900) wday yday rt_tz_is_dst).

Definition localtime_r (tz t : Z) : res tm := gmtime_r (t + tz).

(** [while (t->tm_mday > __spm[1 + t->tm_mon])]: the day, the month, the year. *)
Fixpoint mday_loop (fuel : nat) (mday mon year : Z) : res (Z * Z * Z) :=
  match fuel with
  | O => Err Spin
  | S fuel =>
      b ← aget __spm (1 + mon);
      if b <? mday then
        let mday := if (mon =? 1) && __isleap (year + 1900) then mday - 1 else mday in
        d ← aget __spm mon;
        let mday := mday - d in
        let mon := mon + 1 in
        if 11 <? mon then
          year ← cint (year + 1);
          mday_loop fuel mday 0 year
        else mday_loop fuel mday mon year
      else Ok (mday, mon, year)
  end.

(** The days before the year [1970 + years]. *)
Definition days_before (years : Z) : Z :=
  let day := years * 365 + Z.quot (years + 1) 4 in
  if 131 <=? years then
    let years := Z.quot (years - 131) 100 in
    let day := day - (Z.shiftr years 2 * 3 + 1) in
    let years := Z.land years 3 in
    let years := if years =? 3 then years - 1 else years in
    day - years
  else day.

(** The time, and the structure as it is left. *)
Definition timegm (t : tm) : res (Z * tm) :=
  let years := tm_year t - 70 in
  let '(Tm sec min hour mday mon year wday yday isdst) := t in
  a ← cint (if 60 <? sec then min + Z.quot sec 60 else min);
  let sec := if 60 <? sec then Z.rem sec 60 else sec in
  let min := a in
  a ← cint (if 60 <=? min then hour + Z.quot min 60 else hour);
  let min := if 60 <=? min then Z.rem min 60 else min in
  let hour := a in
  a ← cint (if 24 <=? hour then mday + Z.quot hour 24 else mday);
  let hour := if 24 <=? hour then Z.rem hour 24 else hour in
  let mday := a in
  a ← cint (if 12 <=? mon then year + Z.quot mon 12 else year);
  let mon := if 12 <=? mon then Z.rem mon 12 else mon in
  let year := a in
  r ← mday_loop (S (S (Z.to_nat (2 * mday)))) mday mon year;
  let '(mday, mon, year) := r in
  if year <? 70 then Ok (-1, Tm sec min hour mday mon year wday yday isdst) else
  d ← aget __spm mon;
  let yday := d + mday - 1 + (if __isleap (year + 1900) && (1 <? mon) then 1 else 0) in
  let day := days_before years + yday in
  let wday := Z.rem (day + 4) 7 in
  Ok (((day * 24 + hour) * 60 + min) * 60 + sec, Tm sec min hour mday mon year wday yday isdst).

Definition mktime (tz : Z) (t : tm) : res (Z * tm) :=
  r ← timegm t;
  Ok (r.1 - tz, r.2).

(** *** Texts *)

(** The two characters of a number. *)
Definition num2str (i : Z) : bytes := [u8 (Z.quot i 10 + 48); u8 (Z.rem i 10 + 48)].

(** A number whose leading zero is a blank. *)
Definition blank_zero (l : bytes) : bytes :=
  match l with
  | c :: l => (if c =? 48 then 32 else c) :: l
  | [] => []
  end.

Definition asctime_text (day month : bytes) (t : tm) (century year : Z) : bytes :=
  day ++ month ++ blank_zero (num2str (tm_mday t)) ++ [32] ++ num2str (tm_hour t) ++ [58] ++
  num2str (tm_min t) ++ [58] ++ num2str (tm_sec t) ++ [32] ++ num2str century ++ num2str year ++ [10; 0].

Definition asctime_r (t : tm) : res bytes :=
  if (28 <=? Z.shiftl (tm_wday t) 2) || (48 <=? Z.shiftl (tm_mon t) 2) then
    day ← slice days 0 4;
    month ← slice months 0 4;
    Ok (asctime_text day month t (Z.quot 2000 100) (Z.rem 2000 100))
  else
    day ← slice days (Z.shiftl (tm_wday t) 2) 4;
    month ← slice months (Z.shiftl (tm_mon t) 2) 4;
    Ok (asctime_text day month t (Z.quot (tm_year t + 1900) 100) (Z.rem (tm_year t + 1900) 100)).

Definition ctime_r (tz t : Z) : res bytes := r ← localtime_r tz t; asctime_r r.

(** ** The reference: counting days *)

Definition year_len (y : Z) : Z := if __isleap y then 366 else 365.
Definition month_len (y m : Z) : Z :=
  if m =? 1 then (if __isleap y then 29 else 28)
  else if (m =? 3) || (m =? 5) || (m =? 8) || (m =? 10) then 30 else 31.
Definition sum_from (f : Z -> Z) (from : Z) (n : nat) : Z := foldr Z.add 0 (f <$> seqZ from (Z.of_nat n)).
(** The days of the years 1970 to [y - 1], of the months before [m], of the month before [d]. *)
Definition days_since_epoch (y m d : Z) : Z :=
  sum_from year_len 1970 (Z.to_nat (y - 1970)) + sum_from (month_len y) 0 (Z.to_nat m) + (d - 1).

Example epoch_2025 : gmtime_r 1748420048 = Ok (Tm 8 14 8 28 4 125 3 147 0).
Proof. reflexivity. Qed.
Example asctime_2025 : asctime_r (Tm 8 14 8 28 4 125 3 147 0) = Ok (cs "Wed May 28 08:14:08 2025" ++ [10; 0]).
Proof. reflexivity. Qed.

(** ** Counting *)

Lemma sum_from_S f from n : sum_from f from (S n) = sum_from f from n + f (from + Z.of_nat n).
Proof.
  unfold sum_from. rewrite seqZ_S, fmap_app. cbn [fmap list_fmap].
  induction (f <$> seqZ from (Z.of_nat n)) as [|x l IH]; cbn [foldr app]; lia.
Qed.

Lemma leap_rem y : 0 <= y ->
  __isleap y = (y mod 4 =? 0) && (negb (y mod 100 =? 0) || (y mod 400 =? 0)).
Proof. intros. unfold __isleap. by rewrite !Z.rem_mod_nonneg by lia. Qed.

Lemma year_len_range y : 365 <= year_len y <= 366.
Proof. unfold year_len. destruct (__isleap y); lia. Qed.

Lemma sum_years_ge from n : 365 * Z.of_nat n <= sum_from year_len from n.
Proof.
  induction n as [|n IH]; [done|]. rewrite sum_from_S. pose proof (year_len_range (from + Z.of_nat n)). lia.
Qed.

(** The closed form of [timegm], with the century years of the Gregorian rule. *)
Lemma days_before_closed n :
  0 <= n -> days_before n = 365 * n + (n + 1) / 4 - ((n + 1969) / 100 - (n + 1969) / 400 - 15).
Proof.
  intros Hn. unfold days_before. rewrite Z.quot_div_nonneg by lia.
  destruct (Z.leb_spec 131 n) as [H|H]; [|zlia].
  rewrite Z.quot_div_nonneg by lia. rewrite Z.shiftr_div_pow2 by lia.
  assert (forall q, Z.land q 3 = q mod 4) as Hl by (intros q; by apply (Z.land_ones q 2)).
  rewrite !Hl. change (2 ^ 2) with 4.
  assert ((n + 1969) / 100 = 21 + (n - 131) / 100) as -> by zlia.
  assert ((n + 1969) / 400 = (21 + (n - 131) / 100) / 4) as -> by zlia.
  generalize ((n - 131) / 100). intros q. destruct (Z.eqb_spec (q mod 4) 3); zlia.
Qed.

Lemma days_before_years n : days_before (Z.of_nat n) = sum_from year_len 1970 n.
Proof.
  induction n as [|n IH]; [reflexivity|]. rewrite sum_from_S, <- IH, !days_before_closed by lia.
  unfold year_len. rewrite leap_rem by lia. rewrite Nat2Z.inj_succ.
  generalize (Z.of_nat n), (Nat2Z.is_nonneg n). intros z Hz. clear.
  assert ((Z.succ z + 1) / 4 = (z + 1) / 4 + if (1970 + z) mod 4 =? 0 then 1 else 0) as ->.
  { destruct (Z.eqb_spec ((1970 + z) mod 4) 0); zlia. }
  assert ((Z.succ z + 1969) / 100 = (z + 1969) / 100 + if (1970 + z) mod 100 =? 0 then 1 else 0) as ->.
  { destruct (Z.eqb_spec ((1970 + z) mod 100) 0); zlia. }
  assert ((Z.succ z + 1969) / 400 = (z + 1969) / 400 + if (1970 + z) mod 400 =? 0 then 1 else 0) as ->.
  { destruct (Z.eqb_spec ((1970 + z) mod 400) 0); zlia. }
  assert ((1970 + z) mod 400 = 0 -> (1970 + z) mod 100 = 0) as H1 by zlia.
  assert ((1970 + z) mod 100 = 0 -> (1970 + z) mod 4 = 0) as H2 by zlia.
  destruct (Z.eqb_spec ((1970 + z) mod 4) 0); destruct (Z.eqb_spec ((1970 + z) mod 100) 0);
    destruct (Z.eqb_spec ((1970 + z) mod 400) 0); cbn [andb orb negb]; lia.
Qed.

Lemma year_loop_spec fuel i work :
  0 <= work -> work / 365 < Z.of_nat fuel ->
  exists n rest, year_loop fuel i work = Ok (i + Z.of_nat n, rest) /\
    0 <= rest < year_len (i + Z.of_nat n) /\ work = sum_from year_len i n + rest.
Proof.
  revert i work. induction fuel as [|fuel IH]; intros i work Hw Hf.
  { pose proof (Z.div_pos work 365). lia. }
  cbn [year_loop]. fold (year_len i). pose proof (year_len_range i).
  destruct (Z.leb_spec (year_len i) work) as [H1|H1].
  - destruct (IH (i + 1) (work - year_len i)) as (n & rest & E & Hr & Hs); [lia|zlia|].
    exists (S n), rest. rewrite E. replace (i + 1 + Z.of_nat n) with (i + Z.of_nat (S n)) in * by lia.
    split_and!; [done|lia|lia|]. cut (sum_from year_len i (S n) = year_len i + sum_from year_len (i + 1) n); [lia|].
    unfold sum_from. rewrite Nat2Z.inj_succ, seqZ_cons by lia. cbn [fmap list_fmap foldr].
    by rewrite Z.pred_succ.
  - exists 0%nat, work. rewrite Z.add_0_r. split_and!; [done|lia|lia|done].
Qed.

(** A date and time as the standard has it, from 1970 on. *)
Definition tm_valid (t : tm) : Prop :=
  0 <= tm_sec t < 60 /\ 0 <= tm_min t < 60 /\ 0 <= tm_hour t < 24 /\ 0 <= tm_mon t < 12 /\
  1 <= tm_mday t <= month_len (tm_year t + 1900) (tm_mon t) /\ 70 <= tm_year t < 2 ^ 31.
Definition day_number (t : tm) : Z := days_since_epoch (tm_year t + 1900) (tm_mon t) (tm_mday t).
Definition seconds (t : tm) : Z := day_number t * 86400 + tm_hour t * 3600 + tm_min t * 60 + tm_sec t.
(** The week day and the day of the year that belong to the date. *)
Definition tm_days (t : tm) : Prop :=
  tm_wday t = (day_number t + 4) mod 7 /\
  tm_yday t = sum_from (month_len (tm_year t + 1900)) 0 (Z.to_nat (tm_mon t)) + tm_mday t - 1.

(** The table: the days before a month of a common year. *)
Lemma spm_sum y m :
  0 <= m < 12 ->
  aget __spm m = Ok (sum_from (month_len y) 0 (Z.to_nat m) - if __isleap y && (1 <? m) then 1 else 0).
Proof.
  intros Hm.
  assert (m = 0 \/ m = 1 \/ m = 2 \/ m = 3 \/ m = 4 \/ m = 5 \/ m = 6 \/ m = 7 \/ m = 8 \/ m = 9 \/ m = 10 \/
    m = 11) as H by lia.
  unfold sum_from, month_len. destruct (__isleap y) eqn:E;
    repeat (destruct H as [->|H]; [reflexivity|]); subst m; reflexivity.
Qed.

Lemma sum_months y m : sum_from (month_len y) 0 (S m) = sum_from (month_len y) 0 m + month_len y (Z.of_nat m).
Proof. apply sum_from_S. Qed.

Lemma month_len_range y m : 28 <= month_len y m <= 31.
Proof. unfold month_len. repeat case_match; lia. Qed.

Lemma sum_months_nonneg y n : 0 <= sum_from (month_len y) 0 n.
Proof.
  induction n as [|n IH]; [done|]. rewrite sum_months. pose proof (month_len_range y (Z.of_nat n)). lia.
Qed.

(** The month loop finds the last month that starts at or before the day. *)
Lemma month_loop_spec n work :
  (n < 12)%nat -> 0 <= work ->
  exists i d, month_loop n work = Ok i /\ (i <= n)%nat /\ aget __spm (Z.of_nat i) = Ok d /\ d <= work /\
    forall d', (i < n)%nat -> aget __spm (Z.of_nat (S i)) = Ok d' -> work < d'.
Proof.
  induction n as [|n IH]; intros Hn Hw.
  - exists 0%nat, 0. split_and!; [done|lia|done|done|lia].
  - cbn [month_loop]. destruct (aget_in __spm (Z.of_nat (S n))) as [d Hd].
    { change (Zlen __spm) with 13. lia. }
    rewrite Hd, ok_bind. destruct (Z.ltb_spec work d) as [Hlt|Hge].
    + destruct IH as (i & d1 & Hi & Hin & Hd1 & Hle & Hnext); [lia|done|].
      exists i, d1. split_and!; [done|lia|done|done|].
      intros d' Hi' Hd'. destruct (decide (i = n)) as [->|]; [congruence|]. apply Hnext; [lia|done].
    + exists (S n), d. split_and!; [done|lia|done|lia|lia].
Qed.

(** Evaluates the length and the first day of a given month. *)
Ltac month_values :=
  match goal with |- context [if Z.of_nat ?k =? 1 then ?a else ?b] =>
    let v := eval vm_compute in (if Z.of_nat k =? 1 then a else b) in
    change (if Z.of_nat k =? 1 then a else b) with v end;
  match goal with |- context [foldr Z.add 0 ?l] =>
    let v := eval vm_compute in (foldr Z.add 0 l) in change (foldr Z.add 0 l) with v end.

(** The month and day of a day of the year, with the correction for 29 February. *)
Lemma month_day y work :
  0 <= work < year_len y ->
  let '(mday, w) :=
    if __isleap y && (58 <? work) then (if work =? 59 then 2 else 1, work - 1) else (1, work) in
  exists i d, month_loop 11 w = Ok i /\ aget __spm (Z.of_nat i) = Ok d /\ (i < 12)%nat /\
    1 <= mday + (w - d) <= month_len y (Z.of_nat i) /\
    sum_from (month_len y) 0 i + (mday + (w - d) - 1) = work.
Proof.
  intros Hw.
  destruct (if __isleap y && (58 <? work) then (if work =? 59 then 2 else 1, work - 1) else (1, work))
    as [mday w] eqn:E.
  assert (0 <= w) as Hw0 by (destruct (__isleap y && (58 <? work)) eqn:?; injection E as <- <-; lia).
  destruct (month_loop_spec 11 w) as (i & d & Hi & Hin & Hd & Hle & Hnext); [lia|done|].
  assert (1 <= mday + (w - d) <= month_len y (Z.of_nat i) /\
    sum_from (month_len y) 0 i + (mday + (w - d) - 1) = work) as H.
  2: { exists i, d. split_and!; [done|done|lia|lia..]. }
  clear Hi. unfold year_len in Hw. unfold sum_from, month_len. destruct (__isleap y); cbn [andb] in E.
  all: do 11 (destruct i as [|i];
    [pose proof (Hnext _ ltac:(lia) eq_refl); injection Hd as <-; month_values;
     destruct (58 <? work) eqn:?; [destruct (work =? 59) eqn:?|]; injection E as <- <-; lia|]).
  all: destruct i as [|i]; [|lia]; injection Hd as <-; month_values;
    destruct (58 <? work) eqn:?; [destruct (work =? 59) eqn:?|]; injection E as <- <-; lia.
Qed.

Lemma cint_ok v : - 2 ^ 31 <= v < 2 ^ 31 -> cint v = Ok v.
Proof. intros. unfold cint. by rewrite decide_True. Qed.

(** The seconds of a day in hours, minutes and seconds. *)
Lemma clock_parts w : 0 <= w < 86400 ->
  Z.quot (Z.quot w 60) 60 * 3600 + Z.rem (Z.quot w 60) 60 * 60 + Z.rem w 60 = w /\
  0 <= Z.rem w 60 < 60 /\ 0 <= Z.rem (Z.quot w 60) 60 < 60 /\ 0 <= Z.quot (Z.quot w 60) 60 < 24.
Proof.
  intros. rewrite (Z.quot_div_nonneg w) by lia. assert (0 <= w / 60 < 1440) by zlia.
  rewrite !Z.quot_div_nonneg, !Z.rem_mod_nonneg by lia. zlia.
Qed.

Lemma gmtime_spec t :
  0 <= t -> t / 86400 + 4 < 2 ^ 31 ->
  exists r, gmtime_r t = Ok r /\ tm_valid r /\ tm_days r /\ seconds r = t /\ tm_isdst r = 0.
Proof.
  intros Ht Hb. unfold gmtime_r. change (24 * 60 * 60) with 86400.
  pose proof (clock_parts (t mod 86400)) as Hc. rewrite (Z.rem_mod_nonneg t 86400) by lia.
  assert (0 <= t / 86400) as Hd0 by (apply Z.div_pos; lia).
  rewrite (Z.quot_div_nonneg t 86400) by lia. rewrite (swrap_small 32 (t / 86400)) by (try change (2 ^ (32 - 1)) with (2 ^ 31); lia).
  rewrite cint_ok, ok_bind by lia. rewrite (Z.rem_mod_nonneg (4 + t / 86400)) by lia.
  destruct (year_loop_spec (S (Z.to_nat (t / 86400 / 365))) 1970 (t / 86400)) as (n & rest & E & Hr & Hs);
    [lia|pose proof (Z.div_pos (t / 86400) 365); lia|].
  rewrite E, ok_bind. pose proof (sum_years_ge 1970 n) as Hy.
  pose proof (month_day _ _ Hr) as Hm.
  destruct (if __isleap (1970 + Z.of_nat n) && (58 <? rest) then (if rest =? 59 then 2 else 1, rest - 1)
            else (1, rest)) as [mday w].
  destruct Hm as (i & d & Hi & Hd & Hi12 & Hmd & Hsum). rewrite Hi, ok_bind, Hd, ok_bind.
  eexists. split; [done|].
  assert (day_number (Tm (Z.rem (t mod 86400) 60) (Z.rem (Z.quot (t mod 86400) 60) 60)
    (Z.quot (Z.quot (t mod 86400) 60) 60) (mday + (w - d)) (Z.of_nat i) (1970 + Z.of_nat n - 1900)
    ((4 + t / 86400) mod 7) rest rt_tz_is_dst) = t / 86400) as Hday.
  { unfold day_number, days_since_epoch. cbn [tm_year tm_mon tm_mday].
    replace (1970 + Z.of_nat n - 1900 + 1900) with (1970 + Z.of_nat n) by lia.
    replace (Z.to_nat (1970 + Z.of_nat n - 1970)) with n by lia. rewrite Nat2Z.id. lia. }
  pose proof (Z.mod_pos_bound t 86400) as Hmb. destruct Hc as (Hc & Hsec & Hmin & Hhour); [lia|].
  split_and!.
  - unfold tm_valid. cbn [tm_sec tm_min tm_hour tm_mon tm_mday tm_year].
    replace (1970 + Z.of_nat n - 1900 + 1900) with (1970 + Z.of_nat n) by lia. split_and!; lia.
  - unfold tm_days. rewrite Hday. cbn [tm_wday tm_yday tm_year tm_mon tm_mday].
    replace (1970 + Z.of_nat n - 1900 + 1900) with (1970 + Z.of_nat n) by lia. rewrite Nat2Z.id.
    split; [f_equal; lia|lia].
  - unfold seconds. rewrite Hday. cbn [tm_hour tm_min tm_sec]. pose proof (Z.div_mod t 86400). lia.
  - done.
Qed.

(** On a date in order [timegm] normalises nothing and counts the seconds. *)
Lemma timegm_spec r :
  tm_valid r ->
  exists yday,
    timegm r = Ok (seconds r, Tm (tm_sec r) (tm_min r) (tm_hour r) (tm_mday r) (tm_mon r) (tm_year r)
      ((day_number r + 4) mod 7) yday (tm_isdst r)) /\
    yday = sum_from (month_len (tm_year r + 1900)) 0 (Z.to_nat (tm_mon r)) + tm_mday r - 1.
Proof.
  destruct r as [sec min hour mday mon year wday yday isdst].
  unfold tm_valid. cbn [tm_sec tm_min tm_hour tm_mon tm_mday tm_year tm_isdst].
  intros (Hs & Hm & Hh & Hmon & Hmd & Hy). unfold timegm. cbv beta iota zeta. cbn [tm_year].
  pose proof (month_len_range (year + 1900) mon).
  destruct (Z.ltb_spec 60 sec); [lia|]. destruct (Z.leb_spec 60 min); [lia|].
  destruct (Z.leb_spec 24 hour); [lia|]. destruct (Z.leb_spec 12 mon); [lia|].
  rewrite (cint_ok min), ok_bind by lia. destruct (Z.leb_spec 60 min); [lia|].
  rewrite (cint_ok hour), ok_bind by lia. destruct (Z.leb_spec 24 hour); [lia|].
  rewrite (cint_ok mday), ok_bind by lia. rewrite (cint_ok year), ok_bind by lia.
  cbn [mday_loop]. destruct (aget_in __spm (1 + mon)) as [b Hb]; [change (Zlen __spm) with 13; lia|].
  rewrite Hb, ok_bind.
  assert (mday <= b) as Hle.
  { destruct (Z.eq_dec mon 11) as [->|]; [injection Hb as <-; lia|].
    rewrite (spm_sum (year + 1900)) in Hb by lia. injection Hb as <-.
    rewrite (Z.add_comm 1), Z2Nat.inj_add, Nat.add_1_r, sum_months, Z2Nat.id by lia.
    destruct (Z.eq_dec mon 0) as [->|].
    { change (1 <? 0 + 1) with false. rewrite andb_false_r.
      change (sum_from (month_len (year + 1900)) 0 (Z.to_nat 0)) with 0. lia. }
    assert (1 <= Z.to_nat mon)%nat by lia. destruct (Z.to_nat mon) as [|k] eqn:Ek; [lia|].
    rewrite sum_months. assert (28 <= month_len (year + 1900) (Z.of_nat k)).
    { unfold month_len. repeat case_match; lia. }
    pose proof (sum_months_nonneg (year + 1900) k).
    destruct (_ && _); lia. }
  destruct (Z.ltb_spec b mday); [lia|]. rewrite ok_bind. destruct (Z.ltb_spec year 70); [lia|].
  rewrite (spm_sum (year + 1900)) by done. rewrite ok_bind.
  assert (forall x, x - (if __isleap (year + 1900) && (1 <? mon) then 1 else 0) + mday - 1 +
    (if __isleap (year + 1900) && (1 <? mon) then 1 else 0) = x + mday - 1) as -> by (intros; destruct (_ && _); lia).
  eexists. split; [|done].
  assert (days_before (year - 70) = sum_from year_len 1970 (Z.to_nat (year + 1900 - 1970))) as ->.
  { rewrite <- days_before_years. f_equal. lia. }
  pose proof (sum_months_nonneg (year + 1900) (Z.to_nat mon)).
  pose proof (sum_years_ge 1970 (Z.to_nat (year + 1900 - 1970))).
  unfold seconds, day_number, days_since_epoch. cbn [tm_sec tm_min tm_hour tm_mday tm_mon tm_year].
  rewrite Z.rem_mod_nonneg by lia.
  f_equal. f_equal; [lia|]. f_equal. f_equal. lia.
Qed.

(** ** A date is determined by its number *)

Lemma sum_from_mono f from n k :
  (forall x, 0 <= f x) -> (n <= k)%nat -> sum_from f from n <= sum_from f from k.
Proof.
  intros Hf Hk. induction Hk as [|k Hk IH]; [done|]. rewrite sum_from_S. specialize (Hf (from + Z.of_nat k)). lia.
Qed.

(** The sum up to [n] determines [n] when a rest below the next summand is added. *)
Lemma sum_from_inj f from n k a b :
  (forall x, 0 <= f x) -> 0 <= a < f (from + Z.of_nat n) -> 0 <= b < f (from + Z.of_nat k) ->
  sum_from f from n + a = sum_from f from k + b -> n = k /\ a = b.
Proof.
  intros Hf Ha Hb E. destruct (Nat.lt_trichotomy n k) as [H|[->|H]]; [|lia|].
  - pose proof (sum_from_mono f from (S n) k Hf H). rewrite sum_from_S in *. lia.
  - pose proof (sum_from_mono f from (S k) n Hf H). rewrite sum_from_S in *. lia.
Qed.

Lemma sum_months_12 y : sum_from (month_len y) 0 12 = year_len y.
Proof. unfold sum_from, month_len, year_len. by destruct (__isleap y). Qed.

Lemma day_of_year_range y m d :
  0 <= m < 12 -> 1 <= d <= month_len y m ->
  0 <= sum_from (month_len y) 0 (Z.to_nat m) + (d - 1) < year_len y.
Proof.
  intros Hm Hd. pose proof (sum_months_nonneg y (Z.to_nat m)). rewrite <- sum_months_12.
  assert (sum_from (month_len y) 0 (S (Z.to_nat m)) <= sum_from (month_len y) 0 12) as Hle.
  { apply sum_from_mono; [|lia]. intros x. pose proof (month_len_range y x). lia. }
  rewrite sum_months, Z2Nat.id in Hle by lia. lia.
Qed.

Lemma seconds_inj a b :
  tm_valid a -> tm_valid b -> seconds a = seconds b ->
  tm_sec a = tm_sec b /\ tm_min a = tm_min b /\ tm_hour a = tm_hour b /\
  tm_mday a = tm_mday b /\ tm_mon a = tm_mon b /\ tm_year a = tm_year b.
Proof.
  intros (Hs & Hm & Hh & Hmon & Hmd & Hy) (Hs' & Hm' & Hh' & Hmon' & Hmd' & Hy') E.
  unfold seconds in E. assert (day_number a = day_number b) as Ed by lia.
  pose proof (day_of_year_range _ _ _ Hmon Hmd) as Ha. pose proof (day_of_year_range _ _ _ Hmon' Hmd') as Hb.
  unfold day_number, days_since_epoch in Ed.
  destruct (sum_from_inj year_len 1970 (Z.to_nat (tm_year a + 1900 - 1970)) (Z.to_nat (tm_year b + 1900 - 1970))
    (sum_from (month_len (tm_year a + 1900)) 0 (Z.to_nat (tm_mon a)) + (tm_mday a - 1))
    (sum_from (month_len (tm_year b + 1900)) 0 (Z.to_nat (tm_mon b)) + (tm_mday b - 1))) as [Ey Er].
  - intros x. pose proof (year_len_range x). lia.
  - by replace (1970 + Z.of_nat (Z.to_nat (tm_year a + 1900 - 1970))) with (tm_year a + 1900) by lia.
  - by replace (1970 + Z.of_nat (Z.to_nat (tm_year b + 1900 - 1970))) with (tm_year b + 1900) by lia.
  - lia.
  - assert (tm_year a = tm_year b) as Eyr by lia. rewrite Eyr in *.
    destruct (sum_from_inj (month_len (tm_year b + 1900)) 0 (Z.to_nat (tm_mon a)) (Z.to_nat (tm_mon b))
      (tm_mday a - 1) (tm_mday b - 1)) as [Em Ed'].
    + intros x. pose proof (month_len_range (tm_year b + 1900) x). lia.
    + rewrite Z2Nat.id by lia. rewrite Z.add_0_l. lia.
    + rewrite Z2Nat.id by lia. rewrite Z.add_0_l. lia.
    + lia.
    + unfold day_number in *. lia.
Qed.

(** The day of a date is not negative, and bounded by its year. *)
Lemma day_number_range r :
  tm_valid r -> 0 <= day_number r < 366 * (tm_year r - 69).
Proof.
  intros (_ & _ & _ & Hmon & Hmd & Hy). pose proof (day_of_year_range _ _ _ Hmon Hmd) as Hd.
  unfold day_number, days_since_epoch. set (n := Z.to_nat (tm_year r + 1900 - 1970)).
  assert (0 <= sum_from year_len 1970 n <= 366 * Z.of_nat n) as Hn.
  { clear. induction n as [|n IH]; [done|]. rewrite sum_from_S. pose proof (year_len_range (1970 + Z.of_nat n)). lia. }
  pose proof (year_len_range (tm_year r + 1900)). unfold n in *. lia.
Qed.

(** [gmtime_r] gives a date back. *)
Lemma gmtime_seconds r :
  tm_valid r -> tm_year r < 2 ^ 22 ->
  exists wday yday, gmtime_r (seconds r) =
    Ok (Tm (tm_sec r) (tm_min r) (tm_hour r) (tm_mday r) (tm_mon r) (tm_year r) wday yday 0) /\
    wday = (day_number r + 4) mod 7 /\
    yday = sum_from (month_len (tm_year r + 1900)) 0 (Z.to_nat (tm_mon r)) + tm_mday r - 1.
Proof.
  intros Hv Hy. pose proof (day_number_range r Hv) as Hd. pose proof Hv as (Hs & Hm & Hh & Hmon & Hmd & Hyr).
  assert (seconds r / 86400 = day_number r) as Hdiv.
  { symmetry. apply (Z.div_unique _ _ _ (tm_hour r * 3600 + tm_min r * 60 + tm_sec r)); unfold seconds; lia. }
  destruct (gmtime_spec (seconds r)) as (q & H1 & H2 & [H3 H3'] & H4 & H5).
  - unfold seconds. lia.
  - rewrite Hdiv. lia.
  - destruct (seconds_inj q r H2 Hv H4) as (E1 & E2 & E3 & E4 & E5 & E6).
    assert (day_number q = day_number r) as E7 by (unfold seconds in H4; lia).
    do 2 eexists. split; [|by split]. rewrite H1. f_equal. destruct q.
    cbn [tm_wday tm_yday tm_sec tm_min tm_hour tm_mday tm_mon tm_year tm_isdst] in *. congruence.
Qed.

(** ** Properties *)

(** C20. [gmtime_r] on every time from 1970 on whose day number fits an [int]: the loops end, and
    the result is the date and time of the Gregorian calendar (counted here day by day), with
    its week day and day of the year. *)
Theorem gmtime_r_correct t :
  0 <= t -> t / 86400 + 4 < 2 ^ 31 ->
  exists r, gmtime_r t = Ok r /\ tm_valid r /\ tm_days r /\ seconds r = t.
Proof.
  intros Ht Hb. destruct (gmtime_spec t Ht Hb) as (r & H1 & H2 & H3 & H4 & _). by exists r.
Qed.

(** 29 February 2000, 23:59:59. *)
Lemma gmtime_r_correct_witness :
  exists r, gmtime_r 951868799 = Ok r /\ tm_valid r /\ tm_days r /\ seconds r = 951868799.
Proof. apply gmtime_r_correct; [apply Z.leb_le|]; reflexivity. Defined.

(** [mktime] undoes [localtime_r] in every time zone, and leaves the structure as it is:
    week day and day of the year are computed again to the same values. *)
Theorem mktime_localtime tz t :
  0 <= t + tz -> (t + tz) / 86400 + 4 < 2 ^ 31 ->
  exists r, localtime_r tz t = Ok r /\ mktime tz r = Ok (t, r).
Proof.
  intros Ht Hb. destruct (gmtime_spec (t + tz) Ht Hb) as (r & H1 & H2 & [H3 H3'] & H4 & _).
  exists r. split; [done|]. unfold mktime. destruct (timegm_spec r H2) as (yday & E & Hy).
  rewrite E, ok_bind. cbn [fst snd]. f_equal. f_equal; [lia|].
  destruct r. cbn [tm_wday tm_yday tm_sec tm_min tm_hour tm_mday tm_mon tm_year tm_isdst] in *. congruence.
Qed.

Lemma mktime_localtime_witness :
  exists r, localtime_r _current_tz_offset_sec 1748420048 = Ok r /\
    mktime _current_tz_offset_sec r = Ok (1748420048, r).
Proof. apply mktime_localtime; [apply Z.leb_le|]; reflexivity. Defined.

(** C25. And [localtime_r] undoes [mktime]: every valid local date comes back, with its week day and
    day of the year filled in. *)
Theorem localtime_mktime tz r :
  tm_valid r -> tm_year r < 2 ^ 22 ->
  exists t r', mktime tz r = Ok (t, r') /\ t + tz = seconds r /\ tm_days r' /\
    localtime_r tz t = Ok (Tm (tm_sec r) (tm_min r) (tm_hour r) (tm_mday r) (tm_mon r) (tm_year r)
                             (tm_wday r') (tm_yday r') 0).
Proof.
  intros Hv Hy. destruct (timegm_spec r Hv) as (yday & E & Hyd). unfold mktime. rewrite E, ok_bind.
  cbn [fst snd]. do 2 eexists. split; [done|]. split; [lia|].
  unfold localtime_r. replace (seconds r - tz + tz) with (seconds r) by lia.
  destruct (gmtime_seconds r Hv Hy) as (w & y & E2 & -> & ->). unfold tm_days, day_number. cbn.
  rewrite E2, Hyd. done.
Qed.

Lemma localtime_mktime_witness :
  exists t r', mktime _current_tz_offset_sec (Tm 0 0 12 24 11 125 0 0 0) = Ok (t, r') /\
    t + _current_tz_offset_sec = seconds (Tm 0 0 12 24 11 125 0 0 0) /\ tm_days r' /\
    localtime_r _current_tz_offset_sec t = Ok (Tm 0 0 12 24 11 125 (tm_wday r') (tm_yday r') 0).
Proof. apply (localtime_mktime _ (Tm 0 0 12 24 11 125 0 0 0)); [apply (bool_decide_unpack _); vm_compute; exact I|reflexivity]. Defined.

(** The years of the result are those of before the normalisation: January of the next year,
    written as month 12, is taken for January of the same year, twelve months early. *)
Theorem month_carry_lost sec min hour mday year wday yday isdst :
  tm_valid (Tm sec min hour mday 0 year wday yday isdst) -> year + 1 < 2 ^ 31 ->
  exists r, timegm (Tm sec min hour mday 12 year wday yday isdst) =
      Ok (seconds (Tm sec min hour mday 0 year wday yday isdst), r) /\ tm_mon r = 0 /\ tm_year r = year + 1.
Proof.
  intros Hv Hy. pose proof (timegm_spec _ Hv) as (yd & E & Hyd). revert E.
  destruct Hv as (Hs & Hm & Hh & _ & Hmd & Hyr). cbn [tm_sec tm_min tm_hour tm_mon tm_mday tm_year] in *.
  pose proof (month_len_range (year + 1900) 0). unfold timegm. cbv beta iota zeta. cbn [tm_year].
  destruct (Z.ltb_spec 60 sec); [lia|]. destruct (Z.leb_spec 60 min); [lia|].
  rewrite (cint_ok min), !ok_bind by lia. destruct (Z.leb_spec 60 min); [lia|]. destruct (Z.leb_spec 24 hour); [lia|].
  rewrite (cint_ok hour), !ok_bind by lia. destruct (Z.leb_spec 24 hour); [lia|].
  rewrite (cint_ok mday), !ok_bind by lia. change (12 <=? 0) with false. change (12 <=? 12) with true. cbv iota.
  change (Z.quot 12 12) with 1. change (Z.rem 12 12) with 0. rewrite (cint_ok year), (cint_ok (year + 1)), !ok_bind by lia.
  cbn [mday_loop]. change (aget __spm (1 + 0)) with (Ok 31). rewrite !ok_bind.
  destruct (Z.ltb_spec 31 mday); [lia|]. rewrite !ok_bind.
  destruct (Z.ltb_spec year 70); [lia|]. destruct (Z.ltb_spec (year + 1) 70); [lia|].
  change (aget __spm 0) with (Ok 0). rewrite !ok_bind. change (1 <? 0) with false. rewrite !andb_false_r.
  intros [= E1 _ _]. rewrite E1. eexists. split; [done|]. by split.
Qed.

Lemma month_carry_lost_witness :
  exists r, timegm (Tm 0 0 0 1 12 125 0 0 0) = Ok (seconds (Tm 0 0 0 1 0 125 0 0 0), r) /\
    tm_mon r = 0 /\ tm_year r = 125 + 1.
Proof. apply month_carry_lost; [|reflexivity]. apply (bool_decide_unpack _). vm_compute. exact I. Defined.

(** The day loop compares the day of the month with days of the year: January 32 is not
    1 February but a date 31 days later. *)
Theorem day_carry_wrong sec min hour d year wday yday isdst :
  1 <= d <= 28 -> tm_valid (Tm sec min hour d 1 year wday yday isdst) ->
  exists r, timegm (Tm sec min hour (31 + d) 0 year wday yday isdst) =
      Ok (seconds (Tm sec min hour d 1 year wday yday isdst) + 31 * 86400, r) /\
    tm_mon r = 1 /\ tm_mday r = 31 + d.
Proof.
  intros Hd Hv. pose proof (timegm_spec _ Hv) as (yd & E & Hyd). revert E.
  destruct Hv as (Hs & Hm & Hh & _ & Hmd & Hyr). cbn [tm_sec tm_min tm_hour tm_mon tm_mday tm_year] in *.
  unfold timegm. cbv beta iota zeta. cbn [tm_year].
  destruct (Z.ltb_spec 60 sec); [lia|]. destruct (Z.leb_spec 60 min); [lia|].
  rewrite (cint_ok min), !ok_bind by lia. destruct (Z.leb_spec 60 min); [lia|]. destruct (Z.leb_spec 24 hour); [lia|].
  rewrite (cint_ok hour), !ok_bind by lia. destruct (Z.leb_spec 24 hour); [lia|].
  rewrite (cint_ok d), (cint_ok (31 + d)), !ok_bind by lia.
  change (12 <=? 0) with false. change (12 <=? 1) with false. cbv iota. rewrite (cint_ok year), !ok_bind by lia.
  cbn [mday_loop]. change (aget __spm (1 + 0)) with (Ok 31). change (aget __spm (1 + 1)) with (Ok 59). rewrite !ok_bind.
  destruct (Z.ltb_spec 59 d); [lia|]. destruct (Z.ltb_spec 31 (31 + d)); [|lia]. rewrite !ok_bind.
  change (0 =? 1) with false. cbn [andb]. change (aget __spm 0) with (Ok 0). rewrite !ok_bind.
  change (11 <? 0 + 1) with false. cbv iota. change (1 + (0 + 1)) with 2. change (aget __spm 2) with (Ok 59).
  rewrite !ok_bind. destruct (Z.ltb_spec 59 (31 + d - 0)); [lia|]. rewrite !ok_bind.
  destruct (Z.ltb_spec year 70); [lia|]. change (aget __spm 1) with (Ok 31). change (aget __spm (0 + 1)) with (Ok 31).
  rewrite !ok_bind. change (1 <? 1) with false. change (1 <? 0 + 1) with false. rewrite !andb_false_r.
  intros [= E1 _ _]. rewrite <- E1. eexists. split_and!; [f_equal; f_equal; lia|done|cbn; lia].
Qed.

Lemma day_carry_wrong_witness :
  exists r, timegm (Tm 0 0 0 32 0 125 0 0 0) = Ok (seconds (Tm 0 0 0 1 1 125 0 0 0) + 31 * 86400, r) /\
    tm_mon r = 1 /\ tm_mday r = 31 + 1.
Proof.
  apply (day_carry_wrong 0 0 0 1 125 0 0 0).
  - split; apply Z.leb_le; reflexivity.
  - apply (bool_decide_unpack _). vm_compute. exact I.
Defined.
