(* ===== verification/Rtc.v ===== *)
(** The real-time clock: the framework [rt-thread/components/drivers/rtc/rtc.c] over the
    driver [libraries/HAL_Drivers/drivers/drv_rtc.c].

    The clock chip keeps a date as two-digit registers; the vendor's library writes and reads
    them and answers whether a write succeeded.  A year outside 0 to 99 is outside what that
    library takes. *)

From S2P Require Import Prelude Ctime.
#[local] Open Scope Z_scope.

(** ** Data *)

(** [RTC_TimeTypeDef] and [RTC_DateTypeDef], as the chip holds them. *)
Record rtc_regs := RtcRegs {
  Seconds : Z;
  Minutes : Z;
  Hours : Z;
  Date : Z;
  Month : Z;
  Year : Z;
  WeekDay : Z;
}.

Record rt_rtc_wkalarm := WkAlarm {
  wk_enable : bool;
  wk_sec : Z;
  wk_min : Z;
  wk_hour : Z;
  wk_mday : Z;
  wk_mon : Z;
  wk_year : Z;
}.

Definition BKUP_REG_DATA : Z := 42405.  (* 0xA5A5 *)

Record rtc_st := RtcSt {
  regs : rtc_regs;
  bkup : Z;                        (* backup register 1 *)
  wkalarm : rt_rtc_wkalarm;        (* rtc_device.wkalarm *)
  alarm_a : option (Z * Z * Z);    (* the chip's alarm A: hour, minute, second of every day *)
  alarm_event : bool;              (* the event of the alarm thread *)
  rtc_found : bool;                (* rt_device_find("rtc") *)
  set_time_ok : bool;              (* HAL_RTC_SetTime == HAL_OK *)
  set_date_ok : bool;              (* HAL_RTC_SetDate == HAL_OK *)
}.

Definition set_regs (r : rtc_regs) : M rtc_st unit :=
  modify (fun s => RtcSt r (bkup s) (wkalarm s) (alarm_a s) (alarm_event s) (rtc_found s) (set_time_ok s) (set_date_ok s)).
Definition set_bkup (v : Z) : M rtc_st unit :=
  modify (fun s => RtcSt (regs s) v (wkalarm s) (alarm_a s) (alarm_event s) (rtc_found s) (set_time_ok s) (set_date_ok s)).
Definition set_wkalarm (w : rt_rtc_wkalarm) : M rtc_st unit :=
  modify (fun s => RtcSt (regs s) (bkup s) w (alarm_a s) (alarm_event s) (rtc_found s) (set_time_ok s) (set_date_ok s)).
Definition set_alarm_a (a : option (Z * Z * Z)) : M rtc_st unit :=
  modify (fun s => RtcSt (regs s) (bkup s) (wkalarm s) a (alarm_event s) (rtc_found s) (set_time_ok s) (set_date_ok s)).
(** [rt_alarm_update] of the alarm service: it wakes its thread. *)
Definition rt_alarm_update : M rtc_st unit :=
  modify (fun s => RtcSt (regs s) (bkup s) (wkalarm s) (alarm_a s) true (rtc_found s) (set_time_ok s) (set_date_ok s)).

(** ** The driver *)

Definition HAL_RTC_SetTime (sec min hour : Z) : M rtc_st bool :=
  s ← get;
  if set_time_ok s then
    set_regs (RtcRegs sec min hour (Date (regs s)) (Month (regs s)) (Year (regs s)) (WeekDay (regs s))) ;;;
    mret true
  else mret false.
Definition HAL_RTC_SetDate (date month year wday : Z) : M rtc_st bool :=
  s ← get;
  if 99 <? year then throw Unspecified else
  if set_date_ok s then
    set_regs (RtcRegs (Seconds (regs s)) (Minutes (regs s)) (Hours (regs s)) date month year wday) ;;;
    mret true
  else mret false.

(** The clock as a [struct tm]; its week day is not set. *)
Definition regs_tm (r : rtc_regs) : tm :=
  Tm (Seconds r) (Minutes r) (Hours r) (Date r) (Month r - 1) (Year r + 100) 0 0 0.

Definition stm32_rtc_get_timeval : M rtc_st (Z * Z) :=
  s ← get;
  t ← lift (timegm (regs_tm (regs s)));
  mret (RT_EOK, t.1).

Definition set_rtc_time_stamp (time_stamp : Z) : M rtc_st Z :=
  t ← lift (gmtime_r time_stamp);
  if tm_year t <? 100 then mret (- RT_ERROR) else
  ok ← HAL_RTC_SetTime (u8 (tm_sec t)) (u8 (tm_min t)) (u8 (tm_hour t));
  if negb ok then mret (- RT_ERROR) else
  ok ← HAL_RTC_SetDate (u8 (tm_mday t)) (u8 (tm_mon t + 1)) (u8 (tm_year t - 100)) (u8 (tm_wday t + 1));
  if negb ok then mret (- RT_ERROR) else
  set_bkup BKUP_REG_DATA ;;;
  mret RT_EOK.

Definition stm32_rtc_get_secs : M rtc_st (Z * Z) :=
  tv ← stm32_rtc_get_timeval; mret (RT_EOK, tv.2).

Definition stm32_rtc_set_secs (sec : Z) : M rtc_st Z :=
  r ← set_rtc_time_stamp sec;
  rt_alarm_update ;;;
  mret (if negb (r =? 0) then - RT_ERROR else RT_EOK).

Definition stm32_rtc_get_alarm : M rtc_st (Z * rt_rtc_wkalarm) := s ← get; mret (RT_EOK, wkalarm s).

Definition rt_rtc_alarm_enable (hour min sec : Z) : M rtc_st unit := set_alarm_a (Some (hour, min, sec)).
Definition rt_rtc_alarm_disable : M rtc_st unit := set_alarm_a None.

(** The mask of the chip's alarm leaves hour, minute and second. *)
Definition rtc_alarm_time_set : M rtc_st Z :=
  s ← get;
  _ ← (if wk_enable (wkalarm s) then
         rt_rtc_alarm_enable (u8 (wk_hour (wkalarm s))) (u8 (wk_min (wkalarm s))) (u8 (wk_sec (wkalarm s)))
       else mret tt);
  mret RT_EOK.

Definition stm32_rtc_set_alarm (alarm : option rt_rtc_wkalarm) : M rtc_st Z :=
  match alarm with
  | Some a => set_wkalarm a ;;; rtc_alarm_time_set ;;; mret RT_EOK
  | None => mret (- RT_ERROR)
  end.

(** The interrupt of alarm A. *)
Definition HAL_RTC_AlarmAEventCallback : M rtc_st unit := rt_alarm_update.

(** [rt_rtc_config]: is the chip initialised?  A clock that runs from its battery is kept. *)
Definition rt_rtc_config (init_ok : bool) : M rtc_st Z :=
  s ← get;
  if negb (bkup s =? BKUP_REG_DATA) && negb init_ok then mret (- RT_ERROR) else mret RT_EOK.
Definition stm32_rtc_init (init_ok : bool) : M rtc_st Z :=
  r ← rt_rtc_config init_ok;
  if negb (r =? RT_EOK) then mret (- RT_ERROR) else mret RT_EOK.

(** ** The framework *)

(** A control request, and its answer: a result code and what was stored through [args]. *)
Inductive rtc_cmd :=
  | RT_DEVICE_CTRL_RTC_GET_TIME
  | RT_DEVICE_CTRL_RTC_SET_TIME (t : Z)
  | RT_DEVICE_CTRL_RTC_GET_TIMEVAL
  | RT_DEVICE_CTRL_RTC_SET_TIMEVAL (t : Z)
  | RT_DEVICE_CTRL_RTC_GET_ALARM
  | RT_DEVICE_CTRL_RTC_SET_ALARM (a : option rt_rtc_wkalarm).
Inductive rtc_out := OutNone | OutTime (t : Z) | OutAlarm (a : rt_rtc_wkalarm).

(** [set_timeval] is the operation the driver does not have. *)
Definition rt_rtc_control (cmd : rtc_cmd) : M rtc_st (Z * rtc_out) :=
  match cmd with
  | RT_DEVICE_CTRL_RTC_GET_TIME => r ← stm32_rtc_get_secs; mret (r.1, OutTime r.2)
  | RT_DEVICE_CTRL_RTC_SET_TIME t => r ← stm32_rtc_set_secs t; mret (r, OutNone)
  | RT_DEVICE_CTRL_RTC_GET_TIMEVAL => r ← stm32_rtc_get_timeval; mret (r.1, OutTime r.2)
  | RT_DEVICE_CTRL_RTC_SET_TIMEVAL _ => mret (- RT_EINVAL, OutNone)
  | RT_DEVICE_CTRL_RTC_GET_ALARM => r ← stm32_rtc_get_alarm; mret (r.1, OutAlarm r.2)
  | RT_DEVICE_CTRL_RTC_SET_ALARM a => r ← stm32_rtc_set_alarm a; mret (r, OutNone)
  end.

Definition set_timestamp (timestamp : Z) : M rtc_st Z :=
  s ← get;
  if negb (rtc_found s) then mret (- RT_ERROR) else
  r ← rt_rtc_control (RT_DEVICE_CTRL_RTC_SET_TIME timestamp);
  mret r.1.

(** The result, and the variable [timestamp] points to. *)
Definition get_timestamp (timestamp : Z) : M rtc_st (Z * Z) :=
  s ← get;
  if negb (rtc_found s) then mret (- RT_ERROR, timestamp) else
  r ← rt_rtc_control RT_DEVICE_CTRL_RTC_GET_TIME;
  mret (r.1, match r.2 with OutTime t => t | _ => timestamp end).

(** [time] of [ctime.c], which asks the same device. *)
Definition time : M rtc_st Z :=
  s ← get;
  if negb (rtc_found s) then mret (-1) else
  r ← rt_rtc_control RT_DEVICE_CTRL_RTC_GET_TIME;
  mret (match r with (c, OutTime t) => if c =? RT_EOK then t else -1 | _ => -1 end).

Definition set_date (tz year month day : Z) : M rtc_st Z :=
  s ← get;
  if negb (rtc_found s) then mret (- RT_ERROR) else
  r ← get_timestamp 0;
  if negb (r.1 =? RT_EOK) then mret r.1 else
  t ← lift (localtime_r tz r.2);
  now ← lift (mktime tz (Tm (tm_sec t) (tm_min t) (tm_hour t) (i32 (u32 day)) (i32 (u32 (month - 1)))
                          (i32 (u32 (year - 1900))) (tm_wday t) (tm_yday t) (tm_isdst t)));
  r ← rt_rtc_control (RT_DEVICE_CTRL_RTC_SET_TIME now.1);
  mret r.1.

Definition set_time (tz hour minute second : Z) : M rtc_st Z :=
  s ← get;
  if negb (rtc_found s) then mret (- RT_ERROR) else
  r ← get_timestamp 0;
  if negb (r.1 =? RT_EOK) then mret r.1 else
  t ← lift (localtime_r tz r.2);
  now ← lift (mktime tz (Tm (i32 (u32 second)) (i32 (u32 minute)) (i32 (u32 hour)) (tm_mday t) (tm_mon t)
                          (tm_year t) (tm_wday t) (tm_yday t) (tm_isdst t)));
  r ← rt_rtc_control (RT_DEVICE_CTRL_RTC_SET_TIME now.1);
  mret r.1.

(** The shell command [date], with its six numbers: [None] when a number is refused or the
    clock fails, else the old and the new time. *)
Definition date (tz year mon mday hour min sec : Z) : M rtc_st (option (Z * Z)) :=
  let t := Tm sec min hour mday (mon - 1) (year - 1900) 0 0 0 in
  if tm_year t <=? 0 then mret None else
  if 11 <? tm_mon t then mret None else
  if (tm_mday t =? 0) || (31 <? tm_mday t) then mret None else
  if 23 <? tm_hour t then mret None else
  if 59 <? tm_min t then mret None else
  if 60 <? tm_sec t then mret None else
  old ← get_timestamp 0;
  if negb (old.1 =? RT_EOK) then mret None else
  now ← lift (mktime tz t);
  r ← set_timestamp now.1;
  if negb (r =? RT_EOK) then mret None else
  new ← get_timestamp now.1;
  mret (Some (old.2, new.2)).

(** ** The registers *)

(** A date and time of the years 2000 to 2099. *)
Definition regs_ok (r : rtc_regs) : Prop := tm_valid (regs_tm r) /\ 0 <= Year r <= 99.
Definition rtc_time (s : rtc_st) : Z := seconds (regs_tm (regs s)).
Definition rtc_works (s : rtc_st) : Prop := rtc_found s = true /\ set_time_ok s = true /\ set_date_ok s = true.

(** 2000-01-01 and 2100-01-01, 0:00. *)
Definition t2000 : Z := 946684800.
Definition t2100 : Z := 4102444800.

Lemma year_of_day r :
  tm_valid r -> 10957 <= day_number r < 47482 <-> 100 <= tm_year r <= 199.
Proof.
  intros (_ & _ & _ & Hmon & Hmd & Hy). pose proof (day_of_year_range _ _ _ Hmon Hmd) as Hd.
  unfold day_number, days_since_epoch. set (n := Z.to_nat (tm_year r + 1900 - 1970)) in *.
  assert (sum_from year_len 1970 30 = 10957) as E30 by reflexivity.
  assert (sum_from year_len 1970 130 = 47482) as E130 by reflexivity.
  assert (forall x, 0 <= year_len x) as Hp by (intros x; pose proof (year_len_range x); lia).
  assert (year_len (tm_year r + 1900) = year_len (1970 + Z.of_nat n)) as El by (f_equal; unfold n; lia).
  pose proof (sum_from_S year_len 1970 n) as ES.
  split; intros H.
  - split.
    + destruct (Z.le_gt_cases 100 (tm_year r)); [done|].
      pose proof (sum_from_mono year_len 1970 (S n) 30 Hp ltac:(lia)). lia.
    + destruct (Z.le_gt_cases (tm_year r) 199); [done|].
      pose proof (sum_from_mono year_len 1970 130 n Hp ltac:(lia)). lia.
  - pose proof (sum_from_mono year_len 1970 30 n Hp ltac:(lia)).
    pose proof (sum_from_mono year_len 1970 (S n) 130 Hp ltac:(lia)). lia.
Qed.

Lemma seconds_day r : tm_valid r -> seconds r / 86400 = day_number r.
Proof.
  intros (Hs & Hm & Hh & _). symmetry.
  apply (Z.div_unique _ _ _ (tm_hour r * 3600 + tm_min r * 60 + tm_sec r)); unfold seconds; lia.
Qed.

Lemma year_of_seconds r :
  tm_valid r -> t2000 <= seconds r < t2100 <-> 100 <= tm_year r <= 199.
Proof.
  intros Hv. rewrite <- (year_of_day r Hv), <- (seconds_day r Hv).
  unfold t2000, t2100. zlia.
Qed.

Lemma regs_time_range r : regs_ok r -> t2000 <= seconds (regs_tm r) < t2100.
Proof. intros [Hv Hy]. apply year_of_seconds; [done|]. cbn. lia. Qed.

Lemma get_timestamp_spec s d :
  rtc_found s = true -> regs_ok (regs s) -> get_timestamp d s = Ok ((RT_EOK, rtc_time s), s).
Proof.
  intros Hf [Hv _]. destruct (timegm_spec _ Hv) as (yd & E & _).
  unfold get_timestamp. rewrite (bind_step _ _ s s s), Hf by done. cbn [negb].
  unfold rt_rtc_control, stm32_rtc_get_secs, stm32_rtc_get_timeval, get, lift, mbind, M_bind.
  by rewrite E.
Qed.

Lemma time_spec s : rtc_found s = true -> regs_ok (regs s) -> time s = Ok (rtc_time s, s).
Proof.
  intros Hf [Hv _]. destruct (timegm_spec _ Hv) as (yd & E & _).
  unfold time. rewrite (bind_step _ _ s s s), Hf by done. cbn [negb].
  unfold rt_rtc_control, stm32_rtc_get_secs, stm32_rtc_get_timeval, get, lift, mbind, M_bind.
  by rewrite E.
Qed.

(** The registers of a time of these years. *)
Lemma set_secs_spec s t :
  rtc_works s -> t2000 <= t < t2100 ->
  exists r, stm32_rtc_set_secs t s = Ok (RT_EOK, RtcSt r BKUP_REG_DATA (wkalarm s) (alarm_a s) true (rtc_found s)
      (set_time_ok s) (set_date_ok s)) /\ regs_ok r /\ seconds (regs_tm r) = t /\
    gmtime_r t = Ok (Tm (Seconds r) (Minutes r) (Hours r) (Date r) (Month r - 1) (Year r + 100)
      (WeekDay r - 1) (sum_from (month_len (Year r + 2000)) 0 (Z.to_nat (Month r - 1)) + Date r - 1) 0).
Proof.
  intros (Hf & Ht & Hd) Hr. unfold t2000, t2100 in Hr.
  destruct (gmtime_spec t) as (q & Eq & Hv & [Hw Hyd] & Hs & Hi); [lia|zlia|].
  pose proof (year_of_seconds q Hv) as Hyq. rewrite Hs in Hyq. apply proj1 in Hyq. specialize (Hyq Hr).
  pose proof Hv as (H1 & H2 & H3 & H4 & H5 & H6). pose proof (month_len_range (tm_year q + 1900) (tm_mon q)).
  pose proof (Z.mod_pos_bound (day_number q + 4) 7).
  exists (RtcRegs (tm_sec q) (tm_min q) (tm_hour q) (tm_mday q) (tm_mon q + 1) (tm_year q - 100) (tm_wday q + 1)).
  assert (regs_tm (RtcRegs (tm_sec q) (tm_min q) (tm_hour q) (tm_mday q) (tm_mon q + 1) (tm_year q - 100)
    (tm_wday q + 1)) = Tm (tm_sec q) (tm_min q) (tm_hour q) (tm_mday q) (tm_mon q) (tm_year q) 0 0 0) as Er.
  { unfold regs_tm. cbn. f_equal; lia. }
  split_and!.
  - unfold stm32_rtc_set_secs, set_rtc_time_stamp, lift. unfold mbind at 1, M_bind at 1.
    unfold mbind, M_bind. rewrite Eq. destruct (Z.ltb_spec (tm_year q) 100); [lia|].
    unfold HAL_RTC_SetTime, HAL_RTC_SetDate, get, mbind, M_bind. rewrite Ht. cbn.
    rewrite !wrap_small by lia. destruct (Z.ltb_spec 99 (tm_year q - 100)); [lia|]. rewrite Hd. cbn. rewrite ?Ht, ?Hd. done.
  - split; [rewrite Er; apply Hv|cbn; lia].
  - rewrite Er, <- Hs. done.
  - rewrite Eq. clear - Hyd Hi. destruct q as [sec min hour mday mon year wday yday isdst]. cbn in *.
    rewrite Hyd, Hi. replace (year - 100 + 2000) with (year + 1900) by lia.
    replace (mon + 1 - 1) with mon by lia. f_equal. f_equal; lia.
Qed.

(** ** Properties *)

(** A time of the years 2000 to 2099 that is set is read back, the chip is marked as
    initialised, and the alarm service is told that the time has changed. *)
Theorem timestamp_round_trip s t d :
  rtc_works s -> t2000 <= t < t2100 ->
  exists s', set_timestamp t s = Ok (RT_EOK, s') /\ get_timestamp d s' = Ok ((RT_EOK, t), s') /\
    regs_ok (regs s') /\ alarm_event s' = true /\ bkup s' = BKUP_REG_DATA /\
    wkalarm s' = wkalarm s /\ alarm_a s' = alarm_a s.
Proof.
  intros Hw Ht. destruct (set_secs_spec s t Hw Ht) as (r & E & Hr & Hs & _).
  eexists. split.
  - unfold set_timestamp, get, mbind, M_bind. rewrite (proj1 Hw). cbn [negb]. unfold rt_rtc_control, mbind, M_bind.
    by rewrite E.
  - split_and!; [|done..]. rewrite get_timestamp_spec; [|apply Hw|done]. unfold rtc_time. cbn [regs]. by rewrite Hs.
Qed.

(** A clock at 2025-05-28, 8:14:08, with no alarm. *)
Definition demo_rtc : rtc_st :=
  RtcSt (RtcRegs 8 14 8 28 5 25 4) BKUP_REG_DATA (WkAlarm false 0 0 0 0 0 0) None false true true true.

Lemma timestamp_round_trip_witness :
  exists s', set_timestamp 1767225599 demo_rtc = Ok (RT_EOK, s') /\
    get_timestamp 0 s' = Ok ((RT_EOK, 1767225599), s') /\
    regs_ok (regs s') /\ alarm_event s' = true /\ bkup s' = BKUP_REG_DATA /\
    wkalarm s' = wkalarm demo_rtc /\ alarm_a s' = alarm_a demo_rtc.
Proof. apply timestamp_round_trip; [done|split; [apply Z.leb_le|]; reflexivity]. Defined.

(** An earlier time is refused and the clock is not touched. *)
Theorem timestamp_before_2000 s t :
  rtc_found s = true -> 0 <= t < t2000 ->
  exists s', set_timestamp t s = Ok (- RT_ERROR, s') /\ regs s' = regs s /\ bkup s' = bkup s.
Proof.
  intros Hf Ht. unfold t2000 in Ht. destruct (gmtime_spec t) as (q & Eq & Hv & _ & Hs & _); [lia|zlia|].
  assert (tm_year q < 100) as Hy.
  { destruct (Z.lt_ge_cases (tm_year q) 100) as [|Hge]; [done|exfalso].
    assert (tm_year q <= 199) as Hle.
    { pose proof (day_number_range q Hv) as [_ _]. destruct (Z.le_gt_cases (tm_year q) 199); [done|exfalso].
      pose proof Hv as (_ & _ & _ & Hmon & Hmd & Hyr). pose proof (day_of_year_range _ _ _ Hmon Hmd).
      pose proof (sum_years_ge 1970 (Z.to_nat (tm_year q + 1900 - 1970))).
      pose proof (seconds_day q Hv) as Hd. unfold day_number, days_since_epoch in Hd. rewrite Hs in Hd. zlia. }
    pose proof (proj2 (year_of_seconds q Hv)) as H. unfold t2000 in H. lia. }
  eexists. split.
  - unfold set_timestamp, rt_rtc_control, stm32_rtc_set_secs, set_rtc_time_stamp, get, lift, mbind, M_bind.
    rewrite Hf. cbn [negb]. rewrite Eq. destruct (Z.ltb_spec (tm_year q) 100); [|lia]. reflexivity.
  - done.
Qed.

Lemma timestamp_before_2000_witness :
  exists s', set_timestamp 0 demo_rtc = Ok (- RT_ERROR, s') /\ regs s' = regs demo_rtc /\ bkup s' = bkup demo_rtc.
Proof. apply timestamp_before_2000; [done|split; [apply Z.leb_le|]; reflexivity]. Defined.

(** *** Setting date or time alone *)

Lemma i32_u32 z : 0 <= z < 2 ^ 31 -> i32 (u32 z) = z.
Proof. intros Hz. rewrite wrap_small, swrap_small; change (2 ^ (32 - 1)) with (2 ^ 31); lia. Qed.

(** The years 2001 to 2098 leave a day of room on both sides. *)
Lemma inner_years r : tm_valid r -> 101 <= tm_year r <= 198 -> t2000 + 86400 <= seconds r < t2100 - 86400.
Proof.
  intros Hv Hy. pose proof (seconds_day r Hv) as Hd. pose proof Hv as (_ & _ & _ & Hmon & Hmd & _).
  pose proof (day_of_year_range _ _ _ Hmon Hmd) as Hr.
  unfold day_number, days_since_epoch in Hd. set (n := Z.to_nat (tm_year r + 1900 - 1970)) in *.
  assert (forall x, 0 <= year_len x) as Hp by (intros x; pose proof (year_len_range x); lia).
  assert (year_len (tm_year r + 1900) = year_len (1970 + Z.of_nat n)) as El by (f_equal; unfold n; lia).
  pose proof (sum_from_S year_len 1970 n) as ES.
  assert (sum_from year_len 1970 31 = 11323) as E31 by reflexivity.
  assert (sum_from year_len 1970 129 = 47117) as E129 by reflexivity.
  pose proof (sum_from_mono year_len 1970 31 n Hp ltac:(lia)).
  pose proof (sum_from_mono year_len 1970 (S n) 129 Hp ltac:(lia)).
  unfold t2000, t2100. zlia.
Qed.

(** Replacing fields of the local time, then writing the clock. *)
Lemma set_local s tz l :
  rtc_works s -> - 86400 <= tz <= 86400 -> tm_valid l -> 101 <= tm_year l <= 198 ->
  exists s' now l', mktime tz l = Ok (now, l') /\
    rt_rtc_control (RT_DEVICE_CTRL_RTC_SET_TIME now) s = Ok ((RT_EOK, OutNone), s') /\
    regs_ok (regs s') /\ rtc_works s' /\ exists wday yday,
    localtime_r tz (rtc_time s') =
      Ok (Tm (tm_sec l) (tm_min l) (tm_hour l) (tm_mday l) (tm_mon l) (tm_year l) wday yday 0).
Proof.
  intros Hw Htz Hv Hy. destruct (timegm_spec l Hv) as (yd & E & _). pose proof (inner_years l Hv Hy) as Hr.
  destruct (set_secs_spec s (seconds l - tz) Hw) as (r & Es & Hrk & Hrs & _); [lia|].
  destruct (gmtime_seconds l Hv) as (w & y & Eg & _); [lia|].
  eexists _, (seconds l - tz), _. split; [unfold mktime; by rewrite E|]. split; [|split; [|split]].
  - unfold rt_rtc_control, mbind, M_bind. by rewrite Es.
  - done.
  - exact Hw.
  - exists w, y. unfold rtc_time. cbn [regs]. rewrite Hrs. unfold localtime_r.
    by replace (seconds l - tz + tz) with (seconds l) by lia.
Qed.

Lemma local_now s tz :
  regs_ok (regs s) -> - 86400 <= tz <= 86400 ->
  exists l, localtime_r tz (rtc_time s) = Ok l /\ tm_valid l /\ tm_isdst l = 0.
Proof.
  intros Hr Htz. pose proof (regs_time_range _ Hr) as Hb. unfold rtc_time, localtime_r, t2000, t2100 in *.
  destruct (gmtime_spec (seconds (regs_tm (regs s)) + tz)) as (l & E & Hv & _ & _ & Hi); [lia|zlia|].
  by exists l.
Qed.

(** The command [date] writes the local date and time it is given. *)
Lemma date_spec s tz year mon mday hour min sec :
  rtc_works s -> regs_ok (regs s) -> - 86400 <= tz <= 86400 ->
  2001 <= year <= 2098 -> 1 <= mon <= 12 -> 1 <= mday <= month_len year (mon - 1) ->
  0 <= hour < 24 -> 0 <= min < 60 -> 0 <= sec < 60 ->
  exists s' now wday yday, date tz year mon mday hour min sec s = Ok (Some (rtc_time s, now), s') /\
    rtc_works s' /\ regs_ok (regs s') /\
    localtime_r tz (rtc_time s') = Ok (Tm sec min hour mday (mon - 1) (year - 1900) wday yday 0).
Proof.
  intros Hw Hr Htz Hy Hm Hd Hh Hmi Hs. set (n := Tm sec min hour mday (mon - 1) (year - 1900) 0 0 0).
  pose proof (month_len_range year (mon - 1)).
  assert (tm_valid n) as Hn.
  { unfold n, tm_valid. cbn. replace (year - 1900 + 1900) with year by lia. lia. }
  destruct (set_local s tz n Hw Htz Hn) as (s' & now & n' & E1 & E2 & Hok & Hw' & w & y & E3); [cbn; lia|].
  exists s', (rtc_time s'), w, y. split_and!; [|done|done|exact E3].
  unfold date. fold n. unfold n at 1 2 3 4 5 6 7. cbn [tm_year tm_mon tm_mday tm_hour tm_min tm_sec].
  destruct (Z.leb_spec (year - 1900) 0); [lia|]. destruct (Z.ltb_spec 11 (mon - 1)); [lia|].
  destruct (Z.eqb_spec mday 0); [lia|]. destruct (Z.ltb_spec 31 mday); [lia|].
  destruct (Z.ltb_spec 23 hour); [lia|]. destruct (Z.ltb_spec 59 min); [lia|]. destruct (Z.ltb_spec 60 sec); [lia|].
  cbn [orb]. rewrite (bind_step _ _ _ _ _ (get_timestamp_spec s 0 (proj1 Hw) Hr)). cbn [fst snd].
  change (negb (RT_EOK =? RT_EOK)) with false. cbv iota.
  erewrite bind_step; [|unfold lift; by rewrite E1]. cbn [fst].
  assert (set_timestamp now s = Ok (RT_EOK, s')) as E4.
  { unfold set_timestamp. rewrite (bind_step _ _ s s s), (proj1 Hw) by done. cbn [negb].
    by rewrite (bind_step _ _ _ _ _ E2). }
  rewrite (bind_step _ _ _ _ _ E4). change (negb (RT_EOK =? RT_EOK)) with false. cbv iota.
  by rewrite (bind_step _ _ _ _ _ (get_timestamp_spec s' now (proj1 Hw') Hok)).
Qed.

(** The local year of a clock of these years, at most a day away from Greenwich. *)
Lemma local_year s tz :
  regs_ok (regs s) -> - 86400 <= tz <= 86400 ->
  exists l, localtime_r tz (rtc_time s) = Ok l /\ tm_valid l /\ seconds l = rtc_time s + tz /\ 70 <= tm_year l <= 200.
Proof.
  intros Hr Htz. pose proof (regs_time_range _ Hr) as Hb. unfold rtc_time, localtime_r, t2000, t2100 in *.
  destruct (gmtime_spec (seconds (regs_tm (regs s)) + tz)) as (l & E & Hv & _ & Hs & _); [lia|zlia|].
  exists l. split_and!; [done|done|done|apply Hv|]. apply Z.nlt_ge. intros Hlt.
  pose proof (seconds_day l Hv) as Hd. pose proof Hv as (_ & _ & _ & Hmon & Hmd & _).
  pose proof (day_of_year_range _ _ _ Hmon Hmd). unfold day_number, days_since_epoch in Hd.
  set (n := Z.to_nat (tm_year l + 1900 - 1970)) in *.
  assert (sum_from year_len 1970 131 = 47847) as E131 by reflexivity.
  pose proof (sum_from_mono year_len 1970 131 n ltac:(intros x; pose proof (year_len_range x); lia) ltac:(lia)).
  zlia.
Qed.

(** [set_date] changes the local date and keeps the local time of day, in every time zone. *)
Theorem set_date_keeps_time s tz year month day :
  rtc_works s -> regs_ok (regs s) -> - 86400 <= tz <= 86400 ->
  2001 <= year <= 2098 -> 1 <= month <= 12 -> 1 <= day <= month_len year (month - 1) ->
  exists s' l l', set_date tz year month day s = Ok (RT_EOK, s') /\ regs_ok (regs s') /\
    localtime_r tz (rtc_time s) = Ok l /\ localtime_r tz (rtc_time s') = Ok l' /\
    tm_year l' = year - 1900 /\ tm_mon l' = month - 1 /\ tm_mday l' = day /\
    tm_hour l' = tm_hour l /\ tm_min l' = tm_min l /\ tm_sec l' = tm_sec l.
Proof.
  intros Hw Hr Htz Hy Hm Hd. destruct (local_now s tz Hr Htz) as (l & El & Hv & _).
  pose proof Hv as (H1 & H2 & H3 & _). pose proof (month_len_range year (month - 1)).
  set (n := Tm (tm_sec l) (tm_min l) (tm_hour l) day (month - 1) (year - 1900) (tm_wday l) (tm_yday l) (tm_isdst l)).
  assert (tm_valid n) as Hn.
  { unfold n, tm_valid. cbn. replace (year - 1900 + 1900) with year by lia. lia. }
  destruct (set_local s tz n Hw Htz Hn) as (s' & now & n' & E1 & E2 & Hok & _ & w & y & E3); [cbn; lia|].
  exists s', l. eexists. split_and!; [|done|done|exact E3|done..].
  unfold set_date. rewrite (bind_step _ _ s s s), (proj1 Hw) by done. cbn [negb].
  rewrite (bind_step _ _ _ _ _ (get_timestamp_spec s 0 (proj1 Hw) Hr)). cbn [fst snd].
  change (negb (RT_EOK =? RT_EOK)) with false. cbv iota.
  unfold lift, mbind, M_bind. rewrite El.
  rewrite !i32_u32 by lia. fold n. rewrite E1. cbn [fst]. by rewrite E2.
Qed.

(** Across the start of a month, eight hours east of Greenwich. *)
Lemma set_date_keeps_time_witness :
  exists s' l l', set_date _current_tz_offset_sec 2024 2 29 demo_rtc = Ok (RT_EOK, s') /\ regs_ok (regs s') /\
    localtime_r _current_tz_offset_sec (rtc_time demo_rtc) = Ok l /\
    localtime_r _current_tz_offset_sec (rtc_time s') = Ok l' /\
    tm_year l' = 2024 - 1900 /\ tm_mon l' = 2 - 1 /\ tm_mday l' = 29 /\
    tm_hour l' = tm_hour l /\ tm_min l' = tm_min l /\ tm_sec l' = tm_sec l.
Proof.
  apply set_date_keeps_time; [done| |apply (bool_decide_unpack _); vm_compute; exact I..].
  split; apply (bool_decide_unpack _); vm_compute; exact I.
Defined.

(** [set_time] changes the local time of day and keeps the local date. *)
Theorem set_time_keeps_date s tz hour minute second l :
  rtc_works s -> regs_ok (regs s) -> - 86400 <= tz <= 86400 ->
  0 <= hour < 24 -> 0 <= minute < 60 -> 0 <= second < 60 ->
  localtime_r tz (rtc_time s) = Ok l -> 101 <= tm_year l <= 198 ->
  exists s' l', set_time tz hour minute second s = Ok (RT_EOK, s') /\ regs_ok (regs s') /\
    localtime_r tz (rtc_time s') = Ok l' /\
    tm_year l' = tm_year l /\ tm_mon l' = tm_mon l /\ tm_mday l' = tm_mday l /\
    tm_hour l' = hour /\ tm_min l' = minute /\ tm_sec l' = second.
Proof.
  intros Hw Hr Htz Hh Hm Hs El Hy. destruct (local_now s tz Hr Htz) as (l0 & El0 & Hv & _).
  assert (l0 = l) as -> by congruence. pose proof Hv as (_ & _ & _ & H4 & H5 & H6).
  set (n := Tm second minute hour (tm_mday l) (tm_mon l) (tm_year l) (tm_wday l) (tm_yday l) (tm_isdst l)).
  assert (tm_valid n) as Hn by (unfold n, tm_valid; cbn; lia).
  destruct (set_local s tz n Hw Htz Hn) as (s' & now & n' & E1 & E2 & Hok & _ & w & y & E3); [cbn; lia|].
  exists s'. eexists. split_and!; [|done|exact E3|done..].
  unfold set_time. rewrite (bind_step _ _ s s s), (proj1 Hw) by done. cbn [negb].
  rewrite (bind_step _ _ _ _ _ (get_timestamp_spec s 0 (proj1 Hw) Hr)). cbn [fst snd].
  change (negb (RT_EOK =? RT_EOK)) with false. cbv iota.
  unfold lift, mbind, M_bind. rewrite El.
  rewrite !i32_u32 by lia. fold n. rewrite E1. cbn [fst]. by rewrite E2.
Qed.

Lemma set_time_keeps_date_witness :
  exists s' l', set_time _current_tz_offset_sec 23 59 59 demo_rtc = Ok (RT_EOK, s') /\ regs_ok (regs s') /\
    localtime_r _current_tz_offset_sec (rtc_time s') = Ok l' /\
    tm_year l' = 125 /\ tm_mon l' = 4 /\ tm_mday l' = 28 /\
    tm_hour l' = 23 /\ tm_min l' = 59 /\ tm_sec l' = 59.
Proof.
  apply (set_time_keeps_date demo_rtc _current_tz_offset_sec 23 59 59 (Tm 8 14 16 28 4 125 3 147 0));
    [done| |apply (bool_decide_unpack _); vm_compute; exact I..| |].
  - split; apply (bool_decide_unpack _); vm_compute; exact I.
  - reflexivity.
  - apply (bool_decide_unpack _); vm_compute; exact I.
Defined.
