(* ===== verification/Alarm.v ===== *)
(** The alarm service [rt-thread/components/drivers/rtc/alarm.c] over the clock of [Rtc].

    Alarms are heap blocks, linked in the container's list; an access through a freed block is
    a fault.  The user's callbacks are a parameter: they run inside the service and may call
    it.  The service's mutex makes its operations exclude one another, so each is one step. *)

From stdpp Require Import gmap.
From S2P Require Import Prelude Ctime Rtc.
#[local] Open Scope Z_scope.

(** ** Data *)

Definition RT_RTC_YEARS_MAX : Z := 137.
Definition RT_ALARM_DELAY : Z := 2.
Definition RT_ALARM_TM_NOW : Z := -1.
Definition RT_ALARM_ONESHOT : Z := 0.
Definition RT_ALARM_DAILY : Z := 256.
Definition RT_ALARM_WEEKLY : Z := 512.
Definition RT_ALARM_MONTHLY : Z := 1024.
Definition RT_ALARM_YAERLY : Z := 2048.
Definition RT_ALARM_HOUR : Z := 4096.
Definition RT_ALARM_MINUTE : Z := 8192.
Definition RT_ALARM_SECOND : Z := 16384.
Definition RT_ALARM_STATE_INITED : Z := 2.
Definition RT_ALARM_STATE_START : Z := 1.

(** A flag word: its kind, the bits 0xFF00, and its state bits. *)
Record rt_alarm := Alarm {
  al_flag : Z;
  al_callback : option Z;      (* a function, None for NULL *)
  al_wktime : tm;
}.

Record rt_alarm_setup := AlarmSetup {
  su_flag : Z;
  su_wktime : tm;
}.

(** The heap of alarms, the container, the clock, and the callbacks made.  A pointer is a
    number, 0 is NULL. *)
Record alarm_st := AlarmSt {
  heap : gmap Z rt_alarm;
  head : list Z;               (* _container.head *)
  current : Z;                 (* _container.current *)
  clock : rtc_st;
  rings : list (Z * Z * Z);    (* callback, alarm, timestamp *)
}.

Definition set_heap (h : gmap Z rt_alarm) : M alarm_st unit :=
  modify (fun s => AlarmSt h (head s) (current s) (clock s) (rings s)).
Definition set_head (l : list Z) : M alarm_st unit :=
  modify (fun s => AlarmSt (heap s) l (current s) (clock s) (rings s)).
Definition set_current (p : Z) : M alarm_st unit :=
  modify (fun s => AlarmSt (heap s) (head s) p (clock s) (rings s)).
Definition ring (r : Z * Z * Z) : M alarm_st unit :=
  modify (fun s => AlarmSt (heap s) (head s) (current s) (clock s) (rings s ++ [r])).

Definition on_clock {A} (m : M rtc_st A) : M alarm_st A := fun s =>
  match m (clock s) with
  | Ok (a, c) => Ok (a, AlarmSt (heap s) (head s) (current s) c (rings s))
  | Err f => Err f
  end.

(** A block is read and written through its pointer. *)
Definition load (p : Z) : M alarm_st rt_alarm :=
  s ← get;
  if p =? 0 then throw NullDeref else lift (of_option OutOfBounds (heap s !! p)).
Definition store (p : Z) (a : rt_alarm) : M alarm_st unit :=
  _ ← load p; s ← get; set_heap (<[p := a]> (heap s)).
Definition set_flag (p flag : Z) : M alarm_st unit :=
  a ← load p; store p (Alarm flag (al_callback a) (al_wktime a)).
Definition set_wktime (p : Z) (t : tm) : M alarm_st unit :=
  a ← load p; store p (Alarm (al_flag a) (al_callback a) t).

Definition started (a : rt_alarm) : bool := negb (Z.land (al_flag a) RT_ALARM_STATE_START =? 0).
Definition kind (a : rt_alarm) : Z := Z.land (al_flag a) 65280.
Definition stop_flag (flag : Z) : Z := Z.land flag (Z.lnot RT_ALARM_STATE_START).

Definition set_hms (t : tm) (h m s : Z) : tm :=
  Tm s m h (tm_mday t) (tm_mon t) (tm_year t) (tm_wday t) (tm_yday t) (tm_isdst t).
Definition set_mday (t : tm) (d : Z) : tm :=
  Tm (tm_sec t) (tm_min t) (tm_hour t) d (tm_mon t) (tm_year t) (tm_wday t) (tm_yday t) (tm_isdst t).
Definition set_mon (t : tm) (m : Z) : tm :=
  Tm (tm_sec t) (tm_min t) (tm_hour t) (tm_mday t) m (tm_year t) (tm_wday t) (tm_yday t) (tm_isdst t).
Definition set_year (t : tm) (y : Z) : tm :=
  Tm (tm_sec t) (tm_min t) (tm_hour t) (tm_mday t) (tm_mon t) y (tm_wday t) (tm_yday t) (tm_isdst t).
Definition set_wday (t : tm) (w : Z) : tm :=
  Tm (tm_sec t) (tm_min t) (tm_hour t) (tm_mday t) (tm_mon t) (tm_year t) w (tm_yday t) (tm_isdst t).

(** ** Operations *)

Definition alarm_mkdaysec (t : tm) : Z := u32 (tm_sec t + tm_min t * 60 + tm_hour t * 3600).

(** The clock's answer goes to the alarm; the chip has the precision of a second. *)
Definition alarm_set (p : Z) : M alarm_st Z :=
  s ← get;
  if negb (rtc_found (clock s)) then mret RT_ERROR else
  a ← load p;
  let t := al_wktime a in
  let w := WkAlarm (started a) (tm_sec t) (tm_min t) (tm_hour t) (tm_mday t) (tm_mon t) (tm_year t) in
  r ← on_clock (rt_rtc_control (RT_DEVICE_CTRL_RTC_SET_ALARM (Some w)));
  if (r.1 =? RT_EOK) && wk_enable w then
    r ← on_clock (rt_rtc_control RT_DEVICE_CTRL_RTC_GET_ALARM);
    match r.2 with
    | OutAlarm w =>
        _ ← (if r.1 =? RT_EOK then
               set_wktime p (Tm (wk_sec w) (wk_min w) (wk_hour w) (wk_mday w) (wk_mon w) (wk_year w)
                 (tm_wday t) (tm_yday t) (tm_isdst t))
             else mret tt);
        mret r.1
    | _ => mret r.1
    end
  else mret r.1.

(** One second later, within the day. *)
Definition next_second (now : tm) : Z * Z * Z :=
  let s := tm_sec now + 1 in
  if 59 <? s then
    let m := tm_min now + 1 in
    if 59 <? m then
      let h := tm_hour now + 1 in
      (if 23 <? h then 0 else h, 0, 0)
    else (tm_hour now, m, 0)
  else (tm_hour now, tm_min now, s).

(** The hour and minute one minute later. *)
Definition next_minute (now : tm) : Z * Z :=
  let m := tm_min now + 1 in
  if 59 <? m then
    let h := tm_hour now + 1 in
    (if 23 <? h then 0 else h, 0)
  else (tm_hour now, m).

Definition next_hour (now : tm) : Z := if 23 <? tm_hour now + 1 then 0 else tm_hour now + 1.

(** The time now, in universal time. *)
Definition utc_now : M alarm_st tm :=
  r ← on_clock (get_timestamp 0); lift (gmtime_r r.2).

(** The search of the alarm to come: the least distance ahead, else the least (negative)
    distance, with their alarms. *)
Record search := Search { sec_next : Z; alm_next : Z; sec_prev : Z; alm_prev : Z }.

Definition search_step (sec_now : Z) (f : search) (p : Z) : M alarm_st search :=
  a ← load p;
  let sec_tmp := i32 (i32 (alarm_mkdaysec (al_wktime a)) - sec_now) in
  mret (if started a then
          if 0 <? sec_tmp then
            if sec_tmp <? sec_next f then Search sec_tmp p (sec_prev f) (alm_prev f) else f
          else
            if sec_tmp <? sec_prev f then Search (sec_next f) (alm_next f) sec_tmp p else f
        else f).

Definition set_as_current (p : Z) : M alarm_st unit :=
  r ← alarm_set p;
  if r =? RT_EOK then set_current p else mret tt.

(** The second half of an update: the chip is set to the alarm that is due next. *)
Definition arm_next : M alarm_st unit :=
  now ← utc_now;
  let sec_now := i32 (alarm_mkdaysec now) in
  s ← get;
  f ← mfold (head s) (Search (24 * 3600) 0 0 0) (search_step sec_now);
  if sec_next f <? 24 * 3600 then set_as_current (alm_next f)
  else if sec_prev f <? 0 then set_as_current (alm_prev f)
  else
    s ← get;
    if negb (current s =? 0) then
      _ ← alarm_set (current s);
      a ← load (current s);
      if negb (started a) then set_current 0 else mret tt
    else mret tt.

Section service.
(** What a callback does, by its function, the alarm and the time. *)
Variable callback : Z -> Z -> Z -> M alarm_st unit.

Definition call_back (p : Z) (a : rt_alarm) : M alarm_st unit :=
  match al_callback a with
  | None => mret tt
  | Some f =>
      t ← on_clock (get_timestamp 0);
      ring (f, p, t.2) ;;;
      callback f p t.2
  end.

(** [now] is written by [timegm] for a one-shot alarm; it is returned. *)
Definition alarm_wakeup (p : Z) (now : tm) : M alarm_st tm :=
  a ← load p;
  let w := al_wktime a in
  let sec_alarm := alarm_mkdaysec w in
  let sec_now := alarm_mkdaysec now in
  if negb (started a) then mret now else
  let k := kind a in
  r ← (if k =? RT_ALARM_ONESHOT then
         ta ← lift (timegm w);
         set_wktime p ta.2 ;;;
         tn ← lift (timegm now);
         let sec_alarm := u32 ta.1 in
         let sec_now := u32 tn.1 in
         if (u32 (sec_now - sec_alarm) <=? RT_ALARM_DELAY) && (sec_alarm <=? sec_now) then
           set_flag p (stop_flag (al_flag a)) ;;;
           _ ← alarm_set p;
           mret (true, tn.2)
         else mret (false, tn.2)
       else if k =? RT_ALARM_SECOND then
         let '(h, m, s) := next_second now in
         set_wktime p (set_hms w h m s) ;;; mret (true, now)
       else if k =? RT_ALARM_MINUTE then
         if tm_sec w =? tm_sec now then
           let '(h, m) := next_minute now in
           set_wktime p (set_hms w h m (tm_sec w)) ;;; mret (true, now)
         else
           set_wktime p (set_hms w (tm_hour now) (tm_min w) (tm_sec w)) ;;; mret (false, now)
       else if k =? RT_ALARM_HOUR then
         if (tm_min w =? tm_min now) && (tm_sec w =? tm_sec now) then
           set_wktime p (set_hms w (next_hour now) (tm_min w) (tm_sec w)) ;;; mret (true, now)
         else mret (false, now)
       else if k =? RT_ALARM_DAILY then
         mret ((u32 (sec_now - sec_alarm) <=? RT_ALARM_DELAY) && (sec_alarm <=? sec_now), now)
       else if k =? RT_ALARM_WEEKLY then
         mret ((tm_wday w =? tm_wday now) &&
               (u32 (sec_now + tm_wday now * 24 * 3600) =? u32 (sec_alarm + tm_wday w * 24 * 3600)), now)
       else if k =? RT_ALARM_MONTHLY then
         mret ((tm_mday w =? tm_mday now) && (u32 (sec_now - sec_alarm) <=? RT_ALARM_DELAY), now)
       else if k =? RT_ALARM_YAERLY then
         mret ((tm_mday w =? tm_mday now) && (tm_mon w =? tm_mon now) &&
               (u32 (sec_now - sec_alarm) <=? RT_ALARM_DELAY), now)
       else mret (false, now));
  _ ← (if (r.1 : bool) then a ← load p; call_back p a else mret tt);
  mret r.2.

(** The element behind [p] in the list, 0 at its end; a node that is no longer linked has
    been freed. *)
Fixpoint next_of (p : Z) (l : list Z) : res Z :=
  match l with
  | [] => Err OutOfBounds
  | q :: l => if p =? q then Ok (match l with q :: _ => q | [] => 0 end) else next_of p l
  end.

Fixpoint wakeup_loop (fuel : nat) (p : Z) (now : tm) : M alarm_st unit :=
  if p =? 0 then mret tt else
  match fuel with
  | O => throw Spin
  | S fuel =>
      now ← alarm_wakeup p now;
      s ← get;
      p ← lift (next_of p (head s));
      wakeup_loop fuel p now
  end.

Definition alarm_update : M alarm_st unit :=
  s ← get;
  match head s with
  | [] => mret tt
  | p :: _ =>
      now ← utc_now;
      wakeup_loop (length (head s)) p now ;;;
      arm_next
  end.

(** The service thread on its event. *)
Definition rt_alarmsvc_turn : M alarm_st unit :=
  s ← get;
  if alarm_event (clock s) then
    on_clock (modify (fun c => RtcSt (regs c) (bkup c) (wkalarm c) (alarm_a c) false (rtc_found c)
                                 (set_time_ok c) (set_date_ok c))) ;;;
    alarm_update
  else mret tt.
End service.

Definition days_of_year_month (tm_year tm_mon : Z) : Z :=
  let year := tm_year + 1900 in
  if tm_mon =? 1 then
    28 + (if (Z.rem year 4 =? 0) && negb (Z.rem year 100 =? 0) || (Z.rem year 400 =? 0) then 1 else 0)
  else if (tm_mon <=? 6) && (Z.rem tm_mon 2 =? 0) || (6 <? tm_mon) && (Z.rem tm_mon 2 =? 1) then 31
  else 30.

Definition is_valid_date (date : tm) : bool :=
  if (tm_year date <? 0) || (RT_RTC_YEARS_MAX <? tm_year date) then false
  else if (tm_mon date <? 0) || (11 <? tm_mon date) then false
  else if (tm_mday date <? 1) || (days_of_year_month (tm_year date) (tm_mon date) <? tm_mday date) then false
  else true.

(** A value outside a range means "now". *)
Definition or_now (lo hi v now : Z) : Z := if (hi <? v) || (v <? lo) then now else v.
Definition tm_now (v now : Z) : Z := if v =? RT_ALARM_TM_NOW then now else v.

(** The part of the setup that depends on the kind; [None] is refused.  A one-shot alarm
    keeps what was filled in when its date is refused. *)
Definition setup_kind (k : Z) (setup now : tm) : tm * bool :=
  if k =? RT_ALARM_SECOND then
    let '(h, m, s) := next_second now in (set_hms setup h m s, true)
  else if k =? RT_ALARM_MINUTE then
    let '(h, m) := next_minute now in (set_hms setup h m (tm_sec setup), true)
  else if k =? RT_ALARM_HOUR then
    (set_hms setup (next_hour now) (tm_min setup) (tm_sec setup), true)
  else if k =? RT_ALARM_DAILY then (setup, true)
  else if k =? RT_ALARM_ONESHOT then
    let t := set_mday (set_mon (set_year setup (tm_now (tm_year setup) (tm_year now)))
                         (tm_now (tm_mon setup) (tm_mon now)))
               (tm_now (tm_mday setup) (tm_mday now)) in
    (t, is_valid_date t)
  else if k =? RT_ALARM_WEEKLY then (set_wday setup (or_now 0 6 (tm_wday setup) (tm_wday now)), true)
  else if k =? RT_ALARM_MONTHLY then (set_mday setup (or_now 1 31 (tm_mday setup) (tm_mday now)), true)
  else if k =? RT_ALARM_YAERLY then
    let t := set_mon setup (or_now 0 11 (tm_mon setup) (tm_mon now)) in
    let m := tm_mon t in
    let last := if m =? 1 then 29
                else if (m <=? 6) && (Z.rem m 2 =? 0) || (6 <? m) && (Z.rem m 2 =? 1) then 31 else 30 in
    (set_mday t (or_now 1 last (tm_mday t) (tm_mday now)), true)
  else (setup, false).

Definition alarm_setup (p : Z) (wktime : tm) : M alarm_st Z :=
  a ← load p;
  now ← utc_now;
  let setup := set_hms wktime (or_now 0 23 (tm_hour wktime) (tm_hour now))
                 (or_now 0 59 (tm_min wktime) (tm_min now)) (or_now 0 59 (tm_sec wktime) (tm_sec now)) in
  let '(setup, ok) := setup_kind (kind a) setup now in
  if (ok : bool) then
    let setup :=
      if (tm_hour setup =? 23) && (tm_min setup =? 59) && (tm_sec setup =? 59)
      then set_hms setup 23 59 (60 - RT_ALARM_DELAY) else setup in
    set_wktime p setup ;;;
    set_flag p (Z.lor (al_flag a) RT_ALARM_STATE_INITED) ;;;
    mret RT_EOK
  else
    set_wktime p setup ;;;
    mret (- RT_ERROR).

(** The new pointer, 0 when memory is out: [addr] is the block the allocator gives. *)
Definition rt_alarm_create (cb : option Z) (setup : rt_alarm_setup) (addr : Z) : M alarm_st Z :=
  if addr =? 0 then mret 0 else
  s ← get;
  set_heap (<[addr := Alarm (Z.land (su_flag setup) 65280) cb (su_wktime setup)]> (heap s)) ;;;
  set_head (addr :: head s) ;;;
  mret addr.

(** Is the new alarm due before the one the chip is set to? *)
Definition due_before (sec_now sec_old sec_new : Z) : bool :=
  (sec_new <? sec_old) && (sec_now <? sec_new) ||
  (sec_now <? sec_new) && (sec_old <? sec_now) ||
  (sec_new <? sec_old) && (sec_old <? sec_now).

Definition rt_alarm_start (p : Z) : M alarm_st Z :=
  if p =? 0 then mret RT_ERROR else
  a ← load p;
  if started a then mret RT_EOK else
  r ← alarm_setup p (al_wktime a);
  if negb (r =? RT_EOK) then mret (- RT_ERROR) else
  now ← utc_now;
  a ← load p;
  set_flag p (Z.lor (al_flag a) RT_ALARM_STATE_START) ;;;
  s ← get;
  if current s =? 0 then
    r ← alarm_set p;
    _ ← (if r =? RT_EOK then set_current p else mret tt);
    mret r
  else
    c ← load (current s);
    a ← load p;
    if due_before (i32 (alarm_mkdaysec now)) (i32 (alarm_mkdaysec (al_wktime c))) (i32 (alarm_mkdaysec (al_wktime a)))
    then
      r ← alarm_set p;
      _ ← (if r =? RT_EOK then set_current p else mret tt);
      mret r
    else mret RT_EOK.

Section service2.
Variable callback : Z -> Z -> Z -> M alarm_st unit.

Definition rt_alarm_stop (p : Z) : M alarm_st Z :=
  if p =? 0 then mret RT_ERROR else
  a ← load p;
  if negb (started a) then mret RT_EOK else
  set_flag p (stop_flag (al_flag a)) ;;;
  s ← get;
  ret ← (if current s =? p then r ← alarm_set p; set_current 0 ;;; mret r else mret RT_EOK);
  _ ← (if ret =? RT_EOK then alarm_update callback else mret tt);
  mret ret.

Definition rt_alarm_delete (p : Z) : M alarm_st Z :=
  if p =? 0 then mret (- RT_ERROR) else
  a ← load p;
  set_flag p (stop_flag (al_flag a)) ;;;
  s ← get;
  ret ← (if current s =? p then
           r ← alarm_set p; set_current 0 ;;; alarm_update callback ;;; mret r
         else mret RT_EOK);
  s ← get;
  _ ← load p;
  set_head (filter (fun q => q <> p) (head s)) ;;;
  set_heap (delete p (heap s)) ;;;
  mret ret.

Definition RT_ALARM_CTRL_MODIFY : Z := 1.

Definition rt_alarm_control (p cmd : Z) (setup : rt_alarm_setup) : M alarm_st Z :=
  if p =? 0 then throw AssertFail else
  if cmd =? RT_ALARM_CTRL_MODIFY then
    _ ← rt_alarm_stop p;
    set_flag p (Z.land (su_flag setup) 65280) ;;;
    set_wktime p (su_wktime setup) ;;;
    a ← load p;
    alarm_setup p (al_wktime a)
  else mret (- RT_ERROR).

(** *** The firmware's alarms *)

(** The setup of both: the date and time of [t] in universal time; the two members the code
    leaves unset are 0 here. *)
Definition setup_of (flag : Z) (t : tm) : rt_alarm_setup :=
  AlarmSetup flag (Tm (tm_sec t) (tm_min t) (tm_hour t) (tm_mday t) (tm_mon t) (tm_year t) (tm_wday t) 0 0).

(** [ele_ds_alarm_init]: the handle stays a local variable; the result and, for the reader,
    the handle. *)
Definition ele_ds_alarm_init (alarm_cb set_alarm_time : Z) (enable : bool) (addr : Z) : M alarm_st (Z * Z) :=
  t ← lift (gmtime_r set_alarm_time);
  alarm ← rt_alarm_create (Some alarm_cb) (setup_of RT_ALARM_DAILY t) addr;
  if negb (alarm =? 0) then
    if enable then
      ret ← rt_alarm_start alarm;
      if negb (ret =? RT_EOK) then mret (-2, alarm) else mret (0, alarm)
    else mret (0, alarm)
  else mret (-3, alarm).

(** [alarm_sample] of [ele_ds_pm.c], with its static [myalarm], which is returned; [alarm_time] is
    the argument's number. *)
Definition alarm_sample (user_alarm_callback myalarm alarm_time addr : Z) : M alarm_st Z :=
  now ← on_clock (get_timestamp (-1));
  t ← lift (gmtime_r (now.2 + u32 alarm_time));
  _ ← (if negb (myalarm =? 0) then rt_alarm_delete myalarm else mret RT_EOK);
  alarm ← rt_alarm_create (Some user_alarm_callback) (setup_of RT_ALARM_ONESHOT t) addr;
  _ ← (if negb (alarm =? 0) then rt_alarm_start alarm else mret RT_EOK);
  mret alarm.
End service2.

(** ** The clock under the service *)

Definition clock_ok (s : alarm_st) : Prop := rtc_found (clock s) = true /\ regs_ok (regs (clock s)).
(** The second of the day, of a time and of the clock. *)
Definition tod (t : tm) : Z := tm_hour t * 3600 + tm_min t * 60 + tm_sec t.
Definition hms_ok (t : tm) : Prop := 0 <= tm_sec t < 60 /\ 0 <= tm_min t < 60 /\ 0 <= tm_hour t < 24.
Definition now_tod (s : alarm_st) : Z := rtc_time (clock s) mod 86400.

Lemma tod_range t : hms_ok t -> 0 <= tod t < 86400.
Proof. unfold hms_ok, tod. lia. Qed.

Lemma mkdaysec_tod t : hms_ok t -> alarm_mkdaysec t = tod t.
Proof. intros H. pose proof (tod_range t H). unfold alarm_mkdaysec, tod in *. rewrite wrap_small; lia. Qed.

Lemma mkdaysec_int t : hms_ok t -> i32 (alarm_mkdaysec t) = tod t.
Proof.
  intros H. pose proof (tod_range t H). rewrite mkdaysec_tod by done.
  rewrite swrap_small; change (2 ^ (32 - 1)) with (2 ^ 31); lia.
Qed.

Lemma tod_seconds t : tm_valid t -> tod t = seconds t mod 86400.
Proof.
  intros (H1 & H2 & H3 & _). apply (Z.mod_unique _ _ (day_number t)); unfold seconds, tod; lia.
Qed.

Lemma get_time_step s d :
  clock_ok s -> on_clock (get_timestamp d) s = Ok ((RT_EOK, rtc_time (clock s)), s).
Proof.
  intros [Hf Hr]. unfold on_clock. rewrite get_timestamp_spec by done. by destruct s.
Qed.

Lemma utc_now_step s :
  clock_ok s ->
  exists n, utc_now s = Ok (n, s) /\ tm_valid n /\ tm_days n /\ seconds n = rtc_time (clock s) /\ hms_ok n /\
    tod n = now_tod s.
Proof.
  intros Hc. pose proof (regs_time_range _ (proj2 Hc)) as Hr. fold (rtc_time (clock s)) in Hr. unfold t2000, t2100 in Hr.
  destruct (gmtime_spec (rtc_time (clock s))) as (n & E & Hv & Hd & Hs & _); [lia|zlia|].
  exists n. split_and!; [|done|done|done|unfold hms_ok; unfold tm_valid in Hv; tauto|].
  - unfold utc_now. rewrite (bind_step _ _ _ _ _ (get_time_step s 0 Hc)). unfold lift. cbn [snd]. by rewrite E.
  - rewrite tod_seconds by done. by rewrite Hs.
Qed.

(** The clock with its chip set to an alarm. *)
Definition wk_of (a : rt_alarm) : rt_rtc_wkalarm :=
  let t := al_wktime a in
  WkAlarm (started a) (tm_sec t) (tm_min t) (tm_hour t) (tm_mday t) (tm_mon t) (tm_year t).
Definition armed (c : rtc_st) (a : rt_alarm) : rtc_st :=
  let t := al_wktime a in
  RtcSt (regs c) (bkup c) (wk_of a)
    (if started a then Some (u8 (tm_hour t), u8 (tm_min t), u8 (tm_sec t)) else alarm_a c)
    (alarm_event c) (rtc_found c) (set_time_ok c) (set_date_ok c).
Definition with_clock (s : alarm_st) (c : rtc_st) : alarm_st := AlarmSt (heap s) (head s) (current s) c (rings s).

Lemma load_step s p a : p <> 0 -> heap s !! p = Some a -> load p s = Ok (a, s).
Proof.
  intros Hp Ha. unfold load, get, lift, mbind, M_bind.
  destruct (Z.eqb_spec p 0); [done|]. by rewrite Ha.
Qed.

Definition with_heap (s : alarm_st) (h : gmap Z rt_alarm) : alarm_st :=
  AlarmSt h (head s) (current s) (clock s) (rings s).

Lemma store_step s p a b : p <> 0 -> heap s !! p = Some a -> store p b s = Ok (tt, with_heap s (<[p := b]> (heap s))).
Proof. intros Hp Ha. unfold store. by rewrite (bind_step _ _ _ _ _ (load_step s p a Hp Ha)). Qed.

Lemma set_wktime_step s p a t :
  p <> 0 -> heap s !! p = Some a ->
  set_wktime p t s = Ok (tt, with_heap s (<[p := Alarm (al_flag a) (al_callback a) t]> (heap s))).
Proof.
  intros Hp Ha. unfold set_wktime. rewrite (bind_step _ _ _ _ _ (load_step s p a Hp Ha)). by apply (store_step s p a).
Qed.

Lemma set_flag_step s p a f :
  p <> 0 -> heap s !! p = Some a ->
  set_flag p f s = Ok (tt, with_heap s (<[p := Alarm f (al_callback a) (al_wktime a)]> (heap s))).
Proof.
  intros Hp Ha. unfold set_flag. rewrite (bind_step _ _ _ _ _ (load_step s p a Hp Ha)). by apply (store_step s p a).
Qed.

(** Setting the chip leaves the alarm as it is: the chip has the same precision. *)
Lemma alarm_set_step s p a :
  rtc_found (clock s) = true -> p <> 0 -> heap s !! p = Some a ->
  alarm_set p s = Ok (RT_EOK, with_clock s (armed (clock s) a)).
Proof.
  intros Hf Hp Ha. unfold alarm_set. rewrite (bind_step _ _ s s s), Hf by done. cbn [negb].
  rewrite (bind_step _ _ _ _ _ (load_step s p a Hp Ha)). cbv zeta. fold (wk_of a).
  destruct (started a) eqn:Es.
  - assert (on_clock (rt_rtc_control (RT_DEVICE_CTRL_RTC_SET_ALARM (Some (wk_of a)))) s =
      Ok ((RT_EOK, OutNone), with_clock s (armed (clock s) a))) as E.
    { unfold on_clock, with_clock, armed, wk_of. rewrite Es. reflexivity. }
    rewrite (bind_step _ _ _ _ _ E). cbn [fst snd]. change (RT_EOK =? RT_EOK) with true.
    unfold wk_of at 1. rewrite Es. cbn [andb wk_enable].
    assert (on_clock (rt_rtc_control RT_DEVICE_CTRL_RTC_GET_ALARM) (with_clock s (armed (clock s) a)) =
      Ok ((RT_EOK, OutAlarm (wk_of a)), with_clock s (armed (clock s) a))) as E2 by reflexivity.
    rewrite (bind_step _ _ _ _ _ E2). cbn [fst snd]. change (RT_EOK =? RT_EOK) with true. cbv iota.
    rewrite (bind_step _ _ _ _ _ (set_wktime_step (with_clock s (armed (clock s) a)) p a _ Hp Ha)).
    unfold mret, M_ret. f_equal. f_equal. unfold with_heap, with_clock. cbn [heap head current clock rings].
    f_equal. rewrite <- (insert_id (heap s) p a Ha) at 2. f_equal. destruct a as [fl cb [? ? ? ? ? ? ? ? ?]]. reflexivity.
  - unfold on_clock, wk_of, armed. rewrite Es. unfold mbind, M_bind. cbn. unfold with_clock, armed, wk_of. by rewrite Es.
Qed.

(** ** The alarm that is due next *)

(** The alarms of a list of pointers: all alive, and those that are started have a time. *)
Definition live (s : alarm_st) (q : Z) : Prop :=
  q <> 0 /\ exists a, heap s !! q = Some a /\ (started a = true -> hms_ok (al_wktime a)).
(** A started alarm of the container and its time of day. *)
Definition runs_at (s : alarm_st) (q v : Z) : Prop :=
  exists a, heap s !! q = Some a /\ started a = true /\ tod (al_wktime a) = v.
(** Seconds from [now] until the time of day [v] comes next, a whole day if it is now. *)
Definition wait (now v : Z) : Z := (v - now - 1) mod 86400 + 1.

(** What the two halves of the search have found among the alarms [l]. *)
Definition next_ok (s : alarm_st) (now : Z) (l : list Z) (n p : Z) : Prop :=
  (n = 86400 /\ (forall q v, q ∈ l -> runs_at s q v -> v <= now)) \/
  (p ∈ l /\ runs_at s p (now + n) /\ 0 < n < 86400 /\
   forall q v, q ∈ l -> runs_at s q v -> now < v -> now + n <= v).
Definition prev_ok (s : alarm_st) (now : Z) (l : list Z) (n p : Z) : Prop :=
  (n = 0 /\ (forall q v, q ∈ l -> runs_at s q v -> now <= v)) \/
  (p ∈ l /\ runs_at s p (now + n) /\ n < 0 /\ forall q v, q ∈ l -> runs_at s q v -> now + n <= v).
Definition search_ok (s : alarm_st) (now : Z) (l : list Z) (f : search) : Prop :=
  next_ok s now l (sec_next f) (alm_next f) /\ prev_ok s now l (sec_prev f) (alm_prev f).

Lemma runs_at_fun s q v w : runs_at s q v -> runs_at s q w -> v = w.
Proof. intros (a & Ha & _ & <-) (b & Hb & _ & <-). congruence. Qed.

(** One more alarm, not better than what was found. *)
Lemma next_keep s now l n p q :
  next_ok s now l n p -> (forall v, runs_at s q v -> v <= now \/ n < 86400 /\ now + n <= v) -> next_ok s now (l ++ [q]) n p.
Proof.
  intros H Hq. destruct H as [[-> H]|(H1 & H2 & H3 & H4)]; [left|right].
  - split; [done|]. intros r v [Hr| ->%list_elem_of_singleton]%elem_of_app Hv; [by eapply H|]. specialize (Hq v Hv). lia.
  - split_and!; [set_solver|done|lia|lia|].
    intros r v [Hr| ->%list_elem_of_singleton]%elem_of_app Hv Hlt; [by eapply H4|]. specialize (Hq v Hv). lia.
Qed.

Lemma prev_keep s now l n p q :
  prev_ok s now l n p -> (forall v, runs_at s q v -> now + n <= v) -> prev_ok s now (l ++ [q]) n p.
Proof.
  intros H Hq. destruct H as [[-> H]|(H1 & H2 & H3 & H4)]; [left|right].
  - split; [done|]. intros r v [Hr| ->%list_elem_of_singleton]%elem_of_app Hv; [by eapply H|]. specialize (Hq v Hv). lia.
  - split_and!; [set_solver|done|lia|].
    intros r v [Hr| ->%list_elem_of_singleton]%elem_of_app Hv; [by eapply H4|]. by apply Hq.
Qed.

(** One more alarm, and a better one. *)
Lemma next_take s now l n p q v :
  next_ok s now l n p -> runs_at s q v -> 0 < v - now < n -> next_ok s now (l ++ [q]) (v - now) q.
Proof.
  intros H Hq Hv. assert (n <= 86400) by (destruct H as [[-> _]|(_ & _ & ? & _)]; lia).
  right. split_and!; [set_solver|by replace (now + (v - now)) with v by lia|lia|lia|].
  intros r w [Hr| ->%list_elem_of_singleton]%elem_of_app Hw Hlt; [|rewrite (runs_at_fun _ _ _ _ Hw Hq); lia].
  destruct H as [[_ H]|(_ & _ & _ & H)]; [specialize (H r w Hr Hw)|specialize (H r w Hr Hw Hlt)]; lia.
Qed.

Lemma prev_take s now l n p q v :
  prev_ok s now l n p -> runs_at s q v -> v - now < n -> v - now < 0 -> prev_ok s now (l ++ [q]) (v - now) q.
Proof.
  intros H Hq Hv Hv0. right. split_and!; [set_solver|by replace (now + (v - now)) with v by lia|lia|].
  intros r w [Hr| ->%list_elem_of_singleton]%elem_of_app Hw; [|rewrite (runs_at_fun _ _ _ _ Hw Hq); lia].
  destruct H as [[_ H]|(_ & _ & _ & H)]; specialize (H r w Hr Hw); lia.
Qed.

Lemma search_step_ok s now l f p :
  0 <= now < 86400 -> live s p -> search_ok s now l f ->
  exists f', search_step now f p s = Ok (f', s) /\ search_ok s now (l ++ [p]) f'.
Proof.
  intros Hn (Hp & a & Ha & Hh) [Hf1 Hf2]. unfold search_step. rewrite (bind_step _ _ _ _ _ (load_step s p a Hp Ha)).
  destruct (started a) eqn:Es.
  2: { exists f. split; [done|].
       split; [apply next_keep|apply prev_keep]; try done; intros v (b & Hb & Hsb & _); congruence. }
  specialize (Hh eq_refl). pose proof (tod_range _ Hh) as Ht. rewrite mkdaysec_int by done.
  rewrite swrap_small by (change (2 ^ (32 - 1)) with (2 ^ 31); lia).
  assert (runs_at s p (tod (al_wktime a))) as Hr by (by exists a).
  set (v := tod (al_wktime a)) in *. eexists. split; [reflexivity|].
  assert (forall w, runs_at s p w -> w = v) as Hone by (intros w Hw; by eapply runs_at_fun).
  assert (sec_prev f <= 0) as Hp0 by (destruct Hf2 as [[-> _]|(_ & _ & ? & _)]; lia).
  destruct (Z.ltb_spec 0 (v - now)) as [Hv|Hv].
  - destruct (Z.ltb_spec (v - now) (sec_next f)) as [Hlt|Hge]; split; cbn [sec_next alm_next sec_prev alm_prev].
    + by eapply next_take.
    + apply prev_keep; [done|]. intros w ->%Hone. lia.
    + apply next_keep; [done|]. intros w ->%Hone. lia.
    + apply prev_keep; [done|]. intros w ->%Hone. lia.
  - destruct (Z.ltb_spec (v - now) (sec_prev f)) as [Hlt|Hge]; split; cbn [sec_next alm_next sec_prev alm_prev].
    + apply next_keep; [done|]. intros w ->%Hone. lia.
    + eapply prev_take; [done|done|lia|lia].
    + apply next_keep; [done|]. intros w ->%Hone. lia.
    + apply prev_keep; [done|]. intros w ->%Hone. lia.
Qed.

Lemma search_loop_ok s now l l0 f :
  0 <= now < 86400 -> Forall (live s) l -> search_ok s now l0 f ->
  exists f', mfold l f (search_step now) s = Ok (f', s) /\ search_ok s now (l0 ++ l) f'.
Proof.
  intros Hn. revert l0 f. induction l as [|p l IH]; intros l0 f Hl Hf; cbn [mfold].
  - exists f. split; [done|]. by rewrite app_nil_r.
  - inversion_clear Hl. destruct (search_step_ok s now l0 f p Hn) as (f1 & E1 & H1); [done..|].
    rewrite (bind_step _ _ _ _ _ E1). destruct (IH (l0 ++ [p]) f1) as (f2 & E2 & H2); [done..|].
    exists f2. split; [done|]. by rewrite <- app_assoc in H2.
Qed.

Definition with_current (s : alarm_st) (p : Z) : alarm_st := AlarmSt (heap s) (head s) p (clock s) (rings s).

(** The container in order: linked alarms are alive, and so is the current one. *)
Definition linked (s : alarm_st) : Prop :=
  NoDup (head s) /\ Forall (live s) (head s) /\ (current s = 0 \/ current s ∈ head s).

Lemma live_heap s p : live s p -> exists a, heap s !! p = Some a.
Proof. intros (_ & a & Ha & _). eauto. Qed.

Lemma set_as_current_step s p a :
  rtc_found (clock s) = true -> p <> 0 -> heap s !! p = Some a ->
  set_as_current p s = Ok (tt, with_current (with_clock s (armed (clock s) a)) p).
Proof. intros Hf Hp Ha. unfold set_as_current. by rewrite (bind_step _ _ _ _ _ (alarm_set_step s p a Hf Hp Ha)). Qed.

Lemma arm_next_ok s :
  clock_ok s -> linked s ->
  (exists p a, arm_next s = Ok (tt, with_current (with_clock s (armed (clock s) a)) p) /\
     p ∈ head s /\ heap s !! p = Some a /\ started a = true /\ tod (al_wktime a) <> now_tod s /\
     forall q v, q ∈ head s -> runs_at s q v -> wait (now_tod s) (tod (al_wktime a)) <= wait (now_tod s) v) \/
  ((forall q v, q ∈ head s -> runs_at s q v -> v = now_tod s) /\
   arm_next s = Ok (tt,
     match heap s !! current s with
     | Some a => if current s =? 0 then s
                 else let s' := with_clock s (armed (clock s) a) in if started a then s' else with_current s' 0
     | None => s
     end)).
Proof.
  intros Hc (_ & Hl & Hcur). destruct (utc_now_step s Hc) as (n & En & _ & _ & _ & Hn & Ht).
  unfold arm_next. rewrite (bind_step _ _ _ _ _ En), mkdaysec_int, Ht by done. cbv zeta.
  rewrite (bind_step _ _ s s s) by done. pose proof (tod_range n Hn) as Hnr. rewrite Ht in Hnr.
  destruct (search_loop_ok s (now_tod s) (head s) [] (Search (24 * 3600) 0 0 0)) as (f & Ef & Hf1 & Hf2); [done|done| |].
  { split; left; (split; [done|]); intros q v []%not_elem_of_nil. }
  rewrite (bind_step _ _ _ _ _ Ef). cbn [app] in *. change (24 * 3600) with 86400.
  assert (forall q v, q ∈ head s -> runs_at s q v -> 0 <= v < 86400) as Hday.
  { intros q v Hq (a & Ha & Hs & <-). rewrite Forall_forall in Hl. destruct (Hl q Hq) as (_ & b & Hb & Hh).
    assert (b = a) as -> by congruence. by apply tod_range, Hh. }
  destruct Hf1 as [[E1 H1]|(Hin & Hr & Hb & Hmin)].
  - rewrite E1. cbn [Z.ltb Z.compare Pos.compare Pos.compare_cont]. change (86400 <? 86400) with false. cbv iota.
    destruct Hf2 as [[E2 H2]|(Hin & Hr & Hb & Hmin)].
    + right. rewrite E2. change (0 <? 0) with false. cbv iota. split.
      { intros q v Hq Hv. specialize (H1 q v Hq Hv). specialize (H2 q v Hq Hv). lia. }
      rewrite (bind_step _ _ s s s) by done. destruct (Z.eqb_spec (current s) 0) as [E0|E0]; cbn [negb].
      { destruct (heap s !! current s); done. }
      destruct Hcur as [|Hcur]; [done|]. rewrite Forall_forall in Hl. destruct (Hl _ Hcur) as (_ & a & Ha & _).
      rewrite (bind_step _ _ _ _ _ (alarm_set_step s _ a (proj1 Hc) E0 Ha)).
      rewrite (bind_step _ _ _ _ _ (load_step (with_clock s (armed (clock s) a)) _ a E0 Ha)).
      rewrite Ha. by destruct (started a).
    + left. rewrite (proj2 (Z.ltb_lt _ _) Hb). destruct Hr as (a & Ha & Hs & Hv). exists (alm_prev f), a.
      assert (alm_prev f <> 0) as Hp by (rewrite Forall_forall in Hl; by destruct (Hl _ Hin)).
      rewrite (set_as_current_step _ _ a (proj1 Hc) Hp Ha). split_and!; [done|done|done|done|lia|].
      intros q v Hq Hqv. specialize (H1 q v Hq Hqv). specialize (Hmin q v Hq Hqv). pose proof (Hday q v Hq Hqv).
      assert (0 <= tod (al_wktime a) < 86400) by (eapply (Hday _ _ Hin); by exists a). unfold wait. zlia.
  - left. rewrite (proj2 (Z.ltb_lt _ _) (proj2 Hb)). destruct Hr as (a & Ha & Hs & Hv). exists (alm_next f), a.
    assert (alm_next f <> 0) as Hp by (rewrite Forall_forall in Hl; by destruct (Hl _ Hin)).
    rewrite (set_as_current_step _ _ a (proj1 Hc) Hp Ha). split_and!; [done|done|done|done|lia|].
    intros q v Hq Hqv. specialize (Hmin q v Hq Hqv). pose proof (Hday q v Hq Hqv).
    assert (0 <= tod (al_wktime a) < 86400) by (eapply (Hday _ _ Hin); by exists a). unfold wait. zlia.
Qed.

(** ** Ringing *)

(** A callback that only is recorded. *)
Definition quiet : Z -> Z -> Z -> M alarm_st unit := fun _ _ _ => mret tt.
Definition with_rings (s : alarm_st) (l : list (Z * Z * Z)) : alarm_st :=
  AlarmSt (heap s) (head s) (current s) (clock s) l.

(** A daily alarm is due up to two seconds after its time, the same day. *)
Definition due (now : Z) (a : rt_alarm) : bool :=
  started a && (tod (al_wktime a) <=? now) && (now <=? tod (al_wktime a) + RT_ALARM_DELAY).
Definition rings_of (s : alarm_st) (p : Z) : list (Z * Z * Z) :=
  match heap s !! p with
  | Some a => match al_callback a with
              | Some f => if due (now_tod s) a then [(f, p, rtc_time (clock s))] else []
              | None => []
              end
  | None => []
  end.

Lemma wakeup_daily cb s p a n :
  p <> 0 -> heap s !! p = Some a -> kind a = RT_ALARM_DAILY ->
  (started a = true -> hms_ok (al_wktime a)) -> hms_ok n -> tod n = now_tod s ->
  alarm_wakeup cb p n s = if due (now_tod s) a then (call_back cb p a ;;; mret n) s else Ok (n, s).
Proof.
  intros Hp Ha Hk Hh Hn Ht. unfold alarm_wakeup. rewrite (bind_step _ _ _ _ _ (load_step s p a Hp Ha)).
  unfold due. destruct (started a) eqn:Es; cbn [negb andb]; [|done].
  specialize (Hh eq_refl). pose proof (tod_range _ Hh). pose proof (tod_range _ Hn).
  rewrite Hk. change (RT_ALARM_DAILY =? RT_ALARM_ONESHOT) with false. change (RT_ALARM_DAILY =? RT_ALARM_SECOND) with false.
  change (RT_ALARM_DAILY =? RT_ALARM_MINUTE) with false. change (RT_ALARM_DAILY =? RT_ALARM_HOUR) with false.
  change (RT_ALARM_DAILY =? RT_ALARM_DAILY) with true. cbv iota. rewrite !mkdaysec_tod, Ht by done.
  rewrite (bind_step _ _ s _ s) by done. cbn [fst snd].
  assert ((u32 (now_tod s - tod (al_wktime a)) <=? RT_ALARM_DELAY) && (tod (al_wktime a) <=? now_tod s) =
    (tod (al_wktime a) <=? now_tod s) && (now_tod s <=? tod (al_wktime a) + RT_ALARM_DELAY)) as ->.
  { destruct (Z.leb_spec (tod (al_wktime a)) (now_tod s)); cbn [andb]; rewrite ?andb_false_r, ?andb_true_r; [|done].
    rewrite wrap_small by lia. apply Bool.eq_iff_eq_true. rewrite !Z.leb_le. unfold RT_ALARM_DELAY. lia. }
  destruct ((tod (al_wktime a) <=? now_tod s) && (now_tod s <=? tod (al_wktime a) + RT_ALARM_DELAY)); [|done].
  unfold mbind at 1, M_bind at 1. by rewrite (bind_step _ _ _ _ _ (load_step s p a Hp Ha)).
Qed.

Lemma daily_wakeup s p a n :
  clock_ok s -> p <> 0 -> heap s !! p = Some a -> kind a = RT_ALARM_DAILY ->
  (started a = true -> hms_ok (al_wktime a)) -> hms_ok n -> tod n = now_tod s ->
  alarm_wakeup quiet p n s = Ok (n, with_rings s (rings s ++ rings_of s p)).
Proof.
  intros Hc Hp Ha Hk Hh Hn Ht. rewrite (wakeup_daily _ s p a) by done. unfold rings_of. rewrite Ha.
  assert (with_rings s (rings s ++ []) = s) as Enil by (rewrite app_nil_r; by destruct s).
  destruct (due (now_tod s) a); [|by destruct (al_callback a); rewrite Enil].
  unfold call_back. destruct (al_callback a) as [f|]; [|by rewrite Enil].
  unfold mbind, M_bind. by rewrite (get_time_step s 0 Hc).
Qed.

Lemma next_of_mid pre p rest :
  NoDup (pre ++ p :: rest) -> next_of p (pre ++ p :: rest) = Ok (match rest with q :: _ => q | [] => 0 end).
Proof.
  induction pre as [|q pre IH]; intros Hnd; cbn [app next_of].
  - by rewrite Z.eqb_refl.
  - apply NoDup_cons in Hnd as [Hq Hnd]. destruct (Z.eqb_spec p q) as [->|]; [set_solver|]. by apply IH.
Qed.

Definition all_daily (s : alarm_st) : Prop :=
  forall p a, p ∈ head s -> heap s !! p = Some a -> kind a = RT_ALARM_DAILY.

Lemma daily_loop s n pre rest k :
  clock_ok s -> linked s -> all_daily s -> hms_ok n -> tod n = now_tod s -> head s = pre ++ rest ->
  (length rest <= k)%nat ->
  wakeup_loop quiet k (match rest with q :: _ => q | [] => 0 end) n s =
    Ok (tt, with_rings s (rings s ++ flat_map (rings_of s) rest)).
Proof.
  intros Hc Hl Hd Hn Ht. revert s pre k Hc Hl Hd Ht. induction rest as [|p rest IH]; intros s pre k Hc Hl Hd Ht Hh Hk.
  - destruct k; cbn [wakeup_loop]; rewrite app_nil_r; by destruct s.
  - destruct k as [|k]; [cbn in Hk; lia|]. destruct Hl as (Hnd & Hlive & Hcur). rewrite Forall_forall in Hlive.
    destruct (Hlive p) as (Hp & a & Ha & Hh'); [rewrite Hh; set_solver|]. cbn [wakeup_loop].
    destruct (Z.eqb_spec p 0); [done|].
    assert (kind a = RT_ALARM_DAILY) as Hka by (apply (Hd p); [rewrite Hh; set_solver|done]).
    rewrite (bind_step _ _ _ _ _ (daily_wakeup s p a n Hc Hp Ha Hka Hh' Hn Ht)).
    set (s1 := with_rings s (rings s ++ rings_of s p)).
    rewrite (bind_step _ _ s1 s1 s1) by done.
    assert (next_of p (head s1) = Ok (match rest with q :: _ => q | [] => 0 end)) as En.
    { change (head s1) with (head s). rewrite Hh. apply next_of_mid. by rewrite <- Hh. }
    unfold lift. rewrite En. unfold mbind, M_bind.
    rewrite (IH s1 (pre ++ [p])); [| done | | done | done | by rewrite <- app_assoc | cbn in Hk; lia].
    + unfold with_rings. cbn. by rewrite <- app_assoc.
    + split_and!; [done| |done]. apply Forall_forall. done.
Qed.

Lemma daily_update s :
  clock_ok s -> linked s -> all_daily s ->
  alarm_update quiet s =
    match head s with
    | [] => Ok (tt, s)
    | _ => arm_next (with_rings s (rings s ++ flat_map (rings_of s) (head s)))
    end.
Proof.
  intros Hc Hl Hd. unfold alarm_update. rewrite (bind_step _ _ s s s) by done.
  destruct (head s) as [|p rest] eqn:Eh; [done|].
  destruct (utc_now_step s Hc) as (n & En & _ & _ & _ & Hn & Ht). rewrite (bind_step _ _ _ _ _ En).
  pose proof (daily_loop s n [] (p :: rest) (length (p :: rest)) Hc Hl Hd Hn Ht Eh) as E.
  by rewrite (bind_step _ _ _ _ _ (E ltac:(lia))).
Qed.

(** The time that the chip is set to. *)
Lemma armed_time s p a c :
  Forall (live s) (head s) -> p ∈ head s -> heap s !! p = Some a -> started a = true ->
  alarm_a (armed c a) = Some (tm_hour (al_wktime a), tm_min (al_wktime a), tm_sec (al_wktime a)).
Proof.
  intros Hlive Hin Ha Hs. rewrite Forall_forall in Hlive. destruct (Hlive p Hin) as (_ & b & Hb & Hh).
  assert (b = a) as -> by congruence. destruct (Hh Hs) as (H1 & H2 & H3). cbn. by rewrite Hs, !wrap_small by lia.
Qed.

(** ** Properties *)

(** C22. An update of the service whose alarms are all daily: the callbacks of exactly the started
    alarms whose time was at most two seconds ago (the same day) are made, in the order of the
    list, and nothing else about the alarms changes.  If some started alarm is due at another
    second than this one, the chip is set to a started alarm, which becomes the current one, and no
    started alarm is due before it, a day being the distance to a time that is this second.
    Otherwise the current alarm is kept: the chip is set to it again if it is started; if it is
    stopped the chip keeps its alarm time and there is no current alarm, even when another alarm
    is started and due this very second.  The callbacks are those that leave the service alone. *)
Theorem daily_alarms_ring s :
  clock_ok s -> linked s -> all_daily s ->
  exists s', alarm_update quiet s = Ok (tt, s') /\
    rings s' = rings s ++ flat_map (rings_of s) (head s) /\ heap s' = heap s /\ head s' = head s /\
    (forall p v, p ∈ head s -> runs_at s p v -> v <> now_tod s -> exists a,
       current s' ∈ head s /\ heap s !! current s' = Some a /\ started a = true /\
       alarm_a (clock s') = Some (tm_hour (al_wktime a), tm_min (al_wktime a), tm_sec (al_wktime a)) /\
       forall q w, q ∈ head s -> runs_at s q w -> wait (now_tod s) (tod (al_wktime a)) <= wait (now_tod s) w) /\
    ((forall p v, p ∈ head s -> runs_at s p v -> v = now_tod s) ->
       if current s =? 0 then current s' = 0 /\ clock s' = clock s
       else exists a, heap s !! current s = Some a /\
         if started a
         then current s' = current s /\
              alarm_a (clock s') = Some (tm_hour (al_wktime a), tm_min (al_wktime a), tm_sec (al_wktime a))
         else current s' = 0 /\ alarm_a (clock s') = alarm_a (clock s)).
Proof.
  intros Hc Hl Hd. rewrite daily_update by done.
  set (s1 := with_rings s (rings s ++ flat_map (rings_of s) (head s))).
  assert (Forall (live s) (head s)) as Hlive by apply Hl.
  destruct (decide (head s = [])) as [Eh|Eh].
  { rewrite Eh. exists s. rewrite app_nil_r. split_and!; [done..| |].
    - by intros p v Hp%not_elem_of_nil.
    - intros _. destruct Hl as (_ & _ & [->|Hcur]); [done|]. rewrite Eh in Hcur. by apply not_elem_of_nil in Hcur. }
  assert (match head s with [] => Ok (tt, s) | _ => arm_next s1 end = arm_next s1) as -> by (by destruct (head s)).
  assert (linked s1) as Hl1.
  { destruct Hl as (H1 & _ & H2). split_and!; [done| |done]. apply Forall_forall. by apply Forall_forall. }
  destruct (arm_next_ok s1 Hc Hl1) as [(c & a & E & Hin & Ha & Hs & Ht & Hmin)|[H E]].
  - eexists. split; [exact E|]. split_and!; [done..| |].
    + intros p v Hp Hv Hne. exists a. split_and!; [done..|by eapply (armed_time s c a)|exact Hmin].
    + intros H. exfalso. apply Ht, (H c _ Hin). by exists a.
  - eexists. split; [exact E|].
    assert (forall p v, p ∈ head s -> runs_at s p v -> v <> now_tod s -> False) as Hnone.
    { intros p v Hp Hv Hne. by apply Hne, (H p v). }
    change (heap s1) with (heap s). change (current s1) with (current s).
    destruct (Z.eqb_spec (current s) 0) as [E0|E0].
    + assert (match heap s !! current s with Some a => s1 | None => s1 end = s1) as ->
        by (by destruct (heap s !! current s)).
      split_and!; try done. intros p v Hp Hv Hne; exfalso; exact (Hnone p v Hp Hv Hne).
    + destruct Hl as (_ & _ & [|Hcur]); [done|]. pose proof (proj1 (Forall_forall _ _) Hlive _ Hcur) as (_ & a & Ha & _).
      rewrite Ha. destruct (started a) eqn:Es.
      * split_and!; try done; [intros p v Hp Hv Hne; exfalso; exact (Hnone p v Hp Hv Hne)|]. intros _. exists a. rewrite Es.
        split_and!; [done..|]. by eapply (armed_time s (current s) a).
      * split_and!; try done; [intros p v Hp Hv Hne; exfalso; exact (Hnone p v Hp Hv Hne)|]. intros _. exists a. rewrite Es. split_and!; [done..|].
        cbn. by rewrite Es.
Qed.

(** The clock at 8:14:08, an alarm at 8:14:07 and one at 8:00. *)
Definition demo_alarm (h m s : Z) : rt_alarm := Alarm (RT_ALARM_DAILY + 3) (Some 1) (Tm s m h 1 0 100 6 0 0).
Definition demo_alarms : alarm_st :=
  AlarmSt (<[2 := demo_alarm 8 14 7]> (<[3 := demo_alarm 8 0 0]> ∅)) [2; 3] 2 demo_rtc [].

Lemma demo_linked : linked demo_alarms.
Proof.
  split_and!; [apply (bool_decide_unpack _); vm_compute; exact I| |right; set_solver].
  repeat constructor; try done; eexists; (split; [reflexivity|]); intros _; unfold hms_ok; cbn; lia.
Qed.

Lemma demo_clock_ok : clock_ok demo_alarms.
Proof. split; [done|]. split; apply (bool_decide_unpack _); vm_compute; exact I. Qed.

Lemma demo_daily : all_daily demo_alarms.
Proof.
  intros p a Hp Ha. cbn [demo_alarms head] in Hp.
  assert (p = 2 \/ p = 3) as [->| ->] by set_solver; vm_compute in Ha; by injection Ha as <-.
Qed.

Lemma daily_alarms_ring_witness :
  exists s', alarm_update quiet demo_alarms = Ok (tt, s') /\
    rings s' = rings demo_alarms ++ flat_map (rings_of demo_alarms) (head demo_alarms) /\
    exists a, heap demo_alarms !! current s' = Some a /\ started a = true /\
      alarm_a (clock s') = Some (tm_hour (al_wktime a), tm_min (al_wktime a), tm_sec (al_wktime a)).
Proof.
  assert (3 ∈ head demo_alarms) as Hin by (right; left).
  assert (runs_at demo_alarms 3 28800) as Hat by (by exists (demo_alarm 8 0 0)).
  assert (28800 <> now_tod demo_alarms) as Hne by (apply (bool_decide_unpack _); vm_compute; exact I).
  pose proof (daily_alarms_ring demo_alarms demo_clock_ok demo_linked demo_daily) as (s' & E & Hr & _ & _ & H & _).
  exists s'. split_and!; [exact E|exact Hr|].
  destruct (H 3 28800 Hin Hat Hne) as (a & _ & Ha & Hs & Ht & _). exact (ex_intro _ a (conj Ha (conj Hs Ht))).
Defined.

(** A callback that deletes its own alarm makes the service read the freed node: the loop
    goes on through the list links of a block that is gone. *)
Theorem delete_in_callback_faults s p rest a f :
  clock_ok s -> head s = p :: rest -> NoDup (head s) -> p <> 0 -> heap s !! p = Some a -> current s <> p ->
  kind a = RT_ALARM_DAILY -> started a = true -> hms_ok (al_wktime a) ->
  tod (al_wktime a) <= now_tod s <= tod (al_wktime a) + RT_ALARM_DELAY -> al_callback a = Some f ->
  alarm_update (fun _ q _ => rt_alarm_delete quiet q ;;; mret tt) s = Err OutOfBounds.
Proof.
  intros Hc Hh Hnd Hp Ha Hcur Hk Hs Hhms Hdue Hcb.
  unfold alarm_update. rewrite (bind_step _ _ s s s), Hh by done.
  destruct (utc_now_step s Hc) as (n & En & _ & _ & _ & Hn & Ht). rewrite (bind_step _ _ _ _ _ En).
  unfold mbind at 1, M_bind at 1. cbn [length wakeup_loop]. destruct (Z.eqb_spec p 0); [done|].
  set (cb := fun _ q _ => rt_alarm_delete quiet q ;;; mret tt).
  set (s1 := with_rings s (rings s ++ [(f, p, rtc_time (clock s))])).
  set (a1 := Alarm (stop_flag (al_flag a)) (al_callback a) (al_wktime a)).
  set (s2 := AlarmSt (delete p (<[p := a1]> (heap s))) (filter (fun q => q <> p) (head s)) (current s) (clock s) (rings s1)).
  assert (rt_alarm_delete quiet p s1 = Ok (RT_EOK, s2)) as Edel.
  { unfold rt_alarm_delete. destruct (Z.eqb_spec p 0); [done|].
    assert (heap s1 !! p = Some a) as Ha1 by done. rewrite (bind_step _ _ _ _ _ (load_step s1 p a Hp Ha1)).
    rewrite (bind_step _ _ _ _ _ (set_flag_step s1 p a _ Hp Ha1)). fold a1.
    set (s3 := with_heap s1 (<[p := a1]> (heap s1))). rewrite (bind_step _ _ s3 s3 s3) by done.
    change (current s3) with (current s). destruct (Z.eqb_spec (current s) p); [done|].
    rewrite (bind_step _ _ s3 RT_EOK s3), (bind_step _ _ s3 s3 s3) by done.
    assert (heap s3 !! p = Some a1) as Ha3 by (cbn; apply lookup_insert_eq).
    by rewrite (bind_step _ _ _ _ _ (load_step s3 p a1 Hp Ha3)). }
  assert (alarm_wakeup cb p n s = Ok (n, s2)) as Ew.
  { rewrite (wakeup_daily cb s p a) by done. unfold due. rewrite Hs.
    rewrite (proj2 (Z.leb_le _ _) (proj1 Hdue)), (proj2 (Z.leb_le _ _) (proj2 Hdue)). cbn [andb].
    assert (call_back cb p a s = Ok (tt, s2)) as Ecb.
    { unfold call_back. rewrite Hcb, (bind_step _ _ _ _ _ (get_time_step s 0 Hc)).
      rewrite (bind_step _ _ s tt s1) by done. unfold cb. by rewrite (bind_step _ _ _ _ _ Edel). }
    by rewrite (bind_step _ _ _ _ _ Ecb). }
  rewrite (bind_step _ _ _ _ _ Ew). rewrite (bind_step _ _ s2 s2 s2) by done.
  assert (next_of p (head s2) = Err OutOfBounds) as En2; [|by unfold lift, mbind, M_bind; rewrite En2].
  assert (p ∉ head s2) as Hnot by (cbn; rewrite list_elem_of_filter; naive_solver).
  induction (head s2) as [|q l IH]; [done|]. cbn [next_of]. destruct (Z.eqb_spec p q); [set_solver|]. apply IH. set_solver.
Qed.

Lemma delete_in_callback_faults_witness :
  alarm_update (fun _ q _ => rt_alarm_delete quiet q ;;; mret tt) (with_current demo_alarms 3) = Err OutOfBounds.
Proof.
  apply (delete_in_callback_faults _ 2 [3] (demo_alarm 8 14 7) 1);
    try reflexivity; try discriminate; try apply demo_clock_ok.
  - apply (bool_decide_unpack _). vm_compute. exact I.
  - unfold hms_ok. cbn. lia.
Defined.

(** ** One-shot alarms *)

(** The service's own table of month lengths is the calendar's. *)
Lemma month_days y m : 0 <= y -> 0 <= m <= 11 -> days_of_year_month y m = month_len (y + 1900) m.
Proof.
  intros Hy Hm. unfold days_of_year_month, month_len.
  assert (m = 0 \/ m = 1 \/ m = 2 \/ m = 3 \/ m = 4 \/ m = 5 \/ m = 6 \/ m = 7 \/ m = 8 \/ m = 9 \/ m = 10 \/ m = 11)
    as H by lia.
  repeat (destruct H as [->|H]; [try reflexivity|]); [|subst m; reflexivity].
  change (1 =? 1) with true. cbv iota. rewrite leap_rem, !Z.rem_mod_nonneg by lia.
  destruct (Z.eqb_spec ((y + 1900) mod 4) 0); destruct (Z.eqb_spec ((y + 1900) mod 100) 0);
    destruct (Z.eqb_spec ((y + 1900) mod 400) 0); cbn [andb orb negb]; try reflexivity; zlia.
Qed.

Lemma valid_date t : tm_valid t -> tm_year t <= RT_RTC_YEARS_MAX -> is_valid_date t = true.
Proof.
  intros (_ & _ & _ & Hm & Hd & Hy) Hmax. unfold is_valid_date. rewrite month_days by lia.
  repeat match goal with |- context [?a <? ?b] => destruct (Z.ltb_spec a b); [lia|] end. reflexivity.
Qed.

(** The last second of a day is moved. *)
Definition insured (t : tm) : tm :=
  if (tm_hour t =? 23) && (tm_min t =? 59) && (tm_sec t =? 59) then set_hms t 23 59 (60 - RT_ALARM_DELAY) else t.

Lemma insured_valid t : tm_valid t -> tm_valid (insured t).
Proof.
  intros Hv. unfold insured. destruct (_ && _); [|done]. destruct Hv as (? & ? & ? & H4 & H5 & H6).
  unfold tm_valid, set_hms, RT_ALARM_DELAY. cbn [tm_sec tm_min tm_hour tm_mon tm_mday tm_year]. lia.
Qed.

Lemma or_now_in lo hi v now : lo <= v <= hi -> or_now lo hi v now = v.
Proof. intros H. unfold or_now. destruct (Z.ltb_spec hi v); [lia|]. destruct (Z.ltb_spec v lo); [lia|]. done. Qed.

Lemma hms_self t : set_hms t (tm_hour t) (tm_min t) (tm_sec t) = t.
Proof. by destruct t. Qed.

Lemma tm_now_in v now : 0 <= v -> tm_now v now = v.
Proof. intros. unfold tm_now, RT_ALARM_TM_NOW. destruct (Z.eqb_spec v (-1)); [lia|done]. Qed.

Lemma setup_oneshot s p a :
  clock_ok s -> p <> 0 -> heap s !! p = Some a -> kind a = RT_ALARM_ONESHOT ->
  tm_valid (al_wktime a) -> tm_year (al_wktime a) <= RT_RTC_YEARS_MAX ->
  alarm_setup p (al_wktime a) s = Ok (RT_EOK, with_heap s
    (<[p := Alarm (Z.lor (al_flag a) RT_ALARM_STATE_INITED) (al_callback a) (insured (al_wktime a))]> (heap s))).
Proof.
  intros Hc Hp Ha Hk Hv Hy. unfold alarm_setup. rewrite (bind_step _ _ _ _ _ (load_step s p a Hp Ha)).
  destruct (utc_now_step s Hc) as (n & En & _). rewrite (bind_step _ _ _ _ _ En).
  pose proof Hv as (H1 & H2 & H3 & H4 & H5 & H6). rewrite !or_now_in, hms_self by lia.
  assert (setup_kind (kind a) (al_wktime a) n = (al_wktime a, true)) as ->.
  { rewrite Hk. unfold setup_kind. change (RT_ALARM_ONESHOT =? RT_ALARM_SECOND) with false.
    change (RT_ALARM_ONESHOT =? RT_ALARM_MINUTE) with false. change (RT_ALARM_ONESHOT =? RT_ALARM_HOUR) with false.
    change (RT_ALARM_ONESHOT =? RT_ALARM_DAILY) with false. change (RT_ALARM_ONESHOT =? RT_ALARM_ONESHOT) with true.
    cbv iota. rewrite !tm_now_in by lia.
    assert (set_mday (set_mon (set_year (al_wktime a) (tm_year (al_wktime a))) (tm_mon (al_wktime a))) (tm_mday (al_wktime a))
      = al_wktime a) as -> by (by destruct (al_wktime a)). by rewrite valid_date. }
  cbv iota zeta. fold (insured (al_wktime a)).
  rewrite (bind_step _ _ _ _ _ (set_wktime_step s p a _ Hp Ha)).
  assert (heap (with_heap s (<[p := Alarm (al_flag a) (al_callback a) (insured (al_wktime a))]> (heap s))) !! p =
    Some (Alarm (al_flag a) (al_callback a) (insured (al_wktime a)))) as Ha2 by (apply lookup_insert_eq).
  rewrite (bind_step _ _ _ _ _ (set_flag_step _ p _ _ Hp Ha2)).
  unfold with_heap. cbn [heap head current clock rings al_callback al_wktime]. by rewrite insert_insert_eq.
Qed.

(** Starting the only alarm sets the chip to it. *)
Lemma start_first s p a :
  clock_ok s -> p <> 0 -> current s = 0 -> heap s !! p = Some a -> al_flag a = RT_ALARM_ONESHOT ->
  tm_valid (al_wktime a) -> tm_year (al_wktime a) <= RT_RTC_YEARS_MAX ->
  let b := Alarm 3 (al_callback a) (insured (al_wktime a)) in
  rt_alarm_start p s = Ok (RT_EOK, AlarmSt (<[p := b]> (heap s)) (head s) p (armed (clock s) b) (rings s)).
Proof.
  intros Hc Hp Hcur Ha Hf Hv Hy b. unfold rt_alarm_start. destruct (Z.eqb_spec p 0); [done|].
  rewrite (bind_step _ _ _ _ _ (load_step s p a Hp Ha)).
  assert (started a = false) as -> by (unfold started; by rewrite Hf).
  assert (kind a = RT_ALARM_ONESHOT) as Hk by (unfold kind; by rewrite Hf).
  rewrite (bind_step _ _ _ _ _ (setup_oneshot s p a Hc Hp Ha Hk Hv Hy)).
  change (negb (RT_EOK =? RT_EOK)) with false. cbv iota. rewrite Hf.
  change (Z.lor RT_ALARM_ONESHOT RT_ALARM_STATE_INITED) with 2.
  set (s1 := with_heap s (<[p := Alarm 2 (al_callback a) (insured (al_wktime a))]> (heap s))).
  destruct (utc_now_step s1 Hc) as (now & En & _). rewrite (bind_step _ _ _ _ _ En).
  assert (heap s1 !! p = Some (Alarm 2 (al_callback a) (insured (al_wktime a)))) as Ha1 by apply lookup_insert_eq.
  rewrite (bind_step _ _ _ _ _ (load_step s1 p _ Hp Ha1)). cbn [al_flag].
  change (Z.lor 2 RT_ALARM_STATE_START) with 3.
  rewrite (bind_step _ _ _ _ _ (set_flag_step s1 p _ 3 Hp Ha1)). cbn [al_callback al_wktime]. fold b.
  set (s2 := with_heap s1 (<[p := b]> (heap s1))). rewrite (bind_step _ _ s2 s2 s2) by done.
  change (current s2) with (current s). rewrite Hcur. change (0 =? 0) with true. cbv iota.
  assert (heap s2 !! p = Some b) as Ha2 by apply lookup_insert_eq.
  rewrite (bind_step _ _ _ _ _ (alarm_set_step s2 p b (proj1 Hc) Hp Ha2)).
  change (RT_EOK =? RT_EOK) with true. cbv iota. unfold s2, s1, with_heap, with_clock. cbn [heap].
  by rewrite insert_insert_eq.
Qed.

(** The one-shot alarm at an update: it rings up to two seconds after its time and is then
    stopped; before, nothing happens to it but [timegm]'s filling in. *)
Lemma wakeup_oneshot s p a n :
  clock_ok s -> p <> 0 -> heap s !! p = Some a -> al_flag a = 3 -> tm_valid (al_wktime a) ->
  tm_valid n -> 0 <= seconds n < 2 ^ 32 -> seconds (al_wktime a) < 2 ^ 32 ->
  exists w n', seconds w = seconds (al_wktime a) /\ tod w = tod (al_wktime a) /\ hms_ok w /\
    alarm_wakeup quiet p n s =
      if (seconds (al_wktime a) <=? seconds n) && (seconds n <=? seconds (al_wktime a) + RT_ALARM_DELAY) then
        Ok (n', AlarmSt (<[p := Alarm 2 (al_callback a) w]> (heap s)) (head s) (current s)
          (armed (clock s) (Alarm 2 (al_callback a) w))
          (rings s ++ match al_callback a with Some f => [(f, p, rtc_time (clock s))] | None => [] end))
      else Ok (n', with_heap s (<[p := Alarm 3 (al_callback a) w]> (heap s))).
Proof.
  intros Hc Hp Ha Hf Hv Hn Hn32 Ha32.
  destruct (timegm_spec _ Hv) as (yd & Ew & _). destruct (timegm_spec _ Hn) as (yn & En & _).
  set (w := Tm _ _ _ _ _ _ _ _ _) in Ew. set (n' := Tm _ _ _ _ _ _ _ _ _) in En.
  exists w, n'. pose proof Hv as (H1 & H2 & H3 & _). split_and!; [done|done|done|].
  unfold alarm_wakeup. rewrite (bind_step _ _ _ _ _ (load_step s p a Hp Ha)).
  assert (started a = true) as -> by (unfold started; by rewrite Hf).
  assert (kind a = RT_ALARM_ONESHOT) as -> by (unfold kind; by rewrite Hf). cbn [negb].
  change (RT_ALARM_ONESHOT =? RT_ALARM_ONESHOT) with true. cbv iota. unfold lift.
  rewrite Ew, En. pose proof (day_number_range _ Hv) as Hd0.
  assert (0 <= seconds (al_wktime a)) by (unfold seconds; lia).
  set (s1 := with_heap s (<[p := Alarm (al_flag a) (al_callback a) w]> (heap s))).
  assert (heap s1 !! p = Some (Alarm (al_flag a) (al_callback a) w)) as Ha1 by apply lookup_insert_eq.
  set (cond := (seconds (al_wktime a) <=? seconds n) && (seconds n <=? seconds (al_wktime a) + RT_ALARM_DELAY)).
  assert ((u32 (u32 (seconds n) - u32 (seconds (al_wktime a))) <=? RT_ALARM_DELAY) &&
    (u32 (seconds (al_wktime a)) <=? u32 (seconds n)) = cond) as Econd.
  { rewrite (wrap_small 32 (seconds n)), (wrap_small 32 (seconds (al_wktime a))) by lia. unfold cond.
    destruct (Z.leb_spec (seconds (al_wktime a)) (seconds n)); cbn [andb]; rewrite ?andb_false_r, ?andb_true_r; [|done].
    rewrite wrap_small by lia. apply Bool.eq_iff_eq_true. rewrite !Z.leb_le. unfold RT_ALARM_DELAY. lia. }
  unfold mbind at 1, M_bind at 1. unfold mbind at 1, M_bind at 1. cbn [fst snd].
  unfold mbind at 1, M_bind at 1. rewrite (set_wktime_step s p a w Hp Ha). fold s1.
  rewrite (bind_step _ _ s1 (seconds n, n') s1) by done. cbn [fst snd]. rewrite Econd. clear Econd.
  destruct cond.
  - rewrite (bind_step _ _ _ _ _ (set_flag_step s1 p _ _ Hp Ha1)). cbn [al_callback al_wktime]. rewrite Hf.
    change (stop_flag 3) with 2. set (b := Alarm 2 (al_callback a) w). set (s2 := with_heap s1 (<[p := b]> (heap s1))).
    assert (heap s2 !! p = Some b) as Ha2 by apply lookup_insert_eq.
    rewrite (bind_step _ _ _ _ _ (alarm_set_step s2 p b (proj1 Hc) Hp Ha2)).
    set (s3 := with_clock s2 (armed (clock s2) b)). cbn [fst snd].
    assert (clock_ok s3) as Hc3 by (split; apply Hc).
    unfold mret at 1, M_ret at 1. cbn [fst snd]. unfold mbind, M_bind. rewrite (load_step s3 p b Hp Ha2).
    assert (heap s3 = <[p := b]> (heap s)) as Eh by (cbn; apply insert_insert_eq).
    unfold call_back. cbn [al_callback b]. destruct (al_callback a) as [f|].
    + rewrite (bind_step _ _ _ _ _ (get_time_step s3 0 Hc3)). cbn [snd]. unfold ring, modify, quiet, mbind, M_bind, mret, M_ret.
      rewrite Eh. done.
    + unfold mret, M_ret. rewrite app_nil_r. f_equal. f_equal. unfold s3, with_clock. cbn [heap] in Eh |- *. by rewrite <- Eh.
  - unfold mret at 1, M_ret at 1. cbn [fst snd]. rewrite (bind_step _ _ s1 tt s1) by done. unfold s1. by rewrite Hf.
Qed.

(** The state behind [alarm_sample] on a service without alarms. *)
Definition sampled (s : alarm_st) (f addr : Z) (w : tm) : alarm_st :=
  let b := Alarm 3 (Some f) w in
  AlarmSt (<[addr := b]> (heap s)) [addr] addr (armed (clock s) b) (rings s).

(** 2038-01-01, the first date the service refuses. *)
Definition t2038 : Z := 2145916800.

Lemma year_2037 t : tm_valid t -> seconds t < t2038 -> tm_year t <= RT_RTC_YEARS_MAX.
Proof.
  intros Hv Hs. pose proof Hv as (H1 & H2 & H3 & Hmon & Hmd & Hy). pose proof (day_of_year_range _ _ _ Hmon Hmd) as Hd.
  destruct (Z.le_gt_cases (tm_year t) RT_RTC_YEARS_MAX) as [|Hgt]; [done|exfalso].
  unfold seconds, day_number, days_since_epoch in Hs. unfold RT_RTC_YEARS_MAX in Hgt.
  assert (forall x, 0 <= year_len x) as Hp by (intros x; pose proof (year_len_range x); lia).
  pose proof (sum_from_mono year_len 1970 68 (Z.to_nat (tm_year t + 1900 - 1970)) Hp ltac:(lia)).
  assert (sum_from year_len 1970 68 = 24837) as E by reflexivity. unfold t2038 in Hs. lia.
Qed.

Lemma insured_seconds t : tm_valid t ->
  seconds (insured t) = seconds t - if (seconds t + 1) mod 86400 =? 0 then 1 else 0.
Proof.
  intros Hv. pose proof Hv as (H1 & H2 & H3 & _). pose proof (tod_seconds t Hv) as Ht. unfold tod in Ht.
  pose proof (day_number_range t Hv) as Hd. unfold insured.
  destruct (Z.eqb_spec (tm_hour t) 23); destruct (Z.eqb_spec (tm_min t) 59); destruct (Z.eqb_spec (tm_sec t) 59);
    cbn [andb]; destruct (Z.eqb_spec ((seconds t + 1) mod 86400) 0); try zlia.
  unfold seconds, day_number, set_hms, RT_ALARM_DELAY. cbn [tm_sec tm_min tm_hour tm_mon tm_mday tm_year]. lia.
Qed.

Lemma alarm_sample_run s f secs addr :
  clock_ok s -> heap s = ∅ -> head s = [] -> current s = 0 -> addr <> 0 -> 0 <= secs < 2 ^ 31 ->
  rtc_time (clock s) + secs < t2038 ->
  exists w, alarm_sample quiet f 0 secs addr s = Ok (addr, sampled s f addr w) /\ tm_valid w /\
    seconds w = rtc_time (clock s) + secs - if (rtc_time (clock s) + secs + 1) mod 86400 =? 0 then 1 else 0.
Proof.
  intros Hc Hh Hl Hcur Hp Hs Hmax. pose proof (regs_time_range _ (proj2 Hc)) as Hr. fold (rtc_time (clock s)) in Hr.
  unfold t2000, t2100, t2038 in *. unfold alarm_sample. rewrite (bind_step _ _ _ _ _ (get_time_step s (-1) Hc)). cbn [snd].
  rewrite wrap_small by lia. set (t := rtc_time (clock s) + secs) in *.
  destruct (gmtime_spec t) as (q & Eq & Hv & _ & Hq & _); [lia|zlia|]. unfold lift. rewrite Eq.
  rewrite (bind_step _ _ s q s) by done. change (negb (0 =? 0)) with false. cbv iota.
  rewrite (bind_step _ _ s RT_EOK s) by done.
  set (su := al_wktime (Alarm 0 (Some f) (su_wktime (setup_of RT_ALARM_ONESHOT q)))).
  assert (tm_valid su) as Hsu by exact Hv. assert (seconds su = t) as Hss by (rewrite <- Hq; reflexivity).
  set (s1 := AlarmSt (<[addr := Alarm 0 (Some f) su]> (heap s)) [addr] 0 (clock s) (rings s)).
  assert (rt_alarm_create (Some f) (setup_of RT_ALARM_ONESHOT q) addr s = Ok (addr, s1)) as Ec.
  { unfold rt_alarm_create. destruct (Z.eqb_spec addr 0); [done|]. rewrite (bind_step _ _ s s s) by done.
    unfold set_heap, set_head, modify, mbind, M_bind, mret, M_ret. cbn. by rewrite Hl, Hcur. }
  rewrite (bind_step _ _ _ _ _ Ec). destruct (Z.eqb_spec addr 0); [done|]. cbn [negb].
  assert (heap s1 !! addr = Some (Alarm 0 (Some f) su)) as Ha1 by apply lookup_insert_eq.
  assert (tm_year su <= RT_RTC_YEARS_MAX) as Hy by (apply year_2037; [done|]; unfold t2038; lia).
  rewrite (bind_step _ _ _ _ _ (start_first s1 addr _ Hc Hp eq_refl Ha1 eq_refl Hsu Hy)).
  exists (insured su). split_and!; [|by apply insured_valid|by rewrite insured_seconds, Hss].
  unfold mret, M_ret, sampled. cbn [al_callback]. f_equal. f_equal. unfold s1. cbn [heap head current clock rings].
  by rewrite insert_insert_eq.
Qed.

(** An update with this alarm alone. *)
Lemma sampled_update s f addr w c :
  addr <> 0 -> tm_valid w -> seconds w < 2 ^ 32 -> rtc_found c = true -> regs_ok (regs c) ->
  seconds w <= rtc_time c <= seconds w + RT_ALARM_DELAY ->
  exists s', alarm_update quiet (with_clock (sampled s f addr w) c) = Ok (tt, s') /\
    rings s' = rings s ++ [(f, addr, rtc_time c)] /\ current s' = 0 /\ head s' = [addr] /\
    rtc_found (clock s') = true /\ regs (clock s') = regs c /\
    exists a, heap s' !! addr = Some a /\ al_flag a = 2.
Proof.
  intros Hp Hv H32 Hf Hr Hdue. set (s0 := with_clock (sampled s f addr w) c). assert (clock_ok s0) as Hc by done.
  unfold alarm_update. rewrite (bind_step _ _ s0 s0 s0) by done. change (head s0) with [addr]. cbv iota.
  destruct (utc_now_step s0 Hc) as (n & En & Hn & _ & Hns & _). rewrite (bind_step _ _ _ _ _ En).
  cbn [length wakeup_loop]. destruct (Z.eqb_spec addr 0); [done|].
  pose proof (regs_time_range _ Hr) as Hrng. fold (rtc_time c) in Hrng. unfold t2000, t2100 in Hrng.
  assert (heap s0 !! addr = Some (Alarm 3 (Some f) w)) as Ha by apply lookup_insert_eq.
  change (rtc_time (clock s0)) with (rtc_time c) in Hns.
  destruct (wakeup_oneshot s0 addr _ n Hc Hp Ha eq_refl Hv Hn) as (w' & n' & Hw' & _ & _ & Ew);
    [rewrite Hns; lia|exact H32|].
  rewrite Hns in Ew. cbn [al_wktime al_callback] in Ew.
  rewrite (proj2 (Z.leb_le _ _) (proj1 Hdue)), (proj2 (Z.leb_le _ _) (proj2 Hdue)) in Ew. cbn [andb] in Ew.
  set (b := Alarm 2 (Some f) w') in Ew. set (s1 := AlarmSt _ _ _ _ _) in Ew.
  assert ((now ← alarm_wakeup quiet addr n; s ← get; p ← lift (next_of addr (head s)); (if p =? 0 then mret tt else throw Spin))
    s0 = Ok (tt, s1)) as Eloop.
  { rewrite (bind_step _ _ _ _ _ Ew), (bind_step _ _ s1 s1 s1) by done.
    change (head s1) with [addr]. cbn [next_of]. rewrite Z.eqb_refl. done. }
  rewrite (bind_step _ _ _ _ _ Eloop).
  assert (heap s1 !! addr = Some b) as Hb by apply lookup_insert_eq.
  destruct (arm_next_ok s1) as [(q & a & _ & Hq & Hqa & Hst & _)|[_ E]].
  - done.
  - split_and!; [apply NoDup_singleton| |right; set_solver]. repeat constructor; [done|]. exists b. by split.
  - exfalso. change (head s1) with [addr] in Hq. apply list_elem_of_singleton in Hq as ->.
    assert (a = b) as -> by congruence. done.
  - change (current s1) with addr in E. rewrite Hb in E. destruct (Z.eqb_spec addr 0); [done|].
    change (started b) with false in E. cbv iota zeta in E. eexists. split; [exact E|].
    split_and!; [done|done|done|done|done|]. exists b. by split.
Qed.

(** A stopped alarm does nothing. *)
Lemma stopped_update s p a :
  clock_ok s -> p <> 0 -> head s = [p] -> current s = 0 -> heap s !! p = Some a -> started a = false ->
  alarm_update quiet s = Ok (tt, s).
Proof.
  intros Hc Hp Hh Hcur Ha Hs. unfold alarm_update. rewrite (bind_step _ _ s s s), Hh by done.
  destruct (utc_now_step s Hc) as (n & En & _). rewrite (bind_step _ _ _ _ _ En).
  assert (alarm_wakeup quiet p n s = Ok (n, s)) as Ew.
  { unfold alarm_wakeup. rewrite (bind_step _ _ _ _ _ (load_step s p a Hp Ha)). by rewrite Hs. }
  assert (wakeup_loop quiet (length [p]) p n s = Ok (tt, s)) as El.
  { cbn [length wakeup_loop]. destruct (Z.eqb_spec p 0); [done|].
    rewrite (bind_step _ _ _ _ _ Ew), (bind_step _ _ s s s) by done. unfold lift. rewrite Hh. cbn [next_of].
    rewrite Z.eqb_refl. done. }
  rewrite (bind_step _ _ _ _ _ El). destruct (arm_next_ok s Hc) as [(q & b & _ & Hq & Hqb & Hst & _)|[_ E]].
  - split_and!; [rewrite Hh; apply NoDup_singleton| |by left]. rewrite Hh. repeat constructor; [done|].
    exists a. split; [done|congruence].
  - exfalso. rewrite Hh in Hq. apply list_elem_of_singleton in Hq as ->. congruence.
  - rewrite E. f_equal. f_equal. destruct (heap s !! current s); [|done]. by rewrite Hcur.
Qed.

(** C16. The one-shot alarm of the shell commands, on a service without alarms and up to the end
    of 2037: the chip is set to the time asked for (a second earlier when that is a day's last
    second); an update within two seconds of it makes the callback once and stops the alarm,
    and no later update makes it again. *)
Theorem sample_rings_once s f secs addr c c' :
  clock_ok s -> heap s = ∅ -> head s = [] -> current s = 0 -> addr <> 0 -> 0 <= secs < 2 ^ 31 ->
  rtc_time (clock s) + secs < t2038 ->
  rtc_found c = true -> regs_ok (regs c) -> rtc_found c' = true -> regs_ok (regs c') ->
  exists w s1, alarm_sample quiet f 0 secs addr s = Ok (addr, s1) /\
    seconds w = rtc_time (clock s) + secs - (if (rtc_time (clock s) + secs + 1) mod 86400 =? 0 then 1 else 0) /\
    alarm_a (clock s1) = Some (tm_hour w, tm_min w, tm_sec w) /\
    (seconds w <= rtc_time c <= seconds w + RT_ALARM_DELAY ->
     exists s2 s3, alarm_update quiet (with_clock s1 c) = Ok (tt, s2) /\
       rings s2 = rings s ++ [(f, addr, rtc_time c)] /\
       alarm_update quiet (with_clock s2 c') = Ok (tt, s3) /\ rings s3 = rings s2).
Proof.
  intros Hc Hh Hl Hcur Hp Hs Hmax Hf Hr Hf' Hr'.
  destruct (alarm_sample_run s f secs addr Hc Hh Hl Hcur Hp Hs Hmax) as (w & E & Hv & Hw).
  exists w, (sampled s f addr w). split_and!; [done|done| |].
  - pose proof Hv as (H1 & H2 & H3 & _). unfold sampled, armed. cbn.
    change (started (Alarm 3 (Some f) w)) with true. cbv iota. by rewrite !wrap_small by lia.
  - intros Hdue. assert (seconds w < 2 ^ 32) as H32 by (unfold t2038 in Hmax; destruct (_ =? _); lia).
    destruct (sampled_update s f addr w c Hp Hv H32 Hf Hr Hdue) as (s2 & E2 & R2 & C2 & L2 & _ & _ & a & Ha & Hfl).
    exists s2, (with_clock s2 c'). split_and!; [done|done| |done].
    apply (stopped_update _ addr a); [done|done|done|done|done|]. unfold started. by rewrite Hfl.
Qed.

(** Ten seconds from 8:14:08 on 2025-05-28, as the command [sleep_mode] does. *)
Definition no_alarms : alarm_st := AlarmSt ∅ [] 0 demo_rtc [].
Definition rtc_at (sec : Z) : rtc_st :=
  RtcSt (RtcRegs sec 14 8 28 5 25 4) BKUP_REG_DATA (WkAlarm false 0 0 0 0 0 0) None true true true true.

Lemma sample_rings_once_witness :
  exists w s1, alarm_sample quiet 7 0 10 64 no_alarms = Ok (64, s1) /\
    seconds w = rtc_time (clock no_alarms) + 10 - (if (rtc_time (clock no_alarms) + 10 + 1) mod 86400 =? 0 then 1 else 0) /\
    alarm_a (clock s1) = Some (tm_hour w, tm_min w, tm_sec w) /\
    (seconds w <= rtc_time (rtc_at 19) <= seconds w + RT_ALARM_DELAY ->
     exists s2 s3, alarm_update quiet (with_clock s1 (rtc_at 19)) = Ok (tt, s2) /\
       rings s2 = rings no_alarms ++ [(7, 64, rtc_time (rtc_at 19))] /\
       alarm_update quiet (with_clock s2 (rtc_at 30)) = Ok (tt, s3) /\ rings s3 = rings s2).
Proof.
  apply sample_rings_once; try reflexivity; try discriminate.
  - apply demo_clock_ok.
  - split; [apply Z.leb_le|]; reflexivity.
  - split; apply (bool_decide_unpack _); vm_compute; exact I.
  - split; apply (bool_decide_unpack _); vm_compute; exact I.
Defined.
