(* ===== verification/Beep.v ===== *)
(** The buzzer: [packages/beep-v1.1.0/beep.c], built for an active buzzer with its thread on
    the heap, and the alarm callback of [applications/alarm/ele_ds_alarm.c] that uses it.

    The calls and the beep thread run interleaved: a state holds the thread's position, and a
    step of the system is a call or one step of the thread, up to its next delay. *)

From S2P Require Import Prelude.
#[local] Open Scope Z_scope.

(** ** Data *)

Definition PKG_BEEP_PERIOD_MIN : Z := 10.
Definition PKG_BEEP_PERIOD_MAX : Z := 100000.
Definition PKG_BEEP_FREQ_MIN : Z := 500.
Definition PKG_BEEP_FREQ_MAX : Z := 10000.
Definition PIN_LOW : Z := 0.
Definition PIN_HIGH : Z := 1.

(** Where the beep thread is: at the loop's test, in the delay of the pulse, in the delay of
    the pause, or behind the loop. *)
Inductive beep_pc := AtTest | InPulse | InPause | AtEnd.

Inductive beep_event :=
  | BPin (pin level : Z)
  | BDelay (ms : Z).

Record beep_struct := BeepData {
  bp_pin : Z;
  pin_reset_level : Z;
  nums : Z;
  pulse : Z;
  npulse : Z;
  inited : bool;
}.

(** [running] is the thread that exists; [beep_thread] is the pointer to it (true: not NULL). *)
Record beep_st := BeepSt {
  beep_data : beep_struct;
  beep_thread : bool;
  running : option beep_pc;
  beep_trace : list beep_event;
}.

Definition bemit (l : list beep_event) : M beep_st unit :=
  modify (fun s => BeepSt (beep_data s) (beep_thread s) (running s) (beep_trace s ++ l)).
Definition set_data (d : beep_struct) : M beep_st unit :=
  modify (fun s => BeepSt d (beep_thread s) (running s) (beep_trace s)).
Definition set_thread (p : bool) (r : option beep_pc) : M beep_st unit :=
  modify (fun s => BeepSt (beep_data s) p r (beep_trace s)).

(** ** Operations *)

Definition beep_init (pin reset_level : Z) : M beep_st unit :=
  s ← get;
  bemit [BPin pin reset_level] ;;;
  set_data (BeepData pin reset_level (nums (beep_data s)) (pulse (beep_data s)) (npulse (beep_data s)) true).

Definition beep_deinit : M beep_st unit :=
  s ← get;
  let d := beep_data s in
  set_data (BeepData (bp_pin d) (pin_reset_level d) (nums d) (pulse d) (npulse d) false).

Definition beep_on : M beep_st unit :=
  s ← get;
  let d := beep_data s in
  bemit [BPin (bp_pin d) (if pin_reset_level d =? PIN_HIGH then PIN_LOW else PIN_HIGH)].
Definition beep_off : M beep_st unit :=
  s ← get; bemit [BPin (bp_pin (beep_data s)) (pin_reset_level (beep_data s))].

(** [created]: the thread could be created.  The pointer never shows a closed thread: the last
    thing the thread does is to clear it, and [beep_stop] clears it as it deletes the thread. *)
Definition beep (created : bool) (n period percent : Z) : M beep_st unit :=
  if negb ((PKG_BEEP_PERIOD_MIN <=? period) && (period <=? PKG_BEEP_PERIOD_MAX)) then throw AssertFail else
  if negb ((0 <? percent) && (percent <=? 100)) then throw AssertFail else
  if n =? 0 then mret tt else
  s ← get;
  let d := beep_data s in
  let p := u32 (period * percent) / 100 in
  set_data (BeepData (bp_pin d) (pin_reset_level d) n p (u32 (period - p)) (inited d)) ;;;
  if negb (beep_thread s) then
    if created then set_thread true (Some AtTest) else mret tt
  else mret tt.

Definition beep_stop : M beep_st unit := beep_off ;;; set_thread false None.

(** One step of [beep_thread_entry]. *)
Definition beep_thread_step : M beep_st unit :=
  s ← get;
  let d := beep_data s in
  match running s with
  | None => mret tt
  | Some AtTest =>
      set_data (BeepData (bp_pin d) (pin_reset_level d) (u32 (nums d - 1)) (pulse d) (npulse d) (inited d)) ;;;
      if negb (nums d =? 0) && negb (pulse d =? 0) then
        beep_on ;;; bemit [BDelay (pulse d)] ;;; set_thread (beep_thread s) (Some InPulse)
      else set_thread (beep_thread s) (Some AtEnd)
  | Some InPulse =>
      beep_off ;;;
      if negb (npulse d =? 0) then
        bemit [BDelay (npulse d)] ;;; set_thread (beep_thread s) (Some InPause)
      else set_thread (beep_thread s) (Some AtTest)
  | Some InPause => set_thread (beep_thread s) (Some AtTest)
  | Some AtEnd => set_thread false None
  end.

(** [k] steps of the thread. *)
Fixpoint beep_run (k : nat) : M beep_st unit :=
  match k with
  | O => mret tt
  | S k => beep_thread_step ;;; beep_run k
  end.

(** The shell command; the numbers behind its name.  Without a buzzer, or with a number out
    of range, it only prints. *)
Definition beep_cmd (created : bool) (args : list Z) : M beep_st unit :=
  s ← get;
  if negb (inited (beep_data s)) then mret tt else
  let period_ok p := (PKG_BEEP_PERIOD_MIN <=? u32 p) && (u32 p <=? PKG_BEEP_PERIOD_MAX) in
  match args with
  | [n; period] =>
      if (0 <? n) && period_ok period then beep created n period 50 else mret tt
  | [n; period; prcent] =>
      if (0 <? n) && period_ok period && (0 <? prcent) && (prcent <=? 100) then beep created n period prcent
      else mret tt
  | n :: period :: prcent :: freq :: _ =>
      if (0 <? n) && period_ok period && (0 <? prcent) && (prcent <=? 100) &&
         ((freq =? 0) || (PKG_BEEP_FREQ_MIN <=? u32 freq) && (u32 freq <=? PKG_BEEP_FREQ_MAX))
      then beep created n period prcent else mret tt
  | _ => mret tt
  end.

(** ** The alarm's callback *)

(** The loop of [alarm_cb]: [stop] says before which round the user has stopped it, [during]
    is what the beep thread does in the delay of each round. *)
Fixpoint alarm_loop (beep_time : nat) (stop : list bool) (during : M beep_st unit) : M beep_st unit :=
  match beep_time with
  | O => mret tt
  | S k =>
      if match stop with b :: _ => b | [] => false end then mret tt else
      beep true 1 500 50 ;;; during ;;; alarm_loop k (tail stop) during
  end.

(** It leaves [alarm_stop_beep] clear, unless the alarm is disabled. *)
Definition alarm_cb (alarm_enable : bool) (stop : list bool) (during : M beep_st unit) : M beep_st unit :=
  if negb alarm_enable then mret tt else alarm_loop 10 stop during.

(** ** Lemmas *)

(** The events of one beep. *)
Definition on_level (reset : Z) : Z := if reset =? PIN_HIGH then PIN_LOW else PIN_HIGH.
Definition one_beep (pin reset p np : Z) : list beep_event :=
  [BPin pin (on_level reset); BDelay p; BPin pin reset] ++ (if np =? 0 then [] else [BDelay np]).
Definition steps_of (np : Z) : nat := if np =? 0 then 2 else 3.

Lemma beep_run_app k l s : beep_run (k + l) s = (beep_run k ;;; beep_run l) s.
Proof.
  revert s. induction k as [|k IH]; intros s; [done|]. cbn [Nat.add beep_run]. unfold mbind, M_bind in *.
  destruct (beep_thread_step s) as [[[] s']|]; [apply IH|done].
Qed.

Lemma one_beep_run pin reset n p np i b tr :
  0 < n < 2 ^ 32 -> p <> 0 ->
  beep_run (steps_of np) (BeepSt (BeepData pin reset n p np i) b (Some AtTest) tr) =
    Ok (tt, BeepSt (BeepData pin reset (n - 1) p np i) b (Some AtTest) (tr ++ one_beep pin reset p np)).
Proof.
  intros Hn Hp. unfold steps_of, one_beep, on_level. destruct (Z.eqb_spec np 0) as [->|Hnp]; cbn [beep_run];
    unfold beep_thread_step, beep_on, beep_off, bemit, set_data, set_thread, get, modify, mbind, M_bind, mret, M_ret;
    cbn [running beep_data nums pulse npulse beep_thread bp_pin pin_reset_level inited beep_trace];
    destruct (Z.eqb_spec n 0); [lia| |lia|]; destruct (Z.eqb_spec p 0); [done| |done|]; cbn [negb andb];
    cbn [running beep_data nums pulse npulse beep_thread bp_pin pin_reset_level inited beep_trace];
    rewrite wrap_small by lia.
  - cbn. by rewrite <- !app_assoc.
  - destruct (Z.eqb_spec np 0); [done|]. cbn. by rewrite <- !app_assoc.
Qed.

Lemma beeps_run pin reset k p np i b tr :
  Z.of_nat k < 2 ^ 32 -> p <> 0 ->
  beep_run (k * steps_of np) (BeepSt (BeepData pin reset (Z.of_nat k) p np i) b (Some AtTest) tr) =
    Ok (tt, BeepSt (BeepData pin reset 0 p np i) b (Some AtTest) (tr ++ concat (replicate k (one_beep pin reset p np)))).
Proof.
  intros Hk Hp. revert tr. induction k as [|k IH]; intros tr.
  - cbn. by rewrite app_nil_r.
  - cbn [Nat.mul]. rewrite beep_run_app.
    rewrite (bind_step _ _ _ _ _ (one_beep_run pin reset (Z.of_nat (S k)) p np i b tr ltac:(lia) Hp)).
    replace (Z.of_nat (S k) - 1) with (Z.of_nat k) by lia. rewrite IH by lia. cbn [replicate concat].
    by rewrite <- app_assoc.
Qed.

(** ** Properties *)

(** A beep of a buzzer that is silent: the thread makes exactly [n] pulses, of the requested
    part of the period each, returns the pin to its rest level, and ends.  The pulse is at
    least a millisecond; shorter ones make no sound at all. *)
Theorem beep_pulses pin reset n0 p0 np0 i tr n period percent :
  0 < n < 2 ^ 32 -> PKG_BEEP_PERIOD_MIN <= period <= PKG_BEEP_PERIOD_MAX -> 0 < percent <= 100 ->
  let p := period * percent / 100 in
  exists k nums', (beep true n period percent ;;; beep_run k) (BeepSt (BeepData pin reset n0 p0 np0 i) false None tr) =
    Ok (tt, BeepSt (BeepData pin reset nums' p (period - p) i) false None
      (tr ++ if p =? 0 then [] else concat (replicate (Z.to_nat n) (one_beep pin reset p (period - p))))).
Proof.
  intros Hn Hper Hpct p. unfold PKG_BEEP_PERIOD_MIN, PKG_BEEP_PERIOD_MAX in Hper.
  assert (0 <= p <= period) as Hp by (unfold p; split; [apply Z.div_pos; nia|apply Z.div_le_upper_bound; nia]).
  assert (beep true n period percent (BeepSt (BeepData pin reset n0 p0 np0 i) false None tr) =
    Ok (tt, BeepSt (BeepData pin reset n p (period - p) i) true (Some AtTest) tr)) as E.
  { unfold beep. rewrite !(proj2 (Z.leb_le _ _)), (proj2 (Z.ltb_lt _ _)) by (unfold PKG_BEEP_PERIOD_MIN, PKG_BEEP_PERIOD_MAX; lia).
    cbn [negb andb]. destruct (Z.eqb_spec n 0); [lia|].
    unfold set_data, set_thread, get, modify, mbind, M_bind. cbn. fold p.
    rewrite !(wrap_small 32) by nia. done. }
  destruct (Z.eqb_spec p 0) as [Hp0|Hp0].
  - exists 2%nat, (n - 1). rewrite (bind_step _ _ _ _ _ E). rewrite Hp0, app_nil_r. cbn [beep_run].
    unfold beep_thread_step, set_data, set_thread, get, modify, mbind, M_bind, mret, M_ret. cbn.
    rewrite andb_false_r. cbn. by rewrite wrap_small by lia.
  - exists (Z.to_nat n * steps_of (period - p) + 2)%nat, (2 ^ 32 - 1). rewrite (bind_step _ _ _ _ _ E), beep_run_app.
    pose proof (beeps_run pin reset (Z.to_nat n) p (period - p) i true tr) as H. rewrite Z2Nat.id in H by lia.
    rewrite (bind_step _ _ _ _ _ (H ltac:(lia) Hp0)). reflexivity.
Qed.

(** The alarm's beep: on for 250 ms, off for 250 ms. *)
Lemma beep_pulses_witness :
  exists k nums', (beep true 1 500 50 ;;; beep_run k) (BeepSt (BeepData 5 PIN_LOW 0 0 0 true) false None []) =
    Ok (tt, BeepSt (BeepData 5 PIN_LOW nums' 250 (500 - 250) true) false None
      [BPin 5 PIN_HIGH; BDelay 250; BPin 5 PIN_LOW; BDelay 250]).
Proof.
  apply (beep_pulses 5 PIN_LOW 0 0 0 true [] 1 500 50);
    [split; reflexivity|split; apply Z.leb_le; reflexivity|split; [|apply Z.leb_le]; reflexivity].
Defined.

(** Between the end of the thread's loop and the clearing of its pointer a new beep is lost: no
    thread is created for it, and the old one ends without a sound. *)
Theorem beep_lost created n period percent d tr :
  0 < n -> PKG_BEEP_PERIOD_MIN <= period <= PKG_BEEP_PERIOD_MAX -> 0 < percent <= 100 ->
  exists d', (beep created n period percent ;;; beep_thread_step) (BeepSt d true (Some AtEnd) tr) =
    Ok (tt, BeepSt d' false None tr) /\ nums d' = n /\
    forall k, beep_run k (BeepSt d' false None tr) = Ok (tt, BeepSt d' false None tr).
Proof.
  intros Hn Hper Hpct.
  exists (BeepData (bp_pin d) (pin_reset_level d) n (u32 (period * percent) / 100)
    (u32 (period - u32 (period * percent) / 100)) (inited d)). split; [|split].
  - unfold beep. rewrite !(proj2 (Z.leb_le _ _)), (proj2 (Z.ltb_lt _ _)) by lia. cbn [negb andb].
    destruct (Z.eqb_spec n 0); [lia|]. reflexivity.
  - done.
  - induction k as [|k IH]; [done|]. exact IH.
Qed.

Lemma beep_lost_witness :
  exists d', (beep true 3 500 50 ;;; beep_thread_step) (BeepSt (BeepData 5 PIN_LOW 0 0 0 true) true (Some AtEnd) []) =
    Ok (tt, BeepSt d' false None []) /\ nums d' = 3 /\
    forall k, beep_run k (BeepSt d' false None []) = Ok (tt, BeepSt d' false None []).
Proof.
  apply beep_lost; [reflexivity|split; apply Z.leb_le; reflexivity|split; [|apply Z.leb_le]; reflexivity].
Defined.

(** The rounds that the loop makes. *)
Fixpoint rounds (beep_time : nat) (stop : list bool) : nat :=
  match beep_time with
  | O => O
  | S k => if match stop with b :: _ => b | [] => false end then O else S (rounds k (tail stop))
  end.

(** [n] beeps, each followed by its delay. *)
Fixpoint beeps (n : nat) (during : M beep_st unit) : M beep_st unit :=
  match n with
  | O => mret tt
  | S n => beep true 1 500 50 ;;; during ;;; beeps n during
  end.

Lemma alarm_loop_rounds k stop during s :
  alarm_loop k stop during s = beeps (rounds k stop) during s.
Proof.
  revert stop s. induction k as [|k IH]; intros stop s; [done|]. cbn [alarm_loop rounds].
  destruct (match stop with b :: _ => b | [] => false end); [done|]. cbn [beeps]. unfold mbind, M_bind.
  destruct (beep true 1 500 50 s) as [[[] s1]|]; [|done]. destruct (during s1) as [[[] s2]|]; [|done]. apply IH.
Qed.

Lemma rounds_bound k j stop : (forall i, (i <= j)%nat -> stop !! i = Some (bool_decide (i = j))) -> rounds k stop = min k j.
Proof.
  revert j stop. induction k as [|k IH]; intros j stop Hs; [done|]. cbn [rounds].
  destruct stop as [|b stop]; [by specialize (Hs 0%nat ltac:(lia))|]. pose proof (Hs 0%nat ltac:(lia)) as H0. cbn in H0.
  injection H0 as ->. case_bool_decide as Hj; [subst j; done|]. destruct j as [|j]; [done|]. cbn [tail].
  rewrite (IH j); [lia|]. intros i Hi. specialize (Hs (S i) ltac:(lia)).
  change (stop !! i = Some (bool_decide (S i = S j))) in Hs. rewrite Hs. f_equal.
  by repeat case_bool_decide; lia || done.
Qed.

(** Whatever the thread does meanwhile, the alarm rings at most ten times and not at all behind
    the user's stop: with [j] rounds before it, at most [j] beeps are asked for. *)
Theorem alarm_rings stop during s :
  exists n, (n <= 10)%nat /\
    alarm_cb true stop during s = beeps n during s /\
    forall j, (forall i, (i <= j)%nat -> stop !! i = Some (bool_decide (i = j))) -> n = min 10 j.
Proof.
  exists (rounds 10 stop). split_and!.
  - generalize 10%nat. intros k. revert stop. induction k as [|k IH]; intros stop; cbn [rounds]; [done|].
    destruct (match stop with b :: _ => b | [] => false end); [lia|]. specialize (IH (tail stop)). lia.
  - apply alarm_loop_rounds.
  - intros j Hj. by apply rounds_bound.
Qed.
