(* ===== verification/Btn.v ===== *)
(** The buttons: [applications/btn/btn.c].

    The scanner (the package mfbd) is not part of the repository: what it reports is a list of
    codes.  [btn_curclick_ctrbeep] is the beeper of the buttons; the call of it in
    [bsp_btn_value_report] is commented out at this commit. *)

From S2P Require Import Prelude.
#[local] Open Scope Z_scope.

(** ** Data *)

(** The three buttons, with the codes of the enumeration. *)
Inductive button := test_nbtn | test_nbtn1 | test_nbtn2.
#[export] Instance button_eq_dec : EqDecision button.
Proof. solve_decision. Defined.

Definition MFBD_DOWN_CODE_NAME (b : button) : Z :=
  match b with test_nbtn => 4865 | test_nbtn1 => 5121 | test_nbtn2 => 5377 end.    (* 0x1301 0x1401 0x1501 *)
Definition MFBD_UP_CODE_NAME (b : button) : Z :=
  match b with test_nbtn => 4864 | test_nbtn1 => 5120 | test_nbtn2 => 5376 end.    (* 0x1300 0x1400 0x1500 *)
Definition MFBD_LONG_CODE_NAME (b : button) : Z :=
  match b with test_nbtn => 4866 | test_nbtn1 => 5122 | test_nbtn2 => 5378 end.    (* 0x1302 0x1402 0x1502 *)

(** The static variable of the beeper, and the calls [beep(nums, period, percent, freq)] made. *)
Record btn_st := BtnSt { pre_value : Z; beep_calls : list (Z * Z * Z * Z) }.

(** ** Operations *)

(** The states of a button are constants of the package. *)
Definition bsp_btn_check (MFBD_BTN_STATE_DOWN MFBD_BTN_STATE_UP : Z) (left_key mid_key right_key : Z) (btn_index : Z) : Z :=
  if (btn_index =? 1) && (left_key =? 0) then MFBD_BTN_STATE_DOWN
  else if (btn_index =? 2) && (mid_key =? 0) then MFBD_BTN_STATE_DOWN
  else if (btn_index =? 3) && (right_key =? 0) then MFBD_BTN_STATE_DOWN
  else MFBD_BTN_STATE_UP.

Definition btn_click_islong (v : Z) : bool :=
  (v =? MFBD_LONG_CODE_NAME test_nbtn) || (v =? MFBD_LONG_CODE_NAME test_nbtn1) || (v =? MFBD_LONG_CODE_NAME test_nbtn2).
Definition btn_click_isup (v : Z) : bool :=
  (v =? MFBD_UP_CODE_NAME test_nbtn) || (v =? MFBD_UP_CODE_NAME test_nbtn1) || (v =? MFBD_UP_CODE_NAME test_nbtn2).

Definition beep_once : M btn_st unit :=
  modify (fun s => BtnSt (pre_value s) (beep_calls s ++ [(1, 50, 50, 0)])).

Definition btn_curclick_ctrbeep (btn_value : Z) : M btn_st unit :=
  s ← get;
  if btn_click_isup btn_value || btn_click_islong btn_value then
    if negb (pre_value s =? btn_value) then
      (if btn_click_islong (pre_value s) then mret tt else beep_once) ;;;
      modify (fun s => BtnSt btn_value (beep_calls s))
    else beep_once
  else mret tt.

(** ** Properties *)

(** What a user does with one button: a click, or a long press of any button until its release. *)
Inductive gesture := Click (b : button) | Press (b : button).
Definition codes (g : gesture) : list Z :=
  match g with
  | Click b => [MFBD_DOWN_CODE_NAME b; MFBD_UP_CODE_NAME b]
  | Press b => [MFBD_DOWN_CODE_NAME b; MFBD_LONG_CODE_NAME b; MFBD_UP_CODE_NAME b]
  end.

Lemma gesture_run g pre calls :
  btn_click_islong pre = false ->
  exists pre', mfor (codes g) btn_curclick_ctrbeep (BtnSt pre calls) = Ok (tt, BtnSt pre' (calls ++ [(1, 50, 50, 0)])) /\
    btn_click_islong pre' = false.
Proof.
  intros Hp. destruct g as [b|b].
  - exists (MFBD_UP_CODE_NAME b). split; [|by destruct b].
    assert ((btn_click_isup (MFBD_DOWN_CODE_NAME b) || btn_click_islong (MFBD_DOWN_CODE_NAME b)) = false) as Ed by (by destruct b).
    assert (btn_click_isup (MFBD_UP_CODE_NAME b) = true) as Eu by (by destruct b).
    cbn [codes mfor]. unfold btn_curclick_ctrbeep, beep_once, modify, get, mbind, M_bind, mret, M_ret. rewrite Ed, Eu.
    cbn [orb pre_value]. destruct (Z.eqb_spec pre (MFBD_UP_CODE_NAME b)) as [->|]; cbn [negb]; [done|]. by rewrite Hp.
  - exists (MFBD_UP_CODE_NAME b). split; [|by destruct b].
    assert ((btn_click_isup (MFBD_DOWN_CODE_NAME b) || btn_click_islong (MFBD_DOWN_CODE_NAME b)) = false) as Ed by (by destruct b).
    assert (btn_click_isup (MFBD_UP_CODE_NAME b) = true) as Eu by (by destruct b).
    assert (btn_click_islong (MFBD_LONG_CODE_NAME b) = true) as El by (by destruct b).
    assert ((MFBD_LONG_CODE_NAME b =? MFBD_UP_CODE_NAME b) = false) as En by (by destruct b).
    cbn [codes mfor]. unfold btn_curclick_ctrbeep, beep_once, modify, get, mbind, M_bind, mret, M_ret. rewrite Ed, Eu, El, orb_true_r.
    cbn [orb pre_value]. destruct (Z.eqb_spec pre (MFBD_LONG_CODE_NAME b)) as [->|]; [congruence|]. rewrite Hp.
    cbn [negb pre_value beep_calls]. by rewrite En, El.
Qed.

(** Every gesture beeps exactly once, in any sequence and with any button: a click at its
    release, a long press when it becomes one and not again at its release. *)
Theorem beep_per_gesture gs :
  exists pre', mfor (concat (map codes gs)) btn_curclick_ctrbeep (BtnSt 0 []) =
    Ok (tt, BtnSt pre' (replicate (length gs) (1, 50, 50, 0))).
Proof.
  assert (forall pre calls, btn_click_islong pre = false -> exists pre',
    mfor (concat (map codes gs)) btn_curclick_ctrbeep (BtnSt pre calls) =
      Ok (tt, BtnSt pre' (calls ++ replicate (length gs) (1, 50, 50, 0)))) as H; [|by apply (H 0 [])].
  induction gs as [|g gs IH]; intros pre calls Hp; cbn [map concat length replicate].
  - exists pre. by rewrite app_nil_r.
  - destruct (gesture_run g pre calls Hp) as (pre1 & E & Hp1). rewrite mfor_app, (bind_step _ _ _ _ _ E).
    destruct (IH pre1 (calls ++ [(1, 50, 50, 0)]) Hp1) as (pre2 & E2). exists pre2. by rewrite E2, <- app_assoc.
Qed.

(** The comment promises that a long press does not beep repeatedly; a repeated report of the
    same long press beeps each time, because the second test takes it for a click. *)
Theorem repeated_long_beeps b n calls :
  mfor (replicate n (MFBD_LONG_CODE_NAME b)) btn_curclick_ctrbeep (BtnSt (MFBD_LONG_CODE_NAME b) calls) =
    Ok (tt, BtnSt (MFBD_LONG_CODE_NAME b) (calls ++ replicate n (1, 50, 50, 0))).
Proof.
  revert calls. induction n as [|n IH]; intros calls; cbn [replicate mfor]; [by rewrite app_nil_r|].
  assert (btn_curclick_ctrbeep (MFBD_LONG_CODE_NAME b) (BtnSt (MFBD_LONG_CODE_NAME b) calls) =
    Ok (tt, BtnSt (MFBD_LONG_CODE_NAME b) (calls ++ [(1, 50, 50, 0)]))) as E.
  { unfold btn_curclick_ctrbeep, get, mbind, M_bind. cbn [pre_value].
    assert (btn_click_islong (MFBD_LONG_CODE_NAME b) = true) as -> by (by destruct b).
    rewrite orb_true_r, Z.eqb_refl. reflexivity. }
  rewrite (bind_step _ _ _ _ _ E), IH. by rewrite <- app_assoc.
Qed.
