(* ===== verification/Ui.v ===== *)
(** The main page: [applications/lvgl/lv_port_indev.c].

    LVGL is not modelled; the page is what its widgets are told to show.  A widget that
    [rtc_lvobj] points to is an [option]: [None] is the null pointer of the start, [Some] what
    was last put on it.  Texts are C strings, without their NUL. *)

From S2P Require Import Prelude Float DfsCfg Weather Ctime Rtc.
#[local] Open Scope Z_scope.

(** ** Data *)

Definition LV_SYMBOL_BATTERY_FULL : bytes := [239; 137; 128].
Definition LV_SYMBOL_BATTERY_3 : bytes := [239; 137; 129].
Definition LV_SYMBOL_BATTERY_2 : bytes := [239; 137; 130].
Definition LV_SYMBOL_BATTERY_1 : bytes := [239; 137; 131].
Definition LV_SYMBOL_BATTERY_EMPTY : bytes := [239; 137; 132].
Definition LV_SYMBOL_WIFI_LINK : bytes := [238; 152; 142].
Definition LV_SYMBOL_WIFI_UNLINK : bytes := [238; 152; 178].

(** [rtc_lvobj]; the tab view is its active tab. *)
Record real_time_change_lvobj := LvObj {
  tabview : option Z;
  sensor_lab : option bytes;
  memo_lab : option bytes;
  weather_icon : list (option bytes);        (* 2 pictures, by their paths *)
  weather_info_lab : list (option bytes);    (* 2 *)
  vbat : option bytes;
  wifi : option bytes;
  time_lab : option bytes;
  message : option bytes;
}.

Record epd_show_weather_info_t := ShowWeather {
  icon_code : Z;      (* uint32_t *)
  temp_max : Z;       (* int8_t *)
  temp_min : Z;       (* int8_t *)
  day : Z;            (* int32_t: 0 today, 1 tomorrow *)
}.

(** What the page reads of [g_ele_ds], the clock, and what it shows: [titles] are the
    labels of the days, in the order in which they were made. *)
Record ui_st := UiSt {
  lvobj : real_time_change_lvobj;
  titles : list bytes;
  sht30 : float * float;
  gzp6816d_pressure : float;
  device_cfg : ele_ds_cfg_t;
  ui_clock : rtc_st;
}.

Definition on_obj (g : real_time_change_lvobj -> real_time_change_lvobj) : M ui_st unit :=
  modify (fun s => UiSt (g (lvobj s)) (titles s) (sht30 s) (gzp6816d_pressure s) (device_cfg s) (ui_clock s)).
Definition add_title (t : bytes) : M ui_st unit :=
  modify (fun s => UiSt (lvobj s) (titles s ++ [t]) (sht30 s) (gzp6816d_pressure s) (device_cfg s) (ui_clock s)).
Definition on_ui_clock {A} (m : M rtc_st A) : M ui_st A := fun s =>
  match m (ui_clock s) with
  | Ok (a, c) => Ok (a, UiSt (lvobj s) (titles s) (sht30 s) (gzp6816d_pressure s) (device_cfg s) c)
  | Err f => Err f
  end.

Definition set_tabview (v : option Z) (o : real_time_change_lvobj) : real_time_change_lvobj :=
  LvObj v (sensor_lab o) (memo_lab o) (weather_icon o) (weather_info_lab o) (vbat o) (wifi o) (time_lab o) (message o).
Definition set_sensor_lab (v : bytes) (o : real_time_change_lvobj) : real_time_change_lvobj :=
  LvObj (tabview o) (Some v) (memo_lab o) (weather_icon o) (weather_info_lab o) (vbat o) (wifi o) (time_lab o) (message o).
Definition set_memo_lab (v : bytes) (o : real_time_change_lvobj) : real_time_change_lvobj :=
  LvObj (tabview o) (sensor_lab o) (Some v) (weather_icon o) (weather_info_lab o) (vbat o) (wifi o) (time_lab o) (message o).
Definition set_weather (i : Z) (icon info : bytes) (o : real_time_change_lvobj) : real_time_change_lvobj :=
  LvObj (tabview o) (sensor_lab o) (memo_lab o) (<[Z.to_nat i := Some icon]> (weather_icon o))
    (<[Z.to_nat i := Some info]> (weather_info_lab o)) (vbat o) (wifi o) (time_lab o) (message o).
Definition set_vbat (v : option bytes) (o : real_time_change_lvobj) : real_time_change_lvobj :=
  LvObj (tabview o) (sensor_lab o) (memo_lab o) (weather_icon o) (weather_info_lab o) v (wifi o) (time_lab o) (message o).
Definition set_time_lab (v : bytes) (o : real_time_change_lvobj) : real_time_change_lvobj :=
  LvObj (tabview o) (sensor_lab o) (memo_lab o) (weather_icon o) (weather_info_lab o) (vbat o) (wifi o) (Some v) (message o).

(** ** Texts *)

(** [sprintf] of a text into an array, and the C string that is then in it. *)
Definition sprintf_into (buf text : bytes) : res bytes :=
  b ← blit buf 0 (text ++ [0]); cstr b.

(** [%2.0f]: at least two characters. *)
Definition pad_left (n : nat) (s : bytes) : bytes := replicate (n - length s) 32 ++ s.

Definition num2 (n : Z) : bytes := pad0 2 (print_u n).

(** [strftime] with the format ["%Y-%m-%d %H:%M"]: for the fields of a date, and where the
    array is long enough; otherwise its contents are not specified. *)
Definition clock_text (t : tm) : bytes :=
  print_d (tm_year t + 1900) ++ [45] ++ num2 (tm_mon t + 1) ++ [45] ++ num2 (tm_mday t) ++ [32] ++
  num2 (tm_hour t) ++ [58] ++ num2 (tm_min t).
Definition strftime_ymd_hm (size : Z) (t : tm) : res bytes :=
  if Zlen (clock_text t) <? size then Ok (clock_text t) else Err Unspecified.

(** [DEFAULT_SENSOR_LABFMT] *)
Definition sensor_text (t h p : float) : bytes :=
  cs "温度:" ++ pad_left 2 (sprintf_f 0 (f64_of_f32 t)) ++ cs "C 湿度:" ++
  pad_left 2 (sprintf_f 0 (f64_of_f32 h)) ++ cs "%" ++ [10] ++
  cs "气压:" ++ pad_left 2 (sprintf_f 2 (f64_of_f32 p)) ++ cs "hPa".

Definition info_text (w : epd_show_weather_info_t) : bytes :=
  cs "温度:" ++ [10] ++ print_d (temp_max w) ++ cs "-" ++ print_d (temp_min w) ++ cs "度".

(** ** The page *)

(** The new text of a battery or network icon; [None]: the icon is a null pointer. *)
Definition set_vbat_icon (vbat : option bytes) (vbat_percent : Z) : option bytes :=
  match vbat with
  | None => None
  | Some _ =>
      Some (if 100 <? vbat_percent then LV_SYMBOL_BATTERY_FULL
            else if 75 <? vbat_percent then LV_SYMBOL_BATTERY_3
            else if 50 <? vbat_percent then LV_SYMBOL_BATTERY_2
            else if 25 <? vbat_percent then LV_SYMBOL_BATTERY_1
            else LV_SYMBOL_BATTERY_EMPTY)
  end.
Definition set_wifi_icon (wifi : option bytes) (is_connected : bool) : option bytes :=
  match wifi with
  | None => None
  | Some _ => Some (if is_connected then LV_SYMBOL_WIFI_LINK else LV_SYMBOL_WIFI_UNLINK)
  end.

(** [localtime] of the clock as the page prints it, into an array of [size] bytes. *)
Definition time_text (size : Z) : M ui_st bytes :=
  curtime ← on_ui_clock time;
  t ← lift (localtime_r _current_tz_offset_sec curtime);
  lift (strftime_ymd_hm size t).

(** [str] holds the time when the sensor values are written over it. *)
Definition update_time_cb : M ui_st unit :=
  str ← time_text 100;
  on_obj (set_time_lab str) ;;;
  s ← get;
  _ ← match sensor_lab (lvobj s) with
      | Some _ =>
          let buf := str ++ replicate (100 - length str) 0 in
          text ← lift (sprintf_into buf (sensor_text (sht30 s).1 (sht30 s).2 (gzp6816d_pressure s)));
          on_obj (set_sensor_lab text)
      | None => mret tt
      end;
  on_obj (fun o => set_vbat (set_vbat_icon (vbat o) 20) o).

Definition create_status_bar : M ui_st unit :=
  time_str ← time_text 32;
  on_obj (set_time_lab time_str).

Definition day_weather (w : epd_show_weather_info_t) : M ui_st unit :=
  let days_flag := if day w =? 0 then 0 else 1 in
  add_title (if day w =? 0 then cs "今天" else cs "明天") ;;;
  iconpath ← lift (icon_path (icon_code w));
  icon ← lift (cstr iconpath);
  info ← lift (sprintf_into (replicate 128 0) (info_text w));
  on_obj (set_weather days_flag icon info).

(** The structure that [create_weather_layout] fills in for day [i]. *)
Definition layout_day (cfg : ele_ds_cfg_t) (i : Z) : res epd_show_weather_info_t :=
  tmax ← aget (weather_info cfg) (day_off 0 + tempMax_off);
  tmin ← aget (weather_info cfg) (day_off 0 + tempMin_off);
  icon ← day_string (weather_info cfg) (day_off 0 + iconDay_off) iconDay_size;
  code ← atoi icon;
  Ok (ShowWeather (u32 code) (i8 tmax) (i8 tmin) i).

Definition create_weather_layout : M ui_st unit :=
  mfor [0; 1] (fun i =>
    s ← get;
    w ← lift (layout_day (device_cfg s) i);
    day_weather w).

Definition tabview_create : M ui_st unit :=
  on_obj (set_tabview (Some 0)) ;;;
  create_weather_layout ;;;
  s ← get;
  text ← lift (sprintf_into (replicate 50 0) (sensor_text (sht30 s).1 (sht30 s).2 (gzp6816d_pressure s)));
  on_obj (set_sensor_lab text) ;;;
  m ← lift (cstr (memo (device_cfg s)));
  on_obj (set_memo_lab m).

(** The shell command; [argv] with the command's name. *)
Definition switch_tabview_cmd (argv : list bytes) : M ui_st unit :=
  s ← get;
  match tabview (lvobj s), argv with
  | Some _, _ :: a :: _ =>
      tab_index ← lift (atoi a);
      if (tab_index <? 0) || (3 <? tab_index) then mret tt else on_obj (set_tabview (Some tab_index))
  | _, _ => mret tt
  end.

Definition main_page : M ui_st unit := create_status_bar ;;; tabview_create.
Definition lv_user_gui_init : M ui_st unit := main_page.

(** The objects of the start: all pointers null. *)
Definition lvobj_zero : real_time_change_lvobj :=
  LvObj None None None [None; None] [None; None] None None None None.

(** ** Lemmas *)

(** *** Texts *)

Lemma sprintf_into_spec buf text :
  Forall (fun b => b <> 0) text ->
  sprintf_into buf text = if Zlen text <? Zlen buf then Ok text else Err OutOfBounds.
Proof.
  intros Ht. unfold sprintf_into. destruct (Z.ltb_spec (Zlen text) (Zlen buf)) as [Hl|Hl].
  - rewrite blit_in; [|done|rewrite Zlen_app; change (Zlen [0]) with 1; lia]. rewrite ok_bind.
    change (take (Z.to_nat 0) buf) with (@nil Z). rewrite app_nil_l, <- app_assoc. by apply cstr_app.
  - unfold blit. rewrite decide_False; [done|]. rewrite Zlen_app. change (Zlen [0]) with 1. lia.
Qed.

Lemma print_u_length n k : 0 <= n < 10 ^ Z.of_nat (S k) -> (length (print_u n) <= S k)%nat.
Proof. apply dec_digits_bound. Qed.

Lemma digit_no_nul l : Forall (fun c => is_digit c = true) l -> Forall (fun b => b <> 0) l.
Proof. intros Hl. eapply Forall_impl; [exact Hl|]. unfold is_digit. intros c. simpl. lia. Qed.

Lemma pad0_digits n l : Forall (fun c => is_digit c = true) l -> Forall (fun c => is_digit c = true) (pad0 n l).
Proof. intros Hl. unfold pad0. apply Forall_app. split; [by apply Forall_replicate|done]. Qed.

Lemma digits_val_zeros k l : digits_val 0 (replicate k 48 ++ l) = digits_val 0 l.
Proof. induction k as [|k IH]; [done|]. exact IH. Qed.

Lemma num2_spec n : 0 <= n -> digits_val 0 (num2 n) = n /\ Forall (fun c => is_digit c = true) (num2 n).
Proof.
  intros Hn. destruct (print_u_spec n Hn) as (E & F & _). split.
  - unfold num2, pad0. by rewrite digits_val_zeros.
  - by apply pad0_digits.
Qed.

Lemma num2_length n : 0 <= n < 100 -> (length (num2 n) = 2)%nat.
Proof.
  intros Hn. pose proof (print_u_length n 1 ltac:(done)).
  unfold num2, pad0. rewrite length_app, length_replicate. lia.
Qed.

Lemma print_d_no_nul n : Forall (fun b => b <> 0) (print_d n).
Proof.
  unfold print_d. destruct (Z.ltb_spec n 0); [constructor; [done|]|]; apply digit_no_nul, print_u_spec; lia.
Qed.

(** Two digits, or a number, end where a character that is no digit follows. *)
Lemma field_inj a b r r' :
  Forall (fun c => is_digit c = true) a -> Forall (fun c => is_digit c = true) b ->
  match r with c :: _ => is_digit c = false | [] => True end ->
  match r' with c :: _ => is_digit c = false | [] => True end ->
  a ++ r = b ++ r' -> a = b /\ r = r'.
Proof.
  intros Ha Hb Hr Hr' E. pose proof (span_digits_app a r Ha Hr) as E1.
  rewrite E, (span_digits_app b r' Hb Hr') in E1. by injection E1.
Qed.

(** The value lies between [-k] and [k]. *)
Definition float_within (k : Z) (x : float) : Prop :=
  match sf_frac x with Some (n, d) => 0 < d /\ Z.abs n <= k * d | None => False end.
#[export] Instance float_within_dec k x : Decision (float_within k x).
Proof. unfold float_within. destruct (sf_frac x) as [[n d]|]; apply _. Defined.

Lemma round_div_le n d k : 0 <= n -> 0 < d -> n <= k * d -> 0 <= round_div n d <= k.
Proof.
  intros Hn Hd Hk. unfold round_div. pose proof (Z.div_pos n d Hn Hd). pose proof (Z.mod_pos_bound n d Hd).
  pose proof (Z_div_mod_eq_full n d).
  destruct (Z.compare_spec (2 * (n mod d)) d); [destruct (Z.even _)|..]; nia.
Qed.

Lemma sprintf_f_spec p x k :
  float_within (10 ^ Z.of_nat (S k) - 1) x ->
  (length (sprintf_f p x) <= 3 + k + p)%nat /\ Forall (fun b => b <> 0) (sprintf_f p x).
Proof.
  unfold float_within, sprintf_f. destruct (sf_frac x) as [[n d]|]; [|done]. intros [Hd Hn].
  pose proof (Z.pow_pos_nonneg 10 (Z.of_nat p)) as Hp. pose proof (Z.pow_pos_nonneg 10 (Z.of_nat (S k))) as Hk.
  set (m := round_div _ _).
  assert (0 <= m < 10 ^ Z.of_nat (S (k + p))) as Hm.
  { replace (Z.of_nat (S (k + p))) with (Z.of_nat (S k) + Z.of_nat p) by lia. rewrite Z.pow_add_r by lia.
    pose proof (round_div_le (Z.abs n * 10 ^ Z.of_nat p) d ((10 ^ Z.of_nat (S k) - 1) * 10 ^ Z.of_nat p)
      ltac:(lia) Hd ltac:(nia)). fold m in H. nia. }
  pose proof (print_u_length m (k + p) Hm) as Hl. destruct (print_u_spec m ltac:(lia)) as (_ & F & _).
  pose proof (digit_no_nul _ (pad0_digits (S p) _ F)) as Hnul.
  assert (length (pad0 (S p) (print_u m)) <= S (k + p))%nat as Hpad.
  { unfold pad0. rewrite length_app, length_replicate. lia. }
  set (ds := pad0 _ _) in *. split.
  - rewrite !length_app, length_take. assert (length (if sf_neg x then [45%Z] else []) <= 1)%nat by (case_match; simpl; lia).
    destruct (decide (p = O)); cbn [length]; rewrite ?length_drop; lia.
  - rewrite !Forall_app. split; [case_match; by repeat constructor|]. split; [by apply Forall_take|].
    destruct (decide (p = O)); [constructor|]. constructor; [done|by apply Forall_drop].
Qed.

Lemma pad_left_spec n l :
  Forall (fun b => b <> 0) l -> Forall (fun b => b <> 0) (pad_left n l) /\ length (pad_left n l) = max n (length l).
Proof.
  intros Hl. unfold pad_left. rewrite Forall_app, length_app, length_replicate. split; [|lia].
  split; [by apply Forall_replicate|done].
Qed.

(** Temperature and humidity of at most three digits, pressure of at most five. *)
Definition sensors_ok (t h p : float) : Prop :=
  float_within 999 (f64_of_f32 t) /\ float_within 999 (f64_of_f32 h) /\ float_within 99999 (f64_of_f32 p).
#[export] Instance sensors_ok_dec t h p : Decision (sensors_ok t h p).
Proof. unfold sensors_ok. apply _. Defined.

Lemma sensor_text_spec t h p :
  sensors_ok t h p -> Zlen (sensor_text t h p) < 50 /\ Forall (fun b => b <> 0) (sensor_text t h p).
Proof.
  intros (Ht & Hh & Hp).
  destruct (sprintf_f_spec 0 _ 2 Ht) as [Lt Ft]. destruct (sprintf_f_spec 0 _ 2 Hh) as [Lh Fh].
  destruct (sprintf_f_spec 2 _ 4 Hp) as [Lp Fp].
  destruct (pad_left_spec 2 _ Ft) as [Ft' Lt']. destruct (pad_left_spec 2 _ Fh) as [Fh' Lh'].
  destruct (pad_left_spec 2 _ Fp) as [Fp' Lp'].
  unfold sensor_text. split.
  - rewrite !Zlen_app. unfold Zlen. cbn [length cs]. lia.
  - rewrite !Forall_app. split_and!; first [assumption|apply (bool_decide_unpack _); vm_compute; exact I].
Qed.

Lemma info_text_spec w :
  - 128 <= temp_max w < 128 -> - 128 <= temp_min w < 128 ->
  Zlen (info_text w) < 128 /\ Forall (fun b => b <> 0) (info_text w).
Proof.
  intros Hx Hn. assert (forall n, - 128 <= n < 128 -> (length (print_d n) <= 4)%nat) as Hl.
  { intros n Hr. unfold print_d. destruct (Z.ltb_spec n 0); cbn [length];
      [pose proof (print_u_length (- n) 2 ltac:(lia))|pose proof (print_u_length n 2 ltac:(lia))]; lia. }
  pose proof (Hl _ Hx). pose proof (Hl _ Hn). unfold info_text. split.
  - rewrite !Zlen_app. unfold Zlen. cbn [length cs]. lia.
  - rewrite !Forall_app. split_and!; first [apply print_d_no_nul|apply (bool_decide_unpack _); vm_compute; exact I].
Qed.

(** *** The clock *)

Lemma clock_text_length t : tm_valid t -> tm_year t <= 200 -> Zlen (clock_text t) <= 16.
Proof.
  intros (Hs & Hm & Hh & Hmon & Hmd & Hy) Hy'. pose proof (month_len_range (tm_year t + 1900) (tm_mon t)).
  unfold clock_text, print_d. destruct (Z.ltb_spec (tm_year t + 1900) 0); [lia|].
  pose proof (print_u_length (tm_year t + 1900) 3 ltac:(change (10 ^ Z.of_nat 4) with 10000; lia)).
  rewrite !Zlen_app. unfold Zlen. rewrite !num2_length by lia. cbn [length]. lia.
Qed.

(** The label gives the date and the time of day, to the minute. *)
Lemma clock_text_inj t u :
  tm_valid t -> tm_valid u -> clock_text t = clock_text u ->
  tm_year t = tm_year u /\ tm_mon t = tm_mon u /\ tm_mday t = tm_mday u /\ tm_hour t = tm_hour u /\
  tm_min t = tm_min u.
Proof.
  intros (Hs & Hm & Hh & Hmon & Hmd & Hy) (Hs' & Hm' & Hh' & Hmon' & Hmd' & Hy'). unfold clock_text, print_d.
  destruct (Z.ltb_spec (tm_year t + 1900) 0); [lia|]. destruct (Z.ltb_spec (tm_year u + 1900) 0); [lia|].
  destruct (print_u_spec (tm_year t + 1900)) as (V1 & F1 & _); [lia|].
  destruct (print_u_spec (tm_year u + 1900)) as (V1' & F1' & _); [lia|].
  assert (forall n m r r', 0 <= n -> 0 <= m ->
    match r with c :: _ => is_digit c = false | [] => True end ->
    match r' with c :: _ => is_digit c = false | [] => True end ->
    num2 n ++ r = num2 m ++ r' -> n = m /\ r = r') as Hnum.
  { intros n m r r' Hn Hn' Hr Hr' E. destruct (num2_spec n Hn) as [V F]. destruct (num2_spec m Hn') as [V' F'].
    destruct (field_inj _ _ _ _ F F' Hr Hr' E) as [E1 E2]. split; [congruence|done]. }
  intros E. apply field_inj in E as [E1 E]; [|done..]. injection E as E.
  apply Hnum in E as [E2 E]; [|lia|lia|done..]. injection E as E.
  apply Hnum in E as [E3 E]; [|lia|lia|done..]. injection E as E.
  apply Hnum in E as [E4 E]; [|lia|lia|done..]. injection E as E.
  rewrite <- (app_nil_r (num2 (tm_min t))), <- (app_nil_r (num2 (tm_min u))) in E.
  apply Hnum in E as [E5 _]; [|lia|lia|done..]. rewrite E1, V1' in V1. split_and!; lia.
Qed.

Definition clock_runs (s : ui_st) : Prop := rtc_found (ui_clock s) = true /\ regs_ok (regs (ui_clock s)).

Lemma time_text_spec size s l :
  clock_runs s -> localtime_r _current_tz_offset_sec (rtc_time (ui_clock s)) = Ok l ->
  Zlen (clock_text l) < size -> time_text size s = Ok (clock_text l, s).
Proof.
  intros [Hf Hr] El Hl. unfold time_text. erewrite bind_step; [|unfold on_ui_clock; by rewrite time_spec].
  unfold lift at 1. rewrite El. unfold mbind, M_bind, lift, strftime_ymd_hm.
  destruct (Z.ltb_spec (Zlen (clock_text l)) size); [|lia]. by destruct s.
Qed.

(** The page after a tick of its timer. *)
Lemma update_time_spec s l :
  clock_runs s -> localtime_r _current_tz_offset_sec (rtc_time (ui_clock s)) = Ok l ->
  Zlen (clock_text l) <= 16 -> sensors_ok (sht30 s).1 (sht30 s).2 (gzp6816d_pressure s) ->
  update_time_cb s = Ok (tt,
    let o := set_time_lab (clock_text l) (lvobj s) in
    let o := match sensor_lab o with
             | Some _ => set_sensor_lab (sensor_text (sht30 s).1 (sht30 s).2 (gzp6816d_pressure s)) o
             | None => o
             end in
    UiSt (set_vbat (set_vbat_icon (vbat o) 20) o) (titles s) (sht30 s) (gzp6816d_pressure s) (device_cfg s) (ui_clock s)).
Proof.
  intros Hc El Hl Hs. destruct (sensor_text_spec _ _ _ Hs) as [Hn Hnul]. unfold update_time_cb.
  rewrite (bind_step _ _ _ _ _ (time_text_spec 100 s l Hc El ltac:(lia))).
  erewrite bind_step; [|reflexivity]. erewrite bind_step; [|reflexivity]. cbn [lvobj sensor_lab set_time_lab].
  destruct (sensor_lab (lvobj s)) eqn:E.
  - unfold mbind, M_bind, lift. cbn [sht30 gzp6816d_pressure]. rewrite sprintf_into_spec by done.
    rewrite Zlen_app. unfold Zlen in *. rewrite length_replicate.
    destruct (Z.ltb_spec (Z.of_nat (length (sensor_text (sht30 s).1 (sht30 s).2 (gzp6816d_pressure s))))
      (Z.of_nat (length (clock_text l)) + Z.of_nat (100 - length (clock_text l)))); [|lia].
    unfold on_obj, modify. cbn. done.
  - unfold mbind, M_bind, on_obj, modify, mret, M_ret. cbn. done.
Qed.

Lemma label_shown s s' :
  clock_runs s -> sensors_ok (sht30 s).1 (sht30 s).2 (gzp6816d_pressure s) -> update_time_cb s = Ok (tt, s') ->
  exists l, tm_valid l /\ seconds l = rtc_time (ui_clock s) + _current_tz_offset_sec /\
    time_lab (lvobj s') = Some (clock_text l).
Proof.
  intros Hc Hs E. destruct (local_year (ui_clock s) _current_tz_offset_sec (proj2 Hc)) as (l & El & Hv & Hl & _ & Hy);
    [split; apply Z.leb_le; reflexivity|].
  rewrite (update_time_spec s l Hc El (clock_text_length l Hv Hy) Hs) in E. injection E as <-.
  exists l. split_and!; [done|done|]. cbn [lvobj]. by destruct (sensor_lab _).
Qed.

(** *** The weather *)

Lemma atoi_digits_bound l acc k :
  0 <= acc < 10 ^ k -> 0 <= k -> 0 <= atoi_digits acc l < 10 ^ (k + Zlen l).
Proof.
  revert acc k. induction l as [|d l IH]; intros acc k Ha Hk; cbn [atoi_digits].
  - unfold Zlen. cbn [length]. by rewrite Z.add_0_r.
  - assert (k + Zlen (d :: l) = (k + 1) + Zlen l) as -> by (unfold Zlen; cbn [length]; lia).
    pose proof (Z.pow_add_r 10 k 1 ltac:(lia) ltac:(lia)) as E. change (10 ^ 1) with 10 in E.
    destruct ((48 <=? d) && (d <=? 57)) eqn:Ed.
    + apply IH; lia.
    + pose proof (Z.pow_le_mono_r 10 k (k + 1 + Zlen l)). pose proof (Zlen_nonneg l). lia.
Qed.

Lemma atoi_skip_length l : (length (atoi_skip l) <= length l)%nat.
Proof. induction l as [|c l IH]; cbn [atoi_skip]; [done|]. case_match; cbn [length]; lia. Qed.

Lemma atoi_short l : (length l <= 9)%nat -> exists v, atoi l = Ok v.
Proof.
  intros Hl. pose proof (atoi_skip_length l) as Hs.
  assert (forall m, (length m <= 9)%nat -> 0 <= atoi_digits 0 m < 10 ^ 9) as Hd.
  { intros m Hm. pose proof (atoi_digits_bound m 0 0 ltac:(lia) ltac:(lia)).
    pose proof (Z.pow_le_mono_r 10 (0 + Zlen m) 9). unfold Zlen in *. lia. }
  unfold atoi. destruct (atoi_skip l) as [|c m].
  - rewrite decide_True; [by eexists|]. by split.
  - cbn [length] in Hs. pose proof (Hd m ltac:(lia)). pose proof (Hd (c :: m) ltac:(cbn [length]; lia)).
    change (10 ^ 9) with 1000000000 in *. change (2 ^ 31) with 2147483648 in *.
    eexists. apply decide_True. repeat case_match; lia.
Qed.

Lemma cstr_length l s : cstr l = Ok s -> (length s < length l)%nat.
Proof.
  revert s. induction l as [|b l IH]; intros s; simpl; [done|]. case_decide; [intros [= <-]; simpl; lia|].
  destruct (cstr l) as [s'|]; [|done]. intros [= <-]. specialize (IH s' eq_refl). simpl. lia.
Qed.

Lemma is_ok_Ok {A} (m : res A) : is_ok m = true -> exists a, m = Ok a.
Proof. destruct m; [by eexists|done]. Qed.

(** The structure of day [i] of a configuration: the first day's values. *)
Lemma layout_day_spec cfg i :
  cfg_ok cfg ->
  exists icon code tmax tmin,
    day_icon (weather_info cfg) 0 = Ok icon /\ atoi icon = Ok code /\
    day_max (weather_info cfg) 0 = Ok tmax /\ day_min (weather_info cfg) 0 = Ok tmin /\
    - 128 <= tmax < 128 /\ - 128 <= tmin < 128 /\
    layout_day cfg i = Ok (ShowWeather (u32 code) tmax tmin i).
Proof.
  intros Hc. assert (Zlen (weather_info cfg) = sizeof_weather) as Hl by apply Hc.
  assert (day_ok (weather_info cfg) 0) as [Hi _].
  { destruct Hc as (_ & _ & _ & _ & _ & _ & _ & _ & _ & _ & _ & _ & _ & _ & _ & _ & H).
    rewrite Forall_forall in H. apply H. apply elem_of_seqZ. by unfold weather_days. }
  apply is_ok_Ok in Hi as [icon Ei].
  assert (exists code, atoi icon = Ok code) as [code Ec].
  { apply atoi_short. unfold day_icon, day_string in Ei. destruct (slice _ _ _) as [b|] eqn:Es; [|done].
    rewrite ok_bind in Ei. apply cstr_length in Ei. unfold slice in Es. case_decide as Hd; [|done].
    injection Es as <-. rewrite length_take in Ei. unfold iconDay_size in Ei. lia. }
  destruct (aget_in (weather_info cfg) (day_off 0 + tempMax_off)) as [x Ex].
  { rewrite Hl. split; [done|]. by apply Z.ltb_lt. }
  destruct (aget_in (weather_info cfg) (day_off 0 + tempMin_off)) as [n En].
  { rewrite Hl. split; [done|]. by apply Z.ltb_lt. }
  exists icon, code, (i8 x), (i8 n). unfold day_max, day_min, layout_day.
  change (day_icon (weather_info cfg) 0) with (day_string (weather_info cfg) (day_off 0 + iconDay_off) iconDay_size) in *.
  rewrite Ex, !ok_bind, En, !ok_bind, Ei, ok_bind, Ec. pose proof (swrap_range 8 x ltac:(done)). pose proof (swrap_range 8 n ltac:(done)).
  split_and!; try done; change (2 ^ (8 - 1)) with 128 in *; lia.
Qed.

(** The path of the picture of a weather code. *)
Definition icon_of (code : Z) : bytes :=
  match get_weather_icon_suffix code with
  | Ok suffix => cs "S:/sysfile/icon/tianqi_48/tianqi-" ++ cs suffix ++ cs ".bin"
  | Err _ => []
  end.

Lemma day_weather_spec w s :
  - 128 <= temp_max w < 128 -> - 128 <= temp_min w < 128 ->
  day_weather w s = Ok (tt,
    UiSt (set_weather (if day w =? 0 then 0 else 1) (icon_of (icon_code w)) (info_text w) (lvobj s))
      (titles s ++ [if day w =? 0 then cs "今天" else cs "明天"]) (sht30 s) (gzp6816d_pressure s)
      (device_cfg s) (ui_clock s)).
Proof.
  intros Hx Hn. destruct (info_text_spec w Hx Hn) as [Hl Hnul].
  destruct (icon_path_fits (icon_code w)) as (suffix & buf & Es & Ep & _ & Eb).
  unfold day_weather. erewrite bind_step; [|reflexivity]. unfold lift, mbind, M_bind. rewrite Ep, Eb.
  rewrite sprintf_into_spec by done.
  destruct (Z.ltb_spec (Zlen (info_text w)) (Zlen (replicate 128 0))) as [_|Hge]; [|unfold Zlen in *; rewrite length_replicate in Hge; lia].
  unfold icon_of. by rewrite Es.
Qed.

(** ** Properties *)

(** C26. The page is complete and in bounds: with a clock of the years 2000 to 2099, a stored
    configuration and sensor values of a plausible size, the start of the interface shows the
    local time to the minute, the sensor values and the memo.  Both days of the weather
    show the first day of the forecast: the second label, "tomorrow", has today's picture and
    temperatures.  The battery and network icons are never made. *)
Theorem page_shows s :
  clock_runs s -> cfg_ok (device_cfg s) -> sensors_ok (sht30 s).1 (sht30 s).2 (gzp6816d_pressure s) ->
  lvobj s = lvobj_zero ->
  exists s' l icon code tmax tmin m,
    localtime_r _current_tz_offset_sec (rtc_time (ui_clock s)) = Ok l /\
    day_icon (weather_info (device_cfg s)) 0 = Ok icon /\ atoi icon = Ok code /\
    day_max (weather_info (device_cfg s)) 0 = Ok tmax /\ day_min (weather_info (device_cfg s)) 0 = Ok tmin /\
    cstr (memo (device_cfg s)) = Ok m /\
    lv_user_gui_init s = Ok (tt, s') /\
    let picture := Some (icon_of (u32 code)) in
    let info := Some (cs "温度:" ++ [10] ++ print_d tmax ++ cs "-" ++ print_d tmin ++ cs "度") in
    lvobj s' = LvObj (Some 0) (Some (sensor_text (sht30 s).1 (sht30 s).2 (gzp6816d_pressure s))) (Some m)
      [picture; picture] [info; info] None None (Some (clock_text l)) None /\
    titles s' = titles s ++ [cs "今天"; cs "明天"].
Proof.
  intros Hc Hcfg Hs Hz. destruct (local_year (ui_clock s) _current_tz_offset_sec (proj2 Hc)) as (l & El & Hv & _ & _ & Hy).
  { split; apply Z.leb_le; reflexivity. }
  pose proof (clock_text_length l Hv Hy) as Hl. destruct (sensor_text_spec _ _ _ Hs) as [Hn Hnul].
  destruct (layout_day_spec (device_cfg s) 0 Hcfg) as (icon & code & tmax & tmin & E1 & E2 & E3 & E4 & Hx & Hm & E5).
  destruct (layout_day_spec (device_cfg s) 1 Hcfg) as (? & ? & ? & ? & E1' & E2' & E3' & E4' & _ & _ & E6).
  rewrite E1 in E1'; injection E1' as <-. rewrite E2 in E2'; injection E2' as <-.
  rewrite E3 in E3'; injection E3' as <-. rewrite E4 in E4'; injection E4' as <-.
  assert (arr_ok 256 (memo (device_cfg s))) as (_ & Hmemo & _) by apply Hcfg.
  apply is_ok_Ok in Hmemo as [m Em].
  eexists _, l, icon, code, tmax, tmin, m. split_and!; try done.
  - unfold lv_user_gui_init, main_page, create_status_bar.
    erewrite bind_step; [|rewrite (bind_step _ _ _ _ _ (time_text_spec 32 s l Hc El ltac:(lia))); reflexivity].
    unfold tabview_create. erewrite bind_step; [|reflexivity].
    erewrite bind_step.
    2: { unfold create_weather_layout. cbn [mfor].
      erewrite bind_step; [|erewrite bind_step; [|reflexivity]; cbn [device_cfg];
        erewrite bind_step; [|unfold lift; by rewrite E5]; by apply day_weather_spec].
      erewrite bind_step; [|erewrite bind_step; [|reflexivity]; cbn [device_cfg];
        erewrite bind_step; [|unfold lift; by rewrite E6]; by apply day_weather_spec].
      reflexivity. }
    erewrite bind_step; [|reflexivity]. cbn [sht30 gzp6816d_pressure device_cfg].
    erewrite bind_step; [|unfold lift; rewrite sprintf_into_spec by done;
      rewrite (proj2 (Z.ltb_lt _ _)) by (unfold Zlen at 2; rewrite length_replicate; exact Hn); reflexivity].
    erewrite bind_step; [|reflexivity].
    erewrite bind_step; [|unfold lift; by rewrite Em]. reflexivity.
  - cbv zeta. split; [cbn [lvobj]; by rewrite Hz|]. cbn [titles]. by rewrite <- app_assoc.
Qed.

(** A forecast of rain today, 25 to 18 degrees, and the clock of [demo_rtc]. *)
Definition demo_cfg : ele_ds_cfg_t :=
  let w := replicate 55 0 ++ [25; 18] ++ cs "305" ++ [0] in
  let c := init_ele_ds_cfg in
  Cfg (clientcfg c) (wifi_ssid c) (wifi_passwd c) (server_addr c) (server_port c) (curweather c)
    (w ++ drop (length w) (weather_info c)) (cs "milk" ++ drop 4 (memo c)) (tcp_timeout c) (alarm_enable c)
    (alarm_time c) (DfsCfg.check c).
Definition demo_ui : ui_st :=
  UiSt lvobj_zero [] (f32_of_Z 23, f32_of_Z 45) (f32_of_Z 101) demo_cfg demo_rtc.

Lemma demo_clock_runs : clock_runs demo_ui.
Proof. split; [done|]. split; apply (bool_decide_unpack _); vm_compute; exact I. Qed.

Lemma page_shows_witness :
  exists s' l icon code tmax tmin m,
    localtime_r _current_tz_offset_sec (rtc_time demo_rtc) = Ok l /\
    day_icon (weather_info demo_cfg) 0 = Ok icon /\ atoi icon = Ok code /\
    day_max (weather_info demo_cfg) 0 = Ok tmax /\ day_min (weather_info demo_cfg) 0 = Ok tmin /\
    cstr (memo demo_cfg) = Ok m /\
    lv_user_gui_init demo_ui = Ok (tt, s') /\
    let picture := Some (icon_of (u32 code)) in
    let info := Some (cs "温度:" ++ [10] ++ print_d tmax ++ cs "-" ++ print_d tmin ++ cs "度") in
    lvobj s' = LvObj (Some 0) (Some (sensor_text (f32_of_Z 23) (f32_of_Z 45) (f32_of_Z 101))) (Some m)
      [picture; picture] [info; info] None None (Some (clock_text l)) None /\
    titles s' = [] ++ [cs "今天"; cs "明天"].
Proof.
  apply (page_shows demo_ui); [apply demo_clock_runs|apply (bool_decide_unpack _); vm_compute; exact I..|reflexivity].
Defined.

(** C17. A real calendar date of the years 2001 to 2098 with a time of day, set by the user with the
    command [date], is what the page shows at its next update, through the calendar, the time zone,
    the registers of the clock chip and back: year, month, day, hour and minute in the label.  The
    clock device is there and works, and the sensor values fit their labels.  Other dates are not
    covered: the command does not refuse a day that the month does not have, and the chip's years
    are those of 2000 to 2099 in UTC, so that at the ends of that range the time zone matters. *)
Theorem set_date_is_shown s year mon mday hour min sec :
  rtc_works (ui_clock s) -> regs_ok (regs (ui_clock s)) ->
  sensors_ok (sht30 s).1 (sht30 s).2 (gzp6816d_pressure s) ->
  2001 <= year <= 2098 -> 1 <= mon <= 12 -> 1 <= mday <= month_len year (mon - 1) ->
  0 <= hour < 24 -> 0 <= min < 60 -> 0 <= sec < 60 ->
  exists s', (_ ← on_ui_clock (date _current_tz_offset_sec year mon mday hour min sec); update_time_cb) s = Ok (tt, s') /\
    time_lab (lvobj s') =
      Some (print_u year ++ cs "-" ++ num2 mon ++ cs "-" ++ num2 mday ++ cs " " ++ num2 hour ++ cs ":" ++ num2 min).
Proof.
  intros Hw Hr Hs Hy Hm Hd Hh Hmi Hse.
  destruct (date_spec (ui_clock s) _current_tz_offset_sec year mon mday hour min sec) as
    (c & now & w & y & E & Hw' & Hr' & El); try done.
  erewrite bind_step; [|unfold on_ui_clock; by rewrite E].
  eexists. split.
  - eapply update_time_spec; [exact (conj (proj1 Hw') Hr')|exact El| |exact Hs].
    apply clock_text_length; [|cbn; lia]. pose proof (month_len_range year (mon - 1)).
    unfold tm_valid. cbn. replace (year - 1900 + 1900) with year by lia. lia.
  - assert (forall o v, time_lab (set_vbat v o) = time_lab o) as H1 by done. cbn [lvobj]. rewrite H1.
    destruct (sensor_lab _); unfold clock_text, print_d; cbn [time_lab set_time_lab set_sensor_lab tm_year tm_mon tm_mday tm_hour tm_min];
      rewrite (proj2 (Z.ltb_ge _ _)) by lia; replace (year - 1900 + 1900) with year by lia;
      by replace (mon - 1 + 1) with mon by lia.
Qed.

Lemma set_date_is_shown_witness :
  exists s', (_ ← on_ui_clock (date _current_tz_offset_sec 2024 2 29 6 5 59); update_time_cb) demo_ui = Ok (tt, s') /\
    time_lab (lvobj s') =
      Some (print_u 2024 ++ cs "-" ++ num2 2 ++ cs "-" ++ num2 29 ++ cs " " ++ num2 6 ++ cs ":" ++ num2 5).
Proof.
  apply set_date_is_shown; [done|apply demo_clock_runs|apply (bool_decide_unpack _); vm_compute; exact I..].
Defined.

(** The label changes exactly with the minute: two clocks show the same text if and only if
    their times lie in the same minute. *)
Theorem clock_label_minute s u s' u' :
  clock_runs s -> sensors_ok (sht30 s).1 (sht30 s).2 (gzp6816d_pressure s) ->
  clock_runs u -> sensors_ok (sht30 u).1 (sht30 u).2 (gzp6816d_pressure u) ->
  update_time_cb s = Ok (tt, s') -> update_time_cb u = Ok (tt, u') ->
  time_lab (lvobj s') = time_lab (lvobj u') <-> rtc_time (ui_clock s) / 60 = rtc_time (ui_clock u) / 60.
Proof.
  intros Hc Hs Hc' Hs' E E'.
  destruct (label_shown s s' Hc Hs E) as (l & Hv & Hl & El). destruct (label_shown u u' Hc' Hs' E') as (l' & Hv' & Hl' & El').
  rewrite El, El'. clear - Hv Hl Hv' Hl'. unfold _current_tz_offset_sec, RT_LIBC_TZ_DEFAULT_HOUR, RT_LIBC_TZ_DEFAULT_MIN, RT_LIBC_TZ_DEFAULT_SEC in *.
  pose proof (proj1 Hv) as Hsec. pose proof (proj1 Hv') as Hsec'. split.
  - intros [= E]. destruct (clock_text_inj _ _ Hv Hv' E) as (E1 & E2 & E3 & E4 & E5).
    unfold seconds, day_number in Hl, Hl'. rewrite E1, E2, E3, E4, E5 in Hl. zlia.
  - intros E. set (r := Tm (tm_sec l') (tm_min l) (tm_hour l) (tm_mday l) (tm_mon l) (tm_year l) 0 0 0).
    assert (tm_valid r) as Hr by (destruct Hv as (_ & H); split; [exact Hsec'|exact H]).
    assert (seconds r = seconds l') as Er.
    { assert (seconds r = seconds l - tm_sec l + tm_sec l') as -> by (unfold seconds, day_number, r; cbn; lia).
      unfold seconds in *. zlia. }
    destruct (seconds_inj _ _ Hr Hv' Er) as (_ & E2 & E3 & E4 & E5 & E6). subst r.
    cbn [tm_min tm_hour tm_mday tm_mon tm_year] in *. unfold clock_text. congruence.
Qed.

(** 8:14:08 and 8:14:59 of the same day. *)
Lemma clock_label_minute_witness :
  let u := UiSt lvobj_zero [] (f32_of_Z 23, f32_of_Z 45) (f32_of_Z 101) demo_cfg
             (RtcSt (RtcRegs 59 14 8 28 5 25 4) BKUP_REG_DATA (WkAlarm false 0 0 0 0 0 0) None false true true true) in
  exists s' u', update_time_cb demo_ui = Ok (tt, s') /\ update_time_cb u = Ok (tt, u') /\
    (time_lab (lvobj s') = time_lab (lvobj u') <-> rtc_time (ui_clock demo_ui) / 60 = rtc_time (ui_clock u) / 60).
Proof.
  intros u. assert (clock_runs u) as Hu by (split; [done|]; split; apply (bool_decide_unpack _); vm_compute; exact I).
  assert (sensors_ok (f32_of_Z 23) (f32_of_Z 45) (f32_of_Z 101)) as Hs by (apply (bool_decide_unpack _); vm_compute; exact I).
  pose proof (update_time_spec demo_ui (Tm 8 14 16 28 4 125 3 147 0) demo_clock_runs eq_refl ltac:(done) Hs) as E.
  pose proof (update_time_spec u (Tm 59 14 16 28 4 125 3 147 0) Hu eq_refl ltac:(done) Hs) as E'.
  eexists _, _. split; [exact E|]. split; [exact E'|].
  exact (clock_label_minute demo_ui u _ _ demo_clock_runs Hs Hu Hs E E').
Defined.
