(* ===== verification/Sched.v ===== *)
(** The kernel's scheduler on one processor: [scheduler_up.c], [scheduler_comm.c] and the parts
    of [thread.c] that suspend, resume and end threads.

    A list node of C belongs to one list at a time: here the lists are the 32 of the ready table
    and one for every object that threads wait for, and [rt_list_remove] takes the thread out
    of whichever list it is in.  The timer of a thread ([Timer]) is what it runs for, or nothing:
    that it rings is an event of its own.  What a thread will do when it comes back from a call
    of the scheduler is not here but in [Ipc]. *)

From stdpp Require Import gmap sorting.
From S2P Require Import Prelude.
#[local] Open Scope Z_scope.

(** ** Data *)

Definition RT_TICK_MAX : Z := 4294967295.
Definition RT_THREAD_PRIORITY_MAX : Z := 32.
Definition RT_THREAD_INIT : Z := 0.
Definition RT_THREAD_CLOSE : Z := 1.
Definition RT_THREAD_READY : Z := 2.
Definition RT_THREAD_RUNNING : Z := 3.
Definition RT_THREAD_SUSPEND_MASK : Z := 4.
Definition RT_THREAD_SUSPEND : Z := 4.
Definition RT_THREAD_SUSPEND_INTERRUPTIBLE : Z := 4.
Definition RT_THREAD_SUSPEND_KILLABLE : Z := 6.
Definition RT_THREAD_SUSPEND_UNINTERRUPTIBLE : Z := 7.
Definition RT_THREAD_STAT_MASK : Z := 7.
Definition RT_THREAD_STAT_YIELD : Z := 8.
Definition RT_INTERRUPTIBLE : Z := 0.
Definition RT_KILLABLE : Z := 1.
Definition RT_UNINTERRUPTIBLE : Z := 2.
Definition RT_IPC_FLAG_FIFO : Z := 0.
Definition RT_IPC_FLAG_PRIO : Z := 1.
Definition RT_ETIMEOUT : Z := 116.
Definition RT_EFULL : Z := 28.
Definition RT_EINTR : Z := 4.

Record rt_thread := Thread {
  stat : Z;
  sched_flag_ttmr_set : bool;
  thread_timer : option Z;          (* the time it was started with *)
  init_tick : Z;
  remaining_tick : Z;
  current_priority : Z;
  init_priority : Z;
  number_mask : Z;
  error : Z;
  taken_object_list : list Z;       (* mutexes *)
  pending_object : option Z;        (* a mutex *)
}.

Record rt_semaphore := Semaphore {
  sem_flag : Z;
  value : Z;
  max_value : Z;
}.

Record rt_mutex := Mutex {
  registered : bool;                (* its object is that of a mutex *)
  ceiling_priority : Z;
  priority : Z;
  hold : Z;
  owner : option Z;
}.

Record kernel := Kernel {
  threads : gmap Z rt_thread;
  rt_thread_priority_table : list (list Z);
  rt_thread_ready_priority_group : Z;
  rt_current_thread : Z;
  rt_scheduler_lock_nest : Z;
  suspend_thread : gmap Z (list Z);      (* by semaphore or mutex *)
  sems : gmap Z rt_semaphore;
  mutexes : gmap Z rt_mutex;
}.

Definition set_threads (f : gmap Z rt_thread -> gmap Z rt_thread) : M kernel unit :=
  modify (fun s => Kernel (f (threads s)) (rt_thread_priority_table s) (rt_thread_ready_priority_group s)
    (rt_current_thread s) (rt_scheduler_lock_nest s) (suspend_thread s) (sems s) (mutexes s)).
Definition set_table (f : list (list Z) -> list (list Z)) : M kernel unit :=
  modify (fun s => Kernel (threads s) (f (rt_thread_priority_table s)) (rt_thread_ready_priority_group s)
    (rt_current_thread s) (rt_scheduler_lock_nest s) (suspend_thread s) (sems s) (mutexes s)).
Definition set_group (f : Z -> Z) : M kernel unit :=
  modify (fun s => Kernel (threads s) (rt_thread_priority_table s) (f (rt_thread_ready_priority_group s))
    (rt_current_thread s) (rt_scheduler_lock_nest s) (suspend_thread s) (sems s) (mutexes s)).
Definition set_current (t : Z) : M kernel unit :=
  modify (fun s => Kernel (threads s) (rt_thread_priority_table s) (rt_thread_ready_priority_group s)
    t (rt_scheduler_lock_nest s) (suspend_thread s) (sems s) (mutexes s)).
Definition set_nest (n : Z) : M kernel unit :=
  modify (fun s => Kernel (threads s) (rt_thread_priority_table s) (rt_thread_ready_priority_group s)
    (rt_current_thread s) n (suspend_thread s) (sems s) (mutexes s)).
Definition set_suspend (f : gmap Z (list Z) -> gmap Z (list Z)) : M kernel unit :=
  modify (fun s => Kernel (threads s) (rt_thread_priority_table s) (rt_thread_ready_priority_group s)
    (rt_current_thread s) (rt_scheduler_lock_nest s) (f (suspend_thread s)) (sems s) (mutexes s)).
Definition set_sems (f : gmap Z rt_semaphore -> gmap Z rt_semaphore) : M kernel unit :=
  modify (fun s => Kernel (threads s) (rt_thread_priority_table s) (rt_thread_ready_priority_group s)
    (rt_current_thread s) (rt_scheduler_lock_nest s) (suspend_thread s) (f (sems s)) (mutexes s)).
Definition set_mutexes (f : gmap Z rt_mutex -> gmap Z rt_mutex) : M kernel unit :=
  modify (fun s => Kernel (threads s) (rt_thread_priority_table s) (rt_thread_ready_priority_group s)
    (rt_current_thread s) (rt_scheduler_lock_nest s) (suspend_thread s) (sems s) (f (mutexes s))).

(** A pointer to a thread, a mutex, a semaphore; the type of a semaphore is asserted first. *)
Definition thread (t : Z) : M kernel rt_thread :=
  m ← gets threads; lift (of_option NullDeref (m !! t)).
Definition mutex (m : Z) : M kernel rt_mutex :=
  x ← gets mutexes; lift (of_option NullDeref (x !! m)).
Definition sem (x : Z) : M kernel rt_semaphore :=
  m ← gets sems; lift (of_option AssertFail (m !! x)).
Definition put_mutex (m : Z) (x : rt_mutex) : M kernel unit := set_mutexes (insert m x).
Definition put_sem (x : Z) (v : rt_semaphore) : M kernel unit := set_sems (insert x v).

Definition upd (t : Z) (f : rt_thread -> rt_thread) : M kernel unit :=
  th ← thread t; set_threads (insert t (f th)).

Definition set_stat (v : Z) (t : rt_thread) : rt_thread :=
  Thread v (sched_flag_ttmr_set t) (thread_timer t) (init_tick t) (remaining_tick t)
    (current_priority t) (init_priority t) (number_mask t) (error t) (taken_object_list t) (pending_object t).
Definition set_ttmr (b : bool) (t : rt_thread) : rt_thread :=
  Thread (stat t) b (thread_timer t) (init_tick t) (remaining_tick t)
    (current_priority t) (init_priority t) (number_mask t) (error t) (taken_object_list t) (pending_object t).
Definition set_timer (x : option Z) (t : rt_thread) : rt_thread :=
  Thread (stat t) (sched_flag_ttmr_set t) x (init_tick t) (remaining_tick t)
    (current_priority t) (init_priority t) (number_mask t) (error t) (taken_object_list t) (pending_object t).
Definition set_remaining (n : Z) (t : rt_thread) : rt_thread :=
  Thread (stat t) (sched_flag_ttmr_set t) (thread_timer t) (init_tick t) n
    (current_priority t) (init_priority t) (number_mask t) (error t) (taken_object_list t) (pending_object t).
Definition set_prio (p mask : Z) (t : rt_thread) : rt_thread :=
  Thread (stat t) (sched_flag_ttmr_set t) (thread_timer t) (init_tick t) (remaining_tick t)
    p (init_priority t) mask (error t) (taken_object_list t) (pending_object t).
Definition set_error (e : Z) (t : rt_thread) : rt_thread :=
  Thread (stat t) (sched_flag_ttmr_set t) (thread_timer t) (init_tick t) (remaining_tick t)
    (current_priority t) (init_priority t) (number_mask t) e (taken_object_list t) (pending_object t).
Definition set_taken (l : list Z) (t : rt_thread) : rt_thread :=
  Thread (stat t) (sched_flag_ttmr_set t) (thread_timer t) (init_tick t) (remaining_tick t)
    (current_priority t) (init_priority t) (number_mask t) (error t) l (pending_object t).
Definition set_pending (o : option Z) (t : rt_thread) : rt_thread :=
  Thread (stat t) (sched_flag_ttmr_set t) (thread_timer t) (init_tick t) (remaining_tick t)
    (current_priority t) (init_priority t) (number_mask t) (error t) (taken_object_list t) o.

(** ** Lists of threads *)

Definition without (t : Z) (l : list Z) : list Z := filter (fun x => x ≠ t) l.

(** [rt_list_remove] of a thread's node. *)
Definition list_remove (t : Z) : M kernel unit :=
  set_table (map (without t)) ;;; set_suspend (fmap (without t)).

Definition ready_list (p : Z) : M kernel (list Z) := l ← gets rt_thread_priority_table; lift (aget l p).
Definition set_ready_list (p : Z) (l : list Z) : M kernel unit :=
  t ← gets rt_thread_priority_table; t ← lift (aset t p l); set_table (fun _ => t).
Definition wait_list (o : Z) : M kernel (list Z) :=
  m ← gets suspend_thread; lift (of_option NullDeref (m !! o)).

(** ** The ready table *)

(** [stat] with its low three bits replaced. *)
Definition with_state (st v : Z) : Z := Z.lor st (Z.land v (Z.lnot RT_THREAD_STAT_MASK)).
Definition state_of (t : rt_thread) : Z := Z.land (stat t) RT_THREAD_STAT_MASK.
Definition yields (t : rt_thread) : bool := negb (Z.land (stat t) RT_THREAD_STAT_YIELD =? 0).
Definition is_suspended (t : rt_thread) : bool := Z.land (stat t) RT_THREAD_SUSPEND_MASK =? RT_THREAD_SUSPEND_MASK.

Definition rt_sched_insert_thread (t : Z) : M kernel unit :=
  cur ← gets rt_current_thread;
  th ← thread t;
  if t =? cur then upd t (set_stat (with_state RT_THREAD_RUNNING (stat th))) else
  upd t (set_stat (with_state RT_THREAD_READY (stat th))) ;;;
  l ← ready_list (current_priority th);
  set_ready_list (current_priority th) (if yields th then l ++ [t] else t :: l) ;;;
  set_group (fun g => Z.lor g (number_mask th)).

Definition rt_sched_remove_thread (t : Z) : M kernel unit :=
  list_remove t ;;;
  th ← thread t;
  l ← ready_list (current_priority th);
  if bool_decide (l = []) then set_group (fun g => Z.land g (Z.lnot (number_mask th))) else mret tt.

(** The lowest bit that is set, counted from 1. *)
Definition __rt_ffs (v : Z) : Z :=
  match List.find (Z.testbit v) (seqZ 0 32) with Some i => i + 1 | None => 0 end.

(** The head of an empty list is not a thread. *)
Definition _scheduler_get_highest_priority_thread : M kernel (Z * Z) :=
  g ← gets rt_thread_ready_priority_group;
  let p := __rt_ffs g - 1 in
  l ← ready_list p;
  match l with
  | t :: _ => mret (t, p)
  | [] => throw OutOfBounds
  end.

(** The thread that is left: it is ready unless it is suspended, and has no more yielded. *)
Definition give_way (cur : Z) (th : rt_thread) : M kernel unit :=
  (if state_of th =? RT_THREAD_RUNNING then rt_sched_insert_thread cur else mret tt) ;;;
  upd cur (fun th => if yields th then set_stat (Z.land (stat th) (Z.lnot RT_THREAD_STAT_YIELD)) th else th).

Definition rt_schedule : M kernel unit :=
  n ← gets rt_scheduler_lock_nest;
  if negb (n =? 0) then mret tt else
  g ← gets rt_thread_ready_priority_group;
  if g =? 0 then mret tt else
  hp ← _scheduler_get_highest_priority_thread;
  let '(to, p) := hp in
  cur ← gets rt_current_thread;
  th ← thread cur;
  let running := state_of th =? RT_THREAD_RUNNING in
  let stay := running &&
    ((current_priority th <? p) || ((current_priority th =? p) && negb (yields th))) in
  if negb ((if stay then cur else to) =? cur) then
    set_current to ;;;
    give_way cur th ;;;
    rt_sched_remove_thread to ;;;
    upd to (fun th => set_stat (with_state RT_THREAD_RUNNING (stat th)) th)
  else
    rt_sched_remove_thread cur ;;;
    upd cur (fun th => set_stat (with_state RT_THREAD_RUNNING (stat th)) th).

Definition rt_enter_critical : M kernel Z :=
  n ← gets rt_scheduler_lock_nest;
  set_nest (i16 (n + 1)) ;;;
  gets rt_scheduler_lock_nest.
Definition rt_exit_critical : M kernel unit :=
  n ← gets rt_scheduler_lock_nest;
  let n := i16 (n - 1) in
  if n <=? 0 then
    set_nest 0 ;;;
    cur ← gets rt_current_thread;
    if negb (cur =? 0) then rt_schedule else mret tt
  else set_nest n.
Definition rt_critical_level : M kernel Z := gets rt_scheduler_lock_nest.

(** At another level than the caller's it stays in [while (dummy)]. *)
Definition rt_exit_critical_safe (critical_level : Z) : M kernel unit :=
  n ← gets rt_scheduler_lock_nest;
  if negb (critical_level =? n) then throw Spin else rt_exit_critical.

Definition rt_system_scheduler_init (s : kernel) : kernel :=
  Kernel (threads s) (replicate (Z.to_nat RT_THREAD_PRIORITY_MAX) []) 0 (rt_current_thread s) 0
    (suspend_thread s) (sems s) (mutexes s).

Definition rt_system_scheduler_start : M kernel unit :=
  hp ← _scheduler_get_highest_priority_thread;
  set_current hp.1 ;;;
  rt_sched_remove_thread hp.1 ;;;
  upd hp.1 (set_stat RT_THREAD_RUNNING).

(** ** Threads *)

Definition rt_thread_self : M kernel Z := gets rt_current_thread.

Definition rt_sched_unlock_n_resched : M kernel unit :=
  self ← rt_thread_self; if negb (self =? 0) then rt_schedule else mret tt.

(** [rt_timer_start] and [rt_timer_stop] of the timer of a thread. *)
Definition thread_timer_start (t timeout : Z) : M kernel unit :=
  if negb (timeout <? RT_TICK_MAX / 2) then throw AssertFail else
  upd t (fun th => set_ttmr true (set_timer (Some timeout) th)).
Definition thread_timer_stop (t : Z) : M kernel Z :=
  th ← thread t;
  match thread_timer th with
  | Some _ => upd t (set_timer None) ;;; mret RT_EOK
  | None => mret (- RT_ERROR)
  end.

Definition rt_sched_thread_timer_stop (t : Z) : M kernel Z :=
  th ← thread t;
  if sched_flag_ttmr_set th then
    error ← thread_timer_stop t;
    upd t (set_ttmr false) ;;;
    mret error
  else mret RT_EOK.

Definition rt_sched_thread_ready (t : Z) : M kernel Z :=
  th ← thread t;
  if negb (is_suspended th) then mret (- RT_EINVAL) else
  error ← (if sched_flag_ttmr_set th then rt_sched_thread_timer_stop t else mret RT_EOK);
  if error =? RT_EOK then
    list_remove t ;;;
    rt_sched_insert_thread t ;;;
    mret error
  else mret error.

Definition rt_sched_thread_close (t : Z) : M kernel unit := upd t (set_stat RT_THREAD_CLOSE).

Definition rt_sched_thread_yield (t : Z) : M kernel unit :=
  upd t (fun th => set_stat (Z.lor (stat th) RT_THREAD_STAT_YIELD) (set_remaining (init_tick th) th)).

Definition rt_sched_tick_increase : M kernel unit :=
  t ← rt_thread_self;
  upd t (fun th => set_remaining (u32 (remaining_tick th - 1)) th) ;;;
  th ← thread t;
  if negb (remaining_tick th =? 0) then mret tt
  else rt_sched_thread_yield t ;;; rt_sched_unlock_n_resched.

Definition rt_sched_thread_change_priority (t p : Z) : M kernel Z :=
  if negb (p <? RT_THREAD_PRIORITY_MAX) then throw AssertFail else
  th ← thread t;
  (if state_of th =? RT_THREAD_READY then
     rt_sched_remove_thread t ;;;
     upd t (set_prio p (u32 (Z.shiftl 1 p))) ;;;
     upd t (set_stat RT_THREAD_INIT) ;;;
     rt_sched_insert_thread t
   else upd t (set_prio p (u32 (Z.shiftl 1 p)))) ;;;
  mret RT_EOK.

(** A thread in memory that was zero, behind [_thread_init] and [rt_sched_thread_init_ctx]. *)
Definition rt_thread_init (t priority tick : Z) : M kernel unit :=
  if tick =? 0 then throw AssertFail else
  if negb (priority <? RT_THREAD_PRIORITY_MAX) then throw AssertFail else
  set_threads (insert t (Thread RT_THREAD_INIT false None tick tick priority priority 0 RT_EOK [] None)).

Definition rt_sched_thread_startup (t : Z) : M kernel unit :=
  th ← thread t;
  upd t (set_prio (current_priority th) (u32 (Z.shiftl 1 (current_priority th)))) ;;;
  upd t (set_stat RT_THREAD_SUSPEND).

Definition rt_thread_resume (t : Z) : M kernel Z :=
  error ← rt_sched_thread_ready t;
  (if error =? RT_EOK then rt_sched_unlock_n_resched else mret tt) ;;;
  mret error.

Definition rt_thread_startup (t : Z) : M kernel Z :=
  th ← thread t;
  if negb (state_of th =? RT_THREAD_INIT) then throw AssertFail else
  rt_sched_thread_startup t ;;;
  rt_thread_resume t ;;;
  mret RT_EOK.

(** [_thread_timeout], in the tick interrupt: the timer has run out. *)
Definition _thread_timeout (t : Z) : M kernel unit :=
  upd t (set_timer None) ;;;
  th ← thread t;
  if negb (is_suspended th) then throw AssertFail else
  upd t (set_error (- RT_ETIMEOUT)) ;;;
  list_remove t ;;;
  rt_sched_insert_thread t ;;;
  rt_sched_unlock_n_resched.

Definition rt_thread_yield : M kernel Z :=
  t ← rt_thread_self;
  rt_sched_thread_yield t ;;;
  rt_sched_unlock_n_resched ;;;
  mret RT_EOK.

(** ** Lists of waiting threads: [rt_susp_list_enqueue], [rt_susp_list_dequeue] *)

(** The place in a list ordered by priority: before the first that is less urgent. *)
Fixpoint enqueue_prio (prio : Z -> option Z) (t p : Z) (l : list Z) : res (list Z) :=
  match l with
  | [] => Ok [t]
  | x :: l' =>
      q ← of_option NullDeref (prio x);
      if p <? q then Ok (t :: l) else cons x <$> enqueue_prio prio t p l'
  end.

Definition prio_of (m : gmap Z rt_thread) (t : Z) : option Z := current_priority <$> m !! t.

Definition rt_susp_list_enqueue (o t ipc_flags : Z) : M kernel Z :=
  l ← wait_list o;
  if ipc_flags =? RT_IPC_FLAG_FIFO then
    set_suspend (insert o (l ++ [t])) ;;; mret RT_EOK
  else if ipc_flags =? RT_IPC_FLAG_PRIO then
    th ← thread t;
    m ← gets threads;
    l ← lift (enqueue_prio (prio_of m) t (current_priority th) l);
    set_suspend (insert o l) ;;; mret RT_EOK
  else throw AssertFail.

Definition rt_susp_list_dequeue (o thread_error : Z) : M kernel (option Z) :=
  l ← wait_list o;
  match l with
  | [] => mret None
  | t :: _ =>
      error ← rt_sched_thread_ready t;
      if negb (error =? RT_EOK) then mret None else
      (if 0 <=? thread_error then upd t (set_error thread_error) else mret tt) ;;;
      mret (Some t)
  end.

(** Every turn takes a thread off the list or is the last. *)
Fixpoint resume_loop (fuel : nat) (o thread_error : Z) : M kernel unit :=
  match fuel with
  | O => throw Spin
  | S fuel =>
      t ← rt_susp_list_dequeue o thread_error;
      match t with
      | Some _ => resume_loop fuel o thread_error
      | None => mret tt
      end
  end.
Definition rt_susp_list_resume_all (o thread_error : Z) : M kernel Z :=
  l ← wait_list o;
  resume_loop (S (length l)) o thread_error ;;;
  mret RT_EOK.

(** ** Suspending *)

Definition _thread_set_suspend_state (t suspend_flag : Z) : M kernel unit :=
  st ← (if suspend_flag =? RT_INTERRUPTIBLE then mret RT_THREAD_SUSPEND_INTERRUPTIBLE
        else if suspend_flag =? RT_KILLABLE then mret RT_THREAD_SUSPEND_KILLABLE
        else if suspend_flag =? RT_UNINTERRUPTIBLE then mret RT_THREAD_SUSPEND_UNINTERRUPTIBLE
        else throw AssertFail);
  upd t (fun th => set_stat (with_state st (stat th)) th).

Definition rt_thread_suspend_to_list (t : Z) (susp_list : option Z) (ipc_flags suspend_flag : Z) : M kernel Z :=
  self ← rt_thread_self;
  if negb (t =? self) then throw AssertFail else
  th ← thread t;
  let st := state_of th in
  if negb (st =? RT_THREAD_READY) && negb (st =? RT_THREAD_RUNNING) then mret (- RT_ERROR) else
  rt_sched_remove_thread t ;;;
  _thread_set_suspend_state t suspend_flag ;;;
  (match susp_list with
   | Some o => rt_susp_list_enqueue o t ipc_flags ;;; mret tt
   | None => mret tt
   end) ;;;
  rt_sched_thread_timer_stop t ;;;
  mret RT_EOK.

Definition rt_thread_suspend_with_flag (t suspend_flag : Z) : M kernel Z :=
  rt_thread_suspend_to_list t None 0 suspend_flag.

(** ** The state byte *)

Lemma state_mod th : state_of th = stat th mod 8.
Proof. unfold state_of. change RT_THREAD_STAT_MASK with (Z.ones 3). by rewrite Z.land_ones. Qed.

Lemma with_state_mod v st : 0 <= v < 8 -> with_state v st mod 8 = v.
Proof.
  intros Hv. unfold with_state, RT_THREAD_STAT_MASK. change 8 with (2 ^ 3). rewrite <- Z.land_ones by lia.
  change 7 with (Z.ones 3). rewrite Z.land_lor_distr_l, <- Z.land_assoc, (Z.land_comm (Z.lnot _)), Z.land_lnot_diag.
  rewrite Z.land_0_r, Z.lor_0_r, Z.land_ones by lia. by apply Z.mod_small.
Qed.

Lemma state_with v th : 0 <= v < 8 -> state_of (set_stat (with_state v (stat th)) th) = v.
Proof. intros Hv. rewrite state_mod. by apply with_state_mod. Qed.

Lemma land_bit st k : 0 <= k -> negb (Z.land st (2 ^ k) =? 0) = Z.testbit st k.
Proof.
  intros Hk. destruct (Z.testbit st k) eqn:E.
  - apply negb_true_iff, Z.eqb_neq. intros H. apply (f_equal (fun x => Z.testbit x k)) in H.
    by rewrite Z.land_spec, Z.pow2_bits_true, E, Z.bits_0 in H.
  - apply negb_false_iff, Z.eqb_eq, Z.bits_inj'. intros i Hi. rewrite Z.land_spec, Z.bits_0.
    destruct (decide (i = k)) as [->|]; [by rewrite E|]. by rewrite Z.pow2_bits_false, andb_false_r by lia.
Qed.

Lemma yields_bit th : yields th = Z.testbit (stat th) 3.
Proof. apply (land_bit _ 3). lia. Qed.

Lemma testbit_mod8 z k : 0 <= k < 3 -> Z.testbit z k = Z.testbit (z mod 8) k.
Proof. intros Hk. change 8 with (2 ^ 3). by rewrite Z.mod_pow2_bits_low by lia. Qed.

Lemma suspended_bit th : is_suspended th = Z.testbit (stat th) 2.
Proof.
  unfold is_suspended, RT_THREAD_SUSPEND_MASK. rewrite <- (land_bit _ 2) by lia. change (2 ^ 2) with 4.
  assert (Z.land (stat th) 4 = 0 \/ Z.land (stat th) 4 = 4) as [->| ->]; [|done..].
  destruct (Z.testbit (stat th) 2) eqn:E; [right|left]; apply Z.bits_inj'; intros i Hi;
    rewrite Z.land_spec; change 4 with (2 ^ 2); rewrite ?Z.bits_0; destruct (decide (i = 2)) as [->|];
    rewrite ?Z.pow2_bits_true, ?E, ?(Z.pow2_bits_false 2 i), ?andb_false_r by lia; done.
Qed.

Lemma suspended_state th : is_suspended th = (4 <=? state_of th).
Proof.
  rewrite suspended_bit, state_mod, testbit_mod8 by lia.
  pose proof (Z.mod_pos_bound (stat th) 8 ltac:(lia)) as H. revert H. generalize (stat th mod 8). intros z Hz.
  assert (z = 0 \/ z = 1 \/ z = 2 \/ z = 3 \/ z = 4 \/ z = 5 \/ z = 6 \/ z = 7) as Hc by lia.
  by repeat destruct Hc as [->|Hc]; [..|subst z].
Qed.

Lemma with_state_yields v th :
  0 <= v < 8 -> yields (set_stat (with_state v (stat th)) th) = yields th.
Proof.
  intros Hv. rewrite !yields_bit. cbn [stat set_stat]. unfold with_state.
  rewrite Z.lor_spec, Z.land_spec, Z.lnot_spec by lia. change (Z.testbit RT_THREAD_STAT_MASK 3) with false.
  rewrite andb_true_r. assert (Z.testbit v 3 = false) as ->; [|done].
  rewrite <- (Z.mod_small v (2 ^ 3)) by lia. by apply Z.mod_pow2_bits_high.
Qed.

Lemma clear_yield_state th : state_of (set_stat (Z.land (stat th) (Z.lnot RT_THREAD_STAT_YIELD)) th) = state_of th.
Proof.
  unfold state_of. cbn [stat set_stat]. apply Z.bits_inj'. intros i Hi. rewrite !Z.land_spec, Z.lnot_spec by lia.
  destruct (decide (i < 3)).
  - assert (i = 0 \/ i = 1 \/ i = 2) as [->|[->| ->]] by lia; by rewrite andb_true_r.
  - change RT_THREAD_STAT_MASK with (Z.ones 3). by rewrite (Z.ones_spec_high 3 i), !andb_false_r by lia.
Qed.

Lemma clear_yield_yields th : yields (set_stat (Z.land (stat th) (Z.lnot RT_THREAD_STAT_YIELD)) th) = false.
Proof.
  rewrite yields_bit. cbn [stat set_stat]. rewrite Z.land_spec, Z.lnot_spec by lia.
  change (Z.testbit RT_THREAD_STAT_YIELD 3) with true. by rewrite andb_false_r.
Qed.

Lemma set_yield_state th : state_of (set_stat (Z.lor (stat th) RT_THREAD_STAT_YIELD) th) = state_of th.
Proof.
  unfold state_of. cbn [stat set_stat]. rewrite Z.land_lor_distr_l. change (Z.land RT_THREAD_STAT_YIELD RT_THREAD_STAT_MASK) with 0.
  by rewrite Z.lor_0_r.
Qed.

(** ** Well-formed kernels *)

Record thok (th : rt_thread) : Prop := ThOk {
  th_prio : 0 <= current_priority th < 32;
  th_init : 0 <= init_priority th < 32;
  th_mask : state_of th <> RT_THREAD_INIT -> number_mask th = 2 ^ current_priority th;
  th_timer : match thread_timer th with
             | Some _ => is_suspended th = true /\ sched_flag_ttmr_set th = true
             | None => is_suspended th = true -> sched_flag_ttmr_set th = false
             end;
}.

(** The ready table holds exactly the ready threads, each once, at their priority; the bits of
    the group say which lists are not empty; waiting threads are suspended and in one list.
    The thread [h] is in between. *)
Record kwf (h : option Z) (s : kernel) : Prop := KWf {
  k_len : length (rt_thread_priority_table s) = 32%nat;
  k_table p l t : rt_thread_priority_table s !! p = Some l -> t ∈ l ->
    Some t <> h /\ exists th, threads s !! t = Some th /\ state_of th = RT_THREAD_READY /\
      current_priority th = Z.of_nat p;
  k_nodup p l : rt_thread_priority_table s !! p = Some l -> NoDup l;
  k_group p l : rt_thread_priority_table s !! p = Some l ->
    Z.testbit (rt_thread_ready_priority_group s) (Z.of_nat p) = negb (bool_decide (l = []));
  k_range : 0 <= rt_thread_ready_priority_group s < 2 ^ 32;
  k_thread t th : threads s !! t = Some th -> Some t <> h ->
    thok th /\
    (state_of th = RT_THREAD_READY -> exists l,
       rt_thread_priority_table s !! Z.to_nat (current_priority th) = Some l /\ t ∈ l) /\
    (state_of th = RT_THREAD_RUNNING -> t = rt_current_thread s);
  k_wait o l t : suspend_thread s !! o = Some l -> t ∈ l ->
    exists th, threads s !! t = Some th /\ is_suspended th = true;
  k_wait_nodup o l : suspend_thread s !! o = Some l -> NoDup l;
  k_wait_one o o' l l' t : suspend_thread s !! o = Some l -> suspend_thread s !! o' = Some l' ->
    t ∈ l -> t ∈ l' -> o = o';
}.

(** A kernel with other threads, another ready table and other waiting lists. *)
Definition reshape (s : kernel) (m : gmap Z rt_thread) (tb : list (list Z)) (g : Z) (w : gmap Z (list Z)) : kernel :=
  Kernel m tb g (rt_current_thread s) (rt_scheduler_lock_nest s) w (sems s) (mutexes s).

Lemma reshape_same s :
  reshape s (threads s) (rt_thread_priority_table s) (rt_thread_ready_priority_group s) (suspend_thread s) = s.
Proof. by destruct s. Qed.

(** A thread that waits for nothing. *)
Definition unlisted (s : kernel) (t : Z) : Prop :=
  (forall p l, rt_thread_priority_table s !! p = Some l -> t ∉ l) /\
  (forall o l, suspend_thread s !! o = Some l -> t ∉ l).

Lemma wp_thread t th (Q : rt_thread -> kernel -> Prop) s :
  threads s !! t = Some th -> Q th s -> wp (thread t) Q s.
Proof. intros E H. apply wp_bind, wp_gets. unfold wp, lift. by rewrite E. Qed.

Lemma wp_upd t f th (Q : unit -> kernel -> Prop) s :
  threads s !! t = Some th ->
  Q tt (reshape s (<[t := f th]> (threads s)) (rt_thread_priority_table s)
          (rt_thread_ready_priority_group s) (suspend_thread s)) ->
  wp (upd t f) Q s.
Proof. intros E H. apply wp_bind. by eapply wp_thread. Qed.

Lemma without_elem t x l : x ∈ without t l <-> x ∈ l /\ x <> t.
Proof. unfold without. rewrite list_elem_of_filter. naive_solver. Qed.
Lemma without_nodup t l : NoDup l -> NoDup (without t l).
Proof. apply NoDup_filter. Qed.
Lemma without_id t l : t ∉ l -> without t l = l.
Proof.
  intros H. unfold without. induction l as [|x l IH]; [done|].
  rewrite filter_cons_True by (intros ->; apply H; left). f_equal. apply IH. intros ?. apply H. by right.
Qed.

Lemma wp_list_remove t (Q : unit -> kernel -> Prop) s :
  Q tt (reshape s (threads s) (map (without t) (rt_thread_priority_table s))
          (rt_thread_ready_priority_group s) (without t <$> suspend_thread s)) ->
  wp (list_remove t) Q s.
Proof. intros H. apply wp_bind. by apply wp_modify, wp_modify. Qed.

(** The thread [t] leaves the waiting lists. *)
Lemma kwf_unwait h s t :
  kwf h s -> kwf h (reshape s (threads s) (rt_thread_priority_table s)
                      (rt_thread_ready_priority_group s) (without t <$> suspend_thread s)).
Proof.
  intros [? Htab ? ? ? ? Hw Hn H1]. constructor; simpl; try done.
  - intros o l x [l0 [<- E]]%lookup_fmap_Some [Hx _]%without_elem. by eapply Hw.
  - intros o l [l0 [<- E]]%lookup_fmap_Some. by eapply without_nodup, Hn.
  - intros o o' l l' x [l0 [<- E]]%lookup_fmap_Some [l1 [<- E']]%lookup_fmap_Some
      [Hx _]%without_elem [Hx' _]%without_elem. by eapply H1.
Qed.

(** A change that the scheduler does not look at. *)
Lemma kwf_upd h s t th th' :
  kwf h s -> threads s !! t = Some th ->
  stat th' = stat th -> sched_flag_ttmr_set th' = sched_flag_ttmr_set th -> thread_timer th' = thread_timer th ->
  current_priority th' = current_priority th -> init_priority th' = init_priority th ->
  number_mask th' = number_mask th ->
  kwf h (reshape s (<[t := th']> (threads s)) (rt_thread_priority_table s)
           (rt_thread_ready_priority_group s) (suspend_thread s)).
Proof.
  intros [? Htab ? ? ? Hth Hw ? ?] E Hst Hf Ht Hp Hi Hm.
  assert (state_of th' = state_of th) as Hs by (unfold state_of; by rewrite Hst).
  assert (is_suspended th' = is_suspended th) as Hsu by (unfold is_suspended; by rewrite Hst).
  constructor; simpl; try done.
  - intros p l x Hl Hx. destruct (Htab p l x Hl Hx) as (Hh & th0 & E0 & Hr & Hc). split; [done|].
    destruct (decide (x = t)) as [->|].
    + rewrite lookup_insert_eq. eexists. split; [done|]. rewrite E in E0. injection E0 as <-. by rewrite Hs, Hp.
    + rewrite lookup_insert_ne by done. by exists th0.
  - intros x thx. destruct (decide (x = t)) as [->|].
    + rewrite lookup_insert_eq. intros [= <-] Hh. destruct (Hth t th E Hh) as ([? ? ? ?] & Hr & Hc).
      split; [|by rewrite Hs, Hp]. constructor; rewrite ?Hp, ?Hi, ?Hm, ?Ht, ?Hs, ?Hsu, ?Hf; done.
    + rewrite lookup_insert_ne by done. apply Hth.
  - intros o l x Hl Hx. destruct (Hw o l x Hl Hx) as (th0 & E0 & Hs0).
    destruct (decide (x = t)) as [->|].
    + rewrite lookup_insert_eq. eexists. split; [done|]. rewrite E in E0. injection E0 as <-. by rewrite Hsu.
    + rewrite lookup_insert_ne by done. by exists th0.
Qed.

(** The thread in between may change in any way while it waits for nothing. *)
Lemma kwf_upd_hole s t th' :
  kwf (Some t) s -> (forall o l, suspend_thread s !! o = Some l -> t ∈ l -> is_suspended th' = true) ->
  kwf (Some t) (reshape s (<[t := th']> (threads s)) (rt_thread_priority_table s)
           (rt_thread_ready_priority_group s) (suspend_thread s)).
Proof.
  intros [? Htab ? ? ? Hth Hw ? ?] Hsu. constructor; simpl; try done.
  - intros p l x Hl Hx. destruct (Htab p l x Hl Hx) as (Hh & th0 & E0 & Hr & Hc). split; [done|].
    rewrite lookup_insert_ne by congruence. by exists th0.
  - intros x thx Ex Hh. rewrite lookup_insert_ne in Ex by congruence. by apply Hth.
  - intros o l x Hl Hx. destruct (decide (x = t)) as [->|].
    + rewrite lookup_insert_eq. eexists. split; [done|]. by eapply Hsu.
    + rewrite lookup_insert_ne by done. by eapply Hw.
Qed.

Lemma kwf_open s t th :
  kwf None s -> threads s !! t = Some th -> state_of th <> RT_THREAD_READY -> kwf (Some t) s.
Proof.
  intros [? Htab ? ? ? Hth Hw ? ?] E Hr. constructor; try done.
  - intros p l x Hl Hx. destruct (Htab p l x Hl Hx) as (_ & th0 & E0 & Hr0 & Hc). split; [|by exists th0].
    intros [= ->]. congruence.
  - intros x thx Ex Hh. by apply Hth.
Qed.

Lemma kwf_close s t th :
  kwf (Some t) s -> threads s !! t = Some th -> thok th -> state_of th <> RT_THREAD_READY ->
  (state_of th = RT_THREAD_RUNNING -> t = rt_current_thread s) -> kwf None s.
Proof.
  intros [? Htab ? ? ? Hth Hw ? ?] E Hok Hr Hc. constructor; try done.
  - intros p l x Hl Hx. destruct (Htab p l x Hl Hx) as (_ & Hx'). by split.
  - intros x thx Ex _. destruct (decide (x = t)) as [->|]; [|apply Hth; congruence].
    rewrite E in Ex. injection Ex as <-. by split_and!.
Qed.

(** *** Bits *)

Lemma bits_range x : 0 <= x -> (forall i, 32 <= i -> Z.testbit x i = false) -> x < 2 ^ 32.
Proof.
  intros Hx H. rewrite <- (Z.mod_small x (2 ^ 32)); [by apply Z.mod_pos_bound|]. split; [done|].
  destruct (Z.lt_ge_cases x (2 ^ 32)) as [|Hge]; [done|]. exfalso.
  assert (x mod 2 ^ 32 = x) as E.
  { apply Z.bits_inj'. intros i Hi. destruct (Z.lt_ge_cases i 32).
    - by rewrite Z.mod_pow2_bits_low by lia.
    - rewrite Z.mod_pow2_bits_high by lia. by rewrite H. }
  pose proof (Z.mod_pos_bound x (2 ^ 32) ltac:(lia)). lia.
Qed.

Lemma range_bits x i : 0 <= x < 2 ^ 32 -> 32 <= i -> Z.testbit x i = false.
Proof. intros Hx Hi. rewrite <- (Z.mod_small x (2 ^ 32)) by done. by apply Z.mod_pow2_bits_high. Qed.

Lemma set_bit g c i : 0 <= c -> 0 <= i -> Z.testbit (Z.lor g (2 ^ c)) i = Z.testbit g i || (i =? c).
Proof. intros Hc Hi. by rewrite Z.lor_spec, Z.pow2_bits_eqb, Z.eqb_sym by done. Qed.

Lemma clear_bit g c i : 0 <= c -> 0 <= i -> Z.testbit (Z.land g (Z.lnot (2 ^ c))) i = Z.testbit g i && negb (i =? c).
Proof. intros Hc Hi. by rewrite Z.land_spec, Z.lnot_spec, Z.pow2_bits_eqb, Z.eqb_sym by done. Qed.

Lemma set_bit_range g c : 0 <= g < 2 ^ 32 -> 0 <= c < 32 -> 0 <= Z.lor g (2 ^ c) < 2 ^ 32.
Proof.
  intros Hg Hc. assert (0 <= Z.lor g (2 ^ c)) by (apply Z.lor_nonneg; split; [lia|apply Z.pow_nonneg; lia]).
  split; [done|]. apply bits_range; [done|]. intros i Hi. rewrite set_bit, range_bits by lia. simpl.
  apply Z.eqb_neq. lia.
Qed.

Lemma clear_bit_range g c : 0 <= g < 2 ^ 32 -> 0 <= c < 32 -> 0 <= Z.land g (Z.lnot (2 ^ c)) < 2 ^ 32.
Proof.
  intros Hg Hc. assert (0 <= Z.land g (Z.lnot (2 ^ c))) by (apply Z.land_nonneg; lia).
  split; [done|]. apply bits_range; [done|]. intros i Hi. rewrite clear_bit, range_bits by lia. done.
Qed.

Lemma ffs_lowest g :
  0 <= g < 2 ^ 32 -> g <> 0 ->
  0 <= __rt_ffs g - 1 < 32 /\ Z.testbit g (__rt_ffs g - 1) = true /\
  forall i, 0 <= i < __rt_ffs g - 1 -> Z.testbit g i = false.
Proof.
  intros Hg Hz. unfold __rt_ffs. destruct (List.find (Z.testbit g) (seqZ 0 32)) as [x|] eqn:E.
  - replace (x + 1 - 1) with x by lia. pose proof (find_some _ _ E) as [Hin%list_elem_of_In Hb].
    apply elem_of_seqZ in Hin. split_and!; [lia|lia|done|]. intros i Hi.
    assert (forall n a, List.find (Z.testbit g) (seqZ a (Z.of_nat n)) = Some x -> a <= i -> Z.testbit g i = false) as H.
    { clear E Hin. intros n. induction n as [|n IH]; intros a E Hai; [done|].
      rewrite seqZ_cons in E by lia. simpl in E. destruct (Z.testbit g a) eqn:Ea; [injection E as ->; lia|].
      destruct (decide (a = i)) as [->|]; [done|].
      replace (Z.pred (Z.of_nat (S n))) with (Z.of_nat n) in E by lia. apply (IH (Z.succ a)); [done|lia]. }
    by apply (H 32%nat 0); [exact E|lia].
  - exfalso. apply Hz. apply Z.bits_inj'. intros i Hi. rewrite Z.bits_0.
    destruct (Z.lt_ge_cases i 32); [|by apply range_bits].
    apply (find_none _ _ E). apply list_elem_of_In, elem_of_seqZ. lia.
Qed.

(** *** The ready table *)

Lemma wp_ready_list p l (Q : list Z -> kernel -> Prop) s :
  0 <= p -> rt_thread_priority_table s !! Z.to_nat p = Some l -> Q l s -> wp (ready_list p) Q s.
Proof.
  intros Hp E HQ. apply wp_bind, wp_gets. unfold wp, lift. by rewrite (proj2 (aget_Ok _ _ _) (conj Hp E)).
Qed.

Lemma wp_set_ready_list p l (Q : unit -> kernel -> Prop) s :
  0 <= p < Zlen (rt_thread_priority_table s) ->
  Q tt (reshape s (threads s) (<[Z.to_nat p := l]> (rt_thread_priority_table s))
          (rt_thread_ready_priority_group s) (suspend_thread s)) ->
  wp (set_ready_list p l) Q s.
Proof.
  intros Hp HQ. apply wp_bind, wp_gets, wp_bind. unfold wp at 1, lift. rewrite aset_in by done.
  by apply wp_modify.
Qed.

Lemma kwf_list h s p : kwf h s -> 0 <= p < 32 -> exists l, rt_thread_priority_table s !! Z.to_nat p = Some l.
Proof. intros H Hp. apply lookup_lt_is_Some. rewrite (k_len _ _ H). lia. Qed.

Lemma bool_nil (l : list Z) : bool_decide (l = []) = true <-> l = [].
Proof. apply bool_decide_eq_true. Qed.

(** A thread leaves the ready table. *)
Lemma wp_remove_thread t th (Q : unit -> kernel -> Prop) s :
  kwf None s -> threads s !! t = Some th -> state_of th <> RT_THREAD_INIT ->
  (forall tb g, let s' := reshape s (threads s) tb g (without t <$> suspend_thread s) in
     kwf (Some t) s' -> unlisted s' t -> Q tt s') ->
  wp (rt_sched_remove_thread t) Q s.
Proof.
  intros H E Hst HQ. pose proof (k_thread _ _ H t th E ltac:(done)) as (Hok & Hrd & Hrun).
  pose proof (th_prio _ Hok) as Hp. pose proof (th_mask _ Hok Hst) as Hm.
  destruct (kwf_list _ _ _ H Hp) as [l El].
  apply wp_bind, wp_list_remove, wp_bind. eapply wp_thread; [exact E|].
  apply wp_bind. eapply wp_ready_list; [lia|simpl; by rewrite list_lookup_fmap, El|].
  set (c := current_priority th) in *.
  assert (forall g, 0 <= g < 2 ^ 32 ->
    (forall p l, rt_thread_priority_table s !! p = Some l ->
       Z.testbit g (Z.of_nat p) = negb (bool_decide (without t l = []))) ->
    let s' := reshape s (threads s) (map (without t) (rt_thread_priority_table s)) g (without t <$> suspend_thread s) in
    kwf (Some t) s' /\ unlisted s' t) as Hwf.
  { intros g Hg Hbit. split; [|split].
    - pose proof (kwf_unwait _ _ t H) as Hu. destruct H as [? Htab ? ? ? Hth ? ? ?].
      destruct Hu as [_ _ _ _ _ _ Hw Hwn Hw1]. simpl in *. constructor; simpl; try done.
      + by rewrite length_map.
      + intros p l' x. rewrite list_lookup_fmap. intros (l0 & E0 & ->)%fmap_Some [Hx Hne]%without_elem.
        destruct (Htab p l0 x E0 Hx) as [_ Hx']. split; [congruence|done].
      + intros p l'. rewrite list_lookup_fmap. intros (l0 & E0 & ->)%fmap_Some. by eapply without_nodup, k_nodup0.
      + intros p l'. rewrite list_lookup_fmap. intros (l0 & E0 & ->)%fmap_Some. by apply Hbit.
      + intros x thx Ex Hx. destruct (Hth x thx Ex ltac:(done)) as (Ho & Hr & Hc). split_and!; [done| |done].
        intros Hs. destruct (Hr Hs) as (l0 & E0 & Hx0). exists (without t l0).
        rewrite list_lookup_fmap, E0. split; [done|]. apply without_elem. split; [done|congruence].
    - intros p l'. simpl. rewrite list_lookup_fmap. intros (l0 & E0 & ->)%fmap_Some [_ ?]%without_elem. done.
    - intros o l'. simpl. intros [l0 [<- E0]]%lookup_fmap_Some [_ ?]%without_elem. done. }
  assert (forall p l0, rt_thread_priority_table s !! p = Some l0 -> Z.of_nat p <> c -> without t l0 = l0) as Hoth.
  { intros p l0 E0 Hne. apply without_id. intros Hin. destruct (k_table _ _ H p l0 t E0 Hin) as (_ & th0 & Et & _ & Hc).
    rewrite E in Et. injection Et as <-. subst c. congruence. }
  assert (forall p l0, rt_thread_priority_table s !! p = Some l0 -> Z.of_nat p = c -> l0 = l) as Hsame.
  { intros p l0 E0 <-. rewrite Nat2Z.id in El. congruence. }
  case_bool_decide as Hnil.
  - rewrite Hm. apply wp_modify. destruct (Hwf (Z.land (rt_thread_ready_priority_group s) (Z.lnot (2 ^ c)))) as [H1 H2].
    + by apply clear_bit_range; [apply (k_range _ _ H)|].
    + intros p l0 E0. rewrite clear_bit by lia. destruct (Z.eqb_spec (Z.of_nat p) c) as [Hpc|Hpc].
      * rewrite (Hsame p l0 E0 Hpc), Hnil. by rewrite andb_false_r.
      * rewrite (Hoth p l0 E0 Hpc), (k_group _ _ H p l0 E0). by rewrite andb_true_r.
    + by apply (HQ _ _ H1 H2).
  - apply wp_ret. destruct (Hwf (rt_thread_ready_priority_group s)) as [H1 H2].
    + apply (k_range _ _ H).
    + intros p l0 E0. rewrite (k_group _ _ H p l0 E0). destruct (decide (Z.of_nat p = c)) as [Hpc|Hpc].
      * rewrite (Hsame p l0 E0 Hpc). do 2 case_bool_decide; try done. by subst l.
      * by rewrite (Hoth p l0 E0 Hpc).
    + by apply (HQ _ _ H1 H2).
Qed.

(** A thread that waits for nothing becomes ready, or runs on if it is the current one. *)
Lemma wp_insert_thread t th (Q : unit -> kernel -> Prop) s :
  kwf (Some t) s -> unlisted s t -> threads s !! t = Some th ->
  0 <= current_priority th < 32 -> 0 <= init_priority th < 32 ->
  number_mask th = 2 ^ current_priority th -> thread_timer th = None ->
  (forall tb g, let v := if t =? rt_current_thread s then RT_THREAD_RUNNING else RT_THREAD_READY in
     let s' := reshape s (<[t := set_stat (with_state v (stat th)) th]> (threads s)) tb g (suspend_thread s) in
     kwf None s' -> Q tt s') ->
  wp (rt_sched_insert_thread t) Q s.
Proof.
  intros H [Hu1 Hu2] E Hp Hi Hm Ht HQ. apply wp_bind, wp_gets, wp_bind. eapply wp_thread; [exact E|].
  assert (forall v, 0 <= v < 4 -> thok (set_stat (with_state v (stat th)) th)) as Hok.
  { intros v Hv. constructor; try done. simpl. rewrite Ht, suspended_state, state_with by lia.
    destruct (Z.leb_spec 4 v); [lia|done]. }
  assert (forall v o l, suspend_thread s !! o = Some l -> t ∈ l ->
            is_suspended (set_stat (with_state v (stat th)) th) = true) as Hns.
  { intros v o l Eo Hin. by destruct (Hu2 o l Eo). }
  destruct (Z.eqb_spec t (rt_current_thread s)) as [Ec|Hc].
  - eapply wp_upd; [exact E|]. apply HQ.
    eapply kwf_close; [apply kwf_upd_hole; [done|apply Hns]|apply lookup_insert_eq|by apply Hok| |].
    + by rewrite state_with.
    + done.
  - destruct (kwf_list _ _ _ H Hp) as [l El].
    apply wp_bind. eapply wp_upd; [exact E|]. apply wp_bind. eapply wp_ready_list; [lia|exact El|].
    apply wp_bind. apply wp_set_ready_list; [simpl; unfold Zlen; rewrite (k_len _ _ H); lia|]. apply wp_modify.
    set (l' := if yields th then l ++ [t] else t :: l).
    assert (forall x, x ∈ l' <-> x = t \/ x ∈ l) as Hl' by (intros x; subst l'; destruct (yields th); set_solver).
    assert (l' <> []) as Hne by (subst l'; by destruct (yields th), l).
    assert (NoDup l') as Hnd.
    { pose proof (k_nodup _ _ H _ _ El). pose proof (Hu1 _ _ El). subst l'. destruct (yields th).
      - apply NoDup_app. split_and!; [done|set_solver|apply NoDup_singleton].
      - by constructor. }
    apply HQ. rewrite Hm. pose proof (k_len _ _ H) as Hlen.
    destruct (kwf_upd_hole s t (set_stat (with_state RT_THREAD_READY (stat th)) th) H (Hns _))
      as [_ _ _ _ _ _ Hw Hwn Hw1].
    destruct H as [_ Htab Hnod Hgrp Hrng Hth _ _ _]. constructor; simpl; try done.
    + by rewrite length_insert.
    + intros p l0 x. rewrite list_lookup_insert_Some. intros [(<- & <- & _)|[Hpn E0]] Hx; split; try done.
      * apply Hl' in Hx as [->|Hx]; [rewrite lookup_insert_eq; eexists; split; [done|]|].
        { rewrite state_with by done. simpl. split; [done|lia]. }
        destruct (Htab _ _ _ El Hx) as (Hxt & th0 & E0 & Hr & Hcp). rewrite lookup_insert_ne by congruence.
        by exists th0.
      * destruct (Htab _ _ _ E0 Hx) as (Hxt & th0 & E1 & Hr & Hcp). rewrite lookup_insert_ne by congruence.
        by exists th0.
    + intros p l0. rewrite list_lookup_insert_Some. intros [(<- & <- & _)|[_ E0]]; [done|by eapply Hnod].
    + intros p l0. rewrite list_lookup_insert_Some, set_bit by lia. intros [(<- & <- & _)|[Hpn E0]].
      * rewrite Z2Nat.id, Z.eqb_refl, orb_true_r by lia. by rewrite bool_decide_eq_false_2.
      * rewrite (Hgrp _ _ E0), (proj2 (Z.eqb_neq _ _)) by lia. by rewrite orb_false_r.
    + by apply set_bit_range.
    + intros x thx. destruct (decide (x = t)) as [->|Hxt].
      * rewrite lookup_insert_eq. intros [= <-] _. split; [by apply Hok|]. rewrite state_with by done.
        split; [|done]. intros _. exists l'. rewrite list_lookup_insert_eq by lia. split; [done|]. apply Hl'. by left.
      * rewrite lookup_insert_ne by done. intros Ex _. destruct (Hth x thx Ex ltac:(congruence)) as (Ho & Hr & Hrun).
        split_and!; [done| |done]. intros Hs. destruct (Hr Hs) as (l0 & E0 & Hx0).
        destruct (decide (Z.to_nat (current_priority thx) = Z.to_nat (current_priority th))) as [Hq|Hq].
        -- rewrite Hq, list_lookup_insert_eq by lia. eexists. split; [done|]. rewrite Hl'. right.
           rewrite Hq in E0. congruence.
        -- rewrite list_lookup_insert_ne by done. by exists l0.
Qed.

(** No ready thread is more urgent than [p]. *)
Definition urgent (s : kernel) (p : Z) : Prop :=
  forall t th, threads s !! t = Some th -> state_of th = RT_THREAD_READY -> p <= current_priority th.

Lemma wp_highest (Q : Z * Z -> kernel -> Prop) s :
  kwf None s -> rt_thread_ready_priority_group s <> 0 ->
  (forall t th p, threads s !! t = Some th -> state_of th = RT_THREAD_READY -> current_priority th = p ->
     urgent s p -> Q (t, p) s) ->
  wp _scheduler_get_highest_priority_thread Q s.
Proof.
  intros H Hz HQ. destruct (ffs_lowest _ (k_range _ _ H) Hz) as (Hp & Hb & Hlow).
  apply wp_bind, wp_gets. set (p := __rt_ffs _ - 1) in *. destruct (kwf_list _ _ _ H Hp) as [l El].
  apply wp_bind. eapply wp_ready_list; [lia|exact El|].
  pose proof (k_group _ _ H _ _ El) as Hg. rewrite Z2Nat.id, Hb in Hg by lia.
  destruct l as [|t l]; [done|]. apply wp_ret.
  destruct (k_table _ _ H _ _ t El ltac:(left)) as (_ & th & E & Hr & Hc). rewrite Z2Nat.id in Hc by lia.
  apply (HQ t th); [done..|]. intros x thx Ex Hx.
  destruct (k_thread _ _ H x thx Ex ltac:(done)) as (Hok & Hrd & _). pose proof (th_prio _ Hok).
  destruct (Hrd Hx) as (lx & Elx & Hin). pose proof (k_group _ _ H _ _ Elx) as Hgx.
  rewrite Z2Nat.id in Hgx by lia. destruct (Z.le_gt_cases p (current_priority thx)); [done|].
  rewrite Hlow in Hgx by lia. by destruct lx; [apply elem_of_nil in Hin|].
Qed.

(** ** Scheduling *)

(** A thread up to what the scheduler changes: of the state byte only remains whether the thread
    is suspended, or active, or neither. *)
Definition class_of (st : Z) : Z := if 4 <=? st then 4 else if 2 <=? st then 2 else st.
Definition strip (th : rt_thread) : rt_thread := set_stat (class_of (state_of th)) th.

Lemma strip_set_stat v th :
  class_of (state_of (set_stat v th)) = class_of (state_of th) -> strip (set_stat v th) = strip th.
Proof. intros H. unfold strip. by rewrite H. Qed.

Lemma strip_insert t th th' (m : gmap Z rt_thread) :
  m !! t = Some th -> strip th' = strip th -> strip <$> <[t := th']> m = strip <$> m.
Proof.
  intros E Hs. rewrite fmap_insert, Hs, <- fmap_insert. by rewrite insert_id.
Qed.

Lemma suspended_with v th : 0 <= v < 8 -> is_suspended (set_stat (with_state v (stat th)) th) = (4 <=? v).
Proof. intros Hv. by rewrite suspended_state, state_with. Qed.

Lemma not_waiting h s t th :
  kwf h s -> threads s !! t = Some th -> is_suspended th = false -> without t <$> suspend_thread s = suspend_thread s.
Proof.
  intros H E Hs. apply map_eq. intros o. rewrite lookup_fmap.
  destruct (suspend_thread s !! o) as [l|] eqn:El; [|done]. simpl. f_equal. apply without_id.
  intros Hin. destruct (k_wait _ _ H o l t El Hin) as (th0 & E0 & Hs0). congruence.
Qed.

Lemma set_current_wf s t cur th :
  kwf None s -> threads s !! cur = Some th -> rt_current_thread s = cur ->
  state_of th <> RT_THREAD_READY -> t <> cur ->
  let s' := Kernel (threads s) (rt_thread_priority_table s) (rt_thread_ready_priority_group s)
    t (rt_scheduler_lock_nest s) (suspend_thread s) (sems s) (mutexes s) in
  kwf (Some cur) s' /\ (state_of th <> RT_THREAD_RUNNING -> kwf None s').
Proof.
  intros H E Hc Hr Ht s'. assert (kwf (Some cur) s') as H'.
  { destruct (kwf_open _ _ _ H E Hr) as [? ? ? ? ? Hth ? ? ?]. constructor; try done.
    intros x thx Ex Hx. destruct (Hth x thx Ex Hx) as (Ho & Hrd & Hrun). split_and!; [done..|].
    intros Hs. specialize (Hrun Hs). congruence. }
  split; [done|]. intros Hrun. destruct (k_thread _ _ H cur th E ltac:(done)) as (Hok & _ & _).
  by apply (kwf_close _ cur th).
Qed.

(** A change of the state byte that keeps the state. *)
Lemma kwf_same_state h s t th v :
  kwf h s -> threads s !! t = Some th -> state_of (set_stat v th) = state_of th ->
  kwf h (reshape s (<[t := set_stat v th]> (threads s)) (rt_thread_priority_table s)
           (rt_thread_ready_priority_group s) (suspend_thread s)).
Proof.
  intros [? Htab ? ? ? Hth Hw ? ?] E Hs.
  assert (is_suspended (set_stat v th) = is_suspended th) as Hsu by (by rewrite !suspended_state, Hs).
  constructor; simpl; try done.
  - intros p l x Hl Hx. destruct (Htab p l x Hl Hx) as (? & th0 & E0 & Hr0 & Hc0). split; [done|].
    destruct (decide (x = t)) as [->|]; [|rewrite lookup_insert_ne by done; by exists th0].
    rewrite lookup_insert_eq. eexists. split; [done|]. rewrite E in E0. injection E0 as <-. by rewrite Hs.
  - intros x thx. destruct (decide (x = t)) as [->|Hx]; [|rewrite lookup_insert_ne by done; apply Hth].
    rewrite lookup_insert_eq. intros [= <-] Hh. destruct (Hth t th E Hh) as ([? ? ? ?] & Hr & Hc).
    rewrite Hs. split_and!; [|done..]. constructor; rewrite ?Hs, ?Hsu; done.
  - intros o l x Hl Hx. destruct (Hw o l x Hl Hx) as (th0 & E0 & Hs0).
    destruct (decide (x = t)) as [->|]; [|rewrite lookup_insert_ne by done; by exists th0].
    rewrite lookup_insert_eq. eexists. split; [done|]. rewrite E in E0. injection E0 as <-. by rewrite Hsu.
Qed.

(** The current thread runs. *)
Lemma kwf_run s t th :
  kwf (Some t) s -> unlisted s t -> threads s !! t = Some th -> t = rt_current_thread s ->
  thok th -> state_of th <> RT_THREAD_INIT -> is_suspended th = false ->
  kwf None (reshape s (<[t := set_stat (with_state RT_THREAD_RUNNING (stat th)) th]> (threads s))
              (rt_thread_priority_table s) (rt_thread_ready_priority_group s) (suspend_thread s)).
Proof.
  intros H Hu E Hc [Hp Hi Hm Ht] Hst Hsu.
  eapply (kwf_close _ t); [apply kwf_upd_hole; [exact H|]|apply lookup_insert_eq| |by rewrite state_with|done].
  - intros o l Eo Hin. by destruct (proj2 Hu o l Eo).
  - constructor; try done; [intros _; by apply Hm|]. simpl.
    destruct (thread_timer th); [by destruct Ht; congruence|by rewrite suspended_with].
Qed.

Lemma running_unlisted h s t th :
  kwf h s -> threads s !! t = Some th -> state_of th = RT_THREAD_RUNNING -> unlisted s t.
Proof.
  intros H E Hr. split.
  - intros p l Ep Hin. destruct (k_table _ _ H p l t Ep Hin) as (_ & th0 & E0 & Hs & _).
    replace th0 with th in Hs by congruence. by rewrite Hr in Hs.
  - intros o l Eo Hin. destruct (k_wait _ _ H o l t Eo Hin) as (th0 & E0 & Hs).
    rewrite suspended_state in Hs. replace th0 with th in Hs by congruence. by rewrite Hr in Hs.
Qed.

(** The timer of a thread only runs while the thread is suspended. *)
Lemma no_timer th : thok th -> is_suspended th = false -> thread_timer th = None.
Proof. intros [_ _ _ Ht] Hs. destruct (thread_timer th); [by destruct Ht; congruence|done]. Qed.

Lemma wp_give_way s cur th (Q : unit -> kernel -> Prop) :
  kwf (Some cur) s -> (state_of th <> RT_THREAD_RUNNING -> kwf None s) ->
  threads s !! cur = Some th -> rt_current_thread s <> cur -> thok th ->
  (state_of th = RT_THREAD_RUNNING -> unlisted s cur) -> 
  (forall th' tb g, let s' := reshape s (<[cur := th']> (threads s)) tb g (suspend_thread s) in
     kwf None s' -> strip th' = strip th -> current_priority th' = current_priority th ->
     (state_of th' = RT_THREAD_READY -> state_of th = RT_THREAD_RUNNING \/ state_of th = RT_THREAD_READY) ->
     Q tt s') ->
  wp (give_way cur th) Q s.
Proof.
  intros H Hn E Hc Hok Hul HQ. apply wp_bind.
  eapply (wp_mono _ (fun _ s2 => exists th2 tb g, s2 = reshape s (<[cur := th2]> (threads s)) tb g (suspend_thread s) /\
    kwf None s2 /\ strip th2 = strip th /\ current_priority th2 = current_priority th /\
    (state_of th2 = RT_THREAD_READY -> state_of th = RT_THREAD_RUNNING \/ state_of th = RT_THREAD_READY))).
  { destruct (Z.eqb_spec (state_of th) RT_THREAD_RUNNING) as [Hrun|Hrun].
    - assert (is_suspended th = false) as Hsu by (by rewrite suspended_state, Hrun).
      apply (wp_insert_thread cur th); try done; [by apply Hul|apply (th_prio _ Hok)|apply (th_init _ Hok)| | |].
      + apply (th_mask _ Hok). by rewrite Hrun.
      + by apply no_timer.
      + intros tb g. cbv zeta. rewrite (proj2 (Z.eqb_neq cur _)) by congruence. intros Hwf.
        eexists _, tb, g. split_and!; [done|done| |done|by left].
        apply strip_set_stat. by rewrite state_with, Hrun.
    - apply wp_ret. exists th, (rt_thread_priority_table s), (rt_thread_ready_priority_group s).
      rewrite insert_id by done. rewrite reshape_same. split_and!; [done|by apply Hn|done|done|by right]. }
  intros [] s2 (th2 & tb & g & -> & H2 & Hst & Hcp & Hrd).
  eapply wp_upd; [apply lookup_insert_eq|]. cbn [reshape threads]. rewrite insert_insert_eq.
  destruct (yields th2).
  - set (v := Z.land _ _). pose proof (clear_yield_state th2 : state_of (set_stat v th2) = _) as Hs.
    pose proof (kwf_same_state _ _ _ _ v H2 (lookup_insert_eq _ _ _) Hs) as H3. simpl in H3.
    rewrite insert_insert_eq in H3. apply (HQ _ _ _ H3); [|done|by rewrite Hs].
    rewrite <- Hst. apply strip_set_stat. by rewrite Hs.
  - by apply (HQ _ _ _ H2).
Qed.

(** The switch to the thread [to]. *)
Lemma wp_switch s cur th to tht (Q : unit -> kernel -> Prop) :
  kwf None s -> threads s !! cur = Some th -> rt_current_thread s = cur ->
  state_of th <> RT_THREAD_READY ->
  threads s !! to = Some tht -> state_of tht = RT_THREAD_READY ->
  (forall m tb g, let s' := Kernel m tb g to (rt_scheduler_lock_nest s) (suspend_thread s) (sems s) (mutexes s) in
     kwf None s' -> strip <$> m = strip <$> threads s ->
     m !! to = Some (set_stat (with_state RT_THREAD_RUNNING (stat tht)) tht) ->
     (forall x thx, m !! x = Some thx -> state_of thx = RT_THREAD_READY ->
        exists thy, threads s !! x = Some thy /\ current_priority thx = current_priority thy /\
          (state_of thy = RT_THREAD_READY \/ x = cur /\ state_of thy = RT_THREAD_RUNNING)) ->
     Q tt s') ->
  wp (set_current to ;;; give_way cur th ;;; rt_sched_remove_thread to ;;;
      upd to (fun th => set_stat (with_state RT_THREAD_RUNNING (stat th)) th)) Q s.
Proof.
  intros H E Hcur Hr Et Htr HQ. assert (to <> cur) as Hne by congruence.
  destruct (set_current_wf s to cur th H E Hcur Hr Hne) as [Hh Hn]. apply wp_bind, wp_modify, wp_bind.
  set (s1 := Kernel _ _ _ to _ _ _ _) in *.
  destruct (k_thread _ _ H cur th E ltac:(done)) as (Hok & _ & _).
  apply wp_give_way; [exact Hh|exact Hn|done|done|done| |].
  { intros Hrun. apply (running_unlisted _ s cur th H E Hrun). }
  intros th2 tb g s2 H2 Hst Hcp Hrd.
  assert (threads s2 !! to = Some tht) as Et2 by (simpl; by rewrite lookup_insert_ne).
  assert (is_suspended tht = false) as Hsut by (by rewrite suspended_state, Htr).
  apply wp_bind. eapply (wp_remove_thread to tht); [done|done|by rewrite Htr|]. intros tb4 g4 s4 H4 Hul4.
  assert (s4 = reshape s2 (threads s2) tb4 g4 (suspend_thread s)) as E4.
  { subst s4. f_equal. apply (not_waiting _ s2 to tht H2 Et2 Hsut). }
  rewrite E4 in *. clear E4 s4. eapply wp_upd; [exact Et2|].
  destruct (k_thread _ _ H2 to tht Et2 ltac:(done)) as (Hokt & _ & _).
  apply HQ; cbn [reshape threads].
  - apply (kwf_run _ to tht H4 Hul4 Et2 eq_refl Hokt); [by rewrite Htr|done].
  - etrans; [apply (strip_insert to tht); [exact Et2|]|by apply (strip_insert cur th)].
    apply strip_set_stat. by rewrite state_with, Htr.
  - apply lookup_insert_eq.
  - intros x thx. destruct (decide (x = to)) as [->|Hx]; [rewrite lookup_insert_eq; intros [= <-]; by rewrite state_with|].
    rewrite lookup_insert_ne by done. simpl. destruct (decide (x = cur)) as [->|Hxc].
    + rewrite lookup_insert_eq. intros [= <-] Hr3. exists th. split_and!; [done|congruence|].
      destruct (Hrd Hr3); [by right|done].
    + rewrite lookup_insert_ne by done. intros Ex Hrx. exists thx. auto.
Qed.

Lemma no_ready s :
  kwf None s -> rt_thread_ready_priority_group s = 0 ->
  forall t th, threads s !! t = Some th -> state_of th <> RT_THREAD_READY.
Proof.
  intros H Hz t th E Hr. destruct (k_thread _ _ H t th E ltac:(done)) as (Hok & Hrd & _).
  destruct (Hrd Hr) as (l & El & Hin). pose proof (k_group _ _ H _ _ El) as Hg. rewrite Hz, Z.bits_0 in Hg.
  by destruct l; [apply elem_of_nil in Hin|].
Qed.

(** After a call of the scheduler the current thread runs and no ready thread is more urgent. *)
Lemma wp_schedule s th (Q : unit -> kernel -> Prop) :
  kwf None s -> threads s !! rt_current_thread s = Some th -> state_of th <> RT_THREAD_READY ->
  rt_scheduler_lock_nest s = 0 ->
  (state_of th <> RT_THREAD_RUNNING -> exists t tht, threads s !! t = Some tht /\ state_of tht = RT_THREAD_READY) ->
  (forall m tb g t tht, let s' := Kernel m tb g t 0 (suspend_thread s) (sems s) (mutexes s) in
     kwf None s' -> strip <$> m = strip <$> threads s ->
     m !! t = Some tht -> state_of tht = RT_THREAD_RUNNING -> urgent s' (current_priority tht) -> Q tt s') ->
  wp rt_schedule Q s.
Proof.
  intros H E Hr Hn Hex HQ. apply wp_bind, wp_gets. rewrite Hn. simpl. apply wp_bind, wp_gets.
  destruct (Z.eqb_spec (rt_thread_ready_priority_group s) 0) as [Hg|Hg].
  { apply wp_ret. destruct (decide (state_of th = RT_THREAD_RUNNING)) as [Hrun|Hrun].
    - destruct s. simpl in *. subst. apply (HQ _ _ _ _ th); try done.
      intros x thx Ex Hx. by destruct (no_ready _ H eq_refl x thx).
    - destruct (Hex Hrun) as (t & tht & Et & Ht). by destruct (no_ready _ H Hg t tht). }
  apply wp_bind, wp_highest; [done..|]. intros to tht p Et Htr Hp Hurg.
  apply wp_bind, wp_gets, wp_bind. eapply wp_thread; [exact E|].
  set (stay := (state_of th =? RT_THREAD_RUNNING) && _). destruct stay eqn:Hs.
  - rewrite Z.eqb_refl. simpl. apply andb_true_iff in Hs as [Hrun%Z.eqb_eq Hle].
    assert (is_suspended th = false) as Hsu by (by rewrite suspended_state, Hrun).
    destruct (k_thread _ _ H _ th E ltac:(done)) as (Hok & _ & _).
    apply wp_bind. eapply (wp_remove_thread _ th); [done|done|by rewrite Hrun|]. intros tb g s1 H1 Hul.
    assert (s1 = reshape s (threads s) tb g (suspend_thread s)) as E1.
    { subst s1. f_equal. by apply (not_waiting None s _ th). }
    rewrite E1 in *. clear E1 s1. eapply wp_upd; [exact E|].
    pose proof (kwf_run _ _ th H1 Hul E eq_refl Hok ltac:(by rewrite Hrun) Hsu) as H2.
    unfold reshape in *. simpl in *. rewrite Hn in *.
    eapply (HQ _ _ _ _ _ H2); [|apply lookup_insert_eq|by rewrite state_with|].
    + apply (strip_insert _ th); [done|]. apply strip_set_stat. by rewrite state_with, Hrun.
    + intros x thx. simpl. destruct (decide (x = rt_current_thread s)) as [->|].
      * rewrite lookup_insert_eq. intros [= <-]. by rewrite state_with.
      * rewrite lookup_insert_ne by done. intros Ex Hx. specialize (Hurg x thx Ex Hx). simpl.
        apply orb_true_iff in Hle as [Hlt%Z.ltb_lt|[Heq%Z.eqb_eq _]%andb_true_iff]; lia.
  - assert (to <> rt_current_thread s) as Hne by congruence.
    rewrite (proj2 (Z.eqb_neq _ _) Hne). simpl. eapply (wp_switch s _ th to tht); try done.
    rewrite Hn. intros m tb g s' H' Hst Em Hrd. apply (HQ _ _ _ _ _ H' Hst Em); [by rewrite state_with|].
    intros x thx Ex Hx. simpl. destruct (Hrd x thx Ex Hx) as (thy & Ey & Hc & Hy). rewrite Hp, Hc.
    destruct Hy as [Hy|[-> Hy]]; [by apply (Hurg x thy)|].
    replace thy with th in * by congruence. subst stay. rewrite Hy in Hs. simpl in Hs.
    apply orb_false_iff in Hs as [Hlt%Z.ltb_ge _]. lia.
Qed.

(** ** Resuming *)

(** A thread that is not ready leaves the list it waits in. *)
Lemma wp_unwait t (Q : unit -> kernel -> Prop) s :
  kwf (Some t) s ->
  (let s' := reshape s (threads s) (rt_thread_priority_table s) (rt_thread_ready_priority_group s)
               (without t <$> suspend_thread s) in
   kwf (Some t) s' -> unlisted s' t -> Q tt s') ->
  wp (list_remove t) Q s.
Proof.
  intros H HQ. apply wp_list_remove.
  assert (map (without t) (rt_thread_priority_table s) = rt_thread_priority_table s) as ->.
  { rewrite <- (map_id (rt_thread_priority_table s)) at 2. apply map_ext_in. intros l Hl%list_elem_of_In.
    apply list_elem_of_lookup in Hl as [p El]. apply without_id. intros Hin.
    by destruct (k_table _ _ H p l t El Hin). }
  apply HQ; [by apply kwf_unwait|]. split.
  - intros p l El Hin. by destruct (k_table _ _ H p l t El Hin).
  - intros o l. simpl. intros [l0 [<- E0]]%lookup_fmap_Some [_ ?]%without_elem. done.
Qed.

(** The thread that is resumed. *)
Definition woken (cur t : Z) (th : rt_thread) : rt_thread :=
  set_stat (with_state (if t =? cur then RT_THREAD_RUNNING else RT_THREAD_READY) (stat th))
    (set_ttmr false (set_timer None th)).

Lemma reshape_reshape s m tb g w m' tb' g' w' :
  reshape (reshape s m tb g w) m' tb' g' w' = reshape s m' tb' g' w'.
Proof. done. Qed.

Lemma wp_thread_ready t th (Q : Z -> kernel -> Prop) s :
  kwf None s -> threads s !! t = Some th -> is_suspended th = true ->
  (forall tb g, let s' := reshape s (<[t := woken (rt_current_thread s) t th]> (threads s)) tb g
                 (without t <$> suspend_thread s) in
     kwf None s' -> Q RT_EOK s') ->
  wp (rt_sched_thread_ready t) Q s.
Proof.
  intros H E Hs HQ. destruct (k_thread _ _ H t th E ltac:(done)) as ([Hp Hi Hm Ht] & _ & _).
  assert (4 <= state_of th) as Hst by (rewrite suspended_state in Hs; by apply Z.leb_le).
  assert (state_of th <> RT_THREAD_INIT /\ state_of th <> RT_THREAD_READY) as [Hni Hnr]
    by (unfold RT_THREAD_INIT, RT_THREAD_READY; lia).
  pose proof (kwf_open _ _ _ H E Hnr) as Ho.
  apply wp_bind. eapply wp_thread; [exact E|]. rewrite Hs. simpl. apply wp_bind.
  eapply (wp_mono _ (fun r s1 => r = RT_EOK /\ kwf (Some t) s1 /\
     s1 = reshape s (<[t := set_ttmr false (set_timer None th)]> (threads s)) (rt_thread_priority_table s)
            (rt_thread_ready_priority_group s) (suspend_thread s))).
  { pose proof (kwf_upd_hole s t (set_ttmr false (set_timer None th)) Ho (fun _ _ _ _ => Hs)) as H1.
    destruct (thread_timer th) as [n|] eqn:En.
    - destruct Ht as [_ Hf]. rewrite Hf. apply wp_bind. eapply wp_thread; [exact E|]. rewrite Hf.
      apply wp_bind, wp_bind. eapply wp_thread; [exact E|]. rewrite En. apply wp_bind.
      eapply wp_upd; [exact E|]. apply wp_ret, wp_bind. eapply wp_upd; [apply lookup_insert_eq|].
      rewrite reshape_reshape. cbn [reshape threads rt_thread_priority_table rt_thread_ready_priority_group suspend_thread].
      rewrite insert_insert_eq. by apply wp_ret.
    - rewrite (Ht Hs). apply wp_ret. assert (set_ttmr false (set_timer None th) = th) as Eq.
      { specialize (Ht Hs). destruct th. simpl in *. by subst. }
      rewrite Eq in *. by rewrite insert_id, reshape_same in * by done. }
  intros r s1 (-> & H1 & ->). simpl.
  apply wp_bind, wp_unwait; [done|]. intros s2 H2 Hul. apply wp_bind.
  apply (wp_insert_thread t (set_ttmr false (set_timer None th))); try done; [apply lookup_insert_eq|by apply Hm|].
  intros tb g v s3 H3. apply wp_ret. subst s3 s2 v. rewrite !reshape_reshape in *. simpl in H3.
  rewrite insert_insert_eq in H3. simpl. rewrite insert_insert_eq. by apply HQ.
Qed.

(** ** Waiting *)

(** The order of a list of threads by priority. *)
Definition in_order (m : gmap Z rt_thread) (l : list Z) : Prop :=
  StronglySorted (fun a b => forall p q, prio_of m a = Some p -> prio_of m b = Some q -> p <= q) l.

Lemma enqueue_prio_ok m t p l :
  (forall x, x ∈ l -> is_Some (m !! x)) -> prio_of m t = Some p ->
  exists l', enqueue_prio (prio_of m) t p l = Ok l' /\ l' ≡ₚ t :: l /\ (in_order m l -> in_order m l').
Proof.
  intros Hl Ht. induction l as [|x l IH].
  - exists [t]. split_and!; [done..|]. intros _. by repeat constructor.
  - destruct (Hl x ltac:(left)) as [thx Ex]. simpl.
    assert (prio_of m x = Some (current_priority thx)) as Epx by (unfold prio_of; by rewrite Ex).
    rewrite Epx. simpl. destruct (Z.ltb_spec p (current_priority thx)) as [Hlt|Hge].
    + eexists. split_and!; [done..|]. intros Hs. constructor; [done|]. pose proof Hs as Hs'. inversion Hs' as [|? ? _ Hf].
      subst. rewrite Forall_forall in *. intros y Hy p0 q0 Hp0 Hq0. rewrite Ht in Hp0. injection Hp0 as <-.
      apply elem_of_cons in Hy as [->|Hy]; [rewrite Epx in Hq0; injection Hq0 as <-; lia|].
      specialize (Hf y Hy _ q0 Epx Hq0). lia.
    + destruct IH as (l' & E & Hperm & Hs); [intros y Hy; apply Hl; by right|]. rewrite E. simpl.
      eexists. split_and!; [done| |].
      * rewrite Hperm. apply Permutation_swap.
      * intros Hsx. inversion Hsx as [|? ? Hsl Hf]. subst. constructor; [by apply Hs|].
        rewrite Forall_forall in *. intros y Hy p0 q0 Hp0 Hq0. rewrite Epx in Hp0. injection Hp0 as <-.
        rewrite Hperm in Hy. apply elem_of_cons in Hy as [->|Hy]; [rewrite Ht in Hq0; injection Hq0 as <-; lia|].
        by apply (Hf y Hy).
Qed.

(** What [rt_susp_list_enqueue] makes of a list. *)
Definition enqueued (m : gmap Z rt_thread) (flag t : Z) (l l' : list Z) : Prop :=
  l' ≡ₚ t :: l /\ (flag = RT_IPC_FLAG_FIFO -> l' = l ++ [t]) /\ (flag = RT_IPC_FLAG_PRIO -> in_order m l -> in_order m l').

Lemma wp_wait_list o l (Q : list Z -> kernel -> Prop) s :
  suspend_thread s !! o = Some l -> Q l s -> wp (wait_list o) Q s.
Proof. intros E H. apply wp_bind, wp_gets. unfold wp, lift. by rewrite E. Qed.

Lemma kwf_enqueue s o t th l l' :
  kwf (Some t) s -> unlisted s t -> threads s !! t = Some th -> is_suspended th = true ->
  suspend_thread s !! o = Some l -> l' ≡ₚ t :: l ->
  kwf (Some t) (reshape s (threads s) (rt_thread_priority_table s) (rt_thread_ready_priority_group s)
                  (<[o := l']> (suspend_thread s))).
Proof.
  intros [? ? ? ? ? ? Hw Hn H1] [_ Hul] E Hs El Hp. constructor; simpl; try done.
  - intros o' l0 x. rewrite lookup_insert_Some. intros [[<- <-]|[_ E0]]; [|by apply (Hw _ _ _ E0)].
    rewrite Hp. intros [->|Hx]%elem_of_cons; [by exists th|by apply (Hw _ _ _ El)].
  - intros o' l0. rewrite lookup_insert_Some. intros [[<- <-]|[_ E0]]; [|by eapply Hn].
    rewrite Hp. constructor; [by apply (Hul _ _ El)|by apply (Hn _ _ El)].
  - intros o1 o2 l1 l2 x. rewrite !lookup_insert_Some.
    intros [[<- <-]|[Ho1 E1]] [[<- <-]|[Ho2 E2]]; try done; rewrite ?Hp.
    + intros [->|Hx]%elem_of_cons Hx2; [by destruct (Hul _ _ E2)|by apply (H1 o o2 l l2 x)].
    + intros Hx1 [->|Hx]%elem_of_cons; [by destruct (Hul _ _ E1)|by apply (H1 o1 o l1 l x)].
    + by apply (H1 o1 o2 l1 l2 x).
Qed.

Lemma wp_enqueue s o t th l flag (Q : Z -> kernel -> Prop) :
  kwf (Some t) s -> unlisted s t -> threads s !! t = Some th -> is_suspended th = true ->
  suspend_thread s !! o = Some l -> flag = RT_IPC_FLAG_FIFO \/ flag = RT_IPC_FLAG_PRIO ->
  (forall l', enqueued (threads s) flag t l l' ->
     let s' := reshape s (threads s) (rt_thread_priority_table s) (rt_thread_ready_priority_group s)
                 (<[o := l']> (suspend_thread s)) in
     kwf (Some t) s' -> Q RT_EOK s') ->
  wp (rt_susp_list_enqueue o t flag) Q s.
Proof.
  intros H Hul E Hs El Hf HQ. apply wp_bind. eapply wp_wait_list; [exact El|].
  destruct Hf as [->| ->]; simpl.
  - apply wp_bind, wp_modify, wp_ret. apply HQ.
    + split_and!; [by rewrite Permutation_app_comm|done|done].
    + eapply kwf_enqueue; [done..|]. by rewrite Permutation_app_comm.
  - apply wp_bind. eapply wp_thread; [exact E|]. apply wp_bind, wp_gets.
    destruct (enqueue_prio_ok (threads s) t (current_priority th) l) as (l' & E' & Hp & Hs').
    { intros x Hx. destruct (k_wait _ _ H o l x El Hx) as (thx & Ex & _). by exists thx. }
    { unfold prio_of. by rewrite E. }
    apply wp_bind. unfold wp at 1, lift. rewrite E'. apply wp_bind, wp_modify, wp_ret. apply HQ.
    + by split_and!.
    + by eapply kwf_enqueue.
Qed.

(** The state of a thread that waits. *)
Definition susp_state (flag : Z) : Z :=
  if flag =? RT_INTERRUPTIBLE then RT_THREAD_SUSPEND_INTERRUPTIBLE
  else if flag =? RT_KILLABLE then RT_THREAD_SUSPEND_KILLABLE else RT_THREAD_SUSPEND_UNINTERRUPTIBLE.
Definition put_to_wait (flag : Z) (th : rt_thread) : rt_thread :=
  set_ttmr false (set_stat (with_state (susp_state flag) (stat th)) th).

Lemma susp_state_range flag : 4 <= susp_state flag < 8.
Proof. unfold susp_state. repeat case_match; by vm_compute. Qed.

Lemma wp_timer_stop s t th (Q : Z -> kernel -> Prop) :
  threads s !! t = Some th -> thread_timer th = None ->
  (forall r, Q r (reshape s (<[t := set_ttmr false th]> (threads s)) (rt_thread_priority_table s)
                    (rt_thread_ready_priority_group s) (suspend_thread s))) ->
  wp (rt_sched_thread_timer_stop t) Q s.
Proof.
  intros E Ht HQ. apply wp_bind. eapply wp_thread; [exact E|]. destruct (sched_flag_ttmr_set th) eqn:Hf.
  - apply wp_bind, wp_bind. eapply wp_thread; [exact E|]. rewrite Ht. apply wp_ret, wp_bind.
    eapply wp_upd; [exact E|]. by apply wp_ret.
  - apply wp_ret. specialize (HQ RT_EOK). replace (set_ttmr false th) with th in HQ by (destruct th; simpl in *; by subst).
    by rewrite insert_id, reshape_same in HQ.
Qed.

Lemma in_order_ext m m' l : (forall t, t ∈ l -> prio_of m' t = prio_of m t) -> in_order m l -> in_order m' l.
Proof.
  intros Hp Hs. induction Hs as [|x l Hs IH Hf]; [constructor|]. constructor.
  - apply IH. intros t Ht. apply Hp. by right.
  - rewrite Forall_forall in *. intros y Hy p q. rewrite !Hp by (by (left + right)). by apply Hf.
Qed.

Lemma prio_insert m t th' p x :
  prio_of m t = Some p -> current_priority th' = p -> prio_of (<[t := th']> m) x = prio_of m x.
Proof.
  intros E Hp. destruct (decide (x = t)) as [->|Hx].
  - rewrite E. unfold prio_of. by rewrite lookup_insert_eq, <- Hp.
  - unfold prio_of. by rewrite lookup_insert_ne.
Qed.

(** The waiting lists when [t] has gone to wait. *)
Definition waiting (s : kernel) (susp_list : option Z) (flag t : Z) (w : gmap Z (list Z)) : Prop :=
  match susp_list with
  | None => w = suspend_thread s
  | Some o => exists l l', suspend_thread s !! o = Some l /\ enqueued (threads s) flag t l l' /\
                w = <[o := l']> (suspend_thread s)
  end.

(** The current thread goes to wait. *)
Lemma wp_suspend_to_list s t th susp_list flag sflag (Q : Z -> kernel -> Prop) :
  kwf None s -> t = rt_current_thread s -> threads s !! t = Some th -> state_of th = RT_THREAD_RUNNING ->
  0 <= sflag <= 2 ->
  (forall o, susp_list = Some o -> is_Some (suspend_thread s !! o) /\
     (flag = RT_IPC_FLAG_FIFO \/ flag = RT_IPC_FLAG_PRIO)) ->
  (forall tb g w, waiting s susp_list flag t w ->
     let s' := reshape s (<[t := put_to_wait sflag th]> (threads s)) tb g w in kwf None s' -> Q RT_EOK s') ->
  wp (rt_thread_suspend_to_list t susp_list flag sflag) Q s.
Proof.
  intros H Hc E Hr Hsf Hl HQ. apply wp_bind, wp_gets. rewrite Hc, Z.eqb_refl. simpl. rewrite <- Hc.
  apply wp_bind. eapply wp_thread; [exact E|]. rewrite Hr. simpl.
  assert (is_suspended th = false) as Hsu by (by rewrite suspended_state, Hr).
  destruct (k_thread _ _ H t th E ltac:(done)) as (Hok & _ & _).
  apply wp_bind. eapply (wp_remove_thread t th); [done|done|by rewrite Hr|]. intros tb g s1 H1 Hul.
  assert (s1 = reshape s (threads s) tb g (suspend_thread s)) as E1.
  { subst s1. f_equal. by apply (not_waiting None s t th). }
  rewrite E1 in *. clear E1 s1. set (st := susp_state sflag). pose proof (susp_state_range sflag) as Hst. fold st in Hst.
  apply wp_bind. eapply (wp_mono _ (fun _ s2 => s2 =
    reshape s (<[t := set_stat (with_state st (stat th)) th]> (threads s)) tb g (suspend_thread s))).
  { assert (sflag = 0 \/ sflag = 1 \/ sflag = 2) as Hcase by lia. apply wp_bind.
    destruct Hcase as [->|[->| ->]]; apply wp_ret; by eapply wp_upd. }
  intros [] s2 ->. pose proof (kwf_upd_hole _ t (set_stat (with_state st (stat th)) th) H1) as H2.
  rewrite reshape_reshape in H2. simpl in H2. specialize (H2 (fun o l Eo Hin => ltac:(by destruct (proj2 Hul o l Eo)))).
  assert (is_suspended (set_stat (with_state st (stat th)) th) = true) as Hs2
    by (rewrite suspended_with by lia; apply Z.leb_le; lia).
  apply wp_bind. eapply (wp_mono _ (fun _ s3 => exists w, waiting s susp_list flag t w /\
    s3 = reshape s (<[t := set_stat (with_state st (stat th)) th]> (threads s)) tb g w /\ kwf (Some t) s3)).
  { destruct susp_list as [o|]; [|by apply wp_ret; exists (suspend_thread s)].
    destruct (Hl o eq_refl) as [[l El] Hf]. apply wp_bind.
    eapply (wp_enqueue _ o t _ l flag); [done|exact Hul|apply lookup_insert_eq|done|done|done|].
    intros l' (Hp & Hfifo & Hord) s3 H3. apply wp_ret. eexists. split; [|by split].
    exists l, l'. split_and!; [done| |done]. split_and!; [done|done|]. intros Hfl Ho.
    assert (forall x, prio_of (<[t:=set_stat (with_state st (stat th)) th]> (threads s)) x = prio_of (threads s) x) as Hpe.
    { intros x. apply (prio_insert _ _ _ (current_priority th)); [unfold prio_of; by rewrite E|done]. }
    eapply in_order_ext; [intros x _; symmetry; apply Hpe|]. apply Hord; [done|].
    eapply in_order_ext; [intros x _; apply Hpe|done]. }
  intros [] s3 (w & Hw & -> & H3). apply wp_bind.
  eapply (wp_timer_stop _ t); [apply lookup_insert_eq|exact (no_timer th Hok Hsu)|]. intros r. apply wp_ret.
  rewrite reshape_reshape. cbn [reshape threads rt_thread_priority_table rt_thread_ready_priority_group suspend_thread].
  rewrite insert_insert_eq. apply (HQ tb g w Hw). pose proof (kwf_upd_hole _ t (put_to_wait sflag th) H3 (fun _ _ _ _ => Hs2)) as H4.
  rewrite reshape_reshape in H4. simpl in H4. rewrite insert_insert_eq in H4.
  assert (state_of (put_to_wait sflag th) = st) as Hst4 by (apply (state_with st th); lia).
  eapply kwf_close; [exact H4|apply lookup_insert_eq| | |]; rewrite ?Hst4; unfold RT_THREAD_READY, RT_THREAD_RUNNING; try lia.
  pose proof (no_timer th Hok Hsu) as Hnt. destruct Hok as [? ? Hm ?]. constructor; try done.
  - intros _. apply Hm. by rewrite Hr.
  - simpl. by rewrite Hnt.
Qed.

(** ** Priorities *)

Lemma mask_of p : 0 <= p < 32 -> u32 (Z.shiftl 1 p) = 2 ^ p.
Proof.
  intros Hp. rewrite Z.shiftl_1_l. apply wrap_small. split; [apply Z.pow_nonneg; lia|].
  apply Z.pow_lt_mono_r; lia.
Qed.

Definition reprio (p v : Z) (th : rt_thread) : rt_thread := set_prio p (2 ^ p) (set_stat v th).

Lemma wp_change_priority s t th p (Q : Z -> kernel -> Prop) :
  kwf None s -> threads s !! t = Some th -> 0 <= p < 32 ->
  (state_of th = RT_THREAD_READY -> t <> rt_current_thread s) ->
  (forall v tb g, state_of (set_stat v th) = state_of th ->
     let s' := reshape s (<[t := reprio p v th]> (threads s)) tb g (suspend_thread s) in
     kwf None s' -> Q RT_EOK s') ->
  wp (rt_sched_thread_change_priority t p) Q s.
Proof.
  intros H E Hp Hnc HQ. unfold rt_sched_thread_change_priority.
  rewrite (proj2 (Z.ltb_lt p RT_THREAD_PRIORITY_MAX)) by apply Hp. simpl. rewrite mask_of by done.
  destruct (k_thread _ _ H t th E ltac:(done)) as (Hok & Hrd & Hrun). pose proof Hok as [_ Hi Hm Ht].
  apply wp_bind. eapply wp_thread; [exact E|]. apply wp_bind.
  destruct (Z.eqb_spec (state_of th) RT_THREAD_READY) as [Hr|Hr].
  - assert (is_suspended th = false) as Hsu by (by rewrite suspended_state, Hr).
    apply wp_bind. eapply (wp_remove_thread t th); [done|done|by rewrite Hr|]. intros tb g s1 H1 Hul.
    assert (s1 = reshape s (threads s) tb g (suspend_thread s)) as E1.
    { subst s1. f_equal. by apply (not_waiting None s t th). }
    rewrite E1 in *. clear E1 s1.
    apply wp_bind. eapply wp_upd; [exact E|]. apply wp_bind. eapply wp_upd; [apply lookup_insert_eq|].
    rewrite reshape_reshape. cbn [reshape threads rt_thread_priority_table rt_thread_ready_priority_group suspend_thread].
    rewrite insert_insert_eq. set (th1 := set_stat RT_THREAD_INIT _).
    pose proof (kwf_upd_hole _ t th1 H1 (fun o l Eo Hin => ltac:(by destruct (proj2 Hul o l Eo)))) as H2.
    rewrite reshape_reshape in H2. simpl in H2.
    eapply (wp_insert_thread t th1); [exact H2|exact Hul|apply lookup_insert_eq|done|done|done|exact (no_timer th Hok Hsu)|].
    intros tb' g' v s' H'. apply wp_ret. subst s' v. simpl in *. rewrite (proj2 (Z.eqb_neq _ _) (Hnc Hr)) in *.
    rewrite reshape_reshape in *. simpl in *. rewrite insert_insert_eq in *.
    apply (HQ (with_state RT_THREAD_READY RT_THREAD_INIT)); [by rewrite Hr|done].
  - eapply wp_upd; [exact E|]. apply wp_ret. specialize (HQ (stat th)).
    replace (reprio p (stat th) th) with (set_prio p (2 ^ p) th) in HQ by (by destruct th).
    apply HQ; [done|]. pose proof (kwf_open _ _ _ H E Hr) as Ho.
    eapply (kwf_close _ t); [apply kwf_upd_hole; [exact Ho|]|apply lookup_insert_eq| |done|done].
    + intros o l Eo Hin. destruct (k_wait _ _ H o l t Eo Hin) as (th0 & E0 & Hs). by replace th0 with th in * by congruence.
    + constructor; try done.
Qed.

(** ** Events *)

(** The first of a list is resumed. *)
Lemma wp_dequeue s o t l th e (Q : option Z -> kernel -> Prop) :
  kwf None s -> suspend_thread s !! o = Some (t :: l) -> threads s !! t = Some th -> 0 <= e ->
  (forall tb g, let s' := reshape s (<[t := set_error e (woken (rt_current_thread s) t th)]> (threads s)) tb g
                 (without t <$> suspend_thread s) in
     kwf None s' -> Q (Some t) s') ->
  wp (rt_susp_list_dequeue o e) Q s.
Proof.
  intros H El E He HQ. destruct (k_wait _ _ H o _ t El ltac:(left)) as (th0 & E0 & Hs).
  replace th0 with th in * by congruence. apply wp_bind. eapply wp_wait_list; [exact El|].
  apply wp_bind. eapply wp_thread_ready; [done|done|done|]. intros tb g s1 H1. simpl.
  rewrite (proj2 (Z.leb_le _ _) He). apply wp_bind. eapply wp_upd; [apply lookup_insert_eq|]. apply wp_ret.
  pose proof (kwf_upd _ _ t _ (set_error e (woken (rt_current_thread s) t th)) H1 (lookup_insert_eq _ _ _)) as H2.
  specialize (H2 eq_refl eq_refl eq_refl eq_refl eq_refl eq_refl). unfold s1 in *.
  rewrite reshape_reshape in *. simpl in *. rewrite insert_insert_eq in *. by apply HQ.
Qed.

(** The thread whose timer has run out. *)
Definition timed_out (cur t : Z) (th : rt_thread) : rt_thread :=
  set_stat (with_state (if t =? cur then RT_THREAD_RUNNING else RT_THREAD_READY) (stat th))
    (set_error (- RT_ETIMEOUT) (set_timer None th)).

Lemma wp_timeout s t th n (Q : unit -> kernel -> Prop) :
  kwf None s -> threads s !! t = Some th -> thread_timer th = Some n ->
  (forall tb g, let s' := reshape s (<[t := timed_out (rt_current_thread s) t th]> (threads s)) tb g
                 (without t <$> suspend_thread s) in
     kwf None s' -> wp rt_sched_unlock_n_resched Q s') ->
  wp (_thread_timeout t) Q s.
Proof.
  intros H E Hn HQ. destruct (k_thread _ _ H t th E ltac:(done)) as ([Hp Hi Hm Ht] & _ & _).
  rewrite Hn in Ht. destruct Ht as [Hs Hf].
  assert (4 <= state_of th) as Hst by (rewrite suspended_state in Hs; by apply Z.leb_le).
  assert (state_of th <> RT_THREAD_INIT /\ state_of th <> RT_THREAD_READY) as [Hni Hnr]
    by (unfold RT_THREAD_INIT, RT_THREAD_READY; lia).
  pose proof (kwf_open _ _ _ H E Hnr) as Ho.
  apply wp_bind. eapply wp_upd; [exact E|]. apply wp_bind. eapply wp_thread; [apply lookup_insert_eq|].
  change (is_suspended (set_timer None th)) with (is_suspended th). rewrite Hs. simpl negb. cbv iota.
  apply wp_bind. eapply wp_upd; [apply lookup_insert_eq|].
  rewrite reshape_reshape. cbn [reshape threads rt_thread_priority_table rt_thread_ready_priority_group suspend_thread].
  rewrite insert_insert_eq. set (th1 := set_error _ _).
  pose proof (kwf_upd_hole s t th1 Ho (fun _ _ _ _ => Hs)) as H1.
  apply wp_bind, wp_unwait; [done|]. intros s2 H2 Hul. apply wp_bind.
  apply (wp_insert_thread t th1); try done; [apply lookup_insert_eq|by apply Hm|].
  intros tb g v s3 H3. subst s3 s2 v. rewrite !reshape_reshape in *. simpl in H3.
  rewrite insert_insert_eq in H3. simpl. rewrite insert_insert_eq. by apply HQ.
Qed.
