(* ===== verification/Ipc.v ===== *)
(** Semaphores, mutexes and sleeping threads: [ipc.c] and the calls of [thread.c] that wait, over
    the scheduler of [Sched].

    A call of the scheduler may go away to another thread; what the caller does when it comes
    back is a [frame], kept for every thread like its stack.  A run of the system is a sequence
    of actions: the running thread makes a call or goes on with the one it is in, a timer rings,
    the tick comes, an interrupt releases a semaphore.  An interrupt comes between the actions,
    not in the middle of one. *)

From stdpp Require Import gmap.
From S2P Require Import Prelude Sched.
#[local] Open Scope Z_scope.

Definition RT_SEM_VALUE_MAX : Z := 65535.
Definition RT_MUTEX_HOLD_MAX : Z := 255.
Definition RT_WAITING_FOREVER : Z := -1.
Definition RT_WAITING_NO : Z := 0.
Definition RT_IPC_CMD_RESET : Z := 1.
Definition RT_IPC_CMD_SET_VLIMIT : Z := 3.

(** ** Going away *)

Inductive frame :=
  | InSemTake                        (* behind [rt_schedule] in [_rt_sem_take] *)
  | InMutexTake (m : Z)              (* behind the [rt_spin_unlock] of [_rt_mutex_take] that suspends *)
  | InMutexCheck (m : Z)             (* behind its [rt_schedule] *)
  | InMutexFailed (ret : Z)          (* behind the [rt_spin_unlock] of its error path *)
  | InMutexRelease (need : bool)     (* behind the [rt_spin_unlock] of [rt_mutex_release] *)
  | InMutexDetach (m : Z) (free : bool)
  | InSleep (err : Z)                (* behind [rt_exit_critical_safe] in [_thread_sleep] *)
  | InExit                           (* behind [rt_exit_critical_safe] in [_thread_exit] *)
  | InReturn (r : Z).                (* nothing but the return *)

Inductive outcome := Away (f : frame) | Return (r : Z).

#[export] Instance frame_eq_dec : EqDecision frame.
Proof. solve_decision. Defined.

(** [m] calls the scheduler; [k] is what follows. *)
Definition and_then (m : M kernel unit) (f : frame) (k : M kernel outcome) : M kernel outcome :=
  me ← rt_thread_self;
  m ;;;
  now ← rt_thread_self;
  if now =? me then k else mret (Away f).

Definition returning (m : M kernel unit) (r : Z) : M kernel outcome :=
  and_then m (InReturn r) (mret (Return r)).

(** [RT_DEBUG_SCHEDULER_AVAILABLE] *)
Definition scheduler_available : M kernel unit :=
  n ← rt_critical_level; if negb (n =? 0) then throw AssertFail else mret tt.

(** ** Semaphores *)

Definition rt_sem_init (x v flag : Z) : M kernel outcome :=
  if negb (v <? 65536) || negb ((flag =? RT_IPC_FLAG_FIFO) || (flag =? RT_IPC_FLAG_PRIO))
  then throw AssertFail else
  put_sem x (Semaphore flag v RT_SEM_VALUE_MAX) ;;;
  set_suspend (insert x []) ;;;
  mret (Return RT_EOK).

Definition rt_sem_detach (x : Z) : M kernel outcome :=
  sem x ;;;
  rt_susp_list_resume_all x RT_ERROR ;;;
  set_sems (delete x) ;;;
  mret (Return RT_EOK).

(** The end of [_rt_sem_take], when the thread comes back. *)
Definition sem_take_end : M kernel outcome :=
  t ← rt_thread_self;
  th ← thread t;
  if negb (error th =? RT_EOK)
  then mret (Return (if 0 <? error th then - error th else error th))
  else mret (Return RT_EOK).

Definition _rt_sem_take (x timeout suspend_flag : Z) : M kernel outcome :=
  v ← sem x;
  scheduler_available ;;;
  if 0 <? value v then
    put_sem x (Semaphore (sem_flag v) (value v - 1) (max_value v)) ;;;
    mret (Return RT_EOK)
  else if timeout =? 0 then mret (Return (- RT_ETIMEOUT))
  else
    t ← rt_thread_self;
    upd t (set_error RT_EINTR) ;;;
    ret ← rt_thread_suspend_to_list t (Some x) (sem_flag v) suspend_flag;
    if negb (ret =? RT_EOK) then mret (Return ret) else
    (if 0 <? timeout then thread_timer_start t timeout else mret tt) ;;;
    and_then rt_schedule InSemTake sem_take_end.

Definition rt_sem_take (x time : Z) : M kernel outcome := _rt_sem_take x time RT_UNINTERRUPTIBLE.
Definition rt_sem_trytake (x : Z) : M kernel outcome := rt_sem_take x RT_WAITING_NO.

Definition rt_sem_release (x : Z) : M kernel outcome :=
  v ← sem x;
  l ← wait_list x;
  if negb (bool_decide (l = [])) then
    rt_susp_list_dequeue x RT_EOK ;;;
    returning rt_schedule RT_EOK
  else if value v <? max_value v then
    put_sem x (Semaphore (sem_flag v) (u16 (value v + 1)) (max_value v)) ;;;
    mret (Return RT_EOK)
  else mret (Return (- RT_EFULL)).

Definition rt_sem_control (x cmd arg : Z) : M kernel outcome :=
  v ← sem x;
  if cmd =? RT_IPC_CMD_RESET then
    rt_susp_list_resume_all x RT_ERROR ;;;
    put_sem x (Semaphore (sem_flag v) (u16 arg) (max_value v)) ;;;
    returning rt_schedule RT_EOK
  else if cmd =? RT_IPC_CMD_SET_VLIMIT then
    let max := u16 arg in
    if (RT_SEM_VALUE_MAX <? max) || (max <? 1) then mret (Return (- RT_EINVAL)) else
    l ← wait_list x;
    let wake := (max <? value v) && negb (bool_decide (l = [])) in
    (if wake then rt_susp_list_resume_all x RT_ERROR ;;; mret tt else mret tt) ;;;
    put_sem x (Semaphore (sem_flag v) (value v) max) ;;;
    if wake then returning rt_schedule RT_EOK else mret (Return RT_EOK)
  else mret (Return (- RT_ERROR)).

(** ** The priorities of mutexes *)

Definition set_m_priority (p : Z) (x : rt_mutex) : rt_mutex :=
  Mutex (registered x) (ceiling_priority x) p (hold x) (owner x).
Definition set_owner (o : option Z) (p h : Z) (x : rt_mutex) : rt_mutex :=
  Mutex (registered x) (ceiling_priority x) p h o.
Definition set_hold (h : Z) (x : rt_mutex) : rt_mutex :=
  Mutex (registered x) (ceiling_priority x) (priority x) h (owner x).
Definition set_ceiling (p : Z) (x : rt_mutex) : rt_mutex :=
  Mutex (registered x) p (priority x) (hold x) (owner x).

(** [rt_list_remove] of the node of a mutex. *)
Definition taken_remove (m : Z) : M kernel unit :=
  set_threads (fmap (fun th => set_taken (without m (taken_object_list th)) th)).

Definition _mutex_update_priority (m : Z) : M kernel unit :=
  x ← mutex m;
  l ← wait_list m;
  match l with
  | t :: _ => th ← thread t; put_mutex m (set_m_priority (current_priority th) x)
  | [] => put_mutex m (set_m_priority 255 x)
  end.

(** The loop over the mutexes of a thread. *)
Fixpoint taken_priority (l : list Z) (p : Z) : M kernel Z :=
  match l with
  | [] => mret p
  | m :: l =>
      x ← mutex m;
      let mp := if priority x <? ceiling_priority x then priority x else ceiling_priority x in
      taken_priority l (if mp <? p then mp else p)
  end.
Definition _thread_get_mutex_priority (t : Z) : M kernel Z :=
  th ← thread t; taken_priority (taken_object_list th) (init_priority th).

(** The loop of [_thread_update_priority], along the mutexes that the threads wait for. *)
Fixpoint update_loop (fuel : nat) (t : Z) : M kernel unit :=
  match fuel with
  | O => throw Spin
  | S fuel =>
      th ← thread t;
      if negb (is_suspended th) then mret tt else
      match pending_object th with
      | None => mret tt
      | Some m =>
          x ← mutex m;
          if negb (registered x) then mret tt else
          list_remove t ;;;
          rt_susp_list_enqueue m t RT_IPC_FLAG_PRIO ;;;
          _mutex_update_priority m ;;;
          o ← lift (of_option NullDeref (owner x));
          p ← _thread_get_mutex_priority o;
          tho ← thread o;
          if negb (p =? current_priority tho)
          then rt_sched_thread_change_priority o p ;;; update_loop fuel o
          else mret tt
      end
  end.
(** A chain of threads without a cycle meets every mutex once at most; around a cycle of threads
    that wait for each other a priority moves in one direction, through 32 values. *)
Definition chain_fuel (s : kernel) : nat := (34 * S (size (threads s) + size (mutexes s)))%nat.

Definition _thread_update_priority (t p : Z) : M kernel unit :=
  rt_sched_thread_change_priority t p ;;;
  fuel ← gets chain_fuel;
  update_loop fuel t.

Definition _check_and_update_prio (t m : Z) : M kernel bool :=
  x ← mutex m;
  th ← thread t;
  if negb (ceiling_priority x =? 255) || (current_priority th =? priority x) then
    p ← _thread_get_mutex_priority t;
    rt_sched_thread_change_priority t p ;;;
    mret true
  else mret false.

(** ** Mutexes *)

Definition rt_mutex_init (m : Z) : M kernel outcome :=
  put_mutex m (Mutex true 255 255 0 None) ;;;
  set_suspend (insert m []) ;;;
  mret (Return RT_EOK).

(** The end of [rt_mutex_detach] and [rt_mutex_delete]. *)
Definition mutex_detach_end (m : Z) (free : bool) : M kernel outcome :=
  (if free then set_mutexes (delete m)
   else x ← mutex m;
        put_mutex m (Mutex false (ceiling_priority x) (priority x) (hold x) (owner x))) ;;;
  mret (Return RT_EOK).

Definition mutex_registered (m : Z) : M kernel rt_mutex :=
  x ← mutex m; if negb (registered x) then throw AssertFail else mret x.

Definition _mutex_before_delete_detach (m : Z) (free : bool) : M kernel outcome :=
  rt_enter_critical ;;;
  rt_susp_list_resume_all m RT_ERROR ;;;
  taken_remove m ;;;
  x ← mutex m;
  (match owner x with
   | Some o =>
       need_schedule ← _check_and_update_prio o m;
       if need_schedule : bool then rt_schedule else mret tt
   | None => mret tt
   end) ;;;
  and_then rt_exit_critical (InMutexDetach m free) (mutex_detach_end m free).

Definition rt_mutex_detach (m : Z) : M kernel outcome :=
  mutex_registered m ;;; _mutex_before_delete_detach m false.
Definition rt_mutex_delete (m : Z) : M kernel outcome :=
  mutex_registered m ;;; _mutex_before_delete_detach m true.

(** The owner's priority, after a thread has left the list of the mutex. *)
Definition owner_update (o : Z) : M kernel unit :=
  p ← _thread_get_mutex_priority o;
  tho ← thread o;
  if negb (p =? current_priority tho) then _thread_update_priority o p else mret tt.

(** Has the owner the priority of the thread? *)
Definition need_update (x : rt_mutex) (t : Z) : M kernel bool :=
  match owner x with
  | Some o => th ← thread t; tho ← thread o; mret (current_priority tho =? current_priority th)
  | None => mret false
  end.

Definition rt_mutex_drop_thread (m t : Z) : M kernel unit :=
  rt_enter_critical ;;;
  th ← thread t;
  if negb (bool_decide (pending_object th = Some m)) then throw AssertFail else
  list_remove t ;;;
  x ← mutex m;
  need ← need_update x t;
  _mutex_update_priority m ;;;
  (match owner x with
   | Some o => if need : bool then owner_update o else mret tt
   | None => mret tt
   end) ;;;
  rt_exit_critical.

Definition rt_mutex_setprioceiling (m p : Z) : M kernel outcome :=
  if negb (p <? RT_THREAD_PRIORITY_MAX) then mret (Return 255) else
  x ← mutex m;
  rt_enter_critical ;;;
  put_mutex m (set_ceiling p x) ;;;
  (match owner x with Some o => owner_update o | None => mret tt end) ;;;
  returning rt_exit_critical (ceiling_priority x).

Definition rt_mutex_getprioceiling (m : Z) : M kernel outcome :=
  x ← mutex m;
  rt_enter_critical ;;;
  returning rt_exit_critical (ceiling_priority x).

(** The ways on when [_rt_mutex_take] comes back: behind the unlock of the error path, behind
    [rt_schedule], behind the unlock that suspended it. *)
Definition mutex_take_failed (ret : Z) : M kernel outcome :=
  t ← rt_thread_self;
  upd t (set_pending None) ;;;
  mret (Return (if 0 <? ret then - ret else ret)).

Definition mutex_take_check (m : Z) : M kernel outcome :=
  rt_enter_critical ;;;
  t ← rt_thread_self;
  th ← thread t;
  x ← mutex m;
  if error th =? RT_EOK then
    if negb (bool_decide (owner x = Some t)) then throw AssertFail else
    returning rt_exit_critical RT_EOK
  else
    if bool_decide (owner x = Some t) then throw AssertFail else
    need ← need_update x t;
    _mutex_update_priority m ;;;
    (match owner x with
     | Some o => if need : bool then owner_update o else mret tt
     | None => mret tt
     end) ;;;
    and_then rt_exit_critical (InMutexFailed (error th)) (mutex_take_failed (error th)).

Definition mutex_take_schedule (m : Z) : M kernel outcome :=
  and_then rt_schedule (InMutexCheck m) (mutex_take_check m).

(** The branch that waits. *)
Definition mutex_wait (m : Z) (x : rt_mutex) (o timeout suspend_flag : Z) : M kernel outcome :=
  t ← rt_thread_self;
  ret ← rt_thread_suspend_to_list t (Some m) RT_IPC_FLAG_PRIO suspend_flag;
  if negb (ret =? RT_EOK) then returning rt_exit_critical ret else
  upd t (set_pending (Some m)) ;;;
  th ← thread t;
  let p := current_priority th in
  (if p <? priority x then
     put_mutex m (set_m_priority p x) ;;;
     tho ← thread o;
     if p <? current_priority tho then _thread_update_priority o p else mret tt
   else mret tt) ;;;
  (if 0 <? timeout then thread_timer_start t timeout else mret tt) ;;;
  and_then rt_exit_critical (InMutexTake m) (mutex_take_schedule m).

Definition _rt_mutex_take (m timeout suspend_flag : Z) : M kernel outcome :=
  scheduler_available ;;;
  x ← mutex_registered m;
  t ← rt_thread_self;
  rt_enter_critical ;;;
  upd t (set_error RT_EOK) ;;;
  if bool_decide (owner x = Some t) then
    if hold x <? RT_MUTEX_HOLD_MAX then
      put_mutex m (set_hold (hold x + 1) x) ;;;
      returning rt_exit_critical RT_EOK
    else returning rt_exit_critical (- RT_EFULL)
  else
    match owner x with
    | None =>
        put_mutex m (set_owner (Some t) 255 1 x) ;;;
        th ← thread t;
        (if negb (ceiling_priority x =? 255) && (ceiling_priority x <? current_priority th)
         then _thread_update_priority t (ceiling_priority x) else mret tt) ;;;
        upd t (fun th => set_taken (m :: taken_object_list th) th) ;;;
        returning rt_exit_critical RT_EOK
    | Some o =>
        if timeout =? 0 then
          upd t (set_error RT_ETIMEOUT) ;;;
          returning rt_exit_critical (- RT_ETIMEOUT)
        else mutex_wait m x o timeout suspend_flag
    end.

Definition rt_mutex_take (m time : Z) : M kernel outcome := _rt_mutex_take m time RT_UNINTERRUPTIBLE.
Definition rt_mutex_trytake (m : Z) : M kernel outcome := rt_mutex_take m RT_WAITING_NO.

(** The loop of [rt_mutex_release]: the first thread that can be made ready. *)
Fixpoint wake_loop (fuel : nat) (m : Z) : M kernel (option Z) :=
  match fuel with
  | O => throw Spin
  | S fuel =>
      l ← wait_list m;
      match l with
      | [] => mret None
      | t :: _ =>
          th ← thread t;
          if negb (is_suspended th) then throw AssertFail else
          list_remove t ;;;
          error ← rt_sched_thread_ready t;
          if error =? RT_EOK then mret (Some t) else wake_loop fuel m
      end
  end.

(** The mutex is passed on, or is free. *)
Definition hand_over (m : Z) : M kernel bool :=
  l ← wait_list m;
  next ← wake_loop (S (length l)) m;
  x ← mutex m;
  match next with
  | Some t =>
      put_mutex m (set_owner (Some t) (priority x) 1 x) ;;;
      upd t (fun th => set_taken (m :: taken_object_list th) th) ;;;
      upd t (set_pending None) ;;;
      _mutex_update_priority m ;;;
      mret true
  | None => put_mutex m (set_owner None 255 (hold x) x) ;;; mret false
  end.

Definition mutex_release_end (need : bool) : M kernel outcome :=
  if need then returning rt_schedule RT_EOK else mret (Return RT_EOK).

Definition rt_mutex_release (m : Z) : M kernel outcome :=
  x ← mutex_registered m;
  t ← rt_thread_self;
  rt_enter_critical ;;;
  if negb (bool_decide (owner x = Some t)) then
    upd t (set_error (- RT_ERROR)) ;;;
    returning rt_exit_critical (- RT_ERROR)
  else
    let h := u8 (hold x - 1) in
    put_mutex m (set_hold h x) ;;;
    need ← (if h =? 0 then
              taken_remove m ;;;
              n1 ← _check_and_update_prio t m;
              n2 ← hand_over m;
              mret (n1 || n2)
            else mret false);
    and_then rt_exit_critical (InMutexRelease need) (mutex_release_end need).

(** ** Yielding, sleeping, and the end of threads *)

(** [rt_thread_yield] returns when the thread runs again. *)
Definition rt_thread_yield_call : M kernel outcome := returning (rt_thread_yield ;;; mret tt) RT_EOK.

Definition sleep_end (err : Z) : M kernel outcome :=
  t ← rt_thread_self;
  upd t (fun th => if error th =? - RT_ETIMEOUT then set_error RT_EOK th else th) ;;;
  mret (Return err).

Definition _thread_sleep (tick : Z) : M kernel outcome :=
  if tick =? 0 then mret (Return (- RT_EINVAL)) else
  t ← rt_thread_self;
  scheduler_available ;;;
  upd t (set_error RT_EOK) ;;;
  critical_level ← rt_enter_critical;
  err ← rt_thread_suspend_with_flag t RT_INTERRUPTIBLE;
  if err =? RT_EOK then
    thread_timer_start t tick ;;;
    upd t (set_error (- RT_EINTR)) ;;;
    rt_schedule ;;;
    and_then (rt_exit_critical_safe critical_level) (InSleep err) (sleep_end err)
  else returning (rt_exit_critical_safe critical_level) err.

(** [_thread_detach_from_mutex]; the calls of [rt_mutex_release] cannot go away. *)
Definition _thread_detach_from_mutex (t : Z) : M kernel unit :=
  th ← thread t;
  (match pending_object th with
   | Some m =>
       x ← mutex m;
       if registered x then rt_mutex_drop_thread m t ;;; upd t (set_pending None) else mret tt
   | None => mret tt
   end) ;;;
  th ← thread t;
  mfor (taken_object_list th) (fun m => rt_mutex_release m ;;; mret tt).

(** [_thread_detach], behind [rt_thread_detach] and [rt_thread_delete]: the memory goes to the
    idle thread. *)
Definition _thread_detach (t : Z) : M kernel outcome :=
  critical_level ← rt_enter_critical;
  th ← thread t;
  (if negb (state_of th =? RT_THREAD_CLOSE) then
     (if negb (state_of th =? RT_THREAD_INIT) then rt_sched_remove_thread t else mret tt) ;;;
     upd t (set_timer None) ;;;
     rt_sched_thread_close t ;;;
     _thread_detach_from_mutex t
   else mret tt) ;;;
  returning (rt_exit_critical_safe critical_level) RT_EOK.

(** [_thread_exit], where the function of a thread returns to: what follows is for a thread that
    no longer runs. *)
Definition exit_end : M kernel outcome := returning rt_schedule RT_EOK.

Definition _thread_exit : M kernel outcome :=
  t ← rt_thread_self;
  critical_level ← rt_enter_critical;
  rt_sched_remove_thread t ;;;
  upd t (set_timer None) ;;;
  rt_sched_thread_close t ;;;
  and_then (rt_exit_critical_safe critical_level) InExit exit_end.

(** A thread that goes on behind [rt_schedule]. *)
Definition go_on (f : frame) : M kernel outcome :=
  match f with
  | InSemTake => sem_take_end
  | InMutexTake m => mutex_take_schedule m
  | InMutexCheck m => mutex_take_check m
  | InMutexFailed ret => mutex_take_failed ret
  | InMutexRelease need => mutex_release_end need
  | InMutexDetach m free => mutex_detach_end m free
  | InSleep err => sleep_end err
  | InExit => exit_end
  | InReturn r => mret (Return r)
  end.

(** ** Runs *)

Inductive call :=
  | SemTake (x timeout flag : Z)
  | SemRelease (x : Z)
  | SemControl (x cmd arg : Z)
  | SemDetach (x : Z)
  | MutexTake (m timeout flag : Z)
  | MutexRelease (m : Z)
  | MutexDetach (m : Z)
  | MutexDelete (m : Z)
  | SetPrioCeiling (m p : Z)
  | GetPrioCeiling (m : Z)
  | Sleep (tick : Z)
  | Yield
  | ThreadDetach (t : Z)
  | Exit.

Definition perform (c : call) : M kernel outcome :=
  match c with
  | SemTake x timeout flag => _rt_sem_take x timeout flag
  | SemRelease x => rt_sem_release x
  | SemControl x cmd arg => rt_sem_control x cmd arg
  | SemDetach x => rt_sem_detach x
  | MutexTake m timeout flag => _rt_mutex_take m timeout flag
  | MutexRelease m => rt_mutex_release m
  | MutexDetach m => rt_mutex_detach m
  | MutexDelete m => rt_mutex_delete m
  | SetPrioCeiling m p => rt_mutex_setprioceiling m p
  | GetPrioCeiling m => rt_mutex_getprioceiling m
  | Sleep tick => _thread_sleep tick
  | Yield => rt_thread_yield_call
  | ThreadDetach t => _thread_detach t
  | Exit => _thread_exit
  end.

(** The kernel, the call that each thread is in with what follows in it, and the calls that have
    returned, each with its thread and result. *)
Record machine := Machine {
  kern : kernel;
  stacks : gmap Z (call * frame);
  log : list (Z * call * Z);
}.

Definition settle (t : Z) (c : call) (mc : machine) (r : outcome * kernel) : machine :=
  match r.1 with
  | Away f => Machine r.2 (<[t := (c, f)]> (stacks mc)) (log mc)
  | Return v => Machine r.2 (delete t (stacks mc)) (log mc ++ [(t, c, v)])
  end.

Inductive action :=
  | Call (c : call)        (* the running thread calls *)
  | GoOn                   (* the running thread goes on in its call *)
  | Timeout (t : Z)        (* the timer of a thread rings *)
  | Tick                   (* the tick interrupt, for the running thread *)
  | IrqRelease (x : Z).    (* an interrupt releases a semaphore *)

Definition interrupt {A} (mc : machine) (m : M kernel A) : res machine :=
  r ← m (kern mc); Ok (Machine r.2 (stacks mc) (log mc)).

Definition step (a : action) (mc : machine) : res machine :=
  let t := rt_current_thread (kern mc) in
  match a with
  | Call c =>
      match stacks mc !! t with
      | Some _ => Err Unspecified
      | None => r ← perform c (kern mc); Ok (settle t c mc r)
      end
  | GoOn =>
      match stacks mc !! t with
      | Some (c, f) => r ← go_on f (kern mc); Ok (settle t c mc r)
      | None => Err Unspecified
      end
  | Timeout t =>
      match threads (kern mc) !! t with
      | Some th => if thread_timer th is Some _ then interrupt mc (_thread_timeout t) else Err Unspecified
      | None => Err Unspecified
      end
  | Tick => interrupt mc rt_sched_tick_increase
  | IrqRelease x => interrupt mc (rt_sem_release x)
  end.

Fixpoint run (l : list action) (mc : machine) : res machine :=
  match l with
  | [] => Ok mc
  | a :: l => mc ← step a mc; run l mc
  end.

(** Threads with their priority and time slice, semaphores with value and flag, and mutexes, from
    reset to the first thread. *)
Definition kernel_reset : kernel := Kernel ∅ [] 0 0 0 ∅ ∅ ∅.

Definition boot_kernel (ths : list (Z * (Z * Z))) (ss : list (Z * (Z * Z))) (ms : list Z) : M kernel unit :=
  modify rt_system_scheduler_init ;;;
  mfor ths (fun x => rt_thread_init x.1 x.2.1 x.2.2 ;;; rt_thread_startup x.1 ;;; mret tt) ;;;
  mfor ss (fun x => rt_sem_init x.1 x.2.1 x.2.2 ;;; mret tt) ;;;
  mfor ms (fun m => rt_mutex_init m ;;; mret tt) ;;;
  rt_system_scheduler_start.

Definition boot ths ss ms : res machine :=
  r ← boot_kernel ths ss ms kernel_reset; Ok (Machine r.2 ∅ []).
