(* ===== verification/Calm.v ===== *)
(** What most of the kernel is to the mutexes of [Ipc]: it leaves their owners and counts alone
    ([calm]), and how a part of a call may end ([ends]).  The proofs follow the code. *)

From stdpp Require Import gmap.
From S2P Require Import Prelude Sched Ipc.
#[local] Open Scope Z_scope.

Definition own (s : kernel) : gmap Z (option Z * Z) := (fun x => (owner x, hold x)) <$> mutexes s.

(** [m] leaves the owners [o] alone, and the current thread if [c] asks for it. *)
Definition calm {A} (c : option Z) (o : gmap Z (option Z * Z)) (P : A -> Prop) (m : M kernel A) : Prop :=
  forall s a s', own s = o -> (forall t, c = Some t -> rt_current_thread s = t) -> m s = Ok (a, s') ->
    own s' = o /\ (forall t, c = Some t -> rt_current_thread s' = t) /\ P a.

Notation quiet m := (forall c o, calm c o (fun _ => True) m).
Notation away m := (forall o, calm None o (fun _ => True) m).

Lemma calm_ret {A} c o (P : A -> Prop) a : P a -> calm c o P (mret a).
Proof. intros HP s b s' Ho Hc E. by injection E as <- <-. Qed.
Lemma calm_bind {A B} c o (R : A -> Prop) (P : B -> Prop) (m : M kernel A) (k : A -> M kernel B) :
  calm c o R m -> (forall a, R a -> calm c o P (k a)) -> calm c o P (m ≫= k).
Proof.
  intros Hm Hk s b s' Ho Hc E. unfold mbind, M_bind in E. destruct (m s) as [[a s1]|] eqn:E1; [|done].
  destruct (Hm s a s1 Ho Hc E1) as (H1 & H2 & Ha). by apply (Hk a Ha s1 b s').
Qed.
Lemma calm_quiet {A B} c o (P : B -> Prop) (m : M kernel A) (k : A -> M kernel B) :
  calm c o (fun _ => True) m -> (forall a, calm c o P (k a)) -> calm c o P (m ≫= k).
Proof. intros Hm Hk. by apply (calm_bind _ _ (fun _ => True)). Qed.
Lemma calm_gets {A} (g : kernel -> A) : quiet (gets g).
Proof. intros c o s a s' Ho Hc E. by injection E as <- <-. Qed.
Lemma calm_modify g c o :
  (forall s, own (g s) = own s) -> (c <> None -> forall s, rt_current_thread (g s) = rt_current_thread s) ->
  calm c o (fun _ => True) (modify g).
Proof.
  intros Hg Hcu s a s' Ho Hc E. injection E as <- <-. split; [by rewrite Hg|]. split; [|done]. intros t ->.
  rewrite Hcu by done. by apply Hc.
Qed.
Lemma calm_throw {A} c o (P : A -> Prop) f : calm c o P (throw f).
Proof. by intros s a s' Ho Hc E. Qed.
Lemma calm_lift {A} (m : res A) : quiet (lift m).
Proof. intros c o s a s' Ho Hc E. unfold lift in E. destruct m; [|done]. by injection E as <- <-. Qed.

Create HintDb calm.
#[export] Hint Resolve calm_gets calm_lift calm_throw : calm.

(** Along the code, through binds, branches and what is known to be calm. *)
Ltac calm_tac :=
  repeat first
    [ progress intros
    | apply calm_ret; solve [auto with calm]
    | solve [auto with calm]
    | apply calm_quiet
    | match goal with |- calm _ _ _ (match ?x with _ => _ end) => destruct x end
    | progress cbv zeta ].

Lemma calm_thread t : quiet (thread t). Proof. unfold thread. calm_tac. Qed.
Lemma calm_mutex t : quiet (mutex t). Proof. unfold mutex. calm_tac. Qed.
Lemma calm_sem t : quiet (sem t). Proof. unfold sem. calm_tac. Qed.
Lemma calm_wait_list t : quiet (wait_list t). Proof. unfold wait_list. calm_tac. Qed.
Lemma calm_set_threads f : quiet (set_threads f). Proof. intros c o. by apply calm_modify. Qed.
Lemma calm_set_table f : quiet (set_table f). Proof. intros c o. by apply calm_modify. Qed.
Lemma calm_set_group f : quiet (set_group f). Proof. intros c o. by apply calm_modify. Qed.
Lemma calm_set_current f : away (set_current f). Proof. intros o. by apply calm_modify. Qed.
Lemma calm_set_nest f : quiet (set_nest f). Proof. intros c o. by apply calm_modify. Qed.
Lemma calm_set_suspend f : quiet (set_suspend f). Proof. intros c o. by apply calm_modify. Qed.
Lemma calm_set_sems f : quiet (set_sems f). Proof. intros c o. by apply calm_modify. Qed.
#[export] Hint Resolve calm_thread calm_mutex calm_sem calm_wait_list calm_set_threads calm_set_table calm_set_group
  calm_set_current calm_set_nest calm_set_suspend calm_set_sems : calm.
Lemma calm_upd t f : quiet (upd t f). Proof. unfold upd. calm_tac. Qed.
Lemma calm_put_sem x v : quiet (put_sem x v). Proof. unfold put_sem. calm_tac. Qed.
Lemma calm_self : quiet rt_thread_self. Proof. unfold rt_thread_self. calm_tac. Qed.
Lemma calm_list_remove t : quiet (list_remove t). Proof. unfold list_remove. calm_tac. Qed.
Lemma calm_ready_list t : quiet (ready_list t). Proof. unfold ready_list. calm_tac. Qed.
Lemma calm_set_ready_list p l : quiet (set_ready_list p l). Proof. unfold set_ready_list. calm_tac. Qed.
#[export] Hint Resolve calm_upd calm_put_sem calm_self calm_list_remove calm_ready_list calm_set_ready_list : calm.
Lemma calm_insert_thread t : quiet (rt_sched_insert_thread t). Proof. unfold rt_sched_insert_thread. calm_tac. Qed.
Lemma calm_remove_thread t : quiet (rt_sched_remove_thread t). Proof. unfold rt_sched_remove_thread. calm_tac. Qed.
Lemma calm_highest : quiet _scheduler_get_highest_priority_thread.
Proof. unfold _scheduler_get_highest_priority_thread. calm_tac. Qed.
#[export] Hint Resolve calm_insert_thread calm_remove_thread calm_highest : calm.
Lemma calm_give_way c th : quiet (give_way c th). Proof. unfold give_way. calm_tac. Qed.
#[export] Hint Resolve calm_give_way : calm.
Lemma calm_schedule : away rt_schedule. Proof. unfold rt_schedule. calm_tac. Qed.
#[export] Hint Resolve calm_schedule : calm.
Lemma calm_enter : quiet rt_enter_critical. Proof. unfold rt_enter_critical. calm_tac. Qed.
Lemma calm_exit : away rt_exit_critical. Proof. unfold rt_exit_critical. calm_tac. Qed.
#[export] Hint Resolve calm_exit : calm.
Lemma calm_exit_safe l : away (rt_exit_critical_safe l). Proof. unfold rt_exit_critical_safe. calm_tac. Qed.
Lemma calm_level : quiet rt_critical_level. Proof. unfold rt_critical_level. calm_tac. Qed.
Lemma calm_resched : away rt_sched_unlock_n_resched. Proof. unfold rt_sched_unlock_n_resched. calm_tac. Qed.
#[export] Hint Resolve calm_enter calm_exit_safe calm_level calm_resched : calm.
Lemma calm_timer_start t n : quiet (thread_timer_start t n). Proof. unfold thread_timer_start. calm_tac. Qed.
Lemma calm_timer_stop t : quiet (thread_timer_stop t). Proof. unfold thread_timer_stop. calm_tac. Qed.
#[export] Hint Resolve calm_timer_start calm_timer_stop : calm.
Lemma calm_sched_timer_stop t : quiet (rt_sched_thread_timer_stop t). Proof. unfold rt_sched_thread_timer_stop. calm_tac. Qed.
#[export] Hint Resolve calm_sched_timer_stop : calm.
Lemma calm_ready t : quiet (rt_sched_thread_ready t). Proof. unfold rt_sched_thread_ready. calm_tac. Qed.
Lemma calm_yield t : quiet (rt_sched_thread_yield t). Proof. unfold rt_sched_thread_yield. calm_tac. Qed.
Lemma calm_change t p : quiet (rt_sched_thread_change_priority t p). Proof. unfold rt_sched_thread_change_priority. calm_tac. Qed.
Lemma calm_enqueue o t f : quiet (rt_susp_list_enqueue o t f). Proof. unfold rt_susp_list_enqueue. calm_tac. Qed.
#[export] Hint Resolve calm_ready calm_yield calm_change calm_enqueue : calm.
Lemma calm_tick : away rt_sched_tick_increase. Proof. unfold rt_sched_tick_increase. calm_tac. Qed.
Lemma calm_timeout t : away (_thread_timeout t). Proof. unfold _thread_timeout. calm_tac. Qed.
Lemma calm_dequeue o e : quiet (rt_susp_list_dequeue o e). Proof. unfold rt_susp_list_dequeue. calm_tac. Qed.
#[export] Hint Resolve calm_tick calm_timeout calm_dequeue : calm.
Lemma calm_resume_loop n o e : quiet (resume_loop n o e).
Proof. induction n; simpl; calm_tac. Qed.
#[export] Hint Resolve calm_resume_loop : calm.
Lemma calm_resume_all o e : quiet (rt_susp_list_resume_all o e). Proof. unfold rt_susp_list_resume_all. calm_tac. Qed.
Lemma calm_suspend_state t f : quiet (_thread_set_suspend_state t f). Proof. unfold _thread_set_suspend_state. calm_tac. Qed.
#[export] Hint Resolve calm_resume_all calm_suspend_state : calm.
Lemma calm_suspend t l f g : quiet (rt_thread_suspend_to_list t l f g). Proof. unfold rt_thread_suspend_to_list. calm_tac. Qed.
#[export] Hint Resolve calm_suspend : calm.
Lemma calm_available : quiet scheduler_available. Proof. unfold scheduler_available. calm_tac. Qed.
#[export] Hint Resolve calm_available : calm.

(** A mutex that has been read has the owner and count of [o]. *)
Definition stands (o : gmap Z (option Z * Z)) (m : Z) (x : rt_mutex) : Prop := o !! m = Some (owner x, hold x).

Lemma calm_read c o m : calm c o (stands o m) (mutex m).
Proof.
  intros s x s' <- Hc E. unfold mutex, mbind, M_bind, gets, lift in E.
  destruct (mutexes s !! m) as [y|] eqn:Ey; [|done]. injection E as <- <-. split_and!; [done..|].
  unfold stands, own. by rewrite lookup_fmap, Ey.
Qed.

Lemma calm_put c o m x : stands o m x -> calm c o (fun _ => True) (put_mutex m x).
Proof.
  intros Hx s a s' <- Hc E. injection E as <- <-. split_and!; [|done..]. unfold own. simpl.
  rewrite fmap_insert. by apply insert_id.
Qed.
#[export] Hint Resolve calm_put : calm.

Lemma calm_update_prio m : quiet (_mutex_update_priority m).
Proof.
  intros c o. eapply calm_bind; [apply calm_read|]. intros x Hx. apply calm_quiet; [auto with calm|]. intros [|t l].
  - by apply calm_put.
  - apply calm_quiet; [auto with calm|]. intros th. by apply calm_put.
Qed.
#[export] Hint Resolve calm_update_prio : calm.
Lemma calm_taken_priority l p : quiet (taken_priority l p).
Proof. revert p. induction l as [|m l IH]; simpl; calm_tac. Qed.
#[export] Hint Resolve calm_taken_priority : calm.
Lemma calm_get_priority t : quiet (_thread_get_mutex_priority t). Proof. unfold _thread_get_mutex_priority. calm_tac. Qed.
#[export] Hint Resolve calm_get_priority : calm.
Lemma calm_update_loop n t : quiet (update_loop n t).
Proof. revert t. induction n as [|n IH]; simpl; calm_tac. Qed.
#[export] Hint Resolve calm_update_loop : calm.
Lemma calm_thread_update t p : quiet (_thread_update_priority t p). Proof. unfold _thread_update_priority. calm_tac. Qed.
#[export] Hint Resolve calm_thread_update : calm.
Lemma calm_check_prio t m : quiet (_check_and_update_prio t m). Proof. unfold _check_and_update_prio. calm_tac. Qed.
Lemma calm_owner_update t : quiet (owner_update t). Proof. unfold owner_update. calm_tac. Qed.
Lemma calm_need_update x t : quiet (need_update x t). Proof. unfold need_update. calm_tac. Qed.
Lemma calm_taken_remove m : quiet (taken_remove m). Proof. unfold taken_remove. calm_tac. Qed.
#[export] Hint Resolve calm_check_prio calm_owner_update calm_need_update calm_taken_remove : calm.

(** What a part of a call may end with, started in the thread [t]. *)
Definition ends {A} (t : Z) (o : gmap Z (option Z * Z)) (P : A -> Prop) (m : M kernel A) : Prop :=
  forall s a s', own s = o -> rt_current_thread s = t -> m s = Ok (a, s') -> own s' = o /\ P a.

Lemma ends_calm {A} t o (P : A -> Prop) m : calm (Some t) o P m -> ends t o P m.
Proof.
  intros H s a s' Ho Hc E. destruct (H s a s' Ho) as (H1 & _ & H2); [by intros u [= <-]|done|done].
Qed.
Lemma ends_away {A} t o (P : A -> Prop) m : calm None o P m -> ends t o P m.
Proof. intros H s a s' Ho Hc E. destruct (H s a s' Ho) as (H1 & _ & H2); [done|done|done]. Qed.
Lemma ends_ret {A} t o (P : A -> Prop) a : P a -> ends t o P (mret a).
Proof. intros HP. by apply ends_calm, calm_ret. Qed.
Lemma ends_throw {A} t o (P : A -> Prop) f : ends t o P (throw f).
Proof. apply ends_calm, calm_throw. Qed.
Lemma ends_bind {A B} t o (R : A -> Prop) (P : B -> Prop) (m : M kernel A) k :
  calm (Some t) o R m -> (forall a, R a -> ends t o P (k a)) -> ends t o P (m ≫= k).
Proof.
  intros Hm Hk s b s' Ho Hc E. unfold mbind, M_bind in E. destruct (m s) as [[a s1]|] eqn:E1; [|done].
  destruct (Hm s a s1 Ho) as (H1 & H2 & Ha); [by intros u [= <-]|done|]. apply (Hk a Ha s1 b s'); auto.
Qed.
Lemma ends_quiet {A B} t o (P : B -> Prop) (m : M kernel A) k :
  calm (Some t) o (fun _ => True) m -> (forall a, ends t o P (k a)) -> ends t o P (m ≫= k).
Proof. intros Hm Hk. by apply (ends_bind t o (fun _ => True)). Qed.

Lemma ends_self {B} t o (P : B -> Prop) k : ends t o P (k t) -> ends t o P (rt_thread_self ≫= k).
Proof. intros Hk s b s' Ho Hc E. cbn in E. unfold mbind, M_bind, rt_thread_self, gets in E. rewrite Hc in E. by apply (Hk s b s'). Qed.

Lemma ends_and_then t o (P : outcome -> Prop) m f k :
  (forall o', calm None o' (fun _ => True) m) -> P (Away f) -> ends t o P k -> ends t o P (and_then m f k).
Proof.
  intros Hm Hf Hk. apply ends_self. intros s b s' Ho Hc E. unfold mbind, M_bind in E.
  destruct (m s) as [[[] s1]|] eqn:E1; [|done]. destruct (Hm o s tt s1 Ho) as (H1 & _ & _); [done|done|].
  unfold rt_thread_self, gets in E. destruct (Z.eqb_spec (rt_current_thread s1) t) as [Hc1|Hc1].
  - by apply (Hk s1 b s').
  - injection E as <- <-. done.
Qed.

Lemma ends_returning t o (P : outcome -> Prop) m r :
  away m -> P (Away (InReturn r)) -> P (Return r) -> ends t o P (returning m r).
Proof. intros Hm H1 H2. apply ends_and_then; [done..|]. by apply ends_ret. Qed.

Ltac ends_tac :=
  repeat first
    [ progress intros
    | apply ends_throw
    | apply ends_ret; solve [auto]
    | apply ends_self
    | apply ends_quiet; [solve [calm_tac]|]
    | match goal with |- ends _ _ _ (match ?x with _ => _ end) => destruct x end
    | progress cbv zeta ].

(** ** How the calls end *)

Definition result (r : Z) (out : outcome) : Prop := out = Return r \/ out = Away (InReturn r).

(** A call that is neither a take nor a release of a mutex. *)
Definition plain (out : outcome) : Prop :=
  match out with Return _ | Away (InSemTake | InSleep _ | InExit | InReturn _) => True | _ => False end.

(** The end of a take that has waited, for the owners [o]. *)
Definition owned (o : gmap Z (option Z * Z)) (m t : Z) : Prop := exists h, o !! m = Some (Some t, h).
Definition took (o : gmap Z (option Z * Z)) (t m : Z) (out : outcome) : Prop :=
  match out with
  | Return r | Away (InReturn r) => r = 0 <-> owned o m t
  | Away (InMutexTake k | InMutexCheck k) => k = m
  | Away (InMutexFailed r) => r <> 0 /\ ~ owned o m t
  | _ => False
  end.

Lemma owned_stands o m t x : stands o m x -> owned o m t <-> owner x = Some t.
Proof. unfold stands, owned. intros ->. split; [by intros [h [= ->]]|intros ->; by eexists]. Qed.

Lemma ends_take_failed t o m r : r <> 0 -> ~ owned o m t -> ends t o (took o t m) (mutex_take_failed r).
Proof.
  intros Hr Ho. unfold mutex_take_failed. ends_tac. apply ends_ret. simpl. split; [|done].
  destruct (Z.ltb_spec 0 r); lia.
Qed.

Lemma ends_take_check t o m : ends t o (took o t m) (mutex_take_check m).
Proof.
  unfold mutex_take_check. apply ends_quiet; [auto with calm|]. intros _. apply ends_self, ends_quiet; [auto with calm|]. intros th.
  eapply ends_bind; [apply calm_read|]. intros x Hx. pose proof (owned_stands o m t x Hx) as Hiff.
  destruct (Z.eqb_spec (error th) RT_EOK) as [He|He]; case_bool_decide as Ho; simpl negb; cbv iota; try apply ends_throw.
  - apply ends_returning; [auto with calm|..]; simpl; by rewrite Hiff.
  - apply ends_quiet; [auto with calm|]. intros need. apply ends_quiet; [auto with calm|]. intros [].
    apply ends_quiet; [calm_tac|]. intros []. rewrite <- Hiff in Ho.
    apply ends_and_then; [auto with calm|done|]. by apply ends_take_failed.
Qed.

Lemma ends_take_schedule t o m : ends t o (took o t m) (mutex_take_schedule m).
Proof. apply ends_and_then; [auto with calm|done|apply ends_take_check]. Qed.

Lemma ends_mutex_wait t o m x w n fl :
  stands o m x -> ends t o (fun out => took o t m out \/ exists r, result r out /\ r <> 0) (mutex_wait m x w n fl).
Proof.
  intros Hx. unfold mutex_wait. apply ends_self, ends_quiet; [auto with calm|]. intros r.
  destruct (Z.eqb_spec r RT_EOK) as [_|Hr]; simpl negb; cbv iota.
  2: { apply ends_returning; [auto with calm|..]; right; exists r; split; try done; [by right|by left]. }
  apply ends_quiet; [auto with calm|]. intros []. apply ends_quiet; [auto with calm|]. intros th. cbv zeta.
  assert (forall p, calm (Some t) o (fun _ => True) (put_mutex m (set_m_priority p x))) as Hp by (intros p; by apply calm_put).
  apply ends_quiet; [calm_tac|]. intros []. apply ends_quiet; [calm_tac|]. intros [].
  apply ends_and_then; [auto with calm|by left|]. intros s a s' Ho Hc E.
  destruct (ends_take_schedule t o m s a s' Ho Hc E). auto.
Qed.

Lemma ends_release_end t o b : ends t o (result 0) (mutex_release_end b).
Proof. unfold mutex_release_end. destruct b; [apply ends_returning; [auto with calm|by right|by left]|by apply ends_ret; left]. Qed.

Lemma calm_and_then o (P : outcome -> Prop) m f k :
  away m -> P (Away f) -> calm None o P k -> calm None o P (and_then m f k).
Proof.
  intros Hm Hf Hk. apply calm_quiet; [auto with calm|]. intros me. apply calm_quiet; [auto|]. intros [].
  apply calm_quiet; [auto with calm|]. intros now. destruct (now =? me); [done|by apply calm_ret].
Qed.

Ltac plain_tac :=
  calm_tac;
  repeat first
    [ apply calm_ret; exact I
    | apply calm_and_then; [solve [auto with calm]|exact I|]
    | progress calm_tac ].

Lemma calm_sem_take_end o : calm None o plain sem_take_end. Proof. unfold sem_take_end. plain_tac. Qed.
Lemma calm_sleep_end o r : calm None o plain (sleep_end r). Proof. unfold sleep_end. plain_tac. Qed.
Lemma calm_exit_end o : calm None o plain exit_end. Proof. unfold exit_end, returning. plain_tac. Qed.
#[export] Hint Resolve calm_sem_take_end calm_sleep_end calm_exit_end : calm.
Lemma calm_sem_take o x n fl : calm None o plain (_rt_sem_take x n fl). Proof. unfold _rt_sem_take. plain_tac. Qed.
Lemma calm_sem_release o x : calm None o plain (rt_sem_release x). Proof. unfold rt_sem_release, returning. plain_tac. Qed.
Lemma calm_sem_control o x c a : calm None o plain (rt_sem_control x c a).
Proof. unfold rt_sem_control, returning. plain_tac. Qed.
Lemma calm_thread_yield : away rt_thread_yield. Proof. intros o. unfold rt_thread_yield. calm_tac. Qed.
#[export] Hint Resolve calm_thread_yield : calm.
Lemma calm_yield_call o : calm None o plain rt_thread_yield_call.
Proof.
  apply calm_and_then; [|done|by apply calm_ret]. intros o'. apply calm_quiet; [auto with calm|]. intros. by apply calm_ret.
Qed.
Lemma calm_sleep o n : calm None o plain (_thread_sleep n).
Proof. unfold _thread_sleep, rt_thread_suspend_with_flag, returning. plain_tac. Qed.
Lemma calm_close t : quiet (rt_sched_thread_close t). Proof. unfold rt_sched_thread_close. calm_tac. Qed.
#[export] Hint Resolve calm_close : calm.
Lemma calm_thread_exit o : calm None o plain _thread_exit.
Proof. unfold _thread_exit. plain_tac. Qed.
Lemma calm_getprioceiling o m : calm None o plain (rt_mutex_getprioceiling m).
Proof. unfold rt_mutex_getprioceiling, returning. plain_tac. Qed.

Lemma calm_setprioceiling o m p : calm None o plain (rt_mutex_setprioceiling m p).
Proof.
  unfold rt_mutex_setprioceiling, returning. destruct (negb _); [by apply calm_ret|].
  eapply calm_bind; [apply calm_read|]. intros x Hx. apply calm_quiet; [auto with calm|]. intros _.
  apply calm_quiet; [by apply calm_put|]. intros []. plain_tac.
Qed.
