(* ===== verification/Inherit.v ===== *)
(** The mutexes of [Ipc] pass priorities on: a thread that owns a mutex is at least as urgent as
    every thread that waits for it, along every chain of threads that wait for each other.

    What the theorems need of the kernel is its view [av]: threads without the details of their
    state byte and timer, the waiting lists, semaphores and mutexes, the current thread and the
    depth of the lock.  The first part says what each operation of [Sched] does to it. *)

From stdpp Require Import gmap sorting.
From S2P Require Import Prelude Sched Ipc.
#[local] Open Scope Z_scope.

(** ** The view of a kernel *)

Record tview := TView {
  v_class : Z;                 (* 4 suspended, 2 ready or running *)
  v_prio : Z;
  v_init : Z;
  v_err : Z;
  v_taken : list Z;
  v_pend : option Z;
}.

Definition view (th : rt_thread) : tview :=
  TView (class_of (state_of th)) (current_priority th) (init_priority th) (error th)
    (taken_object_list th) (pending_object th).

Definition v_set_class (c : Z) (v : tview) : tview :=
  TView c (v_prio v) (v_init v) (v_err v) (v_taken v) (v_pend v).
Definition v_set_prio (p : Z) (v : tview) : tview :=
  TView (v_class v) p (v_init v) (v_err v) (v_taken v) (v_pend v).
Definition v_set_err (e : Z) (v : tview) : tview :=
  TView (v_class v) (v_prio v) (v_init v) e (v_taken v) (v_pend v).
Definition v_set_taken (l : list Z) (v : tview) : tview :=
  TView (v_class v) (v_prio v) (v_init v) (v_err v) l (v_pend v).
Definition v_set_pend (o : option Z) (v : tview) : tview :=
  TView (v_class v) (v_prio v) (v_init v) (v_err v) (v_taken v) o.

Record av := Av {
  a_th : gmap Z tview;
  a_w : gmap Z (list Z);
  a_sems : gmap Z rt_semaphore;
  a_mtx : gmap Z rt_mutex;
  a_cur : Z;
  a_nest : Z;
}.

Definition abs (s : kernel) : av :=
  Av (view <$> threads s) (suspend_thread s) (sems s) (mutexes s) (rt_current_thread s) (rt_scheduler_lock_nest s).

Definition a_set_th (m : gmap Z tview) (a : av) : av := Av m (a_w a) (a_sems a) (a_mtx a) (a_cur a) (a_nest a).
Definition a_set_w (w : gmap Z (list Z)) (a : av) : av := Av (a_th a) w (a_sems a) (a_mtx a) (a_cur a) (a_nest a).
Definition a_set_sems (x : gmap Z rt_semaphore) (a : av) : av := Av (a_th a) (a_w a) x (a_mtx a) (a_cur a) (a_nest a).
Definition a_set_mtx (x : gmap Z rt_mutex) (a : av) : av := Av (a_th a) (a_w a) (a_sems a) x (a_cur a) (a_nest a).
Definition a_set_cur (t : Z) (a : av) : av := Av (a_th a) (a_w a) (a_sems a) (a_mtx a) t (a_nest a).
Definition a_set_nest (n : Z) (a : av) : av := Av (a_th a) (a_w a) (a_sems a) (a_mtx a) (a_cur a) n.
Definition a_upd (t : Z) (v : tview) (a : av) : av := a_set_th (<[t := v]> (a_th a)) a.

(** The kernel is well formed, its current thread runs or is about to leave, so that it is not
    ready, and no thread is at the address 0. *)
Definition kok (s : kernel) : Prop :=
  kwf None s /\ threads s !! 0 = None /\ exists th, threads s !! rt_current_thread s = Some th /\
    state_of th <> RT_THREAD_READY.

(** No ready thread is more urgent than the one that runs. *)
Definition settled (s : kernel) : Prop :=
  exists th, threads s !! rt_current_thread s = Some th /\ state_of th = RT_THREAD_RUNNING /\
    urgent s (current_priority th).

Lemma state_range th : 0 <= state_of th < 8.
Proof. rewrite state_mod. apply Z.mod_pos_bound. lia. Qed.

Lemma class_suspended th : is_suspended th = (v_class (view th) =? 4).
Proof.
  rewrite suspended_state. simpl. unfold class_of. pose proof (state_range th).
  destruct (Z.leb_spec 4 (state_of th)); [done|]. destruct (Z.leb_spec 2 (state_of th)); [done|].
  symmetry. apply Z.eqb_neq. lia.
Qed.

Lemma class_active th :
  v_class (view th) = 2 <-> state_of th = RT_THREAD_READY \/ state_of th = RT_THREAD_RUNNING.
Proof.
  unfold view, class_of, RT_THREAD_READY, RT_THREAD_RUNNING. simpl. pose proof (state_range th).
  destruct (Z.leb_spec 4 (state_of th)), (Z.leb_spec 2 (state_of th)); lia.
Qed.

Lemma view_strip th : view (strip th) = view th.
Proof.
  unfold view, strip. simpl. f_equal. unfold state_of at 1. simpl. change RT_THREAD_STAT_MASK with (Z.ones 3).
  pose proof (state_range th). assert (0 <= class_of (state_of th) < 8) by (unfold class_of; repeat case_match; lia).
  rewrite Z.land_ones, Z.mod_small by lia. unfold class_of.
  destruct (Z.leb_spec 4 (state_of th)), (Z.leb_spec 2 (state_of th)); try done; repeat case_match; lia.
Qed.

Lemma view_map (m m' : gmap Z rt_thread) : strip <$> m = strip <$> m' -> view <$> m = view <$> m'.
Proof.
  intros H. apply (f_equal (fmap view)) in H. rewrite <- !map_fmap_compose in H.
  assert (forall m : gmap Z rt_thread, view ∘ strip <$> m = view <$> m) as E by (intros; apply map_fmap_ext; intros; apply view_strip).
  by rewrite !E in H.
Qed.

Lemma abs_thread s t v : a_th (abs s) !! t = Some v -> exists th, threads s !! t = Some th /\ view th = v.
Proof. simpl. rewrite lookup_fmap, fmap_Some. naive_solver. Qed.

Lemma abs_reshape s m tb g w : abs (reshape s m tb g w) = a_set_w w (a_set_th (view <$> m) (abs s)).
Proof. done. Qed.

Lemma abs_upd s t th' tb g :
  abs (reshape s (<[t := th']> (threads s)) tb g (suspend_thread s)) = a_upd t (view th') (abs s).
Proof. unfold abs, a_upd, a_set_th. simpl. by rewrite fmap_insert. Qed.

Lemma abs_upd_w s t th' tb g w :
  abs (reshape s (<[t := th']> (threads s)) tb g w) = a_set_w w (a_upd t (view th') (abs s)).
Proof. unfold abs, a_upd, a_set_th. simpl. by rewrite fmap_insert. Qed.

(** ** What the operations do to the view *)

Lemma wp_assoc3 {S A B C D} (m : M S A) (n : M S B) (k : M S C) (j : M S D) Q s :
  wp ((m ;;; n ;;; k) ;;; j) Q s -> wp (m ;;; n ;;; k ;;; j) Q s.
Proof.
  unfold wp, mbind, M_bind. destruct (m s) as [[a s1]|]; [|done]. destruct (n s1) as [[b s2]|]; [|done].
  by destruct (k s2) as [[c s3]|].
Qed.

Lemma vw_thread s t v (Q : rt_thread -> kernel -> Prop) :
  a_th (abs s) !! t = Some v -> (forall th, threads s !! t = Some th -> view th = v -> Q th s) ->
  wp (thread t) Q s.
Proof. intros (th & E & Hv)%abs_thread HQ. eapply wp_thread; [done|]. by apply HQ. Qed.

Lemma vw_mutex s m x (Q : rt_mutex -> kernel -> Prop) :
  a_mtx (abs s) !! m = Some x -> Q x s -> wp (mutex m) Q s.
Proof. intros E HQ. apply wp_bind, wp_gets. unfold wp, lift. simpl in E. by rewrite E. Qed.

Lemma vw_sem s m x (Q : rt_semaphore -> kernel -> Prop) :
  a_sems (abs s) !! m = Some x -> Q x s -> wp (sem m) Q s.
Proof. intros E HQ. apply wp_bind, wp_gets. unfold wp, lift. simpl in E. by rewrite E. Qed.

Lemma vw_wait_list s o l (Q : list Z -> kernel -> Prop) :
  a_w (abs s) !! o = Some l -> Q l s -> wp (wait_list o) Q s.
Proof. apply wp_wait_list. Qed.

Lemma vw_self s (Q : Z -> kernel -> Prop) : Q (a_cur (abs s)) s -> wp rt_thread_self Q s.
Proof. done. Qed.

(** Objects that the scheduler does not look at. *)
Lemma kok_objects s x y n :
  kok s -> kok (Kernel (threads s) (rt_thread_priority_table s) (rt_thread_ready_priority_group s)
                  (rt_current_thread s) n (suspend_thread s) x y).
Proof. intros ([] & H). split; [by constructor|done]. Qed.

Lemma vw_put_mutex s m x (Q : unit -> kernel -> Prop) :
  kok s -> (forall s', kok s' -> abs s' = a_set_mtx (<[m := x]> (a_mtx (abs s))) (abs s) -> Q tt s') ->
  wp (put_mutex m x) Q s.
Proof. intros H HQ. apply wp_modify, HQ; [by apply (kok_objects s)|done]. Qed.

Lemma vw_put_sem s m x (Q : unit -> kernel -> Prop) :
  kok s -> (forall s', kok s' -> (settled s -> settled s') -> abs s' = a_set_sems (<[m := x]> (a_sems (abs s))) (abs s) -> Q tt s') ->
  wp (put_sem m x) Q s.
Proof. intros H HQ. apply wp_modify, HQ; [by apply (kok_objects s)|done|done]. Qed.

Lemma vw_enter s (Q : Z -> kernel -> Prop) :
  kok s -> a_nest (abs s) = 0 -> (forall s', kok s' -> abs s' = a_set_nest 1 (abs s) -> Q 1 s') ->
  wp rt_enter_critical Q s.
Proof.
  intros H Hn HQ. apply wp_bind, wp_gets. simpl in Hn. rewrite Hn. apply wp_bind, wp_modify, wp_gets, HQ; [by apply (kok_objects s)|done].
Qed.

Definition inert (f : rt_thread -> rt_thread) : Prop :=
  forall th, stat (f th) = stat th /\ sched_flag_ttmr_set (f th) = sched_flag_ttmr_set th /\
    thread_timer (f th) = thread_timer th /\ current_priority (f th) = current_priority th /\
    init_priority (f th) = init_priority th /\ number_mask (f th) = number_mask th.

Lemma inert_view f th : inert f -> view (f th) = TView (v_class (view th)) (v_prio (view th)) (v_init (view th))
  (error (f th)) (taken_object_list (f th)) (pending_object (f th)).
Proof. intros H. destruct (H th) as (E & _ & _ & Ep & Ei & _). unfold view, state_of. simpl. by rewrite E, Ep, Ei. Qed.

Lemma kok_thread s t th th' tb g w :
  kok s -> threads s !! t = Some th -> kwf None (reshape s (<[t := th']> (threads s)) tb g w) ->
  (t = rt_current_thread s -> state_of th <> RT_THREAD_READY -> state_of th' <> RT_THREAD_READY) ->
  kok (reshape s (<[t := th']> (threads s)) tb g w).
Proof.
  intros (_ & H0 & thc & Ec & Hc) E H Ht. split; [done|]. simpl.
  split; [by rewrite lookup_insert_ne by congruence|]. destruct (decide (rt_current_thread s = t)) as [Hct|].
  - rewrite Hct, lookup_insert_eq. eexists. split; [done|]. apply Ht; [done|]. congruence.
  - rewrite lookup_insert_ne by done. by exists thc.
Qed.

Lemma settled_upd s t th th' tb g w :
  threads s !! t = Some th -> state_of th' = state_of th -> current_priority th' = current_priority th ->
  settled s -> settled (reshape s (<[t := th']> (threads s)) tb g w).
Proof.
  intros E Hs Hp (thc & Ec & Hr & Hu).
  assert (forall k thk, <[t := th']> (threads s) !! k = Some thk -> exists th0, threads s !! k = Some th0 /\
    state_of thk = state_of th0 /\ current_priority thk = current_priority th0) as Hk.
  { intros k thk. rewrite lookup_insert_Some. intros [[<- <-]|[_ Ek]]; [by exists th|by exists thk]. }
  assert (exists thc', <[t := th']> (threads s) !! rt_current_thread s = Some thc' /\ state_of thc' = RT_THREAD_RUNNING /\
    current_priority thc' = current_priority thc) as (thc' & Ec' & Hr' & Hp').
  { destruct (decide (t = rt_current_thread s)) as [->|Hne]; [|by exists thc; rewrite lookup_insert_ne].
    exists th'. rewrite lookup_insert_eq. replace thc with th by congruence. split_and!; [done| |done]. rewrite Hs. congruence. }
  exists thc'. split_and!; [done..|]. intros k thk Ek Hrk. rewrite Hp'. destruct (Hk k thk Ek) as (th0 & E0 & Hs0 & ->).
  apply (Hu k th0 E0). congruence.
Qed.

Lemma vw_upd s t f v (Q : unit -> kernel -> Prop) :
  kok s -> inert f -> a_th (abs s) !! t = Some v ->
  (forall th s', view th = v -> kok s' -> (settled s -> settled s') -> abs s' = a_upd t (view (f th)) (abs s) -> Q tt s') ->
  wp (upd t f) Q s.
Proof.
  intros Hk Hf (th & E & Hv)%abs_thread HQ. eapply wp_upd; [done|].
  destruct (Hf th) as (E1 & E2 & E3 & E4 & E5 & E6). eapply HQ; [done| | |apply abs_upd].
  2: { apply (settled_upd s t th); [done| |done]. unfold state_of. by rewrite E1. }
  eapply kok_thread; [done|done|apply (kwf_upd _ s t th); [apply Hk|done..]|].
  intros _. unfold state_of. by rewrite E1.
Qed.

Lemma vw_error s t e v (Q : unit -> kernel -> Prop) :
  kok s -> a_th (abs s) !! t = Some v ->
  (forall s', kok s' -> (settled s -> settled s') -> abs s' = a_upd t (v_set_err e v) (abs s) -> Q tt s') -> wp (upd t (set_error e)) Q s.
Proof. intros Hk E HQ. eapply vw_upd; [done|by intros th|done|]. intros th s' <- Hk' Hs' E'. by apply HQ. Qed.

Lemma vw_pending s t o v (Q : unit -> kernel -> Prop) :
  kok s -> a_th (abs s) !! t = Some v ->
  (forall s', kok s' -> (settled s -> settled s') -> abs s' = a_upd t (v_set_pend o v) (abs s) -> Q tt s') -> wp (upd t (set_pending o)) Q s.
Proof. intros Hk E HQ. eapply vw_upd; [done|by intros th|done|]. intros th s' <- Hk' Hs' E'. by apply HQ. Qed.

Lemma vw_taken s t m v (Q : unit -> kernel -> Prop) :
  kok s -> a_th (abs s) !! t = Some v ->
  (forall s', kok s' -> abs s' = a_upd t (v_set_taken (m :: v_taken v) v) (abs s) -> Q tt s') ->
  wp (upd t (fun th => set_taken (m :: taken_object_list th) th)) Q s.
Proof. intros Hk E HQ. eapply vw_upd; [done|by intros th|done|]. intros th s' <- Hk' Hs' E'. by apply HQ. Qed.

(** Fields that the view does not have. *)
Lemma vw_unseen s t f v (Q : unit -> kernel -> Prop) :
  kok s -> inert f -> (forall th, view (f th) = view th) -> a_th (abs s) !! t = Some v ->
  (forall s', kok s' -> (settled s -> settled s') -> abs s' = abs s -> Q tt s') -> wp (upd t f) Q s.
Proof.
  intros Hk Hf Hv Ev HQ. eapply vw_upd; [done..|]. intros th s' Hth Hk' Hs' E. apply HQ; [done..|].
  rewrite E, Hv, Hth. unfold a_upd, a_set_th. rewrite insert_id by done. by destruct (abs s).
Qed.

Lemma vw_yield s t v (Q : unit -> kernel -> Prop) :
  kok s -> a_th (abs s) !! t = Some v -> (forall s', kok s' -> abs s' = abs s -> Q tt s') ->
  wp (rt_sched_thread_yield t) Q s.
Proof.
  intros Hk (th & E & <-)%abs_thread HQ. eapply wp_upd; [done|]. pose proof (set_yield_state th) as Hs.
  set (w := Z.lor (stat th) RT_THREAD_STAT_YIELD) in *. set (th' := set_stat w th).
  pose proof (kwf_same_state None s t th w (proj1 Hk) E Hs) as H1.
  assert (view (set_stat w (set_remaining (init_tick th) th)) = view th) as Hv.
  { unfold view. simpl. f_equal. unfold state_of in *. simpl in *. by rewrite Hs. }
  apply HQ.
  - eapply kok_thread; [done|done| |].
    + pose proof (kwf_upd _ _ t _ (set_stat w (set_remaining (init_tick th) th)) H1 (lookup_insert_eq _ _ _)) as H2.
      rewrite reshape_reshape in H2. simpl in H2. rewrite insert_insert_eq in H2. by apply H2.
    + intros _.
      change (state_of (set_stat w (set_remaining (init_tick th) th))) with (state_of (set_stat w th)). by rewrite Hs.
  - rewrite abs_upd, Hv. unfold a_upd, a_set_th. rewrite insert_id; [by destruct (abs s)|]. simpl. by rewrite lookup_fmap, E.
Qed.

Lemma kok_wait s w :
  kok s -> kwf None (reshape s (threads s) (rt_thread_priority_table s) (rt_thread_ready_priority_group s) w) ->
  kok (reshape s (threads s) (rt_thread_priority_table s) (rt_thread_ready_priority_group s) w).
Proof. intros (_ & H) Hw. by split. Qed.

(** A suspended thread leaves the list it is in. *)
Lemma vw_list_remove s t v (Q : unit -> kernel -> Prop) :
  kok s -> a_th (abs s) !! t = Some v -> v_class v = 4 ->
  (forall s', kok s' -> abs s' = a_set_w (without t <$> a_w (abs s)) (abs s) -> Q tt s') ->
  wp (list_remove t) Q s.
Proof.
  intros Hk (th & E & <-)%abs_thread Hc HQ. pose proof (class_suspended th) as Hs. rewrite Hc in Hs.
  assert (state_of th <> RT_THREAD_READY) as Hr.
  { intros Hr. rewrite suspended_state, Hr in Hs. done. }
  apply wp_unwait; [by apply (kwf_open _ _ th); [apply Hk|..]|]. intros s' Hwf Hul.
  apply HQ; [|done]. apply kok_wait; [done|]. apply kwf_unwait, Hk.
Qed.

(** [l'] is [l] with [t] at its place by priority. *)
Definition v_order (V : gmap Z tview) (l : list Z) : Prop :=
  StronglySorted (fun a b => forall va vb, V !! a = Some va -> V !! b = Some vb -> v_prio va <= v_prio vb) l.

Lemma v_order_in m l : in_order m l <-> v_order (view <$> m) l.
Proof.
  assert (forall a b, (forall p q, prio_of m a = Some p -> prio_of m b = Some q -> p <= q) <->
    (forall va vb, (view <$> m) !! a = Some va -> (view <$> m) !! b = Some vb -> v_prio va <= v_prio vb)) as He.
  { intros a b. unfold prio_of. rewrite !lookup_fmap. destruct (m !! a) as [ta|], (m !! b) as [tb|]; simpl;
      (split; intros H; [intros ? ? [= <-] [= <-]|intros ? ? [= <-] [= <-]]; try done;
       exact (H _ _ eq_refl eq_refl)). }
  unfold in_order, v_order. induction l as [|x l IH]; [by split; constructor|].
  split; intros H; inversion H as [|? ? H1 H2]; subst; (constructor; [by apply IH|]);
    rewrite Forall_forall in *; intros y Hy; by apply He, H2.
Qed.

Lemma vw_enqueue s m t v l (Q : Z -> kernel -> Prop) :
  kok s -> a_th (abs s) !! t = Some v -> v_class v = 4 -> (forall o l, a_w (abs s) !! o = Some l -> t ∉ l) ->
  a_w (abs s) !! m = Some l ->
  (forall l' s', kok s' -> l' ≡ₚ t :: l -> (v_order (a_th (abs s)) l -> v_order (a_th (abs s)) l') ->
     abs s' = a_set_w (<[m := l']> (a_w (abs s))) (abs s) -> Q RT_EOK s') ->
  wp (rt_susp_list_enqueue m t RT_IPC_FLAG_PRIO) Q s.
Proof.
  intros Hk (th & E & <-)%abs_thread Hc Hul El HQ. pose proof (class_suspended th) as Hs. rewrite Hc in Hs.
  simpl in Hs. destruct (k_thread _ _ (proj1 Hk) t th E ltac:(done)) as (Hok & Hrd & Hrun).
  assert (state_of th <> RT_THREAD_READY /\ state_of th <> RT_THREAD_RUNNING) as [Hr1 Hr2].
  { split; intros Hr; by rewrite suspended_state, Hr in Hs. }
  pose proof (kwf_open _ _ _ (proj1 Hk) E Hr1) as Ho.
  eapply wp_enqueue; [exact Ho| |exact E|done|exact El|by right|].
  { split; [|exact Hul]. intros p l0 Hl Hin. by destruct (k_table _ _ Ho p l0 t Hl Hin). }
  intros l' (Hp & _ & Hord) s' H'. apply (HQ l'); [|done| |done].
  - apply kok_wait; [done|]. by apply (kwf_close _ t th).
  - intros Hl. apply v_order_in, Hord; [done|]. by apply v_order_in.
Qed.

Lemma vw_timer_start s t n v (Q : unit -> kernel -> Prop) :
  kok s -> a_th (abs s) !! t = Some v -> v_class v = 4 -> n < RT_TICK_MAX / 2 ->
  (forall s', kok s' -> abs s' = abs s -> Q tt s') -> wp (thread_timer_start t n) Q s.
Proof.
  intros Hk (th & E & <-)%abs_thread Hc Hn HQ. pose proof (class_suspended th) as Hs. rewrite Hc in Hs.
  unfold thread_timer_start. rewrite (proj2 (Z.ltb_lt _ _) Hn). simpl. eapply wp_upd; [done|].
  apply HQ; [|rewrite abs_upd; unfold a_upd, a_set_th, abs; simpl; f_equal; apply insert_id; by rewrite lookup_fmap, E].
  destruct (k_thread _ _ (proj1 Hk) t th E ltac:(done)) as ([Hp Hi Hm Ht] & Hrd & Hrun).
  assert (state_of th <> RT_THREAD_READY) as Hr1 by (intros Hr; by rewrite suspended_state, Hr in Hs).
  eapply kok_thread; [done|done| |done].
  eapply (kwf_close _ t); [apply kwf_upd_hole; [by apply (kwf_open _ _ th); [apply Hk|..]|done]|apply lookup_insert_eq| |done|done].
  by constructor.
Qed.

Lemma kok_running s v :
  kok s -> a_th (abs s) !! a_cur (abs s) = Some v -> v_class v = 2 ->
  exists th, threads s !! rt_current_thread s = Some th /\ view th = v /\ state_of th = RT_THREAD_RUNNING.
Proof.
  intros (_ & _ & th & E & Hc) Ev H2. apply abs_thread in Ev as (th' & E' & <-). simpl in E'.
  replace th' with th in * by congruence. exists th. split_and!; [done..|]. by apply class_active in H2 as [].
Qed.

(** Where the thread [t] is put in the list of waiting threads. *)
Definition placed (V : gmap Z tview) (flag t : Z) (l l' : list Z) : Prop :=
  l' ≡ₚ t :: l /\ (flag = RT_IPC_FLAG_FIFO -> l' = l ++ [t]) /\ (flag = RT_IPC_FLAG_PRIO -> v_order V l -> v_order V l').

Definition v_waiting (a : av) (susp_list : option Z) (flag t : Z) (w : gmap Z (list Z)) : Prop :=
  match susp_list with
  | None => w = a_w a
  | Some o => exists l l', a_w a !! o = Some l /\ placed (a_th a) flag t l l' /\ w = <[o := l']> (a_w a)
  end.

Lemma vw_suspend s t v susp_list flag sflag (Q : Z -> kernel -> Prop) :
  kok s -> t = a_cur (abs s) -> a_th (abs s) !! t = Some v -> v_class v = 2 -> 0 <= sflag <= 2 ->
  (forall o, susp_list = Some o -> is_Some (a_w (abs s) !! o) /\
     (flag = RT_IPC_FLAG_FIFO \/ flag = RT_IPC_FLAG_PRIO)) ->
  (forall w s', v_waiting (abs s) susp_list flag t w -> kok s' ->
     abs s' = a_set_w w (a_upd t (v_set_class 4 v) (abs s)) -> Q RT_EOK s') ->
  wp (rt_thread_suspend_to_list t susp_list flag sflag) Q s.
Proof.
  intros Hk -> Ev H2 Hsf Hl HQ. destruct (kok_running s v Hk Ev H2) as (th & E & Hv & Hr).
  eapply (wp_suspend_to_list s _ th); [apply Hk|done|done|done|done|done|]. intros tb g w Hw s' H'.
  pose proof (susp_state_range sflag) as Hst.
  assert (state_of (put_to_wait sflag th) = susp_state sflag) as Es by (apply (state_with _ th); lia).
  apply (HQ w).
  - destruct susp_list as [o|]; [|done]. destruct Hw as (l & l' & El & (Hp & Hf & Ho) & ->). exists l, l'.
    split_and!; [done| |done]. split_and!; [done..|]. intros Hfl Hol. apply v_order_in, Ho; [done|]. by apply v_order_in.
  - eapply kok_thread; [done|done|done|]. intros _ _. rewrite Es. unfold RT_THREAD_READY. lia.
  - unfold s'. rewrite abs_upd_w. f_equal. f_equal. rewrite <- Hv. unfold view at 1. rewrite Es. unfold v_set_class.
    simpl. f_equal. unfold class_of. destruct (Z.leb_spec 4 (susp_state sflag)); [done|lia].
Qed.

(** The running thread ends: it leaves the ready table and its timer. *)
Lemma vw_close s t v (Q : unit -> kernel -> Prop) :
  kok s -> t = a_cur (abs s) -> a_th (abs s) !! t = Some v -> v_class v = 2 ->
  (forall s', kok s' -> abs s' = a_upd t (v_set_class 1 v) (abs s) -> Q tt s') ->
  wp (rt_sched_remove_thread t ;;; upd t (set_timer None) ;;; rt_sched_thread_close t) Q s.
Proof.
  intros Hk -> Ev H2 HQ. destruct (kok_running s v Hk Ev H2) as (th & E & Hv & Hr). pose proof (proj1 Hk) as Hwf.
  assert (is_suspended th = false) as Hsu by (by rewrite suspended_state, Hr).
  destruct (k_thread _ _ Hwf _ th E ltac:(done)) as (Hok & _ & _). set (t := rt_current_thread s) in *.
  apply wp_bind. eapply (wp_remove_thread t th); [done|done|by rewrite Hr|]. intros tb g s1 H1 Hul.
  assert (s1 = reshape s (threads s) tb g (suspend_thread s)) as E1.
  { subst s1. f_equal. by apply (not_waiting None s t th). }
  rewrite E1 in *. clear E1 s1. apply wp_bind. eapply wp_upd; [exact E|]. eapply wp_upd; [apply lookup_insert_eq|].
  rewrite !reshape_reshape. cbn [reshape threads rt_thread_priority_table rt_thread_ready_priority_group suspend_thread].
  rewrite insert_insert_eq. set (th' := set_stat RT_THREAD_CLOSE (set_timer None th)).
  assert (state_of th' = RT_THREAD_CLOSE) as Hs' by done.
  apply HQ.
  - apply (kok_thread s t th th'); [done|done| |done].
    pose proof (kwf_upd_hole _ t th' H1) as H3. rewrite reshape_reshape in H3.
    eapply kwf_close; [apply H3|apply lookup_insert_eq| |by rewrite Hs'|by rewrite Hs'].
    + intros o l Eo Hin. by destruct (proj2 Hul o l Eo).
    + destruct Hok as [Hp Hi Hm _]. constructor; [done..| |done]. intros _. apply Hm. by rewrite Hr.
  - rewrite abs_upd, <- Hv. done.
Qed.

Lemma state_woken cur t th :
  state_of (woken cur t th) = if t =? cur then RT_THREAD_RUNNING else RT_THREAD_READY.
Proof. apply (state_with _ (set_ttmr false (set_timer None th))). by case_match. Qed.

Lemma state_timed_out cur t th :
  state_of (timed_out cur t th) = if t =? cur then RT_THREAD_RUNNING else RT_THREAD_READY.
Proof. apply (state_with _ (set_error (- RT_ETIMEOUT) (set_timer None th))). by case_match. Qed.

Lemma view_woken cur t th : view (woken cur t th) = v_set_class 2 (view th).
Proof. unfold view at 1. rewrite state_woken. by destruct (t =? cur). Qed.

Lemma vw_ready s t v (Q : Z -> kernel -> Prop) :
  kok s -> a_th (abs s) !! t = Some v -> v_class v = 4 ->
  (forall s', kok s' -> abs s' = a_set_w (without t <$> a_w (abs s)) (a_upd t (v_set_class 2 v) (abs s)) ->
     Q RT_EOK s') ->
  wp (rt_sched_thread_ready t) Q s.
Proof.
  intros Hk (th & E & <-)%abs_thread Hc HQ. pose proof (class_suspended th) as Hs. rewrite Hc in Hs.
  eapply wp_thread_ready; [apply Hk|done|done|]. intros tb g s' H'. apply HQ.
  - eapply kok_thread; [done|done|done|]. intros -> _. by rewrite state_woken, Z.eqb_refl.
  - unfold s'. by rewrite abs_upd_w, view_woken.
Qed.

Lemma vw_dequeue s o t l v e (Q : option Z -> kernel -> Prop) :
  kok s -> a_w (abs s) !! o = Some (t :: l) -> a_th (abs s) !! t = Some v -> 0 <= e ->
  (forall s', kok s' ->
     abs s' = a_set_w (without t <$> a_w (abs s)) (a_upd t (v_set_err e (v_set_class 2 v)) (abs s)) -> Q (Some t) s') ->
  wp (rt_susp_list_dequeue o e) Q s.
Proof.
  intros Hk El (th & E & <-)%abs_thread He HQ.
  eapply wp_dequeue; [apply Hk|exact El|exact E|done|]. intros tb g s' H'. apply HQ.
  - eapply kok_thread; [done|done|done|]. intros -> _.
    change (state_of (woken (rt_current_thread s) (rt_current_thread s) th) <> RT_THREAD_READY). by rewrite state_woken, Z.eqb_refl.
  - unfold s'. rewrite abs_upd_w. f_equal. f_equal. rewrite <- (view_woken (rt_current_thread s) t). done.
Qed.

Lemma vw_timeout s t v n th (Q : unit -> kernel -> Prop) :
  kok s -> threads s !! t = Some th -> thread_timer th = Some n -> view th = v ->
  (forall s', kok s' ->
     abs s' = a_set_w (without t <$> a_w (abs s)) (a_upd t (v_set_err (- RT_ETIMEOUT) (v_set_class 2 v)) (abs s)) ->
     wp rt_sched_unlock_n_resched Q s') ->
  wp (_thread_timeout t) Q s.
Proof.
  intros Hk E Hn <- HQ. eapply wp_timeout; [apply Hk|exact E|exact Hn|]. intros tb g s' H'. apply HQ.
  - eapply kok_thread; [done|done|done|]. intros -> _. by rewrite state_timed_out, Z.eqb_refl.
  - unfold s'. rewrite abs_upd_w. f_equal. f_equal. unfold view at 1. rewrite state_timed_out. by destruct (t =? rt_current_thread s).
Qed.

Lemma vw_change_priority s t v p (Q : Z -> kernel -> Prop) :
  kok s -> a_th (abs s) !! t = Some v -> 0 <= p < 32 ->
  (forall s', kok s' -> abs s' = a_upd t (v_set_prio p v) (abs s) -> Q RT_EOK s') ->
  wp (rt_sched_thread_change_priority t p) Q s.
Proof.
  intros Hk (th & E & <-)%abs_thread Hp HQ. eapply wp_change_priority; [apply Hk|exact E|done| |].
  - intros Hr ->. destruct (proj2 Hk) as (_ & thc & Ec & Hc). by replace thc with th in * by congruence.
  - intros w tb g Hs s' H'. apply HQ.
    + eapply kok_thread; [done|done|done|]. intros _. unfold reprio.
      change (state_of (set_prio p (2 ^ p) (set_stat w th))) with (state_of (set_stat w th)). by rewrite Hs.
    + unfold s'. rewrite abs_upd. f_equal. unfold view at 1, reprio.
      change (state_of (set_prio p (2 ^ p) (set_stat w th))) with (state_of (set_stat w th)). by rewrite Hs.
Qed.

(** The idle thread is never suspended, so there is a thread to run. *)
Definition active (a : av) (t : Z) : Prop := exists v, a_th a !! t = Some v /\ v_class v = 2.

Lemma vw_schedule s idle (Q : unit -> kernel -> Prop) :
  kok s -> a_nest (abs s) = 0 -> active (abs s) idle ->
  (forall s', kok s' -> settled s' -> abs s' = a_set_cur (a_cur (abs s')) (abs s) -> Q tt s') ->
  wp rt_schedule Q s.
Proof.
  intros Hk Hn (vi & (thi & Ei & <-)%abs_thread & Hi) HQ. simpl in Hn. destruct Hk as (Hwf & H0 & th & E & Hc).
  eapply (wp_schedule s th); [done|done|done|done| |].
  - intros Hr. exists idle, thi. split; [done|]. apply class_active in Hi as [|Hi]; [done|].
    destruct (k_thread _ _ Hwf idle thi Ei ltac:(done)) as (_ & _ & Hrun). specialize (Hrun Hi). subst idle.
    by replace thi with th in * by congruence.
  - intros m tb g t tht s' H' Hst Et Hr Hu. apply HQ.
    + split; [done|]. split; [|exists tht; split; [done|by rewrite Hr]]. apply (f_equal (fun x => x !! 0)) in Hst.
      rewrite !lookup_fmap, H0 in Hst. by apply fmap_None in Hst.
    + by exists tht.
    + unfold abs, a_set_cur, s'. simpl. by rewrite (view_map _ _ Hst), Hn.
Qed.

Lemma kok_current s : kok s -> (rt_current_thread s =? 0) = false.
Proof. intros (_ & H0 & th & E & _). apply Z.eqb_neq. congruence. Qed.

Lemma vw_resched s idle (Q : unit -> kernel -> Prop) :
  kok s -> a_nest (abs s) = 0 -> active (abs s) idle ->
  (forall s', kok s' -> settled s' -> abs s' = a_set_cur (a_cur (abs s')) (abs s) -> Q tt s') ->
  wp rt_sched_unlock_n_resched Q s.
Proof.
  intros Hk Hn Hi HQ. apply wp_bind, wp_gets. rewrite kok_current by done. by apply (vw_schedule s idle).
Qed.

Lemma vw_exit s idle (Q : unit -> kernel -> Prop) :
  kok s -> a_nest (abs s) = 1 -> active (abs s) idle ->
  (forall s', kok s' -> settled s' -> abs s' = a_set_nest 0 (a_set_cur (a_cur (abs s')) (abs s)) -> Q tt s') ->
  wp rt_exit_critical Q s.
Proof.
  intros Hk Hn Hi HQ. apply wp_bind, wp_gets. simpl in Hn. rewrite Hn. apply wp_bind, wp_modify, wp_bind, wp_gets.
  change (rt_current_thread _) with (rt_current_thread s). rewrite kok_current by done. eapply vw_schedule; [by apply (kok_objects s)|done|exact Hi|]. intros s' Hk' Hs' E. apply HQ; [done..|].
  rewrite E. done.
Qed.

(** What is said of a thread's priority and lists holds in every well-formed kernel. *)
Lemma kok_prio s t v :
  kok s -> a_th (abs s) !! t = Some v -> 0 <= v_prio v < 32 /\ 0 <= v_init v < 32.
Proof.
  intros [H _] (th & E & <-)%abs_thread. destruct (k_thread _ _ H t th E ltac:(done)) as ([Hp Hi _ _] & _). done.
Qed.

Lemma kok_listed s o l t :
  kok s -> a_w (abs s) !! o = Some l -> t ∈ l -> exists v, a_th (abs s) !! t = Some v /\ v_class v = 4.
Proof.
  intros [H _] El Hin. destruct (k_wait _ _ H o l t El Hin) as (th & E & Hs). exists (view th).
  simpl. rewrite lookup_fmap, E. split; [done|]. rewrite class_suspended in Hs. by apply Z.eqb_eq.
Qed.

Lemma kok_one s o o' l l' t :
  kok s -> a_w (abs s) !! o = Some l -> a_w (abs s) !! o' = Some l' -> t ∈ l -> t ∈ l' -> o = o'.
Proof. intros [H _]. apply (k_wait_one _ _ H). Qed.

Lemma kok_nodup s o l : kok s -> a_w (abs s) !! o = Some l -> NoDup l.
Proof. intros [H _]. apply (k_wait_nodup _ _ H). Qed.

(** ** The invariants *)

Section inherit.
Context (rank : Z -> Z).

(** Who waits and who owns, up to priorities. *)
Record minv (a : av) : Prop := MInv {
  mi_wait m x : a_mtx a !! m = Some x -> is_Some (a_w a !! m);
  mi_sem x v : a_sems a !! x = Some v -> a_mtx a !! x = None /\
    (sem_flag v = RT_IPC_FLAG_FIFO \/ sem_flag v = RT_IPC_FLAG_PRIO) /\ 0 <= value v /\
    exists l, a_w a !! x = Some l /\ (0 < value v -> l = []);
  mi_waits m x l t : a_mtx a !! m = Some x -> a_w a !! m = Some l -> t ∈ l ->
    exists v o, a_th a !! t = Some v /\ v_class v = 4 /\ v_pend v = Some m /\ owner x = Some o;
  mi_pend t v m : a_th a !! t = Some v -> v_class v = 4 -> v_pend v = Some m ->
    exists x l, a_mtx a !! m = Some x /\ a_w a !! m = Some l /\ t ∈ l;
  mi_own m x o : a_mtx a !! m = Some x -> owner x = Some o ->
    1 <= hold x <= 255 /\ exists v, a_th a !! o = Some v /\ m ∈ v_taken v;
  mi_taken t v m : a_th a !! t = Some v -> m ∈ v_taken v -> exists x, a_mtx a !! m = Some x /\ owner x = Some t;
  mi_nodup t v : a_th a !! t = Some v -> NoDup (v_taken v);
  mi_free m x : a_mtx a !! m = Some x -> owner x = None -> hold x = 0;
  mi_rank t v m m' : a_th a !! t = Some v -> v_class v = 4 -> v_pend v = Some m' -> m ∈ v_taken v -> rank m < rank m';
  mi_mutex m x : a_mtx a !! m = Some x -> registered x = true /\ 0 <= ceiling_priority x;
}.

(** The threads that wait are in order, none is more urgent than its mutex, and no mutex is more
    urgent than its owner; but for the place of the thread [h] and the owner of the mutex [b]. *)
Record pinv (h b : option Z) (a : av) : Prop := PInv {
  pi_range m x : a_mtx a !! m = Some x -> 0 <= priority x <= 255;
  pi_wait m x l t v : a_mtx a !! m = Some x -> a_w a !! m = Some l -> t ∈ l -> Some t <> h ->
    a_th a !! t = Some v -> priority x <= v_prio v;
  pi_own m x o v : a_mtx a !! m = Some x -> owner x = Some o -> a_th a !! o = Some v -> Some m <> b ->
    v_prio v <= priority x;
  pi_order m x l : a_mtx a !! m = Some x -> a_w a !! m = Some l ->
    v_order (a_th a) (match h with Some t => without t l | None => l end);
}.

(** Nothing but priorities, and the order of lists, has changed. *)
Record boosted (a a' : av) : Prop := Boosted {
  bo_cur : a_cur a' = a_cur a;
  bo_nest : a_nest a' = a_nest a;
  bo_sems : a_sems a' = a_sems a;
  bo_th t : option_Forall2 (fun v v' => v' = v_set_prio (v_prio v') v) (a_th a !! t) (a_th a' !! t);
  bo_mtx m : option_Forall2 (fun x x' => x' = set_m_priority (priority x') x) (a_mtx a !! m) (a_mtx a' !! m);
  bo_w o : option_Forall2 (≡ₚ) (a_w a !! o) (a_w a' !! o);
}.

Lemma set_prio_same v : v_set_prio (v_prio v) v = v.
Proof. by destruct v. Qed.
Lemma set_m_priority_same x : set_m_priority (priority x) x = x.
Proof. by destruct x. Qed.

Lemma boosted_refl a : boosted a a.
Proof.
  constructor; try done; intros k.
  - destruct (a_th a !! k) as [v|]; constructor. by rewrite set_prio_same.
  - destruct (a_mtx a !! k) as [x|]; constructor. by rewrite set_m_priority_same.
Qed.

Lemma boosted_trans a1 a2 a3 : boosted a1 a2 -> boosted a2 a3 -> boosted a1 a3.
Proof.
  intros [C1 N1 S1 T1 M1 W1] [C2 N2 S2 T2 M2 W2]. constructor; try congruence; intros k.
  - specialize (T1 k). specialize (T2 k). inversion T1 as [v1 v2 E1 H1 H2|H1 H2]; rewrite <- H2 in T2; inversion T2 as [? v3 E2|]; subst; constructor.
    by rewrite E2, E1.
  - specialize (M1 k). specialize (M2 k). inversion M1 as [v1 v2 E1 H1 H2|H1 H2]; rewrite <- H2 in M2; inversion M2 as [? v3 E2|]; subst; constructor.
    by rewrite E2, E1.
  - specialize (W1 k). specialize (W2 k). inversion W1 as [v1 v2 E1 H1 H2|H1 H2]; rewrite <- H2 in W2; inversion W2 as [? v3 E2|]; subst; constructor.
    by rewrite E1.
Qed.

Lemma boosted_th a a' t v : boosted a a' -> a_th a !! t = Some v -> exists p, a_th a' !! t = Some (v_set_prio p v).
Proof. intros H E. pose proof (bo_th _ _ H t) as Ht. rewrite E in Ht. inversion Ht as [? v' Hv|]; subst. by exists (v_prio v'); rewrite <- Hv. Qed.
Lemma boosted_th_inv a a' t v' : boosted a a' -> a_th a' !! t = Some v' ->
  exists v, a_th a !! t = Some v /\ v' = v_set_prio (v_prio v') v.
Proof. intros H E. pose proof (bo_th _ _ H t) as Ht. rewrite E in Ht. inversion Ht as [v ? Hv|]; subst. by exists v. Qed.
Lemma boosted_mtx a a' m x : boosted a a' -> a_mtx a !! m = Some x -> exists p, a_mtx a' !! m = Some (set_m_priority p x).
Proof. intros H E. pose proof (bo_mtx _ _ H m) as Ht. rewrite E in Ht. inversion Ht as [? v' Hv|]; subst. by exists (priority v'); rewrite <- Hv. Qed.
Lemma boosted_mtx_inv a a' m x' : boosted a a' -> a_mtx a' !! m = Some x' ->
  exists x, a_mtx a !! m = Some x /\ x' = set_m_priority (priority x') x.
Proof. intros H E. pose proof (bo_mtx _ _ H m) as Ht. rewrite E in Ht. inversion Ht as [v ? Hv|]; subst. by exists v. Qed.
Lemma boosted_w a a' o l : boosted a a' -> a_w a !! o = Some l -> exists l', a_w a' !! o = Some l' /\ l ≡ₚ l'.
Proof. intros H E. pose proof (bo_w _ _ H o) as Ht. rewrite E in Ht. inversion Ht as [? l' Hv|]; subst. by exists l'. Qed.
Lemma boosted_w_inv a a' o l' : boosted a a' -> a_w a' !! o = Some l' -> exists l, a_w a !! o = Some l /\ l ≡ₚ l'.
Proof. intros H E. pose proof (bo_w _ _ H o) as Ht. rewrite E in Ht. inversion Ht as [l ? Hv|]; subst. by exists l. Qed.

Lemma minv_boosted a a' : boosted a a' -> minv a -> minv a'.
Proof.
  intros B [Hw Hs Hws Hp Ho Ht Hn Hf Hr Hm]. constructor.
  - intros m x' (x & E & _)%(boosted_mtx_inv _ _ _ _ B). destruct (Hw m x E) as [l El].
    destruct (boosted_w _ _ _ _ B El) as (l' & El' & _). by eexists.
  - intros x v. rewrite (bo_sems _ _ B). intros E. destruct (Hs x v E) as (En & Hfl & Hv & l & El & Hl).
    destruct (boosted_w _ _ _ _ B El) as (l' & El' & Hll). split_and!; [|done|done|].
    + pose proof (bo_mtx _ _ B x) as Hb. rewrite En in Hb. by inversion Hb.
    + exists l'. split; [done|]. intros Hpos. rewrite (Hl Hpos) in Hll. by apply Permutation_nil_l in Hll.
  - intros m x' l' t (x & E & Ex)%(boosted_mtx_inv _ _ _ _ B) (l & El & Hl)%(boosted_w_inv _ _ _ _ B) Hin.
    rewrite <- Hl in Hin. destruct (Hws m x l t E El Hin) as (v & o & Ev & Hc & Hpe & Hox).
    destruct (boosted_th _ _ _ _ B Ev) as [p Ep]. exists (v_set_prio p v), o. rewrite Ex. done.
  - intros t v' m (v & Ev & ->)%(boosted_th_inv _ _ _ _ B) Hc Hpe. destruct (Hp t v m Ev Hc Hpe) as (x & l & Ex & El & Hin).
    destruct (boosted_mtx _ _ _ _ B Ex) as [p Ep], (boosted_w _ _ _ _ B El) as (l' & El' & Hl). rewrite Hl in Hin. eauto.
  - intros m x' o (x & E & ->)%(boosted_mtx_inv _ _ _ _ B) Hox. destruct (Ho m x o E Hox) as (Hh & v & Ev & Hin).
    split; [done|]. destruct (boosted_th _ _ _ _ B Ev) as [p Ep]. eauto.
  - intros t v' m (v & Ev & ->)%(boosted_th_inv _ _ _ _ B) Hin. destruct (Ht t v m Ev Hin) as (x & Ex & Hx).
    destruct (boosted_mtx _ _ _ _ B Ex) as [p Ep]. eauto.
  - intros t v' (v & Ev & ->)%(boosted_th_inv _ _ _ _ B). by apply (Hn t v).
  - intros m x' (x & E & ->)%(boosted_mtx_inv _ _ _ _ B). by apply (Hf m x).
  - intros t v' m m' (v & Ev & ->)%(boosted_th_inv _ _ _ _ B). by apply (Hr t v).
  - intros m x' (x & E & ->)%(boosted_mtx_inv _ _ _ _ B). by apply (Hm m x).
Qed.

(** *** Orders *)

Lemma v_order_without V t l : v_order V l -> v_order V (without t l).
Proof.
  unfold v_order, without. intros H. induction H as [|x l Hl IH Hf]; [constructor|].
  rewrite filter_cons. destruct (decide (x <> t)); [|done]. constructor; [done|].
  rewrite Forall_forall in *. intros y [_ Hy]%list_elem_of_filter. by apply Hf.
Qed.

Lemma v_order_ext V V' l :
  (forall t v', t ∈ l -> V' !! t = Some v' -> exists v, V !! t = Some v /\ v_prio v = v_prio v') ->
  v_order V l -> v_order V' l.
Proof.
  intros He H. induction H as [|x l Hl IH Hf]; [constructor|]. constructor.
  - apply IH. intros t v' Ht. apply He. by right.
  - rewrite Forall_forall in *. intros y Hy va vb Ea Eb.
    destruct (He x va ltac:(left) Ea) as (va0 & Ea0 & <-). destruct (He y vb ltac:(by right) Eb) as (vb0 & Eb0 & <-).
    by apply (Hf y Hy).
Qed.

Lemma v_order_head V t l v :
  v_order V (t :: l) -> V !! t = Some v -> forall t' v', t' ∈ t :: l -> V !! t' = Some v' -> v_prio v <= v_prio v'.
Proof.
  intros H E t' v' [->|Hin]%elem_of_cons E'; [by replace v' with v by congruence|].
  inversion H as [|? ? _ Hf]; subst. rewrite Forall_forall in Hf. by apply (Hf t' Hin).
Qed.

(** *** Priorities of mutexes and owners *)

Definition head_prio (V : gmap Z tview) (l : list Z) : Z :=
  match l with
  | t :: _ => match V !! t with Some v => v_prio v | None => 255 end
  | [] => 255
  end.

Lemma vw_mutex_update_priority s m x l (Q : unit -> kernel -> Prop) :
  kok s -> a_mtx (abs s) !! m = Some x -> a_w (abs s) !! m = Some l ->
  (forall s', kok s' ->
     abs s' = a_set_mtx (<[m := set_m_priority (head_prio (a_th (abs s)) l) x]> (a_mtx (abs s))) (abs s) -> Q tt s') ->
  wp (_mutex_update_priority m) Q s.
Proof.
  intros Hk Ex El HQ. apply wp_bind. eapply vw_mutex; [exact Ex|]. apply wp_bind. eapply vw_wait_list; [exact El|].
  destruct l as [|t l].
  - by eapply vw_put_mutex.
  - destruct (kok_listed s m _ t Hk El ltac:(left)) as (v & Ev & _). apply wp_bind. eapply vw_thread; [exact Ev|].
    intros th E Hv. apply vw_put_mutex; [done|]. intros s' Hk' E'. apply HQ; [done|]. rewrite E'.
    assert (head_prio (a_th (abs s)) (t :: l) = v_prio v) as -> by (unfold head_prio; by rewrite Ev). by rewrite <- Hv.
Qed.

(** What is known of the least priority of an owner and its mutexes. *)
Definition least (a : av) (v : tview) (p : Z) : Prop :=
  0 <= p <= v_init v /\ forall m x, m ∈ v_taken v -> a_mtx a !! m = Some x -> p <= priority x /\ p <= ceiling_priority x.

Definition mutexes_ok (a : av) (l : list Z) : Prop :=
  forall m, m ∈ l -> exists x, a_mtx a !! m = Some x /\ 0 <= priority x /\ 0 <= ceiling_priority x.

Lemma wp_taken_priority s l p (Q : Z -> kernel -> Prop) :
  mutexes_ok (abs s) l -> 0 <= p ->
  (forall q, 0 <= q <= p ->
     (forall m x, m ∈ l -> a_mtx (abs s) !! m = Some x -> q <= priority x /\ q <= ceiling_priority x) -> Q q s) ->
  wp (taken_priority l p) Q s.
Proof.
  revert p. induction l as [|m l IH]; intros p Hok Hp HQ; simpl.
  - apply wp_ret, HQ; [lia|]. intros m x Hin. by apply elem_of_nil in Hin.
  - destruct (Hok m ltac:(left)) as (x & Ex & Hx1 & Hx2). apply wp_bind. eapply vw_mutex; [exact Ex|].
    set (mp := if priority x <? ceiling_priority x then _ else _).
    assert (0 <= mp /\ mp <= priority x /\ mp <= ceiling_priority x) as (H1 & H2 & H3)
      by (subst mp; destruct (Z.ltb_spec (priority x) (ceiling_priority x)); lia).
    set (p' := if mp <? p then mp else p).
    assert (0 <= p' <= p /\ p' <= mp) as [H4 H5] by (subst p'; destruct (Z.ltb_spec mp p); lia).
    apply IH; [intros k Hk; apply (Hok k); by right|lia|]. intros q Hq Hl. apply HQ; [lia|].
    intros k y [->|Hk]%elem_of_cons Ey; [|by apply (Hl k y)]. replace y with x by congruence. lia.
Qed.

Lemma vw_get_mutex_priority s t v (Q : Z -> kernel -> Prop) :
  kok s -> a_th (abs s) !! t = Some v -> mutexes_ok (abs s) (v_taken v) ->
  (forall p, 0 <= p < 32 -> least (abs s) v p -> Q p s) -> wp (_thread_get_mutex_priority t) Q s.
Proof.
  intros Hk Ev Hok HQ. destruct (kok_prio s t v Hk Ev) as [_ Hi]. apply wp_bind. eapply vw_thread; [exact Ev|].
  intros th E <-. apply wp_taken_priority; [done|apply Hi|]. intros q Hq Hl. apply HQ; [simpl in *; lia|]. by split.
Qed.

Lemma minv_mutexes_ok h b a t v :
  minv a -> pinv h b a -> a_th a !! t = Some v -> mutexes_ok a (v_taken v).
Proof.
  intros Hm Hp Ev m Hin. destruct (mi_taken _ Hm t v m Ev Hin) as (x & Ex & _). exists x.
  split_and!; [done|apply (pi_range _ _ _ Hp m x Ex)|apply (mi_mutex _ Hm m x Ex)].
Qed.

(** *** One turn of the loop *)

Lemma pinv_unlisted t b a :
  pinv (Some t) b a -> (forall m x l, a_mtx a !! m = Some x -> a_w a !! m = Some l -> t ∉ l) -> pinv None b a.
Proof.
  intros [Hr Hw Ho Hor] Hul. constructor; [done| |done|].
  - intros m x l t' v Ex El Hin _ Ev. apply (Hw m x l t' v); try done. intros [= ->]. by apply (Hul m x l).
  - intros m x l Ex El. rewrite <- (without_id t l) by (by eapply Hul). by apply (Hor m x).
Qed.

Lemma pinv_reprio o v p b a :
  pinv None b a -> a_th a !! o = Some v ->
  (forall m, b = Some m -> exists x, a_mtx a !! m = Some x /\ owner x = Some o) ->
  (forall m x, a_mtx a !! m = Some x -> owner x = Some o -> p <= priority x) ->
  pinv (Some o) None (a_upd o (v_set_prio p v) a).
Proof.
  intros [Hr Hw Ho Hor] Ev Hb Hp. constructor; simpl; [done|..].
  - intros m x l t v' Ex El Hin Hne. rewrite lookup_insert_ne by congruence. by apply (Hw m x l t v').
  - intros m x t v' Ex Hx. destruct (decide (t = o)) as [->|Hne].
    + rewrite lookup_insert_eq. intros [= <-] _. by apply (Hp m x).
    + rewrite lookup_insert_ne by done. intros Ev' _. apply (Ho m x t v' Ex Hx Ev').
      intros Heq. destruct (Hb m (eq_sym Heq)) as (x' & Ex' & Hx'). congruence.
  - intros m x l Ex El. eapply v_order_ext; [|by eapply v_order_without, Hor].
    intros t v' [_ Hne]%without_elem. rewrite lookup_insert_ne by done. by exists v'.
Qed.

Lemma without_perm t l : NoDup l -> t ∈ l -> t :: without t l ≡ₚ l.
Proof.
  intros Hn. induction Hn as [|x l Hx Hn IH]; intros Hin; [by apply elem_of_nil in Hin|].
  apply elem_of_cons in Hin as [->|Hin].
  - unfold without. rewrite filter_cons_False by naive_solver. fold (without x l). by rewrite without_id.
  - assert (x <> t) as Hne by congruence. unfold without. rewrite filter_cons_True by done. fold (without t l).
    rewrite Permutation_swap. by rewrite IH.
Qed.

Lemma w_relink s m t l l' :
  kok s -> a_w (abs s) !! m = Some l -> t ∈ l ->
  <[m := l']> (without t <$> a_w (abs s)) = <[m := l']> (a_w (abs s)).
Proof.
  intros Hk El Hin. apply map_eq. intros o. destruct (decide (o = m)) as [->|Hne]; [by rewrite !lookup_insert_eq|].
  rewrite !lookup_insert_ne, lookup_fmap by done. destruct (a_w (abs s) !! o) as [lo|] eqn:Eo; [|done]. simpl.
  f_equal. apply without_id. intros Hino. apply Hne. by apply (kok_one s o m lo l t).
Qed.

Lemma head_prio_range s l :
  kok s -> (forall t, t ∈ l -> is_Some (a_th (abs s) !! t)) -> 0 <= head_prio (a_th (abs s)) l <= 255.
Proof.
  intros Hk Hl. destruct l as [|t l]; unfold head_prio; [lia|]. destruct (Hl t ltac:(left)) as [v Ev].
  rewrite Ev. destruct (kok_prio s t v Hk Ev). lia.
Qed.

(** The thread takes its new place, and the mutex has the priority of the first that waits. *)
Lemma pinv_place s m x t l l' :
  kok s -> pinv (Some t) None (abs s) -> a_mtx (abs s) !! m = Some x -> a_w (abs s) !! m = Some l ->
  t ∈ l -> l' ≡ₚ l -> v_order (a_th (abs s)) l' ->
  pinv None (Some m) (a_set_mtx (<[m := set_m_priority (head_prio (a_th (abs s)) l') x]> (a_mtx (abs s)))
    (a_set_w (<[m := l']> (a_w (abs s))) (abs s))).
Proof.
  intros Hk [Hr Hw Ho Hor] Ex El Hin Hl' Hord.
  assert (forall u, u ∈ l' -> is_Some (a_th (abs s) !! u)) as Hex.
  { intros u Hu. rewrite Hl' in Hu. destruct (kok_listed s m l u Hk El Hu) as (v & Ev & _). by exists v. }
  assert (forall k x' lk, k <> m -> a_mtx (abs s) !! k = Some x' -> a_w (abs s) !! k = Some lk -> t ∉ lk) as Hnot.
  { intros k x' lk Hne _ Ek Hk'. apply Hne. by apply (kok_one s k m lk l t). }
  constructor; unfold a_set_mtx, a_set_w; cbn [a_th a_w a_mtx].
  - intros k x'. rewrite lookup_insert_Some. intros [[<- <-]|[_ E]]; [by apply head_prio_range|by apply (Hr k)].
  - intros k x' lk u v. rewrite !lookup_insert_Some.
    intros [[<- <-]|[Hne E]] [[He <-]|[Hne' Elk]] Hu _ Ev; try done.
    + destruct l' as [|y l']; [by apply elem_of_nil in Hu|]. destruct (Hex y ltac:(left)) as [vy Ey].
      change (head_prio (a_th (abs s)) (y :: l') <= v_prio v). unfold head_prio. rewrite Ey. by apply (v_order_head _ _ _ _ Hord Ey u).
    + apply (Hw k x' lk u v E Elk Hu); [|done]. intros [= ->]. by apply (Hnot k x' lk).
  - intros k x' u v. rewrite lookup_insert_Some. intros [[<- <-]|[Hne E]] Hx Ev Hb; [done|by apply (Ho k x' u v)].
  - intros k x' lk. rewrite !lookup_insert_Some. intros [[<- <-]|[Hne E]] [[He <-]|[Hne' Elk]]; try done.
    rewrite <- (without_id t lk) by (by apply (Hnot k x')). by apply (Hor k x').
Qed.

(** The mutexes of a rank not below. *)
Definition above (a : av) (m : Z) : gset Z := filter (fun k => rank m <= rank k) (dom (a_mtx a)).

Lemma above_lt a m m' :
  rank m < rank m' -> is_Some (a_mtx a !! m) -> (size (above a m') < size (above a m))%nat.
Proof.
  intros Hr Hm. apply subset_size. split.
  - intros k [Hk Hd]%elem_of_filter. apply elem_of_filter. split; [lia|done].
  - intros Hsub. assert (m ∈ above a m) as Hin by (apply elem_of_filter; split; [lia|by apply elem_of_dom]).
    apply Hsub, elem_of_filter in Hin as [Hle _]. lia.
Qed.

Lemma above_boosted a a' m : boosted a a' -> above a' m = above a m.
Proof.
  intros B. unfold above. f_equal. apply set_eq. intros k. rewrite !elem_of_dom.
  pose proof (bo_mtx _ _ B k) as Hk. destruct Hk; by split; intros [? ?].
Qed.

Lemma boosted_upd_prio a t v p : a_th a !! t = Some v -> boosted a (a_upd t (v_set_prio p v) a).
Proof.
  intros Ev. destruct (boosted_refl a) as [? ? ? Ht ? ?]. constructor; simpl; try done. intros k.
  destruct (decide (k = t)) as [->|Hne]; [|by rewrite lookup_insert_ne by done].
  rewrite lookup_insert_eq, Ev. by constructor.
Qed.

Lemma boosted_upd_m a m x p : a_mtx a !! m = Some x -> boosted a (a_set_mtx (<[m := set_m_priority p x]> (a_mtx a)) a).
Proof.
  intros Ex. destruct (boosted_refl a) as [? ? ? ? Hm ?]. constructor; simpl; try done. intros k.
  destruct (decide (k = m)) as [->|Hne]; [|by rewrite lookup_insert_ne by done].
  rewrite lookup_insert_eq, Ex. by constructor.
Qed.

Lemma boosted_upd_w a o l l' : a_w a !! o = Some l -> l' ≡ₚ l -> boosted a (a_set_w (<[o := l']> (a_w a)) a).
Proof.
  intros El Hl. destruct (boosted_refl a) as [? ? ? ? ? Hw]. constructor; simpl; try done. intros k.
  destruct (decide (k = o)) as [->|Hne]; [|by rewrite lookup_insert_ne by done].
  rewrite lookup_insert_eq, El. by constructor.
Qed.

(** ** Passing a priority on *)

Lemma not_waiting_for a t v m x l :
  minv a -> a_th a !! t = Some v -> v_class v <> 4 \/ v_pend v = None ->
  a_mtx a !! m = Some x -> a_w a !! m = Some l -> t ∉ l.
Proof.
  intros Hm Ev Hc Ex El Hin. destruct (mi_waits _ Hm m x l t Ex El Hin) as (v' & o & Ev' & Hc' & Hp' & _).
  replace v' with v in * by congruence. destruct Hc; congruence.
Qed.

(** The waiting thread [t] takes its place in the list of [m]. *)
Lemma wp_relink s t v m x l (Q : unit -> kernel -> Prop) :
  kok s -> minv (abs s) -> pinv (Some t) None (abs s) -> a_th (abs s) !! t = Some v -> v_class v = 4 ->
  a_mtx (abs s) !! m = Some x -> a_w (abs s) !! m = Some l -> t ∈ l ->
  (forall s' p, kok s' -> pinv None (Some m) (abs s') -> boosted (abs s) (abs s') ->
     a_th (abs s') = a_th (abs s) -> a_mtx (abs s') !! m = Some (set_m_priority p x) -> Q tt s') ->
  wp (list_remove t ;;; rt_susp_list_enqueue m t RT_IPC_FLAG_PRIO ;;; _mutex_update_priority m) Q s.
Proof.
  intros Hk Hm Hp Ev Hc Ex El Hin HQ. apply wp_bind. eapply vw_list_remove; [done..|]. intros s1 Hk1 E1.
  apply wp_bind. eapply (vw_enqueue s1 m t v (without t l)); [done|by rewrite E1|done| | |].
  { rewrite E1. simpl. intros o lo. rewrite lookup_fmap_Some. intros (l0 & <- & _) [_ ?]%without_elem. done. }
  { rewrite E1. unfold a_set_w. cbn [a_w]. by rewrite lookup_fmap, El. }
  intros l' s2 Hk2 Hl' Hord E2. rewrite E1 in Hord, E2. unfold a_set_w in Hord, E2. cbn [a_w a_th] in Hord, E2.
  rewrite (w_relink s m t l l' Hk El Hin) in E2.
  specialize (Hord (pi_order _ _ _ Hp m x l Ex El)).
  pose proof (without_perm t l (kok_nodup s m l Hk El) Hin) as Hwp. rewrite Hwp in Hl'.
  eapply (vw_mutex_update_priority s2 m x l'); [done|by rewrite E2|rewrite E2; apply lookup_insert_eq|].
  intros s3 Hk3 E3. rewrite E2 in E3. cbn [a_th a_mtx] in E3.
  eapply (HQ s3); [done| | |by rewrite E3|].
  - rewrite E3. by apply (pinv_place s m x t l l').
  - rewrite E3. eapply boosted_trans; [apply (boosted_upd_w _ m l l' El Hl')|].
    by apply (boosted_upd_m (a_set_w (<[m := l']> (a_w (abs s))) (abs s))).
  - rewrite E3. apply lookup_insert_eq.
Qed.

Lemma wp_update_loop fuel s t v (Q : unit -> kernel -> Prop) :
  kok s -> minv (abs s) -> pinv (Some t) None (abs s) -> a_th (abs s) !! t = Some v -> (1 <= fuel)%nat ->
  (forall m, v_class v = 4 -> v_pend v = Some m -> (size (above (abs s) m) < fuel)%nat) ->
  (forall s', kok s' -> pinv None None (abs s') -> boosted (abs s) (abs s') -> Q tt s') ->
  wp (update_loop fuel t) Q s.
Proof.
  revert s t v Q. induction fuel as [|fuel IH]; intros s t v Q Hk Hm Hp Ev Hf1 Hf HQ; [lia|]. simpl update_loop.
  apply wp_bind. eapply vw_thread; [exact Ev|]. intros th E Hv.
  assert (v_class v <> 4 \/ v_pend v = None -> Q tt s) as Hstop.
  { intros Hn. apply HQ; [done| |apply boosted_refl]. apply (pinv_unlisted t); [done|]. intros m x l Ex El.
    by apply (not_waiting_for (abs s) t v m x). }
  rewrite class_suspended, Hv. destruct (Z.eqb_spec (v_class v) 4) as [Hc|Hc]; simpl negb; cbv iota; [|apply wp_ret; auto].
  replace (pending_object th) with (v_pend v) by (by rewrite <- Hv). destruct (v_pend v) as [m|] eqn:Hpe; [|apply wp_ret; auto].
  destruct (mi_pend _ Hm t v m Ev Hc Hpe) as (x & l & Ex & El & Hin).
  destruct (mi_waits _ Hm m x l t Ex El Hin) as (_ & o & _ & _ & _ & Hox).
  apply wp_bind. eapply vw_mutex; [exact Ex|]. rewrite (proj1 (mi_mutex _ Hm m x Ex)). simpl negb. cbv iota.
  apply wp_assoc3, wp_bind. eapply wp_relink; [done..|].
  intros s1 pm Hk1 Hp1 B1 Et1 Ex1. pose proof (minv_boosted _ _ B1 Hm) as Hm1.
  rewrite Hox. apply wp_bind, wp_ret. destruct (mi_own _ Hm1 m _ o Ex1 Hox) as (_ & vo & Evo & Hto).
  apply wp_bind. eapply vw_get_mutex_priority; [done|exact Evo|by eapply minv_mutexes_ok|]. intros p Hpr [_ Hleast].
  apply wp_bind. eapply vw_thread; [exact Evo|]. intros tho Eo Hvo.
  replace (current_priority tho) with (v_prio vo) by (by rewrite <- Hvo).
  assert (forall k y, a_mtx (abs s1) !! k = Some y -> owner y = Some o -> p <= priority y) as Hown.
  { intros k y Ey Hy. destruct (mi_own _ Hm1 k y o Ey Hy) as (_ & vo' & Evo' & Hto').
    replace vo' with vo in * by congruence. by apply (Hleast k y). }
  destruct (Z.eqb_spec p (v_prio vo)) as [Heq|Hne]; simpl negb; cbv iota.
  - apply wp_ret, HQ; [done| |done]. destruct Hp1 as [Hr1 Hw1 Ho1 Hor1]. constructor; [done..| |done].
    intros k y u vu Ey Hy Eu _. destruct (decide (k = m)) as [->|Hkm]; [|apply (Ho1 k y u vu Ey Hy Eu); congruence].
    assert (owner y = Some o) as Hyo by (replace y with (set_m_priority pm x) by congruence; done).
    replace vu with vo by congruence. rewrite <- Heq. by apply (Hown m y).
  - apply wp_bind. eapply vw_change_priority; [done|exact Evo|done|]. intros s2 Hk2 E2.
    pose proof (boosted_upd_prio (abs s1) o vo p Evo) as B2. rewrite <- E2 in B2.
    eapply (IH s2 o (v_set_prio p vo)); [done|by apply (minv_boosted _ _ B2)| | | | |].
    + rewrite E2. eapply pinv_reprio; [done|done| |done]. intros k [= <-]. by exists (set_m_priority pm x).
    + rewrite E2. apply lookup_insert_eq.
    + specialize (Hf m Hc eq_refl). assert (size (above (abs s) m) <> 0)%nat; [|lia].
      intros Hz%size_empty_inv. assert (m ∈ above (abs s) m) as Hin'; [|by rewrite Hz in Hin'; apply elem_of_empty in Hin'].
      apply elem_of_filter. split; [done|by apply elem_of_dom].
    + intros m' Hc' Hpe'. specialize (Hf m Hc eq_refl). rewrite (above_boosted _ _ m' B2), (above_boosted _ _ m' B1).
      assert (size (above (abs s) m') < size (above (abs s) m))%nat; [|lia]. apply above_lt; [|by eexists].
      by apply (mi_rank _ Hm1 o vo m m').
    + intros s' Hk' Hp' B'. apply HQ; [done|done|]. eapply boosted_trans; [done|]. by eapply boosted_trans.
Qed.

Lemma above_small s m : (size (above (abs s) m) <= size (mutexes s))%nat.
Proof. rewrite <- (size_dom (D:=gset Z)). apply subseteq_size. intros k Hk. by apply elem_of_filter in Hk as [_ Hk]. Qed.

(** The mutex whose owner is not known to be urgent enough is owned by [o]. *)
Definition owned_by (a : av) (b : option Z) (o : Z) : Prop :=
  forall m, b = Some m -> exists x, a_mtx a !! m = Some x /\ owner x = Some o.

Lemma vw_update_priority s o v p b (Q : unit -> kernel -> Prop) :
  kok s -> minv (abs s) -> pinv None b (abs s) -> a_th (abs s) !! o = Some v -> owned_by (abs s) b o -> 0 <= p < 32 ->
  (forall m x, a_mtx (abs s) !! m = Some x -> owner x = Some o -> p <= priority x) ->
  (forall s', kok s' -> pinv None None (abs s') -> boosted (abs s) (abs s') -> Q tt s') ->
  wp (_thread_update_priority o p) Q s.
Proof.
  intros Hk Hm Hp Ev Hb Hpr Hown HQ. apply wp_bind. eapply vw_change_priority; [done|exact Ev|done|].
  intros s1 Hk1 E1. pose proof (boosted_upd_prio (abs s) o v p Ev) as B1. rewrite <- E1 in B1.
  apply wp_bind, wp_gets. eapply (wp_update_loop _ s1 o (v_set_prio p v)).
  - done.
  - by apply (minv_boosted _ _ B1).
  - rewrite E1. by eapply pinv_reprio.
  - rewrite E1. apply lookup_insert_eq.
  - unfold chain_fuel. lia.
  - intros m _ _. pose proof (above_small s1 m). unfold chain_fuel. lia.
  - intros s' Hk' Hp' B'. apply HQ; [done..|]. by eapply boosted_trans.
Qed.

Lemma pinv_owned a b o v :
  pinv None b a -> a_th a !! o = Some v -> owned_by a b o ->
  (forall m x, a_mtx a !! m = Some x -> owner x = Some o -> v_prio v <= priority x) -> pinv None None a.
Proof.
  intros [Hr Hw Ho Hor] Ev Hb Hown. constructor; [done..| |done]. intros m x u vu Ex Hx Eu _.
  destruct (decide (u = o)) as [->|Hne]; [replace vu with v by congruence; by apply (Hown m x)|].
  apply (Ho m x u vu Ex Hx Eu). intros Heq. destruct (Hb m (eq_sym Heq)) as (y & Ey & Hy). congruence.
Qed.

Lemma least_owned a o v p :
  minv a -> a_th a !! o = Some v -> least a v p ->
  forall m x, a_mtx a !! m = Some x -> owner x = Some o -> p <= priority x.
Proof.
  intros Hm Ev [_ Hl] m x Ex Hx. destruct (mi_own _ Hm m x o Ex Hx) as (_ & v' & Ev' & Hin).
  replace v' with v in * by congruence. by apply (Hl m x).
Qed.

Lemma vw_owner_update s o v b (Q : unit -> kernel -> Prop) :
  kok s -> minv (abs s) -> pinv None b (abs s) -> a_th (abs s) !! o = Some v -> owned_by (abs s) b o ->
  (forall s', kok s' -> pinv None None (abs s') -> boosted (abs s) (abs s') -> Q tt s') ->
  wp (owner_update o) Q s.
Proof.
  intros Hk Hm Hp Ev Hb HQ. apply wp_bind. eapply vw_get_mutex_priority; [done|exact Ev|by eapply minv_mutexes_ok|].
  intros p Hpr Hl. pose proof (least_owned _ o v p Hm Ev Hl) as Hown.
  apply wp_bind. eapply vw_thread; [exact Ev|]. intros th E Hv.
  replace (current_priority th) with (v_prio v) by (by rewrite <- Hv).
  destruct (Z.eqb_spec p (v_prio v)) as [->|Hne]; simpl negb; cbv iota.
  - apply wp_ret, HQ; [done|by apply (pinv_owned _ b o v)|apply boosted_refl].
  - by eapply vw_update_priority.
Qed.

(** A thread has left the list of [m]: the mutex and its owner may be less urgent. *)
Lemma pinv_less_urgent s m x l :
  kok s -> pinv None None (abs s) -> a_mtx (abs s) !! m = Some x -> a_w (abs s) !! m = Some l ->
  pinv None None (a_set_mtx (<[m := set_m_priority (head_prio (a_th (abs s)) l) x]> (a_mtx (abs s))) (abs s)).
Proof.
  intros Hk [Hr Hw Ho Hor] Ex El.
  assert (forall u, u ∈ l -> is_Some (a_th (abs s) !! u)) as Hex.
  { intros u Hu. destruct (kok_listed s m l u Hk El Hu) as (v & Ev & _). by exists v. }
  pose proof (head_prio_range s l Hk Hex) as Hh.
  assert (priority x <= head_prio (a_th (abs s)) l) as Hle.
  { destruct l as [|y l]; [apply (Hr m x Ex)|]. destruct (Hex y ltac:(left)) as [vy Ey]. unfold head_prio. rewrite Ey.
    by apply (Hw m x (y :: l) y vy); [..|left| |]. }
  constructor; unfold a_set_mtx; cbn [a_th a_w a_mtx].
  - intros k x'. rewrite lookup_insert_Some. intros [[<- <-]|[_ E]]; [done|by apply (Hr k)].
  - intros k x' lk u v. rewrite lookup_insert_Some. intros [[<- <-]|[Hne E]] Elk Hu _ Ev; [|by apply (Hw k x' lk u v E Elk Hu)].
    replace lk with l in * by congruence. destruct l as [|y l]; [by apply elem_of_nil in Hu|].
    destruct (Hex y ltac:(left)) as [vy Ey]. unfold set_m_priority, head_prio. cbn [priority]. rewrite Ey.
    by apply (v_order_head _ _ _ _ (Hor m x _ Ex El) Ey u).
  - intros k x' u v. rewrite lookup_insert_Some. intros [[<- <-]|[Hne E]] Hx Ev Hb; [|by apply (Ho k x' u v)].
    specialize (Ho m x u v Ex Hx Ev Hb). etrans; [exact Ho|exact Hle].
  - intros k x' lk. rewrite lookup_insert_Some. intros [[<- <-]|[Hne E]] Elk; [by apply (Hor m x)|by apply (Hor k x')].
Qed.

(** [need_update], the priority of the mutex, and then that of its owner. *)
Lemma vw_left_list s m x t v l (Q : unit -> kernel -> Prop) :
  kok s -> minv (abs s) -> pinv None None (abs s) -> a_mtx (abs s) !! m = Some x -> a_th (abs s) !! t = Some v ->
  a_w (abs s) !! m = Some l ->
  (forall s', kok s' -> pinv None None (abs s') -> boosted (abs s) (abs s') -> Q tt s') ->
  wp (need ← need_update x t;
      _mutex_update_priority m ;;;
      match owner x with
      | Some o => if need : bool then owner_update o else mret tt
      | None => mret tt
      end) Q s.
Proof.
  intros Hk Hm Hp Ex Ev El HQ. apply wp_bind.
  eapply (wp_mono _ (fun _ s' => s' = s)).
  { unfold need_update. destruct (owner x) as [o|] eqn:Hx; [|done].
    destruct (mi_own _ Hm m x o Ex Hx) as (_ & vo & Evo & _).
    apply wp_bind. eapply vw_thread; [exact Ev|]. intros th _ _. apply wp_bind. eapply vw_thread; [exact Evo|]. by intros tho _ _. }
  intros need s0 ->. apply wp_bind. eapply vw_mutex_update_priority; [done..|]. intros s1 Hk1 E1.
  pose proof (boosted_upd_m (abs s) m x (head_prio (a_th (abs s)) l) Ex) as B1. rewrite <- E1 in B1.
  assert (pinv None None (abs s1)) as Hp1 by (rewrite E1; by apply pinv_less_urgent).
  destruct (owner x) as [o|] eqn:Hx; [|by apply wp_ret, HQ]. destruct need; [|by apply wp_ret, HQ].
  destruct (mi_own _ Hm m x o Ex Hx) as (_ & vo & Evo & _).
  eapply (vw_owner_update s1 o vo None); [done|by apply (minv_boosted _ _ B1)|done|by rewrite E1|done|].
  intros s' Hk' Hp' B'. apply HQ; [done..|]. by eapply boosted_trans.
Qed.
End inherit.
