(* ===== verification/Kernel.v ===== *)
(** Every run of the kernel's calls and interrupts: no fault, the most urgent thread runs, mutexes
    exclude and pass priorities on.

    The invariant joins the one of [Sched] (lists and ready table), that of [Inherit] (who waits
    for whom, and priorities) and, for every thread, what its state must be for the place in a
    call that it has reached. *)

From stdpp Require Import gmap sorting.
From S2P Require Import Prelude Sched Ipc Inherit.
#[local] Open Scope Z_scope.

Section kernel.
Context (rank : Z -> Z) (idle : Z).

(** ** The invariant *)

(** A thread in the middle of [_rt_mutex_take]: it waits, or has been given the mutex, or its time
    has run out. *)
Definition taking (a : av) (t : Z) (v : tview) (m : Z) : Prop :=
  exists x, a_mtx a !! m = Some x /\
    (v_class v = 4 /\ v_err v = 0 /\ v_pend v = Some m /\ owner x <> Some t \/
     v_class v = 2 /\ v_err v = 0 /\ v_pend v = None /\ owner x = Some t \/
     v_class v = 2 /\ v_err v <> 0 /\ v_pend v = Some m /\ owner x <> Some t).

Definition frame_ok (a : av) (t : Z) (v : tview) (f : option frame) : Prop :=
  match f with
  | None => v_class v <> 4 /\ v_pend v = None
  | Some (InSemTake | InSleep _) => v_pend v = None
  | Some (InMutexTake m) | Some (InMutexCheck m) => taking a t v m
  | Some (InMutexFailed _) => v_class v = 2
  | Some (InMutexRelease _ | InReturn _) => v_class v = 2 /\ v_pend v = None
  | Some (InMutexDetach _ _) => False
  | Some InExit => v_class v = 1 /\ v_pend v = None
  end.

(** The thread [h] is in the middle of an action. *)
Record ginv (fs : gmap Z frame) (h : option Z) (a : av) : Prop := GInv {
  gi_m : minv rank a;
  gi_p : pinv None None a;
  gi_f t v : Some t <> h -> a_th a !! t = Some v -> frame_ok a t v (fs !! t);
  gi_i : active a idle;
}.

Record good (s : kernel) (fs : gmap Z frame) : Prop := Good {
  go_k : kok s;
  go_s : settled s;
  go_n : a_nest (abs s) = 0;
  go_g : ginv fs None (abs s);
}.

(** *** What does not matter to it *)

Lemma minv_ext a a' :
  a_th a' = a_th a -> a_w a' = a_w a -> a_mtx a' = a_mtx a -> a_sems a' = a_sems a -> minv rank a -> minv rank a'.
Proof. intros E1 E2 E3 E4 []. constructor; rewrite ?E1, ?E2, ?E3, ?E4; done. Qed.

Lemma pinv_ext h b a a' :
  a_th a' = a_th a -> a_w a' = a_w a -> a_mtx a' = a_mtx a -> pinv h b a -> pinv h b a'.
Proof. intros E1 E2 E3 []. constructor; rewrite ?E1, ?E2, ?E3; done. Qed.

Lemma frame_ok_ext a a' t v f : a_mtx a' = a_mtx a -> frame_ok a t v f -> frame_ok a' t v f.
Proof. intros E. unfold frame_ok, taking. by rewrite E. Qed.

Lemma ginv_ext fs h a a' :
  a_th a' = a_th a -> a_w a' = a_w a -> a_mtx a' = a_mtx a -> a_sems a' = a_sems a -> ginv fs h a -> ginv fs h a'.
Proof.
  intros E1 E2 E3 E4 [Hm Hp Hf Hi]. constructor; [by apply (minv_ext a)|by apply (pinv_ext _ _ a)| |].
  - intros t v. rewrite E1. intros Ht Ev. apply (frame_ok_ext a); [done|by apply Hf].
  - unfold active. by rewrite E1.
Qed.

Lemma frame_ok_boosted a a' t v v' f :
  boosted a a' -> v' = v_set_prio (v_prio v') v -> frame_ok a t v f -> frame_ok a' t v' f.
Proof.
  intros B ->. destruct f as [[]|]; try done; intros (x & Ex & H); destruct (boosted_mtx _ _ _ _ B Ex) as [p Ep];
    exists (set_m_priority p x); by split.
Qed.

Lemma ginv_boosted fs h a a' : boosted a a' -> pinv None None a' -> ginv fs h a -> ginv fs h a'.
Proof.
  intros B Hp' [Hm Hp Hf (vi & Ei & Hi)]. constructor; [by apply (minv_boosted _ a)|done| |].
  - intros t v' Ht Ev'. destruct (boosted_th_inv _ _ _ _ B Ev') as (v & Ev & He).
    apply (frame_ok_boosted a _ t v); [done|done|by apply Hf].
  - destruct (boosted_th _ _ _ _ B Ei) as [p Ep]. by eexists.
Qed.

(** ** The end of an action *)

Definition frame_of (o : outcome) : option frame := match o with Away f => Some f | Return _ => None end.
Definition after (t : Z) (fs : gmap Z frame) (o : outcome) : gmap Z frame :=
  match o with Away f => <[t := f]> fs | Return _ => delete t fs end.

Lemma after_eq t fs o : after t fs o !! t = frame_of o.
Proof. destruct o; [apply lookup_insert_eq|apply lookup_delete_eq]. Qed.
Lemma after_ne t fs o u : u <> t -> after t fs o !! u = fs !! u.
Proof. destruct o; intros H; [by apply lookup_insert_ne|by apply lookup_delete_ne]. Qed.

Lemma ginv_close fs t o a :
  ginv fs (Some t) a -> (forall v, a_th a !! t = Some v -> frame_ok a t v (frame_of o)) -> ginv (after t fs o) None a.
Proof.
  intros [Hm Hp Hf Hi] Ht. constructor; try done. intros u v _ Ev. destruct (decide (u = t)) as [->|Hne].
  - rewrite after_eq. by apply Ht.
  - rewrite after_ne by done. apply Hf; [congruence|done].
Qed.

Lemma ginv_open fs t a : ginv fs None a -> ginv fs (Some t) a.
Proof. intros [Hm Hp Hf Hi]. constructor; try done. intros u v _. by apply Hf. Qed.

Lemma settled_running s : settled s -> exists v, a_th (abs s) !! a_cur (abs s) = Some v /\ v_class v = 2.
Proof.
  intros (th & E & Hr & _). exists (view th). simpl. rewrite lookup_fmap, E. split; [done|].
  apply class_active. by right.
Qed.

(** The calling thread, with what it may be when it goes away for [f]. *)
Lemma wp_and_then m f k fs t v s :
  t = a_cur (abs s) -> a_th (abs s) !! t = Some v -> ginv fs (Some t) (abs s) ->
  wp m (fun _ s' => kok s' /\ settled s' /\ abs s' = a_set_nest 0 (a_set_cur (a_cur (abs s')) (abs s))) s ->
  frame_ok (abs s) t v (Some f) ->
  (forall s', v_class v = 2 -> kok s' -> settled s' -> abs s' = a_set_nest 0 (abs s) ->
     wp k (fun o s' => good s' (after t fs o)) s') ->
  wp (and_then m f k) (fun o s' => good s' (after t fs o)) s.
Proof.
  intros Ht Ev Hg Hm Hf Hk. apply wp_bind, vw_self, wp_bind. eapply wp_mono; [exact Hm|].
  intros [] s' (Hk' & Hs' & E). apply wp_bind, vw_self. rewrite <- Ht.
  destruct (Z.eqb_spec (a_cur (abs s')) t) as [Hc|Hc].
  - assert (abs s' = a_set_nest 0 (abs s)) as E'.
    { rewrite E, Hc, Ht. by destruct (abs s). }
    apply Hk; [|done..]. destruct (settled_running s' Hs') as (v' & Ev' & Hv'). rewrite Hc, E' in Ev'. simpl in Ev'.
    simpl in Ev. congruence.
  - apply wp_ret. constructor; [done|done|by rewrite E|]. apply (ginv_close fs t (Away f)).
    + apply (ginv_ext _ _ (abs s)); [by rewrite E..|done].
    + rewrite E. intros v' Ev'. simpl in Ev', Ev. replace v' with v by congruence. by apply (frame_ok_ext (abs s)).
Qed.

(** A thread that does not run any more goes away for good. *)
Lemma wp_and_then_away m f k fs t v s :
  t = a_cur (abs s) -> a_th (abs s) !! t = Some v -> ginv fs (Some t) (abs s) ->
  wp m (fun _ s' => kok s' /\ settled s' /\ abs s' = a_set_nest 0 (a_set_cur (a_cur (abs s')) (abs s))) s ->
  frame_ok (abs s) t v (Some f) -> v_class v <> 2 ->
  wp (and_then m f k) (fun o s' => good s' (after t fs o) /\ o = Away f) s.
Proof.
  intros Ht Ev Hg Hm Hf Hc. apply wp_bind, vw_self, wp_bind. eapply wp_mono; [exact Hm|].
  intros [] s' (Hk' & Hs' & E). apply wp_bind, vw_self. rewrite <- Ht.
  assert (a_cur (abs s') <> t) as Hne.
  { intros Hcu. destruct (settled_running s' Hs') as (v' & Ev' & Hv'). rewrite Hcu, E in Ev'. simpl in Ev', Ev. congruence. }
  rewrite (proj2 (Z.eqb_neq _ _) Hne). apply wp_ret. split; [|done]. constructor; [done|done|by rewrite E|].
  apply (ginv_close fs t (Away f)).
  - apply (ginv_ext _ _ (abs s)); [by rewrite E..|done].
  - rewrite E. intros v' Ev'. simpl in Ev', Ev. replace v' with v by congruence. by apply (frame_ok_ext (abs s)).
Qed.

Lemma wp_exit_post s :
  kok s -> a_nest (abs s) = 1 -> active (abs s) idle ->
  wp rt_exit_critical (fun _ s' => kok s' /\ settled s' /\ abs s' = a_set_nest 0 (a_set_cur (a_cur (abs s')) (abs s))) s.
Proof. intros Hk Hn Hi. by apply (vw_exit s idle). Qed.

Lemma wp_exit_safe_post s :
  kok s -> a_nest (abs s) = 1 -> active (abs s) idle ->
  wp (rt_exit_critical_safe 1)
    (fun _ s' => kok s' /\ settled s' /\ abs s' = a_set_nest 0 (a_set_cur (a_cur (abs s')) (abs s))) s.
Proof. intros Hk Hn Hi. apply wp_bind, wp_gets. simpl in Hn. rewrite Hn. by apply wp_exit_post. Qed.

Lemma wp_schedule_post s :
  kok s -> a_nest (abs s) = 0 -> active (abs s) idle ->
  wp rt_schedule (fun _ s' => kok s' /\ settled s' /\ abs s' = a_set_nest 0 (a_set_cur (a_cur (abs s')) (abs s))) s.
Proof.
  intros Hk Hn Hi. apply (vw_schedule s idle); [done..|]. intros s' Hk' Hs' E. split_and!; [done..|].
  rewrite E. simpl in *. by rewrite <- Hn.
Qed.

(** The calling thread returns from an action that leaves it active. *)
Lemma good_return s fs t v r :
  kok s -> settled s -> a_nest (abs s) = 0 -> ginv fs (Some t) (abs s) -> a_th (abs s) !! t = Some v ->
  v_class v = 2 -> v_pend v = None -> good s (after t fs (Return r)).
Proof.
  intros Hk Hs Hn Hg Ev Hc Hp. constructor; [done..|]. apply (ginv_close fs t (Return r)); [done|].
  intros v' Ev'. replace v' with v by congruence. split; [by rewrite Hc|done].
Qed.

Lemma wp_returning m r fs t v s :
  t = a_cur (abs s) -> a_th (abs s) !! t = Some v -> v_class v = 2 -> v_pend v = None -> ginv fs (Some t) (abs s) ->
  wp m (fun _ s' => kok s' /\ settled s' /\ abs s' = a_set_nest 0 (a_set_cur (a_cur (abs s')) (abs s))) s ->
  wp (returning m r) (fun o s' => good s' (after t fs o)) s.
Proof.
  intros Ht Ev Hc Hp Hg Hm. eapply wp_and_then; [done..|]. intros s' _ Hk Hs E. apply wp_ret.
  apply (good_return s' fs t v); try done; rewrite E; [done| |done]. by apply (ginv_ext _ _ (abs s)).
Qed.

(** ** Changes of the view that keep the invariant *)

Definition v_wake (e : Z) (v : tview) : tview := v_set_err e (v_set_class 2 v).

(** A suspended thread is woken; one that waits for a mutex is woken with an error. *)
Lemma minv_wake a t v e :
  minv rank a -> a_th a !! t = Some v -> minv rank (a_set_w (without t <$> a_w a) (a_upd t (v_wake e v) a)).
Proof.
  intros [Hw Hs Hws Hp Ho Ht Hn Hf Hr Hm] Ev. unfold a_set_w, a_upd, a_set_th. constructor; cbn [a_th a_w a_sems a_mtx].
  - intros m x Ex. rewrite lookup_fmap. destruct (Hw m x Ex) as [l ->]. by eexists.
  - intros x sv Ex. destruct (Hs x sv Ex) as (? & ? & ? & l & El & Hl). split_and!; [done..|].
    exists (without t l). rewrite lookup_fmap, El. split; [done|]. intros Hpos. by rewrite (Hl Hpos).
  - intros m x l u Ex (l0 & <- & El)%lookup_fmap_Some [Hin Hne]%without_elem. rewrite lookup_insert_ne by done.
    by apply (Hws m x l0 u).
  - intros u w m. destruct (decide (u = t)) as [->|Hne]; [rewrite lookup_insert_eq; by intros [= <-]|].
    rewrite lookup_insert_ne by done. intros Eu Hc Hpe. destruct (Hp u w m Eu Hc Hpe) as (x & l & Ex & El & Hin).
    exists x, (without t l). rewrite lookup_fmap, El. split_and!; [done..|]. by apply without_elem.
  - intros m x o Ex Hx. destruct (Ho m x o Ex Hx) as (Hh & vo & Eo & Hin). split; [done|].
    destruct (decide (o = t)) as [->|Hne]; [|exists vo; by rewrite lookup_insert_ne].
    exists (v_wake e v). rewrite lookup_insert_eq. split; [done|]. by replace v with vo by congruence.
  - intros u w m. rewrite lookup_insert_Some. intros [[<- <-]|[_ Eu]] Hin; [by apply (Ht t v)|by apply (Ht u w)].
  - intros u w. rewrite lookup_insert_Some. intros [[<- <-]|[_ Eu]]; [by apply (Hn t v)|by apply (Hn u w)].
  - done.
  - intros u w m m'. rewrite lookup_insert_Some. intros [[<- <-]|[_ Eu]] Hc; [done|by apply (Hr u w)].
  - done.
Qed.

Lemma pinv_wake a t v v' :
  pinv None None a -> a_th a !! t = Some v -> v_prio v' = v_prio v ->
  pinv None None (a_set_w (without t <$> a_w a) (a_upd t v' a)).
Proof.
  intros [Hr Hw Ho Hor] Ev Hv. unfold a_set_w, a_upd, a_set_th.
  assert (forall u w, <[t := v']> (a_th a) !! u = Some w -> exists w0, a_th a !! u = Some w0 /\ v_prio w0 = v_prio w) as Hu.
  { intros u w. rewrite lookup_insert_Some. intros [[<- <-]|[_ Eu]]; [by exists v|by exists w]. }
  constructor; cbn [a_th a_w a_sems a_mtx].
  - done.
  - intros m x l u w Ex (l0 & <- & El)%lookup_fmap_Some [Hin Hne]%without_elem _ Eu.
    destruct (Hu u w Eu) as (w0 & Eu0 & <-). by apply (Hw m x l0 u w0).
  - intros m x o w Ex Hx Eo Hb. destruct (Hu o w Eo) as (w0 & Eo0 & <-). by apply (Ho m x o w0).
  - intros m x l Ex (l0 & <- & El)%lookup_fmap_Some. eapply v_order_ext; [intros u w _; apply Hu|].
    by apply v_order_without, (Hor m x).
Qed.

Lemma ginv_wake fs h a t v e :
  ginv fs h a -> a_th a !! t = Some v -> v_class v = 4 -> (v_pend v <> None -> e <> 0) ->
  ginv fs h (a_set_w (without t <$> a_w a) (a_upd t (v_wake e v) a)).
Proof.
  intros [Hm Hp Hf (vi & Ei & Hi)] Ev Hc He. constructor.
  - by apply minv_wake.
  - by apply (pinv_wake _ t v).
  - intros u w Hu. simpl. rewrite lookup_insert_Some. intros [[<- <-]|[Hne Eu]].
    + apply (frame_ok_ext a); [done|]. specialize (Hf t v Hu Ev). destruct (fs !! t) as [[]|]; simpl in *; try done.
      * destruct Hf as (x & Ex & [(_ & _ & Hpe & Ho)|[(? & _)|(? & _)]]); [|congruence..]. exists x. split; [done|].
        right. right. split_and!; [done| |done|done]. apply He. by rewrite Hpe.
      * destruct Hf as (x & Ex & [(_ & _ & Hpe & Ho)|[(? & _)|(? & _)]]); [|congruence..]. exists x. split; [done|].
        right. right. split_and!; [done| |done|done]. apply He. by rewrite Hpe.
      * by destruct Hf.
      * destruct Hf. congruence.
      * by destruct Hf.
      * by destruct Hf.
    + apply (frame_ok_ext a); [done|]. by apply Hf.
  - destruct (decide (idle = t)) as [->|Hne]; [exists (v_wake e v); simpl; by rewrite lookup_insert_eq|].
    exists vi. simpl. by rewrite lookup_insert_ne.
Qed.

(** The calling thread does not wait, or waits for a semaphore without tokens, or for its timer. *)
Definition elsewhere (a : av) (t : Z) (w : gmap Z (list Z)) : Prop :=
  w = a_w a \/
  exists x sv l l', a_sems a !! x = Some sv /\ value sv <= 0 /\ a_w a !! x = Some l /\ l' ≡ₚ t :: l /\ w = <[x := l']> (a_w a).

Lemma elsewhere_mutex a t w m x :
  minv rank a -> elsewhere a t w -> a_mtx a !! m = Some x -> w !! m = a_w a !! m.
Proof.
  intros Hm [->|(y & sv & l & l' & Ey & _ & _ & _ & ->)] Ex; [done|]. apply lookup_insert_ne. intros ->.
  destruct (mi_sem _ _ Hm m sv Ey) as [Hn _]. congruence.
Qed.

Lemma ginv_turn fs a t v v' w :
  ginv fs (Some t) a -> a_th a !! t = Some v -> v_class v = 2 ->
  v_class v' = 2 \/ v_pend v' = None /\ t <> idle -> v_prio v' = v_prio v ->
  v_taken v' = v_taken v -> elsewhere a t w ->
  ginv fs (Some t) (a_set_w w (a_upd t v' a)).
Proof.
  intros Hg Ev Hc Hpe Hpr Hta Hw. pose proof (gi_m _ _ _ Hg) as HM.
  pose proof (fun m x => elsewhere_mutex a t w m x HM Hw) as Hwm.
  destruct Hg as [[Hwi Hs Hws Hp Ho Ht Hn Hf Hr Hm] Hpi Hfr (vi & Ei & Hi)].
  unfold a_set_w, a_upd, a_set_th. constructor; [constructor| | |]; cbn [a_th a_w a_sems a_mtx]; try done.
  - intros m x Ex. rewrite (Hwm m x Ex). by apply (Hwi m x).
  - intros x sv Ex. destruct (Hs x sv Ex) as (? & ? & ? & l & El & Hl). split_and!; [done..|].
    destruct Hw as [->|(y & sv' & ly & l' & Ey & Hv & Ely & _ & ->)]; [by exists l|].
    destruct (decide (x = y)) as [->|Hne]; [|by exists l; rewrite lookup_insert_ne].
    exists l'. rewrite lookup_insert_eq. split; [done|]. replace sv with sv' by congruence. lia.
  - intros m x l u Ex. rewrite (Hwm m x Ex). intros El Hin. destruct (Hws m x l u Ex El Hin) as (z & o & Eu & Hcu & H).
    exists z, o. split; [|done]. rewrite lookup_insert_ne; [done|]. intros ->. congruence.
  - intros u z m. rewrite lookup_insert_Some. intros [[<- <-]|[_ Eu]] Hcu Hpm; [destruct Hpe as [?|[? _]]; congruence|].
    destruct (Hp u z m Eu Hcu Hpm) as (x & l & Ex & El & Hin). exists x, l. by rewrite (Hwm m x Ex).
  - intros m x o Ex Hx. destruct (Ho m x o Ex Hx) as (Hh & vo & Eo & Hin). split; [done|].
    destruct (decide (o = t)) as [->|Hne]; [|exists vo; by rewrite lookup_insert_ne].
    exists v'. rewrite lookup_insert_eq, Hta. split; [done|]. by replace v with vo by congruence.
  - intros u z m. rewrite lookup_insert_Some. intros [[<- <-]|[_ Eu]]; [rewrite Hta; by apply (Ht t v)|by apply (Ht u z)].
  - intros u z. rewrite lookup_insert_Some. intros [[<- <-]|[_ Eu]]; [rewrite Hta; by apply (Hn t v)|by apply (Hn u z)].
  - intros u z m m'. rewrite lookup_insert_Some. intros [[<- <-]|[_ Eu]] Hcu Hpm; [destruct Hpe as [?|[? _]]; congruence|by apply (Hr u z)].
  - assert (forall u z, <[t := v']> (a_th a) !! u = Some z -> exists z0, a_th a !! u = Some z0 /\ v_prio z0 = v_prio z) as Hu.
    { intros u z. rewrite lookup_insert_Some. intros [[<- <-]|[_ Eu]]; [by exists v|by exists z]. }
    destruct Hpi as [Pr Pw Po Por]. constructor; cbn [a_th a_w a_sems a_mtx].
    + done.
    + intros m x l u z Ex. rewrite (Hwm m x Ex). intros El Hin _ Eu. destruct (Hu u z Eu) as (z0 & Eu0 & <-). by apply (Pw m x l u z0).
    + intros m x o z Ex Hx Eo Hb. destruct (Hu o z Eo) as (z0 & Eo0 & <-). by apply (Po m x o z0).
    + intros m x l Ex. rewrite (Hwm m x Ex). intros El. eapply v_order_ext; [intros u z _; apply Hu|]. by apply (Por m x).
  - intros u z Hne. rewrite lookup_insert_ne by congruence. intros Eu. apply (frame_ok_ext a); [done|]. by apply Hfr.
  - destruct (decide (idle = t)) as [->|Hne]; [|exists vi; simpl; by rewrite lookup_insert_ne].
    exists v'. simpl. rewrite lookup_insert_eq. by destruct Hpe as [?|[_ ?]].
Qed.

Lemma ginv_self fs a t v v' :
  ginv fs (Some t) a -> a_th a !! t = Some v -> v_class v = 2 -> v_class v' = 2 -> v_prio v' = v_prio v ->
  v_taken v' = v_taken v -> ginv fs (Some t) (a_upd t v' a).
Proof.
  intros Hg Ev Hc Hc' Hp Ht. apply (ginv_ext _ _ (a_set_w (a_w a) (a_upd t v' a))); [done..|].
  apply (ginv_turn _ _ _ v); try done; by left.
Qed.

Lemma ginv_sems fs h a x sv sv' :
  ginv fs h a -> a_sems a !! x = Some sv -> sem_flag sv' = sem_flag sv -> 0 <= value sv' ->
  (0 < value sv' -> a_w a !! x = Some []) -> ginv fs h (a_set_sems (<[x := sv']> (a_sems a)) a).
Proof.
  intros [[Hw Hs Hws Hp Ho Ht Hn Hf Hr Hm] Hpi Hfr Hi] Ex Hfl Hv Hl.
  constructor; [constructor; try done| |done|done]; [|by apply (pinv_ext _ _ a)].
  intros y v. simpl. rewrite lookup_insert_Some. intros [[<- <-]|[_ Ey]]; [|by apply Hs].
  destruct (Hs x sv Ex) as (? & ? & ? & l & El & Hll). split_and!; [done|by rewrite Hfl|done|].
  exists l. split; [done|]. intros Hpos. rewrite (Hl Hpos) in El. by injection El.
Qed.

(** ** Semaphores, sleeping and yielding *)

(** The running thread, outside of any call. *)
Lemma caller s fs t :
  good s fs -> t = a_cur (abs s) -> fs !! t = None ->
  exists v, a_th (abs s) !! t = Some v /\ v_class v = 2 /\ v_pend v = None /\ ginv fs (Some t) (abs s).
Proof.
  intros [Hk Hs Hn Hg] -> Hf. destruct (settled_running s Hs) as (v & Ev & Hc). exists v.
  pose proof (gi_f _ _ _ Hg _ v ltac:(done) Ev) as H. rewrite Hf in H. simpl in H. destruct H as [_ Hp].
  split_and!; [done..|by apply ginv_open].
Qed.

Lemma running_at s fs : good s fs -> exists v, a_th (abs s) !! a_cur (abs s) = Some v /\ v_class v = 2 /\
  frame_ok (abs s) (a_cur (abs s)) v (fs !! a_cur (abs s)) /\ ginv fs (Some (a_cur (abs s))) (abs s).
Proof.
  intros [Hk Hs Hn Hg]. destruct (settled_running s Hs) as (v & Ev & Hc). exists v.
  split_and!; [done..|by apply (gi_f _ _ _ Hg)|by apply ginv_open].
Qed.

Lemma wp_available s (Q : unit -> kernel -> Prop) : a_nest (abs s) = 0 -> Q tt s -> wp scheduler_available Q s.
Proof. intros Hn HQ. apply wp_bind, wp_gets. simpl in Hn. rewrite Hn. by apply wp_ret. Qed.

Lemma wp_sem_take_end s fs t v :
  t = a_cur (abs s) -> kok s -> settled s -> a_nest (abs s) = 0 -> ginv fs (Some t) (abs s) ->
  a_th (abs s) !! t = Some v -> v_class v = 2 -> v_pend v = None ->
  wp sem_take_end (fun o s' => good s' (after t fs o)) s.
Proof.
  intros Ht Hk Hs Hn Hg Ev Hc Hp. apply wp_bind, vw_self, wp_bind. rewrite <- Ht. eapply vw_thread; [exact Ev|].
  intros th E Hv. destruct (negb _); apply wp_ret; by eapply good_return.
Qed.

Lemma wp_start_timer s t v n (Q : unit -> kernel -> Prop) :
  kok s -> a_th (abs s) !! t = Some v -> v_class v = 4 -> n < RT_TICK_MAX / 2 ->
  (forall s', kok s' -> abs s' = abs s -> Q tt s') ->
  wp (if 0 <? n then thread_timer_start t n else mret tt) Q s.
Proof. intros Hk Ev Hc Hn HQ. destruct (0 <? n); [by eapply vw_timer_start|by apply wp_ret, HQ]. Qed.

Lemma wp_sem_take s fs x sv n flag t :
  good s fs -> t = a_cur (abs s) -> fs !! t = None -> a_sems (abs s) !! x = Some sv -> 0 <= flag <= 2 ->
  n < RT_TICK_MAX / 2 -> (n <> 0 -> t <> idle) ->
  wp (_rt_sem_take x n flag) (fun o s' => good s' (after t fs o)) s.
Proof.
  intros Hgood -> Hf Ex Hfl Hn Hid. destruct (caller s fs _ Hgood eq_refl Hf) as (v & Ev & Hc & Hp & Hg).
  destruct Hgood as [Hk Hs Hne _]. destruct (mi_sem _ _ (gi_m _ _ _ Hg) x sv Ex) as (Hnm & Hsf & Hval & l & El & Hl).
  apply wp_bind. eapply vw_sem; [exact Ex|]. apply wp_bind, wp_available; [done|].
  destruct (Z.ltb_spec 0 (value sv)) as [Hpos|Hzero].
  - apply wp_bind, vw_put_sem; [done|]. intros s' Hk' Hs' E. apply wp_ret.
    apply (good_return s' fs _ v); try done; [by apply Hs'|by rewrite E| |by rewrite E].
    rewrite E. eapply ginv_sems; [done|exact Ex|done|simpl; lia|]. intros _. by rewrite El, (Hl Hpos).
  - destruct (Z.eqb_spec n 0) as [Hz|Hz]; [by apply wp_ret, (good_return s fs _ v)|].
    set (t := a_cur (abs s)) in *. apply wp_bind, vw_self, wp_bind. eapply vw_error; [done|exact Ev|]. intros s1 Hk1 _ E1.
    apply wp_bind. eapply (vw_suspend s1 t _ (Some x)); [done|by rewrite E1|rewrite E1; apply lookup_insert_eq|done|done| |].
    { intros o [= <-]. rewrite E1. split; [by exists l|done]. }
    intros w s2 Hw Hk2 E2. simpl. rewrite E1 in Hw, E2.
    set (v2 := v_set_class 4 (v_set_err RT_EINTR v)) in *.
    assert (a_th (abs s2) !! t = Some v2) as Ev2 by (rewrite E2; apply lookup_insert_eq).
    assert (ginv fs (Some t) (abs s2)) as Hg2.
    { apply (ginv_ext _ _ (a_set_w w (a_upd t v2 (abs s)))); [rewrite E2; simpl; by rewrite ?insert_insert_eq..|].
      apply (ginv_turn _ _ _ v); try done; [by right; split; [|apply Hid]|]. destruct Hw as (l0 & l' & El0 & (Hpl & _) & ->).
      right. exists x, sv, l, l'. replace l with l0 by (simpl in *; congruence). done. }
    apply wp_bind. eapply wp_start_timer; [done|exact Ev2|done|done|]. intros s3 Hk3 E3.
    eapply (wp_and_then _ _ _ fs t v2); [by rewrite E3, E2|by rewrite E3|by rewrite E3| |exact Hp|done].
    apply wp_schedule_post; [done|by rewrite E3, E2|]. rewrite E3. apply (gi_i _ _ _ Hg2).
Qed.

(** The calling thread, or an interrupt of it ([h] is [None]), has woken threads. *)
Record woke (fs : gmap Z frame) (h : option Z) (s s' : kernel) : Prop := Woke {
  wk_k : kok s';
  wk_g : ginv fs h (abs s');
  wk_c : a_cur (abs s') = a_cur (abs s);
  wk_n : a_nest (abs s') = a_nest (abs s);
  wk_s : a_sems (abs s') = a_sems (abs s);
  wk_v : a_th (abs s') !! a_cur (abs s) = a_th (abs s) !! a_cur (abs s);
}.

Lemma woke_trans fs h s1 s2 s3 : woke fs h s1 s2 -> woke fs h s2 s3 -> woke fs h s1 s3.
Proof.
  intros [K1 G1 C1 N1 S1 V1] [K2 G2 C2 N2 S2 V2]. rewrite C1 in V2. constructor; try done; by etrans.
Qed.

Lemma sem_waiter fs h s x sv l t :
  ginv fs h (abs s) -> kok s -> a_sems (abs s) !! x = Some sv -> a_w (abs s) !! x = Some l -> t ∈ l ->
  exists v, a_th (abs s) !! t = Some v /\ v_class v = 4 /\ v_pend v = None.
Proof.
  intros Hg Hk Ex El Hin. destruct (kok_listed s x l t Hk El Hin) as (v & Ev & Hc). exists v. split_and!; [done..|].
  destruct (v_pend v) as [m|] eqn:Hp; [|done]. destruct (mi_pend _ _ (gi_m _ _ _ Hg) t v m Ev Hc Hp) as (y & lm & Ey & Elm & Hinm).
  assert (x = m) as -> by (by apply (kok_one s x m l lm t)).
  destruct (mi_sem _ _ (gi_m _ _ _ Hg) m sv Ex) as [Hn _]. congruence.
Qed.

Lemma wp_dequeue_sem s fs h x sv t l e v0 (Q : option Z -> kernel -> Prop) :
  kok s -> ginv fs h (abs s) -> a_sems (abs s) !! x = Some sv -> a_w (abs s) !! x = Some (t :: l) -> 0 <= e ->
  a_th (abs s) !! a_cur (abs s) = Some v0 -> v_class v0 = 2 ->
  (forall s', woke fs h s s' -> a_w (abs s') !! x = Some (without t (t :: l)) -> Q (Some t) s') ->
  wp (rt_susp_list_dequeue x e) Q s.
Proof.
  intros Hk Hg Ex El He Ev0 Hc0 HQ. destruct (sem_waiter fs h s x sv _ t Hg Hk Ex El ltac:(left)) as (v & Ev & Hc & Hp).
  eapply vw_dequeue; [done|exact El|exact Ev|done|]. intros s' Hk' E. apply HQ.
  - constructor; [done|rewrite E; by apply ginv_wake; [..|rewrite Hp]|by rewrite E..|]. rewrite E.
    apply lookup_insert_ne. intros ->. congruence.
  - rewrite E. unfold a_set_w. cbn [a_w]. unfold a_upd, a_set_th. cbn [a_w]. by rewrite lookup_fmap, El.
Qed.

Lemma without_length t l : (length (without t l) <= length l)%nat.
Proof. apply length_filter. Qed.

Lemma wp_resume_loop fuel s fs h x sv l e v0 (Q : unit -> kernel -> Prop) :
  kok s -> ginv fs h (abs s) -> a_sems (abs s) !! x = Some sv -> a_w (abs s) !! x = Some l -> 0 <= e ->
  a_th (abs s) !! a_cur (abs s) = Some v0 -> v_class v0 = 2 -> (length l < fuel)%nat ->
  (forall s', woke fs h s s' -> a_w (abs s') !! x = Some [] -> Q tt s') ->
  wp (resume_loop fuel x e) Q s.
Proof.
  revert s l Q. induction fuel as [|fuel IH]; intros s l Q Hk Hg Ex El He Ev0 Hc0 Hlen HQ; [lia|]. simpl resume_loop.
  apply wp_bind. destruct l as [|t l].
  - apply wp_bind. eapply vw_wait_list; [exact El|]. apply wp_ret, wp_ret, HQ; [by constructor|done].
  - eapply wp_dequeue_sem; [done..|]. intros s1 W1 El1. unfold without in El1. rewrite filter_cons_False in El1 by naive_solver.
    fold (without t l) in El1. pose proof (without_length t l). simpl in Hlen.
    eapply (IH s1 (without t l)); [apply W1|apply W1|by rewrite (wk_s _ _ _ _ W1)|done|done|
      rewrite (wk_c _ _ _ _ W1), (wk_v _ _ _ _ W1); exact Ev0|done|lia|].
    intros s' W' El'. apply HQ; [by eapply woke_trans|done].
Qed.

Lemma wp_resume_all s fs h x sv e v0 (Q : Z -> kernel -> Prop) :
  kok s -> ginv fs h (abs s) -> a_sems (abs s) !! x = Some sv -> 0 <= e ->
  a_th (abs s) !! a_cur (abs s) = Some v0 -> v_class v0 = 2 ->
  (forall s', woke fs h s s' -> a_w (abs s') !! x = Some [] -> Q RT_EOK s') -> wp (rt_susp_list_resume_all x e) Q s.
Proof.
  intros Hk Hg Ex He Ev0 Hc0 HQ. destruct (mi_sem _ _ (gi_m _ _ _ Hg) x sv Ex) as (_ & _ & _ & l & El & _).
  apply wp_bind. eapply vw_wait_list; [exact El|]. apply wp_bind. eapply wp_resume_loop; [done..|lia|].
  intros s' W El'. by apply wp_ret, HQ.
Qed.

(** The release: the token goes to the first that waits, or to the value. *)
Lemma wp_sem_release s fs h x sv v0 (Q : outcome -> kernel -> Prop) :
  kok s -> ginv fs h (abs s) -> a_sems (abs s) !! x = Some sv ->
  a_th (abs s) !! a_cur (abs s) = Some v0 -> v_class v0 = 2 ->
  (forall s' r, kok s' -> (settled s -> settled s') -> ginv fs h (abs s') -> a_cur (abs s') = a_cur (abs s) ->
     a_nest (abs s') = a_nest (abs s) -> a_th (abs s') = a_th (abs s) -> Q (Return r) s') ->
  (forall s', woke fs h s s' -> wp (returning rt_schedule RT_EOK) Q s') ->
  wp (rt_sem_release x) Q s.
Proof.
  intros Hk Hg Ex Ev0 Hc0 HR HQ. destruct (mi_sem _ _ (gi_m _ _ _ Hg) x sv Ex) as (_ & _ & Hv & l & El & Hl).
  apply wp_bind. eapply vw_sem; [exact Ex|]. apply wp_bind. eapply vw_wait_list; [exact El|].
  destruct l as [|t l]; simpl.
  - destruct (value sv <? max_value sv) eqn:Hlt; [|by apply wp_ret, (HR s)].
    apply wp_bind, vw_put_sem; [done|]. intros s' Hk' Hs' E. apply wp_ret, HR; [done..| |by rewrite E|by rewrite E|by rewrite E].
    rewrite E. eapply ginv_sems; [done|exact Ex|done| |done]. apply wrap_range. lia.
  - apply wp_bind. eapply wp_dequeue_sem; [done..|]. intros s1 W1 _. by apply HQ.
Qed.

Lemma wp_sem_release_call s fs x sv t :
  good s fs -> t = a_cur (abs s) -> fs !! t = None -> a_sems (abs s) !! x = Some sv ->
  wp (rt_sem_release x) (fun o s' => good s' (after t fs o)) s.
Proof.
  intros Hgood -> Hf Ex. destruct (caller s fs _ Hgood eq_refl Hf) as (v & Ev & Hc & Hp & Hg). destruct Hgood as [Hk Hs Hn _].
  eapply wp_sem_release; [done..| |].
  - intros s' r Hk' Hs' Hg' Hcu Hn' Et. apply (good_return s' fs _ v); try done; [by apply Hs'|by rewrite Hn'|by rewrite Et].
  - intros s' [Wk Wg Wc Wn Ws Wv]. eapply wp_returning; [by rewrite Wc|by rewrite Wv|done|done|done|].
    apply wp_schedule_post; [done|by rewrite Wn|apply Wg].
Qed.

Lemma good_woke s s' fs : good s fs -> woke fs None s s' -> settled s' -> good s' fs.
Proof. intros [? ? Hn ?] [? ? ? Wn ? ?] Hs. constructor; try done. by rewrite Wn. Qed.

(** Whatever is left for the interrupted thread to do, an interrupt leaves a good state. *)
Lemma wp_returning_irq s fs m r :
  kok s -> ginv fs None (abs s) ->
  wp m (fun _ s' => kok s' /\ settled s' /\ abs s' = a_set_nest 0 (a_set_cur (a_cur (abs s')) (abs s))) s ->
  wp (returning m r) (fun _ s' => good s' fs) s.
Proof.
  intros Hk Hg Hm. apply wp_bind, vw_self, wp_bind. eapply wp_mono; [exact Hm|].
  intros [] s' (Hk' & Hs' & E). apply wp_bind, vw_self.
  assert (good s' fs) as Hgood.
  { constructor; [done|done|by rewrite E|]. apply (ginv_ext _ _ (abs s)); [by rewrite E..|done]. }
  by destruct (_ =? _).
Qed.

Lemma wp_sem_release_irq s fs x sv :
  good s fs -> a_sems (abs s) !! x = Some sv -> wp (rt_sem_release x) (fun _ s' => good s' fs) s.
Proof.
  intros Hgood Ex. destruct (running_at s fs Hgood) as (v & Ev & Hc & _). pose proof Hgood as [Hk Hs Hn Hg].
  eapply wp_sem_release; [done..| |].
  - intros s' r Hk' Hs' Hg' Hcu Hn' Et. constructor; [done|by apply Hs'|by rewrite Hn'|done].
  - intros s' [Wk Wg Wc Wn Ws Wv]. apply wp_returning_irq; [done..|]. apply wp_schedule_post; [done|by rewrite Wn|apply Wg].
Qed.

Lemma wp_sem_control s fs x sv cmd arg t :
  good s fs -> t = a_cur (abs s) -> fs !! t = None -> a_sems (abs s) !! x = Some sv ->
  wp (rt_sem_control x cmd arg) (fun o s' => good s' (after t fs o)) s.
Proof.
  intros Hgood -> Hf Ex. destruct (caller s fs _ Hgood eq_refl Hf) as (v & Ev & Hc & Hp & Hg). destruct Hgood as [Hk Hs Hn _].
  destruct (mi_sem _ _ (gi_m _ _ _ Hg) x sv Ex) as (_ & _ & Hv & l & El & Hl). set (t := a_cur (abs s)) in *.
  assert (forall s1 sv', woke fs (Some t) s s1 -> a_w (abs s1) !! x = Some [] -> sem_flag sv' = sem_flag sv -> 0 <= value sv' ->
    wp (put_sem x sv' ;;; returning rt_schedule RT_EOK) (fun o s' => good s' (after t fs o)) s1) as Hput.
  { intros s1 sv' [Wk Wg Wc Wn Ws Wv] El1 Hfl Hval. apply wp_bind, vw_put_sem; [done|]. intros s2 Hk2 _ E2.
    assert (ginv fs (Some t) (abs s2)) as Hg2.
    { rewrite E2. apply (ginv_sems _ _ _ x sv); try done. by rewrite Ws. }
    eapply wp_returning; [by rewrite E2|rewrite E2; etrans; [exact Wv|exact Ev]|done|done|done|].
    apply wp_schedule_post; [done|rewrite E2; etrans; [exact Wn|exact Hn]|apply Hg2]. }
  apply wp_bind. eapply vw_sem; [exact Ex|]. destruct (cmd =? RT_IPC_CMD_RESET).
  - apply wp_bind. eapply wp_resume_all; [done..| |]; [by vm_compute|]. intros s1 W1 El1. apply (Hput s1); [done..|].
    apply wrap_range. lia.
  - destruct (cmd =? RT_IPC_CMD_SET_VLIMIT); [|by apply wp_ret, (good_return s fs _ v)].
    cbv zeta. destruct ((RT_SEM_VALUE_MAX <? u16 arg) || (u16 arg <? 1)); [by apply wp_ret, (good_return s fs _ v)|].
    apply wp_bind. eapply vw_wait_list; [exact El|]. destruct (_ && _) eqn:Hw.
    + apply wp_bind, wp_bind. eapply wp_resume_all; [done..| |]; [by vm_compute|]. intros s1 W1 El1. apply wp_ret.
      by apply (Hput s1).
    + apply wp_bind, wp_ret, wp_bind, vw_put_sem; [done|]. intros s' Hk' Hs' E. apply wp_ret.
      apply (good_return s' fs _ v); try done; [by apply Hs'|by rewrite E| |by rewrite E].
      rewrite E. apply (ginv_sems _ _ _ x sv); try done. intros Hpos. by rewrite El, (Hl Hpos).
Qed.

Lemma ginv_err fs a t v e :
  ginv fs (Some t) a -> a_th a !! t = Some v -> v_class v = 2 -> ginv fs (Some t) (a_upd t (v_set_err e v) a).
Proof. intros Hg Ev Hc. by eapply ginv_self. Qed.

Lemma wp_sleep s fs n t :
  good s fs -> t = a_cur (abs s) -> fs !! t = None -> n < RT_TICK_MAX / 2 -> t <> idle ->
  wp (_thread_sleep n) (fun o s' => good s' (after t fs o)) s.
Proof.
  intros Hgood Ht Hf Hn Hid. destruct (caller s fs t Hgood Ht Hf) as (v & Ev & Hc & Hp & Hg).
  destruct Hgood as [Hk Hs Hne _]. unfold _thread_sleep.
  destruct (n =? 0); [by apply wp_ret, (good_return s fs _ v)|].
  apply wp_bind, vw_self. rewrite <- Ht. apply wp_bind, wp_available; [done|]. apply wp_bind. eapply vw_error; [done|exact Ev|].
  intros s1 Hk1 _ E1. apply wp_bind, vw_enter; [done|by rewrite E1|]. intros s2 Hk2 E2. rewrite E1 in E2.
  apply wp_bind. eapply (vw_suspend s2 t _ None); [done|by rewrite E2|rewrite E2; apply lookup_insert_eq|done|done|done|].
  intros w s3 Hw Hk3 E3. change (w = a_w (abs s2)) in Hw. subst w. rewrite E2 in E3. simpl.
  set (v3 := v_set_class 4 (v_set_err RT_EOK v)) in *.
  assert (a_th (abs s3) !! t = Some v3) as Ev3 by (rewrite E3; apply lookup_insert_eq).
  apply wp_bind. eapply vw_timer_start; [done|exact Ev3|done|done|]. intros s4 Hk4 E4. rewrite E3 in E4.
  apply wp_bind. eapply vw_error; [done|rewrite E4; apply lookup_insert_eq|]. intros s5 Hk5 _ E5. rewrite E4 in E5.
  set (v5 := v_set_err (- RT_EINTR) v3) in *.
  assert (a_th (abs s5) !! t = Some v5) as Ev5 by (rewrite E5; apply lookup_insert_eq).
  assert (ginv fs (Some t) (abs s5)) as Hg5.
  { apply (ginv_ext _ _ (a_set_w (a_w (abs s)) (a_upd t v5 (abs s)))); [rewrite E5; simpl; by rewrite ?insert_insert_eq..|].
    apply (ginv_turn _ _ _ v); try done; [by right|by left]. }
  assert (a_nest (abs s5) = 1) as Hn5 by (by rewrite E5).
  apply wp_bind, wp_bind, wp_gets. simpl in Hn5. rewrite Hn5. apply wp_ret.
  eapply (wp_and_then _ _ _ fs t v5); [by rewrite E5|done|done| |exact Hp|done].
  apply wp_exit_safe_post; [done..|apply Hg5].
Qed.

Lemma wp_sleep_end s fs t err v :
  t = a_cur (abs s) -> kok s -> settled s -> a_nest (abs s) = 0 -> ginv fs (Some t) (abs s) ->
  a_th (abs s) !! t = Some v -> v_class v = 2 -> v_pend v = None ->
  wp (sleep_end err) (fun o s' => good s' (after t fs o)) s.
Proof.
  intros Ht Hk Hs Hn Hg Ev Hc Hp. apply wp_bind, vw_self, wp_bind. rewrite <- Ht.
  eapply vw_upd; [done| |exact Ev|].
  { intros th. by destruct (_ =? _). }
  intros th s' Hv Hk' Hs' E. apply wp_ret. set (v' := view _) in E.
  assert (v_class v' = 2 /\ v_pend v' = None /\ v_prio v' = v_prio v /\ v_taken v' = v_taken v) as (H1 & H2 & H3 & H4).
  { subst v'. rewrite <- Hv in *. by destruct (_ =? _). }
  apply (good_return s' fs _ v'); [done|by apply Hs'|by rewrite E| |rewrite E; apply lookup_insert_eq|done|done].
  rewrite E. by apply (ginv_self _ _ _ v).
Qed.

Lemma wp_resched_post s :
  kok s -> a_nest (abs s) = 0 -> active (abs s) idle ->
  wp rt_sched_unlock_n_resched
    (fun _ s' => kok s' /\ settled s' /\ abs s' = a_set_nest 0 (a_set_cur (a_cur (abs s')) (abs s))) s.
Proof.
  intros Hk Hn Hi. apply (vw_resched s idle); [done..|]. intros s' Hk' Hs' E. split_and!; [done..|].
  rewrite E. simpl in *. by rewrite <- Hn.
Qed.

Lemma wp_yield s fs t :
  good s fs -> t = a_cur (abs s) -> fs !! t = None ->
  wp rt_thread_yield_call (fun o s' => good s' (after t fs o)) s.
Proof.
  intros Hgood -> Hf. destruct (caller s fs _ Hgood eq_refl Hf) as (v & Ev & Hc & Hp & Hg). destruct Hgood as [Hk Hs Hn _].
  eapply wp_returning; [done..|]. apply wp_bind, wp_bind, vw_self, wp_bind. eapply vw_yield; [done|exact Ev|].
  intros s1 Hk1 E1. apply wp_bind. eapply wp_mono.
  - apply wp_resched_post; [done|by rewrite E1|rewrite E1; apply Hg].
  - intros [] s' (Hk' & Hs' & E'). apply wp_ret, wp_ret. rewrite E1 in E'. done.
Qed.

(** A thread that returns from its function, with the mutexes that it owns. *)
Lemma wp_thread_exit s fs t :
  good s fs -> t = a_cur (abs s) -> fs !! t = None -> t <> idle ->
  wp _thread_exit (fun o s' => good s' (after t fs o) /\ o = Away InExit) s.
Proof.
  intros Hgood -> Hf Hid. destruct (caller s fs _ Hgood eq_refl Hf) as (v & Ev & Hc & Hp & Hg). destruct Hgood as [Hk Hs Hn _].
  set (t := a_cur (abs s)) in *. apply wp_bind, vw_self, wp_bind, vw_enter; [done..|]. intros s1 Hk1 E1.
  apply wp_assoc3, wp_bind. eapply vw_close; [done|by rewrite E1|by rewrite E1|done|]. intros s2 Hk2 E2. rewrite E1 in E2.
  set (v2 := v_set_class 1 v) in *.
  assert (a_th (abs s2) !! t = Some v2) as Ev2 by (rewrite E2; apply lookup_insert_eq).
  assert (ginv fs (Some t) (abs s2)) as Hg2.
  { apply (ginv_ext _ _ (a_set_w (a_w (abs s)) (a_upd t v2 (abs s)))); [by rewrite E2..|].
    apply (ginv_turn _ _ _ v); try done; [by right|by left]. }
  apply (wp_and_then_away _ _ _ fs t v2); [by rewrite E2|done|done| |done|done].
  apply wp_exit_safe_post; [done|by rewrite E2|apply Hg2].
Qed.

(** ** Interrupts *)

Lemma good_resched s fs :
  kok s -> ginv fs None (abs s) -> a_nest (abs s) = 0 -> wp rt_sched_unlock_n_resched (fun _ s' => good s' fs) s.
Proof.
  intros Hk Hg Hn. eapply wp_mono; [apply wp_resched_post; [done..|apply Hg]|]. intros [] s' (Hk' & Hs' & E).
  constructor; [done|done|by rewrite E|]. apply (ginv_ext _ _ (abs s)); [by rewrite E..|done].
Qed.

Lemma wp_tick_increase s fs : good s fs -> wp rt_sched_tick_increase (fun _ s' => good s' fs) s.
Proof.
  intros Hgood. destruct (running_at s fs Hgood) as (v & Ev & Hc & _). destruct Hgood as [Hk Hs Hn Hg].
  apply wp_bind, vw_self, wp_bind. eapply vw_unseen; [done|by intros th|done|exact Ev|]. intros s1 Hk1 Hs1 E1.
  apply wp_bind. eapply vw_thread; [by rewrite E1|]. intros th _ _. destruct (negb _).
  - apply wp_ret. constructor; [done|by apply Hs1|by rewrite E1|by rewrite E1].
  - apply wp_bind. eapply vw_yield; [done|by rewrite E1|]. intros s2 Hk2 E2. rewrite E1 in E2.
    apply good_resched; [done|by rewrite E2..].
Qed.

Lemma wp_timer_rings s fs t th n :
  good s fs -> threads s !! t = Some th -> thread_timer th = Some n -> wp (_thread_timeout t) (fun _ s' => good s' fs) s.
Proof.
  intros [Hk Hs Hn Hg] E Ht. destruct (k_thread _ _ (proj1 Hk) t th E ltac:(done)) as ([_ _ _ Hti] & _).
  rewrite Ht in Hti. destruct Hti as [Hsu _]. rewrite class_suspended in Hsu. apply Z.eqb_eq in Hsu.
  eapply vw_timeout; [done|exact E|exact Ht|done|]. intros s' Hk' E'. apply good_resched; [done| |by rewrite E'].
  rewrite E'. apply ginv_wake; [done| |done|done]. simpl. by rewrite lookup_fmap, E.
Qed.
End kernel.
