(* ===== verification/Mutexes.v ===== *)
(** The mutexes of [Ipc] keep the invariant of [Kernel]: taking, waiting, passing on, and the ways
    out of [_rt_mutex_take]. *)

From stdpp Require Import gmap sorting.
From S2P Require Import Prelude Sched Ipc Calm Inherit Kernel.
#[local] Open Scope Z_scope.

Section mutexes.
Context (rank : Z -> Z) (idle : Z).
Notation minv := (minv rank).
Notation ginv := (ginv rank idle).
Notation good := (good rank idle).

Lemma wp_assoc_need {A B C D} (m : M kernel A) (n : M kernel B) (k : A -> M kernel C) (j : M kernel D) Q s :
  wp ((x ← m; n ;;; k x) ;;; j) Q s -> wp (x ← m; n ;;; k x ;;; j) Q s.
Proof.
  unfold wp, mbind, M_bind. destruct (m s) as [[a s1]|]; [|done]. destruct (n s1) as [[b s2]|]; [|done].
  by destruct (k a s2) as [[c s3]|].
Qed.

(** ** Coming back *)

Lemma wp_take_failed s fs t v ret :
  t = a_cur (abs s) -> kok s -> settled s -> a_nest (abs s) = 0 -> ginv fs (Some t) (abs s) ->
  a_th (abs s) !! t = Some v -> v_class v = 2 ->
  wp (mutex_take_failed ret) (fun o s' => good s' (after t fs o)) s.
Proof.
  intros Ht Hk Hs Hn Hg Ev Hc. apply wp_bind, vw_self. rewrite <- Ht. apply wp_bind. eapply vw_pending; [done|exact Ev|].
  intros s' Hk' Hs' E. apply wp_ret. apply (good_return _ _ s' fs t (v_set_pend None v)); try done.
  - by apply Hs'.
  - by rewrite E.
  - rewrite E. by eapply ginv_self.
  - rewrite E. apply lookup_insert_eq.
Qed.

Lemma wp_take_check s fs t v m :
  t = a_cur (abs s) -> kok s -> settled s -> a_nest (abs s) = 0 -> ginv fs (Some t) (abs s) ->
  a_th (abs s) !! t = Some v -> v_class v = 2 -> taking (abs s) t v m ->
  wp (mutex_take_check m) (fun o s' => good s' (after t fs o)) s.
Proof.
  intros Ht Hk Hs Hn Hg Ev Hc (x & Ex & Hcase). apply wp_bind, vw_enter; [done..|]. intros s1 Hk1 E1.
  assert (ginv fs (Some t) (abs s1)) as Hg1 by (rewrite E1; by apply (ginv_ext _ _ _ _ (abs s))).
  assert (a_th (abs s1) !! t = Some v) as Ev1 by (by rewrite E1).
  assert (a_mtx (abs s1) !! m = Some x) as Ex1 by (by rewrite E1).
  apply wp_bind, vw_self. replace (a_cur (abs s1)) with t by (by rewrite E1).
  apply wp_bind. eapply vw_thread; [exact Ev1|]. intros th _ Hv. replace (error th) with (v_err v) by (by rewrite <- Hv).
  apply wp_bind. eapply vw_mutex; [exact Ex1|]. destruct (Z.eqb_spec (v_err v) RT_EOK) as [He|He].
  - destruct Hcase as [(? & _)|[(_ & _ & Hp & Ho)|(_ & ? & _)]]; [congruence| |done].
    rewrite bool_decide_eq_true_2 by done. simpl. eapply wp_returning; [by rewrite E1|done..|].
    apply (wp_exit_post idle); [done|by rewrite E1|apply Hg1].
  - destruct Hcase as [(? & _)|[(_ & ? & _)|(_ & _ & Hp & Ho)]]; [congruence|done|].
    rewrite bool_decide_eq_false_2 by done. destruct (mi_wait _ _ (gi_m _ _ _ _ _ Hg1) m x Ex1) as [l El].
    apply wp_assoc_need, wp_bind. eapply (vw_left_list rank); [done|apply Hg1|apply Hg1|done|exact Ev1|exact El|].
    intros s2 Hk2 Hp2 B2. destruct (boosted_th _ _ _ _ B2 Ev1) as [p Ev2].
    pose proof (ginv_boosted _ _ _ _ _ _ B2 Hp2 Hg1) as Hg2.
    assert (t = a_cur (abs s2)) as Hc2 by (rewrite (bo_cur _ _ B2), E1; done).
    eapply wp_and_then; [exact Hc2|exact Ev2|exact Hg2| |done|].
    + apply (wp_exit_post idle); [done|rewrite (bo_nest _ _ B2), E1; done|apply Hg2].
    + intros s3 _ Hk3 Hs3 E3. eapply wp_take_failed; [by rewrite E3|done|done|by rewrite E3| |by rewrite E3|done].
      rewrite E3. by apply (ginv_ext _ _ _ _ (abs s2)).
Qed.

Lemma wp_take_schedule s fs t v m :
  t = a_cur (abs s) -> kok s -> a_nest (abs s) = 0 -> ginv fs (Some t) (abs s) ->
  a_th (abs s) !! t = Some v -> v_class v = 2 -> taking (abs s) t v m ->
  wp (mutex_take_schedule m) (fun o s' => good s' (after t fs o)) s.
Proof.
  intros Ht Hk Hn Hg Ev Hc Hta. eapply wp_and_then; [done..| |done|].
  - by apply (wp_schedule_post idle); [| |apply Hg].
  - intros s1 _ Hk1 Hs1 E1. eapply wp_take_check; [by rewrite E1|done|done|by rewrite E1| |by rewrite E1|done|].
    + rewrite E1. by apply (ginv_ext _ _ _ _ (abs s)).
    + unfold taking. by rewrite E1.
Qed.

Lemma wp_release_end s fs t v need :
  t = a_cur (abs s) -> kok s -> settled s -> a_nest (abs s) = 0 -> ginv fs (Some t) (abs s) ->
  a_th (abs s) !! t = Some v -> v_class v = 2 -> v_pend v = None ->
  wp (mutex_release_end need) (fun o s' => good s' (after t fs o)) s.
Proof.
  intros Ht Hk Hs Hn Hg Ev Hc Hp. destruct need; [|by apply wp_ret; eapply good_return].
  eapply wp_returning; [done..|]. by apply (wp_schedule_post idle); [| |apply Hg].
Qed.

(** ** Taking *)

Lemma taking_other a m x x' X' t v k f :
  a_mtx a !! m = Some x -> (owner x = Some t <-> owner x' = Some t) -> X' = <[m := x']> (a_mtx a) ->
  f = Some (InMutexTake k) \/ f = Some (InMutexCheck k) ->
  frame_ok a t v f -> frame_ok (a_set_mtx X' a) t v f.
Proof.
  intros Ex Ho -> Hf Hok.
  assert (taking a t v k -> taking (a_set_mtx (<[m := x']> (a_mtx a)) a) t v k) as Ht; [|by destruct Hf as [->| ->]; apply Ht].
  intros (y & Ey & H). destruct (decide (k = m)) as [->|Hne].
  - exists x'. simpl. rewrite lookup_insert_eq. split; [done|]. replace y with x in * by congruence. naive_solver.
  - exists y. simpl. by rewrite lookup_insert_ne.
Qed.

Lemma frame_ok_owner a m x x' t v f :
  a_mtx a !! m = Some x -> (owner x = Some t <-> owner x' = Some t) ->
  frame_ok a t v f -> frame_ok (a_set_mtx (<[m := x']> (a_mtx a)) a) t v f.
Proof. intros Ex Ho. destruct f as [[]|]; try done; eapply taking_other; eauto. Qed.

(** A field of a mutex that only its owner and the ceiling use. *)
Lemma ginv_mutex fs h a m x x' :
  ginv fs h a -> a_mtx a !! m = Some x -> owner x' = owner x -> priority x' = priority x -> registered x' = true ->
  (is_Some (owner x) -> 1 <= hold x' <= 255) -> (owner x = None -> hold x' = 0) -> 0 <= ceiling_priority x' ->
  ginv fs h (a_set_mtx (<[m := x']> (a_mtx a)) a).
Proof.
  intros [[Hw Hs Hws Hp Ho Ht Hn Hf Hr Hm] [Pr Pw Po Por] Hfr Hi] Ex E1 E2 E3 Hh Hh0 Hce.
  assert (forall k y, <[m := x']> (a_mtx a) !! k = Some y -> exists y0, a_mtx a !! k = Some y0 /\ owner y0 = owner y /\
    priority y0 = priority y) as Hk.
  { intros k y. rewrite lookup_insert_Some. intros [[<- <-]|[_ E]]; [by exists x|by exists y]. }
  unfold a_set_mtx. constructor; [constructor| | |]; cbn [a_th a_w a_sems a_mtx]; try done.
  - intros k y Ek. destruct (Hk k y Ek) as (y0 & Ey & _). by apply (Hw k y0).
  - intros k sv Ek. destruct (Hs k sv Ek) as (Hnk & H). split; [|done]. rewrite lookup_insert_ne; [done|]. congruence.
  - intros k y l t Ek El Hin. destruct (Hk k y Ek) as (y0 & Ey & <- & _). by apply (Hws k y0 l t).
  - intros t v k Ev Hc Hpe. destruct (Hp t v k Ev Hc Hpe) as (y & l & Ey & El & Hin).
    destruct (decide (k = m)) as [->|Hne]; [exists x', l; by rewrite lookup_insert_eq|exists y, l; by rewrite lookup_insert_ne].
  - intros k y o. rewrite lookup_insert_Some. intros [[<- <-]|[_ Ey]] Hy; [|by apply (Ho k y)].
    rewrite E1 in Hy. destruct (Ho m x o Ex Hy) as [_ H]. split; [apply Hh; by eexists|done].
  - intros t v k Ev Hin. destruct (Ht t v k Ev Hin) as (y & Ey & Hy).
    destruct (decide (k = m)) as [->|Hne]; [exists x'; rewrite lookup_insert_eq|exists y; by rewrite lookup_insert_ne].
    split; [done|]. congruence.
  - intros k y. rewrite lookup_insert_Some. intros [[<- <-]|[_ Ey]]; [rewrite E1; done|by apply (Hf k y)].
  - intros k y. rewrite lookup_insert_Some. intros [[<- <-]|[_ Ey]]; [done|by apply (Hm k y)].
  - constructor; cbn [a_th a_w a_mtx].
    + intros k y Ek. destruct (Hk k y Ek) as (y0 & Ey & _ & <-). by apply (Pr k).
    + intros k y l t v Ek. destruct (Hk k y Ek) as (y0 & Ey & _ & <-). by apply (Pw k).
    + intros k y o v Ek. destruct (Hk k y Ek) as (y0 & Ey & <- & <-). by apply (Po k).
    + intros k y l Ek. destruct (Hk k y Ek) as (y0 & Ey & _ & _). by apply (Por k y0).
  - intros t v Hne Ev. apply (frame_ok_owner a m x); [done|by rewrite E1|by apply Hfr].
Qed.

(** The running thread takes a mutex without owner. *)
Lemma ginv_acquire fs a t v v' m x :
  ginv fs (Some t) a -> a_th a !! t = Some v -> v_class v = 2 -> a_mtx a !! m = Some x -> owner x = None ->
  v_class v' = 2 -> v_prio v' <= v_prio v -> v_prio v' <= 255 -> v_taken v' = m :: v_taken v ->
  ginv fs (Some t) (a_set_mtx (<[m := set_owner (Some t) 255 1 x]> (a_mtx a)) (a_upd t v' a)).
Proof.
  intros [[Hw Hs Hws Hp Ho Ht Hn Hf Hr Hm] [Pr Pw Po Por] Hfr (vi & Ei & Hi)] Ev Hc Ex Hx Hc' Hpr H255 Hta.
  assert (m ∉ v_taken v) as Hnin. { intros Hin. destruct (Ht t v m Ev Hin) as (y & Ey & Hy). congruence. }
  assert (forall l u, a_w a !! m = Some l -> u ∉ l) as Hnol.
  { intros l u El Hin. destruct (Hws m x l u Ex El Hin) as (_ & o & _ & _ & _ & Ho'). congruence. }
  assert (forall k l u, is_Some (a_mtx a !! k) -> a_w a !! k = Some l -> u ∈ l -> u <> t) as Hnt.
  { intros k l u [y Ey] El Hin ->. destruct (Hws k y l t Ey El Hin) as (w & o & Ew & Hcw & _). congruence. }
  unfold a_set_mtx, a_upd, a_set_th. constructor; [constructor| | |]; cbn [a_th a_w a_sems a_mtx]; try done.
  - intros k y. rewrite lookup_insert_Some. intros [[<- <-]|[_ Ey]]; [by apply (Hw m x)|by apply (Hw k y)].
  - intros k sv Ek. destruct (Hs k sv Ek) as (Hnk & H). split; [|done]. rewrite lookup_insert_ne; [done|]. congruence.
  - intros k y l u. rewrite lookup_insert_Some. intros [[<- <-]|[_ Ey]] El Hin; [by destruct (Hnol l u)|].
    destruct (Hws k y l u Ey El Hin) as (w & o & Ew & Hcw & H). exists w, o. rewrite lookup_insert_ne; [done|]. congruence.
  - intros u w k. rewrite lookup_insert_Some. intros [[<- <-]|[_ Eu]] Hcw Hpw; [congruence|].
    destruct (Hp u w k Eu Hcw Hpw) as (y & l & Ey & El & Hin).
    destruct (decide (k = m)) as [->|Hne]; [by destruct (Hnol l u)|]. exists y, l. by rewrite lookup_insert_ne.
  - intros k y o. rewrite lookup_insert_Some. intros [[<- <-]|[Hne Ey]] Hy.
    + injection Hy as <-. split; [simpl; lia|]. exists v'. rewrite lookup_insert_eq, Hta. split; [done|by left].
    + destruct (Ho k y o Ey Hy) as (Hh & w & Ew & Hin). split; [done|]. destruct (decide (o = t)) as [->|Hot].
      * exists v'. rewrite lookup_insert_eq, Hta. split; [done|]. right. by replace v with w by congruence.
      * exists w. by rewrite lookup_insert_ne.
  - intros u w k. rewrite lookup_insert_Some. intros [[<- <-]|[Hut Eu]] Hin.
    + rewrite Hta in Hin. destruct (decide (k = m)) as [->|Hkm]; [eexists; by rewrite lookup_insert_eq|].
      apply elem_of_cons in Hin as [?|Hin]; [done|]. destruct (Ht t v k Ev Hin) as (y & Ey & Hy). exists y. by rewrite lookup_insert_ne.
    + destruct (Ht u w k Eu Hin) as (y & Ey & Hy). exists y. rewrite lookup_insert_ne; [done|]. congruence.
  - intros u w. rewrite lookup_insert_Some. intros [[<- <-]|[_ Eu]]; [|by apply (Hn u w)].
    rewrite Hta. constructor; [done|by apply (Hn t v)].
  - intros k y. rewrite lookup_insert_Some. intros [[<- <-]|[_ Ey]]; [done|by apply (Hf k y)].
  - intros u w k k'. rewrite lookup_insert_Some. intros [[<- <-]|[_ Eu]] Hcw; [congruence|by apply (Hr u w)].
  - intros k y. rewrite lookup_insert_Some. intros [[<- <-]|[_ Ey]]; [apply (Hm m x Ex)|by apply (Hm k y)].
  - constructor; cbn [a_th a_w a_mtx].
    + intros k y. rewrite lookup_insert_Some. intros [[<- <-]|[_ Ey]]; [simpl; lia|by apply (Pr k)].
    + intros k y l u w. rewrite lookup_insert_Some. intros [[<- <-]|[_ Ey]] El Hin _; [by destruct (Hnol l u)|].
      rewrite lookup_insert_ne by (symmetry; by apply (Hnt k l)). by apply (Pw k y l u).
    + intros k y o w. rewrite lookup_insert_Some. intros [[<- <-]|[_ Ey]] Hy; rewrite lookup_insert_Some.
      * injection Hy as <-. intros [[_ <-]|[? _]] _; [done|done].
      * intros [[<- <-]|[_ Eo]] Hb; [|by apply (Po k y o w)]. specialize (Po k y t v Ey Hy Ev Hb). lia.
    + intros k y l Ey El. eapply v_order_ext; [|].
      * intros u w Hin. rewrite lookup_insert_ne; [by exists w|]. intros <-.
        apply lookup_insert_Some in Ey as [[<- _]|[_ Ey]]; [by apply (Hnol l t)|by apply (Hnt k l t)].
      * apply lookup_insert_Some in Ey as [[<- _]|[_ Ey]]; [by apply (Por m x)|by apply (Por k y)].
  - intros u w Hne. rewrite lookup_insert_ne by congruence. intros Eu.
    assert (frame_ok a u w (fs !! u)) as Hu by (by apply Hfr).
    apply (frame_ok_owner a m x (set_owner (Some t) 255 1 x)) in Hu; [|done|simpl; rewrite Hx; split; congruence].
    eapply frame_ok_ext; [|exact Hu]. done.
  - destruct (decide (idle = t)) as [->|Hne]; [exists v'; simpl; by rewrite lookup_insert_eq|].
    exists vi. simpl. by rewrite lookup_insert_ne.
Qed.

(** The running thread joins the threads that wait for [m]. *)
Definition joined (a : av) (t : Z) (v2 : tview) (m : Z) (l' : list Z) : av :=
  a_set_w (<[m := l']> (a_w a)) (a_upd t v2 a).

Lemma minv_join a t v v2 m x o l l' :
  minv a -> a_th a !! t = Some v -> v_class v = 2 -> a_mtx a !! m = Some x -> owner x = Some o ->
  a_w a !! m = Some l -> l' ≡ₚ t :: l -> v_class v2 = 4 -> v_pend v2 = Some m -> v_taken v2 = v_taken v ->
  (forall k, k ∈ v_taken v -> rank k < rank m) -> minv (joined a t v2 m l').
Proof.
  intros [Hw Hs Hws Hp Ho Ht Hn Hf Hr Hm] Ev Hc Ex Hx El Hl' Hc2 Hp2 Ht2 Hrk.
  unfold joined, a_set_w, a_upd, a_set_th. constructor; cbn [a_th a_w a_sems a_mtx]; try done.
  - intros k y Ey. destruct (decide (k = m)) as [->|Hne]; [rewrite lookup_insert_eq; by eexists|].
    rewrite lookup_insert_ne by done. by apply (Hw k y).
  - intros k sv Ek. destruct (Hs k sv Ek) as (Hnk & H). split; [done|]. rewrite lookup_insert_ne; [done|]. congruence.
  - intros k y lk u Ey. rewrite lookup_insert_Some. intros [[<- <-]|[Hkm Elk]] Hin.
    + rewrite Hl' in Hin. apply elem_of_cons in Hin as [->|Hin].
      * exists v2, o. rewrite lookup_insert_eq. split_and!; [done..|]. congruence.
      * destruct (Hws m x l u Ex El Hin) as (w & o' & Ew & Hcw & Hpw & Ho'). exists w, o'.
        rewrite lookup_insert_ne by congruence. split_and!; [done..|]. congruence.
    + destruct (Hws k y lk u Ey Elk Hin) as (w & o' & Ew & Hcw & H). exists w, o'. rewrite lookup_insert_ne by congruence. done.
  - intros u w k. rewrite lookup_insert_Some. intros [[<- <-]|[Hut Eu]] Hcw Hpw.
    + assert (k = m) as -> by congruence. exists x, l'. rewrite lookup_insert_eq. split_and!; [done..|]. rewrite Hl'. by left.
    + destruct (Hp u w k Eu Hcw Hpw) as (y & lk & Ey & Elk & Hin). exists y.
      destruct (decide (k = m)) as [->|Hkm]; [exists l'; rewrite lookup_insert_eq|exists lk; by rewrite lookup_insert_ne].
      split_and!; [done..|]. rewrite Hl'. right. congruence.
  - intros k y o' Ey Hy. destruct (Ho k y o' Ey Hy) as (Hh & w & Ew & Hin). split; [done|].
    destruct (decide (o' = t)) as [->|Hot]; [|exists w; by rewrite lookup_insert_ne].
    exists v2. rewrite lookup_insert_eq, Ht2. split; [done|]. congruence.
  - intros u w k. rewrite lookup_insert_Some. intros [[<- <-]|[_ Eu]]; [rewrite Ht2; by apply (Ht t v)|by apply (Ht u w)].
  - intros u w. rewrite lookup_insert_Some. intros [[<- <-]|[_ Eu]]; [rewrite Ht2; by apply (Hn t v)|by apply (Hn u w)].
  - intros u w k k'. rewrite lookup_insert_Some. intros [[<- <-]|[_ Eu]] Hcw Hpw; [|by apply (Hr u w)].
    rewrite Ht2. replace k' with m by congruence. apply Hrk.
Qed.

Lemma pinv_join a t v v2 m x l l' q :
  pinv None None a -> minv a -> a_th a !! t = Some v -> v_class v = 2 -> a_mtx a !! m = Some x -> a_w a !! m = Some l ->
  l' ≡ₚ t :: l -> v_prio v2 = v_prio v -> v_order (a_th a) l' -> 0 <= q <= priority x -> q <= v_prio v ->
  pinv None (Some m) (a_set_mtx (<[m := set_m_priority q x]> (a_mtx a)) (joined a t v2 m l')).
Proof.
  intros [Pr Pw Po Por] HM Ev Hc Ex El Hl' Hp2 Hord Hq Hqv. unfold joined, a_set_mtx, a_set_w, a_upd, a_set_th.
  assert (forall u w, <[t := v2]> (a_th a) !! u = Some w -> exists w0, a_th a !! u = Some w0 /\ v_prio w0 = v_prio w) as Hu.
  { intros u w. rewrite lookup_insert_Some. intros [[<- <-]|[_ Eu]]; [by exists v|by exists w]. }
  constructor; cbn [a_th a_w a_mtx].
  - intros k y. rewrite lookup_insert_Some. intros [[<- <-]|[_ Ey]]; [|by apply (Pr k)]. specialize (Pr m x Ex). simpl. lia.
  - intros k y lk u w. rewrite !lookup_insert_Some. intros [[<- <-]|[Hne Ey]] [[He <-]|[Hne' Elk]] Hin _ [[<- <-]|[Hut Eu]]; try done.
    + simpl. lia.
    + rewrite Hl' in Hin. apply elem_of_cons in Hin as [?|Hin]; [done|]. specialize (Pw m x l u w Ex El Hin ltac:(done) Eu). simpl. lia.
    + destruct (not_waiting_for rank a t v k y lk HM Ev) as []; [left; congruence|done..].
    + by apply (Pw k y lk u w).
  - intros k y o w. rewrite lookup_insert_Some. intros [[<- <-]|[Hne Ey]] Hy Eo Hb; [done|].
    destruct (Hu o w Eo) as (w0 & Eo0 & <-). by apply (Po k y o w0).
  - intros k y lk. rewrite !lookup_insert_Some. intros [[<- <-]|[Hne Ey]] [[He <-]|[Hne' Elk]]; try done.
    + eapply v_order_ext; [intros u w _; apply Hu|done].
    + eapply v_order_ext; [intros u w _; apply Hu|by apply (Por k y)].
Qed.

Lemma pinv_close m a :
  pinv None (Some m) a ->
  (forall x o v, a_mtx a !! m = Some x -> owner x = Some o -> a_th a !! o = Some v -> v_prio v <= priority x) ->
  pinv None None a.
Proof.
  intros [Pr Pw Po Por] H. constructor; [done..| |done]. intros k y o w Ey Hy Eo _.
  destruct (decide (k = m)) as [->|Hne]; [by apply (H y o)|]. apply (Po k y o w); try done. congruence.
Qed.

(** The thread [t] has joined; the mutex and its owner become as urgent. *)
Lemma wp_boost_owner s4 a t v v2 m x o l l' (Q : unit -> kernel -> Prop) :
  kok s4 -> abs s4 = joined a t v2 m l' -> minv a -> pinv None None a -> a_th a !! t = Some v -> v_class v = 2 ->
  a_mtx a !! m = Some x -> owner x = Some o -> o <> t -> a_w a !! m = Some l -> l' ≡ₚ t :: l -> v_order (a_th a) l' ->
  minv (joined a t v2 m l') -> v_prio v2 = v_prio v -> 0 <= v_prio v < 32 ->
  (forall s', kok s' -> pinv None None (abs s') -> boosted (abs s4) (abs s') -> Q tt s') ->
  wp (if v_prio v <? priority x then
        put_mutex m (set_m_priority (v_prio v) x) ;;;
        tho ← thread o;
        if v_prio v <? current_priority tho then _thread_update_priority o (v_prio v) else mret tt
      else mret tt) Q s4.
Proof.
  intros Hk4 E4 HM HP Ev Hc Ex Hx Hot El Hl' Hord HM4 Hp2 Hpr HQ.
  destruct (mi_own _ _ HM m x o Ex Hx) as (_ & vo & Evo & _).
  assert (a_th (abs s4) !! o = Some vo) as Evo4 by (rewrite E4; simpl; by rewrite lookup_insert_ne).
  assert (a_mtx (abs s4) !! m = Some x) as Ex4 by (by rewrite E4).
  pose proof (pi_own _ _ _ HP) as Hown. pose proof (pi_range _ _ _ HP m x Ex) as Hrg.
  destruct (Z.ltb_spec (v_prio v) (priority x)) as [Hlt|Hge].
  - pose proof (pinv_join a t v v2 m x l l' (v_prio v) HP HM Ev Hc Ex El Hl' Hp2 Hord ltac:(lia) ltac:(lia)) as Hp5.
    apply wp_bind, vw_put_mutex; [done|]. intros s5 Hk5 E5.
    pose proof (boosted_upd_m (abs s4) m x (v_prio v) Ex4) as B5. rewrite <- E5 in B5.
    assert (pinv None (Some m) (abs s5)) as Hp5' by (rewrite E5, E4; exact Hp5).
    assert (a_th (abs s5) !! o = Some vo) as Evo5 by (by rewrite E5).
    assert (forall k y, k <> m -> a_mtx (abs s5) !! k = Some y -> a_mtx a !! k = Some y) as Hk.
    { intros k y Hkm. rewrite E5, E4. simpl. by rewrite lookup_insert_ne. }
    assert (a_mtx (abs s5) !! m = Some (set_m_priority (v_prio v) x)) as Ex5 by (rewrite E5; apply lookup_insert_eq).
    apply wp_bind. eapply vw_thread; [exact Evo5|]. intros tho _ Hvo.
    replace (current_priority tho) with (v_prio vo) by (by rewrite <- Hvo).
    destruct (Z.ltb_spec (v_prio v) (v_prio vo)) as [Hlt'|Hge'].
    + eapply (vw_update_priority rank s5 o vo _ (Some m)); [done|by apply (minv_boosted _ _ _ B5); rewrite E4|done|exact Evo5| |done| |].
      * intros k [= <-]. by eexists.
      * intros k y Ey Hy. destruct (decide (k = m)) as [->|Hkm]; [rewrite Ex5 in Ey; by injection Ey as <-|].
        specialize (Hown k y o vo (Hk k y Hkm Ey) Hy Evo ltac:(done)). lia.
      * intros s' Hk' Hp' B'. apply HQ; [done..|]. by eapply boosted_trans.
    + apply wp_ret, HQ; [done| |done]. apply (pinv_close m); [done|]. intros y u w Ey Hy Eu. rewrite Ex5 in Ey.
      injection Ey as <-. assert (u = o) as -> by (simpl in Hy; congruence). replace w with vo by congruence. done.
  - apply wp_ret, HQ; [done| |apply boosted_refl]. rewrite E4. apply (pinv_close m).
    + pose proof (pinv_join a t v v2 m x l l' (priority x) HP HM Ev Hc Ex El Hl' Hp2 Hord ltac:(lia) ltac:(lia)) as Hp5.
      rewrite set_m_priority_same in Hp5. eapply pinv_ext; [..|exact Hp5]; try done. simpl. by rewrite insert_id.
    + intros y u w Ey Hy Eu. simpl in Ey. replace y with x in * by congruence. replace u with o in * by congruence.
      simpl in Eu. rewrite lookup_insert_ne in Eu by done. by apply (Hown m x o w Ex Hx Eu).
Qed.

Lemma wp_mutex_wait s fs t v m x o n flag :
  t = a_cur (abs s) -> kok s -> a_nest (abs s) = 1 -> ginv fs (Some t) (abs s) -> a_th (abs s) !! t = Some v ->
  v_class v = 2 -> v_err v = 0 -> a_mtx (abs s) !! m = Some x -> owner x = Some o -> o <> t -> 0 <= flag <= 2 ->
  n < RT_TICK_MAX / 2 -> t <> idle -> (forall k, k ∈ v_taken v -> rank k < rank m) ->
  wp (mutex_wait m x o n flag) (fun o s' => good s' (after t fs o)) s.
Proof.
  intros Ht Hk Hn Hg Ev Hc He Ex Hx Hot Hfl Hlim Hid Hrk. pose proof (gi_m _ _ _ _ _ Hg) as HM.
  destruct (mi_wait _ _ HM m x Ex) as [l El]. apply wp_bind, vw_self. rewrite <- Ht.
  apply wp_bind. eapply (vw_suspend s t v (Some m)); [done|done|done|done|done| |].
  { intros k [= <-]. split; [by eexists|by right]. }
  intros w s1 (l0 & l' & El0 & (Hl' & _ & Hord) & ->) Hk1 E1. simpl negb. cbv iota.
  replace l0 with l in * by congruence. clear l0 El0. specialize (Hord eq_refl (pi_order _ _ _ (gi_p _ _ _ _ _ Hg) m x l Ex El)).
  apply wp_bind. eapply vw_pending; [done|rewrite E1; apply lookup_insert_eq|]. intros s2 Hk2 _ E2.
  set (v2 := v_set_pend (Some m) (v_set_class 4 v)) in *.
  assert (abs s2 = joined (abs s) t v2 m l') as E2'.
  { rewrite E2, E1. unfold joined, a_set_w, a_upd, a_set_th. cbn [a_th a_w a_mtx a_sems a_cur a_nest]. by rewrite insert_insert_eq. }
  clear E2. assert (a_th (abs s2) !! t = Some v2) as Ev2 by (rewrite E2'; apply lookup_insert_eq).
  apply wp_bind. eapply vw_thread; [exact Ev2|]. intros th _ Hv2. replace (current_priority th) with (v_prio v) by (exact (eq_sym (f_equal v_prio Hv2))).
  assert (minv (abs s2)) as HM2 by (rewrite E2'; by apply (minv_join _ _ v _ _ x o l)).
  apply wp_bind. eapply (wp_boost_owner s2 (abs s) t v v2 m x o l l'); try done; [apply Hg|by rewrite <- E2'|apply (kok_prio s t v Hk Ev)|].
  intros s3 Hk3 Hp3 B3. destruct (boosted_th _ _ _ _ B3 Ev2) as [p Ev3].
  apply wp_bind. eapply wp_start_timer; [done|exact Ev3|done|done|]. intros s4 Hk4 E4.
  assert (ginv fs (Some t) (abs s4)) as Hg4.
  { rewrite E4. constructor; [by apply (minv_boosted _ _ _ B3)|done| |].
    - intros u wu Hu Eu. destruct (boosted_th_inv _ _ _ _ B3 Eu) as (w0 & Eu0 & Hw0).
      apply (frame_ok_boosted (abs s2) _ u w0); [done|done|]. rewrite E2' in Eu0. simpl in Eu0. rewrite lookup_insert_ne in Eu0 by congruence.
      apply (frame_ok_ext (abs s)); [by rewrite E2'|]. by apply (gi_f _ _ _ _ _ Hg).
    - destruct (gi_i _ _ _ _ _ Hg) as (vi & Ei & Hi). assert (a_th (abs s2) !! idle = Some vi) as Ei2.
      { rewrite E2'. simpl. by rewrite lookup_insert_ne. }
      destruct (boosted_th _ _ _ _ B3 Ei2) as [pi Ei3]. by eexists. }
  assert (a_th (abs s4) !! t = Some (v_set_prio p v2)) as Ev4 by (by rewrite E4).
  eapply wp_and_then; [rewrite E4, (bo_cur _ _ B3), E2'; exact Ht|exact Ev4|exact Hg4| | |done].
  - apply (wp_exit_post idle); [done|rewrite E4, (bo_nest _ _ B3), E2'; exact Hn|apply Hg4].
  - assert (a_mtx (abs s2) !! m = Some x) as Ex2 by (by rewrite E2'). destruct (boosted_mtx _ _ _ _ B3 Ex2) as [q Ex3].
    exists (set_m_priority q x). rewrite E4. split; [done|]. left. split_and!; [done..|]. simpl. congruence.
Qed.

Lemma wp_registered s m x (Q : rt_mutex -> kernel -> Prop) :
  minv (abs s) -> a_mtx (abs s) !! m = Some x -> Q x s -> wp (mutex_registered m) Q s.
Proof.
  intros HM Ex HQ. apply wp_bind. eapply vw_mutex; [exact Ex|]. rewrite (proj1 (mi_mutex _ _ HM m x Ex)). by apply wp_ret.
Qed.

(** A boost of a thread that waits for no mutex ends with its own priority. *)
Lemma wp_ceiling s t v p (Q : unit -> kernel -> Prop) :
  kok s -> a_th (abs s) !! t = Some v -> v_class v = 2 -> 0 <= p < 32 ->
  (forall s', kok s' -> abs s' = a_upd t (v_set_prio p v) (abs s) -> Q tt s') -> wp (_thread_update_priority t p) Q s.
Proof.
  intros Hk Ev Hc Hp HQ. apply wp_bind. eapply vw_change_priority; [done|exact Ev|done|]. intros s1 Hk1 E1.
  apply wp_bind, wp_gets. unfold chain_fuel. apply wp_bind. eapply vw_thread; [rewrite E1; apply lookup_insert_eq|].
  intros th _ Hv. rewrite class_suspended, Hv. simpl v_class. rewrite Hc. by apply wp_ret, HQ.
Qed.

Lemma wp_take_free s fs t v m x :
  t = a_cur (abs s) -> kok s -> a_nest (abs s) = 1 -> ginv fs (Some t) (abs s) -> a_th (abs s) !! t = Some v ->
  v_class v = 2 -> v_pend v = None -> a_mtx (abs s) !! m = Some x -> owner x = None ->
  wp (put_mutex m (set_owner (Some t) 255 1 x) ;;;
      th ← thread t;
      (if negb (ceiling_priority x =? 255) && (ceiling_priority x <? current_priority th)
       then _thread_update_priority t (ceiling_priority x) else mret tt) ;;;
      upd t (fun th => set_taken (m :: taken_object_list th) th) ;;;
      returning rt_exit_critical RT_EOK) (fun o s' => good s' (after t fs o)) s.
Proof.
  intros Ht Hk Hn Hg Ev Hc Hp Ex Hx. destruct (kok_prio s t v Hk Ev) as [Hpr _].
  pose proof (proj2 (mi_mutex _ _ (gi_m _ _ _ _ _ Hg) m x Ex)) as Hce.
  apply wp_bind, vw_put_mutex; [done|]. intros s1 Hk1 E1. assert (a_th (abs s1) !! t = Some v) as Ev1 by (by rewrite E1).
  apply wp_bind. eapply vw_thread; [exact Ev1|]. intros th _ Hv. replace (current_priority th) with (v_prio v) by (by rewrite <- Hv).
  apply wp_bind. eapply (wp_mono _ (fun _ s2 => kok s2 /\ exists p, 0 <= p <= v_prio v /\ abs s2 = a_upd t (v_set_prio p v) (abs s1))).
  { destruct (negb _ && _) eqn:Hb.
    - apply andb_true_iff in Hb as [_ Hlt%Z.ltb_lt]. eapply wp_ceiling; [done|exact Ev1|done|lia|]. intros s2 Hk2 E2.
      split; [done|]. exists (ceiling_priority x). split; [lia|done].
    - apply wp_ret. split; [done|]. exists (v_prio v). split; [lia|]. rewrite set_prio_same. unfold a_upd, a_set_th.
      rewrite insert_id by done. by destruct (abs s1). }
  intros [] s2 (Hk2 & p & Hpp & E2). apply wp_bind. eapply vw_taken; [done|rewrite E2; apply lookup_insert_eq|].
  intros s3 Hk3 E3. rewrite E2, E1 in E3. set (v3 := v_set_taken _ _) in E3.
  assert (ginv fs (Some t) (abs s3)) as Hg3.
  { apply (ginv_ext _ _ _ _ (a_set_mtx (<[m := set_owner (Some t) 255 1 x]> (a_mtx (abs s))) (a_upd t v3 (abs s))));
      [rewrite E3; simpl; by rewrite ?insert_insert_eq..|]. apply (ginv_acquire _ _ t v); try done; simpl; lia. }
  eapply (wp_returning rank idle); [rewrite E3; exact Ht|rewrite E3; apply lookup_insert_eq|done|done|done|].
  apply (wp_exit_post idle); [done|rewrite E3; exact Hn|apply Hg3].
Qed.

Lemma wp_mutex_take s fs t m x n flag :
  good s fs -> t = a_cur (abs s) -> fs !! t = None -> a_mtx (abs s) !! m = Some x -> 0 <= flag <= 2 ->
  n < RT_TICK_MAX / 2 -> (n <> 0 -> t <> idle) ->
  (forall v, n <> 0 -> a_th (abs s) !! t = Some v -> m ∈ v_taken v \/ forall k, k ∈ v_taken v -> rank k < rank m) ->
  wp (_rt_mutex_take m n flag) (fun o s' => good s' (after t fs o)) s.
Proof.
  intros Hgood Ht Hf Ex Hfl Hlim Hid Hrk. destruct (caller _ _ s fs t Hgood Ht Hf) as (v & Ev & Hc & Hp & Hg).
  destruct Hgood as [Hk Hs Hne _]. apply wp_bind, wp_available; [done|]. pose proof (gi_m _ _ _ _ _ Hg) as HM.
  apply wp_bind. eapply wp_registered; [exact HM|exact Ex|].
  apply wp_bind, vw_self. rewrite <- Ht. apply wp_bind, vw_enter; [done..|]. intros s1 Hk1 E1.
  apply wp_bind. eapply vw_error; [done|rewrite E1; exact Ev|]. intros s2 Hk2 _ E2. rewrite E1 in E2.
  set (v2 := v_set_err RT_EOK v) in *.
  assert (a_th (abs s2) !! t = Some v2) as Ev2 by (rewrite E2; apply lookup_insert_eq).
  assert (ginv fs (Some t) (abs s2)) as Hg2.
  { apply (ginv_ext _ _ _ _ (a_upd t v2 (abs s))); [by rewrite E2..|]. by eapply ginv_err. }
  assert (t = a_cur (abs s2)) as Ht2 by (by rewrite E2). assert (a_nest (abs s2) = 1) as Hn2 by (by rewrite E2).
  assert (a_mtx (abs s2) !! m = Some x) as Ex2 by (by rewrite E2).
  pose proof (wp_exit_post idle s2 Hk2 Hn2 (gi_i _ _ _ _ _ Hg2)) as Hexit.
  case_bool_decide as Ho.
  - destruct (mi_own _ _ HM m x t Ex Ho) as (Hh & _). destruct (hold x <? RT_MUTEX_HOLD_MAX) eqn:Hlt; [|by eapply wp_returning].
    apply Z.ltb_lt in Hlt. unfold RT_MUTEX_HOLD_MAX in Hlt.
    apply wp_bind, vw_put_mutex; [done|]. intros s3 Hk3 E3. assert (ginv fs (Some t) (abs s3)) as Hg3.
    { rewrite E3. apply (ginv_mutex _ _ _ m x); try done; [by apply (mi_mutex _ _ HM m x)|intros _; simpl; lia|congruence|].
      by apply (mi_mutex _ _ HM m x). }
    eapply (wp_returning rank idle); [rewrite E3; exact Ht2|rewrite E3; exact Ev2|done|done|done|].
    apply (wp_exit_post idle); [done|by rewrite E3|apply Hg3].
  - destruct (owner x) as [o|] eqn:Hx; [|by apply (wp_take_free s2 fs t v2)].
    destruct (Z.eqb_spec n 0) as [Hz|Hz].
    + apply wp_bind. eapply vw_error; [done|exact Ev2|]. intros s3 Hk3 _ E3.
      assert (ginv fs (Some t) (abs s3)) as Hg3 by (rewrite E3; by eapply ginv_err).
      eapply (wp_returning rank idle); [rewrite E3; exact Ht2|rewrite E3; apply lookup_insert_eq|done|done|done|].
      apply (wp_exit_post idle); [done|by rewrite E3|apply Hg3].
    + apply (wp_mutex_wait s2 fs t v2); try done; [congruence|by apply Hid|].
      destruct (Hrk v Hz Ev) as [Hin|Hall]; [|done]. destruct (mi_taken _ _ HM t v m Ev Hin) as (y & Ey & Hy). congruence.
Qed.

(** ** Releasing *)

(** The owner no longer has [m]; its priority may change. *)
Lemma wp_check_prio s t v m x (Q : bool -> kernel -> Prop) :
  kok s -> a_th (abs s) !! t = Some v -> a_mtx (abs s) !! m = Some x -> mutexes_ok (abs s) (v_taken v) ->
  (forall b p s', kok s' -> 0 <= p < 32 -> p = v_prio v \/ least (abs s) v p ->
     abs s' = a_upd t (v_set_prio p v) (abs s) -> Q b s') ->
  wp (_check_and_update_prio t m) Q s.
Proof.
  intros Hk Ev Ex Hok HQ. apply wp_bind. eapply vw_mutex; [exact Ex|]. apply wp_bind. eapply vw_thread; [exact Ev|].
  intros th _ Hv. destruct (_ || _).
  - apply wp_bind. eapply vw_get_mutex_priority; [done|exact Ev|done|]. intros p Hp Hl.
    apply wp_bind. eapply vw_change_priority; [done|exact Ev|done|]. intros s' Hk' E. apply wp_ret.
    apply (HQ true p); try done. by right.
  - apply wp_ret. apply (HQ false (v_prio v)); [done|apply (kok_prio s t v Hk Ev)|by left|].
    rewrite set_prio_same. unfold a_upd, a_set_th. rewrite insert_id by done. by destruct (abs s).
Qed.

Lemma wp_taken_remove s t v m (Q : unit -> kernel -> Prop) :
  kok s -> a_th (abs s) !! t = Some v -> (forall u w, u <> t -> a_th (abs s) !! u = Some w -> m ∉ v_taken w) ->
  (forall s', kok s' -> abs s' = a_upd t (v_set_taken (without m (v_taken v)) v) (abs s) -> Q tt s') ->
  wp (taken_remove m) Q s.
Proof.
  intros Hk (th & E & <-)%abs_thread Hoth HQ. set (f := fun th => set_taken (without m (taken_object_list th)) th).
  assert (f <$> threads s = <[t := f th]> (threads s)) as Ef.
  { apply map_eq. intros u. rewrite lookup_fmap. destruct (decide (u = t)) as [->|Hne]; [by rewrite lookup_insert_eq, E|].
    rewrite lookup_insert_ne by done. destruct (threads s !! u) as [tu|] eqn:Eu; [|done]. simpl. f_equal. unfold f.
    rewrite without_id; [by destruct tu|]. apply (Hoth u (view tu) Hne). simpl. by rewrite lookup_fmap, Eu. }
  apply wp_modify. fold f. rewrite Ef.
  apply (HQ (reshape s (<[t := f th]> (threads s)) (rt_thread_priority_table s) (rt_thread_ready_priority_group s) (suspend_thread s))).
  - eapply kok_thread; [done|exact E|apply (kwf_upd _ s t th); [apply Hk|done..]|done].
  - by rewrite abs_upd.
Qed.

(** The view when [t] has released [m] and nobody waits for it. *)
Definition freed (a : av) (t : Z) (v' : tview) (m : Z) (x : rt_mutex) : av :=
  a_set_mtx (<[m := set_owner None 255 0 x]> (a_mtx a)) (a_upd t v' a).

(** The view when it has been passed on to [t2]. *)
Definition v_given (m : Z) (v2 : tview) : tview :=
  v_set_pend None (v_set_taken (m :: v_taken v2) (v_set_class 2 v2)).
Definition given (a : av) (t : Z) (v' : tview) (t2 : Z) (v2 : tview) (m : Z) (x : rt_mutex) (q : Z) : av :=
  a_set_mtx (<[m := set_owner (Some t2) q 1 x]> (a_mtx a))
    (a_set_w (without t2 <$> a_w a) (a_upd t2 (v_given m v2) (a_upd t v' a))).

(** What the release of [m] leaves of its owner. *)
Record shed (a : av) (t : Z) (v v' : tview) (m : Z) : Prop := Shed {
  sh_class : v_class v' = 2;
  sh_taken : v_taken v' = without m (v_taken v);
  sh_prio k x : k <> m -> a_mtx a !! k = Some x -> owner x = Some t -> v_prio v' <= priority x;
}.

Lemma ginv_freed fs a t v v' m x :
  ginv fs (Some t) a -> a_th a !! t = Some v -> v_class v = 2 -> a_mtx a !! m = Some x -> owner x = Some t ->
  a_w a !! m = Some [] -> shed a t v v' m -> ginv fs (Some t) (freed a t v' m x).
Proof.
  intros [[Hw Hs Hws Hp Ho Ht Hn Hf Hr Hm] [Pr Pw Po Por] Hfr (vi & Ei & Hi)] Ev Hc Ex Hx El [Hc' Hta Hpr].
  assert (forall k l u, is_Some (a_mtx a !! k) -> a_w a !! k = Some l -> u ∈ l -> u <> t) as Hnt.
  { intros k l u [y Ey] Elk Hin ->. destruct (Hws k y l t Ey Elk Hin) as (w & o & Ew & Hcw & _). congruence. }
  assert (forall k y, <[m := set_owner None 255 0 x]> (a_mtx a) !! k = Some y -> is_Some (a_mtx a !! k)) as Hsome.
  { intros k y. rewrite lookup_insert_Some. intros [[<- _]|[_ Ey]]; by eexists. }
  unfold freed, a_set_mtx, a_upd, a_set_th. constructor; [constructor| | |]; cbn [a_th a_w a_sems a_mtx]; try done.
  - intros k y [z Ez]%Hsome. by apply (Hw k z).
  - intros k sv Ek. destruct (Hs k sv Ek) as (Hnk & H). split; [|done]. rewrite lookup_insert_ne; [done|]. congruence.
  - intros k y l u. rewrite lookup_insert_Some. intros [[<- <-]|[_ Ey]] Elk Hin; [replace l with (@nil Z) in Hin by congruence; by apply elem_of_nil in Hin|].
    destruct (Hws k y l u Ey Elk Hin) as (w & o & Ew & Hcw & H). exists w, o. rewrite lookup_insert_ne; [done|]. congruence.
  - intros u w k. rewrite lookup_insert_Some. intros [[<- <-]|[_ Eu]] Hcw Hpw; [congruence|].
    destruct (Hp u w k Eu Hcw Hpw) as (y & l & Ey & Elk & Hin). exists y, l. rewrite lookup_insert_ne; [done|].
    intros <-. replace l with (@nil Z) in Hin by congruence. by apply elem_of_nil in Hin.
  - intros k y o. rewrite lookup_insert_Some. intros [[<- <-]|[Hne Ey]] Hy; [done|].
    destruct (Ho k y o Ey Hy) as (Hh & w & Ew & Hin). split; [done|]. destruct (decide (o = t)) as [->|Hot].
    + exists v'. rewrite lookup_insert_eq, Hta. split; [done|]. apply without_elem. split; [|done]. by replace v with w by congruence.
    + exists w. by rewrite lookup_insert_ne.
  - intros u w k. rewrite lookup_insert_Some. intros [[<- <-]|[Hut Eu]] Hin.
    + rewrite Hta in Hin. apply without_elem in Hin as [Hin Hne]. destruct (Ht t v k Ev Hin) as (y & Ey & Hy). exists y. by rewrite lookup_insert_ne.
    + destruct (Ht u w k Eu Hin) as (y & Ey & Hy). exists y. rewrite lookup_insert_ne; [done|]. congruence.
  - intros u w. rewrite lookup_insert_Some. intros [[<- <-]|[_ Eu]]; [|by apply (Hn u w)].
    rewrite Hta. by apply without_nodup, (Hn t v).
  - intros k y. rewrite lookup_insert_Some. intros [[<- <-]|[_ Ey]]; [done|by apply (Hf k y)].
  - intros u w k k'. rewrite lookup_insert_Some. intros [[<- <-]|[_ Eu]] Hcw; [congruence|by apply (Hr u w)].
  - intros k y. rewrite lookup_insert_Some. intros [[<- <-]|[_ Ey]]; [apply (Hm m x Ex)|by apply (Hm k y)].
  - constructor; cbn [a_th a_w a_mtx].
    + intros k y. rewrite lookup_insert_Some. intros [[<- <-]|[_ Ey]]; [simpl; lia|by apply (Pr k)].
    + intros k y l u w. rewrite lookup_insert_Some. intros [[<- <-]|[_ Ey]] Elk Hin _; [replace l with (@nil Z) in Hin by congruence; by apply elem_of_nil in Hin|].
      rewrite lookup_insert_ne by (symmetry; eapply Hnt; [by eexists|done|done]). by apply (Pw k y l u).
    + intros k y o w. rewrite lookup_insert_Some. intros [[<- <-]|[Hne Ey]] Hy; [done|]. rewrite lookup_insert_Some.
      intros [[<- <-]|[_ Eo]] Hb; [by apply (Hpr k y)|by apply (Po k y o w)].
    + intros k y l Ey Elk. destruct (Hsome k y Ey) as [z Ez]. eapply v_order_ext; [|by apply (Por k z)].
      intros u w Hin. rewrite lookup_insert_ne; [by exists w|]. symmetry. eapply Hnt; [by eexists|done|done].
  - intros u w Hne. rewrite lookup_insert_ne by congruence. intros Eu.
    assert (frame_ok a u w (fs !! u)) as Hu by (by apply Hfr).
    apply (frame_ok_owner a m x (set_owner None 255 0 x)) in Hu; [|done|simpl; rewrite Hx; split; congruence].
    eapply frame_ok_ext; [|exact Hu]. done.
  - destruct (decide (idle = t)) as [->|Hne]; [exists v'; simpl; by rewrite lookup_insert_eq|].
    exists vi. simpl. by rewrite lookup_insert_ne.
Qed.

Section given.
Context (fs : gmap Z frame) (a : av) (t : Z) (v v' : tview) (t2 : Z) (v2 : tview) (m : Z) (x : rt_mutex) (l : list Z) (q : Z).
Context (Hg : ginv fs (Some t) a) (Ev : a_th a !! t = Some v) (Hc : v_class v = 2) (Ex : a_mtx a !! m = Some x)
  (Hx : owner x = Some t) (El : a_w a !! m = Some (t2 :: l)) (Ev2 : a_th a !! t2 = Some v2) (Hshed : shed a t v v' m)
  (Hq : 0 <= q <= 255) (Hq2 : v_prio v2 <= q)
  (Hql : forall u w, u ∈ without t2 (t2 :: l) -> a_th a !! u = Some w -> q <= v_prio w).

Lemma given_waits : v_class v2 = 4 /\ v_pend v2 = Some m /\ t2 <> t.
Proof.
  destruct (mi_waits _ _ (gi_m _ _ _ _ _ Hg) m x _ t2 Ex El ltac:(left)) as (w & o & Ew & Hcw & Hpw & _).
  replace w with v2 in * by congruence. split_and!; [done..|]. intros ->. congruence.
Qed.

Lemma given_th u w :
  <[t2 := v_given m v2]> (<[t := v']> (a_th a)) !! u = Some w ->
  u = t2 /\ w = v_given m v2 \/ u = t /\ u <> t2 /\ w = v' \/ u <> t /\ u <> t2 /\ a_th a !! u = Some w.
Proof. rewrite !lookup_insert_Some. naive_solver. Qed.

Lemma given_prio u w :
  u <> t -> <[t2 := v_given m v2]> (<[t := v']> (a_th a)) !! u = Some w ->
  exists w0, a_th a !! u = Some w0 /\ v_prio w0 = v_prio w.
Proof. intros Hu [[-> ->]|[(-> & _)|(_ & _ & E)]]%given_th; [by exists v2|done|by exists w]. Qed.

Lemma given_old u : u <> t -> u <> t2 -> <[t2 := v_given m v2]> (<[t := v']> (a_th a)) !! u = a_th a !! u.
Proof. intros ? ?. by rewrite !lookup_insert_ne. Qed.
Lemma given_new : <[t2 := v_given m v2]> (<[t := v']> (a_th a)) !! t = Some v'.
Proof. destruct given_waits as (_ & _ & Hne). by rewrite lookup_insert_ne, lookup_insert_eq. Qed.

Lemma given_not_t k l0 u : is_Some (a_mtx a !! k) -> a_w a !! k = Some l0 -> u ∈ l0 -> u <> t.
Proof.
  intros [y Ey] Elk Hin ->. destruct (mi_waits _ _ (gi_m _ _ _ _ _ Hg) k y l0 t Ey Elk Hin) as (w & o & Ew & Hcw & _). congruence.
Qed.

Lemma given_some k y : <[m := set_owner (Some t2) q 1 x]> (a_mtx a) !! k = Some y -> is_Some (a_mtx a !! k).
Proof. rewrite lookup_insert_Some. intros [[<- _]|[_ Ey]]; by eexists. Qed.

Lemma minv_given : minv (given a t v' t2 v2 m x q).
Proof.
  destruct given_waits as (Hc2 & Hp2 & Hne2). destruct Hshed as [Hc' Hta _].
  destruct (gi_m _ _ _ _ _ Hg) as [Hw Hs Hws Hp Ho Ht Hn Hf Hr Hm].
  unfold given, a_set_mtx, a_set_w, a_upd, a_set_th. constructor; cbn [a_th a_w a_sems a_mtx].
  - intros k y [z Ez]%given_some. rewrite lookup_fmap. destruct (Hw k z Ez) as [lk ->]. by eexists.
  - intros k sv Ek. destruct (Hs k sv Ek) as (Hnk & H1 & H2 & lk & Elk & Hlk). rewrite lookup_insert_ne by congruence.
    split_and!; [done..|]. exists (without t2 lk). rewrite lookup_fmap, Elk. split; [done|]. intros Hpos. by rewrite (Hlk Hpos).
  - intros k y lk u Ek (l0 & <- & El0)%lookup_fmap_Some [Hin Hut2]%without_elem. pose proof (given_some k y Ek) as [z Ez].
    destruct (Hws k z l0 u Ez El0 Hin) as (w & o & Ew & Hcw & Hpw & Hz).
    rewrite given_old; [|by apply (given_not_t k l0)|done]. apply lookup_insert_Some in Ek as [[<- <-]|[_ Ey]].
    + exists w, t2. done.
    + exists w, o. replace y with z by congruence. done.
  - intros u w k [[-> ->]|[(-> & _ & ->)|(Hut & Hut2 & Eu)]]%given_th Hcw Hpw; [done|congruence|].
    destruct (Hp u w k Eu Hcw Hpw) as (y & lk & Ey & Elk & Hin).
    assert (exists y', <[m := set_owner (Some t2) q 1 x]> (a_mtx a) !! k = Some y') as [y' Ey'].
    { destruct (decide (m = k)) as [->|]; [by rewrite lookup_insert_eq; eexists|exists y; by rewrite lookup_insert_ne]. }
    exists y', (without t2 lk). rewrite lookup_fmap, Elk. split_and!; [done..|]. by apply without_elem.
  - intros k y o. rewrite lookup_insert_Some. intros [[<- <-]|[Hne Ey]] Hy.
    + injection Hy as <-. split; [simpl; lia|]. exists (v_given m v2). rewrite lookup_insert_eq. split; [done|]. by left.
    + destruct (Ho k y o Ey Hy) as (Hh & w & Ew & Hin). split; [done|]. destruct (decide (o = t)) as [->|Hot].
      * exists v'. rewrite given_new, Hta. split; [done|]. apply without_elem. split; [|done]. by replace v with w by congruence.
      * destruct (decide (o = t2)) as [->|Hot2]; [|exists w; by rewrite given_old].
        exists (v_given m v2). rewrite lookup_insert_eq. split; [done|]. right. by replace v2 with w by congruence.
  - intros u w k Eu Hin. assert (k <> m -> forall o, (exists y, a_mtx a !! k = Some y /\ owner y = Some o) ->
      exists y, <[m := set_owner (Some t2) q 1 x]> (a_mtx a) !! k = Some y /\ owner y = Some o) as Hk.
    { intros Hkm o (y & Ey & Hy). exists y. by rewrite lookup_insert_ne. }
    apply given_th in Eu as [[-> ->]|[(-> & _ & ->)|(Hut & Hut2 & Eu)]].
    + destruct (decide (k = m)) as [->|Hkm]; [eexists; by rewrite lookup_insert_eq|]. apply (Hk Hkm).
      apply elem_of_cons in Hin as [?|Hin]; [done|]. by apply (Ht t2 v2).
    + rewrite Hta in Hin. apply without_elem in Hin as [Hin Hkm]. apply (Hk Hkm), (Ht t v k Ev Hin).
    + apply Hk; [|by apply (Ht u w)]. intros ->. destruct (Ht u w m Eu Hin) as (y & Ey & Hy). congruence.
  - intros u w [[-> ->]|[(-> & _ & ->)|(_ & _ & Eu)]]%given_th; [|rewrite Hta; by apply without_nodup, (Hn t v)|by apply (Hn u w)].
    simpl. constructor; [|by apply (Hn t2 v2)]. intros Hin. destruct (Ht t2 v2 m Ev2 Hin) as (y & Ey & Hy). congruence.
  - intros k y. rewrite lookup_insert_Some. intros [[<- <-]|[_ Ey]]; [done|by apply (Hf k y)].
  - intros u w k k' [[-> ->]|[(-> & _ & ->)|(_ & _ & Eu)]]%given_th Hcw; [done|congruence|by apply (Hr u w)].
  - intros k y. rewrite lookup_insert_Some. intros [[<- <-]|[_ Ey]]; [apply (Hm m x Ex)|by apply (Hm k y)].
Qed.

Lemma pinv_given : pinv None None (given a t v' t2 v2 m x q).
Proof.
  destruct given_waits as (Hc2 & Hp2 & Hne2). destruct Hshed as [Hc' Hta Hpr].
  destruct (gi_p _ _ _ _ _ Hg) as [Pr Pw Po Por].
  unfold given, a_set_mtx, a_set_w, a_upd, a_set_th. constructor; cbn [a_th a_w a_sems a_mtx].
  - intros k y. rewrite lookup_insert_Some. intros [[<- <-]|[_ Ey]]; [done|by apply (Pr k)].
  - intros k y lk u w Ek (l0 & <- & El0)%lookup_fmap_Some Hin0 _ Eu. pose proof (given_some k y Ek) as Hz.
    pose proof Hin0 as [Hin Hut2]%without_elem. destruct (given_prio u w (given_not_t k l0 u Hz El0 Hin) Eu) as (w0 & Eu0 & <-).
    apply lookup_insert_Some in Ek as [[<- <-]|[_ Ey]]; [|by apply (Pw k y l0 u w0)].
    simpl. apply (Hql u); [|done]. congruence.
  - intros k y o w. rewrite lookup_insert_Some. intros [[<- <-]|[Hne Ey]] Hy Eo Hb.
    + injection Hy as <-. rewrite lookup_insert_eq in Eo. by injection Eo as <-.
    + destruct (decide (o = t)) as [->|Hot]; [rewrite given_new in Eo; injection Eo as <-; by apply (Hpr k y)|].
      destruct (given_prio o w Hot Eo) as (w0 & Eo0 & <-). by apply (Po k y o w0).
  - intros k y lk Ek (l0 & <- & El0)%lookup_fmap_Some. pose proof (given_some k y Ek) as [z Ez].
    eapply v_order_ext; [|by apply v_order_without, (Por k z l0)]. intros u w [Hin _]%without_elem.
    apply given_prio. by apply (given_not_t k l0); [eexists|..].
Qed.

Lemma ginv_given : ginv fs (Some t) (given a t v' t2 v2 m x q).
Proof.
  destruct given_waits as (Hc2 & Hp2 & Hne2). constructor; [apply minv_given|apply pinv_given| |].
  - intros u w Hu. unfold given, a_set_mtx, a_set_w, a_upd, a_set_th. cbn [a_th].
    intros [[-> ->]|[(-> & _)|(Hut & Hut2 & Eu)]]%given_th; [|done|].
    + pose proof (gi_f _ _ _ _ _ Hg t2 v2 Hu Ev2) as Hok.
      assert (forall k, taking a t2 v2 k -> taking (given a t v' t2 v2 m x q) t2 (v_given m v2) k) as Htk.
      { intros k (y & Ey & [(_ & He & Hpk & _)|[(? & _)|(? & _)]]); [|congruence..]. replace k with m by congruence.
        eexists. simpl. rewrite lookup_insert_eq. split; [done|]. right. left. by split_and!. }
      destruct (fs !! t2) as [[]|]; simpl in Hok |- *; try (by apply Htk); try congruence; try (destruct Hok; congruence); done.
    + pose proof (gi_f _ _ _ _ _ Hg u w Hu Eu) as Hok.
      apply (frame_ok_owner a m x (set_owner (Some t2) q 1 x)) in Hok; [|done|simpl; rewrite Hx; split; congruence].
      eapply frame_ok_ext; [|exact Hok]. done.
  - destruct (gi_i _ _ _ _ _ Hg) as (vi & Ei & Hi). unfold given, active, a_set_mtx, a_set_w, a_upd, a_set_th. cbn [a_th].
    destruct (decide (idle = t2)) as [Hit|Hn2]; [exists (v_given m v2); by rewrite Hit, lookup_insert_eq|].
    destruct (decide (idle = t)) as [Hit|Hn1]; [exists v'; rewrite Hit, given_new; split; [done|apply Hshed]|].
    exists vi. by rewrite given_old.
Qed.
End given.

(** A first thread that waits is woken; there is always one if the list is not empty. *)
Lemma wp_wake_loop s m t2 l v2 fuel (Q : option Z -> kernel -> Prop) :
  kok s -> a_w (abs s) !! m = Some (t2 :: l) -> a_th (abs s) !! t2 = Some v2 -> v_class v2 = 4 ->
  (forall s', kok s' -> abs s' = a_set_w (without t2 <$> a_w (abs s)) (a_upd t2 (v_set_class 2 v2) (abs s)) -> Q (Some t2) s') ->
  wp (wake_loop (S fuel) m) Q s.
Proof.
  intros Hk El Ev Hc HQ. apply wp_bind. eapply vw_wait_list; [exact El|]. apply wp_bind. eapply vw_thread; [exact Ev|].
  intros th _ Hv. rewrite class_suspended, Hv, Hc. simpl negb. cbv iota. apply wp_bind. eapply vw_list_remove; [done|exact Ev|done|].
  intros s1 Hk1 E1. apply wp_bind. eapply vw_ready; [done|rewrite E1; exact Ev|done|]. intros s2 Hk2 E2. apply wp_ret, HQ; [done|].
  rewrite E2, E1. unfold a_set_w, a_upd, a_set_th. cbn [a_th a_w a_mtx a_sems a_cur a_nest]. f_equal.
  rewrite <- map_fmap_compose. apply map_fmap_ext. intros k lk _. unfold without. simpl. rewrite list_filter_filter.
  apply list_filter_iff. naive_solver.
Qed.

(** The priority of the mutex after its first thread has gone. *)
Lemma head_bounds (V V' : gmap Z tview) t2 v2 l :
  v_order V (t2 :: l) -> V !! t2 = Some v2 -> v_prio v2 <= 255 ->
  (forall u, u ∈ t2 :: l -> exists w w', V !! u = Some w /\ V' !! u = Some w' /\ v_prio w' = v_prio w /\ 0 <= v_prio w <= 255) ->
  let q := head_prio V' (without t2 (t2 :: l)) in
  0 <= q <= 255 /\ v_prio v2 <= q /\ forall u w, u ∈ without t2 (t2 :: l) -> V !! u = Some w -> q <= v_prio w.
Proof.
  intros Hord Ev2 H2 Hu q. subst q. pose proof (v_order_without _ t2 _ Hord) as Hord'.
  destruct (without t2 (t2 :: l)) as [|y rest] eqn:Er.
  { split_and!; [simpl; lia|simpl; lia|done|]. intros u w Hin. by apply elem_of_nil in Hin. }
  assert (y ∈ t2 :: l) as Hy. { assert (y ∈ without t2 (t2 :: l)) as [? _]%without_elem; [|done]. rewrite Er. by left. }
  destruct (Hu y Hy) as (w & w' & Ew & Ew' & Hp & Hr). unfold head_prio. rewrite Ew', Hp. split_and!; [lia|lia| |].
  - by apply (v_order_head _ _ _ _ Hord Ev2 y).
  - intros u z Hin Eu. by apply (v_order_head _ _ _ _ Hord' Ew u).
Qed.

Lemma wp_pass_on s a t v' t2 v2 m x l (Q : bool -> kernel -> Prop) :
  kok s -> abs s = a_set_w (without t2 <$> a_w a) (a_upd t2 (v_set_class 2 v2)
                     (a_set_mtx (<[m := set_hold 0 x]> (a_mtx a)) (a_upd t v' a))) ->
  a_w a !! m = Some (t2 :: l) ->
  (forall s' V', kok s' -> (forall u, u <> t -> u <> t2 -> V' !! u = a_th a !! u) -> (exists w, V' !! t2 = Some w /\ v_prio w = v_prio v2) ->
     abs s' = given a t v' t2 v2 m x (head_prio V' (without t2 (t2 :: l))) -> Q true s') ->
  wp (x ← mutex m;
      put_mutex m (set_owner (Some t2) (priority x) 1 x) ;;;
      upd t2 (fun th => set_taken (m :: taken_object_list th) th) ;;;
      upd t2 (set_pending None) ;;;
      _mutex_update_priority m ;;;
      mret true) Q s.
Proof.
  intros Hk E El HQ.
  apply wp_bind. eapply vw_mutex; [rewrite E; apply lookup_insert_eq|]. apply wp_bind, vw_put_mutex; [done|]. intros s2 Hk2 E2.
  apply wp_bind. eapply vw_taken; [done|rewrite E2, E; apply lookup_insert_eq|]. intros s3 Hk3 E3.
  apply wp_bind. eapply vw_pending; [done|rewrite E3; apply lookup_insert_eq|]. intros s4 Hk4 _ E4.
  apply wp_bind. eapply (vw_mutex_update_priority s4 m _ (without t2 (t2 :: l))).
  - done.
  - rewrite E4, E3, E2. apply lookup_insert_eq.
  - rewrite E4, E3, E2, E. unfold a_set_mtx, a_set_w, a_upd, a_set_th. cbn [a_w]. by rewrite lookup_fmap, El.
  - intros s5 Hk5 E5. apply wp_ret. apply (HQ s5 (a_th (abs s4))); [done|..];
      [| |rewrite E5; generalize (head_prio (a_th (abs s4)) (without t2 (t2 :: l))); intros q0; rewrite E4, E3, E2, E];
      rewrite ?E4, ?E3, ?E2, ?E; unfold given, a_set_mtx, a_set_w, a_upd, a_set_th;
      cbn [a_th a_w a_mtx a_sems a_cur a_nest]; rewrite ?insert_insert_eq.
    + intros u Hut Hut2. by rewrite !lookup_insert_ne.
    + rewrite lookup_insert_eq. by eexists.
    + done.
Qed.

(** The mutex has no owner, or the thread that waited has it. *)
Definition moved (a a' : av) (m : Z) : Prop :=
  exists x', a_mtx a' = <[m := x']> (a_mtx a) /\
    (owner x' = None /\ hold x' = 0 \/
     exists t2 v2, owner x' = Some t2 /\ hold x' = 1 /\ a_th a !! t2 = Some v2 /\ v_class v2 = 4 /\ v_pend v2 = Some m).

Lemma wp_hand_over s a fs t v v' m x (Q : bool -> kernel -> Prop) :
  kok s -> abs s = a_set_mtx (<[m := set_hold 0 x]> (a_mtx a)) (a_upd t v' a) ->
  ginv fs (Some t) a -> a_th a !! t = Some v -> v_class v = 2 -> a_mtx a !! m = Some x -> owner x = Some t ->
  shed a t v v' m ->
  (forall b s', kok s' -> ginv fs (Some t) (abs s') -> a_th (abs s') !! t = Some v' -> a_cur (abs s') = a_cur a ->
     a_nest (abs s') = a_nest a -> moved a (abs s') m -> Q b s') ->
  wp (hand_over m) Q s.
Proof.
  intros Hk E Hg Ev Hc Ex Hx Hsh HQ. destruct (mi_wait _ _ (gi_m _ _ _ _ _ Hg) m x Ex) as [l El].
  assert (a_w (abs s) !! m = Some l) as Els by (by rewrite E).
  assert (a_mtx (abs s) !! m = Some (set_hold 0 x)) as Exs by (rewrite E; apply lookup_insert_eq).
  apply wp_bind. eapply vw_wait_list; [exact Els|]. apply wp_bind. destruct l as [|t2 l].
  - apply wp_bind. eapply vw_wait_list; [exact Els|]. apply wp_ret, wp_bind. eapply vw_mutex; [exact Exs|].
    apply wp_bind, vw_put_mutex; [done|]. intros s1 Hk1 E1. apply wp_ret.
    assert (abs s1 = freed a t v' m x) as E1'.
    { rewrite E1, E. unfold freed, a_set_mtx. cbn [a_th a_w a_mtx a_sems a_cur a_nest]. by rewrite insert_insert_eq. }
    apply HQ; [done| | |by rewrite E1'|by rewrite E1'|]; rewrite E1'; [by apply (ginv_freed _ _ t v)|apply lookup_insert_eq|].
    eexists. split; [done|by left].
  - assert (forall u, u ∈ t2 :: l -> exists w, a_th a !! u = Some w /\ u <> t /\ v_class w = 4 /\ 0 <= v_prio w <= 255) as Hin.
    { intros u Hu. destruct (mi_waits _ _ (gi_m _ _ _ _ _ Hg) m x _ u Ex El Hu) as (w & _ & Ew & Hcw & _).
      assert (u <> t) as Hut by congruence. exists w. do 3 (split; [done|]).
      assert (a_th (abs s) !! u = Some w) as Ews by (rewrite E; simpl; by rewrite lookup_insert_ne).
      pose proof (kok_prio s u w Hk Ews). lia. }
    destruct (Hin t2 ltac:(left)) as (v2 & Ev2 & Hne & Hc2 & Hr2).
    assert (a_th (abs s) !! t2 = Some v2) as Ev2s by (rewrite E; simpl; by rewrite lookup_insert_ne).
    eapply wp_wake_loop; [done|exact Els|exact Ev2s|done|]. intros s1 Hk1 E1. rewrite E in E1.
    apply (wp_pass_on s1 a t v' t2 v2 m x l); [done|exact E1|done|]. intros s2 V' Hk2 HV' (w2 & Ew2 & Hw2) E2.
    destruct (head_bounds (a_th a) V' t2 v2 l) as (Hq & Hq2 & Hql); [by apply (pi_order _ _ _ (gi_p _ _ _ _ _ Hg) m x)|done|lia| |].
    { intros u Hu. destruct (Hin u Hu) as (w & Ew & Hut & _ & Hrw). destruct (decide (u = t2)) as [->|Hu2].
      - exists v2, w2. done.
      - exists w, w. by rewrite HV'. }
    apply HQ; [done| | |by rewrite E2|by rewrite E2|]; rewrite E2; [by apply (ginv_given fs a t v v' t2 v2 m x l)| |].
    + unfold given, a_set_mtx, a_set_w, a_upd, a_set_th. cbn [a_th]. by rewrite lookup_insert_ne, lookup_insert_eq.
    + eexists. split; [done|]. right. exists t2, v2.
      destruct (mi_waits _ _ (gi_m _ _ _ _ _ Hg) m x _ t2 Ex El ltac:(left)) as (w & _ & Ew & _ & Hpw & _).
      by replace w with v2 in * by congruence.
Qed.

(** The last release by the owner. *)
Lemma wp_release_last s a fs t v m x (Q : bool -> kernel -> Prop) :
  kok s -> abs s = a_set_mtx (<[m := set_hold 0 x]> (a_mtx a)) a ->
  ginv fs (Some t) a -> a_th a !! t = Some v -> v_class v = 2 -> v_pend v = None -> a_mtx a !! m = Some x -> owner x = Some t ->
  (forall b v' s', kok s' -> ginv fs (Some t) (abs s') -> a_th (abs s') !! t = Some v' -> v_class v' = 2 -> v_pend v' = None ->
     a_cur (abs s') = a_cur a -> a_nest (abs s') = a_nest a -> moved a (abs s') m -> Q b s') ->
  wp (taken_remove m ;;; n1 ← _check_and_update_prio t m; n2 ← hand_over m; mret (n1 || n2)) Q s.
Proof.
  intros Hk E Hg Ev Hc Hp Ex Hx HQ. pose proof (gi_m _ _ _ _ _ Hg) as HM. pose proof (gi_p _ _ _ _ _ Hg) as HP.
  apply wp_bind. eapply wp_taken_remove; [done|by rewrite E| |].
  { rewrite E. intros u w Hut Eu Hin. destruct (mi_taken _ _ HM u w m Eu Hin) as (y & Ey & Hy). congruence. }
  intros s1 Hk1 E1. rewrite E in E1. set (v1 := v_set_taken _ v) in E1.
  assert (a_th (abs s1) !! t = Some v1) as Ev1 by (rewrite E1; apply lookup_insert_eq).
  assert (forall k, k <> m -> a_mtx (abs s1) !! k = a_mtx a !! k) as Hoth.
  { intros k Hkm. rewrite E1. simpl. by rewrite lookup_insert_ne. }
  apply wp_bind. eapply (wp_check_prio s1 t v1 m (set_hold 0 x)); [done|exact Ev1|rewrite E1; apply lookup_insert_eq| |].
  { intros k [Hin Hkm]%without_elem. rewrite Hoth by done. by apply (minv_mutexes_ok rank None None a t v). }
  intros b p s2 Hk2 Hpr Hpp E2. apply wp_bind.
  eapply (wp_hand_over s2 a fs t v (v_set_prio p v1) m x); try done.
  - rewrite E2, E1. unfold a_set_mtx, a_upd, a_set_th. cbn [a_th a_w a_mtx a_sems a_cur a_nest]. by rewrite insert_insert_eq.
  - constructor; [done|done|]. intros k y Hkm Ey Hy. simpl. destruct Hpp as [->|[_ Hl]].
    + by apply (pi_own _ _ _ HP k y t v).
    + destruct (mi_own _ _ HM k y t Ey Hy) as (_ & w & Ew & Hin). apply (Hl k y); [|by rewrite Hoth].
      apply without_elem. split; [|done]. by replace v with w by congruence.
  - intros b2 s3 Hk3 Hg3 Ev3 Hc3 Hn3 Hmv. apply wp_ret. by eapply HQ.
Qed.

(** The owners and counts, before and after, of a release by [t] that ends with [out]. *)
Definition released (o o' : gmap Z (option Z * Z)) (a : av) (t m : Z) (out : outcome) : Prop :=
  exists w h, o !! m = Some (w, h) /\
    (w <> Some t /\ o' = o /\ result (- RT_ERROR) out \/
     w = Some t /\ (result 0 out \/ exists b, out = Away (InMutexRelease b)) /\
       (1 < h /\ o' = <[m := (Some t, h - 1)]> o \/
        h = 1 /\ o' = <[m := (None, 0)]> o \/
        h = 1 /\ exists t2 v2, o' = <[m := (Some t2, 1)]> o /\ a_th a !! t2 = Some v2 /\ v_class v2 = 4 /\ v_pend v2 = Some m)).

Lemma wp_and_ends {A} t o P (m : M kernel A) (Q : A -> kernel -> Prop) s :
  ends t o P m -> own s = o -> rt_current_thread s = t -> wp m Q s -> wp m (fun a s' => Q a s' /\ own s' = o /\ P a) s.
Proof.
  intros He Ho Hc (a & s' & E & HQ)%wp_run. apply wp_run. exists a, s'. split; [done|]. by destruct (He s a s' Ho Hc E).
Qed.

Lemma released_last o a a1 a3 t m x out b :
  (fun y => (owner y, hold y)) <$> a_mtx a1 = o -> a_th a1 = a_th a -> a_mtx a1 !! m = Some x -> owner x = Some t ->
  hold x = 1 -> moved a1 a3 m -> result 0 out \/ out = Away (InMutexRelease b) ->
  released o ((fun y => (owner y, hold y)) <$> a_mtx a3) a t m out.
Proof.
  intros <- Et Ex Ho Hh (x' & E & Hcase) Hout. exists (Some t), (hold x). split; [by rewrite lookup_fmap, Ex, <- Ho|]. right.
  split; [done|]. split; [destruct Hout; eauto|]. right. rewrite E, fmap_insert.
  destruct Hcase as [[-> ->]|(t2 & v2 & -> & -> & Ev & Hc & Hp)]; [by left|right]. split; [done|].
  exists t2, v2. by rewrite <- Et.
Qed.

(** The end of a release: the unlocking of the scheduler, which may move the caller away, and the reschedule. *)
Lemma wp_release_end_of s3 b fs t v (R : gmap Z (option Z * Z) -> outcome -> Prop) :
  kok s3 -> ginv fs (Some t) (abs s3) -> a_th (abs s3) !! t = Some v -> v_class v = 2 -> v_pend v = None ->
  t = a_cur (abs s3) -> a_nest (abs s3) = 1 ->
  (forall out, result 0 out \/ out = Away (InMutexRelease b) -> R (own s3) out) ->
  wp (and_then rt_exit_critical (InMutexRelease b) (mutex_release_end b))
    (fun out s' => good s' (after t fs out) /\ R (own s') out) s3.
Proof.
  intros Hk Hg Ev Hc Hp Ht Hn HR.
  eapply wp_mono; [apply (wp_and_ends t (own s3) (fun out => result 0 out \/ out = Away (InMutexRelease b)))|]; [|done|done| |].
  - apply ends_and_then; [auto with calm|by right|]. intros s4 a s5 H4 H5 E5. destruct (ends_release_end t (own s3) b s4 a s5 H4 H5 E5). auto.
  - eapply (wp_and_then rank idle _ _ _ fs t v s3); [done|exact Ev|done| |done|].
    + apply (wp_exit_post idle); [done|done|apply Hg].
    + intros s4 _ Hk4 Hs4 E4. eapply wp_release_end; [by rewrite E4|done|done|by rewrite E4| |by rewrite E4|done|done].
      rewrite E4. by apply (ginv_ext _ _ _ _ (abs s3)).
  - intros out s' (H1 & -> & H3). auto.
Qed.

Lemma wp_mutex_release s fs t m x :
  good s fs -> t = a_cur (abs s) -> fs !! t = None -> a_mtx (abs s) !! m = Some x ->
  wp (rt_mutex_release m)
    (fun out s' => good s' (after t fs out) /\ released (own s) (own s') (abs s) t m out) s.
Proof.
  intros Hgood Ht Hf Ex. destruct (caller _ _ s fs t Hgood Ht Hf) as (v & Ev & Hc & Hp & Hg).
  destruct Hgood as [Hk Hs Hne _]. pose proof (gi_m _ _ _ _ _ Hg) as HM.
  assert (own s !! m = Some (owner x, hold x)) as Eo by (unfold own; simpl in Ex; by rewrite lookup_fmap, Ex).
  apply wp_bind. eapply wp_registered; [exact HM|exact Ex|].
  apply wp_bind, vw_self. rewrite <- Ht. apply wp_bind, vw_enter; [done..|]. intros s1 Hk1 E1.
  assert (ginv fs (Some t) (abs s1)) as Hg1 by (rewrite E1; by apply (ginv_ext _ _ _ _ (abs s))).
  assert (a_th (abs s1) !! t = Some v) as Ev1 by (by rewrite E1). assert (a_mtx (abs s1) !! m = Some x) as Ex1 by (by rewrite E1).
  assert (t = a_cur (abs s1)) as Ht1 by (by rewrite E1). assert (a_nest (abs s1) = 1) as Hn1 by (by rewrite E1).
  assert ((fun y => (owner y, hold y)) <$> a_mtx (abs s1) = own s) as Eo1 by (by rewrite E1).
  case_bool_decide as Ho; simpl negb; cbv iota zeta.
  2: { apply wp_bind. eapply vw_error; [done|exact Ev1|]. intros s2 Hk2 _ E2.
    assert (ginv fs (Some t) (abs s2)) as Hg2 by (rewrite E2; by eapply ginv_err).
    assert (own s2 = own s) as Eo2 by (rewrite <- Eo1; change (own s2) with ((fun y => (owner y, hold y)) <$> a_mtx (abs s2)); by rewrite E2).
    eapply wp_mono; [apply (wp_and_ends t (own s) (result (- RT_ERROR)))|]; [|exact Eo2|by rewrite Ht1; change (rt_current_thread s2) with (a_cur (abs s2)); rewrite E2| |].
    - apply ends_returning; [auto with calm|by right|by left].
    - eapply (wp_returning rank idle); [by rewrite E2|rewrite E2; apply lookup_insert_eq|done|done|done|].
      apply (wp_exit_post idle); [done|by rewrite E2|apply Hg2].
    - intros out s' (H1 & H2 & H3). split; [done|]. exists (owner x), (hold x). split; [done|by left]. }
  destruct (mi_own _ _ HM m x t Ex Ho) as (Hh & _).
  assert (u8 (hold x - 1) = hold x - 1) as Hu8 by (apply wrap_small; lia). rewrite Hu8.
  apply wp_bind, vw_put_mutex; [done|]. intros s2 Hk2 E2. apply wp_bind.
  destruct (Z.eqb_spec (hold x - 1) 0) as [Hz|Hz].
  - rewrite Hz in E2. eapply (wp_release_last s2 (abs s1) fs t v m x); try done.
    intros b v' s3 H1 H2 H3 H4 H5 H6 H7 H8. apply (wp_release_end_of s3 b fs t v' (fun o out => released (own s) o (abs s) t m out)); try congruence; try done. intros out Hout.
    eapply (released_last _ _ (abs s1) (abs s3) _ _ x); [done|by rewrite E1|done|done|lia|done|done].
  - apply wp_ret. apply (wp_release_end_of s2 false fs t v (fun o out => released (own s) o (abs s) t m out)); try done; [|by rewrite E2..|].
    + rewrite E2. apply (ginv_mutex _ _ _ m x); try done; [apply (mi_mutex _ _ HM m x Ex)|intros _; simpl; lia|congruence|].
      apply (mi_mutex _ _ HM m x Ex).
    + intros out Hout. exists (Some t), (hold x). rewrite <- Ho. split; [done|]. right. split; [done|]. split; [destruct Hout; eauto|]. left.
      split; [lia|]. rewrite <- Eo1. change (own s2) with ((fun y => (owner y, hold y)) <$> a_mtx (abs s2)). rewrite E2. simpl.
      by rewrite fmap_insert.
Qed.

(** ** Ceilings *)

Lemma wp_setprioceiling s fs t m x p :
  good s fs -> t = a_cur (abs s) -> fs !! t = None -> a_mtx (abs s) !! m = Some x -> 0 <= p ->
  wp (rt_mutex_setprioceiling m p) (fun o s' => good s' (after t fs o)) s.
Proof.
  intros Hgood Ht Hf Ex Hpp. destruct (caller _ _ s fs t Hgood Ht Hf) as (v & Ev & Hc & Hp & Hg).
  destruct Hgood as [Hk Hs Hne _]. pose proof (gi_m _ _ _ _ _ Hg) as HM. unfold rt_mutex_setprioceiling.
  destruct (negb _); [by apply wp_ret; eapply good_return|].
  apply wp_bind. eapply vw_mutex; [exact Ex|]. apply wp_bind, vw_enter; [done..|]. intros s1 Hk1 E1.
  apply wp_bind, vw_put_mutex; [done|]. intros s2 Hk2 E2. rewrite E1 in E2.
  assert (ginv fs (Some t) (abs s2)) as Hg2.
  { apply (ginv_ext _ _ _ _ (a_set_mtx (<[m := set_ceiling p x]> (a_mtx (abs s))) (abs s))); [by rewrite E2..|].
    apply (ginv_mutex _ _ _ m x); try done; [apply (mi_mutex _ _ HM m x Ex)| |by apply (mi_free _ _ HM m x)].
    intros [o Ho]. by apply (mi_own _ _ HM m x o). }
  assert (a_th (abs s2) !! t = Some v) as Ev2 by (by rewrite E2).
  apply wp_bind. eapply (wp_mono _ (fun _ s3 => kok s3 /\ pinv None None (abs s3) /\ boosted (abs s2) (abs s3))).
  { destruct (owner x) as [o|] eqn:Ho; [|apply wp_ret; split_and!; [done|apply Hg2|apply boosted_refl]].
    destruct (mi_own _ _ HM m x o Ex Ho) as (_ & vo & Evo & _).
    eapply (vw_owner_update rank s2 o vo None); [done|apply Hg2|apply Hg2|by rewrite E2|done|]. by intros s3 Hk3 Hp3 B3. }
  intros [] s3 (Hk3 & Hp3 & B3). destruct (boosted_th _ _ _ _ B3 Ev2) as [q Ev3].
  pose proof (ginv_boosted _ _ _ _ _ _ B3 Hp3 Hg2) as Hg3.
  eapply (wp_returning rank idle); [rewrite (bo_cur _ _ B3), E2; exact Ht|exact Ev3|done|done|done|].
  apply (wp_exit_post idle); [done|by rewrite (bo_nest _ _ B3), E2|apply Hg3].
Qed.

Lemma wp_getprioceiling s fs t m x :
  good s fs -> t = a_cur (abs s) -> fs !! t = None -> a_mtx (abs s) !! m = Some x ->
  wp (rt_mutex_getprioceiling m) (fun o s' => good s' (after t fs o)) s.
Proof.
  intros Hgood Ht Hf Ex. destruct (caller _ _ s fs t Hgood Ht Hf) as (v & Ev & Hc & Hp & Hg).
  destruct Hgood as [Hk Hs Hne _]. apply wp_bind. eapply vw_mutex; [exact Ex|]. apply wp_bind, vw_enter; [done..|]. intros s1 Hk1 E1.
  assert (ginv fs (Some t) (abs s1)) as Hg1 by (rewrite E1; by apply (ginv_ext _ _ _ _ (abs s))).
  eapply (wp_returning rank idle); [by rewrite E1|by rewrite E1|done|done|done|].
  apply (wp_exit_post idle); [done|by rewrite E1|apply Hg1].
Qed.
End mutexes.
