(* ===== verification/Runs.v ===== *)
(** Runs of the kernel from boot: the actions that are legal, and what holds in every state that
    they reach. *)

From stdpp Require Import gmap sorting.
From S2P Require Import Prelude Sched Ipc Inherit Kernel Mutexes.
#[local] Open Scope Z_scope.

(** ** Legal actions

    What the kernel relies on: the objects exist, times are below half of the tick's range, the
    idle thread does not wait, and a thread that may wait for a mutex has only taken mutexes of a
    lower rank.  A thread may end, with the mutexes that it owns.  To detach and to delete are not
    among them. *)

Section legal.
Context (rank : Z -> Z) (idle : Z).

Definition may_wait (k : kernel) (n flag : Z) : bool :=
  (0 <=? flag) && (flag <=? 2) && (n <? RT_TICK_MAX / 2) && ((n =? 0) || negb (rt_current_thread k =? idle)).

Definition in_lock_order (k : kernel) (m : Z) : bool :=
  match threads k !! rt_current_thread k with
  | Some th => bool_decide (m ∈ taken_object_list th) || forallb (fun k => rank k <? rank m) (taken_object_list th)
  | None => true
  end.

Definition has_sem (k : kernel) (x : Z) : bool := bool_decide (is_Some (sems k !! x)).
Definition has_mutex (k : kernel) (m : Z) : bool := bool_decide (is_Some (mutexes k !! m)).

Definition legal_call (k : kernel) (c : call) : bool :=
  match c with
  | SemTake x n flag => has_sem k x && may_wait k n flag
  | SemRelease x | SemControl x _ _ => has_sem k x
  | MutexTake m n flag => has_mutex k m && may_wait k n flag && ((n =? 0) || in_lock_order k m)
  | MutexRelease m | GetPrioCeiling m => has_mutex k m
  | SetPrioCeiling m p => has_mutex k m && (0 <=? p)
  | Sleep n => (n <? RT_TICK_MAX / 2) && negb (rt_current_thread k =? idle)
  | Yield => true
  | Exit => negb (rt_current_thread k =? idle)
  | SemDetach _ | MutexDetach _ | MutexDelete _ | ThreadDetach _ => false
  end.

Definition legal (a : action) (mc : machine) : bool :=
  let k := kern mc in
  match a with
  | Call c => bool_decide (stacks mc !! rt_current_thread k = None) && legal_call k c
  | GoOn => bool_decide (is_Some (stacks mc !! rt_current_thread k))
  | Timeout t => match threads k !! t with Some th => bool_decide (is_Some (thread_timer th)) | None => false end
  | Tick => true
  | IrqRelease x => has_sem k x
  end.

(** A fault ends a run; that there is none is to be shown. *)
Fixpoint legal_run (l : list action) (mc : machine) : bool :=
  match l with
  | [] => true
  | a :: l => legal a mc && match step a mc with Ok mc' => legal_run l mc' | Err _ => true end
  end.

(** ** One step *)

Definition frames (mc : machine) : gmap Z frame := snd <$> stacks mc.
Definition sound (mc : machine) : Prop := good rank idle (kern mc) (frames mc).

Lemma frames_settle t c mc r :
  frames (settle t c mc r) = after t (frames mc) r.1.
Proof. unfold frames, settle. destruct r.1; simpl; [apply fmap_insert|apply fmap_delete]. Qed.

Lemma settle_sound t c mc (m : M kernel outcome) :
  wp m (fun o s' => good rank idle s' (after t (frames mc) o)) (kern mc) ->
  exists r, m (kern mc) = Ok r /\ sound (settle t c mc r).
Proof.
  intros (o & s' & E & H)%wp_run. exists (o, s'). split; [done|]. unfold sound. rewrite frames_settle. by destruct o.
Qed.

Lemma interrupt_sound {A} mc (m : M kernel A) :
  wp m (fun _ s' => good rank idle s' (frames mc)) (kern mc) -> exists mc', interrupt mc m = Ok mc' /\ sound mc'.
Proof. intros (a & s' & E & H)%wp_run. unfold interrupt. rewrite E. simpl. by eexists. Qed.

Lemma has_sem_view k x : has_sem k x = true -> exists sv, a_sems (abs k) !! x = Some sv.
Proof. by intros [sv Hsv]%bool_decide_eq_true; exists sv. Qed.
Lemma has_mutex_view k m : has_mutex k m = true -> exists x, a_mtx (abs k) !! m = Some x.
Proof. by intros [x Hx]%bool_decide_eq_true; exists x. Qed.

Lemma may_wait_view k n flag :
  may_wait k n flag = true -> 0 <= flag <= 2 /\ n < RT_TICK_MAX / 2 /\ (n <> 0 -> a_cur (abs k) <> idle).
Proof.
  intros [[[H1%Z.leb_le H2%Z.leb_le]%andb_true_iff H3%Z.ltb_lt]%andb_true_iff H4]%andb_true_iff.
  split_and!; [lia..|done|]. intros Hn. rewrite (proj2 (Z.eqb_neq _ _) Hn) in H4. apply negb_true_iff, Z.eqb_neq in H4. done.
Qed.

Lemma in_lock_order_view k m v :
  in_lock_order k m = true -> a_th (abs k) !! a_cur (abs k) = Some v ->
  m ∈ v_taken v \/ forall k, k ∈ v_taken v -> rank k < rank m.
Proof.
  unfold in_lock_order. intros H (th & E & <-)%abs_thread. simpl in E. rewrite E in H.
  apply orb_true_iff in H as [H%bool_decide_eq_true|H]; [by left|right]. rewrite forallb_forall in H.
  intros j Hj. apply Z.ltb_lt, H. by apply list_elem_of_In.
Qed.

Lemma perform_sound c s fs :
  good rank idle s fs -> fs !! rt_current_thread s = None -> legal_call s c = true ->
  wp (perform c) (fun o s' => good rank idle s' (after (rt_current_thread s) fs o)) s.
Proof.
  intros Hg Hf Hl. destruct c; simpl in Hl |- *; try done.
  - apply andb_true_iff in Hl as [[sv Ex]%has_sem_view (H1 & H2 & H3)%may_wait_view]. by eapply wp_sem_take.
  - apply has_sem_view in Hl as [sv Ex]. by eapply wp_sem_release_call.
  - apply has_sem_view in Hl as [sv Ex]. by eapply wp_sem_control.
  - apply andb_true_iff in Hl as [[[y Ex]%has_mutex_view (H1 & H2 & H3)%may_wait_view]%andb_true_iff Ho].
    eapply wp_mutex_take; try done. intros v Hn Ev. rewrite (proj2 (Z.eqb_neq _ _) Hn) in Ho.
    by apply (in_lock_order_view s m v).
  - apply has_mutex_view in Hl as [y Ex]. eapply wp_mono; [by eapply wp_mutex_release|]. by intros o s' [H _].
  - apply andb_true_iff in Hl as [[y Ex]%has_mutex_view Hp%Z.leb_le]. by eapply wp_setprioceiling.
  - apply has_mutex_view in Hl as [y Ex]. by eapply wp_getprioceiling.
  - apply andb_true_iff in Hl as [Hn%Z.ltb_lt Hi%negb_true_iff%Z.eqb_neq]. by eapply wp_sleep.
  - by eapply wp_yield.
  - apply negb_true_iff, Z.eqb_neq in Hl. eapply wp_mono; [by eapply wp_thread_exit|]. by intros o s' [H _].
Qed.

Lemma go_on_sound f s fs :
  good rank idle s fs -> fs !! rt_current_thread s = Some f ->
  wp (go_on f) (fun o s' => good rank idle s' (after (rt_current_thread s) fs o)) s.
Proof.
  intros Hg Hf. destruct (running_at _ _ s fs Hg) as (v & Ev & Hc & Hok & Hgi). destruct Hg as [Hk Hs Hn _].
  change (rt_current_thread s) with (a_cur (abs s)) in *. rewrite Hf in Hok. destruct f; simpl in Hok |- *; try done.
  - by eapply wp_sem_take_end.
  - by eapply wp_take_schedule.
  - by eapply wp_take_check.
  - by eapply wp_take_failed.
  - destruct Hok as [_ Hp]. by eapply wp_release_end.
  - by eapply wp_sleep_end.
  - destruct Hok. congruence.
  - destruct Hok as [_ Hp]. apply wp_ret. by eapply good_return.
Qed.

Lemma step_sound a mc : sound mc -> legal a mc = true -> exists mc', step a mc = Ok mc' /\ sound mc'.
Proof.
  intros Hs Hl. destruct a as [c| |t| |x]; simpl in Hl; unfold step.
  - apply andb_true_iff in Hl as [Hn%bool_decide_eq_true Hl]. rewrite Hn.
    destruct (settle_sound (rt_current_thread (kern mc)) c mc (perform c)) as (r & E & Hr).
    { apply perform_sound; [done| |done]. unfold frames. by rewrite lookup_fmap, Hn. }
    rewrite E. by eexists.
  - apply bool_decide_eq_true in Hl as [[c f] Ef]. rewrite Ef.
    destruct (settle_sound (rt_current_thread (kern mc)) c mc (go_on f)) as (r & E & Hr).
    { apply go_on_sound; [done|]. unfold frames. by rewrite lookup_fmap, Ef. }
    rewrite E. by eexists.
  - destruct (threads (kern mc) !! t) as [th|] eqn:E; [|done]. apply bool_decide_eq_true in Hl as [n Hn]. rewrite Hn.
    apply interrupt_sound. by eapply wp_timer_rings.
  - apply interrupt_sound. by apply wp_tick_increase.
  - apply has_sem_view in Hl as [sv Ex]. apply interrupt_sound. by eapply wp_sem_release_irq.
Qed.

Lemma run_sound l mc : sound mc -> legal_run l mc = true -> exists mc', run l mc = Ok mc' /\ sound mc'.
Proof.
  revert mc. induction l as [|a l IH]; intros mc Hs Hl; [by exists mc|]. simpl in Hl.
  apply andb_true_iff in Hl as [Ha Hl]. destruct (step_sound a mc Hs Ha) as (mc1 & E & Hs1). rewrite E in Hl.
  destruct (IH mc1 Hs1 Hl) as (mc' & E' & Hs'). exists mc'. split; [|done]. simpl. rewrite E. exact E'.
Qed.
End legal.

(** ** From reset to the first thread *)

(** A thread in memory for itself is in no list. *)
Lemma kwf_new s t th :
  kwf None s -> threads s !! t = None -> thok th -> state_of th = RT_THREAD_INIT ->
  kwf None (reshape s (<[t := th]> (threads s)) (rt_thread_priority_table s)
              (rt_thread_ready_priority_group s) (suspend_thread s)).
Proof.
  intros [? Htab ? ? ? Hth Hw ? ?] En Hok Hs. constructor; simpl; try done.
  - intros p l x Hl Hx. destruct (Htab p l x Hl Hx) as (Hh & th0 & E0 & H0). split; [done|].
    exists th0. rewrite lookup_insert_ne by congruence. done.
  - intros x thx. rewrite lookup_insert_Some. intros [[<- <-]|[_ Ex]] Hh; [|by apply Hth].
    rewrite Hs. by split_and!.
  - intros o l x Hl Hx. destruct (Hw o l x Hl Hx) as (th0 & E0 & Hs0). exists th0.
    rewrite lookup_insert_ne by congruence. done.
Qed.

(** While the threads are made: all are ready, none runs, and there are no objects. *)
Record born (ids : list Z) (s : kernel) : Prop := Born {
  bn_wf : kwf None s;
  bn_cur : rt_current_thread s = 0;
  bn_nest : rt_scheduler_lock_nest s = 0;
  bn_dom t : is_Some (threads s !! t) <-> t ∈ ids;
  bn_th t th : threads s !! t = Some th ->
    state_of th = RT_THREAD_READY /\ taken_object_list th = [] /\ pending_object th = None;
  bn_w : suspend_thread s = ∅;
  bn_sems : sems s = ∅;
  bn_mutexes : mutexes s = ∅;
}.

Lemma born_init : born [] (rt_system_scheduler_init kernel_reset).
Proof.
  constructor; simpl; try done; [|intros t; rewrite lookup_empty; by split; [intros [? ?]|intros H; apply elem_of_nil in H]].
  assert (forall p l, replicate (Z.to_nat RT_THREAD_PRIORITY_MAX) ([] : list Z) !! p = Some l -> l = []) as Hnil.
  { intros p l E. by apply lookup_replicate in E as [-> _]. }
  constructor; cbn - [replicate]; try done.
  - intros p l t E Hin. apply Hnil in E as ->. by apply elem_of_nil in Hin.
  - intros p l E. apply Hnil in E as ->. constructor.
  - intros p l E. apply Hnil in E as ->. by rewrite Z.testbit_0_l.
Qed.

Lemma wp_new_thread s ids t p tick (Q : unit -> kernel -> Prop) :
  born ids s -> t ∉ ids -> t <> 0 -> 0 <= p < 32 -> tick <> 0 -> (forall s', born (ids ++ [t]) s' -> Q tt s') ->
  wp (rt_thread_init t p tick ;;; rt_thread_startup t ;;; mret tt) Q s.
Proof.
  intros [Hwf Hcur Hn Hdom Hth Hw Hse Hm] Hnew Ht0 Hp Htick HQ.
  assert (threads s !! t = None) as En. { apply eq_None_not_Some. by rewrite Hdom. }
  apply wp_bind. unfold rt_thread_init. rewrite (proj2 (Z.eqb_neq _ _) Htick). rewrite (proj2 (Z.ltb_lt p RT_THREAD_PRIORITY_MAX)) by apply Hp.
  simpl negb. cbv iota. set (th0 := Thread _ _ _ _ _ _ _ _ _ _ _). apply wp_modify.
  assert (thok th0) as Hok0 by (by constructor).
  pose proof (kwf_new s t th0 Hwf En Hok0 eq_refl) as H1. unfold reshape in H1. set (s1 := Kernel _ _ _ _ _ _ _ _) in *.
  assert (threads s1 !! t = Some th0) as E1 by apply lookup_insert_eq.
  apply wp_bind, wp_bind. eapply wp_thread; [exact E1|]. simpl negb. cbv iota. apply wp_bind, wp_bind. eapply wp_thread; [exact E1|].
  apply wp_bind. eapply wp_upd; [exact E1|]. eapply wp_upd; [apply lookup_insert_eq|].
  rewrite reshape_reshape. cbn [reshape threads rt_thread_priority_table rt_thread_ready_priority_group suspend_thread].
  rewrite insert_insert_eq. set (th2 := set_stat _ _).
  assert (thok th2) as Hok2. { constructor; try done. intros _. by apply mask_of. }
  pose proof (kwf_open s1 t th0 H1 E1 ltac:(done)) as Ho.
  assert (kwf None (reshape s1 (<[t := th2]> (threads s1)) (rt_thread_priority_table s1) (rt_thread_ready_priority_group s1) (suspend_thread s1))) as H2.
  { eapply (kwf_close _ t th2); [by apply kwf_upd_hole|apply lookup_insert_eq|done|done|done]. }
  apply wp_bind, wp_bind. eapply wp_thread_ready; [exact H2|apply lookup_insert_eq|done|].
  intros tb g s3 H3. apply wp_bind. simpl (RT_EOK =? RT_EOK). cbv iota.
  apply wp_bind, wp_gets. change (rt_current_thread s3) with (rt_current_thread s). rewrite Hcur. apply wp_ret, wp_ret, wp_ret, HQ. subst s3.
  rewrite reshape_reshape in H3 |- *. simpl in H3 |- *. rewrite Hcur in H3 |- *. rewrite !insert_insert_eq in H3 |- *.
  constructor; simpl; try done.
  - intros u. rewrite elem_of_app, list_elem_of_singleton. destruct (decide (u = t)) as [->|Hne].
    + rewrite lookup_insert_eq. split; [by right|by eexists].
    + rewrite lookup_insert_ne by done. rewrite Hdom. naive_solver.
  - intros u thu. rewrite lookup_insert_Some. intros [[<- <-]|[_ Eu]]; [|by apply (Hth u thu)].
    rewrite state_woken, (proj2 (Z.eqb_neq _ _) Ht0). done.
  - by rewrite Hw, fmap_empty.
Qed.

Definition valid_thread (x : Z * (Z * Z)) : bool :=
  negb (x.1 =? 0) && (0 <=? x.2.1) && (x.2.1 <? 32) && negb (x.2.2 =? 0).
Definition valid_sem (x : Z * (Z * Z)) : bool :=
  (0 <=? x.2.1) && (x.2.1 <? 65536) && ((x.2.2 =? RT_IPC_FLAG_FIFO) || (x.2.2 =? RT_IPC_FLAG_PRIO)).

(** Threads at addresses of their own, with the idle thread; semaphores and mutexes apart. *)
Definition valid_config (idle : Z) (ths ss : list (Z * (Z * Z))) (ms : list Z) : bool :=
  bool_decide (NoDup ths.*1) && forallb valid_thread ths && bool_decide (idle ∈ ths.*1) &&
  forallb valid_sem ss && bool_decide (Forall (fun m => m ∉ ss.*1) ms).

Lemma wp_new_threads ths :
  NoDup ths.*1 -> forallb valid_thread ths = true ->
  wp (mfor ths (fun x => rt_thread_init x.1 x.2.1 x.2.2 ;;; rt_thread_startup x.1 ;;; mret tt))
    (fun _ s => born ths.*1 s) (rt_system_scheduler_init kernel_reset).
Proof.
  intros Hnd Hv. apply (wp_mfor (fun l => born l.*1)); [apply born_init|].
  intros pre x post s -> Hb. rewrite forallb_app in Hv. apply andb_true_iff in Hv as [_ [Hx _]%andb_true_iff].
  apply andb_true_iff in Hx as [[[H0%negb_true_iff%Z.eqb_neq H1%Z.leb_le]%andb_true_iff H2%Z.ltb_lt]%andb_true_iff H3%negb_true_iff%Z.eqb_neq].
  rewrite fmap_app, fmap_cons in Hnd. apply NoDup_app in Hnd as (_ & Hd & _).
  eapply wp_new_thread; [exact Hb| |done|lia|done|].
  - intros Hin. by apply (Hd x.1 Hin); left.
  - intros s'. by rewrite fmap_app.
Qed.

(** The objects are made: the lists of those that wait are empty. *)
Record furnished (ids sids mids : list Z) (s : kernel) : Prop := Furnished {
  fu_wf : kwf None s;
  fu_nest : rt_scheduler_lock_nest s = 0;
  fu_dom t : is_Some (threads s !! t) <-> t ∈ ids;
  fu_th t th : threads s !! t = Some th ->
    state_of th = RT_THREAD_READY /\ taken_object_list th = [] /\ pending_object th = None;
  fu_w o l : suspend_thread s !! o = Some l -> l = [];
  fu_sems x v : sems s !! x = Some v -> x ∈ sids /\ suspend_thread s !! x = Some [] /\
    (sem_flag v = RT_IPC_FLAG_FIFO \/ sem_flag v = RT_IPC_FLAG_PRIO) /\ 0 <= value v;
  fu_mutexes m x : mutexes s !! m = Some x -> m ∈ mids /\ suspend_thread s !! m = Some [] /\ x = Mutex true 255 255 0 None;
}.

Lemma kwf_new_list s x y z :
  kwf None s -> (forall o l, suspend_thread s !! o = Some l -> l = []) ->
  kwf None (Kernel (threads s) (rt_thread_priority_table s) (rt_thread_ready_priority_group s) (rt_current_thread s)
              (rt_scheduler_lock_nest s) (<[x := []]> (suspend_thread s)) y z).
Proof.
  intros [? ? ? ? ? ? ? ? ?] Hnil.
  assert (forall o l, <[x := []]> (suspend_thread s) !! o = Some l -> l = []) as Hn.
  { intros o l. rewrite lookup_insert_Some. intros [[_ <-]|[_ E]]; [done|by apply (Hnil o)]. }
  constructor; simpl; try done.
  - intros o l t E Hin. rewrite (Hn o l E) in Hin. by apply elem_of_nil in Hin.
  - intros o l E. rewrite (Hn o l E). constructor.
  - intros o o' l l' t E _ Hin. rewrite (Hn o l E) in Hin. by apply elem_of_nil in Hin.
Qed.

Lemma insert_nil_Some (w : gmap Z (list Z)) x o : w !! o = Some [] -> <[x := []]> w !! o = Some ([] : list Z).
Proof. destruct (decide (x = o)) as [->|]; [by rewrite lookup_insert_eq|by rewrite lookup_insert_ne]. Qed.

Lemma wp_new_sems ss ids s :
  forallb valid_sem ss = true -> furnished ids [] [] s ->
  wp (mfor ss (fun x => rt_sem_init x.1 x.2.1 x.2.2 ;;; mret tt)) (fun _ => furnished ids ss.*1 []) s.
Proof.
  intros Hv Hs. apply (wp_mfor (fun l => furnished ids l.*1 [])); [done|].
  intros pre [x [v fl]] post s1 -> [Hwf Hn Hdom Hth Hw Hse Hm]. rewrite forallb_app in Hv. apply andb_true_iff in Hv as [_ [Hx _]%andb_true_iff].
  apply andb_true_iff in Hx as [[H1%Z.leb_le H2]%andb_true_iff H3]. cbn [fst snd] in *. apply wp_bind. unfold rt_sem_init.
  rewrite H2, H3. simpl. apply wp_bind, wp_modify, wp_bind, wp_modify, wp_ret, wp_ret.
  rewrite fmap_app. constructor; simpl; try done.
  - by apply kwf_new_list.
  - intros o l. rewrite lookup_insert_Some. intros [[_ <-]|[_ E]]; [done|by apply (Hw o)].
  - intros y w. rewrite lookup_insert_Some, elem_of_app. intros [[<- <-]|[_ E]].
    + split_and!; [by right; left|apply lookup_insert_eq| |done]. apply orb_true_iff in H3 as [->%Z.eqb_eq| ->%Z.eqb_eq]; auto.
    + destruct (Hse y w E) as (Hin & Hl & H). split_and!; [by left|by apply insert_nil_Some|apply H..].
  - intros m y E. by destruct (Hm m y E) as (Hin & _); apply elem_of_nil in Hin.
Qed.

Lemma wp_new_mutexes ms ids sids s :
  furnished ids sids [] s ->
  wp (mfor ms (fun m => rt_mutex_init m ;;; mret tt)) (fun _ => furnished ids sids ms) s.
Proof.
  intros Hs. apply (wp_mfor (fun l => furnished ids sids l)); [done|].
  intros pre m post s1 -> [Hwf Hn Hdom Hth Hw Hse Hm].
  apply wp_bind, wp_bind, wp_modify, wp_bind, wp_modify, wp_ret, wp_ret. constructor; simpl; try done.
  - by apply kwf_new_list.
  - intros o l. rewrite lookup_insert_Some. intros [[_ <-]|[_ E]]; [done|by apply (Hw o)].
  - intros y w E. destruct (Hse y w E) as (Hin & Hl & H). split_and!; [done|by apply insert_nil_Some|apply H..].
  - intros y w. rewrite lookup_insert_Some, elem_of_app. intros [[<- <-]|[_ E]].
    + split_and!; [by right; left|apply lookup_insert_eq|done].
    + destruct (Hm y w E) as (Hin & Hl & H). split_and!; [by left|by apply insert_nil_Some|done].
Qed.

Lemma kwf_set_current s t :
  kwf None s -> (forall u th, threads s !! u = Some th -> state_of th <> RT_THREAD_RUNNING) ->
  kwf None (Kernel (threads s) (rt_thread_priority_table s) (rt_thread_ready_priority_group s) t
              (rt_scheduler_lock_nest s) (suspend_thread s) (sems s) (mutexes s)).
Proof.
  intros [? ? ? ? ? Hth ? ? ?] Hn. constructor; try done. intros u th E Hu.
  destruct (Hth u th E Hu) as (Ho & Hr & _). split_and!; [done..|]. intros H. by destruct (Hn u th E).
Qed.

(** The scheduler starts with the most urgent thread. *)
Lemma wp_start s ids sids mids idle (Q : unit -> kernel -> Prop) :
  furnished ids sids mids s -> idle ∈ ids ->
  (forall t th tb g, threads s !! t = Some th -> urgent s (current_priority th) ->
     let s' := Kernel (<[t := set_stat RT_THREAD_RUNNING th]> (threads s)) tb g t (rt_scheduler_lock_nest s)
                 (without t <$> suspend_thread s) (sems s) (mutexes s) in
     kwf None s' -> Q tt s') ->
  wp rt_system_scheduler_start Q s.
Proof.
  intros [Hwf Hn Hdom Hth _ _ _] Hid HQ. apply wp_bind, wp_highest; [done| |].
  { intros Hz. apply Hdom in Hid as [th E]. apply (no_ready s Hwf Hz idle th E). by apply (Hth idle th). }
  intros t th p E Hr Hp Hu. cbn [fst]. apply wp_bind, wp_modify.
  assert (forall u thu, threads s !! u = Some thu -> state_of thu <> RT_THREAD_RUNNING) as Hnr.
  { intros u thu Eu. destruct (Hth u thu Eu) as [-> _]. done. }
  pose proof (kwf_set_current s t Hwf Hnr) as H1. set (s1 := Kernel _ _ _ t _ _ _ _) in *.
  apply wp_bind. eapply (wp_remove_thread t th); [done|done|by rewrite Hr|]. intros tb g s2 H2 Hul.
  eapply wp_upd; [exact E|]. apply (HQ t th); [done|by rewrite Hp|].
  destruct (k_thread _ _ Hwf t th E ltac:(done)) as (Hok & _ & _).
  assert (thread_timer th = None) as Hnt by (apply no_timer; [done|by rewrite suspended_state, Hr]).
  eapply (kwf_close _ t (set_stat RT_THREAD_RUNNING th)); [|apply lookup_insert_eq| |done|done].
  - apply (kwf_upd_hole s2 t); [done|]. intros o l Eo Hin. by destruct (proj2 Hul o l Eo).
  - destruct Hok as [Hpr Hi Hm _]. constructor; try done; [intros _; apply Hm; by rewrite Hr|]. simpl. by rewrite Hnt.
Qed.

(** No mutex is taken, and nothing waits. *)
Lemma idle_views rank a :
  (forall u v, a_th a !! u = Some v -> v_class v = 2 /\ v_taken v = [] /\ v_pend v = None) ->
  (forall o l, a_w a !! o = Some l -> l = []) ->
  (forall x v, a_sems a !! x = Some v -> a_mtx a !! x = None /\ a_w a !! x = Some [] /\
     (sem_flag v = RT_IPC_FLAG_FIFO \/ sem_flag v = RT_IPC_FLAG_PRIO) /\ 0 <= value v) ->
  (forall m x, a_mtx a !! m = Some x -> a_w a !! m = Some [] /\ x = Mutex true 255 255 0 None) ->
  minv rank a /\ pinv None None a.
Proof.
  intros Hth Hw Hse Hm. split; constructor.
  - intros m x Ex. exists []. by apply (Hm m x).
  - intros x v Ex. destruct (Hse x v Ex) as (Hn & El & Hfl & Hv). split_and!; [done..|by exists []].
  - intros m x l u Ex El Hin. rewrite (Hw m l El) in Hin. by apply elem_of_nil in Hin.
  - intros u v m Ev Hc. destruct (Hth u v Ev) as (Hc' & _). congruence.
  - intros m x o Ex Ho. destruct (Hm m x Ex) as (_ & ->). done.
  - intros u v m Ev Hin. destruct (Hth u v Ev) as (_ & Ht & _). rewrite Ht in Hin. by apply elem_of_nil in Hin.
  - intros u v Ev. destruct (Hth u v Ev) as (_ & -> & _). constructor.
  - intros m x Ex _. by destruct (Hm m x Ex) as (_ & ->).
  - intros u v m m' Ev Hc. destruct (Hth u v Ev) as (Hc' & _). congruence.
  - intros m x Ex. by destruct (Hm m x Ex) as (_ & ->).
  - intros m x Ex. by destruct (Hm m x Ex) as (_ & ->).
  - intros m x l u v Ex El Hin. rewrite (Hw m l El) in Hin. by apply elem_of_nil in Hin.
  - intros m x o v Ex Ho. destruct (Hm m x Ex) as (_ & ->). done.
  - intros m x l Ex El. rewrite (Hw m l El). constructor.
Qed.

Lemma boot_sound rank idle ths ss ms :
  valid_config idle ths ss ms = true -> exists mc, boot ths ss ms = Ok mc /\ sound rank idle mc /\ log mc = [] /\ stacks mc = ∅ /\
    forall m x, mutexes (kern mc) !! m = Some x -> owner x = None.
Proof.
  intros [[[[Hnd%bool_decide_eq_true Hv]%andb_true_iff Hid%bool_decide_eq_true]%andb_true_iff Hsv]%andb_true_iff Hms%bool_decide_eq_true]%andb_true_iff.
  assert (wp (boot_kernel ths ss ms) (fun _ s => good rank idle s ∅ /\ forall m x, mutexes s !! m = Some x -> owner x = None) kernel_reset)
    as (a & s & E & H & Hnone)%wp_run.
  2: { exists (Machine s ∅ []). unfold boot. rewrite E. simpl. split_and!; done. }
  apply wp_bind, wp_modify, wp_bind. eapply wp_mono; [by apply wp_new_threads|]. intros [] s1 [Hwf Hcur Hn Hdom Hth Hw Hse Hm].
  apply wp_bind. eapply wp_mono; [apply (wp_new_sems _ ths.*1); [done|]|].
  { constructor; try done; [intros o l; by rewrite Hw|intros x v; by rewrite Hse|intros m x; by rewrite Hm]. }
  intros [] s2 Hf2. apply wp_bind. eapply wp_mono; [apply wp_new_mutexes, Hf2|]. intros [] s3 Hf3.
  assert (0 ∉ ths.*1) as H0.
  { intros ([t [p q]] & Heq & Hin)%list_elem_of_fmap. simpl in Heq. subst t. rewrite forallb_forall in Hv. apply list_elem_of_In, Hv in Hin. done. }
  eapply wp_start; [exact Hf3|exact Hid|]. clear -Hf3 H0 Hms Hid. destruct Hf3 as [_ Hn Hdom Hth Hw Hse Hm].
  intros t th tb g E Hu s' Hwf. set (th' := set_stat RT_THREAD_RUNNING th) in *.
  assert (forall u v, a_th (abs s') !! u = Some v -> v_class v = 2 /\ v_taken v = [] /\ v_pend v = None) as Hth'.
  { intros u v (thu & Eu & <-)%abs_thread. simpl in Eu. apply lookup_insert_Some in Eu as [[<- <-]|[_ Eu]].
    - by destruct (Hth t th E) as (_ & H2 & H3).
    - destruct (Hth u thu Eu) as (H1 & H2 & H3). simpl. by rewrite H1. }
  assert (forall o, suspend_thread s3 !! o = Some [] -> suspend_thread s' !! o = Some []) as Hww.
  { intros o Eo. simpl. by rewrite lookup_fmap, Eo. }
  destruct (idle_views rank (abs s') Hth') as [Hmi Hpi].
  { intros o l (l0 & <- & E0)%lookup_fmap_Some. by rewrite (Hw o l0 E0). }
  { intros x v Ex. destruct (Hse x v Ex) as (Hin & El & H). split; [|split; [by apply Hww|done]].
    destruct (a_mtx (abs s') !! x) as [y|] eqn:Ey; [|done]. destruct (Hm x y Ey) as (Hin' & _).
    rewrite Forall_forall in Hms. by destruct (Hms x Hin'). }
  { intros m x Ex. destruct (Hm m x Ex) as (_ & El & Hx). split; [by apply Hww|done]. }
  split; [|intros m x Ex; by destruct (Hm m x Ex) as (_ & _ & ->)]. constructor; [| |done|constructor; [done|done|..]].
  - split; [done|]. split; [simpl; rewrite lookup_insert_ne by (intros ->; by destruct (H0); apply Hdom; eexists);
      apply eq_None_not_Some; by rewrite Hdom|]. exists th'. split; [apply lookup_insert_eq|done].
  - exists th'. split_and!; [apply lookup_insert_eq|done|]. intros u thu. simpl. rewrite lookup_insert_Some.
    intros [[<- <-]|[_ Eu]] Hr; [done|]. by apply (Hu u thu).
  - intros u v _ Ev. rewrite lookup_empty. destruct (Hth' u v Ev) as (Hc & _ & Hp). split; [congruence|done].
  - apply Hdom in Hid as [thi Ei]. destruct (decide (t = idle)) as [->|Hne].
    + exists (view th'). split; [simpl; by rewrite lookup_fmap, lookup_insert_eq|done].
    + exists (view thi). split; [simpl; by rewrite lookup_fmap, lookup_insert_ne, Ei|].
      destruct (Hth idle thi Ei) as (H1 & _). simpl. by rewrite H1.
Qed.

(** ** What holds in every run *)

Section reached.
Context (rank : Z -> Z) (idle : Z) (ths ss : list (Z * (Z * Z))) (ms : list Z) (l : list action) (mc0 mc : machine).
Context (Hcfg : valid_config idle ths ss ms = true) (Hboot : boot ths ss ms = Ok mc0)
  (Hlegal : legal_run rank idle l mc0 = true) (Hrun : run l mc0 = Ok mc).

Lemma reached_sound : sound rank idle mc.
Proof.
  destruct (boot_sound rank idle ths ss ms Hcfg) as (mc1 & E & Hs & _). rewrite Hboot in E. injection E as <-.
  destruct (run_sound rank idle l mc0 Hs Hlegal) as (mc2 & E & Hs2). rewrite Hrun in E. by injection E as <-.
Qed.
End reached.

(** The thread [t] waits for a mutex that [u] owns. *)
Definition waits_for (k : kernel) (t u : Z) : Prop :=
  exists m x w, mutexes k !! m = Some x /\ suspend_thread k !! m = Some w /\ t ∈ w /\ owner x = Some u.

Lemma waits_for_prio rank idle mc t u th :
  sound rank idle mc -> waits_for (kern mc) t u -> threads (kern mc) !! t = Some th ->
  exists thu, threads (kern mc) !! u = Some thu /\ current_priority thu <= current_priority th.
Proof.
  intros [Hk _ _ [Hm Hp _ _]] (m & x & w & Ex & Ew & Hin & Ho) E.
  destruct (mi_own _ _ Hm m x u Ex Ho) as (_ & v & Ev & _). pose proof Ev as (thu & Eu & Hv)%abs_thread.
  exists thu. split; [done|]. assert (a_th (abs (kern mc)) !! t = Some (view th)) as Et by (simpl; by rewrite lookup_fmap, E).
  pose proof (pi_own _ _ _ Hp m x u v Ex Ho Ev ltac:(done)) as H1.
  pose proof (pi_wait _ _ _ Hp m x w t (view th) Ex Ew Hin ltac:(done) Et) as H2. rewrite <- Hv in H1. simpl in *. lia.
Qed.

(** A chain of threads that wait for each other has an end, by the ranks. *)
Lemma chain_end rank idle mc n t th :
  sound rank idle mc -> threads (kern mc) !! t = Some th ->
  (forall m x w, mutexes (kern mc) !! m = Some x -> suspend_thread (kern mc) !! m = Some w -> t ∈ w ->
     (size (above rank (abs (kern mc)) m) <= n)%nat) ->
  exists u thu, rtc (waits_for (kern mc)) t u /\ threads (kern mc) !! u = Some thu /\
    (forall w, ~ waits_for (kern mc) u w) /\ current_priority thu <= current_priority th.
Proof.
  intros Hs. revert t th. induction n as [|n IH]; intros t th E Hn.
  - exists t, th. split_and!; [apply rtc_refl|done| |lia]. intros u (m & x & w & Ex & Ew & Hin & _).
    specialize (Hn m x w Ex Ew Hin). assert (m ∈ above rank (abs (kern mc)) m) as Hm.
    { apply elem_of_filter. split; [done|]. apply elem_of_dom. by exists x. }
    assert (size (above rank (abs (kern mc)) m) = 0%nat) as Hz%size_empty_inv by lia. rewrite Hz in Hm. by apply elem_of_empty in Hm.
  - assert ((exists u, waits_for (kern mc) t u) \/ forall u, ~ waits_for (kern mc) t u) as [[u Hu]|Hno].
    { destruct Hs as [Hk _ _ [Hm _ _ _]]. set (v := view th).
      assert (a_th (abs (kern mc)) !! t = Some v) as Ev by (simpl; by rewrite lookup_fmap, E).
      destruct (decide (v_class v = 4)) as [Hc|Hc].
      - destruct (v_pend v) as [m|] eqn:Hp.
        + left. destruct (mi_pend _ _ Hm t v m Ev Hc Hp) as (x & w & Ex & Ew & Hin).
          destruct (mi_waits _ _ Hm m x w t Ex Ew Hin) as (_ & o & _ & _ & _ & Ho). by exists o, m, x, w.
        + right. intros u (m & x & w & Ex & Ew & Hin & _). by apply (not_waiting_for rank _ t v m x w Hm Ev (or_intror Hp) Ex Ew).
      - right. intros u (m & x & w & Ex & Ew & Hin & _). by apply (not_waiting_for rank _ t v m x w Hm Ev (or_introl Hc) Ex Ew). }
    + destruct (waits_for_prio rank idle mc t u th Hs Hu E) as (thu & Eu & Hle).
      destruct Hu as (m & x & w & Ex & Ew & Hin & Ho).
      destruct (IH u thu Eu) as (z & thz & Hr & Ez & Hno & Hlz).
      { intros m' x' w' Ex' Ew' Hin'. specialize (Hn m x w Ex Ew Hin). destruct Hs as [Hk _ _ [Hm _ _ _]].
        destruct (mi_waits _ _ Hm m' x' w' u Ex' Ew' Hin') as (v & _ & Ev & Hc & Hp & _).
        destruct (mi_own _ _ Hm m x u Ex Ho) as (_ & v' & Ev' & Hmin). replace v' with v in * by congruence.
        pose proof (mi_rank _ _ Hm u v m m' Ev Hc Hp Hmin) as Hr.
        pose proof (above_lt rank (abs (kern mc)) m m' Hr ltac:(by exists x)). lia. }
      exists z, thz. split_and!; [|done|done|lia]. eapply rtc_l; [|exact Hr]. by exists m, x, w.
    + exists t, th. split_and!; [apply rtc_refl|done|done|lia].
Qed.


(** C8. There is no unbounded priority inversion and no deadlock: in every state that a legal run
    reaches, the chain of threads that wait for the owner of a mutex, from any thread on, ends
    with one that waits for no mutex; that one is at least as urgent as the first, and if it can
    run then so is the thread that does. *)
Theorem no_priority_inversion (rank : Z -> Z) (idle : Z) (ths ss : list (Z * (Z * Z))) (ms : list Z)
    (l : list action) (mc0 mc : machine) (t : Z) (th : rt_thread) :
  valid_config idle ths ss ms = true -> boot ths ss ms = Ok mc0 -> legal_run rank idle l mc0 = true ->
  run l mc0 = Ok mc -> threads (kern mc) !! t = Some th ->
  exists u thu cur,
    rtc (waits_for (kern mc)) t u /\ threads (kern mc) !! u = Some thu /\ (forall w, ~ waits_for (kern mc) u w) /\
    current_priority thu <= current_priority th /\
    threads (kern mc) !! rt_current_thread (kern mc) = Some cur /\
    (state_of thu = RT_THREAD_READY \/ state_of thu = RT_THREAD_RUNNING -> current_priority cur <= current_priority th).
Proof.
  intros Hc Hb Hl Hr E. pose proof (reached_sound rank idle ths ss ms l mc0 mc Hc Hb Hl Hr) as Hs.
  destruct (chain_end rank idle mc (size (mutexes (kern mc))) t th Hs E) as (u & thu & Hrtc & Eu & Hno & Hle).
  { intros m x w _ _ _. apply above_small. }
  destruct Hs as [[Hwf _] (cur & Ec & Hrc & Hu) _ _]. exists u, thu, cur. split_and!; [done..|].
  intros [Hru|Hru].
  - specialize (Hu u thu Eu Hru). lia.
  - destruct (k_thread _ _ Hwf u thu Eu ltac:(done)) as (_ & _ & H). specialize (H Hru). subst u.
    replace cur with thu by congruence. lia.
Qed.

(** *** Concrete runs

    The idle thread 1, and the threads 20, 15 and 5 at the priorities of their names; the
    semaphore 201, and the mutexes 101 and 102, of which 102 is to be taken first. *)

Definition demo_threads : list (Z * (Z * Z)) := [(1, (31, 10)); (20, (20, 10)); (15, (15, 10)); (5, (5, 10))].
Definition demo_rank (m : Z) : Z := - m.
Definition demo_run (l : list action) : res machine := mc ← boot demo_threads [(201, (0, 0))] [101; 102]; run l mc.
Definition demo_legal (l : list action) : bool :=
  match boot demo_threads [(201, (0, 0))] [101; 102] with
  | Ok mc => legal_run demo_rank 1 l mc
  | Err _ => false
  end.

(** 20 takes 101; 15 takes 102 and waits for 101; 5 waits for 102. *)
Definition demo_chain : list action :=
  [Call (Sleep 1); Call (Sleep 2); Call (MutexTake 101 (-1) 2); Timeout 15; GoOn; Call (MutexTake 102 (-1) 2);
   Call (MutexTake 101 7 2); Timeout 5; GoOn; Call (MutexTake 102 5 2)].


(** A test of the state that a run reaches. *)
Definition demo_test (l : list action) (f : machine -> bool) : bool :=
  match demo_run l with Ok mc => f mc | Err _ => false end.

Lemma demo_split l f :
  demo_legal l = true -> demo_test l f = true ->
  exists mc0 mc, boot demo_threads [(201, (0, 0))] [101; 102] = Ok mc0 /\ legal_run demo_rank 1 l mc0 = true /\
    run l mc0 = Ok mc /\ demo_run l = Ok mc /\ f mc = true.
Proof.
  unfold demo_legal, demo_test, demo_run. generalize (boot demo_threads [(201, (0, 0))] [101; 102]).
  intros [mc0|]; [|done]. intros Hl. simpl.
  destruct (run l mc0) as [mc|] eqn:E; [|done]. intros Hf. by exists mc0, mc.
Qed.

Lemma no_priority_inversion_witness :
  exists mc u thu cur,
    demo_run demo_chain = Ok mc /\ rtc (waits_for (kern mc)) 5 u /\ threads (kern mc) !! u = Some thu /\
    (forall w, ~ waits_for (kern mc) u w) /\ current_priority thu <= 5 /\
    threads (kern mc) !! rt_current_thread (kern mc) = Some cur.
Proof.
  destruct (demo_split demo_chain (fun mc => match threads (kern mc) !! 5 with Some th => current_priority th =? 5 | None => false end))
    as (mc0 & mc & E0 & Hl & E1 & E & Hf); [by vm_compute..|].
  destruct (threads (kern mc) !! 5) as [th|] eqn:Et; [|done]. apply Z.eqb_eq in Hf.
  destruct (no_priority_inversion demo_rank 1 demo_threads [(201, (0, 0))] [101; 102] demo_chain mc0 mc 5 th)
    as (u & thu & cur & H1 & H2 & H3 & H4 & H5 & _); [by vm_compute|exact E0|exact Hl|exact E1|exact Et|].
  rewrite Hf in H4. exists mc, u, thu, cur. exact (conj E (conj H1 (conj H2 (conj H3 (conj H4 H5))))).
Defined.
