(* ===== verification/Ledger.v ===== *)
(** Mutual exclusion, told by the calls alone: what a thread has taken and released, by the
    results that its calls have returned, against the owners and counts in the kernel; and what
    becomes of the mutexes of a thread that has ended. *)

From stdpp Require Import gmap.
From S2P Require Import Prelude Sched Ipc Calm Inherit Kernel Mutexes Runs.
#[local] Open Scope Z_scope.

(** ** The books *)

(** What a call that has returned counts for a mutex. *)
Definition counts (c : call) (r m : Z) : Z :=
  match c with
  | MutexTake k _ _ => if (k =? m) && (r =? 0) then 1 else 0
  | MutexRelease k => if (k =? m) && (r =? 0) then -1 else 0
  | _ => 0
  end.

(** The successful takes of a thread, less its successful releases. *)
Definition balance (log : list (Z * call * Z)) (t m : Z) : Z :=
  foldr (fun e n => (if e.1.1 =? t then counts e.1.2 e.2 m else 0) + n) 0 log.

(** The count of a mutex, if the thread owns it. *)
Definition owns (o : gmap Z (option Z * Z)) (t m : Z) : bool :=
  match o !! m with Some (Some u, _) => u =? t | _ => false end.
Definition share (o : gmap Z (option Z * Z)) (t m : Z) : Z :=
  match o !! m with Some (Some u, h) => if u =? t then h else 0 | _ => 0 end.

(** What a call that has ended, or has gone away, will count. *)
Definition due (ow : bool) (m : Z) (c : call) (out : outcome) : Z :=
  match out with
  | Return r | Away (InReturn r) => counts c r m
  | Away (InMutexTake k | InMutexCheck k) => if (k =? m) && ow then 1 else 0
  | Away (InMutexRelease _) => counts c 0 m
  | _ => 0
  end.
Definition in_flight (o : gmap Z (option Z * Z)) (mc : machine) (t m : Z) : Z :=
  match stacks mc !! t with Some (c, f) => due (owns o t m) m c (Away f) | None => 0 end.

(** The place that a thread is at is one of its call. *)
Definition plain_call (c : call) : Prop := match c with MutexTake _ _ _ | MutexRelease _ => False | _ => True end.
Definition fits (c : call) (f : frame) : Prop :=
  match f with
  | InMutexTake k | InMutexCheck k => exists n fl, c = MutexTake k n fl
  | InMutexFailed r => r <> 0 /\ exists k n fl, c = MutexTake k n fl
  | InMutexRelease _ => exists k, c = MutexRelease k
  | InSemTake | InSleep _ | InExit => plain_call c
  | InMutexDetach _ _ => False
  | InReturn _ => True
  end.

Record ledger (mc : machine) : Prop := Ledger {
  le_books t m : share (own (kern mc)) t m = balance (log mc) t m + in_flight (own (kern mc)) mc t m;
  le_fits t c f : stacks mc !! t = Some (c, f) -> fits c f;
}.

Lemma balance_snoc l t c r u m :
  balance (l ++ [(t, c, r)]) u m = balance l u m + if t =? u then counts c r m else 0.
Proof. unfold balance. induction l as [|e l IH]; simpl; [lia|]. rewrite IH. simpl. lia. Qed.

(** ** One step *)

(** From the owners [o] to [o'], by the call [c] of [t] that ends with [out]; [d] is what the call
    counted before. *)
Definition booked (mc : machine) (o o' : gmap Z (option Z * Z)) (t : Z) (c : call) (d : Z -> Z) (out : outcome) : Prop :=
  (forall f, out = Away f -> fits c f) /\
  (forall m, share o' t m + d m = share o t m + due (owns o' t m) m c out) /\
  forall u m, u <> t -> share o' u m + in_flight o mc u m = share o u m + in_flight o' mc u m.

Lemma settle_ledger mc t c out s' d :
  ledger mc -> (forall m, d m = in_flight (own (kern mc)) mc t m) -> booked mc (own (kern mc)) (own s') t c d out ->
  ledger (settle t c mc (out, s')).
Proof.
  intros [Hb Hf] Hd (Hfit & Ht & Hu).
  assert (forall u m, share (own s') u m =
    balance (log mc) u m + if t =? u then due (owns (own s') t m) m c out else in_flight (own s') mc u m) as Hall.
  { intros u m. pose proof (Hb u m) as H1. destruct (Z.eqb_spec t u) as [<-|Hne].
    - specialize (Ht m). rewrite Hd in Ht. lia.
    - specialize (Hu u m ltac:(done)). lia. }
  destruct out as [f|r]; unfold settle; simpl; constructor; simpl.
  - intros u m. rewrite Hall. unfold in_flight. simpl. destruct (Z.eqb_spec t u) as [<-|Hne].
    + by rewrite lookup_insert_eq.
    + by rewrite lookup_insert_ne.
  - intros u c' f'. rewrite lookup_insert_Some. intros [[<- [= <- <-]]|[_ E]]; [by apply Hfit|by apply (Hf u)].
  - intros u m. rewrite Hall, balance_snoc. unfold in_flight. simpl. destruct (Z.eqb_spec t u) as [<-|Hne].
    + rewrite lookup_delete_eq. lia.
    + rewrite lookup_delete_ne by done. lia.
  - intros u c' f'. rewrite lookup_delete_Some. intros [_ E]. by apply (Hf u).
Qed.

(** Nothing but the call has changed. *)
Lemma booked_same mc o t c d out :
  (forall f, out = Away f -> fits c f) -> (forall m, d m = due (owns o t m) m c out) -> booked mc o o t c d out.
Proof. intros Hf Hd. split_and!; [done|..]; intros; [rewrite Hd; lia|lia]. Qed.

Lemma counts_plain c r m : plain_call c -> counts c r m = 0.
Proof. by destruct c. Qed.

Lemma booked_plain mc o t c d out :
  plain_call c -> plain out -> (forall m, d m = 0) -> booked mc o o t c d out.
Proof.
  intros Hc Ho Hd. apply booked_same.
  - intros f ->. by destruct f.
  - intros m. rewrite Hd. destruct out as [[]|]; try done; simpl; by rewrite counts_plain.
Qed.

(** A call with the result [r]. *)
Lemma due_result ow m c r out : result r out -> due ow m c out = counts c r m.
Proof. by intros [-> | ->]. Qed.
Lemma fits_result c r out f : result r out -> out = Away f -> fits c f.
Proof. by intros [-> | ->] [= <-]. Qed.
Lemma counts_failed c r m : r <> 0 -> counts c r m = 0.
Proof. intros H%Z.eqb_neq. destruct c; simpl; try done; by rewrite H, andb_false_r. Qed.
Lemma counts_take k n fl m : counts (MutexTake k n fl) 0 m = if k =? m then 1 else 0.
Proof. simpl. by rewrite andb_true_r. Qed.
Lemma counts_release k m : counts (MutexRelease k) 0 m = if k =? m then -1 else 0.
Proof. simpl. by rewrite andb_true_r. Qed.

Lemma share_other o t m : owns o t m = false -> share o t m = 0.
Proof. unfold owns, share. destruct (o !! m) as [[[u|] h]|]; [by intros ->|done..]. Qed.
Lemma owns_owned o t m : owns o t m = true <-> owned o m t.
Proof.
  unfold owns, owned. destruct (o !! m) as [[[u|] h]|]; split; try done; try (by intros [? [=]]).
  - intros ->%Z.eqb_eq. by eexists.
  - intros [h' [= -> ->]]. apply Z.eqb_refl.
Qed.
Lemma share_insert o m w u k : share (<[m := w]> o) u k = if m =? k then share {[m := w]} u m else share o u k.
Proof.
  unfold share. destruct (Z.eqb_spec m k) as [->|]; [by rewrite lookup_insert_eq, lookup_singleton_eq|by rewrite lookup_insert_ne].
Qed.
Lemma owns_insert o m w u k : owns (<[m := w]> o) u k = if m =? k then owns {[m := w]} u m else owns o u k.
Proof.
  unfold owns. destruct (Z.eqb_spec m k) as [->|]; [by rewrite lookup_insert_eq, lookup_singleton_eq|by rewrite lookup_insert_ne].
Qed.

(** A thread that does not get the mutex has nothing in flight, and none of it. *)
Lemma booked_other mc o m w u k :
  owns {[m := w]} u m = false -> owns o u m = false ->
  share (<[m := w]> o) u k + in_flight o mc u k = share o u k + in_flight (<[m := w]> o) mc u k.
Proof.
  intros Hw Ho. unfold in_flight. rewrite share_insert, owns_insert. destruct (Z.eqb_spec m k) as [<-|]; [|done].
  rewrite Hw, Ho, (share_other _ _ _ Hw), (share_other _ _ _ Ho). done.
Qed.

Lemma owns_single m u h t : owns {[m := (Some u, h)]} t m = (u =? t).
Proof. unfold owns. by rewrite lookup_singleton_eq. Qed.
Lemma share_single m u h t : share {[m := (Some u, h)]} t m = if u =? t then h else 0.
Proof. unfold share. by rewrite lookup_singleton_eq. Qed.

(** *** Taking *)

(** What a part of a call, started in the thread [t], does to the owners. *)
Definition effect {A} (t : Z) (o : gmap Z (option Z * Z)) (R : gmap Z (option Z * Z) -> A -> Prop) (m : M kernel A) : Prop :=
  forall s a s', own s = o -> rt_current_thread s = t -> m s = Ok (a, s') -> R (own s') a.

Lemma effect_bind {A B} t o (P : A -> Prop) R (m : M kernel A) (k : A -> M kernel B) :
  calm (Some t) o P m -> (forall a, P a -> effect t o R (k a)) -> effect t o R (m ≫= k).
Proof.
  intros Hm Hk s b s' Ho Hc E. unfold mbind, M_bind in E. destruct (m s) as [[a s1]|] eqn:E1; [|done].
  destruct (Hm s a s1 Ho) as (H1 & H2 & Ha); [by intros u [= <-]|done|]. apply (Hk a Ha s1 b s'); auto.
Qed.
Lemma effect_quiet {A B} t o R (m : M kernel A) (k : A -> M kernel B) :
  calm (Some t) o (fun _ => True) m -> (forall a, effect t o R (k a)) -> effect t o R (m ≫= k).
Proof. intros Hm Hk. by apply (effect_bind t o (fun _ => True)). Qed.
Lemma effect_self {B} t o R (k : Z -> M kernel B) : effect t o R (k t) -> effect t o R (rt_thread_self ≫= k).
Proof. intros Hk s b s' Ho Hc E. cbn in E. unfold mbind, M_bind, rt_thread_self, gets in E. rewrite Hc in E. by apply (Hk s b s'). Qed.
Lemma effect_put {B} t o R m x (k : unit -> M kernel B) :
  effect t (<[m := (owner x, hold x)]> o) R (k tt) -> effect t o R (put_mutex m x ≫= k).
Proof.
  intros Hk s b s' <- Hc E. unfold mbind, M_bind in E. cbn in E. eapply Hk; [ | |exact E]; [|exact Hc]. unfold own. simpl. by rewrite fmap_insert.
Qed.
Lemma effect_ends {A} t o (P : A -> Prop) (R : _ -> A -> Prop) m : ends t o P m -> (forall a, P a -> R o a) -> effect t o R m.
Proof. intros Hm HR s a s' Ho Hc E. destruct (Hm s a s' Ho Hc E) as [-> Ha]. auto. Qed.

(** A take by [t]: it nests, it gets a free mutex, or it leaves the owners alone. *)
Definition taken_by (o : gmap Z (option Z * Z)) (t m : Z) (o' : gmap Z (option Z * Z)) (out : outcome) : Prop :=
  (exists h, o !! m = Some (Some t, h) /\ o' = <[m := (Some t, h + 1)]> o /\ result 0 out) \/
  (exists h, o !! m = Some (None, h) /\ o' = <[m := (Some t, 1)]> o /\ result 0 out) \/
  o' = o /\ (owns o t m = false /\ took o t m out \/ exists r, result r out /\ r <> 0).

Lemma ends_result t o r m : away m -> ends t o (result r) (returning m r).
Proof. intros H. apply ends_returning; [done|by right|by left]. Qed.

Lemma effect_take t o m n fl : effect t o (taken_by o t m) (_rt_mutex_take m n fl).
Proof.
  apply effect_quiet; [auto with calm|]. intros []. unfold mutex_registered.
  apply (effect_bind t o (stands o m)).
  { eapply calm_bind; [apply calm_read|]. intros x Hx. destruct (negb _); [apply calm_throw|by apply calm_ret]. }
  intros x Hx. pose proof Hx as Ex. unfold stands in Ex.
  apply effect_self, effect_quiet; [auto with calm|]. intros _. apply effect_quiet; [auto with calm|]. intros [].
  case_bool_decide as Ho.
  - destruct (hold x <? RT_MUTEX_HOLD_MAX); [apply effect_put|]; (eapply effect_ends; [apply ends_result; auto with calm|]); intros out Hr.
    + left. exists (hold x). simpl. rewrite Ex, Ho. done.
    + right; right. split; [done|right]. by exists (- RT_EFULL).
  - destruct (owner x) as [u|] eqn:Eu.
    + assert (owns o t m = false) as Hno by (unfold owns; rewrite Ex; apply Z.eqb_neq; congruence).
      destruct (n =? 0).
      * apply effect_quiet; [auto with calm|]. intros []. eapply effect_ends; [apply ends_result; auto with calm|]. intros out Hr.
        right; right. split; [done|right]. by exists (- RT_ETIMEOUT).
      * eapply effect_ends; [by apply ends_mutex_wait; unfold stands; rewrite Eu|]. intros out [Hr|Hr]; right; right; (split; [done|]); auto.
    + apply effect_put. simpl. set (o' := <[m := _]> o). apply effect_quiet; [auto with calm|]. intros th.
      apply effect_quiet; [calm_tac|]. intros []. apply effect_quiet; [auto with calm|]. intros [].
      eapply effect_ends; [apply ends_result; auto with calm|]. intros out Hr. right; left. by exists (hold x).
Qed.

Lemma booked_take mc o t k n fl out o' :
  taken_by o t k o' out -> booked mc o o' t (MutexTake k n fl) (fun _ => 0) out.
Proof.
  intros [(h & E & -> & Hr)|[(h & E & -> & Hr)|[-> Hcase]]].
  - split_and!; [intros f; by apply (fits_result _ 0)| |].
    + intros j. rewrite (due_result _ _ _ 0 _ Hr), counts_take, share_insert, share_single, Z.eqb_refl.
      destruct (Z.eqb_spec k j) as [<-|]; [|lia]. unfold share. rewrite E, Z.eqb_refl. lia.
    + intros u j Hu. apply booked_other; [rewrite owns_single|unfold owns; rewrite E]; apply Z.eqb_neq; congruence.
  - split_and!; [intros f; by apply (fits_result _ 0)| |].
    + intros j. rewrite (due_result _ _ _ 0 _ Hr), counts_take, share_insert, share_single, Z.eqb_refl.
      destruct (Z.eqb_spec k j) as [<-|]; [|lia]. unfold share. rewrite E. lia.
    + intros u j Hu. apply booked_other; [rewrite owns_single; apply Z.eqb_neq; congruence|unfold owns; by rewrite E].
  - destruct Hcase as [[Hno Ht]|(r & Hr & Hz)].
    2: { apply booked_same; [intros f; by apply (fits_result _ r)|]. intros j. by rewrite (due_result _ _ _ r _ Hr), counts_failed. }
    assert (~ owned o k t) as Ho by (rewrite <- owns_owned, Hno; done).
    apply booked_same; [intros f ->|intros j; destruct out as [[]|]]; simpl in Ht |- *; try done;
      try by (symmetry; apply (counts_failed (MutexTake k n fl)); intros H%Ht).
    + destruct f; simpl; try done; [subst; by eexists _, _|subst; by eexists _, _|destruct Ht; eauto].
    + subst m. destruct (Z.eqb_spec k j) as [->|]; [by rewrite Hno|done].
    + subst m. destruct (Z.eqb_spec k j) as [->|]; [by rewrite Hno|done].
Qed.

(** The end of a take that had to wait. *)
Lemma booked_took mc o t k n fl out :
  took o t k out ->
  booked mc o o t (MutexTake k n fl) (fun m => if (k =? m) && owns o t m then 1 else 0) out.
Proof.
  intros Ht.
  assert (forall r, r = 0 <-> owned o k t -> forall m, (if (k =? m) && owns o t m then 1 else 0) = counts (MutexTake k n fl) r m) as Hret.
  { intros r Hr m. simpl. destruct (Z.eqb_spec k m) as [<-|]; [|done]. simpl. rewrite <- owns_owned in Hr.
    destruct (Z.eqb_spec r 0), (owns o t k); naive_solver. }
  apply booked_same; [intros f ->|intros m; destruct out as [[]|]]; simpl in Ht |- *; try done; try (by subst; eauto); try by apply Hret.
  - destruct f; simpl; try done; [subst; by eexists _, _|subst; by eexists _, _|destruct Ht; eauto].
  - destruct Ht as [_ Ho]. destruct (Z.eqb_spec k m) as [<-|]; [|done]. rewrite <- owns_owned in Ho. by destruct (owns o t k).
Qed.

(** *** Releasing *)

(** A thread that waits for a mutex is in a call that takes it. *)
Lemma waiter_in_flight rank idle mc t v m j o :
  sound rank idle mc -> ledger mc -> a_th (abs (kern mc)) !! t = Some v -> v_class v = 4 -> v_pend v = Some m ->
  in_flight o mc t j = if (m =? j) && owns o t j then 1 else 0.
Proof.
  intros Hs Hl Ev Hc Hp. pose proof (gi_f _ _ _ _ _ (go_g _ _ _ _ Hs) t v ltac:(done) Ev) as Hf.
  unfold frames in Hf. rewrite lookup_fmap in Hf. unfold in_flight.
  destruct (stacks mc !! t) as [[c f]|] eqn:E; simpl in Hf; [|by destruct Hf].
  pose proof (le_fits _ Hl t c f E) as Hfit.
  assert (forall k, taking (abs (kern mc)) t v k -> k = m) as Htk.
  { intros k (x & _ & [H|[H|H]]); destruct H as (H1 & _ & H2 & _); congruence. }
  destruct f as [|k|k| | | | | |]; simpl in Hf |- *; try congruence; try by destruct Hf; congruence.
  - by rewrite (Htk k Hf).
  - by rewrite (Htk k Hf).
Qed.

Lemma booked_release rank idle mc c k s' out :
  sound rank idle mc -> ledger mc -> c = MutexRelease k ->
  let t := rt_current_thread (kern mc) in
  released (own (kern mc)) (own s') (abs (kern mc)) t k out -> booked mc (own (kern mc)) (own s') t c (fun _ => 0) out.
Proof.
  intros Hs Hl -> t (w & h & E & [(Hw & -> & Hr)|(-> & Hr & Hcase)]).
  { apply booked_same; [intros f; by apply (fits_result _ (- RT_ERROR))|]. intros j. by rewrite (due_result _ _ _ _ _ Hr), counts_failed. }
  set (o := own (kern mc)) in *. assert (forall f, out = Away f -> fits (MutexRelease k) f) as Hfit.
  { destruct Hr as [Hr|[b ->]]; [intros f; by apply (fits_result _ 0)|]. intros f [= <-]. by eexists. }
  assert (forall ow j, due ow j (MutexRelease k) out = if k =? j then -1 else 0) as Hdue.
  { intros ow j. rewrite <- counts_release. destruct Hr as [Hr|[b ->]]; [by rewrite (due_result _ _ _ 0 _ Hr)|done]. }
  assert (share o t k = h) as Hsh by (unfold share; rewrite E, Z.eqb_refl; done).
  assert (forall u, u <> t -> owns o u k = false) as Hoth by (intros u Hu; unfold owns; rewrite E; by apply Z.eqb_neq).
  destruct Hcase as [[Hh ->]|[[-> ->]|(-> & t2 & v2 & -> & Ev & Hc & Hp)]]; (split_and!; [done|intros j; rewrite Hdue, share_insert|intros u j Hu]).
  - rewrite share_single, Z.eqb_refl. destruct (Z.eqb_spec k j) as [<-|]; lia.
  - apply booked_other; [rewrite owns_single; by apply Z.eqb_neq|auto].
  - unfold share at 1. rewrite lookup_singleton_eq. destruct (Z.eqb_spec k j) as [<-|]; lia.
  - apply booked_other; [unfold owns; by rewrite lookup_singleton_eq|auto].
  - rewrite share_single. destruct (Z.eqb_spec t2 t) as [Ht|Ht].
    + destruct (running_at _ _ _ _ Hs) as (v & Evt & Hct & _). subst t2. subst t. simpl in Ev, Evt. congruence.
    + destruct (Z.eqb_spec k j) as [<-|]; lia.
  - destruct (decide (u = t2)) as [->|Hu2].
    + rewrite !(waiter_in_flight rank idle mc t2 v2 k j) by done. rewrite share_insert, owns_insert, share_single, owns_single, !Z.eqb_refl.
      destruct (Z.eqb_spec k j) as [<-|]; [|done]. rewrite (Hoth t2 Hu), (share_other _ _ _ (Hoth t2 Hu)). done.
    + apply booked_other; [rewrite owns_single; apply Z.eqb_neq; congruence|auto].
Qed.

(** *** Any action *)

Lemma calm_perform rank idle s o c : plain_call c -> legal_call rank idle s c = true -> calm None o plain (perform c).
Proof.
  destruct c; intros Hp Hl; try done; simpl;
    auto using calm_sem_take, calm_sem_release, calm_sem_control, calm_setprioceiling, calm_getprioceiling, calm_sleep, calm_yield_call, calm_thread_exit.
Qed.

Lemma booked_perform rank idle mc c out s' :
  sound rank idle mc -> ledger mc -> legal_call rank idle (kern mc) c = true -> stacks mc !! rt_current_thread (kern mc) = None ->
  perform c (kern mc) = Ok (out, s') ->
  booked mc (own (kern mc)) (own s') (rt_current_thread (kern mc)) c (fun _ => 0) out.
Proof.
  intros Hs Hl Hc Hn E. set (t := rt_current_thread (kern mc)) in *.
  assert (plain_call c -> booked mc (own (kern mc)) (own s') t c (fun _ => 0) out) as Hplain.
  { intros Hp. destruct (calm_perform rank idle (kern mc) (own (kern mc)) c Hp Hc (kern mc) out s') as (-> & _ & Ho); try done.
    by apply booked_plain. }
  destruct c as [| | | |m n fl|m| | | | | | | |]; try by apply Hplain.
  - apply booked_take. by apply (effect_take t _ m n fl (kern mc)).
  - simpl in Hc. apply has_mutex_view in Hc as [x Ex].
    assert (frames mc !! t = None) as Hf by (unfold frames; by rewrite lookup_fmap, Hn).
    pose proof (wp_mutex_release rank idle (kern mc) (frames mc) t m x Hs eq_refl Hf Ex) as Hr.
    unfold wp in Hr. change (perform (MutexRelease m)) with (rt_mutex_release m) in E. rewrite E in Hr. destruct Hr as [_ Hr]. by apply (booked_release rank idle mc _ m).
Qed.

Lemma booked_go_on mc t c f out s' :
  ledger mc -> stacks mc !! t = Some (c, f) -> rt_current_thread (kern mc) = t -> go_on f (kern mc) = Ok (out, s') ->
  booked mc (own (kern mc)) (own s') t c (fun m => due (owns (own (kern mc)) t m) m c (Away f)) out.
Proof.
  intros Hl Ef Ht E. pose proof (le_fits _ Hl t c f Ef) as Hfit. set (o := own (kern mc)).
  destruct f as [|k|k|r|b| |e| |r]; simpl in Hfit, E; try done.
  - destruct (calm_sem_take_end o (kern mc) out s') as (-> & _ & Ho); try done. by apply booked_plain.
  - destruct Hfit as (n & fl & ->). destruct (ends_take_schedule t o k (kern mc) out s' eq_refl Ht E) as [-> Hr]. by apply booked_took.
  - destruct Hfit as (n & fl & ->). destruct (ends_take_check t o k (kern mc) out s' eq_refl Ht E) as [-> Hr]. by apply booked_took.
  - destruct Hfit as (Hr & k & n & fl & ->).
    assert (ends t o (fun out => exists q, result q out /\ q <> 0) (mutex_take_failed r)) as Hf.
    { unfold mutex_take_failed. ends_tac. apply ends_ret. eexists. split; [by left|]. destruct (Z.ltb_spec 0 r); lia. }
    destruct (Hf (kern mc) out s' eq_refl Ht E) as [-> (q & Hq & Hz)].
    apply booked_same; [intros f; by apply (fits_result _ q)|]. intros j. by rewrite (due_result _ _ _ q _ Hq), counts_failed.
  - destruct (ends_release_end t o b (kern mc) out s' eq_refl Ht E) as [-> Hr].
    apply booked_same; [intros f; by apply (fits_result _ 0)|]. intros j. by rewrite (due_result _ _ _ 0 _ Hr).
  - destruct (calm_sleep_end o e (kern mc) out s') as (-> & _ & Ho); try done. by apply booked_plain.
  - destruct (calm_exit_end o (kern mc) out s') as (-> & _ & Ho); try done. by apply booked_plain.
  - injection E as <- <-. by apply booked_same.
Qed.

Lemma ledger_quiet {A} mc mc' (m : M kernel A) P :
  (forall o, calm None o P m) -> interrupt mc m = Ok mc' -> ledger mc -> ledger mc'.
Proof.
  unfold interrupt. intros Hm E [Hb Hf]. destruct (m (kern mc)) as [[a s']|] eqn:E1; [|done]. simpl in E. injection E as <-.
  destruct (Hm _ (kern mc) a s' eq_refl) as (H & _ & _); [done|done|]. constructor; simpl; [|done]. intros t j.
  rewrite H. apply Hb.
Qed.

Lemma step_ledger rank idle a mc mc' :
  sound rank idle mc -> ledger mc -> legal rank idle a mc = true -> step a mc = Ok mc' -> ledger mc'.
Proof.
  intros Hs Hl Ha E. destruct a as [c| |t| |x]; simpl in Ha; unfold step in E.
  - apply andb_true_iff in Ha as [Hn%bool_decide_eq_true Hc]. rewrite Hn in E.
    destruct (perform c (kern mc)) as [[out s']|] eqn:E1; [|done]. simpl in E. injection E as <-.
    apply (settle_ledger _ _ _ _ _ (fun _ => 0)); [done|intros m; unfold in_flight; by rewrite Hn|]. by apply (booked_perform rank idle).
  - destruct (stacks mc !! rt_current_thread (kern mc)) as [[c f]|] eqn:Ef; [|done].
    destruct (go_on f (kern mc)) as [[out s']|] eqn:E1; [|done]. simpl in E. injection E as <-.
    eapply settle_ledger; [done| |by eapply booked_go_on]. intros m. unfold in_flight. by rewrite Ef.
  - destruct (threads (kern mc) !! t) as [th|]; [|done]. destruct (thread_timer th); [|done].
    eapply ledger_quiet; [apply calm_timeout|exact E|done].
  - eapply ledger_quiet; [apply calm_tick|exact E|done].
  - eapply ledger_quiet; [|exact E|done]. intros o. apply calm_sem_release.
Qed.

Lemma run_ledger rank idle l mc mc' :
  sound rank idle mc -> ledger mc -> legal_run rank idle l mc = true -> run l mc = Ok mc' -> ledger mc'.
Proof.
  revert mc. induction l as [|a l IH]; intros mc Hs Hl Hr E; [by injection E as <-|]. simpl in Hr, E.
  apply andb_true_iff in Hr as [Ha Hr]. destruct (step_sound rank idle a mc Hs Ha) as (mc1 & E1 & Hs1). rewrite E1 in Hr, E.
  apply (IH mc1); [done| |done|exact E]. by apply (step_ledger rank idle a mc).
Qed.

(** ** What a step adds to the log *)

Lemma step_log a mc mc' :
  step a mc = Ok mc' ->
  let t := rt_current_thread (kern mc) in
  (log mc' = log mc /\ forall u, u <> t -> stacks mc' !! u = stacks mc !! u) \/
  exists c r, log mc' = log mc ++ [(t, c, r)] /\ stacks mc' = delete t (stacks mc).
Proof.
  assert (forall t c r, (log (settle t c mc r) = log mc /\ forall u, u <> t -> stacks (settle t c mc r) !! u = stacks mc !! u) \/
    exists c' v, log (settle t c mc r) = log mc ++ [(t, c', v)] /\ stacks (settle t c mc r) = delete t (stacks mc)) as Hs.
  { intros t c [[f|v] s']; [left|right; by exists c, v]. split; [done|]. intros u Hu. by apply lookup_insert_ne. }
  assert (forall A (m : M kernel A), interrupt mc m = Ok mc' ->
    log mc' = log mc /\ forall u, u <> rt_current_thread (kern mc) -> stacks mc' !! u = stacks mc !! u) as Hi.
  { intros A m E. unfold interrupt in E. destruct (m (kern mc)); [|done]. simpl in E. by injection E as <-. }
  intros E t. unfold step in E. fold t in E. destruct a as [c| |u| |x].
  - destruct (stacks mc !! t); [done|]. destruct (perform c (kern mc)) as [r|]; [|done]. simpl in E. injection E as <-. apply Hs.
  - destruct (stacks mc !! t) as [[c f]|]; [|done]. destruct (go_on f (kern mc)) as [r|]; [|done]. simpl in E. injection E as <-. apply Hs.
  - destruct (threads (kern mc) !! u) as [th|]; [|done]. destruct (thread_timer th); [|done]. left. by eapply Hi.
  - left. by eapply Hi.
  - left. by eapply Hi.
Qed.

Lemma share_nonneg rank idle mc t m : sound rank idle mc -> 0 <= share (own (kern mc)) t m.
Proof.
  intros [_ _ _ [Hm _ _ _]]. unfold share, own. rewrite lookup_fmap.
  destruct (mutexes (kern mc) !! m) as [x|] eqn:Ex; [|done]. simpl. destruct (owner x) as [u|] eqn:Eo; [|done].
  destruct (u =? t); [|done]. destruct (mi_own _ _ Hm m x u Ex Eo). lia.
Qed.

(** Nobody has released more often than taken. *)
Definition solvent (mc : machine) : Prop := forall t m, 0 <= balance (log mc) t m.

(** A call that has returned leaves a thread with exactly what the kernel's books say. *)
Lemma returned_share a mc mc' c r m :
  ledger mc' -> step a mc = Ok mc' -> log mc' = log mc ++ [(rt_current_thread (kern mc), c, r)] ->
  balance (log mc') (rt_current_thread (kern mc)) m = share (own (kern mc')) (rt_current_thread (kern mc)) m.
Proof.
  intros Hl E El. rewrite (le_books _ Hl). unfold in_flight.
  destruct (step_log a mc mc' E) as [[El' _]|(c' & r' & El' & ->)]; [|rewrite lookup_delete_eq; lia].
  rewrite El in El'. apply (f_equal length) in El'. rewrite length_app in El'. simpl in El'. lia.
Qed.

Lemma step_solvent rank idle a mc mc' :
  sound rank idle mc' -> ledger mc' -> step a mc = Ok mc' -> solvent mc -> solvent mc'.
Proof.
  intros Hs Hl E Hp t m. destruct (step_log a mc mc' E) as [[-> _]|(c & r & El & _)]; [apply Hp|].
  destruct (decide (t = rt_current_thread (kern mc))) as [->|Ht].
  - rewrite (returned_share a mc mc' c r m Hl E El). by apply (share_nonneg rank idle).
  - rewrite El, balance_snoc. specialize (Hp t m). destruct (Z.eqb_spec (rt_current_thread (kern mc)) t); [congruence|lia].
Qed.

Lemma run_solvent rank idle l mc mc' :
  sound rank idle mc -> ledger mc -> solvent mc -> legal_run rank idle l mc = true -> run l mc = Ok mc' -> solvent mc'.
Proof.
  revert mc. induction l as [|a l IH]; intros mc Hs Hl Hp Hr E; [by injection E as <-|]. simpl in Hr, E.
  apply andb_true_iff in Hr as [Ha Hr]. destruct (step_sound rank idle a mc Hs Ha) as (mc1 & E1 & Hs1). rewrite E1 in Hr, E.
  pose proof (step_ledger rank idle a mc mc1 Hs Hl Ha E1) as Hl1.
  apply (IH mc1); [done|done| |done|exact E]. by apply (step_solvent rank idle a mc).
Qed.

(** ** A thread that has ended *)

Definition ended (mc : machine) (t : Z) : Prop := stacks mc !! t = Some (Exit, InExit).

Lemma ended_closed rank idle mc t v :
  sound rank idle mc -> ended mc t -> a_th (abs (kern mc)) !! t = Some v -> v_class v = 1 /\ t <> rt_current_thread (kern mc).
Proof.
  intros Hs He Ev. pose proof (gi_f _ _ _ _ _ (go_g _ _ _ _ Hs) t v ltac:(done) Ev) as Hf. unfold frames in Hf.
  rewrite lookup_fmap, He in Hf. destruct Hf as [Hc _]. split; [done|]. intros ->.
  destruct (running_at _ _ _ _ Hs) as (w & Ew & Hw & _). simpl in Ev, Ew. congruence.
Qed.

(** What it owns stays with it, and nobody else takes it. *)
Lemma ended_step rank idle a mc mc' t m :
  sound rank idle mc -> ledger mc -> solvent mc -> ended mc t -> 0 < share (own (kern mc)) t m ->
  ledger mc' -> step a mc = Ok mc' ->
  ended mc' t /\ share (own (kern mc')) t m = share (own (kern mc)) t m /\
  exists new, log mc' = log mc ++ new /\ forall u n fl, (u, MutexTake m n fl, 0) ∉ new.
Proof.
  intros Hs Hl Hp He Hm Hl' E.
  assert (exists v, a_th (abs (kern mc)) !! t = Some v) as [v Ev].
  { unfold share, own in Hm. rewrite lookup_fmap in Hm. destruct (mutexes (kern mc) !! m) as [x|] eqn:Ex; [|done]. simpl in Hm.
    destruct (owner x) as [u|] eqn:Eo; [|done]. destruct (Z.eqb_spec u t) as [->|]; [|done].
    destruct Hs as [_ _ _ [Hmi _ _ _]]. destruct (mi_own _ _ Hmi m x t Ex Eo) as (_ & v & Ev & _). by exists v. }
  destruct (ended_closed rank idle mc t v Hs He Ev) as [_ Hne]. clear Hs v Ev.
  assert (forall c r, balance (log mc ++ [(rt_current_thread (kern mc), c, r)]) t m = balance (log mc) t m) as Hb.
  { intros c r. rewrite balance_snoc. destruct (Z.eqb_spec (rt_current_thread (kern mc)) t); [congruence|lia]. }
  assert (ended mc' t /\ balance (log mc') t m = balance (log mc) t m) as [He' Hbal].
  { unfold ended in *. destruct (step_log a mc mc' E) as [[-> Hst]|(c & r & -> & ->)]; [by rewrite Hst|].
    by rewrite lookup_delete_ne, Hb. }
  assert (forall mc, ledger mc -> ended mc t -> share (own (kern mc)) t m = balance (log mc) t m) as Hsh.
  { intros mc2 Hl2 He2. rewrite (le_books _ Hl2). unfold in_flight. rewrite He2. simpl. lia. }
  assert (share (own (kern mc')) t m = share (own (kern mc)) t m) as Hkeep by (by rewrite !Hsh, Hbal).
  split_and!; [done..|]. destruct (step_log a mc mc' E) as [[-> _]|(c & r & El & _)].
  { exists []. split; [by rewrite app_nil_r|]. intros u n fl []%not_elem_of_nil. }
  exists [(rt_current_thread (kern mc), c, r)]. split; [done|]. intros u n fl Hin%list_elem_of_singleton. injection Hin as -> <- <-.
  pose proof (returned_share a mc mc' _ _ m Hl' E El) as H1. rewrite El, balance_snoc, Z.eqb_refl, counts_take, Z.eqb_refl in H1.
  specialize (Hp (rt_current_thread (kern mc)) m).
  assert (share (own (kern mc')) (rt_current_thread (kern mc)) m = 0) as H0.
  { apply share_other. unfold share in Hkeep, Hm. unfold owns. destruct (own (kern mc') !! m) as [[[u|] h]|]; [|done..].
    destruct (Z.eqb_spec u t) as [->|]; [|lia]. apply Z.eqb_neq. congruence. }
  lia.
Qed.

Lemma ended_run rank idle l mc mc' t m :
  sound rank idle mc -> ledger mc -> solvent mc -> ended mc t -> 0 < share (own (kern mc)) t m ->
  legal_run rank idle l mc = true -> run l mc = Ok mc' ->
  sound rank idle mc' /\ ended mc' t /\ share (own (kern mc')) t m = share (own (kern mc)) t m /\
  exists new, log mc' = log mc ++ new /\ forall u n fl, (u, MutexTake m n fl, 0) ∉ new.
Proof.
  revert mc. induction l as [|a l IH]; intros mc Hs Hl Hp He Hm Hr E.
  { injection E as <-. split_and!; [done..|]. exists []. split; [by rewrite app_nil_r|]. intros u n fl []%not_elem_of_nil. }
  simpl in Hr, E. apply andb_true_iff in Hr as [Ha Hr].
  destruct (step_sound rank idle a mc Hs Ha) as (mc1 & E1 & Hs1). rewrite E1 in Hr, E.
  pose proof (step_ledger rank idle a mc mc1 Hs Hl Ha E1) as Hl1. pose proof (step_solvent rank idle a mc mc1 Hs1 Hl1 E1 Hp) as Hp1.
  destruct (ended_step rank idle a mc mc1 t m Hs Hl Hp He Hm Hl1 E1) as (He1 & Hk1 & new1 & El1 & Hn1).
  destruct (IH mc1 Hs1 Hl1 Hp1 He1) as (Hs' & He' & Hk' & new2 & El2 & Hn2); [by rewrite Hk1|done|exact E|].
  split_and!; [done|done|by rewrite Hk'|]. exists (new1 ++ new2). rewrite El2, El1, <- app_assoc. split; [done|].
  intros u n fl [H|H]%elem_of_app; [by apply (Hn1 u n fl)|by apply (Hn2 u n fl)].
Qed.

(** ** What holds in every run *)

Lemma boot_ledger mc :
  log mc = [] -> stacks mc = ∅ -> (forall m x, mutexes (kern mc) !! m = Some x -> owner x = None) -> ledger mc.
Proof.
  intros El Es Ho. constructor.
  - intros t m. unfold in_flight. rewrite El, Es, lookup_empty. unfold share, own. rewrite lookup_fmap.
    destruct (mutexes (kern mc) !! m) as [x|] eqn:Ex; [|done]. simpl. by rewrite (Ho m x Ex).
  - intros t c f. by rewrite Es, lookup_empty.
Qed.

(** Between a take that has succeeded and the release that undoes it. *)
Definition inside (mc : machine) (t m : Z) : Prop :=
  0 < balance (log mc) t m /\ forall f, stacks mc !! t <> Some (MutexRelease m, f).

Lemma inside_owner mc t m :
  ledger mc -> inside mc t m ->
  exists x, mutexes (kern mc) !! m = Some x /\ owner x = Some t /\ (stacks mc !! t = None -> hold x = balance (log mc) t m).
Proof.
  intros Hl [Hb Hr]. pose proof (le_books _ Hl t m) as H.
  assert (0 <= in_flight (own (kern mc)) mc t m) as Hf.
  { unfold in_flight. destruct (stacks mc !! t) as [[c f]|] eqn:E; [|done]. pose proof (le_fits _ Hl t c f E) as Hfit.
    assert (forall r, 0 <= counts c r m) as Hc.
    { intros r. destruct c as [| | | | |k| | | | | | | |]; simpl; try done; [by destruct (_ && _)|].
      destruct (Z.eqb_spec k m) as [->|]; [|done]. by destruct (Hr f). }
    destruct f; simpl; try done; by destruct (_ && _). }
  assert (stacks mc !! t = None -> in_flight (own (kern mc)) mc t m = 0) as Hn by (intros E; unfold in_flight; by rewrite E).
  revert H Hf Hn. generalize (in_flight (own (kern mc)) mc t m). intros d H Hd Hn.
  unfold share, own in H. rewrite lookup_fmap in H. destruct (mutexes (kern mc) !! m) as [x|]; simpl in H; [|lia].
  exists x. split; [done|]. destruct (owner x) as [u|]; [|lia]. destruct (Z.eqb_spec u t) as [Hu|]; [|lia]. split; [by rewrite Hu|].
  intros E. rewrite (Hn E) in H. lia.
Qed.

(** C7. Mutexes exclude: in every state that a legal run reaches, whoever nests, waits, times out
    or is passed the mutex on the way, a thread whose calls have taken a mutex more often than
    they have released it is its owner, with its count when it is between calls; so no other
    thread is between a take and a release of the same mutex. *)
Theorem mutual_exclusion (rank : Z -> Z) (idle : Z) (ths ss : list (Z * (Z * Z))) (ms : list Z)
    (l : list action) (mc0 mc : machine) (t m : Z) :
  valid_config idle ths ss ms = true -> boot ths ss ms = Ok mc0 -> legal_run rank idle l mc0 = true ->
  run l mc0 = Ok mc -> inside mc t m ->
  (exists x, mutexes (kern mc) !! m = Some x /\ owner x = Some t /\
     (stacks mc !! t = None -> hold x = balance (log mc) t m)) /\
  forall u, inside mc u m -> u = t.
Proof.
  intros Hc Hb Hl Hr Ht. destruct (boot_sound rank idle ths ss ms Hc) as (mc1 & E & Hs & H1 & H2 & H3).
  rewrite Hb in E. injection E as <-. pose proof (boot_ledger mc0 H1 H2 H3) as Hl0.
  pose proof (run_ledger rank idle l mc0 mc Hs Hl0 Hl Hr) as Hled. pose proof (inside_owner mc t m Hled Ht) as (x & Ex & Ho & Hh).
  split; [by exists x|]. intros u Hu. destruct (inside_owner mc u m Hled Hu) as (y & Ey & Hy & _). congruence.
Qed.

(** 20 takes 101 twice, 15 waits for it and is given it. *)
Definition demo_pass : list action :=
  [Call (Sleep 1); Call (Sleep 2); Call (MutexTake 101 (-1) 2); Call (MutexTake 101 (-1) 2); Timeout 15; GoOn;
   Call (MutexTake 101 7 2); Call (MutexRelease 101); Call (MutexRelease 101); GoOn].

Lemma mutual_exclusion_witness :
  exists mc, demo_run demo_pass = Ok mc /\ inside mc 15 101 /\
    (exists x, mutexes (kern mc) !! 101 = Some x /\ owner x = Some 15) /\ forall u, inside mc u 101 -> u = 15.
Proof.
  destruct (demo_split demo_pass (fun mc => (0 <? balance (log mc) 15 101) && bool_decide (stacks mc !! 15 = None)))
    as (mc0 & mc & E0 & Hl & E1 & E & Hf); [by vm_compute..|].
  apply andb_true_iff in Hf as [Hb Hn]. apply Z.ltb_lt in Hb. apply bool_decide_eq_true in Hn.
  assert (inside mc 15 101) as Hi. { split; [exact Hb|]. intros f. rewrite Hn. discriminate. }
  destruct (mutual_exclusion demo_rank 1 demo_threads [(201, (0, 0))] [101; 102] demo_pass mc0 mc 15 101)
    as ((x & Ex & Ho & _) & Hu); [by vm_compute|exact E0|exact Hl|exact E1|exact Hi|].
  exists mc. exact (conj E (conj Hi (conj (ex_intro _ x (conj Ex Ho)) Hu))).
Defined.

(** C15. No wake-up is lost: in every state that a legal run reaches, nobody waits for a semaphore
    that has a token or for a mutex that has no owner, nobody waits for a mutex of their own, and
    the owner has it in the list of the mutexes it has taken. *)
Theorem no_lost_wakeup (rank : Z -> Z) (idle : Z) (ths ss : list (Z * (Z * Z))) (ms : list Z) (l : list action) (mc0 mc : machine) :
  valid_config idle ths ss ms = true -> boot ths ss ms = Ok mc0 -> legal_run rank idle l mc0 = true -> run l mc0 = Ok mc ->
  (forall x v, sems (kern mc) !! x = Some v -> 0 < value v -> suspend_thread (kern mc) !! x = Some []) /\
  (forall m x, mutexes (kern mc) !! m = Some x -> owner x = None -> suspend_thread (kern mc) !! m = Some []) /\
  forall m x o, mutexes (kern mc) !! m = Some x -> owner x = Some o ->
    exists th w, threads (kern mc) !! o = Some th /\ m ∈ taken_object_list th /\ suspend_thread (kern mc) !! m = Some w /\ o ∉ w.
Proof.
  intros Hc Hb Hl Hr. pose proof (reached_sound rank idle ths ss ms l mc0 mc Hc Hb Hl Hr) as [_ _ _ [Hm _ _ _]].
  split_and!.
  - intros x v Ex Hv. destruct (mi_sem _ _ Hm x v Ex) as (_ & _ & _ & w & Ew & Hw). by rewrite <- (Hw Hv).
  - intros m x Ex Ho. destruct (mi_wait _ _ Hm m x Ex) as [w Ew]. simpl in Ew. rewrite Ew. destruct w as [|t w]; [done|].
    destruct (mi_waits _ _ Hm m x _ t Ex Ew ltac:(left)) as (_ & o & _ & _ & _ & Ho'). congruence.
  - intros m x o Ex Ho. destruct (mi_own _ _ Hm m x o Ex Ho) as (_ & v & Ev & Hin). pose proof Ev as (th & E & Hv)%abs_thread.
    destruct (mi_wait _ _ Hm m x Ex) as [w Ew]. exists th, w. split_and!; [done|by rewrite <- Hv in Hin|done|]. intros How.
    destruct (mi_waits _ _ Hm m x w o Ex Ew How) as (v' & _ & Ev' & Hcl & Hp & _). replace v' with v in * by congruence.
    pose proof (mi_rank _ _ Hm o v m m Ev Hcl Hp Hin). lia.
Qed.

Lemma no_lost_wakeup_witness :
  exists mc, demo_run demo_pass = Ok mc /\
    forall m x, mutexes (kern mc) !! m = Some x -> owner x = None -> suspend_thread (kern mc) !! m = Some [].
Proof.
  destruct (demo_split demo_pass (fun _ => true)) as (mc0 & mc & E0 & Hl & E1 & E & _); [by vm_compute..|].
  destruct (no_lost_wakeup demo_rank 1 demo_threads [(201, (0, 0))] [101; 102] demo_pass mc0 mc)
    as (_ & H & _); [by vm_compute|exact E0|exact Hl|exact E1|].
  exists mc. exact (conj E H).
Defined.
