(* ===== verification/Faults.v ===== *)
(** Where the kernel of [Sched] and [Ipc] does not do what it means to.  The first part is about
    every state or every legal run: a borrowed priority that is not given back, and the mutexes of
    a thread that ends.  The others are runs that the code makes, evaluated; they detach or delete
    what is in use, or wait for too long, which the theorems of [Runs] and [Ledger] leave out. *)

From stdpp Require Import gmap.
From S2P Require Import Prelude Sched Ipc Calm Inherit Kernel Mutexes Runs Ledger.
#[local] Open Scope Z_scope.

(** ** What leaves the priorities of the threads alone *)

Definition prios (s : kernel) : gmap Z Z := current_priority <$> threads s.
Definition still {A} (m : M kernel A) : Prop := forall s a s', m s = Ok (a, s') -> prios s' = prios s.

Lemma still_ret {A} (a : A) : still (mret a).
Proof. by intros s b s' [= <- <-]. Qed.
Lemma still_bind {A B} (m : M kernel A) (k : A -> M kernel B) : still m -> (forall a, still (k a)) -> still (m ≫= k).
Proof.
  intros Hm Hk s b s' E. unfold mbind, M_bind in E. destruct (m s) as [[a s1]|] eqn:E1; [|done].
  rewrite (Hk a s1 b s' E). by apply (Hm s a).
Qed.
Lemma still_gets {A} (g : kernel -> A) : still (gets g).
Proof. by intros s a s' [= <- <-]. Qed.
Lemma still_throw {A} f : still (throw f : M kernel A).
Proof. done. Qed.
Lemma still_lift {A} (m : res A) : still (lift m).
Proof. intros s a s' E. unfold lift in E. destruct m; [|done]. by injection E as <- <-. Qed.
Lemma still_modify g : (forall s, prios (g s) = prios s) -> still (modify g).
Proof. by intros Hg s a s' [= <- <-]. Qed.
Lemma still_threads f : (forall m, current_priority <$> f m = current_priority <$> m) -> still (set_threads f).
Proof. intros Hf. apply still_modify. intros s. apply Hf. Qed.
Lemma still_upd t f : (forall th, current_priority (f th) = current_priority th) -> still (upd t f).
Proof.
  intros Hf s a s' E. unfold upd, thread, mbind, M_bind, gets, lift in E.
  destruct (threads s !! t) as [th|] eqn:Et; [|done]. injection E as <- <-. unfold prios. simpl.
  rewrite fmap_insert, Hf. apply insert_id. by rewrite lookup_fmap, Et.
Qed.

Create HintDb still.
#[export] Hint Resolve still_gets still_lift still_throw still_ret : still.
Ltac still_tac :=
  repeat first
    [ progress intros
    | solve [auto with still]
    | apply still_upd; intros; solve [reflexivity | by case_match]
    | apply still_bind
    | apply still_modify; intros; reflexivity
    | match goal with |- still (match ?x with _ => _ end) => destruct x end
    | progress cbv zeta ].

Lemma still_thread t : still (thread t). Proof. unfold thread. still_tac. Qed.
Lemma still_mutex m : still (mutex m). Proof. unfold mutex. still_tac. Qed.
Lemma still_wait_list o : still (wait_list o). Proof. unfold wait_list. still_tac. Qed.
Lemma still_put_mutex m x : still (put_mutex m x). Proof. unfold put_mutex, set_mutexes. still_tac. Qed.
Lemma still_list_remove t : still (list_remove t). Proof. unfold list_remove, set_table, set_suspend. still_tac. Qed.
Lemma still_set_ready_list p l : still (set_ready_list p l). Proof. unfold set_ready_list, set_table. still_tac. Qed.
Lemma still_ready_list p : still (ready_list p). Proof. unfold ready_list. still_tac. Qed.
Lemma still_self : still rt_thread_self. Proof. unfold rt_thread_self. still_tac. Qed.
#[export] Hint Resolve still_thread still_mutex still_wait_list still_put_mutex still_list_remove still_set_ready_list
  still_ready_list still_self : still.
Lemma still_insert_thread t : still (rt_sched_insert_thread t). Proof. unfold rt_sched_insert_thread, set_group. still_tac. Qed.
Lemma still_remove_thread t : still (rt_sched_remove_thread t). Proof. unfold rt_sched_remove_thread, set_group. still_tac. Qed.
Lemma still_highest : still _scheduler_get_highest_priority_thread.
Proof. unfold _scheduler_get_highest_priority_thread. still_tac. Qed.
#[export] Hint Resolve still_insert_thread still_remove_thread still_highest : still.
Lemma still_give_way c th : still (give_way c th). Proof. unfold give_way. still_tac. Qed.
#[export] Hint Resolve still_give_way : still.
Lemma still_schedule : still rt_schedule. Proof. unfold rt_schedule, set_current. still_tac. Qed.
#[export] Hint Resolve still_schedule : still.
Lemma still_enter : still rt_enter_critical. Proof. unfold rt_enter_critical, set_nest. still_tac. Qed.
Lemma still_exit : still rt_exit_critical. Proof. unfold rt_exit_critical, set_nest. still_tac. Qed.
#[export] Hint Resolve still_enter still_exit : still.
Lemma still_timer_stop t : still (thread_timer_stop t). Proof. unfold thread_timer_stop. still_tac. Qed.
#[export] Hint Resolve still_timer_stop : still.
Lemma still_sched_timer_stop t : still (rt_sched_thread_timer_stop t). Proof. unfold rt_sched_thread_timer_stop. still_tac. Qed.
#[export] Hint Resolve still_sched_timer_stop : still.
Lemma still_ready t : still (rt_sched_thread_ready t). Proof. unfold rt_sched_thread_ready. still_tac. Qed.
#[export] Hint Resolve still_ready : still.
Lemma still_update_prio m : still (_mutex_update_priority m). Proof. unfold _mutex_update_priority. still_tac. Qed.
Lemma still_wake_loop n m : still (wake_loop n m).
Proof. induction n as [|n IH]; simpl; still_tac. Qed.
#[export] Hint Resolve still_update_prio still_wake_loop : still.
Lemma still_hand_over m : still (hand_over m). Proof. unfold hand_over. still_tac. Qed.
Lemma still_and_then m f k : still m -> still k -> still (and_then m f k).
Proof. intros Hm Hk. unfold and_then. still_tac. Qed.
#[export] Hint Resolve still_hand_over still_and_then : still.
Lemma still_failed r : still (mutex_take_failed r). Proof. unfold mutex_take_failed. still_tac. Qed.
Lemma still_release_end b : still (mutex_release_end b). Proof. unfold mutex_release_end, returning. still_tac. Qed.
#[export] Hint Resolve still_failed still_release_end : still.

Lemma thread_step s t th : threads s !! t = Some th -> thread t s = Ok (th, s).
Proof. intros E. unfold thread, mbind, M_bind, gets, lift. by rewrite E. Qed.
Lemma mutex_step s m x : mutexes s !! m = Some x -> mutex m s = Ok (x, s).
Proof. intros E. unfold mutex, mbind, M_bind, gets, lift. by rewrite E. Qed.

(** The path of [_rt_mutex_take] behind a timeout, when the owner has another priority than the
    thread that has waited. *)
Lemma check_still s m t th x o tho out s' :
  t = rt_current_thread s -> threads s !! t = Some th -> error th <> RT_EOK ->
  mutexes s !! m = Some x -> owner x = Some o -> threads s !! o = Some tho ->
  current_priority tho <> current_priority th -> mutex_take_check m s = Ok (out, s') -> prios s' = prios s.
Proof.
  intros Ht Et He Ex Ho Eo Hp E. unfold mutex_take_check in E.
  set (s1 := Kernel (threads s) (rt_thread_priority_table s) (rt_thread_ready_priority_group s) (rt_current_thread s)
    (i16 (rt_scheduler_lock_nest s + 1)) (suspend_thread s) (sems s) (mutexes s)).
  rewrite (bind_step _ _ s (rt_scheduler_lock_nest s1) s1) in E by done.
  rewrite (bind_step _ _ s1 t s1) in E by (by subst t).
  rewrite (bind_step _ _ s1 th s1) in E by (by apply thread_step).
  rewrite (bind_step _ _ s1 x s1) in E by (by apply mutex_step).
  rewrite (proj2 (Z.eqb_neq _ _) He) in E. case_bool_decide as Hb; [done|].
  rewrite (bind_step _ _ s1 false s1) in E.
  2: { unfold need_update. rewrite Ho. rewrite (bind_step _ _ s1 th s1) by (by apply thread_step).
       rewrite (bind_step _ _ s1 tho s1) by (by apply thread_step). by rewrite (proj2 (Z.eqb_neq _ _) Hp). }
  rewrite Ho in E. change (prios s) with (prios s1). revert E. generalize s1. intros s2 E.
  eapply (still_bind (_mutex_update_priority m)); [by auto with still| |exact E]. intros []. still_tac.
Qed.

(** A release by a thread whose priority is not that of the mutex, which has no ceiling. *)
Lemma release_still s m t th x out s' :
  t = rt_current_thread s -> threads s !! t = Some th -> mutexes s !! m = Some x -> ceiling_priority x = 255 ->
  current_priority th <> priority x -> rt_mutex_release m s = Ok (out, s') -> prios s' = prios s.
Proof.
  intros Ht Et Ex Hc Hp E. unfold rt_mutex_release, mutex_registered in E.
  destruct (registered x) eqn:Hr.
  2: { unfold mbind, M_bind in E. rewrite (mutex_step s m x Ex), Hr in E. done. }
  rewrite (bind_step _ _ s x s) in E by (rewrite (bind_step _ _ s x s) by (by apply mutex_step); by rewrite Hr).
  rewrite (bind_step _ _ s t s) in E by (by subst t).
  set (s1 := Kernel (threads s) (rt_thread_priority_table s) (rt_thread_ready_priority_group s) (rt_current_thread s)
    (i16 (rt_scheduler_lock_nest s + 1)) (suspend_thread s) (sems s) (mutexes s)).
  rewrite (bind_step _ _ s (rt_scheduler_lock_nest s1) s1) in E by done. change (prios s) with (prios s1).
  case_bool_decide as Ho; cbv beta iota delta [negb] in E.
  2: { revert E. generalize s1. intros s2 E. eapply (still_bind (upd t (set_error (- RT_ERROR)))); [still_tac| |exact E].
       intros []. unfold returning. still_tac. }
  cbv zeta in E. set (x1 := set_hold (u8 (hold x - 1)) x) in E.
  set (s2 := Kernel (threads s) (rt_thread_priority_table s) (rt_thread_ready_priority_group s) (rt_current_thread s)
    (i16 (rt_scheduler_lock_nest s + 1)) (suspend_thread s) (sems s) (<[m := x1]> (mutexes s))).
  rewrite (bind_step (put_mutex m x1) _ s1 tt s2) in E by done. change (prios s1) with (prios s2).
  assert (mutexes s2 !! m = Some x1) as Ex2 by apply lookup_insert_eq.
  assert (forall b, still (and_then rt_exit_critical (InMutexRelease b) (mutex_release_end b))) as Hend by still_tac.
  destruct (u8 (hold x - 1) =? 0).
  2: { rewrite (bind_step (mret false) _ s2 false s2) in E by done. by apply (Hend false s2 out s'). }
  set (s3 := Kernel ((fun th => set_taken (without m (taken_object_list th)) th) <$> threads s) (rt_thread_priority_table s)
    (rt_thread_ready_priority_group s) (rt_current_thread s) (i16 (rt_scheduler_lock_nest s + 1)) (suspend_thread s) (sems s)
    (<[m := x1]> (mutexes s))).
  assert (prios s3 = prios s2) as <-.
  { unfold prios. simpl. rewrite <- map_fmap_compose. apply map_fmap_ext. done. }
  assert (taken_remove m s2 = Ok (tt, s3)) as Et3 by done.
  assert (_check_and_update_prio t m s3 = Ok (false, s3)) as Ec.
  { unfold _check_and_update_prio. rewrite (bind_step _ _ s3 x1 s3) by (by apply mutex_step).
    rewrite (bind_step _ _ s3 (set_taken (without m (taken_object_list th)) th) s3).
    2: { apply thread_step. simpl. by rewrite lookup_fmap, Et. }
    simpl. rewrite Hc. simpl. by rewrite (proj2 (Z.eqb_neq _ _) Hp). }
  clearbody s2 s3. clear - E Ec Et3 Hend. unfold mbind, M_bind in E. rewrite Et3, Ec in E.
  destruct (hand_over m s3) as [[n2 s4]|] eqn:E4; [|done]. rewrite <- (still_hand_over m s3 n2 s4 E4).
  by apply (Hend n2 s4 out s').
Qed.

(** ** Threads that have ended *)

Lemma class_closed th : v_class (view th) = 1 -> state_of th = RT_THREAD_CLOSE.
Proof.
  simpl. unfold class_of. destruct (Z.leb_spec 4 (state_of th)); [done|]. by destruct (Z.leb_spec 2 (state_of th)).
Qed.

Lemma share_owner s t m :
  0 < share (own s) t m -> exists x, mutexes s !! m = Some x /\ owner x = Some t /\ hold x = share (own s) t m.
Proof.
  unfold share, own. rewrite lookup_fmap. destruct (mutexes s !! m) as [x|]; [|done]. simpl.
  destruct (owner x) as [u|] eqn:Eo; [|done]. destruct (Z.eqb_spec u t) as [->|]; [|done]. intros _. by exists x.
Qed.

(** The call of a thread that ends. *)
Lemma exit_step rank idle mc :
  sound rank idle mc -> legal rank idle (Call Exit) mc = true ->
  exists mc', step (Call Exit) mc = Ok mc' /\ ended mc' (rt_current_thread (kern mc)) /\
    own (kern mc') = own (kern mc) /\ log mc' = log mc.
Proof.
  intros Hs [Hn%bool_decide_eq_true Hi%negb_true_iff%Z.eqb_neq]%andb_true_iff.
  assert (frames mc !! rt_current_thread (kern mc) = None) as Hf by (unfold frames; by rewrite lookup_fmap, Hn).
  pose proof (wp_thread_exit rank idle (kern mc) (frames mc) _ Hs eq_refl Hf Hi) as (out & s' & E & _ & ->)%wp_run.
  unfold step. rewrite Hn. change (perform Exit) with _thread_exit. rewrite E. eexists. split; [done|].
  split_and!; [apply lookup_insert_eq| |done]. by destruct (calm_thread_exit (own (kern mc)) (kern mc) (Away InExit) s').
Qed.

(** ** Runs *)

Lemma demo_found l (f : machine -> bool) : demo_test l f = true -> exists mc, demo_run l = Ok mc /\ f mc = true.
Proof. unfold demo_test. destruct (demo_run l) as [mc|]; [|done]. intros H. by exists mc. Qed.

(** State, current and initial priority, and the mutexes taken. *)
Definition thread_at (mc : machine) (t : Z) : option (Z * Z * Z * list Z) :=
  (fun th => (state_of th, current_priority th, init_priority th, taken_object_list th)) <$> threads (kern mc) !! t.
Definition owner_at (mc : machine) (m : Z) : option (option Z) := owner <$> mutexes (kern mc) !! m.
Definition waiters (mc : machine) (m : Z) : option (list Z) := suspend_thread (kern mc) !! m.

Ltac found l f := destruct (demo_found l f) as (mc & E & H); [by vm_compute|].
Ltac facts := repeat match goal with H : _ && _ = true |- _ => apply andb_true_iff in H as [? ?] end;
  repeat match goal with H : bool_decide _ = true |- _ => apply bool_decide_eq_true in H end.

(** 15 waits for 101 of 20, with 102 taken; 5 waits for 102 and makes all of them urgent.  When
    the time of 15 is up, so that nobody waits for 101, only an owner with the priority of 15 is
    looked at again. *)
Definition boost_run : list action :=
  demo_chain ++
  [Timeout 15; Timeout 5; Call (Sleep 1); GoOn; Call (Sleep 100); GoOn; Call (MutexRelease 102); Call (Sleep 100);
   Timeout 20; GoOn; Call (MutexRelease 101)].

(** C38. A borrowed priority can outlive the loan.  In every state of the kernel: when a take of a
    mutex goes on behind a failure (its time is up), and the owner does not have exactly the
    priority of the thread that has waited, then no thread's priority is changed, so the owner keeps
    what it has borrowed ([need_update] in the error path of [_rt_mutex_take]); and when a thread
    releases a mutex without a ceiling and does not have exactly the priority of the mutex, no
    thread's priority is changed either ([_check_and_update_prio]).  Both happen where the waiter
    has itself been boosted and set back in between: there is a legal run at whose end a thread of
    priority 20 runs at priority 5 although it owns no mutex and nobody waits for one. *)
Theorem boost_outlives_loan :
  (forall s m t th x o tho out s',
     t = rt_current_thread s -> threads s !! t = Some th -> error th <> RT_EOK ->
     mutexes s !! m = Some x -> owner x = Some o -> threads s !! o = Some tho ->
     current_priority tho <> current_priority th ->
     mutex_take_check m s = Ok (out, s') -> prios s' = prios s) /\
  (forall s m t th x out s',
     t = rt_current_thread s -> threads s !! t = Some th -> mutexes s !! m = Some x -> ceiling_priority x = 255 ->
     current_priority th <> priority x -> rt_mutex_release m s = Ok (out, s') -> prios s' = prios s) /\
  demo_legal boost_run = true /\
  exists mc, demo_run boost_run = Ok mc /\ rt_current_thread (kern mc) = 20 /\
    thread_at mc 20 = Some (RT_THREAD_RUNNING, 5, 20, []) /\ waiters mc 101 = Some [] /\ waiters mc 102 = Some [].
Proof.
  split; [exact check_still|]. split; [exact release_still|]. split; [by vm_compute|].
  found boost_run (fun mc => (rt_current_thread (kern mc) =? 20) && bool_decide (thread_at mc 20 = Some (RT_THREAD_RUNNING, 5, 20, [])) &&
    bool_decide (waiters mc 101 = Some []) && bool_decide (waiters mc 102 = Some [])).
  facts. exists mc. split_and!; first [assumption|apply Z.eqb_eq; assumption].
Qed.

(** In that run: 15, whose time is up, finds the owner 20 at priority 5; and 20 releases the mutex
    at a priority that is no longer the mutex's. *)
Definition timed_out (mc : machine) : bool :=
  match threads (kern mc) !! 15, mutexes (kern mc) !! 101, threads (kern mc) !! 20, mutex_take_check 101 (kern mc) with
  | Some th, Some x, Some tho, Ok _ => (rt_current_thread (kern mc) =? 15) && negb (error th =? RT_EOK) &&
      bool_decide (owner x = Some 20) && negb (current_priority tho =? current_priority th)
  | _, _, _, _ => false
  end.
Definition gives_back (mc : machine) : bool :=
  match threads (kern mc) !! 20, mutexes (kern mc) !! 101, rt_mutex_release 101 (kern mc) with
  | Some th, Some x, Ok _ => (rt_current_thread (kern mc) =? 20) && (ceiling_priority x =? 255) &&
      negb (current_priority th =? priority x)
  | _, _, _ => false
  end.

Lemma boost_outlives_loan_witness :
  (exists mc r, demo_run (take 15 boost_run) = Ok mc /\ mutex_take_check 101 (kern mc) = Ok r /\ prios r.2 = prios (kern mc)) /\
  exists mc r, demo_run (take 20 boost_run) = Ok mc /\ rt_mutex_release 101 (kern mc) = Ok r /\ prios r.2 = prios (kern mc).
Proof.
  destruct boost_outlives_loan as (Hcheck & Hrelease & _). split.
  - destruct (demo_found (take 15 boost_run) timed_out) as (mc & E & H); [by vm_compute|]. exists mc. unfold timed_out in H.
    destruct (threads (kern mc) !! 15) as [th|] eqn:Et; [|discriminate]. destruct (mutexes (kern mc) !! 101) as [x|] eqn:Ex; [|discriminate].
    destruct (threads (kern mc) !! 20) as [tho|] eqn:Eo; [|discriminate].
    destruct (mutex_take_check 101 (kern mc)) as [[out s']|] eqn:Er; [|discriminate].
    facts. exists (out, s'). split; [exact E|]. split; [reflexivity|]. refine (Hcheck (kern mc) 101 15 th x 20 tho out s' _ Et _ Ex _ Eo _ Er).
    + symmetry. apply Z.eqb_eq. assumption.
    + apply Z.eqb_neq, negb_true_iff. assumption.
    + assumption.
    + apply Z.eqb_neq, negb_true_iff. assumption.
  - destruct (demo_found (take 20 boost_run) gives_back) as (mc & E & H); [by vm_compute|]. exists mc. unfold gives_back in H.
    destruct (threads (kern mc) !! 20) as [th|] eqn:Et; [|discriminate]. destruct (mutexes (kern mc) !! 101) as [x|] eqn:Ex; [|discriminate].
    destruct (rt_mutex_release 101 (kern mc)) as [[out s']|] eqn:Er; [|discriminate].
    facts. exists (out, s'). split; [exact E|]. split; [reflexivity|]. refine (Hrelease (kern mc) 101 20 th x out s' _ Et Ex _ _ Er).
    + symmetry. apply Z.eqb_eq. assumption.
    + apply Z.eqb_eq. assumption.
    + apply Z.eqb_neq, negb_true_iff. assumption.
Defined.

(** C39. A thread that returns from its function keeps its mutexes for ever: [_thread_exit] releases
    none.  In every legal run from boot: if a thread that owns a mutex ends, then however the run
    goes on, the thread is closed, it still owns the mutex with the same count, and every take of
    the mutex that another thread's call returns from has failed. *)
Theorem ended_thread_keeps_mutex (rank : Z -> Z) (idle : Z) (ths ss : list (Z * (Z * Z))) (ms : list Z)
    (l l' : list action) (mc0 mc : machine) (m : Z) (x : rt_mutex) :
  valid_config idle ths ss ms = true -> boot ths ss ms = Ok mc0 -> legal_run rank idle l mc0 = true -> run l mc0 = Ok mc ->
  mutexes (kern mc) !! m = Some x -> owner x = Some (rt_current_thread (kern mc)) ->
  legal_run rank idle (Call Exit :: l') mc = true ->
  exists mc' th x' new, run (Call Exit :: l') mc = Ok mc' /\
    threads (kern mc') !! rt_current_thread (kern mc) = Some th /\ state_of th = RT_THREAD_CLOSE /\
    mutexes (kern mc') !! m = Some x' /\ owner x' = Some (rt_current_thread (kern mc)) /\ hold x' = hold x /\
    log mc' = log mc ++ new /\ forall u n fl, (u, MutexTake m n fl, 0) ∉ new.
Proof.
  intros Hc Hb Hl Hr Ex Ho Hl'. set (t := rt_current_thread (kern mc)) in *.
  destruct (boot_sound rank idle ths ss ms Hc) as (mc1 & E & Hs0 & H1 & H2 & H3). rewrite Hb in E. injection E as <-.
  pose proof (boot_ledger mc0 H1 H2 H3) as Hl0. assert (solvent mc0) as Hp0 by (intros u k; by rewrite H1).
  pose proof (reached_sound rank idle ths ss ms l mc0 mc Hc Hb Hl Hr) as Hs.
  pose proof (run_ledger rank idle l mc0 mc Hs0 Hl0 Hl Hr) as Hled.
  pose proof (run_solvent rank idle l mc0 mc Hs0 Hl0 Hp0 Hl Hr) as Hsol.
  destruct (exit_step rank idle mc Hs) as (mc1 & E1 & Hend & Hown & Elog); [by apply andb_true_iff in Hl' as []|]. fold t in Hend.
  cbn [legal_run] in Hl'. apply andb_true_iff in Hl' as [Ha Hl']. rewrite E1 in Hl'.
  destruct (step_sound rank idle (Call Exit) mc Hs Ha) as (mc2 & E2 & Hs1). rewrite E1 in E2. injection E2 as <-.
  pose proof (step_ledger rank idle (Call Exit) mc mc1 Hs Hled Ha E1) as Hled1.
  pose proof (step_solvent rank idle (Call Exit) mc mc1 Hs1 Hled1 E1 Hsol) as Hsol1.
  assert (share (own (kern mc1)) t m = hold x) as Hsh.
  { rewrite Hown. unfold share, own. rewrite lookup_fmap, Ex. simpl. by rewrite Ho, Z.eqb_refl. }
  assert (1 <= hold x) as Hpos by (destruct Hs as [_ _ _ [Hm _ _ _]]; destruct (mi_own _ _ Hm m x t Ex Ho); lia).
  destruct (run_sound rank idle l' mc1 Hs1 Hl') as (mc' & E' & _).
  destruct (ended_run rank idle l' mc1 mc' t m Hs1 Hled1 Hsol1 Hend) as (Hs' & Hend' & Hk & new & El & Hn); [lia|done|done|].
  destruct (share_owner (kern mc') t m) as (x' & Ex' & Ho' & Hh'); [lia|].
  pose proof (mi_own _ _ (gi_m _ _ _ _ _ (go_g _ _ _ _ Hs')) m x' t Ex' Ho') as (_ & v & Ev & _).
  pose proof Ev as (th & Et & Hv)%abs_thread.
  destruct (ended_closed rank idle mc' t v Hs' Hend' Ev) as [Hcl _].
  exists mc', th, x', new. split_and!; [by cbn [run]; rewrite E1|done| |done|done|lia|by rewrite El, Elog|done].
  apply class_closed. by rewrite Hv.
Qed.

(** 20 is closed, owns 101, and 15 waits for it. *)
Definition left_behind (mc : machine) : bool :=
  bool_decide (thread_at mc 20 = Some (RT_THREAD_CLOSE, 15, 20, [101])) &&
  bool_decide (owner_at mc 101 = Some (Some 20)) && bool_decide (waiters mc 101 = Some [15]).

(** 20 takes 101 and returns from its function; 15 then waits for it, for nine ticks. *)
Definition keep_run : list action := [Call (Sleep 1); Call (Sleep 1); Call (MutexTake 101 (-1) 2)].
Definition after_exit : list action := [Timeout 15; GoOn; Call (MutexTake 101 9 2); Timeout 15; GoOn].

Lemma ended_thread_keeps_mutex_witness :
  exists mc mc' th x' new, demo_run keep_run = Ok mc /\ run (Call Exit :: after_exit) mc = Ok mc' /\
    threads (kern mc') !! 20 = Some th /\ state_of th = RT_THREAD_CLOSE /\
    mutexes (kern mc') !! 101 = Some x' /\ owner x' = Some 20 /\
    log mc' = log mc ++ new /\ forall u n fl, (u, MutexTake 101 n fl, 0) ∉ new.
Proof.
  destruct (demo_split keep_run (fun mc => (rt_current_thread (kern mc) =? 20) && bool_decide (owner_at mc 101 = Some (Some 20)) &&
    legal_run demo_rank 1 (Call Exit :: after_exit) mc)) as (mc0 & mc & E0 & Hl & E1 & E & Hf); [by vm_compute..|].
  apply andb_true_iff in Hf as [Hf Hl']. apply andb_true_iff in Hf as [Hcur Ho].
  apply Z.eqb_eq in Hcur. apply bool_decide_eq_true in Ho. unfold owner_at in Ho.
  destruct (mutexes (kern mc) !! 101) as [x|] eqn:Ex; [|discriminate]. injection Ho as Ho. rewrite <- Hcur in Ho.
  destruct (ended_thread_keeps_mutex demo_rank 1 demo_threads [(201, (0, 0))] [101; 102] keep_run after_exit mc0 mc 101 x)
    as (mc' & th & x' & new & H1 & H2 & H3 & H4 & H5 & _ & H6 & H7); [by vm_compute|exact E0|exact Hl|exact E1|exact Ex|exact Ho|exact Hl'|].
  rewrite Hcur in H2, H5. exists mc, mc', th, x', new.
  exact (conj E (conj H1 (conj H2 (conj H3 (conj H4 (conj H5 (conj H6 H7))))))).
Defined.

(** 5 detaches 20, which owns 101, while 15 waits for it. *)
Definition detach_run : list action :=
  [Call (Sleep 1); Call (Sleep 1); Call (MutexTake 101 (-1) 2); Timeout 15; GoOn; Call (MutexTake 101 (-1) 2); Timeout 5; GoOn;
   Call (ThreadDetach 20); Call (Sleep 5)].

(** A thread that is detached by another keeps its mutexes: [_thread_detach_from_mutex] calls
    [rt_mutex_release] in the thread that detaches, which is not the owner; the mutex stays owned
    by a closed thread, and the thread that waits for it waits for ever. *)
Theorem detached_owner_keeps_mutex :
  exists mc, demo_run detach_run = Ok mc /\ thread_at mc 20 = Some (RT_THREAD_CLOSE, 15, 20, [101]) /\
    owner_at mc 101 = Some (Some 20) /\ waiters mc 101 = Some [15].
Proof.
  found detach_run left_behind. unfold left_behind in *. facts. exists mc. split_and!; assumption.
Qed.

(** 20 takes 101 twice and detaches itself; 15 then waits for it. *)
Definition nested_run : list action :=
  [Call (Sleep 1); Call (Sleep 1); Call (MutexTake 101 (-1) 2); Call (MutexTake 101 (-1) 2); Call (ThreadDetach 20);
   Timeout 15; GoOn; Call (MutexTake 101 (-1) 2)].

(** A thread that detaches itself releases each of its mutexes once: one that it has taken twice
    stays with the closed thread. *)
Theorem nested_mutex_kept :
  exists mc, demo_run nested_run = Ok mc /\ thread_at mc 20 = Some (RT_THREAD_CLOSE, 15, 20, [101]) /\
    owner_at mc 101 = Some (Some 20) /\ waiters mc 101 = Some [15].
Proof. found nested_run left_behind. unfold left_behind in *. facts. exists mc. split_and!; assumption. Qed.

(** 20 takes 101, of ceiling 3, and passes it to 15. *)
Definition ceiling_run : list action :=
  [Call (Sleep 1); Call (Sleep 1); Call (SetPrioCeiling 101 3); Call (MutexTake 101 (-1) 2); Call Yield; Call (Sleep 2);
   Timeout 15; GoOn; Call (MutexTake 101 (-1) 2); Timeout 20; GoOn; Call (MutexRelease 101)].

(** The thread that a mutex is passed to does not get its ceiling, which a thread that finds the
    mutex free does. *)
Theorem ceiling_not_passed_on :
  exists mc, demo_run ceiling_run = Ok mc /\ owner_at mc 101 = Some (Some 15) /\
    (ceiling_priority <$> mutexes (kern mc) !! 101) = Some 3 /\ thread_at mc 15 = Some (RT_THREAD_RUNNING, 15, 15, [101]).
Proof.
  found ceiling_run (fun mc => bool_decide (owner_at mc 101 = Some (Some 15)) &&
    bool_decide ((ceiling_priority <$> mutexes (kern mc) !! 101) = Some 3) &&
    bool_decide (thread_at mc 15 = Some (RT_THREAD_RUNNING, 15, 15, [101]))).
  facts. exists mc. split_and!; assumption.
Qed.

(** 5 deletes the mutex that 15 waits for. *)
Definition delete_run : list action :=
  [Call (Sleep 1); Call (Sleep 1); Call (MutexTake 101 (-1) 2); Timeout 15; GoOn; Call (MutexTake 101 (-1) 2); Timeout 5; GoOn;
   Call (MutexDelete 101); Call (Sleep 9); GoOn; GoOn].

(** Deleting a mutex that a thread waits for leaves that thread with a pointer to freed
    memory: it wakes up in [_rt_mutex_take], whose error path reads the mutex and updates its
    priority. *)
Theorem deleted_mutex_used : demo_run delete_run = Err NullDeref.
Proof. by vm_compute. Qed.

(** 15 releases nothing: it detaches the semaphore that 5 waits for. *)
Definition sem_detach_run : list action := [Call (SemTake 201 (-1) 2); Call (SemDetach 201)].

(** [rt_sem_detach] makes the waiting threads ready, but does not call the scheduler: the thread 15
    runs on although 5 is ready. *)
Theorem sem_detach_does_not_schedule :
  exists mc, demo_run sem_detach_run = Ok mc /\ rt_current_thread (kern mc) = 15 /\
    thread_at mc 5 = Some (RT_THREAD_READY, 5, 5, []).
Proof.
  found sem_detach_run (fun mc => (rt_current_thread (kern mc) =? 15) && bool_decide (thread_at mc 5 = Some (RT_THREAD_READY, 5, 5, []))).
  facts. exists mc. split_and!; first [assumption|apply Z.eqb_eq; assumption].
Qed.

(** A thread cannot sleep for half of the range of the ticks: the timer asserts. *)
Theorem sleep_too_long : demo_run [Call (Sleep 2147483647)] = Err AssertFail.
Proof. by vm_compute. Qed.
